(* ===== verification/_CoqProject ===== *)
-Q . S2P
Prelude.v
Regex.v
Numbers.v
Host.v
Validation.v
BasePath.v
Json.v
JsonRead.v
Idempotency.v
Dates.v
Types.v
Overview.v
Api.v
ApiCalls.v
Query.v
I18nPt.v
I18nEn.v
I18nEs.v
I18n.v
Admin.v
Reveal.v
Scale.v
Lint.v
Bundle.v
Shell.v
Ui.v
Sidebar.v
ShellView.v
Clients.v
ClientsCalls.v
ClientsSent.v
Async.v
TenantPage.v
TenantFacts.v
TenantProps.v
SettingsPage.v
DefinitionPage.v
DefinitionsPage.v
TenantsPage.v
IntegrationsPage.v
SessionsPage.v
AuditPage.v
HoldsDialog.v
UsagePage.v
Monitoring.v
DataTable.v
Catalog.v
Store.v
ProtoPages.v
Benchmark.v
ScaleReport.v
LintCli.v
RowActions.v
ClientsView.v
Fixtures.v
Jsx.v
UiKit.v
UiSidebar.v
ProtoKit.v
Parts.v
Chart.v
UiContract.v
ProtoWidgets.v
ProtoContract.v
ProtoDialogs.v
TableView.v
Router.v
