(* ===== verification/Prelude.v ===== *)
(** * Tenancit: a verification development of the administration front end

    Tenancit is a multi-tenant resource registry: a Go server with a REST API and, under
    [src/web], the administration front end in TypeScript, with its build and CI scripts in
    JavaScript, and a design prototype under [src/planning].  This library models the front end's own
    logic, the scripts' and the prototype's, and proves what they promise.  Every operation is a definition that computes, so each file checks its
    definitions on examples; a definition keeps the name its function has in the code.

    ** How the program is put together

    - The API client ([src/web/src/lib/api.ts]) keeps the session and the stored token, sends every
      request and tells the window when credentials change.  [Api] models the module state
      ([client]) and one request as a state machine ([inflight]): [req_start], the timer, the
      caller's abort, the response, its body; [Api.step] interleaves any number of requests with
      the credential operations.  [ApiCalls] has one constructor per method of [api] with the
      address and options it sends; [Types] the records that travel.
    - [BasePath] ([runtime-base-path.ts]) decides where requests go; [Host] states what the
      browser's URL and date parsers promise, with a concrete instance of each.
    - [Query] ([query-keys.ts], [query-options.ts], [query-invalidation.ts], [query-client.ts])
      holds the cache policy.  TanStack Query is third-party: the class [QueryCache] states the
      documented behaviour of the commands the program sends it, on the queries of the cache and on
      the results its mounted hooks hold; the theorems hold for every instance, and [map_cache] is one.
    - [Reveal] ([use-transient-resource-reveal.ts]) is the hook that shows a tenant's clear
      secrets: callbacks, effects and the continuation after the await as steps of one machine.
    - [Shell] ([components/app-shell.tsx]) is the authentication gate over [Api.client]: it runs
      the shell's listeners on the events the client dispatches.  [ShellView] is what its screens and
      menus show of that state, [Sidebar] ([components/ui/sidebar.tsx]) the provider of the panel
      with its closures and cookie.  [Admin] has the permissions and the navigation; [Router]
      ([router.tsx], [main.tsx], [routes/*/index.tsx]) the pages with their addresses, the root they
      share and what the entry starts, over the router library, with its defaults, as the class
      [RouterApi].
    - [Jsx] is the language of the markup: its values, objects with their spreads, and elements as data.
      Over it every component of the kit is the function it is in the code, from the object of its
      properties to the element it renders: [UiKit] and [UiSidebar] ([components/ui]), [ProtoKit]
      ([proto/components/ui]).  The libraries that join class names and that merge properties are
      classes with their documented laws.  [Parts] states the contract of a component ([part],
      [forwards]), [UiContract] and [ProtoContract] prove it of all that take a rest of properties.  [TableView] is the markup of
      the tables' controls and of the combobox over that kit, [Chart] ([components/ui/chart.tsx]) what a
      tooltip and a legend show.
    - [Clients] ([routes/api-clients/-components/page.tsx]) is the page that manages API clients:
      its handlers as lists of actions over the React state, the refs and the calls under way, on
      top of [ApiCalls], [Idempotency], [Validation], [I18n] and [Query]; [ClientsCalls] proves
      what holds of its calls and dialog, [ClientsSent] of the requests it sends; [ClientsView] is what
      its table and dialogs show.
    - The other pages are written over [Async], the effects of an [async] handler as a tree [io]:
      state updates, refs, toasts, and the awaits of a call, of the cache, of the router.  A page
      gives its state ([view], the React state with the data of its queries), the setters
      ([update]), the events its buttons, fields and dialogs can raise ([event], [handle], each
      event under the conditions the markup puts on it) and its [initial] states; [Async.machine]
      runs the handlers that wait, in any order of events and replies, a failing reply included.
      [spec] is the interface between a page and the kernel: what a page relies on, what each call
      must satisfy when it is made, what an event and a reply may do; [keeps_spec] is proved
      handler by handler with the rules of [wp], and [reachable_asks], [reachable_resumed] and
      [busy_ends] carry it to every reachable state.  The pages: [TenantPage] with [TenantFacts]
      and [TenantProps] ([routes/tenant-detail]), [SettingsPage], [DefinitionPage] and
      [DefinitionsPage] ([routes/definition-detail], [routes/definitions]), [TenantsPage],
      [IntegrationsPage], [SessionsPage], [AuditPage] with [HoldsDialog] ([routes/audit-events]).
      [UsagePage] and [Monitoring] ([routes/usage], [routes/index], [routes/operations-health])
      only read: their handlers are functions of the state.
    - [DataTable] ([hooks/use-data-table.ts] and the controls of [components/data-table]) is the
      state of the pages' tables and the preferences they keep in the local storage, from whatever
      the storage holds at first.  [RowActions]
      ([data-table.tsx], [definition-actions.tsx]) is how clicks and keys reach a row or a card from
      the menus inside it.
    - [Validation] ([validation.ts] and the small guards of the forms), [Idempotency]
      ([idempotency.ts]), [Overview] ([tenant-overview.ts], [overview-pulse.ts]), [I18n]
      ([i18n.tsx], its three tables in [I18nPt], [I18nEn], [I18nEs]) and [Ui] ([theme.tsx],
      [avatar.ts] and small helpers) are the pure parts.
    - [Scale] ([scale-gate.ts], [scripts/summarize-scale.mjs]) with its report in [ScaleReport], over
      the measurements of [Benchmark] ([scripts/benchmark-scale.mjs]); [Lint] with its command line
      in [LintCli] ([scripts/lint-colocated-routes.mjs]); [Bundle]
      ([scripts/check-bundle-budget.mjs]) and [Catalog] ([src/scripts/check-e2e-catalog.ts]) are the
      scripts that gate a build.  [Fixtures] ([web/e2e/fixtures/catalog.ts]) is what the end-to-end
      tests track and clean up; the status of a definition on the server is its class
      [DefinitionServer].
    - The prototype: [Store] ([proto/routes/store.js], [_data.js]) is its state as a value of the
      language, its operations and its copy in the storage, with records and operations on them as
      its specification; [ProtoPages] ([proto/routes], [proto/index.js]) the filters, forms, dialogs,
      search of icons and scenes over it; [ProtoWidgets] the components with state of their own (the
      calendar, the input of a code) or arithmetic (progress, the lines of a chart), [ProtoDialogs] what
      opens and dismisses its dialogs.

    Underneath, [Prelude] (this file) has strings, sorting, results and tactics; [Regex] a
    backtracking matcher with the semantics of the language's regular expressions, proved sound and
    complete for the relation [rstep]; [Numbers] doubles with their rounding; [Json] the printing
    of JSON values, proved injective; [JsonRead] the grammar of [JSON.parse], which reads what was
    printed back; [Dates] the UTC calendar.

    ** What the theorems show

    - Requests ([Api], [ApiCalls]): a request keeps its timer until it settles, settles once and
      rejects in time; a 401 ends the session it was sent under; every method reaches a local
      endpoint with exactly the session's or the token's authentication; the methods that take an
      idempotency key send exactly it, and which answers are kept out of the HTTP cache is stated call
      by call.
    - Secrets and credentials ([Reveal], [Query], [Shell]): clear secrets are shown for the tenant
      and the token they were fetched for and are erased for good by hiding, a change of either
      or leaving; neither cached data nor what a mounted hook holds survives a credential change;
      protected pages are rendered only
      under a live authentication, and a 401 closes them; what the console names and offers is of
      that authentication ([console_identity]).
    - The frame ([Sidebar]): the provider, its closures and its parent are two switches
      ([sidebar_refines]), two toggles of one batch excepted; the menu, the pages declared, the calls
      that lead to them and the shell's titles agree ([router_pages]), though not on addresses that are
      no page's ([unmatched_titled]) nor on those written in another way ([shell_reads_strictly]).
    - The kits ([UiContract], [ProtoContract]): a component hands what it does not take to one element,
      over its own properties, and its children to its body; the class asked for last wins in the one
      ([kit_contract]) and is worn in the other ([proto_contract]), both with their exceptions listed.
      The combobox marks the option that
      is chosen and no other, the pagination offers the moves that lead to another page, a click on an
      option of a facet turns its mark ([TableView]).
    - A page of forms ([ClientsCalls], [ClientsSent]): its busy flags go up and down with their one
      call, a generated token never outlives its dialog, the policies it submits are valid, and
      its rotations repeat an idempotency key exactly when they are retries; its creations never
      do, and an edit under an unchanged name is refused, both against the code's intent.
    - The pages ([TenantProps], [SettingsPage] to [HoldsDialog]): whatever the order of events and
      replies, a call is made only where the page may make it ([..._calls_valid]: of its own
      tenant or definition, by a permitted operator, with the contents of the dialog that asks,
      trimmed and valid; the exceptions, the edit of a tenant among them, are part of the
      statements); a failed call leaves its message at its form and changes nothing else
      ([..._failure_reported]); a busy flag is up exactly while its one call is under way and is
      lowered by any answer ([..._busy_ends]); clear secrets leave the page with every change and
      are masked otherwise; deletions and retried creations do what they promise.  Four theorems
      state what the code does against its intent: [settings_save_reverts],
      [definition_removal_listed], [audit_download], [holds_window_shifted].
    - Figures and tables ([UsagePage], [Monitoring], [DataTable]): a month survives its text and
      its chart adds up to its totals, and the tooltip over a day shows that day's figures in the
      colours its bars have ([usage_tooltip], [usage_colors]); a table has its declared types whatever its controls did, if the preferences it
      found had them ([datatable_typed], with the text that has not), and its preferences are read
      back; foreign texts in the storage do no harm.  A click on a control of
      a row stays there, an activation key does not unless the menu library stops it, nor does a click
      beside the items of one menu ([row_controls_isolated], against the code's intent), and neither does the permission keep the buttons of a client back
      ([client_actions_ungated]).
    - Addresses ([BasePath], [ApiCalls]): only local admin and auth endpoints are called, the
      login link keeps the page's origin, a field key cannot leave its path segment.
    - Input and text ([Validation], [I18n], [Idempotency], [Overview], [Ui]): validators accept
      exactly their grammars; the three languages have the same keys and placeholders and
      [translate] is the interpolation it should be; equal payloads and only those share a key.
    - Scripts ([Scale], [Lint], [Bundle], [Catalog]): when each gate opens or passes, as an
      equivalence with a declarative condition, graph reachability included; for the catalogue, what
      a repository that passes is: its flows, spec steps and README rows match one to one.  A
      benchmark ends whatever the server answers, with a hundred samples or an error; the files of two
      runs are always summarised, and the report shows every figure that opens the gate; the exit
      code of the linter says whether the modules are well placed; a test's cleanup undoes what it
      set aside.
    - The prototype ([Store], [ProtoPages]): the dynamic store does to its records what their
      operations say and survives a reload; the icons on show are those of the search at hand; one
      active resource per definition is kept by all but one of its actions.  The calendar's grid has
      each day under its day of the week ([calendar_grid]); a code being typed is made of digits and
      fits its boxes, and a digit typed too far on moves to the first empty box ([otp_typing]).
      A click beside the topmost dialog dismisses it alone, and never an alert ([modal_dismissal]).

    ** Conventions and bounds

    A string is the list of its UTF-16 code units ([jsstr]); an integer is a [Z] with its wrap
    written where the code has one, a number that may be fractional a [Numbers.num].  A function
    that throws returns [result] or [option].  A loop that is not structural takes fuel: the regular
    expressions' scan one more than the length of the text, the linter's search one more than the
    number of import edges, the bundle's traversal one more than the number of modules, the JSON reader
    one more than twice the length of the text, the benchmark's batches the number of samples; the
    theorems about them are stated of the functions with that fuel, so running out is excluded.  React batches the
    updates of one event: a step is one handler, effect or continuation, run to its end.  Code of
    the host (fetch, storage, timers, crypto, URL and date parsing, Unicode case mapping, collation)
    is an argument, a label or a class with its documented laws.

    In the markup a handler is its text with the values it captures, since what it does is an event of
    the machine of its page; a component of a library is a name, and a key, being the renderer's, is
    left out.

    The machines of the pages allow more than a browser does: an event behind an open dialog is
    possible, and the data of a query may arrive at any time, with any contents.  A page keeps its
    tenant, capabilities and language for its life, as its route mounts it anew for another.  The
    addresses a page navigates to are texts, which the router encodes.  An object read by a computed
    key has its own properties only, in the order they were written: keys inherited from its
    prototype and the order of integer-like keys are left out.

    ** What is not modelled

    The markup of the pages, its texts and styles beyond the conditions that show and enable controls
    (that of the kits is modelled); the tables of the library behind [DataTable], whose changes of
    state are its events; the style sheets; what the browser and the third-party libraries do with the
    elements; the tests with the steps they take in a browser, the server in Go and its generated bundle under
    [server/internal/spa/dist].  *)
From Stdlib Require Import ZArith Lia List Sorting.Sorted.
From Stdlib Require Import Strings.Byte.
From stdpp Require Import base list strings gmap.
#[global] Open Scope Z_scope.

(** ** Strings

    A JavaScript string is the list of its UTF-16 code units.  Literals between
    double quotes are read as UTF-8 and decoded to code units. *)

Abbreviation jsstr := (list Z).

Definition byte_unit (b : Byte.byte) : Z := Z.of_N (Byte.to_N b).

Definition unit_byte (x : Z) : Byte.byte :=
  match Byte.of_N (Z.to_N x) with Some b => b | None => Byte.x3f end.

Fixpoint utf16_of_utf8 (l : list Byte.byte) : jsstr :=
  match l with
  | [] => []
  | a :: l1 =>
    let x := byte_unit a in
    if x <? 128 then x :: utf16_of_utf8 l1 else
    match l1 with
    | [] => [x]
    | b :: l2 =>
      let y := byte_unit b - 128 in
      if x <? 224 then (x - 192) * 64 + y :: utf16_of_utf8 l2 else
      match l2 with
      | [] => [x; y]
      | c :: l3 =>
        let z := byte_unit c - 128 in
        if x <? 240 then ((x - 224) * 64 + y) * 64 + z :: utf16_of_utf8 l3 else
        match l3 with
        | [] => [x; y; z]
        | d :: l4 =>
          let p := (((x - 240) * 64 + y) * 64 + z) * 64 + (byte_unit d - 128) - 65536 in
          55296 + p / 1024 :: 56320 + p mod 1024 :: utf16_of_utf8 l4
        end
      end
    end
  end.

(** Printing direction, for code units of the basic plane. *)
Fixpoint utf8_of_utf16 (l : jsstr) : list Byte.byte :=
  match l with
  | [] => []
  | x :: l1 =>
    if x <? 128 then unit_byte x :: utf8_of_utf16 l1
    else if x <? 2048 then
      unit_byte (192 + x / 64) :: unit_byte (128 + x mod 64) :: utf8_of_utf16 l1
    else unit_byte (224 + x / 4096) :: unit_byte (128 + (x / 64) mod 64)
         :: unit_byte (128 + x mod 64) :: utf8_of_utf16 l1
  end.

Declare Scope js_scope.
Delimit Scope js_scope with js.
String Notation jsstr utf16_of_utf8 utf8_of_utf16 : js_scope.
#[global] Open Scope js_scope.

(** The double quote, which a literal cannot hold. *)
Definition dq : jsstr := [34].

(** ** Character classes *)

Definition is_digit (c : Z) : bool := (48 <=? c) && (c <=? 57).
Definition is_lower (c : Z) : bool := (97 <=? c) && (c <=? 122).
Definition is_upper (c : Z) : bool := (65 <=? c) && (c <=? 90).
Definition is_ascii (c : Z) : bool := (0 <=? c) && (c <? 128).
(** JavaScript's [\w]. *)
Definition is_word (c : Z) : bool := is_digit c || is_lower c || is_upper c || (c =? 95).
(** Line terminators, what [.] does not match and [^]/[$] see with the m flag. *)
Definition is_lt (c : Z) : bool := (c =? 10) || (c =? 13) || (c =? 8232) || (c =? 8233).
(** White space and line terminators: [\s] and what [trim] removes. *)
Definition is_ws (c : Z) : bool :=
  is_lt c || (c =? 9) || (c =? 11) || (c =? 12) || (c =? 32) || (c =? 160) || (c =? 5760)
  || ((8192 <=? c) && (c <=? 8202)) || (c =? 8239) || (c =? 8287) || (c =? 12288)
  || (c =? 65279).

(** ** String operations of the language *)

Definition str_eqb (a b : jsstr) : bool := bool_decide (a = b).

Fixpoint startsWith (p s : jsstr) : bool :=
  match p, s with
  | [], _ => true
  | c :: p', d :: s' => (c =? d) && startsWith p' s'
  | _ :: _, [] => false
  end.

Definition endsWith (p s : jsstr) : bool := startsWith (reverse p) (reverse s).

Fixpoint includes (p s : jsstr) : bool :=
  startsWith p s || match s with [] => false | _ :: s' => includes p s' end.

(** [s.split(sep)] for a separator of one code unit, or a class of them. *)
Fixpoint split_on (p : Z → bool) (s : jsstr) : list jsstr :=
  match s with
  | [] => [[]]
  | c :: s' =>
    if p c then [] :: split_on p s'
    else match split_on p s' with
         | [] => [[c]]
         | w :: ws => (c :: w) :: ws
         end
  end.

Definition split (sep : Z) : jsstr → list jsstr := split_on (Z.eqb sep).

Fixpoint join (sep : jsstr) (l : list jsstr) : jsstr :=
  match l with
  | [] => []
  | [w] => w
  | w :: l' => w ++ sep ++ join sep l'
  end.

Fixpoint trim_start (s : jsstr) : jsstr :=
  match s with
  | c :: s' => if is_ws c then trim_start s' else s
  | [] => []
  end.

Definition trim_end (s : jsstr) : jsstr := reverse (trim_start (reverse s)).
Definition trim (s : jsstr) : jsstr := trim_end (trim_start s).

(** The longest prefix of a class, and the rest. *)
Fixpoint span (p : Z → bool) (s : jsstr) : jsstr * jsstr :=
  match s with
  | c :: s' => if p c then let '(a, b) := span p s' in (c :: a, b) else ([], s)
  | [] => ([], [])
  end.

(** [s.slice(-n)]. *)
Definition slice_last (n : nat) (s : jsstr) : jsstr := drop (length s - n) s.

(** JavaScript's falsy strings: only the empty one. *)
Definition truthy (s : jsstr) : bool := match s with [] => false | _ => true end.

(** [a || b] on strings. *)
Definition str_or (a b : jsstr) : jsstr := if truthy a then a else b.

Definition ascii_lower (c : Z) : Z := if is_upper c then c + 32 else c.
Definition ascii_upper (c : Z) : Z := if is_lower c then c - 32 else c.

(** Case mapping is Unicode's and depends on the table the host ships.  What the
    program relies on: on a string of ASCII code units it is the ASCII mapping. *)
Class CaseMap := {
  toLowerCase : jsstr → jsstr;
  toUpperCase : jsstr → jsstr;
  toLowerCase_ascii s : forallb is_ascii s = true → toLowerCase s = map ascii_lower s;
  toUpperCase_ascii s : forallb is_ascii s = true → toUpperCase s = map ascii_upper s;
}.

(** The mapping of a host that knows ASCII only: the instance witnesses use. *)
#[export] Instance ascii_case_map : CaseMap :=
  Build_CaseMap (map ascii_lower) (map ascii_upper)
    (λ s _, eq_refl) (λ s _, eq_refl).

(** Decimal rendering of an integer, [String(n)]. *)
Fixpoint digits_aux (fuel : nat) (n : Z) (acc : jsstr) : jsstr :=
  match fuel with
  | O => acc
  | S f => let acc' := 48 + n mod 10 :: acc in
           if n <? 10 then acc' else digits_aux f (n / 10) acc'
  end.

Definition digits (n : Z) : jsstr := digits_aux (S (Z.to_nat (Z.log2 n))) n [].

Definition show_int (n : Z) : jsstr := if n <? 0 then 45 :: digits (- n) else digits n.

(** Value of a string of decimal digits. *)
Definition digits_value (s : jsstr) : Z := fold_left (λ acc c, acc * 10 + (c - 48)) s 0.

(** ** Stable sorting: [Array.prototype.sort] with a comparator *)

Section sorting.
Context {A : Type} (cmp : A → A → Z).

Fixpoint js_insert (x : A) (l : list A) : list A :=
  match l with
  | [] => [x]
  | y :: l' => if 0 <? cmp x y then y :: js_insert x l' else x :: l
  end.

Definition js_sort (l : list A) : list A := foldr js_insert [] l.
End sorting.

(** Lexicographic order on code units: the order of [sort()] without comparator. *)
Fixpoint str_cmp (a b : jsstr) : Z :=
  match a, b with
  | [], [] => 0
  | [], _ :: _ => -1
  | _ :: _, [] => 1
  | c :: a', d :: b' => if c <? d then -1 else if d <? c then 1 else str_cmp a' b'
  end.

(** ** Tactics and hints *)

Create HintDb js.
Create Rewrite HintDb js.

(** Turn boolean hypotheses and goals into propositions. *)
Ltac bool_to_prop :=
  repeat match goal with
  | H : _ && _ = true |- _ => apply andb_true_iff in H as [? ?]
  | H : _ || _ = false |- _ => apply orb_false_iff in H as [? ?]
  | H : negb _ = true |- _ => apply negb_true_iff in H
  | H : negb _ = false |- _ => apply negb_false_iff in H
  | H : (_ <=? _) = true |- _ => apply Z.leb_le in H
  | H : (_ <=? _) = false |- _ => apply Z.leb_gt in H
  | H : (_ <? _) = true |- _ => apply Z.ltb_lt in H
  | H : (_ <? _) = false |- _ => apply Z.ltb_ge in H
  | H : (_ =? _) = true |- _ => apply Z.eqb_eq in H
  | H : (_ =? _) = false |- _ => apply Z.eqb_neq in H
  | H : bool_decide _ = true |- _ => apply bool_decide_eq_true in H
  | H : bool_decide _ = false |- _ => apply bool_decide_eq_false in H
  end.

(** Case analysis on the condition of an [if] or the scrutinee of a [match]. *)
Ltac case_cond :=
  match goal with
  | |- context [if ?b then _ else _] => destruct b eqn:?
  | H : context [if ?b then _ else _] |- _ => destruct b eqn:?
  end.

(** ** Lemmas on strings *)

Lemma str_eqb_eq a b : str_eqb a b = true ↔ a = b.
Proof. apply bool_decide_eq_true. Qed.

Lemma str_eqb_refl a : str_eqb a a = true.
Proof. by apply str_eqb_eq. Qed.

Lemma str_eqb_neq a b : str_eqb a b = false ↔ a ≠ b.
Proof. apply bool_decide_eq_false. Qed.

#[export] Hint Rewrite str_eqb_refl : js.

Lemma span_all p a b :
  Forall (λ c, p c = true) a → (∀ c t, b = c :: t → p c = false) → span p (a ++ b) = (a, b).
Proof.
  intros Ha Hb. induction Ha as [|c a Hc _ IH]; simpl; [|by rewrite Hc, IH].
  destruct b as [|c t]; simpl; [done|]. by rewrite (Hb c t).
Qed.

Lemma span_parts p s : Forall (λ c, p c = true) (span p s).1.
Proof.
  induction s as [|c s IH]; simpl; [done|]. destruct (p c) eqn:E; [|done].
  destruct (span p s). simpl in *. auto.
Qed.

Lemma span_app p s : s = (span p s).1 ++ (span p s).2.
Proof.
  induction s as [|c s IH]; simpl; [done|]. destruct (p c); [|done].
  destruct (span p s). simpl in *. by f_equal.
Qed.

Lemma span_rest p s c t : (span p s).2 = c :: t → p c = false.
Proof.
  induction s as [|d s IH]; simpl; [done|]. destruct (p d) eqn:E; [|naive_solver].
  destruct (span p s). simpl in *. auto.
Qed.

Lemma startsWith_spec p s : startsWith p s = true ↔ ∃ t, s = p ++ t.
Proof.
  revert s; induction p as [|c p IH]; intros s; simpl; [naive_solver|].
  destruct s as [|d s]; [naive_solver|].
  rewrite andb_true_iff, Z.eqb_eq, IH. naive_solver.
Qed.

Lemma startsWith_app p s : startsWith p (p ++ s) = true.
Proof. apply startsWith_spec; eauto. Qed.
#[export] Hint Rewrite startsWith_app : js.

Lemma endsWith_spec p s : endsWith p s = true ↔ ∃ t, s = t ++ p.
Proof.
  unfold endsWith. rewrite startsWith_spec. split; intros [t Ht].
  - exists (reverse t). apply (f_equal reverse) in Ht.
    by rewrite reverse_app, !reverse_involutive in Ht.
  - exists (reverse t). by rewrite Ht, reverse_app.
Qed.

Lemma includes_spec p s : includes p s = true ↔ ∃ a b, s = a ++ p ++ b.
Proof.
  induction s as [|c s IH]; simpl; rewrite orb_true_iff, startsWith_spec.
  - split.
    + intros [[t Ht]|]; [|done]. by exists [], t.
    + intros (a & b & H). destruct a; [|done]. left; eauto.
  - rewrite IH. split.
    + intros [[t Ht]|(a & b & ->)]; [by exists [], t|by exists (c :: a), b].
    + intros ([|x a] & b & H); simpl in H; simplify_eq; [left|right]; eauto.
Qed.

Lemma includes_char c s : includes [c] s = true ↔ c ∈ s.
Proof.
  rewrite includes_spec. split.
  - intros (a & b & ->). set_solver.
  - intros (a & b & ->)%list_elem_of_split. eauto.
Qed.

Lemma truthy_spec s : truthy s = true ↔ s ≠ [].
Proof. by destruct s. Qed.

Lemma split_on_nonnil p s : split_on p s ≠ [].
Proof. destruct s as [|c s]; simpl; [done|]. case_match; [done|]. by case_match. Qed.

Lemma split_on_none p s : Forall (λ c, p c = false) s → split_on p s = [s].
Proof. induction 1 as [|c s Hc _ IH]; simpl; [done|]. by rewrite Hc, IH. Qed.

Lemma split_on_app p a c b :
  Forall (λ c, p c = false) a → p c = true →
  split_on p (a ++ c :: b) = a :: split_on p b.
Proof.
  intros Ha Hc. induction Ha as [|x a Hx _ IH]; simpl; [by rewrite Hc|].
  by rewrite Hx, IH.
Qed.

Lemma split_on_parts p s : Forall (Forall (λ c, p c = false)) (split_on p s).
Proof.
  induction s as [|c s IH]; simpl; [by repeat constructor|].
  destruct (p c) eqn:Hc; [by constructor|].
  destruct (split_on p s) as [|w ws]; inversion IH; subst; by repeat constructor.
Qed.

Lemma join_cons2 sep w v l : join sep (w :: v :: l) = w ++ sep ++ join sep (v :: l).
Proof. done. Qed.

(** [s.split(sep).join(sep)] is [s]. *)
Lemma join_split sep s : join [sep] (split sep s) = s.
Proof.
  unfold split. induction s as [|c s IH]; simpl; [done|].
  destruct (sep =? c) eqn:E.
  - apply Z.eqb_eq in E as ->. pose proof (split_on_nonnil (Z.eqb c) s).
    destruct (split_on (Z.eqb c) s) as [|w ws]; [done|].
    rewrite join_cons2, IH. done.
  - destruct (split_on (Z.eqb sep) s) as [|w ws]; simpl in *.
    + by rewrite <- IH.
    + destruct ws; simpl in *; by rewrite <- IH.
Qed.

(** [l.join(sep).split(sep)] is [l] when no part holds the separator. *)
Lemma split_join sep l :
  l ≠ [] → Forall (λ w, sep ∉ w) l → split sep (join [sep] l) = l.
Proof.
  unfold split. intros Hne Hl.
  assert (Hc : ∀ w, sep ∉ w → Forall (λ c, (sep =? c) = false) w).
  { intros w Hw. apply Forall_forall. intros c Hc. apply Z.eqb_neq. by intros ->. }
  induction Hl as [|w l Hw Hl IH]; [done|]. destruct l as [|v l].
  - by apply split_on_none, Hc.
  - rewrite join_cons2. cbn [app]. rewrite split_on_app; [|by apply Hc|by apply Z.eqb_refl].
    by rewrite IH.
Qed.

Lemma split_parts sep s : Forall (λ w, sep ∉ w) (split sep s).
Proof.
  eapply Forall_impl; [apply split_on_parts|]. intros w Hw Hin.
  rewrite Forall_forall in Hw. apply Hw in Hin. by rewrite Z.eqb_refl in Hin.
Qed.

Lemma elem_of_join c sep l : c ∈ join sep l → c ∈ sep ∨ ∃ w, w ∈ l ∧ c ∈ w.
Proof.
  induction l as [|w [|v l] IH]; intros H; [by apply elem_of_nil in H| |].
  - right. exists w. set_solver.
  - rewrite join_cons2 in H. rewrite !elem_of_app in H.
    destruct H as [?|[?|H]]; [right; exists w; set_solver|by left|].
    apply IH in H as [?|(u & ? & ?)]; [by left|right; exists u; set_solver].
Qed.

Lemma join_elem_of c sep l w : w ∈ l → c ∈ w → c ∈ join sep l.
Proof.
  intros (a & b & ->)%list_elem_of_split Hc. induction a as [|u a IH]; simpl.
  - destruct b; set_solver.
  - destruct (a ++ w :: b) eqn:E; [by destruct a|]. set_solver.
Qed.

(** *** trim *)

Lemma trim_start_suffix s : ∃ w, s = w ++ trim_start s ∧ Forall (λ c, is_ws c = true) w.
Proof.
  induction s as [|c s (w & Hw & Hf)]; simpl; [by exists []|].
  destruct (is_ws c) eqn:E; [|by exists []].
  exists (c :: w). simpl. rewrite <- Hw. auto.
Qed.

Lemma trim_start_head s c t : trim_start s = c :: t → is_ws c = false.
Proof.
  induction s as [|d s IH]; simpl; [done|]. destruct (is_ws d) eqn:E; naive_solver.
Qed.

Lemma trim_start_id s : (∀ c t, s = c :: t → is_ws c = false) → trim_start s = s.
Proof. destruct s as [|c s]; intros H; simpl; [done|]. by rewrite (H c s). Qed.

(** A string whose first and last code units are not white space. *)
Definition trimmed (s : jsstr) : Prop :=
  (∀ c t, s = c :: t → is_ws c = false) ∧ (∀ c t, s = t ++ [c] → is_ws c = false).

Lemma trim_trimmed_id s : trimmed s → trim s = s.
Proof.
  intros [H1 H2]. unfold trim, trim_end. rewrite (trim_start_id s H1).
  rewrite trim_start_id; [apply reverse_involutive|].
  intros c t Hr. apply (H2 c (reverse t)).
  apply (f_equal reverse) in Hr. by rewrite reverse_involutive, reverse_cons in Hr.
Qed.

Lemma trim_end_prefix s : ∃ w, s = trim_end s ++ w.
Proof.
  unfold trim_end. destruct (trim_start_suffix (reverse s)) as (w & Hw & _).
  exists (reverse w). apply (f_equal reverse) in Hw.
  by rewrite reverse_involutive, reverse_app in Hw.
Qed.

Lemma trimmed_trim s : trimmed (trim s).
Proof.
  unfold trim. split; intros c u Hu.
  - destruct (trim_end_prefix (trim_start s)) as [w Hw]. rewrite Hu in Hw.
    by eapply trim_start_head.
  - apply (f_equal reverse) in Hu. unfold trim_end in Hu.
    rewrite reverse_involutive, reverse_snoc in Hu. by eapply trim_start_head.
Qed.

Lemma trim_idem s : trim (trim s) = trim s.
Proof. apply trim_trimmed_id, trimmed_trim. Qed.
#[export] Hint Rewrite trim_idem : js.
#[export] Hint Resolve trimmed_trim trim_trimmed_id : js.

(** A string with no white space at all is not changed by [trim]. *)
Lemma no_ws_trimmed s : Forall (λ c, is_ws c = false) s → trimmed s.
Proof.
  intros H. split; intros c t ->.
  - by inversion H.
  - apply Forall_app in H as [_ H]. by inversion H.
Qed.
#[export] Hint Resolve no_ws_trimmed : js.

(** ** Lemmas on sorting *)

Section sorting_lemmas.
Context {A : Type} (cmp : A → A → Z).

Lemma js_insert_perm x l : Permutation (js_insert cmp x l) (x :: l).
Proof.
  induction l as [|y l IH]; simpl; [done|]. case_match; [|done].
  rewrite IH. apply Permutation_swap.
Qed.

Lemma js_sort_perm l : Permutation (js_sort cmp l) l.
Proof. induction l as [|x l IH]; simpl; [done|]. by rewrite js_insert_perm, IH. Qed.

Lemma length_js_sort l : length (js_sort cmp l) = length l.
Proof. apply Permutation_length, js_sort_perm. Qed.

Lemma elem_of_js_sort x l : x ∈ js_sort cmp l ↔ x ∈ l.
Proof. by rewrite js_sort_perm. Qed.

Hypothesis cmp_total : ∀ a b, 0 < cmp a b → cmp b a <= 0.
Hypothesis cmp_trans : ∀ a b c, cmp a b <= 0 → cmp b c <= 0 → cmp a c <= 0.

Lemma js_insert_sorted x l :
  StronglySorted (λ a b, cmp a b <= 0) l →
  StronglySorted (λ a b, cmp a b <= 0) (js_insert cmp x l).
Proof using cmp_total cmp_trans.
  induction 1 as [|y l Hl IH Hy]; simpl; [by repeat constructor|].
  destruct (0 <? cmp x y) eqn:E; bool_to_prop.
  - constructor; [done|]. rewrite js_insert_perm. by constructor; [apply cmp_total|].
  - constructor; [by constructor|]. constructor; [done|].
    eapply Forall_impl; [exact Hy|]. intros z Hz. by eapply cmp_trans.
Qed.

Lemma js_sort_sorted l : StronglySorted (λ a b, cmp a b <= 0) (js_sort cmp l).
Proof using cmp_total cmp_trans.
  induction l; simpl; [constructor|by apply js_insert_sorted].
Qed.
End sorting_lemmas.

(** ** Lemmas on code units *)

Lemma is_word_ascii c : is_word c = true → is_ascii c = true.
Proof. unfold is_word, is_digit, is_lower, is_upper, is_ascii. lia. Qed.

Lemma is_ws_spec c :
  is_ws c = true ↔
  c = 9 ∨ c = 10 ∨ c = 11 ∨ c = 12 ∨ c = 13 ∨ c = 32 ∨ c = 160 ∨ c = 5760
  ∨ 8192 <= c <= 8202 ∨ c = 8232 ∨ c = 8233 ∨ c = 8239 ∨ c = 8287 ∨ c = 12288 ∨ c = 65279.
Proof. unfold is_ws, is_lt. lia. Qed.

(** Printable ASCII is never white space. *)
Lemma is_ws_graph c : 33 <= c <= 126 → is_ws c = false.
Proof. unfold is_ws, is_lt. lia. Qed.
#[export] Hint Resolve is_ws_graph : js.

(** ** Lemmas on decimal rendering *)

Lemma digits_value_app a b :
  digits_value (a ++ b) = fold_left (λ acc c, acc * 10 + (c - 48)) b (digits_value a).
Proof. unfold digits_value. by rewrite fold_left_app. Qed.

Lemma digits_value_snoc a c : digits_value (a ++ [c]) = digits_value a * 10 + (c - 48).
Proof. by rewrite digits_value_app. Qed.

(** [digits_aux] puts the digits of [n] before its accumulator. *)
Lemma digits_aux_spec fuel n acc :
  0 <= n < 10 ^ Z.of_nat fuel →
  ∃ ds, digits_aux fuel n acc = ds ++ acc ∧ digits_value ds = n
        ∧ Forall (λ c, is_digit c = true) ds.
Proof.
  revert n acc. induction fuel as [|f IH]; intros n acc Hn.
  - exists []. change (10 ^ Z.of_nat 0) with 1 in Hn. repeat split; try done. unfold digits_value; simpl. lia.
  - rewrite Nat2Z.inj_succ, Z.pow_succ_r in Hn by lia. cbn [digits_aux].
    assert (Hd : is_digit (48 + n mod 10) = true).
    { unfold is_digit. pose proof (Z.mod_pos_bound n 10). lia. }
    destruct (n <? 10) eqn:E; bool_to_prop.
    + exists [48 + n mod 10]. rewrite Z.mod_small in * by lia.
      repeat split; [|by constructor]. unfold digits_value; simpl. lia.
    + destruct (IH (n / 10) (48 + n mod 10 :: acc)) as (ds & -> & Hv & Hf).
      { split; [apply Z.div_pos; lia|apply Z.div_lt_upper_bound; lia]. }
      exists (ds ++ [48 + n mod 10]). rewrite <- app_assoc. repeat split; [|by apply Forall_app; auto].
      rewrite digits_value_snoc, Hv.
      pose proof (Z.div_mod n 10). lia.
Qed.

Lemma digits_fuel n : 0 <= n → n < 10 ^ Z.of_nat (S (Z.to_nat (Z.log2 n))).
Proof.
  intros Hn. pose proof (Z.log2_nonneg n).
  rewrite Nat2Z.inj_succ, Z2Nat.id by done.
  destruct (Z.eq_dec n 0) as [->|]; [done|].
  apply Z.lt_le_trans with (2 ^ Z.succ (Z.log2 n)); [by apply Z.log2_spec; lia|].
  apply Z.pow_le_mono_l; lia.
Qed.

Lemma digits_spec n :
  0 <= n → digits_value (digits n) = n ∧ Forall (λ c, is_digit c = true) (digits n).
Proof.
  intros Hn. destruct (digits_aux_spec (S (Z.to_nat (Z.log2 n))) n []) as (ds & E & ?).
  { split; [done|by apply digits_fuel]. }
  unfold digits. by rewrite E, app_nil_r.
Qed.

Lemma digits_inj a b : 0 <= a → 0 <= b → digits a = digits b → a = b.
Proof.
  intros Ha Hb H. rewrite <- (proj1 (digits_spec a Ha)), <- (proj1 (digits_spec b Hb)).
  by rewrite H.
Qed.

Lemma digits_nonnil n : 0 <= n → digits n ≠ [].
Proof.
  intros Hn. unfold digits. cbn [digits_aux]. case_match; [done|].
  destruct (digits_aux_spec (Z.to_nat (Z.log2 n)) (n / 10) [48 + n mod 10])
    as (ds & -> & _); [|by destruct ds].
  pose proof (digits_fuel n Hn) as Hf. rewrite Nat2Z.inj_succ, Z.pow_succ_r in Hf by lia.
  split; [apply Z.div_pos; lia|apply Z.div_lt_upper_bound; lia].
Qed.

Lemma show_int_inj a b : show_int a = show_int b → a = b.
Proof.
  assert (Hm : ∀ n t, 0 <= n → digits n ≠ 45 :: t).
  { intros n t Hn H. destruct (digits_spec n Hn) as [_ Hf]. rewrite H in Hf.
    by inversion Hf. }
  unfold show_int. do 2 case_cond; bool_to_prop; intros H; simplify_eq.
  - apply digits_inj in H; lia.
  - symmetry in H. by apply Hm in H.
  - by apply Hm in H.
  - by apply digits_inj in H.
Qed.

(** ** Fallible code: a value or the error thrown *)

Inductive result (E A : Type) : Type :=
  | Ok (a : A)
  | Err (e : E).
Arguments Ok {E A} a.
Arguments Err {E A} e.

Definition result_bind {E A B} (m : result E A) (k : A → result E B) : result E B :=
  match m with Ok a => k a | Err e => Err e end.

Definition is_ok {E A} (m : result E A) : bool := match m with Ok _ => true | Err _ => false end.

Notation "x <-? m ;; k" := (result_bind m (λ x, k))
  (at level 100, m at next level, right associativity) : js_scope.

Lemma result_bind_ok {E A B} (m : result E A) (k : A → result E B) b :
  result_bind m k = Ok b ↔ ∃ a, m = Ok a ∧ k a = Ok b.
Proof. destruct m; simpl; naive_solver. Qed.

(** ** Lemmas on related lists *)

Lemma Forall2_elem_l {A B} (P : A → B → Prop) l k x :
  Forall2 P l k → x ∈ l → ∃ y, y ∈ k ∧ P x y.
Proof.
  induction 1 as [|a b l k Hab _ IH]; intros Hx; [by apply elem_of_nil in Hx|].
  apply elem_of_cons in Hx as [->|Hx]; [exists b; by split; [left|]|].
  destruct (IH Hx) as (y & Hy & ?). exists y. by split; [right|].
Qed.

Lemma Forall2_elem_r {A B} (P : A → B → Prop) l k y :
  Forall2 P l k → y ∈ k → ∃ x, x ∈ l ∧ P x y.
Proof.
  intros H Hy. apply Forall2_flip in H. destruct (Forall2_elem_l _ _ _ _ H Hy) as (x & ? & ?). eauto.
Qed.

Lemma omap_nil {A B} (f : A → option B) l : omap f l = [] ↔ ∀ x, x ∈ l → f x = None.
Proof.
  induction l as [|a l IH]; cbn; [split; [intros _ x Hx; by apply elem_of_nil in Hx|done]|].
  destruct (f a) eqn:E.
  - split; [done|]. intros H. by rewrite (H a ltac:(left)) in E.
  - rewrite IH. split; [intros H x [->|Hx]%elem_of_cons; auto|]. intros H x Hx. apply H. by right.
Qed.

(** ** One call at a time *)

(** The flag is up exactly while one call of the kind is under way, and there is at most one. *)
Definition slot {A} (P : A → bool) (flag : bool) (m : gmap nat A) : Prop :=
  if flag then ∃ id, ∀ id', (∃ a, m !! id' = Some a ∧ P a = true) ↔ id' = id
  else ∀ id a, m !! id = Some a → P a = false.

Section slots.
Context {A : Type} (P : A → bool) (m : gmap nat A).

Lemma slot_open id a : slot P false m → P a = true → slot P true (<[id := a]> m).
Proof.
  intros H Ha. exists id. intros id'. destruct (decide (id' = id)) as [->|Hne].
  - rewrite lookup_insert_eq. split; [done|eauto].
  - rewrite lookup_insert_ne by done. split; [|done]. intros (b & Hb & E). by rewrite (H _ _ Hb) in E.
Qed.

Lemma slot_insert f id a :
  slot P f m → P a = false → (∀ b, m !! id = Some b → P b = false) → slot P f (<[id := a]> m).
Proof.
  intros H Ha Hb. destruct f; simpl in *.
  - destruct H as [i H]. exists i. intros id'. rewrite <- H. destruct (decide (id' = id)) as [->|Hne].
    + rewrite lookup_insert_eq. split; intros (b & E & Eb); [congruence|]. by rewrite (Hb _ E) in Eb.
    + by rewrite lookup_insert_ne.
  - intros id' b. destruct (decide (id' = id)) as [->|Hne].
    + rewrite lookup_insert_eq. congruence.
    + rewrite lookup_insert_ne by done. apply H.
Qed.

Lemma slot_next f id a b :
  slot P f m → m !! id = Some b → P b = true → P a = true → slot P f (<[id := a]> m).
Proof.
  intros H E Eb Ha. destruct f; simpl in *; [|by rewrite (H _ _ E) in Eb].
  destruct H as [i H]. exists i. intros id'. rewrite <- H. destruct (decide (id' = id)) as [->|Hne].
  - rewrite lookup_insert_eq. split; intros _; eauto.
  - by rewrite lookup_insert_ne.
Qed.

Lemma slot_close f id b : slot P f m → m !! id = Some b → P b = true → slot P false (delete id m).
Proof.
  intros H E Eb id' a Ha. apply lookup_delete_Some in Ha as [Hne Ha].
  destruct (P a) eqn:Ea; [|done]. destruct f; simpl in H.
  - destruct H as [i H]. assert (id = i) by (apply H; eauto). assert (id' = i) by (apply H; eauto). congruence.
  - by rewrite (H _ _ E) in Eb.
Qed.

Lemma slot_delete f id b : slot P f m → m !! id = Some b → P b = false → slot P f (delete id m).
Proof.
  intros H E Eb. destruct f; simpl in *.
  - destruct H as [i H]. exists i. intros id'. rewrite <- H. setoid_rewrite lookup_delete_Some.
    split; [intros (a & [? ?] & ?); eauto|]. intros (a & Ea & Pa). exists a. split_and!; [|done..]. intros <-. congruence.
  - intros id' a [_ Ha]%lookup_delete_Some. eauto.
Qed.

Lemma slot_flag f id a : slot P f m → m !! id = Some a → P a = true → f = true.
Proof. intros H E Ea. destruct f; [done|]. by rewrite (H _ _ E) in Ea. Qed.
Lemma slot_unique f i j a b :
  slot P f m → m !! i = Some a → m !! j = Some b → P a = true → P b = true → i = j.
Proof.
  intros Hs Ea Eb Pa Pb. destruct f; [|by rewrite (Hs _ _ Ea) in Pa].
  destruct Hs as [k Hs]. transitivity k; [|symmetry]; apply Hs; eauto.
Qed.
End slots.
