(* ===== verification/Regex.v ===== *)
(** * Regular expressions of the language

    The program leans on regular expression literals (validators, import
    scanning, catalogue parsing, message interpolation).  A pattern is data
    ([re]); [rmatch] is the backtracking matcher of the language, with
    continuations, greedy and lazy stars and capture groups; [rstep] is the
    declarative relation it implements ([rmatch_sound], [rmatch_complete]).  For
    patterns without captures or anchors [lang] is the set of strings they match,
    and [test_anchored] reads a test against [^...$] as membership in it. *)
From Stdlib Require Import ZArith Lia List.
From stdpp Require Import base list sets.
From S2P Require Import Prelude.

Definition cset : Type := Z → bool.

Inductive re :=
  | REmpty
  | RChar (p : cset)
  | RSeq (a b : re)
  | RAlt (a b : re)
  | RStar (greedy : bool) (a : re)
  | RGroup (n : nat) (a : re)
  | RBol (multiline : bool)
  | REol (multiline : bool)
  | RWordB.

(** *** Pattern notations: a literal string, [a+], [a?], [a{0,n}] *)

Fixpoint RStr (s : jsstr) : re :=
  match s with
  | [] => REmpty
  | [c] => RChar (Z.eqb c)
  | c :: s' => RSeq (RChar (Z.eqb c)) (RStr s')
  end.

Definition RPlus (a : re) : re := RSeq a (RStar true a).
Definition ROpt (a : re) : re := RAlt a REmpty.

Fixpoint RUpTo (n : nat) (a : re) : re :=
  match n with
  | O => REmpty
  | S n' => RAlt (RSeq a (RUpTo n' a)) REmpty
  end.

Fixpoint RSeqs (l : list re) : re :=
  match l with
  | [] => REmpty
  | [a] => a
  | a :: l' => RSeq a (RSeqs l')
  end.

Fixpoint RAlts (a : re) (l : list re) : re :=
  match l with
  | [] => a
  | b :: l' => RAlt a (RAlts b l')
  end.

(** A class given by its members, and its complement. *)
Definition one_of (s : jsstr) : cset := λ c, bool_decide (c ∈ s).
Definition none_of (s : jsstr) : cset := λ c, negb (one_of s c).
Definition any_char : cset := λ _, true.
Definition dot : cset := λ c, negb (is_lt c).

(** ** Matching *)

(** A position in the input: the code unit before it, the rest, the captures. *)
Record mst := Mst { m_prev : option Z; m_rest : jsstr; m_caps : list (nat * jsstr) }.

Definition advance (x : mst) (c : Z) (s : jsstr) : mst := Mst (Some c) s (m_caps x).

Fixpoint groups (r : re) : list nat :=
  match r with
  | RSeq a b | RAlt a b => groups a ++ groups b
  | RStar _ a => groups a
  | RGroup n a => n :: groups a
  | _ => []
  end.

(** Captures inside a quantified atom are reset at each iteration. *)
Definition reset (gs : list nat) (x : mst) : mst :=
  Mst (m_prev x) (m_rest x) (List.filter (λ p, negb (bool_decide (p.1 ∈ gs))) (m_caps x)).

Definition capture (n : nat) (x y : mst) : mst :=
  Mst (m_prev y) (m_rest y)
      ((n, take (length (m_rest x) - length (m_rest y)) (m_rest x))
       :: List.filter (λ p, negb (bool_decide (p.1 = n))) (m_caps y)).

Definition at_bol (ml : bool) (x : mst) : bool :=
  match m_prev x with None => true | Some c => ml && is_lt c end.
Definition at_eol (ml : bool) (x : mst) : bool :=
  match m_rest x with [] => true | c :: _ => ml && is_lt c end.
Definition word_opt (o : option Z) : bool := match o with Some c => is_word c | None => false end.
Definition at_wordb (x : mst) : bool :=
  xorb (word_opt (m_prev x)) (word_opt (head (m_rest x))).

(** The iteration of a star, [n] bounding the iterations left.  An iteration that
    consumes nothing fails, so the length of the rest is bound enough. *)
Fixpoint star_loop (body : mst → (mst → option mst) → option mst) (gs : list nat)
    (greedy : bool) (k : mst → option mst) (n : nat) (x : mst) : option mst :=
  match n with
  | O => k x
  | S n' =>
    let iter := body (reset gs x)
                  (λ y, if (length (m_rest y) <? length (m_rest x))%nat
                        then star_loop body gs greedy k n' y else None) in
    if greedy then match iter with Some z => Some z | None => k x end
    else match k x with Some z => Some z | None => iter end
  end.

Fixpoint rmatch (r : re) (x : mst) (k : mst → option mst) {struct r} : option mst :=
  match r with
  | REmpty => k x
  | RChar p =>
    match m_rest x with
    | c :: s => if p c then k (advance x c s) else None
    | [] => None
    end
  | RSeq a b => rmatch a x (λ y, rmatch b y k)
  | RAlt a b => match rmatch a x k with Some z => Some z | None => rmatch b x k end
  | RStar greedy a =>
    star_loop (rmatch a) (groups a) greedy k (length (m_rest x)) x
  | RGroup n a => rmatch a x (λ y, k (capture n x y))
  | RBol ml => if at_bol ml x then k x else None
  | REol ml => if at_eol ml x then k x else None
  | RWordB => if at_wordb x then k x else None
  end.

(** [exec]: leftmost match, as the text skipped before it and its end state. *)
Fixpoint exec_from (r : re) (prev : option Z) (s : jsstr) : option (jsstr * jsstr * mst) :=
  match rmatch r (Mst prev s []) Some with
  | Some y => Some ([], s, y)
  | None => match s with
            | [] => None
            | c :: s' => match exec_from r (Some c) s' with
                         | Some (pre, at_, y) => Some (c :: pre, at_, y)
                         | None => None
                         end
            end
  end.

Definition exec (r : re) (s : jsstr) : option (jsstr * jsstr * mst) := exec_from r None s.

Definition test (r : re) (s : jsstr) : bool :=
  match exec r s with Some _ => true | None => false end.

Definition cap (n : nat) (y : mst) : option jsstr :=
  snd <$> List.find (λ p, bool_decide (p.1 = n)) (m_caps y).

(** The matched text: from the start of the match to its end. *)
Definition matched (at_ : jsstr) (y : mst) : jsstr :=
  take (length at_ - length (m_rest y)) at_.

(** [matchAll] and the global [replace]: successive matches left to right; after
    an empty match the search restarts one code unit further. *)
Fixpoint scan (fuel : nat) (r : re) (prev : option Z) (s : jsstr) : list (jsstr * jsstr * mst) :=
  match fuel with
  | O => []
  | S f =>
    match exec_from r prev s with
    | None => []
    | Some (pre, at_, y) =>
      (pre, matched at_ y, y) ::
      (if (length (m_rest y) <? length at_)%nat then scan f r (m_prev y) (m_rest y)
       else match at_ with
            | [] => []
            | c :: s' => scan f r (Some c) s'
            end)
    end
  end.

Definition matchAll (r : re) (s : jsstr) : list (jsstr * mst) :=
  (λ t : jsstr * jsstr * mst, (t.1.2, t.2)) <$> scan (S (length s)) r None s.

Fixpoint replace_loop (fuel : nat) (r : re) (f : jsstr → mst → jsstr)
    (prev : option Z) (s : jsstr) : jsstr :=
  match fuel with
  | O => s
  | S n =>
    match exec_from r prev s with
    | None => s
    | Some (pre, at_, y) =>
      pre ++ f (matched at_ y) y ++
      (if (length (m_rest y) <? length at_)%nat then replace_loop n r f (m_prev y) (m_rest y)
       else match at_ with
            | [] => []
            | c :: s' => c :: replace_loop n r f (Some c) s'
            end)
    end
  end.

Definition replace_all (r : re) (f : jsstr → mst → jsstr) (s : jsstr) : jsstr :=
  replace_loop (S (length s)) r f None s.

(** [replace] without the global flag: the first match only. *)
Definition replace_first (r : re) (f : jsstr → mst → jsstr) (s : jsstr) : jsstr :=
  match exec r s with
  | None => s
  | Some (pre, at_, y) => pre ++ f (matched at_ y) y ++ m_rest y
  end.

(** ** The relation the matcher implements *)

Inductive rstep : re → mst → mst → Prop :=
  | rs_empty x : rstep REmpty x x
  | rs_char p x c s : m_rest x = c :: s → p c = true → rstep (RChar p) x (advance x c s)
  | rs_seq a b x y z : rstep a x y → rstep b y z → rstep (RSeq a b) x z
  | rs_alt_l a b x y : rstep a x y → rstep (RAlt a b) x y
  | rs_alt_r a b x y : rstep b x y → rstep (RAlt a b) x y
  | rs_star_nil g a x : rstep (RStar g a) x x
  | rs_star_cons g a x y z :
      rstep a (reset (groups a) x) y → (length (m_rest y) < length (m_rest x))%nat →
      rstep (RStar g a) y z → rstep (RStar g a) x z
  | rs_group n a x y : rstep a x y → rstep (RGroup n a) x (capture n x y)
  | rs_bol ml x : at_bol ml x = true → rstep (RBol ml) x x
  | rs_eol ml x : at_eol ml x = true → rstep (REol ml) x x
  | rs_wordb x : at_wordb x = true → rstep RWordB x x.

#[export] Hint Constructors rstep : js.

Lemma star_loop_sound body gs g k n x z :
  star_loop body gs g k n x = Some z →
  k x = Some z ∨
  ∃ n', n = S n' ∧
    body (reset gs x) (λ y, if (length (m_rest y) <? length (m_rest x))%nat
                            then star_loop body gs g k n' y else None) = Some z.
Proof. destruct n as [|n]; simpl; [by left|]. repeat case_match; naive_solver. Qed.

Lemma rmatch_sound r x k z : rmatch r x k = Some z → ∃ y, rstep r x y ∧ k y = Some z.
Proof.
  revert x k. induction r as [|p|a IHa b IHb|a IHa b IHb|g a IHa|i a IHa|ml|ml|];
    intros x k; cbn [rmatch]; intros H.
  - eauto with js.
  - destruct (m_rest x) as [|c s] eqn:E; [done|]. case_cond; [|done]. eauto with js.
  - apply IHa in H as (y & ? & H). apply IHb in H as (y' & ? & H). eauto with js.
  - destruct (rmatch a x k) eqn:E.
    + simplify_eq. apply IHa in E as (y & ? & ?). eauto with js.
    + apply IHb in H as (y & ? & ?). eauto with js.
  - revert H. generalize (length (m_rest x)) as n. intros n. revert x.
    induction n as [|n IHn]; intros x H;
      apply star_loop_sound in H as [H|(n' & ? & H)]; simplify_eq; eauto with js.
    apply IHa in H as (y & ? & H). case_cond; [|done].
    apply IHn in H as (w & ? & ?). apply Nat.ltb_lt in Heqb. eauto with js.
  - apply IHa in H as (y & ? & H). eauto with js.
  - case_cond; [|done]. eauto with js.
  - case_cond; [|done]. eauto with js.
  - case_cond; [|done]. eauto with js.
Qed.

(** What is left is a suffix of what there was. *)
Lemma rstep_suffix r x y : rstep r x y → ∃ w, m_rest x = w ++ m_rest y.
Proof.
  induction 1 as [| ? ? c |? ? ? ? ? _ [u Hu] _ [v Hv]| | | |? ? ? ? ? _ [u Hu] _ _ [v Hv]| | | |];
    simpl in *; try (by exists []); try done.
  - by exists [c].
  - exists (u ++ v). by rewrite Hu, Hv, app_assoc.
  - exists (u ++ v). by rewrite Hu, Hv, app_assoc.
Qed.

Lemma rstep_length r x y : rstep r x y → (length (m_rest y) <= length (m_rest x))%nat.
Proof. intros [w ->]%rstep_suffix. rewrite length_app. lia. Qed.

(** Completeness: if some way through the pattern makes the continuation succeed,
    the search succeeds (by the first such way it meets). *)
Lemma star_loop_complete body gs g k n x :
  (∀ x k y, (∃ z, rstep body x y ∧ k y = Some z) → is_Some (rmatch body x k)) →
  ∀ y, rstep (RStar g body) x y → gs = groups body → (length (m_rest x) <= n)%nat →
  is_Some (k y) → is_Some (star_loop (rmatch body) gs g k n x).
Proof.
  intros Hb y Hs -> Hn Hk. remember (RStar g body) as r eqn:Er. revert n Hn.
  induction Hs; simplify_eq; intros n Hn.
  - destruct n as [|n]; simpl; [done|]. destruct Hk as [z ->].
    case_cond; [|eauto]. case_match; eauto.
  - destruct n as [|n]; [lia|]. simpl.
    assert (is_Some (rmatch body (reset (groups body) x)
       (λ y, if (length (m_rest y) <? length (m_rest x))%nat
             then star_loop (rmatch body) (groups body) g k n y else None))) as [w ->].
    { destruct IHHs2 with n as [w Hw]; [done|done|lia|].
      apply (Hb _ _ y). exists w. split; [done|].
      apply Nat.ltb_lt in H. by rewrite H. }
    case_cond; [eauto|]. case_match; eauto.
Qed.

Lemma rmatch_complete r x k y : (∃ z, rstep r x y ∧ k y = Some z) → is_Some (rmatch r x k).
Proof.
  revert x k y. induction r as [|p|a IHa b IHb|a IHa b IHb|g a IHa|i a IHa|ml|ml|];
    intros x k y (z & H & Hk); cbn [rmatch].
  - inversion H; subst. eauto.
  - inversion H as [|? ? c s E Hp| | | | | | | | |]; subst. rewrite E, Hp. eauto.
  - inversion H; subst. destruct (IHb y0 k y) as [w Hw]; [eauto|].
    apply (IHa _ _ y0). eauto.
  - inversion H; subst.
    + destruct (IHa x k y) as [w ->]; eauto.
    + case_match; eauto.
  - eapply star_loop_complete; eauto.
  - inversion H; subst. apply (IHa _ _ y0). eauto.
  - inversion H; subst. by case_match.
  - inversion H; subst. by case_match.
  - inversion H; subst. by case_match.
Qed.

(** ** Searching *)

(** The code unit before the position reached after reading [w]. *)
Definition prev_after (o : option Z) (w : jsstr) : option Z := fold_left (λ _ c, Some c) w o.

Lemma prev_after_app o u v : prev_after o (u ++ v) = prev_after (prev_after o u) v.
Proof. unfold prev_after. by rewrite fold_left_app. Qed.

Lemma prev_after_Some o c w : is_Some (prev_after o (c :: w)).
Proof.
  revert o c. induction w as [|d w IH]; intros o c; [by eexists|].
  exact (IH (Some c) d).
Qed.

Lemma exec_from_sound r p s pre at_ y :
  exec_from r p s = Some (pre, at_, y) →
  s = pre ++ at_ ∧ rstep r (Mst (prev_after p pre) at_ []) y.
Proof.
  revert p pre. induction s as [|c s IH]; intros p pre; cbn [exec_from].
  - destruct (rmatch r (Mst p [] []) Some) as [z|] eqn:E; [|done].
    intros ?; simplify_eq. apply rmatch_sound in E as (y' & ? & ?). by simplify_eq.
  - destruct (rmatch r (Mst p (c :: s) []) Some) as [z|] eqn:E.
    + intros ?; simplify_eq. apply rmatch_sound in E as (y' & ? & ?). by simplify_eq.
    + destruct (exec_from r (Some c) s) as [[[pre' at'] y']|] eqn:E'; [|done].
      intros ?; simplify_eq. apply IH in E' as [-> ?]. done.
Qed.

Lemma exec_from_complete r p pre at_ y :
  rstep r (Mst (prev_after p pre) at_ []) y → is_Some (exec_from r p (pre ++ at_)).
Proof.
  revert p. induction pre as [|c pre IH]; intros p H; cbn [app].
  - destruct (rmatch_complete r (Mst p at_ []) Some y) as [z Hz]; [eauto|].
    destruct at_; cbn [exec_from]; rewrite Hz; eauto.
  - cbn [exec_from]. case_match; [eauto|].
    destruct (IH (Some c) H) as [[[? ?] ?] ->]. eauto.
Qed.

Lemma test_spec r s :
  test r s = true ↔
  ∃ pre at_ y, s = pre ++ at_ ∧ rstep r (Mst (prev_after None pre) at_ []) y.
Proof.
  unfold test, exec. split.
  - destruct (exec_from r None s) as [[[pre at_] y]|] eqn:E; [|done].
    intros _. apply exec_from_sound in E as [-> ?]. eauto.
  - intros (pre & at_ & y & -> & H). by destruct (exec_from_complete r None pre at_ y H) as [? ->].
Qed.

(** ** Languages of patterns without anchors *)

Fixpoint plain (r : re) : bool :=
  match r with
  | REmpty | RChar _ => true
  | RSeq a b | RAlt a b => plain a && plain b
  | RStar _ a | RGroup _ a => plain a
  | RBol _ | REol _ | RWordB => false
  end.

Fixpoint lang (r : re) (w : jsstr) : Prop :=
  match r with
  | REmpty => w = []
  | RChar p => ∃ c, w = [c] ∧ p c = true
  | RSeq a b => ∃ u v, w = u ++ v ∧ lang a u ∧ lang b v
  | RAlt a b => lang a w ∨ lang b w
  | RStar _ a => ∃ ws, w = concat ws ∧ Forall (lang a) ws
  | RGroup _ a => lang a w
  | RBol _ | REol _ | RWordB => False
  end.

Lemma rstep_lang r x y :
  rstep r x y → plain r = true →
  ∃ w, m_rest x = w ++ m_rest y ∧ lang r w ∧ m_prev y = prev_after (m_prev x) w.
Proof.
  induction 1 as [|p x c s E Hp|a b x y z _ IHa _ IHb|a b x y _ IH|a b x y _ IH|g a x
    |g a x y z _ IHa _ _ IHs|n a x y _ IH|ml x E|ml x E|x E]; simpl; intros Hr; try done.
  - by exists [].
  - exists [c]. eauto.
  - bool_to_prop. destruct IHa as (u & Eu & ? & Pu); [done|].
    destruct IHb as (v & Ev & ? & Pv); [done|].
    exists (u ++ v). rewrite Eu, Ev, app_assoc, prev_after_app, <- Pu. eauto 10.
  - bool_to_prop. destruct IH as (w & ? & ? & ?); eauto.
  - bool_to_prop. destruct IH as (w & ? & ? & ?); eauto.
  - exists []. repeat split. by exists [].
  - destruct IHa as (u & Eu & ? & Pu); [done|]. simpl in *.
    destruct IHs as (v & Ev & (ws & -> & ?) & Pv); [done|].
    exists (u ++ concat ws). rewrite Eu, Ev, app_assoc, prev_after_app, <- Pu.
    repeat split; [|done]. by exists (u :: ws); eauto.
  - destruct IH as (w & ? & ? & ?); eauto.
Qed.

Lemma lang_rstep r w x s :
  plain r = true → lang r w → m_rest x = w ++ s →
  ∃ y, rstep r x y ∧ m_rest y = s ∧ m_prev y = prev_after (m_prev x) w.
Proof.
  revert w x s. induction r as [|p|a IHa b IHb|a IHa b IHb|g a IHa|n a IHa|ml|ml|];
    simpl; intros w x s Hr Hw Hx; try done.
  - subst. eauto with js.
  - destruct Hw as (c & -> & Hc). eexists. split; [by econstructor|done].
  - bool_to_prop. destruct Hw as (u & v & -> & Hu & Hv). rewrite <- app_assoc in Hx.
    destruct (IHa u x (v ++ s)) as (y & ? & ? & Py); [done..|].
    destruct (IHb v y s) as (z & ? & ? & Pz); [done..|].
    exists z. rewrite prev_after_app, <- Py. eauto with js.
  - bool_to_prop. destruct Hw as [Hw|Hw].
    + destruct (IHa w x s) as (y & ? & ? & ?); eauto with js.
    + destruct (IHb w x s) as (y & ? & ? & ?); eauto with js.
  - destruct Hw as (ws & -> & Hws). revert x Hx. induction Hws as [|v ws Hv _ IH];
      simpl; intros x Hx; [eauto with js|].
    rewrite <- app_assoc in Hx. destruct v as [|c v]; [by apply IH|].
    destruct (IHa (c :: v) (reset (groups a) x) (concat ws ++ s)) as (y & ? & Ey & Py);
      [done..|].
    destruct (IH y Ey) as (z & ? & ? & Pz). exists z.
    rewrite prev_after_app. simpl in *. rewrite <- Py. split; [|done].
    econstructor; [done| |done]. rewrite Hx, Ey. simpl. rewrite !length_app. lia.
  - destruct (IHa w x s) as (y & ? & ? & ?); [done..|]. eexists. split; [by econstructor|done].
Qed.

(** A test against [/^r$/] is membership in the language of [r]. *)
Lemma test_anchored r s :
  plain r = true →
  test (RSeqs [RBol false; r; REol false]) s = true ↔ lang r s.
Proof.
  intros Hr. rewrite test_spec. cbn [RSeqs]. split.
  - intros (pre & at_ & y & -> & H). inversion H as [| |? ? ? x1 ? H1 H2| | | | | | | |]; subst.
    inversion H1 as [| | | | | | | |? ? Hb| |]; subst.
    destruct pre as [|c pre].
    2:{ destruct (prev_after_Some None c pre) as [d Hd].
        unfold at_bol in Hb. cbn [m_prev] in Hb. by rewrite Hd in Hb. }
    inversion H2 as [| |? ? ? x2 ? H3 H4| | | | | | | |]; subst.
    apply rstep_lang in H3 as (w & Hw & ? & _); [|done].
    inversion H4 as [| | | | | | | | |? ? He|]; subst.
    unfold at_eol in He. destruct (m_rest y); [|done].
    rewrite app_nil_r in Hw. simpl in Hw. by rewrite Hw.
  - intros H. destruct (lang_rstep r s (Mst None s []) []) as (y & ? & Ey & _);
      [done..|by rewrite app_nil_r|].
    exists [], s, y. split; [done|].
    econstructor; [by constructor|]. econstructor; [done|]. constructor.
    unfold at_eol. by rewrite Ey.
Qed.

(** *** Languages of the usual shapes *)

Lemma lang_char p w : lang (RChar p) w ↔ ∃ c, w = [c] ∧ p c = true.
Proof. done. Qed.

Lemma lang_str s w : lang (RStr s) w ↔ w = s.
Proof.
  revert w. induction s as [|c [|d s] IH]; intros w; [done| |].
  - simpl. setoid_rewrite Z.eqb_eq. naive_solver.
  - change (lang (RStr (c :: d :: s))) with
      (λ w, ∃ u v, w = u ++ v ∧ lang (RChar (Z.eqb c)) u ∧ lang (RStr (d :: s)) v).
    cbv beta. setoid_rewrite IH. simpl. setoid_rewrite Z.eqb_eq. split.
    + by intros (u & v & -> & (? & -> & <-) & ->).
    + intros ->. exists [c], (d :: s). eauto.
Qed.

Lemma lang_star_class g p w : lang (RStar g (RChar p)) w ↔ Forall (λ c, p c = true) w.
Proof.
  split.
  - intros (ws & -> & H). induction H as [|v ws (c & -> & ?) _ IH]; simpl; auto.
  - intros H. exists ((λ c, [c]) <$> w). split.
    + clear H. induction w as [|c w IH]; csimpl; [done|]. by rewrite <- IH.
    + induction H as [|c w Hc _ IH]; csimpl; constructor; [simpl; eauto|done].
Qed.

Lemma lang_plus a w : lang (RPlus a) w ↔ ∃ ws, w = concat ws ∧ ws ≠ [] ∧ Forall (lang a) ws.
Proof.
  split.
  - intros (u & v & -> & Hu & ws & -> & Hws). exists (u :: ws). auto.
  - intros ([|u ws] & -> & Hn & Hws); [done|]. inversion Hws; subst.
    exists u, (concat ws). repeat split; [done|]. by exists ws.
Qed.

Lemma lang_plus_class p w :
  lang (RPlus (RChar p)) w ↔ w ≠ [] ∧ Forall (λ c, p c = true) w.
Proof.
  unfold RPlus. split.
  - intros (u & v & -> & (c & -> & Hc) & Hv%lang_star_class). simpl. auto.
  - intros [Hn H]. destruct w as [|c w]; [done|]. inversion H; subst.
    exists [c], w. repeat split; [simpl; eauto|]. by apply lang_star_class.
Qed.

Lemma lang_upto_class n p w :
  lang (RUpTo n (RChar p)) w ↔ (length w <= n)%nat ∧ Forall (λ c, p c = true) w.
Proof.
  revert w. induction n as [|n IH]; intros w; simpl.
  - split; [by intros ->|]. intros [Hl _]. destruct w; [done|simpl in Hl; lia].
  - split.
    + intros [(u & v & -> & (c & -> & Hc) & [Hl Hv]%IH)| ->]; simpl; [|split; [lia|done]].
      split; [lia|auto].
    + intros [Hl Hw]. destruct w as [|c w]; [by right|left].
      inversion Hw; subst. exists [c], w. rewrite IH. simpl in Hl.
      repeat split; eauto. lia.
Qed.

(** [a(?:sep a)*]: the parts between the separators. *)
Lemma lang_sep_list a sep w :
  lang (RSeq a (RStar true (RSeq (RStr sep) a))) w ↔
  ∃ ps, ps ≠ [] ∧ Forall (lang a) ps ∧ w = join sep ps.
Proof.
  split.
  - intros (u & v & -> & Hu & ws & -> & Hws). revert u Hu.
    induction Hws as [|w ws (s & p & -> & ->%lang_str & Hp) _ IH]; intros u Hu.
    + exists [u]. rewrite app_nil_r. auto.
    + destruct (IH p Hp) as (ps & Hn & Hps & E). exists (u :: ps).
      repeat split; [done|by constructor|]. destruct ps as [|q ps]; [done|].
      rewrite join_cons2, <- E. simpl. by rewrite !app_assoc.
  - intros (ps & Hn & Hps & ->). induction Hps as [|p ps Hp Hps IH]; [done|].
    destruct ps as [|q ps].
    + exists p, []. rewrite app_nil_r. repeat split; [done|]. by exists [].
    + destruct IH as (u & v & E & Hu & ws & -> & Hws); [done|].
      exists p, (sep ++ join sep (q :: ps)). repeat split; [done|].
      exists ((sep ++ u) :: ws). rewrite E. simpl. rewrite app_assoc. split; [done|].
      constructor; [|done]. exists sep, u. by rewrite lang_str.
Qed.

(** A test against [/^r/]. *)
Lemma test_bol r s :
  test (RSeq (RBol false) r) s = true ↔ ∃ y, rstep r (Mst None s []) y.
Proof.
  rewrite test_spec. split.
  - intros (pre & at_ & y & -> & H). inversion H as [| |? ? ? x1 ? H1 H2| | | | | | | |]; subst.
    inversion H1 as [| | | | | | | |? ? Hb| |]; subst.
    destruct pre as [|c pre]; [eauto|].
    destruct (prev_after_Some None c pre) as [d Hd].
    unfold at_bol in Hb. cbn [m_prev] in Hb. by rewrite Hd in Hb.
  - intros [y H]. exists [], s, y. split; [done|]. econstructor; [by constructor|done].
Qed.

(** Reading a plain prefix first. *)
Lemma rstep_seq_plain a b x :
  plain a = true →
  (∃ z, rstep (RSeq a b) x z) ↔
  ∃ w y z, lang a w ∧ m_rest x = w ++ m_rest y ∧ rstep a x y ∧ rstep b y z.
Proof.
  intros Ha. split.
  - intros [z H]. inversion H as [| |? ? ? y ? H1 H2| | | | | | | |]; subst.
    pose proof (rstep_lang _ _ _ H1 Ha) as (w & ? & ? & _). by exists w, y, z.
  - intros (w & y & z & _ & _ & ? & ?). eauto with js.
Qed.

(** ** Greedy runs of a class *)

Definition advance_by (w : jsstr) (r : jsstr) (x : mst) : mst :=
  Mst (prev_after (m_prev x) w) r (m_caps x).

Lemma reset_nil x : reset [] x = x.
Proof.
  destruct x as [p r c]. unfold reset. simpl. f_equal.
  induction c as [|a c IH]; simpl; [done|]. by f_equal.
Qed.

(** A greedy run of a class takes the whole run when what follows it cannot start
    with a member of the class. *)
Lemma star_class_greedy p k n x :
  (∀ y c s, m_rest y = c :: s → p c = true → k y = None) →
  (length (m_rest x) <= n)%nat →
  star_loop (rmatch (RChar p)) [] true k n x
  = k (advance_by (Prelude.span p (m_rest x)).1 (Prelude.span p (m_rest x)).2 x).
Proof.
  intros Hk. revert x. induction n as [|n IH]; intros [pr s cs] Hn; cbn [m_rest] in *.
  - destruct s; [done|simpl in Hn; lia].
  - cbn [star_loop]. rewrite reset_nil. cbn [rmatch m_rest].
    destruct s as [|c s]; [done|]. destruct (p c) eqn:Hc.
    + unfold advance. cbn [m_rest m_caps]. rewrite length_cons in Hn.
      replace (length s <? length (c :: s))%nat with true
        by (symmetry; apply Nat.ltb_lt, Nat.lt_succ_diag_r).
      rewrite IH by (cbn; apply le_S_n, Hn). cbn [m_rest Prelude.span]. rewrite Hc.
      destruct (Prelude.span p s) as [a b] eqn:Es.
      change (advance_by (c :: a, b).1 (c :: a, b).2 (Mst pr (c :: s) cs))
        with (advance_by a b (Mst (Some c) s cs)). cbn [fst snd].
      destruct (k (advance_by a b _)); [done|]. by apply (Hk _ c s).
    + cbn [Prelude.span]. rewrite Hc. done.
Qed.

Lemma rmatch_seq a b x k : rmatch (RSeq a b) x k = rmatch a x (λ y, rmatch b y k).
Proof. done. Qed.

Lemma rmatch_group n a x k : rmatch (RGroup n a) x k = rmatch a x (λ y, k (capture n x y)).
Proof. done. Qed.

Lemma rmatch_char p x k :
  rmatch (RChar p) x k
  = match m_rest x with
    | c :: s => if p c then k (advance x c s) else None
    | [] => None
    end.
Proof. done. Qed.

Lemma rmatch_star_class p x k :
  (∀ y c s, m_rest y = c :: s → p c = true → k y = None) →
  rmatch (RStar true (RChar p)) x k
  = k (advance_by (Prelude.span p (m_rest x)).1 (Prelude.span p (m_rest x)).2 x).
Proof. intros Hk. by apply star_class_greedy. Qed.
