(* ===== verification/Numbers.v ===== *)
(** * Numbers of the language

    A number is NaN, an infinity or a finite double, kept as the rational it
    denotes (the sign of zero is not kept: nothing the program does with a number
    observes it).  Arithmetic rounds the exact result to the nearest double, ties to
    even, with gradual underflow and overflow to infinity ([round_double]).
    [js_Number] is the conversion from strings. *)
From Stdlib Require Import ZArith Lia List QArith Qround.
From stdpp Require Import base list sets.
From S2P Require Import Prelude Regex.
#[local] Open Scope Z_scope.

Inductive num := NaN | Infinite (neg : bool) | Fin (q : Q).

(** ** Rounding *)

(** [n / d] to the nearest integer, ties to even; [0 < d]. *)
Definition round_half_even (n d : Z) : Z :=
  let q := n / d in
  let r := n mod d in
  if 2 * r <? d then q
  else if d <? 2 * r then q + 1
  else if Z.even q then q else q + 1.

(** The largest [t] with [2 ^ t <= p / q], for positive [p] and [q]. *)
Definition floor_log2 (p q : Z) : Z :=
  let t := Z.log2 p - Z.log2 q in
  if (if 0 <=? t then p <? q * 2 ^ t else p * 2 ^ (- t) <? q) then t - 1 else t.

(** Mantissa and exponent of the double nearest to the positive rational [p / q]. *)
Definition round_pos (p q : Z) : Z * Z :=
  let e := Z.max (floor_log2 p q - 52) (-1074) in
  (if 0 <=? e then round_half_even p (q * 2 ^ e) else round_half_even (p * 2 ^ (- e)) q, e).

Definition dyadic (m e : Z) : Q :=
  if 0 <=? e then inject_Z (m * 2 ^ e) else Qmake m (Z.to_pos (2 ^ (- e))).

Definition round_double (x : Q) : num :=
  let p := Qnum x in
  let q := Zpos (Qden x) in
  if p =? 0 then Fin 0
  else
    let '(m, e) := round_pos (Z.abs p) q in
    if 2 ^ 1024 <=? (if 0 <=? e then m * 2 ^ e else 0) then Infinite (p <? 0)
    else Fin (dyadic (if p <? 0 then - m else m) e).

(** ** Operations *)

Definition num_of_Z (z : Z) : num := round_double (inject_Z z).

Definition q_neg (x : Q) : bool := Qnum x <? 0.
Definition q_zero (x : Q) : bool := Qnum x =? 0.

Definition num_mul (a b : num) : num :=
  match a, b with
  | Fin x, Fin y => round_double (Qred (x * y))
  | NaN, _ | _, NaN => NaN
  | Infinite n, Infinite m => Infinite (xorb n m)
  | Infinite n, Fin x | Fin x, Infinite n => if q_zero x then NaN else Infinite (xorb n (q_neg x))
  end.

Definition num_opp (a : num) : num :=
  match a with NaN => NaN | Infinite n => Infinite (negb n) | Fin x => Fin (- x) end.

Definition num_add (a b : num) : num :=
  match a, b with
  | Fin x, Fin y => round_double (Qred (x + y))
  | NaN, _ | _, NaN => NaN
  | Infinite n, Infinite m => if Bool.eqb n m then Infinite n else NaN
  | Infinite n, Fin _ | Fin _, Infinite n => Infinite n
  end.

Definition num_sub (a b : num) : num := num_add a (num_opp b).

(** Division by a number that is not zero, as everywhere in the program. *)
Definition num_div (a b : num) : num :=
  match a, b with
  | Fin x, Fin y => if q_zero y then NaN else round_double (Qred (x / y))
  | NaN, _ | _, NaN | Infinite _, Infinite _ => NaN
  | Infinite n, Fin y => Infinite (xorb n (q_neg y))
  | Fin _, Infinite _ => Fin 0
  end.

Definition num_le (a b : num) : bool :=
  match a, b with
  | NaN, _ | _, NaN => false
  | Infinite n, Infinite m => n || negb m
  | Infinite n, Fin _ => n
  | Fin _, Infinite m => negb m
  | Fin x, Fin y => Qle_bool x y
  end.

Definition num_lt (a b : num) : bool :=
  match a, b with
  | NaN, _ | _, NaN => false
  | _, _ => negb (num_le b a)
  end.

Definition isFinite (a : num) : bool := match a with Fin _ => true | _ => false end.

(** [Math.ceil] of a finite number. *)
Definition num_ceil (a : num) : option Z :=
  match a with Fin x => Some (Qceiling x) | _ => None end.

Definition MAX_SAFE_INTEGER : Z := 9007199254740991.

(** The integer a number is, when it is one. *)
Definition num_int (a : num) : option Z :=
  match a with
  | Fin x => if Qnum x mod Zpos (Qden x) =? 0 then Some (Qnum x / Zpos (Qden x)) else None
  | _ => None
  end.

Definition isSafeInteger (a : num) : bool :=
  match num_int a with
  | Some z => Z.abs z <=? MAX_SAFE_INTEGER
  | None => false
  end.

(** ** [Number(s)] *)

Definition hex_val (c : Z) : option Z :=
  if is_digit c then Some (c - 48)
  else if (97 <=? c) && (c <=? 102) then Some (c - 87)
  else if (65 <=? c) && (c <=? 70) then Some (c - 55)
  else None.

(** A non-empty string of digits in base [b]. *)
Definition radix_value (b : Z) (s : jsstr) : option Z :=
  match s with
  | [] => None
  | _ => fold_left (λ acc c, match acc, hex_val c with
                             | Some a, Some d => if d <? b then Some (a * b + d) else None
                             | _, _ => None
                             end) s (Some 0)
  end.

Fixpoint span_digits (s : jsstr) : jsstr * jsstr :=
  match s with
  | c :: s' => if is_digit c then let '(d, r) := span_digits s' in (c :: d, r) else ([], s)
  | [] => ([], [])
  end.

Definition signed (s : jsstr) : bool * jsstr :=
  match s with
  | c :: s' => if c =? 43 then (false, s') else if c =? 45 then (true, s') else (false, s)
  | [] => (false, s)
  end.

Definition pow10 (e : Z) : Q :=
  if 0 <=? e then inject_Z (10 ^ e) else Qmake 1 (Z.to_pos (10 ^ (- e))).

(** Unsigned decimal literal: digits, fraction, exponent; the exact rational. *)
Definition decimal_value (s : jsstr) : option Q :=
  let '(i, r) := span_digits s in
  let '(f, r) := match r with
                   | c :: r' => if c =? 46 then span_digits r' else ([], r)
                   | [] => ([], r)
                   end in
  match i ++ f with
  | [] => None
  | _ =>
    let m := digits_value (i ++ f) in
    let exp := match r with
               | [] => Some 0
               | c :: r' =>
                 if (c =? 101) || (c =? 69) then
                   let '(neg, r'') := signed r' in
                   let '(d, rest) := span_digits r'' in
                   match d, rest with
                   | _ :: _, [] => Some (if neg then - digits_value d else digits_value d)
                   | _, _ => None
                   end
                 else None
               end in
    match exp with
    | Some e => Some (inject_Z m * pow10 (e - Z.of_nat (length f)))%Q
    | None => None
    end
  end.

(** The base and the digits of a literal such as [0x1f]. *)
Definition radix_literal (s : jsstr) : option (Z * jsstr) :=
  match s with
  | z :: c :: d =>
    if negb (z =? 48) then None
    else if (c =? 120) || (c =? 88) then Some (16, d)
    else if (c =? 111) || (c =? 79) then Some (8, d)
    else if (c =? 98) || (c =? 66) then Some (2, d)
    else None
  | _ => None
  end.

Definition js_Number (s : jsstr) : num :=
  let t := trim s in
  if negb (truthy t) then Fin 0
  else match radix_literal t with
  | Some (b, d) => match radix_value b d with Some z => num_of_Z z | None => NaN end
  | None =>
    let '(neg, u) := signed t in
    if str_eqb u "Infinity" then Infinite neg
    else match decimal_value u with
         | Some q => round_double (if neg then - q else q)%Q
         | None => NaN
         end
  end.

Example number_ex1 : num_int (js_Number " 0x1F ") = Some 31. Proof. reflexivity. Qed.
Example number_ex2 : num_int (js_Number "-12e1") = Some (-120). Proof. reflexivity. Qed.
Example number_ex3 : num_int (js_Number "9007199254740993") = Some 9007199254740992.
Proof. reflexivity. Qed.
Example number_ex4 : js_Number "1.5x" = NaN. Proof. reflexivity. Qed.
Example number_ex5 : js_Number "1e400" = Infinite false. Proof. vm_compute. reflexivity. Qed.

(** ** Rounding lemmas *)

Lemma round_half_even_exact n d : 0 < d → n mod d = 0 → round_half_even n d = n / d.
Proof. intros Hd Hm. unfold round_half_even. rewrite Hm. case_cond; bool_to_prop; lia. Qed.

Lemma round_half_even_ge n d : n / d <= round_half_even n d.
Proof. unfold round_half_even. repeat case_cond; lia. Qed.

Lemma floor_log2_le p q k : 0 < p → 0 < q → 0 <= k → p < q * 2 ^ (k + 1) → floor_log2 p q <= k.
Proof.
  intros Hp Hq Hk Hlt. unfold floor_log2. set (t := Z.log2 p - Z.log2 q).
  pose proof (Z.log2_spec p Hp) as [Hp1 _]. pose proof (Z.log2_spec q Hq) as [_ Hq2].
  pose proof (Z.log2_nonneg q) as Hnq.
  destruct (Z.le_gt_cases (t - 1) k) as [Ht|Ht]; [|exfalso].
  - destruct (Z.le_gt_cases t k) as [|Ht']; [repeat case_cond; lia|].
    rewrite (proj2 (Z.leb_le 0 t)) by lia. case_cond; [lia|]. bool_to_prop.
    replace t with (k + 1) in * by lia. lia.
  - assert (E : 2 ^ Z.log2 p = 2 ^ (Z.succ (Z.log2 q)) * 2 ^ (t - 1))
      by (rewrite <- Z.pow_add_r by lia; f_equal; lia).
    assert (2 ^ (k + 1) <= 2 ^ (t - 1)) by (apply Z.pow_le_mono_r; lia).
    assert (0 < 2 ^ (k + 1)) by (apply Z.pow_pos_nonneg; lia). nia.
Qed.

Lemma floor_log2_eq p q k : 0 < p → 0 < q → 0 <= k → q * 2 ^ k <= p < q * 2 ^ (k + 1) → floor_log2 p q = k.
Proof.
  intros Hp Hq Hk [Hle Hlt]. apply Z.le_antisymm; [by apply floor_log2_le|].
  unfold floor_log2. set (t := Z.log2 p - Z.log2 q).
  pose proof (Z.log2_spec p Hp) as [_ Hp2]. pose proof (Z.log2_spec q Hq) as [Hq1 _].
  pose proof (Z.log2_nonneg q). pose proof (Z.log2_nonneg p).
  assert (Ht : k <= t).
  { apply Z.le_ngt. intros Ht.
    assert (2 ^ Z.succ (Z.log2 p) <= 2 ^ (Z.log2 q + k)) by (apply Z.pow_le_mono_r; lia).
    rewrite Z.pow_add_r in * by lia. assert (0 < 2 ^ k) by (apply Z.pow_pos_nonneg; lia). nia. }
  rewrite (proj2 (Z.leb_le 0 t)) by lia. case_cond; [|lia]. bool_to_prop.
  destruct (Z.eq_dec t k) as [->|]; lia.
Qed.

Lemma round_half_even_le n d b : 0 < d → 2 * n < (2 * b + 1) * d → round_half_even n d <= b.
Proof.
  intros Hd Hn. unfold round_half_even. pose proof (Z.div_mod n d ltac:(lia)). pose proof (Z.mod_pos_bound n d Hd).
  repeat case_cond; bool_to_prop; nia.
Qed.
Lemma round_half_even_nonneg n d : 0 <= n → 0 < d → 0 <= round_half_even n d.
Proof. intros Hn Hd. pose proof (round_half_even_ge n d). pose proof (Z.div_pos n d Hn Hd). lia. Qed.

Lemma floor_log2_int p : 0 < p → floor_log2 p 1 = Z.log2 p.
Proof.
  intros Hp. unfold floor_log2. pose proof (Z.log2_nonneg p).
  pose proof (Z.log2_spec p Hp). change (Z.log2 1) with 0. rewrite Z.sub_0_r, Z.mul_1_l.
  rewrite (proj2 (Z.leb_le 0 (Z.log2 p))) by done. case_cond; bool_to_prop; lia.
Qed.

(** An integer below 2^53 is a double. *)
Lemma round_pos_int_exact p :
  0 < p <= MAX_SAFE_INTEGER →
  ∃ m e, round_pos p 1 = (m, e) ∧ e <= 0 ∧ m = p * 2 ^ (- e).
Proof.
  intros [Hp Hm]. unfold round_pos. rewrite floor_log2_int by done.
  assert (Z.log2 p <= 52).
  { assert (Z.log2 p < 53); [|lia]. apply Z.log2_lt_pow2; [done|].
    unfold MAX_SAFE_INTEGER in Hm. lia. }
  pose proof (Z.log2_nonneg p).
  eexists _, _. split; [done|]. rewrite Z.max_l by lia. split; [lia|].
  case_cond; bool_to_prop.
  - replace (Z.log2 p - 52) with 0 by lia. rewrite round_half_even_exact; [|lia|].
    + change (- 0) with 0. rewrite Z.pow_0_r. by rewrite !Z.mul_1_r, Z.div_1_r.
    + rewrite Z.pow_0_r, Z.mul_1_r. apply Z.mod_1_r.
  - rewrite round_half_even_exact; [by rewrite Z.div_1_r|lia|apply Z.mod_1_r].
Qed.

(** An integer from 2^53 on is rounded to a number that is at least as large. *)
Lemma round_pos_int_large p :
  MAX_SAFE_INTEGER < p →
  ∃ m e, round_pos p 1 = (m, e) ∧ 0 < e ∧ MAX_SAFE_INTEGER < m * 2 ^ e.
Proof.
  unfold MAX_SAFE_INTEGER. intros Hp. unfold round_pos. rewrite floor_log2_int by lia.
  assert (Hl : 53 <= Z.log2 p) by (apply Z.log2_le_pow2; lia).
  rewrite Z.max_l by lia. eexists _, _. split; [done|]. split; [lia|].
  rewrite (proj2 (Z.leb_le 0 (Z.log2 p - 52))) by lia. rewrite Z.mul_1_l.
  set (e := Z.log2 p - 52).
  assert (He : 2 ^ 52 * 2 ^ e = 2 ^ Z.log2 p).
  { rewrite <- Z.pow_add_r by (subst e; lia). f_equal. subst e. lia. }
  assert (H2 : 0 < 2 ^ e) by (apply Z.pow_pos_nonneg; subst e; lia).
  assert (Hlo : 2 ^ 52 <= p / 2 ^ e).
  { apply Z.div_le_lower_bound; [done|]. rewrite Z.mul_comm, He. apply Z.log2_spec. lia. }
  pose proof (round_half_even_ge p (2 ^ e)) as Hr.
  assert (2 ^ 53 <= 2 ^ Z.log2 p) by (apply Z.pow_le_mono_r; lia).
  assert (2 ^ 52 * 2 ^ e <= round_half_even p (2 ^ e) * 2 ^ e) by (apply Z.mul_le_mono_pos_r; lia).
  lia.
Qed.

Lemma num_int_dyadic_shift p e :
  e <= 0 → num_int (Fin (dyadic (p * 2 ^ (- e)) e)) = Some p.
Proof.
  intros He. assert (Hp : 0 < 2 ^ (- e)) by (apply Z.pow_pos_nonneg; lia).
  unfold dyadic. case_cond; bool_to_prop.
  - replace e with 0 by lia. simpl. rewrite Z.mod_1_r, Z.div_1_r. f_equal. lia.
  - simpl. rewrite Z2Pos.id by done. rewrite Z.mod_mul, Z.div_mul by lia. done.
Qed.

(** A safe integer is represented exactly. *)
Lemma num_of_Z_safe z : Z.abs z <= MAX_SAFE_INTEGER → num_int (num_of_Z z) = Some z.
Proof.
  intros Hz. unfold num_of_Z, round_double. cbn [inject_Z Qnum Qden].
  case_cond; bool_to_prop; [by subst|].
  destruct (round_pos_int_exact (Z.abs z)) as (m & e & -> & He & ->); [lia|].
  rewrite (proj2 (Z.leb_gt (2 ^ 1024) _)).
  2:{ case_cond; [|apply Z.pow_pos_nonneg; lia]. bool_to_prop. replace e with 0 by lia.
      rewrite Z.pow_0_r, !Z.mul_1_r. apply Z.le_lt_trans with (2 ^ 53).
      - unfold MAX_SAFE_INTEGER in Hz. lia.
      - apply Z.pow_lt_mono_r; lia. }
  case_cond; bool_to_prop; rewrite <- ?Z.mul_opp_l, num_int_dyadic_shift by done; f_equal; lia.
Qed.

(** An unsafe integer does not become a safe one by rounding. *)
Lemma num_of_Z_unsafe z : MAX_SAFE_INTEGER < Z.abs z → isSafeInteger (num_of_Z z) = false.
Proof.
  intros Hz. unfold num_of_Z, round_double. cbn [inject_Z Qnum Qden].
  case_cond; bool_to_prop; [subst; unfold MAX_SAFE_INTEGER in Hz; lia|].
  destruct (round_pos_int_large (Z.abs z) Hz) as (m & e & -> & He & Hm).
  case_cond; [done|]. unfold isSafeInteger, num_int, dyadic.
  rewrite (proj2 (Z.leb_le 0 e)) by lia. cbn [inject_Z Qnum Qden].
  rewrite Z.mod_1_r, Z.div_1_r. simpl. apply Z.leb_gt. case_cond; lia.
Qed.

Lemma isSafeInteger_num_of_Z z :
  isSafeInteger (num_of_Z z) = true ↔ Z.abs z <= MAX_SAFE_INTEGER.
Proof.
  split.
  - destruct (Z.le_gt_cases (Z.abs z) MAX_SAFE_INTEGER) as [|H]; [done|].
    by rewrite num_of_Z_unsafe.
  - intros H. unfold isSafeInteger. rewrite num_of_Z_safe by done. by apply Z.leb_le.
Qed.

(** Arithmetic on integral numbers. *)
Lemma num_int_inv a z : num_int a = Some z → ∃ x, a = Fin x ∧ x == inject_Z z.
Proof.
  destruct a as [| |x]; try done. cbn [num_int]. case_cond; [|done]. bool_to_prop. intros [= <-].
  exists x. split; [done|]. unfold Qeq. cbn [inject_Z Qnum Qden].
  pose proof (Z.div_mod (Qnum x) (Zpos (Qden x)) ltac:(lia)). lia.
Qed.

Lemma Qred_int q z : q == inject_Z z → Qred q = inject_Z z.
Proof.
  intros H. rewrite (Qred_complete _ _ H). unfold inject_Z, Qred.
  pose proof (Z.ggcd_correct_divisors z 1) as Hd. pose proof (Z.ggcd_gcd z 1) as Hg.
  destruct (Z.ggcd z 1) as (g & aa & bb). simpl in Hg. rewrite Z.gcd_1_r in Hg. subst g.
  destruct Hd as [E1 E2]. rewrite Z.mul_1_l in E1, E2. by subst.
Qed.

Lemma num_mul_int a b x y :
  num_int a = Some x → num_int b = Some y → num_mul a b = num_of_Z (x * y).
Proof.
  intros (p & -> & Hp)%num_int_inv (q & -> & Hq)%num_int_inv. unfold num_mul, num_of_Z. f_equal.
  apply Qred_int. rewrite Hp, Hq. by rewrite inject_Z_mult.
Qed.

Lemma num_add_int a b x y :
  num_int a = Some x → num_int b = Some y → num_add a b = num_of_Z (x + y).
Proof.
  intros (p & -> & Hp)%num_int_inv (q & -> & Hq)%num_int_inv. unfold num_add, num_of_Z. f_equal.
  apply Qred_int. rewrite Hp, Hq. by rewrite inject_Z_plus.
Qed.

(** Comparisons of an integral number with integers. *)
Lemma Qle_bool_int a b x y :
  num_int (Fin x) = Some a → num_int (Fin y) = Some b → Qle_bool x y = (a <=? b).
Proof.
  unfold num_int, Qle_bool. intros Ha Hb.
  destruct x as [nx dx], y as [ny dy]; cbn [Qnum Qden] in *.
  destruct (nx mod Z.pos dx =? 0) eqn:Ex; [|done].
  destruct (ny mod Z.pos dy =? 0) eqn:Ey; [|done].
  injection Ha as Ea. injection Hb as Eb. bool_to_prop.
  pose proof (Z.div_mod nx (Z.pos dx) ltac:(lia)) as Hx.
  pose proof (Z.div_mod ny (Z.pos dy) ltac:(lia)) as Hy.
  rewrite Ea, Ex in Hx. rewrite Eb, Ey in Hy. subst nx ny. clear.
  replace ((Z.pos dx * a + 0) * Z.pos dy) with (Z.pos (dx * dy) * a) by lia.
  replace ((Z.pos dy * b + 0) * Z.pos dx) with (Z.pos (dx * dy) * b) by lia.
  apply Bool.eq_iff_eq_true. rewrite !Z.leb_le. symmetry. apply Z.mul_le_mono_pos_l. lia.
Qed.

Lemma num_le_int x y a b :
  num_int x = Some a → num_int y = Some b → num_le x y = (a <=? b).
Proof. destruct x, y; try done. apply Qle_bool_int. Qed.

(** ** [Number] on integer literals *)

Definition INT_PATTERN : re :=
  RSeqs [RBol false; RSeq (ROpt (RChar (Z.eqb 45))) (RPlus (RChar is_digit)); REol false].

(** The strings [/^-?\d+$/] accepts, with the integer each writes. *)
Definition int_literal (s : jsstr) (z : Z) : Prop :=
  ∃ (neg : bool) (ds : jsstr), s = (if neg then [45] else []) ++ ds ∧ ds ≠ [] ∧
            Forall (λ c, is_digit c = true) ds ∧
            z = if neg then - digits_value ds else digits_value ds.

Lemma test_INT_PATTERN s : test INT_PATTERN s = true ↔ ∃ z, int_literal s z.
Proof.
  unfold INT_PATTERN. rewrite test_anchored by done. split.
  - intros (u & v & -> & Hu & [Hn Hv]%lang_plus_class).
    destruct Hu as [(c & -> & Hc)| ->].
    + apply Z.eqb_eq in Hc as <-. eexists. by exists true, v.
    + eexists. by exists false, v.
  - intros (z & neg & ds & -> & Hn & Hd & _).
    exists (if neg then [45] else []), ds. rewrite lang_plus_class.
    repeat split; try done. destruct neg; [left; by exists 45|by right].
Qed.

Lemma digits_value_acc_nonneg ds acc :
  0 <= acc → Forall (λ c, is_digit c = true) ds →
  0 <= fold_left (λ acc c, acc * 10 + (c - 48)) ds acc.
Proof.
  intros Ha H. revert acc Ha. induction H as [|c ds Hc _ IH]; intros acc Ha; simpl; [done|].
  apply IH. unfold is_digit in Hc. lia.
Qed.

Lemma span_digits_all ds :
  Forall (λ c, is_digit c = true) ds → span_digits ds = (ds, []).
Proof. induction 1 as [|c ds Hc _ IH]; simpl; [done|]. by rewrite Hc, IH. Qed.

Lemma decimal_value_digits ds :
  ds ≠ [] → Forall (λ c, is_digit c = true) ds →
  decimal_value ds = Some (inject_Z (digits_value ds) * pow10 0)%Q.
Proof.
  intros Hn H. unfold decimal_value. rewrite span_digits_all by done.
  rewrite app_nil_r. by destruct ds.
Qed.

Lemma int_literal_trimmed s z : int_literal s z → trimmed s.
Proof.
  intros (neg & ds & -> & _ & Hd & _). apply no_ws_trimmed, Forall_app. split.
  - destruct neg; repeat constructor.
  - eapply Forall_impl; [exact Hd|]. intros c Hc. apply is_ws_graph.
    unfold is_digit in Hc. lia.
Qed.

Lemma int_literal_det s z z' : int_literal s z → int_literal s z' → z = z'.
Proof.
  intros (n & ds & -> & _ & Hd & ->) (n' & ds' & E & _ & Hd' & ->).
  destruct n, n'; simpl in E; simplify_eq; try done.
  - inversion Hd'. done.
  - inversion Hd. done.
Qed.

Lemma round_double_shift0 (z : Z) :
  round_double (inject_Z z * pow10 0) = num_of_Z z.
Proof. unfold round_double, num_of_Z, Qmult, pow10; simpl. by rewrite Z.mul_1_r. Qed.

Lemma round_double_shift0_neg (z : Z) :
  round_double (- (inject_Z z * pow10 0)) = num_of_Z (- z).
Proof. unfold round_double, num_of_Z, Qmult, Qopp, pow10; simpl. by rewrite Z.mul_1_r. Qed.

Lemma js_Number_int s z : int_literal s z → js_Number s = num_of_Z z.
Proof.
  intros Hs. pose proof (int_literal_trimmed _ _ Hs) as Ht.
  destruct Hs as (neg & ds & -> & Hn & Hd & ->).
  unfold js_Number. rewrite trim_trimmed_id by done.
  destruct ds as [|c ds]; [done|]. inversion Hd as [|? ? Hc Hds]; subst.
  assert (Hr : radix_literal ((if neg then [45] else []) ++ c :: ds) = None).
  { unfold radix_literal. destruct neg; simpl; [by destruct ds|].
    destruct ds as [|d ds]; [done|]. inversion Hds as [|? ? Hd1 _]; subst.
    unfold is_digit in Hd1. repeat (case_cond; [first [done|lia]|]). done. }
  rewrite Hr. assert (Hsig : signed ((if neg then [45] else []) ++ c :: ds) = (neg, c :: ds)).
  { destruct neg; simpl; [done|]. unfold is_digit in Hc.
    repeat (case_cond; [lia|]). done. }
  rewrite Hsig. rewrite decimal_value_digits by done.
  assert (Htr : truthy ((if neg then [45] else []) ++ c :: ds) = true)
    by (destruct neg; reflexivity).
  rewrite Htr. cbn [negb].
  replace (str_eqb (c :: ds) "Infinity") with false.
  - destruct neg; [apply round_double_shift0_neg|apply round_double_shift0].
  - symmetry. apply str_eqb_neq. intros [= -> ->]. done.
Qed.

Lemma js_Number_trim_int s z : int_literal (trim s) z → js_Number s = num_of_Z z.
Proof. intros Hz. rewrite <- (js_Number_int _ _ Hz). unfold js_Number. by rewrite trim_idem. Qed.
