(* ===== verification/Host.v ===== *)
(** * The host environment

    What the program takes from the browser and is not code of the repository: URL
    parsing, date parsing.  Each is a class of operations; its laws are the
    documented behaviour (WHATWG URL, ECMAScript Date) the program relies on. *)
From Stdlib Require Import ZArith Lia List.
From stdpp Require Import base list sets.
From S2P Require Import Prelude.

(** ** URL *)

Record URL := {
  u_protocol : jsstr;
  u_username : jsstr;
  u_password : jsstr;
  u_hostname : jsstr;
  u_origin : jsstr;
  u_pathname : jsstr;
  u_params : list (jsstr * jsstr);
  u_hash : jsstr;
}.

(** [new URL(s, base)] ([None] when it throws), [searchParams.set], [toString]. *)
Class UrlApi := {
  new_URL : jsstr → option jsstr → option URL;
  URL_toString : URL → jsstr;
  (** An IPv6 host is serialised between brackets, and no other host has a colon. *)
  URL_ipv6_brackets s b u :
    new_URL s b = Some u → 58 ∈ u_hostname u → head (u_hostname u) = Some 91;
  (** Serialising and parsing back preserves the origin. *)
  URL_reparse_origin s b u ps :
    new_URL s b = Some u →
    ∃ u', new_URL (URL_toString {| u_protocol := u_protocol u; u_username := u_username u;
             u_password := u_password u; u_hostname := u_hostname u; u_origin := u_origin u;
             u_pathname := u_pathname u; u_params := ps; u_hash := u_hash u |}) None = Some u'
          ∧ u_origin u' = u_origin u;
}.

(** [searchParams.set(name, value)]: the first pair of that name takes the value, the
    others of the name go, a missing name is added at the end. *)
Fixpoint params_set (name value : jsstr) (ps : list (jsstr * jsstr)) : list (jsstr * jsstr) :=
  match ps with
  | [] => [(name, value)]
  | (n, v) :: ps' =>
    if str_eqb n name
    then (name, value) :: List.filter (λ p, negb (str_eqb p.1 name)) ps'
    else (n, v) :: params_set name value ps'
  end.

Definition searchParams_set (name value : jsstr) (u : URL) : URL :=
  {| u_protocol := u_protocol u; u_username := u_username u; u_password := u_password u;
     u_hostname := u_hostname u; u_origin := u_origin u; u_pathname := u_pathname u;
     u_params := params_set name value (u_params u); u_hash := u_hash u |}.

Lemma params_set_get name value ps :
  List.filter (λ p, str_eqb p.1 name) (params_set name value ps) = [(name, value)].
Proof.
  induction ps as [|[n v] ps IH]; simpl; [by rewrite str_eqb_refl|].
  destruct (str_eqb n name) eqn:E; simpl.
  - rewrite str_eqb_refl. f_equal. clear. induction ps as [|p ps IH]; simpl; [done|].
    destruct (str_eqb p.1 name) eqn:E; simpl; by rewrite ?E.
  - by rewrite E.
Qed.

(** ** Date.parse *)

(** Milliseconds since the epoch, [None] for NaN. *)
Class DateApi := { Date_parse : jsstr → option Z }.

(** ** A concrete host for the witnesses

    It knows absolute [http] and [https] URLs without user information, port or
    query, and absolute paths against such a base. *)

Definition host_char (c : Z) : bool :=
  is_lower c || is_digit c || (c =? 45) || (c =? 46).

Definition not_query (c : Z) : bool := negb (c =? 63).

Definition simple_authority (proto r : jsstr) : option URL :=
  let '(h, rest) := span host_char r in
  if negb (truthy h) then None
  else if negb (str_eqb rest [] || startsWith "/" rest) then None
  else Some {| u_protocol := proto; u_username := []; u_password := []; u_hostname := h;
               u_origin := proto ++ "//" ++ h;
               u_pathname := str_or (span not_query rest).1 "/"; u_params := []; u_hash := [] |}.

Definition simple_absolute (s : jsstr) : option URL :=
  if startsWith "https://" s then simple_authority "https:" (drop 8 s)
  else if startsWith "http://" s then simple_authority "http:" (drop 7 s)
  else None.

Definition simple_new_URL (s : jsstr) (base : option jsstr) : option URL :=
  match base with
  | Some b =>
    if startsWith "/" s then
      match simple_absolute b with
      | Some u => Some {| u_protocol := u_protocol u; u_username := []; u_password := [];
                          u_hostname := u_hostname u; u_origin := u_origin u;
                          u_pathname := (span not_query s).1; u_params := []; u_hash := [] |}
      | None => None
      end
    else simple_absolute s
  | None => simple_absolute s
  end.

Definition query_string (ps : list (jsstr * jsstr)) : jsstr :=
  if decide (ps = []) then []
  else "?" ++ join "&" ((λ p : jsstr * jsstr, p.1 ++ "=" ++ p.2) <$> ps).

Definition simple_toString (u : URL) : jsstr :=
  u_origin u ++ u_pathname u ++ query_string (u_params u).

(** The shape of what the concrete parser returns. *)
Definition simple_ok (u : URL) : Prop :=
  (u_protocol u = "https:" ∨ u_protocol u = "http:") ∧ u_hostname u ≠ [] ∧
  Forall (λ c, host_char c = true) (u_hostname u) ∧
  u_origin u = u_protocol u ++ "//" ++ u_hostname u ∧ ∃ t, u_pathname u = 47 :: t.

Lemma simple_authority_ok proto r u :
  (proto = "https:" ∨ proto = "http:") → simple_authority proto r = Some u → simple_ok u.
Proof.
  intros Hp. unfold simple_authority. pose proof (span_parts host_char r) as Hh.
  destruct (span host_char r) as [h rest]; simpl in Hh.
  destruct (truthy h) eqn:Et; cbn [negb]; [|done]. apply truthy_spec in Et.
  destruct (str_eqb rest [] || startsWith "/" rest) eqn:Er; cbn [negb]; [|done].
  intros [= <-]. split_and!; simpl; try done.
  apply orb_true_iff in Er as [Er|Er].
  - apply str_eqb_eq in Er as ->. by exists [].
  - apply startsWith_spec in Er as [t ->]. simpl.
    destruct (span not_query t) as [a b]. by exists a.
Qed.

Lemma simple_absolute_ok s u : simple_absolute s = Some u → simple_ok u.
Proof.
  unfold simple_absolute. repeat case_cond; [| |done]; apply simple_authority_ok; auto.
Qed.

Lemma simple_new_URL_ok s b u : simple_new_URL s b = Some u → simple_ok u.
Proof.
  unfold simple_new_URL. destruct b as [b|]; [|apply simple_absolute_ok].
  destruct (startsWith "/" s) eqn:Es; [|apply simple_absolute_ok].
  destruct (simple_absolute b) as [v|] eqn:E; [|done]. intros [= <-].
  apply simple_absolute_ok in E as (? & ? & ? & ? & _). split_and!; try done. simpl.
  apply startsWith_spec in Es as [t ->]. simpl.
  destruct (span not_query t) as [a c]. by exists a.
Qed.

Lemma simple_reparse u rest :
  simple_ok u → ∃ v, simple_absolute (u_origin u ++ u_pathname u ++ rest) = Some v
                     ∧ u_origin v = u_origin u.
Proof.
  intros (Hp & Hn & Hh & Ho & t & Ht). rewrite Ho, Ht.
  assert (Ha : ∀ proto, simple_authority proto (u_hostname u ++ (47 :: t) ++ rest) =
    Some {| u_protocol := proto; u_username := []; u_password := []; u_hostname := u_hostname u;
            u_origin := proto ++ "//" ++ u_hostname u;
            u_pathname := str_or (span not_query ((47 :: t) ++ rest)).1 "/";
            u_params := []; u_hash := [] |}).
  { intros proto. unfold simple_authority. rewrite span_all; [|done|].
    2:{ intros c t' E. simpl in E. by simplify_eq. }
    apply truthy_spec in Hn. by rewrite Hn. }
  destruct Hp as [-> | ->]; eexists; split; try apply Ha; done.
Qed.

#[export, refine] Instance simple_url : UrlApi := {|
  new_URL := simple_new_URL; URL_toString := simple_toString |}.
Proof.
  - intros s b u Hu Hc. apply simple_new_URL_ok in Hu as (_ & _ & Hh & _).
    rewrite Forall_forall in Hh. by apply Hh in Hc.
  - intros s b u ps Hu. apply simple_new_URL_ok in Hu as Hok.
    destruct (simple_reparse u (query_string ps) Hok) as (v & Hv & E). by exists v.
Defined.
