(* ===== verification/Validation.v ===== *)
(** * Input validation

    [src/web/src/lib/validation.ts] and the small guards of the dialogs
    ([tenant-delete.ts], [api-client-dialog.ts], [api-client-sort.ts],
    [secret-display.ts]).  Each validator is proved equivalent to the grammar it
    stands for, and the grammars are related: a tenant slug is always a resource
    alias and a hostname. *)
From Stdlib Require Import ZArith Lia List.
From stdpp Require Import base list sets.
From S2P Require Import Prelude Regex Numbers Host.

Module Validation.

(** ** The validators *)

Definition slug_char (c : Z) : bool := is_lower c || is_digit c.
Definition key_char (c : Z) : bool := slug_char c || one_of "_-" c.
Definition alias_char (c : Z) : bool := slug_char c || one_of "._-" c.
Definition label_char (c : Z) : bool := slug_char c || (c =? 45).

(** [/^[a-z0-9]+(?:-[a-z0-9]+)*$/] *)
Definition TENANT_SLUG_PATTERN : re :=
  RSeqs [RBol false;
         RSeq (RPlus (RChar slug_char)) (RStar true (RSeq (RStr "-") (RPlus (RChar slug_char))));
         REol false].

(** [/^[a-z][a-z0-9_-]{0,62}$/] *)
Definition DEFINITION_KEY_PATTERN : re :=
  RSeqs [RBol false; RSeq (RChar is_lower) (RUpTo 62 (RChar key_char)); REol false].

(** [/^[a-z0-9][a-z0-9._-]{0,62}$/] *)
Definition RESOURCE_ALIAS_PATTERN : re :=
  RSeqs [RBol false; RSeq (RChar slug_char) (RUpTo 62 (RChar alias_char)); REol false].

Definition isValidTenantSlug (value : jsstr) : bool :=
  let slug := trim value in
  (length slug <=? 63)%nat && test TENANT_SLUG_PATTERN slug.

Definition isValidDefinitionKey (value : jsstr) : bool :=
  test DEFINITION_KEY_PATTERN (trim value).

Definition isValidResourceAlias (value : jsstr) : bool :=
  test RESOURCE_ALIAS_PATTERN (trim value).

(** [/\.$/] and [/^[a-z0-9-]+$/] of [isValidHostname]. *)
Definition TRAILING_DOT : re := RSeq (RStr ".") (REol false).
Definition HOST_LABEL_PATTERN : re := RSeqs [RBol false; RPlus (RChar label_char); REol false].

Definition isValidHostname `{CaseMap} (value : jsstr) : bool :=
  let hostname := replace_first TRAILING_DOT (λ _ _, []) (toLowerCase (trim value)) in
  if negb (truthy hostname) || (253 <? length hostname)%nat then false
  else forallb (λ label,
         (0 <? length label)%nat && (length label <=? 63)%nat
         && negb (startsWith "-" label) && negb (endsWith "-" label)
         && test HOST_LABEL_PATTERN label) (split 46 hostname).

Definition isValidWebhookURL `{UrlApi} (value : jsstr) : bool :=
  match new_URL (trim value) None with
  | None => false
  | Some parsed =>
    if truthy (u_username parsed) || truthy (u_password parsed) || truthy (u_hash parsed)
       || negb (truthy (u_hostname parsed)) then false
    else if str_eqb (u_protocol parsed) "https:" then true
    else str_eqb (u_protocol parsed) "http:"
         && bool_decide (u_hostname parsed ∈ ["localhost"; "127.0.0.1"; "::1"])
  end.

Definition isIntegerInRange (value : jsstr) (minimum maximum : Z) : bool :=
  if negb (test INT_PATTERN (trim value)) then false
  else
    let parsed := js_Number value in
    isSafeInteger parsed && num_le (num_of_Z minimum) parsed && num_le parsed (num_of_Z maximum).

Definition isValidDateRange `{DateApi} (from to : jsstr) : bool :=
  match Date_parse from, Date_parse to with
  | Some fromTime, Some toTime => fromTime <? toTime
  | _, _ => false
  end.

Definition isValidTypedResourceValue (dataType value : jsstr) : bool :=
  if str_eqb value [] then true
  else if str_eqb dataType "int" then test INT_PATTERN value
  else if str_eqb dataType "bool" then str_eqb value "true" || str_eqb value "false"
  else true.

(** ** Guards of the dialogs *)

(** [tenant-delete.ts]: the typed confirmation of a hard delete. *)
Definition matchesTenantSlug (typedValue tenantSlug : jsstr) : bool :=
  str_eqb (trim typedValue) tenantSlug.

(** [api-client-dialog.ts] *)
Definition canChangeAPIClientDialogOpen (nextOpen isCreating : bool) : bool :=
  nextOpen || negb isCreating.

Definition isDuplicateAPIClientName `{CaseMap} (name : jsstr) (existingNames : list jsstr) : bool :=
  let normalizedName := toLowerCase (trim name) in
  if negb (truthy normalizedName) then false
  else existsb (λ candidate, str_eqb (toLowerCase (trim candidate)) normalizedName) existingNames.

(** [api-client-sort.ts] *)
Definition apiClientCreatedAtSortValue `{DateApi} (value : option jsstr) : Z :=
  match Date_parse (default [] value) with Some timestamp => timestamp | None => 0 end.

(** [secret-display.ts] *)
Definition SECRET_MASK : jsstr := "••••••••••••".

Definition displaySecretValue (isSecret revealed : bool) (value : jsstr) : jsstr :=
  if negb isSecret then value else if revealed then value else SECRET_MASK.

(** ** Grammars *)

Definition chars (p : cset) (s : jsstr) : Prop := Forall (λ c, p c = true) s.

(** A tenant slug: non-empty runs of [a-z0-9] joined by single hyphens. *)
Definition slug_grammar (s : jsstr) : Prop :=
  ∃ ps, ps ≠ [] ∧ Forall (λ p, p ≠ [] ∧ chars slug_char p) ps ∧ s = join "-" ps.

Definition alias_grammar (s : jsstr) : Prop :=
  ∃ c t, s = c :: t ∧ slug_char c = true ∧ (length t <= 62)%nat ∧ chars alias_char t.

Definition key_grammar (s : jsstr) : Prop :=
  ∃ c t, s = c :: t ∧ is_lower c = true ∧ (length t <= 62)%nat ∧ chars key_char t.

(** A host label, RFC 1123: 1 to 63 letters, digits and hyphens, none at the ends. *)
Definition label_grammar (l : jsstr) : Prop :=
  (1 <= length l <= 63)%nat ∧ chars label_char l
  ∧ ¬ (∃ t, l = 45 :: t) ∧ ¬ (∃ t, l = t ++ [45]).

Definition hostname_grammar (h : jsstr) : Prop :=
  h ≠ [] ∧ (length h <= 253)%nat ∧ ∃ ls, ls ≠ [] ∧ Forall label_grammar ls ∧ h = join "." ls.

(** One dot at the end, the root of the domain name, is dropped. *)
Definition strip_dot (s : jsstr) : jsstr := if endsWith "." s then removelast s else s.

(** ** Lemmas *)

Lemma slug_char_not_hyphen c : slug_char c = true → c ≠ 45.
Proof. unfold slug_char, is_lower, is_digit. lia. Qed.

Lemma slug_char_ascii c : slug_char c = true → is_ascii c = true.
Proof. unfold slug_char, is_lower, is_digit, is_ascii. lia. Qed.

Lemma slug_char_lower c : slug_char c = true → ascii_lower c = c.
Proof. unfold slug_char, is_lower, is_digit, ascii_lower, is_upper. case_cond; lia. Qed.

Lemma slug_alias_char c : slug_char c = true → alias_char c = true.
Proof. unfold alias_char. by intros ->. Qed.

Lemma slug_label_char c : slug_char c = true → label_char c = true.
Proof. unfold label_char. by intros ->. Qed.
#[export] Hint Resolve slug_alias_char slug_label_char slug_char_ascii : js.

Lemma test_slug s : test TENANT_SLUG_PATTERN s = true ↔ slug_grammar s.
Proof.
  unfold TENANT_SLUG_PATTERN. rewrite test_anchored by done. rewrite lang_sep_list.
  unfold slug_grammar. split; intros (ps & ? & H & ?); exists ps; repeat split; try done;
    eapply Forall_impl; try exact H; intros p; by rewrite lang_plus_class.
Qed.

Lemma lang_head_class p q n s :
  lang (RSeq (RChar p) (RUpTo n (RChar q))) s ↔
  ∃ c t, s = c :: t ∧ p c = true ∧ (length t <= n)%nat ∧ chars q t.
Proof.
  split.
  - intros (u & v & -> & (c & -> & Hc) & [? ?]%lang_upto_class). exists c, v. auto.
  - intros (c & t & -> & Hc & ? & ?). exists [c], t. rewrite lang_upto_class.
    split; [done|]. split; [|done]. exists c. auto.
Qed.

Lemma test_alias s : test RESOURCE_ALIAS_PATTERN s = true ↔ alias_grammar s.
Proof. unfold RESOURCE_ALIAS_PATTERN. rewrite test_anchored by done. apply lang_head_class. Qed.

Lemma test_key s : test DEFINITION_KEY_PATTERN s = true ↔ key_grammar s.
Proof. unfold DEFINITION_KEY_PATTERN. rewrite test_anchored by done. apply lang_head_class. Qed.

(** The characters of a slug, and its two ends. *)
Lemma slug_chars s : slug_grammar s → Forall (λ c, slug_char c = true ∨ c = 45) s.
Proof.
  intros (ps & _ & Hps & ->). apply Forall_forall. intros c Hc.
  apply elem_of_join in Hc as [Hc|(p & Hp & Hc)].
  - apply list_elem_of_singleton in Hc. by right.
  - rewrite Forall_forall in Hps. destruct (Hps p Hp) as [_ H]. left.
    unfold chars in H. rewrite Forall_forall in H. by apply H.
Qed.

Lemma slug_head s : slug_grammar s → ∃ c t, s = c :: t ∧ slug_char c = true.
Proof.
  intros (ps & Hn & Hps & ->). destruct Hps as [|p ps [Hp Hc] _]; [done|].
  destruct Hc as [|c t Hc _]; [done|]. destruct ps; [by exists c, t|].
  rewrite join_cons2. eexists c, _. by split.
Qed.

Lemma slug_last s : slug_grammar s → ∃ c t, s = t ++ [c] ∧ slug_char c = true.
Proof.
  intros (ps & Hn & Hps & ->). induction Hps as [|p ps [Hp Hc] Hps IH]; [done|].
  destruct ps as [|q ps].
  - destruct p as [|c p] using rev_ind; [done|]. exists c, p. split; [done|].
    apply Forall_app in Hc as [_ Hc]. by inversion Hc.
  - destruct IH as (c & t & E & Hl); [done|]. exists c, (p ++ "-" ++ t). split; [|done].
    rewrite join_cons2, E. by rewrite <- !app_assoc.
Qed.

Lemma replace_trailing_dot s : replace_first TRAILING_DOT (λ _ _, []) s = strip_dot s.
Proof.
  unfold replace_first, exec, strip_dot.
  destruct (exec_from TRAILING_DOT None s) as [[[pre at_] y]|] eqn:E.
  - apply exec_from_sound in E as [-> H]. unfold TRAILING_DOT in H.
    inversion H as [| |? ? ? z ? H1 H2| | | | | | | |]; subst.
    apply rstep_lang in H1 as (w & Hw & (d & -> & Hd) & _); [|done].
    apply Z.eqb_eq in Hd as <-.
    inversion H2 as [| | | | | | | | |? ? He|]; subst. unfold at_eol in He.
    destruct (m_rest y); [|done]. simpl in Hw. rewrite Hw.
    replace (endsWith "." (pre ++ ".")) with true by (symmetry; apply endsWith_spec; eauto).
    by rewrite removelast_last, !app_nil_r.
  - destruct (endsWith "." s) eqn:Hd; [|done]. apply endsWith_spec in Hd as [t ->].
    destruct (exec_from_complete TRAILING_DOT None t "." (advance (Mst (prev_after None t) "." []) 46 []))
      as [x Hx]; [|by rewrite E in Hx].
    econstructor; [by econstructor|]. by constructor.
Qed.

(** The test of one label in [isValidHostname]. *)
Lemma label_test label :
  (0 <? length label)%nat && (length label <=? 63)%nat
  && negb (startsWith "-" label) && negb (endsWith "-" label)
  && test HOST_LABEL_PATTERN label = true ↔ label_grammar label.
Proof.
  unfold HOST_LABEL_PATTERN, label_grammar.
  rewrite !andb_true_iff, !negb_true_iff, test_anchored, lang_plus_class by done.
  rewrite Nat.ltb_lt, Nat.leb_le, <- !not_true_iff_false, startsWith_spec, endsWith_spec.
  unfold chars. split; intros H; destruct_and!; split_and!; try assumption; try lia.
  intros ->. simpl in *. lia.
Qed.

Lemma label_no_dot l : label_grammar l → 46 ∉ l.
Proof.
  intros (_ & Hc & _) Hin. unfold chars in Hc. rewrite Forall_forall in Hc.
  by apply Hc in Hin.
Qed.

(** ** Properties *)

(** A tenant slug is accepted exactly when, without the white space around it, it
    is at most 63 code units long and made of non-empty runs of [a-z0-9] joined by
    single hyphens. *)
Theorem isValidTenantSlug_spec value :
  isValidTenantSlug value = true ↔ (length (trim value) <= 63)%nat ∧ slug_grammar (trim value).
Proof. unfold isValidTenantSlug. by rewrite andb_true_iff, Nat.leb_le, test_slug. Qed.

Lemma hostname_split_spec h :
  h ≠ [] →
  forallb (λ label,
     (0 <? length label)%nat && (length label <=? 63)%nat
     && negb (startsWith "-" label) && negb (endsWith "-" label)
     && test HOST_LABEL_PATTERN label) (split 46 h) = true ↔
  ∃ ls, ls ≠ [] ∧ Forall label_grammar ls ∧ h = join "." ls.
Proof.
  intros Hh. rewrite forallb_forall. setoid_rewrite label_test. split.
  - intros H. exists (split 46 h). split; [apply split_on_nonnil|].
    split; [|symmetry; apply join_split].
    apply Forall_forall. intros l Hl. by apply H, list_elem_of_In.
  - intros (ls & Hn & Hls & ->). rewrite split_join; [|done|].
    + intros l Hl%list_elem_of_In. rewrite Forall_forall in Hls. by apply Hls.
    + eapply Forall_impl; [exact Hls|]. apply label_no_dot.
Qed.

(** C30. A host name is accepted exactly when, trimmed, lower-cased and without one
    trailing dot, it is a dot-separated list of RFC 1123 labels of at most 253 code
    units in all, whatever the host's case mapping is. *)
Theorem isValidHostname_spec `{CaseMap} value :
  isValidHostname value = true ↔ hostname_grammar (strip_dot (toLowerCase (trim value))).
Proof.
  unfold isValidHostname, hostname_grammar. rewrite replace_trailing_dot.
  set (h := strip_dot _). destruct (truthy h) eqn:Ht; simpl.
  - apply truthy_spec in Ht. destruct (253 <? length h)%nat eqn:El.
    + apply Nat.ltb_lt in El. split; [done|]. lia.
    + apply Nat.ltb_ge in El. rewrite hostname_split_spec by done. tauto.
  - split; [done|]. intros [Hn _]. by apply truthy_spec in Hn; rewrite Hn in Ht.
Qed.

(** A slug is itself a host label. *)
Lemma slug_label s : slug_grammar s → (length s <= 63)%nat → label_grammar s.
Proof.
  intros Hs Hl. destruct (slug_head s Hs) as (c & t & Ec & Hc).
  destruct (slug_last s Hs) as (d & u & Ed & Hd).
  split; [rewrite Ec in *; simpl in *; lia|]. split; [|split].
  - apply (Forall_impl _ _ _ (slug_chars s Hs)). intros x [?| ->]; [auto with js|done].
  - intros [v Hv]. rewrite Ec in Hv. apply slug_char_not_hyphen in Hc. congruence.
  - intros [v Hv]. rewrite Ed in Hv. apply slug_char_not_hyphen in Hd.
    apply app_inj_2 in Hv as [_ Hv]; [congruence|done].
Qed.

Lemma slug_lower `{CaseMap} s : slug_grammar s → toLowerCase s = s.
Proof.
  intros Hs. pose proof (slug_chars s Hs) as Hc. clear Hs.
  rewrite toLowerCase_ascii.
  - induction Hc as [|c s Hc _ IH]; simpl; [done|].
    f_equal; [|done]. destruct Hc as [?| ->]; [by apply slug_char_lower|done].
  - apply forallb_forall. intros c Hin%list_elem_of_In. rewrite Forall_forall in Hc.
    destruct (Hc c Hin) as [?| ->]; auto with js.
Qed.

(** Every accepted tenant slug is accepted as a resource alias and, the host's case
    mapping being ASCII's on ASCII, as a host name: the three validators agree on the
    identifiers the product derives from one another. *)
Theorem tenant_slug_is_alias_and_hostname `{CaseMap} value :
  isValidTenantSlug value = true →
  isValidResourceAlias value = true ∧ isValidHostname value = true.
Proof.
  rewrite isValidTenantSlug_spec. intros [Hl Hs]. split.
  - unfold isValidResourceAlias. apply test_alias.
    destruct (slug_head _ Hs) as (c & t & E & Hc). exists c, t. repeat split; try done.
    + rewrite E in Hl. simpl in Hl. lia.
    + pose proof (slug_chars _ Hs) as Hch. rewrite E in Hch. inversion Hch; subst.
      eapply Forall_impl; [done|]. intros x [?| ->]; [auto with js|done].
  - apply isValidHostname_spec. rewrite slug_lower by done.
    assert (strip_dot (trim value) = trim value) as ->.
    { unfold strip_dot. destruct (endsWith "." _) eqn:Ed; [|done].
      apply endsWith_spec in Ed as [t Et]. pose proof (slug_chars _ Hs) as Hch.
      rewrite Et in Hch. apply Forall_app in Hch as [_ Hch]. inversion Hch as [|? ? [?|?]]; done. }
    destruct (slug_head _ Hs) as (c & t & E & _).
    split; [by rewrite E|]. split; [lia|]. exists [trim value].
    split; [done|]. split; [|done]. constructor; [by apply slug_label|constructor].
Qed.

Lemma tenant_slug_is_alias_and_hostname_witness :
  isValidTenantSlug " acme-01 " = true ∧
  isValidResourceAlias " acme-01 " = true ∧ isValidHostname " acme-01 " = true.
Proof.
  split; [reflexivity|].
  apply (@tenant_slug_is_alias_and_hostname ascii_case_map). reflexivity.
Defined.

(** An accepted text denotes an integer of the range. *)
Lemma isIntegerInRange_number value minimum maximum :
  Z.abs minimum <= MAX_SAFE_INTEGER → Z.abs maximum <= MAX_SAFE_INTEGER →
  isIntegerInRange value minimum maximum = true →
  ∃ z, int_literal (trim value) z ∧ num_int (js_Number value) = Some z ∧ minimum <= z <= maximum ∧
       Z.abs z <= MAX_SAFE_INTEGER.
Proof.
  intros Hmin Hmax. unfold isIntegerInRange.
  destruct (test INT_PATTERN (trim value)) eqn:Et; simpl; [|done].
  apply test_INT_PATTERN in Et as [z Hz]. rewrite (js_Number_trim_int _ _ Hz).
  rewrite !andb_true_iff, isSafeInteger_num_of_Z. intros [[Hs Hlo] Hhi]. exists z.
  rewrite (num_le_int _ _ minimum z) in Hlo by auto using num_of_Z_safe.
  rewrite (num_le_int _ _ z maximum) in Hhi by auto using num_of_Z_safe.
  bool_to_prop. split_and!; auto using num_of_Z_safe.
Qed.

(** C31. Integer fields: a text is accepted exactly when its trimmed form writes an
    integer in decimal, that integer is in the range and is one a double represents
    exactly; rounding never lets a too large integer through. *)
Theorem isIntegerInRange_spec value minimum maximum :
  Z.abs minimum <= MAX_SAFE_INTEGER → Z.abs maximum <= MAX_SAFE_INTEGER →
  isIntegerInRange value minimum maximum = true ↔
  ∃ z, int_literal (trim value) z ∧ minimum <= z <= maximum ∧ Z.abs z <= MAX_SAFE_INTEGER.
Proof.
  intros Hmin Hmax. split.
  - intros (z & ? & ? & ? & ?)%isIntegerInRange_number; eauto.
  - intros (z & Hz & [? ?] & Hs). unfold isIntegerInRange.
    rewrite (proj2 (test_INT_PATTERN _)), (js_Number_trim_int _ _ Hz) by eauto. cbn [negb].
    rewrite !andb_true_iff, isSafeInteger_num_of_Z.
    rewrite (num_le_int _ _ minimum z), (num_le_int _ _ z maximum), !Z.leb_le
      by auto using num_of_Z_safe. done.
Qed.

Lemma isIntegerInRange_spec_witness :
  isIntegerInRange " 300" 1 10000 = true ↔
  ∃ z, int_literal (trim " 300") z ∧ 1 <= z <= 10000 ∧ Z.abs z <= MAX_SAFE_INTEGER.
Proof. apply (isIntegerInRange_spec " 300" 1 10000); vm_compute; discriminate. Defined.

(** Plain HTTP is accepted for the IPv4 loopback and [localhost] only: the third
    entry of the list, the IPv6 loopback, is never the host name of a parsed URL,
    because parsing keeps the brackets. *)
Theorem isValidWebhookURL_http `{UrlApi} value u :
  new_URL (trim value) None = Some u → u_protocol u = "http:" →
  isValidWebhookURL value = true ↔
  u_username u = [] ∧ u_password u = [] ∧ u_hash u = [] ∧
  (u_hostname u = "localhost" ∨ u_hostname u = "127.0.0.1").
Proof.
  intros Hu Hp. unfold isValidWebhookURL. rewrite Hu, Hp.
  assert (Hv6 : u_hostname u ≠ "::1").
  { intros Hh. pose proof (URL_ipv6_brackets _ _ _ Hu) as Hb. rewrite Hh in Hb.
    by specialize (Hb ltac:(left)). }
  replace (str_eqb "http:" "https:") with false by reflexivity.
  replace (str_eqb "http:" "http:") with true by reflexivity.
  destruct (u_username u), (u_password u), (u_hash u); cbn [truthy orb];
    try (split; [done|naive_solver]).
  destruct (truthy (u_hostname u)) eqn:Et; cbn [negb orb andb].
  - rewrite bool_decide_eq_true, !elem_of_cons, elem_of_nil. naive_solver.
  - split; [done|]. intros (_ & _ & _ & [Hh|Hh]); by rewrite Hh in Et.
Qed.

Lemma isValidWebhookURL_http_witness :
  ∃ u, new_URL (trim "http://localhost/hooks") None = Some u ∧ u_protocol u = "http:" ∧
  (isValidWebhookURL "http://localhost/hooks" = true ↔
   u_username u = [] ∧ u_password u = [] ∧ u_hash u = [] ∧
   (u_hostname u = "localhost" ∨ u_hostname u = "127.0.0.1")).
Proof.
  eexists. split; [reflexivity|]. split; [reflexivity|].
  apply isValidWebhookURL_http; reflexivity.
Defined.

End Validation.
