(* ===== verification/BasePath.v ===== *)
(** * Public base path

    [src/web/src/lib/runtime-base-path.ts]: the prefix the server writes in a meta
    element, the admin endpoints built under it, and the OIDC login address.  The
    document enters as the content of the meta element ([None] when it is absent). *)
From Stdlib Require Import ZArith Lia List.
From stdpp Require Import base list sets.
From S2P Require Import Prelude Regex Host.

(** The messages of the [Error]s thrown. *)
Inductive base_path_error :=
  | InvalidBasePath (configured : jsstr)
  | NotLocalEndpoint (endpoint : jsstr)
  | InvalidURL
  | NotSameOrigin.

Definition RUNTIME_BASE_PATH_META_NAME : jsstr := "tenancit-base-path".

Definition readRuntimeBasePath (meta : option jsstr) : result base_path_error jsstr :=
  let configured := default [] (trim <$> meta) in
  if negb (truthy configured) || str_eqb configured "/" then Ok "/"
  else
    let segments := split 47 (drop 1 configured) in
    if negb (startsWith "/" configured)
       || startsWith "//" configured
       || endsWith "/" configured
       || includes "?" configured
       || includes "#" configured
       || includes "\" configured
       || existsb (λ segment, negb (truthy segment) || str_eqb segment "."
                              || str_eqb segment "..") segments
    then Err (InvalidBasePath configured)
    else Ok configured.

(** [/^\/v1\/(?:admin|auth)(?:[/?]|$)/] *)
Definition ADMIN_PREFIX : re := RSeq (RStr "/v1/") (RAlt (RStr "admin") (RStr "auth")).
Definition ADMIN_ENDPOINT_PATTERN : re :=
  RSeqs [RBol false; ADMIN_PREFIX; RAlt (RChar (one_of "/?")) (REol false)].

Definition buildAdminEndpoint (endpoint : jsstr) (meta : option jsstr)
    : result base_path_error jsstr :=
  if negb (test ADMIN_ENDPOINT_PATTERN endpoint) then Err (NotLocalEndpoint endpoint)
  else
    basePath <-? readRuntimeBasePath meta;;
    Ok (if str_eqb basePath "/" then endpoint else basePath ++ endpoint).

Definition buildOIDCLoginURL `{UrlApi} (loginURL origin returnTo : jsstr)
    : result base_path_error jsstr :=
  match new_URL origin None with
  | None => Err InvalidURL
  | Some o =>
    let expectedOrigin := u_origin o in
    match new_URL loginURL (Some (expectedOrigin ++ "/")) with
    | None => Err InvalidURL
    | Some target =>
      if negb (str_eqb (u_origin target) expectedOrigin) then Err NotSameOrigin
      else Ok (URL_toString (searchParams_set "return_to" (str_or returnTo "/") target))
    end
  end.

(** ** Specification *)

(** A usable base path: absolute, of non-empty segments none of which is [.] or [..],
    without query, fragment or backslash. *)
Definition safe_segment (w : jsstr) : Prop :=
  w ≠ [] ∧ w ≠ "." ∧ w ≠ ".." ∧ Forall (λ c, c ≠ 47 ∧ c ≠ 63 ∧ c ≠ 35 ∧ c ≠ 92) w.

Definition base_path_grammar (p : jsstr) : Prop :=
  ∃ ws, ws ≠ [] ∧ Forall safe_segment ws ∧ p = 47 :: join "/" ws.

(** The endpoints the client may call. *)
Definition admin_endpoint (e : jsstr) : Prop :=
  ∃ p rest, (p = "/v1/admin" ∨ p = "/v1/auth") ∧ e = p ++ rest ∧
            (rest = [] ∨ ∃ t, rest = 47 :: t ∨ rest = 63 :: t).

(** ** Lemmas *)

Lemma ADMIN_ENDPOINT_PATTERN_spec e :
  test ADMIN_ENDPOINT_PATTERN e = true ↔ admin_endpoint e.
Proof.
  unfold ADMIN_ENDPOINT_PATTERN. cbn [RSeqs]. rewrite test_bol.
  rewrite rstep_seq_plain by done. unfold admin_endpoint. split.
  - intros (w & y & z & Hw & Hx & _ & Hz). destruct Hw as (u & v & -> & ->%lang_str & Hv).
    cbn [m_rest] in Hx. exists ("/v1/" ++ v), (m_rest y). split_and!; [|done|].
    + destruct Hv as [->%lang_str| ->%lang_str]; auto.
    + inversion Hz as [| | |? ? ? ? H1|? ? ? ? H1| | | | | |]; subst.
      * inversion H1 as [|? ? c s E Hc| | | | | | | | |]; subst. right. exists s. rewrite E.
        unfold one_of in Hc. rewrite bool_decide_eq_true in Hc. set_solver.
      * inversion H1 as [| | | | | | | | |? ? He|]; subst. unfold at_eol in He.
        left. by destruct (m_rest z).
  - intros (p & rest & Hp & -> & Hr).
    assert (Hl : lang ADMIN_PREFIX p).
    { destruct Hp as [-> | ->]; [exists "/v1/", "admin"|exists "/v1/", "auth"];
        cbn [lang]; rewrite !lang_str; auto. }
    destruct (lang_rstep ADMIN_PREFIX p (Mst None (p ++ rest) []) rest eq_refl Hl eq_refl)
      as (y & Hy & Ey & _).
    assert (∃ z, rstep (RAlt (RChar (one_of "/?")) (REol false)) y z) as [z Hz].
    { destruct Hr as [-> |[t [-> | ->]]]; eexists.
      - apply rs_alt_r, rs_eol. unfold at_eol. by rewrite Ey.
      - eapply rs_alt_l, rs_char; [done|reflexivity].
      - eapply rs_alt_l, rs_char; [done|reflexivity]. }
    exists p, y, z. split_and!; [done|by rewrite Ey|done|done].
Qed.

Lemma bad_segment_spec w :
  negb (truthy w) || str_eqb w "." || str_eqb w ".." = true ↔ w = [] ∨ w = "." ∨ w = "..".
Proof.
  rewrite !orb_true_iff, negb_true_iff, <- not_true_iff_false, truthy_spec, !str_eqb_eq.
  destruct w; naive_solver.
Qed.

(** Paths built from safe segments. *)
Section safe_paths.
Context (ws : list jsstr) (Hn : ws ≠ []) (Hws : Forall safe_segment ws).

Lemma safe_join_chars c : c = 63 ∨ c = 35 ∨ c = 92 → c ∉ 47 :: join "/" ws.
Proof.
  intros Hc Hin. rewrite elem_of_cons in Hin. destruct Hin as [Hin|Hin]; [lia|].
  apply elem_of_join in Hin as [Hin|(w & Hw & Hin)]; [set_solver|].
  rewrite Forall_forall in Hws. destruct (Hws w Hw) as (_ & _ & _ & Hf).
  rewrite Forall_forall in Hf. apply Hf in Hin. lia.
Qed.

Lemma safe_join_split : split 47 (join "/" ws) = ws.
Proof.
  apply split_join; [done|]. eapply Forall_impl; [exact Hws|].
  intros w (_ & _ & _ & Hf) Hin. rewrite Forall_forall in Hf. apply Hf in Hin. lia.
Qed.

Lemma safe_join_head t : join "/" ws ≠ 47 :: t.
Proof.
  destruct Hws as [|w l [Hw0 (_ & _ & Hf)] _]; [done|]. destruct w as [|c w]; [done|].
  inversion Hf as [|? ? Hc]; subst. destruct l; simpl; intros [= -> _]; lia.
Qed.

Lemma safe_join_last : ∃ u c, join "/" ws = u ++ [c] ∧ c ≠ 47.
Proof.
  clear -Hn Hws. induction Hws as [|w l Hw Hl IH]; [done|]. destruct l as [|v l].
  - destruct Hw as (Hw0 & _ & _ & Hf). destruct w as [|c w _] using rev_ind; [done|].
    exists w, c. apply Forall_app in Hf as [_ Hf]. inversion Hf; subst. split; [done|lia].
  - destruct IH as (u & c & E & Hc); [done..|]. exists (w ++ "/" ++ u), c.
    rewrite join_cons2, E, <- !app_assoc. done.
Qed.
End safe_paths.

Lemma split_safe t :
  (∀ c, c = 63 ∨ c = 35 ∨ c = 92 → c ∉ 47 :: t) →
  (∀ w, w ∈ split 47 t → ¬ (w = [] ∨ w = "." ∨ w = "..")) →
  Forall safe_segment (split 47 t).
Proof.
  intros Hc Hs. pose proof (split_parts 47 t) as Hp. rewrite Forall_forall in Hp.
  apply Forall_forall. intros w Hw. specialize (Hs w Hw). specialize (Hp w Hw).
  split_and!; [intros ->; tauto..|]. apply Forall_forall. intros c Hin.
  pose proof (join_elem_of c "/" _ w Hw Hin) as Ht. rewrite (join_split 47 t) in Ht.
  split_and!; intros ->; [done|..]; (eapply Hc; [|right; exact Ht]); auto.
Qed.

(** The rejected shapes, as one boolean: what is left is the grammar. *)
Lemma readRuntimeBasePath_configured p :
  p ≠ [] → p ≠ "/" →
  (negb (startsWith "/" p) || startsWith "//" p || endsWith "/" p || includes "?" p
   || includes "#" p || includes "\" p
   || existsb (λ w, negb (truthy w) || str_eqb w "." || str_eqb w "..") (split 47 (drop 1 p)))
  = false ↔ base_path_grammar p.
Proof.
  intros Hne Hns. rewrite !orb_false_iff, negb_false_iff, <- !not_true_iff_false.
  rewrite startsWith_spec, !includes_char, existsb_exists. setoid_rewrite bad_segment_spec. split.
  - intros [[[[[[[t ->] _] He] Hq] Hh] Hb] Hs]. simpl in Hs.
    exists (split 47 t). split_and!; [apply split_on_nonnil| |by rewrite join_split].
    apply split_safe; [by intros c [-> |[-> | ->]]|].
    intros w Hw Hbad. apply Hs. exists w. by rewrite <- list_elem_of_In.
  - intros (ws & Hn & Hws & ->). pose proof (safe_join_chars ws Hn Hws) as Hnc. split_and!.
    + by eexists.
    + rewrite startsWith_spec. intros [t Ht]. simpl in Ht. injection Ht as Ht.
      by apply safe_join_head in Ht.
    + rewrite endsWith_spec. intros [t Ht].
      destruct (safe_join_last ws Hn Hws) as (u & c & E & Hc). rewrite E in Ht.
      change (47 :: u ++ [c]) with ((47 :: u) ++ [c]) in Ht.
      apply app_inj_2 in Ht as [_ Ht]; [congruence|done].
    + apply Hnc. auto.
    + apply Hnc. auto.
    + apply Hnc. auto.
    + change (drop 1 (47 :: join "/" ws)) with (join "/" ws).
      rewrite (safe_join_split ws Hn Hws). intros (w & Hw%list_elem_of_In & Hbad).
      rewrite Forall_forall in Hws. destruct (Hws w Hw) as (? & ? & ? & _). naive_solver.
Qed.

(** ** Properties *)

(** Reading the base path returns the root, or a path of non-empty segments none of
    which is [.] or [..] and none of which holds a query, fragment or backslash; every
    other configured value is an error, and every such path is returned as it is. *)
Theorem readRuntimeBasePath_spec meta p :
  readRuntimeBasePath meta = Ok p ↔
  let configured := default [] (trim <$> meta) in
  (p = "/" ∧ (configured = [] ∨ configured = "/"))
  ∨ (p = configured ∧ base_path_grammar configured).
Proof.
  unfold readRuntimeBasePath. cbv zeta. set (q := default [] (trim <$> meta)).
  assert (Hg : ∀ w, base_path_grammar w → w ≠ [] ∧ w ≠ "/").
  { intros w (ws & Hn & Hws & ->). split; [done|].
    destruct Hws as [|v ws [Hv _] _]; [done|]. by destruct v, ws. }
  destruct (negb (truthy q) || str_eqb q "/") eqn:E.
  - rewrite orb_true_iff, negb_true_iff, <- not_true_iff_false, truthy_spec, str_eqb_eq in E.
    specialize (Hg q). split; [intros [= <-]; left; split; [done|]; destruct q; naive_solver|].
    intros [[-> _]|[-> Hq]]; [done|]. apply Hg in Hq. naive_solver.
  - apply orb_false_iff in E as [Et Es].
    apply negb_false_iff, truthy_spec in Et. apply str_eqb_neq in Es.
    pose proof (readRuntimeBasePath_configured q Et Es) as Hq.
    case_match; split.
    + done.
    + intros [[_ [?|?]]|[_ H']]; [done..|]. by apply Hq in H'.
    + intros [= <-]. right. split; [done|]. by apply Hq.
    + intros [[_ [?|?]]|[-> _]]; done.
Qed.

Lemma buildAdminEndpoint_local endpoint meta :
  admin_endpoint endpoint →
  buildAdminEndpoint endpoint meta
  = result_bind (readRuntimeBasePath meta)
      (λ base, Ok (if str_eqb base "/" then endpoint else base ++ endpoint)).
Proof. intros H%ADMIN_ENDPOINT_PATTERN_spec. unfold buildAdminEndpoint. by rewrite H. Qed.

(** C29. An address built for the admin client is the endpoint itself or the endpoint
    under a base path of the grammar, and the endpoint is always an admin or auth
    one: no other address of the origin can be built, and none fails otherwise. *)
Theorem buildAdminEndpoint_spec endpoint meta url :
  buildAdminEndpoint endpoint meta = Ok url ↔
  admin_endpoint endpoint ∧
  ∃ base, readRuntimeBasePath meta = Ok base ∧
          url = if str_eqb base "/" then endpoint else base ++ endpoint.
Proof.
  unfold buildAdminEndpoint. pose proof (ADMIN_ENDPOINT_PATTERN_spec endpoint) as Hp.
  destruct (test ADMIN_ENDPOINT_PATTERN endpoint); cbn [negb].
  - rewrite result_bind_ok. assert (admin_endpoint endpoint) by by apply Hp. split.
    + intros (base & ? & [= <-]). eauto.
    + intros (_ & base & ? & ->). eauto.
  - split; [done|]. intros [H _]. by apply Hp in H.
Qed.

(** The login address keeps the origin and carries one [return_to]. *)
Lemma searchParams_set_return_to u v :
  List.filter (λ p, str_eqb p.1 "return_to") (u_params (searchParams_set "return_to" v u))
  = [("return_to", v)].
Proof. apply params_set_get. Qed.

(** The OIDC login address always resolves to the application's own origin: a
    login URL of another origin is an error, never a redirect. *)
Theorem buildOIDCLoginURL_same_origin `{UrlApi} loginURL origin returnTo url :
  buildOIDCLoginURL loginURL origin returnTo = Ok url →
  ∃ o u, new_URL origin None = Some o ∧ new_URL url None = Some u ∧ u_origin u = u_origin o.
Proof.
  unfold buildOIDCLoginURL. destruct (new_URL origin None) as [o|] eqn:Eo; [|done].
  destruct (new_URL loginURL _) as [target|] eqn:Et; [|done].
  destruct (str_eqb (u_origin target) (u_origin o)) eqn:Es; simpl; [|done].
  intros [= <-]. apply str_eqb_eq in Es.
  destruct (URL_reparse_origin _ _ _
    (params_set "return_to" (str_or returnTo "/") (u_params target)) Et) as (u & Hu & E).
  exists o, u. split_and!; [done|exact Hu|congruence].
Qed.

Lemma buildOIDCLoginURL_same_origin_witness :
  buildOIDCLoginURL "/v1/auth/login" "https://admin.example" "/tenants"
    = Ok "https://admin.example/v1/auth/login?return_to=/tenants" ∧
  ∃ o u, new_URL "https://admin.example" None = Some o ∧
    new_URL "https://admin.example/v1/auth/login?return_to=/tenants" None = Some u ∧
    u_origin u = u_origin o.
Proof.
  split; [reflexivity|].
  apply (buildOIDCLoginURL_same_origin "/v1/auth/login" "https://admin.example" "/tenants").
  reflexivity.
Defined.
