(* ===== verification/Json.v ===== *)
(** * JSON

    [JSON.stringify] on the values the client sends: objects keep their enumeration
    order, numbers are the integers the forms produce.  Strings are quoted with the
    language's escapes, lone surrogates included.  [stringify] is injective
    ([stringify_inj]), which is what a fingerprint needs; the reader of one code unit it is proved
    with, [read_unit], is that of [JSON.parse]. *)
From Stdlib Require Import ZArith Lia List.
From stdpp Require Import base list sets.
From S2P Require Import Prelude Regex Numbers.

Inductive json :=
  | JNull
  | JBool (b : bool)
  | JNum (z : Z)
  | JStr (s : jsstr)
  | JArr (l : list json)
  | JObj (l : list (jsstr * json)).

(** ** Quoting *)

Definition hex_digit (n : Z) : Z := if n <? 10 then 48 + n else 87 + n.

Definition unicode_escape (c : Z) : jsstr :=
  "\u" ++ [hex_digit (c / 4096 mod 16); hex_digit (c / 256 mod 16);
           hex_digit (c / 16 mod 16); hex_digit (c mod 16)].

Definition is_high (c : Z) : bool := (55296 <=? c) && (c <=? 56319).
Definition is_low (c : Z) : bool := (56320 <=? c) && (c <=? 57343).

Definition escape_unit (c : Z) : jsstr :=
  if c =? 34 then 92 :: dq
  else if c =? 92 then "\\"
  else if c =? 8 then "\b"
  else if c =? 9 then "\t"
  else if c =? 10 then "\n"
  else if c =? 12 then "\f"
  else if c =? 13 then "\r"
  else if c <? 32 then unicode_escape c
  else [c].

(** A surrogate is kept inside a pair and escaped when alone. *)
Fixpoint quote_units (s : jsstr) : jsstr :=
  match s with
  | [] => []
  | c :: s' =>
    if is_high c then
      match s' with
      | d :: s'' => if is_low d then c :: d :: quote_units s''
                    else unicode_escape c ++ quote_units s'
      | [] => unicode_escape c
      end
    else if is_low c then unicode_escape c ++ quote_units s'
    else escape_unit c ++ quote_units s'
  end.

Definition quote (s : jsstr) : jsstr := 34 :: quote_units s ++ dq.

Fixpoint stringify (v : json) : jsstr :=
  match v with
  | JNull => "null"
  | JBool b => if b then "true" else "false"
  | JNum z => show_int z
  | JStr s => quote s
  | JArr l => "[" ++ join "," (map stringify l) ++ "]"
  | JObj l => "{" ++ join "," (map (λ '(k, v), quote k ++ ":" ++ stringify v) l) ++ "}"
  end.

(** ** Reading a quoted string *)

(** The escapes of one letter, with the code units they write. *)
Definition ESCAPES : list (Z * Z) :=
  [(34, 34); (92, 92); (47, 47); (98, 8); (102, 12); (110, 10); (114, 13); (116, 9)].

Definition unicode_value (a b c d : Z) : option Z :=
  x ← hex_val a; y ← hex_val b; z ← hex_val c; w ← hex_val d; Some (((x * 16 + y) * 16 + z) * 16 + w).

(** The code unit one token writes, and what follows: control characters are not allowed. *)
Definition read_unit (s : jsstr) : option (Z * jsstr) :=
  match s with
  | c :: t =>
    if c <? 32 then None
    else if negb (c =? 92) then Some (c, t)
    else match t with
         | e :: t' =>
           if e =? 117 then
             match t' with
             | a :: b :: c :: d :: t'' => u ← unicode_value a b c d; Some (u, t'')
             | _ => None
             end
           else p ← List.find (λ p, p.1 =? e) ESCAPES; Some (p.2, t')
         | [] => None
         end
  | [] => None
  end.

Fixpoint unquote (fuel : nat) (s : jsstr) : option (jsstr * jsstr) :=
  match fuel with
  | O => None
  | S f =>
    match s with
    | [] => None
    | c :: t =>
      if c =? 34 then Some ([], t)
      else match read_unit s with
           | Some (u, r) => match unquote f r with
                            | Some (us, r') => Some (u :: us, r')
                            | None => None
                            end
           | None => None
           end
    end
  end.

(** Code units are 16 bits wide. *)
Definition unit16 (c : Z) : Prop := 0 <= c < 65536.

Lemma hex_val_hex n : 0 <= n < 16 → hex_val (hex_digit n) = Some n.
Proof.
  intros Hn. unfold hex_val, hex_digit, is_digit.
  destruct (n <? 10) eqn:E; bool_to_prop; repeat case_cond; bool_to_prop; first [f_equal; lia|lia].
Qed.

Lemma read_unicode_escape c r : unit16 c → read_unit (unicode_escape c ++ r) = Some (c, r).
Proof.
  intros Hc. unfold unicode_escape, read_unit, unicode_value. simpl.
  rewrite !hex_val_hex by (apply Z.mod_pos_bound; lia). cbn [mbind option_bind]. do 2 f_equal.
  unfold unit16 in Hc.
  replace (c / 4096) with (c / 256 / 16) by by rewrite Z.div_div.
  replace (c / 256) with (c / 16 / 16) by by rewrite Z.div_div.
  assert (Hlt : c / 16 / 16 / 16 < 16) by (rewrite !Z.div_div by lia; apply Z.div_lt_upper_bound; lia).
  assert (0 <= c / 16 / 16 / 16) by (repeat apply Z.div_pos; lia).
  rewrite (Z.mod_small (c / 16 / 16 / 16)) by lia.
  rewrite !(Z.mul_comm _ 16), <- !Z.div_mod by lia. done.
Qed.

(** A code unit that stands for itself. *)
Lemma read_plain c r : 32 <= c → c ≠ 92 → read_unit (c :: r) = Some (c, r).
Proof.
  intros H1 H2. unfold read_unit. rewrite (proj2 (Z.ltb_ge _ _)) by done.
  by rewrite (proj2 (Z.eqb_neq _ _)).
Qed.

(** A token never starts with the closing quote. *)
Lemma read_escape_unit c r :
  unit16 c → read_unit (escape_unit c ++ r) = Some (c, r) ∧ head (escape_unit c ++ r) ≠ Some 34.
Proof.
  intros Hc. unfold escape_unit.
  repeat match goal with
  | |- context [if ?x =? ?n then _ else _] =>
    destruct (x =? n) eqn:?; bool_to_prop; [subst; done|]
  end.
  case_cond; bool_to_prop.
  - split; [by apply read_unicode_escape|done].
  - split; [by apply read_plain|]. simpl. congruence.
Qed.

Lemma unquote_step f s u r us r' :
  head s ≠ Some 34 → read_unit s = Some (u, r) → unquote f r = Some (us, r') →
  unquote (S f) s = Some (u :: us, r').
Proof.
  intros Hh Hr Hu. cbn [unquote]. destruct s as [|c t]; [done|].
  destruct (c =? 34) eqn:E; bool_to_prop; [by subst|]. by rewrite Hr, Hu.
Qed.

Lemma unquote_quote_units n s r :
  (length s < n)%nat → Forall unit16 s → unquote n (quote_units s ++ dq ++ r) = Some (s, r).
Proof.
  revert s. induction (lt_wf n) as [n _ IH]. intros s Hn Hs.
  destruct n as [|n]; [lia|]. destruct s as [|c s]; [done|].
  inversion Hs as [|? ? Hc Hs']; subst. simpl in Hn. cbn [quote_units].
  assert (Hesc : ∀ t, t = s → unquote (S n) ((unicode_escape c ++ quote_units t) ++ dq ++ r)
                 = Some (c :: s, r)).
  { intros t ->. rewrite <- app_assoc.
    eapply unquote_step; [done|by apply read_unicode_escape|]. apply IH; auto with lia. }
  destruct (is_high c) eqn:Eh; [|destruct (is_low c) eqn:El].
  - destruct s as [|d s]; [specialize (Hesc [] eq_refl); by rewrite app_nil_r in Hesc|].
    destruct (is_low d) eqn:Ed; [|by apply Hesc].
    inversion Hs' as [|? ? Hd Hs'']; subst. simpl in Hn. destruct n as [|n]; [lia|].
    unfold is_high in Eh. unfold is_low in Ed. bool_to_prop. simpl app.
    eapply (unquote_step (S n) _ c (d :: quote_units s ++ dq ++ r)).
    + simpl. intros [= ->]. lia.
    + apply read_plain; lia.
    + eapply unquote_step; [simpl; intros [= ->]; lia|apply read_plain; lia|apply IH; auto with lia].
  - by apply Hesc.
  - rewrite <- app_assoc. destruct (read_escape_unit c (quote_units s ++ dq ++ r) Hc).
    eapply unquote_step; [done|done|]. apply IH; auto with lia.
Qed.

Lemma quote_prefix s s' r r' :
  Forall unit16 s → Forall unit16 s' → quote s ++ r = quote s' ++ r' → s = s' ∧ r = r'.
Proof.
  intros Hs Hs' H. unfold quote in H. simpl in H. rewrite <- !app_assoc in H. simplify_eq.
  set (n := S (length s + length s')).
  pose proof (unquote_quote_units n s r) as H1. pose proof (unquote_quote_units n s' r') as H2.
  rewrite H in H1. rewrite H1 in H2 by (auto; lia).
  assert (Some (s, r) = Some (s', r')) by (apply H2; auto; lia). by simplify_eq.
Qed.

(** ** Injectivity of [stringify] *)

Fixpoint json_ok (v : json) : Prop :=
  match v with
  | JStr s => Forall unit16 s
  | JArr l => (fix go l := match l with [] => True | x :: l' => json_ok x ∧ go l' end) l
  | JObj l => (fix go l := match l with
                           | [] => True
                           | (k, x) :: l' => Forall unit16 k ∧ json_ok x ∧ go l'
                           end) l
  | _ => True
  end.

Lemma json_ok_arr l : json_ok (JArr l) ↔ Forall json_ok l.
Proof. simpl. induction l as [|x l IH]; [done|]. rewrite Forall_cons. naive_solver. Qed.

Lemma json_ok_obj l : json_ok (JObj l) ↔ Forall (λ p, Forall unit16 p.1 ∧ json_ok p.2) l.
Proof. simpl. induction l as [|[k x] l IH]; [done|]. rewrite Forall_cons. naive_solver. Qed.

(** Induction that reaches the members of arrays and objects. *)
Section json_ind.
Context (P : json → Prop).
Hypothesis (Hnull : P JNull) (Hbool : ∀ b, P (JBool b)) (Hnum : ∀ z, P (JNum z))
  (Hstr : ∀ s, P (JStr s)) (Harr : ∀ l, Forall P l → P (JArr l))
  (Hobj : ∀ l, Forall (λ p, P p.2) l → P (JObj l)).

Fixpoint json_nested_ind (v : json) : P v :=
  match v with
  | JNull => Hnull
  | JBool b => Hbool b
  | JNum z => Hnum z
  | JStr s => Hstr s
  | JArr l => Harr l ((fix go l : Forall P l :=
      match l with [] => Forall_nil_2 P | x :: l' => Forall_cons_2 P x l' (json_nested_ind x) (go l') end) l)
  | JObj l => Hobj l ((fix go l : Forall (λ p, P p.2) l :=
      match l with
      | [] => Forall_nil_2 _
      | p :: l' => Forall_cons_2 (λ p, P p.2) p l' (json_nested_ind p.2) (go l')
      end) l)
  end.
End json_ind.

(** What may follow a value without being read as part of it. *)
Definition stops (r : jsstr) : Prop := ∀ c t, r = c :: t → is_digit c = false.

(** The first code unit tells the kind of a value. *)
Definition head_class (c : Z) : Z := if is_digit c || (c =? 45) then 0 else c.

Definition value_class (v : json) : Z :=
  match v with
  | JNull => 110
  | JBool b => if b then 116 else 102
  | JNum _ => 0
  | JStr _ => 34
  | JArr _ => 91
  | JObj _ => 123
  end.

Lemma show_int_literal z :
  ∃ neg ds, show_int z = (if (neg : bool) then [45] else []) ++ ds ∧ ds ≠ [] ∧
            Forall (λ c, is_digit c = true) ds.
Proof.
  unfold show_int. case_cond; bool_to_prop.
  - exists true, (digits (- z)). split_and!; [done|apply digits_nonnil; lia|apply digits_spec; lia].
  - exists false, (digits z). split_and!; [done|by apply digits_nonnil|by apply digits_spec].
Qed.

Lemma stringify_head v r : ∃ c t, stringify v ++ r = c :: t ∧ head_class c = value_class v.
Proof.
  destruct v as [|b|z|s|l|l].
  - by exists 110, ("ull" ++ r).
  - destruct b; [by exists 116, ("rue" ++ r)|by exists 102, ("alse" ++ r)].
  - destruct (show_int_literal z) as (neg & ds & E & Hn & Hd). cbn [stringify value_class].
    rewrite E. destruct neg; [by exists 45, (ds ++ r)|]. destruct Hd as [|c ds Hc _]; [done|].
    exists c, (ds ++ r). split; [done|]. unfold head_class. by rewrite Hc.
  - by exists 34, ((quote_units s ++ dq) ++ r).
  - by exists 91, ((join "," (map stringify l) ++ "]") ++ r).
  - by eexists 123, _.
Qed.

Lemma stringify_class v w r r' :
  stringify v ++ r = stringify w ++ r' → value_class v = value_class w.
Proof.
  destruct (stringify_head v r) as (c & t & -> & Hc).
  destruct (stringify_head w r') as (d & u & -> & Hd). congruence.
Qed.

Lemma digits_prefix ds ds' r r' :
  Forall (λ c, is_digit c = true) ds → Forall (λ c, is_digit c = true) ds' →
  stops r → stops r' → ds ++ r = ds' ++ r' → ds = ds' ∧ r = r'.
Proof.
  intros Hd. revert ds'. induction Hd as [|c ds Hc _ IH]; intros ds' Hd' Hr Hr' E.
  - destruct Hd' as [|d ds' Hd' _]; [done|]. simpl in E. subst r.
    specialize (Hr d _ eq_refl). congruence.
  - destruct Hd' as [|d ds' Hd Hds']; simpl in E.
    + subst r'. specialize (Hr' c _ eq_refl). congruence.
    + simplify_eq. edestruct IH as [-> ->]; eauto.
Qed.

Lemma show_int_prefix a b r r' :
  stops r → stops r' → show_int a ++ r = show_int b ++ r' → a = b ∧ r = r'.
Proof.
  intros Hr Hr' E.
  enough (show_int a = show_int b ∧ r = r') as [?%show_int_inj ?] by done.
  destruct (show_int_literal a) as (n & ds & Ea & Hn & Hd).
  destruct (show_int_literal b) as (n' & ds' & Eb & Hn' & Hd').
  rewrite Ea, Eb in *. clear Ea Eb.
  assert (n = n') as <-.
  { destruct n, n'; simpl in E; try done.
    - destruct Hd' as [|d ? Hd' _]; [done|]. simpl in E. injection E as <- _. discriminate Hd'.
    - destruct Hd as [|d ? Hd _]; [done|]. simpl in E. injection E as -> _. discriminate Hd. }
  rewrite <- !app_assoc in E. apply app_inv_head in E.
  destruct (digits_prefix ds ds' r r') as [-> ->]; done.
Qed.

(** Items of an array or object: the first, then [,item] up to the closing mark. *)
Definition prefix_free (P : jsstr → jsstr → Prop) (x y : jsstr) : Prop :=
  ∀ r r', stops r → stops r' → x ++ r = y ++ r' → P r r'.

Fixpoint items_tail (close : Z) (l : list jsstr) (r : jsstr) : jsstr :=
  match l with
  | [] => close :: r
  | x :: l' => 44 :: x ++ items_tail close l' r
  end.

Lemma join_items x l close r :
  join "," (x :: l) ++ close :: r = x ++ items_tail close l r.
Proof.
  revert x. induction l as [|y l IH]; intros x; [done|].
  rewrite join_cons2, <- !app_assoc, IH. done.
Qed.

Lemma stops_items close l r : is_digit close = false → stops (items_tail close l r).
Proof. intros Hc c t. destruct l; simpl; intros ?; by simplify_eq. Qed.

(** Two printed sequences of items that agree were printed from the same items. *)
Lemma items_tail_inj {A} (f : A → jsstr) close (l l' : list A) r r' :
  is_digit close = false → close ≠ 44 →
  (∀ x, x ∈ l → ∀ y r r', y ∈ l' → stops r → stops r' → f x ++ r = f y ++ r' → x = y ∧ r = r') →
  items_tail close (map f l) r = items_tail close (map f l') r' → l = l' ∧ r = r'.
Proof.
  intros Hc Hn. revert l'. induction l as [|x l IH]; intros [|y l'] Hf H; simpl in H;
    simplify_eq; try done.
  destruct (Hf x ltac:(left) y _ _ ltac:(left) (stops_items _ _ _ Hc) (stops_items _ _ _ Hc) H)
    as [-> E].
  destruct (IH l') as [-> ->]; [|done..]. intros a Ha b s s' Hb. apply Hf; by right.
Qed.

Lemma items_inj {A} (f : A → jsstr) close (l l' : list A) r r' :
  is_digit close = false → close ≠ 44 → (∀ x t, f x = close :: t → False) → (∀ x, f x ≠ []) →
  (∀ x, x ∈ l → ∀ y r r', y ∈ l' → stops r → stops r' → f x ++ r = f y ++ r' → x = y ∧ r = r') →
  join "," (map f l) ++ close :: r = join "," (map f l') ++ close :: r' → l = l' ∧ r = r'.
Proof.
  intros Hc Hn Hclose Hnil Hf H.
  assert (Hfirst : ∀ x s s', f x ++ s = close :: s' → False).
  { intros x s s' E. destruct (f x) as [|c t] eqn:Ex; [by apply (Hnil x)|].
    simpl in E. simplify_eq. by apply (Hclose x t). }
  destruct l as [|x l], l' as [|y l']; simpl map in H.
  - simpl in H. by simplify_eq.
  - rewrite join_items in H. symmetry in H. by apply Hfirst in H.
  - rewrite join_items in H. by apply Hfirst in H.
  - rewrite !join_items in H. apply (items_tail_inj f close); try done.
    simpl. by f_equal.
Qed.

Lemma stringify_not_nil v : stringify v ≠ [].
Proof.
  destruct (stringify_head v []) as (c & t & E & _). rewrite app_nil_r in E. by rewrite E.
Qed.

Lemma stringify_prefix v w r r' :
  json_ok v → json_ok w → stops r → stops r' →
  stringify v ++ r = stringify w ++ r' → v = w ∧ r = r'.
Proof.
  revert w r r'. induction v as [|b|z|s|l IH|l IH] using json_nested_ind;
    intros w r r' Hv Hw Hr Hr' H; pose proof (stringify_class _ _ _ _ H) as Hcl;
    destruct w as [|b'|z'|s'|l'|l']; try done; try (by destruct b); try (by destruct b').
  - cbn [stringify] in H. apply app_inv_head in H. done.
  - destruct b, b'; try done; cbn [stringify] in H; apply app_inv_head in H; done.
  - cbn [stringify] in H. apply show_int_prefix in H as [-> ->]; done.
  - cbn [stringify] in H. apply quote_prefix in H as [-> ->]; done.
  - rewrite json_ok_arr in Hv, Hw. rewrite Forall_forall in IH, Hv, Hw.
    cbn [stringify] in H. simpl in H. rewrite <- !app_assoc in H. simplify_eq.
    apply (items_inj stringify 93) in H as [-> ->]; try done.
    + intros x t E. destruct (stringify_head x []) as (c & u & E' & Hh).
      rewrite app_nil_r, E in E'. simplify_eq. destruct x as [|[]| | | |]; done.
    + apply stringify_not_nil.
    + intros x Hx y s s' Hy. apply IH; auto.
  - rewrite json_ok_obj in Hv, Hw. rewrite Forall_forall in IH, Hv, Hw.
    cbn [stringify] in H. simpl in H. rewrite <- !app_assoc in H. simplify_eq.
    apply (items_inj (λ '(k, v), quote k ++ ":" ++ stringify v) 125) in H as [-> ->]; try done.
    + by intros [k x] t.
    + by intros [k x].
    + intros [k x] Hx [k' x'] s s' Hy Hs Hs' E. rewrite <- !app_assoc in E.
      apply quote_prefix in E as [-> E]; [|by apply (Hv _ Hx)|by apply (Hw _ Hy)].
      apply app_inv_head in E. apply (IH _ Hx) in E as [E ->]; [by simpl in E; subst| | |done|done].
      * by apply (Hv _ Hx).
      * by apply (Hw _ Hy).
Qed.

(** Two well-formed values with the same text are the same value. *)
Lemma stringify_inj v w : json_ok v → json_ok w → stringify v = stringify w → v = w.
Proof.
  intros Hv Hw H. apply (stringify_prefix v w [] []); try done.
  by rewrite !app_nil_r.
Qed.
