(* ===== verification/JsonRead.v ===== *)
(** * Reading JSON

    [JSON.parse]: the values it makes, with the numbers of the language and the own properties of
    objects in the order they were first written, and its grammar, as a parser with fuel.
    [parse_stringify] says that what [stringify] prints is read back as it was, [JSON_parse_fuel] that
    the fuel is enough for any text. *)
From Stdlib Require Import ZArith Lia List QArith Qround.
From stdpp Require Import base list sets.
From S2P Require Import Prelude Regex Numbers Json.
#[local] Open Scope Z_scope.

Inductive jv :=
  | VNull
  | VBool (b : bool)
  | VNum (n : num)
  | VStr (s : jsstr)
  | VArr (l : list jv)
  | VObj (l : list (jsstr * jv)).

(** [o[k] = v] and [o[k]] on own properties. *)
Fixpoint prop_set {A} (k : jsstr) (v : A) (o : list (jsstr * A)) : list (jsstr * A) :=
  match o with
  | [] => [(k, v)]
  | (k', v') :: o' => if str_eqb k' k then (k, v) :: o' else (k', v') :: prop_set k v o'
  end.

Fixpoint prop_get {A} (k : jsstr) (o : list (jsstr * A)) : option A :=
  match o with
  | [] => None
  | (k', v) :: o' => if str_eqb k' k then Some v else prop_get k o'
  end.

Lemma prop_set_fmap {A B} (f : A → B) k x (o : list (jsstr * A)) :
  prop_set k (f x) ((λ c, (c.1, f c.2)) <$> o) = (λ c, (c.1, f c.2)) <$> prop_set k x o.
Proof. induction o as [|[k' x'] o IH]; [done|]. cbn. destruct (str_eqb k' k); [done|]. cbn. by f_equal. Qed.

Lemma prop_set_keys {A} k (x : A) o key : key ∈ (prop_set k x o).*1 ↔ key = k ∨ key ∈ o.*1.
Proof.
  induction o as [|[k' x'] o IH]; cbn; [set_solver|]. destruct (str_eqb k' k) eqn:E; cbn.
  - apply str_eqb_eq in E as ->. set_solver.
  - rewrite !elem_of_cons, IH. tauto.
Qed.

Lemma prop_set_distinct {A} k (x : A) o : NoDup o.*1 → NoDup (prop_set k x o).*1.
Proof.
  induction o as [|[k' x'] o IH]; cbn; [repeat constructor; set_solver|]. intros [Hk Ho]%NoDup_cons.
  destruct (str_eqb k' k) eqn:E; cbn; [apply str_eqb_eq in E as ->; by constructor|].
  apply str_eqb_neq in E. constructor; [|by apply IH]. rewrite prop_set_keys. by intros [?|?].
Qed.

Lemma prop_set_Forall {A} (P : jsstr → Prop) k (x : A) o :
  P k → Forall (λ c, P c.1) o → Forall (λ c, P c.1) (prop_set k x o).
Proof.
  intros Hk. induction 1 as [|[k' x'] o Hx Ho IH]; cbn; [by constructor|]. destruct (str_eqb k' k); by constructor.
Qed.

Lemma prop_set_elem {A} k (x : A) o p : p ∈ prop_set k x o → p = (k, x) ∨ p ∈ o.
Proof.
  induction o as [|[k' x'] o IH]; cbn; [set_solver|]. destruct (str_eqb k' k); rewrite !elem_of_cons; tauto.
Qed.

Lemma prop_get_elem {A} k (o : list (jsstr * A)) x : prop_get k o = Some x → (k, x) ∈ o.
Proof.
  induction o as [|[k' x'] o IH]; cbn; [done|]. destruct (str_eqb k' k) eqn:E; [|set_solver].
  apply str_eqb_eq in E as ->. intros [= ->]. set_solver.
Qed.

Lemma prop_get_none {A} k (o : list (jsstr * A)) : prop_get k o = None ↔ k ∉ o.*1.
Proof.
  induction o as [|[k' x'] o IH]; cbn; [set_solver|]. destruct (str_eqb k' k) eqn:E.
  - apply str_eqb_eq in E as ->. set_solver.
  - apply str_eqb_neq in E. rewrite IH. set_solver.
Qed.

(** What is printed as a value of the client, as a value of the language. *)
Fixpoint embed (v : json) : jv :=
  match v with
  | JNull => VNull
  | JBool b => VBool b
  | JNum z => VNum (num_of_Z z)
  | JStr s => VStr s
  | JArr l => VArr (map embed l)
  | JObj l => VObj (map (λ '(k, x), (k, embed x)) l)
  end.

(** ** The grammar *)

Definition is_space (c : Z) : bool := (c =? 32) || (c =? 9) || (c =? 10) || (c =? 13).

Fixpoint skip (s : jsstr) : jsstr :=
  match s with c :: t => if is_space c then skip t else s | [] => [] end.

(** A non-empty run of digits. *)
Definition read_digits (s : jsstr) : option (jsstr * jsstr) :=
  let '(ds, r) := span_digits s in match ds with [] => None | _ => Some (ds, r) end.

Definition read_fraction (s : jsstr) : option (jsstr * jsstr) :=
  match s with
  | c :: t => if c =? 46 then '(ds, r) ← read_digits t; Some (46 :: ds, r) else Some ([], s)
  | [] => Some ([], s)
  end.

Definition read_exponent (s : jsstr) : option (jsstr * jsstr) :=
  match s with
  | c :: t =>
    if (c =? 101) || (c =? 69) then
      match t with
      | d :: t' =>
        if (d =? 43) || (d =? 45) then '(ds, r) ← read_digits t'; Some (c :: d :: ds, r)
        else '(ds, r) ← read_digits t; Some (c :: ds, r)
      | [] => None
      end
    else Some ([], s)
  | [] => Some ([], s)
  end.

(** A number is the value of its literal; only zero starts with a zero. *)
Definition read_number (s : jsstr) : option (jv * jsstr) :=
  let '(sign, s1) := match s with c :: t => if c =? 45 then ([45], t) else ([], s) | [] => ([], s) end in
  '(ds, s2) ← read_digits s1;
  match ds with
  | 48 :: _ :: _ => None
  | _ =>
    '(fraction, s3) ← read_fraction s2;
    '(exponent, s4) ← read_exponent s3;
    Some (VNum (js_Number (sign ++ ds ++ fraction ++ exponent)), s4)
  end.

(** After the opening quote. *)
Definition read_string (s : jsstr) : option (jsstr * jsstr) := unquote (S (length s)) s.

Definition read_word (word : jsstr) (v : jv) (s : jsstr) : option (jv * jsstr) :=
  if startsWith word s then Some (v, drop (length word) s) else None.

(** A value, the items of an array after [[] and before them, and the members of an object. *)
Fixpoint read_value (fuel : nat) (s : jsstr) : option (jv * jsstr) :=
  match fuel with
  | O => None
  | S fuel =>
    match skip s with
    | [] => None
    | c :: t =>
      if c =? 34 then '(u, r) ← read_string t; Some (VStr u, r)
      else if c =? 91 then
        match skip t with
        | d :: r => if d =? 93 then Some (VArr [], r) else '(l, r) ← read_items fuel t; Some (VArr l, r)
        | [] => None
        end
      else if c =? 123 then
        match skip t with
        | d :: r => if d =? 125 then Some (VObj [], r)
                    else '(l, r) ← read_members fuel t;
                         Some (VObj (fold_left (λ o p, prop_set p.1 p.2 o) l []), r)
        | [] => None
        end
      else if c =? 110 then read_word "null" VNull (c :: t)
      else if c =? 116 then read_word "true" (VBool true) (c :: t)
      else if c =? 102 then read_word "false" (VBool false) (c :: t)
      else read_number (c :: t)
    end
  end
with read_items (fuel : nat) (s : jsstr) : option (list jv * jsstr) :=
  match fuel with
  | O => None
  | S fuel =>
    '(v, r) ← read_value fuel s;
    match skip r with
    | c :: t => if c =? 93 then Some ([v], t)
                else if c =? 44 then '(vs, r') ← read_items fuel t; Some (v :: vs, r')
                else None
    | [] => None
    end
  end
with read_members (fuel : nat) (s : jsstr) : option (list (jsstr * jv) * jsstr) :=
  match fuel with
  | O => None
  | S fuel =>
    match skip s with
    | q :: t =>
      if negb (q =? 34) then None
      else
        '(k, r) ← read_string t;
        match skip r with
        | colon :: t' =>
          if negb (colon =? 58) then None
          else
            '(v, r') ← read_value fuel t';
            match skip r' with
            | c :: t'' => if c =? 125 then Some ([(k, v)], t'')
                          else if c =? 44 then '(ps, r'') ← read_members fuel t''; Some ((k, v) :: ps, r'')
                          else None
            | [] => None
            end
        | [] => None
        end
    | [] => None
    end
  end.

(** [JSON.parse(s)]; [None] is its [SyntaxError].  Each level of the recursion reads something. *)
Definition JSON_parse (s : jsstr) : option jv :=
  match read_value (2 * length s + 1) s with
  | Some (v, r) => match skip r with [] => Some v | _ => None end
  | None => None
  end.

Example parse_example :
  JSON_parse " [ 1 , 2.5e1,{ }, null ,[ ]]" =
  Some (VArr [VNum (num_of_Z 1); VNum (num_of_Z 25); VObj []; VNull; VArr []]).
Proof. vm_compute. reflexivity. Qed.

Example parse_refused : JSON_parse "[1,]" = None ∧ JSON_parse "01" = None ∧ JSON_parse "[] x" = None.
Proof. vm_compute. done. Qed.

(** ** Lemmas on the tokens *)

Lemma skip_token c t : is_space c = false → skip (c :: t) = c :: t.
Proof. intros Hc. cbn. by rewrite Hc. Qed.

Lemma span_digits_stops ds r :
  Forall (λ c, is_digit c = true) ds → stops r → span_digits (ds ++ r) = (ds, r).
Proof.
  intros Hd Hr. induction Hd as [|c ds Hc _ IH]; cbn.
  - destruct r as [|c r]; [done|]. cbn. by rewrite (Hr c r eq_refl).
  - by rewrite Hc, IH.
Qed.

(** What may follow a number. *)
Definition number_ends (r : jsstr) : Prop :=
  stops r ∧ ∀ c t, r = c :: t → c ≠ 46 ∧ c ≠ 101 ∧ c ≠ 69.

Lemma digits_aux_head fuel n acc :
  0 < n < 10 ^ Z.of_nat fuel → ∃ c t, digits_aux fuel n acc = c :: t ∧ c ≠ 48.
Proof.
  revert n acc. induction fuel as [|f IH]; intros n acc Hn; [change (10 ^ Z.of_nat 0) with 1 in Hn; lia|].
  rewrite Nat2Z.inj_succ, Z.pow_succ_r in Hn by lia. cbn [digits_aux].
  destruct (n <? 10) eqn:E; bool_to_prop.
  - eexists _, _. split; [done|]. rewrite Z.mod_small by lia. lia.
  - apply IH. split; [apply Z.div_str_pos; lia|apply Z.div_lt_upper_bound; lia].
Qed.

(** The digits of a number have no zero to spare. *)
Lemma digits_head n : 0 <= n → ∃ c t, digits n = c :: t ∧ (c = 48 → t = []).
Proof.
  intros Hn. destruct (Z.eq_dec n 0) as [->|Hne]; [by eexists _, _|].
  destruct (digits_aux_head (S (Z.to_nat (Z.log2 n))) n []) as (c & t & E & Hc).
  { split; [lia|by apply digits_fuel]. }
  exists c, t. by split.
Qed.

Lemma read_number_int z r : number_ends r → read_number (show_int z ++ r) = Some (VNum (num_of_Z z), r).
Proof.
  intros [Hs He].
  assert (Hend : read_fraction r = Some ([], r) ∧ read_exponent r = Some ([], r)).
  { destruct r as [|c r]; [done|]. destruct (He c r eq_refl) as (H1 & H2 & H3). unfold read_fraction, read_exponent.
    by rewrite !(proj2 (Z.eqb_neq _ _)) by done. }
  assert (Hlit : ∀ (neg : bool) n, 0 <= n →
    read_number ((if neg then [45] else []) ++ digits n ++ r) =
    Some (VNum (num_of_Z (if neg then - n else n)), r)).
  { intros neg n Hn. destruct (digits_head n Hn) as (c & t & Ed & Hz).
    destruct (digits_spec n Hn) as [Hv Hd].
    assert (Hl : int_literal ((if neg then [45] else []) ++ digits n) (if neg then - n else n)).
    { exists neg, (digits n). rewrite Hv, Ed. by split_and!; [| |rewrite <- Ed|]. }
    assert (Hread : read_digits (digits n ++ r) = Some (digits n, r)).
    { unfold read_digits. rewrite span_digits_stops by done. by rewrite Ed. }
    assert (Hsign : (match (if neg then [45] else []) ++ digits n ++ r with
                     | c :: t => if c =? 45 then ([45], t) else ([], (if neg then [45] else []) ++ digits n ++ r)
                     | [] => ([], (if neg then [45] else []) ++ digits n ++ r)
                     end) = ((if neg then [45] else []), digits n ++ r)).
    { destruct neg; [done|]. rewrite Ed in *. cbn. inversion Hd as [|? ? Hc _]; subst. unfold is_digit in Hc.
      by rewrite (proj2 (Z.eqb_neq _ _)) by lia. }
    unfold read_number. rewrite Hsign, Hread. cbn [mbind option_bind].
    rewrite (proj1 Hend). cbn [mbind option_bind]. rewrite (proj2 Hend). cbn [mbind option_bind].
    rewrite !app_nil_r, (js_Number_int _ _ Hl). rewrite Ed.
    destruct c as [|q|q]; [done| |done].
    destruct t as [|d t]; [by repeat (destruct q; try done)|].
    assert (Z.pos q ≠ 48) by (intros E; by specialize (Hz E)).
    repeat (destruct q; try done). }
  unfold show_int. destruct (z <? 0) eqn:E; bool_to_prop.
  - specialize (Hlit true (- z) ltac:(lia)). by rewrite Z.opp_involutive in Hlit.
  - exact (Hlit false z ltac:(lia)).
Qed.

Lemma quote_units_length s : (length s <= length (quote_units s))%nat.
Proof.
  assert (H : ∀ n s, (length s <= n)%nat → (length s <= length (quote_units s))%nat); [|by apply (H (length s))].
  clear s. intros n. induction n as [|n IH]; intros s Hn; [destruct s; cbn in *; lia|].
  assert (He : ∀ c t, (length t <= n)%nat → (S (length t) <= length (unicode_escape c ++ quote_units t))%nat).
  { intros c t Ht. rewrite length_app. specialize (IH t Ht). cbn. lia. }
  destruct s as [|c s]; [done|]. cbn [quote_units length] in *. destruct (is_high c).
  - destruct s as [|d s]; [cbn; lia|]. destruct (is_low d); [|by apply He; lia].
    cbn [length] in *. specialize (IH s). lia.
  - destruct (is_low c); [by apply He; lia|]. rewrite length_app. specialize (IH s).
    assert (1 <= length (escape_unit c))%nat; [|lia]. unfold escape_unit. repeat case_cond; cbn; lia.
Qed.

Lemma read_string_quote s r : Forall unit16 s → read_string (quote_units s ++ dq ++ r) = Some (s, r).
Proof.
  intros Hs. unfold read_string. apply unquote_quote_units; [|done].
  rewrite length_app. pose proof (quote_units_length s). lia.
Qed.

(** ** What is printed is read back *)

(** No object, at any depth, has two members of one name. *)
Fixpoint json_distinct (v : json) : Prop :=
  match v with
  | JArr l => (fix go l := match l with [] => True | x :: l' => json_distinct x ∧ go l' end) l
  | JObj l => NoDup l.*1 ∧ (fix go l := match l with [] => True | (_, x) :: l' => json_distinct x ∧ go l' end) l
  | _ => True
  end.

Lemma json_distinct_arr l : json_distinct (JArr l) ↔ Forall json_distinct l.
Proof. simpl. induction l as [|x l IH]; [done|]. rewrite Forall_cons. naive_solver. Qed.

Lemma json_distinct_obj l : json_distinct (JObj l) ↔ NoDup l.*1 ∧ Forall (λ p, json_distinct p.2) l.
Proof.
  simpl. assert (H : ∀ P Q Q' : Prop, (Q ↔ Q') → (P ∧ Q ↔ P ∧ Q')) by tauto. apply H.
  induction l as [|[k x] l IH]; [done|]. rewrite Forall_cons. naive_solver.
Qed.

Lemma prop_set_new {A} k (x : A) o : k ∉ o.*1 → prop_set k x o = o ++ [(k, x)].
Proof.
  induction o as [|[k' x'] o IH]; [done|]. intros [Hk Ho]%not_elem_of_cons. cbn in *.
  rewrite (proj2 (str_eqb_neq _ _)) by done. by rewrite IH.
Qed.

Lemma prop_set_all {A} (l o : list (jsstr * A)) :
  NoDup (o ++ l).*1 → fold_left (λ o p, prop_set p.1 p.2 o) l o = o ++ l.
Proof.
  revert o. induction l as [|[k x] l IH]; intros o Hn; cbn; [by rewrite app_nil_r|].
  rewrite prop_set_new.
  - rewrite IH; [by rewrite <- app_assoc|]. by rewrite <- app_assoc.
  - rewrite fmap_app in Hn. apply NoDup_app in Hn as (_ & Hn & _). intros Hk. apply (Hn k Hk). left.
Qed.

Definition member_text (p : jsstr * json) : jsstr := quote p.1 ++ ":" ++ stringify p.2.

Lemma stringify_obj l : stringify (JObj l) = "{" ++ join "," (map member_text l) ++ "}".
Proof.
  cbn [stringify]. do 3 f_equal. apply map_ext. by intros [k v].
Qed.

Definition reads (v : json) : Prop :=
  ∀ f r, (2 * length (stringify v) <= f)%nat → number_ends r → read_value f (stringify v ++ r) = Some (embed v, r).

Lemma number_ends_items close l r : close = 93 ∨ close = 125 → number_ends (items_tail close l r).
Proof.
  intros Hc. split; [apply stops_items; by destruct Hc as [->| ->]|].
  intros c t. destruct l; cbn; intros [= <- _]; lia.
Qed.

Lemma join_length x y l : length (join "," (x :: y :: l)) = (length x + 1 + length (join "," (y :: l)))%nat.
Proof. rewrite join_cons2, !length_app. cbn. lia. Qed.

Lemma read_items_join x l f r :
  Forall reads (x :: l) → (2 * length (join "," (map stringify (x :: l))) + 1 <= f)%nat →
  read_items f (join "," (map stringify (x :: l)) ++ 93 :: r) = Some (map embed (x :: l), r).
Proof.
  revert x f. induction l as [|y l IH]; intros x f Hr Hf; (destruct f as [|f]; [lia|]);
    inversion Hr as [|? ? Hx Hl]; subst; cbn [map]; rewrite join_items; cbn [read_items].
  - rewrite Hx; [done|cbn in Hf; lia|apply number_ends_items; by left].
  - cbn [map] in Hf. rewrite join_length in Hf.
    rewrite Hx; [|lia|apply number_ends_items; by left].
    cbn [mbind option_bind items_tail]. rewrite skip_token by done. cbn [Z.eqb].
    rewrite <- join_items. change (44 =? 93) with false. change (44 =? 44) with true. cbv iota.
    change (stringify y :: map stringify l) with (map stringify (y :: l)) in *.
    rewrite IH by (first [done|lia]). done.
Qed.

Definition embed_member (p : jsstr * json) : jsstr * jv := (p.1, embed p.2).

Lemma embed_obj l : embed (JObj l) = VObj (map embed_member l).
Proof. cbn [embed]. f_equal. apply map_ext. by intros [k v]. Qed.

Lemma read_member f p k t :
  Forall unit16 p.1 → reads p.2 → (2 * length (member_text p) <= f)%nat → is_space k = false → k = 125 ∨ k = 44 →
  read_members (S f) (member_text p ++ k :: t) =
  (if k =? 125 then Some ([embed_member p], t)
   else '(ps, r'') ← read_members f t; Some (embed_member p :: ps, r'')).
Proof.
  intros Hk Hv Hf Hs Hc. destruct p as [key v]. cbn [fst snd] in *.
  unfold member_text in *. cbn [fst snd] in *. unfold quote in *.
  rewrite !length_app in Hf. cbn [length] in Hf.
  change ((34 :: quote_units key ++ dq) ++ ":" ++ stringify v) with (34 :: (quote_units key ++ dq) ++ 58 :: stringify v).
  cbn [app read_members]. rewrite skip_token by done. cbn [negb]. change (34 =? 34) with true. cbn [negb].
  rewrite <- !app_assoc. rewrite read_string_quote by done. cbn [mbind option_bind app].
  rewrite skip_token by done. change (58 =? 58) with true. cbn [negb].
  rewrite Hv; [|cbn in Hf; lia|].
  - cbn [mbind option_bind]. rewrite skip_token by done.
    destruct Hc as [->| ->]; [done|]. change (44 =? 125) with false. change (44 =? 44) with true. done.
  - split; intros c u [= <- _]; [by destruct Hc as [->| ->]|lia].
Qed.

Lemma read_members_join p l f r :
  Forall (λ p, Forall unit16 p.1 ∧ reads p.2) (p :: l) →
  (2 * length (join "," (map member_text (p :: l))) + 1 <= f)%nat →
  read_members f (join "," (map member_text (p :: l)) ++ 125 :: r) = Some (map embed_member (p :: l), r).
Proof.
  revert p f. induction l as [|q l IH]; intros p f Hr Hf; (destruct f as [|f]; [lia|]);
    inversion Hr as [|? ? [Hk Hv] Hl]; subst; cbn [map]; rewrite join_items; cbn [items_tail].
  - change (join "," (map member_text [p])) with (member_text p) in Hf.
    rewrite read_member; [done|done|done|lia|done|by left].
  - cbn [map] in Hf. rewrite join_length in Hf.
    rewrite read_member; [|done|done|lia|done|by right].
    change (44 =? 125) with false. cbv iota. rewrite <- join_items.
    change (member_text q :: map member_text l) with (map member_text (q :: l)) in *.
    rewrite IH by (first [done|lia]). done.
Qed.

(** The first token of a value. *)
Lemma stringify_token v : ∃ c t, stringify v = c :: t ∧ is_space c = false ∧ c ≠ 93 ∧ c ≠ 125.
Proof.
  destruct (stringify_head v []) as (c & t & E & Hc). rewrite app_nil_r in E. exists c, t.
  split; [done|]. unfold head_class, is_digit in Hc. unfold is_space.
  destruct v as [|[]| | | |]; cbn in Hc; case_cond; bool_to_prop; lia.
Qed.

Lemma reads_fuel v :
  (∀ f r, (2 * length (stringify v) <= S f)%nat → number_ends r →
     read_value (S f) (stringify v ++ r) = Some (embed v, r)) → reads v.
Proof.
  intros H f r Hf. destruct f as [|f]; [|by apply H].
  destruct (stringify_token v) as (c & t & E & _). rewrite E in Hf. cbn in Hf. lia.
Qed.

Lemma stringify_reads v : json_ok v → json_distinct v → reads v.
Proof.
  induction v as [|b|z|s|l IH|l IH] using json_nested_ind; intros Hok Hd; apply reads_fuel; intros f r Hf Hr.
  - done.
  - by destruct b.
  - destruct (stringify_token (JNum z)) as (c & t & E & Hc & _). cbn [stringify] in *.
    pose proof (read_number_int z r Hr) as Hn. rewrite E in *. cbn [app] in *. cbn [read_value].
    rewrite skip_token by done. destruct (show_int_literal z) as (neg & ds & El & Hne & Hds).
    assert (Hh : is_digit c = true ∨ c = 45).
    { rewrite E in El. destruct neg; [right; by simplify_eq/=|left]. destruct Hds as [|d ds Hd' _]; by simplify_eq/=. }
    unfold is_digit in Hh. rewrite !(proj2 (Z.eqb_neq c _)) by lia. exact Hn.
  - cbn [stringify]. unfold quote. cbn [app read_value]. rewrite skip_token by done.
    change (34 =? 34) with true. cbv iota. rewrite <- app_assoc, read_string_quote by done. done.
  - rewrite json_ok_arr in Hok. rewrite json_distinct_arr in Hd.
    assert (HP : Forall reads l).
    { rewrite Forall_forall in *. intros x Hx. by apply IH; [|apply Hok|apply Hd]. }
    cbn [stringify] in *. change ("[" ++ ?a) with (91 :: a) in *. cbn [app read_value]. rewrite skip_token by done.
    change (91 =? 34) with false. change (91 =? 91) with true. cbv iota.
    rewrite <- app_assoc. change ("]" ++ r) with (93 :: r). destruct l as [|x l]; [done|].
    cbn [length] in Hf. rewrite length_app in Hf. cbn [length] in Hf.
    rewrite read_items_join by (first [done|lia]).
    destruct (stringify_token x) as (c & t & E & Hs & H93 & _).
    cbn [map]. rewrite join_items, E. cbn [app]. rewrite skip_token by done.
    by rewrite (proj2 (Z.eqb_neq _ _) H93).
  - rewrite json_ok_obj in Hok. rewrite json_distinct_obj in Hd. destruct Hd as [Hn Hd].
    assert (HP : Forall (λ p, Forall unit16 p.1 ∧ reads p.2) l).
    { rewrite Forall_forall in *. intros x Hx. split; [by apply Hok|]. by apply IH; [|apply Hok|apply Hd]. }
    rewrite stringify_obj in *. rewrite embed_obj.
    change ("{" ++ ?a) with (123 :: a) in *. cbn [app read_value]. rewrite skip_token by done.
    change (123 =? 34) with false. change (123 =? 91) with false. change (123 =? 123) with true. cbv iota.
    rewrite <- app_assoc. change ("}" ++ r) with (125 :: r). destruct l as [|x l]; [done|].
    cbn [length] in Hf. rewrite length_app in Hf. cbn [length] in Hf.
    rewrite read_members_join by (first [done|lia]). cbn [mbind option_bind].
    rewrite prop_set_all.
    + cbn [map]. rewrite join_items. unfold member_text at 1, quote. cbn [app]. rewrite skip_token by done. done.
    + cbn [app]. enough ((map embed_member (x :: l)).*1 = (x :: l).*1) as -> by done.
      clear. induction (x :: l) as [|p ps IH]; [done|]. cbn. by f_equal.
Qed.

(** What [JSON.stringify] prints, [JSON.parse] reads back. *)
Lemma parse_stringify v : json_ok v → json_distinct v → JSON_parse (stringify v) = Some (embed v).
Proof.
  intros Hok Hd. unfold JSON_parse. rewrite <- (app_nil_r (stringify v)) at 2.
  rewrite stringify_reads; [done|done|done|lia|split; by intros].
Qed.

(** ** Writing values of the language *)

(** The digits [s] and the exponent [n] of a positive number: the fewest digits that are read as it,
    and of those the closest. *)
Definition decimal_exponent (q : Q) : Z :=
  let n := Z.of_nat (length (digits (Qnum q))) - Z.of_nat (length (digits (Zpos (Qden q)))) in
  if Qle_bool (pow10 n) q then n + 1 else n.

Definition shorter (q : Q) (n : Z) (k : nat) : option (Z * Z) :=
  let scale := pow10 (n - Z.of_nat k) in
  let low := Qfloor (q / scale)%Q in
  let same s := match round_double (inject_Z s * scale)%Q with Fin x => Qeq_bool x q | _ => false end in
  let near s := negb (Qle_bool (inject_Z (low + 1)%Z * scale - q) (q - inject_Z s * scale))%Q in
  if same low && (near low || negb (same (low + 1))) then Some (low, n)
  else if same (low + 1)
       then if low + 1 =? 10 ^ Z.of_nat k then Some (1, n + 1) else Some (low + 1, n)
       else None.

Definition shortest (q : Q) : Z * Z :=
  default (0, 0) (head (omap (shorter q (decimal_exponent q)) (seq 1 17))).

Definition zeros (n : Z) : jsstr := repeat 48 (Z.to_nat n).

Definition show_exponent (e : Z) : jsstr := "e" ++ (if e <? 0 then "-" else "+") ++ digits (Z.abs e).

Definition decimal_text (q : Q) : jsstr :=
  let '(s, n) := shortest q in
  let ds := digits s in
  let k := Z.of_nat (length ds) in
  if (k <=? n) && (n <=? 21) then ds ++ zeros (n - k)
  else if (0 <? n) && (n <=? 21) then take (Z.to_nat n) ds ++ "." ++ drop (Z.to_nat n) ds
  else if (-6 <? n) && (n <=? 0) then "0." ++ zeros (- n) ++ ds
  else if k =? 1 then ds ++ show_exponent (n - 1)
  else take 1 ds ++ "." ++ drop 1 ds ++ show_exponent (n - 1).

(** [String(n)] of a number; the fewest digits of a safe integer are its own. *)
Definition num_text (n : num) : jsstr :=
  match n with
  | NaN => "NaN"
  | Infinite neg => if neg then "-Infinity" else "Infinity"
  | Fin q =>
    match num_int n with
    | Some z => if Z.abs z <=? MAX_SAFE_INTEGER then show_int z
                else if q_neg q then "-" ++ decimal_text (Qopp q) else decimal_text q
    | None => if q_neg q then "-" ++ decimal_text (Qopp q) else decimal_text q
    end
  end.

Example num_text_examples :
  num_text (js_Number "0.1") = "0.1" ∧ num_text (js_Number "12.50") = "12.5" ∧
  num_text (js_Number "1e21") = "1e+21" ∧ num_text (js_Number "123456789012345680000") = "123456789012345680000" ∧
  num_text (js_Number "-1.5e-7") = "-1.5e-7" ∧ num_text (js_Number "0.000001") = "0.000001" ∧
  num_text (js_Number "9007199254740993") = "9007199254740992".
Proof. vm_compute. done. Qed.

(** [JSON.stringify] on values of the language. *)
Fixpoint JSON_text (v : jv) : jsstr :=
  match v with
  | VNull => "null"
  | VBool b => if b then "true" else "false"
  | VNum n => if isFinite n then num_text n else "null"
  | VStr s => quote s
  | VArr l => "[" ++ join "," (map JSON_text l) ++ "]"
  | VObj l => "{" ++ join "," (map (λ '(k, v), quote k ++ ":" ++ JSON_text v) l) ++ "}"
  end.

Definition newline : jsstr := [10].

(** [JSON.stringify(v, null, 2)] at an indentation. *)
Fixpoint JSON_pretty (indent : jsstr) (v : jv) : jsstr :=
  let inner := indent ++ "  " in
  let block opening closing (items : list jsstr) :=
    match items with
    | [] => opening ++ closing
    | _ => opening ++ newline ++ inner ++ join ("," ++ newline ++ inner) items ++ newline ++ indent ++ closing
    end in
  match v with
  | VArr l => block "[" "]" (map (JSON_pretty inner) l)
  | VObj l => block "{" "}" (map (λ '(k, x), quote k ++ ": " ++ JSON_pretty inner x) l)
  | _ => JSON_text v
  end.

Example pretty_example :
  JSON_pretty [] (VObj [("a", VArr []); ("b", VArr [VNum (num_of_Z 1); VNull])]) =
  "{" ++ newline ++ "  " ++ quote "a" ++ ": []," ++ newline ++ "  " ++ quote "b" ++ ": [" ++ newline ++
  "    1," ++ newline ++ "    null" ++ newline ++ "  ]" ++ newline ++ "}".
Proof. vm_compute. done. Qed.

(** Every number is a safe integer. *)
Fixpoint json_safe (v : json) : Prop :=
  match v with
  | JNum z => Z.abs z <= MAX_SAFE_INTEGER
  | JArr l => (fix go l := match l with [] => True | x :: l' => json_safe x ∧ go l' end) l
  | JObj l => (fix go l := match l with [] => True | (_, x) :: l' => json_safe x ∧ go l' end) l
  | _ => True
  end.

Lemma json_safe_arr l : json_safe (JArr l) ↔ Forall json_safe l.
Proof. simpl. induction l as [|x l IH]; [done|]. rewrite Forall_cons. naive_solver. Qed.

Lemma json_safe_obj l : json_safe (JObj l) ↔ Forall (λ p, json_safe p.2) l.
Proof. simpl. induction l as [|[k x] l IH]; [done|]. rewrite Forall_cons. naive_solver. Qed.

Lemma num_text_safe z : Z.abs z <= MAX_SAFE_INTEGER → JSON_text (VNum (num_of_Z z)) = show_int z.
Proof.
  intros Hz. pose proof (num_of_Z_safe z Hz) as Hi. destruct (num_of_Z z) as [|b|q] eqn:E; [done|done|].
  cbn [JSON_text isFinite]. unfold num_text. rewrite Hi. by rewrite (proj2 (Z.leb_le _ _)).
Qed.

Lemma JSON_text_embed v : json_safe v → JSON_text (embed v) = stringify v.
Proof.
  induction v as [|b|z|s|l IH|l IH] using json_nested_ind; intros Hv; [done|done|by apply num_text_safe|done|..].
  - rewrite json_safe_arr in Hv. cbn [embed JSON_text stringify]. do 3 f_equal. rewrite map_map.
    apply map_ext_in. intros x Hx%list_elem_of_In. rewrite Forall_forall in *. auto.
  - rewrite json_safe_obj in Hv. cbn [embed JSON_text stringify]. do 3 f_equal. rewrite map_map.
    apply map_ext_in. intros [k x] Hx%list_elem_of_In. rewrite Forall_forall in *. do 2 f_equal.
    by apply (IH _ Hx), (Hv _ Hx).
Qed.

(** Values that survive being printed and read. *)
Definition json_wf (v : json) : Prop := json_ok v ∧ json_distinct v ∧ json_safe v.

Lemma json_wf_arr l : Forall json_wf l → json_wf (JArr l).
Proof.
  intros H. unfold json_wf. rewrite json_ok_arr, json_distinct_arr, json_safe_arr.
  split_and!; (eapply Forall_impl; [exact H|]; by intros x (? & ? & ?)).
Qed.

Lemma json_wf_obj l :
  NoDup l.*1 → Forall (λ p, Forall unit16 p.1 ∧ json_wf p.2) l → json_wf (JObj l).
Proof.
  intros Hn H. unfold json_wf. rewrite json_ok_obj, json_distinct_obj, json_safe_obj.
  split_and!; try done; (eapply Forall_impl; [exact H|]; by intros x (? & ? & ? & ?)).
Qed.

Lemma parse_text v : json_wf v → JSON_parse (JSON_text (embed v)) = Some (embed v).
Proof. intros (Hok & Hd & Hs). rewrite JSON_text_embed by done. by apply parse_stringify. Qed.

(** ** Fuel

    The fuel of [JSON_parse] is enough for every text: with more, nothing else is read. *)

Definition no_longer {A} (s : jsstr) (o : option (A * jsstr)) : Prop :=
  ∀ v r, o = Some (v, r) → (length r <= length s)%nat.

Lemma skip_length s : (length (skip s) <= length s)%nat.
Proof. induction s as [|c s IH]; [done|]. cbn. destruct (is_space c); cbn; lia. Qed.

Lemma span_digits_length s : (length (span_digits s).2 <= length s)%nat.
Proof.
  induction s as [|c s IH]; [done|]. cbn. destruct (is_digit c); [|done].
  destruct (span_digits s) as [ds r]. cbn in *. lia.
Qed.

Lemma read_digits_length s : no_longer s (read_digits s).
Proof.
  intros ds r. unfold read_digits. pose proof (span_digits_length s). destruct (span_digits s) as [[|d ds'] r']; [done|].
  by intros [= <- <-].
Qed.

(** Cases of a reader, down to what its parts have read. *)
Ltac reader_cases :=
  repeat match goal with
  | H : context [match ?x with _ => _ end] |- _ => destruct x eqn:?; try discriminate H; cbn [mbind option_bind] in H
  end;
  simplify_eq.

Lemma read_number_length s : no_longer s (read_number s).
Proof.
  intros v r H. unfold read_number, read_fraction, read_exponent, mbind, option_bind in H. reader_cases;
    repeat match goal with E : read_digits _ = Some _ |- _ => apply read_digits_length in E end; cbn in *; lia.
Qed.

Lemma read_unit_length s : no_longer s (read_unit s).
Proof.
  intros v r H. unfold read_unit, mbind, option_bind in H. reader_cases; cbn; lia.
Qed.

Lemma unquote_length fuel s : no_longer s (unquote fuel s).
Proof.
  revert s. induction fuel as [|fuel IH]; intros s u r H; [done|]. cbn [unquote] in H. reader_cases; [cbn; lia|].
  match goal with Hu : read_unit _ = Some _, Hq : unquote _ _ = Some _ |- _ =>
    apply read_unit_length in Hu; apply IH in Hq end. cbn in *. lia.
Qed.

Lemma read_word_length word x s : no_longer s (read_word word x s).
Proof.
  intros v r H. unfold read_word in H. reader_cases. rewrite length_drop. lia.
Qed.

Lemma read_length fuel s :
  no_longer s (read_value fuel s) ∧ no_longer s (read_items fuel s) ∧ no_longer s (read_members fuel s).
Proof.
  revert s. induction fuel as [|fuel IH]; [done|]. intros s.
  split_and!; intros v r H; cbn [read_value read_items read_members] in H; unfold mbind, option_bind in H;
    reader_cases.
  all: repeat match goal with
    | E : read_word _ _ _ = Some _ |- _ => apply read_word_length in E
    | E : read_number _ = Some _ |- _ => apply read_number_length in E
    | E : read_string _ = Some _ |- _ => apply unquote_length in E
    | E : read_value _ _ = Some _ |- _ => apply (proj1 (IH _)) in E
    | E : read_items _ _ = Some _ |- _ => apply (proj1 (proj2 (IH _))) in E
    | E : read_members _ _ = Some _ |- _ => apply (proj2 (proj2 (IH _))) in E
    | E : skip ?u = _ |- _ => pose proof (skip_length u); rewrite E in *; clear E
    end; cbn in *; lia.
Qed.

(** More fuel than a text needs reads the same of it. *)
Lemma read_enough f g s :
  (f <= g)%nat →
  ((2 * length s + 1 <= f)%nat → read_value g s = read_value f s) ∧
  ((2 * length s + 2 <= f)%nat → read_items g s = read_items f s ∧ read_members g s = read_members f s).
Proof.
  revert g s. induction f as [|f IH]; intros g s Hg; [split; lia|]. destruct g as [|g]; [lia|].
  assert (Hv : ∀ t, (2 * length t + 1 <= f)%nat → read_value g t = read_value f t) by (intros t; apply (IH g t); lia).
  assert (Hi : ∀ t, (2 * length t + 2 <= f)%nat → read_items g t = read_items f t)
    by (intros t Ht; apply (IH g t); lia).
  assert (Hm : ∀ t, (2 * length t + 2 <= f)%nat → read_members g t = read_members f t)
    by (intros t Ht; apply (IH g t); lia).
  pose proof (skip_length s) as Hs. split; [|intros Hf; split]; cbn [read_value read_items read_members].
  - intros Hf. destruct (skip s) as [|c t]; [done|]. cbn in Hs. by rewrite Hi, Hm by lia.
  - rewrite Hv by lia. destruct (read_value f s) as [[v r]|] eqn:E; [|done]. cbn [mbind option_bind].
    apply (proj1 (read_length _ _)) in E. pose proof (skip_length r). destruct (skip r) as [|c t]; [done|].
    cbn in *. by rewrite Hi by lia.
  - destruct (skip s) as [|q t]; [done|]. cbn in Hs. destruct (negb (q =? 34)); [done|].
    destruct (read_string t) as [[k r]|] eqn:Ek; [|done]. cbn [mbind option_bind]. apply unquote_length in Ek.
    pose proof (skip_length r). destruct (skip r) as [|d t']; [done|]. cbn in *. destruct (negb (d =? 58)); [done|].
    rewrite Hv by lia. destruct (read_value f t') as [[v r']|] eqn:E; [|done]. cbn.
    apply (proj1 (read_length _ _)) in E. pose proof (skip_length r'). destruct (skip r') as [|c t'']; [done|].
    cbn in *. by rewrite Hm by lia.
Qed.

(** [JSON_parse] is what the grammar reads, however much fuel it is given beyond its own. *)
Lemma JSON_parse_fuel f s :
  (2 * length s + 1 <= f)%nat →
  JSON_parse s = match read_value f s with
                 | Some (v, r) => match skip r with [] => Some v | _ => None end
                 | None => None
                 end.
Proof. intros Hf. unfold JSON_parse. by rewrite (proj1 (read_enough _ _ s Hf)) by lia. Qed.
