(* ===== verification/Idempotency.v ===== *)
(** * Idempotency keys of the creating forms

    [src/web/src/lib/idempotency.ts].  A form keeps its last attempt in a ref: the
    fingerprint of the payload it submitted and the key it sent.  The same payload
    again is a retry and gets the same key; an edited one gets a fresh key. *)
From Stdlib Require Import ZArith Lia List.
From stdpp Require Import base list sets.
From S2P Require Import Prelude Json.

Record attempt := { fingerprint : jsstr; key : jsstr }.

(** [crypto.randomUUID()]: the keys the host will draw, and how many it has drawn. *)
Record entropy := { drawn : nat }.

Section with_uuid.
Context (uuid : nat → jsstr).

(** [ref] is the content of the React ref: [None] is [null]. *)
Definition stableIdempotencyKey (ref : option attempt) (payload : json) (e : entropy)
    : jsstr * option attempt * entropy :=
  let fp := stringify payload in
  match ref with
  | Some a => if str_eqb (fingerprint a) fp then (key a, ref, e)
              else (uuid (drawn e), Some {| fingerprint := fp; key := uuid (drawn e) |},
                    {| drawn := S (drawn e) |})
  | None => (uuid (drawn e), Some {| fingerprint := fp; key := uuid (drawn e) |},
             {| drawn := S (drawn e) |})
  end.

(** The keys sent by a sequence of attempts of one form. *)
Fixpoint attempts (ref : option attempt) (e : entropy) (payloads : list json) : list jsstr :=
  match payloads with
  | [] => []
  | p :: ps =>
    let '(k, ref', e') := stableIdempotencyKey ref p e in
    k :: attempts ref' e' ps
  end.

(** ** Lemmas *)

Lemma stable_cases ref payload e :
  (∃ a, ref = Some a ∧ fingerprint a = stringify payload
        ∧ stableIdempotencyKey ref payload e = (key a, ref, e))
  ∨ ((∀ a, ref = Some a → fingerprint a ≠ stringify payload)
     ∧ stableIdempotencyKey ref payload e =
       (uuid (drawn e), Some {| fingerprint := stringify payload; key := uuid (drawn e) |},
        {| drawn := S (drawn e) |})).
Proof.
  unfold stableIdempotencyKey. destruct ref as [a|]; [|by right].
  destruct (str_eqb _ _) eqn:E.
  - apply str_eqb_eq in E. left. eauto.
  - apply str_eqb_neq in E. right. naive_solver.
Qed.

(** The key of a payload is the key of its repetition. *)
Lemma stable_again ref payload e k ref' e' e'' :
  stableIdempotencyKey ref payload e = (k, ref', e') →
  stableIdempotencyKey ref' payload e'' = (k, ref', e'').
Proof.
  destruct (stable_cases ref payload e) as [(a & -> & Hf & ->)|[_ ->]]; intros [= <- <- <-]; cbn;
    [by rewrite Hf, str_eqb_refl|by rewrite str_eqb_refl].
Qed.

(** Every key sent is the ref's or is drawn from now on. *)
Lemma attempts_origin ref e ps k :
  k ∈ attempts ref e ps → key <$> ref = Some k ∨ ∃ n, (drawn e <= n)%nat ∧ k = uuid n.
Proof.
  revert ref e. induction ps as [|p ps IH]; intros ref e; simpl; [by intros ?%elem_of_nil|].
  destruct (stable_cases ref p e) as [(a & -> & _ & ->)|[_ ->]];
    intros [->|Hk]%elem_of_cons; [by left|by apply IH in Hk|by right; eauto|].
  apply IH in Hk as [[= <-]|(n & Hn & ->)]; [by right; eauto|]. right. exists n.
  simpl in Hn. split; [lia|done].
Qed.

(** The ref's key was drawn before. *)
Definition ref_ok (ref : option attempt) (e : entropy) : Prop :=
  ∀ a, ref = Some a → ∃ n, (n < drawn e)%nat ∧ key a = uuid n.

Hypothesis uuid_fresh : ∀ n m, uuid n = uuid m → n = m.

(** A later attempt sends the ref's key exactly when nothing was edited on the way. *)
Lemma attempts_ref_key a e ps j k :
  ref_ok (Some a) e → attempts (Some a) e ps !! j = Some k →
  k = key a ↔ Forall (λ p, stringify p = fingerprint a) (take (S j) ps).
Proof using uuid_fresh.
  revert e j. induction ps as [|p ps IH]; intros e j Hr Hk; [done|].
  cbn [attempts] in Hk. destruct (stable_cases (Some a) p e) as [(b & [= <-] & Hf & Eq)|[Hf Eq]];
    rewrite Eq in Hk.
  - destruct j as [|j]; simpl in Hk; [simplify_eq; simpl; split; auto|].
    specialize (IH e j Hr Hk). cbn [take]. rewrite Forall_cons. naive_solver.
  - split.
    + intros ->. destruct (Hr a eq_refl) as (n & Hn & Ha).
      apply list_elem_of_lookup_2 in Hk. apply elem_of_cons in Hk as [Hk|Hk].
      * rewrite Ha in Hk. apply uuid_fresh in Hk. lia.
      * apply attempts_origin in Hk as [[= Hk]|(m & Hm & Hk)]; rewrite Ha in Hk;
          apply uuid_fresh in Hk; simpl in *; lia.
    + cbn [take]. rewrite Forall_cons. intros [Hp _]. by destruct (Hf a eq_refl).
Qed.

Lemma attempts_length ref e ps : length (attempts ref e ps) = length ps.
Proof.
  revert ref e. induction ps as [|p ps IH]; intros ref e; simpl; [done|].
  destruct (stableIdempotencyKey ref p e) as [[? ?] ?]. simpl. by rewrite IH.
Qed.

(** In any sequence of attempts of one form, two attempts send the same key
    exactly when every payload from the first to the second is the same: a retry is
    never duplicated on the server and an edited request never reuses a key. *)
Theorem attempts_same_key ref e ps i j k k' p :
  Forall json_ok ps → ref_ok ref e → (i <= j)%nat →
  attempts ref e ps !! i = Some k → attempts ref e ps !! j = Some k' → ps !! i = Some p →
  k = k' ↔ ∀ m q, (i <= m <= j)%nat → ps !! m = Some q → q = p.
Proof using uuid_fresh.
  intros Hok. revert ref e i j. induction Hok as [|p0 ps Hp0 Hok IH];
    intros ref e i j Hr Hij Hk Hk' Hp; [done|].
  cbn [attempts] in Hk, Hk'.
  assert (∃ a e', stableIdempotencyKey ref p0 e = (key a, Some a, e')
                  ∧ fingerprint a = stringify p0 ∧ ref_ok (Some a) e') as (a & e' & Eq & Hf & Hr').
  { destruct (stable_cases ref p0 e) as [(a & -> & Hf & ->)|[_ ->]]; [by exists a, e|].
    exists {| fingerprint := stringify p0; key := uuid (drawn e) |}, {| drawn := S (drawn e) |}.
    split_and!; [done|done|]. intros a [= <-]. simpl. eauto. }
  rewrite Eq in Hk, Hk'. destruct i as [|i].
  - simpl in Hk, Hp. simplify_eq. destruct j as [|j]; simpl in Hk'.
    { simplify_eq. split; [|done]. intros _ [|m] q Hm; [|lia]. simpl. congruence. }
    rewrite (eq_comm (key a)), (attempts_ref_key a e' ps j k') by done. rewrite Hf, Forall_lookup. split.
    + intros H [|m] q Hm Hq; simpl in Hq; [congruence|]. apply stringify_inj; [|done|].
      * rewrite Forall_lookup in Hok. by eapply Hok.
      * apply (H m). rewrite lookup_take. case_decide; [done|lia].
    + intros H m q. rewrite lookup_take. case_decide; [|done]. intros Hq.
      f_equal. apply (H (S m)); [lia|done].
  - destruct j as [|j]; [lia|]. simpl in Hk, Hk', Hp.
    rewrite (IH (Some a) e' i j) by (done || lia). split.
    + intros H [|m] q Hm Hq; [lia|]. apply (H m); [lia|done].
    + intros H m q Hm Hq. apply (H (S m)); [lia|done].
Qed.

End with_uuid.

(** Four attempts: a retry, an edit, and the first payload again. *)
Definition demo_payloads : list json :=
  [JObj [("name", JStr "a")]; JObj [("name", JStr "a")]; JObj [("name", JStr "b")];
   JObj [("name", JStr "a")]].

Lemma attempts_same_key_witness :
  ∃ k k', attempts (λ n, [Z.of_nat n]) None {| drawn := 0 |} demo_payloads !! 0%nat = Some k ∧
  attempts (λ n, [Z.of_nat n]) None {| drawn := 0 |} demo_payloads !! 3%nat = Some k' ∧
  (k = k' ↔ ∀ m q, (0 <= m <= 3)%nat → demo_payloads !! m = Some q → q = JObj [("name", JStr "a")]).
Proof.
  eexists _, _. split; [reflexivity|]. split; [reflexivity|].
  apply (attempts_same_key (λ n, [Z.of_nat n]) ltac:(intros n m [= H]; lia) None
           {| drawn := 0 |} demo_payloads 0 3); [|done|lia|reflexivity..].
  repeat constructor; simpl; unfold unit16; lia.
Defined.
