(* ===== verification/Dates.v ===== *)
(** * Dates of the language, in UTC

    A time value is the number of milliseconds since the epoch.  The calendar
    functions are the language's own (DayFromYear, YearFromTime, MonthFromTime,
    DateFromTime, MakeDay), on the proleptic Gregorian calendar. *)
From Stdlib Require Import ZArith Lia List QArith.
From stdpp Require Import base list sets.
From S2P Require Import Prelude Regex Numbers.
#[local] Open Scope Z_scope.

Definition msPerDay : Z := 86400000.

Definition Day (t : Z) : Z := t / msPerDay.
Definition TimeWithinDay (t : Z) : Z := t mod msPerDay.

Definition DayFromYear (y : Z) : Z :=
  365 * (y - 1970) + (y - 1969) / 4 - (y - 1901) / 100 + (y - 1601) / 400.

(** The year of a day: the average length of a year gives it within one. *)
Definition YearFromDay (d : Z) : Z :=
  let y := 1970 + 400 * d / 146097 in
  if d <? DayFromYear y then y - 1
  else if DayFromYear (y + 1) <=? d then y + 1 else y.

Definition DaysInYear (y : Z) : Z := DayFromYear (y + 1) - DayFromYear y.
Definition leap (y : Z) : Z := DaysInYear y - 365.

(** First day of month [m] (from 0; 12 is the end of the year) within the year. *)
Definition month_start (l m : Z) : Z :=
  if m =? 0 then 0 else if m =? 1 then 31 else if m =? 2 then 59 + l
  else if m =? 3 then 90 + l else if m =? 4 then 120 + l else if m =? 5 then 151 + l
  else if m =? 6 then 181 + l else if m =? 7 then 212 + l else if m =? 8 then 243 + l
  else if m =? 9 then 273 + l else if m =? 10 then 304 + l else if m =? 11 then 334 + l
  else 365 + l.

Definition month_of (l yd : Z) : Z :=
  if yd <? 31 then 0 else if yd <? 59 + l then 1 else if yd <? 90 + l then 2
  else if yd <? 120 + l then 3 else if yd <? 151 + l then 4 else if yd <? 181 + l then 5
  else if yd <? 212 + l then 6 else if yd <? 243 + l then 7 else if yd <? 273 + l then 8
  else if yd <? 304 + l then 9 else if yd <? 334 + l then 10 else 11.

Definition getUTCFullYear (t : Z) : Z := YearFromDay (Day t).
Definition DayWithinYear (t : Z) : Z := Day t - DayFromYear (getUTCFullYear t).
Definition getUTCMonth (t : Z) : Z := month_of (leap (getUTCFullYear t)) (DayWithinYear t).
Definition getUTCDate (t : Z) : Z :=
  DayWithinYear t - month_start (leap (getUTCFullYear t)) (getUTCMonth t) + 1.

Definition MakeDay (year month date : Z) : Z :=
  let ym := year + month / 12 in
  DayFromYear ym + month_start (leap ym) (month mod 12) + date - 1.

(** [Date.UTC(year, month, date)]: years 0 to 99 mean 1900 to 1999. *)
Definition Date_UTC (year month date : Z) : Z :=
  let yr := if (0 <=? year) && (year <=? 99) then 1900 + year else year in
  MakeDay yr month date * msPerDay.

Fixpoint pad_left (n : nat) (s : jsstr) : jsstr :=
  match n with
  | O => s
  | S n' => if (length s <=? n')%nat then 48 :: pad_left n' s else s
  end.

Definition pad (n : nat) (z : Z) : jsstr := pad_left n (digits z).

(** [toISOString().slice(0, 10)] on the years 0 to 9999. *)
Definition iso_date (t : Z) : jsstr :=
  pad 4 (getUTCFullYear t) ++ "-" ++ pad 2 (getUTCMonth t + 1) ++ "-" ++ pad 2 (getUTCDate t).

(** Years outside that range take a sign and six digits. *)
Definition iso_year (y : Z) : jsstr :=
  if (0 <=? y) && (y <=? 9999) then pad 4 y else (if y <? 0 then "-" else "+") ++ pad 6 (Z.abs y).

Definition toISOString (t : Z) : jsstr :=
  let r := TimeWithinDay t in
  iso_year (getUTCFullYear t) ++ "-" ++ pad 2 (getUTCMonth t + 1) ++ "-" ++ pad 2 (getUTCDate t)
  ++ "T" ++ pad 2 (r / 3600000) ++ ":" ++ pad 2 (r / 60000 mod 60) ++ ":"
  ++ pad 2 (r / 1000 mod 60) ++ "." ++ pad 3 (r mod 1000) ++ "Z".

(** [new Date(v).toISOString()]; [None] is the exception of an invalid date. *)
Definition MAX_TIME : Z := 8640000000000000.

Definition date_iso (v : num) : option jsstr :=
  match v with
  | Fin x => if Z.abs (Qnum x) <=? MAX_TIME * Zpos (Qden x)
             then Some (toISOString (Z.quot (Qnum x) (Zpos (Qden x)))) else None
  | _ => None
  end.

(** The times whose ISO form has a four-digit year. *)
Definition iso_range (t : Z) : Prop := 0 <= getUTCFullYear t <= 9999.

Example iso_ex1 : toISOString 1782838800123 = "2026-06-30T17:00:00.123Z".
Proof. vm_compute. reflexivity. Qed.
Example iso_ex2 : iso_date (Date_UTC 2024 2 0) = "2024-02-29".
Proof. vm_compute. reflexivity. Qed.

(** ** Calendar lemmas *)

Lemma YearFromDay_spec d : DayFromYear (YearFromDay d) <= d < DayFromYear (YearFromDay d + 1).
Proof.
  unfold YearFromDay. set (y := 1970 + 400 * d / 146097).
  assert (DayFromYear (y - 1) <= d < DayFromYear (y + 2)).
  { unfold DayFromYear. subst y. Z.to_euclidean_division_equations. lia. }
  clearbody y. destruct (d <? DayFromYear y) eqn:E1; [|destruct (DayFromYear (y + 1) <=? d) eqn:E2];
    bool_to_prop.
  - replace (y - 1 + 1) with y by lia. lia.
  - replace (y + 1 + 1) with (y + 2) by lia. lia.
  - lia.
Qed.

Lemma leap_bound y : 0 <= leap y <= 1.
Proof. unfold leap, DaysInYear, DayFromYear. Z.to_euclidean_division_equations. lia. Qed.

Lemma DayFromYear_mono x y : x <= y → DayFromYear x <= DayFromYear y.
Proof. unfold DayFromYear. intros H. Z.to_euclidean_division_equations. lia. Qed.

(** The year of a day is the only one that contains it. *)
Lemma YearFromDay_unique d y : DayFromYear y <= d < DayFromYear (y + 1) → YearFromDay d = y.
Proof.
  intros H. pose proof (YearFromDay_spec d) as Hs. set (x := YearFromDay d) in *.
  destruct (Z.lt_trichotomy x y) as [Hlt|[?|Hlt]]; [|done|].
  - pose proof (DayFromYear_mono (x + 1) y). lia.
  - pose proof (DayFromYear_mono (y + 1) x). lia.
Qed.

Lemma month_of_spec l yd :
  0 <= l <= 1 → 0 <= yd < 365 + l →
  0 <= month_of l yd <= 11 ∧ month_start l (month_of l yd) <= yd < month_start l (month_of l yd + 1).
Proof.
  intros Hl Hyd. unfold month_of.
  repeat (case_cond; [bool_to_prop; unfold month_start; simpl; lia|bool_to_prop]).
  unfold month_start. simpl. lia.
Qed.

Lemma month_start_mono l x y : 0 <= l <= 1 → 0 <= x → x <= y → month_start l x <= month_start l y.
Proof. intros. unfold month_start. repeat case_cond; bool_to_prop; lia. Qed.

Lemma month_of_unique l yd m :
  0 <= l <= 1 → 0 <= m <= 11 → month_start l m <= yd < month_start l (m + 1) → month_of l yd = m.
Proof.
  intros Hl Hm H.
  assert (0 <= yd < 365 + l) as Hyd.
  { pose proof (month_start_mono l 0 m Hl). pose proof (month_start_mono l (m + 1) 12 Hl).
    change (month_start l 0) with 0 in *. change (month_start l 12) with (365 + l) in *. lia. }
  pose proof (month_of_spec l yd Hl Hyd) as [Hb Hs]. set (x := month_of l yd) in *.
  destruct (Z.lt_trichotomy x m) as [Hlt|[?|Hlt]]; [|done|].
  - pose proof (month_start_mono l (x + 1) m Hl). lia.
  - pose proof (month_start_mono l (m + 1) x Hl). lia.
Qed.

Lemma DayWithinYear_bound t : 0 <= DayWithinYear t < 365 + leap (getUTCFullYear t).
Proof.
  unfold DayWithinYear, leap, DaysInYear, getUTCFullYear.
  pose proof (YearFromDay_spec (Day t)). lia.
Qed.

Lemma getUTCMonth_spec t :
  0 <= getUTCMonth t <= 11 ∧
  month_start (leap (getUTCFullYear t)) (getUTCMonth t) <= DayWithinYear t
  < month_start (leap (getUTCFullYear t)) (getUTCMonth t + 1).
Proof. apply month_of_spec; [apply leap_bound|apply DayWithinYear_bound]. Qed.

(** The length of the month [m] of a year. *)
Definition DaysInMonth (y m : Z) : Z := month_start (leap y) (m + 1) - month_start (leap y) m.

Lemma DaysInMonth_bound y m : 0 <= m <= 11 → 28 <= DaysInMonth y m <= 31.
Proof.
  intros Hm. pose proof (leap_bound y). unfold DaysInMonth, month_start.
  repeat case_cond; bool_to_prop; lia.
Qed.

Lemma getUTCDate_bound t : 1 <= getUTCDate t <= DaysInMonth (getUTCFullYear t) (getUTCMonth t).
Proof. pose proof (getUTCMonth_spec t). unfold getUTCDate, DaysInMonth. lia. Qed.

Lemma Day_midnight d : Day (d * msPerDay) = d.
Proof. unfold Day, msPerDay. apply Z.div_mul. lia. Qed.

(** Reading back the fields of a day built from valid ones. *)
Lemma MakeDay_fields y m d :
  0 <= m <= 11 → 1 <= d <= DaysInMonth y m →
  let t := MakeDay y m d * msPerDay in
  getUTCFullYear t = y ∧ getUTCMonth t = m ∧ getUTCDate t = d.
Proof.
  intros Hm Hd t. pose proof (leap_bound y) as Hl.
  assert (Hday : Day t = DayFromYear y + month_start (leap y) m + d - 1).
  { subst t. rewrite Day_midnight. unfold MakeDay. rewrite Z.mod_small, Z.div_small by lia.
    by rewrite Z.add_0_r. }
  assert (Hs : 0 <= month_start (leap y) m ∧ month_start (leap y) (m + 1) <= 365 + leap y).
  { split; [by apply (month_start_mono _ 0); lia|by apply (month_start_mono _ _ 12); lia]. }
  assert (Hy : getUTCFullYear t = y).
  { unfold getUTCFullYear. apply YearFromDay_unique. rewrite Hday.
    unfold DaysInMonth, leap, DaysInYear in *. lia. }
  assert (Hw : DayWithinYear t = month_start (leap y) m + d - 1).
  { unfold DayWithinYear. rewrite Hy, Hday. lia. }
  assert (Hmo : getUTCMonth t = m).
  { unfold getUTCMonth. rewrite Hy, Hw. apply month_of_unique; [done|done|].
    unfold DaysInMonth in Hd. lia. }
  split_and!; [done|done|]. unfold getUTCDate. rewrite Hmo, Hy, Hw. lia.
Qed.

(** A time is determined by its fields. *)
Lemma Day_fields t :
  Day t = MakeDay (getUTCFullYear t) (getUTCMonth t) (getUTCDate t).
Proof.
  pose proof (getUTCMonth_spec t) as [Hm _]. unfold MakeDay, getUTCDate, DayWithinYear.
  rewrite Z.mod_small, Z.div_small, Z.add_0_r by lia. lia.
Qed.

(** ** The ISO form determines the time *)

Lemma pad_left_value n s : digits_value (pad_left n s) = digits_value s.
Proof.
  induction n as [|n IH]; simpl; [done|]. case_match; [|done].
  change (48 :: pad_left n s) with ([48] ++ pad_left n s). rewrite digits_value_app. exact IH.
Qed.

Lemma pad_value n z : 0 <= z → digits_value (pad n z) = z.
Proof. intros Hz. unfold pad. rewrite pad_left_value. by apply digits_spec. Qed.

Lemma pad_left_length n s : (length s <= n)%nat → length (pad_left n s) = n.
Proof.
  induction n as [|n IH]; simpl; [lia|]. intros Hs.
  destruct (length s <=? n)%nat eqn:E.
  - apply Nat.leb_le in E. simpl. by rewrite IH.
  - apply Nat.leb_gt in E. lia.
Qed.

Lemma digits_aux_length fuel n acc k :
  0 <= n < 10 ^ Z.of_nat k → (k <= fuel)%nat → (1 <= k)%nat →
  (length (digits_aux fuel n acc) <= k + length acc)%nat.
Proof.
  revert n acc k. induction fuel as [|f IH]; intros n acc k Hn Hk H1; simpl; [lia|].
  destruct (n <? 10) eqn:E; bool_to_prop; [simpl; lia|].
  destruct k as [|k]; [lia|]. rewrite Nat2Z.inj_succ, Z.pow_succ_r in Hn by lia.
  destruct k as [|k]; [change (10 ^ Z.of_nat 0) with 1 in Hn; lia|].
  specialize (IH (n / 10) (48 + n mod 10 :: acc) (S k)). simpl in IH.
  assert (0 <= n / 10 < 10 ^ Z.of_nat (S k)).
  { split; [apply Z.div_pos; lia|apply Z.div_lt_upper_bound; lia]. }
  simpl in *. lia.
Qed.

Lemma digits_length n k : (1 <= k)%nat → 0 <= n < 10 ^ Z.of_nat k → (length (digits n) <= k)%nat.
Proof.
  intros Hk Hn. unfold digits.
  set (f := S (Z.to_nat (Z.log2 n))).
  destruct (Nat.le_gt_cases k f) as [Hf|Hf].
  - pose proof (digits_aux_length f n [] k Hn Hf Hk). simpl in *. lia.
  - pose proof (digits_aux_length f n [] f) as H. simpl length in H.
    rewrite Nat.add_0_r in H. apply Nat.lt_le_incl in Hf. etransitivity; [|exact Hf].
    apply H; [|lia|subst f; lia]. split; [lia|]. apply digits_fuel. lia.
Qed.

Lemma pad_length k n : (1 <= k)%nat → 0 <= n < 10 ^ Z.of_nat k → length (pad k n) = k.
Proof. intros Hk Hn. apply pad_left_length. by apply digits_length. Qed.

(** Equal padded fields followed by equal texts. *)
Lemma pad_inj k a b r r' :
  (1 <= k)%nat → 0 <= a < 10 ^ Z.of_nat k → 0 <= b < 10 ^ Z.of_nat k →
  pad k a ++ r = pad k b ++ r' → a = b ∧ r = r'.
Proof.
  intros Hk Ha Hb H. apply app_inj_1 in H as [H ->]; [|by rewrite !pad_length].
  split; [|done]. rewrite <- (pad_value k a), <- (pad_value k b) by lia. by rewrite H.
Qed.

Lemma fields_range t : iso_range t →
  0 <= getUTCFullYear t < 10 ^ 4 ∧ 0 <= getUTCMonth t + 1 < 10 ^ 2 ∧ 0 <= getUTCDate t < 10 ^ 2.
Proof.
  unfold iso_range. intros H. pose proof (getUTCMonth_spec t) as [Hm _].
  pose proof (getUTCDate_bound t).
  pose proof (DaysInMonth_bound (getUTCFullYear t) (getUTCMonth t) Hm). lia.
Qed.

Lemma iso_date_inj t t' r r' :
  iso_range t → iso_range t' → iso_date t ++ r = iso_date t' ++ r' → Day t = Day t' ∧ r = r'.
Proof.
  intros Ht Ht' H. apply fields_range in Ht as (? & ? & ?).
  apply fields_range in Ht' as (? & ? & ?). unfold iso_date in H.
  rewrite <- !app_assoc in H.
  apply pad_inj in H as [Hy H]; [|lia|done|done]. simplify_list_eq.
  apply pad_inj in H as [Hm H]; [|lia|done|done]. simplify_list_eq.
  apply pad_inj in H as [Hd H]; [|lia|done|done].
  split; [|done]. rewrite (Day_fields t), (Day_fields t'). f_equal; lia.
Qed.

Lemma time_of_day_range r :
  0 <= r < msPerDay →
  0 <= r / 3600000 < 10 ^ 2 ∧ 0 <= r / 60000 mod 60 < 10 ^ 2 ∧ 0 <= r / 1000 mod 60 < 10 ^ 2
  ∧ 0 <= r mod 1000 < 10 ^ 3.
Proof. unfold msPerDay. intros H. Z.to_euclidean_division_equations. lia. Qed.

Lemma time_of_day_fields r :
  0 <= r →
  r = 3600000 * (r / 3600000) + 60000 * (r / 60000 mod 60) + 1000 * (r / 1000 mod 60) + r mod 1000.
Proof. intros H. Z.to_euclidean_division_equations. lia. Qed.

Lemma toISOString_range t :
  iso_range t →
  toISOString t =
  iso_date t ++ "T" ++ pad 2 (TimeWithinDay t / 3600000) ++ ":"
  ++ pad 2 (TimeWithinDay t / 60000 mod 60) ++ ":" ++ pad 2 (TimeWithinDay t / 1000 mod 60)
  ++ "." ++ pad 3 (TimeWithinDay t mod 1000) ++ "Z".
Proof.
  intros [H1 H2]. unfold toISOString, iso_year, iso_date.
  rewrite (proj2 (Z.leb_le _ _) H1), (proj2 (Z.leb_le _ _) H2). by rewrite <- !app_assoc.
Qed.

Lemma date_iso_int v z :
  num_int v = Some z → Z.abs z <= MAX_TIME → date_iso v = Some (toISOString z).
Proof.
  intros (x & -> & Hx)%num_int_inv Hz. unfold date_iso. unfold Qeq in Hx. cbn [inject_Z Qnum Qden] in Hx.
  replace (Qnum x) with (z * Zpos (Qden x)) by lia.
  rewrite Z.abs_mul, (proj2 (Z.leb_le _ _)) by nia. by rewrite Z.quot_mul by lia.
Qed.

Lemma toISOString_inj t t' :
  iso_range t → iso_range t' → toISOString t = toISOString t' → t = t'.
Proof.
  intros Ht Ht' H. rewrite !toISOString_range in H by done.
  apply iso_date_inj in H as [Hd H]; [|done|done].
  assert (Hb : ∀ t, 0 <= TimeWithinDay t < msPerDay).
  { intros u. apply Z.mod_pos_bound. done. }
  pose proof (time_of_day_range _ (Hb t)) as (? & ? & ? & ?).
  pose proof (time_of_day_range _ (Hb t')) as (? & ? & ? & ?).
  simplify_list_eq. apply pad_inj in H as [E1 H]; [|lia|done|done].
  simplify_list_eq. apply pad_inj in H as [E2 H]; [|lia|done|done].
  simplify_list_eq. apply pad_inj in H as [E3 H]; [|lia|done|done].
  simplify_list_eq. apply (f_equal digits_value) in H as E4. rewrite !pad_value in E4 by lia.
  pose proof (time_of_day_fields _ (proj1 (Hb t))) as F.
  pose proof (time_of_day_fields _ (proj1 (Hb t'))) as F'.
  rewrite E1, E2, E3, E4, <- F' in F.
  rewrite (Z.div_mod t msPerDay), (Z.div_mod t' msPerDay) by done.
  unfold Day in Hd. unfold TimeWithinDay in F. by rewrite Hd, F.
Qed.

Lemma pad_digits n z : 0 <= z → Forall (λ c, 0 <= c < 128) (pad n z).
Proof.
  intros Hz. unfold pad. assert (Hd : Forall (λ c, 0 <= c < 128) (digits z)).
  { eapply Forall_impl; [apply (digits_spec z Hz)|]. unfold is_digit. intros c Hc. bool_to_prop. lia. }
  induction n as [|n IH]; simpl; [done|]. case_cond; [|done]. constructor; [lia|done].
Qed.

(** The text of a time is ASCII. *)
Lemma toISOString_ascii t : iso_range t → Forall (λ c, 0 <= c < 128) (toISOString t).
Proof.
  intros Ht. rewrite toISOString_range by done. pose proof (fields_range t Ht) as (? & ? & ?).
  pose proof (Z.mod_pos_bound t msPerDay ltac:(done)) as Hr. fold (TimeWithinDay t) in Hr.
  pose proof (time_of_day_range _ Hr) as (? & ? & ? & ?). unfold iso_date.
  rewrite !Forall_app. split_and!; try (apply pad_digits; lia); repeat constructor; lia.
Qed.
