(* ===== verification/Types.v ===== *)
(** * Data of the admin API

    The interfaces of [src/web/src/lib/api.ts], as records of the same fields (an
    optional property is an [option]; a string union is an enumeration). *)
From Stdlib Require Import ZArith List.
From stdpp Require Import base list.
From S2P Require Import Prelude Json.

(** ** Sessions *)

Inductive AdminAuthMessage := auth_invalidToken | auth_requiredAccess | auth_sessionExpired.

Inductive AdminAuthMode := oidc | legacy_shared_token.

Record AdminAuthConfig := { aac_mode : AdminAuthMode; aac_login_url : option jsstr }.

Record AdminSession := {
  session_issuer : jsstr;
  session_subject : jsstr;
  session_label : jsstr;
  session_id : jsstr;
  session_roles : list jsstr;
  session_permissions : list jsstr;
  session_csrf_token : jsstr;
  session_expires_at : jsstr;
  session_idle_expires_at : jsstr;
}.

(** ** Tenants, definitions, resources *)

Record Tenant := { tenant_id : jsstr; tenant_slug : jsstr; tenant_name : jsstr; tenant_status : jsstr }.

Record TenantDomain := { domain_id : jsstr; domain_hostname : jsstr }.

Record Definition_ := {
  def_id : jsstr;
  def_key : jsstr;
  def_name : jsstr;
  def_description : jsstr;
  def_icon : jsstr;
  def_status : jsstr;
  def_fieldCount : option Z;
  def_secretCount : option Z;
}.

Record Field := {
  field_id : jsstr;
  field_resource_definition_id : jsstr;
  field_key : jsstr;
  field_label : jsstr;
  field_hint : jsstr;
  field_data_type : jsstr;
  field_required : bool;
  field_is_secret : bool;
  field_sort_order : Z;
}.

Record DefinitionDetail := { dd_definition : Definition_; dd_fields : list Field }.

Inductive value_origin := local | inherited.

Record ResourceFieldValue := {
  rfv_key : jsstr;
  rfv_label : jsstr;
  rfv_dataType : jsstr;
  rfv_required : bool;
  rfv_isSecret : bool;
  rfv_value : jsstr;
  rfv_isOverride : bool;
  rfv_origin : value_origin;
}.

Record TenantResource := {
  res_id : jsstr;
  res_alias : jsstr;
  res_sourceResourceId : option jsstr;
  res_sourceAlias : option jsstr;
  res_linked : bool;
  res_definitionKey : jsstr;
  res_definitionId : jsstr;
  res_name : jsstr;
  res_status : jsstr;
  res_fields : list ResourceFieldValue;
}.

(** ** API clients and their usage *)

Record ApiClient := {
  client_id : jsstr;
  client_name : jsstr;
  client_key_preview : jsstr;
  client_scopes : list jsstr;
  client_rpm_limit : Z;
  client_expires_at : jsstr;
  client_last_used_at : option jsstr;
  client_revoked_at : option jsstr;
  client_status : jsstr;
  client_created_at : option jsstr;
  client_updated_at : option jsstr;
}.

Inductive api_scope := tenant_identify | resource_resolve | events_read | tenant_list | resource_write.

(** The scopes are the texts of [api_scope] by their type; editing a client casts those the
    server sent, so they are kept as texts. *)
Record CreateAPIClientInput := {
  cac_name : jsstr;
  cac_scopes : list jsstr;
  cac_rpm_limit : Z;
  cac_expires_at : jsstr;
}.

Inductive usage_operation := identify | resolve.

Record APIClientUsageRecord := {
  usage_day : jsstr;
  usage_api_client_id : jsstr;
  usage_operation_ : usage_operation;
  usage_status_class : Z;
  usage_request_count : Z;
  usage_rate_limited_count : Z;
  usage_client_name : option jsstr;
}.

(** ** Webhooks *)

Inductive webhook_format := generic | slack | discord | teams.
Inductive webhook_status := wh_active | wh_disabled.

Record WebhookTarget := {
  wt_id : jsstr;
  wt_name : jsstr;
  wt_format : webhook_format;
  wt_status : webhook_status;
  wt_endpoint : jsstr;
  wt_consecutive_failures : Z;
  wt_circuit_open_until : option jsstr;
  wt_created_at : jsstr;
  wt_updated_at : jsstr;
}.

Record CreatedWebhookTarget := { cwt_target : WebhookTarget; cwt_signing_secret : jsstr }.

Inductive delivery_status := d_pending | d_delivering | d_retry | d_delivered | d_dead_letter.

Record WebhookDelivery := {
  wd_id : jsstr;
  wd_event_id : jsstr;
  wd_event_type : jsstr;
  wd_target_id : jsstr;
  wd_target_name : jsstr;
  wd_status : delivery_status;
  wd_attempt_count : Z;
  wd_next_attempt_at : jsstr;
  wd_last_http_status : option Z;
  wd_last_error_code : option jsstr;
  wd_delivered_at : option jsstr;
  wd_created_at : jsstr;
}.

Record WebhookOverview := {
  wo_targets : Z;
  wo_pending : Z;
  wo_retry : Z;
  wo_delivered : Z;
  wo_dead_letter : Z;
  wo_open_circuits : Z;
}.

(** ** Operations *)

Inductive health := healthy | degraded | unavailable.
Inductive report_kind := backup | restore | rewrap | migration.
Inductive report_status := rs_healthy | rs_degraded | rs_failed.
Inductive effective_status := es_healthy | es_degraded | es_failed | es_stale.

Record OperationalComponent := { oc_name : jsstr; oc_status : health; oc_latency_ms : Z }.

Record OperationalReport := {
  or_id : jsstr;
  or_kind : report_kind;
  or_source : jsstr;
  or_status : report_status;
  or_effective_status : effective_status;
  or_occurred_at : jsstr;
  or_fresh_until : jsstr;
  or_received_at : jsstr;
  or_credential_version : jsstr;
}.

Record OperationalHealth := {
  oh_status : health;
  oh_checked_at : jsstr;
  oh_components : list OperationalComponent;
  oh_reports : list OperationalReport;
  oh_webhook_pending : Z;
  oh_webhook_retry : Z;
  oh_webhook_dead_letter : Z;
  oh_open_circuits : Z;
}.

(** ** Audit *)

Inductive audit_result := ar_success | ar_denied | ar_error.

Record AdminAuditEvent := {
  ae_occurred_at : jsstr;
  ae_id : jsstr;
  ae_request_id : jsstr;
  ae_actor_kind : jsstr;
  ae_actor_subject : jsstr;
  ae_actor_label : option jsstr;
  ae_action : jsstr;
  ae_target_type : jsstr;
  ae_target_id : jsstr;
  ae_result : audit_result;
  ae_http_method : jsstr;
  ae_route_template : jsstr;
  ae_http_status : Z;
  ae_error_code : option jsstr;
  ae_metadata : list (jsstr * json);
}.

Record AdminAuditPage := { ap_events : list AdminAuditEvent; ap_next_cursor : option jsstr }.

Record AuditHealth := {
  ah_current_month_covered : bool;
  ah_future_through : jsstr;
  ah_default_rows : Z;
  ah_oldest_retained : option jsstr;
  ah_active_legal_holds : Z;
}.

Record AuditExportFilters := {
  aef_from : jsstr;
  aef_to : jsstr;
  aef_action : option jsstr;
  aef_target_type : option jsstr;
  aef_result : option jsstr;
}.

Inductive export_format := csv | jsonl.
Inductive export_status := x_pending | x_processing | x_ready | x_failed | x_expired.

Record AuditExportJob := {
  aej_id : jsstr;
  aej_idempotency_key : jsstr;
  aej_filters : AuditExportFilters;
  aej_format : export_format;
  aej_status : export_status;
  aej_row_count : option Z;
  aej_created_at : jsstr;
  aej_completed_at : option jsstr;
  aej_expires_at : jsstr;
  aej_downloaded_at : option jsstr;
}.

Record AuditLegalHold := {
  alh_id : jsstr;
  alh_from : jsstr;
  alh_to : jsstr;
  alh_reason : jsstr;
  alh_created_by_kind : jsstr;
  alh_created_by_subject : jsstr;
  alh_created_at : jsstr;
  alh_released_at : option jsstr;
  alh_released_by_subject : option jsstr;
}.

(** ** Settings and sessions *)

Inductive setting_type := st_integer | st_enum.

Record AdminSettingDefinition := {
  asd_key : jsstr;
  asd_type : setting_type;
  asd_default_value : jsstr;
  asd_owner : jsstr;
  asd_minimum : option Z;
  asd_maximum : option Z;
  asd_options : option (list jsstr);
}.

Record AdminSettingsSnapshot := {
  ass_revision : Z;
  ass_values : list (jsstr * jsstr);
  ass_definitions : list AdminSettingDefinition;
}.

Inductive session_status := ss_active | ss_revoked | ss_expired | ss_idle_expired.

Record AdminSessionView := {
  asv_id : jsstr;
  asv_issuer : jsstr;
  asv_subject : jsstr;
  asv_label : jsstr;
  asv_roles : list jsstr;
  asv_created_at : jsstr;
  asv_last_used_at : jsstr;
  asv_expires_at : jsstr;
  asv_idle_expires_at : jsstr;
  asv_revoked_at : option jsstr;
  asv_status : session_status;
  asv_current : bool;
}.

(** ** Overview *)

Record OverviewTenant := {
  ot_id : jsstr;
  ot_name : jsstr;
  ot_slug : jsstr;
  ot_status : jsstr;
  ot_primaryHost : jsstr;
  ot_resourceCount : Z;
}.

Record Overview := {
  ov_tenants : Z;
  ov_activeTenants : Z;
  ov_domains : Z;
  ov_resources : Z;
  ov_definitions : Z;
  ov_activeDefinitions : Z;
  ov_apiClients : Z;
  ov_tenantCards : list OverviewTenant;
}.
