(* ===== verification/Overview.v ===== *)
(** * Summaries of the overview pages

    [src/web/src/lib/tenant-overview.ts] (readiness of a tenant) and
    [overview-pulse.ts] (the month of the usage figures, the clients about to expire,
    the total of requests). *)
From Stdlib Require Import ZArith Lia List.
From stdpp Require Import base list sets.
From S2P Require Import Prelude Host Dates Types.

(** ** Readiness of a tenant *)

Inductive TenantReadiness := ready | attention | incomplete.

Inductive attention_code :=
  | inactive_tenant
  | missing_domain
  | missing_active_resource
  | inactive_resources
  | incomplete_resources.

#[export] Instance TenantReadiness_eq_dec : EqDecision TenantReadiness.
Proof. solve_decision. Defined.
#[export] Instance attention_code_eq_dec : EqDecision attention_code.
Proof. solve_decision. Defined.

Record TenantOverviewSummary := {
  activeResourceCount : Z;
  attentionCodes : list attention_code;
  incompleteResourceCount : Z;
  inactiveResourceCount : Z;
  readiness : TenantReadiness;
  readyRequirementCount : Z;
  totalResourceCount : Z;
}.

(** A resource with a required field left blank. *)
Definition resource_incomplete (r : TenantResource) : bool :=
  existsb (λ field, rfv_required field && str_eqb (trim (rfv_value field)) []) (res_fields r).

Definition resource_active (r : TenantResource) : bool := str_eqb (res_status r) "active".

Definition count {A} (p : A → bool) (l : list A) : Z := Z.of_nat (length (List.filter p l)).

Definition summarizeTenantOverview (domainCount : Z) (resources : list TenantResource)
    (tenantStatus : jsstr) : TenantOverviewSummary :=
  let tenantIsActive := str_eqb tenantStatus "active" in
  let hasDomain := 0 <? domainCount in
  let activeResourceCount := count resource_active resources in
  let inactiveResourceCount := Z.of_nat (length resources) - activeResourceCount in
  let incompleteResourceCount := count resource_incomplete resources in
  let hasActiveResource := 0 <? activeResourceCount in
  let readyRequirementCount := count (λ b, b) [tenantIsActive; hasDomain; hasActiveResource] in
  let attentionCodes :=
    (if negb tenantIsActive then [inactive_tenant] else [])
    ++ (if negb hasDomain then [missing_domain] else [])
    ++ (if negb hasActiveResource then [missing_active_resource] else [])
    ++ (if 0 <? inactiveResourceCount then [inactive_resources] else [])
    ++ (if 0 <? incompleteResourceCount then [incomplete_resources] else []) in
  let hasBlockingIssue :=
    negb tenantIsActive || negb hasDomain || negb hasActiveResource
    || (0 <? incompleteResourceCount) in
  {| activeResourceCount := activeResourceCount;
     attentionCodes := attentionCodes;
     incompleteResourceCount := incompleteResourceCount;
     inactiveResourceCount := inactiveResourceCount;
     readiness := if hasBlockingIssue then incomplete
                  else if 0 <? inactiveResourceCount then attention else ready;
     readyRequirementCount := readyRequirementCount;
     totalResourceCount := Z.of_nat (length resources) |}.

(** ** The pulse of the overview *)

Record date_range := { range_from : jsstr; range_to : jsstr }.

Definition currentUTCMonthRange (now : Z) : date_range :=
  let year := getUTCFullYear now in
  let month := getUTCMonth now in
  {| range_from := iso_date (Date_UTC year month 1);
     range_to := iso_date (Date_UTC year (month + 1) 0) |}.

Definition countExpiringAPIClients `{DateApi} (clients : list ApiClient) (now windowDays : Z) : Z :=
  let from := now in
  let through := from + windowDays * 24 * 60 * 60 * 1000 in
  count (λ client,
    if negb (str_eqb (client_status client) "active") || negb (truthy (client_expires_at client))
    then false
    else match Date_parse (client_expires_at client) with
         | Some expiresAt => (from <=? expiresAt) && (expiresAt <=? through)
         | None => false
         end) clients.

Definition totalUsageRequests (records : list APIClientUsageRecord) : Z :=
  fold_left (λ total record, total + usage_request_count record) records 0.

(** ** Lemmas *)

Lemma count_nonneg {A} (p : A → bool) l : 0 <= count p l.
Proof. unfold count. lia. Qed.

Lemma count_le {A} (p : A → bool) l : count p l <= Z.of_nat (length l).
Proof. unfold count. apply inj_le. induction l as [|x l IH]; simpl; [lia|]. case_cond; simpl; lia. Qed.

Lemma count_pos {A} (p : A → bool) l : 0 < count p l ↔ ∃ x, x ∈ l ∧ p x = true.
Proof.
  unfold count. induction l as [|x l IH]; simpl.
  - split; [lia|]. intros (x & ?%elem_of_nil & _). done.
  - destruct (p x) eqn:E; simpl.
    + split; [|lia]. intros _. exists x. split; [left|done].
    + rewrite IH. split.
      * intros (y & ? & ?). exists y. split; [by right|done].
      * intros (y & [->|?]%elem_of_cons & ?); [congruence|eauto].
Qed.

Lemma count_all {A} (p : A → bool) l :
  count p l = Z.of_nat (length l) ↔ ∀ x, x ∈ l → p x = true.
Proof.
  induction l as [|x l IH].
  - split; [by intros _ x ?%elem_of_nil|done].
  - pose proof (count_le p l) as Hle. unfold count in *. cbn [length List.filter]. split.
    + destruct (p x) eqn:E; cbn [length]; [|lia]. intros H y [->|Hy]%elem_of_cons; [done|].
      apply IH; [lia|done].
    + intros H. rewrite (H x) by left. cbn [length].
      assert (Z.of_nat (length (List.filter p l)) = Z.of_nat (length l)); [|lia].
      apply IH. intros y Hy. apply H. by right.
Qed.

(** What a tenant needs before a consumer can use it. *)
Definition consumable (domainCount : Z) (resources : list TenantResource) (status : jsstr) : Prop :=
  status = "active" ∧ 0 < domainCount
  ∧ (∃ r, r ∈ resources ∧ resource_active r = true)
  ∧ (∀ r, r ∈ resources → resource_incomplete r = false).

Lemma incomplete_none rs :
  (0 <? count resource_incomplete rs) = false ↔ ∀ r, r ∈ rs → resource_incomplete r = false.
Proof.
  rewrite <- not_true_iff_false, Z.ltb_lt, count_pos. split.
  - intros H r Hr. destruct (resource_incomplete r) eqn:E; [|done]. destruct H. eauto.
  - intros H (r & Hr & E). by rewrite H in E.
Qed.

(** The readiness shown for a tenant is the specification's: ready or needing
    attention exactly when the tenant is active, has a domain and an active resource
    and no resource lacks a required value; ready exactly when, besides, no resource
    is inactive; and then, and only then, there is nothing in the list of codes. *)
Theorem summarizeTenantOverview_readiness domainCount resources status :
  let s := summarizeTenantOverview domainCount resources status in
  (readiness s ≠ incomplete ↔ consumable domainCount resources status) ∧
  (readiness s = ready ↔ consumable domainCount resources status
                         ∧ ∀ r, r ∈ resources → resource_active r = true) ∧
  (readiness s = ready ↔ attentionCodes s = []).
Proof.
  cbv zeta. unfold summarizeTenantOverview. cbn [readiness attentionCodes].
  set (ta := str_eqb status "active"). set (hd := 0 <? domainCount).
  set (ha := 0 <? count resource_active resources).
  set (ir := 0 <? count resource_incomplete resources).
  set (ia := 0 <? Z.of_nat (length resources) - count resource_active resources).
  assert (Hc : consumable domainCount resources status ↔
               ta = true ∧ hd = true ∧ ha = true ∧ ir = false).
  { unfold consumable, ta, hd, ha, ir.
    by rewrite str_eqb_eq, !Z.ltb_lt, count_pos, incomplete_none. }
  assert (Hi : ia = false ↔ ∀ r, r ∈ resources → resource_active r = true).
  { rewrite <- count_all. unfold ia. pose proof (count_le resource_active resources).
    rewrite Z.ltb_ge. lia. }
  rewrite Hc, <- Hi. destruct ta, hd, ha, ir, ia; cbn [negb orb app]; split_and!; naive_solver.
Qed.

(** The figures of the summary agree with each other: the active and inactive
    resources are a partition of all of them, and three requirements are met exactly
    when nothing blocks but missing values. *)
Theorem summarizeTenantOverview_counts domainCount resources status :
  let s := summarizeTenantOverview domainCount resources status in
  activeResourceCount s + inactiveResourceCount s = totalResourceCount s ∧
  0 <= activeResourceCount s ∧ 0 <= inactiveResourceCount s ∧
  incompleteResourceCount s <= totalResourceCount s ∧
  0 <= readyRequirementCount s <= 3 ∧
  (readyRequirementCount s = 3 ↔
   ¬ inactive_tenant ∈ attentionCodes s ∧ ¬ missing_domain ∈ attentionCodes s
   ∧ ¬ missing_active_resource ∈ attentionCodes s).
Proof.
  cbv zeta. unfold summarizeTenantOverview.
  cbn [activeResourceCount inactiveResourceCount totalResourceCount incompleteResourceCount
       readyRequirementCount attentionCodes].
  pose proof (count_nonneg resource_active resources). pose proof (count_le resource_active resources).
  pose proof (count_le resource_incomplete resources). rewrite !elem_of_app.
  set (ia := 0 <? Z.of_nat (length resources) - count resource_active resources).
  set (ir := 0 <? count resource_incomplete resources).
  clearbody ia ir. set (ta := str_eqb status "active"). set (hd := 0 <? domainCount).
  set (ha := 0 <? count resource_active resources). clearbody ta hd ha.
  split_and!; try lia.
  - apply count_nonneg.
  - apply (count_le (λ b, b) [ta; hd; ha]).
  - unfold count. destruct ta, hd, ha, ia, ir; cbn; set_solver by lia.
Qed.

(** ** The month of the figures *)

Lemma Date_UTC_first y m :
  100 <= y → 0 <= m <= 11 →
  let t := Date_UTC y m 1 in getUTCFullYear t = y ∧ getUTCMonth t = m ∧ getUTCDate t = 1.
Proof.
  intros Hy Hm. unfold Date_UTC. replace ((0 <=? y) && (y <=? 99)) with false by lia.
  apply MakeDay_fields; [done|]. pose proof (DaysInMonth_bound y m Hm). lia.
Qed.

(** Day 0 of the next month is the last day of the month. *)
Lemma Date_UTC_last y m :
  100 <= y → 0 <= m <= 11 →
  let t := Date_UTC y (m + 1) 0 in
  getUTCFullYear t = y ∧ getUTCMonth t = m ∧ getUTCDate t = DaysInMonth y m.
Proof.
  intros Hy Hm. unfold Date_UTC. replace ((0 <=? y) && (y <=? 99)) with false by lia.
  assert (MakeDay y (m + 1) 0 = MakeDay y m (DaysInMonth y m)) as ->.
  { unfold MakeDay, DaysInMonth. rewrite (Z.mod_small m), (Z.div_small m) by lia.
    destruct (Z.eq_dec m 11) as [->|Hne].
    - change ((11 + 1) / 12) with 1. change ((11 + 1) mod 12) with 0.
      change (month_start _ 0) with 0. rewrite !Z.add_0_r. change (month_start (leap y) (11 + 1)) with (365 + leap y).
      unfold leap, DaysInYear. lia.
    - rewrite Z.mod_small, Z.div_small by lia. rewrite !Z.add_0_r. lia. }
  apply MakeDay_fields; [done|]. pose proof (DaysInMonth_bound y m Hm). lia.
Qed.

(** The range of the usage figures is the calendar month of the present day, first
    to last day, for every moment of the years 100 to 9999. *)
Theorem currentUTCMonthRange_spec now :
  100 <= getUTCFullYear now <= 9999 →
  let y := getUTCFullYear now in
  let m := getUTCMonth now in
  range_from (currentUTCMonthRange now) = pad 4 y ++ "-" ++ pad 2 (m + 1) ++ "-01" ∧
  range_to (currentUTCMonthRange now)
    = pad 4 y ++ "-" ++ pad 2 (m + 1) ++ "-" ++ pad 2 (DaysInMonth y m) ∧
  1 <= getUTCDate now <= DaysInMonth y m.
Proof.
  intros Hy. cbv zeta. pose proof (getUTCMonth_spec now) as [Hm _].
  pose proof (Date_UTC_first _ _ (proj1 Hy) Hm) as (E1 & E2 & E3).
  pose proof (Date_UTC_last _ _ (proj1 Hy) Hm) as (F1 & F2 & F3).
  unfold currentUTCMonthRange. cbn [range_from range_to]. unfold iso_date.
  rewrite E1, E2, E3, F1, F2, F3. split_and!; [done..|apply getUTCDate_bound|apply getUTCDate_bound].
Qed.

Lemma currentUTCMonthRange_spec_witness :
  range_to (currentUTCMonthRange 1709210096000) = "2024-02-29".
Proof.
  rewrite (proj1 (proj2 (currentUTCMonthRange_spec 1709210096000 ltac:(vm_compute; split; discriminate)))).
  vm_compute. reflexivity.
Defined.
