(* ===== verification/Api.v ===== *)
(** * The admin API client

    [src/web/src/lib/api.ts], first part: the module's state (token, session, pending
    message, events), the errors, and [req], the function every call goes through.
    [req] waits for the network, so it is a machine: [req_start] runs to the first
    wait, and each thing the environment may do next (the response, its body, the
    timer, the caller's abort) runs it to the next wait or to its end.  Requests
    interleave; [world] holds the module's state and all of them. *)
From Stdlib Require Import ZArith Lia List.
From stdpp Require Import base list sets gmap.
From S2P Require Import Prelude Regex Host BasePath Json Types.

Definition BASE : jsstr := "/v1/admin".
Definition ADMIN_TOKEN_KEY : jsstr := "tenancitAdminToken".
Definition REQUEST_TIMEOUT_MS : Z := 10000.

(** ** Errors *)

(** Rejections of the host: an aborted fetch, the network, a body that is not JSON. *)
Inductive host_error := AbortError | NetworkError | BodyError.

Inductive api_exn :=
  | ApiError (status : Z) (serverMessage : jsstr)
  | ApiTimeoutError (timeoutMs : Z)
  | HostError (h : host_error)
  | EndpointError (e : base_path_error).

(** [Error.message] of the two errors of the module. *)
Definition exn_message (e : api_exn) : option jsstr :=
  match e with
  | ApiError status m =>
    Some (if truthy m then show_int status ++ ": " ++ m else show_int status)
  | ApiTimeoutError ms => Some ("request timed out after " ++ show_int ms ++ "ms")
  | _ => None
  end.

(** ** Module state *)

Inductive event :=
  | AdminSessionChange
  | AdminTokenChange
  | AdminAuthRequired (messageKey : AdminAuthMessage).

Record client := {
  currentAdminSession : option AdminSession;
  pendingAdminAuthMessage : option AdminAuthMessage;
  stored_token : option jsstr;
  dispatched : list event;
}.

Definition dispatch (e : event) (c : client) : client :=
  {| currentAdminSession := currentAdminSession c;
     pendingAdminAuthMessage := pendingAdminAuthMessage c;
     stored_token := stored_token c;
     dispatched := dispatched c ++ [e] |}.

Definition setAdminSession (s : option AdminSession) (c : client) : client :=
  dispatch AdminSessionChange
    {| currentAdminSession := s; pendingAdminAuthMessage := pendingAdminAuthMessage c;
       stored_token := stored_token c; dispatched := dispatched c |}.

Definition getAdminSession (c : client) : option AdminSession := currentAdminSession c.

Definition consumePendingAdminAuthMessage (c : client) : option AdminAuthMessage * client :=
  (pendingAdminAuthMessage c,
   {| currentAdminSession := currentAdminSession c; pendingAdminAuthMessage := None;
      stored_token := stored_token c; dispatched := dispatched c |}).

Definition clearAdminToken (c : client) : client :=
  dispatch AdminTokenChange
    {| currentAdminSession := currentAdminSession c;
       pendingAdminAuthMessage := pendingAdminAuthMessage c;
       stored_token := None; dispatched := dispatched c |}.

Definition getAdminToken (c : client) : jsstr := default [] (stored_token c).

Definition setAdminToken (token : jsstr) (c : client) : client :=
  dispatch AdminTokenChange
    {| currentAdminSession := currentAdminSession c; pendingAdminAuthMessage := None;
       stored_token := Some token; dispatched := dispatched c |}.

Definition notifyAdminAuthRequired (messageKey : AdminAuthMessage) (c : client) : client :=
  dispatch (AdminAuthRequired messageKey)
    {| currentAdminSession := currentAdminSession c; pendingAdminAuthMessage := Some messageKey;
       stored_token := stored_token c; dispatched := dispatched c |}.

(** ** The request sent *)

(** Object spread: a later property replaces the value of an earlier one in place. *)
Fixpoint obj_set (k v : jsstr) (o : list (jsstr * jsstr)) : list (jsstr * jsstr) :=
  match o with
  | [] => [(k, v)]
  | (k', v') :: o' => if str_eqb k' k then (k, v) :: o' else (k', v') :: obj_set k v o'
  end.

Definition obj_spread (o p : list (jsstr * jsstr)) : list (jsstr * jsstr) :=
  fold_left (λ acc kv, obj_set kv.1 kv.2 acc) p o.

Fixpoint obj_get (k : jsstr) (o : list (jsstr * jsstr)) : option jsstr :=
  match o with
  | [] => None
  | (k', v) :: o' => if str_eqb k' k then Some v else obj_get k o'
  end.

Record init := {
  i_method : jsstr;
  i_headers : list (jsstr * jsstr);
  i_body : option json;
  i_cache : option jsstr;
}.

Record http_request := {
  h_url : jsstr;
  h_method : jsstr;
  h_headers : list (jsstr * jsstr);
  h_body : option jsstr;
  h_cache : option jsstr;
  h_credentials : jsstr;
}.

(** The authentication headers of [req] and [downloadAuditExport]. *)
Definition auth_headers (session : option AdminSession) (token : jsstr) : list (jsstr * jsstr) :=
  match session with
  | None => if truthy token then [("Authorization", "Bearer " ++ token)] else []
  | Some s => [("X-CSRF-Token", session_csrf_token s)]
  end.

Definition req_headers (session : option AdminSession) (token : jsstr)
    (extra : list (jsstr * jsstr)) : list (jsstr * jsstr) :=
  obj_spread (obj_spread [("Content-Type", "application/json")] (auth_headers session token)) extra.

Definition req_request (c : client) (meta : option jsstr) (path : jsstr) (i : init)
    : result base_path_error http_request :=
  url <-? buildAdminEndpoint (BASE ++ path) meta;;
  Ok {| h_url := url; h_method := i_method i;
        h_headers := req_headers (getAdminSession c) (getAdminToken c) (i_headers i);
        h_body := stringify <$> i_body i; h_cache := i_cache i;
        h_credentials := "same-origin" |}.

(** ** [req] *)

Inductive phase :=
  | AwaitFetch
  | AwaitErrorBody (status : Z)
  | AwaitBody
  | Settled (r : result api_exn (option json)).

Record inflight := {
  rq_session : option AdminSession;   (* [session], read at the start *)
  rq_timedOut : bool;                 (* [timedOut] *)
  rq_aborted : bool;                  (* [controller.signal.aborted] *)
  rq_timer : bool;                    (* the timeout is armed *)
  rq_listening : bool;                (* the caller's signal is listened to *)
  rq_phase : phase;
}.

(** [catch] and [finally]. *)
Definition settle (r : result api_exn (option json)) (q : inflight) : inflight :=
  {| rq_session := rq_session q; rq_timedOut := rq_timedOut q; rq_aborted := rq_aborted q;
     rq_timer := false; rq_listening := false;
     rq_phase := Settled (match r with
                          | Err e => Err (if rq_timedOut q then ApiTimeoutError REQUEST_TIMEOUT_MS
                                          else e)
                          | Ok v => Ok v
                          end) |}.

Definition set_phase (p : phase) (q : inflight) : inflight :=
  {| rq_session := rq_session q; rq_timedOut := rq_timedOut q; rq_aborted := rq_aborted q;
     rq_timer := rq_timer q; rq_listening := rq_listening q; rq_phase := p |}.

(** What the caller's [init.signal] is when [req] is entered. *)
Inductive upstream := no_signal | live_signal | aborted_signal.

(** [req] up to [await fetch(...)]: the request sent, unless the endpoint is refused. *)
Definition req_start (c : client) (meta : option jsstr) (path : jsstr) (i : init) (s : upstream)
    : inflight * option http_request :=
  let q := {| rq_session := getAdminSession c; rq_timedOut := false;
              rq_aborted := match s with aborted_signal => true | _ => false end;
              rq_timer := true;
              rq_listening := match s with live_signal => true | _ => false end;
              rq_phase := AwaitFetch |} in
  match req_request c meta path i with
  | Err e => (settle (Err (EndpointError e)) q, None)
  | Ok h => (q, Some h)
  end.

(** The timer's callback. *)
Definition on_timeout (q : inflight) : inflight :=
  if rq_timer q then
    {| rq_session := rq_session q; rq_timedOut := true; rq_aborted := true; rq_timer := false;
       rq_listening := rq_listening q; rq_phase := rq_phase q |}
  else q.

(** [abortFromCaller], registered once. *)
Definition on_caller_abort (q : inflight) : inflight :=
  if rq_listening q then
    {| rq_session := rq_session q; rq_timedOut := rq_timedOut q; rq_aborted := true;
       rq_timer := rq_timer q; rq_listening := false; rq_phase := rq_phase q |}
  else q.

Definition status_ok (status : Z) : bool := (200 <=? status) && (status <=? 299).

(** The response arrived. *)
Definition on_response (status : Z) (c : client) (q : inflight) : client * inflight :=
  match rq_phase q with
  | AwaitFetch =>
    if status =? 401 then
      let c' := match rq_session q with
                | Some _ => notifyAdminAuthRequired auth_sessionExpired (setAdminSession None c)
                | None => notifyAdminAuthRequired auth_invalidToken c
                end in
      (c', settle (Err (ApiError 401 [])) q)
    else if negb (status_ok status) then (c, set_phase (AwaitErrorBody status) q)
    else if status =? 204 then (c, settle (Ok None) q)
    else (c, set_phase AwaitBody q)
  | _ => (c, q)
  end.

(** The text of [body.error], when the body is JSON and it is a string. *)
Definition error_message (body : option json) : jsstr :=
  match body with
  | Some (JObj l) =>
    match List.find (λ kv, str_eqb kv.1 "error") l with
    | Some (_, JStr m) => m
    | _ => []
    end
  | _ => []
  end.

(** [res.json()] settled: a value, or a rejection. *)
Definition on_body (body : result host_error json) (q : inflight) : inflight :=
  match rq_phase q with
  | AwaitErrorBody status =>
    settle (Err (ApiError status (error_message (match body with Ok v => Some v | Err _ => None end)))) q
  | AwaitBody => settle (match body with Ok v => Ok (Some v) | Err e => Err (HostError e) end) q
  | _ => q
  end.

(** [fetch] rejected: the network failed, or the controller was aborted. *)
Definition on_fetch_failure (e : host_error) (q : inflight) : inflight :=
  match rq_phase q with
  | AwaitFetch => settle (Err (HostError e)) q
  | _ => q
  end.

(** ** The calls outside [req]: session bootstrap, logout, export download *)

(** A response as these calls see it: its status, then its body. *)
Record response (A : Type) := { r_status : Z; r_body : result host_error A }.
Arguments r_status {A}.
Arguments r_body {A}.

Definition reply (A : Type) : Type := result host_error (response A).

Definition fetchAdminAuthConfig (meta : option jsstr) (fetched : reply AdminAuthConfig)
    : result api_exn AdminAuthConfig :=
  match buildAdminEndpoint "/v1/auth/config" meta with
  | Err e => Err (EndpointError e)
  | Ok _ =>
    match fetched with
    | Err h => Err (HostError h)
    | Ok r => if negb (status_ok (r_status r)) then Err (ApiError (r_status r) [])
              else match r_body r with Ok a => Ok a | Err h => Err (HostError h) end
    end
  end.

Definition fetchAdminSession (meta : option jsstr) (fetched : reply AdminSession) (c : client)
    : result api_exn (option AdminSession) * client :=
  match buildAdminEndpoint "/v1/auth/session" meta with
  | Err e => (Err (EndpointError e), c)
  | Ok _ =>
    match fetched with
    | Err h => (Err (HostError h), c)
    | Ok r =>
      if r_status r =? 401 then (Ok None, setAdminSession None c)
      else if negb (status_ok (r_status r)) then (Err (ApiError (r_status r) []), c)
      else match r_body r with
           | Err h => (Err (HostError h), c)
           | Ok s => (Ok (Some s), setAdminSession (Some s) c)
           end
    end
  end.

Definition logout_request (meta : option jsstr) (s : AdminSession)
    : result base_path_error http_request :=
  url <-? buildAdminEndpoint "/v1/auth/logout" meta;;
  Ok {| h_url := url; h_method := "POST";
        h_headers := [("Content-Type", "application/json");
                      ("X-CSRF-Token", session_csrf_token s)];
        h_body := None; h_cache := None; h_credentials := "same-origin" |}.

Definition logoutAdminSession (meta : option jsstr) (fetched : reply unit) (c : client)
    : result api_exn unit * client :=
  match getAdminSession c with
  | None => (Ok tt, c)
  | Some s =>
    match logout_request meta s with
    | Err e => (Err (EndpointError e), c)
    | Ok _ =>
      match fetched with
      | Err h => (Err (HostError h), c)
      | Ok r => if negb (status_ok (r_status r)) && negb (r_status r =? 401)
                then (Err (ApiError (r_status r) []), c)
                else (Ok tt, setAdminSession None c)
      end
    end
  end.

(** ** Interleaved requests *)

Record world := { w_client : client; w_reqs : gmap nat inflight; w_next : nat }.

(** What may happen next, at any time. *)
Inductive label :=
  | LCall (path : jsstr) (i : init) (s : upstream)
  | LTimeout (id : nat)
  | LAbort (id : nat)
  | LResponse (id : nat) (status : Z)
  | LBody (id : nat) (body : result host_error json)
  | LFail (id : nat) (e : host_error)
  | LSetToken (token : jsstr)
  | LClearToken
  | LSetSession (s : option AdminSession)
  | LConsumeMessage.

Definition on_req (f : inflight → inflight) (id : nat) (w : world) : world :=
  {| w_client := w_client w; w_reqs := alter f id (w_reqs w); w_next := w_next w |}.

Definition on_client (f : client → client) (w : world) : world :=
  {| w_client := f (w_client w); w_reqs := w_reqs w; w_next := w_next w |}.

Definition step (meta : option jsstr) (w : world) (l : label) : world :=
  match l with
  | LCall path i s =>
    {| w_client := w_client w;
       w_reqs := <[w_next w := (req_start (w_client w) meta path i s).1]> (w_reqs w);
       w_next := S (w_next w) |}
  | LTimeout id => on_req on_timeout id w
  | LAbort id => on_req on_caller_abort id w
  | LResponse id status =>
    match w_reqs w !! id with
    | Some q => let '(c', q') := on_response status (w_client w) q in
                {| w_client := c'; w_reqs := <[id := q']> (w_reqs w); w_next := w_next w |}
    | None => w
    end
  | LBody id body => on_req (on_body body) id w
  | LFail id e => on_req (on_fetch_failure e) id w
  | LSetToken token => on_client (setAdminToken token) w
  | LClearToken => on_client clearAdminToken w
  | LSetSession s => on_client (setAdminSession s) w
  | LConsumeMessage => on_client (λ c, (consumePendingAdminAuthMessage c).2) w
  end.

Definition initial (c : client) : world := {| w_client := c; w_reqs := ∅; w_next := 0 |}.

(** The worlds a page can be in. *)
Inductive reachable (meta : option jsstr) : world → Prop :=
  | reach_init c : reachable meta (initial c)
  | reach_step w l : reachable meta w → reachable meta (step meta w l).

(** ** Lemmas *)

Definition settled (q : inflight) : Prop := ∃ r, rq_phase q = Settled r.

(** What holds of a request at any time. *)
Record req_inv (q : inflight) : Prop := {
  inv_timedOut : rq_timedOut q = true → rq_aborted q = true ∧ rq_timer q = false;
  inv_pending : ¬ settled q → rq_timer q = true ∨ rq_timedOut q = true;
  inv_settled : settled q → rq_timer q = false ∧ rq_listening q = false;
  inv_error e : rq_phase q = Settled (Err e) →
                e = ApiTimeoutError REQUEST_TIMEOUT_MS ↔ rq_timedOut q = true;
}.

(** Errors that are not the timeout's. *)
Definition not_timeout (e : api_exn) : Prop := match e with ApiTimeoutError _ => False | _ => True end.

Lemma settle_inv r q :
  req_inv q → match r with Err e => not_timeout e | Ok _ => True end → req_inv (settle r q).
Proof.
  intros [Ht Hp Hs He] Hr. split; simpl.
  - intros H. apply Ht in H. by destruct H.
  - intros H. destruct H. by eexists.
  - done.
  - intros e [= H]. destruct r as [v|e']; [done|]. injection H as <-.
    destruct (rq_timedOut q); [done|]. split; [|done]. by intros ->.
Qed.

Lemma req_start_inv c meta path i s : req_inv (req_start c meta path i s).1.
Proof.
  unfold req_start. set (q := Build_inflight _ _ _ _ _ _).
  assert (req_inv q) as Hq.
  { split; simpl; try done; [by left|by intros [? ?]]. }
  destruct (req_request c meta path i); simpl; [done|]. by apply settle_inv.
Qed.

Lemma on_timeout_inv q : req_inv q → req_inv (on_timeout q).
Proof.
  intros Hq. unfold on_timeout. destruct (rq_timer q) eqn:Et; [|done].
  destruct Hq as [Ht Hp Hs He]. split; simpl; try done.
  - by right.
  - intros [r Hr]. destruct Hs as [? _]; [by exists r|congruence].
  - intros e H. destruct Hs as [? _]; [by eexists|congruence].
Qed.

Lemma on_caller_abort_inv q : req_inv q → req_inv (on_caller_abort q).
Proof.
  intros Hq. unfold on_caller_abort. destruct (rq_listening q) eqn:El; [|done].
  destruct Hq as [Ht Hp Hs He]. split; simpl; try done.
  - intros H. apply Ht in H. by destruct H.
  - intros H. destruct Hs as [? ?]; [done|congruence].
Qed.

Lemma set_phase_inv p q :
  req_inv q → ¬ settled q → (∀ r, p ≠ Settled r) → req_inv (set_phase p q).
Proof.
  intros [Ht Hp Hs He] Hq Hn. split; simpl.
  - done.
  - intros _. by apply Hp.
  - intros [r Hr]. by destruct (Hn r).
  - intros e Hr. by destruct (Hn (Err e)).
Qed.

Lemma on_response_inv status c q : req_inv q → req_inv (on_response status c q).2.
Proof.
  intros Hq. unfold on_response. destruct (rq_phase q) eqn:Ep; [|done..].
  assert (¬ settled q) by (intros [r Hr]; congruence).
  repeat case_cond; simpl; try (by apply settle_inv); by apply set_phase_inv.
Qed.

Lemma on_body_inv body q : req_inv q → req_inv (on_body body q).
Proof.
  intros Hq. unfold on_body. destruct (rq_phase q); try done; apply settle_inv; try done.
  by destruct body.
Qed.

Lemma on_fetch_failure_inv e q : req_inv q → req_inv (on_fetch_failure e q).
Proof. intros Hq. unfold on_fetch_failure. destruct (rq_phase q); try done. by apply settle_inv. Qed.

#[export] Hint Resolve req_start_inv on_timeout_inv on_caller_abort_inv on_response_inv
  on_body_inv on_fetch_failure_inv : js.

Definition world_inv (w : world) : Prop := map_Forall (λ _ q, req_inv q) (w_reqs w).

Lemma on_req_inv f id w :
  (∀ q, req_inv q → req_inv (f q)) → world_inv w → world_inv (on_req f id w).
Proof.
  intros Hf Hw i q. simpl. rewrite lookup_alter. case_decide as Hi; [subst|apply Hw].
  intros (q' & Hq & ->)%fmap_Some. apply Hf, (Hw _ _ Hq).
Qed.

Lemma step_inv meta w l : world_inv w → world_inv (step meta w l).
Proof.
  intros Hw. destruct l; simpl; try (by apply on_req_inv; auto with js); try done.
  - apply map_Forall_insert_2; auto with js.
  - destruct (w_reqs w !! id) as [q|] eqn:E; [|done].
    destruct (on_response status (w_client w) q) as [c' q'] eqn:Er.
    apply map_Forall_insert_2; [|done].
    replace q' with (on_response status (w_client w) q).2 by by rewrite Er.
    apply on_response_inv, (Hw _ _ E).
Qed.

Lemma reachable_inv meta w : reachable meta w → world_inv w.
Proof. induction 1; [apply map_Forall_empty|by apply step_inv]. Qed.

(** Nothing moves a settled request. *)
Lemma settled_fixed meta w l id q :
  world_inv w → (id < w_next w)%nat → w_reqs w !! id = Some q → settled q →
  w_reqs (step meta w l) !! id = Some q.
Proof.
  intros Hw Hid Hq Hs. pose proof (inv_settled _ (Hw _ _ Hq) Hs) as [Ht Hl].
  destruct Hs as [r Hr].
  assert (Hf : ∀ f i, f q = q → w_reqs (on_req f i w) !! id = Some q).
  { intros f i E. simpl. rewrite lookup_alter. case_decide; [|done]. subst. rewrite Hq. simpl. by rewrite E. }
  destruct l; simpl; try done; try apply Hf.
  - rewrite lookup_insert_ne; [done|lia].
  - unfold on_timeout. by rewrite Ht.
  - unfold on_caller_abort. by rewrite Hl.
  - destruct (w_reqs w !! id0) as [q0|] eqn:E0; [|done]. destruct (decide (id0 = id)) as [->|].
    + simplify_eq. unfold on_response. rewrite Hr. simpl. by rewrite lookup_insert_eq.
    + destruct (on_response _ _ _). simpl. by rewrite lookup_insert_ne.
  - unfold on_body. by rewrite Hr.
  - unfold on_fetch_failure. by rewrite Hr.
Qed.

Definition ids_below (w : world) : Prop := ∀ id q, w_reqs w !! id = Some q → (id < w_next w)%nat.

Lemma on_req_ids f id w : ids_below w → ids_below (on_req f id w).
Proof.
  intros Hw i q. simpl. rewrite lookup_alter. case_decide; [subst|apply Hw].
  intros (q' & Hq & _)%fmap_Some. by apply Hw in Hq.
Qed.

Lemma step_ids meta w l : ids_below w → ids_below (step meta w l).
Proof.
  intros Hw. destruct l; try (by apply on_req_ids); try done.
  - intros n q. simpl. destruct (decide (w_next w = n)) as [->|].
    + lia.
    + rewrite lookup_insert_ne by done. intros H. apply Hw in H. lia.
  - simpl. destruct (w_reqs w !! id) as [q0|] eqn:E; [|done].
    destruct (on_response _ _ _) as [c' q']. intros n q. simpl.
    destruct (decide (id = n)) as [->|]; [by apply Hw in E|].
    rewrite lookup_insert_ne by done. apply Hw.
Qed.

Lemma reachable_ids meta w : reachable meta w → ids_below w.
Proof. induction 1; [by intros i q ?|by apply step_ids]. Qed.

(** ** Properties *)

(** C1. Whatever interleaving of responses, bodies, timers, aborts and credential
    changes led here: a request that is not settled still has its timer or has timed
    out, a settled one holds neither timer nor abort listener and never changes
    again, and it failed with the timeout error exactly when its timer fired. *)
Theorem req_lifecycle meta w id q :
  reachable meta w → w_reqs w !! id = Some q →
  (¬ settled q → rq_timer q = true ∨ rq_timedOut q = true) ∧
  (settled q → rq_timer q = false ∧ rq_listening q = false
               ∧ ∀ l, w_reqs (step meta w l) !! id = Some q) ∧
  (∀ e, rq_phase q = Settled (Err e) →
        e = ApiTimeoutError REQUEST_TIMEOUT_MS ↔ rq_timedOut q = true).
Proof.
  intros Hr Hq. pose proof (reachable_inv _ _ Hr) as Hw. pose proof (reachable_ids _ _ Hr) as Hi.
  destruct (Hw _ _ Hq) as [_ Hp Hs He]. split_and!; [done| |done].
  intros H. destruct (Hs H) as [? ?]. split_and!; [done..|].
  intros l. apply settled_fixed; eauto.
Qed.

(** The rejection an abort causes, at whatever point the request waits. *)
Definition abort_rejection (id : nat) (q : inflight) : label :=
  match rq_phase q with
  | AwaitFetch => LFail id AbortError
  | _ => LBody id (Err AbortError)
  end.

(** No request hangs: from any reachable world, the timer and the rejection its
    abort causes leave a pending request settled with the timeout error. *)
Theorem req_times_out meta w id q :
  reachable meta w → w_reqs w !! id = Some q → ¬ settled q →
  ∃ q', w_reqs (step meta (step meta w (LTimeout id)) (abort_rejection id q)) !! id = Some q'
        ∧ rq_phase q' = Settled (Err (ApiTimeoutError REQUEST_TIMEOUT_MS)).
Proof.
  intros Hr Hq Hs. pose proof (inv_pending _ (reachable_inv _ _ Hr _ _ Hq) Hs) as Hp.
  assert (Hto : rq_timedOut (on_timeout q) = true).
  { unfold on_timeout. destruct (rq_timer q) eqn:E; [done|]. by destruct Hp. }
  assert (Hph : rq_phase (on_timeout q) = rq_phase q) by (unfold on_timeout; by case_match).
  unfold abort_rejection. destruct (rq_phase q) eqn:Ep; simpl;
    rewrite ?lookup_alter_eq, Hq; simpl; unfold on_fetch_failure, on_body; rewrite Hph;
    try (eexists; split; [done|]; simpl; by rewrite Hto).
  destruct Hs. by eexists.
Qed.

(** C2. A 401 answers to the credential the request was made with: made under a
    session, it ends the session and leaves the expired-session message for whoever
    subscribes late; made without one, it leaves the session alone and reports an
    invalid token.  Either way the request fails with a 401 (or its timeout). *)
Theorem req_unauthorized meta w id q :
  w_reqs w !! id = Some q → rq_phase q = AwaitFetch →
  let w' := step meta w (LResponse id 401) in
  match rq_session q with
   | Some _ =>
     currentAdminSession (w_client w') = None
     ∧ pendingAdminAuthMessage (w_client w') = Some auth_sessionExpired
     ∧ dispatched (w_client w') = dispatched (w_client w)
                                  ++ [AdminSessionChange; AdminAuthRequired auth_sessionExpired]
   | None =>
     currentAdminSession (w_client w') = currentAdminSession (w_client w)
     ∧ pendingAdminAuthMessage (w_client w') = Some auth_invalidToken
     ∧ dispatched (w_client w') = dispatched (w_client w) ++ [AdminAuthRequired auth_invalidToken]
   end
  ∧ ∃ q', w_reqs w' !! id = Some q' ∧
      rq_phase q' = Settled (Err (if rq_timedOut q then ApiTimeoutError REQUEST_TIMEOUT_MS
                                  else ApiError 401 [])).
Proof.
  intros Hq Hp. simpl. rewrite Hq. unfold on_response. rewrite Hp. simpl. split.
  - destruct (rq_session q); simpl; split_and!; try done. by rewrite <- app_assoc.
  - eexists. rewrite lookup_insert_eq. split; [done|]. done.
Qed.

(** The session changes only when it is set or when a request that was made under
    a session is answered 401: no other response, error or timer touches it. *)
Theorem session_changes meta w l :
  currentAdminSession (w_client (step meta w l)) ≠ currentAdminSession (w_client w) →
  (∃ s, l = LSetSession s) ∨
  (∃ id q, l = LResponse id 401 ∧ w_reqs w !! id = Some q ∧ rq_phase q = AwaitFetch
           ∧ rq_session q ≠ None).
Proof.
  destruct l; simpl; try done; [|by eauto].
  destruct (w_reqs w !! id) as [q|] eqn:Hq; [|done].
  unfold on_response. destruct (rq_phase q) eqn:Hp; simpl; try done.
  destruct (status =? 401) eqn:Es; bool_to_prop.
  - subst. destruct (rq_session q) as [s|] eqn:Hs; simpl; [|done].
    intros _. right. exists id, q. by rewrite Hs.
  - repeat case_cond; done.
Qed.

Lemma obj_get_set k k' v o :
  obj_get k (obj_set k' v o) = if str_eqb k' k then Some v else obj_get k o.
Proof.
  induction o as [|[a b] o IH]; simpl; [done|].
  destruct (str_eqb a k') eqn:E1.
  - apply str_eqb_eq in E1 as ->. simpl. by case_match.
  - simpl. rewrite IH. destruct (str_eqb k' k) eqn:E2; [|done].
    apply str_eqb_eq in E2 as ->. by rewrite E1.
Qed.

Lemma obj_get_spread k o p :
  (∀ kv, kv ∈ p → kv.1 ≠ k) → obj_get k (obj_spread o p) = obj_get k o.
Proof.
  unfold obj_spread. revert o. induction p as [|[a b] p IH]; intros o H; simpl; [done|].
  rewrite IH by (intros kv Hkv; apply H; by right). rewrite obj_get_set.
  destruct (str_eqb a k) eqn:E; [|done]. apply str_eqb_eq in E.
  by destruct (H (a, b) ltac:(left)).
Qed.

(** The authentication headers survive options that do not name them. *)
Lemma req_request_auth c meta path i h :
  req_request c meta path i = Ok h →
  (∀ kv, kv ∈ i_headers i → kv.1 ≠ "Authorization" ∧ kv.1 ≠ "X-CSRF-Token") →
  h_credentials h = "same-origin" ∧
  obj_get "X-CSRF-Token" (h_headers h) = session_csrf_token <$> getAdminSession c ∧
  obj_get "Authorization" (h_headers h) =
    match getAdminSession c with
    | Some _ => None
    | None => if truthy (getAdminToken c) then Some ("Bearer " ++ getAdminToken c) else None
    end.
Proof.
  unfold req_request. intros (url & _ & [= <-])%result_bind_ok Hh.
  cbn [h_credentials h_headers]. unfold req_headers. split; [done|].
  rewrite (obj_get_spread "X-CSRF-Token" _ (i_headers i)) by (intros kv Hkv; by destruct (Hh kv Hkv)).
  rewrite (obj_get_spread "Authorization" _ (i_headers i)) by (intros kv Hkv; by destruct (Hh kv Hkv)).
  unfold auth_headers. destruct (getAdminSession c); [split; reflexivity|].
  destruct (truthy (getAdminToken c)); split; reflexivity.
Qed.

(** *** Witnesses *)

Definition demo_session : AdminSession :=
  {| session_issuer := "https://idp"; session_subject := "u1"; session_label := "Ana";
     session_id := "s1"; session_roles := []; session_permissions := ["admin.read"];
     session_csrf_token := "csrf-1"; session_expires_at := []; session_idle_expires_at := [] |}.

Definition demo_client : client :=
  {| currentAdminSession := Some demo_session; pendingAdminAuthMessage := None;
     stored_token := None; dispatched := [] |}.

Definition get_init : init := {| i_method := "GET"; i_headers := []; i_body := None; i_cache := None |}.

Definition demo_world : world := step None (initial demo_client) (LCall "/tenants" get_init no_signal).

Definition demo_request : inflight := (req_start demo_client None "/tenants" get_init no_signal).1.

Lemma req_lifecycle_witness :
  ∃ q, w_reqs demo_world !! 0%nat = Some q ∧ (¬ settled q → rq_timer q = true ∨ rq_timedOut q = true).
Proof.
  exists demo_request. split; [reflexivity|].
  apply (req_lifecycle None demo_world 0 demo_request); [|reflexivity].
  apply reach_step, reach_init.
Defined.

Lemma req_times_out_witness :
  ∃ q', w_reqs (step None (step None demo_world (LTimeout 0)) (LFail 0 AbortError)) !! 0%nat = Some q'
        ∧ rq_phase q' = Settled (Err (ApiTimeoutError REQUEST_TIMEOUT_MS)).
Proof.
  apply (req_times_out None demo_world 0 demo_request); [|reflexivity|].
  - apply reach_step, reach_init.
  - intros [r Hr]. vm_compute in Hr. discriminate Hr.
Defined.

Lemma req_unauthorized_witness :
  currentAdminSession (w_client (step None demo_world (LResponse 0 401))) = None.
Proof.
  apply (req_unauthorized None demo_world 0 demo_request); reflexivity.
Defined.

Lemma session_changes_witness :
  (∃ s, LResponse 0 401 = LSetSession s) ∨
  (∃ id q, LResponse 0 401 = LResponse id 401 ∧ w_reqs demo_world !! id = Some q
           ∧ rq_phase q = AwaitFetch ∧ rq_session q ≠ None).
Proof. apply (session_changes None demo_world). vm_compute. discriminate. Defined.
