(* ===== verification/ApiCalls.v ===== *)
(** * The calls of the admin API

    [src/web/src/lib/api.ts], second part: the object [api].  A call is a value
    ([api_call]); [api_path] and [api_init] are the address and the options its
    method hands to [req]; [downloadAuditExport] is beside them. *)
From Stdlib Require Import ZArith Lia List.
From stdpp Require Import base list sets gmap.
From S2P Require Import Prelude Regex Host BasePath Json Types Api.

(** ** Encoding of address parts *)

Definition hex_upper (n : Z) : Z := if n <? 10 then 48 + n else 55 + n.
Definition percent (b : Z) : jsstr := [37; hex_upper (b / 16); hex_upper (b mod 16)].

(** UTF-8 bytes of a code point. *)
Definition utf8_bytes (p : Z) : list Z :=
  if p <? 128 then [p]
  else if p <? 2048 then [192 + p / 64; 128 + p mod 64]
  else if p <? 65536 then [224 + p / 4096; 128 + p / 64 mod 64; 128 + p mod 64]
  else [240 + p / 262144; 128 + p / 4096 mod 64; 128 + p / 64 mod 64; 128 + p mod 64].

Definition percent_all (p : Z) : jsstr := concat (map percent (utf8_bytes p)).

Definition pair_point (h l : Z) : Z := (h - 55296) * 1024 + (l - 56320) + 65536.

(** [A-Za-z0-9] and [- _ . ! ~ * ' ( )]. *)
Definition uri_unreserved (c : Z) : bool :=
  is_digit c || is_lower c || is_upper c || bool_decide (c ∈ [45; 95; 46; 33; 126; 42; 39; 40; 41]).

(** [encodeURIComponent]: [None] when it throws, on a lone surrogate. *)
Fixpoint encodeURIComponent (s : jsstr) : option jsstr :=
  match s with
  | [] => Some []
  | c :: s' =>
    if uri_unreserved c then (λ r, c :: r) <$> encodeURIComponent s'
    else if is_low c then None
    else if is_high c then
      match s' with
      | d :: s'' => if is_low d then (λ r, percent_all (pair_point c d) ++ r) <$> encodeURIComponent s''
                    else None
      | [] => None
      end
    else (λ r, percent_all c ++ r) <$> encodeURIComponent s'
  end.

(** Form encoding, as [URLSearchParams] prints: a lone surrogate becomes U+FFFD. *)
Definition form_unreserved (c : Z) : bool :=
  is_digit c || is_lower c || is_upper c || bool_decide (c ∈ [42; 45; 46; 95]).

Fixpoint form_encode (s : jsstr) : jsstr :=
  match s with
  | [] => []
  | c :: s' =>
    if c =? 32 then 43 :: form_encode s'
    else if form_unreserved c then c :: form_encode s'
    else if is_high c then
      match s' with
      | d :: s'' => if is_low d then percent_all (pair_point c d) ++ form_encode s''
                    else percent_all 65533 ++ form_encode s'
      | [] => percent_all 65533
      end
    else if is_low c then percent_all 65533 ++ form_encode s'
    else percent_all c ++ form_encode s'
  end.

Definition search_string (ps : list (jsstr * jsstr)) : jsstr :=
  join "&" ((λ p : jsstr * jsstr, form_encode p.1 ++ "=" ++ form_encode p.2) <$> ps).

(** [if (v) query.set(k, v)] on an empty [URLSearchParams]. *)
Definition query_opt (k : jsstr) (v : option jsstr) : list (jsstr * jsstr) :=
  match v with Some s => if truthy s then [(k, s)] else [] | None => [] end.

Example encode_ex : encodeURIComponent "a/b ç" = Some "a%2Fb%20%C3%A7".
Proof. vm_compute. reflexivity. Qed.

(** ** Bodies *)

Definition jopt (k : jsstr) (v : option json) : list (jsstr * json) :=
  match v with Some j => [(k, j)] | None => [] end.
Definition jstrs (l : list (jsstr * jsstr)) : json := JObj ((λ p : jsstr * jsstr, (p.1, JStr p.2)) <$> l).

Definition scope_name (s : api_scope) : jsstr :=
  match s with
  | tenant_identify => "tenant:identify"
  | resource_resolve => "resource:resolve"
  | events_read => "events:read"
  | tenant_list => "tenant:list"
  | resource_write => "resource:write"
  end.

Definition client_body (b : CreateAPIClientInput) : json :=
  JObj [("name", JStr (cac_name b)); ("scopes", JArr (JStr <$> cac_scopes b));
        ("rpm_limit", JNum (cac_rpm_limit b)); ("expires_at", JStr (cac_expires_at b))].

Definition format_name (f : webhook_format) : jsstr :=
  match f with generic => "generic" | slack => "slack" | discord => "discord" | teams => "teams" end.
Definition webhook_status_name (s : webhook_status) : jsstr :=
  match s with wh_active => "active" | wh_disabled => "disabled" end.
Definition export_format_name (f : export_format) : jsstr :=
  match f with csv => "csv" | jsonl => "jsonl" end.

Definition filters_body (f : AuditExportFilters) : json :=
  JObj ([("from", JStr (aef_from f)); ("to", JStr (aef_to f))]
        ++ jopt "action" (JStr <$> aef_action f) ++ jopt "target_type" (JStr <$> aef_target_type f)
        ++ jopt "result" (JStr <$> aef_result f)).

(** ** The calls *)

Inductive api_call :=
  | overview
  | listTenants
  | getTenant (id : jsstr)
  | createTenant (slug name : jsstr) (idempotencyKey : jsstr)
  | updateTenant (id name slug status : jsstr)
  | deleteTenant (id : jsstr)
  | listDomains (id : jsstr)
  | addDomain (id hostname : jsstr)
  | updateDomain (id domainId hostname : jsstr)
  | removeDomain (id domainId : jsstr)
  | listTenantResources (id : jsstr) (reveal : bool)
  | createResource (id name alias definitionKey : jsstr) (sourceResourceId : option jsstr)
      (values : list (jsstr * jsstr)) (idempotencyKey : jsstr)
  | updateResourceIdentity (id resourceId name alias : jsstr)
  | setResourceStatus (id resourceId status : jsstr)
  | updateResourceField (id resourceId fieldKey value : jsstr)
  | clearResourceFieldOverride (id resourceId fieldKey : jsstr)
  | duplicateResource (id resourceId alias idempotencyKey : jsstr)
  | deleteResource (id resourceId : jsstr)
  | listDefinitions
  | getDefinition (id : jsstr)
  | createDefinition (key name : jsstr) (description icon : option jsstr)
  | updateDefinition (id name description : jsstr)
  | setDefinitionStatus (id status : jsstr)
  | deleteDefinition (id : jsstr)
  | addField (id key : jsstr) (label dataType : option jsstr) (required isSecret : option bool)
  | updateDefinitionField (id fieldId label : jsstr) (required : bool)
  | deleteField (id fieldId : jsstr)
  | listAPIClients
  | createAPIClient (body : CreateAPIClientInput) (idempotencyKey : jsstr)
  | updateAPIClient (id : jsstr) (body : CreateAPIClientInput)
  | rotateAPIClient (id : jsstr) (graceSeconds : Z) (idempotencyKey : jsstr)
  | revokeAPIClient (id : jsstr)
  | deleteAPIClient (id : jsstr)
  | getAPIClientUsage (id : jsstr) (from to : option jsstr)
  | listAPIClientUsage (from to : option jsstr)
  | listAuditEvents (query : list (jsstr * jsstr))
  | getAuditHealth
  | createAuditExport (filters : AuditExportFilters) (format : export_format) (idempotencyKey : jsstr)
  | getAuditExport (id : jsstr)
  | listAuditLegalHolds
  | createAuditLegalHold (from to reason : jsstr)
  | releaseAuditLegalHold (id : jsstr)
  | getSettings
  | updateSettings (values : list (jsstr * jsstr)) (revision : Z)
  | listAdminSessions
  | revokeAdminSession (id : jsstr)
  | revokeAdminPrincipalSessions (issuer subject : jsstr)
  | listWebhookTargets
  | createWebhookTarget (name url : jsstr) (format : webhook_format)
  | setWebhookTargetStatus (id : jsstr) (status : webhook_status)
  | listWebhookDeliveries (status : jsstr)
  | replayWebhookDelivery (id : jsstr)
  | getWebhookOverview
  | getOperationalHealth.

(** The address under [BASE]; [None] when encoding a field key throws. *)
Definition api_path (a : api_call) : option jsstr :=
  match a with
  | overview => Some "/overview"
  | listTenants | createTenant _ _ _ => Some "/tenants"
  | getTenant id | updateTenant id _ _ _ | deleteTenant id => Some ("/tenants/" ++ id)
  | listDomains id | addDomain id _ => Some ("/tenants/" ++ id ++ "/domains")
  | updateDomain id domainId _ | removeDomain id domainId =>
    Some ("/tenants/" ++ id ++ "/domains/" ++ domainId)
  | listTenantResources id reveal =>
    Some ("/tenants/" ++ id ++ "/resources" ++ (if reveal then "?reveal=true" else []))
  | createResource id _ _ _ _ _ _ => Some ("/tenants/" ++ id ++ "/resources")
  | updateResourceIdentity id resourceId _ _ | deleteResource id resourceId =>
    Some ("/tenants/" ++ id ++ "/resources/" ++ resourceId)
  | setResourceStatus id resourceId _ =>
    Some ("/tenants/" ++ id ++ "/resources/" ++ resourceId ++ "/status")
  | updateResourceField id resourceId fieldKey _ | clearResourceFieldOverride id resourceId fieldKey =>
    (λ k, "/tenants/" ++ id ++ "/resources/" ++ resourceId ++ "/fields/" ++ k)
      <$> encodeURIComponent fieldKey
  | duplicateResource id resourceId _ _ =>
    Some ("/tenants/" ++ id ++ "/resources/" ++ resourceId ++ "/duplicate")
  | listDefinitions | createDefinition _ _ _ _ => Some "/resource-definitions"
  | getDefinition id | updateDefinition id _ _ | deleteDefinition id =>
    Some ("/resource-definitions/" ++ id)
  | setDefinitionStatus id _ => Some ("/resource-definitions/" ++ id ++ "/status")
  | addField id _ _ _ _ _ => Some ("/resource-definitions/" ++ id ++ "/fields")
  | updateDefinitionField id fieldId _ _ | deleteField id fieldId =>
    Some ("/resource-definitions/" ++ id ++ "/fields/" ++ fieldId)
  | listAPIClients | createAPIClient _ _ => Some "/api-clients"
  | updateAPIClient id _ | deleteAPIClient id => Some ("/api-clients/" ++ id)
  | rotateAPIClient id _ _ => Some ("/api-clients/" ++ id ++ "/rotate")
  | revokeAPIClient id => Some ("/api-clients/" ++ id ++ "/revoke")
  | getAPIClientUsage id from to =>
    Some ("/api-clients/" ++ id ++ "/usage?"
          ++ search_string (query_opt "from" from ++ query_opt "to" to))
  | listAPIClientUsage from to =>
    Some ("/api-client-usage?" ++ search_string (query_opt "from" from ++ query_opt "to" to))
  | listAuditEvents query => Some ("/audit-events?" ++ search_string query)
  | getAuditHealth => Some "/audit-health"
  | createAuditExport _ _ _ => Some "/audit-exports"
  | getAuditExport id => Some ("/audit-exports/" ++ id)
  | listAuditLegalHolds | createAuditLegalHold _ _ _ => Some "/audit-legal-holds"
  | releaseAuditLegalHold id => Some ("/audit-legal-holds/" ++ id ++ "/release")
  | getSettings | updateSettings _ _ => Some "/settings"
  | listAdminSessions => Some "/sessions"
  | revokeAdminSession id => Some ("/sessions/" ++ id)
  | revokeAdminPrincipalSessions _ _ => Some "/sessions/revoke-principal"
  | listWebhookTargets | createWebhookTarget _ _ _ => Some "/webhook-targets"
  | setWebhookTargetStatus id _ => Some ("/webhook-targets/" ++ id ++ "/status")
  | listWebhookDeliveries status =>
    Some ("/webhook-deliveries" ++ (if truthy status then "?status=" ++ status else []))
  | replayWebhookDelivery id => Some ("/webhook-deliveries/" ++ id ++ "/replay")
  | getWebhookOverview => Some "/webhook-overview"
  | getOperationalHealth => Some "/operational-health"
  end.

Definition get : init := {| i_method := "GET"; i_headers := []; i_body := None; i_cache := None |}.
Definition send (method : jsstr) (body : option json) : init :=
  {| i_method := method; i_headers := []; i_body := body; i_cache := None |}.
Definition send_once (body : json) (idempotencyKey : jsstr) : init :=
  {| i_method := "POST"; i_headers := [("Idempotency-Key", idempotencyKey)]; i_body := Some body;
     i_cache := None |}.
Definition no_store (i : init) : init :=
  {| i_method := i_method i; i_headers := i_headers i; i_body := i_body i; i_cache := Some "no-store" |}.

(** The options handed to [req], the caller's signal apart. *)
Definition api_init (a : api_call) : init :=
  match a with
  | overview | listTenants | getTenant _ | listDomains _ | listDefinitions | getDefinition _
  | listAPIClients | getAPIClientUsage _ _ _ | listAPIClientUsage _ _ | listAuditEvents _
  | getAuditHealth | getAuditExport _ | listAuditLegalHolds | getSettings | listAdminSessions
  | listWebhookTargets | listWebhookDeliveries _ | getWebhookOverview => get
  | getOperationalHealth => no_store get
  | listTenantResources _ reveal => if reveal then no_store get else get
  | createTenant slug name k => send_once (jstrs [("slug", slug); ("name", name)]) k
  | updateTenant _ name slug status =>
    send "PUT" (Some (jstrs [("name", name); ("slug", slug); ("status", status)]))
  | deleteTenant _ | removeDomain _ _ | clearResourceFieldOverride _ _ _ | deleteResource _ _
  | deleteDefinition _ | deleteField _ _ | deleteAPIClient _ | revokeAdminSession _ =>
    send "DELETE" None
  | addDomain _ hostname => send "POST" (Some (jstrs [("hostname", hostname)]))
  | updateDomain _ _ hostname => send "PUT" (Some (jstrs [("hostname", hostname)]))
  | createResource _ name alias definitionKey sourceResourceId values k =>
    send_once (JObj ([("name", JStr name); ("alias", JStr alias); ("definitionKey", JStr definitionKey)]
                     ++ jopt "sourceResourceId" (JStr <$> sourceResourceId)
                     ++ [("values", jstrs values)])) k
  | updateResourceIdentity _ _ name alias =>
    send "PATCH" (Some (jstrs [("name", name); ("alias", alias)]))
  | setResourceStatus _ _ status => send "PUT" (Some (jstrs [("status", status)]))
  | updateResourceField _ _ _ value => send "PUT" (Some (jstrs [("value", value)]))
  | duplicateResource _ _ alias k => send_once (jstrs [("alias", alias)]) k
  | createDefinition key name description icon =>
    send "POST" (Some (JObj ([("key", JStr key); ("name", JStr name)]
                             ++ jopt "description" (JStr <$> description) ++ jopt "icon" (JStr <$> icon))))
  | updateDefinition _ name description =>
    send "PATCH" (Some (jstrs [("name", name); ("description", description)]))
  | setDefinitionStatus _ status => send "PUT" (Some (jstrs [("status", status)]))
  | addField _ key label dataType required isSecret =>
    send "POST" (Some (JObj ([("key", JStr key)] ++ jopt "label" (JStr <$> label)
                             ++ jopt "dataType" (JStr <$> dataType) ++ jopt "required" (JBool <$> required)
                             ++ jopt "isSecret" (JBool <$> isSecret))))
  | updateDefinitionField _ _ label required =>
    send "PATCH" (Some (JObj [("label", JStr label); ("required", JBool required)]))
  | createAPIClient body k => send_once (client_body body) k
  | updateAPIClient _ body => send "PATCH" (Some (client_body body))
  | rotateAPIClient _ graceSeconds k => send_once (JObj [("grace_seconds", JNum graceSeconds)]) k
  | revokeAPIClient _ | releaseAuditLegalHold _ | replayWebhookDelivery _ => send "POST" None
  | createAuditExport filters format k =>
    send_once (JObj [("filters", filters_body filters); ("format", JStr (export_format_name format))]) k
  | createAuditLegalHold from to reason =>
    send "POST" (Some (jstrs [("from", from); ("to", to); ("reason", reason)]))
  | updateSettings values revision =>
    {| i_method := "PATCH"; i_headers := [("If-Match", dq ++ "settings-" ++ show_int revision ++ dq)];
       i_body := Some (JObj [("values", jstrs values)]); i_cache := None |}
  | revokeAdminPrincipalSessions issuer subject =>
    send "POST" (Some (jstrs [("issuer", issuer); ("subject", subject)]))
  | createWebhookTarget name url format =>
    no_store (send "POST" (Some (jstrs [("name", name); ("url", url); ("format", format_name format)])))
  | setWebhookTargetStatus _ status =>
    send "PUT" (Some (jstrs [("status", webhook_status_name status)]))
  end.

(** The request of a call. *)
Definition api_request (c : client) (meta : option jsstr) (a : api_call)
    : option (result base_path_error http_request) :=
  (λ path, req_request c meta path (api_init a)) <$> api_path a.

Definition downloadAuditExport_request (c : client) (meta : option jsstr) (id : jsstr)
    : option (result base_path_error http_request) :=
  (λ k, url <-? buildAdminEndpoint (BASE ++ "/audit-exports/" ++ k ++ "/download") meta;;
        Ok {| h_url := url; h_method := "GET";
              h_headers := auth_headers (getAdminSession c) (getAdminToken c);
              h_body := None; h_cache := None; h_credentials := "same-origin" |})
    <$> encodeURIComponent id.

(** ** Properties *)

(** The calls that create something, or rotate a key: a retry must not repeat them. *)
Definition creating (a : api_call) : option jsstr :=
  match a with
  | createTenant _ _ k | createResource _ _ _ _ _ _ k | duplicateResource _ _ _ k
  | createAPIClient _ k | rotateAPIClient _ _ k | createAuditExport _ _ k => Some k
  | _ => None
  end.

(** Responses that carry clear secrets: the resources revealed, the secret of a new webhook target,
    the token of a new or rotated API client. *)
Definition secret_bearing (a : api_call) : bool :=
  match a with
  | listTenantResources _ reveal => reveal
  | createWebhookTarget _ _ _ | createAPIClient _ _ | rotateAPIClient _ _ _ => true
  | _ => false
  end.

(** The calls that ask the HTTP cache to keep nothing. *)
Definition forbids_cache (a : api_call) : bool :=
  match a with
  | listTenantResources _ reveal => reveal
  | createWebhookTarget _ _ _ | getOperationalHealth => true
  | _ => false
  end.

Lemma path_slash a p : api_path a = Some p → ∃ t, p = 47 :: t.
Proof.
  destruct a; simpl; try (intros [= <-]; by eexists);
    intros (k & _ & ->)%fmap_Some; by eexists.
Qed.

Lemma base_endpoint p : (∃ t, p = 47 :: t) → admin_endpoint (BASE ++ p).
Proof.
  intros [t ->]. exists "/v1/admin", (47 :: t). split_and!; [by left|done|]. right. exists t. by left.
Qed.

(** Characters an encoded component may hold. *)
Definition component_char (c : Z) : Prop := uri_unreserved c = true ∨ c = 37.

Lemma hex_upper_char n : 0 <= n < 16 → component_char (hex_upper n).
Proof.
  intros Hn. left. unfold hex_upper, uri_unreserved, is_digit, is_lower, is_upper.
  case_cond; bool_to_prop; lia.
Qed.

Lemma percent_chars b : 0 <= b < 256 → Forall component_char (percent b).
Proof.
  intros Hb. unfold percent. apply Forall_cons_2; [by right|].
  apply Forall_cons_2; [|apply Forall_singleton]; apply hex_upper_char.
  - split; [apply Z.div_pos; lia|apply Z.div_lt_upper_bound; lia].
  - by apply Z.mod_pos_bound.
Qed.

Lemma utf8_bytes_range p : 0 <= p < 1114112 → Forall (λ b, 0 <= b < 256) (utf8_bytes p).
Proof.
  intros Hp. unfold utf8_bytes.
  repeat case_cond; bool_to_prop; repeat apply Forall_cons_2; try apply Forall_nil_2;
    Z.to_euclidean_division_equations; lia.
Qed.

Lemma percent_all_chars p : 0 <= p < 1114112 → Forall component_char (percent_all p).
Proof.
  intros Hp. unfold percent_all. pose proof (utf8_bytes_range p Hp) as H.
  induction H as [|b bs Hb _ IH]; cbn [map concat]; [by apply Forall_nil_2|].
  apply Forall_app. split; [by apply percent_chars|done].
Qed.

(** Induction on strings that looks two units ahead. *)
Lemma pair_ind (P : jsstr → Prop) :
  P [] → (∀ c s, P s → (∀ d t, s = d :: t → P t) → P (c :: s)) → ∀ s, P s.
Proof.
  intros H0 HS s. cut (P s ∧ ∀ d t, s = d :: t → P t); [by intros []|].
  induction s as [|c s [IH1 IH2]]; [done|]. split; [by apply HS|naive_solver].
Qed.

Lemma encodeURIComponent_chars s e :
  Forall unit16 s → encodeURIComponent s = Some e → Forall component_char e.
Proof.
  revert e. induction s as [|c s IH1 IH2] using pair_ind; intros e Hs; simpl.
  { by intros [= <-]. }
  apply Forall_cons in Hs as [Hc Hs]. unfold unit16 in Hc.
  case_cond; [intros (r & Hr & ->)%fmap_Some; apply Forall_cons; split; [by left|by eapply IH1]|].
  case_cond; [done|]. case_cond.
  - destruct s as [|d t]; [done|]. apply Forall_cons in Hs as [Hd Ht]. case_cond; [|done].
    intros (r & Hr & ->)%fmap_Some. apply Forall_app. split; [|by eapply IH2].
    apply percent_all_chars. unfold pair_point, is_high, is_low in *. bool_to_prop. lia.
  - intros (r & Hr & ->)%fmap_Some. apply Forall_app. split; [|by eapply IH1].
    apply percent_all_chars. lia.
Qed.

Lemma component_char_plain c : component_char c → c ≠ 47 ∧ c ≠ 63 ∧ c ≠ 35.
Proof.
  intros [H| ->]; [|lia]. split_and!; intros ->; vm_compute in H; done.
Qed.

(** Strings whose surrogates come in pairs. *)
Fixpoint well_formed (s : jsstr) : bool :=
  match s with
  | [] => true
  | c :: s' =>
    if is_high c then match s' with d :: s'' => is_low d && well_formed s'' | [] => false end
    else negb (is_low c) && well_formed s'
  end.

Lemma uri_unreserved_plain c : uri_unreserved c = true → is_high c = false ∧ is_low c = false.
Proof.
  unfold uri_unreserved, is_digit, is_lower, is_upper, is_high, is_low.
  rewrite !orb_true_iff, !andb_true_iff, bool_decide_eq_true, !andb_false_iff, !Z.leb_le, !Z.leb_gt.
  intros [[[?|?]|?]|H]; [lia..|]. rewrite !elem_of_cons, elem_of_nil in H. lia.
Qed.

Lemma encodeURIComponent_total s : is_Some (encodeURIComponent s) ↔ well_formed s = true.
Proof.
  induction s as [|c s IH1 IH2] using pair_ind; simpl; [by split; eauto|].
  destruct (uri_unreserved c) eqn:Hu.
  { apply uri_unreserved_plain in Hu as [-> ->]. by rewrite fmap_is_Some, IH1. }
  destruct (is_low c) eqn:Hl.
  { replace (is_high c) with false; [by split; [intros []|]|].
    symmetry. unfold is_high, is_low in *. bool_to_prop. apply andb_false_iff. right. apply Z.leb_gt. lia. }
  destruct (is_high c); [|by rewrite fmap_is_Some, IH1].
  destruct s as [|d t]; [by split; [intros []|]|].
  destruct (is_low d); simpl; [by rewrite fmap_is_Some, (IH2 d t)|by split; [intros []|]].
Qed.

(** Headers of the calls: none names an authentication header. *)
Lemma api_init_headers a kv :
  kv ∈ i_headers (api_init a) → kv.1 = "Idempotency-Key" ∨ kv.1 = "If-Match".
Proof.
  destruct a; simpl; try case_cond; simpl; rewrite ?elem_of_cons, elem_of_nil; naive_solver.
Qed.

Lemma api_request_Some c meta a h :
  api_request c meta a = Some (Ok h) ↔
  ∃ path, api_path a = Some path ∧ req_request c meta path (api_init a) = Ok h.
Proof. unfold api_request. rewrite fmap_Some. naive_solver. Qed.

(** *** Addresses and authentication *)

(** C6. Every method of [api] whose address can be built reaches [fetch] with the local admin
    address under the deployment's base path (its endpoint is never refused), with same-origin
    credentials, and authenticated by the cookie session's CSRF token alone when there is a
    session, by the stored bearer token alone otherwise: no method's own headers override it. *)
Theorem api_request_authenticated c meta a path base :
  api_path a = Some path → readRuntimeBasePath meta = Ok base →
  ∃ h, api_request c meta a = Some (Ok h) ∧
  h_url h = (if str_eqb base "/" then [] else base) ++ BASE ++ path ∧
  h_credentials h = "same-origin" ∧
  obj_get "X-CSRF-Token" (h_headers h) = session_csrf_token <$> getAdminSession c ∧
  obj_get "Authorization" (h_headers h) =
    match getAdminSession c with
    | Some _ => None
    | None => if truthy (getAdminToken c) then Some ("Bearer " ++ getAdminToken c) else None
    end.
Proof.
  intros Hp Hb. assert (Hu : buildAdminEndpoint (BASE ++ path) meta
      = Ok ((if str_eqb base "/" then [] else base) ++ BASE ++ path)).
  { rewrite buildAdminEndpoint_local by (eapply base_endpoint, path_slash, Hp).
    rewrite Hb. simpl. by case_cond. }
  destruct (req_request c meta path (api_init a)) as [h|] eqn:Hr;
    [|unfold req_request in Hr; by rewrite Hu in Hr].
  exists h. split; [apply api_request_Some; eauto|].
  split; [unfold req_request in Hr; rewrite Hu in Hr; by injection Hr as <-|].
  apply (req_request_auth c meta path (api_init a)); [done|].
  intros kv [-> | ->]%api_init_headers; done.
Qed.

Lemma api_request_authenticated_witness :
  ∃ h, api_request demo_client None (removeDomain "t1" "d1") = Some (Ok h) ∧
       h_url h = "/v1/admin/tenants/t1/domains/d1".
Proof.
  destruct (api_request_authenticated demo_client None (removeDomain "t1" "d1")
              "/tenants/t1/domains/d1" "/") as (h & Hh & Hu & _); [reflexivity|reflexivity|].
  exists h. split; [exact Hh|exact Hu].
Defined.

Lemma creating_headers a :
  i_headers (api_init a) =
    match a with
    | updateSettings _ revision => [("If-Match", dq ++ "settings-" ++ show_int revision ++ dq)]
    | _ => match creating a with Some k => [("Idempotency-Key", k)] | None => [] end
    end.
Proof. destruct a; simpl; try case_cond; reflexivity. Qed.

Lemma auth_headers_key s t : obj_get "Idempotency-Key" (req_headers s t []) = None.
Proof. unfold req_headers, auth_headers. destruct s; [done|]. by destruct (truthy t). Qed.

(** C7. Which requests may be retried and which answers may be kept.  The request of a method that
    takes an idempotency key (a tenant, a resource or its duplicate, an API client, a rotated token,
    an audit export) is a POST with a body and with exactly the key its caller passed, and no other
    request carries one.  The HTTP cache is forbidden to keep the revealed resources, the new webhook
    target and the operational health, and of every other answer nothing is said to it; so an answer
    that holds a clear secret is either forbidden or, for the token of a new or rotated API client,
    the answer of a POST. *)
Theorem api_request_idempotency c meta a h :
  api_request c meta a = Some (Ok h) →
  obj_get "Idempotency-Key" (h_headers h) = creating a ∧
  (creating a ≠ None → h_method h = "POST" ∧ h_body h ≠ None) ∧
  h_cache h = (if forbids_cache a then Some ("no-store" : jsstr) else None) ∧
  (secret_bearing a = true → h_cache h = Some ("no-store" : jsstr) ∨ h_method h = "POST" ∧ creating a ≠ None).
Proof.
  intros (path & _ & Hr)%api_request_Some. unfold req_request in Hr.
  apply result_bind_ok in Hr as (url & _ & [= <-]). cbn [h_headers h_method h_body h_cache].
  split_and!; [|destruct a; done|destruct a; simpl; by try case_cond|destruct a; simpl; try case_cond; by (try (by left); right)].
  rewrite creating_headers. unfold req_headers. fold (req_headers (getAdminSession c) (getAdminToken c) []).
  destruct a; cbn [creating]; unfold obj_spread at 1; cbn [fold_left fst snd];
    rewrite ?obj_get_set; apply auth_headers_key || reflexivity || idtac.
Qed.

Lemma api_request_idempotency_witness :
  (∃ h, api_request demo_client None (createTenant "acme" "Acme" "k-1") = Some (Ok h) ∧
       obj_get "Idempotency-Key" (h_headers h) = Some ("k-1" : jsstr)) ∧
  (∃ h, api_request demo_client None (listTenantResources "t1" true) = Some (Ok h) ∧ h_cache h = Some ("no-store" : jsstr)) ∧
  (∃ h, api_request demo_client None (rotateAPIClient "c1" 0 "k-2") = Some (Ok h) ∧ h_cache h = None).
Proof.
  split_and!; (eexists; split; [reflexivity|]).
  - apply (api_request_idempotency demo_client None (createTenant "acme" "Acme" "k-1")). reflexivity.
  - apply (api_request_idempotency demo_client None (listTenantResources "t1" true)). reflexivity.
  - apply (api_request_idempotency demo_client None (rotateAPIClient "c1" 0 "k-2")). reflexivity.
Defined.

(** *** Field keys *)

(** A field key cannot leave its place in the address: for a key of well-formed UTF-16 the
    address of an override is its resource's path, [/fields/] and one segment without a slash, a
    question mark or a hash; [updateResourceField] and [clearResourceFieldOverride] throw before
    any request exactly on a key with a lone surrogate. *)
Theorem field_key_segment id rid key value :
  Forall unit16 key →
  api_path (updateResourceField id rid key value) = api_path (clearResourceFieldOverride id rid key) ∧
  (is_Some (api_path (clearResourceFieldOverride id rid key)) ↔ well_formed key = true) ∧
  ∀ p, api_path (clearResourceFieldOverride id rid key) = Some p →
  ∃ k, p = "/tenants/" ++ id ++ "/resources/" ++ rid ++ "/fields/" ++ k ∧
       Forall (λ c, c ≠ 47 ∧ c ≠ 63 ∧ c ≠ 35) k.
Proof.
  intros Hk. split; [done|]. cbn [api_path]. rewrite fmap_is_Some, encodeURIComponent_total.
  split; [done|]. intros p (k & Hk' & ->)%fmap_Some. exists k. split; [done|].
  eapply Forall_impl; [by eapply encodeURIComponent_chars|apply component_char_plain].
Qed.

Lemma field_key_segment_witness :
  ∃ k, api_path (clearResourceFieldOverride "t" "r" "a/b?c") = Some ("/tenants/t/resources/r/fields/" ++ k)
       ∧ Forall (λ c, c ≠ 47 ∧ c ≠ 63 ∧ c ≠ 35) k.
Proof.
  destruct (field_key_segment "t" "r" "a/b?c" []) as (_ & _ & H).
  - repeat (apply Forall_cons_2; [unfold unit16; lia|]). apply Forall_nil_2.
  - destruct (H "/tenants/t/resources/r/fields/a%2Fb%3Fc") as (k & E & Hk); [reflexivity|].
    exists k. split; [exact (f_equal Some E)|exact Hk].
Defined.
