(* ===== verification/Query.v ===== *)
(** * The query cache

    [src/web/src/lib/query-keys.ts], [query-options.ts], [query-invalidation.ts] and
    [query-client.ts].  The cache itself is TanStack Query's: the interface
    [QueryCache] states the documented behaviour of the commands the program
    sends it, and the theorems are proved against that interface;
    [map_cache] is a map that implements it. *)
From Stdlib Require Import ZArith Lia List.
From stdpp Require Import base list sets gmap.
From S2P Require Import Prelude Host Types Api ApiCalls.

(** ** Keys *)

Abbreviation query_key := (list jsstr).

Definition all : query_key := ["admin"].
Definition k_apiClients : query_key := all ++ ["api-clients"].
Definition k_apiClientUsage (from to : jsstr) : query_key := all ++ ["api-client-usage"; from; to].
Definition k_definitions : query_key := all ++ ["definitions"].
Definition k_definition (definitionId : jsstr) : query_key := k_definitions ++ ["detail"; definitionId].
Definition k_overview : query_key := all ++ ["overview"].
Definition k_operationalHealth : query_key := all ++ ["operational-health"].
Definition k_sessions : query_key := all ++ ["sessions"].
Definition k_settings : query_key := all ++ ["settings"].
Definition k_webhookTargets : query_key := all ++ ["webhook-targets"].
Definition k_webhookDeliveries : query_key := all ++ ["webhook-deliveries"].
Definition k_webhookOverview : query_key := all ++ ["webhook-overview"].
Definition k_tenants : query_key := all ++ ["tenants"].
Definition k_tenant (tenantId : jsstr) : query_key := k_tenants ++ ["detail"; tenantId].
Definition k_tenantDomains (tenantId : jsstr) : query_key := k_tenant tenantId ++ ["domains"].
Definition k_tenantResourcesRoot : query_key := all ++ ["tenant-resources"].
Definition k_tenantResources (tenantId : jsstr) : query_key := k_tenantResourcesRoot ++ [tenantId].

(** ** Shared queries *)

Inductive query :=
  | q_apiClients
  | q_definition (definitionId : jsstr)
  | q_definitions
  | q_overview
  | q_tenant (tenantId : jsstr)
  | q_tenantDomains (tenantId : jsstr)
  | q_tenantResources (tenantId : jsstr)
  | q_tenants.

Definition queryKey (q : query) : query_key :=
  match q with
  | q_apiClients => k_apiClients
  | q_definition d => k_definition d
  | q_definitions => k_definitions
  | q_overview => k_overview
  | q_tenant t => k_tenant t
  | q_tenantDomains t => k_tenantDomains t
  | q_tenantResources t => k_tenantResources t
  | q_tenants => k_tenants
  end.

Definition queryFn (q : query) : api_call :=
  match q with
  | q_apiClients => listAPIClients
  | q_definition d => getDefinition d
  | q_definitions => listDefinitions
  | q_overview => overview
  | q_tenant t => getTenant t
  | q_tenantDomains t => listDomains t
  | q_tenantResources t => listTenantResources t false
  | q_tenants => listTenants
  end.

(** ** The cache *)

(** What the program asks of the cache. *)
Inductive command :=
  | Invalidate (exact : bool) (k : query_key)
  | Cancel (k : query_key)
  | Remove (k : query_key)
  | ResetEach (k : query_key)        (* findAll(k).forEach(query.reset()) *)
  | Clear.

(** A key filter: the same key when [exact], the keys it is a prefix of otherwise. *)
Definition matches (exact : bool) (filter k : query_key) : bool :=
  if exact then bool_decide (filter = k) else bool_decide (take (length filter) k = filter).

(** The mounted hooks, by the order in which they were mounted: each keeps the result it was last
    given, which is what its component shows, also after the cache dropped the query it observed. *)
Abbreviation hook_id := nat.

(** TanStack Query's cache, for queries declared as the program declares them: with no initial data
    and no placeholder. *)
Class QueryCache (cache data : Type) := {
  run : command → cache → cache;
  present : cache → query_key → bool;            (* the cache holds the query *)
  cached : cache → query_key → option data;      (* data of the query, if it has some *)
  stale : cache → query_key → bool;              (* invalidated *)
  loading : cache → query_key → bool;            (* a fetch is under way *)
  observes : cache → hook_id → option query_key;    (* the query of the cache that keeps the hook told *)
  result : cache → hook_id → option data;           (* what the hook was last given *)
  cached_present c k : is_Some (cached c k) → present c k = true;
  present_invalidate e k c k' : present (run (Invalidate e k) c) k' = present c k';
  cached_invalidate e k c k' : cached (run (Invalidate e k) c) k' = cached c k';
  stale_invalidate e k c k' :
    stale (run (Invalidate e k) c) k'
    = stale c k' || (matches e k k' && present c k');
  observes_cancel k c o : observes (run (Cancel k) c) o = observes c o;
  loading_cancel k c k' :
    loading (run (Cancel k) c) k' = if matches false k k' then false else loading c k';
  present_remove k c k' :
    present (run (Remove k) c) k' = if matches false k k' then false else present c k';
  cached_remove k c k' :
    cached (run (Remove k) c) k' = if matches false k k' then None else cached c k';
  cached_reset k c k' :
    cached (run (ResetEach k) c) k' = if matches false k k' then None else cached c k';
  (** A reset tells the hooks of the query; dropping the query tells them nothing. *)
  result_reset k c o :
    result (run (ResetEach k) c) o =
    match observes c o with Some k' => if matches false k k' then None else result c o | None => result c o end;
  result_clear c o : result (run Clear c) o = result c o;
  loading_reset k c k' : loading (run (ResetEach k) c) k' = true → loading c k' = true;
  cached_clear c k : cached (run Clear c) k = None;
  loading_clear c k : loading (run Clear c) k = true → loading c k = true;
}.

(** ** Invalidation after a mutation *)

Definition invalidateExact (k : query_key) : list command := [Invalidate true k].
Definition invalidateOverview : list command := invalidateExact k_overview.
Definition invalidateTenants : list command := invalidateExact k_tenants ++ invalidateOverview.
Definition invalidateTenant (tenantId : jsstr) : list command :=
  invalidateExact (k_tenant tenantId) ++ invalidateExact k_tenants ++ invalidateOverview.
Definition invalidateTenantDomains (tenantId : jsstr) : list command :=
  invalidateExact (k_tenantDomains tenantId) ++ invalidateOverview.
Definition invalidateTenantResources (tenantId : jsstr) : list command :=
  invalidateExact (k_tenantResources tenantId) ++ invalidateOverview.
Definition invalidateAllTenantResources : list command := [Invalidate false k_tenantResourcesRoot].
Definition invalidateDefinitions : list command := invalidateExact k_definitions ++ invalidateOverview.
Definition invalidateDefinition (definitionId : jsstr) : list command :=
  invalidateExact (k_definition definitionId) ++ invalidateExact k_definitions ++ invalidateOverview.
Definition invalidateApiClients : list command := invalidateExact k_apiClients ++ invalidateOverview.

(** [removeTenantQueries]: what it does before its first [await] and after it. *)
Definition removeTenantQueries (tenantId : jsstr) : list command * list command :=
  ([Cancel (k_tenant tenantId); Cancel (k_tenantResources tenantId)],
   [Remove (k_tenant tenantId); Remove (k_tenantResources tenantId)] ++ invalidateTenants).

(** ** The client's policy *)

Definition QUERY_STALE_TIME_MS : Z := 30000.

Definition shouldRetryQuery (failureCount : Z) (error : api_exn) : bool :=
  match error with
  | ApiError status _ => if status <? 500 then false else failureCount <? 2
  | _ => failureCount <? 2
  end.

Definition clearCache : list command := [Cancel all; ResetEach all; Clear].

(** The listeners [registerAdminQueryCacheInvalidation] installs: the events of the
    window, and the [storage] event of another tab with the key it changed. *)
Inductive window_event := Dispatched (e : event) | StorageChanged (key : option jsstr).

Definition on_window_event (e : window_event) : list command :=
  match e with
  | Dispatched AdminTokenChange => clearCache
  | Dispatched AdminSessionChange => clearCache
  | Dispatched (AdminAuthRequired _) => []
  | StorageChanged key => if bool_decide (key = Some ADMIN_TOKEN_KEY) then clearCache else []
  end.

(** ** Lemmas *)

Section cache.
Context {cache data : Type} `{QueryCache cache data}.

Definition runs (l : list command) (c : cache) : cache := fold_left (λ c m, run m c) l c.

Lemma runs_app l l' c : runs (l ++ l') c = runs l' (runs l c).
Proof. apply fold_left_app. Qed.

Definition targets (l : list command) (k : query_key) : bool :=
  existsb (λ m, match m with Invalidate e f => matches e f k | _ => false end) l.

Definition only_invalidates (l : list command) : bool :=
  forallb (λ m, match m with Invalidate _ _ => true | _ => false end) l.

Lemma cached_invalidates l c k : only_invalidates l = true → cached (runs l c) k = cached c k.
Proof.
  revert c. induction l as [|[e f| | | |] l IH]; intros c Hl; try done.
  cbn. fold (runs l (run (Invalidate e f) c)). rewrite IH by done. apply cached_invalidate.
Qed.

Lemma stale_invalidates l c k :
  only_invalidates l = true →
  stale (runs l c) k = stale c k || (targets l k && present c k).
Proof.
  revert c. induction l as [|[e f| | | |] l IH]; intros c Hl; try done.
  - cbn. by rewrite orb_false_r.
  - cbn. fold (runs l (run (Invalidate e f) c)). fold (targets l k).
    rewrite IH by done. rewrite stale_invalidate, present_invalidate.
    destruct (stale c k), (matches e f k), (targets l k), (present c k); done.
Qed.
End cache.

Lemma matches_exact k k' : matches true k k' = bool_decide (k = k').
Proof. done. Qed.

Lemma matches_prefix k k' : matches false k k' = true ↔ k `prefix_of` k'.
Proof.
  unfold matches. rewrite bool_decide_eq_true. split.
  - intros H. exists (drop (length k) k'). rewrite <- H at 1. symmetry. apply take_drop.
  - intros [t ->]. apply take_app_length.
Qed.

Lemma matches_root k : matches false all k = true ↔ ∃ t, k = all ++ t.
Proof. apply matches_prefix. Qed.

Lemma queryKey_inj q q' : queryKey q = queryKey q' → q = q'.
Proof. destruct q, q'; cbn; intros [=]; by subst. Qed.

Lemma queryKey_eqb q q' : bool_decide (queryKey q = queryKey q') = true ↔ q = q'.
Proof. rewrite bool_decide_eq_true. split; [apply queryKey_inj|by intros ->]. Qed.

(** ** Properties *)

(** The shared queries keep the cache honest: two different queries never share an entry, all
    of them live under the admin root that a credential change erases, each sends a GET, and none
    caches a response that carries clear secrets. *)
Theorem query_options_sound q q' :
  (queryKey q = queryKey q' ↔ q = q') ∧
  matches false all (queryKey q) = true ∧
  i_method (api_init (queryFn q)) = "GET" ∧ secret_bearing (queryFn q) = false.
Proof.
  split; [split; [apply queryKey_inj|by intros ->]|].
  split; [apply matches_root; destruct q; by eexists|]. by destruct q.
Qed.

(** C28. Each invalidation reaches the queries its mutation makes wrong and no other: of the
    cached shared queries exactly the listed ones become stale, and no cached value is dropped. *)
Theorem invalidation_scope {cache data} `{QueryCache cache data} (c : cache) q t d :
  is_Some (cached c (queryKey q)) → stale c (queryKey q) = false →
  (stale (runs invalidateTenants c) (queryKey q) = true ↔ q = q_tenants ∨ q = q_overview) ∧
  (stale (runs (invalidateTenant t) c) (queryKey q) = true
    ↔ q = q_tenant t ∨ q = q_tenants ∨ q = q_overview) ∧
  (stale (runs (invalidateTenantDomains t) c) (queryKey q) = true
    ↔ q = q_tenantDomains t ∨ q = q_overview) ∧
  (stale (runs (invalidateTenantResources t) c) (queryKey q) = true
    ↔ q = q_tenantResources t ∨ q = q_overview) ∧
  (stale (runs invalidateAllTenantResources c) (queryKey q) = true
    ↔ ∃ t', q = q_tenantResources t') ∧
  (stale (runs invalidateDefinitions c) (queryKey q) = true ↔ q = q_definitions ∨ q = q_overview) ∧
  (stale (runs (invalidateDefinition d) c) (queryKey q) = true
    ↔ q = q_definition d ∨ q = q_definitions ∨ q = q_overview) ∧
  (stale (runs invalidateApiClients c) (queryKey q) = true ↔ q = q_apiClients ∨ q = q_overview).
Proof.
  intros Hc%cached_present Hs.
  split_and!; rewrite stale_invalidates by done; rewrite Hs, Hc, andb_true_r;
    cbn [orb]; unfold targets; cbn [existsb app invalidateTenants invalidateTenant
      invalidateTenantDomains invalidateTenantResources invalidateAllTenantResources
      invalidateDefinitions invalidateDefinition invalidateApiClients invalidateOverview
      invalidateExact]; rewrite ?orb_false_r, ?orb_true_iff, ?matches_exact.
  1: rewrite (queryKey_eqb q_tenants), (queryKey_eqb q_overview); naive_solver.
  1: rewrite (queryKey_eqb (q_tenant t)), (queryKey_eqb q_tenants), (queryKey_eqb q_overview); naive_solver.
  1: rewrite (queryKey_eqb (q_tenantDomains t)), (queryKey_eqb q_overview); naive_solver.
  1: rewrite (queryKey_eqb (q_tenantResources t)), (queryKey_eqb q_overview); naive_solver.
  1: { rewrite matches_prefix. split.
       - intros [k Hk]. destruct q; cbn in Hk; simplify_eq; by eexists.
       - intros [t' ->]. by exists [t']. }
  1: rewrite (queryKey_eqb q_definitions), (queryKey_eqb q_overview); naive_solver.
  1: rewrite (queryKey_eqb (q_definition d)), (queryKey_eqb q_definitions), (queryKey_eqb q_overview); naive_solver.
  rewrite (queryKey_eqb q_apiClients), (queryKey_eqb q_overview); naive_solver.
Qed.

(** The queries that belong to one tenant. *)
Definition of_tenant (t : jsstr) (q : query) : Prop :=
  q = q_tenant t ∨ q = q_tenantDomains t ∨ q = q_tenantResources t.

Lemma tenant_key_scope t q :
  matches false (k_tenant t) (queryKey q) || matches false (k_tenantResources t) (queryKey q) = true
  ↔ of_tenant t q.
Proof.
  rewrite orb_true_iff, !matches_prefix. unfold of_tenant. split.
  - intros [[k Hk]|[k Hk]]; destruct q; cbn in Hk; simplify_eq; auto.
  - intros [->|[->| ->]].
    + left. by exists [].
    + left. by exists ["domains"].
    + right. by exists [].
Qed.

(** Deleting a tenant forgets it and only it: whatever the cache became while the
    cancellations were awaited, after [removeTenantQueries] no query of the tenant has data, every
    other shared query keeps its data, and the tenant list and the overview, when cached, are
    stale; before the wait the fetches of the tenant's detail and resources are cancelled. *)
Theorem removeTenantQueries_spec {cache data} `{QueryCache cache data} (c c' : cache) t q :
  let c1 := runs (removeTenantQueries t).1 c in
  let c2 := runs (removeTenantQueries t).2 c' in
  (of_tenant t q → loading c1 (queryKey q) = false ∧ cached c2 (queryKey q) = None) ∧
  (¬ of_tenant t q → cached c2 (queryKey q) = cached c' (queryKey q)) ∧
  (q = q_tenants ∨ q = q_overview → is_Some (cached c' (queryKey q)) → stale c2 (queryKey q) = true).
Proof.
  set (c3 := run (Remove (k_tenantResources t)) (run (Remove (k_tenant t)) c')).
  assert (Hc3 : cached c3 (queryKey q) =
    if matches false (k_tenant t) (queryKey q) || matches false (k_tenantResources t) (queryKey q)
    then None else cached c' (queryKey q)).
  { unfold c3. rewrite !cached_remove. by destruct (matches false (k_tenantResources t) _), (matches false (k_tenant t) _). }
  assert (Hp : ¬ of_tenant t q → present c3 (queryKey q) = present c' (queryKey q)).
  { intros Ht. rewrite <- tenant_key_scope, orb_true_iff in Ht. unfold c3. rewrite !present_remove.
    destruct (matches false (k_tenantResources t) _), (matches false (k_tenant t) _); naive_solver. }
  cbn zeta. change (runs (removeTenantQueries t).2 c') with (runs invalidateTenants c3).
  rewrite cached_invalidates by done. rewrite stale_invalidates by done. rewrite Hc3.
  pose proof (tenant_key_scope t q) as Hq. split_and!.
  - intros Ht%Hq. rewrite Ht. split; [|done]. unfold runs. cbn [removeTenantQueries fst fold_left]. rewrite !loading_cancel.
    apply orb_true_iff in Ht as [Ht|Ht]; rewrite Ht; [|done].
    by destruct (matches false (k_tenantResources t) (queryKey q)).
  - intros Ht. destruct (_ || _); [|done]. by destruct Ht; apply Hq.
  - intros Hl Hs. destruct (_ || _) eqn:E.
    { destruct Hq as [[->|[->| ->]] _]; [done|naive_solver..]. }
    rewrite Hp, (cached_present c'), andb_true_r, orb_true_iff by (first [done|by intros Ht%Hq]). right.
    by destruct Hl as [-> | ->].
Qed.

(** The events a client operation dispatches. *)
Definition new_events (c c' : client) : list event := drop (length (dispatched c)) (dispatched c').

Definition credential_event (e : event) : Prop := e = AdminSessionChange ∨ e = AdminTokenChange.

(** Nothing protected is left: no query has data, no admin fetch is under way, and no hook that was
    mounted on an admin query still has a result. *)
Definition erased {cache data} `{QueryCache cache data} (c c' : cache) : Prop :=
  (∀ k, cached c' k = None) ∧ (∀ k, matches false all k = true → loading c' k = false) ∧
  (∀ o k, observes c o = Some k → matches false all k = true → result c' o = None).

Lemma clearCache_erases {cache data} `{QueryCache cache data} (c : cache) : erased c (runs clearCache c).
Proof.
  change (runs clearCache c) with (run Clear (run (ResetEach all) (run (Cancel all) c))).
  split_and!; [intros k; apply cached_clear| |].
  - intros k Hk. apply not_true_iff_false.
    intros Hl%loading_clear%loading_reset. by rewrite loading_cancel, Hk in Hl.
  - intros o k Ho Hk. by rewrite result_clear, result_reset, observes_cancel, Ho, Hk.
Qed.

(** C27. No protected value outlives its credentials: whenever the client's session or stored
    token changes, by any of its operations, and when another tab writes the token, the listeners
    leave no query with data, no admin fetch under way, and no mounted hook showing what an admin
    query had given it, whatever the cache held; other events leave the cache alone. *)
Theorem credential_change_erases {cache data} `{QueryCache cache data} (qc : cache) c s token :
  (∀ c', c' = setAdminSession s c ∨ c' = setAdminToken token c ∨ c' = clearAdminToken c →
     ∃ e, new_events c c' = [e] ∧ erased qc (runs (on_window_event (Dispatched e)) qc)) ∧
  erased qc (runs (on_window_event (StorageChanged (Some ADMIN_TOKEN_KEY))) qc) ∧
  (∀ m, runs (on_window_event (Dispatched (AdminAuthRequired m))) qc = qc) ∧
  (∀ key, key ≠ Some ADMIN_TOKEN_KEY → runs (on_window_event (StorageChanged key)) qc = qc).
Proof.
  split_and!; [|apply clearCache_erases|done|].
  - intros c' [->|[->| ->]]; [exists AdminSessionChange|exists AdminTokenChange..];
      (split; [apply drop_app_length|apply clearCache_erases]).
  - intros key Hk. cbn [on_window_event]. by rewrite bool_decide_false.
Qed.

(** Retries are bounded and never repeat a refusal: a failed query is retried after at most
    its first two failures, never when the server answered with a status below 500; a timeout and
    a network failure are retried. *)
Theorem shouldRetryQuery_spec n e :
  shouldRetryQuery n e = true ↔
  n < 2 ∧ ∀ status m, e = ApiError status m → 500 <= status.
Proof.
  destruct e as [status m| | |]; simpl; [|rewrite Z.ltb_lt; naive_solver..].
  destruct (status <? 500) eqn:E; bool_to_prop; [|rewrite Z.ltb_lt; naive_solver].
  split; [done|]. intros [_ H]. specialize (H status m eq_refl). lia.
Qed.

(** ** A cache *)

Record entry (data : Type) := { e_data : option data; e_stale : bool; e_loading : bool }.
Arguments e_data {data}.
Arguments e_stale {data}.
Arguments e_loading {data}.

(** The queries, and the mounted hooks with the query each observes and the result it has. *)
Record map_state (data : Type) := {
  ms_queries : gmap query_key (entry data);
  ms_hooks : gmap hook_id (option query_key * option data);
}.
Arguments Build_map_state {data}.
Arguments ms_queries {data}.
Arguments ms_hooks {data}.

Definition map_run {data} (m : command) (c : map_state data) : map_state data :=
  let upd f := map_imap (λ k e, Some (f k e)) (ms_queries c) in
  let told f (d : option query_key → option data → option data) := (λ h, (f h.1, d h.1 h.2)) <$> ms_hooks c in
  let dropped (b : query_key → bool) o := match o with Some k => if b k then None else Some k | None => None end in
  match m with
  | Invalidate ex f =>
    Build_map_state (upd (λ k e, {| e_data := e_data e; e_stale := e_stale e || matches ex f k; e_loading := e_loading e |}))
      (ms_hooks c)
  | Cancel f =>
    Build_map_state (upd (λ k e, {| e_data := e_data e; e_stale := e_stale e;
                                    e_loading := if matches false f k then false else e_loading e |})) (ms_hooks c)
  | Remove f =>
    Build_map_state (map_imap (λ k e, if matches false f k then None else Some e) (ms_queries c))
      (told (dropped (matches false f)) (λ _ d, d))
  | ResetEach f =>
    Build_map_state (upd (λ k e, if matches false f k then {| e_data := None; e_stale := false; e_loading := e_loading e |} else e))
      (told (λ o, o) (λ o d, match o with Some k => if matches false f k then None else d | None => d end))
  | Clear => Build_map_state ∅ (told (λ _, None) (λ _ d, d))
  end.

Definition map_present {data} (c : map_state data) (k : query_key) : bool := bool_decide (is_Some (ms_queries c !! k)).
Definition map_stale {data} (c : map_state data) (k : query_key) : bool := default false (e_stale <$> ms_queries c !! k).
Definition map_loading {data} (c : map_state data) (k : query_key) : bool := default false (e_loading <$> ms_queries c !! k).
Definition map_observes {data} (c : map_state data) (o : hook_id) : option query_key := ms_hooks c !! o ≫= fst.
Definition map_result {data} (c : map_state data) (o : hook_id) : option data := ms_hooks c !! o ≫= snd.

Ltac map_law := intros *; unfold map_present, map_stale, map_loading, map_observes, map_result;
  cbn [map_run ms_queries ms_hooks]; rewrite ?map_lookup_imap, ?lookup_fmap, ?lookup_empty;
  try match goal with |- context [?c !! ?k] => destruct (c !! k) as [[]|] end;
  cbn in *; repeat case_match; try done; rewrite ?andb_false_r, ?andb_true_r; try done; try by intros [].

#[export] Instance map_cache data : QueryCache (map_state data) data.
Proof.
  refine {| run := map_run; present := map_present; cached c k := ms_queries c !! k ≫= e_data; stale := map_stale;
            loading := map_loading; observes := map_observes; result := map_result |}.
  all: map_law.
Defined.

(** *** Witnesses *)

(** Two queries, and a hook mounted on each. *)
Definition demo_cache : map_state nat :=
  {| ms_queries := {[ k_tenants := {| e_data := Some 3%nat; e_stale := false; e_loading := false |};
                      k_tenant "t1" := {| e_data := Some 4%nat; e_stale := false; e_loading := true |} ]};
     ms_hooks := {[ 0%nat := (Some k_tenants, Some 3%nat); 1%nat := (Some (k_tenant "t1"), Some 4%nat) ]} |}.

Lemma invalidation_scope_witness :
  stale (runs (invalidateTenant "t1") demo_cache) (queryKey q_tenants) = true.
Proof.
  destruct (invalidation_scope demo_cache q_tenants "t1" "d1") as (_ & H & _).
  - exists 3%nat. vm_compute. reflexivity.
  - vm_compute. reflexivity.
  - apply H. right. left. reflexivity.
Defined.

Lemma credential_change_erases_witness :
  result demo_cache 1%nat = Some 4%nat ∧
  result (runs (on_window_event (StorageChanged (Some ADMIN_TOKEN_KEY))) demo_cache) 1%nat = None.
Proof.
  split; [vm_compute; reflexivity|].
  destruct (credential_change_erases demo_cache demo_client None "token") as (_ & (_ & _ & H) & _).
  apply (H 1%nat (k_tenant "t1")); vm_compute; reflexivity.
Defined.

(** Without the reset a mounted hook would keep what it was given. *)
Lemma unreset_hook_keeps : result (runs [Cancel all; Clear] demo_cache) 1%nat = Some 4%nat.
Proof. reflexivity. Qed.

Lemma removeTenantQueries_runs :
  (λ q, cached (runs (removeTenantQueries "t1").2 demo_cache) (queryKey q)) <$> [q_tenant "t1"; q_tenants]
  = [None; Some 3%nat].
Proof. reflexivity. Qed.
