(* ===== verification/I18nPt.v ===== *)
(** * The Portuguese messages

    [src/web/src/lib/i18n.tsx], the table [ptBR], in slices. *)
From Stdlib Require Import ZArith List.
From stdpp Require Import base list.
From S2P Require Import Prelude.

Definition ptBR_1 : list (jsstr * jsstr) := [
  ("apiClients.actions", "Ações");
  ("apiClients.clearSecretAccess.description", "Estas chaves chamam /v1/resolve, que retorna segredos descriptografados sobre TLS. O token só é exibido uma vez, na criação.");
  ("apiClients.clearSecretAccess.title", "Acesso a segredos em claro");
  ("apiClients.copied", "Copiado");
  ("apiClients.copy", "Copiar");
  ("apiClients.copyFailed", "Não foi possível copiar. Selecione e copie manualmente.");
  ("apiClients.createdAt", "Criado em");
  ("apiClients.description", "Chaves de serviço para consumo server-to-server.");
  ("apiClients.done", "Concluir");
  ("apiClients.emptyActive", "Nenhuma chave ativa.");
  ("apiClients.generateToken", "Gerar token");
  ("apiClients.help", "Ajuda");
  ("apiClients.filters", "Filtros");
  ("apiClients.helpTitle", "Como consumir chaves de API");
  ("apiClients.loading", "Carregando chaves de API...");
  ("apiClients.name", "Nome");
  ("apiClients.scopes", "Permissões");
  ("apiClients.scopeIdentify", "Identificar tenant");
  ("apiClients.scopeIdentifyDescription", "Permite identificar o tenant, sem retornar recursos ou segredos.");
  ("apiClients.scopeResolve", "Resolver recursos");
  ("apiClients.scopeResolveDescription", "Permite obter configurações, incluindo campos secretos descriptografados.");
  ("apiClients.scopeEvents", "Ler eventos");
  ("apiClients.scopeEventsDescription", "Permite consumir o change feed sem acessar configurações ou secrets.");
  ("apiClients.scopeTenantList", "Listar tenants");
  ("apiClients.scopeTenantListDescription", "Permite enumerar identidades de tenants (slug, nome, status) — nunca recursos ou secrets.");
  ("apiClients.scopeResourceWrite", "Escrever valores");
  ("apiClients.scopeResourceWriteDescription", "Permite atualizar valores de campos NÃO-secretos de resources existentes.");
  ("apiClients.rpmLimit", "Limite por minuto");
  ("apiClients.expiration", "Expiração");
  ("apiClients.expirationDays", "{days} dias");
  ("apiClients.lastUsed", "Último uso");
  ("apiClients.filterStatus", "Filtrar por status");
  ("apiClients.allStatuses", "Todos os status");
  ("apiClients.filterScope", "Filtrar por permissão");
  ("apiClients.allScopes", "Todas as permissões");
  ("apiClients.expiringSoon", "Expira em 30 dias");
  ("apiClients.inactive", "Inativa há 30 dias");
  ("apiClients.rotate", "Rotacionar chave");
  ("apiClients.rotated", "Chave rotacionada. Copie o novo token agora.");
  ("apiClients.updated", "Política da chave atualizada.");
  ("apiClients.deleted", "Chave removida.");
  ("apiClients.editTitle", "Editar chave de API");
  ("apiClients.deleteTitle", "Remover chave de API");
  ("apiClients.deleteDescription", "Remover permanentemente a chave revogada {name}? O histórico de uso e auditoria será preservado.");
  ("apiClients.new", "Nova chave");
  ("apiClients.newDialog.description", "O token será exibido uma única vez após a criação.");
  ("apiClients.newDialog.title", "Nova chave de API");
  ("apiClients.reactivate", "Reativar");
  ("apiClients.revoke", "Revogar");
  ("apiClients.search", "Buscar por nome, data ou status...");
  ("apiClients.resolveSnippet.copy", "Copiar snippet");
  ("apiClients.resolveSnippet.copied", "Snippet copiado");
  ("apiClients.resolveSnippet.description", "Use uma chave ativa para identificar o tenant na borda sem acessar segredos; resolva a configuração no app pelo tenantId.");
  ("apiClients.resolveSnippet.edgeDescription", "A borda obtém apenas o slug do tenant; nenhum recurso ou segredo é retornado.");
  ("apiClients.resolveSnippet.edgeTitle", "1. Identificar na borda (sem segredos)");
  ("apiClients.resolveSnippet.fullDescription", "Retorna todos os recursos ativos do tenant.");
  ("apiClients.resolveSnippet.fullTitle", "Tenant completo");
  ("apiClients.resolveSnippet.resourceDescription", "Retorna apenas uma definição de recurso do tenant.");
  ("apiClients.resolveSnippet.resourceTitle", "Recurso específico");
  ("apiClients.resolveSnippet.tenantIdDescription", "O app resolve pelo slug injetado e revalida com ETag sem armazenar o corpo secreto no cache HTTP.");
  ("apiClients.resolveSnippet.tenantIdTitle", "2. Resolver no app por tenantId");
  ("apiClients.resolveSnippet.hostnameDescription", "Alternativa simples que resolve todos os recursos diretamente pelo hostname e retorna segredos.");
  ("apiClients.resolveSnippet.hostnameTitle", "Alternativa: resolver por hostname");
  ("apiClients.resolveSnippet.title", "Exemplo de consumo");
  ("apiClients.statusReactivated", "Chave reativada.");
  ("apiClients.statusRevoked", "Chave revogada.");
  ("apiClients.title", "Chaves de API");
  ("apiClients.token", "Token");
  ("apiClients.tokenGenerated.description", "Copie agora; não será possível visualizá-lo novamente.");
  ("apiClients.tokenGenerated.title", "Token gerado");
  ("app.subtitle", "Console admin");
  ("app.title", "Tenancit");
  ("auth.description", "Informe o token administrativo do Tenancit.");
  ("auth.enter", "Entrar");
  ("auth.hideToken", "Ocultar token");
  ("auth.invalidToken", "Token inválido ou expirado. Informe um token administrativo válido.");
  ("auth.loading", "Verificando o acesso administrativo…");
  ("auth.oidcDescription", "Entre com sua identidade corporativa.");
  ("auth.oidcEnter", "Entrar com SSO");
  ("auth.oidcSession", "Sessão corporativa");
  ("auth.requiredAccess", "Informe o token administrativo para acessar o painel.");
  ("auth.requiredContinue", "Informe o token administrativo para continuar.");
  ("auth.retry", "Tentar novamente");
  ("auth.sessionExpired", "Sua sessão expirou. Entre novamente.");
  ("auth.showToken", "Mostrar token");
  ("auth.sharedCredential", "Credencial administrativa");
  ("auth.sharedToken", "Token compartilhado");
  ("auth.title", "Acesso administrativo");
  ("auth.token", "Token");
  ("auth.unavailable", "Não foi possível verificar o modo de autenticação.");
  ("common.actions", "Ações");
  ("common.add", "Adicionar");
  ("common.back", "Voltar");
  ("common.cancel", "Cancelar");
  ("common.close", "Fechar");
  ("common.create", "Criar");
  ("common.description", "Descrição");
  ("common.dismiss", "Dispensar");
  ("common.edit", "Editar");
  ("common.field", "Campo");
  ("common.hide", "Ocultar");
  ("common.hostname", "Hostname");
  ("common.key", "Key");
  ("common.label", "Label");
  ("common.name", "Nome");
  ("common.loading", "Carregando...");
  ("common.remove", "Remover");
  ("common.removeConfirm", "Remover");
  ("common.review", "Revisar");
  ("common.reveal", "Revelar");
  ("common.save", "Salvar");
  ("common.secret", "Segredo");
  ("common.slug", "Slug");
  ("common.status", "Status");
  ("common.type", "Tipo");
  ("common.value", "Valor");
  ("validation.dateRange", "A data final deve ser posterior à data inicial.");
  ("validation.definitionKey", "Use até 63 caracteres: comece com uma letra minúscula e use apenas letras minúsculas, números, hífen ou sublinhado.");
  ("validation.boolean", "Use true ou false.");
  ("validation.hostname", "Use apenas labels DNS com letras, números e hífens, como app.exemplo.com.");
  ("validation.integer", "Informe um número inteiro, sem casas decimais.");
  ("validation.tenantSlug", "Use até 63 caracteres com letras minúsculas, números e hífens simples entre palavras.");
  ("validation.webhookURL", "Use uma URL HTTPS sem credenciais nem fragmento. HTTP é aceito apenas em localhost.");
  ("dataTable.firstPage", "Primeira página");
  ("dataTable.item", "item");
  ("dataTable.items", "itens");
  ("dataTable.lastPage", "Última página");
  ("dataTable.nextPage", "Próxima página");
  ("dataTable.page", "Página");
  ("dataTable.pageOf", "de");
  ("dataTable.previousPage", "Página anterior");
  ("dataTable.rowsPerPage", "Linhas por página");
  ("dataTable.sortAsc", "Ordenar crescente");
  ("dataTable.sortDesc", "Ordenar decrescente");
  ("dataTable.sortReset", "Limpar ordenação");
  ("dataTable.sort", "Ordenar");
  ("dataTable.sortBy", "Ordenar por");
  ("dataTable.ascending", "Crescente");
  ("dataTable.descending", "Decrescente");
  ("dataTable.columns", "Colunas");
  ("dataTable.clearFilters", "Limpar filtros");
  ("dataTable.resetPreferences", "Restaurar tabela");
  ("dataTable.noResults", "Nenhum resultado.");
  ("definitionDetail.activate", "Ativar")
].

Definition ptBR_2 : list (jsstr * jsstr) := [
  ("definitionDetail.addField", "Adicionar campo");
  ("definitionDetail.back", "Voltar");
  ("definitionDetail.dataTypeBool", "Booleano");
  ("definitionDetail.dataTypeInt", "Inteiro");
  ("definitionDetail.dataTypeString", "Texto");
  ("definitionDetail.deactivate", "Desativar");
  ("definitionDetail.emptyDescription", "Nenhum campo. Adicione os campos que compõem este recurso.");
  ("definitionDetail.editDescription", "Atualize o nome e a descrição. A chave técnica {key} permanece imutável.");
  ("definitionDetail.editFieldAction", "Editar campo {key}");
  ("definitionDetail.editFieldDescription", "Atualize o label e a obrigatoriedade de {key}. Para alterar chave, tipo ou segredo, crie um novo campo e migre os valores.");
  ("definitionDetail.editFieldTitle", "Editar campo");
  ("definitionDetail.editTitle", "Editar definição");
  ("definitionDetail.fieldAdded", "Campo adicionado.");
  ("definitionDetail.fieldRemoved", "Campo removido.");
  ("definitionDetail.fieldUpdated", "Campo atualizado.");
  ("definitionDetail.fieldsDescription", "Definição dinâmica dos campos deste tipo de recurso.");
  ("definitionDetail.fieldsTitle", "Campos");
  ("definitionDetail.loadError", "Não foi possível carregar a definição.");
  ("definitionDetail.newField", "Novo campo");
  ("definitionDetail.newFieldDescription", "Adicione um campo a este tipo de recurso.");
  ("definitionDetail.notFound", "Definição não encontrada.");
  ("definitionDetail.open", "Abrir definição {name}");
  ("definitionDetail.removeDescription", "A definição {name} será removida. A remoção não é permitida enquanto houver recursos vinculados.");
  ("definitionDetail.removeTitle", "Remover definição?");
  ("definitionDetail.removed", "Definição removida.");
  ("definitionDetail.removeFieldDescription", "O campo {fieldKey} será removido desta definição. Isso pode afetar recursos e formulários que dependem dele.");
  ("definitionDetail.removeFieldTitle", "Remover campo?");
  ("definitionDetail.requiredDescription", "Exigido na criação do recurso.");
  ("definitionDetail.requiredTitle", "Obrigatório");
  ("definitionDetail.secretDescription", "Criptografado com AES-256-GCM.");
  ("definitionDetail.statusActivated", "Definição ativada.");
  ("definitionDetail.statusDeactivated", "Definição desativada.");
  ("definitionDetail.updated", "Definição atualizada.");
  ("definitions.create", "Criar definição");
  ("definitions.description", "Catálogo de tipos de recurso e seus campos.");
  ("definitions.empty", "Nenhuma definição ainda.");
  ("definitions.emptyDescription", "Sem descrição.");
  ("definitions.footerCounts", "Campos: {fieldCount} · Segredos: {secretCount}");
  ("definitions.new", "Nova definição");
  ("definitions.newDialog.description", "Defina um tipo de recurso. Os campos são adicionados em seguida.");
  ("definitions.newDialog.title", "Nova definição");
  ("definitions.title", "Definições de recurso");
  ("errors.conflict", "Já existe um registro com esse valor. Verifique se não está duplicando.");
  ("errors.definitionInUse", "Esta definição ainda possui recursos vinculados. Remova ou migre esses recursos antes de excluí-la.");
  ("errors.forbidden", "Você não possui permissão para esta ação.");
  ("errors.generic", "Algo deu errado. Tente novamente.");
  ("errors.invalidData", "Dados inválidos. Revise os campos.");
  ("errors.notFound", "Registro não encontrado.");
  ("errors.precondition", "Os dados mudaram em outra sessão. Revise e tente novamente.");
  ("errors.server", "Erro no servidor. Tente novamente em instantes.");
  ("errors.timeout", "A solicitação demorou demais. Verifique a conexão e tente novamente.");
  ("nav.apiClients", "Chaves de API");
  ("nav.usage", "Uso mensal");
  ("nav.audit", "Auditoria");
  ("nav.sessions", "Sessões ativas");
  ("nav.settings", "Configurações");
  ("nav.integrations", "Webhooks");
  ("nav.health", "Saúde");
  ("operationsHealth.component", "Componente");
  ("operationsHealth.deadLetters", "Dead letters");
  ("operationsHealth.deadLettersHint", "entregas que exigem intervenção");
  ("operationsHealth.dependencies", "Dependências");
  ("operationsHealth.dependenciesHint", "serviços externos monitorados");
  ("operationsHealth.description", "Readiness síncrona, filas e evidências recentes de jobs operacionais.");
  ("operationsHealth.freshUntil", "Válido até");
  ("operationsHealth.inFlight", "Entregas em trânsito");
  ("operationsHealth.inFlightHint", "pendentes ou em nova tentativa");
  ("operationsHealth.kind", "Tipo");
  ("operationsHealth.kind.backup", "Backup");
  ("operationsHealth.kind.migration", "Migração");
  ("operationsHealth.kind.restore", "Restore");
  ("operationsHealth.kind.rewrap", "Rewrap");
  ("operationsHealth.latency", "Latência");
  ("operationsHealth.noDependencies", "Nenhuma dependência configurada.");
  ("operationsHealth.noReports", "Nenhum report operacional recebido.");
  ("operationsHealth.occurredAt", "Executado em");
  ("operationsHealth.overall", "Estado geral");
  ("operationsHealth.overallHint", "readiness combinada das dependências");
  ("operationsHealth.reports", "Reports operacionais");
  ("operationsHealth.source", "Origem");
  ("operationsHealth.status.degraded", "degradado");
  ("operationsHealth.status.failed", "falhou");
  ("operationsHealth.status.healthy", "saudável");
  ("operationsHealth.status.stale", "desatualizado");
  ("operationsHealth.status.unavailable", "indisponível");
  ("operationsHealth.title", "Saúde operacional");
  ("integrations.attempts", "Tentativas");
  ("integrations.activeTargets", "Destinos ativos");
  ("integrations.created", "Destino criado.");
  ("integrations.deliveries", "Entregas");
  ("integrations.delivered", "Entregues");
  ("integrations.deadLetters", "Dead letters");
  ("integrations.description", "Webhooks assinados, tentativas e dead letters.");
  ("integrations.disable", "Desativar");
  ("integrations.done", "Concluído");
  ("integrations.emptyDeliveries", "Nenhuma entrega encontrada.");
  ("integrations.emptyTargets", "Nenhum destino configurado.");
  ("integrations.enable", "Ativar");
  ("integrations.endpoint", "Endpoint");
  ("integrations.event", "Evento");
  ("integrations.format", "Formato");
  ("integrations.formatGeneric", "Genérico");
  ("integrations.inFlight", "Pendentes e retentativas");
  ("integrations.name", "Nome");
  ("integrations.new", "Novo webhook");
  ("integrations.newDescription", "Cadastre um receiver HTTPS. URL completa e secret permanecem cifrados.");
  ("integrations.openCircuits", "{count} circuitos abertos");
  ("integrations.replay", "Reprocessar entrega");
  ("integrations.replayed", "Entrega reenfileirada.");
  ("integrations.searchDeliveries", "Buscar entregas…");
  ("integrations.searchTargets", "Buscar destinos…");
  ("integrations.secretDescription", "Copie agora. O secret não será exibido novamente.");
  ("integrations.secretTitle", "Signing secret gerado");
  ("integrations.signingSecret", "Signing secret");
  ("integrations.target", "Destino");
  ("integrations.targets", "Destinos");
  ("integrations.title", "Webhooks e integrações");
  ("integrations.url", "URL do receiver");
  ("usage.title", "Uso das chaves de API");
  ("usage.description", "Volume operacional agregado por chave, operação e dia UTC.");
  ("usage.month", "Mês");
  ("usage.prevMonth", "Mês anterior");
  ("usage.nextMonth", "Próximo mês");
  ("usage.prevYear", "Ano anterior");
  ("usage.nextYear", "Próximo ano");
  ("usage.today", "Hoje");
  ("usage.client", "Chave");
  ("usage.allClients", "Todas as chaves");
  ("usage.operation", "Operação");
  ("usage.operationIdentify", "Identificação");
  ("usage.operationResolve", "Resolução");
  ("usage.allOperations", "Todas as operações");
  ("usage.requests", "Requisições");
  ("usage.requestsHint", "no período e filtros selecionados");
  ("usage.errors", "Erros");
  ("usage.errorsHint", "respostas HTTP 4xx e 5xx");
  ("usage.limited", "Limitadas");
  ("usage.limitedHint", "recusadas pelo limite de requisições");
  ("usage.daily", "Uso diário");
  ("usage.empty", "Nenhum uso registrado neste período.");
  ("audit.title", "Auditoria administrativa");
  ("audit.description", "Trilha append-only das ações administrativas e revelações de segredos.");
  ("audit.action", "Ação");
  ("audit.target", "Alvo");
  ("audit.result", "Resultado")
].

Definition ptBR_3 : list (jsstr * jsstr) := [
  ("audit.allResults", "Todos os resultados");
  ("audit.actorNotice", "Enquanto o login usa o token compartilhado, a trilha identifica a credencial administrativa, não uma pessoa.");
  ("audit.when", "Quando");
  ("audit.actor", "Ator");
  ("audit.request", "Request ID");
  ("audit.empty", "Nenhum evento encontrado.");
  ("audit.next", "Próxima página");
  ("audit.previous", "Página anterior");
  ("audit.applyFilters", "Aplicar filtros");
  ("audit.export", "Exportar trilha");
  ("audit.download", "Baixar uma vez");
  ("audit.exportStatus", "Exportação: {status} · {rows} eventos");
  ("audit.partitionHealth", "Partições até");
  ("audit.overviewTab", "Visão geral");
  ("audit.eventsTab", "Eventos");
  ("audit.partitionHealthHint", "particionamento preparado até esta data");
  ("audit.defaultRows", "Eventos no legado");
  ("audit.defaultRowsHint", "eventos ainda na partição padrão");
  ("audit.legalHolds", "Legal holds ativos");
  ("audit.legalHoldsHint", "retenções que impedem o descarte");
  ("audit.manageHolds", "Gerenciar legal holds");
  ("audit.legalHoldDescription", "Preserve janelas sob investigação antes que a retenção remova partições.");
  ("audit.holdFrom", "Início");
  ("audit.holdTo", "Fim");
  ("audit.holdReason", "Motivo e referência");
  ("audit.createHold", "Criar legal hold");
  ("audit.releaseHold", "Liberar");
  ("audit.holdReleased", "Liberado");
  ("audit.noHolds", "Nenhum legal hold registrado.");
  ("nav.definitions", "Recursos");
  ("nav.logout", "Sair");
  ("nav.account", "Conta");
  ("nav.management", "Gestão");
  ("nav.operations", "Operação");
  ("nav.security", "Segurança");
  ("nav.system", "Sistema");
  ("sessions.current", "Atual");
  ("sessions.description", "Revogue acessos individuais sem afetar a sessão atual.");
  ("sessions.empty", "Nenhuma sessão encontrada.");
  ("sessions.expires", "Expira em");
  ("sessions.lastUsed", "Último uso");
  ("sessions.principal", "Principal");
  ("sessions.revoke", "Revogar sessão");
  ("sessions.revokeDescription", "Revogar a sessão de {name}? O acesso será encerrado imediatamente.");
  ("sessions.revoked", "Sessão revogada.");
  ("sessions.revokeTitle", "Revogar sessão");
  ("sessions.roles", "Papéis");
  ("sessions.search", "Buscar por pessoa, subject ou issuer…");
  ("sessions.status.active", "ativa");
  ("sessions.status.expired", "expirada");
  ("sessions.status.idle_expired", "inativa expirada");
  ("sessions.status.revoked", "revogada");
  ("sessions.title", "Sessões administrativas");
  ("settings.description", "Políticas runtime não secretas, versionadas e auditadas.");
  ("settings.field.api_client_default_rpm", "RPM padrão de novas chaves");
  ("settings.field.api_client_default_ttl_days", "Validade padrão de novas chaves (dias)");
  ("settings.field.audit_retention_days", "Retenção da auditoria (dias)");
  ("settings.field.default_locale", "Idioma padrão");
  ("settings.field.session_absolute_hours", "Duração máxima da sessão (horas)");
  ("settings.field.session_idle_minutes", "Inatividade máxima (minutos)");
  ("settings.field.usage_retention_months", "Retenção de uso (meses)");
  ("settings.field.webhook_delivery_retention_days", "Retenção de entregas webhook (dias)");
  ("settings.field.outbox_event_retention_days", "Retenção do change feed (dias)");
  ("settings.hint.api_client_default_rpm", "Sugestão aplicada ao formulário de criação; não altera chaves existentes.");
  ("settings.hint.api_client_default_ttl_days", "Sugestão para novas chaves; tokens existentes não são prorrogados.");
  ("settings.hint.audit_retention_days", "Política usada pelo job de retenção da trilha administrativa.");
  ("settings.hint.default_locale", "Preferência inicial quando o navegador ainda não escolheu um idioma.");
  ("settings.hint.session_absolute_hours", "Aplicada a novas sessões; nunca ultrapassada pela expiração por inatividade.");
  ("settings.hint.session_idle_minutes", "Reavaliada durante o uso e limitada pela duração absoluta.");
  ("settings.hint.usage_retention_months", "Aplicada pelo job UTC de retenção de telemetria.");
  ("settings.hint.webhook_delivery_retention_days", "Remove entregas concluídas e dead letters após a janela.");
  ("settings.hint.outbox_event_retention_days", "Remove eventos sem entregas pendentes após a janela.");
  ("settings.owner", "Responsável: {owner}");
  ("settings.revision", "Revisão {revision}");
  ("settings.saved", "Configurações salvas.");
  ("settings.saving", "Salvando…");
  ("settings.section.apiClients", "Chaves de API");
  ("settings.section.apiClientsDescription", "Defaults seguros para novas credenciais de serviço.");
  ("settings.section.console", "Console");
  ("settings.section.consoleDescription", "Preferências iniciais da experiência administrativa.");
  ("settings.section.retention", "Retenção");
  ("settings.section.retentionDescription", "Janelas explícitas para telemetria e auditoria.");
  ("settings.section.security", "Segurança");
  ("settings.section.securityDescription", "Expiração e inatividade de sessões humanas.");
  ("settings.title", "Configurações operacionais");
  ("nav.overview", "Visão geral");
  ("nav.tenants", "Tenants");
  ("overview.activeDefinitions", "Definições ativas");
  ("overview.activeTenants", "Tenants ativos");
  ("overview.authRequired", "Autenticação administrativa necessária.");
  ("overview.description", "Configuração multi-tenant de recursos por cliente.");
  ("overview.domainHint", "hostnames mapeados");
  ("overview.domains", "Domínios");
  ("overview.loadError", "Não foi possível carregar a visão geral.");
  ("overview.loading", "Carregando visão geral...");
  ("overview.resourceCount", "{count} recursos");
  ("overview.resourceHint", "instâncias ativas");
  ("overview.resources", "Recursos provisionados");
  ("overview.totalTenants", "{count} no total");
  ("overview.typeHint", "tipos de recurso");
  ("overview.title", "Visão geral");
  ("overview.operationalHealth", "Saúde operacional");
  ("overview.operationalHealthHint", "Postgres, Valkey e evidências operacionais");
  ("overview.monthRequests", "Requisições no mês");
  ("overview.monthRequestsHint", "todas as chaves, mês UTC atual");
  ("overview.expiringKeys", "Chaves expirando");
  ("overview.expiringKeysHint", "ativas com vencimento nos próximos 30 dias");
  ("overview.deadLetters", "Dead letters");
  ("overview.deadLettersHint", "entregas que exigem intervenção");
  ("preferences.darkMode", "Ativar modo escuro");
  ("preferences.language", "Idioma");
  ("preferences.lightMode", "Ativar modo claro");
  ("preferences.theme", "Tema");
  ("preferences.theme.dark", "Escuro");
  ("preferences.theme.light", "Claro");
  ("preferences.theme.system", "Sistema");
  ("status.active", "ativo");
  ("status.inactive", "inativo");
  ("status.revoked", "revogado");
  ("tenantDetail.addDomain", "Adicionar domínio");
  ("tenantDetail.addResource", "Adicionar recurso");
  ("tenantDetail.addResourceDialog.description", "Escolha um tipo, defina um alias único e use valores próprios ou herde de outro recurso.");
  ("tenantDetail.addResourceDialog.empty", "Não há definições de recurso ativas.");
  ("tenantDetail.addResourceDialog.title", "Adicionar recurso");
  ("tenantDetail.backToTenants", "Voltar para Tenants");
  ("tenantDetail.confirmRemoveDomainDescription", "O hostname {hostname} deixará de resolver para este tenant imediatamente.");
  ("tenantDetail.confirmRemoveDomainTitle", "Remover domínio?");
  ("tenantDetail.confirmRemoveResourceDescription", "O recurso {resourceName} será removido deste tenant. Aplicações consumidoras podem perder essa configuração.");
  ("tenantDetail.confirmRemoveResourceTitle", "Remover recurso?");
  ("tenantDetail.deactivate", "Desativar");
  ("tenantDetail.duplicate", "Duplicar");
  ("tenantDetail.duplicateDescription", "Cria uma cópia independente com os valores efetivos atuais. Mudanças futuras no original não serão herdadas.");
  ("tenantDetail.duplicateHint", "Use um alias único para identificar a nova cópia independente.");
  ("tenantDetail.duplicateTitle", "Duplicar recurso");
  ("tenantDetail.dangerZone.description", "A desativação é reversível. A exclusão abaixo é permanente e remove domínios, recursos e valores secretos.");
  ("tenantDetail.dangerZone.title", "Zona de perigo");
  ("tenantDetail.deleteAction", "Excluir tenant permanentemente");
  ("tenantDetail.deleteConfirm", "Excluir permanentemente");
  ("tenantDetail.deleteDescription", "Esta ação não pode ser desfeita. O tenant {slug}, seus domínios, recursos e valores secretos serão removidos em cascata.");
  ("tenantDetail.deleteInputLabelPrefix", "Digite");
  ("tenantDetail.deleteInputLabelSuffix", "para confirmar");
  ("tenantDetail.deleteInputPlaceholder", "slug do tenant");
  ("tenantDetail.deleteTitle", "Excluir tenant permanentemente?");
  ("tenantDetail.deleted", "Tenant excluído permanentemente.");
  ("tenantDetail.domainAdded", "Domínio adicionado.")
].

Definition ptBR_4 : list (jsstr * jsstr) := [
  ("tenantDetail.domainRemoved", "Domínio removido.");
  ("tenantDetail.domainUpdated", "Domínio atualizado.");
  ("tenantDetail.domainsDescription", "Hostnames que resolvem para este tenant.");
  ("tenantDetail.domainsEmpty", "Nenhum domínio. Adicione ao menos um para resolver o tenant.");
  ("tenantDetail.domainsSearch", "Buscar por hostname...");
  ("tenantDetail.editDomainDescription", "Altere o hostname que resolve para este tenant.");
  ("tenantDetail.editDomainTitle", "Renomear domínio");
  ("tenantDetail.renameDomain", "Renomear");
  ("tenantDetail.domainsTab", "Domínios");
  ("tenantDetail.editDescription", "Atualize os dados do cliente.");
  ("tenantDetail.editFieldDescription", "Atualize o valor de {field}. Valores secretos não são preenchidos no formulário.");
  ("tenantDetail.editFieldTitle", "Editar campo");
  ("tenantDetail.editTitle", "Editar tenant");
  ("tenantDetail.enableSecretReveal", "Habilitar revelação de segredos");
  ("tenantDetail.fieldsColumn", "Campos");
  ("tenantDetail.fieldCount.many", "{count} campos");
  ("tenantDetail.fieldCount.one", "{count} campo");
  ("tenantDetail.headerDescription", "Identificador {slug}. Gerencie a configuração, os recursos e os domínios deste tenant.");
  ("tenantDetail.hideSecrets", "Ocultar segredos");
  ("tenantDetail.loadError", "Não foi possível carregar o tenant.");
  ("tenantDetail.newDomainDescription", "Hostname exato que resolve para este tenant.");
  ("tenantDetail.newDomainTitle", "Adicionar domínio");
  ("tenantDetail.noResource", "Nenhum recurso");
  ("tenantDetail.noResourceDescription", "Este tenant ainda não tem recursos provisionados.");
  ("tenantDetail.notFound", "Tenant não encontrado.");
  ("tenantDetail.overviewTab", "Visão geral");
  ("tenantDetail.reactivate", "Reativar");
  ("tenantDetail.attention.description", "Pendências que afetam o consumo ou merecem revisão operacional.");
  ("tenantDetail.attention.emptyDescription", "Domínio, estado e recursos essenciais estão configurados.");
  ("tenantDetail.attention.emptyTitle", "Nenhuma pendência encontrada");
  ("tenantDetail.attention.inactive_resources.description", "Recursos desativados não são retornados pela Consumer API.");
  ("tenantDetail.attention.inactive_resources.title", "{count} recurso(s) inativo(s)");
  ("tenantDetail.attention.inactive_tenant.description", "Um tenant inativo não pode ser resolvido pelas aplicações consumidoras.");
  ("tenantDetail.attention.inactive_tenant.title", "Tenant inativo");
  ("tenantDetail.attention.incomplete_resources.description", "Existem recursos com campos obrigatórios sem valor.");
  ("tenantDetail.attention.incomplete_resources.title", "{count} configuração(ões) incompleta(s)");
  ("tenantDetail.attention.missing_active_resource.description", "Adicione ou reative um recurso para disponibilizar configuração ao consumidor.");
  ("tenantDetail.attention.missing_active_resource.title", "Nenhum recurso ativo");
  ("tenantDetail.attention.missing_domain.description", "Sem hostname, a aplicação não consegue identificar este tenant por domínio.");
  ("tenantDetail.attention.missing_domain.title", "Nenhum domínio cadastrado");
  ("tenantDetail.attention.title", "Itens que exigem atenção");
  ("tenantDetail.readiness.attention", "Atenção");
  ("tenantDetail.readiness.completeHint", "todos os campos obrigatórios estão preenchidos");
  ("tenantDetail.readiness.domains", "Domínios");
  ("tenantDetail.readiness.incomplete", "Incompleto");
  ("tenantDetail.readiness.incompleteHint", "revise os campos obrigatórios ausentes");
  ("tenantDetail.readiness.incompleteResources", "Configurações incompletas");
  ("tenantDetail.readiness.missingDomain", "adicione um domínio");
  ("tenantDetail.readiness.missingResource", "adicione um recurso ativo");
  ("tenantDetail.readiness.ready", "Pronto");
  ("tenantDetail.readiness.requirementsHint", "{count} de {total} requisitos essenciais atendidos");
  ("tenantDetail.readiness.resources", "Recursos ativos/total");
  ("tenantDetail.readiness.resourcesHint", "instâncias disponíveis para configuração");
  ("tenantDetail.readiness.title", "Prontidão para consumo");
  ("tenantDetail.resourceAdded", "Recurso adicionado.");
  ("tenantDetail.editResourceIdentityTitle", "Editar recurso");
  ("tenantDetail.editResourceIdentityDescription", "Atualize o nome exibido e o alias único usado pela Consumer API.");
  ("tenantDetail.resourceAlias", "Alias");
  ("tenantDetail.resourceAliasHint", "Identificador único usado pela Consumer API, como postgres.agility.");
  ("tenantDetail.resourceNameHint", "Nome legível para identificar esta instância no console.");
  ("tenantDetail.resourceUpdated", "Nome e alias atualizados.");
  ("tenantDetail.resourceDuplicated", "Recurso duplicado como cópia independente.");
  ("tenantDetail.resourceFieldUpdated", "Campo atualizado.");
  ("tenantDetail.resourceFieldInherited", "O campo voltou a herdar o valor da origem.");
  ("tenantDetail.resourceDetailsDescription", "Tipo {type} · alias {alias}. Consulte os campos e valores deste recurso.");
  ("tenantDetail.resourceLinkedDescription", "Vinculado a {source}. Valores sem override acompanham a origem.");
  ("tenantDetail.resourceOrigin", "Origem dos valores");
  ("tenantDetail.resourceRemoved", "Recurso removido.");
  ("tenantDetail.resourceStatusActivated", "Recurso reativado.");
  ("tenantDetail.resourceStatusDeactivated", "Recurso desativado.");
  ("tenantDetail.resourceType", "Tipo de recurso");
  ("tenantDetail.independent", "Independente");
  ("tenantDetail.independentHint", "Os valores pertencem apenas a este recurso.");
  ("tenantDetail.inheritPlaceholder", "Deixe vazio para herdar");
  ("tenantDetail.inherited", "herdado");
  ("tenantDetail.linked", "Vinculado");
  ("tenantDetail.linkedHint", "Campos vazios herdam a origem; valores preenchidos são overrides locais.");
  ("tenantDetail.linkTo", "Vincular a {alias}");
  ("tenantDetail.resourcesTab", "Recursos");
  ("tenantDetail.resourcesSearch", "Buscar por nome, tipo ou status...");
  ("tenantDetail.secretsDisabled", "Segredos ocultados.");
  ("tenantDetail.secretsEnabled", "Revelação por campo habilitada.");
  ("tenantDetail.secretsColumn", "Segredos");
  ("tenantDetail.useSource", "Usar valor da origem");
  ("tenantDetail.secretCount.many", "{count} segredos");
  ("tenantDetail.secretCount.one", "{count} segredo");
  ("tenantDetail.saveResource", "Salvar recurso");
  ("tenantDetail.selectResource", "Selecione...");
  ("tenantDetail.updated", "Tenant atualizado.");
  ("tenants.create", "Criar tenant");
  ("tenants.description", "Clientes e seus domínios.");
  ("tenants.empty", "Nenhum tenant encontrado.");
  ("tenants.new", "Novo tenant");
  ("tenants.newDialog.description", "Cadastre um cliente. Domínios e recursos são adicionados em seguida.");
  ("tenants.newDialog.title", "Novo tenant");
  ("tenants.search", "Buscar por nome ou slug...");
  ("tenants.title", "Tenants")
].

Definition ptBR : list (jsstr * jsstr) := ptBR_1 ++ ptBR_2 ++ ptBR_3 ++ ptBR_4.
