(* ===== verification/I18nEn.v ===== *)
(** * The English messages

    [src/web/src/lib/i18n.tsx], the table [enUS], in slices. *)
From Stdlib Require Import ZArith List.
From stdpp Require Import base list.
From S2P Require Import Prelude.

Definition enUS_1 : list (jsstr * jsstr) := [
  ("apiClients.actions", "Actions");
  ("apiClients.clearSecretAccess.description", "These keys call /v1/resolve, which returns decrypted secrets over TLS. The token is shown only once, when it is created.");
  ("apiClients.clearSecretAccess.title", "Clear secret access");
  ("apiClients.copied", "Copied");
  ("apiClients.copy", "Copy");
  ("apiClients.copyFailed", "Could not copy. Select and copy it manually.");
  ("apiClients.createdAt", "Created at");
  ("apiClients.description", "Service keys for server-to-server usage.");
  ("apiClients.done", "Done");
  ("apiClients.emptyActive", "No active keys.");
  ("apiClients.generateToken", "Generate token");
  ("apiClients.help", "Help");
  ("apiClients.filters", "Filters");
  ("apiClients.helpTitle", "How to consume API keys");
  ("apiClients.loading", "Loading API keys...");
  ("apiClients.name", "Name");
  ("apiClients.scopes", "Permissions");
  ("apiClients.scopeIdentify", "Identify tenant");
  ("apiClients.scopeIdentifyDescription", "Allows tenant identification without returning resources or secrets.");
  ("apiClients.scopeResolve", "Resolve resources");
  ("apiClients.scopeResolveDescription", "Allows configuration retrieval, including decrypted secret fields.");
  ("apiClients.scopeEvents", "Read events");
  ("apiClients.scopeEventsDescription", "Allows consuming the change feed without accessing configuration or secrets.");
  ("apiClients.scopeTenantList", "List tenants");
  ("apiClients.scopeTenantListDescription", "Allows enumerating tenant identities (slug, name, status) — never resources or secrets.");
  ("apiClients.scopeResourceWrite", "Write values");
  ("apiClients.scopeResourceWriteDescription", "Allows updating values of NON-secret fields on existing resources.");
  ("apiClients.rpmLimit", "Requests per minute");
  ("apiClients.expiration", "Expiration");
  ("apiClients.expirationDays", "{days} days");
  ("apiClients.lastUsed", "Last used");
  ("apiClients.filterStatus", "Filter by status");
  ("apiClients.allStatuses", "All statuses");
  ("apiClients.filterScope", "Filter by permission");
  ("apiClients.allScopes", "All permissions");
  ("apiClients.expiringSoon", "Expires within 30 days");
  ("apiClients.inactive", "Inactive for 30 days");
  ("apiClients.rotate", "Rotate key");
  ("apiClients.rotated", "Key rotated. Copy the new token now.");
  ("apiClients.updated", "Key policy updated.");
  ("apiClients.deleted", "Key removed.");
  ("apiClients.editTitle", "Edit API key");
  ("apiClients.deleteTitle", "Remove API key");
  ("apiClients.deleteDescription", "Permanently remove revoked key {name}? Usage and audit history will be preserved.");
  ("apiClients.new", "New API key");
  ("apiClients.newDialog.description", "The token will be shown only once after creation.");
  ("apiClients.newDialog.title", "New API key");
  ("apiClients.reactivate", "Reactivate");
  ("apiClients.revoke", "Revoke");
  ("apiClients.search", "Search by name, date, or status...");
  ("apiClients.resolveSnippet.copy", "Copy snippet");
  ("apiClients.resolveSnippet.copied", "Snippet copied");
  ("apiClients.resolveSnippet.description", "Use an active key to identify the tenant at the edge without touching secrets, then resolve configuration in the app by tenantId.");
  ("apiClients.resolveSnippet.edgeDescription", "The edge receives only the tenant slug; no resources or secrets are returned.");
  ("apiClients.resolveSnippet.edgeTitle", "1. Identify at the edge (no secrets)");
  ("apiClients.resolveSnippet.fullDescription", "Returns all active resources for the tenant.");
  ("apiClients.resolveSnippet.fullTitle", "Full tenant");
  ("apiClients.resolveSnippet.resourceDescription", "Returns only one resource definition for the tenant.");
  ("apiClients.resolveSnippet.resourceTitle", "Specific resource");
  ("apiClients.resolveSnippet.tenantIdDescription", "The app resolves by the injected slug and revalidates with ETag without storing the secret body in the HTTP cache.");
  ("apiClients.resolveSnippet.tenantIdTitle", "2. Resolve in the app by tenantId");
  ("apiClients.resolveSnippet.hostnameDescription", "A simple alternative that resolves all resources directly by hostname and returns secrets.");
  ("apiClients.resolveSnippet.hostnameTitle", "Alternative: resolve by hostname");
  ("apiClients.resolveSnippet.title", "Consumer example");
  ("apiClients.statusReactivated", "Key reactivated.");
  ("apiClients.statusRevoked", "Key revoked.");
  ("apiClients.title", "API Keys");
  ("apiClients.token", "Token");
  ("apiClients.tokenGenerated.description", "Copy it now; it cannot be viewed again.");
  ("apiClients.tokenGenerated.title", "Generated token");
  ("app.subtitle", "Admin Console");
  ("app.title", "Tenancit");
  ("auth.description", "Enter the Tenancit admin token.");
  ("auth.enter", "Enter");
  ("auth.hideToken", "Hide token");
  ("auth.invalidToken", "Invalid or expired token. Enter a valid admin token.");
  ("auth.loading", "Checking administrative access…");
  ("auth.oidcDescription", "Sign in with your corporate identity.");
  ("auth.oidcEnter", "Sign in with SSO");
  ("auth.oidcSession", "Corporate session");
  ("auth.requiredAccess", "Enter the admin token to access the console.");
  ("auth.requiredContinue", "Enter the admin token to continue.");
  ("auth.retry", "Try again");
  ("auth.sessionExpired", "Your session has expired. Sign in again.");
  ("auth.showToken", "Show token");
  ("auth.sharedCredential", "Administrative credential");
  ("auth.sharedToken", "Shared token");
  ("auth.title", "Administrative access");
  ("auth.token", "Token");
  ("auth.unavailable", "The authentication mode could not be verified.");
  ("common.actions", "Actions");
  ("common.add", "Add");
  ("common.back", "Back");
  ("common.cancel", "Cancel");
  ("common.close", "Close");
  ("common.create", "Create");
  ("common.description", "Description");
  ("common.dismiss", "Dismiss");
  ("common.edit", "Edit");
  ("common.field", "Field");
  ("common.hide", "Hide");
  ("common.hostname", "Hostname");
  ("common.key", "Key");
  ("common.label", "Label");
  ("common.name", "Name");
  ("common.loading", "Loading...");
  ("common.remove", "Remove");
  ("common.removeConfirm", "Remove");
  ("common.review", "Review");
  ("common.reveal", "Reveal");
  ("common.save", "Save");
  ("common.secret", "Secret");
  ("common.slug", "Slug");
  ("common.status", "Status");
  ("common.type", "Type");
  ("common.value", "Value");
  ("validation.dateRange", "The end date must be later than the start date.");
  ("validation.definitionKey", "Use up to 63 characters: start with a lowercase letter and use only lowercase letters, numbers, hyphens, or underscores.");
  ("validation.boolean", "Use true or false.");
  ("validation.hostname", "Use only DNS labels with letters, numbers, and hyphens, such as app.example.com.");
  ("validation.integer", "Enter a whole number without decimal places.");
  ("validation.tenantSlug", "Use up to 63 characters with lowercase letters, numbers, and single hyphens between words.");
  ("validation.webhookURL", "Use an HTTPS URL without credentials or a fragment. HTTP is accepted only on localhost.");
  ("dataTable.firstPage", "First page");
  ("dataTable.item", "item");
  ("dataTable.items", "items");
  ("dataTable.lastPage", "Last page");
  ("dataTable.nextPage", "Next page");
  ("dataTable.page", "Page");
  ("dataTable.pageOf", "of");
  ("dataTable.previousPage", "Previous page");
  ("dataTable.rowsPerPage", "Rows per page");
  ("dataTable.sortAsc", "Sort ascending");
  ("dataTable.sortDesc", "Sort descending");
  ("dataTable.sortReset", "Clear sorting");
  ("dataTable.sort", "Sort");
  ("dataTable.sortBy", "Sort by");
  ("dataTable.ascending", "Ascending");
  ("dataTable.descending", "Descending");
  ("dataTable.columns", "Columns");
  ("dataTable.clearFilters", "Clear filters");
  ("dataTable.resetPreferences", "Reset table");
  ("dataTable.noResults", "No results.");
  ("definitionDetail.activate", "Activate")
].

Definition enUS_2 : list (jsstr * jsstr) := [
  ("definitionDetail.addField", "Add field");
  ("definitionDetail.back", "Back");
  ("definitionDetail.dataTypeBool", "Boolean");
  ("definitionDetail.dataTypeInt", "Integer");
  ("definitionDetail.dataTypeString", "Text");
  ("definitionDetail.deactivate", "Deactivate");
  ("definitionDetail.emptyDescription", "No fields. Add the fields that make up this resource.");
  ("definitionDetail.editDescription", "Update the name and description. The technical key {key} remains immutable.");
  ("definitionDetail.editFieldAction", "Edit field {key}");
  ("definitionDetail.editFieldDescription", "Update the label and requirement for {key}. To change key, type, or secret storage, create a new field and migrate the values.");
  ("definitionDetail.editFieldTitle", "Edit field");
  ("definitionDetail.editTitle", "Edit definition");
  ("definitionDetail.fieldAdded", "Field added.");
  ("definitionDetail.fieldRemoved", "Field removed.");
  ("definitionDetail.fieldUpdated", "Field updated.");
  ("definitionDetail.fieldsDescription", "Dynamic field definition for this resource type.");
  ("definitionDetail.fieldsTitle", "Fields");
  ("definitionDetail.loadError", "Could not load the definition.");
  ("definitionDetail.newField", "New field");
  ("definitionDetail.newFieldDescription", "Add a field to this resource type.");
  ("definitionDetail.notFound", "Definition not found.");
  ("definitionDetail.open", "Open definition {name}");
  ("definitionDetail.removeDescription", "The {name} definition will be removed. Removal is blocked while resources are linked to it.");
  ("definitionDetail.removeTitle", "Remove definition?");
  ("definitionDetail.removed", "Definition removed.");
  ("definitionDetail.removeFieldDescription", "The field {fieldKey} will be removed from this definition. This can affect resources and forms that depend on it.");
  ("definitionDetail.removeFieldTitle", "Remove field?");
  ("definitionDetail.requiredDescription", "Required when creating the resource.");
  ("definitionDetail.requiredTitle", "Required");
  ("definitionDetail.secretDescription", "Encrypted with AES-256-GCM.");
  ("definitionDetail.statusActivated", "Definition activated.");
  ("definitionDetail.statusDeactivated", "Definition deactivated.");
  ("definitionDetail.updated", "Definition updated.");
  ("definitions.create", "Create definition");
  ("definitions.description", "Catalog of resource types and their fields.");
  ("definitions.empty", "No definitions yet.");
  ("definitions.emptyDescription", "No description.");
  ("definitions.footerCounts", "Fields: {fieldCount} · Secrets: {secretCount}");
  ("definitions.new", "New definition");
  ("definitions.newDialog.description", "Define a resource type. Fields are added next.");
  ("definitions.newDialog.title", "New definition");
  ("definitions.title", "Resource Definitions");
  ("errors.conflict", "A record with this value already exists. Check for duplicates.");
  ("errors.definitionInUse", "This definition still has linked resources. Remove or migrate those resources before deleting it.");
  ("errors.forbidden", "You do not have permission for this action.");
  ("errors.generic", "Something went wrong. Please try again.");
  ("errors.invalidData", "Invalid data. Review the fields.");
  ("errors.notFound", "Record not found.");
  ("errors.precondition", "The data changed in another session. Review it and try again.");
  ("errors.server", "Server error. Please try again shortly.");
  ("errors.timeout", "The request took too long. Check the connection and try again.");
  ("nav.apiClients", "API Keys");
  ("nav.usage", "Monthly usage");
  ("nav.audit", "Audit");
  ("nav.sessions", "Active sessions");
  ("nav.settings", "Settings");
  ("nav.integrations", "Webhooks");
  ("nav.health", "Health");
  ("operationsHealth.component", "Component");
  ("operationsHealth.deadLetters", "Dead letters");
  ("operationsHealth.deadLettersHint", "deliveries requiring intervention");
  ("operationsHealth.dependencies", "Dependencies");
  ("operationsHealth.dependenciesHint", "monitored external services");
  ("operationsHealth.description", "Synchronous readiness, queues, and recent evidence from operational jobs.");
  ("operationsHealth.freshUntil", "Fresh until");
  ("operationsHealth.inFlight", "Deliveries in flight");
  ("operationsHealth.inFlightHint", "pending or waiting for another attempt");
  ("operationsHealth.kind", "Kind");
  ("operationsHealth.kind.backup", "Backup");
  ("operationsHealth.kind.migration", "Migration");
  ("operationsHealth.kind.restore", "Restore");
  ("operationsHealth.kind.rewrap", "Rewrap");
  ("operationsHealth.latency", "Latency");
  ("operationsHealth.noDependencies", "No dependencies configured.");
  ("operationsHealth.noReports", "No operational reports received.");
  ("operationsHealth.occurredAt", "Occurred at");
  ("operationsHealth.overall", "Overall status");
  ("operationsHealth.overallHint", "combined readiness of dependencies");
  ("operationsHealth.reports", "Operational reports");
  ("operationsHealth.source", "Source");
  ("operationsHealth.status.degraded", "degraded");
  ("operationsHealth.status.failed", "failed");
  ("operationsHealth.status.healthy", "healthy");
  ("operationsHealth.status.stale", "stale");
  ("operationsHealth.status.unavailable", "unavailable");
  ("operationsHealth.title", "Operational health");
  ("integrations.attempts", "Attempts");
  ("integrations.activeTargets", "Active targets");
  ("integrations.created", "Target created.");
  ("integrations.deliveries", "Deliveries");
  ("integrations.delivered", "Delivered");
  ("integrations.deadLetters", "Dead letters");
  ("integrations.description", "Signed webhooks, retries, and dead letters.");
  ("integrations.disable", "Disable");
  ("integrations.done", "Done");
  ("integrations.emptyDeliveries", "No deliveries found.");
  ("integrations.emptyTargets", "No targets configured.");
  ("integrations.enable", "Enable");
  ("integrations.endpoint", "Endpoint");
  ("integrations.event", "Event");
  ("integrations.format", "Format");
  ("integrations.formatGeneric", "Generic");
  ("integrations.inFlight", "Pending and retries");
  ("integrations.name", "Name");
  ("integrations.new", "New webhook");
  ("integrations.newDescription", "Register an HTTPS receiver. The full URL and secret remain encrypted.");
  ("integrations.openCircuits", "{count} open circuits");
  ("integrations.replay", "Replay delivery");
  ("integrations.replayed", "Delivery queued again.");
  ("integrations.searchDeliveries", "Search deliveries…");
  ("integrations.searchTargets", "Search targets…");
  ("integrations.secretDescription", "Copy it now. The secret will not be shown again.");
  ("integrations.secretTitle", "Signing secret generated");
  ("integrations.signingSecret", "Signing secret");
  ("integrations.target", "Target");
  ("integrations.targets", "Targets");
  ("integrations.title", "Webhooks and integrations");
  ("integrations.url", "Receiver URL");
  ("usage.title", "API key usage");
  ("usage.description", "Operational volume aggregated by key, operation, and UTC day.");
  ("usage.month", "Month");
  ("usage.prevMonth", "Previous month");
  ("usage.nextMonth", "Next month");
  ("usage.prevYear", "Previous year");
  ("usage.nextYear", "Next year");
  ("usage.today", "Today");
  ("usage.client", "Key");
  ("usage.allClients", "All keys");
  ("usage.operation", "Operation");
  ("usage.operationIdentify", "Identify");
  ("usage.operationResolve", "Resolve");
  ("usage.allOperations", "All operations");
  ("usage.requests", "Requests");
  ("usage.requestsHint", "in the selected period and filters");
  ("usage.errors", "Errors");
  ("usage.errorsHint", "HTTP 4xx and 5xx responses");
  ("usage.limited", "Rate limited");
  ("usage.limitedHint", "rejected by the request limit");
  ("usage.daily", "Daily usage");
  ("usage.empty", "No usage recorded in this period.");
  ("audit.title", "Administrative audit");
  ("audit.description", "Append-only trail of administrative actions and secret reveals.");
  ("audit.action", "Action");
  ("audit.target", "Target");
  ("audit.result", "Result")
].

Definition enUS_3 : list (jsstr * jsstr) := [
  ("audit.allResults", "All results");
  ("audit.actorNotice", "While sign-in uses the shared token, the trail identifies the administrative credential, not a person.");
  ("audit.when", "When");
  ("audit.actor", "Actor");
  ("audit.request", "Request ID");
  ("audit.empty", "No events found.");
  ("audit.next", "Next page");
  ("audit.previous", "Previous page");
  ("audit.applyFilters", "Apply filters");
  ("audit.export", "Export trail");
  ("audit.download", "Download once");
  ("audit.exportStatus", "Export: {status} · {rows} events");
  ("audit.partitionHealth", "Partitions through");
  ("audit.overviewTab", "Overview");
  ("audit.eventsTab", "Events");
  ("audit.partitionHealthHint", "partitioning prepared through this date");
  ("audit.defaultRows", "Legacy events");
  ("audit.defaultRowsHint", "events still in the default partition");
  ("audit.legalHolds", "Active legal holds");
  ("audit.legalHoldsHint", "retention holds preventing disposal");
  ("audit.manageHolds", "Manage legal holds");
  ("audit.legalHoldDescription", "Preserve investigation windows before retention removes partitions.");
  ("audit.holdFrom", "Start");
  ("audit.holdTo", "End");
  ("audit.holdReason", "Reason and reference");
  ("audit.createHold", "Create legal hold");
  ("audit.releaseHold", "Release");
  ("audit.holdReleased", "Released");
  ("audit.noHolds", "No legal holds recorded.");
  ("nav.definitions", "Resources");
  ("nav.logout", "Log out");
  ("nav.account", "Account");
  ("nav.management", "Management");
  ("nav.operations", "Operations");
  ("nav.security", "Security");
  ("nav.system", "System");
  ("sessions.current", "Current");
  ("sessions.description", "Revoke individual access without affecting the current session.");
  ("sessions.empty", "No sessions found.");
  ("sessions.expires", "Expires");
  ("sessions.lastUsed", "Last used");
  ("sessions.principal", "Principal");
  ("sessions.revoke", "Revoke session");
  ("sessions.revokeDescription", "Revoke the session for {name}? Access will end immediately.");
  ("sessions.revoked", "Session revoked.");
  ("sessions.revokeTitle", "Revoke session");
  ("sessions.roles", "Roles");
  ("sessions.search", "Search by person, subject, or issuer…");
  ("sessions.status.active", "active");
  ("sessions.status.expired", "expired");
  ("sessions.status.idle_expired", "idle expired");
  ("sessions.status.revoked", "revoked");
  ("sessions.title", "Administrative sessions");
  ("settings.description", "Versioned and audited non-secret runtime policies.");
  ("settings.field.api_client_default_rpm", "Default RPM for new keys");
  ("settings.field.api_client_default_ttl_days", "Default lifetime for new keys (days)");
  ("settings.field.audit_retention_days", "Audit retention (days)");
  ("settings.field.default_locale", "Default language");
  ("settings.field.session_absolute_hours", "Maximum session duration (hours)");
  ("settings.field.session_idle_minutes", "Maximum inactivity (minutes)");
  ("settings.field.usage_retention_months", "Usage retention (months)");
  ("settings.field.webhook_delivery_retention_days", "Webhook delivery retention (days)");
  ("settings.field.outbox_event_retention_days", "Change feed retention (days)");
  ("settings.hint.api_client_default_rpm", "Suggested by the create form; existing keys are unchanged.");
  ("settings.hint.api_client_default_ttl_days", "Suggested for new keys; existing tokens are not extended.");
  ("settings.hint.audit_retention_days", "Policy used by the administrative audit retention job.");
  ("settings.hint.default_locale", "Initial preference when the browser has not selected a language.");
  ("settings.hint.session_absolute_hours", "Applied to new sessions and never exceeded by idle expiry.");
  ("settings.hint.session_idle_minutes", "Re-evaluated during use and capped by absolute duration.");
  ("settings.hint.usage_retention_months", "Applied by the UTC telemetry retention job.");
  ("settings.hint.webhook_delivery_retention_days", "Removes completed deliveries and dead letters after the window.");
  ("settings.hint.outbox_event_retention_days", "Removes events without pending deliveries after the window.");
  ("settings.owner", "Owner: {owner}");
  ("settings.revision", "Revision {revision}");
  ("settings.saved", "Settings saved.");
  ("settings.saving", "Saving…");
  ("settings.section.apiClients", "API keys");
  ("settings.section.apiClientsDescription", "Safe defaults for new service credentials.");
  ("settings.section.console", "Console");
  ("settings.section.consoleDescription", "Initial preferences for the administrative experience.");
  ("settings.section.retention", "Retention");
  ("settings.section.retentionDescription", "Explicit windows for telemetry and auditing.");
  ("settings.section.security", "Security");
  ("settings.section.securityDescription", "Human session expiration and inactivity.");
  ("settings.title", "Operational settings");
  ("nav.overview", "Overview");
  ("nav.tenants", "Tenants");
  ("overview.activeDefinitions", "Active definitions");
  ("overview.activeTenants", "Active tenants");
  ("overview.authRequired", "Administrative authentication is required.");
  ("overview.description", "Multi-tenant resource configuration by client.");
  ("overview.domainHint", "mapped hostnames");
  ("overview.domains", "Domains");
  ("overview.loadError", "Could not load the overview.");
  ("overview.loading", "Loading overview...");
  ("overview.resourceCount", "{count} resources");
  ("overview.resourceHint", "active instances");
  ("overview.resources", "Provisioned resources");
  ("overview.totalTenants", "{count} total");
  ("overview.typeHint", "resource types");
  ("overview.title", "Overview");
  ("overview.operationalHealth", "Operational health");
  ("overview.operationalHealthHint", "Postgres, Valkey, and operational evidence");
  ("overview.monthRequests", "Requests this month");
  ("overview.monthRequestsHint", "all keys, current UTC month");
  ("overview.expiringKeys", "Expiring keys");
  ("overview.expiringKeysHint", "active keys expiring in the next 30 days");
  ("overview.deadLetters", "Dead letters");
  ("overview.deadLettersHint", "deliveries requiring intervention");
  ("preferences.darkMode", "Turn on dark mode");
  ("preferences.language", "Language");
  ("preferences.lightMode", "Turn on light mode");
  ("preferences.theme", "Theme");
  ("preferences.theme.dark", "Dark");
  ("preferences.theme.light", "Light");
  ("preferences.theme.system", "System");
  ("status.active", "active");
  ("status.inactive", "inactive");
  ("status.revoked", "revoked");
  ("tenantDetail.addDomain", "Add domain");
  ("tenantDetail.addResource", "Add resource");
  ("tenantDetail.addResourceDialog.description", "Choose a type, define a unique alias, and use local values or inherit from another resource.");
  ("tenantDetail.addResourceDialog.empty", "There are no active resource definitions.");
  ("tenantDetail.addResourceDialog.title", "Add resource");
  ("tenantDetail.backToTenants", "Back to Tenants");
  ("tenantDetail.confirmRemoveDomainDescription", "The hostname {hostname} will stop resolving to this tenant immediately.");
  ("tenantDetail.confirmRemoveDomainTitle", "Remove domain?");
  ("tenantDetail.confirmRemoveResourceDescription", "The resource {resourceName} will be removed from this tenant. Consumer applications can lose this configuration.");
  ("tenantDetail.confirmRemoveResourceTitle", "Remove resource?");
  ("tenantDetail.deactivate", "Deactivate");
  ("tenantDetail.duplicate", "Duplicate");
  ("tenantDetail.duplicateDescription", "Creates an independent copy with the current effective values. Future source changes will not be inherited.");
  ("tenantDetail.duplicateHint", "Use a unique alias for the new independent copy.");
  ("tenantDetail.duplicateTitle", "Duplicate resource");
  ("tenantDetail.dangerZone.description", "Deactivation is reversible. The deletion below is permanent and removes domains, resources, and secret values.");
  ("tenantDetail.dangerZone.title", "Danger zone");
  ("tenantDetail.deleteAction", "Delete tenant permanently");
  ("tenantDetail.deleteConfirm", "Delete permanently");
  ("tenantDetail.deleteDescription", "This action cannot be undone. Tenant {slug}, its domains, resources, and secret values will be removed by cascade.");
  ("tenantDetail.deleteInputLabelPrefix", "Type");
  ("tenantDetail.deleteInputLabelSuffix", "to confirm");
  ("tenantDetail.deleteInputPlaceholder", "tenant slug");
  ("tenantDetail.deleteTitle", "Delete tenant permanently?");
  ("tenantDetail.deleted", "Tenant permanently deleted.");
  ("tenantDetail.domainAdded", "Domain added.")
].

Definition enUS_4 : list (jsstr * jsstr) := [
  ("tenantDetail.domainRemoved", "Domain removed.");
  ("tenantDetail.domainUpdated", "Domain updated.");
  ("tenantDetail.domainsDescription", "Hostnames that resolve to this tenant.");
  ("tenantDetail.domainsEmpty", "No domains. Add at least one to resolve the tenant.");
  ("tenantDetail.domainsSearch", "Search by hostname...");
  ("tenantDetail.editDomainDescription", "Change the hostname that resolves to this tenant.");
  ("tenantDetail.editDomainTitle", "Rename domain");
  ("tenantDetail.renameDomain", "Rename");
  ("tenantDetail.domainsTab", "Domains");
  ("tenantDetail.editDescription", "Update the client data.");
  ("tenantDetail.editFieldDescription", "Update the value of {field}. Secret values are never prefilled in the form.");
  ("tenantDetail.editFieldTitle", "Edit field");
  ("tenantDetail.editTitle", "Edit tenant");
  ("tenantDetail.enableSecretReveal", "Enable secret reveal");
  ("tenantDetail.fieldsColumn", "Fields");
  ("tenantDetail.fieldCount.many", "{count} fields");
  ("tenantDetail.fieldCount.one", "{count} field");
  ("tenantDetail.headerDescription", "Identifier {slug}. Manage this tenant's configuration, resources, and domains.");
  ("tenantDetail.hideSecrets", "Hide secrets");
  ("tenantDetail.loadError", "Could not load the tenant.");
  ("tenantDetail.newDomainDescription", "Exact hostname that resolves to this tenant.");
  ("tenantDetail.newDomainTitle", "Add domain");
  ("tenantDetail.noResource", "No resources");
  ("tenantDetail.noResourceDescription", "This tenant does not have provisioned resources yet.");
  ("tenantDetail.notFound", "Tenant not found.");
  ("tenantDetail.overviewTab", "Overview");
  ("tenantDetail.reactivate", "Reactivate");
  ("tenantDetail.attention.description", "Issues that affect consumption or deserve operational review.");
  ("tenantDetail.attention.emptyDescription", "Domain, status, and essential resources are configured.");
  ("tenantDetail.attention.emptyTitle", "No issues found");
  ("tenantDetail.attention.inactive_resources.description", "Inactive resources are not returned by the Consumer API.");
  ("tenantDetail.attention.inactive_resources.title", "{count} inactive resource(s)");
  ("tenantDetail.attention.inactive_tenant.description", "An inactive tenant cannot be resolved by consuming applications.");
  ("tenantDetail.attention.inactive_tenant.title", "Inactive tenant");
  ("tenantDetail.attention.incomplete_resources.description", "Some resources have required fields without a value.");
  ("tenantDetail.attention.incomplete_resources.title", "{count} incomplete configuration(s)");
  ("tenantDetail.attention.missing_active_resource.description", "Add or reactivate a resource to make configuration available to consumers.");
  ("tenantDetail.attention.missing_active_resource.title", "No active resources");
  ("tenantDetail.attention.missing_domain.description", "Without a hostname, applications cannot identify this tenant by domain.");
  ("tenantDetail.attention.missing_domain.title", "No registered domains");
  ("tenantDetail.attention.title", "Items requiring attention");
  ("tenantDetail.readiness.attention", "Attention");
  ("tenantDetail.readiness.completeHint", "all required fields are filled");
  ("tenantDetail.readiness.domains", "Domains");
  ("tenantDetail.readiness.incomplete", "Incomplete");
  ("tenantDetail.readiness.incompleteHint", "review missing required fields");
  ("tenantDetail.readiness.incompleteResources", "Incomplete configurations");
  ("tenantDetail.readiness.missingDomain", "add a domain");
  ("tenantDetail.readiness.missingResource", "add an active resource");
  ("tenantDetail.readiness.ready", "Ready");
  ("tenantDetail.readiness.requirementsHint", "{count} of {total} essential requirements met");
  ("tenantDetail.readiness.resources", "Active/total resources");
  ("tenantDetail.readiness.resourcesHint", "instances available for configuration");
  ("tenantDetail.readiness.title", "Consumption readiness");
  ("tenantDetail.resourceAdded", "Resource added.");
  ("tenantDetail.editResourceIdentityTitle", "Edit resource");
  ("tenantDetail.editResourceIdentityDescription", "Update the display name and the unique alias used by the Consumer API.");
  ("tenantDetail.resourceAlias", "Alias");
  ("tenantDetail.resourceAliasHint", "Unique identifier used by the Consumer API, such as postgres.agility.");
  ("tenantDetail.resourceNameHint", "Readable name used to identify this instance in the console.");
  ("tenantDetail.resourceUpdated", "Name and alias updated.");
  ("tenantDetail.resourceDuplicated", "Resource duplicated as an independent copy.");
  ("tenantDetail.resourceFieldUpdated", "Field updated.");
  ("tenantDetail.resourceFieldInherited", "The field now inherits from the source again.");
  ("tenantDetail.resourceDetailsDescription", "Type {type} · alias {alias}. Review this resource's fields and values.");
  ("tenantDetail.resourceLinkedDescription", "Linked to {source}. Values without an override follow the source.");
  ("tenantDetail.resourceOrigin", "Value source");
  ("tenantDetail.resourceRemoved", "Resource removed.");
  ("tenantDetail.resourceStatusActivated", "Resource reactivated.");
  ("tenantDetail.resourceStatusDeactivated", "Resource deactivated.");
  ("tenantDetail.resourceType", "Resource type");
  ("tenantDetail.independent", "Independent");
  ("tenantDetail.independentHint", "Values belong only to this resource.");
  ("tenantDetail.inheritPlaceholder", "Leave empty to inherit");
  ("tenantDetail.inherited", "inherited");
  ("tenantDetail.linked", "Linked");
  ("tenantDetail.linkedHint", "Empty fields inherit the source; filled values are local overrides.");
  ("tenantDetail.linkTo", "Link to {alias}");
  ("tenantDetail.resourcesTab", "Resources");
  ("tenantDetail.resourcesSearch", "Search by name, type, or status...");
  ("tenantDetail.secretsDisabled", "Secrets hidden.");
  ("tenantDetail.secretsEnabled", "Field-level reveal enabled.");
  ("tenantDetail.secretsColumn", "Secrets");
  ("tenantDetail.useSource", "Use source value");
  ("tenantDetail.secretCount.many", "{count} secrets");
  ("tenantDetail.secretCount.one", "{count} secret");
  ("tenantDetail.saveResource", "Save resource");
  ("tenantDetail.selectResource", "Select...");
  ("tenantDetail.updated", "Tenant updated.");
  ("tenants.create", "Create tenant");
  ("tenants.description", "Clients and their domains.");
  ("tenants.empty", "No tenants found.");
  ("tenants.new", "New tenant");
  ("tenants.newDialog.description", "Register a client. Domains and resources are added next.");
  ("tenants.newDialog.title", "New tenant");
  ("tenants.search", "Search by name or slug...");
  ("tenants.title", "Tenants")
].

Definition enUS : list (jsstr * jsstr) := enUS_1 ++ enUS_2 ++ enUS_3 ++ enUS_4.
