(* ===== verification/I18nEs.v ===== *)
(** * The Spanish messages

    [src/web/src/lib/i18n.tsx], the table [esES], in slices. *)
From Stdlib Require Import ZArith List.
From stdpp Require Import base list.
From S2P Require Import Prelude.

Definition esES_1 : list (jsstr * jsstr) := [
  ("apiClients.actions", "Acciones");
  ("apiClients.clearSecretAccess.description", "Estas claves llaman a /v1/resolve, que devuelve secretos descifrados sobre TLS. El token solo se muestra una vez, al crearlo.");
  ("apiClients.clearSecretAccess.title", "Acceso a secretos en claro");
  ("apiClients.copied", "Copiado");
  ("apiClients.copy", "Copiar");
  ("apiClients.copyFailed", "No se pudo copiar. Selecciónalo y cópialo manualmente.");
  ("apiClients.createdAt", "Creado el");
  ("apiClients.description", "Claves de servicio para consumo server-to-server.");
  ("apiClients.done", "Finalizar");
  ("apiClients.emptyActive", "Ninguna clave activa.");
  ("apiClients.generateToken", "Generar token");
  ("apiClients.help", "Ayuda");
  ("apiClients.filters", "Filtros");
  ("apiClients.helpTitle", "Cómo consumir claves de API");
  ("apiClients.loading", "Cargando claves de API...");
  ("apiClients.name", "Nombre");
  ("apiClients.scopes", "Permisos");
  ("apiClients.scopeIdentify", "Identificar tenant");
  ("apiClients.scopeIdentifyDescription", "Permite identificar el tenant sin devolver recursos ni secretos.");
  ("apiClients.scopeResolve", "Resolver recursos");
  ("apiClients.scopeResolveDescription", "Permite obtener configuraciones, incluidos campos secretos descifrados.");
  ("apiClients.scopeEvents", "Leer eventos");
  ("apiClients.scopeEventsDescription", "Permite consumir el change feed sin acceder a configuraciones ni secretos.");
  ("apiClients.scopeTenantList", "Listar tenants");
  ("apiClients.scopeTenantListDescription", "Permite enumerar identidades de tenants (slug, nombre, estado) — nunca recursos ni secretos.");
  ("apiClients.scopeResourceWrite", "Escribir valores");
  ("apiClients.scopeResourceWriteDescription", "Permite actualizar valores de campos NO secretos en resources existentes.");
  ("apiClients.rpmLimit", "Límite por minuto");
  ("apiClients.expiration", "Expiración");
  ("apiClients.expirationDays", "{days} días");
  ("apiClients.lastUsed", "Último uso");
  ("apiClients.filterStatus", "Filtrar por estado");
  ("apiClients.allStatuses", "Todos los estados");
  ("apiClients.filterScope", "Filtrar por permiso");
  ("apiClients.allScopes", "Todos los permisos");
  ("apiClients.expiringSoon", "Expira en 30 días");
  ("apiClients.inactive", "Inactiva durante 30 días");
  ("apiClients.rotate", "Rotar clave");
  ("apiClients.rotated", "Clave rotada. Copia el nuevo token ahora.");
  ("apiClients.updated", "Política de la clave actualizada.");
  ("apiClients.deleted", "Clave eliminada.");
  ("apiClients.editTitle", "Editar clave de API");
  ("apiClients.deleteTitle", "Eliminar clave de API");
  ("apiClients.deleteDescription", "¿Eliminar permanentemente la clave revocada {name}? Se conservarán el uso y la auditoría.");
  ("apiClients.new", "Nueva clave");
  ("apiClients.newDialog.description", "El token se mostrará una sola vez después de la creación.");
  ("apiClients.newDialog.title", "Nueva clave de API");
  ("apiClients.reactivate", "Reactivar");
  ("apiClients.revoke", "Revocar");
  ("apiClients.search", "Buscar por nombre, fecha o estado...");
  ("apiClients.resolveSnippet.copy", "Copiar snippet");
  ("apiClients.resolveSnippet.copied", "Snippet copiado");
  ("apiClients.resolveSnippet.description", "Usa una clave activa para identificar el tenant en el borde sin tocar secretos y resuelve la configuración en la app por tenantId.");
  ("apiClients.resolveSnippet.edgeDescription", "El borde recibe solo el slug del tenant; no devuelve recursos ni secretos.");
  ("apiClients.resolveSnippet.edgeTitle", "1. Identificar en el borde (sin secretos)");
  ("apiClients.resolveSnippet.fullDescription", "Devuelve todos los recursos activos del tenant.");
  ("apiClients.resolveSnippet.fullTitle", "Tenant completo");
  ("apiClients.resolveSnippet.resourceDescription", "Devuelve solo una definición de recurso del tenant.");
  ("apiClients.resolveSnippet.resourceTitle", "Recurso específico");
  ("apiClients.resolveSnippet.tenantIdDescription", "La app resuelve por el slug inyectado y revalida con ETag sin guardar el cuerpo secreto en la caché HTTP.");
  ("apiClients.resolveSnippet.tenantIdTitle", "2. Resolver en la app por tenantId");
  ("apiClients.resolveSnippet.hostnameDescription", "Alternativa simple que resuelve todos los recursos directamente por hostname y devuelve secretos.");
  ("apiClients.resolveSnippet.hostnameTitle", "Alternativa: resolver por hostname");
  ("apiClients.resolveSnippet.title", "Ejemplo de consumo");
  ("apiClients.statusReactivated", "Clave reactivada.");
  ("apiClients.statusRevoked", "Clave revocada.");
  ("apiClients.title", "Claves de API");
  ("apiClients.token", "Token");
  ("apiClients.tokenGenerated.description", "Cópialo ahora; no podrás verlo nuevamente.");
  ("apiClients.tokenGenerated.title", "Token generado");
  ("app.subtitle", "Consola admin");
  ("app.title", "Tenancit");
  ("auth.description", "Informa el token administrativo de Tenancit.");
  ("auth.enter", "Entrar");
  ("auth.hideToken", "Ocultar token");
  ("auth.invalidToken", "Token inválido o vencido. Informa un token administrativo válido.");
  ("auth.loading", "Verificando el acceso administrativo…");
  ("auth.oidcDescription", "Inicia sesión con tu identidad corporativa.");
  ("auth.oidcEnter", "Entrar con SSO");
  ("auth.oidcSession", "Sesión corporativa");
  ("auth.requiredAccess", "Informa el token administrativo para acceder al panel.");
  ("auth.requiredContinue", "Informa el token administrativo para continuar.");
  ("auth.retry", "Intentar de nuevo");
  ("auth.sessionExpired", "Tu sesión ha vencido. Inicia sesión nuevamente.");
  ("auth.showToken", "Mostrar token");
  ("auth.sharedCredential", "Credencial administrativa");
  ("auth.sharedToken", "Token compartido");
  ("auth.title", "Acceso administrativo");
  ("auth.token", "Token");
  ("auth.unavailable", "No se pudo verificar el modo de autenticación.");
  ("common.actions", "Acciones");
  ("common.add", "Agregar");
  ("common.back", "Volver");
  ("common.cancel", "Cancelar");
  ("common.close", "Cerrar");
  ("common.create", "Crear");
  ("common.description", "Descripción");
  ("common.dismiss", "Descartar");
  ("common.edit", "Editar");
  ("common.field", "Campo");
  ("common.hide", "Ocultar");
  ("common.hostname", "Hostname");
  ("common.key", "Key");
  ("common.label", "Label");
  ("common.name", "Nombre");
  ("common.loading", "Cargando...");
  ("common.remove", "Eliminar");
  ("common.removeConfirm", "Eliminar");
  ("common.review", "Revisar");
  ("common.reveal", "Revelar");
  ("common.save", "Guardar");
  ("common.secret", "Secreto");
  ("common.slug", "Slug");
  ("common.status", "Status");
  ("common.type", "Tipo");
  ("common.value", "Valor");
  ("validation.dateRange", "La fecha final debe ser posterior a la fecha inicial.");
  ("validation.definitionKey", "Usa hasta 63 caracteres: comienza con una letra minúscula y usa solo letras minúsculas, números, guiones o guiones bajos.");
  ("validation.boolean", "Usa true o false.");
  ("validation.hostname", "Usa solo labels DNS con letras, números y guiones, como app.ejemplo.com.");
  ("validation.integer", "Introduce un número entero, sin decimales.");
  ("validation.tenantSlug", "Usa hasta 63 caracteres con letras minúsculas, números y guiones simples entre palabras.");
  ("validation.webhookURL", "Usa una URL HTTPS sin credenciales ni fragmento. HTTP se acepta solo en localhost.");
  ("dataTable.firstPage", "Primera página");
  ("dataTable.item", "elemento");
  ("dataTable.items", "elementos");
  ("dataTable.lastPage", "Última página");
  ("dataTable.nextPage", "Página siguiente");
  ("dataTable.page", "Página");
  ("dataTable.pageOf", "de");
  ("dataTable.previousPage", "Página anterior");
  ("dataTable.rowsPerPage", "Filas por página");
  ("dataTable.sortAsc", "Ordenar ascendente");
  ("dataTable.sortDesc", "Ordenar descendente");
  ("dataTable.sortReset", "Limpiar ordenación");
  ("dataTable.sort", "Ordenar");
  ("dataTable.sortBy", "Ordenar por");
  ("dataTable.ascending", "Ascendente");
  ("dataTable.descending", "Descendente");
  ("dataTable.columns", "Columnas");
  ("dataTable.clearFilters", "Limpiar filtros");
  ("dataTable.resetPreferences", "Restablecer tabla");
  ("dataTable.noResults", "Sin resultados.");
  ("definitionDetail.activate", "Activar")
].

Definition esES_2 : list (jsstr * jsstr) := [
  ("definitionDetail.addField", "Agregar campo");
  ("definitionDetail.back", "Volver");
  ("definitionDetail.dataTypeBool", "Booleano");
  ("definitionDetail.dataTypeInt", "Entero");
  ("definitionDetail.dataTypeString", "Texto");
  ("definitionDetail.deactivate", "Desactivar");
  ("definitionDetail.emptyDescription", "Ningún campo. Agrega los campos que componen este recurso.");
  ("definitionDetail.editDescription", "Actualiza el nombre y la descripción. La clave técnica {key} permanece inmutable.");
  ("definitionDetail.editFieldAction", "Editar campo {key}");
  ("definitionDetail.editFieldDescription", "Actualiza la etiqueta y la obligatoriedad de {key}. Para cambiar la clave, el tipo o el almacenamiento secreto, crea un campo nuevo y migra los valores.");
  ("definitionDetail.editFieldTitle", "Editar campo");
  ("definitionDetail.editTitle", "Editar definición");
  ("definitionDetail.fieldAdded", "Campo agregado.");
  ("definitionDetail.fieldRemoved", "Campo eliminado.");
  ("definitionDetail.fieldUpdated", "Campo actualizado.");
  ("definitionDetail.fieldsDescription", "Definición dinámica de los campos de este tipo de recurso.");
  ("definitionDetail.fieldsTitle", "Campos");
  ("definitionDetail.loadError", "No se pudo cargar la definición.");
  ("definitionDetail.newField", "Nuevo campo");
  ("definitionDetail.newFieldDescription", "Agrega un campo a este tipo de recurso.");
  ("definitionDetail.notFound", "Definición no encontrada.");
  ("definitionDetail.open", "Abrir definición {name}");
  ("definitionDetail.removeDescription", "La definición {name} será eliminada. La eliminación no está permitida mientras haya recursos vinculados.");
  ("definitionDetail.removeTitle", "¿Eliminar definición?");
  ("definitionDetail.removed", "Definición eliminada.");
  ("definitionDetail.removeFieldDescription", "El campo {fieldKey} se eliminará de esta definición. Esto puede afectar recursos y formularios que dependen de él.");
  ("definitionDetail.removeFieldTitle", "¿Eliminar campo?");
  ("definitionDetail.requiredDescription", "Exigido al crear el recurso.");
  ("definitionDetail.requiredTitle", "Obligatorio");
  ("definitionDetail.secretDescription", "Cifrado con AES-256-GCM.");
  ("definitionDetail.statusActivated", "Definición activada.");
  ("definitionDetail.statusDeactivated", "Definición desactivada.");
  ("definitionDetail.updated", "Definición actualizada.");
  ("definitions.create", "Crear definición");
  ("definitions.description", "Catálogo de tipos de recurso y sus campos.");
  ("definitions.empty", "Aún no hay definiciones.");
  ("definitions.emptyDescription", "Sin descripción.");
  ("definitions.footerCounts", "Campos: {fieldCount} · Secretos: {secretCount}");
  ("definitions.new", "Nueva definición");
  ("definitions.newDialog.description", "Define un tipo de recurso. Los campos se agregan después.");
  ("definitions.newDialog.title", "Nueva definición");
  ("definitions.title", "Definiciones de recurso");
  ("errors.conflict", "Ya existe un registro con ese valor. Verifica si no está duplicado.");
  ("errors.definitionInUse", "Esta definición todavía tiene recursos vinculados. Elimina o migra esos recursos antes de borrarla.");
  ("errors.forbidden", "No tienes permiso para esta acción.");
  ("errors.generic", "Algo salió mal. Inténtalo de nuevo.");
  ("errors.invalidData", "Datos inválidos. Revisa los campos.");
  ("errors.notFound", "Registro no encontrado.");
  ("errors.precondition", "Los datos cambiaron en otra sesión. Revísalos e inténtalo de nuevo.");
  ("errors.server", "Error del servidor. Inténtalo en unos instantes.");
  ("errors.timeout", "La solicitud tardó demasiado. Verifica la conexión e inténtalo nuevamente.");
  ("nav.apiClients", "Claves de API");
  ("nav.usage", "Uso mensual");
  ("nav.audit", "Auditoría");
  ("nav.sessions", "Sesiones activas");
  ("nav.settings", "Configuración");
  ("nav.integrations", "Webhooks");
  ("nav.health", "Salud");
  ("operationsHealth.component", "Componente");
  ("operationsHealth.deadLetters", "Dead letters");
  ("operationsHealth.deadLettersHint", "entregas que requieren intervención");
  ("operationsHealth.dependencies", "Dependencias");
  ("operationsHealth.dependenciesHint", "servicios externos supervisados");
  ("operationsHealth.description", "Readiness síncrona, colas y evidencia reciente de jobs operativos.");
  ("operationsHealth.freshUntil", "Válido hasta");
  ("operationsHealth.inFlight", "Entregas en tránsito");
  ("operationsHealth.inFlightHint", "pendientes o esperando otro intento");
  ("operationsHealth.kind", "Tipo");
  ("operationsHealth.kind.backup", "Backup");
  ("operationsHealth.kind.migration", "Migración");
  ("operationsHealth.kind.restore", "Restore");
  ("operationsHealth.kind.rewrap", "Rewrap");
  ("operationsHealth.latency", "Latencia");
  ("operationsHealth.noDependencies", "No hay dependencias configuradas.");
  ("operationsHealth.noReports", "No se recibieron reports operativos.");
  ("operationsHealth.occurredAt", "Ejecutado en");
  ("operationsHealth.overall", "Estado general");
  ("operationsHealth.overallHint", "disponibilidad combinada de las dependencias");
  ("operationsHealth.reports", "Reports operativos");
  ("operationsHealth.source", "Origen");
  ("operationsHealth.status.degraded", "degradado");
  ("operationsHealth.status.failed", "falló");
  ("operationsHealth.status.healthy", "saludable");
  ("operationsHealth.status.stale", "desactualizado");
  ("operationsHealth.status.unavailable", "no disponible");
  ("operationsHealth.title", "Salud operativa");
  ("integrations.attempts", "Intentos");
  ("integrations.activeTargets", "Destinos activos");
  ("integrations.created", "Destino creado.");
  ("integrations.deliveries", "Entregas");
  ("integrations.delivered", "Entregadas");
  ("integrations.deadLetters", "Dead letters");
  ("integrations.description", "Webhooks firmados, reintentos y dead letters.");
  ("integrations.disable", "Desactivar");
  ("integrations.done", "Listo");
  ("integrations.emptyDeliveries", "No se encontraron entregas.");
  ("integrations.emptyTargets", "No hay destinos configurados.");
  ("integrations.enable", "Activar");
  ("integrations.endpoint", "Endpoint");
  ("integrations.event", "Evento");
  ("integrations.format", "Formato");
  ("integrations.formatGeneric", "Genérico");
  ("integrations.inFlight", "Pendientes y reintentos");
  ("integrations.name", "Nombre");
  ("integrations.new", "Nuevo webhook");
  ("integrations.newDescription", "Registra un receiver HTTPS. La URL completa y el secret permanecen cifrados.");
  ("integrations.openCircuits", "{count} circuitos abiertos");
  ("integrations.replay", "Reprocesar entrega");
  ("integrations.replayed", "Entrega encolada nuevamente.");
  ("integrations.searchDeliveries", "Buscar entregas…");
  ("integrations.searchTargets", "Buscar destinos…");
  ("integrations.secretDescription", "Cópialo ahora. El secret no se mostrará nuevamente.");
  ("integrations.secretTitle", "Signing secret generado");
  ("integrations.signingSecret", "Signing secret");
  ("integrations.target", "Destino");
  ("integrations.targets", "Destinos");
  ("integrations.title", "Webhooks e integraciones");
  ("integrations.url", "URL del receiver");
  ("usage.title", "Uso de claves de API");
  ("usage.description", "Volumen operativo agregado por clave, operación y día UTC.");
  ("usage.month", "Mes");
  ("usage.prevMonth", "Mes anterior");
  ("usage.nextMonth", "Mes siguiente");
  ("usage.prevYear", "Año anterior");
  ("usage.nextYear", "Año siguiente");
  ("usage.today", "Hoy");
  ("usage.client", "Clave");
  ("usage.allClients", "Todas las claves");
  ("usage.operation", "Operación");
  ("usage.operationIdentify", "Identificación");
  ("usage.operationResolve", "Resolución");
  ("usage.allOperations", "Todas las operaciones");
  ("usage.requests", "Solicitudes");
  ("usage.requestsHint", "en el período y filtros seleccionados");
  ("usage.errors", "Errores");
  ("usage.errorsHint", "respuestas HTTP 4xx y 5xx");
  ("usage.limited", "Limitadas");
  ("usage.limitedHint", "rechazadas por el límite de solicitudes");
  ("usage.daily", "Uso diario");
  ("usage.empty", "No hay uso registrado en este período.");
  ("audit.title", "Auditoría administrativa");
  ("audit.description", "Registro append-only de acciones administrativas y revelaciones de secretos.");
  ("audit.action", "Acción");
  ("audit.target", "Objetivo");
  ("audit.result", "Resultado")
].

Definition esES_3 : list (jsstr * jsstr) := [
  ("audit.allResults", "Todos los resultados");
  ("audit.actorNotice", "Mientras el acceso use el token compartido, el registro identifica la credencial administrativa, no a una persona.");
  ("audit.when", "Cuándo");
  ("audit.actor", "Actor");
  ("audit.request", "Request ID");
  ("audit.empty", "No se encontraron eventos.");
  ("audit.next", "Página siguiente");
  ("audit.previous", "Página anterior");
  ("audit.applyFilters", "Aplicar filtros");
  ("audit.export", "Exportar registro");
  ("audit.download", "Descargar una vez");
  ("audit.exportStatus", "Exportación: {status} · {rows} eventos");
  ("audit.partitionHealth", "Particiones hasta");
  ("audit.overviewTab", "Visión general");
  ("audit.eventsTab", "Eventos");
  ("audit.partitionHealthHint", "particionado preparado hasta esta fecha");
  ("audit.defaultRows", "Eventos heredados");
  ("audit.defaultRowsHint", "eventos aún en la partición predeterminada");
  ("audit.legalHolds", "Legal holds activos");
  ("audit.legalHoldsHint", "retenciones que impiden el descarte");
  ("audit.manageHolds", "Gestionar legal holds");
  ("audit.legalHoldDescription", "Conserva ventanas bajo investigación antes de que la retención elimine particiones.");
  ("audit.holdFrom", "Inicio");
  ("audit.holdTo", "Fin");
  ("audit.holdReason", "Motivo y referencia");
  ("audit.createHold", "Crear legal hold");
  ("audit.releaseHold", "Liberar");
  ("audit.holdReleased", "Liberado");
  ("audit.noHolds", "No hay legal holds registrados.");
  ("nav.definitions", "Recursos");
  ("nav.logout", "Salir");
  ("nav.account", "Cuenta");
  ("nav.management", "Gestión");
  ("nav.operations", "Operación");
  ("nav.security", "Seguridad");
  ("nav.system", "Sistema");
  ("sessions.current", "Actual");
  ("sessions.description", "Revoca accesos individuales sin afectar la sesión actual.");
  ("sessions.empty", "No se encontraron sesiones.");
  ("sessions.expires", "Vence");
  ("sessions.lastUsed", "Último uso");
  ("sessions.principal", "Principal");
  ("sessions.revoke", "Revocar sesión");
  ("sessions.revokeDescription", "¿Revocar la sesión de {name}? El acceso terminará inmediatamente.");
  ("sessions.revoked", "Sesión revocada.");
  ("sessions.revokeTitle", "Revocar sesión");
  ("sessions.roles", "Roles");
  ("sessions.search", "Buscar por persona, subject o issuer…");
  ("sessions.status.active", "activa");
  ("sessions.status.expired", "vencida");
  ("sessions.status.idle_expired", "inactiva vencida");
  ("sessions.status.revoked", "revocada");
  ("sessions.title", "Sesiones administrativas");
  ("settings.description", "Políticas runtime no secretas, versionadas y auditadas.");
  ("settings.field.api_client_default_rpm", "RPM predeterminado de nuevas claves");
  ("settings.field.api_client_default_ttl_days", "Validez predeterminada de nuevas claves (días)");
  ("settings.field.audit_retention_days", "Retención de auditoría (días)");
  ("settings.field.default_locale", "Idioma predeterminado");
  ("settings.field.session_absolute_hours", "Duración máxima de sesión (horas)");
  ("settings.field.session_idle_minutes", "Inactividad máxima (minutos)");
  ("settings.field.usage_retention_months", "Retención de uso (meses)");
  ("settings.field.webhook_delivery_retention_days", "Retención de entregas webhook (días)");
  ("settings.field.outbox_event_retention_days", "Retención del change feed (días)");
  ("settings.hint.api_client_default_rpm", "Sugerencia del formulario; no cambia claves existentes.");
  ("settings.hint.api_client_default_ttl_days", "Sugerencia para nuevas claves; no extiende tokens existentes.");
  ("settings.hint.audit_retention_days", "Política usada por el job de retención de auditoría.");
  ("settings.hint.default_locale", "Preferencia inicial si el navegador aún no eligió un idioma.");
  ("settings.hint.session_absolute_hours", "Se aplica a nuevas sesiones y limita la expiración por inactividad.");
  ("settings.hint.session_idle_minutes", "Se reevalúa durante el uso y respeta la duración absoluta.");
  ("settings.hint.usage_retention_months", "Se aplica por el job UTC de retención de telemetría.");
  ("settings.hint.webhook_delivery_retention_days", "Elimina entregas completadas y dead letters después de la ventana.");
  ("settings.hint.outbox_event_retention_days", "Elimina eventos sin entregas pendientes después de la ventana.");
  ("settings.owner", "Responsable: {owner}");
  ("settings.revision", "Revisión {revision}");
  ("settings.saved", "Configuración guardada.");
  ("settings.saving", "Guardando…");
  ("settings.section.apiClients", "Claves de API");
  ("settings.section.apiClientsDescription", "Valores seguros para nuevas credenciales de servicio.");
  ("settings.section.console", "Consola");
  ("settings.section.consoleDescription", "Preferencias iniciales de la experiencia administrativa.");
  ("settings.section.retention", "Retención");
  ("settings.section.retentionDescription", "Ventanas explícitas para telemetría y auditoría.");
  ("settings.section.security", "Seguridad");
  ("settings.section.securityDescription", "Expiración e inactividad de sesiones humanas.");
  ("settings.title", "Configuración operativa");
  ("nav.overview", "Vista general");
  ("nav.tenants", "Tenants");
  ("overview.activeDefinitions", "Definiciones activas");
  ("overview.activeTenants", "Tenants activos");
  ("overview.authRequired", "Se requiere autenticación administrativa.");
  ("overview.description", "Configuración multi-tenant de recursos por cliente.");
  ("overview.domainHint", "hostnames mapeados");
  ("overview.domains", "Dominios");
  ("overview.loadError", "No se pudo cargar la vista general.");
  ("overview.loading", "Cargando vista general...");
  ("overview.resourceCount", "{count} recursos");
  ("overview.resourceHint", "instancias activas");
  ("overview.resources", "Recursos provisionados");
  ("overview.totalTenants", "{count} en total");
  ("overview.typeHint", "tipos de recurso");
  ("overview.title", "Vista general");
  ("overview.operationalHealth", "Salud operativa");
  ("overview.operationalHealthHint", "Postgres, Valkey y evidencias operativas");
  ("overview.monthRequests", "Solicitudes del mes");
  ("overview.monthRequestsHint", "todas las claves, mes UTC actual");
  ("overview.expiringKeys", "Claves por vencer");
  ("overview.expiringKeysHint", "activas con vencimiento en los próximos 30 días");
  ("overview.deadLetters", "Dead letters");
  ("overview.deadLettersHint", "entregas que requieren intervención");
  ("preferences.darkMode", "Activar modo oscuro");
  ("preferences.language", "Idioma");
  ("preferences.lightMode", "Activar modo claro");
  ("preferences.theme", "Tema");
  ("preferences.theme.dark", "Oscuro");
  ("preferences.theme.light", "Claro");
  ("preferences.theme.system", "Sistema");
  ("status.active", "activo");
  ("status.inactive", "inactivo");
  ("status.revoked", "revocado");
  ("tenantDetail.addDomain", "Agregar dominio");
  ("tenantDetail.addResource", "Agregar recurso");
  ("tenantDetail.addResourceDialog.description", "Elige un tipo, define un alias único y usa valores propios o heredados de otro recurso.");
  ("tenantDetail.addResourceDialog.empty", "No hay definiciones de recurso activas.");
  ("tenantDetail.addResourceDialog.title", "Agregar recurso");
  ("tenantDetail.backToTenants", "Volver a Tenants");
  ("tenantDetail.confirmRemoveDomainDescription", "El hostname {hostname} dejará de resolver a este tenant inmediatamente.");
  ("tenantDetail.confirmRemoveDomainTitle", "¿Eliminar dominio?");
  ("tenantDetail.confirmRemoveResourceDescription", "El recurso {resourceName} se eliminará de este tenant. Las aplicaciones consumidoras pueden perder esta configuración.");
  ("tenantDetail.confirmRemoveResourceTitle", "¿Eliminar recurso?");
  ("tenantDetail.deactivate", "Desactivar");
  ("tenantDetail.duplicate", "Duplicar");
  ("tenantDetail.duplicateDescription", "Crea una copia independiente con los valores efectivos actuales. Los cambios futuros del origen no se heredarán.");
  ("tenantDetail.duplicateHint", "Usa un alias único para la nueva copia independiente.");
  ("tenantDetail.duplicateTitle", "Duplicar recurso");
  ("tenantDetail.dangerZone.description", "La desactivación es reversible. La eliminación siguiente es permanente y borra dominios, recursos y valores secretos.");
  ("tenantDetail.dangerZone.title", "Zona de peligro");
  ("tenantDetail.deleteAction", "Eliminar tenant permanentemente");
  ("tenantDetail.deleteConfirm", "Eliminar permanentemente");
  ("tenantDetail.deleteDescription", "Esta acción no se puede deshacer. El tenant {slug}, sus dominios, recursos y valores secretos se eliminarán en cascada.");
  ("tenantDetail.deleteInputLabelPrefix", "Escribe");
  ("tenantDetail.deleteInputLabelSuffix", "para confirmar");
  ("tenantDetail.deleteInputPlaceholder", "slug del tenant");
  ("tenantDetail.deleteTitle", "¿Eliminar tenant permanentemente?");
  ("tenantDetail.deleted", "Tenant eliminado permanentemente.");
  ("tenantDetail.domainAdded", "Dominio agregado.")
].

Definition esES_4 : list (jsstr * jsstr) := [
  ("tenantDetail.domainRemoved", "Dominio eliminado.");
  ("tenantDetail.domainUpdated", "Dominio actualizado.");
  ("tenantDetail.domainsDescription", "Hostnames que resuelven a este tenant.");
  ("tenantDetail.domainsEmpty", "Ningún dominio. Agrega al menos uno para resolver el tenant.");
  ("tenantDetail.domainsSearch", "Buscar por hostname...");
  ("tenantDetail.editDomainDescription", "Cambia el hostname que resuelve hacia este tenant.");
  ("tenantDetail.editDomainTitle", "Renombrar dominio");
  ("tenantDetail.renameDomain", "Renombrar");
  ("tenantDetail.domainsTab", "Dominios");
  ("tenantDetail.editDescription", "Actualiza los datos del cliente.");
  ("tenantDetail.editFieldDescription", "Actualiza el valor de {field}. Los valores secretos nunca se completan previamente en el formulario.");
  ("tenantDetail.editFieldTitle", "Editar campo");
  ("tenantDetail.editTitle", "Editar tenant");
  ("tenantDetail.enableSecretReveal", "Habilitar revelación de secretos");
  ("tenantDetail.fieldsColumn", "Campos");
  ("tenantDetail.fieldCount.many", "{count} campos");
  ("tenantDetail.fieldCount.one", "{count} campo");
  ("tenantDetail.headerDescription", "Identificador {slug}. Gestiona la configuración, los recursos y los dominios de este tenant.");
  ("tenantDetail.hideSecrets", "Ocultar secretos");
  ("tenantDetail.loadError", "No se pudo cargar el tenant.");
  ("tenantDetail.newDomainDescription", "Hostname exacto que resuelve a este tenant.");
  ("tenantDetail.newDomainTitle", "Agregar dominio");
  ("tenantDetail.noResource", "Ningún recurso");
  ("tenantDetail.noResourceDescription", "Este tenant todavía no tiene recursos provisionados.");
  ("tenantDetail.notFound", "Tenant no encontrado.");
  ("tenantDetail.overviewTab", "Visión general");
  ("tenantDetail.reactivate", "Reactivar");
  ("tenantDetail.attention.description", "Pendientes que afectan el consumo o merecen revisión operativa.");
  ("tenantDetail.attention.emptyDescription", "El dominio, el estado y los recursos esenciales están configurados.");
  ("tenantDetail.attention.emptyTitle", "No se encontraron pendientes");
  ("tenantDetail.attention.inactive_resources.description", "Los recursos inactivos no son devueltos por la Consumer API.");
  ("tenantDetail.attention.inactive_resources.title", "{count} recurso(s) inactivo(s)");
  ("tenantDetail.attention.inactive_tenant.description", "Un tenant inactivo no puede ser resuelto por las aplicaciones consumidoras.");
  ("tenantDetail.attention.inactive_tenant.title", "Tenant inactivo");
  ("tenantDetail.attention.incomplete_resources.description", "Hay recursos con campos obligatorios sin valor.");
  ("tenantDetail.attention.incomplete_resources.title", "{count} configuración(es) incompleta(s)");
  ("tenantDetail.attention.missing_active_resource.description", "Agrega o reactiva un recurso para disponibilizar configuración al consumidor.");
  ("tenantDetail.attention.missing_active_resource.title", "Ningún recurso activo");
  ("tenantDetail.attention.missing_domain.description", "Sin hostname, la aplicación no puede identificar este tenant por dominio.");
  ("tenantDetail.attention.missing_domain.title", "Ningún dominio registrado");
  ("tenantDetail.attention.title", "Elementos que requieren atención");
  ("tenantDetail.readiness.attention", "Atención");
  ("tenantDetail.readiness.completeHint", "todos los campos obligatorios están completos");
  ("tenantDetail.readiness.domains", "Dominios");
  ("tenantDetail.readiness.incomplete", "Incompleto");
  ("tenantDetail.readiness.incompleteHint", "revisa los campos obligatorios faltantes");
  ("tenantDetail.readiness.incompleteResources", "Configuraciones incompletas");
  ("tenantDetail.readiness.missingDomain", "agrega un dominio");
  ("tenantDetail.readiness.missingResource", "agrega un recurso activo");
  ("tenantDetail.readiness.ready", "Listo");
  ("tenantDetail.readiness.requirementsHint", "{count} de {total} requisitos esenciales cumplidos");
  ("tenantDetail.readiness.resources", "Recursos activos/total");
  ("tenantDetail.readiness.resourcesHint", "instancias disponibles para configuración");
  ("tenantDetail.readiness.title", "Preparación para consumo");
  ("tenantDetail.resourceAdded", "Recurso agregado.");
  ("tenantDetail.editResourceIdentityTitle", "Editar recurso");
  ("tenantDetail.editResourceIdentityDescription", "Actualiza el nombre visible y el alias único usado por la Consumer API.");
  ("tenantDetail.resourceAlias", "Alias");
  ("tenantDetail.resourceAliasHint", "Identificador único usado por la Consumer API, como postgres.agility.");
  ("tenantDetail.resourceNameHint", "Nombre legible para identificar esta instancia en la consola.");
  ("tenantDetail.resourceUpdated", "Nombre y alias actualizados.");
  ("tenantDetail.resourceDuplicated", "Recurso duplicado como copia independiente.");
  ("tenantDetail.resourceFieldUpdated", "Campo actualizado.");
  ("tenantDetail.resourceFieldInherited", "El campo volvió a heredar el valor del origen.");
  ("tenantDetail.resourceDetailsDescription", "Tipo {type} · alias {alias}. Consulta los campos y valores de este recurso.");
  ("tenantDetail.resourceLinkedDescription", "Vinculado a {source}. Los valores sin override siguen al origen.");
  ("tenantDetail.resourceOrigin", "Origen de los valores");
  ("tenantDetail.resourceRemoved", "Recurso eliminado.");
  ("tenantDetail.resourceStatusActivated", "Recurso reactivado.");
  ("tenantDetail.resourceStatusDeactivated", "Recurso desactivado.");
  ("tenantDetail.resourceType", "Tipo de recurso");
  ("tenantDetail.independent", "Independiente");
  ("tenantDetail.independentHint", "Los valores pertenecen solo a este recurso.");
  ("tenantDetail.inheritPlaceholder", "Deja vacío para heredar");
  ("tenantDetail.inherited", "heredado");
  ("tenantDetail.linked", "Vinculado");
  ("tenantDetail.linkedHint", "Los campos vacíos heredan el origen; los valores informados son overrides locales.");
  ("tenantDetail.linkTo", "Vincular a {alias}");
  ("tenantDetail.resourcesTab", "Recursos");
  ("tenantDetail.resourcesSearch", "Buscar por nombre, tipo o estado...");
  ("tenantDetail.secretsDisabled", "Secretos ocultos.");
  ("tenantDetail.secretsEnabled", "Revelación por campo habilitada.");
  ("tenantDetail.secretsColumn", "Secretos");
  ("tenantDetail.useSource", "Usar valor del origen");
  ("tenantDetail.secretCount.many", "{count} secretos");
  ("tenantDetail.secretCount.one", "{count} secreto");
  ("tenantDetail.saveResource", "Guardar recurso");
  ("tenantDetail.selectResource", "Selecciona...");
  ("tenantDetail.updated", "Tenant actualizado.");
  ("tenants.create", "Crear tenant");
  ("tenants.description", "Clientes y sus dominios.");
  ("tenants.empty", "No se encontraron tenants.");
  ("tenants.new", "Nuevo tenant");
  ("tenants.newDialog.description", "Registra un cliente. Los dominios y recursos se agregan después.");
  ("tenants.newDialog.title", "Nuevo tenant");
  ("tenants.search", "Buscar por nombre o slug...");
  ("tenants.title", "Tenants")
].

Definition esES : list (jsstr * jsstr) := esES_1 ++ esES_2 ++ esES_3 ++ esES_4.
