(* ===== verification/I18n.v ===== *)
(** * Translation

    [src/web/src/lib/i18n.tsx]: the locales, [translate], the mapping of statuses and of
    API errors to messages, the locale the browser stored and the provider's state. *)
From Stdlib Require Import ZArith Lia List.
From stdpp Require Import base list sets gmap.
From S2P Require Import Prelude Regex Host Api I18nPt I18nEn I18nEs.

(** ** Locales *)

Definition LOCALE_STORAGE_KEY : jsstr := "tenancitLocale".

Inductive Locale := pt_BR | en_US | es_ES.

Record locale_option := { lo_flag : jsstr; lo_label : jsstr; lo_value : Locale }.

Definition LOCALE_OPTIONS : list locale_option := [
  {| lo_flag := "🇧🇷"; lo_label := "Português"; lo_value := pt_BR |};
  {| lo_flag := "🇺🇸"; lo_label := "English"; lo_value := en_US |};
  {| lo_flag := "🇪🇸"; lo_label := "Español"; lo_value := es_ES |}
].

(** The value as the string it is. *)
Definition locale_tag (l : Locale) : jsstr :=
  match l with pt_BR => "pt-BR" | en_US => "en-US" | es_ES => "es-ES" end.

#[export] Instance Locale_eq_dec : EqDecision Locale.
Proof. solve_decision. Defined.

Definition DEFAULT_LOCALE : Locale := pt_BR.

Definition MESSAGES (l : Locale) : list (jsstr * jsstr) :=
  match l with en_US => enUS | es_ES => esES | pt_BR => ptBR end.

(** ** Looking up and interpolating *)

Definition hasTranslation (key : jsstr) : bool := bool_decide (key ∈ ptBR.*1).

(** The parameters: a value for some names, as [String] shows it. *)
Abbreviation params := (list (jsstr * jsstr)).

Definition PLACEHOLDER : re :=
  RSeqs [RStr "{"; RGroup 1 (RPlus (RChar is_word)); RStr "}"].

(** [undefined] prints that way: what [template.replace] of a missing message would throw on. *)
Definition template_of (l : Locale) (key : jsstr) : option jsstr :=
  match obj_get key (MESSAGES l) with
  | Some m => Some m
  | None => obj_get key ptBR
  end.

(** [String(params[name] ?? "")]. *)
Definition param_value (ps : params) (name : jsstr) : jsstr := default [] (obj_get name ps).

Definition translate (l : Locale) (key : jsstr) (ps : params) : option jsstr :=
  (λ template, replace_all PLACEHOLDER (λ _ y, param_value ps (default [] (cap 1 y))) template)
    <$> template_of l key.

(** ** Statuses and errors *)

(** [t] of the context, for the locale of the provider; a key outside the type has none. *)
Definition t (l : Locale) (key : jsstr) : jsstr := default [] (translate l key []).

Definition formatStatus (status : jsstr) (t : jsstr → jsstr) : jsstr :=
  let key := "status." ++ status in
  if hasTranslation key then t key else status.

Definition apiErrorMessage (error : api_exn) (t : jsstr → jsstr) : jsstr :=
  match error with
  | ApiTimeoutError _ => t "errors.timeout"
  | ApiError status serverMessage =>
    if str_eqb serverMessage "definition_in_use" then t "errors.definitionInUse"
    else if status =? 400 then t "errors.invalidData"
    else if status =? 401 then t "auth.invalidToken"
    else if status =? 403 then t "errors.forbidden"
    else if status =? 404 then t "errors.notFound"
    else if status =? 409 then t "errors.conflict"
    else if (status =? 412) || (status =? 428) then t "errors.precondition"
    else if 500 <=? status then t "errors.server"
    else t "errors.generic"
  | _ => t "errors.generic"
  end.

(** ** The locale *)

Section locale.
Context `{CaseMap}.

(** [value.replace("_", "-")]: the first one only. *)
Fixpoint replace_char (a b : Z) (s : jsstr) : jsstr :=
  match s with
  | [] => []
  | c :: s' => if c =? a then b :: s' else c :: replace_char a b s'
  end.

Definition normalizeLocale (value : option jsstr) : Locale :=
  match (λ v, toLowerCase (replace_char 95 45 v)) <$> value with
  | Some n =>
    if str_eqb n "en" || str_eqb n "en-us" then en_US
    else if str_eqb n "es" || str_eqb n "es-es" then es_ES
    else if str_eqb n "pt" || str_eqb n "pt-br" then pt_BR
    else DEFAULT_LOCALE
  | None => DEFAULT_LOCALE
  end.

(** [readStoredLocale]: [stored] is [localStorage.getItem(LOCALE_STORAGE_KEY)]. *)
Definition readStoredLocale (has_window : bool) (stored : option jsstr) : Locale :=
  if negb has_window then DEFAULT_LOCALE else normalizeLocale stored.

(** The provider: its state, and what its effect writes after each change of it. *)
Record provider := { pv_locale : Locale; pv_lang : jsstr; pv_stored : option jsstr }.

Definition run_effect (p : provider) : provider :=
  {| pv_locale := pv_locale p; pv_lang := locale_tag (pv_locale p);
     pv_stored := Some (locale_tag (pv_locale p)) |}.

Definition mount_provider (lang : jsstr) (stored : option jsstr) : provider :=
  run_effect {| pv_locale := readStoredLocale true stored; pv_lang := lang; pv_stored := stored |}.

Definition setLocale (next : Locale) (p : provider) : provider :=
  if decide (next = pv_locale p) then p
  else run_effect {| pv_locale := next; pv_lang := pv_lang p; pv_stored := pv_stored p |}.
End locale.

(** ** A reference for interpolation *)

(** A placeholder at the head of a text: its name and what follows it. *)
Definition placeholder (s : jsstr) : option (jsstr * jsstr) :=
  match s with
  | c :: s' =>
    if c =? 123 then
      let '(w, r) := Prelude.span is_word s' in
      match r with
      | d :: r' => if truthy w && (d =? 125) then Some (w, r') else None
      | [] => None
      end
    else None
  | [] => None
  end.

(** Replace every placeholder, reading left to right; the fuel is the length. *)
Fixpoint interpolate (n : nat) (f : jsstr → jsstr) (s : jsstr) : jsstr :=
  match n with
  | O => s
  | S n' =>
    match placeholder s with
    | Some (w, r) => f w ++ interpolate n' f r
    | None => match s with [] => [] | c :: s' => c :: interpolate n' f s' end
    end
  end.

(** The names of the placeholders of a text. *)
Fixpoint names (n : nat) (s : jsstr) : list jsstr :=
  match n with
  | O => []
  | S n' =>
    match placeholder s with
    | Some (w, r) => w :: names n' r
    | None => match s with [] => [] | _ :: s' => names n' s' end
    end
  end.

Definition placeholders (s : jsstr) : list jsstr := names (length s) s.

Example translate_ex1 : translate es_ES "overview.totalTenants" [("count", "3")] = Some "3 en total".
Proof. vm_compute. reflexivity. Qed.
Example translate_ex2 : translate pt_BR "overview.resourceCount" [("count", "2")] = Some "2 recursos".
Proof. vm_compute. reflexivity. Qed.

(** ** Lemmas *)

Lemma placeholder_spec s w r : placeholder s = Some (w, r) → s = "{" ++ w ++ "}" ++ r.
Proof.
  unfold placeholder. destruct s as [|c s]; [done|]. case_cond; [|done].
  pose proof (span_app is_word s) as Hs. destruct (Prelude.span is_word s) as [a b].
  destruct b as [|d b]; [done|]. case_cond; [|done]. bool_to_prop. intros [= <- <-].
  by subst.
Qed.

Lemma placeholder_length s w r : placeholder s = Some (w, r) → (S (length r) < length s)%nat.
Proof. intros ->%placeholder_spec. rewrite !length_app. simpl. lia. Qed.

Lemma take_matched (a b : jsstr) : take (length (a ++ b) - length b) (a ++ b) = a.
Proof. rewrite length_app, Nat.add_sub. apply take_app_length. Qed.

(** The expression matches exactly the placeholders, and captures the name. *)
Lemma PLACEHOLDER_match p s :
  rmatch PLACEHOLDER (Mst p s []) Some
  = match placeholder s with Some (w, r) => Some (Mst (Some 125) r [(1%nat, w)]) | None => None end.
Proof.
  unfold PLACEHOLDER, RPlus. cbn [RSeqs RStr map].
  rewrite rmatch_seq, rmatch_char. unfold placeholder. cbn [m_rest].
  destruct s as [|c s]; [done|]. rewrite (Z.eqb_sym 123 c). destruct (c =? 123); [|done].
  rewrite rmatch_seq, rmatch_group, rmatch_seq, rmatch_char. unfold advance. cbn [m_rest m_caps].
  destruct s as [|d s]; [done|]. cbn [Prelude.span]. destruct (is_word d) eqn:Hd; [|done].
  rewrite rmatch_star_class; cbn [m_rest m_caps].
  - pose proof (span_app is_word s) as Hs. destruct (Prelude.span is_word s) as [a b].
    cbn [fst snd] in *. unfold capture, advance_by, advance. cbn [m_rest m_caps m_prev].
    rewrite rmatch_char. cbn [m_rest].
    destruct b as [|e b]; [done|]. rewrite (Z.eqb_sym 125 e). cbn [truthy andb].
    destruct (e =? 125) eqn:He; [|done]. apply Z.eqb_eq in He. subst e s.
    change (d :: a ++ 125 :: b) with ((d :: a) ++ 125 :: b). by rewrite take_matched.
  - intros y e r Hy He. rewrite rmatch_char. unfold capture. cbn [m_rest]. rewrite Hy.
    rewrite (proj2 (Z.eqb_neq 125 e)); [done|]. by intros <-.
Qed.

Lemma replace_loop_skip n r f p c s :
  rmatch r (Mst p (c :: s) []) Some = None →
  replace_loop (S n) r f p (c :: s) = c :: replace_loop (S n) r f (Some c) s.
Proof.
  intros Hr. cbn [replace_loop exec_from]. rewrite Hr.
  by destruct (exec_from r (Some c) s) as [[[pre at_] y]|].
Qed.

Lemma replace_loop_interpolate f n m p s :
  (length s < n)%nat → (length s <= m)%nat →
  replace_loop n PLACEHOLDER (λ _ y, f (default [] (cap 1 y))) p s = interpolate m f s.
Proof.
  revert n p s. induction m as [|m IH]; intros n p s Hn Hm.
  { destruct s; [|simpl in Hm; lia]. destruct n; [lia|]. done. }
  destruct n as [|n]; [lia|]. cbn [interpolate].
  pose proof (PLACEHOLDER_match p s) as Hr. destruct (placeholder s) as [[w r]|] eqn:Hp.
  - pose proof (placeholder_length _ _ _ Hp) as Hl. cbn [replace_loop].
    destruct s as [|c s]; [done|]. cbn [exec_from]. rewrite Hr. cbn [m_rest m_prev app].
    rewrite (proj2 (Nat.ltb_lt _ _)) by lia. f_equal. apply IH; lia.
  - destruct s as [|c s]; [done|]. rewrite replace_loop_skip by done.
    simpl in Hn, Hm. f_equal. apply IH; lia.
Qed.

(** What the three tables agree on, computed. *)
Definition same_names (a b : jsstr) : bool :=
  bool_decide (Forall (λ x, x ∈ placeholders b) (placeholders a)) &&
  bool_decide (Forall (λ x, x ∈ placeholders a) (placeholders b)).

Definition entry_ok (l : Locale) (kv : jsstr * jsstr) : bool :=
  match obj_get kv.1 (MESSAGES l) with
  | Some m => truthy m && same_names m kv.2
  | None => false
  end.

Lemma tables_checked :
  (forallb (λ l, bool_decide ((MESSAGES l).*1 = ptBR.*1) && forallb (entry_ok l) ptBR)
     [pt_BR; en_US; es_ES] && bool_decide (NoDup ptBR.*1)) = true.
Proof. vm_compute. reflexivity. Qed.

Lemma tables_ok l kv : kv ∈ ptBR → entry_ok l kv = true.
Proof.
  intros Hkv. pose proof tables_checked as [Hc _]%andb_true_iff. rewrite forallb_forall in Hc.
  specialize (Hc l ltac:(destruct l; cbn; tauto)). apply andb_true_iff in Hc as [_ Hc].
  rewrite forallb_forall in Hc. apply Hc. by apply list_elem_of_In.
Qed.

Lemma tables_keys l : (MESSAGES l).*1 = ptBR.*1.
Proof.
  pose proof tables_checked as [Hc _]%andb_true_iff. rewrite forallb_forall in Hc.
  specialize (Hc l ltac:(destruct l; cbn; tauto)). apply andb_true_iff in Hc as [Hc _].
  by apply bool_decide_eq_true in Hc.
Qed.

Lemma obj_get_elem k o : is_Some (obj_get k o) ↔ k ∈ o.*1.
Proof.
  induction o as [|[a b] o IH]; cbn [obj_get].
  - split; [intros []; done|]. by intros ?%elem_of_nil.
  - cbn. rewrite elem_of_cons, <- IH. destruct (str_eqb a k) eqn:E.
    + apply str_eqb_eq in E as ->. split; eauto.
    + apply str_eqb_neq in E. naive_solver.
Qed.

Lemma obj_get_in k v o : obj_get k o = Some v → (k, v) ∈ o.
Proof.
  induction o as [|[a b] o IH]; cbn [obj_get]; [done|]. destruct (str_eqb a k) eqn:E.
  - apply str_eqb_eq in E as ->. intros [= ->]. by left.
  - right. auto.
Qed.

Lemma hasTranslation_get l k : hasTranslation k = true ↔ is_Some (obj_get k (MESSAGES l)).
Proof. unfold hasTranslation. by rewrite bool_decide_eq_true, obj_get_elem, tables_keys. Qed.

Lemma same_names_elem a b x : same_names a b = true → x ∈ placeholders a ↔ x ∈ placeholders b.
Proof.
  unfold same_names. rewrite andb_true_iff, !bool_decide_eq_true, !Forall_forall. naive_solver.
Qed.

(** ** Properties *)

(** The tables are complete and interchangeable: a key has a message in one locale exactly
    when it has one in every locale and [hasTranslation] accepts it, no message is empty, and the
    messages of one key have the same placeholders in all three languages, so that one set of
    parameters fills them all. *)
Theorem locales_agree l l' key m :
  obj_get key (MESSAGES l) = Some m →
  hasTranslation key = true ∧ m ≠ [] ∧
  ∃ m', obj_get key (MESSAGES l') = Some m' ∧ ∀ x, x ∈ placeholders m ↔ x ∈ placeholders m'.
Proof.
  intros Hm. assert (Hk : hasTranslation key = true) by (apply (hasTranslation_get l); eauto).
  split; [done|]. destruct (proj1 (hasTranslation_get pt_BR key) Hk) as [p Hp].
  apply obj_get_in in Hp. pose proof (tables_ok l _ Hp) as H1. pose proof (tables_ok l' _ Hp) as H2.
  unfold entry_ok in H1, H2. cbn [fst snd] in H1, H2. rewrite Hm in H1.
  destruct (obj_get key (MESSAGES l')) as [m'|]; [|done].
  apply andb_true_iff in H1 as [H1 H3], H2 as [H2 H4]. split; [by apply truthy_spec|].
  exists m'. split; [done|]. intros x. by rewrite (same_names_elem _ _ x H3), (same_names_elem _ _ x H4).
Qed.

(** [translate] is total on the keys of the tables, in the language asked for, and its regular
    expression does what interpolation should: every [{name}] of the message is replaced by its
    parameter (the empty string when there is none) and everything else is kept; a key outside
    the tables has no message. *)
Theorem translate_spec l key ps :
  translate l key ps =
  match obj_get key (MESSAGES l) with
  | Some m => Some (interpolate (length m) (param_value ps) m)
  | None => None
  end.
Proof.
  unfold translate, template_of. destruct (obj_get key (MESSAGES l)) as [m|] eqn:Hm.
  - apply (f_equal Some). unfold replace_all. apply replace_loop_interpolate; lia.
  - assert (Hn : obj_get key ptBR = None); [|by rewrite Hn].
    apply eq_None_not_Some. intros Hs%(hasTranslation_get pt_BR)%(hasTranslation_get l).
    rewrite Hm in Hs. by destruct Hs.
Qed.

(** An error is always shown as one of the program's own messages, never as backend text: the
    result is the message of a translated key that depends on the status alone, except that the
    code [definition_in_use] selects its own message. *)
Theorem apiErrorMessage_localized e l :
  ∃ key, hasTranslation key = true ∧ apiErrorMessage e (t l) = t l key ∧ t l key ≠ [] ∧
  ∀ status m m', e = ApiError status m → m ≠ "definition_in_use" → m' ≠ "definition_in_use" →
    apiErrorMessage (ApiError status m') (t l) = t l key.
Proof.
  set (keys := ["errors.timeout"; "errors.definitionInUse"; "errors.invalidData"; "auth.invalidToken";
    "errors.forbidden"; "errors.notFound"; "errors.conflict"; "errors.precondition"; "errors.server";
    "errors.generic"] : list jsstr).
  assert (Hk : Forall (λ k, hasTranslation k = true ∧ ∀ l, t l k ≠ []) keys).
  { apply Forall_forall. intros k Hk. split.
    - revert k Hk. apply Forall_forall. unfold keys. repeat constructor.
    - intros l'. destruct l'; revert k Hk; apply Forall_forall; unfold keys;
        repeat (apply Forall_cons_2; [vm_compute; discriminate|]); apply Forall_nil_2. }
  assert (He : ∃ key, key ∈ keys ∧ apiErrorMessage e (t l) = t l key).
  { destruct e; cbn [apiErrorMessage]; repeat case_cond; eexists;
      (split; [|reflexivity]); unfold keys; rewrite !elem_of_cons; tauto. }
  destruct He as (key & Hin & He). rewrite Forall_forall in Hk. destruct (Hk key Hin) as [H1 H2].
  exists key. split_and!; [done|done|apply H2|].
  intros status m m' -> Hm Hm'. rewrite <- He. cbn [apiErrorMessage].
  by rewrite !(proj2 (str_eqb_neq _ _)).
Qed.

Lemma normalizeLocale_tag `{CaseMap} l : normalizeLocale (Some (locale_tag l)) = l.
Proof. unfold normalizeLocale. destruct l; cbn [fmap option_fmap option_map locale_tag];
  rewrite toLowerCase_ascii by reflexivity; reflexivity. Qed.

(** A provider whose effect has run. *)
Definition settled_provider (p : provider) : Prop :=
  pv_lang p = locale_tag (pv_locale p) ∧ pv_stored p = Some (locale_tag (pv_locale p)).

Lemma setLocale_settled next p :
  settled_provider p → settled_provider (setLocale next p) ∧ pv_locale (setLocale next p) = next.
Proof. unfold setLocale. case_decide; [by subst|done]. Qed.

(** The chosen language survives a reload: after the provider mounts, from whatever the
    browser stored, and any changes, the document's language and the stored value are the current
    locale, which is the last one chosen, and a later mount reads the same locale back. *)
Theorem locale_persists `{CaseMap} lang lang' stored changes :
  let p := fold_left (λ p next, setLocale next p) changes (mount_provider lang stored) in
  pv_lang p = locale_tag (pv_locale p) ∧
  pv_locale p = List.last changes (readStoredLocale true stored) ∧
  pv_locale (mount_provider lang' (pv_stored p)) = pv_locale p.
Proof.
  cbn zeta. set (p0 := mount_provider lang stored).
  assert (Hc : ∀ p, settled_provider p →
    settled_provider (fold_left (λ p next, setLocale next p) changes p) ∧
    pv_locale (fold_left (λ p next, setLocale next p) changes p) = List.last changes (pv_locale p)).
  { induction changes as [|c cs IH]; intros p Hp; [done|]. cbn [fold_left].
    destruct (setLocale_settled c p Hp) as [H1 H2]. destruct (IH _ H1) as [H3 H4].
    split; [done|]. rewrite H4, H2. destruct cs as [|d cs]; [done|]. cbn [List.last].
    clear. revert d. induction cs as [|e cs IH]; intros d; [done|]. apply IH. }
  destruct (Hc p0) as [[Hl Hs] Hlast]; [done|]. split_and!; [done|done|].
  rewrite Hs. unfold mount_provider. cbn [run_effect pv_locale]. unfold readStoredLocale.
  apply normalizeLocale_tag.
Qed.

(** *** Witnesses *)

Lemma locales_agree_witness :
  hasTranslation "overview.totalTenants" = true ∧
  ∃ m', obj_get "overview.totalTenants" (MESSAGES es_ES) = Some m'.
Proof.
  destruct (obj_get "overview.totalTenants" (MESSAGES en_US)) as [m|] eqn:E; [|vm_compute in E; discriminate E].
  destruct (locales_agree en_US es_ES "overview.totalTenants" m E) as (H1 & _ & m' & Hm' & _).
  split; [exact H1|]. exists m'. exact Hm'.
Defined.
