(* ===== verification/Admin.v ===== *)
(** * Permissions and navigation

    [src/web/src/lib/admin-permissions.ts], [admin-capabilities-context.ts],
    [admin-capabilities.tsx], [src/web/src/hooks/use-admin-capabilities.ts] and
    [admin-navigation.ts]: what an operator may do, and the pages the shell shows. *)
From Stdlib Require Import ZArith Lia List.
From stdpp Require Import base list sets gmap.
From S2P Require Import Prelude I18nPt Api I18n.

(** ** Permissions *)

Inductive AdminPermission :=
  | admin_read | audit_read | audit_export | audit_manage
  | api_client_manage | integration_manage | resource_write
  | secret_reveal | session_manage | settings_manage
  | tenant_hard_delete | tenant_write.

#[export] Instance AdminPermission_eq_dec : EqDecision AdminPermission.
Proof. solve_decision. Defined.

Definition permission_name (p : AdminPermission) : jsstr :=
  match p with
  | admin_read => "admin.read" | audit_read => "audit.read" | audit_export => "audit.export"
  | audit_manage => "audit.manage" | api_client_manage => "api_client.manage"
  | integration_manage => "integration.manage" | resource_write => "resource.write"
  | secret_reveal => "secret.reveal" | session_manage => "session.manage"
  | settings_manage => "settings.manage" | tenant_hard_delete => "tenant.hard_delete"
  | tenant_write => "tenant.write"
  end.

Definition ALL_ADMIN_PERMISSIONS : list AdminPermission :=
  [admin_read; audit_read; audit_export; audit_manage;
   api_client_manage; integration_manage; resource_write;
   secret_reveal; session_manage; settings_manage;
   tenant_hard_delete; tenant_write].

(** ** Capabilities *)

(** The context's value: a set of names; [can] asks it. *)
Abbreviation capabilities := (gset jsstr).

Definition can (c : capabilities) (p : AdminPermission) : bool := bool_decide (permission_name p ∈ c).

Definition fullCapabilities : capabilities := list_to_set (permission_name <$> ALL_ADMIN_PERMISSIONS).

(** [AdminCapabilitiesProvider]: the set of the strings it is given. *)
Definition AdminCapabilitiesProvider (permissions : list jsstr) : capabilities := list_to_set permissions.

(** [useAdminCapabilities]: the nearest provider's value, the full set without one. *)
Definition useAdminCapabilities (provided : option capabilities) : capabilities :=
  default fullCapabilities provided.

(** ** Navigation *)

Record NavItem := { nav_exact : bool; nav_label : jsstr; nav_permission : AdminPermission; nav_to : jsstr }.
Record NavGroup := { group_label : jsstr; group_items : list NavItem }.

Definition nav_item (label : jsstr) (permission : AdminPermission) (to : jsstr) : NavItem :=
  {| nav_exact := false; nav_label := label; nav_permission := permission; nav_to := to |}.

Definition NAV_GROUPS : list NavGroup := [
  {| group_label := "nav.management"; group_items := [
    {| nav_exact := true; nav_label := "nav.overview"; nav_permission := admin_read; nav_to := "/" |};
    nav_item "nav.tenants" admin_read "/tenants";
    nav_item "nav.definitions" admin_read "/resource-definitions";
    nav_item "nav.apiClients" admin_read "/api-clients";
    nav_item "nav.usage" admin_read "/usage"] |};
  {| group_label := "nav.operations"; group_items := [
    nav_item "nav.health" admin_read "/operations/health";
    nav_item "nav.integrations" integration_manage "/integrations/webhooks";
    nav_item "nav.audit" audit_read "/audit-events"] |};
  {| group_label := "nav.system"; group_items := [
    nav_item "nav.sessions" session_manage "/security/sessions";
    nav_item "nav.settings" admin_read "/operations/settings"] |}
].

Definition visibleNavGroups (permissions : capabilities) : list NavGroup :=
  List.filter (λ g, negb (length (group_items g) =? 0)%nat)
    ((λ g, {| group_label := group_label g;
              group_items := List.filter (λ i, can permissions (nav_permission i)) (group_items g) |})
       <$> NAV_GROUPS).

(** ** Lemmas *)

Lemma permission_name_inj p q : permission_name p = permission_name q → p = q.
Proof. by destruct p, q. Qed.

Definition nav_items (gs : list NavGroup) : list NavItem := concat (map group_items gs).

(** Dropping empty groups drops no item. *)
Lemma nav_items_nonempty gs :
  nav_items (List.filter (λ g, negb (length (group_items g) =? 0)%nat) gs) = nav_items gs.
Proof.
  induction gs as [|[l [|i r]] gs IH]; cbn; [done|done|]. unfold nav_items in *. cbn in IH |- *.
  by rewrite IH.
Qed.

Lemma nav_items_filter f gs :
  nav_items ((λ g, {| group_label := group_label g; group_items := List.filter f (group_items g) |}) <$> gs)
  = List.filter f (nav_items gs).
Proof.
  unfold nav_items. induction gs as [|g gs IH]; cbn; [done|]. by rewrite List.filter_app, <- IH.
Qed.

(** ** Properties *)

(** A provider grants exactly the permissions it names, whatever else it is given, and
    without a provider everything is granted. *)
Theorem capabilities_exact permissions p :
  (can (useAdminCapabilities (Some (AdminCapabilitiesProvider permissions))) p = true
    ↔ permission_name p ∈ permissions) ∧
  can (useAdminCapabilities None) p = true.
Proof.
  unfold can, AdminCapabilitiesProvider. cbn [useAdminCapabilities default]. split.
  - rewrite bool_decide_eq_true. apply elem_of_list_to_set.
  - by destruct p.
Qed.

(** The shell shows, in the order of the menu, exactly the entries whose permission the
    operator holds, in groups none of which is empty; every label it can show has a
    translation, and no two entries lead to the same page. *)
Theorem visibleNavGroups_spec permissions :
  nav_items (visibleNavGroups permissions)
    = List.filter (λ i, can permissions (nav_permission i)) (nav_items NAV_GROUPS) ∧
  Forall (λ g, group_items g ≠ [] ∧ hasTranslation (group_label g) = true ∧
               Forall (λ i, hasTranslation (nav_label i) = true) (group_items g))
    (visibleNavGroups permissions) ∧
  NoDup (nav_to <$> nav_items (visibleNavGroups permissions)).
Proof.
  assert (Hi : nav_items (visibleNavGroups permissions)
    = List.filter (λ i, can permissions (nav_permission i)) (nav_items NAV_GROUPS)).
  { unfold visibleNavGroups. by rewrite nav_items_nonempty, nav_items_filter. }
  split; [done|]. split.
  - assert (Hall : Forall (λ g, hasTranslation (group_label g) = true ∧
        Forall (λ i, hasTranslation (nav_label i) = true) (group_items g)) NAV_GROUPS).
    { repeat first [apply Forall_nil_2|apply Forall_cons_2|split]; vm_compute; reflexivity. }
    apply Forall_forall. intros g Hg. unfold visibleNavGroups in Hg.
    apply list_elem_of_In, filter_In in Hg as [Hg Hne]. apply list_elem_of_In in Hg.
    apply list_elem_of_fmap in Hg as (g0 & -> & Hg0). rewrite Forall_forall in Hall.
    destruct (Hall g0 Hg0) as [Hl Hls]. split_and!; [by intros E; rewrite E in Hne|done|].
    apply Forall_forall. intros i Hi'. apply list_elem_of_In, filter_In in Hi' as [Hi' _].
    rewrite Forall_forall in Hls. by apply Hls, list_elem_of_In.
  - rewrite Hi. assert (Hn : NoDup (nav_to <$> nav_items NAV_GROUPS)) by (apply (bool_decide_unpack _); by vm_compute).
    revert Hn. generalize (nav_items NAV_GROUPS). intros l. induction l as [|i l IH]; cbn; [done|].
    intros [Hin Hn]%NoDup_cons. case_match; cbn; [|by apply IH]. apply NoDup_cons. split; [|by apply IH].
    intros (j & Hj & Hj')%list_elem_of_fmap. apply Hin. apply list_elem_of_fmap. exists j.
    split; [done|]. apply list_elem_of_In, filter_In in Hj' as [? _]. by apply list_elem_of_In.
Qed.
