(* ===== verification/Reveal.v ===== *)
(** * Revealing a tenant's clear secrets

    [src/web/src/lib/use-transient-resource-reveal.ts]: the hook that fetches a tenant's
    resources in clear and forgets them.  The hook's state and refs are a record; its callbacks,
    effects and the continuation of [show] after its [await] are functions on a world that also
    holds the requests and the stored token; [step] interleaves them in any order. *)
From Stdlib Require Import ZArith Lia List.
From stdpp Require Import base list sets gmap.
From S2P Require Import Prelude Types Api.

(** ** State *)

Record hook := {
  resources : option (list TenantResource);
  isLoading : bool;
  error : option api_exn;
  controllerRef : option nat;     (* the request whose controller it is *)
  epochRef : Z;
  mountedRef : bool;
  tenantRef : jsstr;
}.

(** A call of [show]: what its closure captured, its controller's state and its outcome. *)
Record reveal_request := {
  rr_tenant : jsstr;
  rr_epoch : Z;                   (* [requestEpoch] *)
  rr_credential : jsstr;          (* [credential] *)
  rr_aborted : bool;
  rr_answer : option (result api_exn (list TenantResource));
  rr_returned : option bool;      (* what the promise of [show] resolved to *)
}.

Record world := {
  w_hook : hook;
  w_reqs : gmap nat reveal_request;
  w_next : nat;
  w_token : jsstr;                (* [getAdminToken()] *)
  w_unseen : nat;                 (* storage events on their way from other tabs *)
}.

Definition set_hook (h : hook) (w : world) : world :=
  {| w_hook := h; w_reqs := w_reqs w; w_next := w_next w; w_token := w_token w; w_unseen := w_unseen w |}.
Definition set_reqs (r : gmap nat reveal_request) (w : world) : world :=
  {| w_hook := w_hook w; w_reqs := r; w_next := w_next w; w_token := w_token w; w_unseen := w_unseen w |}.

Definition abort (q : reveal_request) : reveal_request :=
  {| rr_tenant := rr_tenant q; rr_epoch := rr_epoch q; rr_credential := rr_credential q;
     rr_aborted := true; rr_answer := rr_answer q; rr_returned := rr_returned q |}.

(** ** The hook's callbacks *)

Definition cancelAndErase (updateState : bool) (w : world) : world :=
  let h := w_hook w in
  let reqs := match controllerRef h with Some id => alter abort id (w_reqs w) | None => w_reqs w end in
  let keep := negb updateState || negb (mountedRef h) in
  set_hook
    {| resources := if keep then resources h else None;
       isLoading := if keep then isLoading h else false;
       error := if keep then error h else None;
       controllerRef := None; epochRef := epochRef h + 1;
       mountedRef := mountedRef h; tenantRef := tenantRef h |}
    (set_reqs reqs w).

Definition hide (w : world) : world := cancelAndErase true w.

(** [show] up to its [await]; [tenantId] is that of the render it closes over. *)
Definition show (tenantId : jsstr) (w : world) : world :=
  let w := cancelAndErase true w in
  let h := w_hook w in
  let id := w_next w in
  let q := {| rr_tenant := tenantId; rr_epoch := epochRef h; rr_credential := w_token w;
              rr_aborted := false; rr_answer := None; rr_returned := None |} in
  {| w_hook := {| resources := resources h; isLoading := true; error := error h;
                  controllerRef := Some id; epochRef := epochRef h;
                  mountedRef := mountedRef h; tenantRef := tenantRef h |};
     w_reqs := <[id := q]> (w_reqs w); w_next := S id; w_token := w_token w; w_unseen := w_unseen w |}.

(** The [DOMException] an aborted fetch rejects with. *)
Definition is_abort_error (e : api_exn) : bool :=
  match e with HostError AbortError => true | _ => false end.

(** [show] after its [await]: the [try] body, the [catch] or the early return, and the
    [finally].  The result is the new hook and the value returned. *)
Definition show_continue (q : reveal_request) (answer : result api_exn (list TenantResource))
    (w : world) : hook * bool :=
  let h := w_hook w in
  let finally (h : hook) :=
    {| resources := resources h;
       isLoading := if mountedRef h && (rr_epoch q =? epochRef h) then false else isLoading h;
       error := error h; controllerRef := controllerRef h; epochRef := epochRef h;
       mountedRef := mountedRef h; tenantRef := tenantRef h |} in
  let with_state r e :=
    {| resources := r; isLoading := isLoading h; error := e; controllerRef := controllerRef h;
       epochRef := epochRef h; mountedRef := mountedRef h; tenantRef := tenantRef h |} in
  match answer with
  | Ok revealed =>
    let isCurrent := mountedRef h && negb (rr_aborted q) && (rr_epoch q =? epochRef h)
                     && str_eqb (tenantRef h) (rr_tenant q) && str_eqb (w_token w) (rr_credential q) in
    if negb isCurrent then (finally h, false)
    else (finally (with_state (Some revealed) None), true)
  | Err revealError =>
    let wasCancelled := rr_aborted q || is_abort_error revealError in
    if wasCancelled || negb (mountedRef h) || negb (rr_epoch q =? epochRef h) then (finally h, false)
    else (finally (with_state None (Some revealError)), false)
  end.

Definition settle_show (id : nat) (answer : result api_exn (list TenantResource)) (w : world) : world :=
  match w_reqs w !! id with
  | Some q =>
    match rr_answer q with
    | None =>
      let '(h, b) := show_continue q answer w in
      let q' := {| rr_tenant := rr_tenant q; rr_epoch := rr_epoch q; rr_credential := rr_credential q;
                   rr_aborted := rr_aborted q; rr_answer := Some answer; rr_returned := Some b |} in
      set_hook h (set_reqs (<[id := q']> (w_reqs w)) w)
    | Some _ => w
    end
  | None => w
  end.

(** ** Its effects *)

(** The layout effect, run at the first commit and at each change of the tenant. *)
Definition tenant_effect (tenantId : jsstr) (w : world) : world :=
  let h := w_hook w in
  cancelAndErase true
    (set_hook {| resources := resources h; isLoading := isLoading h; error := error h;
                 controllerRef := controllerRef h; epochRef := epochRef h;
                 mountedRef := mountedRef h; tenantRef := tenantId |} w).

Definition set_mounted (b : bool) (w : world) : world :=
  let h := w_hook w in
  set_hook {| resources := resources h; isLoading := isLoading h; error := error h;
              controllerRef := controllerRef h; epochRef := epochRef h;
              mountedRef := b; tenantRef := tenantRef h |} w.

Definition mount_effect (w : world) : world := set_mounted true w.
Definition unmount_cleanup (w : world) : world := cancelAndErase false (set_mounted false w).

(** The first render and commit; under [StrictMode] the effects run, are cleaned up and run again. *)
Definition initial (strict : bool) (tenantId token : jsstr) : world :=
  let w := {| w_hook := {| resources := None; isLoading := false; error := None; controllerRef := None;
                           epochRef := 0; mountedRef := true; tenantRef := tenantId |};
              w_reqs := ∅; w_next := 0; w_token := token; w_unseen := 0 |} in
  let w := mount_effect (tenant_effect tenantId w) in
  if strict then mount_effect (tenant_effect tenantId (unmount_cleanup w)) else w.

(** The token of the browser's storage. *)
Definition set_token (token : jsstr) (unseen : nat) (w : world) : world :=
  {| w_hook := w_hook w; w_reqs := w_reqs w; w_next := w_next w; w_token := token; w_unseen := unseen |}.

(** The window listeners are there while the hook is mounted. *)
Definition on_listener (w : world) : world := if mountedRef (w_hook w) then cancelAndErase true w else w.

(** ** Interleaving *)

Inductive label :=
  | LShow (tenantId : jsstr)
  | LHide
  | LSettle (id : nat) (answer : result api_exn (list TenantResource))
  | LTenant (tenantId : jsstr)          (* a commit with this tenant *)
  | LUnmount
  | LToken (token : jsstr)              (* this tab writes the token, and says so *)
  | LForeignToken (token : jsstr)       (* another tab writes it *)
  | LStorage (key : option jsstr).      (* a storage event arrives *)

Definition step (w : world) (l : label) : world :=
  match l with
  | LShow tenantId => show tenantId w
  | LHide => hide w
  | LSettle id answer => settle_show id answer w
  | LTenant tenantId =>
    if str_eqb tenantId (tenantRef (w_hook w)) then w else tenant_effect tenantId w
  | LUnmount => if mountedRef (w_hook w) then unmount_cleanup w else w
  | LToken token => on_listener (set_token token (w_unseen w) w)
  | LForeignToken token => set_token token (S (w_unseen w)) w
  | LStorage key =>
    if bool_decide (key = Some ADMIN_TOKEN_KEY)
    then on_listener (set_token (w_token w) (pred (w_unseen w)) w) else w
  end.

Inductive reachable : world → Prop :=
  | reach_initial strict tenantId token : reachable (initial strict tenantId token)
  | reach_step w l : reachable w → reachable (step w l).

(** ** Invariant *)

(** What holds of the requests, whatever the token and the tenant. *)
Record core (w : world) : Prop := {
  c_ids id q : w_reqs w !! id = Some q → (id < w_next w)%nat;
  c_epoch id q : w_reqs w !! id = Some q → rr_epoch q <= epochRef (w_hook w);
  c_current id q :
    w_reqs w !! id = Some q → rr_epoch q = epochRef (w_hook w) →
    controllerRef (w_hook w) = Some id ∧ rr_aborted q = false;
  c_old id q :
    w_reqs w !! id = Some q → rr_epoch q < epochRef (w_hook w) → rr_aborted q = true;
}.

(** The request the hook is at, while it is mounted. *)
Definition current (w : world) (id : nat) (q : reveal_request) : Prop :=
  w_reqs w !! id = Some q ∧ rr_epoch q = epochRef (w_hook w).

Record inv (w : world) : Prop := {
  i_core : core w;
  i_credential id q :
    current w id q → mountedRef (w_hook w) = true → w_unseen w = 0%nat → rr_credential q = w_token w;
  i_resources r :
    resources (w_hook w) = Some r → mountedRef (w_hook w) = true →
    ∃ id q, current w id q ∧ rr_answer q = Some (Ok r) ∧ rr_returned q = Some true ∧
            rr_tenant q = tenantRef (w_hook w) ∧ error (w_hook w) = None;
  i_loading :
    isLoading (w_hook w) = true → mountedRef (w_hook w) = true →
    ∃ id q, current w id q ∧ rr_answer q = None;
  i_pending id q :
    current w id q → rr_answer q = None → mountedRef (w_hook w) = true →
    isLoading (w_hook w) = true ∧ resources (w_hook w) = None ∧ error (w_hook w) = None;
}.

(** Nothing is at the hook's epoch. *)
Definition idle (w : world) : Prop := ∀ id q, ¬ current w id q.

Lemma cancel_core b w : core w → core (cancelAndErase b w) ∧ idle (cancelAndErase b w).
Proof.
  intros [Hi He Hc Ho].
  assert (Hl : ∀ id q, w_reqs (cancelAndErase b w) !! id = Some q →
    ∃ q0, w_reqs w !! id = Some q0 ∧ rr_epoch q = rr_epoch q0 ∧ rr_aborted q = true).
  { intros id q Hq. cbn in Hq. destruct (controllerRef (w_hook w)) as [j|] eqn:Ej.
    - destruct (decide (j = id)) as [->|Hne].
      + rewrite lookup_alter in Hq. destruct (decide (id = id)); [|done].
        apply fmap_Some in Hq as (q0 & Hq0 & ->). eauto.
      + rewrite lookup_alter_ne in Hq by done. exists q. split_and!; [done..|].
        destruct (decide (rr_epoch q = epochRef (w_hook w))) as [E|E].
        * destruct (Hc id q Hq E) as [H1 _]. simplify_eq.
        * apply (Ho id q Hq). specialize (He id q Hq). lia.
    - exists q. split_and!; [done..|]. destruct (decide (rr_epoch q = epochRef (w_hook w))) as [E|E].
      + destruct (Hc id q Hq E) as [H1 _]. simplify_eq.
      + apply (Ho id q Hq). specialize (He id q Hq). lia. }
  assert (Hlt : ∀ id q, w_reqs (cancelAndErase b w) !! id = Some q →
    rr_epoch q < epochRef (w_hook (cancelAndErase b w))).
  { intros id q (q0 & H0 & -> & _)%Hl. specialize (He id q0 H0). cbn. lia. }
  split.
  - split; cbn [cancelAndErase set_hook set_reqs w_next].
    + intros id q (q0 & H0 & _)%Hl. by eapply Hi.
    + intros id q Hq%Hlt. lia.
    + intros id q Hq%Hlt E. lia.
    + intros id q (q0 & _ & _ & H)%Hl _. done.
  - intros id q [Hq E]. apply Hlt in Hq. lia.
Qed.

(** A world with nothing at the hook's epoch and nothing shown. *)
Lemma idle_inv w :
  core w → idle w →
  (mountedRef (w_hook w) = true → resources (w_hook w) = None ∧ isLoading (w_hook w) = false) →
  inv w.
Proof.
  intros Hc Hi Hr. split; [done| | | |].
  - intros id q H. by destruct (Hi id q).
  - intros r E Hm. destruct (Hr Hm). congruence.
  - intros E Hm. destruct (Hr Hm). congruence.
  - intros id q H. by destruct (Hi id q).
Qed.

Lemma cancel_inv b w :
  core w → (b = true ∨ mountedRef (w_hook w) = false) → inv (cancelAndErase b w).
Proof.
  intros Hc Hb. destruct (cancel_core b w Hc) as [H1 H2]. apply idle_inv; [done..|].
  cbn. intros Hm. destruct Hb as [->|Hb]; [|congruence]. by rewrite Hm.
Qed.

(** [core] does not look at the mounted flag, the tenant or the token. *)
Lemma core_ext w w' :
  w_reqs w' = w_reqs w → w_next w' = w_next w → epochRef (w_hook w') = epochRef (w_hook w) →
  controllerRef (w_hook w') = controllerRef (w_hook w) → core w → core w'.
Proof.
  intros E1 E2 E3 E4 [Hi He Hc Ho]. split; intros id q; rewrite ?E1, ?E2, ?E3, ?E4; eauto.
Qed.

Lemma reveal_show_inv t w : inv w → inv (show t w).
Proof.
  intros [Hcore _ _ _ _]. destruct (cancel_core true w Hcore) as [Hc Hi].
  pose proof (cancel_inv true w Hcore (or_introl eq_refl)) as Hinv.
  assert (Hres : mountedRef (w_hook (cancelAndErase true w)) = true →
    resources (w_hook (cancelAndErase true w)) = None ∧ error (w_hook (cancelAndErase true w)) = None)
    by (cbn; intros ->; done).
  unfold show. set (w1 := cancelAndErase true w) in *. clearbody w1.
  assert (Hlt : ∀ id q, w_reqs w1 !! id = Some q → rr_epoch q < epochRef (w_hook w1)).
  { intros id q Hq. pose proof (c_epoch _ Hc id q Hq) as H1.
    destruct (decide (rr_epoch q = epochRef (w_hook w1))) as [E|E]; [|lia]. by destruct (Hi id q). }
  destruct Hc as [Ci Ce Cc Co].
  assert (Hcur : ∀ id q, <[w_next w1 := {| rr_tenant := t; rr_epoch := epochRef (w_hook w1);
       rr_credential := w_token w1; rr_aborted := false; rr_answer := None; rr_returned := None |}]>
       (w_reqs w1) !! id = Some q → rr_epoch q = epochRef (w_hook w1) →
     id = w_next w1 ∧ q = {| rr_tenant := t; rr_epoch := epochRef (w_hook w1);
       rr_credential := w_token w1; rr_aborted := false; rr_answer := None; rr_returned := None |}).
  { intros id q. rewrite lookup_insert. case_decide as E; [by intros [= <-]|].
    intros Hq%Hlt. lia. }
  split; unfold current; cbn.
  - split; cbn.
    + intros id q. rewrite lookup_insert. case_decide as E; [subst; lia|]. intros Hq%Ci. lia.
    + intros id q. rewrite lookup_insert. case_decide as E; [intros [= <-]; cbn; lia|]. apply Ce.
    + intros id q Hq E. by destruct (Hcur id q Hq E) as [-> ->].
    + intros id q. rewrite lookup_insert. case_decide as E; [intros [= <-]; cbn; lia|]. apply Co.
  - intros id q [Hq E] _ _. by destruct (Hcur id q Hq E) as [_ ->].
  - intros r E Hm. destruct (i_resources _ Hinv r E Hm) as (id & q & Hq & _). by destruct (Hi id q).
  - intros _ _. exists (w_next w1). eexists. split; [split; [apply lookup_insert_eq|done]|done].
  - intros id q _ _ Hm. by destruct (Hres Hm).
Qed.

Lemma show_continue_refs q a w :
  let h := (show_continue q a w).1 in
  controllerRef h = controllerRef (w_hook w) ∧ epochRef h = epochRef (w_hook w) ∧
  mountedRef h = mountedRef (w_hook w) ∧ tenantRef h = tenantRef (w_hook w).
Proof. unfold show_continue. destruct a; repeat case_cond; done. Qed.

(** The continuation of a superseded call changes nothing and returns [false]. *)
Lemma show_continue_stale q a w :
  rr_epoch q ≠ epochRef (w_hook w) → show_continue q a w = (w_hook w, false).
Proof.
  intros E. unfold show_continue. rewrite (proj2 (Z.eqb_neq _ _) E).
  destruct a; rewrite ?andb_false_r, ?andb_false_l; cbn [negb]; rewrite ?orb_true_r;
    by destruct (w_hook w).
Qed.

(** What the continuation of the current call does while the hook is mounted. *)
Lemma show_continue_current q a w :
  rr_epoch q = epochRef (w_hook w) → rr_aborted q = false → mountedRef (w_hook w) = true →
  resources (w_hook w) = None → error (w_hook w) = None →
  let '(h, b) := show_continue q a w in
  isLoading h = false ∧
  match a with
  | Ok revealed =>
    if str_eqb (tenantRef (w_hook w)) (rr_tenant q) && str_eqb (w_token w) (rr_credential q)
    then resources h = Some revealed ∧ error h = None ∧ b = true
    else resources h = None ∧ error h = None ∧ b = false
  | Err e => resources h = None ∧ error h = (if is_abort_error e then None else Some e) ∧ b = false
  end.
Proof.
  intros E Ha Hm Hr He. unfold show_continue. cbn zeta. rewrite Ha.
  destruct a as [revealed|e]; cbn [resources isLoading error epochRef mountedRef];
    rewrite E, Z.eqb_refl, Hm; cbn [negb andb orb].
  - destruct (str_eqb _ _ && str_eqb _ _); cbn; rewrite ?Hm, ?E, ?Z.eqb_refl; done.
  - destruct (is_abort_error e); cbn; rewrite ?Hm, ?E, ?Z.eqb_refl; done.
Qed.

Definition answered (a : result api_exn (list TenantResource)) (b : bool) (q : reveal_request) :
    reveal_request :=
  {| rr_tenant := rr_tenant q; rr_epoch := rr_epoch q; rr_credential := rr_credential q;
     rr_aborted := rr_aborted q; rr_answer := Some a; rr_returned := Some b |}.

Lemma settle_show_eq id a w q :
  w_reqs w !! id = Some q → rr_answer q = None →
  settle_show id a w
  = set_hook (show_continue q a w).1
      (set_reqs (<[id := answered a (show_continue q a w).2 q]> (w_reqs w)) w).
Proof. intros Hq Ha. unfold settle_show. rewrite Hq, Ha. by destruct (show_continue q a w). Qed.

Lemma settle_core id a w q :
  w_reqs w !! id = Some q → rr_answer q = None → core w → core (settle_show id a w).
Proof.
  intros Hq Ha [Hi He Hc Ho]. rewrite (settle_show_eq id a w q Hq Ha).
  destruct (show_continue_refs q a w) as (E1 & E2 & _).
  split; cbn; intros j r; rewrite ?E1, ?E2, lookup_insert; case_decide as E;
    try (intros [= <-]; subst j; cbn [answered rr_epoch rr_aborted]); eauto.
Qed.

Lemma reveal_settle_inv id a w : inv w → inv (settle_show id a w).
Proof.
  intros Hw. destruct (w_reqs w !! id) as [q|] eqn:Hq; [|unfold settle_show; by rewrite Hq].
  destruct (rr_answer q) eqn:Ha; [unfold settle_show; by rewrite Hq, Ha|].
  pose proof (settle_core id a w q Hq Ha (i_core _ Hw)) as Hcore.
  rewrite (settle_show_eq id a w q Hq Ha) in *.
  destruct (decide (rr_epoch q = epochRef (w_hook w))) as [E|E].
  - destruct (c_current _ (i_core _ Hw) id q Hq E) as [Hctl Hab].
    destruct (show_continue_refs q a w) as (E1 & E2 & E3 & E4).
    assert (Hone : ∀ j r, <[id:=answered a (show_continue q a w).2 q]> (w_reqs w) !! j = Some r →
      rr_epoch r = epochRef (w_hook w) → j = id ∧ r = answered a (show_continue q a w).2 q).
    { intros j r. rewrite lookup_insert. case_decide as Ej; [by intros [= <-]|]. intros Hr Er.
      destruct (c_current _ (i_core _ Hw) j r Hr Er). congruence. }
    destruct (mountedRef (w_hook w)) eqn:Hm.
    2: { split; [done|..]; unfold current; cbn; rewrite E3; done. }
    destruct (i_pending _ Hw id q (conj Hq E) Ha Hm) as (_ & Hr & He).
    pose proof (show_continue_current q a w E Hab Hm Hr He) as Hcur.
    destruct (show_continue q a w) as [h b]. cbn [fst snd] in *. destruct Hcur as [Hl Hcur].
    split; [done|..]; unfold current; cbn; rewrite ?E2, ?E3.
    + intros j r [Hj Ej] _ Hu. destruct (Hone j r Hj Ej) as [-> ->].
      by apply (i_credential _ Hw id q (conj Hq E) Hm Hu).
    + intros r Hr' _. exists id, (answered a b q). rewrite lookup_insert_eq.
      destruct a as [revealed|e]; [|by destruct Hcur as [? _]; congruence].
      case_cond; [|by destruct Hcur as [? _]; congruence].
      apply andb_true_iff in Heqb0 as [Ht%str_eqb_eq _]. destruct Hcur as (H1 & H2 & ->).
      split_and!; [done|done|by cbn; congruence|done|by cbn; congruence|done].
    + congruence.
    + intros j r [Hj Ej] Ha'. destruct (Hone j r Hj Ej) as [-> ->]. done.
  - rewrite (show_continue_stale q a w E) in *. cbn [fst snd] in *.
    assert (Hcur : ∀ j r, current (set_hook (w_hook w) (set_reqs (<[id:=answered a false q]> (w_reqs w)) w)) j r
      ↔ current w j r).
    { intros j r. unfold current. cbn. rewrite lookup_insert. case_decide as Ej; [|done]. subst j.
      split; intros [H1 H2]; simplify_eq; by destruct E. }
    split; [done|..]; cbn.
    + intros j r Hj%Hcur. by apply (i_credential _ Hw j).
    + intros r Hr Hm. destruct (i_resources _ Hw r Hr Hm) as (j & x & Hj & ?). exists j, x. by rewrite Hcur.
    + intros Hl Hm. destruct (i_loading _ Hw Hl Hm) as (j & x & Hj & ?). exists j, x. by rewrite Hcur.
    + intros j r Hj%Hcur. by apply (i_pending _ Hw j).
Qed.

Lemma listener_inv w : core w → (mountedRef (w_hook w) = false → inv w) → inv (on_listener w).
Proof.
  intros Hc Hi. unfold on_listener. destruct (mountedRef (w_hook w)); [apply cancel_inv; auto|auto].
Qed.

Lemma unmounted_inv w : core w → mountedRef (w_hook w) = false → inv w.
Proof. intros Hc Hm. split; [done|..]; intros; congruence. Qed.

Lemma reveal_step_inv w l : inv w → inv (step w l).
Proof.
  intros Hw. pose proof (i_core _ Hw) as Hc. destruct l as [t| |id a|t| |tok|tok|key]; cbn [step].
  - by apply reveal_show_inv.
  - apply cancel_inv; auto.
  - by apply reveal_settle_inv.
  - case_cond; [done|]. apply cancel_inv; [by eapply core_ext, Hc|auto].
  - case_cond; [|done]. apply cancel_inv; [by eapply core_ext, Hc|auto].
  - apply listener_inv; [by eapply core_ext, Hc|]. intros Hm. by apply unmounted_inv; [eapply core_ext, Hc|].
  - destruct Hw as [H1 H2 H3 H4 H5]. split; [by eapply core_ext, Hc|done|done|done|done].
  - case_cond; [|done]. apply listener_inv; [by eapply core_ext, Hc|].
    intros Hm. by apply unmounted_inv; [eapply core_ext, Hc|].
Qed.

Lemma initial_inv strict t tok : inv (initial strict t tok).
Proof.
  assert (He : w_reqs (initial strict t tok) = ∅) by by destruct strict.
  apply idle_inv; [split; intros id q; by rewrite He, lookup_empty| |by destruct strict].
  intros id q [Hq _]. by rewrite He, lookup_empty in Hq.
Qed.

Lemma reveal_reachable_inv w : reachable w → inv w.
Proof. induction 1; [apply initial_inv|by apply reveal_step_inv]. Qed.

(** *** Time passes

    Epochs only grow, and a request keeps the one it was made in. *)
Definition later (w w' : world) : Prop :=
  epochRef (w_hook w) <= epochRef (w_hook w') ∧
  ∀ id q, w_reqs w !! id = Some q → ∃ q', w_reqs w' !! id = Some q' ∧ rr_epoch q' = rr_epoch q.

#[local] Instance later_preorder : PreOrder later.
Proof.
  split; [split; [done|eauto]|]. intros w1 w2 w3 [E1 H1] [E2 H2]. split; [lia|].
  intros id q (q2 & Hq2 & <-)%H1. apply H2 in Hq2 as (q3 & ? & ?). eauto.
Qed.

Lemma later_same w w' :
  w_reqs w' = w_reqs w → epochRef (w_hook w') = epochRef (w_hook w) → later w w'.
Proof. intros E1 E2. split; [lia|]. rewrite E1. eauto. Qed.

Lemma later_cancel b w w0 :
  w_reqs w0 = w_reqs w → epochRef (w_hook w0) = epochRef (w_hook w) → later w (cancelAndErase b w0).
Proof.
  intros E1 E2. split; [cbn; lia|]. intros id q Hq. rewrite <- E1 in Hq. cbn.
  destruct (controllerRef (w_hook w0)) as [j|]; [|eauto].
  rewrite lookup_alter. case_decide; [|eauto]. subst j. rewrite Hq. by eexists.
Qed.

Lemma later_step w l : core w → later w (step w l).
Proof.
  intros Hc. destruct l as [t| |id a|t| |tok|tok|key]; cbn [step]; unfold hide, tenant_effect, unmount_cleanup, on_listener;
    repeat case_cond; try (by apply later_cancel); try (by apply later_same).
  - destruct (cancel_core true w Hc) as [Hc1 _]. unfold show.
    pose proof (later_cancel true w w eq_refl eq_refl) as [E H]. split; [done|].
    intros id q (q' & Hq' & <-)%H. exists q'. split; [|done]. cbn -[cancelAndErase].
    rewrite lookup_insert_ne; [done|]. apply (c_ids _ Hc1) in Hq'. lia.
  - destruct (w_reqs w !! id) as [q|] eqn:Hq; [|unfold settle_show; by rewrite Hq].
    destruct (rr_answer q) eqn:Ha; [unfold settle_show; by rewrite Hq, Ha|].
    rewrite (settle_show_eq id a w q Hq Ha). destruct (show_continue_refs q a w) as (_ & E & _).
    split; [cbn; rewrite E; lia|]. intros j r Hr. cbn. rewrite lookup_insert. case_decide; [subst; simplify_eq; by eexists|eauto].
Qed.

Lemma later_steps w ls : inv w → inv (fold_left step ls w) ∧ later w (fold_left step ls w).
Proof.
  revert w. induction ls as [|l ls IH]; intros w Hw; [done|]. cbn [fold_left].
  destruct (IH (step w l) (reveal_step_inv w l Hw)) as [H1 H2]. split; [done|].
  etrans; [apply later_step, Hw|done].
Qed.

(** ** Properties *)

(** C8. Clear secrets are shown only to whom they were revealed: in every state the hook can
    reach while mounted, the resources it shows are the answer to the last [show], which was made
    for the tenant now displayed and under the token now stored, unless a storage event about
    another tab's write has still to arrive. *)
Theorem reveal_current w r :
  reachable w → mountedRef (w_hook w) = true → resources (w_hook w) = Some r →
  ∃ id q, w_reqs w !! id = Some q ∧ rr_epoch q = epochRef (w_hook w) ∧
          rr_answer q = Some (Ok r) ∧ rr_returned q = Some true ∧
          rr_tenant q = tenantRef (w_hook w) ∧
          (w_unseen w = 0%nat → rr_credential q = w_token w).
Proof.
  intros Hw%reveal_reachable_inv Hm Hr. destruct (i_resources _ Hw r Hr Hm) as (id & q & [Hq E] & Ha & Hret & Ht & _).
  exists id, q. split_and!; [done..|]. by apply (i_credential _ Hw id q (conj Hq E)).
Qed.

(** The steps after which nothing may be shown: hiding, another tenant, a new token. *)
Definition erasing (w : world) (l : label) : Prop :=
  match l with
  | LHide | LToken _ | LUnmount => True
  | LTenant t => t ≠ tenantRef (w_hook w)
  | LStorage key => key = Some ADMIN_TOKEN_KEY
  | _ => False
  end.

(** What an erasing step is: one erasure of a world with the same requests. *)
Lemma erasing_cancels w l :
  core w → mountedRef (w_hook w) = true → erasing w l →
  ∃ b w0, step w l = cancelAndErase b w0 ∧ core w0 ∧ w_reqs w0 = w_reqs w ∧ mountedRef (w_hook w0) = b.
Proof.
  intros Hc Hm Hl.
  destruct l as [t| |j b|t| |tok|tok|key]; cbn [step erasing] in *; try done; unfold on_listener; cbn [set_token w_hook].
  - by exists true, w.
  - apply str_eqb_neq in Hl. rewrite Hl. eexists true, _. split; [reflexivity|]. split; [by eapply core_ext, Hc|done].
  - rewrite Hm. eexists false, _. split; [reflexivity|]. split; [by eapply core_ext, Hc|done].
  - rewrite Hm. eexists true, _. split; [reflexivity|]. split; [by eapply core_ext, Hc|done].
  - rewrite bool_decide_true, Hm by done. eexists true, _. split; [reflexivity|]. split; [by eapply core_ext, Hc|done].
Qed.

(** C9. Erasing is immediate and final: hiding, changing the tenant, a token change, and leaving
    the page, whether or not a request is in flight, cancel at the network every request made
    before; while the page stays, the shown resources, the error and the loading state are gone at
    once; and whatever is done afterwards and whatever a request made before answers then, the
    answer does not change the hook and that [show] returns [false]. *)
Theorem erase_final w l ls :
  reachable w → mountedRef (w_hook w) = true → erasing w l →
  let w1 := step w l in
  let w2 := fold_left step ls w1 in
  (mountedRef (w_hook w1) = true →
   resources (w_hook w1) = None ∧ error (w_hook w1) = None ∧ isLoading (w_hook w1) = false) ∧
  (∀ id q, w_reqs w1 !! id = Some q → rr_aborted q = true) ∧
  ∀ id q a, is_Some (w_reqs w1 !! id) → w_reqs w2 !! id = Some q → rr_answer q = None →
    w_hook (step w2 (LSettle id a)) = w_hook w2 ∧
    ∃ q', w_reqs (step w2 (LSettle id a)) !! id = Some q' ∧ rr_aborted q' = true ∧ rr_returned q' = Some false.
Proof.
  intros Hw%reveal_reachable_inv Hm Hl. cbn zeta.
  destruct (later_steps _ ls (reveal_step_inv w l Hw)) as [Hi2 [He2 Hr2]].
  destruct (erasing_cancels w l (i_core _ Hw) Hm Hl) as (b & w0 & E & Hc0 & E0 & Hb).
  destruct (cancel_core b w0 Hc0) as [Hc1 Hidle]. rewrite <- E in Hc1, Hidle.
  assert (Hlt : ∀ id q, w_reqs (step w l) !! id = Some q → rr_epoch q < epochRef (w_hook (step w l))).
  { intros id q Hq. pose proof (c_epoch _ Hc1 id q Hq).
    destruct (decide (rr_epoch q = epochRef (w_hook (step w l)))); [by destruct (Hidle id q)|lia]. }
  split_and!.
  - rewrite E. cbn. intros Hm1. subst b. by rewrite Hm1.
  - intros id q Hq. apply (c_old _ Hc1 id q Hq), (Hlt _ _ Hq).
  - set (w2 := fold_left step ls (step w l)) in *. intros id q a [q1 Hq1] Hq Ha.
    destruct (Hr2 id q1 Hq1) as (q' & Hq' & Ee). simplify_eq. apply Hlt in Hq1.
    cbn [step]. rewrite (settle_show_eq id a w2 q Hq Ha), (show_continue_stale q a w2) by lia. split; [done|].
    exists (answered a false q). split; [apply lookup_insert_eq|]. split; [|done].
    apply (c_old _ (i_core _ Hi2) id q Hq). lia.
Qed.

(** A reveal completes: a [show] for the tenant on display loads at once with nothing shown,
    and when the answer arrives before anything else happens, the resources it brings are shown,
    loading ends and [show] returns [true]; a failure shows the error instead, except the
    host's abort, which shows nothing. *)
Theorem show_completes w a :
  reachable w → mountedRef (w_hook w) = true →
  let w1 := step w (LShow (tenantRef (w_hook w))) in
  let w2 := step w1 (LSettle (w_next w) a) in
  isLoading (w_hook w1) = true ∧ resources (w_hook w1) = None ∧ error (w_hook w1) = None ∧
  isLoading (w_hook w2) = false ∧
  resources (w_hook w2) = match a with Ok r => Some r | Err _ => None end ∧
  error (w_hook w2) = match a with Ok _ => None | Err e => if is_abort_error e then None else Some e end.
Proof.
  intros Hw Hm. cbn zeta. cbn [step]. unfold show. set (w0 := cancelAndErase true w).
  assert (H0 : mountedRef (w_hook w0) = true ∧ resources (w_hook w0) = None ∧ error (w_hook w0) = None
    ∧ tenantRef (w_hook w0) = tenantRef (w_hook w) ∧ w_next w0 = w_next w) by (cbn; by rewrite Hm).
  destruct H0 as (Hm0 & Hr0 & He0 & Ht0 & Hn0). rewrite <- Ht0, <- Hn0. clearbody w0.
  set (q := {| rr_tenant := _; rr_epoch := _; rr_credential := _; rr_aborted := _; rr_answer := _;
               rr_returned := _ |}).
  set (w1 := {| w_hook := _; w_reqs := _; w_next := _; w_token := _; w_unseen := _ |}).
  split; [done|]. split; [done|]. split; [done|].
  rewrite (settle_show_eq (w_next w0) a w1 q); [|apply lookup_insert_eq|done].
  pose proof (show_continue_current q a w1 eq_refl eq_refl Hm0 Hr0 He0) as Hc.
  destruct (show_continue q a w1) as [h b]. cbn [fst snd set_hook w_hook]. destruct Hc as [Hl Hc].
  split; [done|]. destruct a as [r|e]; [|by destruct Hc as (? & ? & _)].
  cbn in Hc. rewrite !str_eqb_refl in Hc. by destruct Hc as (? & ? & _).
Qed.

(** *** Witnesses *)

Definition demo : world := step (initial true "t1" "tok") (LShow "t1").

Lemma demo_reachable : reachable demo.
Proof. apply reach_step. apply reach_initial. Defined.

Lemma reveal_current_witness :
  ∃ id q, w_reqs (step demo (LSettle 0 (Ok []))) !! id = Some q ∧ rr_tenant q = "t1".
Proof.
  destruct (reveal_current (step demo (LSettle 0 (Ok []))) []) as (id & q & Hq & _ & _ & _ & Ht & _).
  - apply reach_step. exact demo_reachable.
  - reflexivity.
  - reflexivity.
  - exists id, q. split; [exact Hq|exact Ht].
Defined.

Definition demo_request : reveal_request :=
  {| rr_tenant := "t1"; rr_epoch := 4; rr_credential := "tok"; rr_aborted := false;
     rr_answer := None; rr_returned := None |}.

(** With resources on show and nothing in flight, and with a request in flight that answers after
    a second reveal was asked for. *)
Lemma erase_final_witness :
  let shown := step demo (LSettle 0 (Ok [])) in
  (resources (w_hook shown) = Some [] ∧ resources (w_hook (step shown LHide)) = None) ∧
  (let w2 := fold_left step [LShow "t1"] (step demo LHide) in
   w_hook (step w2 (LSettle 0 (Ok []))) = w_hook w2).
Proof.
  split; [split; [vm_compute; reflexivity|]|].
  - destruct (erase_final (step demo (LSettle 0 (Ok []))) LHide []) as (H & _).
    + apply reach_step. exact demo_reachable.
    + vm_compute. reflexivity.
    + exact I.
    + apply H. vm_compute. reflexivity.
  - destruct (erase_final demo LHide [LShow "t1"] demo_reachable) as (_ & _ & H).
    + vm_compute. reflexivity.
    + exact I.
    + refine (proj1 (H 0%nat (abort demo_request) (Ok []) _ _ _)).
      * vm_compute. by eexists.
      * vm_compute. reflexivity.
      * reflexivity.
Defined.

Lemma show_completes_witness :
  resources (w_hook (step (step demo (LShow "t1")) (LSettle 1 (Ok [])))) = Some [].
Proof.
  destruct (show_completes demo (Ok []) demo_reachable) as (_ & _ & _ & _ & H & _).
  - vm_compute. reflexivity.
  - exact H.
Defined.
