(* ===== verification/Scale.v ===== *)
(** * The scale gate

    [src/web/src/lib/scale-gate.ts], [src/web/scripts/summarize-scale.mjs] (the analysis;
    its report is in [ScaleReport]) and [summary] of [benchmark-scale.mjs], whose measurements are
    in [Benchmark]: the decision whether observed volume calls for pagination. *)
From Stdlib Require Import ZArith Lia List QArith Sorting.Sorted Permutation.
From stdpp Require Import base list sets gmap.
From S2P Require Import Prelude Regex Numbers.
#[local] Open Scope Z_scope.

(** ** Thresholds *)

Record thresholds := {
  softItems : Z; softPayloadBytes : Z; hardItems : Z; hardPayloadBytes : Z;
  hardHTTPP95Ms : Z; hardBrowserP95Ms : Z;
}.

Definition SCALE_THRESHOLDS : thresholds :=
  {| softItems := 500; softPayloadBytes := 256000; hardItems := 2000; hardPayloadBytes := 512000;
     hardHTTPP95Ms := 300; hardBrowserP95Ms := 150 |}.

Record CapacityPoint := {
  cp_cardinality : Z;
  cp_hardTriggers : list jsstr;
  cp_softItemCount : bool;
  cp_softPayload : bool;
}.

Inductive ScaleDecision := KEEP_FULL_LISTS | OPEN_PAGINATION_EPIC.

(** ** The declared volume *)

Definition parseObservedOperationalVolume (value : option jsstr) : result jsstr Z :=
  match value with
  | None => Ok 0
  | Some v =>
    let parsed := js_Number v in
    let rejected := Err "TENANCIT_SCALE_OBSERVED_VOLUME must be a non-negative integer" in
    if negb (isSafeInteger parsed) then rejected
    else match num_int parsed with
         | Some z => if (z <? 0) || str_eqb (trim v) [] then rejected else Ok z
         | None => rejected
         end
  end.

(** ** Percentiles *)

(** The sign of [a - b], zero when the difference is not a number. *)
Definition num_diff_sign (a b : num) : Z :=
  if num_lt a b then -1 else if num_lt b a then 1 else 0.

(** [Math.ceil(sorted.length * percentile)]. *)
Definition rank (n : nat) (percentile : num) : option Z :=
  num_ceil (num_mul (num_of_Z (Z.of_nat n)) percentile).

(** [Ok None] is [undefined]: an index out of range. *)
Definition nearestRank (values : list num) (percentile : num) : result jsstr (option num) :=
  if (length values =? 0)%nat then Err "nearestRank needs at least one sample"
  else if num_le percentile (Fin 0) || num_lt (Fin 1) percentile
  then Err "percentile must be in (0, 1]"
  else
    let sorted := js_sort num_diff_sign values in
    Ok (match rank (length sorted) percentile with
        | Some k => if 1 <=? k then sorted !! Z.to_nat (k - 1) else None
        | None => None
        end).

Definition p50 : num := round_double (1 # 2).
Definition p95 : num := round_double (95 # 100).

(** [Math.max] of two numbers. *)
Definition num_max (a b : num) : num :=
  match a, b with
  | NaN, _ | _, NaN => NaN
  | _, _ => if num_le a b then b else a
  end.

Record sample_summary := { ss_count : nat; ss_p50Ms : option num; ss_p95Ms : option num; ss_maxMs : num }.

(** [summary] of the benchmark. *)
Definition summary (samples : list num) : result jsstr sample_summary :=
  a <-? nearestRank samples p50;;
  b <-? nearestRank samples p95;;
  Ok {| ss_count := length samples; ss_p50Ms := a; ss_p95Ms := b;
        ss_maxMs := fold_left num_max samples (Infinite true) |}.

(** ** The decision *)

Definition decideScaleGate (observedOperationalVolume : Z) (capacityPoints : list CapacityPoint) :
    ScaleDecision :=
  if hardItems SCALE_THRESHOLDS <=? observedOperationalVolume then OPEN_PAGINATION_EPIC
  else
    let operationalPoint :=
      head (js_sort (λ a b, cp_cardinality b - cp_cardinality a)
              (List.filter (λ p, cp_cardinality p <=? observedOperationalVolume) capacityPoints)) in
    match operationalPoint with
    | None => KEEP_FULL_LISTS
    | Some p =>
      if (0 <? length (cp_hardTriggers p))%nat then OPEN_PAGINATION_EPIC
      else if cp_softItemCount p && cp_softPayload p then OPEN_PAGINATION_EPIC
      else KEEP_FULL_LISTS
    end.

(** ** The measurements *)

(** One endpoint of a run: the payload and the two 95th percentiles. *)
Record endpoint_measure := { em_bytes : Z; em_p95_1 : num; em_p95_10 : num }.

Record measurement := {
  ms_cardinality : Z;
  ms_run : Z;
  ms_http : list (jsstr * endpoint_measure);
  ms_browser : list (jsstr * list (jsstr * num));   (* surface, metric, its 95th percentile *)
}.

Fixpoint prop_get {A} (k : jsstr) (o : list (jsstr * A)) : option A :=
  match o with
  | [] => None
  | (k', v) :: o' => if str_eqb k' k then Some v else prop_get k o'
  end.

(** [Array.every] with a callback that may throw ([None]). *)
Fixpoint every {A} (f : A → option bool) (l : list A) : option bool :=
  match l with
  | [] => Some true
  | x :: l' => match f x with Some true => every f l' | r => r end
  end.

Definition raw_name : re :=
  RSeqs [RBol false; RStr "raw-"; RPlus (RChar is_digit); RStr "-"; RPlus (RChar is_digit);
         RStr ".json"; REol false].

(** The measurements of a directory: names filtered, contents ordered by size and run. *)
Definition measurements (files : list (jsstr * measurement)) : list measurement :=
  js_sort (λ a b, let d := ms_cardinality a - ms_cardinality b in
                  if d =? 0 then ms_run a - ms_run b else d)
    (snd <$> List.filter (λ f, test raw_name f.1) files).

(** The [Map] from sizes to their runs, in order of first insertion. *)
Fixpoint add_run (m : measurement) (bySize : list (Z * list measurement)) :=
  match bySize with
  | [] => [(ms_cardinality m, [m])]
  | (c, l) :: rest =>
    if c =? ms_cardinality m then (c, l ++ [m]) :: rest else (c, l) :: add_run m rest
  end.

Definition group_by_size (l : list measurement) : list (Z * list measurement) :=
  fold_left (λ acc m, add_run m acc) l [].

Definition endpoint_triggers (runs : list measurement) (endpoint : jsstr) : option (list jsstr) :=
  payloadConfirmed ← every (λ r, (λ e, hardPayloadBytes SCALE_THRESHOLDS <=? em_bytes e)
                                   <$> prop_get endpoint (ms_http r)) runs;
  httpConfirmed ← every (λ r, (λ e, num_le (num_of_Z (hardHTTPP95Ms SCALE_THRESHOLDS))
                                      (num_max (em_p95_1 e) (em_p95_10 e)))
                                <$> prop_get endpoint (ms_http r)) runs;
  Some ((if payloadConfirmed : bool then [endpoint ++ ":payload>=500KiB"] else [])
        ++ (if httpConfirmed : bool then [endpoint ++ ":http-p95>=300ms"] else [])).

Definition surface_triggers (runs : list measurement) (surface : jsstr) : option (list jsstr) :=
  uiConfirmed ← every (λ r, existsb (λ metric, num_le (num_of_Z (hardBrowserP95Ms SCALE_THRESHOLDS)) metric.2)
                              <$> prop_get surface (ms_browser r)) runs;
  Some (if uiConfirmed : bool then [surface ++ ":ui-p95>=150ms"] else []).

(** [None]: a later run lacks an endpoint or a surface of the first, and the script throws. *)
Definition confirmedCapacityTriggers (runs : list measurement) : option (list jsstr) :=
  match runs with
  | [] => None
  | r0 :: _ =>
    a ← mapM (endpoint_triggers runs) (fst <$> ms_http r0);
    b ← mapM (surface_triggers runs) (fst <$> ms_browser r0);
    Some (mjoin a ++ mjoin b)
  end.

Record capacity := { ca_cardinality : Z; ca_triggers : list jsstr; ca_itemCount : bool; ca_payload250KiB : bool }.

Definition capacity_of (entry : Z * list measurement) : option capacity :=
  triggers ← confirmedCapacityTriggers entry.2;
  Some {| ca_cardinality := entry.1; ca_triggers := triggers;
          ca_itemCount := softItems SCALE_THRESHOLDS <=? entry.1;
          ca_payload250KiB :=
            forallb (λ r, existsb (λ e : jsstr * endpoint_measure,
                                     softPayloadBytes SCALE_THRESHOLDS <=? em_bytes e.2) (ms_http r)) entry.2 |}.

Definition capacity_point (c : capacity) : CapacityPoint :=
  {| cp_cardinality := ca_cardinality c; cp_hardTriggers := ca_triggers c;
     cp_softItemCount := ca_itemCount c; cp_softPayload := ca_payload250KiB c |}.

Record scale_summary := {
  su_observed : Z;
  su_analysisRecommended : bool;
  su_capacityBreakpoint : option Z;
  su_decision : ScaleDecision;
  su_rationale : jsstr;
  su_capacity : list capacity;
}.

Inductive scale_error := VolumeError (m : jsstr) | RunsError (m : jsstr) | MissingMeasure.

(** The script from the environment and the files read to the summary written. *)
Definition summarize_scale (volume : option jsstr) (files : list (jsstr * measurement)) :
    result scale_error scale_summary :=
  observedVolume <-? match parseObservedOperationalVolume volume with
                     | Ok v => Ok v | Err m => Err (VolumeError m) end;;
  let bySize := group_by_size (measurements files) in
  match List.find (λ e : Z * list measurement, negb (length e.2 =? 2)%nat) bySize with
  | Some (size, _) =>
    Err (RunsError ("cardinality " ++ show_int size ++ " needs exactly two measurements"))
  | None =>
    match mapM capacity_of bySize with
    | None => Err MissingMeasure
    | Some cs =>
      let decision := decideScaleGate observedVolume (capacity_point <$> cs) in
      let gateOpen := match decision with OPEN_PAGINATION_EPIC => true | _ => false end in
      Ok {| su_observed := observedVolume;
            su_analysisRecommended := existsb (λ p, ca_itemCount p || ca_payload250KiB p) cs;
            su_capacityBreakpoint :=
              ca_cardinality <$>
                List.find (λ p, (hardItems SCALE_THRESHOLDS <=? ca_cardinality p)
                                || (0 <? length (ca_triggers p))%nat) cs;
            su_decision := decision;
            su_rationale :=
              if gateOpen
              then "The declared operational point confirms a hard trigger or two persistent soft triggers."
              else "Synthetic capacity breakpoints do not by themselves prove current operational need; the declared volume remains below the gate.";
            su_capacity := cs |}
    end
  end.

Example nearestRank_ex :
  nearestRank (num_of_Z <$> [30; 10; 20]) p50 = Ok (Some (num_of_Z 20)).
Proof. vm_compute. reflexivity. Qed.
Example volume_ex : map parseObservedOperationalVolume [None; Some "12"; Some " "; Some "-1"; Some "1.5"]
  = [Ok 0; Ok 12; Err "TENANCIT_SCALE_OBSERVED_VOLUME must be a non-negative integer";
     Err "TENANCIT_SCALE_OBSERVED_VOLUME must be a non-negative integer";
     Err "TENANCIT_SCALE_OBSERVED_VOLUME must be a non-negative integer"].
Proof. vm_compute. reflexivity. Qed.

(** ** Lemmas *)

Lemma js_sort_map {A B} (f : A → B) (cmp : B → B → Z) (l : list A) :
  js_sort cmp (map f l) = map f (js_sort (λ a b, cmp (f a) (f b)) l).
Proof.
  assert (Hi : ∀ x l, js_insert cmp (f x) (map f l) = map f (js_insert (λ a b, cmp (f a) (f b)) x l)).
  { intros x m. induction m as [|y m IH]; cbn; [done|]. case_match; cbn; [by rewrite IH|done]. }
  induction l as [|x l IH]; [done|]. unfold js_sort in *. cbn. by rewrite IH, Hi.
Qed.

Definition q_sign (a b : Q) : Z := num_diff_sign (Fin a) (Fin b).

Lemma q_sign_le a b : q_sign a b <= 0 ↔ (a <= b)%Q.
Proof.
  unfold q_sign, num_diff_sign, num_lt, num_le.
  destruct (Qle_bool a b) eqn:E1, (Qle_bool b a) eqn:E2; cbn;
    rewrite <- (Qle_bool_iff a b), E1; split; try done; try lia.
  intros _. apply not_true_iff_false in E1, E2. rewrite Qle_bool_iff in E1, E2.
  apply Qnot_le_lt, Qlt_le_weak in E1. done.
Qed.

(** The elements up to the [i]-th of a sorted list, and those before its value. *)
Section counting.
Context {A : Type} (le : A → A → Prop) (leb : A → A → bool).
Hypothesis leb_le : ∀ a b, leb a b = true ↔ le a b.
Hypothesis le_refl : ∀ a, le a a.

Lemma count_sorted l i x :
  StronglySorted le l → l !! i = Some x →
  (S i <= length (List.filter (λ y, leb y x) l))%nat ∧
  (length (List.filter (λ y, negb (leb x y)) l) <= i)%nat.
Proof using leb_le le_refl.
  intros Hs. revert i. induction Hs as [|a l Hl IH Ha]; intros i Hi; [done|].
  rewrite Forall_forall in Ha. destruct i as [|i]; cbn in Hi |- *.
  - injection Hi as ->. rewrite (proj2 (leb_le x x)) by done. cbn. split; [lia|].
    replace (List.filter (λ y, negb (leb x y)) l) with (@nil A); [done|].
    clear IH Hl. induction l as [|b l IH]; cbn; [done|].
    rewrite (proj2 (leb_le x b)) by (apply Ha; left). apply IH. intros y Hy. apply Ha. by right.
  - destruct (IH i Hi) as [H1 H2].
    rewrite (proj2 (leb_le a x)) by (by apply Ha, list_elem_of_lookup_2 with i). cbn. split; [lia|].
    destruct (negb (leb x a)); cbn; lia.
Qed.
End counting.

Lemma filter_length_perm {A} (f : A → bool) l l' :
  Permutation l l' → length (List.filter f l) = length (List.filter f l').
Proof.
  induction 1; cbn; repeat case_match; cbn in *; congruence.
Qed.

(** The rank the program computes in doubles is the exact one, for the percentiles it asks for. *)
Definition exact_rank (c : Z) (n : nat) : Z := (c * Z.of_nat n + 99) / 100.

Lemma ranks_exact n :
  (1 <= n <= 1000)%nat → rank n p50 = Some (exact_rank 50 n) ∧ rank n p95 = Some (exact_rank 95 n).
Proof.
  intros Hn. assert (Hc : forallb (λ n, bool_decide (rank n p50 = Some (exact_rank 50 n)) &&
    bool_decide (rank n p95 = Some (exact_rank 95 n))) (seq 1 1000) = true) by (vm_compute; reflexivity).
  rewrite forallb_forall in Hc. specialize (Hc n ltac:(apply in_seq; lia)).
  by rewrite andb_true_iff, !bool_decide_eq_true in Hc.
Qed.

Definition count_le (x : Q) (qs : list Q) : Z := Z.of_nat (length (List.filter (λ y, Qle_bool y x) qs)).
Definition count_lt (x : Q) (qs : list Q) : Z :=
  Z.of_nat (length (List.filter (λ y, negb (Qle_bool x y)) qs)).

Lemma nearestRank_at qs p c :
  (1 <= length qs <= 1000)%nat → 1 <= c <= 100 →
  num_le p (Fin 0) = false → num_lt (Fin 1) p = false → rank (length qs) p = Some (exact_rank c (length qs)) →
  ∃ x, nearestRank (map Fin qs) p = Ok (Some (Fin x)) ∧ x ∈ qs ∧
       c * Z.of_nat (length qs) <= 100 * count_le x qs ∧ 100 * count_lt x qs < c * Z.of_nat (length qs).
Proof.
  intros Hn Hc H0 H1 Hr. unfold nearestRank. rewrite length_map.
  rewrite (proj2 (Nat.eqb_neq _ _)) by lia. rewrite H0, H1. cbn [orb].
  rewrite js_sort_map, length_map, length_js_sort, Hr. fold q_sign. set (k := exact_rank c (length qs)).
  assert (Hk : c * Z.of_nat (length qs) <= 100 * k < c * Z.of_nat (length qs) + 100).
  { unfold k, exact_rank. pose proof (Z.div_mod (c * Z.of_nat (length qs) + 99) 100 ltac:(lia)).
    pose proof (Z.mod_pos_bound (c * Z.of_nat (length qs) + 99) 100 ltac:(lia)). lia. }
  assert (1 <= k <= Z.of_nat (length qs)) as Hk' by nia.
  rewrite (proj2 (Z.leb_le _ _)) by lia.
  destruct (js_sort q_sign qs !! Z.to_nat (k - 1)) as [x|] eqn:Ex.
  2: { apply lookup_ge_None in Ex. rewrite length_js_sort in Ex. lia. }
  exists x. change (map Fin (js_sort q_sign qs)) with (Fin <$> js_sort q_sign qs).
  rewrite list_lookup_fmap. fold q_sign. rewrite Ex. split; [done|].
  split; [by apply list_elem_of_lookup_2, elem_of_js_sort in Ex|].
  assert (Hs : StronglySorted Qle (js_sort q_sign qs)).
  { eapply StronglySorted_ind with (R := λ a b, q_sign a b <= 0).
    - constructor.
    - intros a l _ IH Ha. constructor; [done|]. eapply Forall_impl; [exact Ha|]. intros b. apply q_sign_le.
    - apply js_sort_sorted.
      + intros a b E. apply q_sign_le. destruct (Qlt_le_dec b a) as [Hl|Hl]; [by apply Qlt_le_weak|].
        apply q_sign_le in Hl. lia.
      + intros a b d Hab Hbd. apply q_sign_le in Hab, Hbd. apply q_sign_le. by eapply Qle_trans. }
  destruct (count_sorted Qle Qle_bool Qle_bool_iff Qle_refl _ _ _ Hs Ex) as [C1 C2].
  rewrite (filter_length_perm _ _ _ (js_sort_perm q_sign qs)) in C1.
  rewrite (filter_length_perm _ _ _ (js_sort_perm q_sign qs)) in C2.
  unfold count_le, count_lt. lia.
Qed.

(** ** Properties *)

(** Nearest rank: on up to a thousand finite samples, the median and the 95th percentile the
    benchmark reports exist, are one of the samples, at least that percentage of the samples are
    no larger, and fewer than that percentage are smaller; the rank, computed with
    floating-point numbers, is never off by one. *)
Theorem nearestRank_spec qs p c :
  (1 <= length qs <= 1000)%nat → (p, c) ∈ [(p50, 50); (p95, 95)] →
  ∃ x, nearestRank (map Fin qs) p = Ok (Some (Fin x)) ∧ x ∈ qs ∧
       c * Z.of_nat (length qs) <= 100 * count_le x qs ∧ 100 * count_lt x qs < c * Z.of_nat (length qs).
Proof.
  intros Hn Hp. destruct (ranks_exact _ Hn) as [R1 R2]. rewrite !elem_of_cons in Hp.
  destruct Hp as [[= -> ->]|[[= -> ->]|Hp]].
  - apply nearestRank_at; [done|lia|reflexivity|reflexivity|done].
  - apply nearestRank_at; [done|lia|reflexivity|reflexivity|done].
  - by apply elem_of_nil in Hp.
Qed.

Lemma operational_point v ps :
  NoDup (map cp_cardinality ps) →
  ∀ p, head (js_sort (λ a b, cp_cardinality b - cp_cardinality a)
               (List.filter (λ p, cp_cardinality p <=? v) ps)) = Some p ↔
  p ∈ ps ∧ cp_cardinality p <= v ∧ ∀ q, q ∈ ps → cp_cardinality q <= v → cp_cardinality q <= cp_cardinality p.
Proof.
  intros Hn. set (cmp := λ a b, cp_cardinality b - cp_cardinality a).
  set (l := List.filter _ ps).
  assert (Hl : ∀ q, q ∈ l ↔ q ∈ ps ∧ cp_cardinality q <= v).
  { intros q. unfold l. by rewrite !list_elem_of_In, filter_In, Z.leb_le. }
  assert (Hs : StronglySorted (λ a b, cmp a b <= 0) (js_sort cmp l)) by (apply js_sort_sorted; unfold cmp; lia).
  assert (Hmax : ∀ p, head (js_sort cmp l) = Some p →
    p ∈ ps ∧ cp_cardinality p <= v ∧ ∀ q, q ∈ ps → cp_cardinality q <= v → cp_cardinality q <= cp_cardinality p).
  { intros p Hp. pose proof (λ q, elem_of_js_sort cmp q l) as He.
    destruct (js_sort cmp l) as [|h t]; [done|]. injection Hp as ->.
    assert (Hin : p ∈ l) by (apply He; left). apply Hl in Hin as [? ?]. split_and!; [done..|].
    intros q Hq Hv. assert (Hq' : q ∈ p :: t) by by apply He, Hl.
    apply elem_of_cons in Hq' as [->|Hq']; [lia|]. inversion Hs as [|? ? _ Hall]; subst.
    rewrite Forall_forall in Hall. specialize (Hall q Hq'). unfold cmp in Hall. lia. }
  intros p. split; [apply Hmax|]. intros (Hp & Hv & Hm).
  assert (Hin : p ∈ js_sort cmp l) by by apply elem_of_js_sort, Hl.
  destruct (head (js_sort cmp l)) as [h|] eqn:Eh.
  - destruct (Hmax h eq_refl) as (Hh & Hvh & Hmh). f_equal.
    assert (E : cp_cardinality h = cp_cardinality p) by (apply Z.le_antisymm; auto).
    clear -Hn Hp Hh E. induction ps as [|a ps IH]; [by apply elem_of_nil in Hp|].
    cbn in Hn. apply NoDup_cons in Hn as [Ha Hn].
    assert (Hnot : ∀ b, b ∈ ps → cp_cardinality b ≠ cp_cardinality a).
    { intros b Hb Eb. apply Ha. rewrite <- Eb. by apply (list_elem_of_fmap_2 cp_cardinality). }
    rewrite elem_of_cons in Hp, Hh. destruct Hp as [->|Hp], Hh as [->|Hh]; auto.
    + by destruct (Hnot h Hh).
    + by destruct (Hnot p Hp).
  - destruct (js_sort cmp l); [by apply elem_of_nil in Hin|done].
Qed.

Lemma decide_open_iff v ps :
  NoDup (map cp_cardinality ps) →
  decideScaleGate v ps = OPEN_PAGINATION_EPIC ↔
  2000 <= v ∨
  ∃ p, p ∈ ps ∧ cp_cardinality p <= v ∧
       (∀ q, q ∈ ps → cp_cardinality q <= v → cp_cardinality q <= cp_cardinality p) ∧
       (cp_hardTriggers p ≠ [] ∨ (cp_softItemCount p = true ∧ cp_softPayload p = true)).
Proof.
  intros Hn. unfold decideScaleGate. pose proof (operational_point v ps Hn) as Hop.
  change (hardItems SCALE_THRESHOLDS) with 2000. destruct (2000 <=? v) eqn:Ev; bool_to_prop; [tauto|].
  destruct (head _) as [p|] eqn:Ep.
  - destruct (proj1 (Hop p) eq_refl) as (H1 & H2 & H3). split.
    + intros Hd. right. exists p. split_and!; [done..|].
      destruct (cp_hardTriggers p); [|by left]. cbn in Hd. case_cond; [|done]. bool_to_prop. by right.
    + intros [?|(q & Hq1 & Hq2 & Hq3 & Hq)]; [lia|].
      assert (Some p = Some q) as [= <-] by (by apply Hop).
      destruct Hq as [Hq|[-> ->]]; [by destruct (cp_hardTriggers p)|by case_cond].
  - split; [done|]. intros [?|(q & Hq1 & Hq2 & Hq3 & Hq)]; [lia|].
    assert (None = Some q) by by apply Hop. done.
Qed.

(** A volume is accepted only when it is a safe non-negative integer, an undeclared one is
    zero, and a plain decimal literal is read as the integer it writes. *)
Theorem parseObservedOperationalVolume_spec v z :
  (parseObservedOperationalVolume v = Ok z → 0 <= z <= MAX_SAFE_INTEGER) ∧
  (∀ s, v = Some s → int_literal s z →
    (parseObservedOperationalVolume v = Ok z ↔ 0 <= z <= MAX_SAFE_INTEGER)) ∧
  (v = None → parseObservedOperationalVolume v = Ok 0).
Proof.
  assert (H1 : parseObservedOperationalVolume v = Ok z → 0 <= z <= MAX_SAFE_INTEGER).
  { unfold parseObservedOperationalVolume. destruct v as [s|]; [|intros [= <-]; unfold MAX_SAFE_INTEGER; lia].
    unfold isSafeInteger. destruct (num_int (js_Number s)) as [y|]; [|done].
    destruct (Z.abs y <=? MAX_SAFE_INTEGER) eqn:E; [|done]. cbn [negb].
    case_cond; [done|]. intros [= ->]. bool_to_prop. lia. }
  split; [done|]. split; [|by intros ->].
  intros s -> Hs. split; [done|]. intros Hz. unfold parseObservedOperationalVolume.
  rewrite (js_Number_int s z Hs). unfold isSafeInteger.
  rewrite num_of_Z_safe by lia. rewrite (proj2 (Z.leb_le _ _)) by lia. cbn [negb].
  rewrite (proj2 (Z.ltb_ge _ _)) by lia.
  replace (str_eqb (trim s) []) with false; [done|]. symmetry. apply str_eqb_neq.
  rewrite trim_trimmed_id by (by eapply int_literal_trimmed).
  destruct Hs as (neg & ds & -> & Hds & _). intros E. by apply app_eq_nil in E as [_ ?].
Qed.

(** *** Triggers *)

Lemma every_true {A} (f : A → option bool) l : every f l = Some true ↔ ∀ x, x ∈ l → f x = Some true.
Proof.
  induction l as [|a l IH]; cbn; [split; [set_solver|done]|].
  destruct (f a) as [[]|] eqn:E; rewrite ?IH; split; intros H.
  - intros x [->|Hx]%elem_of_cons; auto.
  - intros x Hx. apply H. by right.
  - done.
  - specialize (H a ltac:(left)). congruence.
  - done.
  - specialize (H a ltac:(left)). congruence.
Qed.

Lemma elem_of_mapM_join {A B} (f : A → option (list B)) (l : list A) (r : list (list B)) (b : B) :
  mapM f l = Some r → b ∈ mjoin r ↔ ∃ a k, a ∈ l ∧ f a = Some k ∧ b ∈ k.
Proof.
  intros Hr%mapM_Some. rewrite list_elem_of_join. split.
  - intros (k & Hb & Hk). destruct (Forall2_elem_r _ _ _ _ Hr Hk) as (a & Ha & Hf). eauto.
  - intros (a & k & Ha & Hf & Hb). destruct (Forall2_elem_l _ _ _ _ Hr Ha) as (k' & Hk' & Hf'). naive_solver.
Qed.

(** The three kinds of trigger end differently. *)
Lemma suffix_inj (a b s : jsstr) : a ++ s = b ++ s ↔ a = b.
Proof. split; [apply app_inv_tail|by intros ->]. Qed.

Lemma suffix_differs (a b s s' : jsstr) c c' :
  last s = Some c → last s' = Some c' → c ≠ c' → a ++ s ≠ b ++ s'.
Proof.
  intros Hs Hs' Hc E. apply (f_equal last) in E. rewrite !last_app, Hs, Hs' in E. congruence.
Qed.

(** A hard payload trigger is reported for an endpoint exactly when every run of the size
    measured that endpoint at or above the limit, so one outlier run never opens the gate. *)
Theorem payload_trigger_spec runs r0 rest ts endpoint :
  runs = r0 :: rest → confirmedCapacityTriggers runs = Some ts →
  endpoint ++ ":payload>=500KiB" ∈ ts ↔
  ∀ r, r ∈ runs → ∃ e, prop_get endpoint (ms_http r) = Some e ∧ 512000 <= em_bytes e.
Proof.
  intros Hruns. unfold confirmedCapacityTriggers. rewrite Hruns at 1.
  destruct (mapM (endpoint_triggers runs) (fst <$> ms_http r0)) as [a|] eqn:Ea; cbn; [|done].
  destruct (mapM (surface_triggers runs) (fst <$> ms_browser r0)) as [b|] eqn:Eb; cbn; [|done].
  intros [= <-]. rewrite elem_of_app, (elem_of_mapM_join _ _ _ _ Ea), (elem_of_mapM_join _ _ _ _ Eb).
  assert (Hall : every (λ r, (λ e, hardPayloadBytes SCALE_THRESHOLDS <=? em_bytes e)
      <$> prop_get endpoint (ms_http r)) runs = Some true ↔
    ∀ r, r ∈ runs → ∃ e, prop_get endpoint (ms_http r) = Some e ∧ 512000 <= em_bytes e).
  { rewrite every_true. apply forall_proper. intros r. apply imp_iff_compat_l.
    rewrite fmap_Some. apply exist_proper. intros e. apply and_iff_compat_l.
    change (hardPayloadBytes SCALE_THRESHOLDS) with 512000. rewrite <- Z.leb_le. naive_solver. }
  rewrite <- Hall. split.
  - intros [(ep & k & _ & Hk & Hin)|(su & k & _ & Hk & Hin)].
    + unfold endpoint_triggers in Hk. apply bind_Some in Hk as (pc & Hpc & Hk).
      apply bind_Some in Hk as (hc & _ & [= <-]). rewrite elem_of_app in Hin.
      destruct Hin as [Hin|Hin].
      * destruct pc; [|by apply elem_of_nil in Hin]. apply list_elem_of_singleton in Hin.
        by apply suffix_inj in Hin as ->.
      * destruct hc; [|by apply elem_of_nil in Hin]. apply list_elem_of_singleton in Hin.
        exfalso. revert Hin. eapply suffix_differs; [reflexivity|reflexivity|done].
    + unfold surface_triggers in Hk. apply bind_Some in Hk as (uc & _ & [= <-]).
      destruct uc; [|by apply elem_of_nil in Hin]. apply list_elem_of_singleton in Hin.
      exfalso. revert Hin. eapply suffix_differs; [reflexivity|reflexivity|done].
  - intros He. left.
    assert (Hin : endpoint ∈ fst <$> ms_http r0).
    { destruct (proj1 Hall He r0 ltac:(rewrite Hruns; left)) as (e & Hg & _).
      revert Hg. generalize (ms_http r0). intros o. induction o as [|[x y] o IH]; cbn; [done|].
      destruct (str_eqb x endpoint) eqn:E; [apply str_eqb_eq in E as ->; left|right; auto]. }
    destruct (Forall2_elem_l _ _ _ _ (proj1 (mapM_Some _ _ _) Ea) Hin) as (k & _ & Hk).
    exists endpoint, k. split_and!; [done..|]. unfold endpoint_triggers in Hk. rewrite He in Hk. cbn in Hk.
    apply bind_Some in Hk as (hc & _ & [= <-]). left.
Qed.

(** *** Grouping *)

Lemma add_run_keys m g : map fst (add_run m g) = map fst g ∨ map fst (add_run m g) = map fst g ++ [ms_cardinality m].
Proof. induction g as [|[c l] g IH]; cbn; [by right|]. case_match; cbn; [by left|]. destruct IH as [-> | ->]; auto. Qed.

Lemma add_run_elem m g c runs :
  NoDup (map fst g) →
  (c, runs) ∈ add_run m g ↔
  (c ≠ ms_cardinality m ∧ (c, runs) ∈ g) ∨
  (c = ms_cardinality m ∧
   ((∃ old, (c, old) ∈ g ∧ runs = old ++ [m]) ∨ ((∀ old, (c, old) ∉ g) ∧ runs = [m]))).
Proof.
  induction g as [|[d l] g IH]; cbn; intros Hn.
  - split.
    + intros [[= -> ->]|[]%elem_of_nil]%elem_of_cons. right. split; [done|right]. split; [set_solver|done].
    + intros [[_ []%elem_of_nil]|(-> & [(? & []%elem_of_nil & _)|[_ ->]])]. by left.
  - apply NoDup_cons in Hn as [Hd Hn].
    assert (Hnot : ∀ old, (d, old) ∉ g).
    { intros old Ho. apply Hd. by apply (list_elem_of_fmap_2 fst) in Ho. }
    destruct (d =? ms_cardinality m) eqn:E; bool_to_prop.
    + subst d. rewrite elem_of_cons. split.
      * intros [[= -> ->]|H]; [right; split; [done|left; eexists; split; [by left|done]]|].
        destruct (decide (c = ms_cardinality m)) as [->|Hne]; [by destruct (Hnot runs)|].
        left. split; [done|by right].
      * intros [[Hne [[= ? ?]|H]%elem_of_cons]|(-> & [(old & [[= ->]|Ho]%elem_of_cons & ->)|[Hno ->]])].
        -- done.
        -- by right.
        -- by left.
        -- by destruct (Hnot old).
        -- destruct (Hno l). by left.
    + rewrite elem_of_cons, (IH Hn). setoid_rewrite elem_of_cons. split.
      * intros [[= -> ->]|[[? ?]|(-> & [(old & ? & ->)|[Hno ->]])]]; [auto..| |].
        -- right. split; [done|left]. eauto.
        -- right. split; [done|right]. split; [|done]. intros old [[= ? ?]|Ho]; [done|by eapply Hno].
      * intros [[? [[= -> ->]|?]]|(-> & [(old & [[= ? ?]|?] & ->)|[Hno ->]])]; [by left|auto|done| |].
        -- right; right. split; [done|left]. eauto.
        -- right; right. split; [done|right]. split; [|done]. intros old Ho. apply (Hno old). by right.
Qed.

Lemma group_by_size_spec l :
  NoDup (map fst (group_by_size l)) ∧
  ∀ c runs, (c, runs) ∈ group_by_size l ↔
    runs = List.filter (λ m, ms_cardinality m =? c) l ∧ runs ≠ [].
Proof.
  induction l as [|m l [IHn IH]] using rev_ind; [split; [constructor|]|].
  - intros c runs. cbn. split; [by intros []%elem_of_nil|naive_solver].
  - unfold group_by_size in *. rewrite fold_left_app. cbn [fold_left].
    set (g := fold_left (λ acc m, add_run m acc) l []) in *. split.
    + destruct (decide (ms_cardinality m ∈ map fst g)) as [Hin|Hin].
      * replace (map fst (add_run m g)) with (map fst g); [done|]. clear -Hin.
        induction g as [|[c k] g IHg]; cbn in *; [by apply elem_of_nil in Hin|].
        case_match; [done|]. cbn. rewrite <- IHg; [done|]. bool_to_prop.
        apply elem_of_cons in Hin as [?|?]; [congruence|done].
      * destruct (add_run_keys m g) as [-> | ->]; [done|]. apply NoDup_app. split_and!; [done| |].
        -- intros x Hx ->%list_elem_of_singleton. done.
        -- apply NoDup_singleton.
    + intros c runs. rewrite (add_run_elem m g c runs IHn), List.filter_app. cbn. setoid_rewrite IH.
      destruct (ms_cardinality m =? c) eqn:E; bool_to_prop.
      * subst c. split.
        -- intros [[? _]|(_ & [(old & [-> Ho] & ->)|[Hno ->]])]; [done| |].
           ++ split; [done|]. by destruct (List.filter _ l).
           ++ split; [|done]. destruct (List.filter _ l) as [|m0 l0] eqn:Ef; [done|]. by destruct (Hno (m0 :: l0)).
        -- intros [-> _]. right. split; [done|].
           destruct (List.filter (λ m0, ms_cardinality m0 =? ms_cardinality m) l) eqn:Ef.
           ++ right. split; [|done]. intros old [-> ?]. done.
           ++ left. eexists. split; [split; [reflexivity|done]|done].
      * rewrite app_nil_r. split; [intros [[_ ?]|[? _]]; [done|congruence]|]. intros ?. left. split; [congruence|done].
Qed.

Lemma capacity_of_card e c : capacity_of e = Some c → ca_cardinality c = e.1.
Proof. unfold capacity_of. intros (t & _ & [= <-])%bind_Some. done. Qed.

Lemma capacities_cards es cs : mapM capacity_of es = Some cs → map ca_cardinality cs = map fst es.
Proof.
  intros H%mapM_Some. induction H as [|e c es cs He _ IH]; cbn; [done|].
  by rewrite IH, (capacity_of_card e c).
Qed.

Lemma itemCount_cards g cs c :
  mapM capacity_of g = Some cs → c ∈ cs → ca_itemCount c = true ↔ 500 <= ca_cardinality c.
Proof.
  intros Hm Hc. apply mapM_Some in Hm.
  destruct (Forall2_elem_r _ _ _ _ Hm Hc) as (e & _ & He).
  unfold capacity_of in He. apply bind_Some in He as (t & _ & [= <-]).
  cbn [ca_itemCount ca_cardinality]. apply Z.leb_le.
Qed.

(** The decision on the capacities of groups of distinct sizes. *)
Lemma decide_capacities_iff g cs v :
  NoDup (map fst g) → mapM capacity_of g = Some cs →
  decideScaleGate v (capacity_point <$> cs) = OPEN_PAGINATION_EPIC ↔
  2000 <= v ∨ ∃ c, c ∈ cs ∧ ca_cardinality c <= v ∧
    (∀ d, d ∈ cs → ca_cardinality d <= v → ca_cardinality d <= ca_cardinality c) ∧
    (ca_triggers c ≠ [] ∨ (500 <= ca_cardinality c ∧ ca_payload250KiB c = true)).
Proof.
  intros Hn Hm. rewrite decide_open_iff.
  2:{ change (capacity_point <$> cs) with (map capacity_point cs). rewrite map_map.
      by rewrite <- (capacities_cards _ _ Hm) in Hn. }
  apply or_iff_compat_l. split.
  - intros (p & (c & -> & Hc)%list_elem_of_fmap & H1 & H2 & H3). exists c. split_and!; [done..| |].
    + intros d Hd. apply (H2 (capacity_point d)). by apply list_elem_of_fmap_2.
    + cbn in H3. by rewrite (itemCount_cards _ _ _ Hm Hc) in H3.
  - intros (c & Hc & H1 & H2 & H3). exists (capacity_point c).
    split_and!; [by apply list_elem_of_fmap_2|done| |].
    + intros q (d & -> & Hd)%list_elem_of_fmap. by apply H2.
    + cbn. by rewrite (itemCount_cards _ _ _ Hm Hc).
Qed.

(** Every group holds a run of its size that was read from a file. *)
Lemma group_measured files size rs :
  (size, rs) ∈ group_by_size (measurements files) → ∃ f, f ∈ files ∧ ms_cardinality f.2 = size.
Proof.
  intros He. apply (proj2 (group_by_size_spec (measurements files))) in He as [-> Hne].
  destruct (List.filter _ (measurements files)) as [|r t] eqn:Er; [done|].
  assert (Hin : In r (List.filter (λ m, ms_cardinality m =? size) (measurements files)))
    by (rewrite Er; by left).
  apply filter_In in Hin as [Hin Hsz]. bool_to_prop. apply list_elem_of_In in Hin.
  unfold measurements in Hin. apply elem_of_js_sort in Hin.
  apply list_elem_of_fmap in Hin as (f & -> & Hf). apply list_elem_of_In, filter_In in Hf as [Hf _].
  exists f. split; [by apply list_elem_of_In|done].
Qed.

(** C32. What the script decides: it reports one capacity per measured size, each from exactly two
    runs of that size, and opens the gate exactly when the declared volume reaches the hard limit
    or the largest measured size within that volume confirmed a hard trigger or both soft ones; a
    larger, synthetic size has no say, so with nothing declared a benchmark of positive sizes
    keeps the full lists. *)
Theorem summarize_scale_decision volume files su :
  summarize_scale volume files = Ok su →
  (∀ c, c ∈ su_capacity su → ∃ r1 r2,
     List.filter (λ m, ms_cardinality m =? ca_cardinality c) (measurements files) = [r1; r2] ∧
     confirmedCapacityTriggers [r1; r2] = Some (ca_triggers c)) ∧
  (su_decision su = OPEN_PAGINATION_EPIC ↔
   2000 <= su_observed su ∨
   ∃ c, c ∈ su_capacity su ∧ ca_cardinality c <= su_observed su ∧
        (∀ d, d ∈ su_capacity su → ca_cardinality d <= su_observed su → ca_cardinality d <= ca_cardinality c) ∧
        (ca_triggers c ≠ [] ∨ (500 <= ca_cardinality c ∧ ca_payload250KiB c = true))) ∧
  (volume = None → (∀ f, f ∈ files → 0 < ms_cardinality f.2) → su_decision su = KEEP_FULL_LISTS).
Proof.
  unfold summarize_scale. intros (v & Hv & H)%result_bind_ok.
  destruct (group_by_size_spec (measurements files)) as [Hn Hg].
  pose proof (group_measured files) as Hmeas. set (g := group_by_size _) in *.
  destruct (List.find _ g) as [[size rs]|] eqn:Ef; [done|].
  destruct (mapM capacity_of g) as [cs|] eqn:Em; [|done]. injection H as <-.
  cbn [su_capacity su_decision su_observed].
  assert (Hcap : ∀ c, c ∈ cs → ∃ e, e ∈ g ∧ capacity_of e = Some c).
  { intros c Hc. exact (Forall2_elem_r _ _ _ _ (proj1 (mapM_Some _ _ _) Em) Hc). }
  pose proof (decide_capacities_iff g cs v Hn Em) as Hdec. split_and!; [|done|].
  - intros c ([size rs] & He & Hce)%Hcap. rewrite (capacity_of_card _ _ Hce). cbn [fst].
    pose proof (proj1 (Hg size rs) He) as [Hrs _]. rewrite <- Hrs.
    apply list_elem_of_In in He. pose proof (find_none _ _ Ef _ He) as Hl. cbn [snd] in Hl.
    apply negb_false_iff, Nat.eqb_eq in Hl. destruct rs as [|r1 [|r2 [|]]]; try done.
    exists r1, r2. split; [done|]. unfold capacity_of in Hce. cbn [snd] in Hce.
    apply bind_Some in Hce as (t & Ht & [= <-]). done.
  - intros -> Hpos. cbn in Hv. injection Hv as <-.
    destruct (decideScaleGate 0 (capacity_point <$> cs)) eqn:Ed; [done|].
    destruct (proj1 Hdec eq_refl) as [?|(c & Hc & Hle & _)]; [lia|]. exfalso.
    destruct (Hcap c Hc) as ([size rs] & He & Hce). apply capacity_of_card in Hce. cbn in Hce.
    destruct (Hmeas _ _ He) as (f & Hf & Hsz). specialize (Hpos f Hf). lia.
Qed.

(** *** Witnesses *)

Definition demo_run (run : Z) : measurement :=
  {| ms_cardinality := 500; ms_run := run;
     ms_http := [("tenants", {| em_bytes := 600000; em_p95_1 := num_of_Z 20; em_p95_10 := num_of_Z 90 |})];
     ms_browser := [("desktop-tenants", [("render", num_of_Z 40)])] |}.

Definition demo_files : list (jsstr * measurement) :=
  [("raw-500-1.json", demo_run 1); ("raw-500-2.json", demo_run 2); ("summary.json", demo_run 3)].

Lemma nearestRank_spec_witness :
  ∃ x, nearestRank (map Fin [3; 1; 2]%Q) p95 = Ok (Some (Fin x)) ∧ x ∈ [3; 1; 2]%Q.
Proof.
  destruct (nearestRank_spec [3; 1; 2]%Q p95 95) as (x & H1 & H2 & _).
  - cbn. lia.
  - right. left.
  - exists x. split; [exact H1|exact H2].
Defined.

Lemma payload_trigger_spec_witness :
  ∃ ts, confirmedCapacityTriggers [demo_run 1; demo_run 2] = Some ts ∧ "tenants:payload>=500KiB" ∈ ts.
Proof.
  eexists. split; [vm_compute; reflexivity|].
  apply (payload_trigger_spec [demo_run 1; demo_run 2] (demo_run 1) [demo_run 2] _ "tenants" eq_refl);
    [vm_compute; reflexivity|].
  intros r Hr. exists {| em_bytes := 600000; em_p95_1 := num_of_Z 20; em_p95_10 := num_of_Z 90 |}.
  apply elem_of_cons in Hr as [->|Hr]; [split; [reflexivity|cbn; lia]|].
  apply elem_of_cons in Hr as [->|Hr]; [split; [reflexivity|cbn; lia]|].
  exfalso. exact (not_elem_of_nil r Hr).
Defined.

Lemma summarize_scale_decision_witness :
  ∃ su, summarize_scale (Some "700") demo_files = Ok su ∧ su_decision su = OPEN_PAGINATION_EPIC.
Proof.
  eexists. split; [vm_compute; reflexivity|].
  apply (summarize_scale_decision (Some "700") demo_files); [vm_compute; reflexivity|].
  right. eexists. split; [left|]. split; [cbn; lia|]. split.
  - intros d Hd _. apply list_elem_of_singleton in Hd. subst d. cbn. lia.
  - left. discriminate.
Defined.
