(* ===== verification/Lint.v ===== *)
(** * The colocation linter

    [src/web/scripts/lint-colocated-routes.mjs]: it reads a source tree, finds the route modules
    and the modules each is fed by, and reports the modules that belong next to their only route
    or that should leave a private folder.  The file system is a tree ([node]); POSIX paths are
    strings, as in the code.  The command line is in [LintCli]. *)
From Stdlib Require Import ZArith Lia List.
From stdpp Require Import base list sets gmap.
From S2P Require Import Prelude Regex.

(** ** POSIX paths *)

(** Segments of a path, with [.] and empty ones dropped and [..] resolved against the root. *)
Definition push_segment (acc : list jsstr) (w : jsstr) : list jsstr :=
  if str_eqb w [] || str_eqb w "." then acc
  else if str_eqb w ".." then removelast acc
  else acc ++ [w].

Definition segments (s : jsstr) : list jsstr := fold_left push_segment (split 47 s) [].

Definition path_of (ws : list jsstr) : jsstr := "/" ++ join "/" ws.

Definition isAbsolute (s : jsstr) : bool := startsWith "/" s.

(** [resolve(base, s)] for an absolute base. *)
Definition resolve (base s : jsstr) : jsstr :=
  path_of (segments (if isAbsolute s then s else base ++ "/" ++ s)).

(** [join(base, s)] for an absolute base: a trailing slash stays. *)
Definition join_path (base s : jsstr) : jsstr :=
  let p := path_of (segments (base ++ "/" ++ s)) in
  if endsWith "/" s && negb (str_eqb p "/") then p ++ "/" else p.

Fixpoint drop_common (a b : list jsstr) : list jsstr * list jsstr :=
  match a, b with
  | x :: a', y :: b' => if str_eqb x y then drop_common a' b' else (a, b)
  | _, _ => (a, b)
  end.

Definition relative (from to : jsstr) : jsstr :=
  let '(up, down) := drop_common (segments from) (segments to) in
  join "/" (map (λ _, "..") up ++ down).

Definition basename (s : jsstr) : jsstr := default [] (last (List.filter truthy (split 47 s))).

(** [dirname] of a path without trailing slash. *)
Definition dirname (s : jsstr) : jsstr :=
  let ws := split 47 s in
  match removelast ws with
  | [] => "."
  | [[]] => "/"
  | d => join "/" d
  end.

(** The last dot of a name starts its extension, unless nothing or only dots precede it. *)
Definition extname (s : jsstr) : jsstr :=
  let b := basename s in
  match List.rev (split 46 b) with
  | ext :: (_ :: _) as ws =>
    if (length b =? S (length ext))%nat || str_eqb b ".." then [] else 46 :: ext
  | _ => []
  end.

Definition strip_suffix (suffix s : jsstr) : jsstr :=
  if endsWith suffix s && negb (str_eqb s suffix) then take (length s - length suffix) s else s.

Definition stem (file : jsstr) : jsstr := strip_suffix (extname file) (basename file).

(** ** The file system *)

Inductive node :=
  | File (content : jsstr)
  | Dir (entries : list (jsstr * node))
  | Other (content : option jsstr).    (* neither, as [readdir] sees it: a link, a socket *)

Fixpoint entry (name : jsstr) (es : list (jsstr * node)) : option node :=
  match es with
  | [] => None
  | (n, c) :: es' => if str_eqb n name then Some c else entry name es'
  end.

Fixpoint lookup_node (ws : list jsstr) (n : node) : option node :=
  match ws with
  | [] => Some n
  | w :: ws' =>
    match n with
    | Dir es => match entry w es with Some c => lookup_node ws' c | None => None end
    | _ => None
    end
  end.

(** Import edges as the [reverse] map holds them: a file and one of its importers. *)
Abbreviation edges := (list (jsstr * jsstr)).

Section fs.
Context (root : node).

Definition existsSync (p : jsstr) : bool :=
  match lookup_node (segments p) root with
  | Some (Dir _) => true
  | Some _ => negb (endsWith "/" p)
  | None => false
  end.

(** [None]: reading throws. *)
Definition readFileSync (p : jsstr) : option jsstr :=
  match lookup_node (segments p) root with
  | Some (File c) => Some c
  | Some (Other c) => c
  | _ => None
  end.

(** ** The linter's constants *)

Definition SOURCE_EXT : list jsstr := [".ts"; ".tsx"; ".js"; ".jsx"].
Definition SKIP_DIR_NAMES : list jsstr := ["node_modules"; "dist"; "build"; "coverage"; "paraglide"; ".git"].

Definition TEST_RE : re := RSeqs [RStr "."; RAlt (RStr "test") (RStr "spec"); RStr "."].
Definition D_TS_RE : re := RSeq (RStr ".d.ts") (REol false).

Definition quote_class : cset := one_of ("'" ++ dq).
Definition quoted (n : nat) : re :=
  RSeqs [RChar quote_class; RGroup n (RPlus (RChar (λ c, negb (quote_class c)))); RChar quote_class].
Definition spaces : re := RStar true (RChar is_ws).

Definition IMPORT_FROM_RE : re :=
  RAlt (RSeqs [RWordB; RAlt (RStr "from") (RStr "import"); spaces; RStr "("; spaces; quoted 1; spaces; RStr ")"])
       (RSeqs [RWordB; RStr "from"; RPlus (RChar is_ws); quoted 2]).

Definition ROUTE_FACTORY_RE : re :=
  RSeqs [RWordB;
         RAlts (RStr "createRoute") [RStr "createFileRoute"; RStr "createLazyRoute"; RStr "createRootRoute";
                                     RStr "createRootRouteWithContext"];
         spaces; RChar (one_of "<(")].
Definition ROUTE_EXPORT_RE : re :=
  RSeqs [RWordB; RStr "export"; RPlus (RChar is_ws); RStr "const"; RPlus (RChar is_ws); RStr "Route"; RWordB].

Definition CODE_EXT_RE : re :=
  RSeqs [RStr "."; RAlts (RStr "tsx") [RStr "ts"; RStr "jsx"; RStr "js"]; REol false].

(** ** Files *)

(** [walk]: the source files under a directory, in the order the directory lists them. *)
Fixpoint walk (dir : jsstr) (n : node) : list jsstr :=
  match n with
  | Dir es =>
    (fix entries (es : list (jsstr * node)) : list jsstr :=
       match es with
       | [] => []
       | (name, c) :: es' =>
         (if startsWith "." name && negb (str_eqb name ".") then []
          else
            let full := join_path dir name in
            match c with
            | Dir _ => if bool_decide (name ∈ SKIP_DIR_NAMES) then [] else walk full c
            | File _ =>
              if test D_TS_RE name then []
              else if negb (bool_decide (extname name ∈ SOURCE_EXT)) then []
              else [full]
            | Other _ => []
            end) ++ entries es'
       end) es
  | _ => []
  end.

Definition listSourceFiles (dir : jsstr) : list jsstr :=
  js_sort str_cmp (match lookup_node (segments dir) root with Some n => walk dir n | None => [] end).

(** ** Imports *)

Definition BLOCK_COMMENT : re := RSeqs [RStr "/*"; RStar false (RChar any_char); RStr "*/"].
Definition LINE_COMMENT : re :=
  RSeqs [RGroup 1 (RAlt (RBol true) (RChar (none_of ":\"))); RStr "//"; RStar true (RChar dot); REol true].

Definition stripComments (source : jsstr) : jsstr :=
  replace_all LINE_COMMENT (λ _ y, default [] (cap 1 y))
    (replace_all BLOCK_COMMENT (λ _ _, []) source).

Definition importSpecifiers (source : jsstr) : list jsstr :=
  omap (λ m : jsstr * mst,
          match (match cap 1 m.2 with Some s => Some s | None => cap 2 m.2 end) with
          | Some spec => if truthy spec then Some spec else None
          | None => None
          end) (matchAll IMPORT_FROM_RE (stripComments source)).

Definition existingSource (target : jsstr) : option jsstr :=
  let stripped := replace_first CODE_EXT_RE (λ _ _, []) target in
  let candidates :=
    [target; stripped ++ ".tsx"; stripped ++ ".ts"; stripped ++ ".jsx"; stripped ++ ".js";
     join_path stripped "index.tsx"; join_path stripped "index.ts"; join_path stripped "index.jsx";
     join_path stripped "index.js"] in
  (λ c, resolve "/" c)
    <$> List.find (λ c, existsSync c && bool_decide (extname c ∈ SOURCE_EXT)) candidates.

Definition resolveImport (fromFile spec srcDir : jsstr) : option jsstr :=
  if str_eqb spec [] then None
  else if startsWith [0] spec then None
  else if startsWith "@/" spec then existingSource (join_path srcDir (drop 2 spec))
  else if startsWith "./" spec || startsWith "../" spec then
    existingSource (resolve (dirname fromFile) spec)
  else None.

(** ** Classification *)

Definition isUnder (file dir : jsstr) : bool :=
  let relPath := relative dir file in
  negb (str_eqb relPath []) && negb (startsWith ".." relPath) && negb (isAbsolute relPath).

Definition pathsEqual (a b : jsstr) : bool := str_eqb (resolve "/" a) (resolve "/" b).

(** On POSIX the separator is already a slash. *)
Definition rel (base file : jsstr) : jsstr := relative base file.

Definition hasPrivateSegment (relPath : jsstr) : bool := existsb (startsWith "-") (split 47 relPath).

Definition isRouteModule (file routesDir source : jsstr) (treeImported : list jsstr) : bool :=
  if negb (isUnder file routesDir) then false
  else if test TEST_RE file then false
  else if hasPrivateSegment (relative routesDir file) then false
  else if bool_decide (file ∈ treeImported) then true
  else test ROUTE_FACTORY_RE source || test ROUTE_EXPORT_RE source.

Definition isRootRoute (file : jsstr) : bool := startsWith "__root" (basename file).

Definition isCandidate (file srcDir routesDir : jsstr) : bool :=
  if isUnder file (join_path srcDir "components/ui") then false
  else if isUnder file (join_path srcDir "lib") then false
  else if isUnder file (join_path srcDir "locales") then false
  else if isUnder file (join_path srcDir "config") then false
  else if isUnder file (join_path srcDir "types") then false
  else if isUnder file (join_path srcDir "test") then false
  else if isUnder file routesDir then true
  else isUnder file (join_path srcDir "components") || isUnder file (join_path srcDir "hooks").

Definition TREE_FILENAMES : list jsstr :=
  ["router.tsx"; "router.ts"; "routeTree.tsx"; "routeTree.ts"; "route-tree.tsx"; "route-tree.ts"].

(** The route files a route tree imports; [None] when a tree exists but cannot be read. *)
Definition routeFilesImportedByTree (srcDir routesDir : jsstr) (files : list jsstr)
    (contents : jsstr → option jsstr) : option (list jsstr) :=
  let of_tree (name : jsstr) : option (list jsstr) :=
    let tree := join_path srcDir name in
    if negb (bool_decide (tree ∈ files)) && negb (existsSync tree) then Some []
    else
      source ← match contents tree with
               | Some s => Some s
               | None => if existsSync tree then readFileSync tree else Some []
               end;
      Some (List.filter (λ target, isUnder target routesDir && bool_decide (target ∈ files))
              (omap (λ spec, resolveImport tree spec srcDir) (importSpecifiers source))) in
  (λ l, concat l) <$> mapM of_tree TREE_FILENAMES.

(** ** Consumers *)

Definition importers (reverse : edges) (file : jsstr) : list jsstr :=
  snd <$> List.filter (λ e, str_eqb e.1 file) reverse.

Record search := { seen : list jsstr; routes : list jsstr; stack : list jsstr }.

Definition visit (routeSet : list jsstr) (s : search) (importer : jsstr) : search :=
  if bool_decide (importer ∈ seen s) then s
  else
    let seen' := importer :: seen s in
    if test TEST_RE importer then {| seen := seen'; routes := routes s; stack := stack s |}
    else if bool_decide (importer ∈ routeSet) then
      {| seen := seen'; routes := importer :: routes s; stack := stack s |}
    else {| seen := seen'; routes := routes s; stack := importer :: stack s |}.

(** The loop; the head of [stack] is its top. *)
Fixpoint consume (fuel : nat) (reverse : edges) (routeSet : list jsstr) (s : search) : search :=
  match fuel with
  | O => s
  | S n =>
    match stack s with
    | [] => s
    | current :: rest =>
      consume n reverse routeSet
        (fold_left (visit routeSet) (importers reverse current)
           {| seen := seen s; routes := routes s; stack := rest |})
    end
  end.

Definition routeConsumers (file : jsstr) (reverse : edges) (routeSet : list jsstr) : list jsstr :=
  js_sort str_cmp
    (routes (consume (S (length reverse)) reverse routeSet
               {| seen := [file]; routes := []; stack := [file] |})).

(** ** Destinations *)

Definition routeFolder (routeFile routesDir : jsstr) : jsstr :=
  let dir := dirname (relative routesDir routeFile) in
  let st := stem routeFile in
  if str_eqb st "index" || str_eqb st "_index" then
    if str_eqb dir "." then routesDir else join_path routesDir dir
  else if str_eqb dir "." then join_path routesDir st else join_path routesDir (dir ++ "/" ++ st).

Definition isFlatRouteFile (routeFile routesDir : jsstr) : bool :=
  let st := stem routeFile in
  negb (str_eqb st "index") && negb (str_eqb st "_index") && negb (str_eqb st "__root").

Definition colocatedTarget (file routesDir : jsstr) : bool :=
  if negb (isUnder file routesDir) then false else hasPrivateSegment (relative routesDir file).

Inductive private_kind := hooks | queries | components.

Definition USE_DASH : re := RSeq (RBol false) (RStr "use-").
Definition USE_UPPER : re := RSeqs [RBol false; RStr "use"; RChar is_upper].
Definition DASH_QUERIES : re := RStr "-queries.".
Definition BOL_QUERIES : re := RSeq (RBol false) (RStr "queries.").

Definition privateKind (file : jsstr) : private_kind :=
  let base := basename file in
  let parts := split_on (one_of "/\") file in
  if bool_decide ("-hooks" ∈ parts) || bool_decide ("hooks" ∈ parts)
     || test USE_DASH base || test USE_UPPER base then hooks
  else if test DASH_QUERIES base || test BOL_QUERIES base then queries
  else components.

Definition suggestedPath (file routeFile routesDir : jsstr) : jsstr :=
  let folder := routeFolder routeFile routesDir in
  let name := basename file in
  match privateKind file with
  | queries => join_path folder (if startsWith "-" name then name else "-" ++ name)
  | hooks => join_path folder ("-hooks/" ++ name)
  | components => join_path folder ("-components/" ++ name)
  end.

Definition liftDestination (file srcDir : jsstr) : jsstr :=
  let name := match basename file with 45 :: r => r | b => b end in
  match privateKind file with
  | hooks => join_path srcDir ("hooks/" ++ name)
  | queries => join_path srcDir ("lib/" ++ name)
  | components => join_path srcDir ("components/" ++ name)
  end.

(** ** The linter *)

Inductive finding_kind := colocate | lift.

Record finding := {
  fi_kind : finding_kind;
  fi_file : jsstr;
  fi_consumers : list jsstr;
  fi_suggested : jsstr;
  fi_convertRouteToFolder : bool;
}.

Record lint_result := {
  li_appRoot : jsstr; li_srcDir : jsstr; li_routesDir : jsstr;
  li_routeCount : nat; li_findings : list finding;
}.

Inductive lint_error := SrcNotFound (p : jsstr) | RoutesNotFound (p : jsstr) | Unreadable.

Definition contents_of (files : list jsstr) (file : jsstr) : option jsstr :=
  if bool_decide (file ∈ files) then readFileSync file else None.

(** The targets of a file's imports that are files of the tree, in order. *)
Definition import_targets (srcDir : jsstr) (files : list jsstr) (file : jsstr) : list jsstr :=
  List.filter (λ target, bool_decide (target ∈ files))
    (omap (λ spec, resolveImport file spec srcDir)
       (importSpecifiers (default [] (contents_of files file)))).

Definition reverse_edges (srcDir : jsstr) (files : list jsstr) : edges :=
  concat (map (λ file, map (λ target, (target, file)) (import_targets srcDir files file)) files).

(** One turn of the loop over the files. *)
Definition lint_file (appRoot srcDir routesDir : jsstr) (reverse : edges) (routeSet : list jsstr)
    (file : jsstr) : option finding :=
  if test TEST_RE file || test D_TS_RE file then None
  else if bool_decide (file ∈ routeSet) then None
  else if negb (isCandidate file srcDir routesDir) then None
  else
    let consumers := routeConsumers file reverse routeSet in
    if (length consumers =? 0)%nat then None
    else
      let pageConsumers := List.filter (λ route, negb (isRootRoute route)) consumers in
      let already := colocatedTarget file routesDir in
      match pageConsumers with
      | [route] =>
        let dest := suggestedPath file route routesDir in
        if pathsEqual file dest then None
        else Some {| fi_kind := colocate; fi_file := rel appRoot file;
                     fi_consumers := map (rel appRoot) pageConsumers; fi_suggested := rel appRoot dest;
                     fi_convertRouteToFolder := isFlatRouteFile route routesDir |}
      | _ =>
        if already && (1 <? length pageConsumers)%nat then
          Some {| fi_kind := lift; fi_file := rel appRoot file;
                  fi_consumers := map (rel appRoot) pageConsumers;
                  fi_suggested := rel appRoot (liftDestination file srcDir);
                  fi_convertRouteToFolder := false |}
        else None
      end.

Definition route_files (routesDir : jsstr) (files treeImported : list jsstr) : list jsstr :=
  List.filter (λ file, isRouteModule file routesDir (default [] (contents_of files file)) treeImported) files.

(** [localeCompare] is the host's collation; it orders the report only. *)
Definition lintColocatedRoutes (localeCompare : jsstr → jsstr → Z) (cwd : jsstr) (src : option jsstr) :
    result lint_error lint_result :=
  let appRoot := resolve "/" cwd in
  let srcDir := resolve appRoot (default "src" src) in
  let routesDir := join_path srcDir "routes" in
  if negb (existsSync srcDir) then Err (SrcNotFound srcDir)
  else if negb (existsSync routesDir) then Err (RoutesNotFound routesDir)
  else
    let files := listSourceFiles srcDir in
    let reverse := reverse_edges srcDir files in
    match routeFilesImportedByTree srcDir routesDir files (contents_of files) with
    | None => Err Unreadable
    | Some treeImported =>
      let routeFiles := route_files routesDir files treeImported in
      Ok {| li_appRoot := appRoot; li_srcDir := srcDir; li_routesDir := routesDir;
            li_routeCount := length routeFiles;
            li_findings := js_sort (λ a b, localeCompare (fi_file a) (fi_file b))
                             (omap (lint_file appRoot srcDir routesDir reverse routeFiles) files) |}
    end.
End fs.

(** ** The report and the arguments *)

Definition finding_lines (f : finding) : list jsstr :=
  [(match fi_kind f with lift => "LIFT     " | colocate => "COLLOCATE" end) ++ "  " ++ fi_file f;
   "  consumers: " ++ join ", " (fi_consumers f);
   "  move to:   " ++ fi_suggested f]
  ++ (if fi_convertRouteToFolder f then
        match fi_consumers f with
        | route :: _ =>
          ["  first:     " ++ route ++ " → " ++ replace_first CODE_EXT_RE (λ _ _, []) route
             ++ "/index" ++ extname route]
        | [] => []
        end
      else [])
  ++ [[]].

(** The plain report; the [--json] form prints the same record. *)
Definition formatFindings (r : lint_result) : jsstr :=
  match li_findings r with
  | [] => "colocated-routes: 0 findings (" ++ show_int (Z.of_nat (li_routeCount r)) ++ " routes)" ++ [10]
  | findings =>
    join [10]
      (["colocated-routes: " ++ show_int (Z.of_nat (length findings)) ++ " finding(s) ("
          ++ show_int (Z.of_nat (li_routeCount r)) ++ " routes)"; []]
       ++ concat (map finding_lines findings))
  end.

Record lint_opts := { lo_cwd : jsstr; lo_src : option jsstr; lo_json : bool; lo_report : bool; lo_help : bool }.

Definition set_cwd c o := {| lo_cwd := c; lo_src := lo_src o; lo_json := lo_json o; lo_report := lo_report o; lo_help := lo_help o |}.
Definition set_src s o := {| lo_cwd := lo_cwd o; lo_src := s; lo_json := lo_json o; lo_report := lo_report o; lo_help := lo_help o |}.
Definition set_json o := {| lo_cwd := lo_cwd o; lo_src := lo_src o; lo_json := true; lo_report := lo_report o; lo_help := lo_help o |}.
Definition set_report o := {| lo_cwd := lo_cwd o; lo_src := lo_src o; lo_json := lo_json o; lo_report := true; lo_help := lo_help o |}.
Definition set_help o := {| lo_cwd := lo_cwd o; lo_src := lo_src o; lo_json := lo_json o; lo_report := lo_report o; lo_help := true |}.

(** The loop over the arguments; [cwd] is the process's directory. *)
Fixpoint parse_args (cwd : jsstr) (argv : list jsstr) (o : lint_opts) : result jsstr lint_opts :=
  match argv with
  | [] => Ok o
  | arg :: rest =>
    if str_eqb arg "--help" || str_eqb arg "-h" then parse_args cwd rest (set_help o)
    else if str_eqb arg "--json" then parse_args cwd rest (set_json o)
    else if str_eqb arg "--report" then parse_args cwd rest (set_report o)
    else if str_eqb arg "--cwd" then
      match rest with
      | v :: rest' => parse_args cwd rest' (set_cwd (resolve cwd v) o)
      | [] => Ok (set_cwd (resolve cwd []) o)
      end
    else if str_eqb arg "--src" then
      match rest with
      | v :: rest' => parse_args cwd rest' (set_src (Some v) o)
      | [] => Ok (set_src None o)
      end
    else if startsWith "--cwd=" arg then parse_args cwd rest (set_cwd (resolve cwd (drop 6 arg)) o)
    else if startsWith "--src=" arg then parse_args cwd rest (set_src (Some (drop 6 arg)) o)
    else Err ("unknown flag: " ++ arg)
  end.

Definition parseArgs (cwd : jsstr) (argv : list jsstr) : result jsstr lint_opts :=
  parse_args cwd argv {| lo_cwd := cwd; lo_src := None; lo_json := false; lo_report := false; lo_help := false |}.

(** *** A tree to run it on *)

Definition demo_tree : node := Dir [("app", Dir [("src", Dir [
  ("components", Dir [("card.tsx", File "export const Card = 1")]);
  ("router.tsx", File ("import { Route } from " ++ dq ++ "./routes/home/index" ++ dq));
  ("routes", Dir [
    ("home", Dir [("index.tsx", File ("import { Card } from " ++ dq ++ "@/components/card" ++ dq ++ " // x"))]);
    ("users.tsx", File "export const Route = createRoute({})")])])])].

Example lint_ex :
  match lintColocatedRoutes demo_tree str_cmp "/app" None with
  | Ok r => Some (li_routeCount r, map (λ f, (fi_file f, fi_consumers f, fi_suggested f)) (li_findings r))
  | Err _ => None
  end = Some (2%nat, [("src/components/card.tsx", ["src/routes/home/index.tsx"],
                       "src/routes/home/-components/card.tsx")]).
Proof. vm_compute. reflexivity. Qed.

(** ** Which routes a file feeds *)

Section consumers.
Context (reverse : edges) (routeSet : list jsstr) (file : jsstr).

(** The modules the file reaches through imports that stop at tests and at routes. *)
Inductive feeds : jsstr → Prop :=
  | feeds_self : feeds file
  | feeds_importer a b :
      feeds a → b ∈ importers reverse a → test TEST_RE b = false → b ∉ routeSet → feeds b.

Definition consumer (x : jsstr) : Prop :=
  x ≠ file ∧ x ∈ routeSet ∧ test TEST_RE x = false ∧ ∃ a, feeds a ∧ x ∈ importers reverse a.

(** The invariant of the loop; the importers of [busy] are being visited. *)
Record search_inv (busy : option jsstr) (s : search) : Prop := {
  si_file : file ∈ seen s;
  si_stack x : x ∈ stack s → feeds x;
  si_seen x : x ∈ seen s → x = file ∨ ∃ a, feeds a ∧ x ∈ importers reverse a;
  si_nodup : NoDup (routes s);
  si_routes x : x ∈ routes s ↔ x ∈ seen s ∧ x ≠ file ∧ test TEST_RE x = false ∧ x ∈ routeSet;
  si_done a :
    a ∈ seen s → a = file ∨ (test TEST_RE a = false ∧ a ∉ routeSet) →
    a ∈ stack s ∨ busy = Some a ∨ ∀ y, y ∈ importers reverse a → y ∈ seen s;
}.

Lemma visit_seen s x y : y ∈ seen (visit routeSet s x) ↔ y = x ∨ y ∈ seen s.
Proof. unfold visit. repeat case_cond; bool_to_prop; cbn; rewrite ?elem_of_cons; naive_solver. Qed.

Lemma visit_inv busy s x a :
  feeds a → x ∈ importers reverse a → search_inv busy s → search_inv busy (visit routeSet s x).
Proof.
  intros Ha Hx [Hf Hst Hse Hnd Hr Hd].
  assert (Hseen : ∀ y, y ∈ seen (visit routeSet s x) → y = file ∨ ∃ a, feeds a ∧ y ∈ importers reverse a).
  { intros y [->|Hy]%visit_seen; eauto. }
  assert (Hin : file ∈ seen (visit routeSet s x)) by (apply visit_seen; by right).
  revert Hin Hseen. unfold visit. destruct (bool_decide (x ∈ seen s)) eqn:Es; bool_to_prop; [done|].
  assert (Hxf : x ≠ file) by by intros ->.
  destruct (test TEST_RE x) eqn:Et; [|destruct (bool_decide (x ∈ routeSet)) eqn:Er; bool_to_prop];
    cbn [seen routes stack]; intros Hin Hseen; split; cbn [seen routes stack]; try done.
  all: try (intros b Hb Hc; apply elem_of_cons in Hb as [->|Hb];
    [first [destruct Hc as [?|[? ?]]; [done|congruence]|by left; left]
    |destruct (Hd b Hb Hc) as [H|[H|H]]; [left; first [done|by right]|by right; left|
      right; right; intros y Hy; right; by apply H]]).
  - intros y. rewrite Hr, elem_of_cons. split; [tauto|]. intros ([->|?] & ? & ? & ?); [congruence|tauto].
  - apply NoDup_cons. split; [|done]. by rewrite Hr; intros [? _].
  - intros y. rewrite !elem_of_cons, Hr. split.
    + intros [->|?]; tauto.
    + intros ([->|?] & ? & ? & ?); tauto.
  - intros y [->|Hy]%elem_of_cons; [by eapply feeds_importer|auto].
  - intros y. rewrite Hr, elem_of_cons. split; [tauto|]. intros ([->|?] & ? & ? & ?); [done|tauto].
Qed.

Lemma visits_inv busy l s a :
  feeds a → (∀ x, x ∈ l → x ∈ importers reverse a) → search_inv busy s →
  search_inv busy (fold_left (visit routeSet) l s) ∧
  (∀ y, y ∈ seen (fold_left (visit routeSet) l s) ↔ y ∈ l ∨ y ∈ seen s).
Proof.
  intros Ha. revert s. induction l as [|x l IH]; intros s Hl Hs; cbn [fold_left].
  - split; [done|]. intros y. rewrite elem_of_nil. tauto.
  - destruct (IH (visit routeSet s x)) as [H1 H2].
    + intros y Hy. apply Hl. by right.
    + eapply visit_inv; [done|apply Hl; left|done].
    + split; [done|]. intros y. rewrite H2, visit_seen, elem_of_cons. tauto.
Qed.

Lemma consume_step_inv s current rest :
  search_inv None s → stack s = current :: rest →
  search_inv None (fold_left (visit routeSet) (importers reverse current)
                     {| seen := seen s; routes := routes s; stack := rest |}).
Proof.
  intros [Hf Hst Hse Hnd Hr Hd] E. assert (Hc : feeds current) by (apply Hst; rewrite E; left).
  destruct (visits_inv (Some current) (importers reverse current)
    {| seen := seen s; routes := routes s; stack := rest |} current Hc (λ _ H, H)) as [[Kf Kst Kse Knd Kr Kd] Hs].
  { split; cbn; [done| |done|done|done|].
    - intros x Hx. apply Hst. rewrite E. by right.
    - intros a Ha Hok. destruct (Hd a Ha Hok) as [H|[H|H]]; [|done|auto].
      rewrite E in H. apply elem_of_cons in H as [->|H]; auto. }
  split; [done..|]. intros a Ha Hok. destruct (Kd a Ha Hok) as [H|[[= ->]|H]]; [by left| |auto].
  right; right. intros y Hy. apply Hs. by left.
Qed.

(** What is left to do: the importers not seen yet, and the stack. *)
Definition unseen (s : search) : nat :=
  length (List.filter (λ e, negb (bool_decide (e.2 ∈ seen s))) reverse).

Lemma filter_length_le {A} (p q : A → bool) l :
  (∀ x, p x = true → q x = true) →
  (length (List.filter p l) <= length (List.filter q l))%nat.
Proof.
  intros H. induction l as [|a l IH]; cbn; [done|]. destruct (p a) eqn:Ep.
  - rewrite (H a Ep). cbn. lia.
  - destruct (q a); cbn; lia.
Qed.

Lemma filter_length_lt {A} (p q : A → bool) l x :
  (∀ x, p x = true → q x = true) → x ∈ l → p x = false → q x = true →
  (length (List.filter p l) < length (List.filter q l))%nat.
Proof.
  intros H Hx Hp Hq. induction l as [|a l IH]; [by apply elem_of_nil in Hx|].
  pose proof (filter_length_le p q l H) as Hle. apply elem_of_cons in Hx as [->|Hx]; cbn.
  - rewrite Hp, Hq. cbn. lia.
  - specialize (IH Hx). destruct (p a) eqn:Ep; [rewrite (H a Ep); cbn; lia|]. destruct (q a); cbn; lia.
Qed.

Lemma importers_edge a x : x ∈ importers reverse a → (a, x) ∈ reverse.
Proof.
  unfold importers. intros ([b y] & -> & Hy)%list_elem_of_fmap.
  apply list_elem_of_In, filter_In in Hy as [Hy E]. apply str_eqb_eq in E. cbn in E. subst b.
  by apply list_elem_of_In.
Qed.

Lemma visit_measure s x a :
  x ∈ importers reverse a →
  (unseen (visit routeSet s x) + length (stack (visit routeSet s x)) <= unseen s + length (stack s))%nat.
Proof.
  intros Hx%importers_edge. unfold visit. destruct (bool_decide (x ∈ seen s)) eqn:E; [done|]. bool_to_prop.
  assert (Hlt : ∀ r k, (unseen {| seen := x :: seen s; routes := r; stack := k |} < unseen s)%nat).
  { intros r k. apply (filter_length_lt _ _ _ (a, x)); cbn.
    - intros e. rewrite !negb_true_iff, !bool_decide_eq_false. set_solver.
    - done.
    - rewrite negb_false_iff, bool_decide_eq_true. left.
    - by rewrite negb_true_iff, bool_decide_eq_false. }
  repeat case_cond; cbn [stack];
    match goal with |- context [unseen ?t] => pose proof (Hlt (routes t) (stack t)) end; cbn in *; lia.
Qed.

Lemma visits_measure l s a :
  (∀ x, x ∈ l → x ∈ importers reverse a) →
  (unseen (fold_left (visit routeSet) l s) + length (stack (fold_left (visit routeSet) l s))
   <= unseen s + length (stack s))%nat.
Proof.
  revert s. induction l as [|x l IH]; intros s Hl; cbn [fold_left]; [done|].
  etransitivity; [apply IH; intros y Hy; apply Hl; by right|].
  eapply visit_measure, Hl. left.
Qed.

Lemma consume_done n s :
  search_inv None s → (unseen s + length (stack s) <= n)%nat →
  search_inv None (consume n reverse routeSet s) ∧ stack (consume n reverse routeSet s) = [].
Proof.
  revert s. induction n as [|n IH]; intros s Hs Hm; cbn [consume].
  - split; [done|]. destruct (stack s); [done|cbn in Hm; lia].
  - destruct (stack s) as [|current rest] eqn:E; [done|]. apply IH; [by apply consume_step_inv|].
    etransitivity; [by eapply visits_measure|].
    assert (Hu : unseen {| seen := seen s; routes := routes s; stack := rest |} = unseen s) by done.
    rewrite Hu. cbn in *. lia.
Qed.

Lemma initial_search_inv : search_inv None {| seen := [file]; routes := []; stack := [file] |}.
Proof.
  split; cbn; try set_solver.
  - intros x ->%list_elem_of_singleton. apply feeds_self.
  - constructor.
Qed.
End consumers.

Lemma consumers_state file reverse routeSet :
  let s := consume (S (length reverse)) reverse routeSet
             {| seen := [file]; routes := []; stack := [file] |} in
  search_inv reverse routeSet file None s ∧ stack s = [].
Proof.
  apply consume_done; [apply initial_search_inv|]. unfold unseen.
  pose proof (List.filter_length_le (λ e, negb (bool_decide (e.2 ∈ [file]))) reverse).
  cbn [stack seen length]. lia.
Qed.

Lemma routeConsumers_nodup file reverse routeSet : NoDup (routeConsumers file reverse routeSet).
Proof.
  unfold routeConsumers. rewrite js_sort_perm. apply (si_nodup _ _ _ _ _ (proj1 (consumers_state file reverse routeSet))).
Qed.

(** The routes found are the module's consumers. *)
Lemma elem_of_routeConsumers file reverse routeSet x :
  x ∈ routeConsumers file reverse routeSet ↔ consumer reverse routeSet file x.
Proof.
  unfold routeConsumers. rewrite elem_of_js_sort.
  destruct (consumers_state file reverse routeSet) as [[Hf Hst Hse Hnd Hr Hd] Hend].
  set (s := consume _ _ _ _) in *. rewrite Hr. unfold consumer. split.
  - intros (Hs & Hne & Ht & Hin). split_and!; [done..|]. by destruct (Hse x Hs).
  - intros (Hne & Hin & Ht & a & Ha & Hx). split_and!; [|done..].
    assert (Hclosed : ∀ a, feeds reverse routeSet file a →
      a ∈ seen s ∧ ∀ y, y ∈ importers reverse a → y ∈ seen s).
    { intros b Hb. induction Hb as [|b c Hb [_ IH] Hc Htc Hrc].
      - split; [done|]. destruct (Hd file Hf (or_introl eq_refl)) as [H|[H|H]]; [|done|done].
        rewrite Hend in H. by apply elem_of_nil in H.
      - assert (Hcs : c ∈ seen s) by by apply IH. split; [done|].
        destruct (Hd c Hcs (or_intror (conj Htc Hrc))) as [H|[H|H]]; [|done|done].
        rewrite Hend in H. by apply elem_of_nil in H. }
    by apply (Hclosed a Ha).
Qed.

(** ** Properties *)

(** The page routes a module of the tree feeds. *)
Definition page (root : node) (srcDir routesDir : jsstr) (treeImported : list jsstr) (file x : jsstr) : Prop :=
  let files := listSourceFiles root srcDir in
  consumer (reverse_edges root srcDir files) (route_files root routesDir files treeImported) file x ∧
  isRootRoute x = false.

(** The modules the linter looks at. *)
Definition module (root : node) (srcDir routesDir : jsstr) (treeImported : list jsstr) (file : jsstr) : Prop :=
  let files := listSourceFiles root srcDir in
  file ∈ files ∧ test TEST_RE file = false ∧ test D_TS_RE file = false ∧
  (file ∉ route_files root routesDir files treeImported) ∧ isCandidate file srcDir routesDir = true.

(** A list without duplicates by what it holds. *)
Lemma nodup_shape {A} (l : list A) :
  NoDup l →
  match l with
  | [] => ∀ x, x ∉ l
  | [a] => ∀ x, x ∈ l ↔ x = a
  | a :: b :: _ => a ≠ b ∧ a ∈ l ∧ b ∈ l
  end.
Proof.
  destruct l as [|a [|b l]]; intros Hn; [intros x; apply not_elem_of_nil|intros x; apply list_elem_of_singleton|].
  apply NoDup_cons in Hn as [Ha _]. set_solver.
Qed.

Lemma lint_file_None appRoot srcDir routesDir reverse routeSet file :
  test TEST_RE file = false → test D_TS_RE file = false → file ∉ routeSet →
  isCandidate file srcDir routesDir = true →
  let P x := consumer reverse routeSet file x ∧ isRootRoute x = false in
  lint_file appRoot srcDir routesDir reverse routeSet file = None ↔
  (∀ route, P route → (∀ x, P x → x = route) →
     pathsEqual file (suggestedPath file route routesDir) = true) ∧
  (colocatedTarget file routesDir = true → ∀ a b, P a → P b → a = b).
Proof.
  intros Ht Hd Hr Hc P. unfold lint_file. rewrite Ht, Hd, bool_decide_false, Hc by done. cbn [orb negb].
  pose proof (elem_of_routeConsumers file reverse routeSet) as He.
  pose proof (routeConsumers_nodup file reverse routeSet) as Hn.
  set (cs := routeConsumers file reverse routeSet) in *.
  set (ps := List.filter (λ route, negb (isRootRoute route)) cs).
  assert (Hp : ∀ x, x ∈ ps ↔ P x).
  { intros x. unfold ps, P. rewrite list_elem_of_In, filter_In, <- list_elem_of_In, He, negb_true_iff. done. }
  assert (Hps : NoDup ps).
  { unfold ps. clear -Hn. induction Hn as [|x l Hx _ IH]; cbn; [constructor|]. case_match; [|done].
    constructor; [|done]. rewrite list_elem_of_In, filter_In, <- list_elem_of_In. tauto. }
  apply nodup_shape in Hps. destruct (length cs =? 0)%nat eqn:El.
  { apply Nat.eqb_eq in El. destruct cs eqn:Ecs; [|done]. split; [|done]. intros _.
    assert (Hno : ∀ x, ¬ P x) by (intros x [Hx _]; apply He in Hx; by apply elem_of_nil in Hx).
    split; [intros r Hrt; by destruct (Hno r)|intros _ a b Ha; by destruct (Hno a)]. }
  destruct ps as [|a [|b rest]] eqn:Eps; cbn [length].
  - rewrite andb_false_r. split; [|done]. intros _.
    assert (Hno : ∀ x, ¬ P x) by (intros x Hx%Hp; by apply elem_of_nil in Hx).
    split; [intros r Hrt; by destruct (Hno r)|intros _ x y Hx; by destruct (Hno x)].
  - assert (Ha : ∀ x, P x ↔ x = a) by (intros x; by rewrite <- Hp).
    destruct (pathsEqual file (suggestedPath file a routesDir)) eqn:Epe.
    + split; [|done]. intros _. split; [intros r ->%Ha _; done|intros _ x y ->%Ha ->%Ha; done].
    + split; [done|]. intros [H _]. rewrite (H a) in Epe; [done|by apply Ha|by intros x ?%Ha].
  - destruct Hps as (Hab & Ha & Hb). apply Hp in Ha, Hb.
    replace (1 <? S (S (length rest)))%nat with true by (symmetry; apply Nat.ltb_lt; lia).
    rewrite andb_true_r. destruct (colocatedTarget file routesDir).
    + split; [done|]. intros [_ H]. by destruct Hab; apply H.
    + split; [|done]. intros _. split; [|done]. intros r _ H. destruct Hab. by rewrite (H a Ha), (H b Hb).
Qed.

(** Every module fed by one page only lies at the place suggested beside it, and no module in a
    private folder feeds two. *)
Definition well_placed (root : node) (treeImported : list jsstr) (r : lint_result) : Prop :=
  ∀ file, module root (li_srcDir r) (li_routesDir r) treeImported file →
    (∀ route, page root (li_srcDir r) (li_routesDir r) treeImported file route →
       (∀ x, page root (li_srcDir r) (li_routesDir r) treeImported file x → x = route) →
       pathsEqual file (suggestedPath file route (li_routesDir r)) = true) ∧
    (colocatedTarget file (li_routesDir r) = true → ∀ a b,
       page root (li_srcDir r) (li_routesDir r) treeImported file a →
       page root (li_srcDir r) (li_routesDir r) treeImported file b → a = b).

(** The route modules the tree files of a result import. *)
Definition tree_imported (root : node) (r : lint_result) : option (list jsstr) :=
  let files := listSourceFiles root (li_srcDir r) in
  routeFilesImportedByTree root (li_srcDir r) (li_routesDir r) files (contents_of root files).

(** What a clean run means: the linter reports nothing exactly when the modules are well placed. *)
Theorem lint_clean root localeCompare cwd src r :
  lintColocatedRoutes root localeCompare cwd src = Ok r →
  ∃ treeImported, tree_imported root r = Some treeImported ∧ (li_findings r = [] ↔ well_placed root treeImported r).
Proof.
  unfold lintColocatedRoutes. repeat (case_cond; [done|]).
  destruct (routeFilesImportedByTree _ _ _ _ _) as [ti|] eqn:Eti; [|done]. intros [= <-]. exists ti. split; [exact Eti|].
  unfold well_placed. cbn [li_findings li_srcDir li_routesDir]. set (srcDir := resolve (resolve "/" cwd) (default "src" src)). set (routesDir := join_path srcDir "routes").
  set (files := listSourceFiles root srcDir). set (rs := route_files root routesDir files ti).
  set (lf := lint_file (resolve "/" cwd) srcDir routesDir (reverse_edges root srcDir files) rs).
  assert (Hnil : js_sort (λ a b, localeCompare (fi_file a) (fi_file b)) (omap lf files) = [] ↔ omap lf files = []).
  { split; [|by intros ->]. intros E. apply length_zero_iff_nil. rewrite <- (length_js_sort (λ a b, localeCompare (fi_file a) (fi_file b))).
    by rewrite E. }
  rewrite Hnil, omap_nil. split.
  - intros H file (Hf & Ht & Hd & Hr & Hc). by apply (lint_file_None (resolve "/" cwd) srcDir routesDir (reverse_edges root srcDir files) rs), H.
  - intros H file Hf. destruct (test TEST_RE file || test D_TS_RE file) eqn:Etd; [unfold lf, lint_file; by rewrite Etd|].
    apply orb_false_iff in Etd as [Ht Hd].
    destruct (decide (file ∈ rs)) as [Hr|Hr].
    { unfold lf, lint_file. rewrite Ht, Hd. cbn [orb]. by rewrite bool_decide_true. }
    destruct (isCandidate file srcDir routesDir) eqn:Hc.
    + apply lint_file_None; [done..|]. apply (H file). by split_and!.
    + unfold lf, lint_file. rewrite Ht, Hd, bool_decide_false, Hc by done. done.
Qed.

(** The suggestion is not always one the linter accepts: beside a route folder called [hooks] a
    component's suggested path is itself classified as a hook. *)
Lemma suggestion_unstable :
  let dest := suggestedPath "/app/src/components/card.tsx" "/app/src/routes/hooks/index.tsx" "/app/src/routes" in
  dest = "/app/src/routes/hooks/-components/card.tsx" ∧
  suggestedPath dest "/app/src/routes/hooks/index.tsx" "/app/src/routes" = "/app/src/routes/hooks/-hooks/card.tsx".
Proof. split; reflexivity. Qed.

(** C40. The search finds exactly the routes a module feeds: a file is reported as a consumer when
    it is a route, is no test and imports, directly or through modules that are neither routes nor
    tests, the module asked about; import cycles do not keep the search from ending, and the
    fuel of the loop always suffices. *)
Theorem routeConsumers_spec file reverse routeSet x :
  x ∈ routeConsumers file reverse routeSet ↔ consumer reverse routeSet file x.
Proof. apply elem_of_routeConsumers. Qed.

(** *** Witnesses *)

Definition demo_result : lint_result :=
  match lintColocatedRoutes demo_tree str_cmp "/app" None with
  | Ok r => r
  | Err _ => {| li_appRoot := []; li_srcDir := []; li_routesDir := []; li_routeCount := 0; li_findings := [] |}
  end.

Lemma lint_clean_witness :
  lintColocatedRoutes demo_tree str_cmp "/app" None = Ok demo_result ∧ li_findings demo_result ≠ [] ∧
  ∃ treeImported, tree_imported demo_tree demo_result = Some treeImported ∧
    ¬ well_placed demo_tree treeImported demo_result.
Proof.
  assert (E : lintColocatedRoutes demo_tree str_cmp "/app" None = Ok demo_result) by (vm_compute; reflexivity).
  assert (N : li_findings demo_result ≠ []) by (vm_compute; discriminate).
  split; [exact E|split; [exact N|]].
  destruct (lint_clean demo_tree str_cmp "/app" None demo_result E) as (ti & Hti & H).
  exists ti. split; [exact Hti|]. intros Hall. exact (N (proj2 H Hall)).
Defined.
