(* ===== verification/Bundle.v ===== *)
(** * The bundle budget

    [src/web/scripts/check-bundle-budget.mjs]: the size limits of the built bundle, the lazy
    routes it must have and the modules the page loads at start.  The build's output is given: the
    manifest (an ordered list, as the object's keys are), the files of [assets/], and the raw and
    gzip sizes of a file ([None] when it cannot be read). *)
From Stdlib Require Import ZArith Lia List.
From stdpp Require Import base list sets gmap.
From S2P Require Import Prelude.

(** ** The build *)

Record chunk := {
  ch_file : jsstr;
  ch_isEntry : bool;
  ch_isDynamicEntry : bool;
  ch_imports : list jsstr;         (* [item.imports ?? []] *)
}.

Abbreviation manifest := (list (jsstr * chunk)).

Record build := {
  b_manifest : manifest;
  b_assets : list (jsstr * Z);                 (* names of assets/ and their sizes *)
  b_bytes : jsstr → option (Z * Z);            (* raw and gzip size of a file of dist/ *)
}.

Fixpoint manifest_get (k : jsstr) (m : manifest) : option chunk :=
  match m with
  | [] => None
  | (k', c) :: m' => if str_eqb k' k then Some c else manifest_get k m'
  end.

Record limits := { l_entryRaw : Z; l_entryGzip : Z; l_chunkRaw : Z }.
Definition bundle_limits : limits := {| l_entryRaw := 500000; l_entryGzip := 180000; l_chunkRaw := 500000 |}.

Definition expectedDynamicEntries : list jsstr :=
  ["src/routes/index/-components/page.tsx";
   "src/routes/tenants/-components/page.tsx";
   "src/routes/tenant-detail/-components/page.tsx";
   "src/routes/definitions/-components/page.tsx";
   "src/routes/definition-detail/-components/page.tsx";
   "src/routes/api-clients/-components/page.tsx"].

(** ** The initial graph *)

Record visited := { initialKeys : list jsstr; failures : list jsstr }.

Definition missing (key : jsstr) : jsstr := "manifest import " ++ key ++ " is missing".

Fixpoint visitInitialImport (fuel : nat) (m : manifest) (key : jsstr) (v : visited) : visited :=
  match fuel with
  | O => v
  | S n =>
    if bool_decide (key ∈ initialKeys v) then v
    else match manifest_get key m with
         | None => {| initialKeys := initialKeys v; failures := failures v ++ [missing key] |}
         | Some item =>
           fold_left (λ v importedKey, visitInitialImport n m importedKey v) (ch_imports item)
             {| initialKeys := initialKeys v ++ [key]; failures := failures v |}
         end
  end.

(** ** The check *)

Definition entry_failures (raw gzip : Z) : list jsstr :=
  (if l_entryRaw bundle_limits <=? raw
   then ["entry raw " ++ show_int raw ++ " B >= " ++ show_int (l_entryRaw bundle_limits) ++ " B"] else [])
  ++ (if l_entryGzip bundle_limits <=? gzip
      then ["entry gzip " ++ show_int gzip ++ " B >= " ++ show_int (l_entryGzip bundle_limits) ++ " B"] else []).

Definition chunk_failures (assets : list (jsstr * Z)) : list jsstr :=
  omap (λ a : jsstr * Z,
    if negb (endsWith ".js" a.1) then None
    else if l_chunkRaw bundle_limits <=? a.2
    then Some ("chunk " ++ a.1 ++ " raw " ++ show_int a.2 ++ " B >= " ++ show_int (l_chunkRaw bundle_limits) ++ " B")
    else None) assets.

Definition dynamic_failures (m : manifest) : list jsstr :=
  omap (λ source,
    match manifest_get source m with
    | Some c => if ch_isDynamicEntry c then None else Some ("missing dynamic route entry " ++ source)
    | None => Some ("missing dynamic route entry " ++ source)
    end) expectedDynamicEntries.

(** The sizes of the initial graph; [None] when a file cannot be read. *)
Definition add_size (b : build) (acc : option (Z * Z)) (key : jsstr) : option (Z * Z) :=
  '(raw, gzip) ← acc;
  item ← manifest_get key (b_manifest b);
  if negb (endsWith ".js" (ch_file item)) then Some (raw, gzip)
  else '(r, g) ← b_bytes b (ch_file item); Some (raw + r, gzip + g).

Inductive bundle_error := NoEntry | UnreadableFile | OverBudget (failures : list jsstr).

Record bundle_report := { br_entryRaw : Z; br_entryGzip : Z; br_initialRaw : Z; br_initialGzip : Z; br_routes : nat }.

Definition check_bundle_budget (b : build) : result bundle_error bundle_report :=
  match List.find (λ kc : jsstr * chunk, ch_isEntry kc.2) (b_manifest b) with
  | None => Err NoEntry
  | Some (entryKey, entry) =>
    match b_bytes b (ch_file entry) with
    | None => Err UnreadableFile
    | Some (entryRaw, entryGzip) =>
      let v := visitInitialImport (S (length (b_manifest b))) (b_manifest b) entryKey
                 {| initialKeys := [];
                    failures := entry_failures entryRaw entryGzip ++ chunk_failures (b_assets b)
                                ++ dynamic_failures (b_manifest b) |} in
      match fold_left (add_size b) (initialKeys v) (Some (0, 0)) with
      | None => Err UnreadableFile
      | Some (initialRaw, initialGzip) =>
        match failures v with
        | [] => Ok {| br_entryRaw := entryRaw; br_entryGzip := entryGzip; br_initialRaw := initialRaw;
                      br_initialGzip := initialGzip; br_routes := length expectedDynamicEntries |}
        | fs => Err (OverBudget fs)
        end
      end
    end
  end.

(** ** The graph *)

Section graph.
Context (m : manifest).

Definition imports (a b : jsstr) : Prop := ∃ c, manifest_get a m = Some c ∧ b ∈ ch_imports c.

(** The modules the page loads with [key]. *)
Inductive loads (key : jsstr) : jsstr → Prop :=
  | loads_self : loads key key
  | loads_import a b : loads key a → imports a b → loads key b.

Definition present (k : jsstr) : Prop := is_Some (manifest_get k m).

Lemma loads_trans a b c : loads a b → loads b c → loads a c.
Proof. intros Hab Hbc. induction Hbc as [|x y _ IH Hxy]; [done|]. by eapply loads_import. Qed.

(** The keys of the manifest still to visit. *)
Definition unvisited (keys : list jsstr) : nat :=
  length (List.filter (λ kc : jsstr * chunk, negb (bool_decide (kc.1 ∈ keys))) m).

Lemma present_key k : present k → ∃ c, (k, c) ∈ m.
Proof.
  intros [c Hc]. exists c. induction m as [|[k' c'] m' IH]; cbn in Hc; [done|].
  destruct (str_eqb k' k) eqn:E; [apply str_eqb_eq in E as ->; injection Hc as ->; by left|right; auto].
Qed.

Lemma unvisited_lt keys k : present k → k ∉ keys → (unvisited (keys ++ [k]) < unvisited keys)%nat.
Proof.
  intros [c Hc]%present_key Hk. unfold unvisited.
  assert (Hle : ∀ l, (length (List.filter (λ kc : jsstr * chunk, negb (bool_decide (kc.1 ∈ keys ++ [k]))) l)
    <= length (List.filter (λ kc : jsstr * chunk, negb (bool_decide (kc.1 ∈ keys))) l))%nat).
  { intros l. induction l as [|[x y] l IH]; cbn; [done|].
    destruct (bool_decide (x ∈ keys)) eqn:E; bool_to_prop; cbn.
    - rewrite bool_decide_true by (apply elem_of_app; by left). done.
    - case_match; cbn; lia. }
  revert Hc. generalize m as l. intros l. induction l as [|[x y] l IH]; intros Hin; [by apply elem_of_nil in Hin|].
  apply elem_of_cons in Hin as [[= <- <-]|Hin]; cbn.
  - rewrite bool_decide_true by (apply elem_of_app; right; by left). rewrite bool_decide_false by done.
    cbn. specialize (Hle l). lia.
  - specialize (IH Hin). destruct (bool_decide (x ∈ keys)) eqn:E; bool_to_prop; cbn.
    + rewrite bool_decide_true by (apply elem_of_app; by left). done.
    + case_match; cbn; lia.
Qed.

Lemma unvisited_le keys keys' : (∀ k, k ∈ keys → k ∈ keys') → (unvisited keys' <= unvisited keys)%nat.
Proof.
  intros H. unfold unvisited. generalize m as l. induction l as [|[x y] l IH]; cbn; [done|].
  destruct (bool_decide (x ∈ keys)) eqn:E; bool_to_prop; cbn.
  - rewrite bool_decide_true by auto. done.
  - case_match; cbn; lia.
Qed.

(** What a visit of [roots] adds to what was there. *)
Record visits (roots : list jsstr) (v v' : visited) : Prop := {
  vs_mono k : k ∈ initialKeys v → k ∈ initialKeys v';
  vs_new k : k ∈ initialKeys v' → k ∈ initialKeys v ∨ (present k ∧ ∃ r, r ∈ roots ∧ loads r k);
  vs_roots r : r ∈ roots → r ∈ initialKeys v' ∨ missing r ∈ failures v';
  vs_closed k b :
    k ∈ initialKeys v' → k ∉ initialKeys v → imports k b → b ∈ initialKeys v' ∨ missing b ∈ failures v';
  vs_keep f : f ∈ failures v → f ∈ failures v';
  vs_fail f : f ∈ failures v' → f ∈ failures v ∨ ∃ r k, r ∈ roots ∧ loads r k ∧ ¬ present k ∧ f = missing k;
}.

Lemma visits_fold n l v :
  (∀ k v, (unvisited (initialKeys v) < n)%nat → visits [k] v (visitInitialImport n m k v)) →
  (unvisited (initialKeys v) < n)%nat →
  visits l v (fold_left (λ v k, visitInitialImport n m k v) l v).
Proof.
  intros Hn. revert v. induction l as [|k l IH]; intros v Hv; cbn [fold_left].
  { split; try done; [tauto|by intros r ?%elem_of_nil|tauto]. }
  destruct (Hn k v Hv) as [M1 N1 R1 C1 K1 F1]. set (v1 := visitInitialImport n m k v) in *.
  destruct (IH v1) as [M2 N2 R2 C2 K2 F2].
  { pose proof (unvisited_le _ _ M1). lia. }
  set (v2 := fold_left _ l v1) in *.
  assert (Hkeep : ∀ b, b ∈ initialKeys v1 ∨ missing b ∈ failures v1 → b ∈ initialKeys v2 ∨ missing b ∈ failures v2)
    by (intros b [?|?]; auto).
  split.
  - auto.
  - intros x [Hx|(Hp & r & Hr & Hl)]%N2; [|right; split; [done|]; exists r; split; [by right|done]].
    apply N1 in Hx as [?|(Hp & r & ->%list_elem_of_singleton & Hl)]; [by left|].
    right. split; [done|]. exists k. split; [by left|done].
  - intros r [->|Hr]%elem_of_cons; [apply Hkeep, R1; by left|auto].
  - intros x b Hx Hnv Hi. destruct (decide (x ∈ initialKeys v1)) as [H1|H1]; [by apply Hkeep, (C1 x)|by apply (C2 x)].
  - auto.
  - intros f [Hf|(r & x & Hr & ?)]%F2.
    + apply F1 in Hf as [?|(r & x & ->%list_elem_of_singleton & ?)]; [by left|].
      right. exists k, x. split; [by left|done].
    + right. exists r, x. split; [by right|done].
Qed.

Lemma visit_visits n k v :
  (unvisited (initialKeys v) < n)%nat → visits [k] v (visitInitialImport n m k v).
Proof.
  revert k v. induction n as [|n IH]; intros k v Hv; [lia|]. cbn [visitInitialImport].
  destruct (bool_decide (k ∈ initialKeys v)) eqn:Ek; bool_to_prop.
  { split; try done; [tauto|intros r ->%list_elem_of_singleton; by left|tauto]. }
  destruct (manifest_get k m) as [c|] eqn:Ec.
  2: { assert (Hnp : ¬ present k) by (intros [? ?]; congruence). split; cbn; try done; [tauto| | |].
       - intros r ->%list_elem_of_singleton. right. apply elem_of_app. right. by left.
       - intros f Hf. apply elem_of_app. by left.
       - intros f [Hf|Hf]%elem_of_app; [by left|]. apply list_elem_of_singleton in Hf as ->.
         right. exists k, k. split_and!; [by left|apply loads_self|done|done]. }
  assert (Hp : present k) by by eexists. pose proof (unvisited_lt _ _ Hp Ek) as Hlt.
  set (v0 := {| initialKeys := initialKeys v ++ [k]; failures := failures v |}).
  destruct (visits_fold n (ch_imports c) v0 IH) as [M N R C K F]; [cbn; lia|].
  assert (Hk0 : k ∈ initialKeys v0) by (apply elem_of_app; right; by left).
  assert (Hload : ∀ r, r ∈ ch_imports c → loads k r).
  { intros r Hr. eapply loads_import; [apply loads_self|by exists c]. }
  split.
  - intros x Hx. apply M, elem_of_app. by left.
  - intros x [Hx|(Hpx & r & Hr & Hl)]%N.
    + cbn in Hx. apply elem_of_app in Hx as [Hx| ->%list_elem_of_singleton]; [by left|].
      right. split; [done|]. exists k. split; [by left|apply loads_self].
    + right. split; [done|]. exists k. split; [by left|]. eapply loads_trans; [by apply Hload|done].
  - intros r ->%list_elem_of_singleton. left. auto.
  - intros x b Hx Hnv Hi. destruct (decide (x = k)) as [->|Hne].
    + destruct Hi as (c' & Hc' & Hb). simplify_eq. auto.
    + apply (C x b Hx); [|done]. cbn. rewrite elem_of_app, list_elem_of_singleton. tauto.
  - auto.
  - intros f [Hf|(r & x & Hr & Hl & ?)]%F; [by left|]. right. exists k, x. split; [by left|].
    split; [eapply loads_trans; [by apply Hload|done]|done].
Qed.
End graph.

(** ** When each check is silent *)

Lemma entry_failures_nil raw gzip : entry_failures raw gzip = [] ↔ raw < 500000 ∧ gzip < 180000.
Proof.
  unfold entry_failures. change (l_entryRaw bundle_limits) with 500000.
  change (l_entryGzip bundle_limits) with 180000.
  rewrite app_nil, <- (Z.ltb_lt raw), <- (Z.ltb_lt gzip), !Z.ltb_antisym.
  destruct (500000 <=? raw), (180000 <=? gzip); (split; intros [? ?]; done).
Qed.

Lemma chunk_failures_nil assets :
  chunk_failures assets = [] ↔
  ∀ name size, (name, size) ∈ assets → endsWith ".js" name = true → size < 500000.
Proof.
  unfold chunk_failures. rewrite omap_nil. split.
  - intros H name size Hin Hjs. specialize (H (name, size) Hin). cbn [fst snd] in H.
    rewrite Hjs in H. cbn [negb] in H. case_cond; [done|]. bool_to_prop. done.
  - intros H [name size] Hin. cbn [fst snd]. destruct (endsWith ".js" name) eqn:Ejs; [|done]. cbn [negb].
    specialize (H name size Hin Ejs). case_cond; [|done]. bool_to_prop.
    change (l_chunkRaw bundle_limits) with 500000 in *. lia.
Qed.

Lemma dynamic_failures_nil m :
  dynamic_failures m = [] ↔
  ∀ source, source ∈ expectedDynamicEntries →
    ∃ c, manifest_get source m = Some c ∧ ch_isDynamicEntry c = true.
Proof.
  unfold dynamic_failures. rewrite omap_nil. apply forall_proper. intros source. apply imp_iff_compat_l.
  destruct (manifest_get source m) as [c|]; [destruct (ch_isDynamicEntry c) eqn:Ed|].
  - split; [by eexists|done].
  - split; [done|]. intros (? & [= <-] & ?). congruence.
  - split; [done|]. by intros (? & ? & ?).
Qed.

(** The keys collected are those the entry loads and the manifest has; a failure is added exactly
    when it loads one the manifest lacks. *)
Lemma initial_graph m entryKey f0 :
  let v := visitInitialImport (S (length m)) m entryKey {| initialKeys := []; failures := f0 |} in
  (∀ k, k ∈ initialKeys v → present m k ∧ loads m entryKey k) ∧
  (failures v = [] ↔ f0 = [] ∧ ∀ k, loads m entryKey k → present m k).
Proof.
  set (v0 := {| initialKeys := []; failures := f0 |}). cbn zeta.
  destruct (visit_visits m (S (length m)) entryKey v0) as [M N R C K F].
  { unfold unvisited.
    pose proof (List.filter_length_le (λ kc : jsstr * chunk, negb (bool_decide (kc.1 ∈ initialKeys v0))) m). lia. }
  set (v := visitInitialImport _ _ _ _) in *.
  assert (Hkeys : ∀ k, k ∈ initialKeys v → present m k ∧ loads m entryKey k).
  { intros k [Hk|(Hp & r & ->%list_elem_of_singleton & Hl)]%N; [by apply elem_of_nil in Hk|done]. }
  split; [done|]. split.
  - intros E. assert (Hnof : ∀ f, f ∉ failures v) by (rewrite E; apply not_elem_of_nil). split.
    + destruct f0 as [|f fs]; [done|]. destruct (Hnof f). apply K. cbn. by left.
    + assert (Hin : ∀ k, loads m entryKey k → k ∈ initialKeys v); [|intros k Hk%Hin; by apply Hkeys].
      intros k Hk. induction Hk as [|x y _ IH Hxy].
      * destruct (R entryKey ltac:(left)) as [?|H]; [done|by destruct (Hnof _ H)].
      * destruct (C x y IH (not_elem_of_nil x) Hxy) as [?|H]; [done|by destruct (Hnof _ H)].
  - intros [E Hp]. destruct (failures v) as [|f fs] eqn:Ev; [done|].
    destruct (F f ltac:(left)) as [Hf|(r & k & ->%list_elem_of_singleton & Hl & Hnp & _)].
    + cbn in Hf. rewrite E in Hf. by apply elem_of_nil in Hf.
    + by destruct Hnp; apply Hp.
Qed.

Lemma sizes_total b l acc :
  (∀ k c, manifest_get k (b_manifest b) = Some c → is_Some (b_bytes b (ch_file c))) →
  (∀ k, k ∈ l → present (b_manifest b) k) → is_Some acc →
  is_Some (fold_left (add_size b) l acc).
Proof.
  intros Hread. revert acc. induction l as [|k l IH]; intros acc Hl [[x y] ->]; cbn [fold_left]; [by eexists|].
  apply IH; [intros; apply Hl; by right|]. destruct (Hl k ltac:(left)) as [c Hc].
  unfold add_size. cbn. rewrite Hc. cbn. case_match; [by eexists|].
  destruct (Hread k c Hc) as [[p q] ->]. by eexists.
Qed.

(** ** Properties *)

(** The budget holds exactly when every limit does: with a readable build the check passes if
    and only if the entry and every script of [assets/] are under their limits, each expected
    route is a dynamic entry of the manifest, and nothing the page loads at start is missing from
    the manifest; the fuel of the traversal always suffices. *)
Theorem check_bundle_budget_spec b entryKey entry raw gzip :
  List.find (λ kc : jsstr * chunk, ch_isEntry kc.2) (b_manifest b) = Some (entryKey, entry) →
  (∀ k c, manifest_get k (b_manifest b) = Some c → is_Some (b_bytes b (ch_file c))) →
  b_bytes b (ch_file entry) = Some (raw, gzip) →
  (∃ r, check_bundle_budget b = Ok r) ↔
  raw < 500000 ∧ gzip < 180000 ∧
  (∀ name size, (name, size) ∈ b_assets b → endsWith ".js" name = true → size < 500000) ∧
  (∀ source, source ∈ expectedDynamicEntries →
     ∃ c, manifest_get source (b_manifest b) = Some c ∧ ch_isDynamicEntry c = true) ∧
  (∀ k, loads (b_manifest b) entryKey k → present (b_manifest b) k).
Proof.
  intros Hentry Hread Hbytes. unfold check_bundle_budget. rewrite Hentry, Hbytes.
  set (f0 := entry_failures raw gzip ++ chunk_failures (b_assets b) ++ dynamic_failures (b_manifest b)).
  destruct (initial_graph (b_manifest b) entryKey f0) as [Hkeys Hv].
  set (v := visitInitialImport _ _ _ _) in *.
  destruct (sizes_total b (initialKeys v) (Some (0, 0)) Hread) as [[ir ig] ->];
    [intros k Hk; by apply Hkeys|by eexists|].
  unfold f0 in Hv. rewrite !app_nil, entry_failures_nil, chunk_failures_nil, dynamic_failures_nil in Hv.
  destruct (failures v) as [|f fs]; (split; [intros [r Hr]|intros Hall]).
  - destruct (proj1 Hv eq_refl) as [((? & ?) & ? & ?) ?]. by split_and!.
  - by eexists.
  - done.
  - exfalso. assert (H : f :: fs = []); [|done]. apply Hv. tauto.
Qed.

(** *** Witness *)

Definition demo_build : build :=
  {| b_manifest :=
       ("index.html", {| ch_file := "assets/index.js"; ch_isEntry := true; ch_isDynamicEntry := false;
                         ch_imports := ["_vendor.js"] |})
       :: ("_vendor.js", {| ch_file := "assets/vendor.js"; ch_isEntry := false; ch_isDynamicEntry := false;
                            ch_imports := ["index.html"] |})
       :: map (λ s, (s, {| ch_file := "assets/page.js"; ch_isEntry := false; ch_isDynamicEntry := true;
                           ch_imports := ["_vendor.js"] |})) expectedDynamicEntries;
     b_assets := [("index.js", 1000); ("index.css", 900000)];
     b_bytes := λ _, Some (1000, 400) |}.

Example budget_ex :
  check_bundle_budget demo_build
  = Ok {| br_entryRaw := 1000; br_entryGzip := 400; br_initialRaw := 2000; br_initialGzip := 800; br_routes := 6 |}.
Proof. reflexivity. Qed.

Lemma check_bundle_budget_spec_witness :
  (∃ r, check_bundle_budget demo_build = Ok r) ∧ (∀ k, loads (b_manifest demo_build) "index.html" k → present (b_manifest demo_build) k).
Proof.
  assert (H : ∃ r, check_bundle_budget demo_build = Ok r) by (eexists; reflexivity).
  split; [exact H|].
  apply (check_bundle_budget_spec demo_build "index.html"
    {| ch_file := "assets/index.js"; ch_isEntry := true; ch_isDynamicEntry := false; ch_imports := ["_vendor.js"] |}
    1000 400); [reflexivity|intros k c _; eexists; reflexivity|reflexivity|exact H].
Defined.
