(* ===== verification/Shell.v ===== *)
(** * The application shell

    [src/web/src/components/app-shell.tsx]: the gate that decides what a visitor sees, as a step
    machine over the shell's React state and the API client's module state ([Api.client]); its
    listeners run when the client dispatches an event.  Then the header's labels.  React batches
    the updates of one event, so a step is one event handler, effect or continuation; the markup
    is reduced to which screen is shown and what it is given. *)
From Stdlib Require Import ZArith Lia List.
From stdpp Require Import base list sets gmap.
From S2P Require Import Prelude Host BasePath Types Api I18nPt I18nEn I18nEs I18n Admin.

(** ** State *)

(** Where [loadAuthentication] is. *)
Inductive bootstrap := LoadingConfig | LoadingSession | Loaded.

Record shell := {
  authMessageKey : option AdminAuthMessage;      (* [""] is [None] *)
  draftAdminToken : jsstr;
  hasAdminToken : bool;
  authConfig : option AdminAuthConfig;
  adminSession : option AdminSession;
  authLoadError : bool;
  remountTimer : bool;                           (* a remount is scheduled *)
  boot : bootstrap;
}.

Record page := {
  pg_shell : shell;
  pg_client : client;
  pg_unseen : nat;                               (* storage events on their way *)
}.

Definition is_oidc (s : shell) : bool :=
  match authConfig s with Some c => match aac_mode c with oidc => true | _ => false end | None => false end.

Definition with_shell (f : shell → shell) (p : page) : page :=
  {| pg_shell := f (pg_shell p); pg_client := pg_client p; pg_unseen := pg_unseen p |}.
Definition with_client (c : client) (p : page) : page :=
  {| pg_shell := pg_shell p; pg_client := c; pg_unseen := pg_unseen p |}.

(** ** Setters *)

Definition set_message m s := {| authMessageKey := m; draftAdminToken := draftAdminToken s;
  hasAdminToken := hasAdminToken s; authConfig := authConfig s; adminSession := adminSession s;
  authLoadError := authLoadError s; remountTimer := remountTimer s; boot := boot s |}.
Definition set_draft d s := {| authMessageKey := authMessageKey s; draftAdminToken := d;
  hasAdminToken := hasAdminToken s; authConfig := authConfig s; adminSession := adminSession s;
  authLoadError := authLoadError s; remountTimer := remountTimer s; boot := boot s |}.
Definition set_has_token b timer s := {| authMessageKey := authMessageKey s; draftAdminToken := draftAdminToken s;
  hasAdminToken := b; authConfig := authConfig s; adminSession := adminSession s;
  authLoadError := authLoadError s; remountTimer := timer; boot := boot s |}.
Definition set_config c b s := {| authMessageKey := authMessageKey s; draftAdminToken := draftAdminToken s;
  hasAdminToken := hasAdminToken s; authConfig := c; adminSession := adminSession s;
  authLoadError := authLoadError s; remountTimer := remountTimer s; boot := b |}.
Definition set_session x s := {| authMessageKey := authMessageKey s; draftAdminToken := draftAdminToken s;
  hasAdminToken := hasAdminToken s; authConfig := authConfig s; adminSession := x;
  authLoadError := authLoadError s; remountTimer := remountTimer s; boot := boot s |}.
Definition set_load_error e b s := {| authMessageKey := authMessageKey s; draftAdminToken := draftAdminToken s;
  hasAdminToken := hasAdminToken s; authConfig := authConfig s; adminSession := adminSession s;
  authLoadError := e; remountTimer := remountTimer s; boot := b |}.

(** ** Listeners *)

(** [syncAdminTokenState], on a token change and on any storage event. *)
Definition syncAdminTokenState (p : page) : page :=
  let hasNextCredential := truthy (getAdminToken (pg_client p)) in
  with_shell (set_has_token false hasNextCredential) p.

(** The scheduled remount. *)
Definition remount (p : page) : page :=
  if remountTimer (pg_shell p) then with_shell (set_has_token true false) p else p.

Definition showAdminAuth (messageKey : AdminAuthMessage) (p : page) : page :=
  let p := with_shell (set_message (Some messageKey)) p in
  if is_oidc (pg_shell p) then with_shell (set_session None) p
  else
    let p := with_shell (set_draft []) p in
    let p := syncAdminTokenState (with_client (clearAdminToken (pg_client p)) p) in
    with_shell (λ s, set_has_token false (remountTimer s) s) p.

(** [requestAdminAuth]: the event always carries one of the three keys. *)
Definition requestAdminAuth (messageKey : AdminAuthMessage) (p : page) : page :=
  showAdminAuth messageKey (with_client (consumePendingAdminAuthMessage (pg_client p)).2 p).

Definition deliver (p : page) (e : event) : page :=
  match e with
  | AdminTokenChange => syncAdminTokenState p
  | AdminAuthRequired m => requestAdminAuth m p
  | AdminSessionChange => p
  end.

(** An operation of the client, with the shell's listeners run on the events it dispatches. *)
Definition emit (f : client → client) (p : page) : page :=
  let c := pg_client p in
  fold_left deliver (drop (length (dispatched c)) (dispatched (f c))) (with_client (f c) p).

(** The effect that subscribes to [admin-auth-required], each time the mode changes. *)
Definition subscribe (p : page) : page :=
  let '(pendingMessage, c) := consumePendingAdminAuthMessage (pg_client p) in
  let p := with_client c p in
  match pendingMessage with Some m => showAdminAuth m p | None => p end.

(** ** The steps *)

Section shell.
Context (meta : option jsstr).

Definition is_abort (e : api_exn) : bool :=
  match e with HostError AbortError => true | _ => false end.

Definition load_failed (e : api_exn) (p : page) : page :=
  with_shell (λ s, set_load_error (if is_abort e then authLoadError s else true) Loaded s) p.

(** [loadAuthentication] after its first [await]. *)
Definition on_config (fetched : reply AdminAuthConfig) (p : page) : page :=
  match fetchAdminAuthConfig meta fetched with
  | Err e => load_failed e p
  | Ok config =>
    match aac_mode config with
    | oidc => subscribe (emit clearAdminToken (with_shell (set_config (Some config) LoadingSession) p))
    | legacy_shared_token => subscribe (with_shell (set_config (Some config) Loaded) p)
    end
  end.

(** And after its second. *)
Definition on_session (fetched : reply AdminSession) (p : page) : page :=
  let '(r, c) := fetchAdminSession meta fetched (pg_client p) in
  let p := emit (λ _, c) p in
  match r with
  | Err e => load_failed e p
  | Ok session => with_shell (λ s, set_load_error (authLoadError s) Loaded (set_session session s)) p
  end.

(** A page as it loads: the client's module state is fresh, the storage is not. *)
Definition load_page (token : option jsstr) : page :=
  let c := {| currentAdminSession := None; pendingAdminAuthMessage := None; stored_token := token;
              dispatched := [] |} in
  {| pg_shell := {| authMessageKey := None; draftAdminToken := getAdminToken c;
                    hasAdminToken := truthy (getAdminToken c); authConfig := None; adminSession := None;
                    authLoadError := false; remountTimer := false; boot := LoadingConfig |};
     pg_client := c; pg_unseen := 0 |}.

Definition reload (p : page) : page := load_page (stored_token (pg_client p)).

Definition saveAdminToken (p : page) : page :=
  let token := trim (draftAdminToken (pg_shell p)) in
  if negb (truthy token) then emit clearAdminToken p
  else reload (with_shell (set_message None) (emit (setAdminToken token) p)).

(** [logoutAdmin], with the reply the logout gets; when it fails the shell keeps its session. *)
Definition logoutAdmin (fetched : reply unit) (p : page) : page :=
  if is_oidc (pg_shell p) then
    let '(r, c) := logoutAdminSession meta fetched (pg_client p) in
    let p := emit (λ _, c) p in
    match r with
    | Ok _ => with_shell (set_session None) p
    | Err _ => p
    end
  else reload (with_shell (set_draft []) (emit clearAdminToken p)).

Inductive label :=
  | LConfig (fetched : reply AdminAuthConfig)
  | LSession (fetched : reply AdminSession)
  | LResponse (status : Z) (q : inflight)        (* an API request is answered *)
  | LTimer
  | LDraft (token : jsstr)
  | LSave
  | LLogout (fetched : reply unit)
  | LForeignToken (token : option jsstr)         (* another tab writes the token *)
  | LStorage (key : option jsstr).               (* a storage event, of whatever key *)

Definition step (p : page) (l : label) : page :=
  match l with
  | LConfig fetched => match boot (pg_shell p) with LoadingConfig => on_config fetched p | _ => p end
  | LSession fetched => match boot (pg_shell p) with LoadingSession => on_session fetched p | _ => p end
  | LResponse status q => emit (λ c, (on_response status c q).1) p
  | LTimer => remount p
  | LDraft token => with_shell (set_draft token) p
  | LSave => saveAdminToken p
  | LLogout fetched => logoutAdmin fetched p
  | LForeignToken token =>
    {| pg_shell := pg_shell p;
       pg_client := {| currentAdminSession := currentAdminSession (pg_client p);
                       pendingAdminAuthMessage := pendingAdminAuthMessage (pg_client p);
                       stored_token := token; dispatched := dispatched (pg_client p) |};
       pg_unseen := S (pg_unseen p) |}
  | LStorage key =>
    let p := if bool_decide (key = Some ADMIN_TOKEN_KEY)
             then {| pg_shell := pg_shell p; pg_client := pg_client p; pg_unseen := pred (pg_unseen p) |}
             else p in
    syncAdminTokenState p
  end.

Inductive reachable : page → Prop :=
  | reach_load token : reachable (load_page token)
  | reach_step p l : reachable p → reachable (step p l).

(** ** What is shown *)

Inductive screen :=
  | AuthUnavailable
  | AuthLoading
  | OIDCAccess (message : option AdminAuthMessage) (loginURL : result base_path_error jsstr)
  | AdminAccess (message : option AdminAuthMessage) (draft : jsstr)
  | Content (permissions : list jsstr).

Definition permissions (s : shell) : list jsstr :=
  if is_oidc s then match adminSession s with Some x => session_permissions x | None => [] end
  else permission_name <$> ALL_ADMIN_PERMISSIONS.

Definition render (s : shell) : screen :=
  if authLoadError s then AuthUnavailable
  else
    match authConfig s with
    | None => AuthLoading
    | Some config =>
      match aac_mode config with
      | oidc =>
        match adminSession s with
        | None => OIDCAccess (authMessageKey s)
                    (match aac_login_url config with
                     | Some u => Ok u | None => buildAdminEndpoint "/v1/auth/login" meta end)
        | Some _ => Content (permissions s)
        end
      | legacy_shared_token =>
        if negb (hasAdminToken s) then AdminAccess (authMessageKey s) (draftAdminToken s)
        else Content (permissions s)
      end
    end.
End shell.

(** ** The header *)

Definition pageLabel (pathname : jsstr) (t : jsstr → jsstr) : jsstr :=
  if str_eqb pathname "/" then t "overview.title"
  else if str_eqb pathname "/tenants" then t "tenants.title"
  else if startsWith "/tenants" pathname then t "nav.tenants"
  else if str_eqb pathname "/resource-definitions" then t "definitions.title"
  else if startsWith "/resource-definitions" pathname then t "nav.definitions"
  else if startsWith "/api-clients" pathname then t "apiClients.title"
  else if startsWith "/usage" pathname then t "usage.title"
  else if startsWith "/operations/health" pathname then t "operationsHealth.title"
  else if startsWith "/audit-events" pathname then t "audit.title"
  else if startsWith "/security/sessions" pathname then t "sessions.title"
  else if startsWith "/operations/settings" pathname then t "settings.title"
  else if startsWith "/integrations/webhooks" pathname then t "integrations.title"
  else [].

Definition pageHasOwnHeading (pathname : jsstr) : bool :=
  startsWith "/tenants/" pathname || startsWith "/resource-definitions/" pathname.

Definition pageDescription (pathname : jsstr) (t : jsstr → jsstr) : jsstr :=
  if str_eqb pathname "/" then t "overview.description"
  else if str_eqb pathname "/tenants" then t "tenants.description"
  else if str_eqb pathname "/resource-definitions" then t "definitions.description"
  else if str_eqb pathname "/api-clients" then t "apiClients.description"
  else if str_eqb pathname "/usage" then t "usage.description"
  else if startsWith "/operations/health" pathname then t "operationsHealth.description"
  else if startsWith "/audit-events" pathname then t "audit.description"
  else if startsWith "/security/sessions" pathname then t "sessions.description"
  else if startsWith "/integrations/webhooks" pathname then t "integrations.description"
  else if startsWith "/operations/settings" pathname then t "settings.description"
  else [].

(** The language the settings propose, taken only when none was stored. *)
Definition default_locale (authenticated : bool) (stored : option jsstr) (configured : option jsstr) : option Locale :=
  if negb authenticated || match stored with Some s => truthy s | None => false end then None
  else
    match configured with
    | Some c => lo_value <$> List.find (λ o, str_eqb (locale_tag (lo_value o)) c) LOCALE_OPTIONS
    | None => None
    end.

(** ** Lemmas *)

Lemma emit_none f p : dispatched (f (pg_client p)) = dispatched (pg_client p) → emit f p = with_client (f (pg_client p)) p.
Proof. intros E. unfold emit. by rewrite E, drop_all. Qed.

Lemma emit_events f p es :
  dispatched (f (pg_client p)) = dispatched (pg_client p) ++ es →
  emit f p = fold_left deliver es (with_client (f (pg_client p)) p).
Proof. intros E. unfold emit. by rewrite E, drop_app_length. Qed.

Lemma emit_clear p :
  emit clearAdminToken p = syncAdminTokenState (with_client (clearAdminToken (pg_client p)) p).
Proof. by rewrite (emit_events _ _ [AdminTokenChange]). Qed.

(** What a response does to the page: nothing, or a refusal announced. *)
Lemma response_page status q p :
  (∃ m, status = 401 ∧ rq_phase q = AwaitFetch ∧
        step None p (LResponse status q) =
        requestAdminAuth m (with_client (on_response status (pg_client p) q).1 p) ∧
        currentAdminSession (on_response status (pg_client p) q).1
          = match rq_session q with Some _ => None | None => currentAdminSession (pg_client p) end ∧
        stored_token (on_response status (pg_client p) q).1 = stored_token (pg_client p)) ∨
  (¬ (status = 401 ∧ rq_phase q = AwaitFetch) ∧ step None p (LResponse status q) = p).
Proof.
  cbn [step]. unfold on_response. destruct (rq_phase q) eqn:Eq.
  2-4: right; split; [by intros [_ ?]|]; rewrite emit_none by done; by destruct p.
  destruct (status =? 401) eqn:Es; bool_to_prop.
  - left. exists (match rq_session q with Some _ => auth_sessionExpired | None => auth_invalidToken end).
    split_and!; [done|done| |by destruct (rq_session q)|by destruct (rq_session q)].
    destruct (rq_session q).
    + erewrite emit_events with (es := [AdminSessionChange; AdminAuthRequired auth_sessionExpired]); [done|].
      cbn. by rewrite <- app_assoc.
    + erewrite emit_events with (es := [AdminAuthRequired auth_invalidToken]); done.
  - right. split; [by intros [? _]|]. rewrite emit_none by (repeat case_cond; done).
    destruct p as [sh c u]. unfold with_client. cbn. f_equal. by repeat case_cond.
Qed.

Record page_inv (p : page) : Prop := {
  v_token : hasAdminToken (pg_shell p) = true ∨ remountTimer (pg_shell p) = true →
            pg_unseen p = 0%nat → truthy (getAdminToken (pg_client p)) = true;
  v_session s : adminSession (pg_shell p) = Some s →
            currentAdminSession (pg_client p) = Some s ∧ is_oidc (pg_shell p) = true;
  v_boot : boot (pg_shell p) = LoadingSession → is_oidc (pg_shell p) = true;
  v_config : boot (pg_shell p) = LoadingConfig → authConfig (pg_shell p) = None;
}.

(** The parts of a page the invariant looks at. *)
Lemma page_inv_ext p p' :
  pg_shell p' = pg_shell p → pg_unseen p' = pg_unseen p →
  stored_token (pg_client p') = stored_token (pg_client p) →
  currentAdminSession (pg_client p') = currentAdminSession (pg_client p) →
  page_inv p → page_inv p'.
Proof.
  intros E1 E2 E3 E4 [Ht Hs Hb Hc]. unfold getAdminToken in *.
  split; unfold getAdminToken; rewrite ?E1, ?E2, ?E3, ?E4; auto.
Qed.

Lemma sync_inv p :
  (∀ s, adminSession (pg_shell p) = Some s → currentAdminSession (pg_client p) = Some s ∧ is_oidc (pg_shell p) = true) →
  (boot (pg_shell p) = LoadingSession → is_oidc (pg_shell p) = true) →
  (boot (pg_shell p) = LoadingConfig → authConfig (pg_shell p) = None) →
  page_inv (syncAdminTokenState p).
Proof. intros Hs Hb Hc. split; cbn; [by intros [?|?]|done|done|done]. Qed.

Lemma shell_show_inv m p :
  (hasAdminToken (pg_shell p) = true ∨ remountTimer (pg_shell p) = true →
   pg_unseen p = 0%nat → truthy (getAdminToken (pg_client p)) = true) →
  (adminSession (pg_shell p) ≠ None → is_oidc (pg_shell p) = true) →
  (boot (pg_shell p) = LoadingSession → is_oidc (pg_shell p) = true) →
  (boot (pg_shell p) = LoadingConfig → authConfig (pg_shell p) = None) →
  page_inv (showAdminAuth m p).
Proof.
  intros Ht Hs Hb Hc. unfold showAdminAuth.
  change (is_oidc (pg_shell (with_shell (set_message (Some m)) p))) with (is_oidc (pg_shell p)).
  destruct (is_oidc (pg_shell p)) eqn:E.
  - split; cbn; [done|done|intros _; exact E|done].
  - split; cbn; [by intros [?|?]| |intros H; by apply Hb in H|done]. intros s Es.
    assert (H : adminSession (pg_shell p) ≠ None) by congruence. apply Hs in H. done.
Qed.

Lemma subscribe_inv p : page_inv p → page_inv (subscribe p).
Proof.
  intros Hp. unfold subscribe, consumePendingAdminAuthMessage.
  destruct (pendingAdminAuthMessage (pg_client p)).
  - apply shell_show_inv; [apply Hp| |apply Hp|apply Hp]. intros H.
    destruct (adminSession (pg_shell p)) as [s|] eqn:E; [|by destruct H]. by destruct (v_session _ Hp s E).
  - by eapply page_inv_ext, Hp.
Qed.

Lemma load_inv token : page_inv (load_page token).
Proof. split; cbn; [|done|done|done]. intros [?|?] _; done. Qed.

Lemma load_failed_inv e p : page_inv p → page_inv (load_failed e p).
Proof. intros [Ht Hs Hb Hc]. split; cbn; done. Qed.

Lemma config_inv meta fetched p :
  boot (pg_shell p) = LoadingConfig → page_inv p → page_inv (on_config meta fetched p).
Proof.
  intros Hboot Hp. pose proof (v_config _ Hp Hboot) as Hnone. unfold on_config.
  assert (Hnos : adminSession (pg_shell p) = None).
  { destruct (adminSession (pg_shell p)) eqn:E; [|done]. destruct (v_session _ Hp _ E) as [_ H].
    unfold is_oidc in H. by rewrite Hnone in H. }
  destruct (fetchAdminAuthConfig meta fetched) as [config|e]; [|by apply load_failed_inv].
  destruct (aac_mode config) eqn:Em; apply subscribe_inv.
  - rewrite emit_clear. apply sync_inv; cbn; [by rewrite Hnos|unfold is_oidc; cbn; by rewrite Em|done].
  - destruct Hp as [Ht Hs Hb Hc]. split; cbn; [done| |done|done]. by rewrite Hnos.
Qed.

Lemma session_inv meta fetched p :
  boot (pg_shell p) = LoadingSession → page_inv p → page_inv (on_session meta fetched p).
Proof.
  intros Hboot Hp. pose proof (v_boot _ Hp Hboot) as Ho. unfold on_session, fetchAdminSession.
  assert (Hset : ∀ x, emit (λ _, setAdminSession x (pg_client p)) p = with_client (setAdminSession x (pg_client p)) p)
    by (intros x; by rewrite (emit_events _ _ [AdminSessionChange])).
  assert (Hkeep : emit (λ _, pg_client p) p = p) by (rewrite emit_none by done; by destruct p).
  destruct (buildAdminEndpoint "/v1/auth/session" meta); [|rewrite Hkeep; by apply load_failed_inv].
  destruct fetched as [r|h]; [|rewrite Hkeep; by apply load_failed_inv].
  destruct (r_status r =? 401).
  { rewrite Hset. destruct Hp as [Ht Hs Hb Hc]. split; cbn; done. }
  destruct (negb (status_ok (r_status r))); [rewrite Hkeep; by apply load_failed_inv|].
  destruct (r_body r); [|rewrite Hkeep; by apply load_failed_inv].
  rewrite Hset. destruct Hp as [Ht Hs Hb Hc]. split; cbn; [done| |done|done].
  intros s [= ->]. split; [done|]. exact Ho.
Qed.

Lemma logout_inv meta fetched p : page_inv p → page_inv (logoutAdmin meta fetched p).
Proof.
  intros Hp. unfold logoutAdmin. destruct (is_oidc (pg_shell p)) eqn:Eo; [|apply load_inv].
  unfold logoutAdminSession.
  assert (Hkeep : emit (λ _, pg_client p) p = p) by (rewrite emit_none by done; by destruct p).
  assert (Hclear : ∀ q, page_inv p → pg_shell q = pg_shell p → pg_unseen q = pg_unseen p →
    stored_token (pg_client q) = stored_token (pg_client p) → page_inv (with_shell (set_session None) q)).
  { intros q [Ht Hs Hb Hc] E1 E2 E3. unfold getAdminToken in *. split; unfold getAdminToken; cbn;
      rewrite ?E1, ?E2, ?E3; done. }
  destruct (getAdminSession (pg_client p)); [|rewrite Hkeep; by apply Hclear].
  destruct (logout_request meta _); [|by rewrite Hkeep].
  destruct fetched as [r|h]; [|by rewrite Hkeep].
  destruct (negb (status_ok (r_status r)) && negb (r_status r =? 401)); [by rewrite Hkeep|].
  rewrite (emit_events _ _ [AdminSessionChange]) by done. by apply Hclear.
Qed.

Lemma response_inv status q p : page_inv p → page_inv (step None p (LResponse status q)).
Proof.
  intros Hp. destruct (response_page status q p) as [(m & _ & _ & -> & Hs & Ht)|[_ ->]]; [|done].
  unfold requestAdminAuth. apply shell_show_inv; cbn.
  - unfold getAdminToken. cbn. rewrite Ht. apply (v_token _ Hp).
  - intros H. destruct (adminSession (pg_shell p)) as [s|] eqn:E; [|by destruct H].
    by destruct (v_session _ Hp s E).
  - apply (v_boot _ Hp).
  - apply (v_config _ Hp).
Qed.

Lemma shell_step_inv meta p l : page_inv p → page_inv (step meta p l).
Proof.
  intros Hp. destruct l as [f|f|status q| |tok| |f|tok|key].
  - cbn [step]. destruct (boot (pg_shell p)) eqn:E; [by apply config_inv|done|done].
  - cbn [step]. destruct (boot (pg_shell p)) eqn:E; [done|by apply session_inv|done].
  - change (step meta p (LResponse status q)) with (step None p (LResponse status q)). by apply response_inv.
  - cbn [step]. unfold remount. destruct (remountTimer (pg_shell p)) eqn:E; [|done].
    destruct Hp as [Ht Hs Hb Hc]. split; cbn; [|done|done|done]. intros _. apply Ht. by right.
  - destruct Hp as [Ht Hs Hb Hc]. split; cbn; done.
  - cbn [step]. unfold saveAdminToken. destruct (negb _); [|apply load_inv].
    rewrite emit_clear. apply sync_inv; cbn; apply Hp.
  - by apply logout_inv.
  - destruct Hp as [Ht Hs Hb Hc]. split; cbn; done.
  - cbn [step]. apply sync_inv; case_cond; cbn; apply Hp.
Qed.

Lemma shell_reachable_inv meta p : reachable meta p → page_inv p.
Proof. induction 1; [apply load_inv|by apply shell_step_inv]. Qed.

(** ** Properties *)

(** C3. The gate: whatever happened before, the protected pages are rendered only under an
    authentication that is still there — in OIDC mode the API client's current session, with
    exactly its permissions; in shared-token mode a stored token, unless a storage event about
    another tab's write has still to arrive. *)
Theorem content_authenticated meta p perms :
  reachable meta p → render meta (pg_shell p) = Content perms →
  (is_oidc (pg_shell p) = true →
   ∃ s, currentAdminSession (pg_client p) = Some s ∧ perms = session_permissions s) ∧
  (is_oidc (pg_shell p) = false →
   perms = (permission_name <$> ALL_ADMIN_PERMISSIONS) ∧
   (pg_unseen p = 0%nat → getAdminToken (pg_client p) ≠ [])).
Proof.
  intros Hp%shell_reachable_inv. unfold render, permissions, is_oidc.
  destruct (authLoadError (pg_shell p)); [done|].
  destruct (authConfig (pg_shell p)) as [config|] eqn:Ec; [|done]. destruct (aac_mode config) eqn:Em.
  - destruct (adminSession (pg_shell p)) as [s|] eqn:Es; [|done]. intros [= <-]. split; [|done].
    intros _. exists s. split; [|done]. by destruct (v_session _ Hp s Es).
  - destruct (hasAdminToken (pg_shell p)) eqn:Eh; [|done]. intros [= <-]. split; [done|].
    intros _. split; [done|]. intros Hu. apply truthy_spec, (v_token _ Hp); [by left|done].
Qed.

(** A refusal closes the gate at once: when a request is answered 401 while the shell is
    loaded, the next screen asks for authentication with a message, no session is kept in the
    shell, and in shared-token mode the refused token is gone from the form and from storage. *)
Theorem unauthorized_closes meta p q config :
  rq_phase q = AwaitFetch → authConfig (pg_shell p) = Some config → authLoadError (pg_shell p) = false →
  let p' := step meta p (LResponse 401 q) in
  (∃ m, match aac_mode config with
        | oidc => ∃ u, render meta (pg_shell p') = OIDCAccess (Some m) u
        | legacy_shared_token => render meta (pg_shell p') = AdminAccess (Some m) []
        end) ∧
  (aac_mode config = legacy_shared_token → stored_token (pg_client p') = None) ∧
  (aac_mode config = oidc → adminSession (pg_shell p') = None) ∧
  (rq_session q ≠ None → currentAdminSession (pg_client p') = None).
Proof.
  intros Hq Hc He. cbn zeta. change (step meta p (LResponse 401 q)) with (step None p (LResponse 401 q)).
  destruct (response_page 401 q p) as [(m & _ & _ & -> & Hs & _)|[H _]]; [|by destruct H].
  unfold requestAdminAuth, showAdminAuth.
  match goal with |- context [is_oidc ?s] => change (is_oidc s) with (is_oidc (pg_shell p)) end.
  unfold is_oidc. rewrite Hc. destruct (aac_mode config) eqn:Em; (split; [exists m|split; [|split]]).
  - unfold render. cbn. rewrite He, Hc, Em. by eexists.
  - done.
  - done.
  - intros Hn. cbn. rewrite Hs. by destruct (rq_session q).
  - unfold render. cbn. by rewrite He, Hc, Em.
  - done.
  - done.
  - intros Hn. cbn. rewrite Hs. by destruct (rq_session q).
Qed.

(** In shared-token mode every storage event, a theme or language another tab saved
    included, unmounts the protected pages until the scheduled remount runs, and the remount
    shows them again exactly when a token is still stored. *)
Theorem storage_event_remounts meta p key config :
  authConfig (pg_shell p) = Some config → aac_mode config = legacy_shared_token →
  authLoadError (pg_shell p) = false →
  let p' := step meta p (LStorage key) in
  render meta (pg_shell p') = AdminAccess (authMessageKey (pg_shell p)) (draftAdminToken (pg_shell p)) ∧
  ((∃ perms, render meta (pg_shell (step meta p' LTimer)) = Content perms) ↔ getAdminToken (pg_client p) ≠ []).
Proof.
  intros Hc Hm He. cbn zeta.
  assert (Hs : pg_shell (step meta p (LStorage key))
    = set_has_token false (truthy (getAdminToken (pg_client p))) (pg_shell p))
    by (cbn [step]; by case_cond).
  split.
  - rewrite Hs. unfold render. cbn. by rewrite He, Hc, Hm.
  - set (p' := step meta p (LStorage key)) in *. cbn [step]. unfold remount. rewrite Hs. cbn [remountTimer set_has_token].
    rewrite <- truthy_spec. destruct (truthy (getAdminToken (pg_client p))).
    + split; [done|]. intros _. eexists. unfold render, with_shell. cbn [pg_shell]. rewrite Hs. cbn.
      by rewrite He, Hc, Hm.
    + rewrite Hs. unfold render. cbn. rewrite He, Hc, Hm. cbn. split; [by intros [? ?]|done].
Qed.

(** Every page the menu leads to has a title: for each entry of the navigation the header's
    label and description are messages the tables have, and never empty. *)
Theorem nav_pages_labelled item l :
  item ∈ nav_items NAV_GROUPS → pageLabel (nav_to item) (t l) ≠ [] ∧ pageDescription (nav_to item) (t l) ≠ [].
Proof.
  revert item. apply Forall_forall.
  destruct l; repeat (apply Forall_cons_2; [vm_compute; split; discriminate|]); apply Forall_nil_2.
Qed.

(** *** Witnesses *)

Definition oidc_config : AdminAuthConfig := {| aac_mode := oidc; aac_login_url := None |}.
Definition token_config : AdminAuthConfig := {| aac_mode := legacy_shared_token; aac_login_url := None |}.

Definition oidc_page : page :=
  step None (step None (load_page (Some "old")) (LConfig (Ok {| r_status := 200; r_body := Ok oidc_config |})))
    (LSession (Ok {| r_status := 200; r_body := Ok demo_session |})).

Definition token_page : page :=
  step None (load_page (Some "tok")) (LConfig (Ok {| r_status := 200; r_body := Ok token_config |})).

Definition pending_request : inflight :=
  {| rq_session := Some demo_session; rq_timedOut := false; rq_aborted := false; rq_timer := true;
     rq_listening := false; rq_phase := AwaitFetch |}.

Lemma content_authenticated_witness :
  render None (pg_shell oidc_page) = Content ["admin.read"] ∧
  ∃ s, currentAdminSession (pg_client oidc_page) = Some s ∧ ["admin.read"] = session_permissions s.
Proof.
  split; [vm_compute; reflexivity|].
  apply (content_authenticated None oidc_page ["admin.read"]).
  - apply reach_step. apply reach_step. apply reach_load.
  - vm_compute. reflexivity.
  - vm_compute. reflexivity.
Defined.

Lemma unauthorized_closes_witness :
  currentAdminSession (pg_client (step None oidc_page (LResponse 401 pending_request))) = None.
Proof.
  apply (unauthorized_closes None oidc_page pending_request oidc_config).
  - reflexivity.
  - vm_compute. reflexivity.
  - vm_compute. reflexivity.
  - discriminate.
Defined.

Lemma storage_event_remounts_witness :
  render None (pg_shell token_page) = Content (permission_name <$> ALL_ADMIN_PERMISSIONS) ∧
  render None (pg_shell (step None token_page (LStorage (Some LOCALE_STORAGE_KEY)))) = AdminAccess None "tok".
Proof.
  split; [vm_compute; reflexivity|].
  apply (storage_event_remounts None token_page (Some LOCALE_STORAGE_KEY) token_config);
    vm_compute; reflexivity.
Defined.

Lemma nav_pages_labelled_witness : pageLabel "/usage" (t en_US) ≠ [].
Proof.
  apply (nav_pages_labelled (nav_item "nav.usage" admin_read "/usage") en_US).
  do 4 right. left.
Defined.
