(* ===== verification/Ui.v ===== *)
(** * Theme, avatars and small interface helpers

    [src/web/src/lib/theme.tsx], [avatar.ts], [clipboard.ts], [consumer-snippets.ts] and
    [src/web/src/hooks/use-mobile.ts]. *)
From Stdlib Require Import ZArith Lia List.
From stdpp Require Import base list sets gmap.
From S2P Require Import Prelude.

(** ** Theme *)

Definition THEME_STORAGE_KEY : jsstr := "tenancitTheme".

Inductive ResolvedTheme := dark | light.
Inductive ThemePreference := Resolved (t : ResolvedTheme) | system.

Definition DEFAULT_THEME : ThemePreference := system.

#[export] Instance ResolvedTheme_eq_dec : EqDecision ResolvedTheme.
Proof. solve_decision. Defined.
#[export] Instance ThemePreference_eq_dec : EqDecision ThemePreference.
Proof. solve_decision. Defined.

Definition theme_name (t : ThemePreference) : jsstr :=
  match t with Resolved dark => "dark" | Resolved light => "light" | system => "system" end.

Definition normalizeTheme (value : option jsstr) : ThemePreference :=
  match value with
  | Some v => if str_eqb v "dark" then Resolved dark
              else if str_eqb v "light" then Resolved light
              else if str_eqb v "system" then system
              else DEFAULT_THEME
  | None => DEFAULT_THEME
  end.

(** [prefersDark]: what the media query answers, [None] where there is no [matchMedia]. *)
Definition resolveTheme (theme : ThemePreference) (prefersDark : option bool) : ResolvedTheme :=
  match theme with
  | Resolved t => t
  | system => match prefersDark with Some true => dark | Some false => light | None => light end
  end.

Definition readStoredTheme (has_window : bool) (stored : option jsstr) : ThemePreference :=
  if negb has_window then DEFAULT_THEME else normalizeTheme stored.

(** The provider: its state, the document's root and the storage, and whether its listener on
    the media query is installed. *)
Record theme_provider := {
  tp_theme : ThemePreference;
  tp_resolvedTheme : ResolvedTheme;
  tp_rootDark : bool;                (* the class [dark] *)
  tp_colorScheme : option ResolvedTheme;
  tp_stored : option jsstr;
  tp_listening : bool;
  tp_prefersDark : option bool;
}.

(** [syncTheme]: [applyTheme] and the state it sets. *)
Definition syncTheme (p : theme_provider) : theme_provider :=
  let resolved := resolveTheme (tp_theme p) (tp_prefersDark p) in
  {| tp_theme := tp_theme p; tp_resolvedTheme := resolved;
     tp_rootDark := bool_decide (resolved = dark); tp_colorScheme := Some resolved;
     tp_stored := tp_stored p; tp_listening := tp_listening p; tp_prefersDark := tp_prefersDark p |}.

(** The effect of a commit with a new theme; the cleanup of the previous one ran before. *)
Definition theme_effect (p : theme_provider) : theme_provider :=
  let p := syncTheme p in
  {| tp_theme := tp_theme p; tp_resolvedTheme := tp_resolvedTheme p; tp_rootDark := tp_rootDark p;
     tp_colorScheme := tp_colorScheme p; tp_stored := Some (theme_name (tp_theme p));
     tp_listening := bool_decide (tp_theme p = system) && bool_decide (tp_prefersDark p ≠ None);
     tp_prefersDark := tp_prefersDark p |}.

Definition mount_theme (stored : option jsstr) (prefersDark : option bool) : theme_provider :=
  let theme := readStoredTheme true stored in
  theme_effect {| tp_theme := theme; tp_resolvedTheme := resolveTheme theme prefersDark;
                  tp_rootDark := false; tp_colorScheme := None; tp_stored := stored;
                  tp_listening := false; tp_prefersDark := prefersDark |}.

Inductive theme_event := SetTheme (next : ThemePreference) | SchemeChange (dark : bool).

Definition theme_step (p : theme_provider) (e : theme_event) : theme_provider :=
  match e with
  | SetTheme next =>
    if decide (next = tp_theme p) then p
    else theme_effect {| tp_theme := next; tp_resolvedTheme := tp_resolvedTheme p;
                         tp_rootDark := tp_rootDark p; tp_colorScheme := tp_colorScheme p;
                         tp_stored := tp_stored p; tp_listening := false; tp_prefersDark := tp_prefersDark p |}
  | SchemeChange d =>
    match tp_prefersDark p with
    | None => p
    | Some _ =>
      let p' := {| tp_theme := tp_theme p; tp_resolvedTheme := tp_resolvedTheme p; tp_rootDark := tp_rootDark p;
                   tp_colorScheme := tp_colorScheme p; tp_stored := tp_stored p;
                   tp_listening := tp_listening p; tp_prefersDark := Some d |} in
      if tp_listening p then syncTheme p' else p'
    end
  end.

(** ** Avatars *)

(** [(name ?? "").trim().split(/\s+/).filter(Boolean)]. *)
Definition name_parts (name : option jsstr) : list jsstr :=
  List.filter truthy (split_on is_ws (trim (default [] name))).

Definition initials `{CaseMap} (name : option jsstr) : jsstr :=
  let parts := name_parts name in
  match parts with
  | [] => "?"
  | [p] => toUpperCase (take 2 p)
  | p :: _ => toUpperCase (take 1 p ++ take 1 (default [] (last parts)))
  end.

(** The loop on code units: [(hash * 31 + unit) >>> 0]. *)
Definition avatar_hash (value : jsstr) : Z :=
  fold_left (λ hash c, (hash * 31 + c) mod 2 ^ 32) value 0.

Definition avatarHue (seed : option jsstr) : jsstr :=
  "hsl(" ++ show_int (avatar_hash (default [] seed) mod 360) ++ " 45% 42%)".

(** ** The rest *)

Definition MOBILE_BREAKPOINT : Z := 768.
Definition mobile_query : jsstr := "(max-width: " ++ show_int (MOBILE_BREAKPOINT - 1) ++ "px)".

(** [useIsMobile]: what the query matched at the first render, then what its last change said. *)
Definition useIsMobile (has_window matches : bool) (changes : list bool) : bool :=
  List.last changes (has_window && matches).

(** [writeClipboardText]: the text handed to the clipboard, when there is one. *)
Definition writeClipboardText (has_clipboard : bool) (value : jsstr) : result jsstr jsstr :=
  if has_clipboard then Ok value else Err "clipboard API unavailable".

Definition curl_line : jsstr := "curl -H " ++ dq ++ "Authorization: Bearer <token>" ++ dq ++ " \" ++ [10].

Definition consumerSnippets : list (jsstr * jsstr) :=
  [("identify", curl_line ++ "  " ++ dq ++ "/v1/identify?hostname=<tenant-hostname>" ++ dq);
   ("byTenantId", curl_line ++ "  -H 'If-None-Match: " ++ dq ++ "<etag>" ++ dq ++ "' \" ++ [10]
                  ++ "  " ++ dq ++ "/v1/resolve?tenantId=<tenant-slug>" ++ dq);
   ("byHostname", curl_line ++ "  " ++ dq ++ "/v1/resolve?hostname=<tenant-hostname>" ++ dq);
   ("resource", curl_line ++ "  " ++ dq ++ "/v1/resolve/<tenant-hostname>/resources/<resource-alias>" ++ dq)].

Example initials_ex : map (λ n, initials (Some n)) ["ana maria  souza"; "bob"; " "] = ["AS"; "BO"; "?"].
Proof. vm_compute. reflexivity. Qed.

(** ** Lemmas *)

Lemma normalizeTheme_name t : normalizeTheme (Some (theme_name t)) = t.
Proof. by destruct t as [[]|]. Qed.

(** What the provider keeps true. *)
Record theme_inv (p : theme_provider) : Prop := {
  th_resolved : tp_resolvedTheme p = resolveTheme (tp_theme p) (tp_prefersDark p);
  th_root : tp_rootDark p = bool_decide (tp_resolvedTheme p = dark);
  th_scheme : tp_colorScheme p = Some (tp_resolvedTheme p);
  th_stored : tp_stored p = Some (theme_name (tp_theme p));
  th_listening : tp_theme p = system → tp_prefersDark p ≠ None → tp_listening p = true;
}.

Lemma theme_effect_inv p : theme_inv (theme_effect p).
Proof.
  split; try done. cbn. intros -> H. by rewrite !bool_decide_true.
Qed.

Lemma theme_step_inv p e : theme_inv p → theme_inv (theme_step p e).
Proof.
  intros Hp. destruct e as [next|d]; cbn [theme_step].
  - case_decide; [done|apply theme_effect_inv].
  - destruct (tp_prefersDark p) as [b|] eqn:E; [|done]. destruct Hp as [H1 H2 H3 H4 H5].
    destruct (tp_listening p) eqn:El; split; cbn; try done.
    + rewrite H1. destruct (tp_theme p) eqn:Et; [done|]. exfalso.
      assert (false = true) by (apply H5; congruence). done.
    + intros Et _. apply H5; congruence.
Qed.

(** ** Properties *)

(** The page always wears the theme chosen: after mounting from any storage, and any choices
    and changes of the system's scheme, the document's class and color scheme are those of the
    preference under the current scheme, and the stored preference reads back to it. *)
Theorem theme_consistent stored prefersDark events :
  let p := fold_left theme_step events (mount_theme stored prefersDark) in
  tp_colorScheme p = Some (resolveTheme (tp_theme p) (tp_prefersDark p)) ∧
  tp_rootDark p = bool_decide (resolveTheme (tp_theme p) (tp_prefersDark p) = dark) ∧
  tp_theme (mount_theme (tp_stored p) (tp_prefersDark p)) = tp_theme p.
Proof.
  cbn zeta. assert (Hinv : ∀ p, theme_inv p → theme_inv (fold_left theme_step events p)).
  { induction events as [|e es IH]; intros p Hp; [done|]. cbn. by apply IH, theme_step_inv. }
  destruct (Hinv (mount_theme stored prefersDark)) as [H1 H2 H3 H4 _]; [apply theme_effect_inv|].
  rewrite H3, H2, H1. split; [done|]. split; [done|]. rewrite H4. apply normalizeTheme_name.
Qed.

(** Value of a string in base 31, the first unit most significant. *)
Fixpoint base31 (value : jsstr) (acc : Z) : Z :=
  match value with [] => acc | c :: r => base31 r (acc * 31 + c) end.

Lemma avatar_hash_mod value a b :
  a mod 2 ^ 32 = b mod 2 ^ 32 → 0 <= a < 2 ^ 32 →
  fold_left (λ hash c, (hash * 31 + c) mod 2 ^ 32) value a = base31 value b mod 2 ^ 32.
Proof.
  revert a b. induction value as [|c r IH]; intros a b E Ha; cbn [fold_left base31].
  - by rewrite <- E, Z.mod_small.
  - apply IH; [|by apply Z.mod_pos_bound]. rewrite Z.mod_mod by done.
    rewrite (Z.add_mod (a * 31)), (Z.mul_mod a), E, <- Z.mul_mod, <- Z.add_mod by done. done.
Qed.

(** The avatar's hash is the string's base-31 value in 32-bit arithmetic, however long the
    string, its intermediate values stay exact doubles, and the hue it gives is a degree of the
    circle. *)
Theorem avatarHue_spec seed :
  (∃ hue, 0 <= hue < 360 ∧ avatarHue seed = "hsl(" ++ show_int hue ++ " 45% 42%)" ∧
          hue = (base31 (default [] seed) 0 mod 2 ^ 32) mod 360) ∧
  ∀ pre c, 0 <= c < 65536 → 0 <= avatar_hash pre * 31 + c < 2 ^ 53.
Proof.
  split.
  - eexists. split; [|split; [reflexivity|]]; [by apply Z.mod_pos_bound|].
    unfold avatar_hash. by rewrite (avatar_hash_mod _ 0 0).
  - intros pre c Hc. unfold avatar_hash. rewrite (avatar_hash_mod _ 0 0) by done.
    pose proof (Z.mod_pos_bound (base31 pre 0) (2 ^ 32) ltac:(lia)). lia.
Qed.
