(* ===== verification/Sidebar.v ===== *)
(** * The sidebar

    [src/web/src/components/ui/sidebar.tsx]: the provider that keeps whether the sidebar is open, on a
    wide screen and as a sheet on a narrow one, the callbacks that change it, and what the parts of
    the sidebar show of it.  The callbacks close over the values of the render that made them, so
    that the state keeps what was last rendered ([seen]) and rendering is a step of its own. *)
From Stdlib Require Import ZArith Lia List QArith Qround.
From stdpp Require Import base list.
From S2P Require Import Numbers Ui Prelude.
#[local] Open Scope Z_scope.

Definition SIDEBAR_COOKIE_NAME : jsstr := "sidebar_state".
Definition SIDEBAR_COOKIE_MAX_AGE : Z := 60 * 60 * 24 * 7.
Definition SIDEBAR_WIDTH : jsstr := "13.5rem".
Definition SIDEBAR_WIDTH_MOBILE : jsstr := "16rem".
Definition SIDEBAR_WIDTH_ICON : jsstr := "3rem".
Definition SIDEBAR_KEYBOARD_SHORTCUT : jsstr := "b".

(** ** The provider *)

Definition bool_text (b : bool) : jsstr := if b then "true" else "false".

(** The text the cookie is set to. *)
Definition cookie_text (openState : bool) : jsstr :=
  SIDEBAR_COOKIE_NAME ++ "=" ++ bool_text openState ++ "; path=/; max-age=" ++ show_int SIDEBAR_COOKIE_MAX_AGE.

(** The arguments: [openProp] is a state of the parent and may change, so it is kept below. *)
Record sidebar_props := { pp_defaultOpen : option bool; pp_onOpenChange : bool (* given *) }.

Record sidebar_provider := {
  _open : bool;
  openProp : option bool;
  openMobile : bool;
  matches : list bool;            (* what the media query said: when mounted, then at each change *)
  told : list bool;               (* the calls of [onOpenChange], oldest first *)
  cookies : list jsstr;           (* the texts [document.cookie] was set to *)
  seen : bool * bool;             (* [open] and [isMobile] of the last render *)
}.

Definition open_of (p : sidebar_provider) : bool := default (_open p) (openProp p).
Definition isMobile (p : sidebar_provider) : bool := useIsMobile true (default false (head (matches p))) (tail (matches p)).

(** A render makes the callbacks anew. *)
Definition rerender (p : sidebar_provider) : sidebar_provider :=
  {| _open := _open p; openProp := openProp p; openMobile := openMobile p; matches := matches p; told := told p;
     cookies := cookies p; seen := (open_of p, isMobile p) |}.

Definition mount_sidebar (props : sidebar_props) (openProp : option bool) (narrow : bool) : sidebar_provider :=
  rerender {| _open := default true (pp_defaultOpen props); openProp := openProp; openMobile := false;
            matches := [narrow]; told := []; cookies := []; seen := (true, false) |}.

(** What [setOpen] is given: a value, or a function of the value. *)
Inductive open_setting := Value (b : bool) | Apply (f : bool → bool).

Definition setOpen (props : sidebar_props) (value : open_setting) (p : sidebar_provider) : sidebar_provider :=
  let openState := match value with Apply f => f (seen p).1 | Value b => b end in
  {| _open := if pp_onOpenChange props then _open p else openState;
     openProp := openProp p; openMobile := openMobile p; matches := matches p;
     told := if pp_onOpenChange props then told p ++ [openState] else told p;
     cookies := cookies p ++ [cookie_text openState]; seen := seen p |}.

(** A setter of React's applies a function to the latest value, rendered or not. *)
Definition setOpenMobile (value : open_setting) (p : sidebar_provider) : sidebar_provider :=
  {| _open := _open p; openProp := openProp p;
     openMobile := match value with Apply f => f (openMobile p) | Value b => b end;
     matches := matches p; told := told p; cookies := cookies p; seen := seen p |}.

Definition toggleSidebar (props : sidebar_props) (p : sidebar_provider) : sidebar_provider :=
  if (seen p).2 then setOpenMobile (Apply negb) p else setOpen props (Apply negb) p.

(** A key: its name, and whether [meta] or [ctrl] is held. *)
Record key_event := { key : jsstr; metaKey : bool; ctrlKey : bool }.

Definition shortcut (e : key_event) : bool := str_eqb (key e) SIDEBAR_KEYBOARD_SHORTCUT && (metaKey e || ctrlKey e).

(** [handleKeyDown], with whether the default action is prevented. *)
Definition handleKeyDown (props : sidebar_props) (e : key_event) (p : sidebar_provider) : sidebar_provider * bool :=
  if shortcut e then (toggleSidebar props p, true) else (p, false).

(** ** The parts *)

Inductive side_state := expanded | collapsed.

Definition state (p : sidebar_provider) : side_state := if open_of p then expanded else collapsed.

Inductive side_variant := variant_sidebar | variant_floating | variant_inset.
Inductive side_collapsible := offcanvas | icon | none_collapsible.
Inductive side := left | right.

(** What [Sidebar] renders: a fixed column, a sheet, or the panel of a wide screen with the name its
    [data-collapsible] holds when it is collapsed. *)
Inductive rendered :=
  | Column
  | SheetOver (shown : bool) (s : side) (width : jsstr)
  | Panel (st : side_state) (data_collapsible : option side_collapsible) (v : side_variant) (s : side).

Definition Sidebar (s : option side) (v : option side_variant) (c : option side_collapsible) (p : sidebar_provider) : rendered :=
  let s := default left s in
  let v := default variant_sidebar v in
  let c := default offcanvas c in
  match c with
  | none_collapsible => Column
  | _ =>
    if isMobile p then SheetOver (openMobile p) s SIDEBAR_WIDTH_MOBILE
    else Panel (state p) (match state p with collapsed => Some c | expanded => None end) v s
  end.

(** The classes of the gap and of the container that depend on the variant. *)
Definition padded (v : side_variant) : bool :=
  match v with variant_floating | variant_inset => true | variant_sidebar => false end.

Definition gap_class (v : side_variant) : jsstr :=
  if padded v then "group-data-[collapsible=icon]:w-[calc(var(--sidebar-width-icon)+(--spacing(4)))]"
  else "group-data-[collapsible=icon]:w-(--sidebar-width-icon)".

Definition container_class (v : side_variant) : jsstr :=
  if padded v then "p-2 group-data-[collapsible=icon]:w-[calc(var(--sidebar-width-icon)+(--spacing(4))+2px)]"
  else "group-data-[collapsible=icon]:w-(--sidebar-width-icon) group-data-[side=left]:border-r group-data-[side=right]:border-l".

(** A click of the trigger runs the handler it was given first. *)
Definition SidebarTrigger (props : sidebar_props) (own : sidebar_provider → sidebar_provider) (p : sidebar_provider) : sidebar_provider :=
  toggleSidebar props (own p).

(** The rail's handler is replaced by the one it is given. *)
Definition SidebarRail (props : sidebar_props) (own : option (sidebar_provider → sidebar_provider)) (p : sidebar_provider) : sidebar_provider :=
  match own with Some f => f p | None => toggleSidebar props p end.

Inductive tooltip := NoTooltip | TipText (s : jsstr) | TipProps (hidden : option bool) (children : jsstr).

(** The tooltip of a menu button: whether it is hidden, and its contents; none without a tooltip,
    nor for an empty one. *)
Definition menu_tooltip (t : tooltip) (p : sidebar_provider) : option (bool * jsstr) :=
  let hidden := match state p with collapsed => isMobile p | expanded => true end in
  match t with
  | NoTooltip => None
  | TipText s => if truthy s then Some (hidden, s) else None
  | TipProps h c => Some (default hidden h, c)
  end.

(** A click on a menu button, [isMobile] being that of its render. *)
Definition menu_click (p : sidebar_provider) : sidebar_provider := if (seen p).2 then setOpenMobile (Value false) p else p.

(** The data attributes of a menu button. *)
Inductive menu_size := size_default | size_sm | size_lg.
Definition menu_button_state (isActive : option bool) (size : option menu_size) : jsstr * jsstr * menu_size * bool :=
  ("sidebar-menu-button", "menu-button", default size_default size, default false isActive).

(** [Math.floor(Math.random() * 40) + 50], as a percentage. *)
Definition skeleton_width (random : num) : option Z :=
  match num_mul random (num_of_Z 40) with Fin x => Some (Qfloor x + 50) | _ => None end.

Definition SidebarMenuSkeleton (random : num) : jsstr :=
  match skeleton_width random with Some w => show_int w ++ "%" | None => "NaN%" end.

(** ** Steps *)

Inductive event :=
  | Trigger | Rail | Key (e : key_event) | MenuClick
  | Set_ (value : open_setting)                 (* a consumer of the context calls [setOpen] *)
  | SheetChange (shown : bool)             (* the sheet closes itself *)
  | Media (narrow : bool).                 (* the media query changes *)

Definition media (narrow : bool) (p : sidebar_provider) : sidebar_provider :=
  {| _open := _open p; openProp := openProp p; openMobile := openMobile p; matches := matches p ++ [narrow];
     told := told p; cookies := cookies p; seen := seen p |}.

Definition handle (props : sidebar_props) (e : event) (p : sidebar_provider) : sidebar_provider :=
  match e with
  | Trigger => SidebarTrigger props id p
  | Rail => SidebarRail props None p
  | Key e => (handleKeyDown props e p).1
  | MenuClick => menu_click p
  | Set_ value => setOpen props value p
  | SheetChange shown => setOpenMobile (Value shown) p
  | Media narrow => media narrow p
  end.

(** A parent that keeps what it is told gives it back. *)
Definition follow (p : sidebar_provider) : sidebar_provider :=
  {| _open := _open p;
     openProp := match openProp p with Some b => Some (List.last (told p) b) | None => None end;
     openMobile := openMobile p; matches := matches p; told := told p; cookies := cookies p; seen := seen p |}.

(** React renders after each event. *)
Definition step (props : sidebar_props) (p : sidebar_provider) (e : event) : sidebar_provider := rerender (follow (handle props e p)).

Definition run (props : sidebar_props) (p : sidebar_provider) (es : list event) : sidebar_provider := fold_left (step props) es p.

(** ** The abstract sidebar

    Two switches and the kind of screen. *)
Record switches := { sw_open : bool; sw_sheet : bool; sw_narrow : bool }.

Definition switch (s : switches) (e : event) : switches :=
  let toggle :=
    if sw_narrow s then {| sw_open := sw_open s; sw_sheet := negb (sw_sheet s); sw_narrow := true |}
    else {| sw_open := negb (sw_open s); sw_sheet := sw_sheet s; sw_narrow := false |} in
  match e with
  | Trigger | Rail => toggle
  | Key e => if shortcut e then toggle else s
  | MenuClick => {| sw_open := sw_open s; sw_sheet := if sw_narrow s then false else sw_sheet s; sw_narrow := sw_narrow s |}
  | Set_ (Value b) => {| sw_open := b; sw_sheet := sw_sheet s; sw_narrow := sw_narrow s |}
  | Set_ (Apply f) => {| sw_open := f (sw_open s); sw_sheet := sw_sheet s; sw_narrow := sw_narrow s |}
  | SheetChange shown => {| sw_open := sw_open s; sw_sheet := shown; sw_narrow := sw_narrow s |}
  | Media narrow => {| sw_open := sw_open s; sw_sheet := sw_sheet s; sw_narrow := narrow |}
  end.

Definition abstract (p : sidebar_provider) : switches :=
  {| sw_open := open_of p; sw_sheet := openMobile p; sw_narrow := isMobile p |}.

(** The provider keeps its own state, or is given the state it reports. *)
Definition well_used (props : sidebar_props) (openProp : option bool) : Prop :=
  pp_onOpenChange props = bool_decide (is_Some openProp).


(** ** Lemmas *)

Record sidebar_inv (props : sidebar_props) (p : sidebar_provider) : Prop := {
  pi_seen : seen p = (open_of p, isMobile p);
  pi_matches : matches p ≠ [];
  pi_used : well_used props (openProp p);
  pi_follows : ∀ b, openProp p = Some b → List.last (told p) b = b;
  pi_cookie : ∀ c, last (cookies p) = Some c → c = cookie_text (open_of p);
}.

Lemma isMobile_media narrow p : matches p ≠ [] → isMobile (media narrow p) = narrow.
Proof.
  unfold isMobile, media, useIsMobile. cbn [matches]. destruct (matches p) as [|m l]; [done|]. intros _.
  cbn [head tail app default]. apply last_last.
Qed.

Lemma follow_idle props p : sidebar_inv props p → openProp (follow p) = openProp p.
Proof.
  intros Hp. unfold follow. cbn [openProp]. destruct (openProp p) as [b|] eqn:E; [|done].
  by rewrite (pi_follows _ _ Hp b E).
Qed.

(** A step that leaves the reports and the cookies alone. *)
Lemma inv_quiet props p p' :
  sidebar_inv props p → _open p' = _open p → openProp p' = openProp p → told p' = told p → cookies p' = cookies p →
  matches p' ≠ [] → sidebar_inv props (rerender (follow p')) ∧ open_of (rerender (follow p')) = open_of p.
Proof.
  intros Hp E1 E2 E3 E4 Hm.
  assert (Ho : openProp (follow p') = openProp p).
  { unfold follow. cbn [openProp]. rewrite E2, E3. destruct (openProp p) as [b|] eqn:E; [|done].
    by rewrite (pi_follows _ _ Hp b E). }
  assert (Ho' : open_of (rerender (follow p')) = open_of p)
    by (unfold open_of; cbn [rerender _open openProp follow] in *; by rewrite Ho, E1).
  split; [|done]. constructor.
  - done.
  - done.
  - change (well_used props (openProp (follow p'))). rewrite Ho. apply (pi_used _ _ Hp).
  - intros b. change (openProp (follow p') = Some b → List.last (told p') b = b). rewrite Ho, E3. apply (pi_follows _ _ Hp).
  - intros c. rewrite Ho'. change (last (cookies p') = Some c → c = cookie_text (open_of p)). rewrite E4.
    apply (pi_cookie _ _ Hp).
Qed.

(** [setOpen] with the render and the parent's answer that follow it. *)
Lemma inv_setOpen props p value :
  sidebar_inv props p →
  let p' := rerender (follow (setOpen props value p)) in
  sidebar_inv props p' ∧ abstract p' = switch (abstract p) (Set_ value) ∧ last (cookies p') ≠ None.
Proof.
  intros Hp p'. pose proof (pi_used _ _ Hp) as Hu. unfold well_used in Hu.
  set (b := match value with Apply f => f (seen p).1 | Value b => b end).
  assert (Ho : open_of p' = b ∧ openProp p' = (if pp_onOpenChange props then Some b else None) ∧
               told p' = (if pp_onOpenChange props then told p ++ [b] else told p)).
  { subst p'. unfold open_of, follow, rerender, setOpen. cbn [_open openProp told]. fold b. rewrite Hu.
    destruct (openProp p) as [c|]; [|done].
    rewrite bool_decide_true by done. cbn [default]. by rewrite last_last. }
  destruct Ho as (Ho & Hp' & Ht). split_and!.
  - constructor.
    + done.
    + apply (pi_matches _ _ Hp).
    + unfold well_used. rewrite Hp'. by destruct (pp_onOpenChange props).
    + intros c. rewrite Hp', Ht. destruct (pp_onOpenChange props); [|done]. intros [= <-]. apply last_last.
    + intros c. rewrite Ho. subst p'. unfold follow, rerender, setOpen. cbn [cookies]. fold b.
      rewrite last_snoc. by intros [= <-].
  - unfold abstract at 1. rewrite Ho. subst b. rewrite (pi_seen _ _ Hp). by destruct value.
  - subst p'. unfold follow, rerender, setOpen. cbn [cookies]. by rewrite last_snoc.
Qed.

Lemma inv_toggle props p :
  sidebar_inv props p →
  let p' := rerender (follow (toggleSidebar props p)) in
  sidebar_inv props p' ∧ abstract p' = switch (abstract p) Trigger.
Proof.
  intros Hp p'. subst p'. unfold toggleSidebar. rewrite (pi_seen _ _ Hp). cbn [snd switch abstract sw_narrow].
  destruct (isMobile p) eqn:Hm.
  - destruct (inv_quiet props p (setOpenMobile (Apply negb) p) Hp) as [Hi Ho]; [done..|apply (pi_matches _ _ Hp)|].
    split; [done|]. unfold abstract. rewrite Ho. f_equal. exact Hm.
  - destruct (inv_setOpen props p (Apply negb) Hp) as (Hi & Ha & _). split; [done|]. rewrite Ha.
    cbn [switch abstract sw_open sw_sheet sw_narrow]. by rewrite Hm.
Qed.

Lemma inv_step props p e : sidebar_inv props p → sidebar_inv props (step props p e) ∧ abstract (step props p e) = switch (abstract p) e.
Proof.
  intros Hp. pose proof (pi_matches _ _ Hp) as Hm. unfold step. destruct e as [| |k| |value|shown|narrow]; cbn [handle].
  - apply (inv_toggle props p Hp).
  - apply (inv_toggle props p Hp).
  - unfold handleKeyDown. cbn [switch]. destruct (shortcut k); [apply (inv_toggle props p Hp)|].
    cbn [fst].
    destruct (inv_quiet props p p Hp) as [Hi Ho]; [done..|]. split; [done|]. unfold abstract. by rewrite Ho.
  - unfold menu_click. rewrite (pi_seen _ _ Hp). cbn [snd switch abstract sw_narrow sw_open sw_sheet].
    destruct (isMobile p) eqn:E.
    + destruct (inv_quiet props p (setOpenMobile (Value false) p) Hp) as [Hi Ho]; [done..|].
      split; [done|]. unfold abstract. rewrite Ho. f_equal. exact E.
    + destruct (inv_quiet props p p Hp) as [Hi Ho]; [done..|]. split; [done|]. unfold abstract. rewrite Ho.
      f_equal. exact E.
  - destruct (inv_setOpen props p value Hp) as (Hi & Ha & _). done.
  - destruct (inv_quiet props p (setOpenMobile (Value shown) p) Hp) as [Hi Ho]; [done..|].
    split; [done|]. unfold abstract. by rewrite Ho.
  - destruct (inv_quiet props p (media narrow p) Hp) as [Hi Ho]; [done..| |].
    { cbn [media matches]. by destruct (matches p). }
    split; [done|]. unfold abstract. rewrite Ho. cbn [switch]. f_equal.
    change (isMobile (media narrow p) = narrow). by apply isMobile_media.
Qed.

Lemma inv_mount props o narrow : well_used props o → sidebar_inv props (mount_sidebar props o narrow).
Proof. by constructor. Qed.

Lemma inv_run props p es :
  sidebar_inv props p → sidebar_inv props (run props p es) ∧ abstract (run props p es) = fold_left switch es (abstract p).
Proof.
  revert p. induction es as [|e es IH]; intros p Hp; [done|]. cbn [run fold_left].
  destruct (inv_step props p e Hp) as [Hi <-]. by apply IH.
Qed.

(** The doubles from 0 up to 1: the largest is 1 - 2^-53. *)
Definition random_double (r : num) : Prop := ∃ x, r = Fin x ∧ (0 <= x)%Q ∧ (x <= 1 - 1 / inject_Z (2 ^ 53))%Q.

Lemma floor_round_40 (x : Q) :
  (0 <= x)%Q → (x * inject_Z (2 ^ 53) <= inject_Z (40 * (2 ^ 53 - 1)))%Q →
  ∃ y, round_double x = Fin y ∧ 0 <= Qfloor y <= 39.
Proof.
  intros H0 H1. destruct x as [p q]. unfold Qle, Qmult, inject_Z in H0, H1. cbn [Qnum Qden] in H0, H1.
  rewrite !Z.mul_1_r, Pos.mul_1_r in *. unfold round_double. cbn [Qnum Qden]. rewrite Z.mul_0_l in H0.
  case_cond; [by exists 0%Q|]. bool_to_prop. assert (Hp : 0 < p) by lia. rewrite Z.abs_eq by lia.
  assert (Hq : 0 < Z.pos q) by lia. unfold round_pos.
  set (e := Z.max (floor_log2 p (Z.pos q) - 52) (-1074)).
  assert (He : e <= -47 ∧ round_half_even (p * 2 ^ (- e)) (Z.pos q) < 40 * 2 ^ (- e)).
  { destruct (Z.lt_ge_cases p (Z.pos q * 2 ^ (4 + 1))) as [Hlt|Hge].
    - pose proof (floor_log2_le p (Z.pos q) 4 Hp Hq ltac:(lia) Hlt). assert (e <= -48) by lia. split; [lia|].
      assert (0 < 2 ^ (- e)) by (apply Z.pow_pos_nonneg; lia).
      apply Z.le_lt_trans with (32 * 2 ^ (- e)); [|lia]. apply round_half_even_le; [done|]. nia.
    - assert (floor_log2 p (Z.pos q) = 5) as E by (apply floor_log2_eq; lia).
      subst e. rewrite E. split; [lia|]. change (Z.max (5 - 52) (-1074)) with (-47).
      apply Z.le_lt_trans with (40 * 2 ^ 47 - 1); [|lia]. apply round_half_even_le; [done|].
      change (2 ^ (- -47)) with (2 ^ 47). lia. }
  destruct He as [He Hm]. rewrite (proj2 (Z.leb_gt 0 e)) by lia. cbn [fst snd].
  change (2 ^ 1024 <=? 0) with false. cbn iota. rewrite (proj2 (Z.ltb_ge p 0)) by lia.
  eexists. split; [done|]. unfold dyadic. rewrite (proj2 (Z.leb_gt 0 e)) by lia.
  assert (0 < 2 ^ (- e)) by (apply Z.pow_pos_nonneg; lia).
  unfold Qfloor. rewrite Z2Pos.id by done.
  pose proof (round_half_even_nonneg (p * 2 ^ (- e)) (Z.pos q) ltac:(nia) Hq).
  split; [by apply Z.div_pos|]. apply Z.lt_succ_r, Z.div_lt_upper_bound; lia.
Qed.

(** ** Properties *)

(** C10. The provider, with its closures, its parent and its cookie, is two switches and the kind of
    screen: after any events, each followed by a render, the panel is open and the sheet shown as the
    abstract sidebar says, whether the provider keeps its state or a parent keeps it; the callbacks
    have seen that state; and the last cookie it set, if any, names it. *)
Theorem sidebar_refines props o narrow es :
  well_used props o →
  let p := run props (mount_sidebar props o narrow) es in
  abstract p = fold_left switch es {| sw_open := default (default true (pp_defaultOpen props)) o; sw_sheet := false; sw_narrow := narrow |} ∧
  seen p = (sw_open (abstract p), sw_narrow (abstract p)) ∧
  ∀ c, last (cookies p) = Some c → c = cookie_text (sw_open (abstract p)).
Proof.
  intros Hu p. destruct (inv_run props (mount_sidebar props o narrow) es (inv_mount props o narrow Hu)) as [Hi Ha].
  split_and!; [exact Ha|apply (pi_seen _ _ Hi)|apply (pi_cookie _ _ Hi)].
Qed.

(** Two toggles between which nothing is rendered: on a wide screen the second repeats the first, as
    both have seen the same state; the sheet of a narrow screen comes back to what it was. *)
Theorem sidebar_batched_toggles props p :
  sidebar_inv props p →
  abstract (rerender (follow (toggleSidebar props (toggleSidebar props p)))) =
  if isMobile p then abstract p else switch (abstract p) Trigger.
Proof.
  intros Hp. pose proof (inv_toggle props p Hp) as [_ Ht]. revert Ht.
  pose proof (pi_used _ _ Hp) as Hu. unfold well_used in Hu.
  unfold toggleSidebar. rewrite (pi_seen _ _ Hp). cbn [snd]. destruct (isMobile p) eqn:Hm.
  - intros _. cbn [setOpenMobile seen]. rewrite (pi_seen _ _ Hp). cbn [snd]. rewrite Hm.
    destruct (inv_quiet props p (setOpenMobile (Apply negb) (setOpenMobile (Apply negb) p)) Hp) as [_ Ho];
      [done..|apply (pi_matches _ _ Hp)|].
    unfold abstract. rewrite Ho. f_equal. apply negb_involutive.
  - cbn [setOpen seen]. rewrite (pi_seen _ _ Hp). cbn [snd]. rewrite Hm. intros <-.
    unfold abstract, open_of, follow, rerender, setOpen. cbn [_open openProp openMobile matches told seen].
    rewrite (pi_seen _ _ Hp). cbn [fst]. f_equal. rewrite Hu. destruct (openProp p) as [b|]; [|done].
    rewrite bool_decide_true by done. cbn [default]. by rewrite !last_last.
Qed.

(** The width of a skeleton is a whole percentage from 50 to 89, whatever number below 1 is drawn. *)
Theorem skeleton_width_range r : random_double r → ∃ w, skeleton_width r = Some w ∧ 50 <= w <= 89.
Proof.
  intros (x & -> & H0 & H1). unfold skeleton_width.
  assert (E : ∃ y, num_of_Z 40 = Fin y ∧ y == inject_Z 40)
    by (vm_compute (num_of_Z 40); eexists; split; [done|]; done).
  destruct E as (y & E & Hy). rewrite E. cbn [num_mul].
  destruct (floor_round_40 (Qred (x * y))) as (z & -> & Hz).
  - rewrite Qred_correct, Hy. apply Qmult_le_0_compat; [done|]. done.
  - rewrite Qred_correct, Hy.
    assert (E1 : (x * inject_Z 40 * inject_Z (2 ^ 53) == x * inject_Z (40 * 2 ^ 53))%Q) by (rewrite inject_Z_mult; ring).
    assert (E2 : (inject_Z (40 * (2 ^ 53 - 1)) == (1 - 1 / inject_Z (2 ^ 53)) * inject_Z (40 * 2 ^ 53))%Q) by done.
    rewrite E1, E2.
    apply Qmult_le_compat_r; [done|]. done.
  - eexists. split; [done|]. lia.
Qed.

(** What is shown of the state: a collapsible sidebar is a sheet on a narrow screen and a panel on a
    wide one, and a menu button's own tooltip is hidden unless the panel is collapsed. *)
Theorem sidebar_tooltip s v c p text :
  c ≠ Some none_collapsible → truthy text = true →
  (menu_tooltip (TipText text) p = Some (false, text) ↔
   ∃ k w d, Sidebar s v c p = Panel collapsed (Some k) w d).
Proof.
  intros Hc Ht. unfold menu_tooltip, Sidebar. rewrite Ht. destruct (state p) eqn:Es.
  - split; [done|]. intros (k & w & d & E). destruct (default offcanvas c), (isMobile p); done.
  - destruct c as [[]|]; try done; cbn [default]; destruct (isMobile p); (split; [intros [=]|intros (? & ? & ? & [=])]); eauto.
Qed.

(** *** Inputs *)

Definition plain_props : sidebar_props := {| pp_defaultOpen := None; pp_onOpenChange := false |}.
Definition ctrl_b : key_event := {| key := "b"; metaKey := false; ctrlKey := true |}.

Lemma sidebar_refines_witness :
  let p := run plain_props (mount_sidebar plain_props None false) [Key ctrl_b; Media true; Trigger; MenuClick; Trigger] in
  abstract p = {| sw_open := false; sw_sheet := true; sw_narrow := true |} ∧
  cookies p = ["sidebar_state=false; path=/; max-age=604800"].
Proof.
  split; [|by vm_compute].
  destruct (sidebar_refines plain_props None false [Key ctrl_b; Media true; Trigger; MenuClick; Trigger]) as (E & _ & _).
  - done.
  - rewrite E. by vm_compute.
Defined.

Lemma sidebar_batched_toggles_witness :
  abstract (rerender (follow (toggleSidebar plain_props (toggleSidebar plain_props (mount_sidebar plain_props None false)))))
  = {| sw_open := false; sw_sheet := false; sw_narrow := false |}.
Proof.
  rewrite (sidebar_batched_toggles plain_props (mount_sidebar plain_props None false)).
  - by vm_compute.
  - by apply inv_mount.
Defined.

Lemma skeleton_width_range_witness : ∃ w, skeleton_width (Fin (1 # 2)) = Some w ∧ 50 <= w <= 89.
Proof. apply skeleton_width_range. by exists (1 # 2)%Q. Defined.

Lemma sidebar_tooltip_witness :
  let p := run plain_props (mount_sidebar plain_props None false) [Rail] in
  menu_tooltip (TipText "Tenants") p = Some (false, "Tenants").
Proof.
  apply (sidebar_tooltip (Some left) None (Some icon)); [done|done|]. by repeat eexists.
Defined.
