(* ===== verification/ShellView.v ===== *)
(** * What the shell shows

    The rest of [src/web/src/components/app-shell.tsx]: what each screen of [Shell.render] says and
    offers, the navigation with the entry of the page at hand, the header, the user's menu and the
    menus of the preferences.  The state behind them is that of [Shell], [I18n] and [Ui]. *)
From Stdlib Require Import ZArith Lia List.
From stdpp Require Import base list sets gmap.
From S2P Require Import Host BasePath Types Api I18nPt I18nEn I18nEs I18n Admin Ui Shell Prelude.
#[local] Open Scope Z_scope.

Section view.
Context `{UrlApi} `{CaseMap} (l : Locale).

(** ** The navigation *)

Definition nav_active (pathname : jsstr) (item : NavItem) : bool :=
  if nav_exact item then str_eqb pathname (nav_to item) else startsWith (nav_to item) pathname.

Record nav_entry := { ne_to : jsstr; ne_label : jsstr; ne_active : bool }.

(** The entry of an item; its tooltip is its label. *)
Definition entry_of (pathname : jsstr) (item : NavItem) : nav_entry :=
  {| ne_to := nav_to item; ne_label := t l (nav_label item); ne_active := nav_active pathname item |}.

Definition navigation (permissions : list jsstr) (pathname : jsstr) : list (jsstr * list nav_entry) :=
  (λ group, (t l (group_label group), entry_of pathname <$> group_items group))
    <$> visibleNavGroups (list_to_set permissions).

(** ** The header *)

Record header := {
  hd_is_heading : bool;                      (* the label is the page's [h1] *)
  hd_label : jsstr;
  hd_description : option jsstr;
}.

Definition page_header (pathname : jsstr) : header :=
  {| hd_is_heading := negb (pageHasOwnHeading pathname);
     hd_label := pageLabel pathname (t l);
     hd_description := let d := pageDescription pathname (t l) in if truthy d then Some d else None |}.

(** [UserMenu] *)
Record user_menu := { um_displayName : jsstr; um_detail : jsstr; um_avatarLabel : jsstr; um_hue : jsstr }.

Definition UserMenu (session : option AdminSession) (sharedCredential : bool) : user_menu :=
  let displayName :=
    match session with Some s => str_or (session_label s) (t l "auth.sharedCredential") | None => t l "auth.sharedCredential" end in
  {| um_displayName := displayName;
     um_detail :=
       if sharedCredential then t l "auth.sharedToken"
       else match session with
            | Some s => match session_roles s with [] => t l "auth.oidcSession" | rs => join ", " rs end
            | None => t l "auth.oidcSession"
            end;
     um_avatarLabel := initials (Some displayName);
     um_hue := avatarHue (Some (match session with Some s => str_or (session_subject s) displayName | None => displayName end)) |}.

(** ** The screens without content *)

Definition message_key (m : AdminAuthMessage) : jsstr :=
  match m with
  | auth_invalidToken => "auth.invalidToken"
  | auth_requiredAccess => "auth.requiredAccess"
  | auth_sessionExpired => "auth.sessionExpired"
  end.

Definition auth_text (m : option AdminAuthMessage) : jsstr :=
  match m with Some m => t l (message_key m) | None => [] end.

(** [OIDCAccessScreen]: its text and the address of its link; it throws when the address is refused. *)
Definition OIDCAccessScreen (authMessage loginURL origin returnTo : jsstr) : result base_path_error (jsstr * jsstr) :=
  oidcLoginURL <-? buildOIDCLoginURL loginURL origin returnTo;;
  Ok (str_or authMessage (t l "auth.oidcDescription"), oidcLoginURL).

(** [AdminAccessScreen]: the state is whether the token is shown. *)
Record access_form := {
  af_text : jsstr;
  af_type : jsstr;
  af_value : jsstr;
  af_eye_label : jsstr;
  af_disabled : bool;
}.

Definition AdminAccessScreen (authMessage draftAdminToken : jsstr) (showToken : bool) : access_form :=
  {| af_text := str_or authMessage (t l "auth.description");
     af_type := if showToken then "text" else "password";
     af_value := draftAdminToken;
     af_eye_label := if showToken then t l "auth.hideToken" else t l "auth.showToken";
     af_disabled := negb (truthy (trim draftAdminToken)) |}.

(** ** The preferences *)

Record menu := { mn_current : jsstr; mn_title : jsstr; mn_value : jsstr; mn_options : list (jsstr * jsstr) }.

(** [LanguageMenu]: the flag of the trigger, its title, the value and the options. *)
Definition LanguageMenu : menu :=
  let selected := default (default {| lo_flag := []; lo_label := []; lo_value := l |} (head LOCALE_OPTIONS))
    (List.find (λ o, bool_decide (lo_value o = l)) LOCALE_OPTIONS) in
  {| mn_current := lo_flag selected; mn_title := t l "preferences.language"; mn_value := locale_tag l;
     mn_options := (λ o, (locale_tag (lo_value o), lo_label o)) <$> LOCALE_OPTIONS |}.

Inductive theme_icon := Monitor | Moon | Sun.

Definition ThemeIcon (theme : ThemePreference) (resolvedTheme : ResolvedTheme) : theme_icon :=
  match theme with system => Monitor | Resolved _ => match resolvedTheme with dark => Moon | light => Sun end end.

Definition theme_options : list (jsstr * ThemePreference) :=
  [(t l "preferences.theme.light", Resolved light); (t l "preferences.theme.dark", Resolved dark);
   (t l "preferences.theme.system", system)].

(** [ThemeMenu] *)
Definition ThemeMenu (theme : ThemePreference) : menu :=
  let currentLabel := match List.find (λ o, bool_decide (o.2 = theme)) theme_options with
                      | Some o => o.1 | None => t l "preferences.theme.system" end in
  {| mn_current := currentLabel; mn_title := t l "preferences.theme" ++ ": " ++ currentLabel;
     mn_value := theme_name theme; mn_options := (λ o, (theme_name o.2, o.1)) <$> theme_options |}.

(** ** The whole shell *)

Inductive shell_view :=
  | Unavailable (title text retry : jsstr)
  | Loading (text : jsstr)
  | SignIn (title text link href : jsstr)
  | TokenForm (title : jsstr) (form : access_form)
  | Console (nav : list (jsstr * list nav_entry)) (hd : header) (user : user_menu).

(** [location] is the path and the public address of the page; [origin] the window's. *)
Definition AppShell (meta : option jsstr) (s : shell) (pathname publicHref origin : jsstr) (showToken : bool) :
    result base_path_error shell_view :=
  match render meta s with
  | AuthUnavailable => Ok (Unavailable (t l "auth.title") (t l "auth.unavailable") (t l "auth.retry"))
  | AuthLoading => Ok (Loading (t l "auth.loading"))
  | OIDCAccess m loginURL =>
    u <-? loginURL;;
    x <-? OIDCAccessScreen (auth_text m) u origin publicHref;;
    Ok (SignIn (t l "auth.title") x.1 (t l "auth.oidcEnter") x.2)
  | AdminAccess m draft => Ok (TokenForm (t l "auth.title") (AdminAccessScreen (auth_text m) draft showToken))
  | Content ps => Ok (Console (navigation ps pathname) (page_header pathname)
                        (UserMenu (adminSession s)
                           (match authConfig s with
                            | Some c => match aac_mode c with legacy_shared_token => true | _ => false end
                            | None => false end)))
  end.
End view.

(** ** Lemmas *)

(** Two prefixes of one path are comparable. *)
Lemma startsWith_comparable a b s :
  startsWith a s = true → startsWith b s = true → startsWith a b || startsWith b a = true.
Proof.
  intros (u & ->)%startsWith_spec (v & E)%startsWith_spec. apply orb_true_iff. rewrite !startsWith_spec.
  apply app_eq_app in E as (w & [[-> _]|[-> _]]); eauto.
Qed.

(** Which pairs of entries could be active on one path. *)
Definition may_share (i j : NavItem) : bool :=
  if nav_exact i then if nav_exact j then str_eqb (nav_to i) (nav_to j) else startsWith (nav_to j) (nav_to i)
  else if nav_exact j then startsWith (nav_to i) (nav_to j)
  else startsWith (nav_to i) (nav_to j) || startsWith (nav_to j) (nav_to i).

Lemma active_may_share pathname i j :
  nav_active pathname i = true → nav_active pathname j = true → may_share i j = true.
Proof.
  unfold nav_active, may_share. destruct (nav_exact i), (nav_exact j).
  - intros ->%str_eqb_eq ->%str_eqb_eq. apply str_eqb_refl.
  - by intros ->%str_eqb_eq.
  - by intros H ->%str_eqb_eq.
  - apply startsWith_comparable.
Qed.

Lemma nav_disjoint i j :
  i ∈ nav_items NAV_GROUPS → j ∈ nav_items NAV_GROUPS → may_share i j = true → i = j.
Proof.
  intros Hi Hj.
  assert (H : Forall (λ i, Forall (λ j, may_share i j = true → i = j) (nav_items NAV_GROUPS)) (nav_items NAV_GROUPS)).
  { repeat (first [apply Forall_nil_2|apply Forall_cons_2]); (intros E; first [reflexivity|by vm_compute in E]). }
  rewrite Forall_forall in H. specialize (H i Hi). rewrite Forall_forall in H. by apply H.
Qed.

Lemma navigation_entries l permissions pathname :
  concat (navigation l permissions pathname).*2 =
  entry_of l pathname <$> List.filter (λ i, can (list_to_set permissions) (nav_permission i)) (nav_items NAV_GROUPS).
Proof.
  rewrite <- (proj1 (visibleNavGroups_spec (list_to_set permissions))). unfold navigation, nav_items.
  induction (visibleNavGroups (list_to_set permissions)) as [|g gs IH]; [done|].
  rewrite fmap_cons. cbn [fmap list_fmap concat snd]. rewrite map_cons. cbn [concat].
  rewrite fmap_app. f_equal. exact IH.
Qed.

Lemma navigation_elem l permissions pathname e :
  e ∈ concat (navigation l permissions pathname).*2 ↔
  ∃ i, i ∈ nav_items NAV_GROUPS ∧ permission_name (nav_permission i) ∈ permissions ∧ e = entry_of l pathname i.
Proof.
  rewrite navigation_entries, list_elem_of_fmap. split.
  - intros (i & -> & [Hi Hc]%list_elem_of_In%filter_In). exists i. split_and!; [by apply list_elem_of_In| |done].
    unfold can in Hc. by apply bool_decide_eq_true, elem_of_list_to_set in Hc.
  - intros (i & Hi & Hp & ->). exists i. split; [done|]. apply list_elem_of_In, filter_In.
    split; [by apply list_elem_of_In|]. by apply bool_decide_eq_true, elem_of_list_to_set.
Qed.

(** Whether the path has a title, and whether an entry is active on it, are one question. *)
Lemma pageLabel_active l pathname :
  truthy (pageLabel pathname (t l)) = existsb (nav_active pathname) (nav_items NAV_GROUPS).
Proof.
  assert (Hq : ∀ s, str_eqb pathname s = true → startsWith s pathname = true)
    by (intros s ->%str_eqb_eq; apply startsWith_spec; exists []; by rewrite app_nil_r).
  pose proof (Hq "/tenants") as H1. pose proof (Hq "/resource-definitions") as H2.
  unfold pageLabel. unfold nav_items. cbn [NAV_GROUPS map concat group_items app existsb nav_item].
  unfold nav_active. cbn [nav_exact nav_to nav_item].
  destruct (str_eqb pathname "/"); [by destruct l; vm_compute|].
  destruct (str_eqb pathname "/tenants"); [rewrite H1 by done; by destruct l; vm_compute|].
  destruct (startsWith "/tenants" pathname); [by destruct l; vm_compute|].
  destruct (str_eqb pathname "/resource-definitions"); [rewrite H2 by done; by destruct l; vm_compute|].
  repeat (match goal with |- context [if startsWith ?p pathname then _ else _] =>
            destruct (startsWith p pathname); [cbn [orb]; rewrite ?orb_true_r; by destruct l; vm_compute|] end).
  done.
Qed.

(** ** Properties *)

(** The navigation, for any permissions and any path: an entry is shown for exactly the pages whose
    permission is held; at most one of them is marked as the page at hand; and the header has a
    title exactly on the paths that are an entry's. *)
Theorem shell_navigation l permissions pathname :
  let es := concat (navigation l permissions pathname).*2 in
  (∀ i, i ∈ nav_items NAV_GROUPS →
     (entry_of l pathname i ∈ es ↔ permission_name (nav_permission i) ∈ permissions)) ∧
  (∀ e e', e ∈ es → e' ∈ es → ne_active e = true → ne_active e' = true → e = e') ∧
  (hd_label (page_header l pathname) ≠ [] ↔ ∃ i, i ∈ nav_items NAV_GROUPS ∧ nav_active pathname i = true).
Proof.
  intros es. split_and!.
  - intros i Hi. unfold es. rewrite navigation_elem. split; [|by eauto].
    intros (j & Hj & Hp & E). replace i with j; [done|]. injection E as E _ _.
    apply nav_disjoint; [done..|]. unfold may_share. rewrite E.
    assert (startsWith (nav_to j) (nav_to j) = true) as -> by (apply startsWith_spec; exists []; by rewrite app_nil_r).
    rewrite str_eqb_refl. by destruct (nav_exact i), (nav_exact j).
  - intros e e' (i & Hi & _ & ->)%navigation_elem (j & Hj & _ & ->)%navigation_elem Ha Ha'. f_equal.
    apply nav_disjoint; [done..|]. by apply (active_may_share pathname).
  - cbn [page_header hd_label]. rewrite <- truthy_spec, pageLabel_active, existsb_exists.
    split; intros (i & Hi & Ha); exists i; (split; [by apply list_elem_of_In|done]).
Qed.

Lemma AppShell_console `{UrlApi} `{CaseMap} l meta s pathname publicHref origin showToken nav hd user :
  AppShell l meta s pathname publicHref origin showToken = Ok (Console nav hd user) →
  ∃ ps, render meta s = Content ps ∧ nav = navigation l ps pathname ∧
    user = UserMenu l (adminSession s) (match authConfig s with
      | Some c => match aac_mode c with legacy_shared_token => true | _ => false end | None => false end).
Proof.
  unfold AppShell. destruct (render meta s) as [| |m u| |ps]; try done.
  - destruct u as [u|]; [|done]. cbn [result_bind]. by destruct (OIDCAccessScreen _ _ _ _ _).
  - intros [= <- <- <-]. by exists ps.
Qed.

(** C4. What the console shows is of the live authentication, whatever happened before: signed in, the
    entries are those the session of the client permits, and the menu names that session by its
    label, with its roles; with a shared token all entries are shown and no name. *)
Theorem console_identity `{UrlApi} `{CaseMap} l meta p pathname publicHref origin showToken nav hd user :
  reachable meta p →
  AppShell l meta (pg_shell p) pathname publicHref origin showToken = Ok (Console nav hd user) →
  (∃ s, currentAdminSession (pg_client p) = Some s ∧ nav = navigation l (session_permissions s) pathname ∧
     um_displayName user = str_or (session_label s) (t l "auth.sharedCredential") ∧
     (session_roles s ≠ [] → um_detail user = join ", " (session_roles s))) ∨
  (is_oidc (pg_shell p) = false ∧ nav = navigation l (permission_name <$> ALL_ADMIN_PERMISSIONS) pathname ∧
     um_displayName user = t l "auth.sharedCredential" ∧ um_detail user = t l "auth.sharedToken").
Proof.
  intros Hp%shell_reachable_inv (ps & Hr & -> & ->)%AppShell_console.
  unfold render, permissions, is_oidc in *. destruct (authLoadError (pg_shell p)); [done|].
  destruct (authConfig (pg_shell p)) as [config|] eqn:Ec; [|done]. destruct (aac_mode config) eqn:Em.
  - left. destruct (adminSession (pg_shell p)) as [s|] eqn:Es; [|done]. injection Hr as <-.
    exists s. destruct (v_session _ Hp s Es) as [Hc _]. split_and!; [done|done|done|].
    cbn. by destruct (session_roles s).
  - right. destruct (adminSession (pg_shell p)) as [s|] eqn:Es.
    + destruct (v_session _ Hp s Es) as [_ Ho]. unfold is_oidc in Ho. by rewrite Ec, Em in Ho.
    + destruct (hasAdminToken (pg_shell p)); [|done]. by injection Hr as <-.
Qed.

(** The link of the sign-in screen stays at the origin of the window, whatever address the server
    configured: an address elsewhere is refused. *)
Theorem signin_same_origin `{UrlApi} `{CaseMap} l meta s pathname publicHref origin showToken title text link href :
  AppShell l meta s pathname publicHref origin showToken = Ok (SignIn title text link href) →
  ∃ o u, new_URL origin None = Some o ∧ new_URL href None = Some u ∧ u_origin u = u_origin o.
Proof.
  unfold AppShell. destruct (render meta s) as [| |m u| |ps]; try done.
  destruct u as [u|]; [|done]. cbn [result_bind]. unfold OIDCAccessScreen.
  destruct (buildOIDCLoginURL u origin publicHref) as [x|] eqn:E; [|done]. cbn [result_bind].
  intros [= _ _ _ <-]. by apply (buildOIDCLoginURL_same_origin _ _ _ _ E).
Qed.

(** The form of the shared token: it says why it is shown, shows what is typed only when asked to, and
    can be submitted exactly when saving stores a token and opens the console. *)
Theorem token_form_spec l m draft showToken p :
  draftAdminToken (pg_shell p) = draft →
  let form := AdminAccessScreen l (auth_text l m) draft showToken in
  af_text form ≠ [] ∧
  (af_type form = "text" ↔ showToken = true) ∧
  (af_disabled form = false ↔ hasAdminToken (pg_shell (saveAdminToken p)) = true) ∧
  (af_disabled form = false → stored_token (pg_client (saveAdminToken p)) = Some (trim draft)).
Proof.
  intros <- form. split_and!.
  - destruct m as [[]|], l; by vm_compute.
  - by destruct showToken.
  - cbn [form AdminAccessScreen af_disabled]. rewrite negb_false_iff. unfold saveAdminToken.
    destruct (truthy (trim (draftAdminToken (pg_shell p)))) eqn:E; cbn [negb].
    + split; [intros _|done]. unfold reload, load_page. cbn [pg_shell hasAdminToken with_shell pg_client].
      rewrite (emit_events _ _ [AdminTokenChange]) by done. exact E.
    + split; [done|]. rewrite emit_clear. done.
  - cbn [form AdminAccessScreen af_disabled]. rewrite negb_false_iff. intros E. unfold saveAdminToken. rewrite E.
    cbn [negb]. unfold reload, load_page. cbn [pg_client with_shell]. by rewrite (emit_events _ _ [AdminTokenChange]).
Qed.

(** The menus of the preferences: each option can be chosen, is what the provider then keeps, shows
    and stores, and what is stored is read back as it at the next load. *)
Theorem preference_menus l theme prefersDark :
  (∀ o, o ∈ mn_options (LanguageMenu l) → ∃ next,
     locale_tag next = o.1 ∧ mn_value (LanguageMenu next) = o.1 ∧
     ∀ lang, normalizeLocale (pv_stored (setLocale next (mount_provider lang (Some (locale_tag l))))) = next) ∧
  (∀ o, o ∈ mn_options (ThemeMenu l theme) → ∃ next,
     theme_name next = o.1 ∧ mn_current (ThemeMenu l next) = o.2 ∧
     normalizeTheme (tp_stored (theme_step (mount_theme (Some (theme_name theme)) prefersDark) (SetTheme next))) = next).
Proof.
  split; intros o Ho.
  - assert (∃ next, locale_tag next = o.1) as [next <-].
    { cbn in Ho. repeat (apply elem_of_cons in Ho as [->|Ho]; [first [by exists pt_BR|by exists en_US|by exists es_ES]|]).
      by apply elem_of_nil in Ho. }
    exists next. split_and!; [done|done|]. intros lang. by destruct l, next.
  - assert (∃ next, theme_name next = o.1 ∧ mn_current (ThemeMenu l next) = o.2) as (next & H1 & H2).
    { cbn in Ho. repeat (apply elem_of_cons in Ho as [->|Ho];
        [first [by exists (Resolved light)|by exists (Resolved dark)|by exists system]|]).
      by apply elem_of_nil in Ho. }
    exists next. split_and!; [done|done|]. destruct theme as [[]|], next as [[]|]; by vm_compute.
Qed.

(** *** Inputs *)

Lemma shell_navigation_witness :
  let es := concat (navigation en_US ["admin.read"; "audit.read"] "/tenants/t1").*2 in
  List.filter ne_active es = [{| ne_to := "/tenants"; ne_label := "Tenants"; ne_active := true |}] ∧
  entry_of en_US "/tenants/t1" (nav_item "nav.audit" audit_read "/audit-events") ∈ es.
Proof.
  split; [by vm_compute|].
  apply (proj1 (shell_navigation en_US ["admin.read"; "audit.read"] "/tenants/t1")); [do 7 right; left|right; left].
Defined.

Lemma console_identity_witness :
  let x := AppShell en_US None (pg_shell oidc_page) "/tenants" "/tenants" "https://admin.test" false in
  match x with
  | Ok (Console nav _ user) => um_displayName user = str_or (session_label demo_session) "Administrative credential"
  | _ => False
  end.
Proof.
  cbv zeta. destruct (AppShell en_US None (pg_shell oidc_page) "/tenants" "/tenants" "https://admin.test" false)
    as [[| | | |nav hd user]|] eqn:E; try (by vm_compute in E).
  destruct (console_identity en_US None oidc_page _ _ _ _ nav hd user
              (reach_step None _ _ (reach_step None _ _ (reach_load None (Some "old")))) E) as [(s & Es & _ & Hn & _)|(Ho & _)].
  - rewrite Hn. vm_compute in Es. injection Es as <-. by vm_compute.
  - by vm_compute in Ho.
Defined.

Definition oidc_waiting : shell :=
  pg_shell (step None (load_page None) (LConfig (Ok {| r_status := 200; r_body := Ok oidc_config |}))).

Lemma signin_same_origin_witness :
  ∃ href o u, AppShell en_US None oidc_waiting "/tenants" "/tenants?page=2" "https://admin.test" false
    = Ok (SignIn "Administrative access" "Sign in with your corporate identity." "Sign in with SSO" href) ∧
    new_URL "https://admin.test" None = Some o ∧ new_URL href None = Some u ∧ u_origin u = u_origin o.
Proof.
  destruct (AppShell en_US None oidc_waiting "/tenants" "/tenants?page=2" "https://admin.test" false) as [[]|] eqn:E;
    try (by vm_compute in E).
  destruct (signin_same_origin en_US None oidc_waiting _ _ _ _ _ _ _ _ E) as (o & u & Ho).
  exists href, o, u. split; [|done]. revert E. vm_compute. by intros [= <- <- <- <-].
Defined.

Lemma token_form_spec_witness :
  let p := with_shell (set_draft "  tok ") (load_page None) in
  af_disabled (AdminAccessScreen en_US (auth_text en_US None) "  tok " false) = false ∧
  stored_token (pg_client (saveAdminToken p)) = Some "tok".
Proof.
  split; [by vm_compute|].
  apply (token_form_spec en_US None "  tok " false (with_shell (set_draft "  tok ") (load_page None))); [done|by vm_compute].
Defined.
