(* ===== verification/Clients.v ===== *)
(** * The API clients page

    [src/web/src/routes/api-clients/-components/page.tsx]: the React state ([view]), the refs, the
    handlers and their continuations.  A handler is a list of [action]s, in the order the code
    performs them; an [await] leaves an [awaiting] whose answer arrives at any later step.  The
    page behind an open modal dialog takes no events, and a disabled button none; continuations
    run whenever they are due.  The table itself and the markup are left out, the column
    functions are not. *)
From Stdlib Require Import ZArith Lia List QArith Qround.
From stdpp Require Import base list sets gmap.
From S2P Require Import Regex Numbers Host Dates Validation Json Idempotency Types Api ApiCalls Query.
From S2P Require Import I18nPt I18nEn I18nEs I18n Prelude.
Import Validation.
#[local] Open Scope Z_scope.

(** ** State *)

Record view := {
  helpOpen : bool;
  open : bool;
  name : jsstr;
  scopes : list jsstr;
  rpmLimit : jsstr;
  expirationDays : jsstr;
  editingClient : option ApiClient;
  pendingDelete : option ApiClient;
  isLifecyclePending : bool;
  token : jsstr;
  isCreating : bool;
  copied : bool;
  copiedSnippet : jsstr;
  error : jsstr;
}.

(** The calls of the state setters. *)
Inductive update :=
  | setHelpOpen (b : bool) | setOpen (b : bool) | setName (s : jsstr) | setScopes (l : list jsstr)
  | setRpmLimit (s : jsstr) | setExpirationDays (s : jsstr) | setEditingClient (c : option ApiClient)
  | setPendingDelete (c : option ApiClient) | setIsLifecyclePending (b : bool) | setToken (s : jsstr)
  | setIsCreating (b : bool) | setCopied (b : bool) | setCopiedSnippet (s : jsstr) | setError (s : jsstr).

Definition apply_update (u : update) (v : view) : view := {|
  helpOpen := match u with setHelpOpen b => b | _ => helpOpen v end;
  open := match u with setOpen b => b | _ => open v end;
  name := match u with setName s => s | _ => name v end;
  scopes := match u with setScopes l => l | _ => scopes v end;
  rpmLimit := match u with setRpmLimit s => s | _ => rpmLimit v end;
  expirationDays := match u with setExpirationDays s => s | _ => expirationDays v end;
  editingClient := match u with setEditingClient c => c | _ => editingClient v end;
  pendingDelete := match u with setPendingDelete c => c | _ => pendingDelete v end;
  isLifecyclePending := match u with setIsLifecyclePending b => b | _ => isLifecyclePending v end;
  token := match u with setToken s => s | _ => token v end;
  isCreating := match u with setIsCreating b => b | _ => isCreating v end;
  copied := match u with setCopied b => b | _ => copied v end;
  copiedSnippet := match u with setCopiedSnippet s => s | _ => copiedSnippet v end;
  error := match u with setError s => s | _ => error v end;
|}.

(** What a continuation waits for. *)
Inductive awaiting :=
  | await_update | await_create | await_created (createdNewClient : bool)
  | await_rotate (c : ApiClient) | await_rotated (c : ApiClient)
  | await_revoke | await_revoked | await_delete | await_deleted
  | await_copy | await_snippet (snippetKey : jsstr).

(** What the page does to the rest of the world, in order, with the end of a client's rotation. *)
Inductive entry :=
  | Sent (a : api_call)
  | Invalidated (commands : list command)
  | Toast (text : jsstr)
  | Clipboard (text : jsstr)
  | Forgot (id : jsstr).

Record world := {
  w_view : view;
  w_createAttempt : option attempt;                       (* [createAttempt.current] *)
  w_rotateAttempts : gmap jsstr (option attempt);         (* [rotateAttempts.current] *)
  w_clients : list ApiClient;                             (* [clientsQuery.data ?? []] *)
  w_settings : option AdminSettingsSnapshot;              (* [settingsQuery.data] *)
  w_entropy : entropy;
  w_now : Z;                                              (* [Date.now()] *)
  w_pending : gmap nat awaiting;
  w_next : nat;
  w_log : list entry;
}.

Inductive action :=
  | Update (u : update)
  | CreateAttempt (a : option attempt)
  | RotateAttempt (id : jsstr) (a : option attempt)       (* [rotateAttempts.current.set] *)
  | ForgetRotation (id : jsstr)                           (* [rotateAttempts.current.delete] *)
  | Draw (e : entropy)
  | Log (x : entry)
  | Await (a : awaiting)                                  (* a new call *)
  | Next (id : nat) (a : awaiting)                        (* the next [await] of a call *)
  | Return (id : nat)
  | Data (clients : list ApiClient) (settings : option AdminSettingsSnapshot)
  | Clock (now : Z).

Definition perform (w : world) (x : action) : world := {|
  w_view := match x with Update u => apply_update u (w_view w) | _ => w_view w end;
  w_createAttempt := match x with CreateAttempt a => a | _ => w_createAttempt w end;
  w_rotateAttempts := match x with
                      | RotateAttempt id a => <[id := a]> (w_rotateAttempts w)
                      | ForgetRotation id => delete id (w_rotateAttempts w)
                      | _ => w_rotateAttempts w
                      end;
  w_clients := match x with Data cs _ => cs | _ => w_clients w end;
  w_settings := match x with Data _ s => s | _ => w_settings w end;
  w_entropy := match x with Draw e => e | _ => w_entropy w end;
  w_now := match x with Clock n => n | _ => w_now w end;
  w_pending := match x with
               | Await a => <[w_next w := a]> (w_pending w)
               | Next id a => <[id := a]> (w_pending w)
               | Return id => delete id (w_pending w)
               | _ => w_pending w
               end;
  w_next := match x with Await _ => S (w_next w) | _ => w_next w end;
  w_log := match x with
           | Log e => w_log w ++ [e]
           | ForgetRotation id => w_log w ++ [Forgot id]
           | _ => w_log w
           end;
|}.

Definition performs (w : world) (xs : list action) : world := fold_left perform xs w.

(** ** The handlers *)

Section page.
Context `{CaseMap} `{DateApi} (uuid : nat → jsstr) (l : Locale) (manage : bool).

(** [t] of the context; [manage] is [can("api_client.manage")]. *)
Definition tr (key : jsstr) : jsstr := t l key.

Definition rpmLimitValid (v : view) : bool := isIntegerInRange (rpmLimit v) 1 2147483647.

Definition setting (key fallback : jsstr) (w : world) : jsstr :=
  match w_settings w with Some s => default fallback (obj_get key (ass_values s)) | None => fallback end.

Definition start (w : world) : list action := Update <$> [
  setEditingClient None; setName []; setToken []; setCopied false; setError [];
  setScopes ["tenant:identify"; "resource:resolve"];
  setRpmLimit (setting "api_client_default_rpm" "300" w);
  setExpirationDays (setting "api_client_default_ttl_days" "90" w);
  setOpen true].

Definition DAY : num := num_of_Z (24 * 60 * 60 * 1000).

(** [Math.max(30, Math.ceil(…))]; [None] is NaN. *)
Definition remainingDays (client : ApiClient) (now : Z) : option Z :=
  Z.max 30 <$> match Date_parse (client_expires_at client) with
               | Some e => num_ceil (num_div (num_sub (num_of_Z e) (num_of_Z now)) DAY)
               | None => None
               end.

Definition EXPIRATION_DAYS : list Z := [30; 90; 180; 365].

Definition startEdit (client : ApiClient) (w : world) : list action := Update <$> [
  setEditingClient (Some client); setName (client_name client); setScopes (client_scopes client);
  setRpmLimit (show_int (client_rpm_limit client));
  setExpirationDays (show_int (default 365
    (List.find (λ days, match remainingDays client (w_now w) with Some r => r <=? days | None => false end)
       EXPIRATION_DAYS)));
  setToken []; setError []; setOpen true].

(** [expires_at]; [None] is the exception of [toISOString]. *)
Definition expires_at (v : view) (now : Z) : option jsstr :=
  date_iso (num_add (num_of_Z now)
    (num_mul (num_mul (num_mul (num_mul (js_Number (expirationDays v)) (num_of_Z 24)) (num_of_Z 60))
                (num_of_Z 60)) (num_of_Z 1000))).

Definition policy (v : view) (now : Z) : option CreateAPIClientInput :=
  (λ e, {| cac_name := trim (name v); cac_scopes := scopes v;
           cac_rpm_limit := default 0 (num_int (js_Number (rpmLimit v))); cac_expires_at := e |})
    <$> expires_at v now.

(** The [catch] and [finally] of [create]. *)
Definition create_failed (e : api_exn) : list action :=
  Update <$> [setError (apiErrorMessage e tr); setIsCreating false].

Definition create (w : world) : list action :=
  let v := w_view w in
  let trimmedName := trim (name v) in
  if negb (truthy trimmedName) || negb (rpmLimitValid v) then []
  else if isDuplicateAPIClientName trimmedName (client_name <$> w_clients w) then
    [Update (setError (tr "errors.conflict"))]
  else
    [Update (setIsCreating true); Update (setError [])] ++
    match policy v (w_now w) with
    | None => create_failed (HostError BodyError)
    | Some p =>
      match editingClient v with
      | Some c => [Log (Sent (updateAPIClient (client_id c) p)); Await await_update]
      | None =>
        let '(key, ref, e) := stableIdempotencyKey uuid (w_createAttempt w) (client_body p) (w_entropy w) in
        [Draw e; CreateAttempt ref; Log (Sent (createAPIClient p key)); Await await_create]
      end
    end.

Definition changeDialogOpen (nextOpen : bool) (w : world) : list action :=
  if negb (canChangeAPIClientDialogOpen nextOpen (isCreating (w_view w))) then []
  else Update <$> (setOpen nextOpen ::
    if nextOpen then []
    else [setCopied false; setError []; setName []; setToken []; setEditingClient None]).

Definition lifecycle_failed (e : api_exn) : list action :=
  Update <$> [setError (apiErrorMessage e tr); setIsLifecyclePending false].

Definition rotation_attempt (client : ApiClient) : json :=
  JObj [("clientId", JStr (client_id client)); ("graceSeconds", JNum 300)].

Definition rotate (client : ApiClient) (w : world) : list action :=
  let holder := default None (w_rotateAttempts w !! client_id client) in
  let '(key, holder, e) := stableIdempotencyKey uuid holder (rotation_attempt client) (w_entropy w) in
  [Update (setIsLifecyclePending true); Update (setError []); Draw e;
   RotateAttempt (client_id client) holder; Log (Sent (rotateAPIClient (client_id client) 300 key));
   Await (await_rotate client)].

Definition revoke (client : ApiClient) : list action :=
  [Update (setIsLifecyclePending true); Update (setError []);
   Log (Sent (revokeAPIClient (client_id client))); Await await_revoke].

Definition removeClient (w : world) : list action :=
  match pendingDelete (w_view w) with
  | None => []
  | Some c => [Update (setIsLifecyclePending true); Log (Sent (deleteAPIClient (client_id c)));
               Await await_delete]
  end.

Definition toggleScope (scope : jsstr) (w : world) : list action :=
  let current := scopes (w_view w) in
  [Update (setScopes (if bool_decide (scope ∈ current)
                      then List.filter (λ c, negb (str_eqb c scope)) current
                      else current ++ [scope]))].

Definition copy (w : world) : list action := [Log (Clipboard (token (w_view w))); Await await_copy].

Definition copyResolveSnippet (snippet snippetKey : jsstr) : list action :=
  [Log (Clipboard snippet); Await (await_snippet snippetKey)].

(** ** The continuations *)

(** After the first [await] of call [id]; an answer that carries a token is that token. *)
Definition on_reply (id : nat) (a : awaiting) (reply : result api_exn jsstr) : list action :=
  let invalidate := Log (Invalidated invalidateApiClients) in
  match a, reply with
  | await_update, Ok _ =>
    [Update (setOpen false); Log (Toast (tr "apiClients.updated")); invalidate; Next id (await_created false)]
  | await_create, Ok tok =>
    [Update (setToken tok); Update (setOpen true); invalidate; Next id (await_created true)]
  | (await_update | await_create), Err e => create_failed e ++ [Return id]
  | await_rotate c, Ok tok =>
    [Update (setEditingClient None); Update (setName (client_name c)); Update (setToken tok);
     Update (setCopied false); Update (setOpen true); invalidate; Next id (await_rotated c)]
  | await_revoke, Ok _ => [invalidate; Next id await_revoked]
  | await_delete, Ok _ => [Update (setPendingDelete None); invalidate; Next id await_deleted]
  | (await_rotate _ | await_revoke | await_delete), Err e => lifecycle_failed e ++ [Return id]
  | _, _ => []
  end.

(** After the invalidation, which does not reject. *)
Definition on_invalidated (id : nat) (a : awaiting) : list action :=
  match a with
  | await_created createdNewClient =>
    (if createdNewClient then [CreateAttempt None] else [])
    ++ [Update (setIsCreating false); Return id]
  | await_rotated c =>
    [Log (Toast (tr "apiClients.rotated")); ForgetRotation (client_id c);
     Update (setIsLifecyclePending false); Return id]
  | await_revoked =>
    [Log (Toast (tr "apiClients.statusRevoked")); Update (setIsLifecyclePending false); Return id]
  | await_deleted =>
    [Log (Toast (tr "apiClients.deleted")); Update (setIsLifecyclePending false); Return id]
  | _ => []
  end.

(** After [writeClipboardText]. *)
Definition on_clipboard (id : nat) (a : awaiting) (written : bool) : list action :=
  match a with
  | await_copy =>
    (Update <$> if written then [setCopied true; setError []]
                else [setCopied false; setError (tr "apiClients.copyFailed")]) ++ [Return id]
  | await_snippet snippetKey =>
    (if written
     then [Update (setCopiedSnippet snippetKey); Update (setError []);
           Log (Toast (tr "apiClients.resolveSnippet.copied"))]
     else [Update (setCopiedSnippet []); Log (Toast (tr "apiClients.copyFailed"))]) ++ [Return id]
  | _ => []
  end.

(** ** The events of the page *)

Inductive label :=
  | LStart | LStartEdit (c : ApiClient) | LRotate (c : ApiClient) | LRevoke (c : ApiClient)
  | LAskDelete (c : ApiClient) | LCancelDelete | LConfirmDelete
  | LCreate | LDialog (nextOpen : bool) | LName (s : jsstr) | LRpm (s : jsstr) | LDays (s : jsstr)
  | LScope (scope : jsstr) | LCopy | LHelp (b : bool) | LSnippet (snippet key : jsstr)
  | LReply (id : nat) (r : result api_exn jsstr) | LInvalidated (id : nat) | LClipboard (id : nat) (b : bool)
  | LData (clients : list ApiClient) (settings : option AdminSettingsSnapshot)
  | LClock (now : Z).

(** No modal dialog covers the table. *)
Definition uncovered (v : view) : bool :=
  negb (open v) && match pendingDelete v with None => true | Some _ => false end.

(** The form and the token are the two faces of the dialog. *)
Definition form_shown (v : view) : bool := open v && negb (truthy (token v)).
Definition token_shown (v : view) : bool := open v && truthy (token v).

(** The button of the form is enabled. *)
Definition can_submit (v : view) : bool :=
  truthy (trim (name v)) && negb (length (scopes v) =? 0)%nat && rpmLimitValid v && negb (isCreating v).

(** The buttons of a row: the client is active or not, and no lifecycle call is under way. *)
Definition row_enabled (active : bool) (c : ApiClient) (v : view) : bool :=
  uncovered v && Bool.eqb (str_eqb (client_status c) "active") active && negb (isLifecyclePending v).

Definition guarded (b : bool) (xs : list action) : list action := if b then xs else [].

Definition with_pending (id : nat) (f : awaiting → list action) (w : world) : list action :=
  match w_pending w !! id with Some a => f a | None => [] end.

Definition handle (w : world) (e : label) : list action :=
  let v := w_view w in
  match e with
  | LStart => guarded (manage && uncovered v) (start w)
  | LStartEdit c => guarded (row_enabled true c v) (startEdit c w)
  | LRotate c => guarded (row_enabled true c v) (rotate c w)
  | LRevoke c => guarded (row_enabled true c v) (revoke c)
  | LAskDelete c => guarded (row_enabled false c v) [Update (setPendingDelete (Some c))]
  | LCancelDelete => [Update (setPendingDelete None)]
  | LConfirmDelete => guarded (negb (isLifecyclePending v)) (removeClient w)
  | LCreate => guarded (form_shown v && can_submit v) (create w)
  | LDialog nextOpen => guarded (open v) (changeDialogOpen nextOpen w)
  | LName s => guarded (form_shown v) [Update (setName s)]
  | LRpm s => guarded (form_shown v) [Update (setRpmLimit s)]
  | LDays s => guarded (form_shown v) [Update (setExpirationDays s)]
  | LScope s => guarded (form_shown v) (toggleScope s w)
  | LCopy => guarded (token_shown v) (copy w)
  | LHelp b => [Update (setHelpOpen b)]
  | LSnippet snippet k => guarded (helpOpen v) (copyResolveSnippet snippet k)
  | LReply id r => with_pending id (λ a, on_reply id a r) w
  | LInvalidated id => with_pending id (on_invalidated id) w
  | LClipboard id b => with_pending id (λ a, on_clipboard id a b) w
  | LData cs s => [Data cs s]
  | LClock now => [Clock now]
  end.

Definition page_step (w : world) (e : label) : world := performs w (handle w e).
Definition run_page (w : world) (es : list label) : world := fold_left page_step es w.

Definition initial_page (e : entropy) (now : Z) : world := {|
  w_view := {| helpOpen := false; open := false; name := [];
               scopes := ["tenant:identify"; "resource:resolve"]; rpmLimit := "300";
               expirationDays := "90"; editingClient := None; pendingDelete := None;
               isLifecyclePending := false; token := []; isCreating := false; copied := false;
               copiedSnippet := []; error := [] |};
  w_createAttempt := None; w_rotateAttempts := ∅; w_clients := []; w_settings := None;
  w_entropy := e; w_now := now; w_pending := ∅; w_next := 0; w_log := [] |}.

Inductive visited : world → Prop :=
  | visit_initial e now : visited (initial_page e now)
  | visit_step w e : visited w → visited (page_step w e).

(** ** The table's columns *)

(** The [flags] column, against the time the module was loaded. *)
Definition client_flags (client : ApiClient) (now : Z) : jsstr :=
  join "," (
    (if truthy (client_expires_at client) &&
        match Date_parse (client_expires_at client) with
        | Some e => e <=? now + 30 * 24 * 60 * 60 * 1000 | None => false end
     then ["expiring"] else [])
    ++ (if match client_last_used_at client with
           | None => true
           | Some u => negb (truthy u) ||
                       match Date_parse u with
                       | Some d => d <? now - 30 * 24 * 60 * 60 * 1000 | None => false end
           end
        then ["inactive"] else [])).

Definition flags_filter (client : ApiClient) (now : Z) (value : list jsstr) : bool :=
  forallb (λ flag, bool_decide (flag ∈ split 44 (client_flags client now))) value.

Definition scopes_filter (client : ApiClient) (value : list jsstr) : bool :=
  existsb (λ scope, bool_decide (scope ∈ client_scopes client)) value.

Definition status_filter (client : ApiClient) (value : list jsstr) : bool :=
  bool_decide (client_status client ∈ value).

Definition filterClients (client : ApiClient) (filterValue : jsstr) : bool :=
  let query := toLowerCase (trim filterValue) in
  if negb (truthy query) then true
  else existsb (λ value, includes query (toLowerCase value))
         [client_name client; client_key_preview client; client_status client;
          formatStatus (client_status client) tr; take 10 (default [] (client_created_at client))].
End page.

(** ** A concrete page for the witnesses *)

Lemma visited_run `{CaseMap} `{DateApi} uuid l manage w es :
  visited uuid l manage w → visited uuid l manage (run_page uuid l manage w es).
Proof. revert w. induction es as [|e es IH]; intros w Hw; [done|]. apply IH. by constructor. Qed.

Definition demo_dates : DateApi :=
  {| Date_parse s := if str_eqb s "2026-06-30T17:00:00.123Z" then Some 1782838800123 else None |}.

Definition demo_uuid (n : nat) : jsstr := [Z.of_nat n].

Lemma demo_uuid_fresh n m : demo_uuid n = demo_uuid m → n = m.
Proof. unfold demo_uuid. intros E. injection E as E. lia. Qed.

Definition demo_client (id name : jsstr) : ApiClient :=
  {| client_id := id; client_name := name; client_key_preview := "tk_1"; client_scopes := ["tenant:identify"];
     client_rpm_limit := 300; client_expires_at := "2026-06-30T17:00:00.123Z"; client_last_used_at := None;
     client_revoked_at := None; client_status := "active"; client_created_at := None; client_updated_at := None |}.

(** A page on 13 May 2024 with two clients, and what happens on it. *)
Definition demo_page (es : list label) : world :=
  @run_page ascii_case_map demo_dates demo_uuid en_US true
    (initial_page {| drawn := 0 |} 1715600000000)
    (LData [demo_client "c1" "billing"; demo_client "c2" "edge"] None :: es).

Lemma clients_demo_visited es : @visited ascii_case_map demo_dates demo_uuid en_US true (demo_page es).
Proof. unfold demo_page. apply visited_run, visit_initial. Qed.

Definition fill_form : list label := [LStart; LName " portal "].

Definition created : list label := fill_form ++ [LCreate; LReply 0 (Ok "secret"); LInvalidated 0].
