(* ===== verification/ClientsCalls.v ===== *)
(** * The API clients page: its calls and its dialog

    Every call of the page holds its flag until it is answered, there is one of a kind at a time,
    and a generated token is shown as long as it is kept. *)
From Stdlib Require Import ZArith Lia List.
From stdpp Require Import base list sets gmap.
From S2P Require Import Regex Numbers Host Dates Validation Json Idempotency Types Api ApiCalls Query.
From S2P Require Import I18nPt I18nEn I18nEs I18n Clients Prelude.
Import Validation.
#[local] Open Scope Z_scope.

(** ** Lemmas *)

(** *** Calls under way *)

Definition is_creating (a : awaiting) : bool :=
  match a with await_update | await_create | await_created _ => true | _ => false end.
Definition is_lifecycle (a : awaiting) : bool :=
  match a with
  | await_rotate _ | await_rotated _ | await_revoke | await_revoked | await_delete | await_deleted => true
  | _ => false
  end.

Record page_inv (w : world) : Prop := {
  inv_fresh : ∀ id, (w_next w <= id)%nat → w_pending w !! id = None;
  inv_creating : slot is_creating (isCreating (w_view w)) (w_pending w);
  inv_lifecycle : slot is_lifecycle (isLifecyclePending (w_view w)) (w_pending w);
  inv_token : token (w_view w) ≠ [] → open (w_view w) = true;
  inv_update : ∀ id, w_pending w !! id = Some await_update →
    open (w_view w) = true ∧ token (w_view w) = [] ∧ ∀ id' c, w_pending w !! id' ≠ Some (await_rotate c);
  inv_rotate : ∀ id c, w_pending w !! id = Some (await_rotate c) →
    open (w_view w) = true → editingClient (w_view w) = None;
  inv_create : ∀ id, w_pending w !! id = Some await_create →
    open (w_view w) = true ∧ editingClient (w_view w) = None;
}.

Lemma calls_absent w :
  page_inv w → isCreating (w_view w) = false →
  (∀ id, w_pending w !! id ≠ Some await_update) ∧ (∀ id, w_pending w !! id ≠ Some await_create).
Proof.
  intros [Hf Hc _ _ _ _ _] E. rewrite E in Hc. simpl in Hc.
  split; intros id Hid; by specialize (Hc id _ Hid).
Qed.

Lemma rotation_absent w :
  page_inv w → isLifecyclePending (w_view w) = false → ∀ id c, w_pending w !! id ≠ Some (await_rotate c).
Proof. intros [_ _ Hl _ _ _ _] E id c Hid. rewrite E in Hl. by specialize (Hl id _ Hid). Qed.

Lemma closed_no_create w :
  page_inv w → open (w_view w) = false →
  (∀ id, w_pending w !! id ≠ Some await_update) ∧ (∀ id, w_pending w !! id ≠ Some await_create).
Proof.
  intros [_ _ _ _ Hu _ Hk] E. split; intros id Hid.
  - destruct (Hu id Hid) as [? _]. congruence.
  - destruct (Hk id Hid) as [? _]. congruence.
Qed.

Lemma start_inv w : page_inv w → open (w_view w) = false → page_inv (performs w (start w)).
Proof.
  intros H E. destruct (closed_no_create w H E) as [N1 N2]. destruct H as [Hf Hc Hl Ht Hu Hr Hk].
  split; cbn; auto; try done; intros id Hid; exfalso; naive_solver.
Qed.

(** Cases of a pending call after an insertion or a removal. *)
Ltac pending_cases :=
  repeat match goal with
  | H : <[_ := _]> _ !! _ = Some _ |- _ => apply lookup_insert_Some in H as [[? H]|[? H]]; [try discriminate H|]
  | H : delete _ _ !! _ = Some _ |- _ => apply lookup_delete_Some in H as [? H]
  end.

Lemma fresh_insert w id a :
  page_inv w → (id < w_next w)%nat ∨ id = w_next w →
  ∀ i, (S (w_next w) <= i)%nat ∨ ((id < w_next w)%nat ∧ (w_next w <= i)%nat) → <[id := a]> (w_pending w) !! i = None.
Proof. intros [Hf _ _ _ _ _ _] Hid i Hi. rewrite lookup_insert_ne by lia. apply Hf. lia. Qed.

Lemma pending_lt w id a : page_inv w → w_pending w !! id = Some a → (id < w_next w)%nat.
Proof.
  intros [Hf _ _ _ _ _ _] E. destruct (Nat.lt_ge_cases id (w_next w)) as [|Hge]; [done|].
  by rewrite Hf in E.
Qed.

(** A new call. *)
Lemma await_slot P f w a :
  page_inv w → slot P f (w_pending w) → P a = false → slot P f (<[w_next w := a]> (w_pending w)).
Proof.
  intros H Hs Ha. apply slot_insert; [done..|]. intros b Hb. by rewrite (inv_fresh _ H) in Hb by done.
Qed.

Lemma lifecycle_call_inv w a us :
  page_inv w → ((∃ c, a = await_rotate c) → open (w_view w) = false) →
  isLifecyclePending (w_view w) = false → is_lifecycle a = true → is_creating a = false →
  (us = [] ∨ us = [Update (setError [])]) →
  page_inv (performs w (Update (setIsLifecyclePending true) :: us ++ [Await a])).
Proof.
  intros H Ho Hp Hl Hc Hus.
  pose proof (await_slot is_creating _ w a H (inv_creating _ H) Hc) as Hs.
  pose proof (inv_lifecycle _ H) as Hs'. rewrite Hp in Hs'.
  pose proof (slot_open is_lifecycle _ (w_next w) a Hs' Hl) as Hs''.
  pose proof (fresh_insert w (w_next w) a H (or_intror eq_refl)) as Hf.
  destruct H as [_ _ _ Ht Hu Hr Hk].
  assert (Hupd : ∀ id, <[w_next w:=a]> (w_pending w) !! id = Some await_update →
    open (w_view w) = true ∧ token (w_view w) = [] ∧
    ∀ id' c, <[w_next w:=a]> (w_pending w) !! id' ≠ Some (await_rotate c)).
  { intros id Hid. pending_cases; subst; [done|]. destruct (Hu id Hid) as (H1 & H2 & H3). split_and!; [done..|].
    intros id' c Hid'. pending_cases; [|by eapply H3]. subst. rewrite Ho in H1; eauto. done. }
  destruct Hus as [-> | ->]; split; cbn; auto; intros; pending_cases; subst; try done; eauto.
  all: rewrite Ho in *; eauto; done.
Qed.

Lemma clients_inv_ext w w' :
  w_view w' = w_view w → w_pending w' = w_pending w → w_next w' = w_next w → page_inv w → page_inv w'.
Proof. intros E1 E2 E3 []. split; by rewrite ?E1, ?E2, ?E3. Qed.

Lemma rotate_inv uuid c w :
  page_inv w → open (w_view w) = false → isLifecyclePending (w_view w) = false →
  page_inv (performs w (rotate uuid c w)).
Proof.
  intros H Ho Hp. unfold rotate. destruct (stableIdempotencyKey _ _ _ _) as [[key holder] e].
  eapply clients_inv_ext; [| | |apply (lifecycle_call_inv w (await_rotate c) [Update (setError [])]); eauto];
    reflexivity.
Qed.

Lemma revoke_inv c w :
  page_inv w → isLifecyclePending (w_view w) = false → page_inv (performs w (revoke c)).
Proof.
  intros H Hp.
  eapply clients_inv_ext; [| | |apply (lifecycle_call_inv w await_revoke [Update (setError [])]); eauto];
    [reflexivity..|naive_solver].
Qed.

Lemma removeClient_inv w :
  page_inv w → isLifecyclePending (w_view w) = false → page_inv (performs w (removeClient w)).
Proof.
  intros H Hp. unfold removeClient. destruct (pendingDelete _); [|done].
  eapply clients_inv_ext; [| | |apply (lifecycle_call_inv w await_delete []); eauto];
    [reflexivity..|naive_solver].
Qed.

(** A new call of the form. *)
Lemma form_call_inv w a :
  page_inv w → open (w_view w) = true → token (w_view w) = [] → isCreating (w_view w) = false →
  (a = await_update ∧ editingClient (w_view w) ≠ None ∨ a = await_create ∧ editingClient (w_view w) = None) →
  page_inv (performs w [Update (setIsCreating true); Update (setError []); Await a]).
Proof.
  intros H Ho Htok Hp Ha.
  assert (Hl : is_lifecycle a = false) by naive_solver.
  assert (Hc : is_creating a = true) by naive_solver.
  pose proof (await_slot is_lifecycle _ w a H (inv_lifecycle _ H) Hl) as Hs.
  pose proof (inv_creating _ H) as Hs'. rewrite Hp in Hs'.
  pose proof (slot_open is_creating _ (w_next w) a Hs' Hc) as Hs''.
  pose proof (fresh_insert w (w_next w) a H (or_intror eq_refl)) as Hf.
  destruct (calls_absent w H Hp) as [N1 N2]. destruct H as [_ _ _ Ht Hu Hr Hk].
  destruct Ha as [[-> He]|[-> He]]; split; cbn; auto; intros; pending_cases; subst; try done.
  all: try (split_and!; [done..|]; intros id' c Hid'; pending_cases; by apply He, (Hr id' c)).
  all: naive_solver.
Qed.

Section invariant.
Context `{CaseMap} `{DateApi} (uuid : nat → jsstr) (l : Locale) (manage : bool).

(** Setters that leave the dialog, the token, the flags and the edited client alone. *)
Definition plain_update (u : update) : bool :=
  match u with
  | setOpen _ | setToken _ | setIsCreating _ | setIsLifecyclePending _ | setEditingClient _ => false
  | _ => true
  end.

Lemma plain_update_inv u w : plain_update u = true → page_inv w → page_inv (perform w (Update u)).
Proof. intros Hu []. destruct u; try done; split; auto. Qed.

Lemma plain_updates_inv us w :
  Forall (λ u, plain_update u = true) us → page_inv w → page_inv (performs w (Update <$> us)).
Proof.
  intros Hus. revert w. induction Hus as [|u us Hu Hus IH]; intros w Hi; [done|].
  cbn. by apply IH, plain_update_inv.
Qed.

Lemma create_inv w :
  page_inv w → open (w_view w) = true → token (w_view w) = [] → isCreating (w_view w) = false →
  page_inv (performs w (create uuid l w)).
Proof.
  intros Hi Ho Ht Hp. unfold create. case_cond; [done|]. case_cond; [by apply plain_update_inv|].
  destruct (policy _ _) as [p|].
  - destruct (editingClient (w_view w)) as [c|] eqn:Ee.
    + assert (Ha : page_inv (performs w [Update (setIsCreating true); Update (setError []); Await await_update]))
        by (apply form_call_inv; [done..|left; split; [done|congruence]]).
      refine (clients_inv_ext _ _ _ _ _ Ha); reflexivity.
    + destruct (stableIdempotencyKey _ _ _ _) as [[key ref] e].
      assert (Ha : page_inv (performs w [Update (setIsCreating true); Update (setError []); Await await_create]))
        by (apply form_call_inv; [done..|by right]).
      refine (clients_inv_ext _ _ _ _ _ Ha); reflexivity.
  - pose proof (inv_creating _ Hi) as Hs. rewrite Hp in Hs. destruct Hi. split; cbn; auto.
Qed.

Lemma changeDialogOpen_inv b w :
  page_inv w → open (w_view w) = true → page_inv (performs w (changeDialogOpen b w)).
Proof.
  intros Hi Ho. unfold changeDialogOpen, canChangeAPIClientDialogOpen. destruct b; cbn.
  - destruct Hi. split; cbn; auto; naive_solver.
  - destruct (isCreating (w_view w)) eqn:Ec; [done|]. destruct (calls_absent w Hi Ec) as [N1 N2].
    destruct Hi. split; cbn; auto; try done; naive_solver.
Qed.

Lemma startEdit_inv c w :
  page_inv w → open (w_view w) = false → isLifecyclePending (w_view w) = false →
  page_inv (performs w (startEdit c w)).
Proof.
  intros Hi Ho Hp. destruct (closed_no_create w Hi Ho) as [N1 N2].
  pose proof (rotation_absent w Hi Hp) as N3. destruct Hi.
  split; cbn; auto; try done; naive_solver.
Qed.

(** *** Continuations *)

Lemma advance_slot P f w id a a' :
  slot P f (w_pending w) → w_pending w !! id = Some a → P a' = P a → slot P f (<[id := a']> (w_pending w)).
Proof.
  intros Hs E Ea. destruct (P a) eqn:Pa.
  - by eapply slot_next.
  - apply slot_insert; [done..|]. congruence.
Qed.

Lemma return_slot P f w id a :
  slot P f (w_pending w) → w_pending w !! id = Some a →
  slot P (if P a then false else f) (delete id (w_pending w)).
Proof. intros Hs E. destruct (P a) eqn:Pa; [by eapply slot_close|by eapply slot_delete]. Qed.

Lemma advance_fresh w id a a' :
  page_inv w → w_pending w !! id = Some a →
  ∀ i, (w_next w <= i)%nat → <[id := a']> (w_pending w) !! i = None.
Proof.
  intros Hi E i Hle. pose proof (pending_lt _ _ _ Hi E). rewrite lookup_insert_ne by lia.
  by apply (inv_fresh _ Hi).
Qed.

Lemma return_fresh w id :
  page_inv w → ∀ i, (w_next w <= i)%nat → delete id (w_pending w) !! i = None.
Proof. intros Hi i Hle. apply lookup_delete_None. right. by apply (inv_fresh _ Hi). Qed.

Lemma update_reply_inv id tok w :
  page_inv w → w_pending w !! id = Some await_update →
  page_inv (performs w (on_reply l id await_update (Ok tok))).
Proof.
  intros Hi E. destruct (inv_update _ Hi _ E) as (Ho & Ht & Hr). cbn.
  pose proof (advance_slot _ _ w id _ (await_created false) (inv_creating _ Hi) E eq_refl) as S1.
  pose proof (advance_slot _ _ w id _ (await_created false) (inv_lifecycle _ Hi) E eq_refl) as S2.
  pose proof (advance_fresh w id _ (await_created false) Hi E) as F.
  pose proof (inv_creating _ Hi) as Hs. split; cbn; auto; try done; intros i Hj; pending_cases.
  - by pose proof (slot_unique _ _ _ _ _ _ _ Hs E Hj eq_refl eq_refl).
  - by pose proof (slot_unique _ _ _ _ _ _ _ Hs E Hj eq_refl eq_refl).
Qed.

Lemma create_reply_inv id tok w :
  page_inv w → w_pending w !! id = Some await_create →
  page_inv (performs w (on_reply l id await_create (Ok tok))).
Proof.
  intros Hi E. destruct (inv_create _ Hi _ E) as (Ho & He). cbn.
  pose proof (advance_slot _ _ w id _ (await_created true) (inv_creating _ Hi) E eq_refl) as S1.
  pose proof (advance_slot _ _ w id _ (await_created true) (inv_lifecycle _ Hi) E eq_refl) as S2.
  pose proof (advance_fresh w id _ (await_created true) Hi E) as F.
  pose proof (inv_creating _ Hi) as Hs. split; cbn; auto; try done; intros i Hj; pending_cases.
  by pose proof (slot_unique _ _ _ _ _ _ _ Hs E Hj eq_refl eq_refl).
Qed.

Lemma rotate_reply_inv id c tok w :
  page_inv w → w_pending w !! id = Some (await_rotate c) →
  page_inv (performs w (on_reply l id (await_rotate c) (Ok tok))).
Proof.
  intros Hi E. cbn.
  pose proof (advance_slot _ _ w id _ (await_rotated c) (inv_creating _ Hi) E eq_refl) as S1.
  pose proof (advance_slot _ _ w id _ (await_rotated c) (inv_lifecycle _ Hi) E eq_refl) as S2.
  pose proof (advance_fresh w id _ (await_rotated c) Hi E) as F.
  pose proof (inv_update _ Hi) as Hu. split; cbn; auto; try done; intros i Hj; pending_cases.
  destruct (Hu i Hj) as (_ & _ & Hr). by destruct (Hr id c).
Qed.

Lemma updates_pending us w : w_pending (performs w (Update <$> us)) = w_pending w.
Proof. revert w. induction us as [|u us IH]; intros w; [done|]. apply (IH (perform w (Update u))). Qed.

(** A call whose answer only moves it to its next [await]. *)
Lemma advance_inv id a a' us w :
  page_inv w → w_pending w !! id = Some a → Forall (λ u, plain_update u = true) us →
  is_creating a' = is_creating a → is_lifecycle a' = is_lifecycle a →
  (a' = await_revoked ∨ a' = await_deleted) → page_inv (performs w ((Update <$> us) ++ [Next id a'])).
Proof.
  intros Hi E Hus K1 K2 Ha. unfold performs. rewrite fold_left_app. fold (performs w (Update <$> us)).
  rewrite <- (updates_pending us w) in E. apply (plain_updates_inv us w Hus) in Hi.
  revert Hi E. generalize (performs w (Update <$> us)). clear -K1 K2 Ha. intros w Hi E.
  pose proof (advance_slot _ _ w id _ a' (inv_creating _ Hi) E K1) as S1.
  pose proof (advance_slot _ _ w id _ a' (inv_lifecycle _ Hi) E K2) as S2.
  pose proof (advance_fresh w id _ a' Hi E) as F. destruct Hi as [_ _ _ Ht Hu Hr Hk].
  destruct Ha as [-> | ->]; split; cbn in *; auto; intros i; intros; pending_cases; eauto.
  all: destruct (Hu i) as (? & ? & Hn); [done|]; split_and!; [done..|]; intros j c Hj;
    pending_cases; by apply (Hn j c).
Qed.

(** The last step of a call: the flag of its kind goes down, nothing else moves. *)
Lemma return_inv id a w us :
  page_inv w → w_pending w !! id = Some a → Forall (λ u, plain_update u = true) us →
  page_inv (performs w ((Update <$> us)
    ++ (if is_creating a then [Update (setIsCreating false)] else [])
    ++ (if is_lifecycle a then [Update (setIsLifecyclePending false)] else []) ++ [Return id])).
Proof.
  intros Hi E Hus. unfold performs. rewrite fold_left_app. fold (performs w (Update <$> us)).
  rewrite <- (updates_pending us w) in E. apply (plain_updates_inv us w Hus) in Hi. revert Hi E. generalize (performs w (Update <$> us)).
  clear. intros w Hi E. pose proof (return_fresh w id Hi) as F.
  pose proof (return_slot _ _ w id a (inv_creating _ Hi) E) as S1.
  pose proof (return_slot _ _ w id a (inv_lifecycle _ Hi) E) as S2.
  assert (Hd : ∀ i b, delete id (w_pending w) !! i = Some b → w_pending w !! i = Some b)
    by (intros i b [_ ?]%lookup_delete_Some; done).
  destruct Hi as [_ _ _ Ht Hu Hr Hk].
  destruct (is_creating a), (is_lifecycle a); split; cbn in *; auto; intros i Hj.
  all: try (apply Hd in Hj; destruct (Hu i Hj) as (? & ? & Hn); split_and!; eauto; done).
  all: naive_solver.
Qed.
Lemma on_reply_inv id a r w :
  page_inv w → w_pending w !! id = Some a → page_inv (performs w (on_reply l id a r)).
Proof.
  intros Hi E.
  assert (Hret : ∀ s, page_inv (performs w ((Update <$> [setError s])
    ++ (if is_creating a then [Update (setIsCreating false)] else [])
    ++ (if is_lifecycle a then [Update (setIsLifecyclePending false)] else []) ++ [Return id]))).
  { intros s. apply return_inv; [done..|]. by repeat constructor. }
  destruct a, r; try done; try (refine (clients_inv_ext _ _ _ _ _ (Hret _)); reflexivity).
  - by apply update_reply_inv.
  - by apply create_reply_inv.
  - by apply rotate_reply_inv.
  - refine (clients_inv_ext _ _ _ _ _ (advance_inv id await_revoke await_revoked [] w _ _ _ _ _ _)); auto.
  - refine (clients_inv_ext _ _ _ _ _
      (advance_inv id await_delete await_deleted [setPendingDelete None] w _ _ _ _ _ _)); auto.
Qed.

Lemma on_invalidated_inv id a w :
  page_inv w → w_pending w !! id = Some a → page_inv (performs w (on_invalidated l id a)).
Proof.
  intros Hi E. pose proof (return_inv id a w [] Hi E (Forall_nil_2 _)) as Hret.
  destruct a as [| |[]| | | | | | | |]; try done; refine (clients_inv_ext _ _ _ _ _ Hret); reflexivity.
Qed.

Lemma on_clipboard_inv id a b w :
  page_inv w → w_pending w !! id = Some a → page_inv (performs w (on_clipboard l id a b)).
Proof.
  intros Hi E.
  assert (Hret : ∀ us, Forall (λ u, plain_update u = true) us → page_inv (performs w ((Update <$> us)
    ++ (if is_creating a then [Update (setIsCreating false)] else [])
    ++ (if is_lifecycle a then [Update (setIsLifecyclePending false)] else []) ++ [Return id])))
    by (intros us; by apply return_inv).
  destruct a as [| | | | | | | | | |k]; try done; destruct b.
  - refine (clients_inv_ext _ _ _ _ _ (Hret [setCopied true; setError []] _)); by repeat constructor.
  - refine (clients_inv_ext _ _ _ _ _ (Hret [setCopied false; setError (tr l "apiClients.copyFailed")] _));
      by repeat constructor.
  - refine (clients_inv_ext _ _ _ _ _ (Hret [setCopiedSnippet k; setError []] _)); by repeat constructor.
  - refine (clients_inv_ext _ _ _ _ _ (Hret [setCopiedSnippet []] _)); by repeat constructor.
Qed.

Lemma clipboard_call_inv x a w :
  page_inv w → is_creating a = false → is_lifecycle a = false → page_inv (performs w [Log x; Await a]).
Proof.
  intros Hi K1 K2. pose proof (await_slot _ _ w a Hi (inv_creating _ Hi) K1) as S1.
  pose proof (await_slot _ _ w a Hi (inv_lifecycle _ Hi) K2) as S2.
  pose proof (fresh_insert w (w_next w) a Hi (or_intror eq_refl)) as F.
  destruct Hi as [_ _ _ Ht Hu Hr Hk]. split; cbn; auto; intros i; intros; pending_cases; subst; try done; eauto.
  destruct (Hu i) as (? & ? & Hn); [done|]; split_and!; [done..|]; intros j c Hj.
  pending_cases; subst; [done|]. by apply (Hn j c).
Qed.

Lemma initial_page_inv e now : page_inv (initial_page e now).
Proof. split; try done; intros id a E; done. Qed.

Lemma uncovered_closed v : uncovered v = true → open v = false.
Proof. unfold uncovered. rewrite andb_true_iff, negb_true_iff. by intros [? _]. Qed.

Lemma row_enabled_spec b c v :
  row_enabled b c v = true → open v = false ∧ isLifecyclePending v = false.
Proof. unfold row_enabled. intros. bool_to_prop. auto using uncovered_closed. Qed.

Lemma submit_enabled v :
  form_shown v && can_submit v = true → open v = true ∧ token v = [] ∧ isCreating v = false.
Proof.
  unfold form_shown, can_submit. intros. bool_to_prop. split_and!; [done| |done].
  by destruct (token v).
Qed.

Lemma guarded_inv b xs w :
  page_inv w → (b = true → page_inv (performs w xs)) → page_inv (performs w (guarded b xs)).
Proof. intros Hi Hb. destruct b; [by apply Hb|done]. Qed.

Lemma with_pending_inv id f w :
  page_inv w → (∀ a, w_pending w !! id = Some a → page_inv (performs w (f a))) →
  page_inv (performs w (with_pending id f w)).
Proof. intros Hi Hf. unfold with_pending. destruct (w_pending w !! id); [by apply Hf|done]. Qed.

Lemma page_step_inv w e : page_inv w → page_inv (page_step uuid l manage w e).
Proof.
  intros Hi. unfold page_step.
  destruct e; cbn [handle]; try (apply guarded_inv; [done|]; intros Hg);
    try (apply with_pending_inv; [done|]; intros a Ha); try (by apply plain_update_inv);
    try apply row_enabled_spec in Hg as [Ho Hp].
  - apply andb_true_iff in Hg as [_ Hg]. by apply start_inv, uncovered_closed.
  - by apply startEdit_inv.
  - by apply rotate_inv.
  - by apply revoke_inv.
  - apply negb_true_iff in Hg. by apply removeClient_inv.
  - apply submit_enabled in Hg as (? & ? & ?). by apply create_inv.
  - by apply changeDialogOpen_inv.
  - by apply clipboard_call_inv.
  - by apply clipboard_call_inv.
  - by apply on_reply_inv.
  - by apply on_invalidated_inv.
  - by apply on_clipboard_inv.
  - by refine (clients_inv_ext _ _ _ _ _ Hi).
  - by refine (clients_inv_ext _ _ _ _ _ Hi).
Qed.

Lemma visited_inv w : visited uuid l manage w → page_inv w.
Proof. induction 1; [apply initial_page_inv|by apply page_step_inv]. Qed.
(** C26. A generated token is never kept behind a closed dialog: while there is one its dialog is open,
    and closing the dialog, which is refused only while a creation is under way, erases it together
    with the name, the error and the client being edited. *)
Theorem token_on_screen w :
  visited uuid l manage w →
  (token (w_view w) ≠ [] → open (w_view w) = true) ∧
  (open (w_view w) = true →
   let v := w_view (page_step uuid l manage w (LDialog false)) in
   if isCreating (w_view w) then v = w_view w
   else open v = false ∧ token v = [] ∧ name v = [] ∧ error v = [] ∧ editingClient v = None).
Proof.
  intros Hw%visited_inv. split; [by apply inv_token|]. intros Ho. cbv zeta.
  unfold page_step. cbn [handle]. rewrite Ho. unfold guarded, changeDialogOpen.
  by destruct (isCreating (w_view w)) eqn:E; cbn; rewrite ?E.
Qed.

(** The page never stays busy: a flag is up exactly while one call of its kind is under way, there
    is never a second, and when the call is answered (with success or any error, and the lists
    refreshed) it is over and its flag down. *)
Theorem calls_end w id a r b :
  visited uuid l manage w →
  slot is_creating (isCreating (w_view w)) (w_pending w) ∧
  slot is_lifecycle (isLifecyclePending (w_view w)) (w_pending w) ∧
  (w_pending w !! id = Some a →
   let w' := run_page uuid l manage w [LReply id r; LInvalidated id; LClipboard id b] in
   w_pending w' = delete id (w_pending w) ∧
   (is_creating a = true → isCreating (w_view w') = false) ∧
   (is_lifecycle a = true → isLifecyclePending (w_view w') = false)).
Proof.
  intros Hw%visited_inv. split_and!; [apply Hw..|]. intros E. cbv zeta. clear Hw.
  cbn [run_page fold_left]. unfold page_step. cbn [handle].
  assert (Hat : ∀ w f a, w_pending w !! id = Some a → with_pending id f w = f a)
    by (intros v f x Hx; unfold with_pending; by rewrite Hx).
  assert (Hno : ∀ w f, w_pending w !! id = None → with_pending id f w = [])
    by (intros v f Hx; unfold with_pending; by rewrite Hx).
  rewrite (Hat _ _ _ E). destruct a as [| |[]| | | | | | | |], r; cbn [on_reply lifecycle_failed create_failed].
  all: repeat (first [erewrite Hat; [|cbn; rewrite ?lookup_insert_eq; by try exact E]
                     |rewrite Hno; [|cbn; apply lookup_delete_eq]]; cbn [on_invalidated on_clipboard]).
  all: try destruct b; split_and!; cbn; try done; by rewrite ?delete_insert_eq.
Qed.

End invariant.

(** ** Witnesses *)

Lemma token_on_screen_witness :
  token (w_view (demo_page created)) = "secret" ∧ open (w_view (demo_page created)) = true ∧
  token (w_view (@page_step ascii_case_map demo_dates demo_uuid en_US true (demo_page created) (LDialog false))) = [].
Proof.
  destruct (@token_on_screen ascii_case_map demo_dates demo_uuid en_US true (demo_page created)
              (clients_demo_visited _)) as [Hopen Hclose].
  split; [vm_compute; reflexivity|]. split; [apply Hopen; vm_compute; discriminate|].
  specialize (Hclose ltac:(vm_compute; reflexivity)). cbv zeta in Hclose.
  replace (isCreating (w_view (demo_page created))) with false in Hclose by (vm_compute; reflexivity).
  apply Hclose.
Defined.

Lemma calls_end_witness :
  w_pending (demo_page (fill_form ++ [LCreate])) !! 0%nat = Some await_create ∧
  isCreating (w_view (demo_page (fill_form ++ [LCreate]))) = true ∧
  isCreating (w_view (@run_page ascii_case_map demo_dates demo_uuid en_US true
    (demo_page (fill_form ++ [LCreate]))
    [LReply 0 (Err (ApiTimeoutError 15000)); LInvalidated 0; LClipboard 0 true])) = false.
Proof.
  split; [vm_compute; reflexivity|]. split; [vm_compute; reflexivity|].
  destruct (@calls_end ascii_case_map demo_dates demo_uuid en_US true (demo_page (fill_form ++ [LCreate])) 0
              await_create (Err (ApiTimeoutError 15000)) true (clients_demo_visited _)) as (_ & _ & Hend).
  destruct (Hend ltac:(vm_compute; reflexivity)) as (_ & Hc & _). by apply Hc.
Defined.
