(* ===== verification/ClientsSent.v ===== *)
(** * The API clients page: what it sends

    The idempotency keys of the rotations and of the creations, the policies submitted, and two
    behaviours that surprise: an edit under the client's own name is refused, and a retried creation
    draws another key. *)
From Stdlib Require Import ZArith Lia List.
From stdpp Require Import base list sets gmap.
From S2P Require Import Regex Numbers Host Dates Validation Json Idempotency Types Api ApiCalls Query.
From S2P Require Import I18nPt I18nEn I18nEs I18n Clients Prelude.
Import Validation.
#[local] Open Scope Z_scope.

(** *** The keys of the rotations *)

Definition rotation_of (x : entry) : option (jsstr * jsstr) :=
  match x with Sent (rotateAPIClient id _ k) => Some (id, k) | _ => None end.

Definition rotations (log : list entry) : list (jsstr * jsstr) := omap rotation_of log.

(** The key of the last rotation of [id] that was not brought to its end. *)
Definition open_rotation (id : jsstr) (log : list entry) : option jsstr :=
  fold_left (λ acc x, match x with
                      | Sent (rotateAPIClient id' _ k) => if str_eqb id' id then Some k else acc
                      | Forgot id' => if str_eqb id' id then None else acc
                      | _ => acc
                      end) log None.

#[local] Arguments rotations : simpl never.
#[local] Arguments open_rotation : simpl never.

(** A rotation continues the open one of its client, or draws a key no rotation had. *)
Inductive good_log : list entry → Prop :=
  | good_nil : good_log []
  | good_other log x : rotation_of x = None → good_log log → good_log (log ++ [x])
  | good_retry log id k : good_log log → open_rotation id log = Some k →
      good_log (log ++ [Sent (rotateAPIClient id 300 k)])
  | good_fresh log id k : good_log log → open_rotation id log = None →
      (∀ id', (id', k) ∉ rotations log) → good_log (log ++ [Sent (rotateAPIClient id 300 k)]).

Lemma rotations_snoc log x : rotations (log ++ [x]) = rotations log ++ match rotation_of x with Some p => [p] | None => [] end.
Proof. unfold rotations. rewrite omap_app. simpl. by destruct (rotation_of x). Qed.

Lemma open_rotation_snoc id log x :
  open_rotation id (log ++ [x]) =
  match x with
  | Sent (rotateAPIClient id' _ k) => if str_eqb id' id then Some k else open_rotation id log
  | Forgot id' => if str_eqb id' id then None else open_rotation id log
  | _ => open_rotation id log
  end.
Proof. unfold open_rotation. by rewrite fold_left_app. Qed.

Lemma open_rotation_sent id k log : open_rotation id log = Some k → (id, k) ∈ rotations log.
Proof.
  induction log as [|x log IH] using rev_ind; [done|]. rewrite open_rotation_snoc, rotations_snoc, elem_of_app.
  destruct x as [a| | | |]; [|auto..|]; [destruct a; auto|]; case_cond; bool_to_prop; try done; auto.
  all: unfold str_eqb in *; bool_to_prop; subst.
  intros [= ->]. right. by left.
Qed.

(** A key belongs to one client. *)
Lemma rotation_owner log id id' k :
  good_log log → (id, k) ∈ rotations log → (id', k) ∈ rotations log → id = id'.
Proof.
  intros Hg. revert id id'. induction Hg as [|log x Hx Hg IH|log i key Hg IH Ho|log i key Hg IH Ho Hf];
    intros id id'; rewrite ?rotations_snoc; [by intros ?%elem_of_nil|..].
  - rewrite Hx, app_nil_r. apply IH.
  - apply open_rotation_sent in Ho. cbn [rotation_of]. rewrite !elem_of_app, !list_elem_of_singleton.
    intros [H1|E1] [H2|E2]; simplify_eq; eauto.
  - cbn [rotation_of]. rewrite !elem_of_app, !list_elem_of_singleton.
    intros [H1|E1] [H2|E2]; simplify_eq; eauto; exfalso; by eapply Hf.
Qed.

(** The open rotation of a client goes back to its first use of the key. *)
Lemma open_rotation_origin log id k :
  good_log log → open_rotation id log = Some k →
  ∃ a b, log = a ++ Sent (rotateAPIClient id 300 k) :: b ∧ (Forgot id ∉ b) ∧ ∀ id', (id', k) ∉ rotations a.
Proof.
  intros Hg. induction Hg as [|log x Hx Hg IH|log i key Hg IH Ho|log i key Hg IH Ho Hf];
    try done; rewrite open_rotation_snoc.
  - intros Hk. assert (open_rotation id log = Some k ∧ x ≠ Forgot id) as [Hk' Hne].
    { destruct x as [a| | | |i]; [destruct a|..]; try done.
      destruct (str_eqb i id) eqn:E; [done|]. apply str_eqb_neq in E. split; [done|congruence]. }
    destruct (IH Hk') as (a & b & -> & Hb & Ha). exists a, (b ++ [x]).
    rewrite <- app_assoc. split_and!; [done| |done]. rewrite elem_of_app, list_elem_of_singleton. naive_solver.
  - destruct (str_eqb i id) eqn:E; intros Hk.
    + apply str_eqb_eq in E as ->. injection Hk as ->.
      destruct (IH Ho) as (a & b & -> & Hb & Ha). exists a, (b ++ [Sent (rotateAPIClient id 300 k)]).
      rewrite <- app_assoc. split_and!; [done| |done]. rewrite elem_of_app, list_elem_of_singleton. naive_solver.
    + destruct (IH Hk) as (a & b & -> & Hb & Ha). exists a, (b ++ [Sent (rotateAPIClient i 300 key)]).
      rewrite <- app_assoc. split_and!; [done| |done]. rewrite elem_of_app, list_elem_of_singleton. naive_solver.
  - destruct (str_eqb i id) eqn:E; intros Hk.
    + apply str_eqb_eq in E as ->. injection Hk as ->. exists log, []. split_and!; [done| |done].
      by intros ?%elem_of_nil.
    + destruct (IH Hk) as (a & b & -> & Hb & Ha). exists a, (b ++ [Sent (rotateAPIClient i 300 key)]).
      rewrite <- app_assoc. split_and!; [done| |done]. rewrite elem_of_app, list_elem_of_singleton. naive_solver.
Qed.

Lemma good_snoc_inv log x :
  good_log (log ++ [x]) →
  good_log log ∧ ∀ id g k, x = Sent (rotateAPIClient id g k) →
    g = 300 ∧ (open_rotation id log = Some k ∨
               open_rotation id log = None ∧ ∀ id', (id', k) ∉ rotations log).
Proof.
  intros Hg. inversion Hg as [E|log' y Hy Hg' E|log' i k Hg' Ho E|log' i k Hg' Ho Hf E];
    [by destruct log|apply app_inj_tail in E as [-> <-]..].
  - split; [done|]. by intros id g k ->.
  - split; [done|]. intros id g k' E. injection E as <- <- <-. auto.
  - split; [done|]. intros id g k' E. injection E as <- <- <-. auto.
Qed.

Lemma good_prefix a b : good_log (a ++ b) → good_log a.
Proof.
  induction b as [|x b IH] using rev_ind; [by rewrite app_nil_r|].
  rewrite app_assoc. intros [Hg _]%good_snoc_inv. auto.
Qed.

(** And lasts as long as nothing brings it to its end. *)
Lemma open_rotation_lasts a b id g k :
  good_log (a ++ Sent (rotateAPIClient id g k) :: b) → Forgot id ∉ b →
  open_rotation id (a ++ Sent (rotateAPIClient id g k) :: b) = Some k.
Proof.
  induction b as [|x b IH] using rev_ind.
  - intros _ _. by rewrite open_rotation_snoc, str_eqb_refl.
  - rewrite app_comm_cons, app_assoc, elem_of_app, list_elem_of_singleton.
    intros [Hg Hx]%good_snoc_inv Hb. specialize (IH Hg ltac:(tauto)).
    rewrite open_rotation_snoc. destruct x as [c| | | |i]; [destruct c|..]; try done.
    + destruct (str_eqb _ _) eqn:E; [|done]. apply str_eqb_eq in E as ->.
      destruct (Hx _ _ _ eq_refl) as [_ [Ho|[Ho _]]]; rewrite IH in Ho; congruence.
    + destruct (str_eqb _ _) eqn:E; [|done]. apply str_eqb_eq in E as ->. naive_solver.
Qed.

Lemma elem_of_rotations log id g k : Sent (rotateAPIClient id g k) ∈ log → (id, k) ∈ rotations log.
Proof. intros Hin. apply list_elem_of_omap. by eexists. Qed.

Lemma good_log_keys l1 id g k l2 id' g' k' l3 :
  good_log (l1 ++ Sent (rotateAPIClient id g k) :: l2 ++ Sent (rotateAPIClient id' g' k') :: l3) →
  k = k' ↔ id = id' ∧ Forgot id ∉ l2.
Proof.
  set (log := l1 ++ Sent (rotateAPIClient id g k) :: l2).
  replace (l1 ++ _ :: l2 ++ _ :: l3) with ((log ++ [Sent (rotateAPIClient id' g' k')]) ++ l3)
    by (unfold log; rewrite <- !app_assoc; done).
  intros [Hg Hx]%good_prefix%good_snoc_inv. destruct (Hx _ _ _ eq_refl) as [_ Hk'].
  assert (Hin : (id, k) ∈ rotations log)
    by (apply elem_of_rotations with g; apply elem_of_app; right; left). split.
  - intros <-. destruct Hk' as [Ho|[_ Hf]]; [|by apply Hf in Hin].
    assert (id = id') as <- by (apply (rotation_owner _ _ _ _ Hg Hin); by apply open_rotation_sent).
    split; [done|]. apply open_rotation_origin in Ho as (a & b & E & Hb & Ha); [|done].
    intros Hl. unfold log in E. apply app_eq_inv in E as [(u & -> & E)|(u & -> & E)].
    + destruct u as [|y u]; simplify_eq/=; [done|]. apply Hb, elem_of_app. right. by right.
    + destruct u as [|y u]; simplify_eq/=; [done|].
      apply (Ha id), elem_of_rotations with g, elem_of_app. right. left.
  - intros [<- Hl]. pose proof (open_rotation_lasts _ _ _ _ _ Hg Hl) as Ho. fold log in Ho.
    destruct Hk' as [Hk'|[Hk' _]]; congruence.
Qed.

Section rotations.
Context `{CaseMap} `{DateApi} (uuid : nat → jsstr) (l : Locale) (manage : bool).

Record rotations_inv (w : world) : Prop := {
  ri_good : good_log (w_log w);
  ri_open : ∀ id, key <$> default None (w_rotateAttempts w !! id) = open_rotation id (w_log w);
  ri_print : ∀ id a, w_rotateAttempts w !! id = Some (Some a) →
    ∃ c, client_id c = id ∧ fingerprint a = stringify (rotation_attempt c);
  ri_drawn : ∀ id k, (id, k) ∈ rotations (w_log w) → ∃ n, (n < drawn (w_entropy w))%nat ∧ k = uuid n;
}.

(** Actions that start no rotation and draw no key. *)
Definition quiet (x : action) : bool :=
  match x with
  | RotateAttempt _ _ | Draw _ | Log (Forgot _) | Log (Sent (rotateAPIClient _ _ _)) => false
  | _ => true
  end.

Lemma log_inv w x :
  rotations_inv w → rotation_of x = None → (∀ id, x ≠ Forgot id) → rotations_inv (perform w (Log x)).
Proof.
  intros [Hg Ho Hp Hd] Hx Hf. split; cbn; [by apply good_other| |done|].
  - intros id. rewrite Ho, open_rotation_snoc. destruct x as [a| | | |i]; [by destruct a|done..|by destruct (Hf i)].
  - intros id k. rewrite rotations_snoc, Hx, app_nil_r. apply Hd.
Qed.

Lemma forget_inv w id : rotations_inv w → rotations_inv (perform w (ForgetRotation id)).
Proof.
  intros [Hg Ho Hp Hd]. split; cbn; [by apply good_other| | |].
  - intros id'. rewrite open_rotation_snoc. destruct (str_eqb id id') eqn:E.
    + apply str_eqb_eq in E as ->. by rewrite lookup_delete_eq.
    + apply str_eqb_neq in E. by rewrite lookup_delete_ne.
  - intros id' a [_ Ha]%lookup_delete_Some. eauto.
  - intros id' k. rewrite rotations_snoc. cbn [rotation_of]. rewrite app_nil_r. apply Hd.
Qed.

Lemma quiet_inv w x : quiet x = true → rotations_inv w → rotations_inv (perform w x).
Proof.
  intros Hq Hi. destruct x as [| | | | |x| | | | |];
    try done; try (by destruct Hi); [by apply forget_inv|].
  apply log_inv; [done| |]; destruct x as [a| | | |]; try done; by destruct a.
Qed.

Lemma quiets_inv w xs : forallb quiet xs = true → rotations_inv w → rotations_inv (performs w xs).
Proof.
  revert w. induction xs as [|x xs IH]; intros w; [done|]. cbn [forallb].
  intros [Hx Hxs]%andb_true_iff Hi. by apply (IH (perform w x)), quiet_inv.
Qed.

Lemma draw_inv w e :
  (drawn (w_entropy w) <= drawn e)%nat → rotations_inv w → rotations_inv (perform w (Draw e)).
Proof.
  intros He [Hg Ho Hp Hd]. split; cbn; [done..|]. intros id k Hk. destruct (Hd id k Hk) as (n & Hn & ->).
  exists n. split; [lia|done].
Qed.

Hypothesis uuid_fresh : ∀ n m, uuid n = uuid m → n = m.

(** The attempt a rotation leaves, and the key it sends. *)
Lemma rotated_inv w c a e :
  rotations_inv w → fingerprint a = stringify (rotation_attempt c) →
  (drawn (w_entropy w) <= drawn e)%nat → (∃ n, (n < drawn e)%nat ∧ key a = uuid n) →
  (open_rotation (client_id c) (w_log w) = Some (key a) ∨
   open_rotation (client_id c) (w_log w) = None ∧ ∀ id, (id, key a) ∉ rotations (w_log w)) →
  rotations_inv (performs w [Draw e; RotateAttempt (client_id c) (Some a);
                             Log (Sent (rotateAPIClient (client_id c) 300 (key a)))]).
Proof.
  intros [Hg Ho Hp Hd] Ha He Hn Hk. split; cbn.
  - destruct Hk as [Hk|[Hk Hf]]; [by apply good_retry|by apply good_fresh].
  - intros id. rewrite open_rotation_snoc. destruct (str_eqb _ _) eqn:E.
    + apply str_eqb_eq in E as <-. by rewrite lookup_insert_eq.
    + apply str_eqb_neq in E. by rewrite lookup_insert_ne.
  - intros id b [[<- [= <-]]|[_ Hb]]%lookup_insert_Some; eauto.
  - intros id k. rewrite rotations_snoc, elem_of_app. intros [Hin|Hin].
    + destruct (Hd id k Hin) as (n & ? & ->). exists n. split; [lia|done].
    + apply list_elem_of_singleton in Hin as [= -> ->]. done.
Qed.

Lemma rotations_inv_ext w w' :
  w_log w' = w_log w → w_rotateAttempts w' = w_rotateAttempts w → w_entropy w' = w_entropy w →
  rotations_inv w → rotations_inv w'.
Proof. intros E1 E2 E3 []. split; by rewrite ?E1, ?E2, ?E3. Qed.

Lemma rotate_rotations_inv c w : rotations_inv w → rotations_inv (performs w (rotate uuid c w)).
Proof.
  intros Hi. pose proof Hi as [Hg Ho Hp Hd]. specialize (Ho (client_id c)). specialize (Hp (client_id c)).
  unfold rotate. set (ref := default None (w_rotateAttempts w !! client_id c)) in *.
  destruct (stable_cases uuid ref (rotation_attempt c) (w_entropy w)) as [(a & Ea & Hf & ->)|[Hf ->]].
  - rewrite Ea in *. assert (Hk : open_rotation (client_id c) (w_log w) = Some (key a)) by (by rewrite <- Ho).
    refine (rotations_inv_ext _ _ _ _ _ (rotated_inv w c a (w_entropy w) Hi Hf _ _ _)); auto.
    by eapply Hd, open_rotation_sent.
  - set (a := {| fingerprint := _; key := _ |}).
    refine (rotations_inv_ext _ _ _ _ _ (rotated_inv w c a {| drawn := S (drawn (w_entropy w)) |} Hi _ _ _ _));
      try done; cbn; [lia|by eauto|].
    right. split.
    + destruct ref as [b|] eqn:Er; [|done]. unfold ref in Er.
      destruct (w_rotateAttempts w !! client_id c) as [o|] eqn:El; [|done]. simpl in Er. subst o.
      destruct (Hp b eq_refl) as (d & Hd' & Hb). destruct (Hf b eq_refl). rewrite Hb.
      unfold rotation_attempt. by rewrite Hd'.
    + intros id Hin. destruct (Hd _ _ Hin) as (n & Hn & E). apply uuid_fresh in E. lia.
Qed.

Lemma create_rotations_inv w : rotations_inv w → rotations_inv (performs w (create uuid l w)).
Proof.
  intros Hi. unfold create. case_cond; [done|]. case_cond; [by apply quiets_inv|].
  destruct (policy _ _) as [p|]; [|by apply quiets_inv].
  destruct (editingClient _); [by apply quiets_inv|].
  assert (Hk : ∀ k ref e, (drawn (w_entropy w) <= drawn e)%nat →
    rotations_inv (performs w ([Update (setIsCreating true); Update (setError [])]
      ++ [Draw e; CreateAttempt ref; Log (Sent (createAPIClient p k)); Await await_create]))).
  { intros k ref e He. cbn [app]. unfold performs. cbn [fold_left].
    do 3 (apply quiet_inv; [done|]). apply draw_inv; [done|]. do 2 (apply quiet_inv; [done|]). done. }
  destruct (stable_cases uuid (w_createAttempt w) (client_body p) (w_entropy w)) as [(a & _ & _ & ->)|[_ ->]];
    apply Hk; cbn; lia.
Qed.

Lemma guarded_quiet b xs : forallb quiet xs = true → forallb quiet (guarded b xs) = true.
Proof. by destruct b. Qed.

Lemma page_step_rotations w e : rotations_inv w → rotations_inv (page_step uuid l manage w e).
Proof.
  intros Hi. unfold page_step. destruct e; cbn [handle];
    try (apply quiets_inv; [|done]; try apply guarded_quiet; done).
  - unfold guarded. case_cond; [by apply rotate_rotations_inv|done].
  - unfold removeClient, guarded. repeat case_match; by try apply quiets_inv.
  - unfold guarded. case_cond; [by apply create_rotations_inv|done].
  - unfold guarded, changeDialogOpen. destruct nextOpen; repeat case_cond; by try apply quiets_inv.
  - unfold with_pending. destruct (_ !! _) as [a|]; [|done]. apply quiets_inv; [|done]. by destruct a, r.
  - unfold with_pending. destruct (_ !! _) as [a|]; [|done]. apply quiets_inv; [|done]. by destruct a as [| |[]| | | | | | | |].
  - unfold with_pending. destruct (_ !! _) as [a|]; [|done]. apply quiets_inv; [|done]. by destruct a, b.
Qed.

Lemma visited_rotations w : visited uuid l manage w → rotations_inv w.
Proof.
  induction 1; [|by apply page_step_rotations]. split; cbn; [constructor|done|done|].
  intros id k Hin. by apply elem_of_nil in Hin.
Qed.
End rotations.

(** *** What is sent *)

Section sent.
Context `{CaseMap} `{DateApi} (uuid : nat → jsstr) (l : Locale) (manage : bool).

Definition policy_ok (p : CreateAPIClientInput) : Prop :=
  cac_name p ≠ [] ∧ trim (cac_name p) = cac_name p ∧ cac_scopes p ≠ [] ∧ 1 <= cac_rpm_limit p <= 2147483647.

Definition entry_ok (x : entry) : Prop :=
  match x with
  | Sent (createAPIClient p _) | Sent (updateAPIClient _ p) => policy_ok p
  | _ => True
  end.

Definition action_ok (x : action) : Prop := match x with Log x => entry_ok x | _ => True end.

Lemma actions_ok w xs : Forall entry_ok (w_log w) → Forall action_ok xs → Forall entry_ok (w_log (performs w xs)).
Proof.
  intros Hw Hxs. revert w Hw. induction Hxs as [|x xs Hx Hxs IH]; intros w Hw; [done|].
  apply (IH (perform w x)). destruct x; cbn; try done; apply Forall_app; auto.
Qed.

Lemma rpm_valid v :
  rpmLimitValid v = true → ∃ z, num_int (js_Number (rpmLimit v)) = Some z ∧ 1 <= z <= 2147483647.
Proof.
  unfold rpmLimitValid. intros (z & _ & Hz & Hr & _)%isIntegerInRange_number; [|done..]. eauto.
Qed.
Ltac actions_tac := cbn; repeat (apply Forall_cons_2; [done|]); apply Forall_nil_2.

Lemma create_ok w :
  can_submit (w_view w) = true → Forall action_ok (create uuid l w).
Proof.
  unfold can_submit. intros Hg. bool_to_prop. unfold create. case_cond; [constructor|].
  case_cond; [actions_tac|].
  assert (Hp : ∀ p, policy (w_view w) (w_now w) = Some p → policy_ok p).
  { intros p. unfold policy. intros (e & _ & ->)%fmap_Some. destruct (rpm_valid (w_view w)) as (z & Hz & Hr); [done|].
    unfold policy_ok. cbn [cac_name cac_scopes cac_rpm_limit]. rewrite Hz, trim_idem.
    split_and!; [by apply truthy_spec|done| |cbn; lia..]. by destruct (scopes (w_view w)). }
  destruct (policy _ _) as [p|]; [|actions_tac]. specialize (Hp p eq_refl).
  destruct (editingClient _); [actions_tac|].
  destruct (stableIdempotencyKey _ _ _ _) as [[? ?] ?]. actions_tac.
Qed.

Lemma handle_ok w e : Forall action_ok (handle uuid l manage w e).
Proof.
  destruct e; cbn [handle]; unfold guarded, with_pending; repeat case_match; try (actions_tac).
  - unfold rotate. destruct (stableIdempotencyKey _ _ _ _) as [[? ?] ?]. actions_tac.
  - unfold removeClient. case_match; actions_tac.
  - bool_to_prop. by apply create_ok.
  - unfold changeDialogOpen. case_cond; destruct nextOpen; actions_tac.
  - destruct a, r; actions_tac.
  - destruct a as [| |[]| | | | | | | |]; actions_tac.
  - destruct a, b; actions_tac.
Qed.

(** Whatever happens on the page, every policy it sends, for a new client or an edited one, has
    a trimmed name that is not empty, a scope, and a limit between one and the largest 32-bit
    integer. *)
Theorem submitted_policies w p :
  visited uuid l manage w →
  (∃ k, Sent (createAPIClient p k) ∈ w_log w) ∨ (∃ id, Sent (updateAPIClient id p) ∈ w_log w) →
  policy_ok p.
Proof.
  intros Hw. assert (Hok : Forall entry_ok (w_log w)).
  { induction Hw as [|w e Hw IH]; [constructor|]. by apply actions_ok, handle_ok. }
  rewrite Forall_forall in Hok. intros [[k Hin]|[id Hin]]; by apply Hok in Hin.
Qed.

(** C25. In any history of the page, two rotations send the same idempotency key exactly when they are
    rotations of the same client and the first was not brought to its end (its answer received, the
    lists refreshed) before the second: a retry after a lost answer repeats the key, a later
    rotation and another client's never do. *)
Theorem rotation_keys w l1 id g k l2 id' g' k' l3 :
  (∀ n m, uuid n = uuid m → n = m) → visited uuid l manage w →
  w_log w = l1 ++ Sent (rotateAPIClient id g k) :: l2 ++ Sent (rotateAPIClient id' g' k') :: l3 →
  k = k' ↔ id = id' ∧ Forgot id ∉ l2.
Proof.
  intros Hu Hw E. apply (visited_rotations _ _ _ Hu) in Hw as [Hg _ _ _]. rewrite E in Hg.
  by apply good_log_keys in Hg.
Qed.


(** Edits of the form that leave the name alone. *)
Definition keeps_name (e : label) : bool :=
  match e with LRpm _ | LDays _ | LScope _ | LHelp _ | LClock _ => true | _ => false end.

Lemma keeps_name_step w e :
  keeps_name e = true →
  let w' := page_step uuid l manage w e in
  name (w_view w') = name (w_view w) ∧ w_clients w' = w_clients w ∧ w_log w' = w_log w.
Proof.
  intros He. destruct e; try done; unfold page_step; cbn [handle]; unfold guarded; by try case_cond.
Qed.

Lemma keeps_name_run w es :
  Forall (λ e, keeps_name e = true) es →
  let w' := run_page uuid l manage w es in
  name (w_view w') = name (w_view w) ∧ w_clients w' = w_clients w ∧ w_log w' = w_log w.
Proof.
  intros Hes. revert w. induction Hes as [|e es He Hes IH]; intros w; [done|].
  destruct (keeps_name_step w e He) as (E1 & E2 & E3). destruct (IH (page_step uuid l manage w e)) as (F1 & F2 & F3).
  cbn. unfold run_page in *. rewrite F1, F2, F3. done.
Qed.

Lemma duplicate_listed cs c n :
  c ∈ cs → toLowerCase (trim n) = toLowerCase (trim (client_name c)) → toLowerCase (trim n) ≠ [] →
  isDuplicateAPIClientName n (client_name <$> cs) = true.
Proof.
  intros Hc E Hne. unfold isDuplicateAPIClientName. rewrite (proj2 (truthy_spec _) Hne). cbn [negb].
  apply existsb_exists. exists (client_name c). split.
  - apply list_elem_of_In, list_elem_of_fmap_2, Hc.
  - by apply str_eqb_eq.
Qed.

(** The limits, scopes and expiration of a listed client cannot be edited under its own name: the
    form refuses the name as a duplicate of the client being edited, so saving after any other change
    sends nothing. *)
Theorem edit_same_name_refused w c es :
  c ∈ w_clients w → row_enabled true c (w_view w) = true → toLowerCase (trim (client_name c)) ≠ [] →
  Forall (λ e, keeps_name e = true) es →
  let w' := run_page uuid l manage w (LStartEdit c :: es) in
  w_log (page_step uuid l manage w' LCreate) = w_log w ∧
  (form_shown (w_view w') && can_submit (w_view w') = true →
   w_view (page_step uuid l manage w' LCreate)
   = apply_update (setError (tr l "errors.conflict")) (w_view w')).
Proof.
  intros Hc Hrow Hne Hes. cbv zeta. cbn [run_page fold_left].
  set (w1 := page_step uuid l manage w (LStartEdit c)).
  assert (E : name (w_view w1) = client_name c ∧ w_clients w1 = w_clients w ∧ w_log w1 = w_log w)
    by (unfold w1, page_step; cbn [handle]; by rewrite Hrow). destruct E as (E1 & E2 & E3).
  destruct (keeps_name_run w1 es Hes) as (F1 & F2 & F3). unfold run_page in *.
  set (w2 := fold_left _ es w1) in *. rewrite E1 in F1. rewrite E2 in F2. rewrite E3 in F3.
  assert (Hd : isDuplicateAPIClientName (trim (name (w_view w2))) (client_name <$> w_clients w2) = true).
  { rewrite F1, F2. apply (duplicate_listed _ c); rewrite ?trim_idem; done. }
  unfold page_step. cbn [handle]. unfold guarded. destruct (form_shown _ && can_submit _) eqn:G; [|done].
  unfold create. rewrite Hd. bool_to_prop. unfold can_submit in *. bool_to_prop.
  match goal with H : truthy (trim (name (w_view w2))) = true |- _ => rewrite H end.
  match goal with H : rpmLimitValid (w_view w2) = true |- _ => rewrite H end. done.
Qed.
End sent.

(** *** Retrying a creation *)

Section retry.
Context `{CaseMap} `{DateApi} (uuid : nat → jsstr) (l : Locale) (manage : bool).

Lemma DAY_product d :
  Z.abs (d * 86400000) <= MAX_SAFE_INTEGER →
  num_int (num_mul (num_mul (num_mul (num_mul (num_of_Z d) (num_of_Z 24)) (num_of_Z 60)) (num_of_Z 60))
             (num_of_Z 1000)) = Some (d * 86400000).
Proof.
  intros Hd. assert (Hs : ∀ z, Z.abs z <= MAX_SAFE_INTEGER → num_int (num_of_Z z) = Some z)
    by apply num_of_Z_safe.
  unfold MAX_SAFE_INTEGER in *.
  rewrite (num_mul_int (num_of_Z d) _ d 24) by (apply Hs; lia).
  rewrite (num_mul_int (num_of_Z (d * 24)) _ (d * 24) 60) by (apply Hs; lia).
  rewrite (num_mul_int (num_of_Z (d * 24 * 60)) _ (d * 24 * 60) 60) by (apply Hs; lia).
  rewrite (num_mul_int (num_of_Z (d * 24 * 60 * 60)) _ (d * 24 * 60 * 60) 1000) by (apply Hs; lia).
  rewrite Hs by lia. f_equal. lia.
Qed.

(** The expiration of a form, for a number of days and a time that doubles hold. *)
Lemma expires_at_int v d now :
  int_literal (trim (expirationDays v)) d → 0 <= d <= 100000 → 0 <= now <= 10 ^ 15 →
  expires_at v now = Some (toISOString (now + d * 86400000)).
Proof.
  intros Hd Hr Hn. unfold expires_at. rewrite (js_Number_trim_int _ _ Hd).
  apply date_iso_int; [|unfold MAX_TIME; lia].
  rewrite (num_add_int _ _ now (d * 86400000)).
  - apply num_of_Z_safe. unfold MAX_SAFE_INTEGER. lia.
  - apply num_of_Z_safe. unfold MAX_SAFE_INTEGER. lia.
  - apply DAY_product. unfold MAX_SAFE_INTEGER. lia.
Qed.

Definition form_policy (v : view) (e : jsstr) : CreateAPIClientInput :=
  {| cac_name := trim (name v); cac_scopes := scopes v;
     cac_rpm_limit := default 0 (num_int (js_Number (rpmLimit v))); cac_expires_at := e |}.

(** Bodies that differ in their expiration have different fingerprints. *)
Lemma body_print v e e' :
  Forall unit16 (trim (name v)) → Forall (Forall unit16) (scopes v) → Forall unit16 e → Forall unit16 e' →
  stringify (client_body (form_policy v e)) = stringify (client_body (form_policy v e')) → e = e'.
Proof.
  intros Hn Hs He He' E. apply stringify_inj in E; [by injection E|..]; clear E.
  all: apply json_ok_obj; repeat (apply Forall_cons_2; [split; cbn [fst snd]|]); try apply Forall_nil_2.
  all: try (repeat constructor; unfold unit16; lia); try done.
  all: apply json_ok_arr, Forall_forall; intros x (s & -> & Hin)%list_elem_of_fmap;
    rewrite Forall_forall in Hs; by apply Hs.
Qed.
(** The last attempt's key was drawn before. *)
Definition attempt_ok (w : world) : Prop := ref_ok uuid (w_createAttempt w) (w_entropy w).

Definition keeps_attempt (x : action) : bool :=
  match x with CreateAttempt (Some _) | Draw _ => false | _ => true end.

Lemma attempt_kept w xs : forallb keeps_attempt xs = true → attempt_ok w → attempt_ok (performs w xs).
Proof.
  revert w. induction xs as [|x xs IH]; intros w; [done|]. cbn [forallb].
  intros [Hq Hxs]%andb_true_iff Hr. apply (IH (perform w x) Hxs). by destruct x as [|[]| | | | | | | | |].
Qed.

Lemma ref_ok_later ref e e' : (drawn e <= drawn e')%nat → ref_ok uuid ref e → ref_ok uuid ref e'.
Proof. intros He Hr a Ha. destruct (Hr a Ha) as (n & Hn & E). exists n. split; [lia|done]. Qed.

Lemma stable_ref_ok ref b e :
  ref_ok uuid ref e → let r := stableIdempotencyKey uuid ref b e in ref_ok uuid r.1.2 r.2 ∧ (drawn e <= drawn r.2)%nat.
Proof.
  intros Hr. destruct (stable_cases uuid ref b e) as [(a & -> & _ & ->)|[_ ->]]; [by split|].
  split; [|cbn; lia]. intros a [= <-]. exists (drawn e). split; [cbn; lia|done].
Qed.

Lemma visited_attempt w : visited uuid l manage w → attempt_ok w.
Proof.
  induction 1 as [e now|w e Hw IH]; [done|]. unfold page_step. destruct e; cbn [handle];
    unfold guarded, with_pending; try case_cond; try done; try (apply attempt_kept; done).
  - unfold rotate. pose proof (stable_ref_ok None (rotation_attempt c) (w_entropy w)) as _.
    set (ref := default None _). destruct (stable_cases uuid ref (rotation_attempt c) (w_entropy w))
      as [(a & _ & _ & ->)|[_ ->]]; [done|]. eapply ref_ok_later, IH. cbn. lia.
  - unfold removeClient. case_match; by apply attempt_kept.
  - unfold create. repeat (case_cond; [done|]). destruct (policy _ _) as [p|]; [|done].
    destruct (editingClient _); [done|].
    destruct (stable_ref_ok _ (client_body p) _ IH) as [Hr _].
    destruct (stableIdempotencyKey _ _ _ _) as [[k ref] e]. exact Hr.
  - unfold changeDialogOpen. case_cond; [done|]. destruct nextOpen; by apply attempt_kept.
  - case_match; [|done]. apply attempt_kept; [|done]. by destruct a, r.
  - case_match; [|done]. apply attempt_kept; [|done]. by destruct a as [| |[]| | | | | | | |].
  - case_match; [|done]. apply attempt_kept; [|done]. by destruct a, b.
Qed.

Lemma enabled_create w p e :
  form_shown (w_view w) && can_submit (w_view w) = true → editingClient (w_view w) = None →
  isDuplicateAPIClientName (trim (name (w_view w))) (client_name <$> w_clients w) = false →
  policy (w_view w) (w_now w) = Some p →
  stableIdempotencyKey uuid (w_createAttempt w) (client_body p) (w_entropy w) = e →
  page_step uuid l manage w LCreate =
  performs w [Update (setIsCreating true); Update (setError []); Draw e.2; CreateAttempt e.1.2;
              Log (Sent (createAPIClient p e.1.1)); Await await_create].
Proof.
  intros Hg He Hd Hp <-. unfold page_step. cbn [handle]. rewrite Hg. unfold guarded, create.
  bool_to_prop. unfold can_submit in *. bool_to_prop.
  match goal with H : truthy (trim (name (w_view w))) = true |- _ => rewrite H end.
  match goal with H : rpmLimitValid (w_view w) = true |- _ => rewrite H end.
  rewrite Hd, Hp, He. by destruct (stableIdempotencyKey _ _ _ _) as [[? ?] ?].
Qed.

(** A retry draws a key of its own: the first attempt left another fingerprint. *)
Lemma retry_key ref b b' e :
  (∀ n m, uuid n = uuid m → n = m) → ref_ok uuid ref e → stringify b ≠ stringify b' →
  let r := stableIdempotencyKey uuid ref b e in
  r.1.1 ≠ (stableIdempotencyKey uuid r.1.2 b' r.2).1.1.
Proof.
  intros Hu Hr Hb. cbv zeta.
  destruct (stable_cases uuid ref b e) as [(a & -> & Hf & ->)|[_ ->]]; cbn [fst snd].
  - destruct (stable_cases uuid (Some a) b' e) as [(a' & [= <-] & Hf' & _)|[_ ->]]; [congruence|].
    cbn. destruct (Hr a eq_refl) as (n & Hn & ->). intros E%Hu. lia.
  - set (a := {| fingerprint := _; key := _ |}). set (e' := {| drawn := _ |}).
    destruct (stable_cases uuid (Some a) b' e') as [(a' & [= <-] & Hf' & _)|[_ ->]]; [done|].
    cbn. intros E%Hu. lia.
Qed.
(** Retrying a creation never repeats its key: the payload holds the expiration, computed from the
    clock at each submission, so when a creation fails (the answer lost, for instance) and the same
    form is submitted again at a later time, the second request carries another key, and the server
    cannot tell it from a new client. *)
Theorem creation_retry_key w err now' d :
  (∀ n m, uuid n = uuid m → n = m) → visited uuid l manage w →
  form_shown (w_view w) && can_submit (w_view w) = true → editingClient (w_view w) = None →
  isDuplicateAPIClientName (trim (name (w_view w))) (client_name <$> w_clients w) = false →
  int_literal (trim (expirationDays (w_view w))) d → 0 <= d <= 100000 →
  0 <= w_now w < now' → now' <= 10 ^ 15 →
  iso_range (w_now w + d * 86400000) → iso_range (now' + d * 86400000) →
  Forall unit16 (trim (name (w_view w))) → Forall (Forall unit16) (scopes (w_view w)) →
  ∃ p k p' k',
    w_log (run_page uuid l manage w [LCreate; LReply (w_next w) (Err err); LClock now'; LCreate])
    = w_log w ++ [Sent (createAPIClient p k); Sent (createAPIClient p' k')] ∧
    cac_name p' = cac_name p ∧ cac_scopes p' = cac_scopes p ∧ cac_rpm_limit p' = cac_rpm_limit p ∧ k ≠ k'.
Proof.
  intros Hu Hv Hg He Hdup Hd Hr Hn Hn' Hi Hi' Hname Hsc.
  set (v := w_view w). set (p := form_policy v (toISOString (w_now w + d * 86400000))).
  set (p' := form_policy v (toISOString (now' + d * 86400000))).
  assert (Hp : policy v (w_now w) = Some p)
    by (unfold policy; rewrite (expires_at_int v d) by (done || lia); done).
  assert (Hp' : policy v now' = Some p')
    by (unfold policy; rewrite (expires_at_int v d) by (done || lia); done).
  assert (Hb : stringify (client_body p) ≠ stringify (client_body p')).
  { assert (Ha : ∀ t, iso_range t → Forall unit16 (toISOString t))
      by (intros t Ht; eapply Forall_impl; [by apply toISOString_ascii|unfold unit16; cbn; lia]).
    intros E%body_print; auto. apply toISOString_inj in E; [lia|done..]. }
  pose proof (retry_key _ _ _ _ Hu (visited_attempt w Hv) Hb) as Hk.
  exists p, (stableIdempotencyKey uuid (w_createAttempt w) (client_body p) (w_entropy w)).1.1, p'.
  eexists. split; [|split_and!; [done..|exact Hk]].
  cbn [run_page fold_left]. rewrite (enabled_create w p _ Hg He Hdup Hp eq_refl).
  set (r := stableIdempotencyKey uuid (w_createAttempt w) (client_body p) (w_entropy w)).
  set (w1 := performs w _).
  assert (E2 : page_step uuid l manage w1 (LReply (w_next w) (Err err))
               = performs w1 (create_failed l err ++ [Return (w_next w)])).
  { unfold page_step. cbn [handle]. unfold with_pending. cbn. by rewrite lookup_insert_eq. }
  rewrite E2. clear E2. set (w3 := page_step uuid l manage (performs w1 _) (LClock now')).
  rewrite (enabled_create w3 p' (stableIdempotencyKey uuid r.1.2 (client_body p') r.2)); [|try done..].
  2:{ bool_to_prop. unfold form_shown, can_submit in *. bool_to_prop. cbn. rewrite !andb_true_iff, !negb_true_iff. done. }
  cbn. by rewrite <- app_assoc.
Qed.
End retry.

(** ** Witnesses *)

Lemma submitted_policies_witness :
  ∃ p k, Sent (createAPIClient p k) ∈ w_log (demo_page (fill_form ++ [LCreate])) ∧
         cac_name p = "portal" ∧ policy_ok p.
Proof.
  eexists _, _. split; [vm_compute; by left|]. split; [reflexivity|].
  apply (@submitted_policies ascii_case_map demo_dates demo_uuid en_US true
           (demo_page (fill_form ++ [LCreate]))); [apply clients_demo_visited|].
  left. eexists. vm_compute. by left.
Defined.

Lemma rotation_keys_witness :
  w_log (demo_page [LRotate (demo_client "c1" "billing"); LReply 0 (Err (ApiTimeoutError 15000));
                    LRotate (demo_client "c1" "billing")])
  = [] ++ Sent (rotateAPIClient "c1" 300 (demo_uuid 0)) :: [] ++
    Sent (rotateAPIClient "c1" 300 (demo_uuid 0)) :: [] ∧
  (demo_uuid 0 = demo_uuid 0 ↔ ("c1" : jsstr) = "c1" ∧ Forgot "c1" ∉ []).
Proof.
  split; [vm_compute; reflexivity|].
  apply (@rotation_keys ascii_case_map demo_dates demo_uuid en_US true
    (demo_page [LRotate (demo_client "c1" "billing"); LReply 0 (Err (ApiTimeoutError 15000));
                LRotate (demo_client "c1" "billing")]) [] "c1" 300 _ [] "c1" 300 _ []);
    [apply demo_uuid_fresh|apply clients_demo_visited|vm_compute; reflexivity].
Defined.







Lemma edit_same_name_refused_witness :
  w_log (@page_step ascii_case_map demo_dates demo_uuid en_US true
    (@run_page ascii_case_map demo_dates demo_uuid en_US true (demo_page [])
      [LStartEdit (demo_client "c1" "billing"); LRpm "600"]) LCreate) = [].
Proof.
  apply (@edit_same_name_refused ascii_case_map demo_dates demo_uuid en_US true (demo_page [])
           (demo_client "c1" "billing") [LRpm "600"]); vm_compute; try done.
  - by left.
  - by constructor.
Defined.

Lemma creation_retry_key_witness :
  ∃ p k p' k',
    w_log (@run_page ascii_case_map demo_dates demo_uuid en_US true (demo_page fill_form)
      [LCreate; LReply 0 (Err (ApiTimeoutError 15000)); LClock 1715600020000; LCreate])
    = [] ++ [Sent (createAPIClient p k); Sent (createAPIClient p' k')] ∧
    cac_name p' = cac_name p ∧ cac_scopes p' = cac_scopes p ∧ cac_rpm_limit p' = cac_rpm_limit p ∧ k ≠ k'.
Proof.
  apply (@creation_retry_key ascii_case_map demo_dates demo_uuid en_US true (demo_page fill_form)
           (ApiTimeoutError 15000) 1715600020000 90);
    [apply demo_uuid_fresh|apply clients_demo_visited|try (vm_compute; reflexivity)..].
  all: try (vm_compute; intuition discriminate).
  - exists false, "90". split_and!; [reflexivity|done|by repeat constructor|reflexivity].
  - repeat constructor; cbn; lia.
  - repeat constructor; cbn; lia.
Defined.

(** Two tokens at once: a rotation is answered while the form of a new client is being submitted, its
    token is shown in the dialog, and the answer of the creation replaces it before it is copied. *)
Example rotated_token_replaced :
  let rotating := [LRotate (demo_client "c1" "billing"); LStart; LName "portal"; LCreate;
                   LReply 0 (Ok "rotated"); LInvalidated 0] in
  token (w_view (demo_page rotating)) = "rotated" ∧
  token (w_view (demo_page (rotating ++ [LDialog false]))) = "rotated" ∧
  token (w_view (demo_page (rotating ++ [LReply 1 (Ok "created")]))) = "created".
Proof. vm_compute. auto. Qed.
