(* ===== verification/Async.v ===== *)
(** * Handlers that wait

    The pages' handlers are [async] functions: they set React state, write refs, call the API and
    go on when the answer arrives, whatever has happened to the page meanwhile.  [io] is such a
    function as a tree of its effects; [machine] is a page with the handlers that are waiting, run
    from one [await] to the next by events and replies in any order.  The rules of [wp] prove what
    holds at every [await] and after every reply of a page. *)
From Stdlib Require Import ZArith Lia List.
From stdpp Require Import base list sets gmap.
From S2P Require Import Json Idempotency Types Api ApiCalls Query Prelude.

(** ** What a handler awaits *)

(** What a call of [api] resolves to; those the client leaves untyped carry nothing. *)
Definition api_answer (a : api_call) : Type :=
  match a with
  | overview => Types.Overview
  | listTenants => list Tenant
  | getTenant _ | createTenant _ _ _ | updateTenant _ _ _ _ => Tenant
  | listDomains _ => list TenantDomain
  | updateDomain _ _ _ => TenantDomain
  | listTenantResources _ _ => list TenantResource
  | listDefinitions => list Definition_
  | getDefinition _ => DefinitionDetail
  | createDefinition _ _ _ _ | updateDefinition _ _ _ => Definition_
  | updateDefinitionField _ _ _ _ => Field
  | listAPIClients => list ApiClient
  | createAPIClient _ _ | rotateAPIClient _ _ _ => ApiClient * jsstr
  | updateAPIClient _ _ | revokeAPIClient _ => ApiClient
  | getAPIClientUsage _ _ _ | listAPIClientUsage _ _ => list APIClientUsageRecord
  | listAuditEvents _ => AdminAuditPage
  | getAuditHealth => AuditHealth
  | createAuditExport _ _ _ | getAuditExport _ => AuditExportJob
  | listAuditLegalHolds => list AuditLegalHold
  | createAuditLegalHold _ _ _ => jsstr
  | getSettings | updateSettings _ _ => AdminSettingsSnapshot
  | listAdminSessions => list AdminSessionView
  | revokeAdminPrincipalSessions _ _ => Z
  | listWebhookTargets => list WebhookTarget
  | createWebhookTarget _ _ _ => CreatedWebhookTarget
  | listWebhookDeliveries _ => list WebhookDelivery
  | getWebhookOverview => WebhookOverview
  | getOperationalHealth => OperationalHealth
  | _ => unit
  end.

(** A call rejects or resolves; the cache's commands, the router's navigation and the clipboard
    helper do not reject. *)
Inductive request :=
  | Call (a : api_call)
  | Download (id : jsstr)             (* [downloadAuditExport] *)
  | Cache (commands : list command)
  | Navigate (to : jsstr)
  | WriteClipboard (text : jsstr).

Definition reply (q : request) : Type :=
  match q with
  | Call a => result api_exn (api_answer a)
  | Download _ => result api_exn unit
  | Cache _ | Navigate _ => unit
  | WriteClipboard _ => bool
  end.

(** Effects nobody waits for. *)
Inductive effect :=
  | Toast (text : jsstr)
  | SaveFile (name : jsstr)           (* a download started by a link *)
  | Started (q : request).            (* a promise that is not awaited *)

Section async.
Context {V U : Type} (apply_update : U → V → V).

(** [V] is the component's React state, its refs and the data of its queries. *)
Record page := { p_view : V; p_entropy : entropy; p_log : list effect }.

Inductive act := Update (u : U) | Draw (e : entropy) | Tell (x : effect).

Definition perform (s : page) (x : act) : page := {|
  p_view := match x with Update u => apply_update u (p_view s) | _ => p_view s end;
  p_entropy := match x with Draw e => e | _ => p_entropy s end;
  p_log := match x with Tell e => p_log s ++ [e] | _ => p_log s end |}.

(** ** Handlers *)

(** [Look] reads what is current when it runs: refs and the entropy.  The state a handler closes
    over is an argument of its definition. *)
Inductive io (A : Type) : Type :=
  | Ret (a : A)
  | Throw (e : api_exn)
  | Do (x : act) (k : io A)
  | Look (k : page → io A)
  | Await (q : request) (k : reply q → io A).

Arguments Ret {A} a.
Arguments Throw {A} e.
Arguments Do {A} x k.
Arguments Look {A} k.
Arguments Await {A} q k.

Fixpoint io_bind {A B} (f : A → io B) (m : io A) : io B :=
  match m with
  | Ret a => f a
  | Throw e => Throw e
  | Do x k => Do x (io_bind f k)
  | Look k => Look (λ s, io_bind f (k s))
  | Await q k => Await q (λ r, io_bind f (k r))
  end.

(** [try { m } catch (e) { h(e) }] *)
Fixpoint try_catch {A} (m : io A) (h : api_exn → io A) : io A :=
  match m with
  | Ret a => Ret a
  | Throw e => h e
  | Do x k => Do x (try_catch k h)
  | Look k => Look (λ s, try_catch (k s) h)
  | Await q k => Await q (λ r, try_catch (k r) h)
  end.

(** [try { m } finally { f }] *)
Fixpoint try_finally {A} (m : io A) (f : io unit) : io A :=
  match m with
  | Ret a => io_bind (λ _, Ret a) f
  | Throw e => io_bind (λ _, Throw e) f
  | Do x k => Do x (try_finally k f)
  | Look k => Look (λ s, try_finally (k s) f)
  | Await q k => Await q (λ r, try_finally (k r) f)
  end.

Fixpoint set_all (us : list U) : io unit :=
  match us with [] => Ret tt | u :: us => Do (Update u) (set_all us) end.

Definition tell (x : effect) : io unit := Do (Tell x) (Ret tt).
Definition toast (text : jsstr) : io unit := tell (Toast text).

Definition from_result {A} (r : result api_exn A) : io A :=
  match r with Ok a => Ret a | Err e => Throw e end.

(** [await api.…] *)
Definition call (a : api_call) : io (api_answer a) := Await (Call a) from_result.

Fixpoint cache (groups : list (list command)) : io unit :=
  match groups with [] => Ret tt | g :: gs => Await (Cache g) (λ _, cache gs) end.

(** What is rendered, or enabled, on a condition; what is rendered of a value that is there. *)
Definition when (b : bool) (m : io unit) : io unit := if b then m else Ret tt.
Definition with_some {A} (o : option A) (f : A → io unit) : io unit :=
  match o with Some a => f a | None => Ret tt end.

(** [useMutation(…).mutateAsync(…)]: the call, then [onSuccess]; [pending] sets what the
    component reads as [isPending], and has nothing in it where nothing reads it. *)
Definition mutateAsync {A} (pending : bool → list U) (m : io A) (onSuccess : A → io unit) : io A :=
  io_bind (λ _, try_finally (io_bind (λ a, io_bind (λ _, Ret a) (onSuccess a)) m)
                            (set_all (pending false)))
    (set_all (pending true)).

(** The key of a creating call: [stableIdempotencyKey(ref, payload)]. *)
Definition keyed (uuid : nat → jsstr) (ref : V → option attempt) (set_ref : option attempt → U)
    (payload : json) : io jsstr :=
  Look (λ s,
    let '(key, ref', e) := stableIdempotencyKey uuid (ref (p_view s)) payload (p_entropy s) in
    Do (Draw e) (Do (Update (set_ref ref')) (Ret key))).

(** [useMutation(…).mutate(…)]: nobody awaits it; what it throws is its [error], which the next call
    of it clears. *)
Definition mutate {A} (pending : bool → list U) (error : option api_exn → U) (m : io A)
    (onSuccess : A → io unit) : io unit :=
  Do (Update (error None))
    (try_catch (io_bind (λ _, Ret tt) (mutateAsync pending m onSuccess)) (λ e, set_all [error (Some e)])).

(** [crypto.randomUUID()] *)
Definition randomUUID (uuid : nat → jsstr) : io jsstr :=
  Look (λ s, Do (Draw {| drawn := S (drawn (p_entropy s)) |}) (Ret (uuid (drawn (p_entropy s))))).

(** Every update of a handler, whatever it is answered. *)
Fixpoint only {A} (P : U → Prop) (m : io A) : Prop :=
  match m with
  | Ret _ | Throw _ => True
  | Do x k => match x with Update u => P u | _ => True end ∧ only P k
  | Look k => ∀ s, only P (k s)
  | Await q k => ∀ r, only P (k r)
  end.

(** An update that keeps a part of the state. *)
Definition spares {A} (f : V → A) (u : U) : Prop := ∀ v, f (apply_update u v) = f v.

(** ** Running *)

(** A handler that waits: the event that started it, what it awaits and what follows. *)
Inductive outcome :=
  | Returned
  | Threw (e : api_exn)               (* an unhandled rejection *)
  | Waiting (q : request) (k : reply q → io unit).

(** A handler up to its next [await]. *)
Fixpoint sync (m : io unit) (s : page) : page * outcome :=
  match m with
  | Ret _ => (s, Returned)
  | Throw e => (s, Threw e)
  | Do x k => sync k (perform s x)
  | Look k => sync (k s) s
  | Await q k => (s, Waiting q k)
  end.

Context {E : Type}.

Record thread := { t_event : E; t_request : request; t_rest : reply t_request → io unit }.

Record machine := {
  m_page : page;
  m_threads : gmap nat thread;
  m_next : nat;
  m_sent : list (request * page);     (* what was awaited so far, with the page at that moment *)
  m_thrown : list api_exn;
}.

Definition settle_thread (e : E) (id : nat) (r : page * outcome) (m : machine) : machine := {|
  m_page := r.1;
  m_threads := match r.2 with
               | Waiting q k => <[id := {| t_event := e; t_request := q; t_rest := k |}]> (m_threads m)
               | _ => delete id (m_threads m)
               end;
  m_next := Nat.max (m_next m) (S id);
  m_sent := match r.2 with Waiting q _ => m_sent m ++ [(q, r.1)] | _ => m_sent m end;
  m_thrown := match r.2 with Threw e => m_thrown m ++ [e] | _ => m_thrown m end |}.

Inductive label :=
  | Event (e : E)
  | Reply (id : nat) (r : ∀ q, reply q).

Context (handler : E → page → io unit).

Definition machine_step (m : machine) (l : label) : machine :=
  match l with
  | Event e => settle_thread e (m_next m) (sync (handler e (m_page m)) (m_page m)) m
  | Reply id r =>
    match m_threads m !! id with
    | Some t => settle_thread (t_event t) id (sync (t_rest t (r (t_request t))) (m_page m)) m
    | None => m
    end
  end.

Definition run_machine (m : machine) (ls : list label) : machine := fold_left machine_step ls m.

Definition start_machine (s : page) : machine :=
  {| m_page := s; m_threads := ∅; m_next := 0; m_sent := []; m_thrown := [] |}.

Context (initial : page → Prop).

Inductive reachable : machine → Prop :=
  | reach_start s : initial s → reachable (start_machine s)
  | reach_step m l : reachable m → reachable (machine_step m l).

Lemma reachable_run m ls : reachable m → reachable (run_machine m ls).
Proof. revert m. induction ls as [|l ls IH]; intros m Hm; [done|]. by apply IH, reach_step. Qed.

(** ** Reasoning about every interleaving

    A [spec] is what a page promises whenever no handler runs ([rely]), of the state in which a
    request is awaited ([asks]), of the state an event leaves ([started]) and of the state a reply
    leaves ([resumed]) at the next [await] or at the end. *)
Record spec := {
  rely : page → Prop;
  asks : request → page → Prop;
  started : E → page → page → Prop;
  resumed : ∀ q, reply q → page → page → Prop;
}.

Section spec.
Context (Σ : spec).

(** [C] is what the segment under way owes at its end. *)
Fixpoint wp {A} (C : page → Prop) (Q : (page → Prop) → result api_exn A → page → Prop) (m : io A)
    (s : page) : Prop :=
  match m with
  | Ret a => Q C (Ok a) s
  | Throw e => Q C (Err e) s
  | Do x k => wp C Q k (perform s x)
  | Look k => wp C Q (k s) s
  | Await q k =>
    C s ∧ rely Σ s ∧ asks Σ q s ∧ ∀ r s', rely Σ s' → wp (resumed Σ q r s') Q (k r) s'
  end.

Definition ends : (page → Prop) → result api_exn unit → page → Prop := λ C _ s, C s ∧ rely Σ s.

(** Each handler keeps the promises when it is started where they hold. *)
Definition keeps_spec : Prop := ∀ e s, rely Σ s → wp (started Σ e s) ends (handler e s) s.

(** *** Rules *)

Lemma wp_do {A} (C : page → Prop) Q x (k : io A) s : wp C Q k (perform s x) → wp C Q (Do x k) s.
Proof. done. Qed.

Lemma wp_look {A} (C : page → Prop) Q (k : page → io A) s : wp C Q (k s) s → wp C Q (Look k) s.
Proof. done. Qed.

Lemma wp_mono {A} (C : page → Prop) (Q Q' : (page → Prop) → result api_exn A → page → Prop) m s :
  (∀ D a s', Q D a s' → Q' D a s') → wp C Q m s → wp C Q' m s.
Proof.
  intros HQ. revert C s. induction m as [a|e|x k IH|k IH|q k IH]; intros C s; simpl; eauto.
  intros (? & ? & ? & H). split_and!; eauto.
Qed.

Lemma wp_bind {A B} (C : page → Prop) Q (f : A → io B) m s :
  wp C (λ D r s', match r with Ok a => wp D Q (f a) s' | Err e => Q D (Err e) s' end) m s →
  wp C Q (io_bind f m) s.
Proof.
  revert C s. induction m as [a|e|x k IH|k IH|q k IH]; intros C s; simpl; eauto.
  intros (? & ? & ? & H). split_and!; eauto.
Qed.

Lemma wp_try_catch {A} (C : page → Prop) Q (h : api_exn → io A) m s :
  wp C (λ D r s', match r with Ok a => Q D (Ok a) s' | Err e => wp D Q (h e) s' end) m s →
  wp C Q (try_catch m h) s.
Proof.
  revert C s. induction m as [a|e|x k IH|k IH|q k IH]; intros C s; simpl; eauto.
  intros (? & ? & ? & H). split_and!; eauto.
Qed.

Lemma wp_try_finally {A} (C : page → Prop) Q (f : io unit) (m : io A) s :
  wp C (λ D r s', wp D (λ D' r' s'', Q D' (match r' with Ok _ => r | Err e => Err e end) s'') f s') m s →
  wp C Q (try_finally m f) s.
Proof.
  revert C s. induction m as [a|e|x k IH|k IH|q k IH]; intros C s; simpl; eauto.
  - intros H. apply wp_bind. eapply wp_mono; [|exact H]. intros D [?|?] s'; simpl; done.
  - intros H. apply wp_bind. eapply wp_mono; [|exact H]. intros D [?|?] s'; simpl; done.
  - intros (? & ? & ? & H). split_and!; eauto.
Qed.

(** The conditions of an event. *)
Definition kept (m : io unit) (s : page) : Prop := wp (λ _, True) ends m s.

Lemma keep_ret s : rely Σ s → kept (Ret tt) s.
Proof. by split. Qed.

Lemma keep_when (b : bool) m s : rely Σ s → (b = true → kept m s) → kept (when b m) s.
Proof. intros Hs Hm. destruct b; [by apply Hm|by apply keep_ret]. Qed.

Lemma keep_some {A} (o : option A) f s :
  rely Σ s → (∀ a, o = Some a → kept (f a) s) → kept (with_some o f) s.
Proof. intros Hs Hm. destruct o; [by apply Hm|by apply keep_ret]. Qed.

(** *** What the promises give *)

(** A segment ends where its debt is paid, having asked only what it may. *)
Lemma wp_sync C (m : io unit) s :
  wp C ends m s →
  C (sync m s).1 ∧ rely Σ (sync m s).1 ∧
  match (sync m s).2 with
  | Waiting q k => asks Σ q (sync m s).1 ∧ ∀ r s', rely Σ s' → wp (resumed Σ q r s') ends (k r) s'
  | _ => True
  end.
Proof.
  revert C s. induction m as [a|e|x k IH|k IH|q k IH]; intros C s; simpl; unfold ends; naive_solver.
Qed.

(** The threads that wait owe their promises for every reply. *)
Definition machine_ok (m : machine) : Prop :=
  rely Σ (m_page m) ∧
  (∀ q s, (q, s) ∈ m_sent m → asks Σ q s) ∧
  (∀ id t, m_threads m !! id = Some t →
     ∀ r s', rely Σ s' → wp (resumed Σ (t_request t) r s') ends (t_rest t r) s').

Lemma settle_ok C e id k m :
  machine_ok m → wp C ends k (m_page m) → machine_ok (settle_thread e id (sync k (m_page m)) m).
Proof.
  intros (Hr & Hs & Ht) (_ & Hr' & Hw)%wp_sync. destruct (sync k (m_page m)) as [s [|ex|q k']]; cbn in *.
  1,2: split_and!; cbn; [done|done|]; intros i t [_ Hi]%lookup_delete_Some; by apply (Ht i).
  destruct Hw as [Ha Hw]. split_and!; cbn; [done| |].
  - intros q0 s0 [H0| [= -> ->]%list_elem_of_singleton]%elem_of_app; auto.
  - intros i t. rewrite lookup_insert. case_decide; [by intros [= <-]|]. apply Ht.
Qed.

Context (Hinit : ∀ s, initial s → rely Σ s) (Hkeep : keeps_spec).

Lemma reachable_ok m : reachable m → machine_ok m.
Proof using Hinit Hkeep.
  induction 1 as [s Hs|m l Hm IH].
  - split_and!; cbn; [auto|intros q s' []%elem_of_nil|intros id t Ht; by rewrite lookup_empty in Ht].
  - destruct l as [e|id r]; cbn.
    + eapply settle_ok; [done|]. apply Hkeep, IH.
    + destruct (m_threads m !! id) as [t|] eqn:Et; [|done].
      eapply settle_ok; [done|]. destruct IH as (Hr & _ & Ht). by apply (Ht id).
Qed.

Lemma reachable_rely m : reachable m → rely Σ (m_page m).
Proof using Hinit Hkeep. intros (? & _)%reachable_ok. done. Qed.

Lemma reachable_asks m q s : reachable m → (q, s) ∈ m_sent m → asks Σ q s.
Proof using Hinit Hkeep. intros (_ & H & _)%reachable_ok. apply H. Qed.

Lemma reachable_started m e :
  reachable m → started Σ e (m_page m) (m_page (machine_step m (Event e))).
Proof using Hinit Hkeep. intros (Hr & _)%reachable_ok. apply (wp_sync _ _ _ (Hkeep e _ Hr)). Qed.

Lemma reachable_resumed m id t (r : ∀ q, reply q) :
  reachable m → m_threads m !! id = Some t →
  resumed Σ (t_request t) (r (t_request t)) (m_page m) (m_page (machine_step m (Reply id r))).
Proof using Hinit Hkeep.
  intros (Hr & _ & Ht)%reachable_ok E0. cbn. rewrite E0. cbn.
  apply (wp_sync _ _ _ (Ht id t E0 (r (t_request t)) _ Hr)).
Qed.
End spec.

(** ** Every handler ends *)

(** Answering the requests of one thread, as often as it asks. *)
Fixpoint answer_all (n : nat) (id : nat) (r : ∀ q, reply q) (m : machine) : machine :=
  match n with O => m | S n => answer_all n id r (machine_step m (Reply id r)) end.

(** The longest chain of [await]s of a handler, for any replies and states. *)
Fixpoint awaits_within (n : nat) (m : io unit) : Prop :=
  match m with
  | Ret _ | Throw _ => True
  | Do _ k => awaits_within n k
  | Look k => ∀ s, awaits_within n (k s)
  | Await q k => match n with O => False | S n => ∀ r, awaits_within n (k r) end
  end.

Lemma awaits_within_sync n m s :
  awaits_within n m →
  match (sync m s).2 with
  | Waiting q k => ∃ n', n = S n' ∧ ∀ r, awaits_within n' (k r)
  | _ => True
  end.
Proof.
  revert s. induction m as [| |? ? IH|? IH|]; intros s; simpl; auto; [apply IH|intros Hm; by apply IH|].
  destruct n; [done|]. eauto.
Qed.

Lemma answer_all_none n id r m : m_threads m !! id = None → answer_all n id r m = m.
Proof. induction n as [|n IH]; [done|]. intros Hm. cbn. rewrite Hm. by apply IH. Qed.

Lemma reply_thread n id (r : ∀ q, reply q) m t :
  m_threads m !! id = Some t → (∀ r', awaits_within n (t_rest t r')) →
  m_threads (machine_step m (Reply id r)) !! id = None ∨
  ∃ t' n', n = S n' ∧ m_threads (machine_step m (Reply id r)) !! id = Some t' ∧
           ∀ r', awaits_within n' (t_rest t' r').
Proof.
  intros Et Ht. pose proof (awaits_within_sync _ _ (m_page m) (Ht (r (t_request t)))) as Hw.
  cbn. rewrite Et. cbn. destruct (sync (t_rest t (r (t_request t))) (m_page m)) as [s [|ex|q k]]; cbn in *;
    rewrite ?lookup_delete_eq; [by left|by left|right].
  destruct Hw as (n' & -> & Hw). eexists _, n'. split_and!; [done|apply lookup_insert_eq|done].
Qed.

Lemma answer_all_ends n id (r : ∀ q, reply q) m t :
  m_threads m !! id = Some t → (∀ r', awaits_within n (t_rest t r')) →
  m_threads (answer_all (S n) id r m) !! id = None.
Proof.
  revert m t. induction n as [|n IH]; intros m t Et Ht;
    change (answer_all (S ?k) id r m) with (answer_all k id r (machine_step m (Reply id r)));
    destruct (reply_thread _ _ r _ _ Et Ht) as [Hn|(t' & n' & En & Et' & Ht')].
  - done.
  - done.
  - by rewrite answer_all_none.
  - injection En as <-. by apply (IH _ t').
Qed.

Lemma answer_all_reachable n id (r : ∀ q, reply q) m : reachable m → reachable (answer_all n id r m).
Proof. revert m. induction n as [|n IH]; intros m Hm; [done|]. by apply IH, reach_step. Qed.

Lemma answer_all_others n id (r : ∀ q, reply q) m i :
  i ≠ id → m_threads (answer_all n id r m) !! i = m_threads m !! i.
Proof.
  revert m. induction n as [|n IH]; intros m Hi; [done|].
  change (answer_all (S n) id r m) with (answer_all n id r (machine_step m (Reply id r))).
  rewrite IH by done. cbn. destruct (m_threads m !! id) as [t|]; [|done]. cbn.
  destruct (sync _ _).2; by rewrite ?lookup_delete_ne, ?lookup_insert_ne.
Qed.

(** A thread answered step by step. *)
Lemma reply_waiting id (r : ∀ q, reply q) e s q k m :
  machine_step (settle_thread e id (s, Waiting q k) m) (Reply id r) =
  settle_thread e id (sync (k (r q)) s) (settle_thread e id (s, Waiting q k) m).
Proof. cbn. by rewrite lookup_insert_eq. Qed.

Lemma answer_waiting n id (r : ∀ q, reply q) e s q k m :
  answer_all (S n) id r (settle_thread e id (s, Waiting q k) m) =
  answer_all n id r (settle_thread e id (sync (k (r q)) s) (settle_thread e id (s, Waiting q k) m)).
Proof. cbn [answer_all]. by rewrite reply_waiting. Qed.

Lemma answer_returned n id (r : ∀ q, reply q) e s m :
  answer_all n id r (settle_thread e id (s, Returned) m) = settle_thread e id (s, Returned) m.
Proof. apply answer_all_none. cbn. apply lookup_delete_eq. Qed.

(** The threads of a kind whose handlers await a bounded number of times. *)
Definition all_within (mine : E → bool) n (m : machine) : Prop :=
  ∀ id t, m_threads m !! id = Some t → mine (t_event t) = true → ∀ r, awaits_within n (t_rest t r).

Lemma awaits_within_S k m : awaits_within k m → awaits_within (S k) m.
Proof.
  revert k. induction m as [| |? ? IH|? IH|? ? IH]; intros j; cbn; auto.
  destruct j as [|j]; [done|]. intros Hk r. by apply IH.
Qed.

Lemma settle_within mine n e id k m :
  (mine e = true → awaits_within (S n) k) → all_within mine n m →
  all_within mine n (settle_thread e id (sync k (m_page m)) m).
Proof.
  intros Hk Hm id' t. cbn. destruct (sync k (m_page m)).2 as [|ex|q k'] eqn:Es;
    [intros [_ ?]%lookup_delete_Some; by apply (Hm id')..|].
  rewrite lookup_insert. case_decide; [|apply Hm]. intros [= <-] Me r. cbn in *.
  specialize (Hk Me). apply (awaits_within_sync _ _ (m_page m)) in Hk. rewrite Es in Hk.
  destruct Hk as (n' & [= <-] & Hk). apply Hk.
Qed.

Lemma threads_within mine n m :
  (∀ e s, mine e = true → awaits_within (S n) (handler e s)) → reachable m → all_within mine n m.
Proof.
  intros Hn. induction 1 as [s Hs|m l Hm IH]; [by intros id t Ht; cbn in Ht; by rewrite lookup_empty in Ht|].
  destruct l as [e|id r]; cbn; [apply settle_within; auto|].
  destruct (m_threads m !! id) as [t|] eqn:Et; [|done].
  apply settle_within; [|done]. intros Me. by apply awaits_within_S, (IH id).
Qed.

(** ** Flags that are up while a call is under way *)

Section flag.
Context (flag : page → bool) (mine : E → bool).

(** The flag is up at each [await] and down at the end; others leave it alone. *)
Fixpoint holds_flag (m : io unit) (s : page) : Prop :=
  match m with
  | Ret _ | Throw _ => flag s = false
  | Do x k => holds_flag k (perform s x)
  | Look k => holds_flag (k s) s
  | Await q k => flag s = true ∧ ∀ r s', flag s' = true → holds_flag (k r) s'
  end.

Lemma holds_do x k s : holds_flag k (perform s x) → holds_flag (Do x k) s.
Proof. done. Qed.

Lemma holds_look k s : holds_flag (k s) s → holds_flag (Look k) s.
Proof. done. Qed.

Fixpoint leaves_flag (b : bool) (m : io unit) (s : page) : Prop :=
  match m with
  | Ret _ | Throw _ => flag s = b
  | Do x k => leaves_flag b k (perform s x)
  | Look k => leaves_flag b (k s) s
  | Await q k => flag s = b ∧ ∀ r s', leaves_flag (flag s') (k r) s'
  end.

(** A handler that goes no further than its guards. *)
Definition idles (m : io unit) (s : page) : Prop :=
  flag (sync m s).1 = flag s ∧ match (sync m s).2 with Waiting _ _ => False | _ => True end.

Definition holds_call : Prop :=
  ∀ e s, if mine e then idles (handler e s) s ∨ (flag s = false ∧ holds_flag (handler e s) s)
         else leaves_flag (flag s) (handler e s) s.

Lemma holds_flag_sync m s :
  holds_flag m s →
  match (sync m s).2 with
  | Waiting q k => flag (sync m s).1 = true ∧ ∀ r s', flag s' = true → holds_flag (k r) s'
  | _ => flag (sync m s).1 = false
  end.
Proof. revert s. induction m as [| |? ? IH|? IH|]; intros s; simpl; auto; apply IH. Qed.

Lemma leaves_flag_sync b m s :
  leaves_flag b m s →
  flag (sync m s).1 = b ∧
  match (sync m s).2 with
  | Waiting q k => ∀ r s', leaves_flag (flag s') (k r) s'
  | _ => True
  end.
Proof. revert s. induction m as [| |? ? IH|? IH|]; intros s; simpl; auto; apply IH. Qed.

(** A handler whose updates all keep the flag leaves it alone. *)
Lemma leaves_flag_only (f : V → bool) m s :
  (∀ s', flag s' = f (p_view s')) → only (spares f) m → leaves_flag (flag s) m s.
Proof.
  intros Hf. revert s. induction m as [a|e|x k IH|k IH|q k IH]; intros s; cbn [only leaves_flag].
  - done.
  - done.
  - intros [Hu Hk]. replace (flag s) with (flag (perform s x)); [by apply IH|].
    rewrite !Hf. destruct x; [apply Hu|done..].
  - intros Hk. by apply IH.
  - intros Hk. split; [done|]. intros r s'. by apply IH.
Qed.

Definition flag_ok (m : machine) : Prop :=
  slot (mine ∘ t_event) (flag (m_page m)) (m_threads m) ∧
  (∀ id, (m_next m <= id)%nat → m_threads m !! id = None) ∧
  ∀ id t, m_threads m !! id = Some t →
    if mine (t_event t) then ∀ r s', flag s' = true → holds_flag (t_rest t r) s'
    else ∀ r s', leaves_flag (flag s') (t_rest t r) s'.

Lemma settle_fresh e id r m :
  (∀ i, (m_next m <= i)%nat → m_threads m !! i = None) →
  ∀ i, (m_next (settle_thread e id r m) <= i)%nat → m_threads (settle_thread e id r m) !! i = None.
Proof.
  intros H i Hi. cbn in *. assert (id ≠ i) as Hne by lia. specialize (H i ltac:(lia)).
  destruct r.2; rewrite ?lookup_delete_ne, ?lookup_insert_ne by done; done.
Qed.

Lemma settle_threads_ok e id k m :
  flag_ok m →
  (if mine e then holds_flag k (m_page m) else leaves_flag (flag (m_page m)) k (m_page m)) →
  ∀ i t, m_threads (settle_thread e id (sync k (m_page m)) m) !! i = Some t →
    if mine (t_event t) then ∀ r s', flag s' = true → holds_flag (t_rest t r) s'
    else ∀ r s', leaves_flag (flag s') (t_rest t r) s'.
Proof.
  intros (_ & _ & Ht) Hk i t. cbn.
  destruct (mine e) eqn:Em; [apply holds_flag_sync in Hk|apply leaves_flag_sync in Hk as [_ Hk]];
    destruct (sync k (m_page m)).2 as [|ex|q k']; cbn;
    rewrite ?lookup_delete_Some; try (intros [_ ?]; by apply (Ht i));
    rewrite lookup_insert; (case_decide; [intros [= <-]; cbn; rewrite Em|apply Ht]); try apply Hk.
Qed.

(** A thread of a kind takes its place in the slot, or gives it up. *)
Lemma mine_settle e id k m :
  flag_ok m → mine e = true → holds_flag k (m_page m) →
  (flag (m_page m) = false ∧ id = m_next m ∨ ∃ t, m_threads m !! id = Some t ∧ mine (t_event t) = true) →
  flag_ok (settle_thread e id (sync k (m_page m)) m).
Proof.
  intros Hok Em Hk Hid. split_and!; [|by apply settle_fresh; destruct Hok as (_ & ? & _)|].
  2: { apply settle_threads_ok; [done|]. by rewrite Em. }
  destruct Hok as (Hs & Hf & _). apply holds_flag_sync in Hk. cbn.
  destruct (sync k (m_page m)) as [s [|ex|q k']]; cbn in *; [rewrite Hk|rewrite Hk|destruct Hk as [-> _]].
  - destruct Hid as [[E0 ->]|(t & Et & Mt)]; [|by eapply slot_close].
    rewrite delete_id by (apply Hf; lia). by rewrite E0 in Hs.
  - destruct Hid as [[E0 ->]|(t & Et & Mt)]; [|by eapply slot_close].
    rewrite delete_id by (apply Hf; lia). by rewrite E0 in Hs.
  - destruct Hid as [[E0 ->]|(t & Et & Mt)].
    + apply slot_open; [by rewrite E0 in Hs|done].
    + rewrite (slot_flag _ _ _ _ _ Hs Et Mt) in Hs. by eapply slot_next.
Qed.

Lemma other_settle e id k m :
  flag_ok m → mine e = false → leaves_flag (flag (m_page m)) k (m_page m) →
  (∀ t, m_threads m !! id = Some t → mine (t_event t) = false) →
  flag_ok (settle_thread e id (sync k (m_page m)) m).
Proof.
  intros Hok Em Hk Hid. split_and!; [|by apply settle_fresh; destruct Hok as (_ & ? & _)|].
  2: { apply settle_threads_ok; [done|]. by rewrite Em. }
  destruct Hok as (Hs & Hf & _). apply leaves_flag_sync in Hk as [Hk _]. cbn. rewrite Hk.
  assert (slot (mine ∘ t_event) (flag (m_page m)) (delete id (m_threads m))) as Hd.
  { destruct (m_threads m !! id) as [t|] eqn:Et; [|by rewrite delete_id].
    eapply slot_delete; eauto. }
  destruct (sync k (m_page m)).2 as [|ex|q k']; [done|done|]. by apply slot_insert; eauto.
Qed.

Lemma idle_settle e id k m :
  flag_ok m → idles k (m_page m) → m_threads m !! id = None →
  flag_ok (settle_thread e id (sync k (m_page m)) m).
Proof.
  intros (Hs & Hf & Ht) [Hk Hw] Hid. unfold flag_ok. cbn.
  destruct (sync k (m_page m)).2; [| |done]; rewrite delete_id by done; rewrite Hk;
    (split_and!; [done|intros i ?; apply Hf; lia|done]).
Qed.

Context (Hinit : ∀ s, initial s → flag s = false) (Hcall : holds_call).

(** The flag is up exactly while one call of the kind is under way, and there is at most one. *)
Lemma reachable_flag m : reachable m → flag_ok m.
Proof using Hinit Hcall.
  induction 1 as [s Hs|m l Hm IH].
  - split_and!; cbn; [rewrite Hinit by done; cbn| |]; intros; by rewrite ?lookup_empty in *.
  - destruct l as [e|id r]; cbn.
    + pose proof (proj1 (proj2 IH) (m_next m) (le_n _)) as Hn. specialize (Hcall e (m_page m)).
      destruct (mine e) eqn:Em; [destruct Hcall as [Hi|[Hf Hh]]|].
      * by apply idle_settle.
      * apply mine_settle; auto.
      * apply other_settle; [done..|]. intros t Et. congruence.
    + destruct (m_threads m !! id) as [t|] eqn:Et; [|done].
      pose proof (proj2 (proj2 IH) id t Et) as Ht. destruct (mine (t_event t)) eqn:Em.
      * apply mine_settle; eauto. apply Ht. destruct IH as (Hs & _).
        by apply (slot_flag _ _ _ _ _ Hs Et).
      * apply other_settle; [done..|apply Ht|]. intros t' Et'. congruence.
Qed.

(** While the flag is up one call of the kind waits, and answering it brings the flag down. *)
Definition busy n (m : machine) : Prop :=
  (flag (m_page m) = false → ∀ id t, m_threads m !! id = Some t → mine (t_event t) = false) ∧
  (flag (m_page m) = true →
   ∃ id t, m_threads m !! id = Some t ∧ mine (t_event t) = true ∧
     (∀ j u, m_threads m !! j = Some u → mine (t_event u) = true → j = id) ∧
     ∀ r : ∀ q, reply q, flag (m_page (answer_all n id r m)) = false).

Lemma busy_ends n m :
  (∀ e s, mine e = true → awaits_within (S n) (handler e s)) → reachable m → busy (S n) m.
Proof using Hinit Hcall.
  intros Hn Hm. destruct (reachable_flag m Hm) as (Hs & _ & _).
  split; intros Hf; rewrite Hf in Hs; [exact Hs|]. destruct Hs as [id Hs].
  destruct (proj2 (Hs id) eq_refl) as (t & Et & Mt). exists id, t.
  split_and!; [done..|intros j u Ej Mj; apply Hs; eauto|]. intros r. set (m' := answer_all (S n) id r m).
  assert (reachable m') as Hm' by by apply answer_all_reachable.
  destruct (flag (m_page m')) eqn:Ef; [|done]. exfalso.
  destruct (reachable_flag m' Hm') as (Hs' & _ & _). rewrite Ef in Hs'. destruct Hs' as [j Hs'].
  destruct (proj2 (Hs' j) eq_refl) as (t' & Et' & Mt'). destruct (decide (j = id)) as [->|Hne].
  - subst m'. rewrite (answer_all_ends n id r m t) in Et'; [done..|].
    by apply (threads_within mine n m Hn Hm id t).
  - subst m'. rewrite answer_all_others in Et' by done. apply Hne, Hs. eauto.
Qed.
End flag.

End async.

Arguments Ret {V U A} a.
Arguments Throw {V U A} e.
Arguments Do {V U A} x k.
Arguments Look {V U A} k.
Arguments Await {V U A} q k.

#[global] Instance io_mret {V U} : MRet (@io V U) := λ A, Ret.
#[global] Instance io_mbind {V U} : MBind (@io V U) := λ A B, io_bind.

(** ** Tactics

    They run a handler of a page whose updates are [upd]: its wait-free parts are computed, its
    guards and the replies split; [leaf] is tried on what is left. *)
Create HintDb pages.

#[export] Hint Unfold when with_some : pages.

Ltac run upd leaf :=
  repeat (cbn -[upd];
    lazymatch goal with
    | |- ends _ _ _ _ => split
    | |- wp _ _ _ _ (Do _ _) _ => apply wp_do
    | |- wp _ _ _ _ (Look _) _ => apply wp_look
    | |- context [stableIdempotencyKey ?f ?a ?j ?e] => destruct (stableIdempotencyKey f a j e) as [[? ?] ?]
    | |- wp _ _ _ _ (if ?b then _ else _) _ => destruct b eqn:?
    | |- wp _ _ _ _ (match ?o with Some _ => _ | None => _ end) _ => destruct o eqn:?
    | |- wp _ _ _ _ (let (_, _) := ?p in _) _ => destruct p
    | |- ∀ _ : Async.page, _ => intros ?
    | |- ∀ _ : result _ _, _ => intros [?|?]
    | |- ∀ _ : unit, _ => intros ?
    | |- ∀ _ : bool, _ => intros []
    | |- True => exact I
    | |- _ ∧ _ => split
    | |- ?x = ?x => reflexivity
    | |- true = true → _ => intros _
    | |- false = true → _ => intros [=]
    | |- wp _ _ _ _ _ _ => fail
    | |- ?P → _ => intros ?
    | |- _ => solve [leaf]
    end).

(** The view that updates start from. *)
Ltac base upd v := lazymatch v with upd _ ?v' => base upd v' | _ => v end.

(** The conditions of an event, down to its handlers. *)
Ltac group :=
  repeat lazymatch goal with
  | |- kept _ _ (Ret tt) _ => apply keep_ret; first [assumption|exact I]
  | |- kept _ _ (when _ _) _ => apply keep_when; [first [assumption|exact I]|intros ?]
  | |- kept _ _ (with_some _ _) _ => apply keep_some; [first [assumption|exact I]|intros ? ?]
  | |- kept _ _ (match ?i with Some _ => _ | None => _ end) _ => destruct i
  end.

(** Every update of a handler. *)
Ltac only_run :=
  repeat (autounfold with pages; cbn;
    lazymatch goal with
    | |- context [stableIdempotencyKey ?f ?a ?j ?e] => destruct (stableIdempotencyKey f a j e) as [[? ?] ?]
    | |- only _ (if ?b then _ else _) => destruct b eqn:?
    | |- only _ (set_all (if ?b then _ else _)) => destruct b
    | |- only _ (match ?o with Some _ => _ | None => _ end) => destruct o eqn:?
    | |- only _ (let (_, _) := ?p in _) => destruct p
    | |- ∀ _ : Async.page, _ => intros ?
    | |- ∀ _ : result _ _, _ => intros [?|?]
    | |- ∀ _ : unit, _ => intros ?
    | |- ∀ _ : bool, _ => intros []
    | |- _ ∧ _ => split
    | |- True => exact I
    | |- spares _ _ _ => intros ?; reflexivity
    | |- only _ (match ?x with _ => _ end) => destruct x
    end).

(** A handler that holds a flag. *)
Ltac hold_run upd :=
  repeat (cbn -[upd];
    lazymatch goal with
    | |- holds_flag _ _ (Do _ _) _ => apply holds_do
    | |- holds_flag _ _ (Look _) _ => apply holds_look
    | |- context [stableIdempotencyKey ?f ?a ?j ?e] => destruct (stableIdempotencyKey f a j e) as [[? ?] ?]
    | |- ∀ _ : Async.page, _ => intros ?
    | |- ∀ _ : result _ _, _ => intros [?|?]
    | |- ∀ _ : unit, _ => intros ?
    | |- ∀ _ : bool, _ => intros []
    | |- _ = true → _ => intros ?
    | |- _ ∧ _ => split
    | |- _ = _ => first [assumption|reflexivity]
    end).

(** A handler whose conditions fail. *)
Ltac refused := left; split; reflexivity.

(** How often a handler waits. *)
Ltac within_run :=
  repeat (autounfold with pages; cbn;
    lazymatch goal with
    | |- context [stableIdempotencyKey ?f ?a ?j ?e] => destruct (stableIdempotencyKey f a j e) as [[? ?] ?]
    | |- awaits_within _ (if ?b then _ else _) => destruct b
    | |- awaits_within _ (match ?o with Some _ => _ | None => _ end) => destruct o
    | |- awaits_within _ (let (_, _) := ?p in _) => destruct p
    | |- ∀ _ : Async.page, _ => intros ?
    | |- ∀ _ : result _ _, _ => intros [?|?]
    | |- ∀ _ : unit, _ => intros ?
    | |- ∀ _ : bool, _ => intros []
    | |- _ ∧ _ => split
    | |- True => exact I
    end).

(** Steps of the machine, with the states named by their updates. *)
Ltac sim upd := cbn -[upd answer_all settle_thread].

(** ** Replies for concrete runs *)

Definition host_failure : api_exn := HostError BodyError.

Definition refuse (q : request) : reply q :=
  match q with
  | Call _ => Err host_failure | Download _ => Err host_failure
  | Cache _ => tt | Navigate _ => tt | WriteClipboard _ => false
  end.

(** Calls that bring nothing back go through. *)
Definition accept (q : request) : reply q.
Proof.
  destruct q as [a|i|c|to|text]; [|exact (Ok tt)|exact tt|exact tt|exact true].
  destruct a; first [exact (Ok tt)|exact (Err host_failure)].
Defined.
