(* ===== verification/TenantPage.v ===== *)
(** * The tenant page

    [src/web/src/routes/tenant-detail/-components/page.tsx]: the page of one tenant, with its
    resources, their secret values, its domains and its deletion.  [view] is the React state, the
    refs, the data of the queries and the reveal hook ([Reveal.world]); each function of the
    component is a handler of [Async] that closes over the view it was rendered with; [handle]
    gives each control its handler under the conditions that render and enable it.  The events of
    what a modal dialog covers are kept, so the theorems hold with or without it.  The markup and
    the texts of the dialogs are left out, the figures and the cells the page shows are not. *)
From Stdlib Require Import ZArith Lia List.
From stdpp Require Import base list sets gmap.
From S2P Require Import Reveal Regex Host Validation Json Idempotency Types Overview Api ApiCalls Query.
From S2P Require Import I18nPt I18nEn I18nEs I18n Admin Async Prelude.
Import Validation.
#[local] Open Scope Z_scope.

(** ** State *)

Inductive tenant_tab := tab_overview | tab_resources | tab_domains.

Record edit_form := { edit_name : jsstr; edit_slug : jsstr; edit_status : jsstr }.

Record view := {
  tab : tenant_tab;
  hostname : jsstr;
  newDomainOpen : bool;
  editOpen : bool;
  edit : edit_form;
  resOpen : bool;
  pick : jsstr;
  resourceName : jsstr;
  resourceAlias : jsstr;
  sourceResourceId : jsstr;
  values : list (jsstr * jsstr);
  domainError : jsstr;
  editError : jsstr;
  isCreatingResource : bool;
  pageError : jsstr;
  resourceError : jsstr;
  resourceCreateAttempt : option attempt;     (* a ref *)
  pendingDomain : option TenantDomain;
  editingDomain : option TenantDomain;
  editingHostname : jsstr;
  editDomainError : jsstr;
  pendingResource : option (jsstr * jsstr);   (* its id and name *)
  selectedResourceId : jsstr;
  editingResource : option (jsstr * jsstr * jsstr); (* its id, name and alias *)
  editingResourceName : jsstr;
  editingResourceAlias : jsstr;
  editResourceError : jsstr;
  editingField : option ResourceFieldValue;
  editingFieldValue : jsstr;
  fieldEditError : jsstr;
  isUpdatingField : bool;
  duplicateOpen : bool;
  duplicateTarget : option (jsstr * jsstr);   (* its id and alias *)
  duplicateAlias : jsstr;
  duplicateError : jsstr;
  duplicateAttempt : option attempt;          (* a ref *)
  deleteOpen : bool;
  deleteConfirmation : jsstr;
  resourceIdentityPending : bool;             (* [resourceIdentityMutation.isPending], and so on *)
  duplicatePending : bool;
  updateDomainPending : bool;
  deleteTenantPending : bool;
  tenant : option Tenant;                     (* [tenantQuery.data] *)
  domainsData : option (list TenantDomain);   (* [domainsQuery.data] *)
  resourcesData : option (list TenantResource); (* [resourcesQuery.data] *)
  definitionsData : option (list Definition_); (* [definitionsQuery.data] *)
  definitionDetails : gmap jsstr DefinitionDetail; (* the cached [definition] queries *)
  queryErrors : list (option api_exn);        (* of the four queries of the page *)
  definitionError : option api_exn;           (* [pickedDefinitionQuery.error] *)
  reveal : Reveal.world;                      (* [useTransientResourceReveal(id)] *)
}.

(** The calls of the state setters, the writes of refs and the arrival of data. *)
Inductive update :=
  | setTab (x : tenant_tab) | setHostname (x : jsstr) | setNewDomainOpen (x : bool)
  | setEditOpen (x : bool) | setEdit (x : edit_form) | setResOpen (x : bool) | setPick (x : jsstr)
  | setResourceName (x : jsstr) | setResourceAlias (x : jsstr) | setSourceResourceId (x : jsstr)
  | setValues (x : list (jsstr * jsstr)) | setDomainError (x : jsstr) | setEditError (x : jsstr)
  | setIsCreatingResource (x : bool) | setPageError (x : jsstr) | setResourceError (x : jsstr)
  | setResourceCreateAttempt (x : option attempt) | setPendingDomain (x : option TenantDomain)
  | setEditingDomain (x : option TenantDomain) | setEditingHostname (x : jsstr)
  | setEditDomainError (x : jsstr) | setPendingResource (x : option (jsstr * jsstr))
  | setSelectedResourceId (x : jsstr) | setEditingResource (x : option (jsstr * jsstr * jsstr))
  | setEditingResourceName (x : jsstr) | setEditingResourceAlias (x : jsstr)
  | setEditResourceError (x : jsstr) | setEditingField (x : option ResourceFieldValue)
  | setEditingFieldValue (x : jsstr) | setFieldEditError (x : jsstr) | setIsUpdatingField (x : bool)
  | setDuplicateOpen (x : bool) | setDuplicateTarget (x : option (jsstr * jsstr))
  | setDuplicateAlias (x : jsstr) | setDuplicateError (x : jsstr)
  | setDuplicateAttempt (x : option attempt) | setDeleteOpen (x : bool)
  | setDeleteConfirmation (x : jsstr) | setResourceIdentityPending (x : bool)
  | setDuplicatePending (x : bool) | setUpdateDomainPending (x : bool)
  | setDeleteTenantPending (x : bool) | setTenant (x : option Tenant)
  | setDomainsData (x : option (list TenantDomain))
  | setResourcesData (x : option (list TenantResource))
  | setDefinitionsData (x : option (list Definition_))
  | setDefinitionDetails (x : gmap jsstr DefinitionDetail)
  | setQueryErrors (x : list (option api_exn)) | setDefinitionError (x : option api_exn)
  | setReveal (x : Reveal.label).

Definition apply_update (u : update) (v : view) : view := {|
  tab := match u with setTab x => x | _ => tab v end;
  hostname := match u with setHostname x => x | _ => hostname v end;
  newDomainOpen := match u with setNewDomainOpen x => x | _ => newDomainOpen v end;
  editOpen := match u with setEditOpen x => x | _ => editOpen v end;
  edit := match u with setEdit x => x | _ => edit v end;
  resOpen := match u with setResOpen x => x | _ => resOpen v end;
  pick := match u with setPick x => x | _ => pick v end;
  resourceName := match u with setResourceName x => x | _ => resourceName v end;
  resourceAlias := match u with setResourceAlias x => x | _ => resourceAlias v end;
  sourceResourceId := match u with setSourceResourceId x => x | _ => sourceResourceId v end;
  values := match u with setValues x => x | _ => values v end;
  domainError := match u with setDomainError x => x | _ => domainError v end;
  editError := match u with setEditError x => x | _ => editError v end;
  isCreatingResource := match u with setIsCreatingResource x => x | _ => isCreatingResource v end;
  pageError := match u with setPageError x => x | _ => pageError v end;
  resourceError := match u with setResourceError x => x | _ => resourceError v end;
  resourceCreateAttempt := match u with setResourceCreateAttempt x => x | _ => resourceCreateAttempt v end;
  pendingDomain := match u with setPendingDomain x => x | _ => pendingDomain v end;
  editingDomain := match u with setEditingDomain x => x | _ => editingDomain v end;
  editingHostname := match u with setEditingHostname x => x | _ => editingHostname v end;
  editDomainError := match u with setEditDomainError x => x | _ => editDomainError v end;
  pendingResource := match u with setPendingResource x => x | _ => pendingResource v end;
  selectedResourceId := match u with setSelectedResourceId x => x | _ => selectedResourceId v end;
  editingResource := match u with setEditingResource x => x | _ => editingResource v end;
  editingResourceName := match u with setEditingResourceName x => x | _ => editingResourceName v end;
  editingResourceAlias := match u with setEditingResourceAlias x => x | _ => editingResourceAlias v end;
  editResourceError := match u with setEditResourceError x => x | _ => editResourceError v end;
  editingField := match u with setEditingField x => x | _ => editingField v end;
  editingFieldValue := match u with setEditingFieldValue x => x | _ => editingFieldValue v end;
  fieldEditError := match u with setFieldEditError x => x | _ => fieldEditError v end;
  isUpdatingField := match u with setIsUpdatingField x => x | _ => isUpdatingField v end;
  duplicateOpen := match u with setDuplicateOpen x => x | _ => duplicateOpen v end;
  duplicateTarget := match u with setDuplicateTarget x => x | _ => duplicateTarget v end;
  duplicateAlias := match u with setDuplicateAlias x => x | _ => duplicateAlias v end;
  duplicateError := match u with setDuplicateError x => x | _ => duplicateError v end;
  duplicateAttempt := match u with setDuplicateAttempt x => x | _ => duplicateAttempt v end;
  deleteOpen := match u with setDeleteOpen x => x | _ => deleteOpen v end;
  deleteConfirmation := match u with setDeleteConfirmation x => x | _ => deleteConfirmation v end;
  resourceIdentityPending := match u with setResourceIdentityPending x => x | _ => resourceIdentityPending v end;
  duplicatePending := match u with setDuplicatePending x => x | _ => duplicatePending v end;
  updateDomainPending := match u with setUpdateDomainPending x => x | _ => updateDomainPending v end;
  deleteTenantPending := match u with setDeleteTenantPending x => x | _ => deleteTenantPending v end;
  tenant := match u with setTenant x => x | _ => tenant v end;
  domainsData := match u with setDomainsData x => x | _ => domainsData v end;
  resourcesData := match u with setResourcesData x => x | _ => resourcesData v end;
  definitionsData := match u with setDefinitionsData x => x | _ => definitionsData v end;
  definitionDetails := match u with setDefinitionDetails x => x | _ => definitionDetails v end;
  queryErrors := match u with setQueryErrors x => x | _ => queryErrors v end;
  definitionError := match u with setDefinitionError x => x | _ => definitionError v end;
  reveal := match u with setReveal x => Reveal.step (reveal v) x | _ => reveal v end |}.


Abbreviation page := (@Async.page view).
Abbreviation io := (@Async.io view update).

Section page.
Context `{CaseMap} (uuid : nat → jsstr) (l : Locale) (caps : capabilities) (id : jsstr).

(** [t] of the context. *)
Definition tr (key : jsstr) : jsstr := t l key.

(** ** What a render computes *)

Definition domains (v : view) : list TenantDomain := default [] (domainsData v).

(** [reveal.resources ?? resourcesQuery.data ?? EMPTY_RESOURCES] *)
Definition resources (v : view) : list TenantResource :=
  match Reveal.resources (Reveal.w_hook (reveal v)) with
  | Some r => r
  | None => default [] (resourcesData v)
  end.

Definition isRevealed (v : view) : bool :=
  match Reveal.resources (Reveal.w_hook (reveal v)) with Some _ => true | None => false end.

Definition definitions (v : view) : list Definition_ := default [] (definitionsData v).

Definition selectedResource (v : view) : option TenantResource :=
  List.find (λ resource, str_eqb (res_id resource) (selectedResourceId v)) (resources v).

Definition tenant_overview (v : view) : TenantOverviewSummary :=
  summarizeTenantOverview (Z.of_nat (length (domains v))) (resources v)
    (match tenant v with Some t => tenant_status t | None => "inactive" end).

Definition available (v : view) : list Definition_ :=
  List.filter (λ d, str_eqb (def_status d) "active") (definitions v).

Definition picked (v : view) : option Definition_ :=
  List.find (λ d, str_eqb (def_key d) (pick v)) (available v).

Definition pickedFields (v : view) : list Field :=
  match picked v with
  | Some d => match definitionDetails v !! def_id d with Some detail => dd_fields detail | None => [] end
  | None => []
  end.

Definition sourceCandidates (v : view) : list TenantResource :=
  List.filter (λ resource,
    str_eqb (res_status resource) "active" && negb (res_linked resource)
    && match picked v with Some d => str_eqb (res_definitionKey resource) (def_key d) | None => false end)
    (resources v).

(** [values[key] ?? ""], of the properties the form has set. *)
Definition value_of (v : view) (key : jsstr) : jsstr := default [] (obj_get key (values v)).

Definition requiredFilled (v : view) : bool :=
  match picked v with
  | None => false
  | Some _ => truthy (sourceResourceId v)
              || forallb (λ f, truthy (trim (value_of v (field_key f))))
                   (List.filter field_required (pickedFields v))
  end.

Definition resourceValuesValid (v : view) : bool :=
  forallb (λ field, isValidTypedResourceValue (field_data_type field) (value_of v (field_key field)))
    (pickedFields v).

Definition resourceAliasValid (v : view) : bool := isValidResourceAlias (resourceAlias v).
Definition editingResourceAliasValid (v : view) : bool := isValidResourceAlias (editingResourceAlias v).
Definition duplicateAliasValid (v : view) : bool := isValidResourceAlias (duplicateAlias v).
Definition editSlugValid (v : view) : bool := isValidTenantSlug (edit_slug (edit v)).
Definition hostnameValid (v : view) : bool := isValidHostname (hostname v).
Definition editingHostnameValid (v : view) : bool := isValidHostname (editingHostname v).

Definition editingFieldValueValid (v : view) : bool :=
  match editingField v with
  | None => true
  | Some f => isValidTypedResourceValue (rfv_dataType f) (editingFieldValue v)
  end.

Definition queryError (v : view) : option api_exn :=
  head (omap (λ e, e) (queryErrors v ++ [Reveal.error (Reveal.w_hook (reveal v))])).

Definition visiblePageError (v : view) : jsstr :=
  str_or (pageError v) (match queryError v with Some e => apiErrorMessage e tr | None => [] end).

Definition visibleResourceError (v : view) : jsstr :=
  str_or (resourceError v) (match definitionError v with Some e => apiErrorMessage e tr | None => [] end).

(** The text of a value in the dialog of a resource. *)
Definition value_cell (v : view) (field : ResourceFieldValue) : jsstr :=
  str_or (displaySecretValue (rfv_isSecret field) (isRevealed v) (rfv_value field)) "—".

(** The searches of the two tables. *)
Definition resource_matches (resource : TenantResource) (filterValue : jsstr) : bool :=
  let query := toLowerCase (trim filterValue) in
  negb (truthy query)
  || existsb (λ value, includes query (toLowerCase value))
       [res_alias resource; res_name resource; res_definitionKey resource;
        default [] (res_sourceAlias resource); res_status resource; formatStatus (res_status resource) tr].

Definition domain_matches (domain : TenantDomain) (filterValue : jsstr) : bool :=
  includes (toLowerCase (trim filterValue)) (toLowerCase (domain_hostname domain)).

(** ** The reveal hook's callbacks *)

Definition hide : io unit := set_all [setReveal Reveal.LHide].

Definition show : io bool :=
  Look (λ s,
    let request := Reveal.w_next (reveal (p_view s)) in
    set_all [setReveal (Reveal.LShow id)];;
    answer ← Await (Call (listTenantResources id true)) Ret;
    set_all [setReveal (Reveal.LSettle request answer)];;
    Look (λ s,
      Ret (match Reveal.w_reqs (reveal (p_view s)) !! request with
           | Some q => default false (Reveal.rr_returned q)
           | None => false
           end))).

(** ** Mutations *)

Definition unread (pending : bool) : list update := [].

Definition after_resources {A} (_ : A) : io unit := hide;; cache [invalidateTenantResources id].
Definition after_domains {A} (_ : A) : io unit := cache [invalidateTenantDomains id].

Definition updateTenantMutation (body : edit_form) : io Tenant :=
  mutateAsync unread (call (updateTenant id (edit_name body) (edit_slug body) (edit_status body)))
    (λ _, hide;; cache [invalidateTenant id]).

Definition resourceStatusMutation (resourceId status : jsstr) : io unit :=
  mutateAsync unread (call (setResourceStatus id resourceId status)) after_resources.

Definition resourceIdentityMutation (resourceId name alias : jsstr) : io unit :=
  mutateAsync (λ b, [setResourceIdentityPending b])
    (call (updateResourceIdentity id resourceId name alias)) after_resources.

Definition deleteResourceMutation (resourceId : jsstr) : io unit :=
  mutateAsync unread (call (deleteResource id resourceId)) after_resources.

(** The attempt's payload of a duplication. *)
Definition duplicate_request (resourceId alias : jsstr) : json :=
  jstrs [("resourceId", resourceId); ("alias", alias)].

Definition duplicateResourceMutation (resourceId alias : jsstr) : io unit :=
  mutateAsync (λ b, [setDuplicatePending b])
    (key ← keyed uuid duplicateAttempt setDuplicateAttempt (duplicate_request resourceId alias);
     call (duplicateResource id resourceId alias key)) after_resources.

Definition addDomainMutation (nextHostname : jsstr) : io unit :=
  mutateAsync unread (call (addDomain id nextHostname)) after_domains.

Definition updateDomainMutation (domainId nextHostname : jsstr) : io TenantDomain :=
  mutateAsync (λ b, [setUpdateDomainPending b]) (call (updateDomain id domainId nextHostname)) after_domains.

Definition removeDomainMutation (domainId : jsstr) : io unit :=
  mutateAsync unread (call (removeDomain id domainId)) after_domains.

Definition deleteTenantMutation : io unit :=
  mutateAsync (λ b, [setDeleteTenantPending b]) (call (deleteTenant id))
    (λ _, cache [(removeTenantQueries id).1; (removeTenantQueries id).2]).

(** ** Handlers *)

(** [catch (e) { set(apiErrorMessage(e, t)); }] *)
Definition or_message (set : jsstr → update) (m : io unit) : io unit :=
  try_catch m (λ e, set_all [set (apiErrorMessage e tr)]).

Definition openEdit (v : view) : io unit :=
  match tenant v with
  | None => Ret tt
  | Some t =>
    set_all [setEdit {| edit_name := tenant_name t; edit_slug := tenant_slug t; edit_status := tenant_status t |};
             setEditError []; setEditOpen true]
  end.

Definition saveEdit (v : view) : io unit :=
  if negb (truthy (trim (edit_name (edit v)))) || negb (editSlugValid v) then Ret tt
  else
    set_all [setEditError []];;
    or_message setEditError (
      _ ← updateTenantMutation (edit v);
      set_all [setEditOpen false];;
      toast (tr "tenantDetail.updated")).

Definition choose (key : jsstr) (v : view) : io unit :=
  set_all [setPick key;
    setResourceName (match List.find (λ d, str_eqb (def_key d) key) (available v) with
                     | Some d => def_name d | None => key end);
    setResourceAlias key; setSourceResourceId []; setValues []; setResourceError []].

(** The request of a creation, as the attempt's payload and as the call. *)
Definition resource_source (v : view) : option jsstr :=
  if truthy (sourceResourceId v) then Some (sourceResourceId v) else None.

Definition resource_request (v : view) (d : Definition_) : json :=
  JObj ([("name", JStr (trim (resourceName v))); ("alias", JStr (trim (resourceAlias v)));
         ("definitionKey", JStr (def_key d))]
        ++ jopt "sourceResourceId" (JStr <$> resource_source v) ++ [("values", jstrs (values v))]).

Definition create_call (v : view) (d : Definition_) (key : jsstr) : api_call :=
  createResource id (trim (resourceName v)) (trim (resourceAlias v)) (def_key d) (resource_source v)
    (values v) key.

Definition saveResource (v : view) : io unit :=
  match picked v with
  | None => Ret tt
  | Some d =>
    if negb (truthy (trim (resourceName v))) || negb (requiredFilled v) || negb (resourceAliasValid v)
    then Ret tt
    else
      set_all [setResourceError []; setIsCreatingResource true];;
      hide;;
      try_finally
        (or_message setResourceError (
          key ← keyed uuid resourceCreateAttempt setResourceCreateAttempt (resource_request v d);
          _ ← call (create_call v d key);
          cache [invalidateTenantResources id];;
          set_all [setResOpen false; setPick []; setResourceName []; setResourceAlias [];
                   setSourceResourceId []; setValues []];;
          toast (tr "tenantDetail.resourceAdded");;
          set_all [setResourceCreateAttempt None]))
        (set_all [setIsCreatingResource false])
  end.

Definition openResourceIdentity (resource : TenantResource) : io unit :=
  set_all [setEditingResource (Some (res_id resource, res_name resource, res_alias resource));
           setEditingResourceName (res_name resource); setEditingResourceAlias (res_alias resource);
           setEditResourceError []; setSelectedResourceId []].

Definition saveResourceIdentity (v : view) : io unit :=
  match editingResource v with
  | None => Ret tt
  | Some (resourceId, _, _) =>
    if negb (truthy (trim (editingResourceName v))) || negb (editingResourceAliasValid v) then Ret tt
    else
      set_all [setEditResourceError []];;
      or_message setEditResourceError (
        resourceIdentityMutation resourceId (trim (editingResourceName v)) (trim (editingResourceAlias v));;
        set_all [setEditingResource None];;
        toast (tr "tenantDetail.resourceUpdated"))
  end.

Definition toggleResource (r : TenantResource) : io unit :=
  let next : jsstr := if str_eqb (res_status r) "active" then "inactive" else "active" in
  or_message setPageError (
    resourceStatusMutation (res_id r) next;;
    toast (if str_eqb next "active" then tr "tenantDetail.resourceStatusActivated"
           else tr "tenantDetail.resourceStatusDeactivated")).

Definition openDuplicateResource (resource : TenantResource) : io unit :=
  set_all [setDuplicateAlias (res_alias resource ++ ".copy");
           setDuplicateTarget (Some (res_id resource, res_alias resource)); setDuplicateError [];
           setSelectedResourceId []; setDuplicateOpen true].

Definition requestResourceRemoval (resource : TenantResource) : io unit :=
  set_all [setPendingResource (Some (res_id resource, res_alias resource)); setSelectedResourceId []].

Definition removeResource (v : view) : io unit :=
  match pendingResource v with
  | None => Ret tt
  | Some (resourceId, _) =>
    or_message setPageError (
      deleteResourceMutation resourceId;;
      set_all [setPendingResource None];;
      toast (tr "tenantDetail.resourceRemoved"))
  end.

Definition openFieldEdit (field : ResourceFieldValue) : io unit :=
  set_all [setEditingField (Some field);
           setEditingFieldValue (if rfv_isSecret field then [] else rfv_value field);
           setFieldEditError []].

Definition saveFieldEdit (v : view) : io unit :=
  match selectedResource v, editingField v with
  | Some resource, Some field =>
    if negb (editingFieldValueValid v) || (rfv_required field && negb (truthy (editingFieldValue v)))
    then Ret tt
    else
      set_all [setFieldEditError []; setIsUpdatingField true];;
      hide;;
      try_finally
        (or_message setFieldEditError (
          call (updateResourceField id (res_id resource) (rfv_key field) (editingFieldValue v));;
          cache [invalidateTenantResources id];;
          set_all [setEditingField None; setEditingFieldValue []];;
          toast (tr "tenantDetail.resourceFieldUpdated")))
        (set_all [setIsUpdatingField false])
  | _, _ => Ret tt
  end.

Definition clearFieldOverride (field : ResourceFieldValue) (v : view) : io unit :=
  match selectedResource v with
  | None => Ret tt
  | Some resource =>
    or_message setPageError (
      hide;;
      call (clearResourceFieldOverride id (res_id resource) (rfv_key field));;
      cache [invalidateTenantResources id];;
      toast (tr "tenantDetail.resourceFieldInherited"))
  end.

Definition duplicateSelectedResource (v : view) : io unit :=
  match duplicateTarget v with
  | None => Ret tt
  | Some (resourceId, _) =>
    if negb (duplicateAliasValid v) then Ret tt
    else
      set_all [setDuplicateError []];;
      or_message setDuplicateError (
        duplicateResourceMutation resourceId (trim (duplicateAlias v));;
        set_all [setDuplicateOpen false; setDuplicateTarget None; setDuplicateAlias [];
                 setDuplicateAttempt None];;
        toast (tr "tenantDetail.resourceDuplicated"))
  end.

Definition saveDomain (v : view) : io unit :=
  if negb (hostnameValid v) then Ret tt
  else
    set_all [setDomainError []];;
    or_message setDomainError (
      addDomainMutation (trim (hostname v));;
      set_all [setHostname []; setNewDomainOpen false];;
      toast (tr "tenantDetail.domainAdded")).

Definition saveDomainEdit (v : view) : io unit :=
  match editingDomain v with
  | None => Ret tt
  | Some d =>
    if negb (editingHostnameValid v) then Ret tt
    else
      set_all [setEditDomainError []];;
      or_message setEditDomainError (
        _ ← updateDomainMutation (domain_id d) (trim (editingHostname v));
        set_all [setEditingDomain None; setEditingHostname []];;
        toast (tr "tenantDetail.domainUpdated"))
  end.

Definition removeDomain (v : view) : io unit :=
  match pendingDomain v with
  | None => Ret tt
  | Some d =>
    or_message setPageError (
      removeDomainMutation (domain_id d);;
      set_all [setPendingDomain None];;
      toast (tr "tenantDetail.domainRemoved"))
  end.

Definition toggleSecrets (v : view) : io unit :=
  if isRevealed v then hide;; toast (tr "tenantDetail.secretsDisabled")
  else
    shown ← show;
    if shown : bool then toast (tr "tenantDetail.secretsEnabled") else Ret tt.

Definition deleteTenantPermanently (v : view) : io unit :=
  match tenant v with
  | None => Ret tt
  | Some t =>
    if negb (matchesTenantSlug (deleteConfirmation v) (tenant_slug t)) then Ret tt
    else
      or_message setPageError (
        hide;;
        deleteTenantMutation;;
        toast (tr "tenantDetail.deleted");;
        Await (Navigate "/tenants") Ret)
  end.

(** ** Events *)

(** A row of a table and a field of the dialog are given by their positions. *)
Inductive event :=
  | ETab (x : tenant_tab) | EOpenEdit | EReview (code : attention_code)
  | EEditDialog (b : bool) | EEditName (s : jsstr) | EEditSlug (s : jsstr) | EEditStatus (s : jsstr) | ESaveEdit
  | EAddResource | EResourceDialog (b : bool) | EChoose (i : option nat) | EResourceName (s : jsstr)
  | EResourceAlias (s : jsstr) | ESource (i : option nat) | EValue (i : nat) (s : jsstr) | ESaveResource
  | ESelect (i : nat) | EDetails (b : bool) | EFieldEdit (i : nat) | EClearOverride (i : nat) | EToggleSecrets
  | EToggleSelected | ERemoveSelected | EDuplicateSelected
  | EFieldDialog (b : bool) | EFieldValue (s : jsstr) | ESaveField
  | EIdentity (i : nat) | EToggle (i : nat) | EDuplicate (i : nat) | ERemove (i : nat)
  | EIdentityDialog (b : bool) | EIdentityName (s : jsstr) | EIdentityAlias (s : jsstr) | ESaveIdentity
  | EDuplicateDialog (b : bool) | EDuplicateAlias (s : jsstr) | ESaveDuplicate
  | ERemoveResourceDialog (b : bool) | EConfirmRemoveResource
  | EAddDomain | EDomainDialog (b : bool) | EHostname (s : jsstr) | ESaveDomain
  | ERenameDomain (i : nat) | EDomainEditDialog (b : bool) | EDomainEditCancel | EDomainEditHostname (s : jsstr)
  | ESaveDomainEdit
  | ERemoveDomain (i : nat) | ERemoveDomainDialog (b : bool) | EConfirmRemoveDomain
  | EDelete | EDeleteDialog (b : bool) | EDeleteConfirmation (s : jsstr) | EConfirmDelete
  | EData (u : update) | EReveal (x : Reveal.label).

Definition set_edit (f : edit_form → edit_form) (v : view) : io unit :=
  when (editOpen v) (set_all [setEdit (f (edit v))]).

Definition edit_event (e : event) (v : view) : io unit :=
  match e with
  | EEditDialog b => set_all [setEditOpen b]
  | EEditName s => set_edit (λ f, {| edit_name := s; edit_slug := edit_slug f; edit_status := edit_status f |}) v
  | EEditSlug s => set_edit (λ f, {| edit_name := edit_name f; edit_slug := s; edit_status := edit_status f |}) v
  | EEditStatus s =>
    set_edit (λ f, {| edit_name := edit_name f; edit_slug := edit_slug f;
                      edit_status := if str_eqb s "active" || str_eqb s "inactive" then s else edit_status f |}) v
  | ESaveEdit =>
    when (editOpen v && truthy (trim (edit_name (edit v))) && editSlugValid v) (saveEdit v)
  | _ => Ret tt
  end.

Definition overview_event (e : event) (v : view) : io unit :=
  match e with
  | EReview code =>
    when (bool_decide (code ∈ attentionCodes (tenant_overview v)))
      (match code with
       | inactive_tenant => openEdit v
       | missing_domain => set_all [setTab tab_domains]
       | _ => set_all [setTab tab_resources]
       end)
  | EDelete => when (can caps tenant_hard_delete) (set_all [setDeleteConfirmation []; setDeleteOpen true])
  | _ => Ret tt
  end.

Definition can_create (v : view) : bool :=
  match picked v with Some _ => true | None => false end && truthy (trim (resourceName v))
  && resourceAliasValid v && requiredFilled v && resourceValuesValid v && negb (isCreatingResource v).

(** [ResourceOriginField]: [None] is its first choice, the others the candidates in their order. *)
Definition resource_origin_event (choice : option nat) (candidates : list jsstr) : io unit :=
  let changed (nextValue : jsstr) :=
    set_all [setSourceResourceId (if str_eqb nextValue "independent" then [] else nextValue)] in
  when (negb (bool_decide (candidates = [])))
    match choice with
    | None => changed "independent"
    | Some i => with_some (candidates !! i) changed
    end.

Definition resource_dialog_event (e : event) (v : view) : io unit :=
  let shown := match picked v with Some _ => true | None => false end in
  when (resOpen v)
    match e with
    | EResourceDialog b =>
      set_all (setResOpen b :: if b then [] else
        [setPick []; setResourceName []; setResourceAlias []; setSourceResourceId []; setValues []])
    | EChoose None => choose [] v
    | EChoose (Some i) => with_some (available v !! i) (λ d, choose (def_key d) v)
    | EResourceName s => when shown (set_all [setResourceName s])
    | EResourceAlias s => when shown (set_all [setResourceAlias s])
    | ESource i => when shown (resource_origin_event i (res_id <$> sourceCandidates v))
    | EValue i s => with_some (pickedFields v !! i) (λ f, set_all [setValues (obj_set (field_key f) s (values v))])
    | ESaveResource => when (can_create v) (saveResource v)
    | _ => Ret tt
    end.

(** The dialog of the selected resource. *)
Definition details_event (e : event) (v : view) : io unit :=
  with_some (selectedResource v) (λ r,
    let write := can caps resource_write in
    match e with
    | EDetails b => when (negb b && match editingField v with None => true | Some _ => false end)
                      (set_all [setSelectedResourceId []])
    | EFieldEdit i => when write (with_some (res_fields r !! i) openFieldEdit)
    | EClearOverride i =>
      with_some (res_fields r !! i) (λ f,
        when (write && res_linked r && rfv_isOverride f) (clearFieldOverride f v))
    | EToggleSelected => when write (toggleResource r)
    | ERemoveSelected => when write (requestResourceRemoval r)
    | EDuplicateSelected => when write (openDuplicateResource r)
    | EToggleSecrets =>
      when (can caps secret_reveal && negb (Reveal.isLoading (Reveal.w_hook (reveal v)))) (toggleSecrets v)
    | _ => Ret tt
    end).

Definition can_update_field (f : ResourceFieldValue) (v : view) : bool :=
  negb (isUpdatingField v) && editingFieldValueValid v
  && negb (rfv_required f && negb (truthy (editingFieldValue v))).

Definition field_dialog_event (e : event) (v : view) : io unit :=
  with_some (editingField v) (λ f,
    match e with
    | EFieldDialog b =>
      when (negb b) (set_all [setEditingField None; setEditingFieldValue []; setFieldEditError []])
    | EFieldValue s => set_all [setEditingFieldValue s]
    | ESaveField => when (can_update_field f v) (saveFieldEdit v)
    | _ => Ret tt
    end).

(** The menu of a row of the resources. *)
Definition row_event (e : event) (v : view) : io unit :=
  let row i f := when (can caps resource_write) (with_some (resources v !! i) f) in
  match e with
  | ESelect i => with_some (resources v !! i) (λ r, set_all [setSelectedResourceId (res_id r)])
  | EIdentity i => row i openResourceIdentity
  | EToggle i => row i toggleResource
  | EDuplicate i => row i openDuplicateResource
  | ERemove i => row i requestResourceRemoval
  | EAddResource =>
    when (can caps resource_write) (set_all [setResourceError []; setPick []; setResOpen true])
  | _ => Ret tt
  end.

Definition identity_event (e : event) (v : view) : io unit :=
  with_some (editingResource v) (λ _,
    match e with
    | EIdentityDialog b => when (negb b) (set_all [setEditingResource None; setEditResourceError []])
    | EIdentityName s => set_all [setEditingResourceName s]
    | EIdentityAlias s => set_all [setEditingResourceAlias s]
    | ESaveIdentity =>
      when (truthy (trim (editingResourceName v)) && editingResourceAliasValid v
            && negb (resourceIdentityPending v)) (saveResourceIdentity v)
    | _ => Ret tt
    end).

Definition duplicate_event (e : event) (v : view) : io unit :=
  when (duplicateOpen v)
    match e with
    | EDuplicateDialog b =>
      set_all (setDuplicateOpen b :: if b then [] else
        [setDuplicateTarget None; setDuplicateAlias []; setDuplicateError []])
    | EDuplicateAlias s => set_all [setDuplicateAlias s]
    | ESaveDuplicate => when (duplicateAliasValid v && negb (duplicatePending v)) (duplicateSelectedResource v)
    | _ => Ret tt
    end.

(** [ConfirmDialog] closes through [onOpenChange] only; confirming leaves it open. *)
Definition confirm_event (e : event) (v : view) : io unit :=
  match e with
  | ERemoveResourceDialog b => when (negb b) (set_all [setPendingResource None])
  | EConfirmRemoveResource => with_some (pendingResource v) (λ _, removeResource v)
  | ERemoveDomainDialog b => when (negb b) (set_all [setPendingDomain None])
  | EConfirmRemoveDomain => with_some (pendingDomain v) (λ _, removeDomain v)
  | _ => Ret tt
  end.

Definition delete_event (e : event) (t : Tenant) (v : view) : io unit :=
  when (deleteOpen v)
    match e with
    | EDeleteDialog b =>
      set_all (setDeleteOpen b ::
        if negb b && negb (deleteTenantPending v) then [setDeleteConfirmation []] else [])
    | EDeleteConfirmation s => when (negb (deleteTenantPending v)) (set_all [setDeleteConfirmation s])
    | EConfirmDelete =>
      when (negb (deleteTenantPending v || negb (matchesTenantSlug (deleteConfirmation v) (tenant_slug t))))
        (deleteTenantPermanently v)
    | _ => Ret tt
    end.

(** The table of the domains and their two forms. *)
Definition domain_row_event (e : event) (v : view) : io unit :=
  let row i f := when (can caps tenant_write) (with_some (domains v !! i) f) in
  match e with
  | EAddDomain => when (can caps tenant_write) (set_all [setHostname []; setDomainError []; setNewDomainOpen true])
  | ERenameDomain i =>
    row i (λ d, set_all [setEditingDomain (Some d); setEditingHostname (domain_hostname d); setEditDomainError []])
  | ERemoveDomain i => row i (λ d, set_all [setPendingDomain (Some d)])
  | _ => Ret tt
  end.

Definition domain_dialog_event (e : event) (v : view) : io unit :=
  when (newDomainOpen v)
    match e with
    | EDomainDialog b => set_all [setNewDomainOpen b]
    | EHostname s => set_all [setHostname s]
    | ESaveDomain => when (hostnameValid v) (saveDomain v)
    | _ => Ret tt
    end.

Definition domain_edit_event (e : event) (v : view) : io unit :=
  let close := set_all [setEditingDomain None; setEditingHostname []; setEditDomainError []] in
  with_some (editingDomain v) (λ _,
    match e with
    | EDomainEditDialog b => when (negb b && negb (updateDomainPending v)) close
    | EDomainEditCancel => when (negb (updateDomainPending v)) close
    | EDomainEditHostname s => set_all [setEditingHostname s]
    | ESaveDomainEdit => when (editingHostnameValid v && negb (updateDomainPending v)) (saveDomainEdit v)
    | _ => Ret tt
    end).

(** The data that arrives: the queries' and nothing else. *)
Definition is_data (u : update) : bool :=
  match u with
  | setTenant _ | setDomainsData _ | setResourcesData _ | setDefinitionsData _ | setDefinitionDetails _
  | setQueryErrors _ | setDefinitionError _ => true
  | _ => false
  end.

(** What reaches the reveal hook from outside: changes of the stored token, here or elsewhere. *)
Definition is_outside (x : Reveal.label) : bool :=
  match x with
  | Reveal.LToken _ | Reveal.LForeignToken _ | Reveal.LStorage _ => true
  | _ => false
  end.

(** Nothing but the loading state is rendered before the tenant is known. *)
Definition handle (e : event) (s : page) : io unit :=
  let v := p_view s in
  match e with
  | EData u => when (is_data u) (set_all [u])
  | EReveal x => when (is_outside x) (set_all [setReveal x])
  | _ =>
    with_some (tenant v) (λ t,
      match e with
      | ETab x => set_all [setTab x]
      | EOpenEdit => when (can caps tenant_write) (openEdit v)
      | EReview _ | EDelete => overview_event e v
      | EEditDialog _ | EEditName _ | EEditSlug _ | EEditStatus _ | ESaveEdit => edit_event e v
      | EResourceDialog _ | EChoose _ | EResourceName _ | EResourceAlias _ | ESource _ | EValue _ _
      | ESaveResource => resource_dialog_event e v
      | EDetails _ | EFieldEdit _ | EClearOverride _ | EToggleSecrets | EToggleSelected | ERemoveSelected
      | EDuplicateSelected => details_event e v
      | EFieldDialog _ | EFieldValue _ | ESaveField => field_dialog_event e v
      | ESelect _ | EIdentity _ | EToggle _ | EDuplicate _ | ERemove _ | EAddResource => row_event e v
      | EIdentityDialog _ | EIdentityName _ | EIdentityAlias _ | ESaveIdentity => identity_event e v
      | EDuplicateDialog _ | EDuplicateAlias _ | ESaveDuplicate => duplicate_event e v
      | ERemoveResourceDialog _ | EConfirmRemoveResource | ERemoveDomainDialog _ | EConfirmRemoveDomain =>
        confirm_event e v
      | EDeleteDialog _ | EDeleteConfirmation _ | EConfirmDelete => delete_event e t v
      | EAddDomain | ERenameDomain _ | ERemoveDomain _ => domain_row_event e v
      | EDomainDialog _ | EHostname _ | ESaveDomain => domain_dialog_event e v
      | EDomainEditDialog _ | EDomainEditCancel | EDomainEditHostname _ | ESaveDomainEdit => domain_edit_event e v
      | EData _ | EReveal _ => Ret tt
      end)
  end.

(** The page when it is mounted. *)
Definition initial_page (strict : bool) (token : jsstr) (e : entropy) : page := {|
  p_view := {| tab := tab_overview; hostname := []; newDomainOpen := false; editOpen := false;
    edit := {| edit_name := []; edit_slug := []; edit_status := "active" |}; resOpen := false;
    pick := []; resourceName := []; resourceAlias := []; sourceResourceId := []; values := [];
    domainError := []; editError := []; isCreatingResource := false; pageError := [];
    resourceError := []; resourceCreateAttempt := None; pendingDomain := None;
    editingDomain := None; editingHostname := []; editDomainError := []; pendingResource := None;
    selectedResourceId := []; editingResource := None; editingResourceName := [];
    editingResourceAlias := []; editResourceError := []; editingField := None;
    editingFieldValue := []; fieldEditError := []; isUpdatingField := false; duplicateOpen := false;
    duplicateTarget := None; duplicateAlias := []; duplicateError := []; duplicateAttempt := None;
    deleteOpen := false; deleteConfirmation := []; resourceIdentityPending := false;
    duplicatePending := false; updateDomainPending := false; deleteTenantPending := false;
    tenant := None; domainsData := None; resourcesData := None; definitionsData := None;
    definitionDetails := ∅; queryErrors := []; definitionError := None;
    reveal := Reveal.initial strict id token |};
  p_entropy := e; p_log := [] |}.

Inductive initial : page → Prop :=
  | initial_intro strict token e : initial (initial_page strict token e).
End page.

#[export] Hint Unfold set_edit edit_event overview_event openEdit saveEdit choose
  resource_origin_event resource_dialog_event saveResource details_event openFieldEdit saveFieldEdit clearFieldOverride
  toggleSecrets toggleResource requestResourceRemoval openDuplicateResource field_dialog_event
  row_event openResourceIdentity identity_event saveResourceIdentity duplicate_event
  duplicateSelectedResource confirm_event removeResource removeDomain delete_event
  deleteTenantPermanently domain_row_event domain_dialog_event saveDomain domain_edit_event
  saveDomainEdit : pages.
