(* ===== verification/TenantFacts.v ===== *)
(** * The tenant page: what holds of every run *)
From Stdlib Require Import ZArith Lia List.
From stdpp Require Import base list sets gmap.
From S2P Require Import Reveal Regex Host Validation Json Idempotency Types Overview Api ApiCalls Query.
From S2P Require Import I18nPt I18nEn I18nEs I18n Admin Async TenantPage Prelude.
Import Validation.
#[local] Open Scope Z_scope.

#[local] Arguments Reveal.step : simpl never.

Section facts.
Context `{CaseMap} (uuid : nat → jsstr) (l : Locale) (caps : capabilities) (id : jsstr).

(** ** The hook *)

(** The hook is mounted for this tenant and has only been used as the page uses it. *)
Definition reveal_ok (w : Reveal.world) : Prop :=
  Reveal.reachable w ∧ Reveal.mountedRef (Reveal.w_hook w) = true ∧ Reveal.tenantRef (Reveal.w_hook w) = id.

Definition page_label (x : Reveal.label) : bool :=
  match x with Reveal.LTenant _ | Reveal.LUnmount => false | _ => true end.

Lemma settle_refs i a w :
  Reveal.mountedRef (Reveal.w_hook (Reveal.settle_show i a w)) = Reveal.mountedRef (Reveal.w_hook w) ∧
  Reveal.tenantRef (Reveal.w_hook (Reveal.settle_show i a w)) = Reveal.tenantRef (Reveal.w_hook w).
Proof.
  unfold Reveal.settle_show, Reveal.show_continue. destruct (Reveal.w_reqs w !! i) as [q|]; [|done].
  destruct (Reveal.rr_answer q); [done|]. destruct a; cbn; repeat case_cond; done.
Qed.

Lemma reveal_ok_step w x : page_label x = true → reveal_ok w → reveal_ok (Reveal.step w x).
Proof.
  intros Hx (Hr & Hm & Ht). split; [by apply Reveal.reach_step|].
  destruct x; try done; unfold Reveal.step, Reveal.on_listener; cbn; try (rewrite ?Hm; done).
  - destruct (settle_refs id0 answer w) as [-> ->]. done.
  - case_match; [cbn; rewrite Hm|]; done.
Qed.

Lemma hidden_step w : reveal_ok w → Reveal.resources (Reveal.w_hook (Reveal.step w Reveal.LHide)) = None.
Proof. intros (_ & Hm & _). unfold Reveal.step. cbn. by rewrite Hm. Qed.

(** ** The page *)

(** The forms that are closed hold nothing, and those that are open are permitted. *)
Record page_ok (v : view) : Prop := {
  ok_reveal : reveal_ok (reveal v);
  ok_form : resOpen v = false → pick v = [] ∧ values v = [];
  ok_field : editingField v = None → editingFieldValue v = [];
  ok_creating : resOpen v = true → can caps resource_write = true;
  ok_editing : editingField v ≠ None → can caps resource_write = true;
  ok_identity : editingResource v ≠ None → can caps resource_write = true;
  ok_duplicate : duplicateTarget v ≠ None → can caps resource_write = true;
  ok_removal : pendingResource v ≠ None → can caps resource_write = true;
  ok_domain : newDomainOpen v = true → can caps tenant_write = true;
  ok_rename : editingDomain v ≠ None → can caps tenant_write = true;
  ok_domain_removal : pendingDomain v ≠ None → can caps tenant_write = true;
  ok_delete : deleteOpen v = true → can caps tenant_hard_delete = true;
}.

(** ** What the page asks for *)

(** A call the page may make in a state: what it sends of the form it submits, what is known of that,
    and who may make it.  Two calls send what was typed as it was typed: the edit of the tenant its
    name, which is only known not to be blank, and that of a field its value.  The edit of the
    tenant asks for no permission either: the overview opens its form for anyone. *)
Definition call_ok (a : api_call) (v : view) : Prop :=
  match a with
  | updateTenant i name slug status =>
    i = id ∧ name = edit_name (edit v) ∧ slug = edit_slug (edit v) ∧ status = edit_status (edit v) ∧
    trim name ≠ [] ∧ isValidTenantSlug slug = true
  | createResource i name alias key source vs k =>
    i = id ∧ can caps resource_write = true ∧ isRevealed v = false ∧
    name = trim (resourceName v) ∧ name ≠ [] ∧
    alias = trim (resourceAlias v) ∧ isValidResourceAlias alias = true ∧
    (∃ d, d ∈ definitions v ∧ def_status d = "active" ∧ def_key d = key) ∧
    source = resource_source v ∧ vs = values v ∧ requiredFilled v = true ∧ resourceValuesValid v = true
  | updateResourceIdentity i rid name alias =>
    i = id ∧ can caps resource_write = true ∧ (∃ r, editingResource v = Some r ∧ rid = r.1.1) ∧
    name = trim (editingResourceName v) ∧ name ≠ [] ∧
    alias = trim (editingResourceAlias v) ∧ isValidResourceAlias alias = true
  | setResourceStatus i rid status =>
    i = id ∧ can caps resource_write = true ∧
    ∃ r, r ∈ resources v ∧ rid = res_id r ∧ status = if str_eqb (res_status r) "active" then "inactive" else "active"
  | deleteResource i rid =>
    i = id ∧ can caps resource_write = true ∧ (∃ r, pendingResource v = Some r ∧ rid = r.1)
  | duplicateResource i rid alias _ =>
    i = id ∧ can caps resource_write = true ∧ (∃ r, duplicateTarget v = Some r ∧ rid = r.1) ∧
    alias = trim (duplicateAlias v) ∧ isValidResourceAlias alias = true
  | updateResourceField i rid key value =>
    i = id ∧ can caps resource_write = true ∧ isRevealed v = false ∧
    value = editingFieldValue v ∧
    ∃ f, editingField v = Some f ∧ rfv_key f = key ∧ isValidTypedResourceValue (rfv_dataType f) value = true ∧
         (rfv_required f = true → value ≠ [])
  | clearResourceFieldOverride i _ _ => i = id ∧ can caps resource_write = true ∧ isRevealed v = false
  | addDomain i h =>
    i = id ∧ can caps tenant_write = true ∧ h = trim (hostname v) ∧ isValidHostname h = true
  | updateDomain i did h =>
    i = id ∧ can caps tenant_write = true ∧ (∃ d, editingDomain v = Some d ∧ did = domain_id d) ∧
    h = trim (editingHostname v) ∧ isValidHostname h = true
  | ApiCalls.removeDomain i did =>
    i = id ∧ can caps tenant_write = true ∧ (∃ d, pendingDomain v = Some d ∧ did = domain_id d)
  | deleteTenant i =>
    i = id ∧ can caps tenant_hard_delete = true ∧ isRevealed v = false ∧
    ∃ t, tenant v = Some t ∧ trim (deleteConfirmation v) = tenant_slug t
  | listTenantResources i reveal => i = id ∧ reveal = true ∧ can caps secret_reveal = true
  | _ => False
  end.

Definition asked (q : request) (s : page) : Prop :=
  match q with
  | Call a => call_ok a (p_view s)
  | Download _ | WriteClipboard _ => False
  | Navigate to => to = "/tenants"
  | Cache _ => True
  end.

(** ** What a reply does *)

(** The calls that change what is revealed. *)
Definition hiding (a : api_call) : bool :=
  match a with
  | updateTenant _ _ _ _ | setResourceStatus _ _ _ | updateResourceIdentity _ _ _ _ | deleteResource _ _
  | duplicateResource _ _ _ _ => true
  | _ => false
  end.

(** The call of the reveal hook, whose failures the hook reports. *)
Definition revealing (a : api_call) : bool :=
  match a with listTenantResources _ _ => true | _ => false end.

(** The page after a call has failed: its message, its busy flag, and all the rest as it was. *)
Definition failed (a : api_call) (message : jsstr) (v : view) : view :=
  let set us := fold_left (λ v u, apply_update u v) us v in
  match a with
  | updateTenant _ _ _ _ => set [setEditError message]
  | createResource _ _ _ _ _ _ _ => set [setResourceError message; setIsCreatingResource false]
  | updateResourceIdentity _ _ _ _ => set [setResourceIdentityPending false; setEditResourceError message]
  | duplicateResource _ _ _ _ => set [setDuplicatePending false; setDuplicateError message]
  | updateResourceField _ _ _ _ => set [setFieldEditError message; setIsUpdatingField false]
  | addDomain _ _ => set [setDomainError message]
  | updateDomain _ _ _ => set [setUpdateDomainPending false; setEditDomainError message]
  | deleteTenant _ => set [setDeleteTenantPending false; setPageError message]
  | _ => set [setPageError message]
  end.

Definition call_replied (a : api_call) : result api_exn (api_answer a) → page → page → Prop :=
  match a with
  | listTenantResources _ _ => λ _ _ _, True
  | _ => λ r s s', match r with
         | Ok _ => hiding a = true → isRevealed (p_view s') = false
         | Err e => p_view s' = failed a (apiErrorMessage e (tr l)) (p_view s) ∧ p_log s' = p_log s
         end
  end.

Definition replied (q : request) : reply q → page → page → Prop :=
  match q with Call a => call_replied a | _ => λ _ _ _, True end.

Definition tenant_spec : spec (E := event) := {|
  rely := λ s, page_ok (p_view s);
  asks := asked;
  started := λ _ _ _, True;
  resumed := replied |}.

(** ** The handlers keep it *)

(** Updates of nothing that [page_ok] looks at. *)
Definition neutral (u : update) : bool :=
  match u with
  | setReveal _ | setResOpen _ | setPick _ | setValues _ | setEditingField _ | setEditingFieldValue _
  | setEditingResource _ | setDuplicateTarget _ | setPendingResource _ | setNewDomainOpen _
  | setEditingDomain _ | setPendingDomain _ | setDeleteOpen _ => false
  | _ => true
  end.

Lemma neutral_ok u v : neutral u = true → page_ok v → page_ok (apply_update u v).
Proof. intros Hu []. destruct u; try done; by split. Qed.

Lemma hide_ok v : page_ok v → page_ok (apply_update (setReveal Reveal.LHide) v).
Proof. intros []. split; cbn; try done. by apply reveal_ok_step. Qed.

Lemma hide_hidden v : page_ok v → isRevealed (apply_update (setReveal Reveal.LHide) v) = false.
Proof. intros []. unfold isRevealed. cbn. by rewrite hidden_step. Qed.
End facts.

(** [page_ok] of a view under updates. *)
Ltac solve_ok :=
  repeat (first [apply neutral_ok; [reflexivity|] | apply hide_ok]);
  first [ assumption
        | lazymatch goal with
          | |- page_ok _ _ ?v =>
            let b := base apply_update v in
            match goal with Hb : page_ok _ _ b |- _ =>
              destruct Hb; split; cbn; intros;
              first [done|congruence|solve [auto using reveal_ok_step]|solve [firstorder congruence]] end
          end ].

Ltac hidden :=
  intros; unfold isRevealed; cbn; erewrite hidden_step; [reflexivity|];
  first [eapply ok_reveal, hide_ok; eassumption|eapply ok_reveal; eassumption].

Section keep.
Context `{CaseMap} (uuid : nat → jsstr) (l : Locale) (caps : capabilities) (id : jsstr).
#[local] Abbreviation keeps m s := (kept apply_update (tenant_spec l caps id) m s).
Abbreviation fine s := (page_ok caps id (p_view s)).

Lemma valid_alias_trim s : isValidResourceAlias s = true → isValidResourceAlias (trim s) = true.
Proof. unfold isValidResourceAlias. by rewrite trim_idem. Qed.

Lemma valid_hostname_trim s : isValidHostname s = true → isValidHostname (trim s) = true.
Proof. unfold isValidHostname. by rewrite trim_idem. Qed.

(** The leaves [run] leaves: contents, permissions, what is hidden. *)
Ltac leaf :=
  bool_to_prop;
  first [ reflexivity
        | hidden
        | by apply truthy_spec
        | apply trimmed_trim
        | by apply valid_alias_trim
        | by apply valid_hostname_trim
        | assumption
        | by eexists
        | match goal with Hs : page_ok _ _ _ |- can _ _ = true =>
            first [by apply (ok_creating _ _ _ Hs)|apply (ok_editing _ _ _ Hs); congruence
                  |apply (ok_identity _ _ _ Hs); congruence|apply (ok_duplicate _ _ _ Hs); congruence
                  |apply (ok_removal _ _ _ Hs); congruence|by apply (ok_domain _ _ _ Hs)
                  |apply (ok_rename _ _ _ Hs); congruence|apply (ok_domain_removal _ _ _ Hs); congruence
                  |by apply (ok_delete _ _ _ Hs)]
          end ].

Ltac handler := unfold kept; run apply_update ltac:(solve_ok).

Lemma keep_saveEdit s : fine s → keeps (saveEdit l id (p_view s)) s.
Proof. intros Hs. unfold saveEdit. handler; leaf. Qed.

Lemma keep_saveResource s :
  fine s → can caps resource_write = true → resourceValuesValid (p_view s) = true →
  keeps (saveResource uuid l id (p_view s)) s.
Proof.
  intros Hs Hw Hv. unfold saveResource. handler; try leaf. exists d.
  match goal with E : picked _ = Some d |- _ => apply find_some in E as [Ed Ek] end.
  apply filter_In in Ed as [Ed Es]. apply str_eqb_eq in Es. by rewrite list_elem_of_In.
Qed.

Lemma keep_saveResourceIdentity s : fine s → keeps (saveResourceIdentity l id (p_view s)) s.
Proof. intros Hs. unfold saveResourceIdentity. handler; leaf. Qed.

Lemma keep_toggleResource r s :
  fine s → can caps resource_write = true → r ∈ resources (p_view s) → keeps (toggleResource l id r) s.
Proof. intros Hs Hw Hr. unfold toggleResource. handler; leaf. Qed.

Lemma keep_removeResource s : fine s → keeps (removeResource l id (p_view s)) s.
Proof. intros Hs. unfold removeResource. handler; leaf. Qed.

Lemma keep_saveFieldEdit s : fine s → keeps (saveFieldEdit l id (p_view s)) s.
Proof. 
  intros Hs. unfold saveFieldEdit. handler; try leaf.
  match goal with E : editingField _ = Some ?f |- _ => exists f; rename E into Ef end.
  bool_to_prop. match goal with Hv : editingFieldValueValid _ = true |- _ =>
    unfold editingFieldValueValid in Hv; rewrite Ef in Hv end.
  split_and!; [done..|]. intros Hr. apply truthy_spec. by destruct (truthy _), (rfv_required _).
Qed.

Lemma keep_clearFieldOverride f s :
  fine s → can caps resource_write = true → keeps (clearFieldOverride l id f (p_view s)) s.
Proof. intros Hs Hw. unfold clearFieldOverride. handler; leaf. Qed.

Lemma keep_duplicateSelectedResource s : fine s → keeps (duplicateSelectedResource uuid l id (p_view s)) s.
Proof. intros Hs. unfold duplicateSelectedResource. handler; leaf. Qed.

Lemma keep_saveDomain s : fine s → newDomainOpen (p_view s) = true → keeps (saveDomain l id (p_view s)) s.
Proof. intros Hs Ho. unfold saveDomain. handler; leaf. Qed.

Lemma keep_saveDomainEdit s : fine s → keeps (saveDomainEdit l id (p_view s)) s.
Proof. intros Hs. unfold saveDomainEdit. handler; leaf. Qed.

Lemma keep_removeDomain s : fine s → keeps (removeDomain l id (p_view s)) s.
Proof. intros Hs. unfold removeDomain. handler; leaf. Qed.

Lemma keep_toggleSecrets s : fine s → can caps secret_reveal = true → keeps (toggleSecrets l id (p_view s)) s.
Proof. intros Hs Hc. unfold toggleSecrets. handler; leaf. Qed.

Lemma keep_deleteTenantPermanently s :
  fine s → deleteOpen (p_view s) = true → keeps (deleteTenantPermanently l id (p_view s)) s.
Proof. 
  intros Hs Ho. unfold deleteTenantPermanently. handler; try leaf. bool_to_prop.
  eexists. split; [eassumption|]. by apply str_eqb_eq.
Qed.

(** *** Event by event *)

Ltac quiet := try solve [bool_to_prop; repeat case_cond; handler; done].

Lemma keep_edit e s : fine s → keeps (edit_event l id e (p_view s)) s.
Proof.
  intros Hs. destruct e; cbn [edit_event]; unfold set_edit; group; quiet. by apply keep_saveEdit.
Qed.

Lemma keep_overview e s : fine s → keeps (overview_event caps e (p_view s)) s.
Proof. intros Hs. destruct e; cbn [overview_event]; group; [destruct code|]; unfold openEdit; handler. Qed.

Lemma keep_resource_origin choice candidates s : fine s → keeps (resource_origin_event choice candidates) s.
Proof. intros Hs. unfold resource_origin_event. group; quiet. Qed.

Lemma keep_resource_dialog e s : fine s → keeps (resource_dialog_event uuid l id e (p_view s)) s.
Proof.
  intros Hs. unfold resource_dialog_event. group. destruct e; group; unfold choose; quiet; [by apply keep_resource_origin|].
  unfold can_create in *. bool_to_prop. apply keep_saveResource; [done| |done]. by apply (ok_creating _ _ _ Hs).
Qed.

Lemma keep_details e s : fine s → keeps (details_event l caps id e (p_view s)) s.
Proof.
  intros Hs. unfold details_event, openFieldEdit. group. destruct e; group; quiet; bool_to_prop.
  - by apply keep_clearFieldOverride.
  - by apply keep_toggleSecrets.
  - apply keep_toggleResource; [done..|]. match goal with E : selectedResource _ = Some _ |- _ => apply find_some in E as [? _] end.
    by apply list_elem_of_In.
Qed.

Lemma keep_field_dialog e s : fine s → keeps (field_dialog_event l id e (p_view s)) s.
Proof.
  intros Hs. unfold field_dialog_event. group. destruct e; group; quiet. by apply keep_saveFieldEdit.
Qed.

Lemma keep_row e s : fine s → keeps (row_event l caps id e (p_view s)) s.
Proof. intros Hs. destruct e; cbn [row_event]; group; quiet.
  apply keep_toggleResource; [by bool_to_prop..|]. by eapply list_elem_of_lookup_2. Qed.

Lemma keep_identity e s : fine s → keeps (identity_event l id e (p_view s)) s.
Proof.
  intros Hs. unfold identity_event. group. destruct e; group; quiet. by apply keep_saveResourceIdentity.
Qed.

Lemma keep_duplicate e s : fine s → keeps (duplicate_event uuid l id e (p_view s)) s.
Proof.
  intros Hs. unfold duplicate_event. group. destruct e; group; quiet. by apply keep_duplicateSelectedResource.
Qed.

Lemma keep_confirm e s : fine s → keeps (confirm_event l id e (p_view s)) s.
Proof.
  intros Hs. destruct e; cbn [confirm_event]; group; quiet; [by apply keep_removeResource|by apply keep_removeDomain].
Qed.

Lemma keep_delete e t s : fine s → keeps (delete_event l id e t (p_view s)) s.
Proof.
  intros Hs. unfold delete_event. group. destruct e; group; quiet. by apply keep_deleteTenantPermanently.
Qed.

Lemma keep_domain_row e s : fine s → keeps (domain_row_event caps e (p_view s)) s.
Proof. intros Hs. destruct e; cbn [domain_row_event]; group; quiet. Qed.

Lemma keep_domain_dialog e s : fine s → keeps (domain_dialog_event l id e (p_view s)) s.
Proof.
  intros Hs. unfold domain_dialog_event. group. destruct e; group; quiet. by apply keep_saveDomain.
Qed.

Lemma keep_domain_edit e s : fine s → keeps (domain_edit_event l id e (p_view s)) s.
Proof.
  intros Hs. unfold domain_edit_event. group. destruct e; group; quiet. by apply keep_saveDomainEdit.
Qed.

Ltac by_group Hs :=
  lazymatch goal with
  | |- kept _ _ (edit_event _ _ _ _) _ => exact (keep_edit _ _ Hs)
  | |- kept _ _ (overview_event _ _ _) _ => exact (keep_overview _ _ Hs)
  | |- kept _ _ (resource_dialog_event _ _ _ _ _) _ => exact (keep_resource_dialog _ _ Hs)
  | |- kept _ _ (details_event _ _ _ _ _) _ => exact (keep_details _ _ Hs)
  | |- kept _ _ (field_dialog_event _ _ _ _) _ => exact (keep_field_dialog _ _ Hs)
  | |- kept _ _ (row_event _ _ _ _ _) _ => exact (keep_row _ _ Hs)
  | |- kept _ _ (identity_event _ _ _ _) _ => exact (keep_identity _ _ Hs)
  | |- kept _ _ (duplicate_event _ _ _ _ _) _ => exact (keep_duplicate _ _ Hs)
  | |- kept _ _ (confirm_event _ _ _ _) _ => exact (keep_confirm _ _ Hs)
  | |- kept _ _ (delete_event _ _ _ _ _) _ => exact (keep_delete _ _ _ Hs)
  | |- kept _ _ (domain_row_event _ _ _) _ => exact (keep_domain_row _ _ Hs)
  | |- kept _ _ (domain_dialog_event _ _ _ _) _ => exact (keep_domain_dialog _ _ Hs)
  | |- kept _ _ (domain_edit_event _ _ _ _) _ => exact (keep_domain_edit _ _ Hs)
  end.

Lemma keep_data u s : fine s → is_data u = true → keeps (set_all [u]) s.
Proof. intros Hs Hu. split; [done|]. apply neutral_ok; [|done]. by destruct u. Qed.

Lemma keep_outside x s : fine s → is_outside x = true → keeps (set_all [setReveal x]) s.
Proof.
  intros Hs Hx. split; [done|]. destruct Hs. split; cbn; try done. apply reveal_ok_step; [|done]. by destruct x.
Qed.

Lemma keep_handle e s : fine s → keeps (handle uuid l caps id e s) s.
Proof.
  intros Hs. destruct e; unfold handle; cbv beta iota zeta; group; cbv beta iota; try by_group Hs;
    try (by apply keep_data); try (by apply keep_outside); unfold openEdit; group; quiet.
Qed.

Lemma tenant_keeps : keeps_spec apply_update (handle uuid l caps id) (tenant_spec l caps id).
Proof. intros e s Hs. by apply keep_handle. Qed.

Lemma tenant_initial s : initial id s → rely (tenant_spec l caps id) s.
Proof.
  intros [strict tok e]. split; cbn; try done. split; [apply Reveal.reach_initial|].
  by destruct strict.
Qed.
End keep.
