(* ===== verification/TenantProps.v ===== *)
(** * The tenant page: its properties

    What the page asks of the server, what it shows of secrets, how it reports failures, when its
    busy flags go down, how a tenant is deleted and which keys its creations carry. *)
From Stdlib Require Import ZArith Lia List.
From stdpp Require Import base list sets gmap.
From S2P Require Import Reveal Regex Host Validation Json Idempotency Types Overview Api ApiCalls Query.
From S2P Require Import I18nPt I18nEn I18nEs I18n Admin Async TenantPage TenantFacts Prelude.
Import Validation.
#[local] Open Scope Z_scope.
#[local] Arguments Reveal.step : simpl never.

Section props.
Context `{CaseMap} (uuid : nat → jsstr) (l : Locale) (caps : capabilities) (id : jsstr).

(** The runs of the page. *)
Definition visited : machine → Prop :=
  Async.reachable apply_update (handle uuid l caps id) (initial id).

Lemma visited_ok m : visited m → page_ok caps id (p_view (m_page m)).
Proof. intros Hm. by apply (reachable_rely _ _ _ _ (tenant_initial l caps id) (tenant_keeps uuid l caps id)). Qed.

(** *** The flags *)

Definition creates (e : event) : bool := match e with ESaveResource => true | _ => false end.
Definition edits_field (e : event) : bool := match e with ESaveField => true | _ => false end.

Lemma creating_spared e s :
  creates e = false → only (spares apply_update isCreatingResource) (handle uuid l caps id e s).
Proof.
  intros He. destruct e; try done; unfold handle; cbv beta iota zeta; only_run. by destruct u.
Qed.

Lemma field_spared e s :
  edits_field e = false → only (spares apply_update isUpdatingField) (handle uuid l caps id e s).
Proof.
  intros He. destruct e; try done; unfold handle; cbv beta iota zeta; only_run. by destruct u.
Qed.

Lemma creating_held :
  holds_call apply_update (handle uuid l caps id) (isCreatingResource ∘ p_view) creates.
Proof.
  intros e s. destruct (creates e) eqn:He.
  - destruct e; try done. cbn [handle]. destruct (tenant (p_view s)) as [t|]; [cbn|by refused].
    unfold resource_dialog_event, when. destruct (resOpen (p_view s)); [|by refused].
    destruct (can_create (p_view s)) eqn:Hc; [|by refused]. unfold can_create in Hc. bool_to_prop.
    unfold saveResource. destruct (picked (p_view s)) as [d|]; [|by refused].
    case_match; [by refused|]. right. split; [done|]. hold_run apply_update.
  - by apply leaves_flag_only with (f := isCreatingResource); [|apply creating_spared].
Qed.

Lemma updating_held :
  holds_call apply_update (handle uuid l caps id) (isUpdatingField ∘ p_view) edits_field.
Proof.
  intros e s. destruct (edits_field e) eqn:He.
  - destruct e; try done. cbn [handle]. destruct (tenant (p_view s)) as [t|]; [cbn|by refused].
    unfold field_dialog_event. destruct (editingField (p_view s)) as [f|] eqn:Ef; [|by refused].
    cbn. unfold when. destruct (can_update_field f (p_view s)) eqn:Hc; [|by refused].
    unfold can_update_field in Hc. bool_to_prop. unfold saveFieldEdit. rewrite Ef.
    destruct (selectedResource (p_view s)); [|by refused]. case_match; [by refused|].
    right. split; [done|]. hold_run apply_update.
  - by apply leaves_flag_only with (f := isUpdatingField); [|apply field_spared].
Qed.

(** ** Properties *)


(** C14. A call that fails leaves its message where its form shows it, takes its busy flag down and
    changes nothing else: the dialogs stay open with what was typed, and nothing is announced. *)
Theorem tenant_failure_reported m i t a e (r : ∀ q, reply q) :
  visited m → m_threads m !! i = Some t → t_request t = Call a → revealing a = false →
  r (Call a) = Err e →
  let m' := machine_step apply_update (handle uuid l caps id) m (Reply i r) in
  p_view (m_page m') = failed a (apiErrorMessage e (tr l)) (p_view (m_page m)) ∧
  p_log (m_page m') = p_log (m_page m).
Proof.
  intros Hm Ht Eq Ha Hr.
  pose proof (reachable_resumed _ _ _ _ (tenant_initial l caps id) (tenant_keeps uuid l caps id) m i t r Hm Ht) as Hp.
  rewrite Eq in Hp. cbn [resumed tenant_spec replied] in Hp. cbv zeta. revert Hp.
  generalize (m_page (machine_step apply_update (handle uuid l caps id) m (Reply i r))).
  intros s'. destruct a; try done; cbn [call_replied]; rewrite Hr; done.
Qed.

(** A change of the tenant or of one of its resources that went through takes the clear secrets
    off the page. *)
Theorem tenant_changes_hide m i t a x (r : ∀ q, reply q) :
  visited m → m_threads m !! i = Some t → t_request t = Call a → hiding a = true → r (Call a) = Ok x →
  isRevealed (p_view (m_page (machine_step apply_update (handle uuid l caps id) m (Reply i r)))) = false.
Proof.
  intros Hm Ht Eq Ha Hr.
  pose proof (reachable_resumed _ _ _ _ (tenant_initial l caps id) (tenant_keeps uuid l caps id) m i t r Hm Ht) as Hp.
  rewrite Eq in Hp. cbn [resumed tenant_spec replied] in Hp. revert Hp.
  generalize (m_page (machine_step apply_update (handle uuid l caps id) m (Reply i r))).
  intros s'. destruct a; try done; cbn [call_replied]; rewrite Hr; auto.
Qed.

(** C15. The dialog of a resource shows a secret value in clear only out of the answer of a reveal
    of this tenant, made under the token that is stored now unless another tab's change of it
    has still to be heard; otherwise it shows the mask. *)
Theorem tenant_secrets_masked m f :
  visited m → rfv_isSecret f = true →
  let v := p_view (m_page m) in
  value_cell v f = SECRET_MASK ∨
  ∃ i q, Reveal.w_reqs (reveal v) !! i = Some q ∧ Reveal.rr_answer q = Some (Ok (resources v)) ∧
         Reveal.rr_tenant q = id ∧
         (Reveal.w_unseen (reveal v) = 0%nat → Reveal.rr_credential q = Reveal.w_token (reveal v)).
Proof.
  intros Hm Hf v. pose proof (ok_reveal _ _ _ (visited_ok m Hm)) as (Hr & Hmt & Ht). fold v in Hr, Hmt, Ht.
  apply reveal_reachable_inv in Hr. unfold value_cell, isRevealed, resources. rewrite Hf.
  destruct (Reveal.resources _) as [rs|] eqn:Ers; [right|by left].
  destruct (i_resources _ Hr rs Ers Hmt) as (i & q & [Hq Eq] & Ha & _ & Hqt & _).
  exists i, q. split_and!; [done..|congruence|]. by apply (i_credential _ Hr i q (conj Hq Eq)).
Qed.

(** What was typed is gone with its form: a closed dialog keeps neither the values of a new
    resource nor that of a field, and the editor of a secret field starts empty. *)
Theorem tenant_forms_erased m :
  visited m →
  let v := p_view (m_page m) in
  (resOpen v = false → values v = []) ∧
  (editingField v = None → editingFieldValue v = []) ∧
  ∀ i t r f, tenant v = Some t → selectedResource v = Some r → res_fields r !! i = Some f →
    rfv_isSecret f = true → can caps resource_write = true →
    let v' := p_view (m_page (machine_step apply_update (handle uuid l caps id) m (Event (EFieldEdit i)))) in
    editingField v' = Some f ∧ editingFieldValue v' = [].
Proof.
  intros Hm v. pose proof (visited_ok m Hm) as Hok. fold v in Hok. destruct Hok as [_ Hform Hfield _ _ _ _ _ _ _ _ _].
  split_and!; [intros E; by destruct (Hform E)|done|]. intros i t r f Et Er Ef Hs Hc. cbn. fold v. rewrite Et. cbn.
  unfold details_event. rewrite Er. cbn. unfold when. rewrite Hc, Ef. cbn. by rewrite Hs.
Qed.

(** C17. The two saving buttons are disabled by exactly the call they wait for: there is one of each
    kind at a time, and answering it, whatever the answers, enables the button again. *)
Theorem tenant_busy_ends m :
  visited m →
  busy apply_update (handle uuid l caps id) (isCreatingResource ∘ p_view) creates 2 m ∧
  busy apply_update (handle uuid l caps id) (isUpdatingField ∘ p_view) edits_field 2 m.
Proof.
  intros Hm. split; eapply busy_ends.
  all: try exact Hm.
  - by intros s [].
  - apply creating_held.
  - intros e s He. destruct e; try done. unfold handle; cbv beta iota zeta. within_run.
  - by intros s [].
  - apply updating_held.
  - intros e s He. destruct e; try done. unfold handle; cbv beta iota zeta. within_run.
Qed.

(** The requests of a page, each with what had been announced when it was sent. *)
Definition sent_after (m : machine (V := view) (U := update) (E := event)) : list (request * list effect) :=
  (λ x, (x.1, p_log x.2)) <$> m_sent m.

(** C16. Deleting a tenant: with the slug typed and the calls answered, the page calls the server
    once, then cancels and removes what is cached of the tenant and marks the lists stale; nothing
    has been announced by then, the deletion has been when it asks to go to the list of tenants; a
    refusal ends it at the call, nothing is announced and nothing is removed. *)
Theorem tenant_deletion m t (r : ∀ q, reply q) :
  visited m →
  let v := p_view (m_page m) in
  tenant v = Some t → deleteOpen v = true → deleteTenantPending v = false →
  trim (deleteConfirmation v) = tenant_slug t →
  let m1 := machine_step apply_update (handle uuid l caps id) m (Event EConfirmDelete) in
  let m2 := answer_all apply_update (handle uuid l caps id) 4 (m_next m) r m1 in
  let removal := removeTenantQueries id in
  let before := p_log (m_page m) in
  let announced := before ++ [Toast (tr l "tenantDetail.deleted")] in
  let done := is_ok (r (Call (deleteTenant id))) in
  sent_after m2 = sent_after m ++ (Call (deleteTenant id), before) ::
    (if done then [(Cache removal.1, before); (Cache removal.2, before); (Navigate "/tenants", announced)] else []) ∧
  p_log (m_page m2) = (if done then announced else before) ∧
  m_threads m2 !! m_next m = None ∧ isRevealed (p_view (m_page m2)) = false.
Proof.
  intros Hm v Et Ho Hp Hc. unfold sent_after. cbv zeta. pose proof (ok_reveal _ _ _ (visited_ok m Hm)) as Hr.
  sim apply_update. fold v. rewrite Et.
  assert (matchesTenantSlug (deleteConfirmation v) (tenant_slug t) = true) as Hs by by apply str_eqb_eq.
  unfold delete_event, deleteTenantPermanently, when, with_some. rewrite Ho, Hp, Et, Hs. sim apply_update.
  rewrite answer_waiting. destruct (r (Call (deleteTenant id))) as [x|e].
  - do 3 (sim apply_update; rewrite answer_waiting).
    sim apply_update. rewrite answer_all_none by apply lookup_delete_eq. cbn -[apply_update]. rewrite !fmap_app, <- !app_assoc. split_and!; [done..|apply lookup_delete_eq|].
    unfold isRevealed; cbn. by rewrite (hidden_step id).
  - sim apply_update. rewrite answer_returned. cbn -[apply_update].
    rewrite !fmap_app. split_and!; [done..|apply lookup_delete_eq|].
    unfold isRevealed; cbn. by rewrite (hidden_step id).
Qed.

(** The definition of the resource the form submits, when it does. *)
Definition submitted (v : view) : option Definition_ :=
  match tenant v with
  | Some _ => if resOpen v && can_create v then picked v else None
  | None => None
  end.

(** The view while a creation is under way. *)
Definition creating_view (ref : option attempt) (v : view) : view :=
  fold_left (λ v u, apply_update u v)
    [setResourceError []; setIsCreatingResource true; setReveal Reveal.LHide; setResourceCreateAttempt ref] v.

(** What submitting the form does, up to the reply and after it. *)
Lemma submit_cases s :
  match submitted (p_view s) with
  | None => sync apply_update (handle uuid l caps id ESaveResource s) s = (s, Returned)
  | Some d =>
    let '(key, ref, e) := stableIdempotencyKey uuid (resourceCreateAttempt (p_view s))
                            (resource_request (p_view s) d) (p_entropy s) in
    ∃ k, sync apply_update (handle uuid l caps id ESaveResource s) s =
           ({| p_view := creating_view ref (p_view s); p_entropy := e; p_log := p_log s |},
            Waiting (Call (create_call id (p_view s) d key)) k) ∧
         (∀ x s', sync apply_update (k (Err x)) s' =
            ({| p_view := failed (create_call id (p_view s) d key) (apiErrorMessage x (tr l)) (p_view s');
                p_entropy := p_entropy s'; p_log := p_log s' |}, Returned)) ∧
         ∀ s', ∃ k', sync apply_update (k (Ok tt)) s' = (s', Waiting (Cache (invalidateTenantResources id)) k') ∧
           ∀ s'', resourceCreateAttempt (p_view (sync apply_update (k' tt) s'').1) = None
  end.
Proof.
  unfold submitted. sim apply_update. destruct (tenant (p_view s)) as [t|]; [|done]. sim apply_update.
  unfold resource_dialog_event, when. destruct (resOpen (p_view s)); [|done]. sim apply_update.
  destruct (can_create (p_view s)) eqn:Hc; [|done]. unfold can_create in Hc. bool_to_prop.
  destruct (picked (p_view s)) as [d|] eqn:Ed; [|done].
  destruct (stableIdempotencyKey _ _ _ _) as [[key ref] ent] eqn:Ek.
  unfold saveResource. rewrite Ed.
  repeat match goal with Hb : ?b = true |- context [?b] => rewrite Hb end. sim apply_update.
  match goal with |- context [stableIdempotencyKey ?f ?a ?j ?e] =>
    change (stableIdempotencyKey f a j e) with
      (stableIdempotencyKey uuid (resourceCreateAttempt (p_view s)) (resource_request (p_view s) d) (p_entropy s))
  end.
  rewrite Ek. sim apply_update.
  eexists. split; [reflexivity|]. split; [done|]. intros s'. eexists. split; [reflexivity|done].
Qed.

(** What the form submits depends on its fields, its flag and the definitions. *)
Lemma submitted_ext v v' d :
  tenant v' = tenant v → resOpen v' = resOpen v → pick v' = pick v → resourceName v' = resourceName v →
  resourceAlias v' = resourceAlias v → sourceResourceId v' = sourceResourceId v → values v' = values v →
  definitionsData v' = definitionsData v → definitionDetails v' = definitionDetails v →
  isCreatingResource v' = false → submitted v = Some d → submitted v' = Some d.
Proof.
  intros E1 E2 E3 E4 E5 E6 E7 E8 E9 E0.
  unfold submitted, can_create, requiredFilled, resourceValuesValid, resourceAliasValid, pickedFields, value_of,
    picked, available, definitions. rewrite E0, E1, E2, E3, E4, E5, E6, E7, E8, E9.
  destruct (tenant v); [|done]. destruct (isCreatingResource v); [|done].
  by rewrite !andb_false_r.
Qed.

(** A creation that failed and is submitted again as it was is the same call with the same key,
    whatever failed; one that went through gives its key up, so the next creation draws another. *)
Theorem tenant_creation_retry m n e (r : ∀ q, reply q) c s :
  visited m → n = m_next m →
  let step := machine_step apply_update (handle uuid l caps id) in
  let m1 := step m (Event ESaveResource) in
  m_sent m1 = m_sent m ++ [(Call c, s)] →
  (r (Call c) = Err e →
   ∃ s', m_sent (step (step m1 (Reply n r)) (Event ESaveResource)) = m_sent m1 ++ [(Call c, s')]) ∧
  (is_ok (r (Call c)) = true →
   resourceCreateAttempt (p_view (m_page (answer_all apply_update (handle uuid l caps id) 2 n r m1))) = None).
Proof.
  intros Hm -> step m1. subst m1. pose proof (submit_cases (m_page m)) as Hc.
  destruct (submitted (p_view (m_page m))) as [d|] eqn:Ed.
  2: { unfold step at 1 2. cbn [machine_step]. rewrite Hc. intros Hs%(f_equal length). exfalso.
       cbn in Hs. rewrite length_app in Hs. cbn in Hs. lia. }
  destruct (stableIdempotencyKey _ _ _ _) as [[key ref] ent] eqn:Ek. destruct Hc as (k & Es & Hf & Ho).
  assert (step m (Event ESaveResource) = settle_thread ESaveResource (m_next m) (_, Waiting _ k) m) as ->
    by (unfold step; cbn [machine_step]; by rewrite Es).
  intros Hs. cbn in Hs. apply app_inv_head in Hs. injection Hs as <- <-. split.
  - intros Hr. unfold step at 2. rewrite reply_waiting, Hr, Hf. cbn [p_view p_entropy p_log].
    match goal with |- context [settle_thread _ _ (?s2, Returned) ?m2] => set (s2' := s2); set (m2' := m2) end.
    unfold step. cbn [machine_step]. cbn [m_page settle_thread fst].
    pose proof (submit_cases s2') as Hc2.
    assert (submitted (p_view s2') = Some d) as Ed2 by by apply (submitted_ext (p_view (m_page m))).
    rewrite Ed2 in Hc2.
    change (resource_request (p_view s2') d) with (resource_request (p_view (m_page m)) d) in Hc2.
    change (resourceCreateAttempt (p_view s2')) with ref in Hc2.
    rewrite (stable_again _ _ _ _ _ _ _ (p_entropy s2') Ek) in Hc2. destruct Hc2 as (k2 & Es2 & _).
    rewrite Es2. cbn. subst m2'. cbn. eexists. reflexivity.
  - destruct (r (Call _)) as [[]|] eqn:Hr; [intros _|done].
    rewrite answer_waiting, Hr.
    match goal with |- context [sync ?f (k ?x) ?s0] =>
      destruct (Ho s0) as (k' & Hk & Hk');
      replace (sync f (k x) s0) with (s0, Waiting (Cache (invalidateTenantResources id)) k')
        by (symmetry; exact Hk)
    end.
    rewrite answer_waiting. destruct (r (Cache _)). apply Hk'.
Qed.
End props.

(** ** Witnesses *)

Definition demo_tenant : Tenant :=
  {| tenant_id := "t1"; tenant_slug := "acme"; tenant_name := "Acme"; tenant_status := "active" |}.

Definition demo_definition : Definition_ :=
  {| def_id := "d1"; def_key := "postgres"; def_name := "Postgres"; def_description := []; def_icon := [];
     def_status := "active"; def_fieldCount := None; def_secretCount := None |}.

Definition demo_password : Field :=
  {| field_id := "f1"; field_resource_definition_id := "d1"; field_key := "password"; field_label := [];
     field_hint := []; field_data_type := "string"; field_required := true; field_is_secret := true;
     field_sort_order := 0 |}.

Definition demo_value : ResourceFieldValue :=
  {| rfv_key := "password"; rfv_label := []; rfv_dataType := "string"; rfv_required := true;
     rfv_isSecret := true; rfv_value := "hunter2"; rfv_isOverride := false; rfv_origin := local |}.

Definition demo_resource : TenantResource :=
  {| res_id := "r1"; res_alias := "postgres.main"; res_sourceResourceId := None; res_sourceAlias := None;
     res_linked := false; res_definitionKey := "postgres"; res_definitionId := "d1"; res_name := "Main";
     res_status := "active"; res_fields := [demo_value] |}.

Definition demo_uuid (n : nat) : jsstr := [Z.of_nat n].

Abbreviation demo_step :=
  (machine_step apply_update (@handle ascii_case_map demo_uuid en_US fullCapabilities "t1")).

Definition demo_load : list (label (E := event)) := Event <$> [
  EData (setTenant (Some demo_tenant)); EData (setDefinitionsData (Some [demo_definition]));
  EData (setDefinitionDetails {["d1" := {| dd_definition := demo_definition; dd_fields := [demo_password] |}]});
  EData (setResourcesData (Some [demo_resource]))].

(** The page of a tenant with its data loaded, and what happens on it. *)
Definition demo_run (ls : list label) : machine :=
  run_machine apply_update (@handle ascii_case_map demo_uuid en_US fullCapabilities "t1")
    (start_machine (initial_page "t1" false "tok" {| drawn := 0 |})) (demo_load ++ ls).

Lemma tenant_demo_visited ls : @visited ascii_case_map demo_uuid en_US fullCapabilities "t1" (demo_run ls).
Proof. unfold demo_run, visited. refine (reachable_run _ _ _ _ _ _). apply reach_start. constructor. Qed.

Definition fill_resource : list (label (E := event)) :=
  Event <$> [EAddResource; EChoose (Some 0%nat); EResourceName " Main "; EValue 0 "hunter2"].

Definition demo_creation : api_call :=
  createResource "t1" "Main" "postgres" "postgres" None [("password", "hunter2")] [0].

Definition last_page (m : machine (V := view) (U := update) (E := event)) : page :=
  default (m_page m) (snd <$> last (m_sent m)).

Definition demo_creating : machine := demo_run (fill_resource ++ [Event ESaveResource]).


(** The name of the tenant goes as it was typed. *)
Lemma tenant_name_untrimmed :
  fst <$> last (m_sent (demo_run (Event <$> [EOpenEdit; EEditName " Acme "; ESaveEdit]))) =
  Some (Call (updateTenant "t1" " Acme " "acme" "active")).
Proof. vm_compute. reflexivity. Qed.

Definition demo_thread (m : machine (V := view) (U := update) (E := event)) (i : nat) : thread :=
  default {| t_event := EOpenEdit; t_request := Navigate []; t_rest := λ _, Ret tt |} (m_threads m !! i).

Lemma tenant_failure_reported_witness :
  resourceError (p_view (m_page (demo_step demo_creating (Reply 8 refuse)))) =
    apiErrorMessage host_failure (tr en_US) ∧
  resOpen (p_view (m_page (demo_step demo_creating (Reply 8 refuse)))) = true.
Proof.
  destruct (@tenant_failure_reported ascii_case_map demo_uuid en_US fullCapabilities "t1" demo_creating 8
    (demo_thread demo_creating 8) demo_creation host_failure refuse (tenant_demo_visited _)) as [H _].
  - vm_compute. reflexivity.
  - vm_compute. reflexivity.
  - reflexivity.
  - reflexivity.
  - rewrite H. split; reflexivity.
Defined.

Definition demo_change : machine := demo_run [Event (EToggle 0)].

Lemma tenant_changes_hide_witness :
  isRevealed (p_view (m_page (demo_step demo_change (Reply 4 accept)))) = false.
Proof.
  apply (@tenant_changes_hide ascii_case_map demo_uuid en_US fullCapabilities "t1" demo_change 4
    (demo_thread demo_change 4) (setResourceStatus "t1" "r1" "inactive") tt accept (tenant_demo_visited _));
    vm_compute; reflexivity.
Defined.

Lemma tenant_secrets_masked_witness :
  value_cell (p_view (m_page (demo_run []))) demo_value = SECRET_MASK.
Proof.
  destruct (@tenant_secrets_masked ascii_case_map demo_uuid en_US fullCapabilities "t1" (demo_run []) demo_value
    (tenant_demo_visited _) eq_refl) as [Hm|(i & q & Hq & _)]; [exact Hm|].
  exfalso. revert Hq. vm_compute. destruct i; discriminate.
Defined.

Lemma tenant_forms_erased_witness :
  editingFieldValue (p_view (m_page (demo_step (demo_run [Event (ESelect 0)]) (Event (EFieldEdit 0))))) = [].
Proof.
  destruct (@tenant_forms_erased ascii_case_map demo_uuid en_US fullCapabilities "t1"
    (demo_run [Event (ESelect 0)]) (tenant_demo_visited _)) as (_ & _ & Hf).
  destruct (Hf 0%nat demo_tenant demo_resource demo_value) as [_ He]; [vm_compute; reflexivity..|exact He].
Defined.

Lemma tenant_busy_ends_witness :
  (isCreatingResource ∘ p_view) (m_page
    (answer_all apply_update (@handle ascii_case_map demo_uuid en_US fullCapabilities "t1") 2 8 refuse
       demo_creating)) = false.
Proof.
  destruct (@tenant_busy_ends ascii_case_map demo_uuid en_US fullCapabilities "t1" demo_creating (tenant_demo_visited _))
    as [[_ Hb] _].
  destruct Hb as (i & t & Et & _ & Hu & Hr); [vm_compute; reflexivity|].
  assert (8%nat = i) as <-; [|exact (Hr refuse)].
  apply (Hu 8%nat (demo_thread demo_creating 8)); vm_compute; reflexivity.
Defined.

Definition demo_deleting : machine := demo_run (Event <$> [EDelete; EDeleteConfirmation " acme"]).

Lemma tenant_deletion_witness :
  sent_after (answer_all apply_update (@handle ascii_case_map demo_uuid en_US fullCapabilities "t1") 4 6 accept
     (demo_step demo_deleting (Event EConfirmDelete))) =
  [(Call (deleteTenant "t1"), []); (Cache (removeTenantQueries "t1").1, []); (Cache (removeTenantQueries "t1").2, []);
   (Navigate "/tenants", [Toast (tr en_US "tenantDetail.deleted")])].
Proof.
  destruct (@tenant_deletion ascii_case_map demo_uuid en_US fullCapabilities "t1" demo_deleting demo_tenant accept
    (tenant_demo_visited _)) as [Hs _]; [vm_compute; reflexivity..|].
  etransitivity; [exact Hs|]. vm_compute. reflexivity.
Defined.

Lemma tenant_creation_retry_witness :
  let m1 := demo_step (demo_run fill_resource) (Event ESaveResource) in
  ∃ s, m_sent (demo_step (demo_step m1 (Reply 8 refuse)) (Event ESaveResource)) =
       m_sent m1 ++ [(Call demo_creation, s)].
Proof.
  destruct (@tenant_creation_retry ascii_case_map demo_uuid en_US fullCapabilities "t1" (demo_run fill_resource)
    8 host_failure refuse demo_creation (last_page demo_creating) (tenant_demo_visited _)) as [Hs _].
  - vm_compute. reflexivity.
  - vm_compute. reflexivity.
  - exact (Hs eq_refl).
Defined.
