(* ===== verification/SettingsPage.v ===== *)
(** * The settings page

    [src/web/src/routes/settings/-components/page.tsx]: the form of the runtime settings, saved a
    section at a time under the revision of the snapshot on the page.  [draft] is the whole of the
    values from the first edit on; the theorems say what a save sends, and that it sends back what
    another operator has changed since. *)
From Stdlib Require Import ZArith Lia List.
From stdpp Require Import base list sets gmap.
From S2P Require Import Regex Validation Json Idempotency Types Api ApiCalls Query.
From S2P Require Import I18nPt I18nEn I18nEs I18n Admin Async Prelude.
Import Validation.
#[local] Open Scope Z_scope.

(** ** State *)

Record view := {
  data : option AdminSettingsSnapshot;        (* [settingsQuery.data] *)
  loadError : option api_exn;                 (* [settingsQuery.error] *)
  draft : option (list (jsstr * jsstr));
  savingSection : option jsstr;
}.

(** The calls of the state setters, the writes of refs and the arrival of data. *)
Inductive update :=
  | setData (x : option AdminSettingsSnapshot) | setLoadError (x : option api_exn)
  | setDraft (x : option (list (jsstr * jsstr))) | setSavingSection (x : option jsstr).

Definition apply_update (u : update) (v : view) : view := {|
  data := match u with setData x => x | _ => data v end;
  loadError := match u with setLoadError x => x | _ => loadError v end;
  draft := match u with setDraft x => x | _ => draft v end;
  savingSection := match u with setSavingSection x => x | _ => savingSection v end |}.

Abbreviation page := (@Async.page view).
Abbreviation io := (@Async.io view update).

Definition SECTION_KEYS : list (jsstr * list jsstr) := [
  ("security", ["session_absolute_hours"; "session_idle_minutes"]);
  ("retention", ["usage_retention_months"; "audit_retention_days"; "webhook_delivery_retention_days";
                 "outbox_event_retention_days"]);
  ("apiClients", ["api_client_default_rpm"; "api_client_default_ttl_days"]);
  ("console", ["default_locale"])].

Definition section_keys (section : jsstr) : option (list jsstr) :=
  snd <$> List.find (λ s, str_eqb s.1 section) SECTION_KEYS.

Section page.
Context (l : Locale) (caps : capabilities).

Definition tr (key : jsstr) : jsstr := t l key.

(** ** What a render computes *)

Definition values (v : view) : list (jsstr * jsstr) :=
  match draft v with
  | Some d => d
  | None => match data v with Some s => ass_values s | None => [] end
  end.

(** [definitions.get(key)]: of two definitions of a key the map keeps the later. *)
Definition definition_of (v : view) (key : jsstr) : option AdminSettingDefinition :=
  match data v with
  | Some s => List.find (λ d, str_eqb (asd_key d) key) (reverse (ass_definitions s))
  | None => None
  end.

Definition settingValid (v : view) (key : jsstr) : bool :=
  let value := default [] (obj_get key (values v)) in
  match definition_of v key with
  | None => false
  | Some d =>
    match asd_type d with
    | st_enum => bool_decide (value ∈ default [] (asd_options d))
    | st_integer =>
      match asd_minimum d, asd_maximum d with
      | Some minimum, Some maximum => isIntegerInRange value minimum maximum
      | _, _ => false
      end
    end
  end.

(** ** Saving *)

(** [Object.fromEntries(keys.map((key) => [key, values[key]]))]; the printer leaves out the
    undefined ones. *)
Definition updates (keys : list jsstr) (vs : list (jsstr * jsstr)) : list (jsstr * jsstr) :=
  omap (λ key, pair key <$> obj_get key vs) keys.

(** [next[key] = updated.values[key]], for each key in turn. *)
Definition obj_assign (vs : list (jsstr * jsstr)) (key : jsstr) (o : list (jsstr * jsstr)) : list (jsstr * jsstr) :=
  match obj_get key vs with
  | Some x => obj_set key x o
  | None => List.filter (λ kv, negb (str_eqb kv.1 key)) o
  end.

Definition rebase (keys : list jsstr) (vs d : list (jsstr * jsstr)) : list (jsstr * jsstr) :=
  fold_left (λ o key, obj_assign vs key o) keys d.

Definition saveSection (section : jsstr) (keys : list jsstr) (v : view) : io unit :=
  match data v with
  | None => Ret tt
  | Some s =>
    if negb (forallb (settingValid v) keys) then Ret tt
    else
      set_all [setSavingSection (Some section)];;
      try_finally
        (try_catch
          (updated ← call (updateSettings (updates keys (values v)) (ass_revision s));
           set_all [setData (Some updated); setLoadError None];;
           Look (λ s, set_all [setDraft (rebase keys (ass_values updated) <$> draft (p_view s))]);;
           toast (tr "settings.saved"))
          (λ cause,
            toast (apiErrorMessage cause tr);;
            cache [[Invalidate false k_settings]]))
        (set_all [setSavingSection None])
  end.

(** ** Events *)

Inductive event :=
  | EField (key value : jsstr)
  | ESave (section : jsstr)
  | EData (s : AdminSettingsSnapshot)       (* the query brings a snapshot *)
  | EError (e : option api_exn).

Definition manages : bool := can caps settings_manage.

(** The control of a key that is defined; the choices of an enumeration are its options. *)
Definition field_event (key value : jsstr) (v : view) : io unit :=
  with_some (definition_of v key) (λ d,
    when (manages && match asd_type d with
                     | st_enum => bool_decide (value ∈ default [] (asd_options d))
                     | st_integer => true
                     end)
      (set_all [setDraft (Some (obj_set key value (values v)))])).

Definition save_event (section : jsstr) (v : view) : io unit :=
  with_some (section_keys section) (λ keys,
    when (manages && negb (match savingSection v with Some s => truthy s | None => false end)
          && match data v with Some _ => true | None => false end && forallb (settingValid v) keys)
      (saveSection section keys v)).

Definition handle (e : event) (s : page) : io unit :=
  let v := p_view s in
  match e with
  | EField key value => field_event key value v
  | ESave section => save_event section v
  | EData s => set_all [setData (Some s); setLoadError None]
  | EError e => set_all [setLoadError e]
  end.

Definition initial_page (e : entropy) : page := {|
  p_view := {| data := None; loadError := None; draft := None; savingSection := None |};
  p_entropy := e; p_log := [] |}.

Inductive initial : page → Prop := initial_intro e : initial (initial_page e).
End page.

#[export] Hint Unfold field_event save_event saveSection : pages.

(** ** Lemmas *)

(** The call a save may make: of one section, its values valid, under the snapshot's revision. *)
Definition save_ok (caps : capabilities) (q : request) (s : page) : Prop :=
  match q with
  | Call (updateSettings vs revision) =>
    can caps settings_manage = true ∧
    ∃ section keys d, section_keys section = Some keys ∧ data (p_view s) = Some d ∧
      vs = updates keys (values (p_view s)) ∧ revision = ass_revision d ∧
      ∀ key, key ∈ keys → settingValid (p_view s) key = true
  | Cache commands => commands = [Invalidate false k_settings]
  | _ => False
  end.

(** What a refused save leaves: its message said, the draft and the snapshot as they were. *)
Definition save_failed (l : Locale) (q : request) : reply q → page → page → Prop :=
  match q with
  | Call (updateSettings _ _) => λ r s s',
    match r with
    | Err e => p_view s' = p_view s ∧ p_log s' = p_log s ++ [Toast (apiErrorMessage e (tr l))]
    | Ok _ => True
    end
  | _ => λ _ _ _, True
  end.

Section facts.
Context (l : Locale) (caps : capabilities).

Definition settings_spec : spec (E := event) := {|
  rely := λ _, True; asks := save_ok caps; started := λ _ _ _, True; resumed := save_failed l |}.

#[local] Arguments section_keys : simpl never.

Lemma settings_kept e s : kept apply_update settings_spec (handle l caps e s) s.
Proof.
  destruct e as [key value|section|d|e]; unfold handle, field_event, save_event; cbv zeta; group;
    unfold kept; bool_to_prop; unfold saveSection; run apply_update ltac:(done).
  exists section. do 2 eexists. split_and!; [eassumption..|done|done|].
  intros key Hk. match goal with Hv : forallb _ _ = true |- _ => eapply forallb_forall in Hv; [exact Hv|] end.
  by apply list_elem_of_In.
Qed.

Lemma settings_keeps : keeps_spec apply_update (handle l caps) settings_spec.
Proof. intros e s _. apply settings_kept. Qed.

Definition visited : machine → Prop := Async.reachable apply_update (handle l caps) initial.

Definition saves (e : event) : bool := match e with ESave _ => true | _ => false end.
Definition saving (v : view) : bool := match savingSection v with Some s => truthy s | None => false end.

Lemma saving_spared e s : saves e = false → only (spares apply_update saving) (handle l caps e s).
Proof. intros He. destruct e; try done; unfold handle; cbv zeta; only_run. Qed.

Lemma section_named section keys : section_keys section = Some keys → truthy section = true.
Proof. intros Hk. destruct section; [|done]. by vm_compute in Hk. Qed.

Lemma saving_held : holds_call apply_update (handle l caps) (saving ∘ p_view) saves.
Proof.
  intros e s. destruct (saves e) eqn:He.
  - destruct e as [|section| |]; try done. cbn [handle]. unfold save_event.
    destruct (section_keys section) as [keys|] eqn:Ek; [cbn|by refused]. unfold when.
    destruct (manages caps && _ && _ && _) eqn:Hc; [|by refused]. bool_to_prop. unfold saveSection.
    destruct (data (p_view s)); [|by refused]. destruct (negb _) eqn:Hn; [by refused|]. right.
    apply section_named in Ek. split; [done|]. hold_run apply_update.
  - by apply leaves_flag_only with (f := saving); [|apply saving_spared].
Qed.

(** ** Properties *)

(** Every save the page makes is of one section of the form, by an operator who may: each of its
    values is valid for its definition, and it is made under the revision of the snapshot on the
    page. *)
Theorem settings_saves_valid m q s : visited m → (q, s) ∈ m_sent m → save_ok caps q s.
Proof.
  intros Hm Hq. exact (reachable_asks _ _ initial settings_spec (λ _ _, I) settings_keeps m q s Hm Hq).
Qed.

(** One section is saved at a time, and the saving buttons come back when the save has been
    answered, refused or not. *)
Theorem settings_busy_ends m : visited m → busy apply_update (handle l caps) (saving ∘ p_view) saves 2 m.
Proof.
  intros Hm. eapply busy_ends; [|apply saving_held| |exact Hm]; [by intros s []|].
  intros e s He. destruct e; try done. unfold handle; cbv zeta. within_run.
Qed.

(** C18. A lost update.  The first edit copies all the values of the snapshot into the draft; when a
    newer snapshot arrives with another operator's change (the page refetches it by itself, after a
    refused save too), saving sends the copy's value of each key of the section that was not
    edited, under the newer revision, so the server accepts it and the change is undone. *)
Theorem settings_save_reverts m s0 s1 section keys edited x key old :
  data (p_view (m_page m)) = Some s0 → draft (p_view (m_page m)) = None →
  section_keys section = Some keys → key ∈ keys → key ≠ edited → obj_get key (ass_values s0) = Some old →
  let step := machine_step apply_update (handle l caps) in
  let m1 := step m (Event (EField edited x)) in
  let m2 := step m1 (Event (EData s1)) in
  let m3 := step m2 (Event (ESave section)) in
  draft (p_view (m_page m1)) = Some (obj_set edited x (ass_values s0)) →
  m_sent m3 ≠ m_sent m2 →
  ∃ vs s, m_sent m3 = m_sent m2 ++ [(Call (updateSettings vs (ass_revision s1)), s)] ∧ (key, old) ∈ vs.
Proof.
  intros Hd Hn Hs Hk Hne Ho step m1 m2 m3 Hd1 Hsent.
  set (v2 := p_view (m_page m2)).
  assert (data v2 = Some s1 ∧ draft v2 = Some (obj_set edited x (ass_values s0))) as [Hv Hdr].
  { subst v2 m2. cbn. split; [done|exact Hd1]. }
  assert (sync apply_update (handle l caps (ESave section) (m_page m2)) (m_page m2) = (m_page m2, Returned) ∨
    ∃ s' k, sync apply_update (handle l caps (ESave section) (m_page m2)) (m_page m2) =
      (s', Waiting (Call (updateSettings (updates keys (values v2)) (ass_revision s1))) k)) as [E|(s' & k & E)].
  { cbn [handle]. fold v2. unfold save_event. rewrite Hs. cbn [with_some]. unfold when, saveSection. rewrite Hv.
    repeat case_cond; [by left|right|by left]. eexists _, _. reflexivity. }
  - destruct Hsent. subst m3. unfold step at 1. cbn [machine_step]. by rewrite E.
  - subst m3. unfold step at 1. cbn [machine_step]. rewrite E. eexists _, s'. split; [reflexivity|].
    unfold updates, values. rewrite Hdr. apply list_elem_of_omap. exists key. split; [done|].
    rewrite obj_get_set. destruct (str_eqb edited key) eqn:Ee; [apply str_eqb_eq in Ee; congruence|]. by rewrite Ho.
Qed.

(** A save that is refused is reported and leaves the draft as it was typed. *)
Theorem settings_refusal_keeps_draft m i t vs revision e (r : ∀ q, reply q) :
  visited m → m_threads m !! i = Some t → t_request t = Call (updateSettings vs revision) →
  r (Call (updateSettings vs revision)) = Err e →
  let m' := machine_step apply_update (handle l caps) m (Reply i r) in
  p_view (m_page m') = p_view (m_page m) ∧
  p_log (m_page m') = p_log (m_page m) ++ [Toast (apiErrorMessage e (tr l))].
Proof.
  intros Hm Ht Eq Hr.
  pose proof (reachable_resumed _ _ initial settings_spec (λ _ _, I) settings_keeps m i t r Hm Ht) as Hp.
  rewrite Eq in Hp. cbn [resumed settings_spec save_failed] in Hp. by rewrite Hr in Hp.
Qed.
End facts.

(** ** Witnesses *)

Definition demo_integer (key : jsstr) : AdminSettingDefinition :=
  {| asd_key := key; asd_type := st_integer; asd_default_value := "30"; asd_owner := "runtime";
     asd_minimum := Some 1; asd_maximum := Some 100; asd_options := None |}.

Definition demo_snapshot (revision : Z) (hours minutes : jsstr) : AdminSettingsSnapshot :=
  {| ass_revision := revision;
     ass_values := [("session_absolute_hours", hours); ("session_idle_minutes", minutes)];
     ass_definitions := demo_integer <$> ["session_absolute_hours"; "session_idle_minutes"] |}.

Abbreviation demo_step := (machine_step apply_update (handle en_US fullCapabilities)).

Definition demo_run (ls : list (label (E := event))) : machine :=
  run_machine apply_update (handle en_US fullCapabilities) (start_machine (initial_page {| drawn := 0 |})) ls.

Lemma settings_demo_visited ls : visited en_US fullCapabilities (demo_run ls).
Proof. unfold demo_run, visited. refine (reachable_run _ _ _ _ _ _). apply reach_start. constructor. Qed.

Definition demo_loaded : machine := demo_run [Event (EData (demo_snapshot 7 "8" "30"))].

Definition demo_saving : machine :=
  demo_run (Event <$> [EData (demo_snapshot 7 "8" "30"); EField "session_absolute_hours" "12"; ESave "security"]).

Definition demo_call : api_call :=
  updateSettings [("session_absolute_hours", "12"); ("session_idle_minutes", "30")] 7.

Lemma settings_saves_valid_witness :
  save_ok fullCapabilities (Call demo_call) (default (m_page demo_saving) (snd <$> head (m_sent demo_saving))).
Proof.
  apply (settings_saves_valid en_US fullCapabilities demo_saving _ _ (settings_demo_visited _)). vm_compute. left.
Defined.

Lemma settings_busy_ends_witness :
  (saving ∘ p_view) (m_page (answer_all apply_update (handle en_US fullCapabilities) 2 2 refuse demo_saving)) = false.
Proof.
  destruct (settings_busy_ends en_US fullCapabilities demo_saving (settings_demo_visited _)) as [_ Hb].
  destruct Hb as (i & t & Et & _ & Hu & Hr); [vm_compute; reflexivity|].
  assert (2%nat = i) as <-; [|exact (Hr refuse)].
  apply (Hu 2%nat (default {| t_event := ESave []; t_request := Navigate []; t_rest := λ _, Ret tt |}
    (m_threads demo_saving !! 2%nat))); vm_compute; reflexivity.
Defined.

Lemma settings_save_reverts_witness :
  let m1 := demo_step demo_loaded (Event (EField "session_absolute_hours" "12")) in
  let m2 := demo_step m1 (Event (EData (demo_snapshot 8 "8" "15"))) in
  let m3 := demo_step m2 (Event (ESave "security")) in
  ∃ vs s, m_sent m3 = m_sent m2 ++ [(Call (updateSettings vs 8), s)] ∧ ("session_idle_minutes" : jsstr, "30" : jsstr) ∈ vs.
Proof.
  apply (settings_save_reverts en_US fullCapabilities demo_loaded (demo_snapshot 7 "8" "30") (demo_snapshot 8 "8" "15")
    "security" ["session_absolute_hours"; "session_idle_minutes"] "session_absolute_hours" "12"
    "session_idle_minutes" "30"); [reflexivity..|right; left|discriminate|reflexivity|vm_compute; reflexivity|].
  vm_compute. discriminate.
Defined.

Lemma settings_refusal_keeps_draft_witness :
  draft (p_view (m_page (demo_step demo_saving (Reply 2 refuse)))) = draft (p_view (m_page demo_saving)).
Proof.
  destruct (settings_refusal_keeps_draft en_US fullCapabilities demo_saving 2
    (default {| t_event := ESave []; t_request := Navigate []; t_rest := λ _, Ret tt |} (m_threads demo_saving !! 2%nat))
    [("session_absolute_hours", "12"); ("session_idle_minutes", "30")] 7 host_failure refuse (settings_demo_visited _))
    as [H _]; [vm_compute; reflexivity..|]. by rewrite H.
Defined.
