(* ===== verification/DefinitionPage.v ===== *)
(** * The page of a resource definition

    [src/web/src/routes/definition-detail/-components/page.tsx]: a definition, its fields and the
    dialogs that change them, as handlers of [Async] over [view]. *)
From Stdlib Require Import ZArith Lia List.
From stdpp Require Import base list sets gmap.
From S2P Require Import Regex Validation Json Idempotency Types Api ApiCalls Query.
From S2P Require Import I18nPt I18nEn I18nEs I18n Admin Async Prelude.
Import Validation.
#[local] Open Scope Z_scope.

(** ** State *)

Record field_form := {
  f_key : jsstr; f_label : jsstr; f_dataType : jsstr; f_required : bool; f_isSecret : bool;
}.

Definition EMPTY : field_form :=
  {| f_key := []; f_label := []; f_dataType := "string"; f_required := false; f_isSecret := false |}.

Record field_edit_form := { fe_label : jsstr; fe_required : bool }.
Record definition_form := { df_name : jsstr; df_description : jsstr }.

Record view := {
  error : jsstr;
  fieldError : jsstr;
  open : bool;
  f : field_form;
  editingField : option Field;
  fieldEditForm : field_edit_form;
  fieldEditError : jsstr;
  pendingField : option Field;
  editOpen : bool;
  removeOpen : bool;
  editForm : definition_form;
  addFieldPending : bool;                     (* [addFieldMutation.isPending], and so on *)
  updateFieldPending : bool;
  updateDefinitionPending : bool;
  deleteDefinitionPending : bool;
  detail : option DefinitionDetail;           (* [detailQuery.data] *)
  detailError : option api_exn;               (* [detailQuery.error] *)
}.

(** The calls of the state setters, the writes of refs and the arrival of data. *)
Inductive update :=
  | setError (x : jsstr) | setFieldError (x : jsstr) | setOpen (x : bool) | setF (x : field_form)
  | setEditingField (x : option Field) | setFieldEditForm (x : field_edit_form)
  | setFieldEditError (x : jsstr) | setPendingField (x : option Field) | setEditOpen (x : bool)
  | setRemoveOpen (x : bool) | setEditForm (x : definition_form) | setAddFieldPending (x : bool)
  | setUpdateFieldPending (x : bool) | setUpdateDefinitionPending (x : bool)
  | setDeleteDefinitionPending (x : bool) | setDetail (x : option DefinitionDetail)
  | setDetailError (x : option api_exn).

Definition apply_update (u : update) (v : view) : view := {|
  error := match u with setError x => x | _ => error v end;
  fieldError := match u with setFieldError x => x | _ => fieldError v end;
  open := match u with setOpen x => x | _ => open v end;
  f := match u with setF x => x | _ => f v end;
  editingField := match u with setEditingField x => x | _ => editingField v end;
  fieldEditForm := match u with setFieldEditForm x => x | _ => fieldEditForm v end;
  fieldEditError := match u with setFieldEditError x => x | _ => fieldEditError v end;
  pendingField := match u with setPendingField x => x | _ => pendingField v end;
  editOpen := match u with setEditOpen x => x | _ => editOpen v end;
  removeOpen := match u with setRemoveOpen x => x | _ => removeOpen v end;
  editForm := match u with setEditForm x => x | _ => editForm v end;
  addFieldPending := match u with setAddFieldPending x => x | _ => addFieldPending v end;
  updateFieldPending := match u with setUpdateFieldPending x => x | _ => updateFieldPending v end;
  updateDefinitionPending := match u with setUpdateDefinitionPending x => x | _ => updateDefinitionPending v end;
  deleteDefinitionPending := match u with setDeleteDefinitionPending x => x | _ => deleteDefinitionPending v end;
  detail := match u with setDetail x => x | _ => detail v end;
  detailError := match u with setDetailError x => x | _ => detailError v end |}.

Abbreviation page := (@Async.page view).
Abbreviation io := (@Async.io view update).

Section page.
Context (l : Locale) (caps : capabilities) (id : jsstr).

Definition tr (key : jsstr) : jsstr := t l key.

Definition fieldKeyValid (v : view) : bool := isValidDefinitionKey (f_key (f v)).

Definition visibleError (v : view) : jsstr :=
  str_or (error v) (match detailError v with Some e => apiErrorMessage e tr | None => [] end).

(** The text of the type of a field in its editor. *)
Definition dataTypeLabel (field : Field) : jsstr :=
  if str_eqb (field_data_type field) "bool" then tr "definitionDetail.dataTypeBool"
  else if str_eqb (field_data_type field) "int" then tr "definitionDetail.dataTypeInt"
  else tr "definitionDetail.dataTypeString".

(** ** Mutations *)

Definition unread (pending : bool) : list update := [].

(** [Promise.all] of the two invalidations: both are started before either is awaited. *)
Definition after_change {A} (_ : A) : io unit :=
  cache [invalidateDefinition id ++ invalidateAllTenantResources].

Definition addFieldMutation (field : field_form) : io unit :=
  mutateAsync (λ b, [setAddFieldPending b])
    (call (ApiCalls.addField id (f_key field) (Some (f_label field)) (Some (f_dataType field))
             (Some (f_required field)) (Some (f_isSecret field)))) after_change.

Definition deleteFieldMutation (fieldId : jsstr) : io unit :=
  mutateAsync unread (call (deleteField id fieldId)) after_change.

Definition updateFieldMutation (fieldId : jsstr) (form : field_edit_form) : io Field :=
  mutateAsync (λ b, [setUpdateFieldPending b])
    (call (updateDefinitionField id fieldId (fe_label form) (fe_required form))) after_change.

Definition statusMutation (status : jsstr) : io unit :=
  mutateAsync unread (call (setDefinitionStatus id status)) after_change.

Definition updateDefinitionMutation (body : definition_form) : io Definition_ :=
  mutateAsync (λ b, [setUpdateDefinitionPending b])
    (call (updateDefinition id (df_name body) (df_description body))) after_change.

Definition deleteDefinitionMutation : io unit :=
  mutateAsync (λ b, [setDeleteDefinitionPending b]) (call (deleteDefinition id)) (λ _, Ret tt).

(** ** Handlers *)

Definition addField (v : view) : io unit :=
  if negb (fieldKeyValid v) then Ret tt
  else if negb (truthy (trim (f_key (f v)))) then Ret tt
  else
    try_catch
      (addFieldMutation (f v);;
       set_all [setF EMPTY; setFieldError []; setOpen false];;
       toast (tr "definitionDetail.fieldAdded"))
      (λ e, set_all [setFieldError (apiErrorMessage e tr)]).

Definition removeField (v : view) : io unit :=
  match pendingField v with
  | None => Ret tt
  | Some field =>
    try_catch
      (deleteFieldMutation (field_id field);;
       set_all [setError []; setPendingField None];;
       toast (tr "definitionDetail.fieldRemoved"))
      (λ e, set_all [setError (apiErrorMessage e tr)])
  end.

Definition openFieldEditor (field : Field) : io unit :=
  set_all [setFieldEditError [];
           setFieldEditForm {| fe_label := field_label field; fe_required := field_required field |};
           setEditingField (Some field)].

Definition saveField (v : view) : io unit :=
  match editingField v with
  | None => Ret tt
  | Some field =>
    try_catch
      (_ ← updateFieldMutation (field_id field) (fieldEditForm v);
       set_all [setEditingField None; setFieldEditError []];;
       toast (tr "definitionDetail.fieldUpdated"))
      (λ e, set_all [setFieldEditError (apiErrorMessage e tr)])
  end.

Definition next_status (d : Definition_) : jsstr :=
  if str_eqb (def_status d) "active" then "inactive" else "active".

Definition toggleStatus (v : view) : io unit :=
  match detail v with
  | None => Ret tt
  | Some d =>
    let next := next_status (dd_definition d) in
    try_catch
      (statusMutation next;;
       set_all [setError []];;
       toast (if str_eqb next "active" then tr "definitionDetail.statusActivated"
              else tr "definitionDetail.statusDeactivated"))
      (λ e, set_all [setError (apiErrorMessage e tr)])
  end.

Definition openEditor (v : view) : io unit :=
  match detail v with
  | None => Ret tt
  | Some d =>
    set_all [setError [];
             setEditForm {| df_name := def_name (dd_definition d); df_description := def_description (dd_definition d) |};
             setEditOpen true]
  end.

Definition saveDefinition (v : view) : io unit :=
  if negb (truthy (trim (df_name (editForm v)))) then Ret tt
  else
    try_catch
      (_ ← updateDefinitionMutation (editForm v);
       set_all [setEditOpen false; setError []];;
       toast (tr "definitionDetail.updated"))
      (λ e, set_all [setError (apiErrorMessage e tr)]).

Definition removeDefinition : io unit :=
  try_catch
    (deleteDefinitionMutation;;
     cache [invalidateAllTenantResources];;
     set_all [setRemoveOpen false];;
     toast (tr "definitionDetail.removed");;
     Await (Navigate "/resource-definitions") Ret)
    (λ e, set_all [setRemoveOpen false; setError (apiErrorMessage e tr)]).

(** ** Events *)

Inductive event :=
  | ENewField | EFieldDialog (b : bool) | EFieldKey (s : jsstr) | EFieldLabel (s : jsstr)
  | EFieldType (s : jsstr) | EFieldRequired (b : bool) | EFieldSecret (b : bool) | EAddField
  | EEditField (i : nat) | EFieldEditDialog (b : bool) | EFieldEditLabel (s : jsstr)
  | EFieldEditRequired (b : bool) | ESaveField
  | EAskRemoveField (i : nat) | ERemoveFieldDialog (b : bool) | ERemoveField
  | EEdit | EEditDialog (b : bool) | EEditName (s : jsstr) | EEditDescription (s : jsstr) | ESaveDefinition
  | EToggle
  | EAskRemove | ERemoveDialog (b : bool) | ERemove
  | EData (d : option DefinitionDetail) (e : option api_exn).

Definition writes : bool := can caps resource_write.

Definition new_field_event (e : event) (v : view) : io unit :=
  let set (g : field_form) := set_all [setF g] in
  let x := f v in
  when (open v)
    match e with
    | EFieldDialog b => set_all [setOpen b]
    | EFieldKey s =>
      set {| f_key := s; f_label := f_label x; f_dataType := f_dataType x; f_required := f_required x;
             f_isSecret := f_isSecret x |}
    | EFieldLabel s =>
      set {| f_key := f_key x; f_label := s; f_dataType := f_dataType x; f_required := f_required x;
             f_isSecret := f_isSecret x |}
    | EFieldType s =>
      when (bool_decide (s = "string" ∨ s = "int" ∨ s = "bool"))
        (set {| f_key := f_key x; f_label := f_label x; f_dataType := s; f_required := f_required x;
                f_isSecret := f_isSecret x |})
    | EFieldRequired b =>
      set {| f_key := f_key x; f_label := f_label x; f_dataType := f_dataType x; f_required := b;
             f_isSecret := f_isSecret x |}
    | EFieldSecret b =>
      set {| f_key := f_key x; f_label := f_label x; f_dataType := f_dataType x; f_required := f_required x;
             f_isSecret := b |}
    | EAddField => when (fieldKeyValid v && negb (addFieldPending v)) (addField v)
    | _ => Ret tt
    end.

Definition field_edit_event (e : event) (v : view) : io unit :=
  let x := fieldEditForm v in
  with_some (editingField v) (λ _,
    match e with
    | EFieldEditDialog b => when (negb b) (set_all [setEditingField None; setFieldEditError []])
    | EFieldEditLabel s => set_all [setFieldEditForm {| fe_label := s; fe_required := fe_required x |}]
    | EFieldEditRequired b => set_all [setFieldEditForm {| fe_label := fe_label x; fe_required := b |}]
    | ESaveField => when (negb (updateFieldPending v)) (saveField v)
    | _ => Ret tt
    end).

Definition edit_event (e : event) (v : view) : io unit :=
  let x := editForm v in
  when (editOpen v)
    match e with
    | EEditDialog b => set_all [setEditOpen b]
    | EEditName s => set_all [setEditForm {| df_name := s; df_description := df_description x |}]
    | EEditDescription s => set_all [setEditForm {| df_name := df_name x; df_description := s |}]
    | ESaveDefinition =>
      when (truthy (trim (df_name x)) && negb (updateDefinitionPending v)) (saveDefinition v)
    | _ => Ret tt
    end.

(** The header, the rows of the fields and the two confirmations. *)
Definition page_event (e : event) (d : DefinitionDetail) (v : view) : io unit :=
  match e with
  | ENewField => when writes (set_all [setF EMPTY; setFieldError []; setOpen true])
  | EEdit => when writes (openEditor v)
  | EAskRemove => when writes (set_all [setRemoveOpen true])
  | EToggle => when writes (toggleStatus v)
  | EEditField i => when writes (with_some (dd_fields d !! i) openFieldEditor)
  | EAskRemoveField i => when writes (with_some (dd_fields d !! i) (λ field, set_all [setPendingField (Some field)]))
  | ERemoveFieldDialog b => when (negb b) (set_all [setPendingField None])
  | ERemoveField => with_some (pendingField v) (λ _, removeField v)
  | ERemoveDialog b => when (removeOpen v) (set_all [setRemoveOpen b])
  | ERemove => when (removeOpen v && negb (deleteDefinitionPending v)) removeDefinition
  | _ => Ret tt
  end.

Definition handle (e : event) (s : page) : io unit :=
  let v := p_view s in
  match e with
  | EData d e => set_all [setDetail d; setDetailError e]
  | EFieldDialog _ | EFieldKey _ | EFieldLabel _ | EFieldType _ | EFieldRequired _ | EFieldSecret _
  | EAddField => with_some (detail v) (λ _, new_field_event e v)
  | EFieldEditDialog _ | EFieldEditLabel _ | EFieldEditRequired _ | ESaveField =>
    with_some (detail v) (λ _, field_edit_event e v)
  | EEditDialog _ | EEditName _ | EEditDescription _ | ESaveDefinition =>
    with_some (detail v) (λ _, edit_event e v)
  | _ => with_some (detail v) (λ d, page_event e d v)
  end.

Definition initial_page (e : entropy) : page := {|
  p_view := {| error := []; fieldError := []; open := false; f := EMPTY; editingField := None;
    fieldEditForm := {| fe_label := []; fe_required := false |}; fieldEditError := [];
    pendingField := None; editOpen := false; removeOpen := false;
    editForm := {| df_name := []; df_description := [] |}; addFieldPending := false;
    updateFieldPending := false; updateDefinitionPending := false; deleteDefinitionPending := false;
    detail := None; detailError := None |};
  p_entropy := e; p_log := [] |}.

Inductive initial : page → Prop := initial_intro e : initial (initial_page e).
End page.

#[export] Hint Unfold new_field_event field_edit_event edit_event page_event addField removeField
  openFieldEditor saveField toggleStatus openEditor saveDefinition removeDefinition : pages.

(** ** What the page asks for and what a reply does *)

(** The dialogs are open for those who may write. *)
Record page_ok (caps : capabilities) (v : view) : Prop := {
  ok_open : open v = true → can caps resource_write = true;
  ok_type : f_dataType (f v) = "string" ∨ f_dataType (f v) = "int" ∨ f_dataType (f v) = "bool";
  ok_field : editingField v ≠ None → can caps resource_write = true;
  ok_pending : pendingField v ≠ None → can caps resource_write = true;
  ok_edit : editOpen v = true → can caps resource_write = true;
  ok_remove : removeOpen v = true → can caps resource_write = true;
}.

Definition definition_call_ok (caps : capabilities) (id : jsstr) (a : api_call) (v : view) : Prop :=
  can caps resource_write = true ∧
  match a with
  | ApiCalls.addField i key label type required secret =>
    i = id ∧ isValidDefinitionKey key = true ∧
    (type = Some "string" ∨ type = Some "int" ∨ type = Some "bool") ∧
    label ≠ None ∧ required ≠ None ∧ secret ≠ None
  | updateDefinitionField i fieldId _ _ =>
    i = id ∧ ∃ field, editingField v = Some field ∧ field_id field = fieldId
  | deleteField i fieldId => i = id ∧ ∃ field, pendingField v = Some field ∧ field_id field = fieldId
  | setDefinitionStatus i status =>
    i = id ∧ ∃ d, detail v = Some d ∧ status = next_status (dd_definition d)
  | updateDefinition i name _ => i = id ∧ trim name ≠ []
  | deleteDefinition i => i = id ∧ removeOpen v = true
  | _ => False
  end.

Definition asked (caps : capabilities) (id : jsstr) (q : request) (s : page) : Prop :=
  match q with
  | Call a => definition_call_ok caps id a (p_view s)
  | Cache _ => True
  | Navigate to => to = "/resource-definitions"
  | Download _ | WriteClipboard _ => False
  end.

Definition failed (a : api_call) (message : jsstr) (v : view) : view :=
  let set us := fold_left (λ v u, apply_update u v) us v in
  match a with
  | ApiCalls.addField _ _ _ _ _ _ => set [setAddFieldPending false; setFieldError message]
  | updateDefinitionField _ _ _ _ => set [setUpdateFieldPending false; setFieldEditError message]
  | updateDefinition _ _ _ => set [setUpdateDefinitionPending false; setError message]
  | deleteDefinition _ => set [setDeleteDefinitionPending false; setRemoveOpen false; setError message]
  | _ => set [setError message]
  end.

Definition replied (l : Locale) (q : request) : reply q → page → page → Prop :=
  match q with
  | Call a => λ r s s',
    match r with
    | Ok _ => True
    | Err e => p_view s' = failed a (apiErrorMessage e (tr l)) (p_view s) ∧ p_log s' = p_log s
    end
  | _ => λ _ _ _, True
  end.

Section facts.
Context (l : Locale) (caps : capabilities) (id : jsstr).

Definition definition_spec : spec (E := event) := {|
  rely := λ s, page_ok caps (p_view s);
  asks := asked caps id;
  started := λ _ _ _, True;
  resumed := replied l |}.

(** [page_ok] under updates. *)
Ltac solve_ok :=
  lazymatch goal with
  | |- page_ok _ ?v =>
    let b := base apply_update v in
    match goal with Hb : page_ok _ b |- _ =>
      destruct Hb; split; cbn; intros; first [assumption|congruence|solve [auto]] end
  end.

Ltac leaf :=
  bool_to_prop;
  first [ solve_ok | assumption | by apply truthy_spec | by eauto
        | match goal with Hs : page_ok _ _ |- can _ _ = true =>
            first [by apply (ok_open _ _ Hs)|apply (ok_field _ _ Hs); congruence
                  |apply (ok_pending _ _ Hs); congruence|by apply (ok_edit _ _ Hs)
                  |by apply (ok_remove _ _ Hs)] end ].

Lemma definition_kept e s : page_ok caps (p_view s) → kept apply_update definition_spec (handle l caps id e s) s.
Proof.
  intros Hs. destruct e; unfold handle; cbv beta iota zeta; group; cbv beta iota;
    unfold new_field_event, field_edit_event, edit_event, page_event; cbv zeta beta iota; group;
    unfold kept, addField, removeField, openFieldEditor, saveField, toggleStatus, openEditor, saveDefinition,
      removeDefinition; run apply_update ltac:(leaf).
  all: unfold definition_call_ok; split_and!; try leaf; try done.
  by destruct (ok_type _ _ Hs) as [-> | [-> | ->]]; auto.
Qed.

Lemma definition_keeps : keeps_spec apply_update (handle l caps id) definition_spec.
Proof. intros e s Hs. by apply definition_kept. Qed.

Lemma definition_initial s : initial s → rely definition_spec s.
Proof. intros [e]. split; cbn; auto; done. Qed.

Definition visited : machine → Prop := Async.reachable apply_update (handle l caps id) initial.

(** ** Properties *)

(** What the page asks of the server is of its definition and from an operator who may write:
    a new field has a valid key and a type of the three, an edited or removed one is the one on
    the dialog, a status is the other one, a name is not blank, and the definition is removed
    only from the dialog that asks. *)
Theorem definition_calls_valid m a s :
  visited m → (Call a, s) ∈ m_sent m → definition_call_ok caps id a (p_view s).
Proof.
  intros Hm Ha. exact (reachable_asks _ _ _ _ definition_initial definition_keeps m (Call a) s Hm Ha).
Qed.

(** A call that fails shows its message and takes its busy flag down; the form keeps what was
    typed, and only the confirmation of a removal closes. *)
Theorem definition_failure_reported m i t a e (r : ∀ q, reply q) :
  visited m → m_threads m !! i = Some t → t_request t = Call a → r (Call a) = Err e →
  let m' := machine_step apply_update (handle l caps id) m (Reply i r) in
  p_view (m_page m') = failed a (apiErrorMessage e (tr l)) (p_view (m_page m)) ∧
  p_log (m_page m') = p_log (m_page m).
Proof.
  intros Hm Ht Eq Hr.
  pose proof (reachable_resumed _ _ _ _ definition_initial definition_keeps m i t r Hm Ht) as Hp.
  rewrite Eq in Hp. cbn [resumed definition_spec replied] in Hp. by rewrite Hr in Hp.
Qed.

(** A definition removed on its page is still listed.  Once the server has removed it the page
    marks the tenants' resources stale and goes to the list of definitions, but no command it has
    run touches the cached list: with nothing else happening it is shown from the cache, with the
    removed definition, for as long as it is fresh. *)
Theorem definition_removal_listed {cache data : Type} `{QueryCache cache data} m (r : ∀ q, reply q) (c : cache) :
  visited m → (∃ d, detail (p_view (m_page m)) = Some d) → removeOpen (p_view (m_page m)) = true →
  deleteDefinitionPending (p_view (m_page m)) = false →
  is_ok (r (Call (deleteDefinition id))) = true →
  let m1 := machine_step apply_update (handle l caps id) m (Event ERemove) in
  let m2 := answer_all apply_update (handle l caps id) 3 (m_next m) r m1 in
  (m_sent m2).*1 = (m_sent m).*1 ++
    [Call (deleteDefinition id); Cache invalidateAllTenantResources; Navigate "/resource-definitions"] ∧
  cached (runs invalidateAllTenantResources c) k_definitions = cached c k_definitions ∧
  stale (runs invalidateAllTenantResources c) k_definitions = stale c k_definitions.
Proof.
  intros Hm [d Hd] Ho Hp Hr. split.
  - sim apply_update. rewrite Hd. sim apply_update. unfold page_event, when. rewrite Ho, Hp. unfold removeDefinition. sim apply_update.
    rewrite answer_waiting. destruct (r (Call (deleteDefinition id))); [|done].
    do 2 (sim apply_update; rewrite answer_waiting). sim apply_update.
    cbn -[apply_update]. by rewrite !fmap_app, <- !app_assoc.
  - split; [by apply cached_invalidates|]. rewrite stale_invalidates by done. apply orb_false_r.
Qed.
End facts.

(** ** Witnesses *)

Definition demo_definition : Definition_ :=
  {| def_id := "d1"; def_key := "postgres"; def_name := "Postgres"; def_description := []; def_icon := [];
     def_status := "active"; def_fieldCount := None; def_secretCount := None |}.

Definition demo_load : event := EData (Some {| dd_definition := demo_definition; dd_fields := [] |}) None.

Abbreviation demo_step := (machine_step apply_update (handle en_US fullCapabilities "d1")).

Definition demo_run (es : list event) : machine :=
  run_machine apply_update (handle en_US fullCapabilities "d1") (start_machine (initial_page {| drawn := 0 |}))
    (Event <$> demo_load :: es).

Lemma definition_demo_visited es : visited en_US fullCapabilities "d1" (demo_run es).
Proof. unfold demo_run, visited. refine (reachable_run _ _ _ _ _ _). apply reach_start. constructor. Qed.

Definition demo_adding : machine := demo_run [ENewField; EFieldKey "host"; EAddField].

Definition demo_call : api_call :=
  ApiCalls.addField "d1" "host" (Some []) (Some "string") (Some false) (Some false).

Definition demo_thread (m : machine (V := view) (U := update) (E := event)) (i : nat) : thread :=
  default {| t_event := EToggle; t_request := Navigate []; t_rest := λ _, Ret tt |} (m_threads m !! i).

Lemma definition_calls_valid_witness :
  definition_call_ok fullCapabilities "d1" demo_call
    (p_view (default (m_page demo_adding) (snd <$> head (m_sent demo_adding)))).
Proof. apply (definition_calls_valid en_US fullCapabilities "d1" demo_adding _ _ (definition_demo_visited _)). vm_compute. left. Defined.

Lemma definition_failure_reported_witness :
  fieldError (p_view (m_page (demo_step demo_adding (Reply 3 refuse)))) = apiErrorMessage host_failure (tr en_US).
Proof.
  destruct (definition_failure_reported en_US fullCapabilities "d1" demo_adding 3 (demo_thread demo_adding 3)
    demo_call host_failure refuse (definition_demo_visited _)) as [H _]; [vm_compute; reflexivity..|]. by rewrite H.
Defined.

Definition demo_removing : machine := demo_run [EAskRemove].

Definition listed_cache : map_state nat :=
  {| ms_queries := {[ k_definitions := {| e_data := Some 3%nat; e_stale := false; e_loading := false |} ]}; ms_hooks := ∅ |}.

Lemma definition_removal_listed_witness :
  cached (runs invalidateAllTenantResources listed_cache) k_definitions = cached listed_cache k_definitions.
Proof.
  destruct (definition_removal_listed en_US fullCapabilities "d1" demo_removing accept listed_cache (definition_demo_visited _))
    as (_ & H & _); [eexists; vm_compute; reflexivity|vm_compute; reflexivity..|exact H].
Defined.
