(* ===== verification/DefinitionsPage.v ===== *)
(** * The page of the resource definitions

    [src/web/src/routes/definitions/-components/page.tsx]: the list of the definitions, their
    creation, edition, activation and removal, as handlers of [Async] over [view]. *)
From Stdlib Require Import ZArith Lia List.
From stdpp Require Import base list sets gmap.
From S2P Require Import Regex Validation Json Idempotency Types Api ApiCalls Query.
From S2P Require Import I18nPt I18nEn I18nEs I18n Admin Async Prelude.
Import Validation.
#[local] Open Scope Z_scope.

(** ** State *)

Record create_form := { cf_key : jsstr; cf_name : jsstr; cf_description : jsstr }.
Record definition_form := { df_name : jsstr; df_description : jsstr }.

Definition EMPTY_FORM : create_form := {| cf_key := []; cf_name := []; cf_description := [] |}.

Record view := {
  error : jsstr;
  open : bool;
  form : create_form;
  editingDefinition : option Definition_;
  removingDefinition : option Definition_;
  editForm : definition_form;
  createPending : bool;                       (* [createDefinitionMutation.isPending], and so on *)
  updatePending : bool;
  deletePending : bool;
  defsData : option (list Definition_);       (* [definitionsQuery.data] *)
  defsError : option api_exn;                 (* [definitionsQuery.error] *)
}.

(** The calls of the state setters, the writes of refs and the arrival of data. *)
Inductive update :=
  | setError (x : jsstr) | setOpen (x : bool) | setForm (x : create_form)
  | setEditingDefinition (x : option Definition_) | setRemovingDefinition (x : option Definition_)
  | setEditForm (x : definition_form) | setCreatePending (x : bool) | setUpdatePending (x : bool)
  | setDeletePending (x : bool) | setDefsData (x : option (list Definition_))
  | setDefsError (x : option api_exn).

Definition apply_update (u : update) (v : view) : view := {|
  error := match u with setError x => x | _ => error v end;
  open := match u with setOpen x => x | _ => open v end;
  form := match u with setForm x => x | _ => form v end;
  editingDefinition := match u with setEditingDefinition x => x | _ => editingDefinition v end;
  removingDefinition := match u with setRemovingDefinition x => x | _ => removingDefinition v end;
  editForm := match u with setEditForm x => x | _ => editForm v end;
  createPending := match u with setCreatePending x => x | _ => createPending v end;
  updatePending := match u with setUpdatePending x => x | _ => updatePending v end;
  deletePending := match u with setDeletePending x => x | _ => deletePending v end;
  defsData := match u with setDefsData x => x | _ => defsData v end;
  defsError := match u with setDefsError x => x | _ => defsError v end |}.

Abbreviation page := (@Async.page view).
Abbreviation io := (@Async.io view update).

(** The icon of a card. *)
Inductive definition_icon := HardDrive | Mail | Database | Box.

Definition defIcon (key : jsstr) : definition_icon :=
  if str_eqb key "minio" || includes "s3" key || includes "storage" key then HardDrive
  else if str_eqb key "smtp" || includes "mail" key then Mail
  else if str_eqb key "postgres" || includes "db" key || includes "sql" key then Database
  else Box.

Section page.
Context (l : Locale) (caps : capabilities).

Definition tr (key : jsstr) : jsstr := t l key.

Definition defs (v : view) : list Definition_ := default [] (defsData v).
Definition keyValid (v : view) : bool := isValidDefinitionKey (cf_key (form v)).

Definition visibleError (v : view) : jsstr :=
  str_or (error v) (match defsError v with Some e => apiErrorMessage e tr | None => [] end).

(** ** Handlers *)

Definition after_change : io unit := cache [invalidateDefinitions ++ invalidateAllTenantResources].

(** A mutation with no [onSuccess]. *)
Definition mutation {A} (pending : bool → list update) (m : io A) : io A := mutateAsync pending m (λ _, Ret tt).

Definition unread (pending : bool) : list update := [].

(** The address of a definition, before the router encodes its parameter. *)
Definition definition_address (id : jsstr) : jsstr := "/resource-definitions/" ++ id.

Definition create (v : view) : io unit :=
  if negb (keyValid v) || negb (truthy (trim (cf_name (form v)))) then Ret tt
  else
    try_catch
      (created ← mutation (λ b, [setCreatePending b])
         (call (createDefinition (cf_key (form v)) (cf_name (form v)) (Some (cf_description (form v))) None));
       after_change;;
       set_all [setError []; setForm EMPTY_FORM; setOpen false];;
       Await (Navigate (definition_address (def_id created))) Ret)
      (λ e, set_all [setError (apiErrorMessage e tr)]).

Definition requestEdit (definition : Definition_) : io unit :=
  set_all [setError [];
           setEditForm {| df_name := def_name definition; df_description := def_description definition |};
           setEditingDefinition (Some definition)].

Definition saveDefinition (v : view) : io unit :=
  match editingDefinition v with
  | None => Ret tt
  | Some d =>
    if negb (truthy (trim (df_name (editForm v)))) then Ret tt
    else
      try_catch
        (_ ← mutation (λ b, [setUpdatePending b])
           (call (updateDefinition (def_id d) (df_name (editForm v)) (df_description (editForm v))));
         cache [invalidateDefinitions];;
         set_all [setEditingDefinition None; setError []];;
         toast (tr "definitionDetail.updated"))
        (λ e, set_all [setError (apiErrorMessage e tr)])
  end.

Definition next_status (d : Definition_) : jsstr :=
  if str_eqb (def_status d) "active" then "inactive" else "active".

Definition toggleDefinition (definition : Definition_) : io unit :=
  let status := next_status definition in
  try_catch
    (mutation unread (call (setDefinitionStatus (def_id definition) status));;
     after_change;;
     set_all [setError []];;
     toast (if str_eqb status "active" then tr "definitionDetail.statusActivated"
            else tr "definitionDetail.statusDeactivated"))
    (λ e, set_all [setError (apiErrorMessage e tr)]).

Definition removeDefinition (v : view) : io unit :=
  match removingDefinition v with
  | None => Ret tt
  | Some d =>
    try_catch
      (mutation (λ b, [setDeletePending b]) (call (deleteDefinition (def_id d)));;
       after_change;;
       set_all [setRemovingDefinition None; setError []];;
       toast (tr "definitionDetail.removed"))
      (λ e, set_all [setRemovingDefinition None; setError (apiErrorMessage e tr)])
  end.

(** ** Events *)

Inductive event :=
  | ENew | EDialog (b : bool) | EKey (s : jsstr) | EName (s : jsstr) | EDescription (s : jsstr) | ECreate
  | EOpen (i : nat) | EEdit (i : nat) | ERemove (i : nat) | EToggle (i : nat)
  | EEditDialog (b : bool) | EEditName (s : jsstr) | EEditDescription (s : jsstr) | ESave
  | ERemoveDialog (b : bool) | EConfirmRemove
  | EData (d : option (list Definition_)) (e : option api_exn).

Definition writes : bool := can caps resource_write.

Definition create_event (e : event) (v : view) : io unit :=
  let x := form v in
  when (open v)
    match e with
    | EDialog b => set_all ((if b then [] else [setError []]) ++ [setOpen b])
    | EKey s => set_all [setForm {| cf_key := s; cf_name := cf_name x; cf_description := cf_description x |}]
    | EName s => set_all [setForm {| cf_key := cf_key x; cf_name := s; cf_description := cf_description x |}]
    | EDescription s => set_all [setForm {| cf_key := cf_key x; cf_name := cf_name x; cf_description := s |}]
    | ECreate => when (keyValid v && truthy (trim (cf_name x)) && negb (createPending v)) (create v)
    | _ => Ret tt
    end.

Definition edit_event (e : event) (v : view) : io unit :=
  let x := editForm v in
  with_some (editingDefinition v) (λ _,
    match e with
    | EEditDialog b => when (negb b) (set_all [setEditingDefinition None])
    | EEditName s => set_all [setEditForm {| df_name := s; df_description := df_description x |}]
    | EEditDescription s => set_all [setEditForm {| df_name := df_name x; df_description := s |}]
    | ESave => when (truthy (trim (df_name x)) && negb (updatePending v)) (saveDefinition v)
    | _ => Ret tt
    end).

(** A card and its menu; [i] is its position. *)
Definition card_event (e : event) (v : view) : io unit :=
  match e with
  | EOpen i => with_some (defs v !! i) (λ d, tell (Started (Navigate (definition_address (def_id d)))))
  | EEdit i => when writes (with_some (defs v !! i) requestEdit)
  | ERemove i => when writes (with_some (defs v !! i) (λ d, set_all [setRemovingDefinition (Some d)]))
  | EToggle i => when writes (with_some (defs v !! i) toggleDefinition)
  | _ => Ret tt
  end.

Definition handle (e : event) (s : page) : io unit :=
  let v := p_view s in
  match e with
  | ENew => when writes (set_all [setError []; setOpen true])
  | EDialog _ | EKey _ | EName _ | EDescription _ | ECreate => create_event e v
  | EEditDialog _ | EEditName _ | EEditDescription _ | ESave => edit_event e v
  | EOpen _ | EEdit _ | ERemove _ | EToggle _ => card_event e v
  | ERemoveDialog b => when (negb b) (set_all [setRemovingDefinition None])
  | EConfirmRemove =>
    with_some (removingDefinition v) (λ _, when (negb (deletePending v)) (removeDefinition v))
  | EData d e => set_all [setDefsData d; setDefsError e]
  end.

Definition initial_page (e : entropy) : page := {|
  p_view := {| error := []; open := false; form := EMPTY_FORM; editingDefinition := None;
    removingDefinition := None; editForm := {| df_name := []; df_description := [] |};
    createPending := false; updatePending := false; deletePending := false; defsData := None;
    defsError := None |};
  p_entropy := e; p_log := [] |}.

Inductive initial : page → Prop := initial_intro e : initial (initial_page e).
End page.

(** ** What the page asks for and what a reply does *)

Record page_ok (caps : capabilities) (v : view) : Prop := {
  ok_open : open v = true → can caps resource_write = true;
  ok_edit : editingDefinition v ≠ None → can caps resource_write = true;
  ok_remove : removingDefinition v ≠ None → can caps resource_write = true;
}.

Definition definitions_call_ok (caps : capabilities) (a : api_call) (v : view) : Prop :=
  can caps resource_write = true ∧
  match a with
  | createDefinition key name description icon =>
    isValidDefinitionKey key = true ∧ trim name ≠ [] ∧ description ≠ None ∧ icon = None
  | updateDefinition i name _ => trim name ≠ [] ∧ ∃ d, editingDefinition v = Some d ∧ def_id d = i
  | setDefinitionStatus i status => ∃ d, d ∈ defs v ∧ def_id d = i ∧ status = next_status d
  | deleteDefinition i => ∃ d, removingDefinition v = Some d ∧ def_id d = i
  | _ => False
  end.

Definition asked (caps : capabilities) (q : request) (s : page) : Prop :=
  match q with
  | Call a => definitions_call_ok caps a (p_view s)
  | Cache _ => True
  | Navigate to => ∃ id, to = definition_address id
  | Download _ | WriteClipboard _ => False
  end.

Definition failed (a : api_call) (message : jsstr) (v : view) : view :=
  let set us := fold_left (λ v u, apply_update u v) us v in
  match a with
  | createDefinition _ _ _ _ => set [setCreatePending false; setError message]
  | updateDefinition _ _ _ => set [setUpdatePending false; setError message]
  | deleteDefinition _ => set [setDeletePending false; setRemovingDefinition None; setError message]
  | _ => set [setError message]
  end.

Definition replied (l : Locale) (q : request) : reply q → page → page → Prop :=
  match q with
  | Call a => λ r s s',
    match r with
    | Ok _ => True
    | Err e => p_view s' = failed a (apiErrorMessage e (tr l)) (p_view s) ∧ p_log s' = p_log s
    end
  | _ => λ _ _ _, True
  end.

Section facts.
Context (l : Locale) (caps : capabilities).

Definition definitions_spec : spec (E := event) := {|
  rely := λ s, page_ok caps (p_view s);
  asks := asked caps;
  started := λ _ _ _, True;
  resumed := replied l |}.

Ltac solve_ok :=
  lazymatch goal with
  | |- page_ok _ ?v =>
    let b := base apply_update v in
    match goal with Hb : page_ok _ b |- _ =>
      destruct Hb; split; cbn; intros; first [assumption|congruence|solve [auto]] end
  end.

Ltac leaf :=
  bool_to_prop;
  first [ solve_ok | assumption | by apply truthy_spec | by eauto
        | match goal with Hs : page_ok _ _ |- can _ _ = true =>
            first [by apply (ok_open _ _ Hs)|apply (ok_edit _ _ Hs); congruence
                  |apply (ok_remove _ _ Hs); congruence] end ].

Lemma definitions_kept e s : page_ok caps (p_view s) → kept apply_update definitions_spec (handle l caps e s) s.
Proof.
  intros Hs. destruct e; unfold handle, create_event, edit_event, card_event; cbv beta iota zeta; group;
    unfold kept, create, requestEdit, saveDefinition, toggleDefinition, removeDefinition;
    repeat case_cond; run apply_update ltac:(leaf).
  all: unfold definitions_call_ok; split_and!; try leaf; try done.
  all: match goal with Hd : defs _ !! _ = Some ?d |- _ => apply list_elem_of_lookup_2 in Hd; by exists d end.
Qed.

Lemma definitions_keeps : keeps_spec apply_update (handle l caps) definitions_spec.
Proof. intros e s Hs. by apply definitions_kept. Qed.

Lemma definitions_initial s : initial s → rely definitions_spec s.
Proof. intros [e]. by split. Qed.

Definition visited : machine → Prop := Async.reachable apply_update (handle l caps) initial.

(** ** Properties *)

(** What the page asks of the server comes from an operator who may write: a definition is created
    with a valid key and a name, the edited and the removed one are those of the dialogs, and a
    change of status is of a listed one, to the other status. *)
Theorem definitions_calls_valid m a s :
  visited m → (Call a, s) ∈ m_sent m → definitions_call_ok caps a (p_view s).
Proof.
  intros Hm Ha. exact (reachable_asks _ _ _ _ definitions_initial definitions_keeps m (Call a) s Hm Ha).
Qed.

(** A call that fails shows its message, takes its busy flag down and keeps the forms. *)
Theorem definitions_failure_reported m i t a e (r : ∀ q, reply q) :
  visited m → m_threads m !! i = Some t → t_request t = Call a → r (Call a) = Err e →
  let m' := machine_step apply_update (handle l caps) m (Reply i r) in
  p_view (m_page m') = failed a (apiErrorMessage e (tr l)) (p_view (m_page m)) ∧
  p_log (m_page m') = p_log (m_page m).
Proof.
  intros Hm Ht Eq Hr.
  pose proof (reachable_resumed _ _ _ _ definitions_initial definitions_keeps m i t r Hm Ht) as Hp.
  rewrite Eq in Hp. cbn [resumed definitions_spec replied] in Hp. by rewrite Hr in Hp.
Qed.
End facts.

(** ** Witnesses *)

Abbreviation demo_step := (machine_step apply_update (handle en_US fullCapabilities)).

Definition demo_run (es : list event) : machine :=
  run_machine apply_update (handle en_US fullCapabilities) (start_machine (initial_page {| drawn := 0 |}))
    (Event <$> es).

Lemma definitions_demo_visited es : visited en_US fullCapabilities (demo_run es).
Proof. unfold demo_run, visited. refine (reachable_run _ _ _ _ _ _). apply reach_start. constructor. Qed.

Definition demo_creating : machine := demo_run [ENew; EKey "postgres"; EName "Postgres"; ECreate].

Definition demo_call : api_call := createDefinition "postgres" "Postgres" (Some []) None.

Definition demo_thread (m : machine (V := view) (U := update) (E := event)) (i : nat) : thread :=
  default {| t_event := ENew; t_request := Navigate []; t_rest := λ _, Ret tt |} (m_threads m !! i).

Lemma definitions_calls_valid_witness :
  definitions_call_ok fullCapabilities demo_call
    (p_view (default (m_page demo_creating) (snd <$> head (m_sent demo_creating)))).
Proof. apply (definitions_calls_valid en_US fullCapabilities demo_creating _ _ (definitions_demo_visited _)). vm_compute. left. Defined.

Lemma definitions_failure_reported_witness :
  error (p_view (m_page (demo_step demo_creating (Reply 3 refuse)))) = apiErrorMessage host_failure (tr en_US).
Proof.
  destruct (definitions_failure_reported en_US fullCapabilities demo_creating 3 (demo_thread demo_creating 3)
    demo_call host_failure refuse (definitions_demo_visited _)) as [H _]; [vm_compute; reflexivity..|]. by rewrite H.
Defined.
