(* ===== verification/TenantsPage.v ===== *)
(** * The page of the tenants

    [src/web/src/routes/tenants/-components/page.tsx]: the list of the tenants, its search, and
    the form that creates one, as handlers of [Async] over [view]. *)
From Stdlib Require Import ZArith Lia List.
From stdpp Require Import base list sets gmap.
From S2P Require Import Regex Validation Json Idempotency Types Api ApiCalls Query.
From S2P Require Import I18nPt I18nEn I18nEs I18n Admin Async Prelude.
Import Validation.
#[local] Open Scope Z_scope.

(** ** State *)

Record create_form := { cf_slug : jsstr; cf_name : jsstr }.

Definition EMPTY_FORM : create_form := {| cf_slug := []; cf_name := [] |}.

Record view := {
  open : bool;
  form : create_form;
  error : jsstr;
  createAttempt : option attempt;             (* a ref *)
  createPending : bool;                       (* [createTenantMutation.isPending] *)
  tenantsData : option (list Tenant);         (* [tenantsQuery.data] *)
  tenantsError : option api_exn;              (* [tenantsQuery.error] *)
}.

(** The calls of the state setters, the writes of refs and the arrival of data. *)
Inductive update :=
  | setOpen (x : bool) | setForm (x : create_form) | setError (x : jsstr)
  | setCreateAttempt (x : option attempt) | setCreatePending (x : bool)
  | setTenantsData (x : option (list Tenant)) | setTenantsError (x : option api_exn).

Definition apply_update (u : update) (v : view) : view := {|
  open := match u with setOpen x => x | _ => open v end;
  form := match u with setForm x => x | _ => form v end;
  error := match u with setError x => x | _ => error v end;
  createAttempt := match u with setCreateAttempt x => x | _ => createAttempt v end;
  createPending := match u with setCreatePending x => x | _ => createPending v end;
  tenantsData := match u with setTenantsData x => x | _ => tenantsData v end;
  tenantsError := match u with setTenantsError x => x | _ => tenantsError v end |}.

Abbreviation page := (@Async.page view).
Abbreviation io := (@Async.io view update).

Section page.
Context `{CaseMap} (uuid : nat → jsstr) (l : Locale) (caps : capabilities).

Definition tr (key : jsstr) : jsstr := t l key.

Definition tenants (v : view) : list Tenant := default [] (tenantsData v).
Definition slugValid (v : view) : bool := isValidTenantSlug (cf_slug (form v)).

Definition pageError (v : view) : jsstr :=
  match tenantsError v with Some e => apiErrorMessage e tr | None => [] end.

(** The search of the table: the name and the slug by a part of them, the status by the whole. *)
Definition filterTenants (tenant : Tenant) (filterValue : jsstr) : bool :=
  let query := toLowerCase (trim filterValue) in
  if negb (truthy query) then true
  else
    let statusValues := toLowerCase <$> [tenant_status tenant; formatStatus (tenant_status tenant) tr] in
    includes query (toLowerCase (tenant_name tenant)) || includes query (toLowerCase (tenant_slug tenant))
    || bool_decide (query ∈ statusValues).

(** ** Handlers *)

(** The address of a tenant, before the router encodes its parameter. *)
Definition tenant_address (id : jsstr) : jsstr := "/tenants/" ++ id.

(** The attempt's payload is the form itself. *)
Definition form_body (x : create_form) : json := jstrs [("slug", cf_slug x); ("name", cf_name x)].

Definition create (v : view) : io unit :=
  if negb (slugValid v) || negb (truthy (trim (cf_name (form v)))) then Ret tt
  else
    set_all [setError []];;
    try_catch
      (key ← keyed uuid createAttempt setCreateAttempt (form_body (form v));
       created ← mutateAsync (λ b, [setCreatePending b])
         (call (createTenant (cf_slug (form v)) (cf_name (form v)) key)) (λ _, Ret tt);
       cache [invalidateTenants];;
       set_all [setForm EMPTY_FORM; setOpen false];;
       Await (Navigate (tenant_address (tenant_id created))) Ret;;
       set_all [setCreateAttempt None])
      (λ e, set_all [setError (apiErrorMessage e tr)]).

(** ** Events *)

Inductive event :=
  | ENew | EDialog (b : bool) | EName (s : jsstr) | ESlug (s : jsstr) | ECreate
  | EOpen (i : nat)
  | EData (d : option (list Tenant)) (e : option api_exn).

Definition create_event (e : event) (v : view) : io unit :=
  let x := form v in
  when (open v)
    match e with
    | EDialog b => set_all [setOpen b]
    | EName s => set_all [setForm {| cf_slug := cf_slug x; cf_name := s |}]
    | ESlug s => set_all [setForm {| cf_slug := s; cf_name := cf_name x |}]
    | ECreate => when (slugValid v && truthy (trim (cf_name x)) && negb (createPending v)) (create v)
    | _ => Ret tt
    end.

Definition handle (e : event) (s : page) : io unit :=
  let v := p_view s in
  match e with
  | ENew => when (can caps tenant_write) (set_all [setError []; setOpen true])
  | EDialog _ | EName _ | ESlug _ | ECreate => create_event e v
  | EOpen i => with_some (tenants v !! i) (λ d, tell (Started (Navigate (tenant_address (tenant_id d)))))
  | EData d e => set_all [setTenantsData d; setTenantsError e]
  end.

Definition initial_page (e : entropy) : page := {|
  p_view := {| open := false; form := EMPTY_FORM; error := []; createAttempt := None;
    createPending := false; tenantsData := None; tenantsError := None |};
  p_entropy := e; p_log := [] |}.

Inductive initial : page → Prop := initial_intro e : initial (initial_page e).
End page.

#[export] Hint Unfold create_event create : pages.

(** ** What the page asks for and what a reply does *)

Definition tenants_call_ok (caps : capabilities) (q : request) (s : page) : Prop :=
  match q with
  | Call (createTenant slug name k) =>
    can caps tenant_write = true ∧ isValidTenantSlug slug = true ∧ trim name ≠ [] ∧
    createAttempt (p_view s) = Some {| fingerprint := stringify (form_body (form (p_view s))); key := k |} ∧
    form (p_view s) = {| cf_slug := slug; cf_name := name |}
  | Cache commands => commands = invalidateTenants
  | Navigate to => ∃ id, to = tenant_address id
  | _ => False
  end.

Definition replied (l : Locale) (q : request) : reply q → page → page → Prop :=
  match q with
  | Call (createTenant _ _ _) => λ r s s',
    match r with
    | Ok _ => True
    | Err e => p_view s' = apply_update (setError (apiErrorMessage e (tr l)))
                             (apply_update (setCreatePending false) (p_view s)) ∧ p_log s' = p_log s
    end
  | Navigate _ => λ _ s s', createAttempt (p_view s') = None
  | _ => λ _ _ _, True
  end.

Section facts.
Context (uuid : nat → jsstr) (l : Locale) (caps : capabilities).

Definition tenants_spec : spec (E := event) := {|
  rely := λ s, open (p_view s) = true → can caps tenant_write = true;
  asks := tenants_call_ok caps;
  started := λ _ _ _, True;
  resumed := replied l |}.

Lemma keyed_attempt ref payload e k ref' e' :
  stableIdempotencyKey uuid ref payload e = (k, ref', e') →
  ref' = Some {| fingerprint := stringify payload; key := k |}.
Proof.
  destruct (stable_cases uuid ref payload e) as [([f k0] & -> & Hf & ->)|[_ ->]]; intros [= <- <- <-];
    [cbn in *; by subst|done].
Qed.

Ltac leaf := bool_to_prop; cbn; first [assumption|done|congruence|by auto|by apply truthy_spec|by eauto].

Lemma tenants_kept e s :
  (open (p_view s) = true → can caps tenant_write = true) →
  kept apply_update tenants_spec (handle uuid l caps e s) s.
Proof.
  intros Hs. destruct e as [|b|x|x| |i|d e]; unfold handle, create_event; cbv beta iota zeta; group;
    unfold kept; try (run apply_update ltac:(leaf); done).
  unfold create. destruct (negb (slugValid _) || _) eqn:Hg; [by split|].
  destruct (stableIdempotencyKey uuid (createAttempt (p_view s)) (form_body (form (p_view s))) (p_entropy s))
    as [[k ref] e'] eqn:Ek.
  cbn -[apply_update]. 
  match goal with |- context [stableIdempotencyKey ?f ?a ?j ?e] =>
    change (stableIdempotencyKey f a j e) with
      (stableIdempotencyKey uuid (createAttempt (p_view s)) (form_body (form (p_view s))) (p_entropy s)) end.
  rewrite Ek. apply keyed_attempt in Ek as ->. run apply_update ltac:(leaf).
  cbn. by destruct (form (p_view s)).
Qed.

Lemma tenants_keeps : keeps_spec apply_update (handle uuid l caps) tenants_spec.
Proof. intros e s Hs. by apply tenants_kept. Qed.

Lemma tenants_initial s : initial s → rely tenants_spec s.
Proof. by intros [e]. Qed.

Definition visited : machine → Prop := Async.reachable apply_update (handle uuid l caps) initial.

(** ** Properties *)

(** The one request of the page that changes anything creates the tenant of the form, with a
    valid slug and a name, for an operator who may; its key is that of the attempt the form keeps,
    whose payload is the form. *)
Theorem tenants_calls_valid m q s :
  visited m → (q, s) ∈ m_sent m → tenants_call_ok caps q s.
Proof.
  intros Hm Ha. exact (reachable_asks _ _ _ _ tenants_initial tenants_keeps m q s Hm Ha).
Qed.

(** A creation that fails shows its message and changes nothing else, so the form still holds its
    payload and the attempt its key; submitting it again sends the same request. *)
Theorem tenants_creation_retry m i t slug name k e (r : ∀ q, reply q) :
  visited m → m_threads m !! i = Some t → t_request t = Call (createTenant slug name k) →
  r (Call (createTenant slug name k)) = Err e →
  form (p_view (m_page m)) = {| cf_slug := slug; cf_name := name |} →
  createAttempt (p_view (m_page m)) = Some {| fingerprint := stringify (form_body (form (p_view (m_page m)))); key := k |} →
  open (p_view (m_page m)) = true → isValidTenantSlug slug = true → trim name ≠ [] →
  let step := machine_step apply_update (handle uuid l caps) in
  let m1 := step m (Reply i r) in
  error (p_view (m_page m1)) = apiErrorMessage e (tr l) ∧
  (m_sent (step m1 (Event ECreate))).*1 = (m_sent m1).*1 ++ [Call (createTenant slug name k)].
Proof.
  intros Hm Ht Eq Hr Hf Ha Ho Hs Hn step m1.
  pose proof (reachable_resumed _ _ _ _ tenants_initial tenants_keeps m i t r Hm Ht) as Hp.
  rewrite Eq in Hp. cbn [resumed tenants_spec replied] in Hp. rewrite Hr in Hp. destruct Hp as [Hv Hl].
  fold step m1 in Hv, Hl. clearbody m1. split; [by rewrite Hv|]. apply truthy_spec in Hn.
  unfold step at 1. cbn [machine_step].
  assert (∃ k', sync apply_update (handle uuid l caps ECreate (m_page m1)) (m_page m1) =
    (fold_left (perform apply_update) [Update (setError []); Draw (p_entropy (m_page m1));
       Update (setCreateAttempt (createAttempt (p_view (m_page m)))); Update (setCreatePending true)] (m_page m1),
     Waiting (Call (createTenant slug name k)) k')) as [k' E]; [|rewrite E; cbn; by rewrite fmap_app].
  cbn [handle]. unfold create_event, create, slugValid, tr. rewrite Hv.
  cbn -[apply_update keyed]. change (open (apply_update _ _)) with (open (p_view (m_page m))).
  change (form (apply_update _ _)) with (form (p_view (m_page m))).
  change (createPending (apply_update _ _)) with false.
  rewrite Ho, Hf. unfold when. cbn [cf_slug cf_name]. rewrite Hs, Hn. cbn -[apply_update]. rewrite Hv.
  match goal with |- context [stableIdempotencyKey ?f ?a ?j ?e0] => 
     change (stableIdempotencyKey f a j e0) with (stableIdempotencyKey f (createAttempt (p_view (m_page m))) (form_body {| cf_slug := slug; cf_name := name |}) (p_entropy (m_page m1))) end.
  rewrite Ha, Hf. unfold stableIdempotencyKey. cbn [fingerprint key]. rewrite str_eqb_refl. eexists. reflexivity.
Qed.
End facts.

(** ** Witnesses *)

Definition demo_uuid (n : nat) : jsstr := [Z.of_nat n].

Abbreviation demo_step := (machine_step apply_update (handle demo_uuid en_US fullCapabilities)).

Definition demo_run (es : list event) : machine :=
  run_machine apply_update (handle demo_uuid en_US fullCapabilities) (start_machine (initial_page {| drawn := 0 |}))
    (Event <$> es).

Lemma tenants_demo_visited es : visited demo_uuid en_US fullCapabilities (demo_run es).
Proof. unfold demo_run, visited. refine (reachable_run _ _ _ _ _ _). apply reach_start. constructor. Qed.

Definition demo_creating : machine := demo_run [ENew; EName "Acme"; ESlug "acme"; ECreate].

Definition demo_thread (m : machine (V := view) (U := update) (E := event)) (i : nat) : thread :=
  default {| t_event := ENew; t_request := Navigate []; t_rest := λ _, Ret tt |} (m_threads m !! i).

Lemma tenants_calls_valid_witness :
  tenants_call_ok fullCapabilities (Call (createTenant "acme" "Acme" [0]))
    (default (m_page demo_creating) (snd <$> head (m_sent demo_creating))).
Proof. apply (tenants_calls_valid demo_uuid en_US fullCapabilities demo_creating _ _ (tenants_demo_visited _)). vm_compute. left. Defined.

Lemma tenants_creation_retry_witness :
  (m_sent (demo_step (demo_step demo_creating (Reply 3 refuse)) (Event ECreate))).*1 =
  (m_sent (demo_step demo_creating (Reply 3 refuse))).*1 ++ [Call (createTenant "acme" "Acme" [0])].
Proof.
  refine (proj2 (tenants_creation_retry demo_uuid en_US fullCapabilities demo_creating 3
    (demo_thread demo_creating 3) "acme" "Acme" [0] host_failure refuse (tenants_demo_visited _) _ _ _ _ _ _ _ _));
    first [vm_compute; reflexivity|vm_compute; discriminate].
Defined.
