(* ===== verification/IntegrationsPage.v ===== *)
(** * The page of the integrations

    [src/web/src/routes/integrations/-components/page.tsx]: the webhook targets, with the signing
    secret a new one shows once, and their deliveries, as handlers of [Async] over [view]. *)
From Stdlib Require Import ZArith Lia List.
From stdpp Require Import base list sets gmap.
From S2P Require Import Regex Host Validation Json Idempotency Types Api ApiCalls Query.
From S2P Require Import I18nPt I18nEn I18nEs I18n Admin Async Prelude.
Import Validation.
#[local] Open Scope Z_scope.

(** ** State *)

Record view := {
  createOpen : bool;
  name : jsstr;
  url : jsstr;
  format : webhook_format;
  createdTarget : option CreatedWebhookTarget;
  pending : bool;
  targetsData : option (list WebhookTarget);  (* [targetsQuery.data] *)
  deliveriesData : option (list WebhookDelivery); (* [deliveriesQuery.data] *)
  targetsError : option api_exn;
  deliveriesError : option api_exn;
}.

(** The calls of the state setters, the writes of refs and the arrival of data. *)
Inductive update :=
  | setCreateOpen (x : bool) | setName (x : jsstr) | setURL (x : jsstr)
  | setFormat (x : webhook_format) | setCreatedTarget (x : option CreatedWebhookTarget)
  | setPending (x : bool) | setTargetsData (x : option (list WebhookTarget))
  | setDeliveriesData (x : option (list WebhookDelivery)) | setTargetsError (x : option api_exn)
  | setDeliveriesError (x : option api_exn).

Definition apply_update (u : update) (v : view) : view := {|
  createOpen := match u with setCreateOpen x => x | _ => createOpen v end;
  name := match u with setName x => x | _ => name v end;
  url := match u with setURL x => x | _ => url v end;
  format := match u with setFormat x => x | _ => format v end;
  createdTarget := match u with setCreatedTarget x => x | _ => createdTarget v end;
  pending := match u with setPending x => x | _ => pending v end;
  targetsData := match u with setTargetsData x => x | _ => targetsData v end;
  deliveriesData := match u with setDeliveriesData x => x | _ => deliveriesData v end;
  targetsError := match u with setTargetsError x => x | _ => targetsError v end;
  deliveriesError := match u with setDeliveriesError x => x | _ => deliveriesError v end |}.

Abbreviation page := (@Async.page view).
Abbreviation io := (@Async.io view update).

Section page.
Context `{UrlApi} (l : Locale).

Definition tr (key : jsstr) : jsstr := t l key.

Definition targets (v : view) : list WebhookTarget := default [] (targetsData v).
Definition deliveries (v : view) : list WebhookDelivery := default [] (deliveriesData v).
Definition webhookURLValid (v : view) : bool := isValidWebhookURL (url v).

(** The alert above the tabs. *)
Definition queryError (v : view) : jsstr :=
  match targetsError v, deliveriesError v with
  | Some e, _ | None, Some e => apiErrorMessage e tr
  | None, None => []
  end.

(** What the field of the signing secret shows. *)
Definition shown_secret (v : view) : jsstr :=
  match createdTarget v with Some c => cwt_signing_secret c | None => [] end.

(** ** Handlers *)

Definition refreshWebhookQueries : io unit :=
  cache [[Invalidate false k_webhookTargets; Invalidate false k_webhookDeliveries]].

Definition toast_error (e : api_exn) : io unit := toast (apiErrorMessage e tr).

Definition createTarget (v : view) : io unit :=
  if negb (truthy (trim (name v))) || negb (webhookURLValid v) then Ret tt
  else
    set_all [setPending true];;
    try_finally
      (try_catch
        (created ← call (createWebhookTarget (name v) (url v) (format v));
         set_all [setCreatedTarget (Some created); setCreateOpen false; setName []; setURL []];;
         refreshWebhookQueries;;
         toast (tr "integrations.created"))
        toast_error)
      (set_all [setPending false]).

Definition other_status (target : WebhookTarget) : webhook_status :=
  match wt_status target with wh_active => wh_disabled | wh_disabled => wh_active end.

Definition toggleTarget (target : WebhookTarget) : io unit :=
  try_catch
    (call (setWebhookTargetStatus (wt_id target) (other_status target));;
     refreshWebhookQueries)
    toast_error.

Definition replayDelivery (id : jsstr) : io unit :=
  try_catch
    (call (replayWebhookDelivery id);;
     refreshWebhookQueries;;
     toast (tr "integrations.replayed"))
    toast_error.

(** ** Events *)

Inductive event :=
  | ENew | EDialog (b : bool) | EName (s : jsstr) | EURL (s : jsstr) | EFormat (f : webhook_format) | ECreate
  | ESecretDialog (b : bool)
  | EToggle (i : nat) | EReplay (i : nat)
  | ETargets (d : option (list WebhookTarget)) (e : option api_exn)
  | EDeliveries (d : option (list WebhookDelivery)) (e : option api_exn).

Definition is_dead (d : WebhookDelivery) : bool :=
  match wd_status d with d_dead_letter => true | _ => false end.

Definition create_event (e : event) (v : view) : io unit :=
  when (createOpen v)
    match e with
    | EDialog b => set_all [setCreateOpen b]
    | EName s => set_all [setName s]
    | EURL s => set_all [setURL s]
    | EFormat f => set_all [setFormat f]
    | ECreate => when (negb (pending v || negb (truthy (trim (name v))) || negb (webhookURLValid v))) (createTarget v)
    | _ => Ret tt
    end.

Definition handle (e : event) (s : page) : io unit :=
  let v := p_view s in
  match e with
  | ENew => set_all [setCreateOpen true]
  | EDialog _ | EName _ | EURL _ | EFormat _ | ECreate => create_event e v
  | ESecretDialog b => when (negb b) (set_all [setCreatedTarget None])
  | EToggle i => with_some (targets v !! i) toggleTarget
  | EReplay i => with_some (deliveries v !! i) (λ d, when (is_dead d) (replayDelivery (wd_id d)))
  | ETargets d e => set_all [setTargetsData d; setTargetsError e]
  | EDeliveries d e => set_all [setDeliveriesData d; setDeliveriesError e]
  end.

Definition initial_page (e : entropy) : page := {|
  p_view := {| createOpen := false; name := []; url := []; format := generic; createdTarget := None;
    pending := false; targetsData := None; deliveriesData := None; targetsError := None;
    deliveriesError := None |};
  p_entropy := e; p_log := [] |}.

Inductive initial : page → Prop := initial_intro e : initial (initial_page e).
End page.

#[export] Hint Unfold create_event createTarget toggleTarget replayDelivery toast_error : pages.

(** ** What the page asks for and what a reply does *)

Section facts.
Context `{UrlApi} (l : Locale).

Definition integrations_call_ok (q : request) (s : page) : Prop :=
  let v := p_view s in
  match q with
  | Call (createWebhookTarget n u f) =>
    trim n ≠ [] ∧ isValidWebhookURL u = true ∧ n = name v ∧ u = url v ∧ f = format v ∧ pending v = true
  | Call (setWebhookTargetStatus i status) => ∃ d, d ∈ targets v ∧ wt_id d = i ∧ status = other_status d
  | Call (replayWebhookDelivery i) => ∃ d, d ∈ deliveries v ∧ wd_id d = i ∧ wd_status d = d_dead_letter
  | Cache _ => True
  | _ => False
  end.

(** The secret on the page after a reply: that of the target just created, or the one before. *)
Definition replied (q : request) : reply q → page → page → Prop :=
  match q with
  | Call (createWebhookTarget _ _ _) => λ r s s',
    match r with
    | Ok c => createdTarget (p_view s') = Some c ∧ createOpen (p_view s') = false ∧ name (p_view s') = [] ∧ url (p_view s') = []
    | Err e => p_view s' = apply_update (setPending false) (p_view s) ∧
               p_log s' = p_log s ++ [Toast (apiErrorMessage e (tr l))]
    end
  | _ => λ _ s s', createdTarget (p_view s') = createdTarget (p_view s)
  end.

Definition integrations_spec : spec (E := event) := {|
  rely := λ _, True;
  asks := integrations_call_ok;
  started := λ e s s', match e with
                       | ESecretDialog false => createdTarget (p_view s') = None
                       | _ => createdTarget (p_view s') = createdTarget (p_view s)
                       end;
  resumed := replied |}.

Ltac leaf := bool_to_prop; cbn; first [assumption|done|congruence|by auto|by apply truthy_spec|by eauto].

Lemma integrations_keeps : keeps_spec apply_update (handle l) integrations_spec.
Proof.
  intros e s _. destruct e as [|b|x|x|x| |b|i|i|d e|d e]; unfold handle, create_event; cbv zeta;
    cbn -[apply_update createTarget toggleTarget replayDelivery]; unfold when, with_some.
  all: repeat case_cond; repeat case_match; subst; unfold createTarget, toggleTarget, replayDelivery, toast_error.
  all: run apply_update ltac:(leaf).
  - match goal with Hd : targets _ !! _ = Some ?d |- _ => apply list_elem_of_lookup_2 in Hd; by exists d end.
  - match goal with Hd : deliveries _ !! _ = Some ?d |- _ => apply list_elem_of_lookup_2 in Hd; exists d end.
    split_and!; [done..|]. unfold is_dead in *. by case_match.
Qed.

Definition visited : machine → Prop := Async.reachable apply_update (handle l) initial.

Definition creates (e : event) : bool := match e with ECreate => true | _ => false end.

Lemma integrations_pending_spared e s : creates e = false → only (spares apply_update pending) (handle l e s).
Proof. intros He. destruct e; try done; unfold handle; cbv zeta; only_run. Qed.

Lemma integrations_pending_held : holds_call apply_update (handle l) (pending ∘ p_view) creates.
Proof.
  intros e s. destruct (creates e) eqn:He.
  - destruct e; try done. cbn [handle]. unfold create_event, when. destruct (createOpen (p_view s)); [|by refused].
    destruct (negb _) eqn:Hc; [|by refused]. bool_to_prop. unfold createTarget.
    destruct (negb _ || _) eqn:Hg; [by refused|]. right. split; [done|]. hold_run apply_update.
  - by apply leaves_flag_only with (f := pending); [|apply integrations_pending_spared].
Qed.

(** ** Properties *)

(** What the page asks of the server: a target is created with a name and a valid address, those
    of the form; the status of a listed target is switched; a dead delivery is replayed. *)
Theorem integrations_calls_valid m q s : visited m → (q, s) ∈ m_sent m → integrations_call_ok q s.
Proof. intros Hm Hq. exact (reachable_asks _ _ initial integrations_spec (λ _ _, I) integrations_keeps m q s Hm Hq). Qed.

(** What a creation under way is answered by a label. *)
Definition creation_answer (m : machine (V := view) (U := update) (E := event)) (lb : label (E := event)) :
    option (result api_exn CreatedWebhookTarget) :=
  match lb with
  | Event _ => None
  | Reply i r =>
    t ← m_threads m !! i;
    match t_request t return option (result api_exn CreatedWebhookTarget) with
    | Call a =>
      match a return option (result api_exn CreatedWebhookTarget) with
      | createWebhookTarget n u f => Some (r (Call (createWebhookTarget n u f)))
      | _ => None
      end
    | _ => None
    end
  end.

(** C19. The signing secret on the page is that of the target created last: the answer of a creation
    puts it there, with the form closed and emptied; dismissing the dialog erases it; and no other
    event or answer, the refusal of a creation among them, changes what is there. *)
Theorem integrations_secret_shown m lb :
  visited m →
  let v := p_view (m_page m) in
  let v' := p_view (m_page (machine_step apply_update (handle l) m lb)) in
  match lb, creation_answer m lb with
  | Event (ESecretDialog false), _ => createdTarget v' = None ∧ shown_secret v' = []
  | _, Some (Ok c) =>
    createdTarget v' = Some c ∧ shown_secret v' = cwt_signing_secret c ∧
    createOpen v' = false ∧ name v' = [] ∧ url v' = []
  | _, _ => createdTarget v' = createdTarget v ∧ shown_secret v' = shown_secret v
  end.
Proof.
  intros Hm v v'.
  assert (Hkept : createdTarget v' = createdTarget v → createdTarget v' = createdTarget v ∧ shown_secret v' = shown_secret v)
    by (unfold shown_secret; by intros ->).
  destruct lb as [e|i r]; cbn [creation_answer].
  - pose proof (reachable_started _ _ initial integrations_spec (λ _ _, I) integrations_keeps m e Hm) as Hs.
    destruct e as [|b|x|x|x| |[]|i|i|d e|d e]; try by apply Hkept.
    unfold shown_secret. cbn [started integrations_spec] in Hs. subst v'. by rewrite Hs.
  - destruct (m_threads m !! i) as [t|] eqn:Et; [|apply Hkept; subst v v'; cbn; by rewrite Et].
    pose proof (reachable_resumed _ _ initial integrations_spec (λ _ _, I) integrations_keeps m i t r Hm Et) as Hp.
    fold v' v in Hp. cbn [resumed integrations_spec] in Hp. revert Hp. cbn [mbind option_bind].
    destruct (t_request t) as [a| | | |] eqn:Eq; cbn [replied]; try by intros; apply Hkept.
    fold v v'. destruct a; try by intros; apply Hkept. destruct (r _) as [c|x] eqn:Er.
    + intros (Hc & Ho & Hn & Hu). unfold shown_secret. fold v' in Hc, Ho, Hn, Hu. by rewrite Hc.
    + intros [Hv _]. apply Hkept. fold v v' in Hv. by rewrite Hv.
Qed.

(** One target is created at a time, and the button comes back when the creation was answered. *)
Theorem integrations_busy_ends m : visited m → busy apply_update (handle l) (pending ∘ p_view) creates 2 m.
Proof.
  intros Hm. eapply busy_ends; [|apply integrations_pending_held| |exact Hm]; [by intros s []|].
  intros e s He. destruct e; try done. unfold handle; cbv zeta. within_run.
Qed.
End facts.

(** ** Witnesses *)

Definition demo_run (es : list event) : machine :=
  run_machine apply_update (@handle simple_url en_US) (start_machine (initial_page {| drawn := 0 |})) (Event <$> es).

Lemma integrations_demo_visited es : @visited simple_url en_US (demo_run es).
Proof. unfold demo_run, visited. refine (reachable_run _ _ _ _ _ _). apply reach_start. constructor. Qed.

Definition demo_address : jsstr := "https://receiver.example/hook".

Definition demo_creating : machine := demo_run [ENew; EName "Receiver"; EURL demo_address; ECreate].

Definition demo_call : api_call := createWebhookTarget "Receiver" demo_address generic.

Definition demo_thread (m : machine (V := view) (U := update) (E := event)) (i : nat) : thread :=
  default {| t_event := ENew; t_request := Navigate []; t_rest := λ _, Ret tt |} (m_threads m !! i).

Lemma integrations_calls_valid_witness :
  @integrations_call_ok simple_url (Call demo_call)
    (default (m_page demo_creating) (snd <$> head (m_sent demo_creating))).
Proof. apply (@integrations_calls_valid simple_url en_US demo_creating _ _ (integrations_demo_visited _)). vm_compute. left. Defined.

Definition demo_created : CreatedWebhookTarget :=
  {| cwt_target := {| wt_id := "w1"; wt_name := "Receiver"; wt_format := generic; wt_status := wh_active; wt_endpoint := demo_address;
                     wt_consecutive_failures := 0; wt_circuit_open_until := None; wt_created_at := []; wt_updated_at := [] |};
     cwt_signing_secret := "s3cret" |}.

Definition answer_created (q : request) : reply q :=
  match q as q return reply q with
  | Call a => match a as a return result api_exn (api_answer a) with
              | createWebhookTarget _ _ _ => Ok demo_created
              | _ => Err host_failure
              end
  | Download _ => Err host_failure
  | Cache _ | Navigate _ => tt
  | WriteClipboard _ => true
  end.

(** The creation is answered and its secret shown, the secret dismissed; or the creation is refused. *)
Lemma integrations_secret_shown_witness :
  let step := machine_step apply_update (@handle simple_url en_US) in
  let created := step demo_creating (Reply 3 answer_created) in
  shown_secret (p_view (m_page created)) = ("s3cret" : jsstr) ∧
  shown_secret (p_view (m_page (step created (Event (ESecretDialog false))))) = [] ∧
  createdTarget (p_view (m_page (step demo_creating (Reply 3 refuse)))) = None.
Proof.
  assert (Hv : @visited simple_url en_US (machine_step apply_update (@handle simple_url en_US) demo_creating (Reply 3 answer_created)))
    by (apply reach_step; apply integrations_demo_visited).
  split_and!.
  - apply (@integrations_secret_shown simple_url en_US demo_creating (Reply 3 answer_created) (integrations_demo_visited _)).
  - apply (@integrations_secret_shown simple_url en_US _ (Event (ESecretDialog false)) Hv).
  - apply (@integrations_secret_shown simple_url en_US demo_creating (Reply 3 refuse) (integrations_demo_visited _)).
Defined.

Lemma integrations_busy_ends_witness :
  (pending ∘ p_view) (m_page (answer_all apply_update (@handle simple_url en_US) 2 3 refuse demo_creating)) = false.
Proof.
  destruct (@integrations_busy_ends simple_url en_US demo_creating (integrations_demo_visited _)) as [_ Hb].
  destruct Hb as (i & t & Et & _ & Hu & Hr); [vm_compute; reflexivity|].
  assert (3%nat = i) as <-; [|exact (Hr refuse)].
  apply (Hu 3%nat (demo_thread demo_creating 3)); vm_compute; reflexivity.
Defined.
