(* ===== verification/SessionsPage.v ===== *)
(** * The page of the sessions

    [src/web/src/routes/sessions/-components/page.tsx]: the operators' sessions and the revocation
    of one, as handlers of [Async] over [view]. *)
From Stdlib Require Import ZArith Lia List.
From stdpp Require Import base list sets gmap.
From S2P Require Import Regex Validation Json Idempotency Types Api ApiCalls Query.
From S2P Require Import I18nPt I18nEn I18nEs I18n Admin Async Prelude.
Import Validation.
#[local] Open Scope Z_scope.

(** ** State *)

Record view := {
  revokeTarget : option AdminSessionView;
  pending : bool;
  sessionsData : option (list AdminSessionView); (* [sessionsQuery.data] *)
  sessionsError : option api_exn;             (* [sessionsQuery.error] *)
}.

(** The calls of the state setters, the writes of refs and the arrival of data. *)
Inductive update :=
  | setRevokeTarget (x : option AdminSessionView) | setPending (x : bool)
  | setSessionsData (x : option (list AdminSessionView)) | setSessionsError (x : option api_exn).

Definition apply_update (u : update) (v : view) : view := {|
  revokeTarget := match u with setRevokeTarget x => x | _ => revokeTarget v end;
  pending := match u with setPending x => x | _ => pending v end;
  sessionsData := match u with setSessionsData x => x | _ => sessionsData v end;
  sessionsError := match u with setSessionsError x => x | _ => sessionsError v end |}.

Abbreviation page := (@Async.page view).
Abbreviation io := (@Async.io view update).

Section page.
Context (l : Locale).

Definition tr (key : jsstr) : jsstr := t l key.

Definition sessions (v : view) : list AdminSessionView := default [] (sessionsData v).

Definition page_error (v : view) : jsstr :=
  match sessionsError v with Some e => apiErrorMessage e tr | None => [] end.

(** The principal of a row and of the dialog. *)
Definition principal (s : AdminSessionView) : jsstr := str_or (asv_label s) (asv_subject s).

Definition is_active (s : AdminSessionView) : bool :=
  match asv_status s with ss_active => true | _ => false end.

(** The rows that can be revoked. *)
Definition revocable (s : AdminSessionView) : bool := negb (asv_current s || negb (is_active s)).

(** ** Handlers *)

Definition revoke (v : view) : io unit :=
  match revokeTarget v with
  | None => Ret tt
  | Some target =>
    set_all [setPending true];;
    try_finally
      (try_catch
        (call (revokeAdminSession (asv_id target));;
         toast (tr "sessions.revoked");;
         set_all [setRevokeTarget None];;
         cache [[Invalidate false k_sessions]])
        (λ cause, toast (apiErrorMessage cause tr)))
      (set_all [setPending false])
  end.

(** ** Events *)

Inductive event :=
  | EAsk (i : nat) | EDialog (b : bool) | ERevoke
  | EData (d : option (list AdminSessionView)) (e : option api_exn).

Definition handle (e : event) (s : page) : io unit :=
  let v := p_view s in
  match e with
  | EAsk i => with_some (sessions v !! i) (λ s, when (revocable s) (set_all [setRevokeTarget (Some s)]))
  | EDialog b => when (negb b) (set_all [setRevokeTarget None])
  | ERevoke => with_some (revokeTarget v) (λ _, when (negb (pending v)) (revoke v))
  | EData d e => set_all [setSessionsData d; setSessionsError e]
  end.

Definition initial_page (e : entropy) : page := {|
  p_view := {| revokeTarget := None; pending := false; sessionsData := None; sessionsError := None |};
  p_entropy := e; p_log := [] |}.

Inductive initial : page → Prop := initial_intro e : initial (initial_page e).
End page.

#[export] Hint Unfold revoke : pages.

Section facts.
Context (l : Locale).

Definition sessions_call_ok (q : request) (s : page) : Prop :=
  match q with
  | Call (revokeAdminSession i) =>
    ∃ d, revokeTarget (p_view s) = Some d ∧ asv_id d = i ∧ asv_current d = false ∧ asv_status d = ss_active
  | Cache commands => commands = [Invalidate false k_sessions]
  | _ => False
  end.

Definition replied (q : request) : reply q → page → page → Prop :=
  match q with
  | Call (revokeAdminSession _) => λ r s s',
    match r with
    | Ok _ => revokeTarget (p_view s') = None ∧ p_log s' = p_log s ++ [Toast (tr l "sessions.revoked")]
    | Err e => p_view s' = apply_update (setPending false) (p_view s) ∧
               p_log s' = p_log s ++ [Toast (apiErrorMessage e (tr l))]
    end
  | _ => λ _ _ _, True
  end.

Definition target_ok (v : view) : Prop :=
  match revokeTarget v with Some d => asv_current d = false ∧ asv_status d = ss_active | None => True end.

Definition sessions_spec : spec (E := event) := {|
  rely := λ s, target_ok (p_view s);
  asks := sessions_call_ok;
  started := λ _ _ _, True;
  resumed := replied |}.

Lemma sessions_kept e s : target_ok (p_view s) → kept apply_update sessions_spec (handle l e s) s.
Proof.
  intros Hs. destruct e as [i|b| |d e]; unfold handle; cbv zeta; group; unfold kept.
  - split; [done|]. unfold revocable, is_active in *. bool_to_prop. unfold target_ok. cbn. split; [done|]. by case_match.
  - by split.
  - unfold revoke. destruct (revokeTarget (p_view s)) as [x|] eqn:Ex; [|by split].
    run apply_update ltac:(done). unfold target_ok in Hs. rewrite Ex in Hs. destruct Hs. by exists x.
  - by split.
Qed.

Lemma sessions_keeps : keeps_spec apply_update (handle l) sessions_spec.
Proof. intros e s Hs. by apply sessions_kept. Qed.

Lemma sessions_initial s : initial s → rely sessions_spec s.
Proof. by intros [e]. Qed.

Definition visited : machine → Prop := Async.reachable apply_update (handle l) initial.

Definition revokes (e : event) : bool := match e with ERevoke => true | _ => false end.

Lemma sessions_pending_spared e s : revokes e = false → only (spares apply_update pending) (handle l e s).
Proof. intros He. destruct e; try done; unfold handle; cbv zeta; only_run. Qed.

Lemma sessions_pending_held : holds_call apply_update (handle l) (pending ∘ p_view) revokes.
Proof.
  intros e s. destruct (revokes e) eqn:He.
  - destruct e; try done. cbn [handle]. unfold with_some, when, revoke.
    destruct (revokeTarget (p_view s)) as [x|]; [|by refused].
    destruct (negb _) eqn:Hc; [|by refused]. bool_to_prop. right. split; [done|]. hold_run apply_update.
  - by apply leaves_flag_only with (f := pending); [|apply sessions_pending_spared].
Qed.

(** ** Properties *)

(** The page revokes sessions that were active when they were chosen, never the operator's own,
    and nothing else; one at a time, with the button back once it was answered. *)
Theorem sessions_revocations m :
  visited m →
  (∀ q s, (q, s) ∈ m_sent m → sessions_call_ok q s) ∧
  busy apply_update (handle l) (pending ∘ p_view) revokes 2 m.
Proof.
  intros Hm. split.
  - intros q s Hq. exact (reachable_asks _ _ _ _ sessions_initial sessions_keeps m q s Hm Hq).
  - eapply busy_ends; [|apply sessions_pending_held| |exact Hm]; [by intros s []|].
    intros e s He. destruct e; try done. unfold handle; cbv zeta. within_run.
Qed.
End facts.

(** ** Witness *)

Definition demo_session (id : jsstr) (current : bool) : AdminSessionView :=
  {| asv_id := id; asv_issuer := "idp"; asv_subject := "op"; asv_label := []; asv_roles := [];
     asv_created_at := []; asv_last_used_at := []; asv_expires_at := []; asv_idle_expires_at := [];
     asv_revoked_at := None; asv_status := ss_active; asv_current := current |}.

Definition demo_run (es : list event) : machine :=
  run_machine apply_update (handle en_US) (start_machine (initial_page {| drawn := 0 |})) (Event <$> es).

Lemma sessions_demo_visited es : visited en_US (demo_run es).
Proof. unfold demo_run, visited. refine (reachable_run _ _ _ _ _ _). apply reach_start. constructor. Qed.

Definition demo_revoking : machine :=
  demo_run [EData (Some [demo_session "s1" true; demo_session "s2" false]) None; EAsk 0; EAsk 1; ERevoke].

Lemma sessions_revocations_witness :
  sessions_call_ok (Call (revokeAdminSession "s2")) (default (m_page demo_revoking) (snd <$> head (m_sent demo_revoking))).
Proof. apply (proj1 (sessions_revocations en_US demo_revoking (sessions_demo_visited _))). vm_compute. left. Defined.
