(* ===== verification/AuditPage.v ===== *)
(** * The page of the audit events

    [src/web/src/routes/audit-events/-components/page.tsx]: the events of the last day, the state of
    the log, and its export - created, polled until it is ready and downloaded once - as handlers of
    [Async] over [view].  [exportJob] is set by the creation and by a download only: what the polls
    bring stays in the query, and the theorems follow what that does to the offer of a download. *)
From Stdlib Require Import ZArith Lia List.
From stdpp Require Import base list sets gmap.
From S2P Require Import Regex Dates Validation Json Idempotency Types Api ApiCalls Query.
From S2P Require Import I18nPt I18nEn I18nEs I18n Admin Async Prelude.
Import Validation.
#[local] Open Scope Z_scope.

(** ** State *)

Record view := {
  exportJob : option AuditExportJob;
  exportAnswers : gmap jsstr AuditExportJob;  (* the data of [exportStatusQuery], by its key *)
  exportPending : bool;                       (* [exportMutation.isPending] *)
  exportError : option api_exn;               (* [exportMutation.error] *)
  eventsPage : option AdminAuditPage;         (* [eventsQuery.data] *)
  eventsFailure : option api_exn;             (* [eventsQuery.error] *)
  healthData : option AuditHealth;            (* [healthQuery.data] *)
  healthFailure : option api_exn;             (* [healthQuery.error] *)
  clock : Z;                                  (* [Date.now()] *)
}.

(** The calls of the state setters, the writes of refs and the arrival of data. *)
Inductive update :=
  | setExportJob (x : option AuditExportJob) | setExportAnswers (x : gmap jsstr AuditExportJob)
  | setExportPending (x : bool) | setExportError (x : option api_exn)
  | setEventsPage (x : option AdminAuditPage) | setEventsFailure (x : option api_exn)
  | setHealthData (x : option AuditHealth) | setHealthFailure (x : option api_exn)
  | setClock (x : Z).

Definition apply_update (u : update) (v : view) : view := {|
  exportJob := match u with setExportJob x => x | _ => exportJob v end;
  exportAnswers := match u with setExportAnswers x => x | _ => exportAnswers v end;
  exportPending := match u with setExportPending x => x | _ => exportPending v end;
  exportError := match u with setExportError x => x | _ => exportError v end;
  eventsPage := match u with setEventsPage x => x | _ => eventsPage v end;
  eventsFailure := match u with setEventsFailure x => x | _ => eventsFailure v end;
  healthData := match u with setHealthData x => x | _ => healthData v end;
  healthFailure := match u with setHealthFailure x => x | _ => healthFailure v end;
  clock := match u with setClock x => x | _ => clock v end |}.

Abbreviation page := (@Async.page view).
Abbreviation io := (@Async.io view update).

Section page.
Context (uuid : nat → jsstr) (l : Locale) (session : option AdminSession) (opened : Z).

Definition tr (key : jsstr) : jsstr := t l key.

Definition canExport : bool :=
  match session with
  | None => true
  | Some s => bool_decide ("audit.export" ∈ session_permissions s)
  end.

(** [auditWindow]: the day before the page was opened. *)
Definition window_from : jsstr := toISOString (opened - 24 * 60 * 60 * 1000).
Definition window_to : jsstr := toISOString opened.

(** The query of the events. *)
Definition events_call : api_call :=
  listAuditEvents [("limit", "200"); ("from", window_from); ("to", window_to)].

(** ** What a render computes *)

Definition export_status_name (s : export_status) : jsstr :=
  match s with
  | x_pending => "pending" | x_processing => "processing" | x_ready => "ready"
  | x_failed => "failed" | x_expired => "expired"
  end.

(** [enabled] of the query that polls. *)
Definition polling (v : view) : bool :=
  match exportJob v with
  | Some job => negb (bool_decide (export_status_name (aej_status job) ∈ (["ready"; "failed"; "expired"] : list jsstr)))
  | None => false
  end.

(** What it fetches, every two seconds while it is enabled. *)
Definition poll_call (v : view) : option api_call :=
  if polling v then getAuditExport <$> (aej_id <$> exportJob v) else None.

(** [exportStatusQuery.data ?? exportJob]; the key of the query has the id of the job. *)
Definition currentExport (v : view) : option AuditExportJob :=
  match exportJob v with
  | Some job => Some (default job (exportAnswers v !! aej_id job))
  | None => None
  end.

Definition export_text (job : AuditExportJob) : jsstr :=
  default [] (translate l "audit.exportStatus"
    [("status", export_status_name (aej_status job)); ("rows", show_int (default 0 (aej_row_count job)))]).

(** The button of the download. *)
Definition downloadable (v : view) : option AuditExportJob :=
  match currentExport v with
  | Some job => if str_eqb (export_status_name (aej_status job)) "ready" then Some job else None
  | None => None
  end.

Definition events (v : view) : list AdminAuditEvent :=
  match eventsPage v with Some p => ap_events p | None => [] end.

Definition overviewError (v : view) : jsstr :=
  match healthFailure v with Some e => apiErrorMessage e tr | None => [] end.

Definition eventsError (v : view) : jsstr :=
  match eventsFailure v, exportError v with
  | Some e, _ | None, Some e => apiErrorMessage e tr
  | None, None => []
  end.

(** The columns and the facet of the table. *)
Definition actor (e : AdminAuditEvent) : jsstr := ae_actor_kind e ++ "/" ++ ae_actor_subject e.
Definition target (e : AdminAuditEvent) : jsstr := ae_target_type e ++ ":" ++ ae_target_id e.

Definition result_name (r : audit_result) : jsstr :=
  match r with ar_success => "success" | ar_denied => "denied" | ar_error => "error" end.

Definition result_filter (e : AdminAuditEvent) (value : list jsstr) : bool :=
  bool_decide (result_name (ae_result e) ∈ value).

(** ** Handlers *)

Definition format_name (f : export_format) : jsstr := match f with csv => "csv" | jsonl => "jsonl" end.

Definition downloadBlob (format : export_format) : io unit :=
  tell (SaveFile ("tenancit-audit." ++ format_name format)).

Definition export_filters : AuditExportFilters :=
  {| aef_from := window_from; aef_to := window_to; aef_action := None; aef_target_type := None;
     aef_result := None |}.

Definition exportMutation : io unit :=
  mutate (λ b, [setExportPending b]) setExportError
    (key ← randomUUID uuid; call (createAuditExport export_filters csv key))
    (λ job, set_all [setExportJob (Some job)]).

(** [{ ...job, status: "expired", downloaded_at }] *)
Definition expire (job : AuditExportJob) (downloaded_at : jsstr) : AuditExportJob :=
  {| aej_id := aej_id job; aej_idempotency_key := aej_idempotency_key job; aej_filters := aej_filters job;
     aej_format := aej_format job; aej_status := x_expired; aej_row_count := aej_row_count job;
     aej_created_at := aej_created_at job; aej_completed_at := aej_completed_at job;
     aej_expires_at := aej_expires_at job; aej_downloaded_at := Some downloaded_at |}.

Definition consumeExport (job : AuditExportJob) : io unit :=
  blob ← Await (Download (aej_id job)) from_result;
  downloadBlob (aej_format job);;
  Look (λ s, set_all [setExportJob (Some (expire job (toISOString (clock (p_view s)))))]).

(** ** Events *)

Inductive event :=
  | EExport | EDownload
  | EPoll (id : jsstr) (job : AuditExportJob)     (* a poll is answered *)
  | EEvents (d : option AdminAuditPage) (e : option api_exn)
  | EHealth (d : option AuditHealth) (e : option api_exn)
  | EClock (now : Z).

Definition handle (e : event) (s : page) : io unit :=
  let v := p_view s in
  match e with
  | EExport => when (canExport && negb (exportPending v)) exportMutation
  | EDownload => with_some (downloadable v) consumeExport
  | EPoll id job => set_all [setExportAnswers (<[id := job]> (exportAnswers v))]
  | EEvents d e => set_all [setEventsPage d; setEventsFailure e]
  | EHealth d e => set_all [setHealthData d; setHealthFailure e]
  | EClock now => set_all [setClock now]
  end.

Definition initial_page (e : entropy) : page := {|
  p_view := {| exportJob := None; exportAnswers := ∅; exportPending := false; exportError := None;
    eventsPage := None; eventsFailure := None; healthData := None; healthFailure := None; clock := opened |};
  p_entropy := e; p_log := [] |}.

Inductive initial : page → Prop := initial_intro e : initial (initial_page e).
End page.

#[export] Hint Unfold exportMutation consumeExport downloadBlob : pages.

(** ** Lemmas *)

Section facts.
Context (uuid : nat → jsstr) (session : option AdminSession) (opened : Z).

(** What the page may ask for: the export of its window, under a key drawn for it, and the download
    that is on offer. *)
Definition asked (q : request) (s : page) : Prop :=
  match q with
  | Call (createAuditExport filters format k) =>
    canExport session = true ∧ filters = export_filters opened ∧ format = csv ∧
    p_entropy s = {| drawn := S (pred (drawn (p_entropy s))) |} ∧ k = uuid (pred (drawn (p_entropy s)))
  | Download i => ∃ job, downloadable (p_view s) = Some job ∧ aej_id job = i
  | _ => False
  end.

Definition audit_spec : spec (E := event) := {|
  rely := λ _, True; asks := asked; started := λ _ _ _, True; resumed := λ _ _ _ _, True |}.

Lemma audit_keeps : keeps_spec apply_update (handle uuid session opened) audit_spec.
Proof.
  intros e s Hs. change (kept apply_update audit_spec (handle uuid session opened e s) s).
  destruct e; unfold handle; cbv zeta; group; unfold kept, exportMutation, consumeExport, mutate, randomUUID;
    run apply_update ltac:(done).
  - by bool_to_prop.
  - by eexists.
Qed.

Lemma audit_initial s : initial opened s → rely audit_spec s.
Proof. done. Qed.

Definition visited : machine → Prop := Async.reachable apply_update (handle uuid session opened) (initial opened).

Definition exports (e : event) : bool := match e with EExport => true | _ => false end.

Lemma exporting_held : holds_call apply_update (handle uuid session opened) (exportPending ∘ p_view) exports.
Proof.
  intros e s. destruct (exports e) eqn:He.
  - destruct e; try done. cbn [handle]. unfold when, exportMutation, mutate, randomUUID.
    destruct (canExport session && _) eqn:Hc; [|by refused]. bool_to_prop. right. split; [done|]. hold_run apply_update.
  - apply leaves_flag_only with (f := exportPending); [done|]. destruct e; try done; unfold handle; cbv zeta; only_run.
Qed.

(** ** Properties *)

(** The page asks for two things only: an export of the day it was opened after, by operators who
    may export and under a key drawn for that request; and the download it offers. *)
Theorem audit_calls_valid m q s :
  visited m → (q, s) ∈ m_sent m → asked q s.
Proof.
  intros Hm Hq. exact (reachable_asks _ _ _ _ audit_initial audit_keeps m q s Hm Hq).
Qed.

(** The download of an export whose polls have found it ready.  The polls go on whatever they
    bring, for the job they would stop for is only in the query; once the file is saved the job is
    marked as used up, but the query still answers for it, so that the same download stays on
    offer; and when the server refuses it the page shows nothing: the error is nobody's. *)
Theorem audit_download m job answer (r : ∀ q, reply q) :
  visited m →
  let v := p_view (m_page m) in
  exportJob v = Some job → polling v = true →
  exportAnswers v !! aej_id job = Some answer → aej_id answer = aej_id job → aej_status answer = x_ready →
  (∀ i j, let m' := machine_step apply_update (handle uuid session opened) m (Event (EPoll i j)) in
     polling (p_view (m_page m')) = true) ∧
  let m1 := machine_step apply_update (handle uuid session opened) m (Event EDownload) in
  let m2 := machine_step apply_update (handle uuid session opened) m1 (Reply (m_next m) r) in
  let v2 := p_view (m_page m2) in
  m_sent m1 = m_sent m ++ [(Download (aej_id job), m_page m)] ∧
  match r (Download (aej_id job)) with
  | Ok _ =>
    (∃ now, exportJob v2 = Some (expire answer now)) ∧ polling v2 = false ∧
    p_log (m_page m2) = p_log (m_page m) ++ [SaveFile ("tenancit-audit." ++ format_name (aej_format answer))] ∧
    downloadable v2 = Some answer
  | Err e =>
    v2 = v ∧ p_log (m_page m2) = p_log (m_page m) ∧ m_thrown m2 = m_thrown m ++ [e]
  end.
Proof.
  intros Hm v Ej Hp Ea Ei Es. split; [intros i j; exact Hp|]. cbv zeta.
  assert (Hd : downloadable v = Some answer).
  { unfold downloadable, currentExport. by rewrite Ej, Ea; cbn; rewrite Es. }
  assert (machine_step apply_update (handle uuid session opened) m (Event EDownload) =
          settle_thread EDownload (m_next m) (sync apply_update (consumeExport answer) (m_page m)) m) as ->.
  { cbn [machine_step handle]. fold v. by rewrite Hd. }
  cbn [sync consumeExport io_bind mbind io_mbind]. rewrite reply_waiting, Ei. split; [done|].
  destruct (r (Download (aej_id job))) as [x|e]; [|done].
  cbn -[apply_update toISOString]. split_and!; [by eexists|done|done|].
  unfold downloadable, currentExport. cbn -[toISOString]. fold v. rewrite Ei, Ea. cbn. by rewrite Es.
Qed.

(** One export is created at a time, and its button comes back once the server has answered. *)
Theorem audit_export_ends m :
  visited m → busy apply_update (handle uuid session opened) (exportPending ∘ p_view) exports 1 m.
Proof.
  intros Hm. eapply busy_ends; [|apply exporting_held| |exact Hm]; [by intros s []|].
  intros e s He. destruct e; try done. unfold handle, mutate, randomUUID; cbv zeta. within_run.
Qed.
End facts.

(** ** Witnesses *)

Definition demo_uuid (n : nat) : jsstr := [Z.of_nat n].

Definition demo_job (status : export_status) : AuditExportJob :=
  {| aej_id := "x1"; aej_idempotency_key := []; aej_filters := export_filters 1782838800123; aej_format := csv;
     aej_status := status; aej_row_count := None; aej_created_at := []; aej_completed_at := None;
     aej_expires_at := []; aej_downloaded_at := None |}.

Definition demo_answers (q : request) : reply q.
Proof.
  destruct q as [a|i|c|to|text]; [|exact (Ok tt)|exact tt|exact tt|exact true].
  destruct a; first [exact (Ok tt)|exact (Ok (demo_job x_pending))|exact (Err host_failure)].
Defined.

Definition demo_run (ls : list label) : machine :=
  run_machine apply_update (handle demo_uuid None 1782838800123)
    (start_machine (initial_page 1782838800123 {| drawn := 0 |})) ls.

Lemma audit_demo_visited ls : visited demo_uuid None 1782838800123 (demo_run ls).
Proof. unfold demo_run, visited. refine (reachable_run _ _ _ _ _ _). apply reach_start. constructor. Qed.

Definition demo_ready : machine :=
  demo_run [Event EExport; Reply 0 demo_answers; Event (EPoll "x1" (demo_job x_ready))].

Lemma audit_calls_valid_witness :
  asked demo_uuid None 1782838800123
    (Call (createAuditExport (export_filters 1782838800123) csv (demo_uuid 0)))
    (default (m_page demo_ready) (snd <$> head (m_sent demo_ready))).
Proof. apply (audit_calls_valid demo_uuid None 1782838800123 demo_ready _ _ (audit_demo_visited _)). vm_compute. left. Defined.

Lemma audit_download_witness :
  downloadable (p_view (m_page (run_machine apply_update (handle demo_uuid None 1782838800123) demo_ready
    [Event EDownload; Reply 2 demo_answers]))) = Some (demo_job x_ready).
Proof.
  destruct (audit_download demo_uuid None 1782838800123 demo_ready (demo_job x_pending) (demo_job x_ready)
    demo_answers (audit_demo_visited _)) as (_ & _ & _ & _ & _ & Hd); [vm_compute; reflexivity..|]. exact Hd.
Defined.

Lemma audit_export_ends_witness :
  exportPending (p_view (m_page (answer_all apply_update (handle demo_uuid None 1782838800123) 1 0 refuse
    (demo_run [Event EExport])))) = false.
Proof.
  destruct (audit_export_ends demo_uuid None 1782838800123 (demo_run [Event EExport]) (audit_demo_visited _)) as [_ Hb].
  destruct Hb as (i & t & Et & Mt & Hu & Hr); [vm_compute; reflexivity|].
  assert (0%nat = i) as <-; [|exact (Hr refuse)].
  eapply (Hu 0%nat); [vm_compute; reflexivity|reflexivity].
Defined.
