(* ===== verification/HoldsDialog.v ===== *)
(** * The dialog of the legal holds

    [src/web/src/routes/audit-events/-components/audit-legal-holds-dialog.tsx]: the holds on the audit
    log, their creation over a window of time and their release.  The form writes the times of a
    clock in UTC into fields that are read as local times; [holds_window_shifted] says what a hold
    created from the untouched form covers. *)
From Stdlib Require Import ZArith Lia List.
From stdpp Require Import base list sets gmap.
From S2P Require Import Regex Dates Host Validation Json Idempotency Types Api ApiCalls Query.
From S2P Require Import I18nPt I18nEn I18nEs I18n Admin Async Prelude.
Import Validation.
#[local] Open Scope Z_scope.

(** ** State *)

Record view := {
  open : bool;
  window : jsstr * jsstr;                     (* [from] and [to] *)
  reason : jsstr;
  holdsData : option (list AuditLegalHold);   (* [holdsQuery.data] *)
  holdsError : option api_exn;                (* [holdsQuery.error] *)
  createPending : bool;                       (* [createMutation.isPending], and so on *)
  createError : option api_exn;
  releasePending : bool;
  releaseError : option api_exn;
}.

(** The calls of the state setters, the writes of refs and the arrival of data. *)
Inductive update :=
  | setOpen (x : bool) | setWindow (x : jsstr * jsstr) | setReason (x : jsstr)
  | setHoldsData (x : option (list AuditLegalHold)) | setHoldsError (x : option api_exn)
  | setCreatePending (x : bool) | setCreateError (x : option api_exn) | setReleasePending (x : bool)
  | setReleaseError (x : option api_exn).

Definition apply_update (u : update) (v : view) : view := {|
  open := match u with setOpen x => x | _ => open v end;
  window := match u with setWindow x => x | _ => window v end;
  reason := match u with setReason x => x | _ => reason v end;
  holdsData := match u with setHoldsData x => x | _ => holdsData v end;
  holdsError := match u with setHoldsError x => x | _ => holdsError v end;
  createPending := match u with setCreatePending x => x | _ => createPending v end;
  createError := match u with setCreateError x => x | _ => createError v end;
  releasePending := match u with setReleasePending x => x | _ => releasePending v end;
  releaseError := match u with setReleaseError x => x | _ => releaseError v end |}.

Abbreviation page := (@Async.page view).
Abbreviation io := (@Async.io view update).

(** [value.toISOString().slice(0, 16)] *)
Definition localDateTime (value : Z) : jsstr := take 16 (toISOString value).

Section page.
Context `{DateApi} (l : Locale) (session : option AdminSession) (mounted : Z).

Definition tr (key : jsstr) : jsstr := t l key.

Definition manages : bool :=
  match session with
  | None => true
  | Some s => bool_decide ("audit.manage" ∈ session_permissions s)
  end.

Definition validWindow (v : view) : bool := isValidDateRange (window v).1 (window v).2.

Definition holds (v : view) : list AuditLegalHold := default [] (holdsData v).

(** The alert of the dialog. *)
Definition error_text (v : view) : jsstr :=
  match holdsError v, createError v, releaseError v with
  | Some e, _, _ | None, Some e, _ | None, None, Some e => apiErrorMessage e tr
  | None, None, None => []
  end.

Definition k_auditLegalHolds : query_key := all ++ ["audit-legal-holds"].
Definition k_auditHealth : query_key := all ++ ["audit-health"].

(** ** Mutations *)

(** [new Date(text).toISOString()], which throws on a text that is no date. *)
Definition date_text (text : jsstr) : io jsstr :=
  match Date_parse text with
  | Some time => Ret (toISOString time)
  | None => Throw (HostError BodyError)
  end.

Definition refresh : io unit := cache [[Invalidate false k_auditLegalHolds]; [Invalidate false k_auditHealth]].

Definition createMutation (v : view) : io unit :=
  mutate (λ b, [setCreatePending b]) setCreateError
    (from ← date_text (window v).1;
     to ← date_text (window v).2;
     call (createAuditLegalHold from to (trim (reason v))))
    (λ _, set_all [setReason []];; refresh).

Definition releaseMutation (id : jsstr) : io unit :=
  mutate (λ b, [setReleasePending b]) setReleaseError (call (releaseAuditLegalHold id)) (λ _, refresh).

(** ** Events *)

Inductive event :=
  | EDialog (b : bool) | EFrom (s : jsstr) | ETo (s : jsstr) | EReason (s : jsstr) | ECreate
  | ERelease (i : nat)
  | EData (d : option (list AuditLegalHold)) (e : option api_exn).

(** The button of a hold that is not released. *)
Definition released (h : AuditLegalHold) : bool :=
  match alh_released_at h with Some at_ => truthy at_ | None => false end.

Definition dialog_event (e : event) (v : view) : io unit :=
  match e with
  | EFrom s => set_all [setWindow (s, (window v).2)]
  | ETo s => set_all [setWindow ((window v).1, s)]
  | EReason s => set_all [setReason s]
  | ECreate =>
    when (negb (negb (truthy (trim (reason v))) || negb (validWindow v) || createPending v)) (createMutation v)
  | ERelease i =>
    with_some (holds v !! i) (λ h,
      when (negb (released h) && negb (releasePending v)) (releaseMutation (alh_id h)))
  | _ => Ret tt
  end.

Definition handle (e : event) (s : page) : io unit :=
  let v := p_view s in
  match e with
  | EData d e => set_all [setHoldsData d; setHoldsError e]
  | EDialog b => when manages (set_all [setOpen b])
  | _ => when (manages && open v) (dialog_event e v)
  end.

Definition initial_page (e : entropy) : page := {|
  p_view := {| open := false;
    window := (localDateTime (mounted - 7 * 24 * 60 * 60 * 1000), localDateTime mounted); reason := [];
    holdsData := None; holdsError := None; createPending := false; createError := None;
    releasePending := false; releaseError := None |};
  p_entropy := e; p_log := [] |}.

Inductive initial : page → Prop := initial_intro e : initial (initial_page e).
End page.

#[export] Hint Unfold dialog_event createMutation releaseMutation refresh : pages.

(** ** Lemmas *)

Section facts.
Context `{DateApi} (session : option AdminSession) (mounted : Z).

Definition asked (q : request) (s : page) : Prop :=
  manages session = true ∧
  match q with
  | Call (createAuditLegalHold from to text) =>
    text ≠ [] ∧ trim text = text ∧
    ∃ a b, Date_parse (window (p_view s)).1 = Some a ∧ Date_parse (window (p_view s)).2 = Some b ∧ a < b ∧
      from = toISOString a ∧ to = toISOString b
  | Call (releaseAuditLegalHold i) => ∃ h, h ∈ holds (p_view s) ∧ alh_id h = i ∧ released h = false
  | Cache commands => commands = [Invalidate false k_auditLegalHolds] ∨ commands = [Invalidate false k_auditHealth]
  | _ => False
  end.

(** What a refused creation leaves: its error, and the form as it was. *)
Definition replied (q : request) : reply q → page → page → Prop :=
  match q with
  | Call (createAuditLegalHold _ _ _) => λ r s s',
    match r with
    | Ok _ => reason (p_view s') = [] ∧ createError (p_view s') = createError (p_view s)
    | Err e => p_view s' = apply_update (setCreateError (Some e)) (apply_update (setCreatePending false) (p_view s))
    end
  | _ => λ _ _ _, True
  end.

Definition holds_spec : spec (E := event) := {|
  rely := λ _, True; asks := asked; started := λ _ _ _, True; resumed := replied |}.

Lemma keep_create s :
  manages session = true → truthy (trim (reason (p_view s))) = true → validWindow (p_view s) = true →
  kept apply_update holds_spec (createMutation (p_view s)) s.
Proof.
  intros Hm Hr Hv. unfold validWindow, isValidDateRange in Hv. unfold kept, createMutation, mutate, date_text, asked.
  destruct (Date_parse _) as [a|] eqn:Ea in Hv; [|done]. destruct (Date_parse _) as [b|] eqn:Eb in Hv; [|done].
  rewrite Ea, Eb. run apply_update ltac:(first [done|split; [done|by left]|split; [done|by right]]).
  split; [done|]. split; [intros E; by rewrite E in Hr|]. split; [apply trim_idem|].
  exists a, b. bool_to_prop. done.
Qed.

Lemma holds_keeps : keeps_spec apply_update (handle session) holds_spec.
Proof.
  intros e s Hs. change (kept apply_update holds_spec (handle session e s) s).
  destruct e; unfold handle, dialog_event; cbv zeta; group; try by split.
  - bool_to_prop. by apply keep_create.
  - unfold kept, releaseMutation, mutate, asked. bool_to_prop.
    run apply_update ltac:(first [done|split; [done|by left]|split; [done|by right]]).
    split; [done|]. eexists. split; [by eapply list_elem_of_lookup_2|done].
Qed.

Lemma holds_initial s : initial mounted s → rely holds_spec s.
Proof. done. Qed.

Definition visited : machine → Prop := Async.reachable apply_update (handle session) (initial mounted).

(** ** Properties *)

(** A hold is asked for by those who may manage the log only, with a reason and over a window whose
    start is before its end, sent in UTC; what is released is a hold of the list that was not. *)
Theorem holds_calls_valid m q s : visited m → (q, s) ∈ m_sent m → asked q s.
Proof. intros Hm Hq. exact (reachable_asks _ _ _ _ holds_initial holds_keeps m q s Hm Hq). Qed.

(** The window of a hold created from the form as it opens, on a machine whose clock is [offset]
    milliseconds behind UTC: it is not the week before the dialog was mounted but that week moved
    by [offset], so that east of Greenwich the last hours before the hold are left out of it. *)
Theorem holds_window_shifted offset text e :
  let week := 7 * 24 * 60 * 60 * 1000 in
  let minute t := t - t mod 60000 in
  manages session = true → truthy (trim text) = true →
  (∀ t, t = mounted ∨ t = mounted - week → Date_parse (localDateTime t) = Some (minute t + offset)) →
  (m_sent (run_machine apply_update (handle session) (start_machine (initial_page mounted e))
    [Event (EDialog true); Event (EReason text); Event ECreate])).*1 =
  [Call (createAuditLegalHold (toISOString (minute (mounted - week) + offset))
           (toISOString (minute mounted + offset)) (trim text))].
Proof.
  intros week minute Hm Ht Hp.
  pose proof (Hp _ (or_introl eq_refl)) as Hto. pose proof (Hp _ (or_intror eq_refl)) as Hfrom.
  assert (Hw : isValidDateRange (localDateTime (mounted - week)) (localDateTime mounted) = true).
  { unfold isValidDateRange. rewrite Hfrom, Hto. apply Z.ltb_lt. subst week minute. cbv beta.
    pose proof (Z.mod_pos_bound mounted 60000). pose proof (Z.mod_pos_bound (mounted - 7 * 24 * 60 * 60 * 1000) 60000). lia. }
  subst week. unfold run_machine, handle, dialog_event, validWindow, createMutation, mutate, date_text.
  cbn -[toISOString localDateTime Z.sub Z.modulo truthy trim isValidDateRange]. rewrite Hm.
  cbn -[toISOString localDateTime Z.sub Z.modulo truthy trim isValidDateRange]. rewrite Ht, Hw, Hfrom, Hto. done.
Qed.
End facts.

(** ** Witnesses *)

(** A reader of local times, of a clock [offset] behind UTC. *)
Definition local_dates (offset : Z) : DateApi := {|
  Date_parse s :=
    let field (i n : nat) := digits_value (take n (drop i s)) in
    Some (MakeDay (field 0%nat 4%nat) (field 5%nat 2%nat - 1) (field 8%nat 2%nat) * msPerDay
          + field 11%nat 2%nat * 3600000 + field 14%nat 2%nat * 60000 + offset) |}.

Definition demo_opened : Z := 1782838800123.

Definition demo_run (offset : Z) (ls : list event) : machine :=
  run_machine apply_update (@handle (local_dates offset) None)
    (start_machine (initial_page demo_opened {| drawn := 0 |})) (Event <$> ls).

Lemma holds_demo_visited offset ls : @visited (local_dates offset) None demo_opened (demo_run offset ls).
Proof. unfold demo_run, visited. refine (reachable_run _ _ _ _ _ _). apply reach_start. constructor. Qed.

Definition demo_creating (offset : Z) : machine := demo_run offset [EDialog true; EReason " litigation "; ECreate].

Lemma holds_calls_valid_witness :
  @asked (local_dates 0) None
    (Call (createAuditLegalHold "2026-06-23T17:00:00.000Z" "2026-06-30T17:00:00.000Z" "litigation"))
    (default (m_page (demo_creating 0)) (snd <$> head (m_sent (demo_creating 0)))).
Proof. apply (@holds_calls_valid (local_dates 0) None demo_opened (demo_creating 0) _ _ (holds_demo_visited _ _)). vm_compute. left. Defined.

(** In a zone three hours east of Greenwich the hold stops three hours before it is created. *)
Lemma holds_window_shifted_witness :
  (m_sent (demo_creating (- 3 * 3600000))).*1 =
  [Call (createAuditLegalHold "2026-06-23T14:00:00.000Z" "2026-06-30T14:00:00.000Z" "litigation")].
Proof.
  etransitivity; [apply (@holds_window_shifted (local_dates (- 3 * 3600000)) None demo_opened (- 3 * 3600000)
    " litigation" {| drawn := 0 |} eq_refl eq_refl)|vm_compute; reflexivity].
  intros t [->| ->]; vm_compute; reflexivity.
Defined.
