(* ===== verification/UsagePage.v ===== *)
(** * The page of the usage

    [src/web/src/routes/usage/-components/page.tsx] and [month-year-nav.tsx]: the month on display
    and its navigation, the filters, and the figures and the chart computed from the records of the
    month.  The month is kept as a text and read back at each render; a [Date] of the navigation is
    its local time value, so that its fields are those of [Dates].  [addMonths] is date-fns'. *)
From Stdlib Require Import ZArith Lia List.
From stdpp Require Import base list sets gmap.
From S2P Require Import Regex Numbers Dates Types Api ApiCalls Overview.
From S2P Require Import I18nPt I18nEn I18nEs I18n Prelude.
#[local] Open Scope Z_scope.

(** ** Months *)

Definition ALL : jsstr := "all".

(** [new Date(year, month, date)], of whose result only the local fields are read. *)
Definition Date_local (year month date : Z) : Z := Date_UTC year month date.
Definition getFullYear (d : Z) : Z := getUTCFullYear d.
Definition getMonth (d : Z) : Z := getUTCMonth d.
Definition getDate (d : Z) : Z := getUTCDate d.

Definition monthToString (date : Z) : jsstr :=
  show_int (getFullYear date) ++ "-" ++ pad_left 2 (show_int (getMonth date + 1)).

(** [month.split("-").map(Number)], of a text with two integers; without them the dates made of it
    are invalid. *)
Definition month_fields (month : jsstr) : option (Z * Z) :=
  match split 45 month with
  | y :: v :: _ => year ← num_int (js_Number y); value ← num_int (js_Number v); Some (year, value)
  | _ => None
  end.

Definition stringToMonth (month : jsstr) : option Z :=
  '(year, value) ← month_fields month; Some (Date_local year (value - 1) 1).

Definition monthRange (month : jsstr) : option date_range :=
  '(year, value) ← month_fields month;
  Some {| range_from := month ++ "-01"; range_to := take 10 (toISOString (Date_UTC year value 0)) |}.

(** ** State *)

Inductive picker_view := months | years.

(** [MonthYearPicker], mounted anew for each month. *)
Record picker := { pk_selected : Z; pk_year : Z; pk_view : picker_view }.

Definition mount_picker (selected : Z) : picker :=
  {| pk_selected := selected; pk_year := getFullYear selected; pk_view := months |}.

Record view := {
  month : jsstr;
  clientID : jsstr;
  operation : jsstr;
  open : bool;                                (* of the popover *)
  month_picker : picker;
  usageData : option (list APIClientUsageRecord); (* [usageQuery.data] *)
  clientsData : option (list ApiClient);      (* [apiClientsQuery.data] *)
}.

(** ** What a render computes *)

Definition rows (v : view) : list APIClientUsageRecord := default [] (usageData v).
Definition clients (v : view) : list ApiClient := default [] (clientsData v).

Definition usage_call (v : view) : option api_call :=
  (λ r, listAPIClientUsage (Some (range_from r)) (Some (range_to r))) <$> monthRange (month v).

Definition selectedClientID (v : view) : jsstr :=
  if str_eqb (clientID v) ALL || existsb (λ client, str_eqb (client_id client) (clientID v)) (clients v)
  then clientID v else ALL.

Definition operation_name (o : usage_operation) : jsstr :=
  match o with identify => "identify" | resolve => "resolve" end.

Definition shown (v : view) (row : APIClientUsageRecord) : bool :=
  (str_eqb (selectedClientID v) ALL || str_eqb (usage_api_client_id row) (selectedClientID v))
  && (str_eqb (operation v) ALL || str_eqb (operation_name (usage_operation_ row)) (operation v)).

Definition filtered (v : view) : list APIClientUsageRecord := List.filter (shown v) (rows v).

Record day_usage := { du_identify : Z; du_resolve : Z }.

(** [current[row.operation] += row.request_count] *)
Definition add_request (row : APIClientUsageRecord) (d : day_usage) : day_usage :=
  match usage_operation_ row with
  | identify => {| du_identify := du_identify d + usage_request_count row; du_resolve := du_resolve d |}
  | resolve => {| du_identify := du_identify d; du_resolve := du_resolve d + usage_request_count row |}
  end.

Definition no_usage : day_usage := {| du_identify := 0; du_resolve := 0 |}.

(** [byDay.set(row.day, …)], for each row. *)
Definition by_day (rs : list APIClientUsageRecord) : gmap jsstr day_usage :=
  fold_left (λ m row, <[usage_day row := add_request row (default no_usage (m !! usage_day row))]> m) rs ∅.

Definition daysInMonth (month : jsstr) : Z :=
  match month_fields month with
  | Some (year, monthNumber) => getDate (Date_local year monthNumber 0)
  | None => 0
  end.

(** The points of the chart: the text of a day of the month, and its figures. *)
Definition chart_of (month : jsstr) (rs : list APIClientUsageRecord) : list (jsstr * day_usage) :=
  (λ index, let day := pad_left 2 (show_int (Z.of_nat index + 1)) in
            (day, default no_usage (by_day rs !! (month ++ "-" ++ day))))
    <$> seq 0 (Z.to_nat (daysInMonth month)).

Definition chart (v : view) : list (jsstr * day_usage) := chart_of (month v) (filtered v).

Record usage_totals := { requests : Z; errors : Z; limited : Z }.

Definition totals (v : view) : usage_totals :=
  fold_left (λ acc row,
    {| requests := requests acc + usage_request_count row;
       errors := errors acc + (if 4 <=? usage_status_class row then usage_request_count row else 0);
       limited := limited acc + usage_rate_limited_count row |})
    (filtered v) {| requests := 0; errors := 0; limited := 0 |}.

Definition showIdentify (v : view) : bool := str_eqb (operation v) ALL || str_eqb (operation v) "identify".
Definition showResolve (v : view) : bool := str_eqb (operation v) ALL || str_eqb (operation v) "resolve".

Definition chartTotal (v : view) : Z :=
  fold_left (λ total day, total + (if showIdentify v then du_identify day.2 else 0)
                          + (if showResolve v then du_resolve day.2 else 0)) (chart v) 0.

(** [tickFormatter] of the axis. *)
Definition tick (v : view) (value : jsstr) : jsstr :=
  match num_int (js_Number value) with
  | Some day => if (day =? 1) || (day =? Z.of_nat (length (chart v))) || (Z.rem day 5 =? 0) then value else []
  | None => []
  end.

(** ** The picker of a month *)

Definition YEARS_PER_PAGE : Z := 12.
Definition pageStartOf (year : Z) : Z := year / YEARS_PER_PAGE * YEARS_PER_PAGE.

Definition picker_values (p : picker) : list Z :=
  match pk_view p with
  | years => (λ index, pageStartOf (pk_year p) + Z.of_nat index) <$> seq 0 12
  | months => (λ index, Z.of_nat index) <$> seq 0 12
  end.

(** The button marked as chosen. *)
Definition active (p : picker) (value : Z) : bool :=
  match pk_view p with
  | years => value =? getFullYear (pk_selected p)
  | months => (value =? getMonth (pk_selected p)) && (pk_year p =? getFullYear (pk_selected p))
  end.

Definition turn (p : picker) (forward : bool) : picker :=
  let by_ := match pk_view p with years => YEARS_PER_PAGE | months => 1 end in
  {| pk_selected := pk_selected p; pk_year := if forward then pk_year p + by_ else pk_year p - by_;
     pk_view := pk_view p |}.

Definition toggle_view (p : picker) : picker :=
  {| pk_selected := pk_selected p; pk_year := pk_year p;
     pk_view := match pk_view p with months => years | years => months end |}.

(** A value chosen in the picker: the picker after it, and the month it selects. *)
Definition choose (p : picker) (value : Z) : picker * option Z :=
  match pk_view p with
  | years => ({| pk_selected := pk_selected p; pk_year := value; pk_view := months |}, None)
  | months => (p, Some (Date_local (pk_year p) value 1))
  end.

(** ** Events *)

(** The choices of the two lists are [ALL] and the clients, [ALL] and the operations. *)
Section page.
Context (addMonths : Z → Z → Z) (today : Z).

Inductive event :=
  | EMonth (forward : bool) | EToday | EPopover (b : bool)
  | ETurn (forward : bool) | EToggleView | EChoose (index : nat)
  | EClient (value : jsstr) | EOperation (value : jsstr)
  | EUsage (d : option (list APIClientUsageRecord)) | EClients (d : option (list ApiClient)).

Definition set_picker (p : picker) (v : view) : view :=
  {| month := month v; clientID := clientID v; operation := operation v; open := open v;
     month_picker := p; usageData := usageData v; clientsData := clientsData v |}.

Definition set_open (b : bool) (v : view) : view :=
  {| month := month v; clientID := clientID v; operation := operation v; open := b;
     month_picker := month_picker v; usageData := usageData v; clientsData := clientsData v |}.

(** [onChange={(date) => setMonth(monthToString(date))}]: another month has another query, without
    data at first, and another picker. *)
Definition setMonth (date : Z) (v : view) : view :=
  let next := monthToString date in
  if str_eqb next (month v) then v
  else {| month := next; clientID := clientID v; operation := operation v; open := open v;
          month_picker := match stringToMonth next with Some d => mount_picker d | None => month_picker v end;
          usageData := None; clientsData := clientsData v |}.

Definition handle (e : event) (v : view) : view :=
  match e with
  | EMonth forward =>
    match stringToMonth (month v) with
    | Some value => setMonth (addMonths value (if forward then 1 else -1)) v
    | None => v
    end
  | EToday => setMonth (Date_local (getFullYear today) (getMonth today) 1) v
  | EPopover b => set_open b v
  | ETurn forward => if open v then set_picker (turn (month_picker v) forward) v else v
  | EToggleView => if open v then set_picker (toggle_view (month_picker v)) v else v
  | EChoose index =>
    match picker_values (month_picker v) !! index with
    | Some value =>
      if open v then
        let '(p, selected) := choose (month_picker v) value in
        match selected with
        | Some date => set_open false (setMonth date v)
        | None => set_picker p v
        end
      else v
    | None => v
    end
  | EClient value =>
    if negb (str_eqb value ALL || existsb (λ client, str_eqb (client_id client) value) (clients v)) then v else
    {| month := month v; clientID := value; operation := operation v; open := open v;
       month_picker := month_picker v; usageData := usageData v; clientsData := clientsData v |}
  | EOperation value =>
    if negb (bool_decide (value ∈ ([ALL; "identify"; "resolve"] : list jsstr))) then v else
    {| month := month v; clientID := clientID v; operation := value; open := open v;
       month_picker := month_picker v; usageData := usageData v; clientsData := clientsData v |}
  | EUsage d =>
    {| month := month v; clientID := clientID v; operation := operation v; open := open v;
       month_picker := month_picker v; usageData := d; clientsData := clientsData v |}
  | EClients d =>
    {| month := month v; clientID := clientID v; operation := operation v; open := open v;
       month_picker := month_picker v; usageData := usageData v; clientsData := d |}
  end.

Definition initial_view : view :=
  let month := monthToString today in
  {| month := month; clientID := ALL; operation := ALL; open := false;
     month_picker := match stringToMonth month with Some d => mount_picker d | None => mount_picker today end;
     usageData := None; clientsData := None |}.
End page.

(** ** Lemmas *)

Definition sumZ {A} (f : A → Z) (l : list A) : Z := fold_right (λ x acc, f x + acc) 0 l.

(** A total of two figures. *)
Lemma fold_left_sumZ {A} (f g : A → Z) l a :
  fold_left (λ acc x, acc + f x + g x) l a = a + sumZ f l + sumZ g l.
Proof. revert a. induction l as [|x l IH]; intros a; simpl; [lia|]. rewrite IH. lia. Qed.

Lemma sumZ_app {A} (f : A → Z) l k : sumZ f (l ++ k) = sumZ f l + sumZ f k.
Proof. induction l as [|x l IH]; simpl; lia. Qed.

Lemma sumZ_ext {A} (f g : A → Z) l : (∀ x, x ∈ l → f x = g x) → sumZ f l = sumZ g l.
Proof.
  induction l as [|x l IH]; intros H; simpl; [done|].
  rewrite (H x) by left. rewrite IH; [done|]. intros y Hy. apply H. by right.
Qed.

Lemma sumZ_add {A} (f g : A → Z) l : sumZ (λ x, f x + g x) l = sumZ f l + sumZ g l.
Proof. induction l as [|x l IH]; simpl; lia. Qed.

Lemma sumZ_zero {A} (f : A → Z) l : (∀ x, x ∈ l → f x = 0) → sumZ f l = 0.
Proof.
  intros H. rewrite (sumZ_ext f (λ _, 0)) by done. clear H. induction l as [|x l IH]; [done|exact IH].
Qed.

Lemma sumZ_if {A} (b : bool) (f : A → Z) l : sumZ (λ x, if b then f x else 0) l = if b then sumZ f l else 0.
Proof. destruct b; [done|]. by apply sumZ_zero. Qed.

Lemma sumZ_fmap {A B} (f : B → Z) (g : A → B) l : sumZ f (g <$> l) = sumZ (λ x, f (g x)) l.
Proof. induction l as [|x l IH]; [done|]. cbn. f_equal. exact IH. Qed.

(** One term of a sum over distinct elements. *)
Lemma sumZ_one {A} `{EqDecision A} (a : A) c l :
  NoDup l → a ∈ l → sumZ (λ x, if decide (a = x) then c else 0) l = c.
Proof.
  induction 1 as [|x l Hx Hl IH]; [by intros ?%elem_of_nil|]. intros [->|Ha]%elem_of_cons; simpl.
  - rewrite decide_True by done. rewrite sumZ_zero; [lia|]. intros y Hy. case_decide; [by subst|done].
  - rewrite decide_False by (intros ->; done). by rewrite IH.
Qed.

(** What the rows of a day and an operation count. *)
Definition usage_of (o : usage_operation) (day : jsstr) (row : APIClientUsageRecord) : Z :=
  if str_eqb (usage_day row) day && str_eqb (operation_name (usage_operation_ row)) (operation_name o)
  then usage_request_count row else 0.

Lemma by_day_snoc rs row :
  by_day (rs ++ [row]) =
  <[usage_day row := add_request row (default no_usage (by_day rs !! usage_day row))]> (by_day rs).
Proof. unfold by_day. by rewrite fold_left_app. Qed.

(** Comparisons of closed names. *)
Ltac compute_names :=
  repeat match goal with
  | |- context [str_eqb ?a ?b] => let v := eval vm_compute in (str_eqb a b) in
                                  lazymatch v with true => idtac | false => idtac end;
                                  change (str_eqb a b) with v
  end.

Lemma by_day_lookup rs day :
  default no_usage (by_day rs !! day) =
  {| du_identify := sumZ (usage_of identify day) rs; du_resolve := sumZ (usage_of resolve day) rs |}.
Proof.
  induction rs as [|row rs IH] using rev_ind; [done|].
  rewrite by_day_snoc, !sumZ_app. cbn [sumZ fold_right]. unfold usage_of at 2 4.
  destruct (str_eqb (usage_day row) day) eqn:E.
  - apply str_eqb_eq in E as <-. rewrite lookup_insert_eq, IH. cbn [default from_option].
    unfold add_request. destruct (usage_operation_ row); cbn; compute_names; f_equal; lia.
  - apply str_eqb_neq in E. rewrite lookup_insert_ne, IH by done. cbn. f_equal; lia.
Qed.

Definition day_text (month : jsstr) (k : nat) : jsstr := month ++ "-" ++ pad_left 2 (show_int (Z.of_nat k + 1)).

Lemma day_text_inj month i j : (i < 31)%nat → (j < 31)%nat → day_text month i = day_text month j → i = j.
Proof.
  unfold day_text, show_int. intros Hi Hj H.
  rewrite (proj2 (Z.ltb_ge (Z.of_nat i + 1) 0)), (proj2 (Z.ltb_ge (Z.of_nat j + 1) 0)) in H by lia.
  apply app_inv_head, app_inv_head in H.
  destruct (pad_inj 2 (Z.of_nat i + 1) (Z.of_nat j + 1) [] []) as [? _]; [lia|lia|lia| |lia].
  rewrite !app_nil_r. exact H.
Qed.

(** The figures of the days of a month are, together, those of the rows of the month. *)
Lemma sum_days o month n rs :
  (n <= 31)%nat → (∀ row, row ∈ rs → ∃ k, (k < n)%nat ∧ usage_day row = day_text month k) →
  sumZ (λ k, sumZ (usage_of o (day_text month k)) rs) (seq 0 n) =
  sumZ (λ row, if str_eqb (operation_name (usage_operation_ row)) (operation_name o)
               then usage_request_count row else 0) rs.
Proof.
  intros Hn. set (g row := if str_eqb (operation_name (usage_operation_ row)) (operation_name o)
                           then usage_request_count row else 0).
  induction rs as [|row rs IH]; intros H; [by apply sumZ_zero|].
  transitivity (sumZ (λ k, usage_of o (day_text month k) row) (seq 0 n) +
                sumZ (λ k, sumZ (usage_of o (day_text month k)) rs) (seq 0 n)); [exact (sumZ_add _ _ _)|].
  rewrite IH by (intros r Hr; apply H; by right). change (sumZ g (row :: rs)) with (g row + sumZ g rs). f_equal.
  destruct (H row) as (k & Hk & Ek); [left|]. rewrite <- (sumZ_one k (g row) (seq 0 n)).
  - apply sumZ_ext. intros j Hj%elem_of_seq. unfold usage_of. rewrite Ek. destruct (decide (k = j)) as [->|Hne].
    + by rewrite (proj2 (str_eqb_eq _ _) eq_refl).
    + rewrite (proj2 (str_eqb_neq _ _)); [done|]. intros E. apply Hne, (day_text_inj month); [lia|lia|done].
  - apply NoDup_seq.
  - apply elem_of_seq. lia.
Qed.

Lemma digits_value_bound ds :
  Forall (λ c, is_digit c = true) ds → 0 <= digits_value ds < 10 ^ Z.of_nat (length ds).
Proof.
  induction ds as [|c ds IH] using rev_ind; [intros _; cbn; lia|].
  intros [Hds Hc]%Forall_app. inversion Hc as [|? ? Hc' _]; subst. unfold is_digit in Hc'.
  rewrite digits_value_snoc, length_app. specialize (IH Hds).
  replace (Z.of_nat (length ds + length [c])) with (Z.succ (Z.of_nat (length ds))) by (cbn; lia).
  rewrite Z.pow_succ_r by lia. lia.
Qed.

Definition range_of (y m : Z) : date_range :=
  {| range_from := pad 4 y ++ "-" ++ pad 2 (m + 1) ++ "-01";
     range_to := pad 4 y ++ "-" ++ pad 2 (m + 1) ++ "-" ++ pad 2 (DaysInMonth y m) |}.

Lemma pad_no_dash n z : 0 <= z → Forall (λ c, (45 =? c) = false) (pad n z).
Proof.
  intros Hz. unfold pad. assert (Hd : Forall (λ c, (45 =? c) = false) (digits z)).
  { eapply Forall_impl; [apply (digits_spec z Hz)|]. unfold is_digit. intros c Hc. bool_to_prop. lia. }
  induction n as [|n IH]; simpl; [done|]. case_cond; [|done]. by constructor.
Qed.

Lemma pad_literal n z : 0 <= z → int_literal (pad n z) z.
Proof.
  intros Hz. exists false, (pad n z). split_and!; [done| | |by rewrite pad_value].
  - intros E. pose proof (pad_value n z Hz) as Hv. rewrite E in Hv. cbn in Hv. subst z.
    clear Hz. induction n as [|n IH]; [done|]. cbn in E. by destruct n.
  - unfold pad. assert (Hd : Forall (λ c, is_digit c = true) (digits z)) by apply (digits_spec z Hz).
    induction n as [|n IH]; simpl; [done|]. case_cond; [|done]. by constructor.
Qed.

(** A month of four digits, as its text. *)
Lemma monthToString_pad d :
  1000 <= getFullYear d <= 9999 → monthToString d = pad 4 (getFullYear d) ++ "-" ++ pad 2 (getMonth d + 1).
Proof.
  intros Hy. pose proof (getUTCMonth_spec d) as [Hm _]. fold (getMonth d) in Hm.
  unfold monthToString, show_int, pad. rewrite !(proj2 (Z.ltb_ge _ 0)) by lia. f_equal.
  assert (length (digits (getFullYear d)) = 4)%nat as Hl.
  { pose proof (digits_length (getFullYear d) 4). apply Nat.le_antisymm; [lia|].
    destruct (Nat.lt_ge_cases (length (digits (getFullYear d))) 4) as [Hlt|]; [|done]. exfalso.
    pose proof (digits_spec (getFullYear d) ltac:(lia)) as [Hd Hv].
    pose proof (digits_value_bound _ Hv) as Hb. rewrite Hd in Hb.
    assert (10 ^ Z.of_nat (length (digits (getFullYear d))) <= 10 ^ 3) by (apply Z.pow_le_mono_r; lia). lia. }
  cbn [pad_left]. rewrite Hl. done.
Qed.

Lemma month_fields_pad y m :
  0 <= y <= 9999 → 0 <= m <= 11 → month_fields (pad 4 y ++ "-" ++ pad 2 (m + 1)) = Some (y, m + 1).
Proof.
  intros Hy Hm. unfold month_fields, split. change (("-" : jsstr) ++ pad 2 (m + 1)) with (45 :: pad 2 (m + 1)).
  rewrite split_on_app by (first [apply pad_no_dash; lia|done]). rewrite split_on_none by (apply pad_no_dash; lia).
  rewrite (js_Number_int (pad 4 y) y), (js_Number_int (pad 2 (m + 1)) (m + 1)) by (apply pad_literal; lia).
  rewrite !num_of_Z_safe by (unfold MAX_SAFE_INTEGER; lia). done.
Qed.

Lemma getDate_last y m : 100 <= y → 0 <= m <= 11 → getDate (Date_local y (m + 1) 0) = DaysInMonth y m.
Proof. intros Hy Hm. by destruct (Date_UTC_last y m Hy Hm) as (_ & _ & ?). Qed.

Lemma month_of_text d :
  1000 <= getFullYear d <= 9999 →
  0 <= getMonth d <= 11 ∧ month_fields (monthToString d) = Some (getFullYear d, getMonth d + 1).
Proof.
  intros Hy. pose proof (getUTCMonth_spec d) as [Hm _]. fold (getMonth d) in Hm.
  split; [done|]. rewrite monthToString_pad by done. apply month_fields_pad; lia.
Qed.

Lemma days_of_text d :
  1000 <= getFullYear d <= 9999 → daysInMonth (monthToString d) = DaysInMonth (getFullYear d) (getMonth d).
Proof.
  intros Hy. destruct (month_of_text d Hy) as [Hm E]. unfold daysInMonth. rewrite E. apply getDate_last; lia.
Qed.

Lemma last_day_text y m :
  1000 <= y <= 9999 → 0 <= m <= 11 →
  take 10 (toISOString (Date_UTC y (m + 1) 0)) = pad 4 y ++ "-" ++ pad 2 (m + 1) ++ "-" ++ pad 2 (DaysInMonth y m).
Proof.
  intros Hy Hm. destruct (Date_UTC_last y m ltac:(lia) Hm) as (F1 & F2 & F3). pose proof (DaysInMonth_bound y m Hm).
  rewrite toISOString_range by (unfold iso_range; rewrite F1; lia). unfold iso_date. rewrite F1, F2, F3.
  rewrite take_app_length'; [done|]. rewrite !length_app, !pad_length by lia. done.
Qed.

Lemma chart_lookup v i day u :
  chart v !! i = Some (day, u) →
  u = {| du_identify := sumZ (usage_of identify (day_text (month v) i)) (filtered v);
         du_resolve := sumZ (usage_of resolve (day_text (month v) i)) (filtered v) |}.
Proof.
  unfold chart, chart_of. intros (k & E & Hk)%list_lookup_fmap_Some.
  apply lookup_seq in Hk as [-> _]. apply (f_equal snd) in E.
  exact (eq_trans E (by_day_lookup (filtered v) (day_text (month v) i))).
Qed.

Lemma totals_requests v : requests (totals v) = sumZ usage_request_count (filtered v).
Proof.
  unfold totals. set (z := {| requests := 0; errors := 0; limited := 0 |}).
  change (sumZ usage_request_count (filtered v)) with (requests z + sumZ usage_request_count (filtered v)).
  generalize z. induction (filtered v) as [|r rs IH]; intros acc; cbn [fold_left sumZ fold_right]; [lia|].
  rewrite IH. cbn [requests]. fold (sumZ usage_request_count rs). lia.
Qed.

(** What a shown row counts is in the bars of its operation. *)
Lemma shown_row v row :
  operation v ∈ ([ALL; "identify"; "resolve"] : list jsstr) → row ∈ filtered v →
  (if showIdentify v then if str_eqb (operation_name (usage_operation_ row)) "identify" then usage_request_count row else 0 else 0)
  + (if showResolve v then if str_eqb (operation_name (usage_operation_ row)) "resolve" then usage_request_count row else 0 else 0)
  = usage_request_count row.
Proof.
  intros Ho Hr%list_elem_of_In. apply filter_In in Hr as [_ Hr]. unfold shown in Hr.
  apply andb_true_iff in Hr as [_ Hr]. unfold showIdentify, showResolve.
  repeat (apply elem_of_cons in Ho as [Ho|Ho]); [..|by apply elem_of_nil in Ho];
    rewrite Ho in *; destruct (usage_operation_ row); cbn [operation_name] in *;
    compute_names; cbn [orb]; try lia; vm_compute in Hr; discriminate.
Qed.

(** The first day of a month. *)
Lemma first_of_month y m :
  1000 <= y → 0 <= m <= 11 → getFullYear (Date_local y m 1) = y ∧ getMonth (Date_local y m 1) = m ∧ getDate (Date_local y m 1) = 1.
Proof. intros Hy Hm. apply (Date_UTC_first y m); lia. Qed.

Lemma read_month d :
  1000 <= getFullYear d <= 9999 →
  stringToMonth (monthToString d) = Some (Date_local (getFullYear d) (getMonth d) 1).
Proof.
  intros Hy. destruct (month_of_text d Hy) as [Hm E]. unfold stringToMonth. rewrite E. cbn [mbind option_bind].
  by replace (getMonth d + 1 - 1) with (getMonth d) by lia.
Qed.

Lemma write_month y m :
  1000 <= y <= 9999 → 0 <= m <= 11 → monthToString (Date_local y m 1) = pad 4 y ++ "-" ++ pad 2 (m + 1).
Proof.
  intros Hy Hm. destruct (first_of_month y m ltac:(lia) Hm) as (E1 & E2 & _).
  rewrite monthToString_pad; rewrite E1; [by rewrite E2|done].
Qed.

Lemma month_setMonth d v : month (setMonth d v) = monthToString d.
Proof. unfold setMonth. destruct (str_eqb _ _) eqn:E; [by apply str_eqb_eq in E|done]. Qed.

(** [addMonths] of date-fns, on the first days of months. *)
Definition adds_months (addMonths : Z → Z → Z) : Prop :=
  ∀ y m n, 1000 <= y → 0 <= m <= 11 → addMonths (Date_local y m 1) n = Date_local (y + (m + n) / 12) ((m + n) mod 12) 1.

Lemma month_EMonth addMonths today v d (forward : bool) :
  adds_months addMonths → month v = monthToString d → 1000 <= getFullYear d <= 9999 →
  let k := getMonth d + (if forward then 1 else -1) in
  month (handle addMonths today (EMonth forward) v) = monthToString (Date_local (getFullYear d + k / 12) (k mod 12) 1).
Proof.
  intros Ha Ev Hy k. destruct (month_of_text d Hy) as [Hm _]. cbn [handle]. rewrite Ev, read_month by done.
  rewrite month_setMonth, Ha by lia. done.
Qed.

(** ** Properties *)

(** A month survives its text: the first day of the month a date is in is read back from what
    [monthToString] writes of the date, to be written as the same text, and the range asked of the
    server and the days of the chart are those of that month of the calendar. *)
Theorem usage_month_round_trip d :
  1000 <= getFullYear d <= 9999 →
  let y := getFullYear d in
  let m := getMonth d in
  let text := monthToString d in
  let first := Date_local y m 1 in
  stringToMonth text = Some first ∧ monthToString first = text ∧
  getFullYear first = y ∧ getMonth first = m ∧ getDate first = 1 ∧
  monthRange text = Some (range_of y m) ∧ daysInMonth text = DaysInMonth y m.
Proof.
  intros Hy y m text first. destruct (month_of_text d Hy) as [Hm Ef]. fold text y m in Hm, Ef.
  destruct (first_of_month y m ltac:(lia) Hm) as (E1 & E2 & E3).
  split_and!; try done.
  - by apply read_month.
  - unfold first, text. by rewrite write_month, monthToString_pad by done.
  - unfold monthRange. rewrite Ef. cbn [mbind option_bind]. unfold range_of, text.
    rewrite last_day_text, monthToString_pad, <- !app_assoc by done. done.
  - by apply days_of_text.
Qed.

(** The navigation: a step and a step back are where they started, over the end of a year too, and
    a month chosen in the picker is the month on display, of the year the picker shows. *)
Theorem usage_navigation addMonths today v d forward :
  adds_months addMonths → month v = monthToString d → 1000 < getFullYear d < 9999 →
  let v1 := handle addMonths today (EMonth forward) v in
  month v1 ≠ month v ∧ month (handle addMonths today (EMonth (negb forward)) v1) = month v ∧
  ∀ i p, (i < 12)%nat → open v = true → month_picker v = p → pk_view p = months → 1000 <= pk_year p <= 9999 →
    let v2 := handle addMonths today (EChoose i) v in
    month v2 = pad 4 (pk_year p) ++ "-" ++ pad 2 (Z.of_nat i + 1) ∧ open v2 = false.
Proof.
  intros Ha Ev Hy v1. destruct (month_of_text d ltac:(lia)) as [Hm _].
  set (k := getMonth d + (if forward then 1 else -1)).
  assert (E1 : month v1 = monthToString (Date_local (getFullYear d + k / 12) (k mod 12) 1))
    by (apply month_EMonth; [done..|lia]).
  assert (Hk : 0 <= k mod 12 <= 11 ∧ k = 12 * (k / 12) + k mod 12 ∧ -1 <= k / 12 <= 1).
  { subst k. pose proof (Z.mod_pos_bound (getMonth d + (if forward then 1 else -1)) 12).
    destruct forward; Z.to_euclidean_division_equations; lia. }
  destruct (first_of_month (getFullYear d + k / 12) (k mod 12)) as (F1 & F2 & _); [lia..|].
  split_and!.
  - rewrite E1, Ev, write_month, monthToString_pad by lia. intros E.
    apply pad_inj in E as [Ey E]; [|lia|lia|lia]. injection E as E.
    apply (f_equal digits_value) in E. rewrite !pad_value in E by lia. destruct forward; subst k; lia.
  - rewrite (month_EMonth _ _ _ _ _ Ha E1) by (rewrite F1; lia). rewrite F1, F2, Ev.
    rewrite write_month, monthToString_pad; [|lia|..].
    + f_equal; [f_equal|do 2 f_equal]; subst k; destruct forward; cbn [negb] in *;
        Z.to_euclidean_division_equations; lia.
    + subst k; destruct forward; cbn [negb] in *; Z.to_euclidean_division_equations; lia.
    + pose proof (Z.mod_pos_bound (k mod 12 + (if negb forward then 1 else -1)) 12). lia.
  - intros i p Hi Ho Hp Hv Hpy. cbn [handle]. rewrite Hp. unfold picker_values. rewrite Hv.
    rewrite list_lookup_fmap, lookup_seq_lt by done. cbn [fmap option_fmap option_map Nat.add].
    rewrite Ho. unfold choose. rewrite Hv. cbn [set_open month open].
    rewrite month_setMonth, write_month by lia. done.
Qed.

(** The chart is the totals day by day: it has a point per day of the month, each holding what the
    shown records of that day count, and when the records are the month's, its bars add up to the
    total of requests above it, whatever the filters are. *)
Theorem usage_chart_complete v d :
  month v = monthToString d → 1000 <= getFullYear d <= 9999 →
  operation v ∈ ([ALL; "identify"; "resolve"] : list jsstr) →
  Z.of_nat (length (chart v)) = DaysInMonth (getFullYear d) (getMonth d) ∧
  (∀ i day u, chart v !! i = Some (day, u) →
     u = {| du_identify := sumZ (usage_of identify (day_text (month v) i)) (filtered v);
            du_resolve := sumZ (usage_of resolve (day_text (month v) i)) (filtered v) |}) ∧
  ((∀ row, row ∈ rows v → ∃ k, (k < length (chart v))%nat ∧ usage_day row = day_text (month v) k) →
   chartTotal v = requests (totals v)).
Proof.
  intros Ev Hy Ho. destruct (month_of_text d Hy) as [Hm _]. pose proof (DaysInMonth_bound (getFullYear d) _ Hm).
  assert (Hn : length (chart v) = Z.to_nat (DaysInMonth (getFullYear d) (getMonth d))).
  { unfold chart, chart_of. by rewrite length_fmap, length_seq, Ev, days_of_text. }
  split_and!; [lia|apply chart_lookup|]. intros Hrows. rewrite totals_requests.
  unfold chartTotal. rewrite fold_left_sumZ. unfold chart, chart_of in *. rewrite length_fmap, length_seq in *.
  set (n := Z.to_nat _) in *. rewrite !sumZ_fmap, !sumZ_if. cbn [snd].
  assert (Hf : ∀ row, row ∈ filtered v → ∃ k, (k < n)%nat ∧ usage_day row = day_text (month v) k).
  { intros row Hr%list_elem_of_In. apply filter_In in Hr as [Hr _]. by apply Hrows, list_elem_of_In. }
  rewrite (sumZ_ext (λ k, du_identify _) (λ k, sumZ (usage_of identify (day_text (month v) k)) (filtered v)))
    by (intros k _; exact (f_equal du_identify (by_day_lookup _ _))).
  rewrite (sumZ_ext (λ k, du_resolve _) (λ k, sumZ (usage_of resolve (day_text (month v) k)) (filtered v)))
    by (intros k _; exact (f_equal du_resolve (by_day_lookup _ _))).
  rewrite !sum_days by (first [lia|exact Hf]). rewrite <- !sumZ_if, Z.add_0_l, <- sumZ_add.
  apply sumZ_ext. intros row Hr. by apply shown_row.
Qed.

(** ** Witnesses *)

Lemma usage_month_round_trip_witness :
  stringToMonth (monthToString 1709210096000) = Some 1706745600000 ∧
  daysInMonth (monthToString 1709210096000) = 29.
Proof.
  destruct (usage_month_round_trip 1709210096000) as (E & _ & _ & _ & _ & _ & Hd); [vm_compute; split; discriminate|].
  split; [etransitivity; [exact E|vm_compute; reflexivity]|etransitivity; [exact Hd|vm_compute; reflexivity]].
Defined.

Definition demo_addMonths (d n : Z) : Z :=
  Date_local (getFullYear d + (getMonth d + n) / 12) ((getMonth d + n) mod 12) 1.

Lemma demo_adds_months : adds_months demo_addMonths.
Proof.
  intros y m n Hy Hm. unfold demo_addMonths. by destruct (first_of_month y m Hy Hm) as (-> & -> & _).
Qed.

Definition demo_row (day : jsstr) (o : usage_operation) (n : Z) : APIClientUsageRecord :=
  {| usage_day := day; usage_api_client_id := "c1"; usage_operation_ := o; usage_status_class := 2;
     usage_request_count := n; usage_rate_limited_count := 0; usage_client_name := None |}.

Definition demo_rows : list APIClientUsageRecord :=
  [demo_row "2024-02-03" resolve 5; demo_row "2024-02-03" identify 2; demo_row "2024-02-29" resolve 1].

Definition demo_view : view :=
  fold_left (λ v e, handle demo_addMonths 1709210096000 e v)
    [EUsage (Some demo_rows); EOperation "resolve"; EPopover true] (initial_view 1709210096000).

Lemma usage_navigation_witness :
  month (handle demo_addMonths 1709210096000 (EMonth false)
    (handle demo_addMonths 1709210096000 (EMonth true) demo_view)) = "2024-02" ∧
  month (handle demo_addMonths 1709210096000 (EChoose 11) demo_view) = "2024-12".
Proof.
  destruct (usage_navigation demo_addMonths 1709210096000 demo_view 1709210096000 true demo_adds_months)
    as (_ & E & Hp); [vm_compute; reflexivity|vm_compute; split; reflexivity|].
  split; [etransitivity; [exact E|vm_compute; reflexivity]|].
  destruct (Hp 11%nat (mount_picker 1706745600000)) as [Em _];
    [lia|vm_compute; reflexivity..|vm_compute; split; discriminate|].
  etransitivity; [exact Em|vm_compute; reflexivity].
Defined.

Lemma usage_chart_complete_witness : chartTotal demo_view = 6.
Proof.
  destruct (usage_chart_complete demo_view 1709210096000) as (_ & _ & E).
  - vm_compute. reflexivity.
  - vm_compute. split; discriminate.
  - right. right. left.
  - etransitivity; [apply E|vm_compute; reflexivity].
    assert (Er : rows demo_view = demo_rows) by (vm_compute; reflexivity). rewrite Er. intros row Hr.
    apply elem_of_cons in Hr as [->|[->|[->|Hr%elem_of_nil]%elem_of_cons]%elem_of_cons]; [| | |destruct Hr].
    + exists 2%nat. split; [|vm_compute; reflexivity]. apply Nat.ltb_lt. vm_compute. reflexivity.
    + exists 2%nat. split; [|vm_compute; reflexivity]. apply Nat.ltb_lt. vm_compute. reflexivity.
    + exists 28%nat. split; [|vm_compute; reflexivity]. apply Nat.ltb_lt. vm_compute. reflexivity.
Defined.
