(* ===== verification/Monitoring.v ===== *)
(** * The overview and the health page

    [src/web/src/routes/index/-components/page.tsx] and
    [src/web/src/routes/operations-health/-components/page.tsx]: figures computed from the queries,
    and the text shown when the overview could not be loaded. *)
From Stdlib Require Import ZArith Lia List.
From stdpp Require Import base list sets gmap.
From S2P Require Import Host Types Api ApiCalls Overview.
From S2P Require Import I18nPt I18nEn I18nEs I18n Prelude.
#[local] Open Scope Z_scope.

(** ** The overview *)

Record view := {
  overviewData : option Types.Overview;
  overviewFailure : option api_exn;
  overviewPending : bool;                     (* [overviewQuery.isPending] *)
  clientsData : option (list ApiClient);
  usageData : option (list APIClientUsageRecord);
  healthData : option OperationalHealth;
}.

Definition health_name (h : health) : jsstr :=
  match h with healthy => "healthy" | degraded => "degraded" | unavailable => "unavailable" end.

Section overview.
Context `{DateApi} (l : Locale) (now : Z).

Definition tr (key : jsstr) : jsstr := t l key.

(** The usage of the present month. *)
Definition month_call : api_call :=
  let monthRange := currentUTCMonthRange now in
  listAPIClientUsage (Some (range_from monthRange)) (Some (range_to monthRange)).

Definition load_error (v : view) : jsstr :=
  match overviewFailure v with Some e => apiErrorMessage e tr | None => [] end.

Definition expiringClients (v : view) : jsstr :=
  match clientsData v with Some cs => show_int (countExpiringAPIClients cs now 30) | None => "—" end.

Definition monthlyRequests (v : view) : jsstr :=
  match usageData v with Some rs => show_int (totalUsageRequests rs) | None => "—" end.

Definition healthStatus (v : view) : jsstr :=
  match healthData v with Some h => tr ("operationsHealth.status." ++ health_name (oh_status h)) | None => "—" end.

Definition deadLetters (v : view) : jsstr :=
  match healthData v with Some h => show_int (oh_webhook_dead_letter h) | None => "—" end.

Definition authOrLoadMessage (error : jsstr) : jsstr :=
  if startsWith "401:" error then tr "overview.authRequired" else tr "overview.loadError".

(** The text of the page while it has no overview to show. *)
Definition card_text (v : view) : option jsstr :=
  match overviewData v with
  | Some _ => None
  | None => Some (if overviewPending v then tr "overview.loading" else authOrLoadMessage (load_error v))
  end.
End overview.

(** ** The health page *)

Inductive badge := b_default | b_secondary | b_destructive.

Definition statusVariant (status : jsstr) : badge :=
  if str_eqb status "healthy" then b_default
  else if str_eqb status "degraded" || str_eqb status "stale" then b_secondary
  else b_destructive.

Definition effective_name (s : effective_status) : jsstr :=
  match s with es_healthy => "healthy" | es_degraded => "degraded" | es_failed => "failed" | es_stale => "stale" end.

Definition inFlight (h : option OperationalHealth) : Z :=
  match h with Some h => oh_webhook_pending h + oh_webhook_retry h | None => 0 end.

Definition overall (h : option OperationalHealth) : jsstr :=
  "operationsHealth.status." ++ match h with Some h => health_name (oh_status h) | None => "unavailable" end.

Definition dependencies (h : option OperationalHealth) : Z :=
  match h with Some h => Z.of_nat (length (oh_components h)) | None => 0 end.

(** ** Properties *)

(** The page never says that signing in is required: whatever made the overview fail, a refused
    token included, its text is that of a failed load, for [authOrLoadMessage] looks for a status at
    the head of a message that has been translated already. *)
Theorem overview_load_message (l : Locale) v e :
  overviewData v = None → overviewPending v = false → overviewFailure v = Some e →
  card_text l v = Some (tr l "overview.loadError").
Proof.
  intros Hd Hp He. unfold card_text, load_error, authOrLoadMessage. rewrite Hd, Hp, He.
  replace (startsWith _ _) with false; [done|]. symmetry.
  unfold apiErrorMessage. destruct e as [status message|ms|h|b];
    repeat case_cond; destruct l; vm_compute; reflexivity.
Qed.

Definition demo_view : view :=
  {| overviewData := None; overviewFailure := Some (ApiError 401 "invalid_token"); overviewPending := false;
     clientsData := None; usageData := None; healthData := None |}.

Lemma overview_load_message_witness :
  card_text en_US demo_view = Some (tr en_US "overview.loadError") ∧
  tr en_US "overview.loadError" ≠ tr en_US "overview.authRequired".
Proof.
  split; [by apply (overview_load_message en_US demo_view (ApiError 401 "invalid_token"))|].
  vm_compute. discriminate.
Defined.
