(* ===== verification/DataTable.v ===== *)
(** * The data tables

    [src/web/src/hooks/use-data-table.ts] and the controls of [components/data-table]: the state of
    a table, the preferences it keeps in the local storage under its key, and the filters, sorting
    and pagination its controls set.  TanStack's table is not modelled: what it does to the state
    reaches the hook through the callbacks, which are the events.  Preferences are whatever the
    stored text holds, so that the fields they set are values of the language ([jv]). *)
From Stdlib Require Import ZArith Lia List.
From stdpp Require Import base list sets gmap.
From S2P Require Import Regex Numbers Json JsonRead Prelude.
#[local] Open Scope Z_scope.

(** ** The hook *)

Definition PAGE_SIZE_OPTIONS : list Z := [5; 10; 25; 50].

(** The arguments of a table: [pagination] is an index and a size, [sorting] columns with their
    [desc], in an object that names [desc] or [id] first; no table gives a filter. *)
Record table_props := {
  tp_globalFilter : option jsstr;
  tp_pagination : option (Z * Z);
  tp_sorting : option (list (jsstr * bool));
  tp_desc_first : bool;
  tp_columnVisibility : option (list (jsstr * bool));
  tp_key : option jsstr;                      (* [visibilityStorageKey] *)
}.

Record preferences := {
  pr_columnVisibility : option jv;
  pr_pageSize : option jv;
  pr_sorting : option jv;
}.

Definition no_preferences : preferences :=
  {| pr_columnVisibility := None; pr_pageSize := None; pr_sorting := None |}.

(** [!value] *)
Definition falsy (v : jv) : bool :=
  match v with
  | VNull => true
  | VBool b => negb b
  | VNum n => match n with NaN => true | Fin q => q_zero q | Infinite _ => false end
  | VStr s => negb (truthy s)
  | VArr _ | VObj _ => false
  end.

(** [value === 1] *)
Definition is_one (v : jv) : bool :=
  match v with VNum n => match num_int n with Some z => z =? 1 | None => false end | _ => false end.

(** [loadPreferences(key)], of what the storage has under it.  [in] throws on a value that is not
    an object, and an array has no [version]. *)
Definition loadPreferences (key : option jsstr) (stored : option jsstr) : preferences :=
  if negb (match key with Some k => truthy k | None => false end) then no_preferences
  else
    match JSON_parse (default "null" stored) with
    | None => no_preferences
    | Some parsed =>
      if falsy parsed then no_preferences
      else
        match parsed with
        | VObj l =>
          if match prop_get "version" l with Some v => is_one v | None => false end
          then {| pr_columnVisibility := prop_get "columnVisibility" l; pr_pageSize := prop_get "pageSize" l;
                  pr_sorting := prop_get "sorting" l |}
          else {| pr_columnVisibility := Some parsed; pr_pageSize := None; pr_sorting := None |}
        | VArr _ => {| pr_columnVisibility := Some parsed; pr_pageSize := None; pr_sorting := None |}
        | _ => no_preferences
        end
    end.

(** [value ?? other] *)
Definition coalesce (v : option jv) (other : jv) : jv :=
  match v with Some VNull | None => other | Some v => v end.

(** The own properties that [{ ...value }] copies. *)
Definition spread (v : option jv) : list (jsstr * jv) :=
  match v with
  | Some (VObj l) => l
  | Some (VArr l) => imap (λ i x, (show_int (Z.of_nat i), x)) l
  | Some (VStr s) => imap (λ i c, (show_int (Z.of_nat i), VStr [c])) s
  | _ => []
  end.

Definition assign (o p : list (jsstr * jv)) : list (jsstr * jv) := fold_left (λ o p, prop_set p.1 p.2 o) p o.

Record table := {
  globalFilter : jsstr;
  pageIndex : Z;
  pageSize : jv;
  sorting : jv;
  columnFilters : list (jsstr * list jsstr);
  columnVisibility : list (jsstr * jv);
}.

(** An entry of the sorting, [{ id, desc }], in an object that names either property first. *)
Record sort := { so_id : jsstr; so_desc : bool; so_desc_first : bool }.

Definition sorting_value (s : list sort) : jv :=
  VArr ((λ c, VObj (if so_desc_first c then [("desc", VBool (so_desc c)); ("id", VStr (so_id c))]
                    else [("id", VStr (so_id c)); ("desc", VBool (so_desc c))])) <$> s).

(** The sorting a page starts with, its objects all written one way. *)
Definition page_sorting (p : table_props) : list sort :=
  (λ c, {| so_id := c.1; so_desc := c.2; so_desc_first := tp_desc_first p |}) <$> default [] (tp_sorting p).

(** The first state of a mounted table. *)
Definition mount_table (p : table_props) (stored : option jsstr) : table :=
  let prefs := loadPreferences (tp_key p) stored in
  {| globalFilter := default [] (tp_globalFilter p);
     pageIndex := match tp_pagination p with Some (i, _) => i | None => 0 end;
     pageSize := coalesce (pr_pageSize prefs)
       (VNum (num_of_Z (match tp_pagination p with Some (_, n) => n | None => default 5 (head PAGE_SIZE_OPTIONS) end)));
     sorting := coalesce (pr_sorting prefs) (sorting_value (page_sorting p));
     columnFilters := [];
     columnVisibility := assign ((λ c, (c.1, VBool c.2)) <$> default [] (tp_columnVisibility p))
       (spread (pr_columnVisibility prefs)) |}.

(** The text the effect stores. *)
Definition preferences_text (t : table) : jsstr :=
  JSON_text (VObj [("columnVisibility", VObj (columnVisibility t)); ("pageSize", pageSize t);
                   ("sorting", sorting t); ("version", VNum (num_of_Z 1))]).

(** [React.useEffect]: it runs once mounted and when one of its three fields changed; to run it
    again would store the same text. *)
Definition store_effect (p : table_props) (t : table) (stored : option jsstr) : option jsstr :=
  match tp_key p with
  | Some k => if truthy k then Some (preferences_text t) else stored
  | None => stored
  end.

(** The global filter. *)
Inductive updater := Value (v : jv) | Updater (f : jsstr → jv).

Definition onGlobalFilterChange (u : updater) (current : jsstr) : jsstr :=
  match (match u with Value v => v | Updater f => f current end) with VStr s => s | _ => [] end.

Section filter.
Context `{CaseMap}.

Definition searchable_text (v : jv) : jsstr :=
  match v with
  | VStr s => s
  | VNum n => num_text n
  | VBool b => if b then "true" else "false"
  | _ => []
  end.

(** The default [globalFilterFn], on the own properties of a row. *)
Definition default_filter (row : list (jsstr * jv)) (filterValue : jv) : bool :=
  let normalizedFilter := match filterValue with VStr s => s | _ => [] end in
  let searchable := toLowerCase (join " " (searchable_text <$> row.*2)) in
  includes (toLowerCase normalizedFilter) searchable.

(** The filter of a table: its page's own, or the default. *)
Definition table_filter {A} (own : option (A → jsstr → bool)) (properties : A → list (jsstr * jv))
    (row : A) (filterValue : jv) : bool :=
  match own with
  | Some f => f row (match filterValue with VStr s => s | _ => [] end)
  | None => default_filter (properties row) filterValue
  end.
End filter.

(** ** The controls *)

(** [data-table-pagination.tsx] *)
Definition currentPage (pageCount : Z) (t : table) : Z := if pageCount =? 0 then 0 else pageIndex t + 1.

Definition rows_label (item items : jsstr) (rows : Z) : jsstr :=
  show_int rows ++ " " ++ (if rows =? 1 then item else items).

Definition page_size_items : list (jsstr * jsstr) := (λ n, (show_int n, show_int n)) <$> PAGE_SIZE_OPTIONS.

(** [data-table-column-header.tsx] *)
Inductive direction := asc | desc.

Definition nextSortLabel (sorted : option direction) (labels : jsstr * jsstr * jsstr) : jsstr :=
  let '(to_asc, to_desc, reset) := labels in
  match sorted with Some asc => to_desc | Some desc => reset | None => to_asc end.

Definition header_label (label next : jsstr) : jsstr := if truthy next then label ++ ": " ++ next else label.

(** What choosing a column in the list of sorts asks of it ([data-table-sort-list.tsx]). *)
Inductive sort_request := ToggleSorting (descending multi : bool) | ClearSorting.

Definition sort_select (d : option direction) (sorted_columns : nat) : sort_request :=
  match d with
  | None => ToggleSorting false (0 <? sorted_columns)%nat
  | Some asc => ToggleSorting true true
  | Some desc => ClearSorting
  end.

(** A column as its table knows it: [meta.label], whether it has a value, may be hidden or sorted, is
    shown, and its direction. *)
Record column := {
  co_id : jsstr; co_label : option jsstr; co_accessor : bool; co_canHide : bool; co_canSort : bool;
  co_visible : bool; co_sorted : option direction;
}.

(** The list of sorts: none without a column to sort by, otherwise a line per column with the key of
    the name of its direction, how many columns are sorted, and whether to offer the reset. *)
Definition sort_list (columns : list column) (sorted_columns : nat) :
    option (list (jsstr * option jsstr) * option nat * bool) :=
  match List.filter co_canSort columns with
  | [] => None
  | cs => Some ((λ c, (default (co_id c) (co_label c),
                        (λ d, match d with asc => "dataTable.ascending" | desc => "dataTable.descending" end)
                          <$> co_sorted c)) <$> cs,
                if (0 <? sorted_columns)%nat then Some sorted_columns else None, (0 <? sorted_columns)%nat)
  end.

(** The options of view ([data-table-view-options.tsx]): a line per column that may be hidden. *)
Definition view_options (columns : list column) : list (jsstr * bool) :=
  (λ c, (default (co_id c) (co_label c), co_visible c)) <$>
    List.filter (λ c, co_accessor c && co_canHide c) columns.

(** A facet ([data-table-faceted-filter.tsx]): its filter value is a list of options, or nothing. *)
Definition selected (filterValue : option (list jsstr)) : list jsstr :=
  fold_left (λ s x, if existsb (str_eqb x) s then s else s ++ [x]) (default [] filterValue) [].

Definition facet_select (multiple : bool) (filterValue : option (list jsstr)) (value : jsstr) : option (list jsstr) :=
  let s := selected filterValue in
  let active := existsb (str_eqb value) s in
  let next :=
    if multiple then if active then List.filter (λ x, negb (str_eqb x value)) s else s ++ [value]
    else if negb active then [value] else [] in
  match next with [] => None | _ => Some next end.

(** [data-table-toolbar.tsx]: whether there is something to clear. *)
Definition filtered (t : table) : bool :=
  negb (match columnFilters t with [] => true | _ => false end) || truthy (globalFilter t).

(** ** Events *)

Inductive event :=
  | EFilter (u : updater)
  | EPagination (index size : Z)
  | ESorting (s : list sort)        (* the objects of other columns are those that were there *)
  | EVisibility (column : jsstr) (visible : bool)   (* [toggleVisibility] *)
  | EColumnFilter (column : jsstr) (value : option (list jsstr))
  | EClear                                          (* the button of the toolbar *)
  | EReset.                                         (* the reset of the preferences *)

(** Choosing a line of the options of view. *)
Definition view_select (c : column) : event := EVisibility (co_id c) (negb (co_visible c)).

Definition set_filter (column : jsstr) (value : option (list jsstr)) (fs : list (jsstr * list jsstr)) :
    list (jsstr * list jsstr) :=
  match value with
  | Some v => prop_set column v fs
  | None => List.filter (λ f, negb (str_eqb f.1 column)) fs
  end.

(** The arguments without a key. *)
Definition keyless (p : table_props) : table_props :=
  {| tp_globalFilter := tp_globalFilter p; tp_pagination := tp_pagination p; tp_sorting := tp_sorting p;
     tp_desc_first := tp_desc_first p; tp_columnVisibility := tp_columnVisibility p; tp_key := None |}.

Definition table_step (p : table_props) (e : event) (t : table) : table :=
  match e with
  | EFilter u =>
    {| globalFilter := onGlobalFilterChange u (globalFilter t); pageIndex := pageIndex t; pageSize := pageSize t;
       sorting := sorting t; columnFilters := columnFilters t; columnVisibility := columnVisibility t |}
  | EPagination index size =>
    {| globalFilter := globalFilter t; pageIndex := index; pageSize := VNum (num_of_Z size);
       sorting := sorting t; columnFilters := columnFilters t; columnVisibility := columnVisibility t |}
  | ESorting s =>
    {| globalFilter := globalFilter t; pageIndex := pageIndex t; pageSize := pageSize t;
       sorting := sorting_value s; columnFilters := columnFilters t; columnVisibility := columnVisibility t |}
  | EVisibility column visible =>
    {| globalFilter := globalFilter t; pageIndex := pageIndex t; pageSize := pageSize t; sorting := sorting t;
       columnFilters := columnFilters t;
       columnVisibility := prop_set column (VBool visible) (columnVisibility t) |}
  | EColumnFilter column value =>
    {| globalFilter := globalFilter t; pageIndex := pageIndex t; pageSize := pageSize t; sorting := sorting t;
       columnFilters := set_filter column value (columnFilters t); columnVisibility := columnVisibility t |}
  | EClear =>
    {| globalFilter := []; pageIndex := pageIndex t; pageSize := pageSize t; sorting := sorting t;
       columnFilters := []; columnVisibility := columnVisibility t |}
  | EReset =>
    let initial := mount_table (keyless p) None in
    {| globalFilter := globalFilter t; pageIndex := pageIndex initial; pageSize := pageSize initial;
       sorting := sorting initial; columnFilters := columnFilters t; columnVisibility := columnVisibility initial |}
  end.

(** A table and the storage under its key. *)
Record world := { w_stored : option jsstr; w_table : option table }.

Inductive label := Mount | Unmount | On (e : event).

Definition step (p : table_props) (w : world) (x : label) : world :=
  match x, w_table w with
  | Mount, None => let t := mount_table p (w_stored w) in
                   {| w_stored := store_effect p t (w_stored w); w_table := Some t |}
  | Unmount, _ => {| w_stored := w_stored w; w_table := None |}
  | On e, Some t => let t' := table_step p e t in
                    {| w_stored := store_effect p t' (w_stored w); w_table := Some t' |}
  | _, _ => w
  end.

(** ** Well-typed tables *)

Definition vis_json (vis : list (jsstr * bool)) : json := JObj ((λ c, (c.1, JBool c.2)) <$> vis).

Definition sorting_json (s : list sort) : json :=
  JArr ((λ c, JObj (if so_desc_first c then [("desc", JBool (so_desc c)); ("id", JStr (so_id c))]
                    else [("id", JStr (so_id c)); ("desc", JBool (so_desc c))])) <$> s).

Definition columns_ok (s : list (jsstr * bool)) : Prop := Forall (λ c, Forall unit16 c.1) s.

Definition sorts_ok (s : list sort) : Prop := Forall (λ c, Forall unit16 (so_id c)) s.

(** The declared types: the columns shown or hidden by name, an integral size of page and columns
    with their direction. *)
Inductive typed (t : table) : Prop :=
  | typed_intro vis z s :
      columnVisibility t = (λ c, (c.1, VBool c.2)) <$> vis → NoDup vis.*1 → columns_ok vis →
      pageSize t = VNum (num_of_Z z) → Z.abs z <= MAX_SAFE_INTEGER →
      sorting t = sorting_value s → sorts_ok s → typed t.

Definition prefs_json (vis : list (jsstr * bool)) (z : Z) (s : list sort) : json :=
  JObj [("columnVisibility", vis_json vis); ("pageSize", JNum z); ("sorting", sorting_json s); ("version", JNum 1)].

Lemma embed_vis vis : embed (vis_json vis) = VObj ((λ c, (c.1, VBool c.2)) <$> vis).
Proof. cbn. f_equal. apply map_map. Qed.

Lemma embed_sorting s : embed (sorting_json s) = sorting_value s.
Proof. cbn. unfold sorting_value. f_equal. etransitivity; [apply map_map|]. apply map_ext. by intros [i d []]. Qed.

Ltac text16 := repeat constructor; unfold unit16; lia.

Lemma vis_wf vis : NoDup vis.*1 → columns_ok vis → json_wf (vis_json vis).
Proof.
  intros Hn Hv. apply json_wf_obj.
  - by rewrite <- list_fmap_compose.
  - rewrite Forall_fmap. eapply Forall_impl; [exact Hv|]. by intros c Hc.
Qed.

Lemma sorting_wf s : sorts_ok s → json_wf (sorting_json s).
Proof.
  intros Hs. apply json_wf_arr. rewrite Forall_fmap. eapply Forall_impl; [exact Hs|]. intros [i d b] Hc. cbn in Hc.
  destruct b; (apply json_wf_obj; [repeat constructor; set_solver|]);
    (repeat (apply Forall_cons; split); [..|by apply Forall_nil]; (split; [text16|done])).
Qed.

Lemma prefs_wf vis z s :
  NoDup vis.*1 → columns_ok vis → Z.abs z <= MAX_SAFE_INTEGER → sorts_ok s → json_wf (prefs_json vis z s).
Proof.
  intros Hn Hv Hz Hs. apply json_wf_obj; [repeat constructor; set_solver|].
  repeat (apply Forall_cons; split); [..|by apply Forall_nil]; (split; [text16|]).
  - by apply vis_wf.
  - done.
  - by apply sorting_wf.
  - done.
Qed.

Lemma preferences_text_parse t vis z s :
  columnVisibility t = (λ c, (c.1, VBool c.2)) <$> vis → NoDup vis.*1 → columns_ok vis →
  pageSize t = VNum (num_of_Z z) → Z.abs z <= MAX_SAFE_INTEGER →
  sorting t = sorting_value s → sorts_ok s →
  JSON_parse (preferences_text t) =
  Some (VObj [("columnVisibility", VObj (columnVisibility t)); ("pageSize", pageSize t); ("sorting", sorting t);
              ("version", VNum (num_of_Z 1))]).
Proof.
  intros Ev Hn Hv Ez Hz Es Hs. pose proof (parse_text _ (prefs_wf vis z s Hn Hv Hz Hs)) as Hp.
  unfold preferences_text. rewrite Ev, Ez, Es, <- embed_vis, <- embed_sorting. exact Hp.
Qed.

(** What a well-typed table stores is what the next one loads. *)
Lemma reload t key :
  typed t → truthy key = true →
  loadPreferences (Some key) (Some (preferences_text t)) =
  {| pr_columnVisibility := Some (VObj (columnVisibility t)); pr_pageSize := Some (pageSize t);
     pr_sorting := Some (sorting t) |}.
Proof.
  intros [vis z s Ev Hn Hv Ez Hz Es Hs] Hk. unfold loadPreferences. rewrite Hk. cbn [negb from_option id].
  rewrite (preferences_text_parse t vis z s) by done. done.
Qed.

Lemma bools_keys (vis : list (jsstr * bool)) : ((λ c : jsstr * bool, (c.1, VBool c.2)) <$> vis).*1 = vis.*1.
Proof. induction vis as [|c vis IH]; [done|]. cbn. by f_equal. Qed.

(** ** Reachable tables *)

(** The columns a page shows or hides at first, and a table whose columns start with them. *)
Definition given (p : table_props) : list (jsstr * bool) := default [] (tp_columnVisibility p).

Definition covers (p : table_props) (t : table) : Prop := (given p).*1 `prefix_of` (columnVisibility t).*1.

(** The arguments the pages give. *)
Definition props_ok (p : table_props) : Prop :=
  (NoDup (given p).*1 ∧ columns_ok (given p)) ∧
  (∀ i n, tp_pagination p = Some (i, n) → Z.abs n <= MAX_SAFE_INTEGER) ∧
  (∀ s, tp_sorting p = Some s → columns_ok s).

(** The texts of an event are sequences of code units, and its sizes integers. *)
Definition event_ok (e : event) : Prop :=
  match e with
  | EPagination _ size => Z.abs size <= MAX_SAFE_INTEGER
  | ESorting s => sorts_ok s
  | EVisibility column _ => Forall unit16 column
  | _ => True
  end.

Definition label_ok (x : label) : Prop := match x with On e => event_ok e | _ => True end.

(** From whatever the storage holds when the page is opened. *)
Inductive reachable (p : table_props) (o : option jsstr) : world → Prop :=
  | reach_new : reachable p o {| w_stored := o; w_table := None |}
  | reach_step w x : reachable p o w → label_ok x → reachable p o (step p w x).

(** Preferences of the declared types: columns with booleans, an integral size, columns with their
    directions, each of which may be missing or [null]. *)
Record prefs_typed (r : preferences) : Prop := {
  pt_columns : ∃ vis, spread (pr_columnVisibility r) = (λ c, (c.1, VBool c.2)) <$> vis ∧ columns_ok vis;
  pt_size x : coalesce (pr_pageSize r) x = x ∨ ∃ z, pr_pageSize r = Some (VNum (num_of_Z z)) ∧ Z.abs z <= MAX_SAFE_INTEGER;
  pt_sorting x : coalesce (pr_sorting r) x = x ∨ ∃ s, pr_sorting r = Some (sorting_value s) ∧ sorts_ok s;
}.

Lemma loadPreferences_none key : loadPreferences key None = no_preferences.
Proof. unfold loadPreferences. destruct key as [k|]; [|done]. destruct (truthy k); [|done]. vm_compute. done. Qed.

Lemma no_preferences_typed : prefs_typed no_preferences.
Proof. split; [exists []; split; [done|constructor]|by left..]. Qed.

(** Setting a column keeps the first ones. *)
Lemma prop_set_prefix {A} (l : list jsstr) k (v : A) o : l `prefix_of` o.*1 → l `prefix_of` (prop_set k v o).*1.
Proof.
  revert l. induction o as [|[k' v'] o IH]; intros l Hl.
  - apply prefix_nil_inv in Hl as ->. apply prefix_nil.
  - cbn. destruct (str_eqb k' k) eqn:E; [apply str_eqb_eq in E as ->; exact Hl|].
    destruct l as [|x l]; [apply prefix_nil|]. cbn in Hl. apply prefix_cons_inv_1 in Hl as Hx.
    apply prefix_cons_inv_2 in Hl. subst x. apply prefix_cons. by apply IH.
Qed.

(** Copying columns with booleans over others. *)
Lemma assign_typed vis vis' :
  NoDup vis.*1 → columns_ok vis → columns_ok vis' →
  ∃ r, assign ((λ c, (c.1, VBool c.2)) <$> vis) ((λ c, (c.1, VBool c.2)) <$> vis') = (λ c, (c.1, VBool c.2)) <$> r ∧
       NoDup r.*1 ∧ columns_ok r ∧ vis.*1 `prefix_of` r.*1.
Proof.
  intros Hn Hv Hv'. revert vis Hn Hv. induction Hv' as [|[k b] vis' Hk _ IH]; intros vis Hn Hv; [by exists vis|].
  unfold assign. cbn [fmap list_fmap fold_left fst snd]. rewrite (prop_set_fmap VBool k b vis).
  destruct (IH (prop_set k b vis)) as (r & Hr & Hrn & Hro & Hp).
  - by apply prop_set_distinct.
  - by apply (prop_set_Forall (Forall unit16)).
  - exists r. split_and!; [exact Hr|done..|]. etrans; [|exact Hp]. by apply prop_set_prefix.
Qed.

Lemma typed_mount_loaded p stored :
  props_ok p → prefs_typed (loadPreferences (tp_key p) stored) →
  typed (mount_table p stored) ∧ covers p (mount_table p stored).
Proof.
  intros ([Hn Hv] & Hp & Hs) [(vis & Ev & Ho) Hz Ht].
  destruct (assign_typed (given p) vis Hn Hv Ho) as (r & Er & Hrn & Hro & Hpre).
  assert (Evis : columnVisibility (mount_table p stored) = (λ c, (c.1, VBool c.2)) <$> r)
    by (rewrite <- Er, <- Ev; done).
  split; [|unfold covers; by rewrite Evis, bools_keys].
  assert (Hsize : ∃ z, pageSize (mount_table p stored) = VNum (num_of_Z z) ∧ Z.abs z <= MAX_SAFE_INTEGER).
  { unfold mount_table. cbn -[num_of_Z MAX_SAFE_INTEGER]. destruct (Hz (VNum (num_of_Z
      (match tp_pagination p with Some (_, n) => n | None => 5 end)))) as [E|(z & E & ?)]; [|rewrite E; by eexists].
    rewrite E. eexists. split; [done|]. destruct (tp_pagination p) as [[i n]|]; [by apply (Hp i)|]. unfold MAX_SAFE_INTEGER. lia. }
  assert (Hsort : ∃ s, sorting (mount_table p stored) = sorting_value s ∧ sorts_ok s).
  { unfold mount_table. cbn [sorting]. destruct (Ht (sorting_value (page_sorting p))) as [E|(s & E & ?)]; [|rewrite E; by eexists].
    rewrite E. eexists. split; [done|]. unfold page_sorting, sorts_ok. rewrite Forall_fmap.
    destruct (tp_sorting p) as [s|]; [exact (Hs s eq_refl)|constructor]. }
  destruct Hsize as (z & Ez & Hz'), Hsort as (s & Es & Hs'). by apply (typed_intro _ r z s).
Qed.

(** Copying over columns that come first, in their order, gives the columns copied. *)
Lemma assign_prefix {A} (done_ : list (jsstr * A)) o p :
  NoDup (done_ ++ p).*1 → o.*1 `prefix_of` p.*1 →
  fold_left (λ o p, prop_set p.1 p.2 o) p (done_ ++ o) = done_ ++ p.
Proof.
  revert done_ o. induction p as [|[k v] p IH]; intros done_ o Hn Hpre.
  - destruct o as [|c o]; [done|]. cbn in Hpre. by apply prefix_nil_inv in Hpre.
  - cbn [fold_left fst snd]. rewrite fmap_app, fmap_cons in Hn.
    assert (Hk : k ∉ done_.*1).
    { apply NoDup_app in Hn as (_ & Hd & _). intros Hin. apply (Hd k Hin). left. }
    assert (Hset : ∃ o', prop_set k v (done_ ++ o) = (done_ ++ [(k, v)]) ++ o' ∧ o'.*1 `prefix_of` p.*1).
    { assert (Hskip : prop_set k v (done_ ++ o) = done_ ++ prop_set k v o).
      { clear -Hk. induction done_ as [|[k' v'] d IH]; [done|]. cbn in *.
        destruct (str_eqb k' k) eqn:E; [apply str_eqb_eq in E as ->; set_solver|]. f_equal. apply IH. set_solver. }
      destruct o as [|[k' v'] o]; cbn in Hpre.
      - exists []. rewrite Hskip, app_nil_r. split; [done|apply prefix_nil].
      - apply prefix_cons_inv_1 in Hpre as Hk'. apply prefix_cons_inv_2 in Hpre. subst k'. exists o.
        rewrite Hskip. cbn. rewrite str_eqb_refl, <- app_assoc. done. }
    destruct Hset as (o' & -> & Ho'). rewrite IH; [by rewrite <- app_assoc| |done].
    by rewrite <- app_assoc, fmap_app.
Qed.

Definition has_key (p : table_props) : bool := match tp_key p with Some k => truthy k | None => false end.

Lemma mount_stored p t :
  props_ok p → typed t → covers p t → has_key p = true →
  let t' := mount_table p (Some (preferences_text t)) in
  columnVisibility t' = columnVisibility t ∧ pageSize t' = pageSize t ∧ sorting t' = sorting t.
Proof.
  intros _ Ht Hc Hk t'. unfold has_key in Hk. destruct (tp_key p) as [k|] eqn:Ek; [|done].
  subst t'. unfold mount_table. rewrite Ek, reload by done. cbn [columnVisibility pageSize sorting pr_columnVisibility
    pr_pageSize pr_sorting spread]. destruct Ht as [vis z s Ev Hn _ Ez _ Es _]. split_and!.
  - unfold assign. apply (assign_prefix []); cbn [app]; [by rewrite Ev, bools_keys|by rewrite bools_keys].
  - by rewrite Ez.
  - by rewrite Es.
Qed.

Lemma typed_same t t' :
  typed t → columnVisibility t' = columnVisibility t → pageSize t' = pageSize t → sorting t' = sorting t → typed t'.
Proof. intros [vis z s] E1 E2 E3. by apply (typed_intro _ vis z s); rewrite ?E1, ?E2, ?E3. Qed.

(** Resetting the preferences types any table. *)
Lemma typed_reset p t : props_ok p → typed (table_step p EReset t) ∧ covers p (table_step p EReset t).
Proof.
  intros Hp. destruct (typed_mount_loaded (keyless p) None) as [H1 H2]; [done|apply no_preferences_typed|].
  split; [by apply (typed_same (mount_table (keyless p) None))|exact H2].
Qed.

(** Every event keeps the first columns. *)
Lemma covers_step p e t : props_ok p → covers p t → covers p (table_step p e t).
Proof.
  intros Hp Hc. destruct e; try exact Hc.
  - by apply prop_set_prefix.
  - by apply typed_reset.
Qed.

(** Every event keeps the types. *)
Lemma typed_step p e t : props_ok p → event_ok e → typed t → typed (table_step p e t).
Proof.
  intros Hp He Ht. destruct e as [u|i n|s'|column visible|column value| |].
  - by apply (typed_same t).
  - destruct Ht as [vis z s]. by apply (typed_intro _ vis n s).
  - destruct Ht as [vis z s]. by apply (typed_intro _ vis z s').
  - destruct Ht as [vis z s Ev Hn Hv Ez Hz Es Hs].
    apply (typed_intro _ (prop_set column visible vis) z s); cbn [table_step columnVisibility pageSize sorting]; try done.
    + rewrite Ev. apply (prop_set_fmap VBool).
    + by apply prop_set_distinct.
    + by apply (prop_set_Forall (Forall unit16)).
  - by apply (typed_same t).
  - by apply (typed_same t).
  - by apply typed_reset.
Qed.

(** The storage has what it had when the page was opened, or what a well-typed table wrote. *)
Definition stored_ok (p : table_props) (o stored : option jsstr) : Prop :=
  stored = o ∨ ∃ t, typed t ∧ covers p t ∧ stored = Some (preferences_text t).

(** What a table and its storage are, whenever no event is handled. *)
Definition world_ok (p : table_props) (o : option jsstr) (w : world) : Prop :=
  stored_ok p o (w_stored w) ∧
  ∀ t, w_table w = Some t → typed t ∧ covers p t ∧ (has_key p = true → w_stored w = Some (preferences_text t)).

Lemma store_ok p o t stored :
  typed t → covers p t → stored_ok p o stored → world_ok p o {| w_stored := store_effect p t stored; w_table := Some t |}.
Proof.
  intros Ht Hc Hs. unfold store_effect, world_ok, has_key. cbn [w_stored w_table].
  assert (stored_ok p o (Some (preferences_text t))) by (right; by exists t).
  destruct (tp_key p) as [k|]; [destruct (truthy k)|]; (split; [done|]); intros t' [= <-]; by split.
Qed.

Lemma preferences_text_same t t' :
  columnVisibility t' = columnVisibility t → pageSize t' = pageSize t → sorting t' = sorting t →
  preferences_text t' = preferences_text t.
Proof. intros E1 E2 E3. unfold preferences_text. by rewrite E1, E2, E3. Qed.

Lemma typed_mount p o stored :
  props_ok p → prefs_typed (loadPreferences (tp_key p) o) → stored_ok p o stored →
  typed (mount_table p stored) ∧ covers p (mount_table p stored).
Proof.
  intros Hp Ho [->|(t & Ht & Hc & ->)]; [by apply typed_mount_loaded|].
  destruct (has_key p) eqn:Hk.
  - destruct (mount_stored p t Hp Ht Hc Hk) as (Ev & ? & ?). split; [by apply (typed_same t)|].
    unfold covers. by rewrite Ev.
  - apply typed_mount_loaded; [done|]. unfold has_key, loadPreferences in *.
    destruct (tp_key p) as [k|]; [rewrite Hk|]; apply no_preferences_typed.
Qed.

Lemma table_reachable_ok p o w :
  props_ok p → prefs_typed (loadPreferences (tp_key p) o) → reachable p o w → world_ok p o w.
Proof.
  intros Hp Ho. induction 1 as [|w x Hw [Hs Ht] Hx]; [split; [by left|done]|].
  destruct x as [| |e]; cbn [step].
  - destruct (w_table w) as [t|] eqn:Et;
      [split; [done|]; intros t'; rewrite Et; intros [= <-]; by apply Ht|].
    destruct (typed_mount p o (w_stored w) Hp Ho Hs). by apply store_ok.
  - split; [done|]. done.
  - destruct (w_table w) as [t|] eqn:Et; [|split; [done|]; intros t'; by rewrite Et].
    destruct (Ht t eq_refl) as (Htt & Hc & _).
    apply store_ok; [by apply typed_step|by apply covers_step|done].
Qed.

Lemma no_version vis :
  match prop_get "version" ((λ c, (c.1, VBool c.2)) <$> vis) with Some v => is_one v | None => false end = false.
Proof. induction vis as [|[n b] vis IH]; [done|]. cbn. by destruct (str_eqb n "version"). Qed.

(** ** Properties *)

(** An object of this version whose size of page is a text. *)
Definition foreign_text : jsstr := JSON_text (VObj [("version", VNum (num_of_Z 1)); ("pageSize", VStr "x")]).

(** C20. The state of a table has its declared types (columns shown or hidden by name, without a name
    twice, an integral page size, columns with their directions) at all times and whatever its
    controls did, provided the preferences found under its key when the page was opened had them;
    and the storage then always has what the table shows.  Nothing checks the preferences: a text of
    this version with another value under the size of page makes that value the table's.  The reset
    of the preferences gives any table its types back. *)
Theorem datatable_typed p :
  props_ok p →
  (∀ o w t, prefs_typed (loadPreferences (tp_key p) o) → reachable p o w → w_table w = Some t →
     typed t ∧ (has_key p = true → w_stored w = Some (preferences_text t))) ∧
  (∀ t, typed (table_step p EReset t)) ∧
  (has_key p = true →
     let t := mount_table p (Some foreign_text) in
     w_table (step p {| w_stored := Some foreign_text; w_table := None |} Mount) = Some t ∧
     pageSize t = VStr "x" ∧ ¬ typed t).
Proof.
  intros Hp. split_and!.
  - intros o w t Ho Hw Et. destruct (table_reachable_ok p o w Hp Ho Hw) as [_ Ht]. destruct (Ht t Et) as (? & _ & ?). done.
  - intros t. by apply typed_reset.
  - intros Hk. cbv zeta. split; [done|].
    assert (Ez : pageSize (mount_table p (Some foreign_text)) = VStr "x").
    { unfold mount_table, loadPreferences. unfold has_key in Hk. destruct (tp_key p) as [k|]; [|done]. rewrite Hk.
      cbn [negb from_option id default].
      assert (JSON_parse foreign_text = Some (VObj [("version", VNum (num_of_Z 1)); ("pageSize", VStr "x")])) as ->
        by (vm_compute; reflexivity). reflexivity. }
    split; [done|]. intros [vis z s _ _ _ Ez' _ _ _]. congruence.
Qed.

(** C21. The preferences of a table that has a key survive it: the table that is mounted next shows the
    same columns, in the same order of preference, with the same page size and sorting; the filters
    and the page are not kept.  The storage is empty when the page is opened, or holds preferences
    of the declared types. *)
Theorem datatable_preferences_kept p o w t :
  props_ok p → prefs_typed (loadPreferences (tp_key p) o) → reachable p o w → has_key p = true → w_table w = Some t →
  ∃ t', w_table (step p (step p w Unmount) Mount) = Some t' ∧
    columnVisibility t' = columnVisibility t ∧ pageSize t' = pageSize t ∧ sorting t' = sorting t ∧
    globalFilter t' = default [] (tp_globalFilter p) ∧ columnFilters t' = [] ∧
    w_stored (step p (step p w Unmount) Mount) = w_stored w.
Proof.
  intros Hp Ho Hw Hk Et. destruct (table_reachable_ok p o w Hp Ho Hw) as [_ Ht]. destruct (Ht t Et) as (Htt & Hc & Hst).
  cbn [step w_table w_stored]. rewrite (Hst Hk). destruct (mount_stored p t Hp Htt Hc Hk) as (E1 & E2 & E3).
  eexists. split_and!; [done|done|done|done|done|done|].
  unfold store_effect. unfold has_key in Hk. destruct (tp_key p); [|done]. rewrite Hk.
  f_equal. by apply preferences_text_same.
Qed.

(** What another program or version left under the key does no harm: a text that is no JSON, or a
    value that is no object, counts as nothing stored; and an object of an earlier version, which
    held the columns only, is copied over those the page gives. *)
Theorem datatable_foreign_storage p text :
  (match JSON_parse text with Some (VObj _) | Some (VArr _) => False | _ => True end →
   mount_table p (Some text) = mount_table p None) ∧
  (∀ vis, has_key p = true → JSON_parse text = Some (VObj ((λ c, (c.1, VBool c.2)) <$> vis)) →
   let t := mount_table p (Some text) in
   let new := mount_table p None in
   columnVisibility t = assign (columnVisibility new) ((λ c, (c.1, VBool c.2)) <$> vis) ∧
   pageSize t = pageSize new ∧ sorting t = sorting new).
Proof.
  split.
  - intros Hj. unfold mount_table. rewrite loadPreferences_none. replace (loadPreferences _ _) with no_preferences; [done|].
    unfold loadPreferences. destruct (tp_key p) as [k|]; [|done]. destruct (truthy k); [|done]. cbn [negb from_option id].
    destruct (JSON_parse text) as [v|]; [|done]. destruct (falsy v); [done|]. by destruct v.
  - intros vis Hk Hj. unfold has_key in Hk. destruct (tp_key p) as [k|] eqn:Ek; [|done].
    unfold mount_table. rewrite Ek, loadPreferences_none. unfold loadPreferences. rewrite Hk. cbn [negb from_option id].
    rewrite Hj. cbn [falsy]. by rewrite no_version.
Qed.

(** *** Inputs *)

(** A table with a key of its own, sorted by name, a column hidden at first. *)
Definition named_props : table_props :=
  {| tp_globalFilter := None; tp_pagination := None; tp_sorting := Some [("name", false)]; tp_desc_first := true;
     tp_columnVisibility := Some [("flags", false)]; tp_key := Some "tenants" |}.

Definition used_table : world :=
  step named_props (step named_props (step named_props {| w_stored := None; w_table := None |} Mount)
    (On (EVisibility "slug" false))) (On (EPagination 2 25)).

Lemma named_props_ok : props_ok named_props.
Proof.
  split; [split; [repeat constructor; set_solver|text16]|]. split; [done|].
  intros s [= <-]. constructor; [|constructor]. text16.
Defined.

Lemma used_reachable : reachable named_props None used_table.
Proof.
  apply reach_step; [apply reach_step; [apply reach_step; [apply reach_new|done]|]|].
  - cbn. text16.
  - cbn. unfold MAX_SAFE_INTEGER. lia.
Defined.

Lemma none_typed : prefs_typed (loadPreferences (tp_key named_props) None).
Proof. rewrite loadPreferences_none. apply no_preferences_typed. Defined.

(** A text of this version with a size and a sorting, each object written its own way. *)
Definition kept_sorting : list sort :=
  [{| so_id := "slug"; so_desc := true; so_desc_first := true |};
   {| so_id := "name"; so_desc := false; so_desc_first := false |}].

Definition kept_text : jsstr :=
  JSON_text (VObj [("version", VNum (num_of_Z 1)); ("pageSize", VNum (num_of_Z 10)); ("sorting", sorting_value kept_sorting)]).

Lemma kept_typed : prefs_typed (loadPreferences (tp_key named_props) (Some kept_text)).
Proof.
  split.
  - exists []. split; [vm_compute; reflexivity|constructor].
  - right. exists 10. split; [vm_compute; reflexivity|]. unfold MAX_SAFE_INTEGER. lia.
  - right. exists kept_sorting. split; [vm_compute; reflexivity|]. repeat (constructor; [text16|]). constructor.
Defined.

Lemma datatable_typed_witness :
  (∃ t, w_table (step named_props {| w_stored := Some kept_text; w_table := None |} Mount) = Some t ∧
        pageSize t = VNum (num_of_Z 10) ∧ typed t) ∧
  ¬ typed (mount_table named_props (Some foreign_text)).
Proof.
  destruct (datatable_typed named_props named_props_ok) as (H & _ & Hf). split; [|by apply Hf].
  exists (mount_table named_props (Some kept_text)). split; [reflexivity|]. split; [vm_compute; reflexivity|].
  refine (proj1 (H (Some kept_text) (step named_props {| w_stored := Some kept_text; w_table := None |} Mount) _ kept_typed _ _));
    [apply reach_step; [apply reach_new|exact I]|reflexivity].
Defined.

Lemma datatable_preferences_kept_witness :
  ∃ t t', w_table used_table = Some t ∧
    w_table (step named_props (step named_props used_table Unmount) Mount) = Some t' ∧
    columnVisibility t' = columnVisibility t ∧ pageSize t' = pageSize t ∧ pageIndex t = 2 ∧ pageIndex t' = 0.
Proof.
  destruct (w_table used_table) as [t|] eqn:Et; [|by vm_compute in Et].
  destruct (datatable_preferences_kept named_props None used_table t named_props_ok none_typed used_reachable eq_refl Et)
    as (t' & E & Ev & Ep & _).
  exists t, t'. split_and!; [done|done|done|done| |].
  - vm_compute in Et. by injection Et as <-.
  - vm_compute in E. by injection E as <-.
Defined.

Lemma datatable_foreign_storage_witness :
  mount_table named_props (Some "[object Object]") = mount_table named_props None ∧
  columnVisibility (mount_table named_props
    (Some (JSON_text (VObj [("slug", VBool false); ("flags", VBool true)])))) = [("flags", VBool true); ("slug", VBool false)].
Proof.
  split.
  - apply (proj1 (datatable_foreign_storage named_props _)). by vm_compute.
  - destruct (proj2 (datatable_foreign_storage named_props
      (JSON_text (VObj [("slug", VBool false); ("flags", VBool true)]))) [("slug", false); ("flags", true)]) as [E _];
      [done|vm_compute; done|]. rewrite E. done.
Defined.
