(* ===== verification/Catalog.v ===== *)
(** * The catalogue of end-to-end flows

    [src/scripts/check-e2e-catalog.ts]: it reads the flows written in Markdown, the steps the specs
    run and the table of the README, and reports where the three disagree.  The file system is that
    of [Lint]; [None] is an exception that ends the script.  [catalog_consistent] says what a
    catalogue without errors is. *)
From Stdlib Require Import ZArith Lia List QArith.
From stdpp Require Import base list sets gmap.
From S2P Require Import Regex Numbers Json JsonRead Lint Prelude.
#[local] Open Scope Z_scope.

Inductive flow_status := confirmed | draft.

Record Flow := { fl_id : jsstr; fl_path : jsstr; fl_steps : list num; fl_status : flow_status }.
Record SpecStep := { sp_flowId : jsstr; sp_number : num; sp_path : jsstr }.
Record ReadmeRow := {
  rr_flowId : jsstr; rr_spec : jsstr; rr_stepPattern : jsstr; rr_tier : jsstr;
  rr_firstStep : num; rr_lastStep : num;
}.

(** A map is its entries in the order of insertion ([prop_set], [prop_get]). *)
Abbreviation flow_map := (list (jsstr * Flow)).

Section catalog.
Context (root : node) (ROOT : jsstr).

Definition FLOWS_DIR : jsstr := join_path (join_path ROOT "e2e") "flows".
Definition SPECS_DIR : jsstr := join_path (join_path ROOT "web") "e2e".
Definition README_PATH : jsstr := join_path (join_path ROOT "e2e") "README.md".
Definition E2E_RUNNER_PATH : jsstr := join_path (join_path ROOT "scripts") "e2e.sh".
Definition PLAYWRIGHT_CONFIG_PATH : jsstr := join_path (join_path ROOT "web") "playwright.config.ts".
Definition EXPECTED_FLOWS : Z := 20.
Definition EXPECTED_STEPS : Z := 147.

(** ** Patterns *)

Definition ws1 : re := RPlus (RChar is_ws).
Definition quotes : re := RChar (one_of (dq ++ "'")).
Definition number_group (n : nat) : re := RGroup n (RPlus (RChar is_digit)).

(** Ignoring the case of ASCII letters. *)
Fixpoint RStrI (s : jsstr) : re :=
  match s with
  | [] => REmpty
  | c :: s' => RSeq (RChar (λ d, ascii_lower d =? ascii_lower c)) (RStrI s')
  end.

Definition ID_RE : re :=
  RSeqs [RBol true; RStr "id:"; spaces; RGroup 1 (RPlus (RChar (λ c, negb (is_ws c)))); spaces; REol true].
Definition STATUS_RE : re :=
  RSeqs [RBol true; RStr "status:"; spaces; RGroup 1 (RAlt (RStr "confirmed") (RStr "draft")); spaces; REol true].
Definition STEP_RE : re :=
  RSeqs [RBol true; number_group 1; RStr "."; ws1; RStr "(`"; RPlus (RChar (none_of "`")); RStr "`)"; ws1].
Definition TOKEN_RE : re :=
  RSeqs [RStrI ".to"; RAlts (RStrI "HaveValue") [RStrI "Equal"; RStrI "Be"]; RStr "(";
         RStar true (RChar (λ c, negb (c =? 10) && negb (c =? 41))); RWordB; RStrI "token"; RWordB].
Definition CALL_RE : re :=
  RSeqs [RWordB; RStr "flowStep("; spaces; quotes; RGroup 1 (RPlus (RChar (none_of (dq ++ "'")))); quotes; spaces;
         RStr ","; spaces; number_group 2; spaces; RStr ","; spaces; RChar (one_of (dq ++ "'`"));
         RPlus (RChar (none_of (dq ++ "'`"))); RChar (one_of (dq ++ "'`")); spaces; RStr ","].
Definition ROW_RE : re :=
  let bar := RSeqs [spaces; RStr "|"; spaces] in
  let code n r := RSeqs [RStr "`"; RGroup n r; RStr "`"] in
  let text := RPlus (RChar (none_of "`")) in
  RSeqs [RBol true; RStr "|"; spaces; code 1%nat text; bar; code 2%nat (RSeq text (RStr ".e2e.test.ts")); bar;
         code 3%nat text; bar; code 4%nat (RAlt (RStr "pr-critical") (RStr "full")); bar;
         number_group 5; spaces; RChar (one_of "–-"); spaces; number_group 6; spaces; RStr "|"; REol true].
Definition TAG_RE : re :=
  RSeqs [RWordB; RStr "tag:"; spaces; quotes; RStr "@"; RGroup 1 (RAlt (RStr "pr-critical") (RStr "full")); quotes].
Definition TRACE_RE : re := RSeqs [RWordB; RStr "trace:"; spaces; quotes; RStr "off"; quotes].

(** [match[n]] of a group that takes part in the match. *)
Definition group (n : nat) (m : jsstr * mst) : jsstr := default [] (cap n m.2).

(** [source.match(r)?.[1]] *)
Definition first_group (r : re) (source : jsstr) : option jsstr :=
  match exec r source with Some (_, _, y) => cap 1 y | None => None end.

(** ** Language and host *)

(** [a === b] on numbers. *)
Definition num_eqb (a b : num) : bool := num_le a b && num_le b a.

(** [new Set(l)], in the order of insertion. *)
Definition set_of (l : list jsstr) : list jsstr :=
  fold_left (λ s x, if existsb (str_eqb x) s then s else s ++ [x]) l [].

Definition has {A} (k : jsstr) (m : list (jsstr * A)) : bool :=
  match prop_get k m with Some _ => true | None => false end.

Definition report_if (b : bool) (message : jsstr) : list jsstr := if b then [message] else [].

(** A loop whose body may throw. *)
Fixpoint each {A S} (f : S → A → option S) (l : list A) (s : S) : option S :=
  match l with [] => Some s | x :: l' => s' ← f s x; each f l' s' end.

Definition readdirSync (p : jsstr) : option (list jsstr) :=
  match lookup_node (segments p) root with Some (Dir es) => Some (es.*1) | _ => None end.

(** [readdirSync(dir).filter((file) => file.endsWith(suffix)).sort()] *)
Definition names_of (dir suffix : jsstr) : option (list jsstr) :=
  (λ names, js_sort str_cmp (List.filter (endsWith suffix) names)) <$> readdirSync dir.

(** [basename(name, suffix)] *)
Definition basename_without (suffix name : jsstr) : jsstr :=
  if str_eqb name suffix then [] else strip_suffix suffix (basename name).

(** ** The flows *)

Definition step_errors (path : jsstr) (steps : list num) : list jsstr :=
  concat (imap (λ index number,
    let expected := Z.of_nat index + 1 in
    report_if (negb (num_eqb number (num_of_Z expected)))
      (path ++ ": passo " ++ num_text number ++ " fora da sequência; esperado " ++ show_int expected)) steps).

Definition status_of (s : option jsstr) : flow_status :=
  match s with Some s => if str_eqb s "draft" then draft else confirmed | None => confirmed end.

Definition read_flow (s : flow_map * list jsstr) (name : jsstr) : option (flow_map * list jsstr) :=
  let '(flows, errors) := s in
  let path := join_path FLOWS_DIR name in
  source ← readFileSync root path;
  let id := default [] (first_group ID_RE source) in
  if negb (truthy id) then Some (flows, errors ++ [path ++ ": frontmatter sem id"])
  else
    let status := first_group STATUS_RE source in
    let steps := (js_Number ∘ group 1) <$> matchAll STEP_RE source in
    Some (prop_set id {| fl_id := id; fl_path := path; fl_steps := steps; fl_status := status_of status |} flows,
          errors
          ++ report_if (negb (str_eqb id (basename_without ".md" name)))
               (path ++ ": id " ++ id ++ " diverge do nome do arquivo")
          ++ report_if (has id flows) (path ++ ": flow-id duplicado " ++ id)
          ++ report_if (bool_decide (steps = [])) (path ++ ": nenhum passo numerado encontrado")
          ++ step_errors path steps).

Definition readFlows : option (flow_map * list jsstr) :=
  names ← names_of FLOWS_DIR ".md"; each read_flow names ([], []).

(** ** The steps of the specs *)

Definition read_spec (s : list SpecStep * list jsstr) (name : jsstr) : option (list SpecStep * list jsstr) :=
  let '(steps, errors) := s in
  let path := join_path SPECS_DIR name in
  source ← readFileSync root path;
  Some (steps ++ ((λ m, {| sp_flowId := group 1 m; sp_number := js_Number (group 2 m); sp_path := path |})
                    <$> matchAll CALL_RE source),
        errors ++ report_if (test TOKEN_RE source)
          (path ++ ": token bruto não pode ser argumento de matcher (vaza no reporter)")).

Definition readSpecSteps : option (list SpecStep * list jsstr) :=
  names ← names_of SPECS_DIR ".e2e.test.ts"; each read_spec names ([], []).

(** ** The README *)

Definition row_of (m : jsstr * mst) : ReadmeRow :=
  {| rr_flowId := group 1 m; rr_spec := group 2 m; rr_stepPattern := group 3 m; rr_tier := group 4 m;
     rr_firstStep := js_Number (group 5 m); rr_lastStep := js_Number (group 6 m) |}.

Definition readReadme : option (list ReadmeRow * list jsstr) :=
  if negb (existsSync root README_PATH) then Some ([], [README_PATH ++ ": arquivo ausente"])
  else
    source ← readFileSync root README_PATH;
    let rows := row_of <$> matchAll ROW_RE source in
    Some (rows, report_if (bool_decide (rows = [])) (README_PATH ++ ": nenhuma linha de catálogo reconhecida")).

(** ** The comparison *)

Definition step_key (id : jsstr) (number : num) : jsstr := id ++ "#" ++ num_text number.

Definition size_num {A} (l : list A) : num := num_of_Z (Z.of_nat (length l)).
Definition size_text {A} (l : list A) : jsstr := show_int (Z.of_nat (length l)).

(** A step of a spec: the owners of the steps so far and the errors. *)
Definition own (flows : flow_map) (s : list (jsstr * jsstr) * list jsstr) (step : SpecStep) :
    list (jsstr * jsstr) * list jsstr :=
  let '(stepOwners, errors) := s in
  match prop_get (sp_flowId step) flows with
  | None => (stepOwners, errors ++ [sp_path step ++ ": flow-id inexistente " ++ sp_flowId step])
  | Some flow =>
    let range := report_if (num_lt (sp_number step) (num_of_Z 1) || num_lt (size_num (fl_steps flow)) (sp_number step))
      (sp_path step ++ ": " ++ step_key (sp_flowId step) (sp_number step) ++ " fora do intervalo 1-"
       ++ size_text (fl_steps flow)) in
    let key := step_key (sp_flowId step) (sp_number step) in
    let previousOwner := default [] (prop_get key stepOwners) in
    if truthy previousOwner
    then (stepOwners, errors ++ range ++
            [sp_path step ++ ": passo duplicado " ++ key ++ "; já mapeado em " ++ previousOwner])
    else (prop_set key (sp_path step) stepOwners, errors ++ range)
  end.

Definition missing_steps (flows : flow_map) (stepOwners : list (jsstr * jsstr)) : list jsstr :=
  flows.*2 ≫= λ flow, fl_steps flow ≫= λ number,
    let key := step_key (fl_id flow) number in
    report_if (negb (has key stepOwners)) ("Specs: passo ausente " ++ key).

(** [values.join(", ") || other] *)
Definition list_or (values : list jsstr) (other : jsstr) : jsstr := str_or (join ", " values) other.

(** The spec a row names: its file and its tags. *)
Definition spec_errors (row : ReadmeRow) : option (list jsstr) :=
  let path := join_path SPECS_DIR (rr_spec row) in
  if negb (existsSync root path) then Some [README_PATH ++ ": spec ausente " ++ rr_spec row]
  else
    specSource ← readFileSync root path;
    let executableTiers := group 1 <$> matchAll TAG_RE specSource in
    Some (report_if (negb (length executableTiers =? 1)%nat || negb (str_eqb (default [] (head executableTiers)) (rr_tier row)))
      (README_PATH ++ ": tier " ++ rr_tier row ++ " de " ++ rr_flowId row ++ " diverge das tags executáveis de "
       ++ rr_spec row ++ ": " ++ list_or executableTiers "nenhuma")).

Definition mapped_specs (specSteps : list SpecStep) (id : jsstr) : list jsstr :=
  set_of ((basename ∘ sp_path) <$> List.filter (λ step, str_eqb (sp_flowId step) id) specSteps).

Definition mapping_errors (specSteps : list SpecStep) (row : ReadmeRow) : list jsstr :=
  let mappedSpecs := mapped_specs specSteps (rr_flowId row) in
  report_if (negb (length mappedSpecs =? 1)%nat || negb (existsb (str_eqb (rr_spec row)) mappedSpecs))
    (README_PATH ++ ": " ++ rr_flowId row ++ " aponta para " ++ rr_spec row ++ ", mas flowStep aparece em "
     ++ list_or mappedSpecs "nenhuma spec").

Definition row_errors (flow : Flow) (row : ReadmeRow) : list jsstr :=
  report_if (negb (num_eqb (rr_firstStep row) (num_of_Z 1)) || negb (num_eqb (rr_lastStep row) (size_num (fl_steps flow))))
    (README_PATH ++ ": intervalo de " ++ rr_flowId row ++ " é " ++ num_text (rr_firstStep row) ++ "-"
     ++ num_text (rr_lastStep row) ++ "; esperado 1-" ++ size_text (fl_steps flow))
  ++ report_if (negb (str_eqb (rr_stepPattern row) ("[" ++ rr_flowId row ++ "#N] título")))
    (README_PATH ++ ": padrão test.step inválido para " ++ rr_flowId row ++ ": " ++ rr_stepPattern row).

(** A row of the README: the rows so far by their flow and the errors. *)
Definition check_row (flows : flow_map) (specSteps : list SpecStep)
    (s : list (jsstr * ReadmeRow) * list jsstr) (row : ReadmeRow) : option (list (jsstr * ReadmeRow) * list jsstr) :=
  let '(readmeByFlow, errors) := s in
  let errors := errors ++ report_if (has (rr_flowId row) readmeByFlow)
                            (README_PATH ++ ": flow-id duplicado " ++ rr_flowId row) in
  let readmeByFlow := prop_set (rr_flowId row) row readmeByFlow in
  match prop_get (rr_flowId row) flows with
  | None => Some (readmeByFlow, errors ++ [README_PATH ++ ": flow-id inexistente " ++ rr_flowId row])
  | Some flow =>
    tier ← spec_errors row;
    Some (readmeByFlow, errors ++ row_errors flow row ++ tier ++ mapping_errors specSteps row)
  end.

(** What the script has read. *)
Record catalog := {
  ct_allFlows : flow_map;
  ct_specSteps : list SpecStep;
  ct_readmeRows : list ReadmeRow;
}.

Definition is_confirmed (flow : Flow) : bool := match fl_status flow with confirmed => true | draft => false end.
Definition ct_flows (c : catalog) : flow_map := List.filter (λ e, is_confirmed e.2) (ct_allFlows c).
Definition ct_drafts (c : catalog) : list Flow := List.filter (λ flow, negb (is_confirmed flow)) (ct_allFlows c).*2.
Definition markdownStepTotal (flows : flow_map) : Z :=
  fold_left (λ total flow, total + Z.of_nat (length (fl_steps flow))) flows.*2 0.

Definition count_error (what : jsstr) (n expected : Z) (what_of : jsstr) : list jsstr :=
  report_if (negb (n =? expected)) (what ++ ": " ++ show_int n ++ "/" ++ show_int expected ++ what_of).

Definition flow_errors (flows : flow_map) : list jsstr :=
  count_error "Markdown" (Z.of_nat (length flows)) EXPECTED_FLOWS " flows"
  ++ count_error "Markdown" (markdownStepTotal flows) EXPECTED_STEPS " passos".

Definition spec_step_errors (flows : flow_map) (specSteps : list SpecStep) : list jsstr :=
  let '(stepOwners, errors) := fold_left (own flows) specSteps ([], []) in
  errors ++ missing_steps flows stepOwners
  ++ count_error "Specs" (Z.of_nat (length specSteps)) EXPECTED_STEPS " chamadas flowStep".

Definition readme_errors (flows : flow_map) (specSteps : list SpecStep) (rows : list ReadmeRow) : option (list jsstr) :=
  '(readmeByFlow, errors) ← each (check_row flows specSteps) rows ([], []);
  Some (errors
        ++ (flows.*2 ≫= λ flow, report_if (negb (has (fl_id flow) readmeByFlow))
                                  (README_PATH ++ ": flow ausente " ++ fl_id flow))
        ++ count_error "README" (Z.of_nat (length rows)) EXPECTED_FLOWS " flows").

(** The two files that must keep no secret. *)
Definition CLEANUP : jsstr := "find " ++ dq ++ "$output_dir" ++ dq ++ " -type f -name 'error-context.md' -delete".

Definition runner_errors : option (list jsstr) :=
  runnerSource ← readFileSync root E2E_RUNNER_PATH;
  playwrightConfigSource ← readFileSync root PLAYWRIGHT_CONFIG_PATH;
  Some (report_if (negb (includes CLEANUP runnerSource))
          (E2E_RUNNER_PATH ++ ": cleanup deve remover error-context.md antes do upload")
        ++ report_if (negb (test TRACE_RE playwrightConfigSource))
          (PLAYWRIGHT_CONFIG_PATH ++ ": traces devem ficar desabilitados para não reter credenciais")).

Definition check_catalog : option (catalog * list jsstr) :=
  '(allFlows, e1) ← readFlows;
  '(specSteps, e2) ← readSpecSteps;
  '(rows, e3) ← readReadme;
  let c := {| ct_allFlows := allFlows; ct_specSteps := specSteps; ct_readmeRows := rows |} in
  e4 ← readme_errors (ct_flows c) specSteps rows;
  e5 ← runner_errors;
  Some (c, e1 ++ flow_errors (ct_flows c) ++ e2 ++ spec_step_errors (ct_flows c) specSteps ++ e3 ++ e4 ++ e5).

(** ** The report *)

Definition tiers (rows : list ReadmeRow) : list (jsstr * Z) :=
  fold_left (λ counts row, prop_set (rr_tier row) (default 0 (prop_get (rr_tier row) counts) + 1) counts) rows [].

Definition tier_count (tier : jsstr) (rows : list ReadmeRow) : jsstr := show_int (default 0 (prop_get tier (tiers rows))).

(** [Err]: the text of the failure, and exit code 1; [None] is an exception. *)
Definition check_e2e_catalog : option (result jsstr jsstr) :=
  '(c, errors) ← check_catalog;
  Some (match errors with
        | _ :: _ => Err ("Catálogo E2E inválido (" ++ size_text errors ++ " erro(s)):" ++ [10] ++ "- " ++ join ([10] ++ "- ") errors)
        | [] => Ok ("Catálogo E2E válido: " ++ size_text (ct_flows c) ++ "/" ++ show_int EXPECTED_FLOWS ++ " flows, "
                    ++ size_text (ct_specSteps c) ++ "/" ++ show_int EXPECTED_STEPS ++ " passos, "
                    ++ tier_count "pr-critical" (ct_readmeRows c) ++ " pr-critical e " ++ tier_count "full" (ct_readmeRows c)
                    ++ " full; " ++ size_text (ct_drafts c) ++ " rascunho(s) UX aguardando confirmação.")
        end).
End catalog.

(** ** Lemmas *)

Lemma report_nil b m : report_if b m = [] ↔ b = false.
Proof. by destruct b. Qed.

Lemma has_elem {A} k (m : list (jsstr * A)) : has k m = true ↔ k ∈ m.*1.
Proof.
  unfold has. destruct (prop_get k m) as [x|] eqn:E.
  - apply prop_get_elem in E. split; [|done]. intros _. apply list_elem_of_fmap. by exists (k, x).
  - apply prop_get_none in E. by split.
Qed.

Lemma bind_nil {A B} (f : A → list B) l : l ≫= f = [] ↔ ∀ x, x ∈ l → f x = [].
Proof.
  induction l as [|a l IH]; cbn; [set_solver|]. rewrite app_nil, IH. set_solver.
Qed.

Lemma each_inv {A S} (f : S → A → option S) (P : list A → S → Prop) l s s' :
  P [] s → (∀ done x s s', P done s → x ∈ l → f s x = Some s' → P (done ++ [x]) s') →
  each f l s = Some s' → P l s'.
Proof.
  intros H0 Hstep. assert (H : ∀ todo pre s, pre ++ todo = l → P pre s → each f todo s = Some s' → P l s').
  { induction todo as [|x todo IH]; intros pre s0 El HP; cbn.
    - intros [= ->]. by rewrite app_nil_r in El; subst.
    - destruct (f s0 x) as [s1|] eqn:E; [|done]. cbn. apply (IH (pre ++ [x])); [by rewrite <- app_assoc|].
      eapply Hstep; [done|subst; set_solver|done]. }
  by apply (H l []).
Qed.

Lemma fold_inv {A S} (f : S → A → S) (P : list A → S → Prop) l s :
  P [] s → (∀ done x s, P done s → P (done ++ [x]) (f s x)) → P l (fold_left f l s).
Proof.
  intros H0 Hstep. induction l as [|x l IH] using rev_ind; [done|]. rewrite fold_left_app. by apply Hstep.
Qed.

Lemma set_of_elem l x : x ∈ l → x ∈ set_of l.
Proof.
  unfold set_of. apply (fold_inv _ (λ pre s, x ∈ pre → x ∈ s)); [done|]. intros pre y s IH Hx.
  destruct (existsb (str_eqb y) s) eqn:E.
  - apply elem_of_app in Hx as [Hx|Hx]; [by apply IH|]. apply list_elem_of_singleton in Hx as ->.
    apply existsb_exists in E as (z & Hz & ->%str_eqb_eq). by apply list_elem_of_In.
  - apply elem_of_app in Hx as [Hx|Hx]; [|set_solver]. apply elem_of_app. left. by apply IH.
Qed.

(** *** Numbers and their texts *)

Lemma num_eqb_int x z : Z.abs z <= MAX_SAFE_INTEGER → num_eqb x (num_of_Z z) = true → num_int x = Some z.
Proof.
  intros Hz. unfold num_eqb. destruct (num_int_inv _ _ (num_of_Z_safe z Hz)) as (q & -> & Hq).
  destruct x as [|n|p]; cbn [num_le]; [done|by destruct n|]. intros [H1%Qle_bool_iff H2%Qle_bool_iff]%andb_true_iff.
  assert (Hp : (p == inject_Z z)%Q) by (rewrite <- Hq; by apply Qle_antisym). unfold num_int. unfold Qeq in Hp.
  cbn [inject_Z Qnum Qden] in Hp. rewrite Z.mul_1_r in Hp. rewrite Hp, Z.mod_mul, Z.div_mul by done. done.
Qed.

Lemma num_text_int x z : num_int x = Some z → Z.abs z <= MAX_SAFE_INTEGER → num_text x = show_int z.
Proof.
  intros Hx Hz. unfold num_text. destruct x as [| |q]; [done|done|]. rewrite Hx. by rewrite (proj2 (Z.leb_le _ _) Hz).
Qed.

Lemma digits_no_hash n : 35 ∉ digits n.
Proof.
  assert (H : ∀ fuel n acc, 35 ∉ acc → 35 ∉ digits_aux fuel n acc).
  { induction fuel as [|f IH]; intros m acc Ha; [done|]. cbn [digits_aux]. pose proof (Z.mod_pos_bound m 10).
    assert (35 ∉ 48 + m mod 10 :: acc) by (rewrite not_elem_of_cons; split; [lia|done]).
    destruct (m <? 10); [done|by apply IH]. }
  apply H. set_solver.
Qed.

Lemma show_int_no_hash z : 35 ∉ show_int z.
Proof.
  unfold show_int. destruct (z <? 0); [|apply digits_no_hash]. rewrite not_elem_of_cons. split; [lia|apply digits_no_hash].
Qed.

Lemma zeros_no_hash n : 35 ∉ zeros n.
Proof. unfold zeros. intros H%list_elem_of_In%repeat_spec. lia. Qed.

Lemma show_exponent_no_hash n : 35 ∉ show_exponent n.
Proof.
  unfold show_exponent. rewrite !elem_of_app. intros [H|[H|H]]; [|destruct (n <? 0)|by apply digits_no_hash in H];
    revert H; vm_compute; set_solver.
Qed.

Lemma take_no_hash n (s : jsstr) : 35 ∉ s → 35 ∉ take n s.
Proof. intros Hs H. apply Hs. rewrite <- (take_drop n s). set_solver. Qed.

Lemma drop_no_hash n (s : jsstr) : 35 ∉ s → 35 ∉ drop n s.
Proof. intros Hs H. apply Hs. rewrite <- (take_drop n s). set_solver. Qed.

Lemma app_no_hash (a b : jsstr) : 35 ∉ a → 35 ∉ b → 35 ∉ a ++ b.
Proof. rewrite elem_of_app. tauto. Qed.

Lemma decimal_text_no_hash q : 35 ∉ decimal_text q.
Proof.
  unfold decimal_text. destruct (shortest q) as [s n].
  assert (Hl : ∀ w : jsstr, forallb (λ c, negb (c =? 35)) w = true → 35 ∉ w).
  { intros w Hw H%list_elem_of_In. rewrite forallb_forall in Hw. by specialize (Hw 35 H). }
  repeat case_cond; repeat apply app_no_hash;
    auto using digits_no_hash, zeros_no_hash, show_exponent_no_hash, take_no_hash, drop_no_hash; try case_match; by apply Hl.
Qed.

Lemma num_text_no_hash x : 35 ∉ num_text x.
Proof.
  assert (Hm : ∀ w : jsstr, 35 ∉ w → 35 ∉ "-" ++ w) by (intros w Hw; apply app_no_hash; [vm_compute; set_solver|done]).
  destruct x as [|neg|q]; cbn [num_text].
  - vm_compute. set_solver.
  - destruct neg; vm_compute; set_solver.
  - repeat case_match; auto using show_int_no_hash, decimal_text_no_hash.
Qed.

(** The text of a key says which flow and which step it is of. *)
Lemma key_inj (a b a' b' : jsstr) :
  35 ∉ b → 35 ∉ b' → a ++ "#" ++ b = a' ++ "#" ++ b' → a = a' ∧ b = b'.
Proof.
  intros Hb Hb'. revert a'. induction a as [|c a IH]; intros [|c' a']; cbn; intros E.
  - by injection E as ->.
  - injection E as <- ->. set_solver.
  - injection E as -> <-. set_solver.
  - injection E as -> E. by destruct (IH a' E) as [-> ->].
Qed.

(** *** What silence of each part means *)

Section facts.
Context (root : node) (ROOT : jsstr).

(** The entries of a map of flows. *)
Definition flows_ok (flows : flow_map) : Prop :=
  NoDup flows.*1 ∧
  ∀ k flow, (k, flow) ∈ flows → fl_id flow = k ∧ fl_steps flow ≠ [] ∧
    ∀ i x, fl_steps flow !! i = Some x → num_eqb x (num_of_Z (Z.of_nat i + 1)) = true.

Lemma step_errors_nil path steps i x :
  step_errors path steps = [] → steps !! i = Some x → num_eqb x (num_of_Z (Z.of_nat i + 1)) = true.
Proof.
  unfold step_errors. intros H Hx.
  set (f := λ (index : nat) (number : num), _ : list jsstr) in H.
  assert (Hi : f i x ∈ imap f steps) by (apply elem_of_lookup_imap; by exists i, x).
  assert (f i x = []) as E.
  { clear Hx. revert H Hi. generalize (imap f steps). intros l. induction l as [|e l IH]; cbn; [set_solver|].
    intros [-> Hl]%app_nil [->|Hi]%elem_of_cons; [done|by apply IH]. }
  subst f. cbv beta in E. apply report_nil in E. by apply negb_false_iff in E.
Qed.

Lemma readFlows_ok flows : readFlows root ROOT = Some (flows, []) → flows_ok flows.
Proof.
  unfold readFlows. destruct (names_of _ _ _) as [names|]; [|done]. cbn. intros H.
  refine (each_inv _ (λ _ (s : flow_map * list jsstr), s.2 = [] → flows_ok s.1) _ _ _ _ _ H eq_refl).
  - intros _. split; [constructor|set_solver].
  - clear. intros _ name [fs es] [fs' es'] IH _. unfold read_flow. cbn [fst snd] in *.
    destruct (readFileSync _ _) as [source|]; [|done]. cbn [mbind option_bind].
    destruct (negb (truthy _)); intros [= <- <-]; [by intros [_ ?]%app_nil|].
    intros [He [_ [_ [Hn Hs]%app_nil]%app_nil]%app_nil]%app_nil. destruct (IH He) as [Hd Hf]. split.
    + by apply prop_set_distinct.
    + intros k flow [[= -> ->]|Hin]%prop_set_elem; [|by apply Hf]. split_and!; [done| |].
      * apply report_nil in Hn. by apply bool_decide_eq_false in Hn.
      * intros i x. by eapply step_errors_nil.
Qed.

Lemma confirmed_ok flows : flows_ok flows → flows_ok (List.filter (λ e, is_confirmed e.2) flows).
Proof.
  intros [Hd Hf]. split.
  - induction flows as [|[k f] flows IH]; cbn in *; [constructor|]. apply NoDup_cons in Hd as [Hk Hd].
    assert (NoDup (List.filter (λ e, is_confirmed e.2) flows).*1) as Hrec by (apply IH; [done|set_solver]).
    destruct (is_confirmed f); [|done]. cbn. constructor; [|done]. intros Hin. apply Hk.
    apply list_elem_of_fmap in Hin as (e & -> & [He _]%list_elem_of_In%filter_In). apply list_elem_of_fmap.
    exists e. split; [done|by apply list_elem_of_In].
  - intros k f Hin%list_elem_of_In%filter_In. apply Hf, list_elem_of_In, Hin.
Qed.

(** The steps the specs own. *)
Lemma own_keys flows steps owners errors k :
  fold_left (own flows) steps ([], []) = (owners, errors) → k ∈ owners.*1 →
  ∃ step, step ∈ steps ∧ k = step_key (sp_flowId step) (sp_number step).
Proof.
  intros E. change owners with ((owners, errors).1). rewrite <- E. clear E.
  apply (fold_inv _ (λ pre (s : list (jsstr * jsstr) * list jsstr), k ∈ s.1.*1 →
    ∃ step, step ∈ pre ∧ k = step_key (sp_flowId step) (sp_number step))); [set_solver|].
  intros pre step [os es] IH. unfold own. cbn [fst] in *. intros Hk.
  assert (k = step_key (sp_flowId step) (sp_number step) ∨ k ∈ os.*1) as [->|Hk'].
  { revert Hk. destruct (prop_get _ flows); [|by right]. destruct (truthy _); cbn [fst]; [by right|].
    rewrite prop_set_keys. tauto. }
  - exists step. set_solver.
  - destruct (IH Hk') as (x & Hx & ->). exists x. set_solver.
Qed.

Lemma total_length flows flow :
  flow ∈ flows.*2 → Z.of_nat (length (fl_steps flow)) <= markdownStepTotal flows.
Proof.
  unfold markdownStepTotal. assert (H : ∀ (l : list Flow) n, 0 <= n →
    n <= fold_left (λ total flow, total + Z.of_nat (length (fl_steps flow))) l n ∧
    (flow ∈ l → Z.of_nat (length (fl_steps flow)) <= fold_left (λ total flow, total + Z.of_nat (length (fl_steps flow))) l n)).
  { induction l as [|f l IH]; intros n Hn; cbn; [split; [lia|set_solver]|].
    destruct (IH (n + Z.of_nat (length (fl_steps f)))) as [H1 H2]; [lia|]. split; [lia|].
    rewrite elem_of_cons. intros [->|Hin]; [lia|by apply H2]. }
  intros Hin. by apply (H _ 0).
Qed.

(** The steps of the flows, as the texts of their keys have them. *)
Definition flow_steps (flow : Flow) : list (jsstr * jsstr) :=
  (λ k, (fl_id flow, show_int (Z.of_nat k + 1))) <$> seq 0 (length (fl_steps flow)).

Definition spec_step (step : SpecStep) : jsstr * jsstr := (sp_flowId step, num_text (sp_number step)).

Lemma flow_steps_length (flows : list Flow) n :
  n + Z.of_nat (length (flows ≫= flow_steps)) =
  fold_left (λ total flow, total + Z.of_nat (length (fl_steps flow))) flows n.
Proof.
  revert n. induction flows as [|f flows IH]; intros n; cbn; [lia|]. rewrite <- IH, length_app. unfold flow_steps at 1.
  rewrite length_fmap, length_seq. lia.
Qed.

Lemma flow_steps_nodup (flows : list Flow) : NoDup (fl_id <$> flows) → NoDup (flows ≫= flow_steps).
Proof.
  induction flows as [|f flows IH]; cbn; [constructor|]. intros [Hf Hn]%NoDup_cons. apply NoDup_app. split_and!.
  - apply NoDup_fmap_2; [|apply NoDup_ListNoDup, seq_NoDup]. intros i j [= E%show_int_inj]. lia.
  - intros p Hp Hin. apply Hf. apply list_elem_of_fmap in Hp as (k & -> & _).
    apply list_elem_of_bind in Hin as (g & Hg & Hin). apply list_elem_of_fmap in Hg as (j & [= E _] & _).
    apply list_elem_of_fmap. by exists g.
  - by apply IH.
Qed.

(** A row of the README that is in order. *)
Definition row_ok (flows : flow_map) (specSteps : list SpecStep) (row : ReadmeRow) : Prop :=
  ∃ flow source, (rr_flowId row, flow) ∈ flows ∧
    num_eqb (rr_firstStep row) (num_of_Z 1) = true ∧
    num_eqb (rr_lastStep row) (size_num (fl_steps flow)) = true ∧
    readFileSync root (join_path (SPECS_DIR ROOT) (rr_spec row)) = Some source ∧
    (group 1 <$> matchAll TAG_RE source) = [rr_tier row] ∧
    ∀ step, step ∈ specSteps → sp_flowId step = rr_flowId row → basename (sp_path step) = rr_spec row.

Lemma mapped_one specSteps row step :
  mapping_errors ROOT specSteps row = [] → step ∈ specSteps → sp_flowId step = rr_flowId row →
  basename (sp_path step) = rr_spec row.
Proof.
  unfold mapping_errors. intros [Hl Hs]%report_nil%orb_false_iff Hin Eid.
  apply negb_false_iff, Nat.eqb_eq in Hl. apply negb_false_iff, existsb_exists in Hs as (x & Hx & <-%str_eqb_eq).
  apply list_elem_of_In in Hx.
  assert (Hb : basename (sp_path step) ∈ mapped_specs specSteps (rr_flowId row)).
  { apply set_of_elem, list_elem_of_fmap. exists step. split; [done|].
    apply list_elem_of_In, filter_In. split; [by apply list_elem_of_In|by apply str_eqb_eq]. }
  destruct (mapped_specs _ _) as [|y [|z l]]; [done| |done]. apply list_elem_of_singleton in Hx, Hb. congruence.
Qed.

Lemma check_row_ok flows specSteps m es row m' es' :
  check_row root ROOT flows specSteps (m, es) row = Some (m', es') → es' = [] →
  es = [] ∧ (rr_flowId row ∉ m.*1) ∧ m' = prop_set (rr_flowId row) row m ∧ row_ok flows specSteps row.
Proof.
  unfold check_row. destruct (prop_get _ flows) as [flow|] eqn:Ef.
  2: { intros [= <- <-] H. by apply app_nil in H as [_ ?]. }
  destruct (spec_errors root ROOT row) as [tier|] eqn:Et; [|done]. cbn [mbind option_bind].
  intros [= <- <-] [[-> Hh]%app_nil [[Hr _]%app_nil [-> Hm]%app_nil]%app_nil]%app_nil.
  apply report_nil in Hh, Hr. split_and!; [done|by rewrite <- has_elem, Hh|done|].
  apply orb_false_iff in Hr as [H1%negb_false_iff H2%negb_false_iff].
  unfold spec_errors in Et. destruct (negb (existsSync _ _)); [done|].
  destruct (readFileSync root _) as [source|] eqn:Es; [|done]. cbn [mbind option_bind] in Et.
  injection Et as Et. apply report_nil, orb_false_iff in Et as [Hl%negb_false_iff%Nat.eqb_eq Ht%negb_false_iff%str_eqb_eq].
  exists flow, source. split_and!; [by apply prop_get_elem|done|done|done| |by intros; eapply mapped_one].
  destruct (group 1 <$> _) as [|x [|y l]]; [done| |done]. cbn in Ht. by rewrite Ht.
Qed.

Lemma readme_ok flows specSteps rows :
  readme_errors root ROOT flows specSteps rows = Some [] →
  NoDup (rr_flowId <$> rows) ∧ (∀ row, row ∈ rows → row_ok flows specSteps row) ∧
  ∀ flow, flow ∈ flows.*2 → fl_id flow ∈ rr_flowId <$> rows.
Proof.
  unfold readme_errors. destruct (each _ _ _) as [[m es]|] eqn:E; [|done]. cbn [mbind option_bind].
  intros [= [He [Hm _]%app_nil]%app_nil].
  assert (H : NoDup (rr_flowId <$> rows) ∧ (∀ row, row ∈ rows → row_ok flows specSteps row) ∧
              ∀ k, k ∈ m.*1 ↔ k ∈ rr_flowId <$> rows).
  { refine (each_inv _ (λ pre (s : list (jsstr * ReadmeRow) * list jsstr), s.2 = [] →
      NoDup (rr_flowId <$> pre) ∧ (∀ row, row ∈ pre → row_ok flows specSteps row) ∧
      ∀ k, k ∈ s.1.*1 ↔ k ∈ rr_flowId <$> pre) _ _ _ _ _ E He).
    - intros _. split_and!; [constructor|set_solver|done].
    - intros pre row [m0 es0] [m1 es1] IH _ Hc He1. destruct (check_row_ok _ _ _ _ _ _ _ Hc He1) as (-> & Hn & -> & Hr).
      destruct (IH eq_refl) as (Hd & Hok & Hk). cbn [fst] in *. rewrite fmap_app. split_and!.
      + apply NoDup_app. split_and!; [done| |apply NoDup_singleton]. intros k Hin Hs. apply list_elem_of_singleton in Hs as ->.
        by apply Hn, Hk.
      + intros x [Hx|Hx]%elem_of_app; [by apply Hok|]. by apply list_elem_of_singleton in Hx as ->.
      + intros k. rewrite prop_set_keys, Hk, elem_of_app. cbn. rewrite list_elem_of_singleton. tauto. }
  destruct H as (Hd & Hok & Hk). split_and!; [done|done|]. intros flow Hf.
  apply Hk, has_elem. pose proof (proj1 (bind_nil _ _) Hm flow Hf) as Hr. by apply report_nil, negb_false_iff in Hr.
Qed.
End facts.

(** *** The parts together *)

Lemma ids_keys flows : flows_ok flows → (fl_id <$> flows.*2) = flows.*1.
Proof.
  intros [_ H]. rewrite <- list_fmap_compose. apply list_fmap_ext. intros i [k f] Hi. cbn.
  by apply (H k f), (list_elem_of_lookup_2 _ i).
Qed.

(** The steps of a map of flows whose total is small, as integers. *)
Lemma steps_int flows flow i x :
  flows_ok flows → markdownStepTotal flows = EXPECTED_STEPS → flow ∈ flows.*2 → fl_steps flow !! i = Some x →
  num_int x = Some (Z.of_nat i + 1) ∧ num_text x = show_int (Z.of_nat i + 1).
Proof.
  intros [_ H] Ht Hin Hx. pose proof (total_length _ _ Hin) as Hl. rewrite Ht in Hl. unfold EXPECTED_STEPS in Hl.
  pose proof (lookup_lt_Some _ _ _ Hx) as Hi. apply list_elem_of_fmap in Hin as ([k f] & -> & Hin).
  destruct (H _ _ Hin) as (_ & _ & Hn). assert (Hb : Z.abs (Z.of_nat i + 1) <= MAX_SAFE_INTEGER)
    by (cbn [snd] in *; unfold MAX_SAFE_INTEGER; lia).
  assert (Hz : num_int x = Some (Z.of_nat i + 1)) by (apply num_eqb_int; [done|by apply Hn]).
  split; [done|by apply num_text_int].
Qed.

Lemma specs_own_steps flows specSteps :
  flows_ok flows → markdownStepTotal flows = EXPECTED_STEPS → spec_step_errors flows specSteps = [] →
  (spec_step <$> specSteps) ≡ₚ (flows.*2 ≫= flow_steps).
Proof.
  intros Hok Ht. unfold spec_step_errors. destruct (fold_left _ _ _) as [owners errors] eqn:Eo.
  intros [_ [Hm Hc]%app_nil]%app_nil. apply report_nil, negb_false_iff, Z.eqb_eq in Hc. symmetry.
  apply submseteq_length_Permutation.
  - apply NoDup_submseteq; [apply flow_steps_nodup; rewrite ids_keys by done; apply Hok|].
    intros p (flow & Hp & Hin)%list_elem_of_bind. apply list_elem_of_fmap in Hp as (k & -> & Hk).
    apply elem_of_seq in Hk as [_ Hk]. destruct (lookup_lt_is_Some_2 (fl_steps flow) k Hk) as [x Hx].
    pose proof (proj1 (bind_nil _ _) Hm flow Hin) as Hr. cbv beta in Hr.
    pose proof (proj1 (bind_nil _ _) Hr x (list_elem_of_lookup_2 _ _ _ Hx)) as Hh. cbv beta zeta in Hh.
    apply report_nil, negb_false_iff, has_elem in Hh.
    destruct (own_keys _ _ _ _ _ Eo Hh) as (step & Hstep & Ekey).
    apply key_inj in Ekey as [Eid Etext]; [|apply num_text_no_hash..].
    destruct (steps_int _ _ _ _ Hok Ht Hin Hx) as [_ Et].
    apply list_elem_of_fmap. exists step. split; [|done]. unfold spec_step. by rewrite <- Eid, <- Etext, Et.
  - rewrite length_fmap. pose proof (flow_steps_length flows.*2 0) as Hl.
    change (fold_left _ _ 0) with (markdownStepTotal flows) in Hl. lia.
Qed.

Lemma consistent_parts root ROOT flows specSteps rows :
  flows_ok flows → flow_errors flows = [] → spec_step_errors flows specSteps = [] →
  readme_errors root ROOT flows specSteps rows = Some [] →
  length flows.*2 = 20%nat ∧ NoDup (fl_id <$> flows.*2) ∧
  (∀ flow, flow ∈ flows.*2 → fl_steps flow ≠ [] ∧
     ∀ i x, fl_steps flow !! i = Some x → num_int x = Some (Z.of_nat i + 1)) ∧
  (spec_step <$> specSteps) ≡ₚ (flows.*2 ≫= flow_steps) ∧
  (rr_flowId <$> rows) ≡ₚ (fl_id <$> flows.*2) ∧
  ∀ row, row ∈ rows → ∃ flow source,
    flow ∈ flows.*2 ∧ fl_id flow = rr_flowId row ∧
    num_int (rr_firstStep row) = Some 1 ∧ num_int (rr_lastStep row) = Some (Z.of_nat (length (fl_steps flow))) ∧
    readFileSync root (join_path (SPECS_DIR ROOT) (rr_spec row)) = Some source ∧
    (group 1 <$> matchAll TAG_RE source) = [rr_tier row] ∧
    ∀ step, step ∈ specSteps → sp_flowId step = rr_flowId row → basename (sp_path step) = rr_spec row.
Proof.
  intros Hok [Hn Ht]%app_nil Hs Hr. apply report_nil, negb_false_iff, Z.eqb_eq in Hn, Ht.
  apply readme_ok in Hr as (Hd & Hrow & Hall). pose proof (ids_keys _ Hok) as Hids. split_and!.
  - rewrite length_fmap. unfold EXPECTED_FLOWS in Hn. lia.
  - rewrite Hids. apply Hok.
  - intros flow Hin. split; [|intros i x Hx; by apply (steps_int flows flow)].
    apply list_elem_of_fmap in Hin as ([k f] & -> & Hin). by apply (proj2 Hok k f).
  - by apply specs_own_steps.
  - apply NoDup_Permutation; [done|rewrite Hids; apply Hok|]. intros id. split.
    + intros (row & -> & Hin)%list_elem_of_fmap. destruct (Hrow row Hin) as (flow & _ & Hf & _).
      rewrite Hids. apply list_elem_of_fmap. by exists (rr_flowId row, flow).
    + intros (flow & -> & Hin)%list_elem_of_fmap. by apply Hall.
  - intros row Hin. destruct (Hrow row Hin) as (flow & source & Hf & H1 & H2 & Hsrc & Htag & Hmap).
    assert (Hflow : flow ∈ flows.*2) by (apply list_elem_of_fmap; by exists (rr_flowId row, flow)).
    exists flow, source. split_and!; try done.
    + by apply (proj2 Hok _ _ Hf).
    + apply num_eqb_int; [|done]. unfold MAX_SAFE_INTEGER. lia.
    + apply num_eqb_int; [|done]. pose proof (total_length _ _ Hflow). rewrite Ht in *. unfold EXPECTED_STEPS, MAX_SAFE_INTEGER in *. lia.
Qed.

(** ** Property *)

(** C35. A catalogue without errors is consistent: twenty confirmed flows with distinct ids, their steps
    numbered from one; each of their steps run by exactly one call of the specs, and no other step
    run; each flow with exactly one row in the README, whose range is that of the flow, whose spec
    is the file that runs the flow's steps and whose tier is that file's only tag. *)
Theorem catalog_consistent root ROOT c :
  check_catalog root ROOT = Some (c, []) →
  let flows := (ct_flows c).*2 in
  length flows = 20%nat ∧ NoDup (fl_id <$> flows) ∧
  (∀ flow, flow ∈ flows → fl_steps flow ≠ [] ∧
     ∀ i x, fl_steps flow !! i = Some x → num_int x = Some (Z.of_nat i + 1)) ∧
  (spec_step <$> ct_specSteps c) ≡ₚ (flows ≫= flow_steps) ∧
  (rr_flowId <$> ct_readmeRows c) ≡ₚ (fl_id <$> flows) ∧
  ∀ row, row ∈ ct_readmeRows c → ∃ flow source,
    flow ∈ flows ∧ fl_id flow = rr_flowId row ∧
    num_int (rr_firstStep row) = Some 1 ∧ num_int (rr_lastStep row) = Some (Z.of_nat (length (fl_steps flow))) ∧
    readFileSync root (join_path (SPECS_DIR ROOT) (rr_spec row)) = Some source ∧
    (group 1 <$> matchAll TAG_RE source) = [rr_tier row] ∧
    ∀ step, step ∈ ct_specSteps c → sp_flowId step = rr_flowId row → basename (sp_path step) = rr_spec row.
Proof.
  unfold check_catalog.
  destruct (readFlows root ROOT) as [[fs e1]|] eqn:E1; [|done].
  destruct (readSpecSteps root ROOT) as [[ss e2]|] eqn:E2; [|done].
  destruct (readReadme root ROOT) as [[rows e3]|] eqn:E3; [|done]. cbn [mbind option_bind].
  set (c' := {| ct_allFlows := fs; ct_specSteps := ss; ct_readmeRows := rows |}).
  destruct (readme_errors _ _ _ _ _) as [e4|] eqn:E4; [|done].
  destruct (runner_errors _ _) as [e5|] eqn:E5; [|done]. cbn [mbind option_bind]. intros E. injection E as <- E.
  apply app_nil in E as [-> [Hf [_ [Hs [_ [-> _]%app_nil]%app_nil]%app_nil]%app_nil]%app_nil].
  pose proof (confirmed_ok _ (readFlows_ok _ _ _ E1)) as Hok. change (List.filter _ fs) with (ct_flows c') in Hok.
  exact (consistent_parts root ROOT (ct_flows c') ss rows Hok Hf Hs E4).
Qed.

(** ** Witness *)

(** A repository with twenty flows, of seven steps but for the first, of fourteen. *)
Definition demo_flow_id (i : nat) : jsstr := "flow-" ++ show_int (Z.of_nat i).
Definition demo_size (i : nat) : nat := match i with O => 14 | _ => 7 end.
Definition demo_line (l : jsstr) : jsstr := l ++ [10].

Definition demo_flow (i : nat) : jsstr :=
  demo_line ("id: " ++ demo_flow_id i) ++ demo_line "status: confirmed"
  ++ concat ((λ k, demo_line (show_int (Z.of_nat k + 1) ++ ". (`x`) click")) <$> seq 0 (demo_size i)).

Definition demo_spec (i : nat) : jsstr :=
  demo_line ("test({ tag: '@full' });")
  ++ concat ((λ k, demo_line ("await flowStep('" ++ demo_flow_id i ++ "', " ++ show_int (Z.of_nat k + 1) ++ ", 'x', f);"))
               <$> seq 0 (demo_size i)).

Definition demo_row (i : nat) : jsstr :=
  demo_line ("| `" ++ demo_flow_id i ++ "` | `" ++ demo_flow_id i ++ ".e2e.test.ts` | `[" ++ demo_flow_id i
             ++ "#N] título` | `full` | 1–" ++ show_int (Z.of_nat (demo_size i)) ++ " |").

Definition demo_repository : node :=
  Dir [("r", Dir [
    ("e2e", Dir [("flows", Dir ((λ i, (demo_flow_id i ++ ".md", File (demo_flow i))) <$> seq 0 20));
                 ("README.md", File (concat (demo_row <$> seq 0 20)))]);
    ("web", Dir [("e2e", Dir ((λ i, (demo_flow_id i ++ ".e2e.test.ts", File (demo_spec i))) <$> seq 0 20));
                 ("playwright.config.ts", File "trace: 'off'")]);
    ("scripts", Dir [("e2e.sh", File CLEANUP)])])].

Lemma catalog_consistent_witness :
  ∃ c, check_catalog demo_repository "/r" = Some (c, []) ∧ length (ct_flows c).*2 = 20%nat ∧
       (spec_step <$> ct_specSteps c) ≡ₚ ((ct_flows c).*2 ≫= flow_steps).
Proof.
  assert (Ee : snd <$> check_catalog demo_repository "/r" = Some []) by by vm_compute.
  destruct (check_catalog demo_repository "/r") as [[c errors]|] eqn:E; [|discriminate Ee]. injection Ee as ->.
  destruct (catalog_consistent demo_repository "/r" c E) as (Hn & _ & _ & Hp & _).
  exists c. by split_and!.
Defined.

(** A step that no spec runs is reported. *)
Example catalog_missing_step :
  check_e2e_catalog (Dir [("r", Dir [("e2e", Dir [("flows", Dir [])]); ("web", Dir [("e2e", Dir [])])])]) "/r" = None ∧
  missing_steps [("a", {| fl_id := "a"; fl_path := []; fl_steps := [num_of_Z 1]; fl_status := confirmed |})] [] =
  ["Specs: passo ausente a#1"].
Proof. vm_compute. done. Qed.
