(* ===== verification/Store.v ===== *)
(** * The store of the design prototype

    [src/planning/tenancit/proto/routes/store.js] with the data it starts from, [_data.js]: the state the
    prototype's pages share, what they do to it, and its copy in the local storage.  The state is
    whatever the storage held, so the operations are written on values of the language ([jv]) and may
    throw; [apply] is what they do on the records they are meant for, and [store_refines] that they do. *)
From Stdlib Require Import ZArith Lia List.
From stdpp Require Import base list sets gmap.
From S2P Require Import Regex Numbers Dates Json JsonRead Prelude.
#[local] Open Scope Z_scope.

Definition KEY : jsstr := "rt-proto-state-v2".

(** ** The records of the data *)

Record PDomain := { pdm_id : jsstr; pdm_hostname : jsstr }.

Record PResource := {
  pr_id : jsstr;
  pr_definitionKey : jsstr;
  pr_definitionName : jsstr;
  pr_status : jsstr;
  pr_values : list (jsstr * option jsstr);   (* by the key of the field; [null] is [None] *)
}.

Record PTenant := {
  pt_id : jsstr;
  pt_slug : jsstr;
  pt_name : jsstr;
  pt_status : jsstr;
  pt_domains : list PDomain;
  pt_resources : list PResource;
}.

Record PField := {
  pf_id : jsstr;
  pf_key : jsstr;
  pf_label : jsstr;
  pf_data_type : jsstr;
  pf_required : bool;
  pf_is_secret : bool;
}.

(** The data writes the icon before the description, the store after it. *)
Record PDefinition := {
  pd_id : jsstr;
  pd_key : jsstr;
  pd_name : jsstr;
  pd_status : jsstr;
  pd_icon_first : bool;
  pd_description : jsstr;
  pd_icon : jsstr;
  pd_fields : list PField;
}.

Record PClient := { pc_id : jsstr; pc_name : jsstr; pc_status : jsstr; pc_key_preview : jsstr; pc_created_at : jsstr }.

Record store := { tenants : list PTenant; definitions : list PDefinition; apiClients : list PClient }.

(** ** The data ([_data.js]) *)

Definition DEFINITIONS : list PDefinition := [
  {| pd_id := "def-postgres"; pd_key := "postgres"; pd_name := "PostgreSQL Connection"; pd_status := "active"; pd_icon_first := true;
     pd_description := "Conexão de banco de dados PostgreSQL dedicada por tenant."; pd_icon := "lucide:database";
     pd_fields := [
      {| pf_id := "f1"; pf_key := "host"; pf_label := "Host"; pf_data_type := "string"; pf_required := true; pf_is_secret := false |};
      {| pf_id := "f2"; pf_key := "port"; pf_label := "Porta"; pf_data_type := "int"; pf_required := true; pf_is_secret := false |};
      {| pf_id := "f3"; pf_key := "database"; pf_label := "Database"; pf_data_type := "string"; pf_required := true; pf_is_secret := false |};
      {| pf_id := "f4"; pf_key := "username"; pf_label := "Usuário"; pf_data_type := "string"; pf_required := true; pf_is_secret := false |};
      {| pf_id := "f5"; pf_key := "password"; pf_label := "Senha"; pf_data_type := "string"; pf_required := true; pf_is_secret := true |};
      {| pf_id := "f6"; pf_key := "sslmode"; pf_label := "SSL Mode"; pf_data_type := "string"; pf_required := false; pf_is_secret := false |}] |};
  {| pd_id := "def-minio"; pd_key := "minio"; pd_name := "MinIO / S3 Bucket"; pd_status := "active"; pd_icon_first := true;
     pd_description := "Configuração de object storage (bucket + credenciais) por tenant."; pd_icon := "lucide:hard-drive";
     pd_fields := [
      {| pf_id := "m1"; pf_key := "endpoint"; pf_label := "Endpoint"; pf_data_type := "string"; pf_required := true; pf_is_secret := false |};
      {| pf_id := "m2"; pf_key := "bucket"; pf_label := "Bucket"; pf_data_type := "string"; pf_required := true; pf_is_secret := false |};
      {| pf_id := "m3"; pf_key := "access_key"; pf_label := "Access Key"; pf_data_type := "string"; pf_required := true; pf_is_secret := false |};
      {| pf_id := "m4"; pf_key := "secret_key"; pf_label := "Secret Key"; pf_data_type := "string"; pf_required := true; pf_is_secret := true |}] |};
  {| pd_id := "def-smtp"; pd_key := "smtp"; pd_name := "SMTP"; pd_status := "inactive"; pd_icon_first := true;
     pd_description := "Servidor de e-mail por tenant."; pd_icon := "lucide:mail";
     pd_fields := [
      {| pf_id := "s1"; pf_key := "host"; pf_label := "Host"; pf_data_type := "string"; pf_required := true; pf_is_secret := false |};
      {| pf_id := "s2"; pf_key := "username"; pf_label := "Usuário"; pf_data_type := "string"; pf_required := true; pf_is_secret := false |};
      {| pf_id := "s3"; pf_key := "password"; pf_label := "Senha"; pf_data_type := "string"; pf_required := true; pf_is_secret := true |}] |}
].

Definition TENANTS : list PTenant := [
  {| pt_id := "t-acme"; pt_slug := "acme"; pt_name := "Acme Corp"; pt_status := "active";
     pt_domains := [{| pdm_id := "d1"; pdm_hostname := "app.acme.test" |}; {| pdm_id := "d2"; pdm_hostname := "portal.acme.test" |}];
     pt_resources := [
      {| pr_id := "r1"; pr_definitionKey := "postgres"; pr_definitionName := "PostgreSQL Connection"; pr_status := "active";
         pr_values := [("host", Some "db.acme.example"); ("port", Some "5432"); ("database", Some "acme_prod"); ("username", Some "acme_app"); ("password", None); ("sslmode", Some "require")] |};
      {| pr_id := "r2"; pr_definitionKey := "minio"; pr_definitionName := "MinIO / S3 Bucket"; pr_status := "active";
         pr_values := [("endpoint", Some "https://s3.example.test"); ("bucket", Some "demo-acme-assets"); ("access_key", None); ("secret_key", None)] |}] |};
  {| pt_id := "t-globex"; pt_slug := "globex"; pt_name := "Globex Ltda"; pt_status := "active";
     pt_domains := [{| pdm_id := "d3"; pdm_hostname := "portal.globex.test" |}];
     pt_resources := [
      {| pr_id := "r3"; pr_definitionKey := "postgres"; pr_definitionName := "PostgreSQL Connection"; pr_status := "active";
         pr_values := [("host", Some "db.globex.example"); ("port", Some "5432"); ("database", Some "globex_prod"); ("username", Some "globex_app"); ("password", None); ("sslmode", Some "require")] |}] |};
  {| pt_id := "t-initech"; pt_slug := "initech"; pt_name := "Initech"; pt_status := "inactive";
     pt_domains := [{| pdm_id := "d4"; pdm_hostname := "app.initech.test" |}];
     pt_resources := [] |}
].

Definition API_CLIENTS : list PClient := [
  {| pc_id := "c1"; pc_name := "consumer-api"; pc_status := "active"; pc_key_preview := "rt_demo_••••••8f2a"; pc_created_at := "2026-04-12" |};
  {| pc_id := "c2"; pc_name := "billing-service"; pc_status := "active"; pc_key_preview := "rt_demo_••••••1c90"; pc_created_at := "2026-05-02" |};
  {| pc_id := "c3"; pc_name := "demo-importer"; pc_status := "revoked"; pc_key_preview := "rt_demo_••••••44de"; pc_created_at := "2026-01-20" |}
].

(** ** The values they are *)

Definition domain_json (d : PDomain) : json := JObj [("id", JStr (pdm_id d)); ("hostname", JStr (pdm_hostname d))].

Definition value_json (v : option jsstr) : json := match v with Some s => JStr s | None => JNull end.

Definition values_json (vs : list (jsstr * option jsstr)) : json := JObj ((λ v, (v.1, value_json v.2)) <$> vs).

Definition resource_json (r : PResource) : json :=
  JObj [("id", JStr (pr_id r)); ("definitionKey", JStr (pr_definitionKey r)); ("definitionName", JStr (pr_definitionName r));
        ("status", JStr (pr_status r)); ("values", values_json (pr_values r))].

Definition tenant_json (t : PTenant) : json :=
  JObj [("id", JStr (pt_id t)); ("slug", JStr (pt_slug t)); ("name", JStr (pt_name t)); ("status", JStr (pt_status t));
        ("domains", JArr (domain_json <$> pt_domains t)); ("resources", JArr (resource_json <$> pt_resources t))].

Definition field_json (f : PField) : json :=
  JObj [("id", JStr (pf_id f)); ("key", JStr (pf_key f)); ("label", JStr (pf_label f)); ("data_type", JStr (pf_data_type f));
        ("required", JBool (pf_required f)); ("is_secret", JBool (pf_is_secret f))].

Definition definition_json (d : PDefinition) : json :=
  let description := ("description", JStr (pd_description d)) in
  let icon := ("icon", JStr (pd_icon d)) in
  JObj ([("id", JStr (pd_id d)); ("key", JStr (pd_key d)); ("name", JStr (pd_name d)); ("status", JStr (pd_status d))]
        ++ (if pd_icon_first d then [icon; description] else [description; icon])
        ++ [("fields", JArr (field_json <$> pd_fields d))]).

Definition client_json (c : PClient) : json :=
  JObj [("id", JStr (pc_id c)); ("name", JStr (pc_name c)); ("status", JStr (pc_status c));
        ("key_preview", JStr (pc_key_preview c)); ("created_at", JStr (pc_created_at c))].

Definition store_json (s : store) : json :=
  JObj [("tenants", JArr (tenant_json <$> tenants s)); ("definitions", JArr (definition_json <$> definitions s));
        ("apiClients", JArr (client_json <$> apiClients s))].

(** [seed]: copies of the data. *)
Definition seed : store := {| tenants := TENANTS; definitions := DEFINITIONS; apiClients := API_CLIENTS |}.

Definition seed_value : jv := embed (store_json seed).

(** [load] *)
Definition load (stored : option jsstr) : jv :=
  match stored with
  | Some raw => if truthy raw then default seed_value (JSON_parse raw) else seed_value
  | None => seed_value
  end.

(** ** The operations

    They may throw, and draw identifiers: an operation is a function of the counter, and of the time
    at which the identifier of that number is drawn. *)
Definition M (A : Type) : Type := Z → option A * Z.

#[local] Instance M_ret : MRet M := λ A x c, (Some x, c).
#[local] Instance M_bind : MBind M := λ A B f m c,
  match m c with (Some x, c') => f x c' | (None, c') => (None, c') end.

Definition lift {A} (o : option A) : M A := λ c, (o, c).

(** [Number.prototype.toString(36)] of an integer. *)
Definition digit36 (d : Z) : Z := if d <? 10 then 48 + d else 87 + d.

Fixpoint digits36_aux (fuel : nat) (n : Z) (acc : jsstr) : jsstr :=
  match fuel with
  | O => acc
  | S f => if n <? 36 then digit36 n :: acc else digits36_aux f (n / 36) (digit36 (n mod 36) :: acc)
  end.

Definition base36 (n : Z) : jsstr := digits36_aux (S (Z.to_nat (Z.log2 n))) n [].

Definition uid_text (prefix : jsstr) (time counter : Z) : jsstr :=
  prefix ++ "-" ++ base36 time ++ "-" ++ show_int counter.

(** Reading the property [k] of a value: [None] throws, [Some None] is [undefined]. *)
Definition member (k : jsstr) (v : jv) : option (option jv) :=
  match v with VNull => None | VObj l => Some (prop_get k l) | _ => Some None end.

(** The array a property holds, for [map], [filter] and [find], which anything else does not have. *)
Definition array_at (k : jsstr) (v : jv) : option (list jv) :=
  x ← member k v; match x with Some (VArr l) => Some l | _ => None end.

(** The code points of a string. *)
Fixpoint code_points (s : jsstr) : list jsstr :=
  match s with
  | [] => []
  | c :: s1 =>
    match s1 with
    | d :: s2 => if is_high c && is_low d then [c; d] :: code_points s2 else [c] :: code_points s1
    | [] => [[c]]
    end
  end.

(** The items a property gives to [[...x]]: those of an array or of a string. *)
Definition items_at (k : jsstr) (v : jv) : option (list jv) :=
  x ← member k v;
  match x with Some (VArr l) => Some l | Some (VStr s) => Some (VStr <$> code_points s) | _ => None end.

(** [x.id === id] *)
Definition has_id (id : jsstr) (v : jv) : option bool :=
  x ← member "id" v; Some (match x with Some (VStr s) => str_eqb s id | _ => false end).

(** [{ ...x, [k]: y }] of an object. *)
Definition with_key (k : jsstr) (y v : jv) : jv := match v with VObj l => VObj (prop_set k y l) | _ => v end.

Definition map_all (f : jv → M jv) (l : list jv) : M (list jv) := mapM f l.

(** [x.map(f)] in [{ ...v, [k]: v[k].map(f) }], and so on. *)
Definition map_at (k : jsstr) (f : jv → M jv) (v : jv) : M jv :=
  l ← lift (array_at k v); l' ← map_all f l; mret (with_key k (VArr l') v).

Definition push_at (k : jsstr) (x v : jv) : M jv :=
  l ← lift (items_at k v); mret (with_key k (VArr (l ++ [x])) v).

(** The items for which [has_id] does not hold. *)
Definition drop_id (id : jsstr) (l : list jv) : option (list jv) :=
  l' ← mapM (λ x, b ← has_id id x; Some (b, x)) l; Some (omap (λ p : bool * jv, if p.1 then None else Some p.2) l').

Definition filter_at (k id : jsstr) (v : jv) : M jv :=
  l ← lift (array_at k v); l' ← lift (drop_id id l); mret (with_key k (VArr l') v).

(** [x => x.id === id ? f(x) : x] *)
Definition at_id (id : jsstr) (f : jv → M jv) (x : jv) : M jv := b ← lift (has_id id x); if b : bool then f x else mret x.

(** [{ ...x, status: x.status === a ? b : a }] *)
Definition toggle_status (a b : jsstr) (x : jv) : jv :=
  with_key "status" (VStr (match member "status" x with Some (Some (VStr s)) => if str_eqb s a then b else a | _ => a end)) x.

Inductive op :=
  | AddTenant (name slug hostname : jsstr)
  | UpdateTenant (id : jsstr) (patch : list (jsstr * jsstr))
  | AddDomain (tenantId hostname : jsstr)
  | RemoveDomain (tenantId domainId : jsstr)
  | AddResource (tenantId key name : jsstr) (values : list (jsstr * option jsstr))
  | ToggleResourceStatus (tenantId resourceId : jsstr)
  | RemoveResource (tenantId resourceId : jsstr)
  | AddDefinition (key name description icon : jsstr)
  | ToggleDefinitionStatus (id : jsstr)
  | AddField (defId key label data_type : jsstr) (required is_secret : bool)
  | RemoveField (defId fieldId : jsstr)
  | AddApiClient (name : jsstr) (random1 random2 : jsstr) (time : Z)   (* two [Math.random().toString(36)] *)
  | ToggleApiClient (id : jsstr)
  | ResetState.

Definition WS_RUN : re := RPlus (RChar is_ws).

Section operations.
Context `{CaseMap} (clock : Z → Z).

Definition uid (prefix : jsstr) : M jsstr := λ c, (Some (uid_text prefix (clock c) c), c + 1).

Definition default_slug (name : jsstr) : jsstr := replace_all WS_RUN (λ _ _, "-") (toLowerCase name).

Definition api_token (random1 random2 : jsstr) : jsstr := "rt_live_" ++ take 8 (drop 2 random1) ++ take 8 (drop 2 random2).

Definition key_preview (token : jsstr) : jsstr := "rt_live_••••••" ++ slice_last 4 token.

Definition mutateTenant (id : jsstr) (fn : jv → M jv) (state : jv) : M jv := map_at "tenants" (at_id id fn) state.

(** The next state, and what the operation returns. *)
Definition exec (o : op) (state : jv) : M (jv * option jsstr) :=
  let quiet (m : M jv) : M (jv * option jsstr) := s ← m; mret (s, None) in
  match o with
  | AddTenant name slug hostname =>
    id ← uid "t";
    domains ← (if truthy hostname then d ← uid "d"; mret [embed (domain_json {| pdm_id := d; pdm_hostname := hostname |})]
               else mret []);
    let tenant := VObj [("id", VStr id); ("slug", VStr (str_or slug (default_slug name))); ("name", VStr name);
                        ("status", VStr "active"); ("domains", VArr domains); ("resources", VArr [])] in
    s ← push_at "tenants" tenant state; mret (s, Some id)
  | UpdateTenant id patch =>
    quiet (map_at "tenants" (at_id id (λ t, mret (fold_left (λ t p, with_key p.1 (VStr p.2) t) patch t))) state)
  | AddDomain tenantId hostname =>
    quiet (mutateTenant tenantId (λ t,
      ds ← lift (items_at "domains" t); d ← uid "d";
      mret (with_key "domains" (VArr (ds ++ [embed (domain_json {| pdm_id := d; pdm_hostname := hostname |})])) t)) state)
  | RemoveDomain tenantId domainId => quiet (mutateTenant tenantId (filter_at "domains" domainId) state)
  | AddResource tenantId key name values =>
    quiet (mutateTenant tenantId (λ t,
      rs ← lift (items_at "resources" t); r ← uid "r";
      mret (with_key "resources" (VArr (rs ++ [embed (resource_json {| pr_id := r; pr_definitionKey := key;
        pr_definitionName := name; pr_status := "active"; pr_values := values |})])) t)) state)
  | ToggleResourceStatus tenantId resourceId =>
    quiet (mutateTenant tenantId (map_at "resources" (at_id resourceId (λ r, mret (toggle_status "active" "inactive" r)))) state)
  | RemoveResource tenantId resourceId => quiet (mutateTenant tenantId (filter_at "resources" resourceId) state)
  | AddDefinition key name description icon =>
    id ← uid "def";
    let def := embed (definition_json {| pd_id := id; pd_key := key; pd_name := name; pd_status := "active";
      pd_icon_first := false; pd_description := description; pd_icon := str_or icon "lucide:box"; pd_fields := [] |}) in
    s ← push_at "definitions" def state; mret (s, Some id)
  | ToggleDefinitionStatus id =>
    quiet (map_at "definitions" (at_id id (λ d, mret (toggle_status "active" "inactive" d))) state)
  | AddField defId key label data_type required is_secret =>
    quiet (map_at "definitions" (at_id defId (λ d,
      fs ← lift (items_at "fields" d); f ← uid "f";
      mret (with_key "fields" (VArr (fs ++ [embed (field_json {| pf_id := f; pf_key := key; pf_label := label;
        pf_data_type := data_type; pf_required := required; pf_is_secret := is_secret |})])) d))) state)
  | RemoveField defId fieldId => quiet (map_at "definitions" (at_id defId (filter_at "fields" fieldId)) state)
  | AddApiClient name random1 random2 time =>
    id ← uid "c";
    let token := api_token random1 random2 in
    let client := embed (client_json {| pc_id := id; pc_name := name; pc_status := "active";
      pc_key_preview := key_preview token; pc_created_at := take 10 (toISOString time) |}) in
    s ← push_at "apiClients" client state; mret (s, Some token)
  | ToggleApiClient id =>
    quiet (map_at "apiClients" (at_id id (λ c, mret (toggle_status "active" "revoked" c))) state)
  | ResetState => mret (seed_value, None)
  end.
End operations.

(** The selectors. *)
Definition find_by (k value : jsstr) (l : list jv) : option (option jv) :=
  (fix go l := match l with
               | [] => Some None
               | x :: l' => m ← member k x;
                 if match m with Some (VStr s) => str_eqb s value | _ => false end : bool then Some (Some x) else go l'
               end) l.

Definition findTenant (id : jsstr) (state : jv) : option (option jv) := l ← array_at "tenants" state; find_by "id" id l.
Definition findDefinition (id : jsstr) (state : jv) : option (option jv) := l ← array_at "definitions" state; find_by "id" id l.
Definition findDefinitionByKey (key : jsstr) (state : jv) : option (option jv) :=
  l ← array_at "definitions" state; find_by "key" key l.

(** ** The operations on records *)

Definition alter_by {A} (key : A → jsstr) (id : jsstr) (f : A → A) (l : list A) : list A :=
  (λ x, if str_eqb (key x) id then f x else x) <$> l.

Definition among {A} (key : A → jsstr) (id : jsstr) (l : list A) : bool := existsb (λ x, str_eqb (key x) id) l.

Definition without {A} (key : A → jsstr) (id : jsstr) (l : list A) : list A :=
  List.filter (λ x, negb (str_eqb (key x) id)) l.

Definition toggled (a b s : jsstr) : jsstr := if str_eqb s a then b else a.

Definition set_domains (f : list PDomain → list PDomain) (t : PTenant) : PTenant :=
  {| pt_id := pt_id t; pt_slug := pt_slug t; pt_name := pt_name t; pt_status := pt_status t;
     pt_domains := f (pt_domains t); pt_resources := pt_resources t |}.

Definition set_resources (f : list PResource → list PResource) (t : PTenant) : PTenant :=
  {| pt_id := pt_id t; pt_slug := pt_slug t; pt_name := pt_name t; pt_status := pt_status t;
     pt_domains := pt_domains t; pt_resources := f (pt_resources t) |}.

Definition patched (p : jsstr * jsstr) (t : PTenant) : PTenant :=
  {| pt_id := pt_id t;
     pt_slug := if str_eqb "slug" p.1 then p.2 else pt_slug t;
     pt_name := if str_eqb "name" p.1 then p.2 else pt_name t;
     pt_status := if str_eqb "status" p.1 then p.2 else pt_status t;
     pt_domains := pt_domains t; pt_resources := pt_resources t |}.

Definition toggle_resource (r : PResource) : PResource :=
  {| pr_id := pr_id r; pr_definitionKey := pr_definitionKey r; pr_definitionName := pr_definitionName r;
     pr_status := toggled "active" "inactive" (pr_status r); pr_values := pr_values r |}.

Definition set_definition (status : jsstr) (fields : list PField) (d : PDefinition) : PDefinition :=
  {| pd_id := pd_id d; pd_key := pd_key d; pd_name := pd_name d; pd_status := status; pd_icon_first := pd_icon_first d;
     pd_description := pd_description d; pd_icon := pd_icon d; pd_fields := fields |}.

Definition toggle_definition (d : PDefinition) : PDefinition :=
  set_definition (toggled "active" "inactive" (pd_status d)) (pd_fields d) d.

Definition set_fields (f : list PField → list PField) (d : PDefinition) : PDefinition :=
  set_definition (pd_status d) (f (pd_fields d)) d.

Definition toggle_client (c : PClient) : PClient :=
  {| pc_id := pc_id c; pc_name := pc_name c; pc_status := toggled "active" "revoked" (pc_status c);
     pc_key_preview := pc_key_preview c; pc_created_at := pc_created_at c |}.

Definition on_tenants (f : list PTenant → list PTenant) (s : store) : store :=
  {| tenants := f (tenants s); definitions := definitions s; apiClients := apiClients s |}.
Definition on_definitions (f : list PDefinition → list PDefinition) (s : store) : store :=
  {| tenants := tenants s; definitions := f (definitions s); apiClients := apiClients s |}.
Definition on_clients (f : list PClient → list PClient) (s : store) : store :=
  {| tenants := tenants s; definitions := definitions s; apiClients := f (apiClients s) |}.

Section apply.
Context `{CaseMap} (clock : Z → Z).

Definition id_at (prefix : jsstr) (c : Z) : jsstr := uid_text prefix (clock c) c.

(** What an operation does to the records, what it returns, and how many identifiers it draws. *)
Definition apply (o : op) (c : Z) (s : store) : store * option jsstr * Z :=
  match o with
  | AddTenant name slug hostname =>
    (on_tenants (λ ts, ts ++ [{| pt_id := id_at "t" c; pt_slug := str_or slug (default_slug name); pt_name := name;
       pt_status := "active";
       pt_domains := if truthy hostname then [{| pdm_id := id_at "d" (c + 1); pdm_hostname := hostname |}] else [];
       pt_resources := [] |}]) s, Some (id_at "t" c), if truthy hostname then 2 else 1)
  | UpdateTenant id patch => (on_tenants (alter_by pt_id id (λ t, fold_left (λ t p, patched p t) patch t)) s, None, 0)
  | AddDomain tenantId hostname =>
    (on_tenants (alter_by pt_id tenantId (set_domains (λ ds, ds ++ [{| pdm_id := id_at "d" c; pdm_hostname := hostname |}]))) s,
     None, if among pt_id tenantId (tenants s) then 1 else 0)
  | RemoveDomain tenantId domainId =>
    (on_tenants (alter_by pt_id tenantId (set_domains (without pdm_id domainId))) s, None, 0)
  | AddResource tenantId key name values =>
    (on_tenants (alter_by pt_id tenantId (set_resources (λ rs, rs ++ [{| pr_id := id_at "r" c; pr_definitionKey := key;
       pr_definitionName := name; pr_status := "active"; pr_values := values |}]))) s,
     None, if among pt_id tenantId (tenants s) then 1 else 0)
  | ToggleResourceStatus tenantId resourceId =>
    (on_tenants (alter_by pt_id tenantId (set_resources (alter_by pr_id resourceId toggle_resource))) s, None, 0)
  | RemoveResource tenantId resourceId =>
    (on_tenants (alter_by pt_id tenantId (set_resources (without pr_id resourceId))) s, None, 0)
  | AddDefinition key name description icon =>
    (on_definitions (λ ds, ds ++ [{| pd_id := id_at "def" c; pd_key := key; pd_name := name; pd_status := "active";
       pd_icon_first := false; pd_description := description; pd_icon := str_or icon "lucide:box"; pd_fields := [] |}]) s,
     Some (id_at "def" c), 1)
  | ToggleDefinitionStatus id => (on_definitions (alter_by pd_id id toggle_definition) s, None, 0)
  | AddField defId key label data_type required is_secret =>
    (on_definitions (alter_by pd_id defId (set_fields (λ fs, fs ++ [{| pf_id := id_at "f" c; pf_key := key; pf_label := label;
       pf_data_type := data_type; pf_required := required; pf_is_secret := is_secret |}]))) s,
     None, if among pd_id defId (definitions s) then 1 else 0)
  | RemoveField defId fieldId => (on_definitions (alter_by pd_id defId (set_fields (without pf_id fieldId))) s, None, 0)
  | AddApiClient name random1 random2 time =>
    let token := api_token random1 random2 in
    (on_clients (λ cs, cs ++ [{| pc_id := id_at "c" c; pc_name := name; pc_status := "active";
       pc_key_preview := key_preview token; pc_created_at := take 10 (toISOString time) |}]) s, Some token, 1)
  | ToggleApiClient id => (on_clients (alter_by pc_id id toggle_client) s, None, 0)
  | ResetState => (seed, None, 0)
  end.
End apply.

(** The patches of the page are of these three properties. *)
Definition op_known (o : op) : Prop :=
  match o with UpdateTenant _ patch => Forall (λ p, p.1 ∈ (["name"; "slug"; "status"] : list jsstr)) patch | _ => True end.

(** ** Refinement *)

Lemma embed_arr {A} (f : A → json) l : embed (JArr (f <$> l)) = VArr ((λ x, embed (f x)) <$> l).
Proof. cbn [embed]. f_equal. apply map_map. Qed.

Lemma store_value s : embed (store_json s) =
  VObj [("tenants", VArr ((λ t, embed (tenant_json t)) <$> tenants s));
        ("definitions", VArr ((λ d, embed (definition_json d)) <$> definitions s));
        ("apiClients", VArr ((λ c, embed (client_json c)) <$> apiClients s))].
Proof. unfold store_json. rewrite embed_obj. cbn [map]. unfold embed_member. cbn [fst snd]. by rewrite !embed_arr. Qed.

Lemma tenant_value t : embed (tenant_json t) =
  VObj [("id", VStr (pt_id t)); ("slug", VStr (pt_slug t)); ("name", VStr (pt_name t)); ("status", VStr (pt_status t));
        ("domains", VArr ((λ d, embed (domain_json d)) <$> pt_domains t));
        ("resources", VArr ((λ r, embed (resource_json r)) <$> pt_resources t))].
Proof. unfold tenant_json. rewrite embed_obj. cbn [map]. unfold embed_member. cbn [fst snd]. by rewrite !embed_arr. Qed.

Lemma definition_value d : embed (definition_json d) =
  let description := ("description" : jsstr, VStr (pd_description d)) in
  let icon := ("icon" : jsstr, VStr (pd_icon d)) in
  VObj ([("id", VStr (pd_id d)); ("key", VStr (pd_key d)); ("name", VStr (pd_name d)); ("status", VStr (pd_status d))]
        ++ (if pd_icon_first d then [icon; description] else [description; icon])
        ++ [("fields", VArr ((λ f, embed (field_json f)) <$> pd_fields d))]).
Proof.
  unfold definition_json. rewrite embed_obj. destruct (pd_icon_first d); cbn [app map]; unfold embed_member; cbn [fst snd];
    by rewrite embed_arr.
Qed.

(** The items of a list that are changed where their identifier is [id]. *)
Lemma alter_none {A} (key : A → jsstr) id f l : id ∉ key <$> l → alter_by key id f l = l.
Proof.
  induction l as [|x l IH]; [done|]. rewrite fmap_cons. intros [Hx Hl]%not_elem_of_cons.
  unfold alter_by. rewrite fmap_cons. rewrite (proj2 (str_eqb_neq _ _)) by congruence. f_equal. by apply IH.
Qed.

Lemma among_spec {A} (key : A → jsstr) id l : among key id l = true ↔ id ∈ key <$> l.
Proof.
  unfold among. rewrite existsb_exists. rewrite list_elem_of_fmap. split.
  - intros (x & Hx & E%str_eqb_eq). exists x. split; [done|by apply list_elem_of_In].
  - intros (x & -> & Hx). exists x. split; [by apply list_elem_of_In|apply str_eqb_refl].
Qed.

Lemma mapM_run f x l c :
  map_all f (x :: l) c =
  match f x c with
  | (Some y, c1) => match map_all f l c1 with (Some k, c2) => (Some (y :: k), c2) | (None, c2) => (None, c2) end
  | (None, c1) => (None, c1)
  end.
Proof. done. Qed.

Lemma at_id_run id f x b c : has_id id x = Some b → at_id id f x c = if b then f x c else (Some x, c).
Proof. intros E. unfold at_id, mbind, M_bind, lift. rewrite E. by destruct b. Qed.

Lemma mapM_at_none {A} (emb : A → jv) (key : A → jsstr) id f l c :
  (∀ x, has_id id (emb x) = Some (str_eqb (key x) id)) →
  id ∉ key <$> l → map_all (at_id id f) (emb <$> l) c = (Some (emb <$> l), c).
Proof.
  intros Hid. revert c. induction l as [|x l IH]; intros c Hn; [done|].
  rewrite fmap_cons in Hn. apply not_elem_of_cons in Hn as [Hx Hl].
  rewrite fmap_cons, mapM_run, (at_id_run _ _ _ _ _ (Hid x)), (proj2 (str_eqb_neq _ _)) by congruence. by rewrite IH.
Qed.

Lemma mapM_at_id {A} (emb : A → jv) (key : A → jsstr) id (f : jv → M jv) (g : A → A) (d c : Z) l :
  (∀ x, has_id id (emb x) = Some (str_eqb (key x) id)) →
  (∀ x, x ∈ l → key x = id → f (emb x) c = (Some (emb (g x)), c + d)) →
  NoDup (key <$> l) →
  map_all (at_id id f) (emb <$> l) c =
  (Some (emb <$> alter_by key id g l), c + (if among key id l then d else 0)).
Proof.
  intros Hid. induction l as [|x l IH]; intros Hf; [by rewrite Z.add_0_r|]. rewrite fmap_cons. intros [Hx Hl]%NoDup_cons.
  rewrite fmap_cons, mapM_run, (at_id_run _ _ _ _ _ (Hid x)).
  unfold alter_by. rewrite !fmap_cons. fold (alter_by key id g l). cbn [among existsb]. destruct (str_eqb (key x) id) eqn:E.
  - apply str_eqb_eq in E. rewrite Hf by (done || by left).
    rewrite (mapM_at_none emb key) by congruence. by rewrite alter_none by congruence.
  - rewrite IH; [done| |done]. intros y Hy. apply Hf. by right.
Qed.

Lemma map_at_run k f v l l' c c' :
  array_at k v = Some l → map_all f l c = (Some l', c') → map_at k f v c = (Some (with_key k (VArr l') v), c').
Proof. intros E1 E2. unfold map_at, lift, mbind, M_bind. rewrite E1. by rewrite E2. Qed.

Lemma drop_id_embed {A} (emb : A → jv) (key : A → jsstr) id l :
  (∀ x, has_id id (emb x) = Some (str_eqb (key x) id)) → drop_id id (emb <$> l) = Some (emb <$> without key id l).
Proof.
  intros Hid. unfold drop_id. induction l as [|x l IH]; [done|]. rewrite fmap_cons. cbn [mapM]. rewrite Hid.
  cbn [mbind option_bind]. destruct (mapM _ (emb <$> l)) as [ps|]; [|done]. cbn [mbind option_bind mret option_ret] in *.
  injection IH as IH. unfold without. cbn [List.filter omap list_omap fst snd]. destruct (str_eqb (key x) id); cbn [negb].
  - by rewrite IH.
  - rewrite fmap_cons. by rewrite IH.
Qed.

(** The identifiers an operation finds things by. *)
Record ids_apart (s : store) : Prop := {
  ia_tenants : NoDup (pt_id <$> tenants s);
  ia_definitions : NoDup (pd_id <$> definitions s);
  ia_clients : NoDup (pc_id <$> apiClients s);
  ia_domains t : t ∈ tenants s → NoDup (pdm_id <$> pt_domains t);
  ia_resources t : t ∈ tenants s → NoDup (pr_id <$> pt_resources t);
  ia_fields d : d ∈ definitions s → NoDup (pf_id <$> pd_fields d);
}.

Lemma tenants_run s id fn g d c :
  NoDup (pt_id <$> tenants s) →
  (∀ t, t ∈ tenants s → pt_id t = id → fn (embed (tenant_json t)) c = (Some (embed (tenant_json (g t))), c + d)) →
  map_at "tenants" (at_id id fn) (embed (store_json s)) c =
  (Some (embed (store_json (on_tenants (alter_by pt_id id g) s))), c + (if among pt_id id (tenants s) then d else 0)).
Proof.
  intros Hn Hf. rewrite !store_value. erewrite map_at_run; [|reflexivity|].
  2: apply (mapM_at_id (λ t, embed (tenant_json t)) pt_id id fn g d c); [|exact Hf|exact Hn].
  - reflexivity.
  - intros t. by rewrite tenant_value.
Qed.

Lemma definitions_run s id fn g d c :
  NoDup (pd_id <$> definitions s) →
  (∀ x, x ∈ definitions s → pd_id x = id → fn (embed (definition_json x)) c = (Some (embed (definition_json (g x))), c + d)) →
  map_at "definitions" (at_id id fn) (embed (store_json s)) c =
  (Some (embed (store_json (on_definitions (alter_by pd_id id g) s))), c + (if among pd_id id (definitions s) then d else 0)).
Proof.
  intros Hn Hf. rewrite !store_value. erewrite map_at_run; [|reflexivity|].
  2: apply (mapM_at_id (λ t, embed (definition_json t)) pd_id id fn g d c); [|exact Hf|exact Hn].
  - reflexivity.
  - intros t. rewrite definition_value. by destruct (pd_icon_first t).
Qed.

Lemma with_domains t f :
  with_key "domains" (VArr ((λ d, embed (domain_json d)) <$> f (pt_domains t))) (embed (tenant_json t)) =
  embed (tenant_json (set_domains f t)).
Proof. by rewrite !tenant_value. Qed.

Lemma with_resources t f :
  with_key "resources" (VArr ((λ r, embed (resource_json r)) <$> f (pt_resources t))) (embed (tenant_json t)) =
  embed (tenant_json (set_resources f t)).
Proof. by rewrite !tenant_value. Qed.

Lemma with_fields x g :
  with_key "fields" (VArr ((λ f, embed (field_json f)) <$> g (pd_fields x))) (embed (definition_json x)) =
  embed (definition_json (set_fields g x)).
Proof. rewrite !definition_value. by destruct x as [? ? ? ? []]. Qed.

Lemma with_patch p t :
  p.1 ∈ (["name"; "slug"; "status"] : list jsstr) →
  with_key p.1 (VStr p.2) (embed (tenant_json t)) = embed (tenant_json (patched p t)).
Proof.
  destruct p as [k v]. cbn [fst snd]. rewrite !tenant_value. intros Hk.
  repeat (apply elem_of_cons in Hk as [->|Hk]; [done|]). by apply elem_of_nil in Hk.
Qed.

Lemma toggle_resource_value r : toggle_status "active" "inactive" (embed (resource_json r)) = embed (resource_json (toggle_resource r)).
Proof. done. Qed.

Lemma toggle_definition_value x :
  toggle_status "active" "inactive" (embed (definition_json x)) = embed (definition_json (toggle_definition x)).
Proof. rewrite !definition_value. by destruct x as [? ? ? ? []]. Qed.

Lemma toggle_client_value x : toggle_status "active" "revoked" (embed (client_json x)) = embed (client_json (toggle_client x)).
Proof. done. Qed.

Lemma snoc_fmap {A B} (f : A → B) l x : (f <$> l) ++ [f x] = f <$> (l ++ [x]).
Proof. by rewrite fmap_app. Qed.

Lemma push_tenants s t c :
  push_at "tenants" (embed (tenant_json t)) (embed (store_json s)) c =
  (Some (embed (store_json (on_tenants (λ ts, ts ++ [t]) s))), c).
Proof. rewrite !store_value. cbn [on_tenants tenants definitions apiClients]. by rewrite fmap_app. Qed.

Lemma push_definitions s x c :
  push_at "definitions" (embed (definition_json x)) (embed (store_json s)) c =
  (Some (embed (store_json (on_definitions (λ xs, xs ++ [x]) s))), c).
Proof. rewrite !store_value. cbn [on_definitions tenants definitions apiClients]. by rewrite fmap_app. Qed.

Lemma push_clients s x c :
  push_at "apiClients" (embed (client_json x)) (embed (store_json s)) c =
  (Some (embed (store_json (on_clients (λ xs, xs ++ [x]) s))), c).
Proof. rewrite !store_value. cbn [on_clients tenants definitions apiClients]. by rewrite fmap_app. Qed.

Lemma quiet_run (m : M jv) (k : jv → M (jv * option jsstr)) c x c' : m c = (Some x, c') → (mbind k m : M _) c = k x c'.
Proof. intros E. unfold mbind, M_bind. by rewrite E. Qed.

Lemma items_domains t : items_at "domains" (embed (tenant_json t)) = Some ((λ d, embed (domain_json d)) <$> pt_domains t).
Proof. by rewrite tenant_value. Qed.
Lemma items_resources t : items_at "resources" (embed (tenant_json t)) = Some ((λ r, embed (resource_json r)) <$> pt_resources t).
Proof. by rewrite tenant_value. Qed.
Lemma items_fields x : items_at "fields" (embed (definition_json x)) = Some ((λ f, embed (field_json f)) <$> pd_fields x).
Proof. rewrite definition_value. by destruct (pd_icon_first x). Qed.
Lemma array_domains t : array_at "domains" (embed (tenant_json t)) = Some ((λ d, embed (domain_json d)) <$> pt_domains t).
Proof. by rewrite tenant_value. Qed.
Lemma array_resources t : array_at "resources" (embed (tenant_json t)) = Some ((λ r, embed (resource_json r)) <$> pt_resources t).
Proof. by rewrite tenant_value. Qed.
Lemma array_fields x : array_at "fields" (embed (definition_json x)) = Some ((λ f, embed (field_json f)) <$> pd_fields x).
Proof. rewrite definition_value. by destruct (pd_icon_first x). Qed.

Lemma filter_at_run {A} (emb : A → jv) (key : A → jsstr) k id v l c :
  (∀ x, has_id id (emb x) = Some (str_eqb (key x) id)) → array_at k v = Some (emb <$> l) →
  filter_at k id v c = (Some (with_key k (VArr (emb <$> without key id l)) v), c).
Proof.
  intros Hid E. unfold filter_at, lift, mbind, M_bind. rewrite E. by rewrite (drop_id_embed emb key).
Qed.

Lemma zero_draws (b : bool) c : c + (if b then 0 else 0) = c + 0.
Proof. by destruct b. Qed.

(** A handler of one tenant, as it is given to [mutateTenant]. *)
Lemma append_domain `{CaseMap} clock t host c :
  (λ v, ds ← lift (items_at "domains" v); d ← uid clock "d";
        mret (with_key "domains" (VArr (ds ++ [embed (domain_json {| pdm_id := d; pdm_hostname := host |})])) v) : M jv)
    (embed (tenant_json t)) c =
  (Some (embed (tenant_json (set_domains (λ ds, ds ++ [{| pdm_id := id_at clock "d" c; pdm_hostname := host |}]) t))), c + 1).
Proof.
  unfold lift, uid, mbind, M_bind, mret, M_ret. rewrite items_domains, <- with_domains, fmap_app. done.
Qed.

Lemma append_resource `{CaseMap} clock t key name vs c :
  (λ v, rs ← lift (items_at "resources" v); r ← uid clock "r";
        mret (with_key "resources" (VArr (rs ++ [embed (resource_json {| pr_id := r; pr_definitionKey := key;
          pr_definitionName := name; pr_status := "active"; pr_values := vs |})])) v) : M jv)
    (embed (tenant_json t)) c =
  (Some (embed (tenant_json (set_resources (λ rs, rs ++ [{| pr_id := id_at clock "r" c; pr_definitionKey := key;
     pr_definitionName := name; pr_status := "active"; pr_values := vs |}]) t))), c + 1).
Proof.
  unfold lift, uid, mbind, M_bind, mret, M_ret. rewrite items_resources, <- with_resources, fmap_app. done.
Qed.

Lemma append_field `{CaseMap} clock x key label ty rq sc c :
  (λ v, fs ← lift (items_at "fields" v); f ← uid clock "f";
        mret (with_key "fields" (VArr (fs ++ [embed (field_json {| pf_id := f; pf_key := key; pf_label := label;
          pf_data_type := ty; pf_required := rq; pf_is_secret := sc |})])) v) : M jv)
    (embed (definition_json x)) c =
  (Some (embed (definition_json (set_fields (λ fs, fs ++ [{| pf_id := id_at clock "f" c; pf_key := key; pf_label := label;
     pf_data_type := ty; pf_required := rq; pf_is_secret := sc |}]) x))), c + 1).
Proof.
  unfold lift, uid, mbind, M_bind, mret, M_ret. rewrite items_fields, <- with_fields, fmap_app. done.
Qed.

(** An operation on the value of the records: no exception, and the records' own next state. *)
Lemma exec_apply `{CaseMap} clock o s c :
  ids_apart s → op_known o →
  exec clock o (embed (store_json s)) c =
  (Some (embed (store_json (apply clock o c s).1.1), (apply clock o c s).1.2), c + (apply clock o c s).2).
Proof.
  intros Hs Ho. pose proof (ia_tenants _ Hs) as Ht. pose proof (ia_definitions _ Hs) as Hd.
  destruct o as [name slug host|id patch|tid host|tid did|tid key name vs|tid rid|tid rid|key name ds ic
    |id|did key label ty rq sc|did fid|name r1 r2 tm|id|]; unfold exec, mutateTenant; cbn [apply fst snd].
  - unfold mbind, M_bind. unfold uid at 1. destruct (truthy host).
    + unfold uid, mret, M_ret. cbn [fst snd].
      match goal with |- context [push_at "tenants" ?x _ ?c'] =>
        change x with (embed (tenant_json {| pt_id := id_at clock "t" c; pt_slug := str_or slug (default_slug name);
          pt_name := name; pt_status := "active"; pt_domains := [{| pdm_id := id_at clock "d" (c + 1); pdm_hostname := host |}];
          pt_resources := [] |})) end.
      rewrite push_tenants. replace (c + 1 + 1) with (c + 2) by lia. done.
    + unfold mret, M_ret.
      match goal with |- context [push_at "tenants" ?x _ ?c'] =>
        change x with (embed (tenant_json {| pt_id := id_at clock "t" c; pt_slug := str_or slug (default_slug name);
          pt_name := name; pt_status := "active"; pt_domains := []; pt_resources := [] |})) end.
      by rewrite push_tenants.
  - erewrite quiet_run; [|apply (tenants_run s id _ (λ t, fold_left (λ t p, patched p t) patch t) 0 c Ht)].
    + by rewrite zero_draws.
    + intros t _ _. rewrite Z.add_0_r. unfold mret, M_ret. do 2 f_equal. cbn [op_known] in Ho.
      revert t. induction Ho as [|p ps Hp Hps IH]; intros t; [done|]. cbn [fold_left]. rewrite with_patch by done. apply IH.
  - erewrite quiet_run; [|apply (tenants_run s tid _
      (set_domains (λ ds, ds ++ [{| pdm_id := id_at clock "d" c; pdm_hostname := host |}])) 1 c Ht);
      intros t _ _; apply append_domain]. done.
  - erewrite quiet_run; [|apply (tenants_run s tid _ (set_domains (without pdm_id did)) 0 c Ht)]; [by rewrite zero_draws|].
    intros t _ _. rewrite Z.add_0_r, <- with_domains. by apply filter_at_run, array_domains.
  - erewrite quiet_run; [|apply (tenants_run s tid _
      (set_resources (λ rs, rs ++ [{| pr_id := id_at clock "r" c; pr_definitionKey := key; pr_definitionName := name;
         pr_status := "active"; pr_values := vs |}])) 1 c Ht); intros t _ _; apply append_resource]. done.
  - erewrite quiet_run; [|apply (tenants_run s tid _ (set_resources (alter_by pr_id rid toggle_resource)) 0 c Ht)];
      [by rewrite zero_draws|].
    intros t Hin _. rewrite Z.add_0_r, <- with_resources. apply (map_at_run _ _ _ _ _ _ _ (array_resources t)).
    rewrite (mapM_at_id (λ r, embed (resource_json r)) pr_id rid _ toggle_resource 0); [by rewrite zero_draws, Z.add_0_r|done| |].
    + intros r _ _. by rewrite Z.add_0_r.
    + by apply Hs.
  - erewrite quiet_run; [|apply (tenants_run s tid _ (set_resources (without pr_id rid)) 0 c Ht)]; [by rewrite zero_draws|].
    intros t _ _. rewrite Z.add_0_r, <- with_resources. by apply filter_at_run, array_resources.
  - unfold mbind, M_bind, uid. by rewrite push_definitions.
  - erewrite quiet_run; [|apply (definitions_run s id _ toggle_definition 0 c Hd)]; [by rewrite zero_draws|].
    intros x _ _. by rewrite Z.add_0_r, <- toggle_definition_value.
  - erewrite quiet_run; [|apply (definitions_run s did _
      (set_fields (λ fs, fs ++ [{| pf_id := id_at clock "f" c; pf_key := key; pf_label := label; pf_data_type := ty;
         pf_required := rq; pf_is_secret := sc |}])) 1 c Hd); intros x _ _; apply append_field]. done.
  - erewrite quiet_run; [|apply (definitions_run s did _ (set_fields (without pf_id fid)) 0 c Hd)]; [by rewrite zero_draws|].
    intros x _ _. rewrite Z.add_0_r, <- with_fields. by apply filter_at_run, array_fields.
  - unfold mbind, M_bind, uid. by rewrite push_clients.
  - erewrite quiet_run; [|apply (map_at_run _ _ _ ((λ x, embed (client_json x)) <$> apiClients s));
      [by rewrite store_value|apply (mapM_at_id (λ x, embed (client_json x)) pc_id id _ toggle_client 0 c)]].
    + rewrite zero_draws, !store_value. done.
    + done.
    + intros x _ _. by rewrite Z.add_0_r, <- toggle_client_value.
    + apply Hs.
  - by rewrite Z.add_0_r.
Qed.

(** ** Identifiers *)

Definition tenant_ids (t : PTenant) : list jsstr := pt_id t :: (pdm_id <$> pt_domains t) ++ (pr_id <$> pt_resources t).
Definition definition_ids (d : PDefinition) : list jsstr := pd_id d :: (pf_id <$> pd_fields d).

Definition store_ids (s : store) : list jsstr :=
  (tenants s ≫= tenant_ids) ++ (definitions s ≫= definition_ids) ++ (pc_id <$> apiClients s).

(** A digit of base 36 is not a hyphen, and the digits determine the number. *)
Definition value36 (c : Z) : Z := if c <? 58 then c - 48 else c - 87.

Lemma value36_digit d : 0 <= d < 36 → value36 (digit36 d) = d ∧ digit36 d ≠ 45.
Proof. intros Hd. unfold value36, digit36. repeat case_cond; bool_to_prop; lia. Qed.

Lemma digits36_aux_spec fuel n acc :
  0 <= n < 36 ^ Z.of_nat fuel →
  ∃ ds, digits36_aux fuel n acc = ds ++ acc ∧ fold_left (λ a c, a * 36 + value36 c) ds 0 = n ∧ 45 ∉ ds.
Proof.
  revert n acc. induction fuel as [|f IH]; intros n acc Hn; [change (36 ^ Z.of_nat 0) with 1 in Hn; exists []; cbn; split_and!; [done|lia|set_solver]|].
  rewrite Nat2Z.inj_succ, Z.pow_succ_r in Hn by lia. cbn [digits36_aux]. case_cond; bool_to_prop.
  - destruct (value36_digit n ltac:(lia)) as [E E']. exists [digit36 n]. cbn [app fold_left]. split_and!; [done|lia|set_solver].
  - pose proof (Z.mod_pos_bound n 36 ltac:(lia)). destruct (value36_digit (n mod 36) ltac:(lia)) as [E E'].
    destruct (IH (n / 36) (digit36 (n mod 36) :: acc)) as (ds & -> & Hv & Hh).
    { split; [apply Z.div_pos; lia|apply Z.div_lt_upper_bound; lia]. }
    exists (ds ++ [digit36 (n mod 36)]). rewrite <- app_assoc, fold_left_app, Hv. cbn [fold_left]. rewrite E.
    split_and!; [done| |set_solver]. rewrite (Z.div_mod n 36) at 3 by lia. lia.
Qed.

Lemma base36_spec n : 0 <= n → fold_left (λ a c, a * 36 + value36 c) (base36 n) 0 = n ∧ 45 ∉ base36 n.
Proof.
  intros Hn. unfold base36. destruct (digits36_aux_spec (S (Z.to_nat (Z.log2 n))) n []) as (ds & -> & Hv & Hh).
  - split; [done|]. pose proof (digits_fuel n Hn). eapply Z.lt_le_trans; [done|]. apply Z.pow_le_mono_l. lia.
  - by rewrite app_nil_r.
Qed.

Definition PREFIXES : list jsstr := ["t"; "d"; "r"; "def"; "f"; "c"].

Lemma uid_split prefix t c :
  prefix ∈ PREFIXES → 0 <= t → 0 <= c → split 45 (uid_text prefix t c) = [prefix; base36 t; show_int c].
Proof.
  intros Hp Ht Hc. unfold uid_text. change "-" with [45].
  change (prefix ++ [45] ++ base36 t ++ [45] ++ show_int c) with (join [45] [prefix; base36 t; show_int c]).
  apply split_join; [done|]. repeat apply Forall_cons_2; [| | |by apply Forall_nil_2].
  - cbn in Hp. repeat (apply elem_of_cons in Hp as [->|Hp]; [set_solver|]). by apply elem_of_nil in Hp.
  - by apply base36_spec.
  - unfold show_int. rewrite (proj2 (Z.ltb_ge c 0)) by done. destruct (digits_spec c Hc) as [_ Hd].
    intros Hin. rewrite Forall_forall in Hd. by specialize (Hd _ Hin).
Qed.

Lemma uid_inj p t c p' t' c' :
  p ∈ PREFIXES → p' ∈ PREFIXES → 0 <= t → 0 <= t' → 0 <= c → 0 <= c' →
  uid_text p t c = uid_text p' t' c' → t = t' ∧ c = c'.
Proof.
  intros Hp Hp' Ht Ht' Hc Hc' E. pose proof (uid_split p t c Hp Ht Hc) as H. rewrite E, uid_split in H by done.
  injection H as _ Hb Hs. split; [|by apply show_int_inj].
  rewrite <- (proj1 (base36_spec t Ht)), <- (proj1 (base36_spec t' Ht')). by rewrite Hb.
Qed.

(** The identifiers of the data are of another shape. *)
Lemma seed_not_uid id p t c : id ∈ store_ids seed → p ∈ PREFIXES → 0 <= t → 0 <= c → id ≠ uid_text p t c.
Proof.
  intros Hid Hp Ht Hc ->. assert (H : Forall (λ id, length (split 45 id) ≠ 3%nat) (store_ids seed)).
  { apply (bool_decide_unpack _). by vm_compute. }
  rewrite Forall_forall in H. apply H in Hid. by rewrite uid_split in Hid.
Qed.

(** An identifier drawn in this load of the page or an earlier one, or of the data. *)
Definition drawn (load counter now : Z) (id : jsstr) : Prop :=
  id ∈ store_ids seed ∨
  ∃ p t n, p ∈ PREFIXES ∧ 0 <= t <= now ∧ 0 <= n ∧ (t < load ∨ n < counter) ∧ id = uid_text p t n.

Definition ids_ok (load counter now : Z) (s : store) : Prop :=
  NoDup (store_ids s) ∧ Forall (drawn load counter now) (store_ids s).

Section fresh.
Context (load counter now : Z) (clock : Z → Z).
Hypothesis (Hclock : ∀ c, load <= clock c <= now) (Hload : 0 <= load) (Hcounter : 0 <= counter).

Lemma fresh_id p c id : p ∈ PREFIXES → counter <= c → drawn load counter now id → id ≠ id_at clock p c.
Proof.
  intros Hp Hc [Hid|(q & t & n & Hq & Ht & Hn & Hlt & ->)]; unfold id_at; pose proof (Hclock c).
  - apply seed_not_uid; [done|done|lia|lia].
  - intros E. apply uid_inj in E as [-> ->]; [|done|done|lia..]. lia.
Qed.

Lemma drawn_more c id : counter <= c → drawn load counter now id → drawn load c now id.
Proof.
  intros Hc [Hid|(q & t & n & Hq & Ht & Hn & Hlt & ->)]; [by left|]. right. exists q, t, n. split_and!; try done; lia.
Qed.

Lemma drawn_new p c : p ∈ PREFIXES → counter <= c → drawn load (c + 1) now (id_at clock p c).
Proof.
  intros Hp Hc. right. exists p, (clock c), c. pose proof (Hclock c). split_and!; try done; lia.
Qed.
End fresh.

(** The identifiers an operation draws. *)
Definition draws (clock : Z → Z) (o : op) (c : Z) (s : store) : list jsstr :=
  match o with
  | AddTenant _ _ hostname => id_at clock "t" c :: (if truthy hostname then [id_at clock "d" (c + 1)] else [])
  | AddDomain tenantId _ => if among pt_id tenantId (tenants s) then [id_at clock "d" c] else []
  | AddResource tenantId _ _ _ => if among pt_id tenantId (tenants s) then [id_at clock "r" c] else []
  | AddDefinition _ _ _ _ => [id_at clock "def" c]
  | AddField defId _ _ _ _ _ => if among pd_id defId (definitions s) then [id_at clock "f" c] else []
  | AddApiClient _ _ _ _ => [id_at clock "c" c]
  | _ => []
  end.

Lemma submseteq_NoDup {A} (k l : list A) : k ⊆+ l → NoDup l → NoDup k.
Proof. intros (m & E)%submseteq_Permutation. rewrite E. by intros (? & _)%NoDup_app. Qed.

Lemma bind_alter {A} (key : A → jsstr) (f : A → list jsstr) id g (new : list jsstr) l :
  NoDup (key <$> l) → (∀ x, x ∈ l → f (g x) ⊆+ f x ++ new) →
  alter_by key id g l ≫= f ⊆+ (l ≫= f) ++ (if among key id l then new else []).
Proof.
  induction l as [|x l IH]; [done|]. rewrite fmap_cons. intros [Hx Hl]%NoDup_cons Hf.
  unfold alter_by. rewrite fmap_cons. fold (alter_by key id g l). cbn [among existsb]. rewrite !bind_cons.
  destruct (str_eqb (key x) id) eqn:E; cbn [orb].
  - apply str_eqb_eq in E. rewrite alter_none by congruence.
    etransitivity; [apply submseteq_app; [apply Hf; by left|reflexivity]|].
    rewrite <- !app_assoc. apply submseteq_app; [done|]. by rewrite (Permutation_app_comm new).
  - rewrite <- app_assoc. apply submseteq_app; [done|]. apply IH; [done|]. intros y Hy. apply Hf. by right.
Qed.

Lemma without_submseteq {A} (key : A → jsstr) id l : key <$> without key id l ⊆+ key <$> l.
Proof.
  induction l as [|x l IH]; [done|]. unfold without. cbn [List.filter]. fold (without key id l). rewrite fmap_cons.
  destruct (negb (str_eqb (key x) id)); [by apply submseteq_skip|by apply submseteq_cons].
Qed.

Lemma alter_keys {A} (key : A → jsstr) id g l : (∀ x, key (g x) = key x) → key <$> alter_by key id g l = key <$> l.
Proof.
  intros Hg. unfold alter_by. rewrite <- list_fmap_compose. apply list_fmap_ext. intros _ x _. cbn.
  destruct (str_eqb (key x) id); [apply Hg|done].
Qed.

Lemma app_middle {A} (a b n : list A) : (a ++ b) ++ n ≡ₚ (a ++ n) ++ b.
Proof. by rewrite <- !app_assoc, (Permutation_app_comm b n). Qed.

(** The identifiers after an operation are among those before and those it draws. *)
Lemma set_domains_ids t f new :
  pdm_id <$> f (pt_domains t) ⊆+ (pdm_id <$> pt_domains t) ++ new → tenant_ids (set_domains f t) ⊆+ tenant_ids t ++ new.
Proof.
  intros Hf. unfold tenant_ids. cbn [set_domains pt_id pt_domains pt_resources app]. apply submseteq_skip.
  rewrite app_middle. by apply submseteq_app.
Qed.

Lemma set_resources_ids t f new :
  pr_id <$> f (pt_resources t) ⊆+ (pr_id <$> pt_resources t) ++ new → tenant_ids (set_resources f t) ⊆+ tenant_ids t ++ new.
Proof.
  intros Hf. unfold tenant_ids. cbn [set_resources pt_id pt_domains pt_resources app]. apply submseteq_skip.
  rewrite <- app_assoc. by apply submseteq_app.
Qed.

Lemma on_tenants_ids s f new :
  f (tenants s) ≫= tenant_ids ⊆+ (tenants s ≫= tenant_ids) ++ new → store_ids (on_tenants f s) ⊆+ store_ids s ++ new.
Proof.
  intros Hf. unfold store_ids. cbn [on_tenants tenants definitions apiClients].
  rewrite app_middle. by apply submseteq_app.
Qed.

Lemma on_definitions_ids s f new :
  f (definitions s) ≫= definition_ids ⊆+ (definitions s ≫= definition_ids) ++ new →
  store_ids (on_definitions f s) ⊆+ store_ids s ++ new.
Proof.
  intros Hf. unfold store_ids. cbn [on_definitions tenants definitions apiClients].
  rewrite <- app_assoc. apply submseteq_app; [done|].
  rewrite app_middle. by apply submseteq_app.
Qed.

Lemma if_nil (b : bool) : (if b then [] else [] : list jsstr) = [].
Proof. by destruct b. Qed.

Lemma apply_ids `{CaseMap} clock o c s :
  ids_apart s → o ≠ ResetState → store_ids (apply clock o c s).1.1 ⊆+ store_ids s ++ draws clock o c s.
Proof.
  intros Hs Ho. pose proof (ia_tenants _ Hs) as Ht. pose proof (ia_definitions _ Hs) as Hd.
  destruct o as [name slug host|id patch|tid host|tid did|tid key name vs|tid rid|tid rid|key name ds ic
    |id|did key label ty rq sc|did fid|name r1 r2 tm|id|]; try done; cbn [apply fst draws];
    try (apply on_tenants_ids); try (apply on_definitions_ids).
  - rewrite bind_app. apply submseteq_app; [done|]. cbn. rewrite app_nil_r. by destruct (truthy host).
  - rewrite <- (if_nil (among pt_id id (tenants s))). apply bind_alter; [done|]. intros t _. rewrite app_nil_r.
    assert (E : ∀ ps t, tenant_ids (fold_left (λ t p, patched p t) ps t) = tenant_ids t)
      by (intros ps; induction ps as [|p ps IH]; intros u; [done|]; cbn; by rewrite IH). by rewrite E.
  - apply bind_alter; [done|]. intros t _. apply set_domains_ids. by rewrite fmap_app.
  - rewrite <- (if_nil (among pt_id tid (tenants s))). apply bind_alter; [done|]. intros t _.
    apply set_domains_ids. rewrite app_nil_r. apply without_submseteq.
  - apply bind_alter; [done|]. intros t _. apply set_resources_ids. by rewrite fmap_app.
  - rewrite <- (if_nil (among pt_id tid (tenants s))). apply bind_alter; [done|]. intros t _.
    apply set_resources_ids. by rewrite app_nil_r, alter_keys.
  - rewrite <- (if_nil (among pt_id tid (tenants s))). apply bind_alter; [done|]. intros t _.
    apply set_resources_ids. rewrite app_nil_r. apply without_submseteq.
  - rewrite bind_app. by apply submseteq_app.
  - rewrite <- (if_nil (among pd_id id (definitions s))). apply bind_alter; [done|]. intros x _. by rewrite app_nil_r.
  - apply bind_alter; [done|]. intros x _. unfold definition_ids, set_fields, set_definition. cbn [pd_id pd_fields app].
    apply submseteq_skip. by rewrite fmap_app.
  - rewrite <- (if_nil (among pd_id did (definitions s))). apply bind_alter; [done|]. intros x _.
    unfold definition_ids, set_fields, set_definition. cbn [pd_id pd_fields app]. apply submseteq_skip.
    rewrite app_nil_r. apply without_submseteq.
  - unfold store_ids. cbn [on_clients tenants definitions apiClients]. rewrite <- !app_assoc.
    do 2 (apply submseteq_app; [done|]). by rewrite fmap_app.
  - unfold store_ids. cbn [on_clients tenants definitions apiClients]. rewrite app_nil_r. by rewrite alter_keys.
Qed.

Lemma bind_keys {A} (key : A → jsstr) (f : A → list jsstr) l :
  (∀ x, key x ∈ f x) → NoDup (l ≫= f) → NoDup (key <$> l) ∧ ∀ x, x ∈ l → NoDup (f x).
Proof.
  intros Hk. induction l as [|x l IH]; [split; [constructor|by intros x ?%elem_of_nil]|].
  rewrite bind_cons. intros (Hx & Hd & Hl)%NoDup_app. destruct (IH Hl) as [IH1 IH2]. split.
  - rewrite fmap_cons. constructor; [|done]. intros (y & E & Hy)%list_elem_of_fmap.
    apply (Hd (key x)); [apply Hk|]. rewrite E. apply list_elem_of_bind. exists y. split; [apply Hk|done].
  - intros y [->|Hy]%elem_of_cons; [done|by apply IH2].
Qed.

Lemma ids_are_apart s : NoDup (store_ids s) → ids_apart s.
Proof.
  intros (Ht & _ & (Hd & _ & Hc)%NoDup_app)%NoDup_app.
  apply (bind_keys pt_id) in Ht as [Ht1 Ht2]; [|intros t; left]. apply (bind_keys pd_id) in Hd as [Hd1 Hd2]; [|intros x; left].
  constructor; [done|done|done|intros t Hin..|intros x Hin].
  - apply Ht2 in Hin. unfold tenant_ids in Hin. apply NoDup_cons in Hin as [_ (? & _)%NoDup_app]. done.
  - apply Ht2 in Hin. unfold tenant_ids in Hin. apply NoDup_cons in Hin as [_ (_ & _ & ?)%NoDup_app]. done.
  - apply Hd2 in Hin. unfold definition_ids in Hin. by apply NoDup_cons in Hin as [_ ?].
Qed.

(** An operation keeps the identifiers distinct and drawn. *)
Lemma ids_ok_apply `{CaseMap} load counter now clock o s :
  (∀ c, load <= clock c <= now) → 0 <= load → 0 <= counter → ids_ok load counter now s →
  ids_ok load (counter + (apply clock o counter s).2) now (apply clock o counter s).1.1.
Proof.
  intros Hclock Hl Hc [Hn Hk].
  assert (Hd : 0 <= (apply clock o counter s).2) by (destruct o; cbn; repeat case_match; lia).
  assert (o = ResetState ∨ o ≠ ResetState) as [->|Ho] by (destruct o; (by left) || by right).
  { cbn. split; [apply (bool_decide_unpack _); by vm_compute|]. apply Forall_forall. intros id Hid. by left. }
  pose proof (apply_ids clock o counter s (ids_are_apart s Hn) Ho) as Hsub.
  assert (Hnew : NoDup (draws clock o counter s) ∧
    Forall (λ id, ∃ p c, p ∈ PREFIXES ∧ counter <= c < counter + (apply clock o counter s).2 ∧ id = id_at clock p c) (draws clock o counter s)).
  { assert (Hnil : NoDup ([] : list jsstr)) by constructor.
    assert (Hone : ∀ x : jsstr, NoDup [x]) by (intros; apply NoDup_singleton).
    assert (Hin : ∀ x, x ∈ PREFIXES → ∀ c d, counter <= c < counter + d →
      ∃ p c', p ∈ PREFIXES ∧ counter <= c' < counter + d ∧ id_at clock x c = id_at clock p c') by (intros; by eexists _, _).
    destruct o; cbn [draws apply snd] in *; repeat case_match;
      (split; [try done|repeat first [apply Forall_nil_2|apply Forall_cons_2]; try (apply Hin; [set_solver|lia])]).
    apply NoDup_cons. split; [|done]. intros E%list_elem_of_singleton.
    pose proof (Hclock counter). pose proof (Hclock (counter + 1)).
    apply uid_inj in E as [_ ?]; [lia|set_solver|set_solver|lia..]. }
  destruct Hnew as [Hnn Hnf]. rewrite Forall_forall in Hnf, Hk. split.
  - apply (submseteq_NoDup _ _ Hsub), NoDup_app. split_and!; [done| |done].
    intros id Hid (p & c & Hp & Hcc & ->)%Hnf. apply Hk in Hid.
    assert (Hc' : counter <= c) by lia. by apply (fresh_id load counter now clock Hclock Hl Hc p c _ Hp Hc' Hid).
  - apply Forall_forall. intros id Hid. apply (elem_of_submseteq _ _ _ Hid) in Hsub. apply elem_of_app in Hsub as [Hold|Hnw].
    + apply (drawn_more load counter); [lia|auto].
    + apply Hnf in Hnw as (p & c & Hp & Hcc & ->). apply (drawn_more load (c + 1)); [lia|].
      assert (Hc' : counter <= c) by lia. by apply (drawn_new load counter now clock Hclock Hl Hc p c Hp Hc').
Qed.

(** ** Values that survive the storage *)

Lemma json_wf_arr_iff l : json_wf (JArr l) ↔ Forall json_wf l.
Proof.
  split; [|apply json_wf_arr]. unfold json_wf. rewrite json_ok_arr, json_distinct_arr, json_safe_arr.
  rewrite !Forall_forall. naive_solver.
Qed.

Lemma json_wf_obj_iff l : json_wf (JObj l) ↔ NoDup l.*1 ∧ Forall (λ p, Forall unit16 p.1 ∧ json_wf p.2) l.
Proof.
  split; [|by intros [? ?]; apply json_wf_obj]. unfold json_wf. rewrite json_ok_obj, json_distinct_obj, json_safe_obj.
  rewrite !Forall_forall. naive_solver.
Qed.

Lemma json_wf_str s : json_wf (JStr s) ↔ Forall unit16 s.
Proof. unfold json_wf. cbn. tauto. Qed.

Lemma json_wf_bool b : json_wf (JBool b).
Proof. done. Qed.

Ltac units := apply (bool_decide_unpack _); by vm_compute.

#[local] Instance unit16_dec c : Decision (unit16 c).
Proof. unfold unit16. apply _. Defined.

(** An object of known keys is what its members are. *)
Lemma json_wf_known l :
  bool_decide (NoDup l.*1) = true → bool_decide (Forall (Forall unit16) l.*1) = true →
  json_wf (JObj l) ↔ Forall json_wf l.*2.
Proof.
  intros Hn%bool_decide_eq_true Hk%bool_decide_eq_true. rewrite json_wf_obj_iff, Forall_fmap. rewrite Forall_fmap in Hk.
  split; [intros [_ H]; eapply Forall_impl; [exact H|]; by intros p [_ ?]|]. intros H. split; [done|].
  apply Forall_and. split; [exact Hk|exact H].
Qed.

Lemma tenant_wf t : json_wf (tenant_json t) ↔
  Forall unit16 (pt_id t) ∧ Forall unit16 (pt_slug t) ∧ Forall unit16 (pt_name t) ∧ Forall unit16 (pt_status t) ∧
  Forall (λ d, json_wf (domain_json d)) (pt_domains t) ∧ Forall (λ r, json_wf (resource_json r)) (pt_resources t).
Proof.
  unfold tenant_json. rewrite json_wf_known by done. cbn [fmap list_fmap snd].
  rewrite !Forall_cons, Forall_nil, !json_wf_str, !json_wf_arr_iff, !Forall_fmap. tauto.
Qed.

Lemma domain_wf d : json_wf (domain_json d) ↔ Forall unit16 (pdm_id d) ∧ Forall unit16 (pdm_hostname d).
Proof. unfold domain_json. rewrite json_wf_known by done. cbn [fmap list_fmap snd]. rewrite !Forall_cons, Forall_nil, !json_wf_str. tauto. Qed.

Lemma resource_wf r : json_wf (resource_json r) ↔
  Forall unit16 (pr_id r) ∧ Forall unit16 (pr_definitionKey r) ∧ Forall unit16 (pr_definitionName r) ∧
  Forall unit16 (pr_status r) ∧ json_wf (values_json (pr_values r)).
Proof.
  unfold resource_json. rewrite json_wf_known by done. cbn [fmap list_fmap snd].
  rewrite !Forall_cons, Forall_nil, !json_wf_str. tauto.
Qed.

Lemma field_wf f : json_wf (field_json f) ↔
  Forall unit16 (pf_id f) ∧ Forall unit16 (pf_key f) ∧ Forall unit16 (pf_label f) ∧ Forall unit16 (pf_data_type f).
Proof.
  unfold field_json. rewrite json_wf_known by done. cbn [fmap list_fmap snd].
  rewrite !Forall_cons, Forall_nil, !json_wf_str.
  pose proof (json_wf_bool (pf_required f)). pose proof (json_wf_bool (pf_is_secret f)). tauto.
Qed.

Lemma definition_wf d : json_wf (definition_json d) ↔
  Forall unit16 (pd_id d) ∧ Forall unit16 (pd_key d) ∧ Forall unit16 (pd_name d) ∧ Forall unit16 (pd_status d) ∧
  Forall unit16 (pd_description d) ∧ Forall unit16 (pd_icon d) ∧ Forall (λ f, json_wf (field_json f)) (pd_fields d).
Proof.
  unfold definition_json. destruct (pd_icon_first d); (rewrite json_wf_known by done); cbn [app fmap list_fmap snd];
    rewrite !Forall_cons, Forall_nil, !json_wf_str, json_wf_arr_iff, Forall_fmap; tauto.
Qed.

Lemma client_wf c : json_wf (client_json c) ↔
  Forall unit16 (pc_id c) ∧ Forall unit16 (pc_name c) ∧ Forall unit16 (pc_status c) ∧ Forall unit16 (pc_key_preview c) ∧
  Forall unit16 (pc_created_at c).
Proof. unfold client_json. rewrite json_wf_known by done. cbn [fmap list_fmap snd]. rewrite !Forall_cons, Forall_nil, !json_wf_str. tauto. Qed.

Definition store_wf (s : store) : Prop := json_wf (store_json s).

Lemma store_wf_iff s : store_wf s ↔
  Forall (λ t, json_wf (tenant_json t)) (tenants s) ∧ Forall (λ d, json_wf (definition_json d)) (definitions s) ∧
  Forall (λ c, json_wf (client_json c)) (apiClients s).
Proof.
  unfold store_wf, store_json. rewrite json_wf_known by done. cbn [fmap list_fmap snd].
  rewrite !Forall_cons, Forall_nil, !json_wf_arr_iff, !Forall_fmap. tauto.
Qed.

Lemma uid_units p t c : Forall unit16 p → 0 <= t → 0 <= c → Forall unit16 (uid_text p t c).
Proof.
  intros Hp Ht Hc. unfold uid_text. repeat (apply Forall_app; split); try done; try (repeat constructor; unfold unit16; lia).
  - unfold base36. assert (H : ∀ f n acc, 0 <= n → Forall unit16 acc → Forall unit16 (digits36_aux f n acc)).
    { induction f as [|f IH]; intros n acc Hn Ha; cbn; [done|].
      case_cond; bool_to_prop; [|apply IH; [apply Z.div_pos; lia|]]; constructor; try done; unfold unit16, digit36.
      - case_cond; bool_to_prop; lia.
      - pose proof (Z.mod_pos_bound n 36 ltac:(lia)). case_cond; bool_to_prop; lia. }
    by apply H.
  - unfold show_int. rewrite (proj2 (Z.ltb_ge c 0)) by done. destruct (digits_spec c Hc) as [_ Hd].
    eapply Forall_impl; [exact Hd|]. intros x Hx. unfold is_digit in Hx. unfold unit16. bool_to_prop. lia.
Qed.

(** Replacing the runs of white space brings in nothing but the replacement. *)
Lemma replace_loop_Forall (P : Z → Prop) r f fuel prev s :
  (∀ m y, Forall P (f m y)) → Forall P s → Forall P (replace_loop fuel r f prev s).
Proof.
  intros Hf. revert prev s. induction fuel as [|n IH]; intros prev s Hs; [done|]. cbn [replace_loop].
  destruct (exec_from r prev s) as [[[pre at_] y]|] eqn:E; [|done].
  apply exec_from_sound in E as [-> Hy]. apply rstep_suffix in Hy as (w & Hw). cbn [m_rest] in Hw. subst at_.
  apply Forall_app in Hs as [Hp Hs]. apply Forall_app in Hs as [Hw Hs].
  apply Forall_app. split; [done|]. apply Forall_app. split; [apply Hf|].
  destruct (length (m_rest y) <? length (w ++ m_rest y))%nat; [by apply IH|].
  destruct (w ++ m_rest y) as [|c t] eqn:Ew; [constructor|].
  assert (Hct : Forall P (c :: t)) by (rewrite <- Ew; by apply Forall_app).
  apply Forall_cons in Hct as [Hc Ht]. constructor; [done|]. by apply IH.
Qed.

(** The arguments of an operation are strings of code units, the values of a resource have each key
    once, the patches are those of the page and a client is made in a year of four digits. *)
Definition op_ok (o : op) : Prop :=
  match o with
  | AddTenant name slug hostname => Forall unit16 name ∧ Forall unit16 slug ∧ Forall unit16 hostname
  | UpdateTenant id patch => op_known o ∧ Forall (λ p, Forall unit16 p.2) patch
  | AddDomain _ hostname => Forall unit16 hostname
  | AddResource _ key name values => Forall unit16 key ∧ Forall unit16 name ∧ json_wf (values_json values)
  | AddDefinition key name description icon =>
    Forall unit16 key ∧ Forall unit16 name ∧ Forall unit16 description ∧ Forall unit16 icon
  | AddField _ key label data_type _ _ => Forall unit16 key ∧ Forall unit16 label ∧ Forall unit16 data_type
  | AddApiClient name random1 random2 time =>
    Forall unit16 name ∧ Forall unit16 random1 ∧ Forall unit16 random2 ∧ iso_range time
  | _ => True
  end.

Lemma op_ok_known o : op_ok o → op_known o.
Proof. destruct o; cbn; try done. by intros [? _]. Qed.

(** A check of [json_wf], for the values at hand. *)
Fixpoint wf_check (v : json) : bool :=
  match v with
  | JStr s => bool_decide (Forall unit16 s)
  | JNum z => Z.abs z <=? MAX_SAFE_INTEGER
  | JArr l => forallb wf_check l
  | JObj l => bool_decide (NoDup l.*1) && forallb (λ '(k, x), bool_decide (Forall unit16 k) && wf_check x) l
  | _ => true
  end.

Lemma wf_check_sound v : wf_check v = true → json_wf v.
Proof.
  induction v as [|b|z|s|l IH|l IH] using json_nested_ind; cbn [wf_check]; intros Hv; [done|done| | | |].
  - bool_to_prop. unfold json_wf. by cbn.
  - apply json_wf_str. by apply bool_decide_eq_true in Hv.
  - apply json_wf_arr. rewrite forallb_forall in Hv. rewrite Forall_forall in IH |- *.
    intros x Hx. apply IH; [done|]. by apply Hv, list_elem_of_In.
  - apply andb_true_iff in Hv as [Hn%bool_decide_eq_true Hv]. apply json_wf_obj; [done|].
    rewrite forallb_forall in Hv. rewrite Forall_forall in IH |- *. intros [k x] Hx.
    specialize (Hv (k, x) (proj1 (list_elem_of_In _ _) Hx)). cbn in Hv.
    apply andb_true_iff in Hv as [Hk%bool_decide_eq_true Hv]. split; [done|]. by apply (IH (k, x)).
Qed.

Lemma seed_wf : store_wf seed.
Proof. apply wf_check_sound. by vm_compute. Qed.

Lemma Forall_alter {A} (P : A → Prop) key id g l : Forall P l → (∀ x, P x → P (g x)) → Forall P (alter_by key id g l).
Proof.
  intros Hl Hg. unfold alter_by. rewrite Forall_fmap. eapply Forall_impl; [exact Hl|]. intros x Hx. cbn.
  destruct (str_eqb (key x) id); auto.
Qed.

Lemma Forall_without {A} (P : A → Prop) key id l : Forall P l → Forall P (without key id l).
Proof.
  rewrite !Forall_forall. intros Hl x Hx. apply Hl. apply list_elem_of_In, filter_In in Hx as [Hx _]. by apply list_elem_of_In.
Qed.

Lemma toggled_units a b s : Forall unit16 a → Forall unit16 b → Forall unit16 (toggled a b s).
Proof. unfold toggled. by case_cond. Qed.

#[local] Arguments id_at : simpl never.
#[local] Arguments default_slug : simpl never.
#[local] Arguments key_preview : simpl never.

Section preservation.
Context `{CaseMap}.
Hypothesis (lower_units : ∀ s, Forall unit16 s → Forall unit16 (toLowerCase s)).

Lemma default_slug_units slug name :
  Forall unit16 slug → Forall unit16 name → Forall unit16 (str_or slug (default_slug name)).
Proof.
  intros Hs Hn. unfold str_or. case_cond; [done|]. unfold default_slug, replace_all.
  apply replace_loop_Forall; [intros; units|by apply lower_units].
Qed.

Lemma set_domains_wf f t :
  json_wf (tenant_json t) → (Forall (λ d, json_wf (domain_json d)) (pt_domains t) → Forall (λ d, json_wf (domain_json d)) (f (pt_domains t))) →
  json_wf (tenant_json (set_domains f t)).
Proof. rewrite !tenant_wf. cbn. intuition. Qed.

Lemma set_resources_wf f t :
  json_wf (tenant_json t) → (Forall (λ d, json_wf (resource_json d)) (pt_resources t) → Forall (λ d, json_wf (resource_json d)) (f (pt_resources t))) →
  json_wf (tenant_json (set_resources f t)).
Proof. rewrite !tenant_wf. cbn. intuition. Qed.

Lemma set_fields_wf f x :
  json_wf (definition_json x) → (Forall (λ d, json_wf (field_json d)) (pd_fields x) → Forall (λ d, json_wf (field_json d)) (f (pd_fields x))) →
  json_wf (definition_json (set_fields f x)).
Proof. rewrite !definition_wf. cbn. intuition. Qed.

Lemma apply_wf clock o c s :
  (∀ n, 0 <= clock n) → 0 <= c → op_ok o → store_wf s → store_wf (apply clock o c s).1.1.
Proof.
  intros Hclock Hc Ho. rewrite store_wf_iff. intros (Ht & Hd & Hk).
  assert (Hid : ∀ p n, 0 <= n → Forall unit16 p → Forall unit16 (id_at clock p n)) by (intros; by apply uid_units).
  assert (Hu : ∀ p n, 0 <= n → p ∈ PREFIXES → Forall unit16 (id_at clock p n)).
  { intros p n Hn Hp. apply Hid; [done|]. cbn in Hp.
    repeat (apply elem_of_cons in Hp as [->|Hp]; [units|]). by apply elem_of_nil in Hp. }
  destruct o as [name slug host|id patch|tid host|tid did|tid key name vs|tid rid|tid rid|key name ds ic
    |id|did key label ty rq sc|did fid|name r1 r2 tm|id|]; cbn [apply fst]; [..|apply seed_wf]; apply store_wf_iff;
    cbn [on_tenants on_definitions on_clients tenants definitions apiClients]; split_and!; try done.
  - destruct Ho as (Hn & Hs & Hh). apply Forall_app. split; [done|]. apply Forall_cons_2; [|by apply Forall_nil_2].
    apply tenant_wf. cbn. split_and!; [apply Hu; [lia|set_solver]|by apply default_slug_units|done|units| |by apply Forall_nil_2].
    destruct (truthy host); [|by apply Forall_nil_2]. apply Forall_cons_2; [|by apply Forall_nil_2].
    apply domain_wf. split; [apply Hu; [lia|set_solver]|done].
  - apply Forall_alter; [done|]. destruct Ho as [_ Ho]. intros t. revert t. induction Ho as [|p ps Hp _ IH]; intros t Hwf; [done|].
    apply IH. revert Hwf. rewrite !tenant_wf. cbn. intros (? & ? & ? & ? & ? & ?). repeat case_cond; split_and!; done.
  - apply Forall_alter; [done|]. intros t Hwf. apply set_domains_wf; [done|]. intros Hl. apply Forall_app. split; [done|].
    apply Forall_cons_2; [|by apply Forall_nil_2]. apply domain_wf. split; [apply Hu; [lia|set_solver]|done].
  - apply Forall_alter; [done|]. intros t Hwf. apply set_domains_wf; [done|]. apply Forall_without.
  - destruct Ho as (Hkey & Hn & Hv). apply Forall_alter; [done|]. intros t Hwf. apply set_resources_wf; [done|]. intros Hl.
    apply Forall_app. split; [done|]. apply Forall_cons_2; [|by apply Forall_nil_2].
    apply resource_wf. cbn. split_and!; [apply Hu; [lia|set_solver]|done|done|units|done].
  - apply Forall_alter; [done|]. intros t Hwf. apply set_resources_wf; [done|]. intros Hl. apply Forall_alter; [done|].
    intros r. rewrite !resource_wf. cbn. intros (? & ? & ? & ? & ?). split_and!; try done. apply toggled_units; units.
  - apply Forall_alter; [done|]. intros t Hwf. apply set_resources_wf; [done|]. apply Forall_without.
  - destruct Ho as (Hkey & Hn & Hds & Hic). apply Forall_app. split; [done|]. apply Forall_cons_2; [|by apply Forall_nil_2].
    apply definition_wf. cbn. split_and!; [apply Hu; [lia|set_solver]|done|done|units|done| |by apply Forall_nil_2].
    unfold str_or. case_cond; [done|units].
  - apply Forall_alter; [done|]. intros x. rewrite !definition_wf. cbn. intros (? & ? & ? & ? & ? & ? & ?).
    split_and!; try done. apply toggled_units; units.
  - destruct Ho as (Hkey & Hl & Hty). apply Forall_alter; [done|]. intros x Hwf. apply set_fields_wf; [done|]. intros Hfs.
    apply Forall_app. split; [done|]. apply Forall_cons_2; [|by apply Forall_nil_2].
    apply field_wf. cbn. split_and!; [apply Hu; [lia|set_solver]|done..].
  - apply Forall_alter; [done|]. intros x Hwf. apply set_fields_wf; [done|]. apply Forall_without.
  - destruct Ho as (Hn & Hr1 & Hr2 & Htm). apply Forall_app. split; [done|]. apply Forall_cons_2; [|by apply Forall_nil_2].
    apply client_wf. cbn. split_and!; [apply Hu; [lia|set_solver]|done|units| |].
    + unfold key_preview, slice_last, api_token. apply Forall_app. split; [units|]. apply Forall_drop.
      repeat (apply Forall_cons_2; [unfold unit16; lia|]). apply Forall_app. split; by apply Forall_take, Forall_drop.
    + apply Forall_take. eapply Forall_impl; [by apply toISOString_ascii|]. intros x Hx. unfold unit16. cbn in Hx. lia.
  - apply Forall_alter; [done|]. intros x. rewrite !client_wf. cbn. intros (? & ? & ? & ? & ?).
    split_and!; try done. apply toggled_units; units.
Qed.
End preservation.

(** ** The module and the pages that use it *)

(** A component that uses the store: the state its last render read, and whether its effect ran. *)
Record proto_view := { pv_shown : jv; pv_subscribed : bool }.

Record proto := {
  w_state : jv;
  w_counter : Z;
  w_loaded : Z;                     (* when the page loaded *)
  w_now : Z;
  w_disk : option jsstr;            (* what the storage has under [KEY] *)
  w_views : gmap nat proto_view;
}.

(** [commit]: a write of the storage may be refused; each listener renders its component again. *)
Definition commit (next : jv) (writes : bool) (w : proto) : proto :=
  {| w_state := next; w_counter := w_counter w; w_loaded := w_loaded w; w_now := w_now w;
     w_disk := if writes then Some (JSON_text next) else w_disk w;
     w_views := (λ v, if pv_subscribed v then {| pv_shown := next; pv_subscribed := true |} else v) <$> w_views w |}.

Definition with_counter (c : Z) (w : proto) : proto :=
  {| w_state := w_state w; w_counter := c; w_loaded := w_loaded w; w_now := w_now w; w_disk := w_disk w; w_views := w_views w |}.

Definition with_views (f : gmap nat proto_view → gmap nat proto_view) (w : proto) : proto :=
  {| w_state := w_state w; w_counter := w_counter w; w_loaded := w_loaded w; w_now := w_now w; w_disk := w_disk w;
     w_views := f (w_views w) |}.

Definition proto_load (disk : option jsstr) (time : Z) : proto :=
  {| w_state := load disk; w_counter := 1; w_loaded := time; w_now := time; w_disk := disk; w_views := ∅ |}.

Inductive proto_label :=
  | PRender (n : nat)                                       (* [useStore], when a component is mounted *)
  | PSubscribe (n : nat)                                    (* its effect *)
  | PUnmount (n : nat)
  | POp (o : op) (clock : Z → Z) (writes : bool)
  | PTick (ms : Z)
  | PReload.                                                (* takes a millisecond at least *)

Section machine.
Context `{CaseMap}.

Definition proto_op (o : op) (clock : Z → Z) (writes : bool) (w : proto) : proto :=
  match exec clock o (w_state w) (w_counter w) with
  | (Some (next, _), c) => commit next writes (with_counter c w)
  | (None, c) => with_counter c w
  end.

Definition proto_step (w : proto) (x : proto_label) : proto :=
  match x with
  | PRender n => with_views (<[n := {| pv_shown := w_state w; pv_subscribed := false |}]>) w
  | PSubscribe n => with_views (alter (M := gmap nat proto_view) (λ v, {| pv_shown := pv_shown v; pv_subscribed := true |}) n) w
  | PUnmount n => with_views (delete n) w
  | POp o clock writes => proto_op o clock writes w
  | PTick ms => {| w_state := w_state w; w_counter := w_counter w; w_loaded := w_loaded w; w_now := w_now w + ms;
                   w_disk := w_disk w; w_views := w_views w |}
  | PReload => proto_load (w_disk w) (w_now w + 1)
  end.

Definition proto_label_ok (w : proto) (x : proto_label) : Prop :=
  match x with
  | POp o clock _ => op_ok o ∧ ∀ c, w_loaded w <= clock c <= w_now w
  | PTick ms => 0 <= ms
  | _ => True
  end.

Inductive proto_reachable : proto → Prop :=
  | pr_load time : 0 <= time → proto_reachable (proto_load None time)
  | pr_step w x : proto_reachable w → proto_label_ok w x → proto_reachable (proto_step w x).

End machine.

(** What a world of the prototype is, at all times. *)
Record proto_inv (w : proto) (s : store) : Prop := {
  ip_state : w_state w = embed (store_json s);
  ip_wf : store_wf s;
  ip_ids : ids_ok (w_loaded w) (w_counter w) (w_now w) s;
  ip_clock : 0 <= w_loaded w <= w_now w;
  ip_counter : 1 <= w_counter w;
  ip_disk : w_disk w = None ∨
    ∃ s', w_disk w = Some (JSON_text (embed (store_json s'))) ∧ store_wf s' ∧ ids_ok (w_now w + 1) 1 (w_now w) s';
}.

Lemma drawn_later load c now load' c' now' id :
  (load < load' ∧ now < load' ∨ load = load' ∧ c <= c') → now <= now' → drawn load c now id → drawn load' c' now' id.
Proof.
  intros Hl Hn [Hid|(p & t & n & Hp & Ht & Hn' & Hlt & ->)]; [by left|]. right. exists p, t, n. split_and!; try done; lia.
Qed.

Lemma ids_ok_later load c now load' c' now' s :
  (load < load' ∧ now < load' ∨ load = load' ∧ c <= c') → now <= now' → ids_ok load c now s → ids_ok load' c' now' s.
Proof. intros Hl Hn [H1 H2]. split; [done|]. eapply Forall_impl; [exact H2|]. intros id. by apply drawn_later. Qed.

Lemma seed_ids_ok load c now : ids_ok load c now seed.
Proof. split; [apply (bool_decide_unpack _); by vm_compute|]. apply Forall_forall. intros id Hid. by left. Qed.

Lemma store_text_truthy s : truthy (JSON_text (embed (store_json s))) = true.
Proof. unfold store_json. rewrite embed_obj. by cbn [map JSON_text app truthy]. Qed.

Lemma load_text s : store_wf s → load (Some (JSON_text (embed (store_json s)))) = embed (store_json s).
Proof. intros Hs. unfold load. rewrite store_text_truthy, (parse_text _ Hs). done. Qed.

Lemma find_by_embed {A} (emb : A → jv) (key : A → jsstr) k value l :
  (∀ x, member k (emb x) = Some (Some (VStr (key x)))) →
  find_by k value (emb <$> l) = Some (emb <$> List.find (λ x, str_eqb (key x) value) l).
Proof.
  intros Hk. unfold find_by. induction l as [|x l IH]; [done|]. rewrite fmap_cons, Hk.
  cbn [mbind option_bind List.find]. by destruct (str_eqb (key x) value).
Qed.

Lemma find_unique {A} (key : A → jsstr) x l :
  NoDup (key <$> l) → x ∈ l → List.find (λ y, str_eqb (key y) (key x)) l = Some x.
Proof.
  induction l as [|y l IH]; [by intros _ ?%elem_of_nil|]. rewrite fmap_cons. intros [Hy Hl]%NoDup_cons Hx.
  cbn [List.find]. destruct (str_eqb (key y) (key x)) eqn:E.
  - apply str_eqb_eq in E. apply elem_of_cons in Hx as [->|Hx]; [done|]. destruct Hy. rewrite E. by apply list_elem_of_fmap_2.
  - apply elem_of_cons in Hx as [->|Hx]; [by rewrite str_eqb_refl in E|by apply IH].
Qed.

Lemma findTenant_value id s :
  findTenant id (embed (store_json s)) =
  Some ((λ t, embed (tenant_json t)) <$> List.find (λ t, str_eqb (pt_id t) id) (tenants s)).
Proof. rewrite store_value. apply find_by_embed. intros t. by rewrite tenant_value. Qed.

Lemma findDefinition_value id s :
  findDefinition id (embed (store_json s)) =
  Some ((λ d, embed (definition_json d)) <$> List.find (λ d, str_eqb (pd_id d) id) (definitions s)).
Proof. rewrite store_value. apply find_by_embed. intros x. rewrite definition_value. by destruct (pd_icon_first x). Qed.

Lemma findDefinitionByKey_value key s :
  findDefinitionByKey key (embed (store_json s)) =
  Some ((λ d, embed (definition_json d)) <$> List.find (λ d, str_eqb (pd_key d) key) (definitions s)).
Proof. rewrite store_value. apply find_by_embed. intros x. rewrite definition_value. by destruct (pd_icon_first x). Qed.

Section reachable.
Context `{CaseMap}.
Hypothesis (lower_units : ∀ s, Forall unit16 s → Forall unit16 (toLowerCase s)).

(** An operation on a world of records. *)
Lemma op_inv o clock writes w s :
  proto_inv w s → op_ok o → (∀ c, w_loaded w <= clock c <= w_now w) →
  let s' := (apply clock o (w_counter w) s).1.1 in
  let w' := proto_op o clock writes w in
  exec clock o (w_state w) (w_counter w) =
    (Some (embed (store_json s'), (apply clock o (w_counter w) s).1.2), w_counter w + (apply clock o (w_counter w) s).2) ∧
  proto_inv w' s' ∧ w_disk w' = (if writes then Some (JSON_text (w_state w')) else w_disk w).
Proof.
  intros [Hst Hwf Hids Hcl Hcn Hdisk] Ho Hclock s' w'.
  assert (E : exec clock o (w_state w) (w_counter w) =
    (Some (embed (store_json s'), (apply clock o (w_counter w) s).1.2), w_counter w + (apply clock o (w_counter w) s).2)).
  { rewrite Hst. apply exec_apply; [apply ids_are_apart, Hids|by apply op_ok_known]. }
  assert (Hd : 0 <= (apply clock o (w_counter w) s).2) by (destruct o; cbn; repeat case_match; lia).
  assert (Hwf' : store_wf s').
  { apply apply_wf; [done|intros n; pose proof (Hclock n); lia|lia|done|done]. }
  assert (Hids' : ids_ok (w_loaded w) (w_counter w + (apply clock o (w_counter w) s).2) (w_now w) s')
    by (apply ids_ok_apply; [done|lia|lia|done]).
  split; [exact E|]. subst w'. unfold proto_op. rewrite E. split; [|done].
  constructor; cbn [commit with_counter w_state w_counter w_loaded w_now w_disk]; try done; [lia|].
  destruct writes; [|done]. right. exists s'. split_and!; [done|done|]. eapply ids_ok_later; [|reflexivity|exact Hids']. lia.
Qed.

Lemma proto_reachable_inv w : proto_reachable w → ∃ s, proto_inv w s.
Proof.
  induction 1 as [time Ht|w x Hw [s Hi] Hx].
  - exists seed. constructor; cbn; try done; [apply seed_wf|apply seed_ids_ok|by left].
  - destruct x as [n|n|n|o clock writes|ms|]; cbn [proto_step].
    1-3: exists s; by destruct Hi.
    + destruct Hx as [Ho Hc]. destruct (op_inv o clock writes w s Hi Ho Hc) as (_ & Hi' & _). by eexists.
    + cbn in Hx. exists s. destruct Hi as [Hst Hwf Hids Hcl Hcn Hdisk]. constructor; cbn; try done; [|lia|].
      * eapply ids_ok_later; [right|..|exact Hids]; lia.
      * destruct Hdisk as [?|(s' & ? & ? & ?)]; [by left|]. right. exists s'. split_and!; [done|done|].
        eapply ids_ok_later; [|..|done]; lia.
    + destruct Hi as [Hst Hwf Hids Hcl Hcn [Hdisk|(s' & Hdisk & Hwf' & Hids')]].
      * exists seed. unfold proto_load. rewrite Hdisk. constructor; cbn; try done; [apply seed_wf|apply seed_ids_ok|lia|by left].
      * exists s'. unfold proto_load. rewrite Hdisk, load_text by done.
        constructor; cbn -[store_json]; try done; [|lia|].
        -- eapply ids_ok_later; [right|..|exact Hids']; lia.
        -- right. exists s'. split_and!; [done|done|]. eapply ids_ok_later; [left|..|exact Hids']; lia.
Qed.

(** ** Properties *)

(** C11. The store implements its records: after any operations, reloads and refused writes the state is
    the value of records whose identifiers are all distinct, and an operation on it does not throw, does
    to those records exactly what [apply] says and returns what it says. *)
Theorem store_refines w :
  proto_reachable w →
  ∃ s, w_state w = embed (store_json s) ∧ NoDup (store_ids s) ∧
    ∀ o clock writes, op_ok o → (∀ c, w_loaded w <= clock c <= w_now w) →
      let a := apply clock o (w_counter w) s in
      (exec clock o (w_state w) (w_counter w)).1 = Some (embed (store_json a.1.1), a.1.2) ∧
      w_state (proto_step w (POp o clock writes)) = embed (store_json a.1.1) ∧ NoDup (store_ids a.1.1).
Proof.
  intros [s Hi]%proto_reachable_inv. exists s. split_and!; [apply Hi|apply Hi|]. intros o clock writes Ho Hc a.
  destruct (op_inv o clock writes w s Hi Ho Hc) as (E & Hi' & _). rewrite E. split_and!; [done|apply Hi'|apply Hi'].
Qed.

(** C12. Every action survives a reload: what the storage accepted is read back as the very state it was
    written from, whatever happened before; and a write that is refused loses that action alone. *)
Theorem store_reload w o clock writes :
  proto_reachable w → op_ok o → (∀ c, w_loaded w <= clock c <= w_now w) →
  w_state (proto_step (proto_step w (POp o clock writes)) PReload) =
  if writes then w_state (proto_step w (POp o clock writes)) else w_state (proto_step w PReload).
Proof.
  intros [s Hi]%proto_reachable_inv Ho Hc. destruct (op_inv o clock writes w s Hi Ho Hc) as (_ & Hi' & Hd).
  cbn [proto_step proto_load w_state]. rewrite Hd. destruct writes; [|done].
  rewrite (ip_state _ _ Hi'). by rewrite load_text by apply Hi'.
Qed.

(** What an operation adds is found at once under the identifier it returned, and every component that
    listens shows the state with it. *)
Theorem store_added_found w name slug hostname clock writes :
  proto_reachable w → op_ok (AddTenant name slug hostname) → (∀ c, w_loaded w <= clock c <= w_now w) →
  let o := AddTenant name slug hostname in
  let w' := proto_step w (POp o clock writes) in
  ∃ id t, (exec clock o (w_state w) (w_counter w)).1 = Some (w_state w', Some id) ∧
    findTenant id (w_state w') = Some (Some (embed (tenant_json t))) ∧
    pt_id t = id ∧ pt_name t = name ∧ pt_status t = "active" ∧ pdm_hostname <$> pt_domains t = (if truthy hostname then [hostname] else []) ∧
    ∀ n v, w_views w' !! n = Some v → pv_subscribed v = true → pv_shown v = w_state w'.
Proof.
  intros [s Hi]%proto_reachable_inv Ho Hc o w'. destruct (op_inv o clock writes w s Hi Ho Hc) as (E & Hi' & _).
  pose proof (ip_state _ _ Hi') as Hs'. cbn [apply fst snd o] in E, Hi', Hs'.
  set (t := {| pt_id := id_at clock "t" (w_counter w); pt_slug := str_or slug (default_slug name); pt_name := name;
    pt_status := "active";
    pt_domains := if truthy hostname then [{| pdm_id := id_at clock "d" (w_counter w + 1); pdm_hostname := hostname |}] else [];
    pt_resources := [] |}) in *.
  exists (id_at clock "t" (w_counter w)), t. change (proto_op o clock writes w) with w' in *.
  split_and!; [by rewrite Hs', E| |done|done|done|by destruct (truthy hostname)|].
  - rewrite Hs', findTenant_value. do 2 f_equal. change (id_at clock "t" (w_counter w)) with (pt_id t).
    rewrite (find_unique pt_id t); [done| |].
    + apply (ia_tenants _ (ids_are_apart _ (proj1 (ip_ids _ _ Hi')))).
    + cbn [on_tenants tenants]. apply elem_of_app. right. by apply list_elem_of_singleton.
  - intros n v. subst w'. cbn [proto_step]. unfold proto_op. rewrite E. cbn [commit with_counter w_views w_state].
    rewrite lookup_fmap. destruct (w_views w !! n) as [u|]; [|done]. cbn. intros [= <-]. destruct (pv_subscribed u) eqn:Eu; [done|].
    by rewrite Eu.
Qed.
End reachable.

(** *** Inputs *)

Lemma ascii_lower_units s : Forall unit16 s → Forall unit16 (toLowerCase s).
Proof.
  intros Hs. cbn. apply Forall_fmap. eapply Forall_impl; [exact Hs|]. intros c Hc. cbn. unfold ascii_lower, is_upper.
  unfold unit16 in *. case_cond; bool_to_prop; lia.
Qed.

Definition demo_clock (c : Z) : Z := 1782838800000.

Definition demo_ops : list op :=
  [AddTenant "Umbrella Corp" [] "app.umbrella.test"; ToggleResourceStatus "t-acme" "r1"; RemoveDomain "t-globex" "d3"].

Definition demo_world : proto := fold_left (λ w o, proto_step w (POp o demo_clock true)) demo_ops (proto_load None 1782838800000).

Lemma demo_state_reachable : proto_reachable demo_world.
Proof.
  unfold demo_world, demo_ops. cbn [fold_left].
  repeat (apply pr_step; [|split; [cbn; repeat split; units|intros c; by vm_compute]]). by apply pr_load.
Defined.

Definition demo_op : op := AddField "def-smtp" "port" "Porta" "int" true false.

Lemma demo_op_ok : op_ok demo_op ∧ ∀ c, w_loaded demo_world <= demo_clock c <= w_now demo_world.
Proof. split; [cbn; split_and!; units|]. intros c. by vm_compute. Defined.

Lemma store_refines_witness :
  ∃ s, w_state demo_world = embed (store_json s) ∧ NoDup (store_ids s) ∧
    w_state (proto_step demo_world (POp demo_op demo_clock true)) = embed (store_json (apply demo_clock demo_op (w_counter demo_world) s).1.1).
Proof.
  destruct (store_refines ascii_lower_units demo_world demo_state_reachable) as (s & Hs & Hn & Ho).
  exists s. split_and!; [done|done|]. apply (Ho demo_op demo_clock true); apply demo_op_ok.
Defined.

Lemma store_reload_witness :
  w_state (proto_step (proto_step demo_world (POp demo_op demo_clock true)) PReload) =
  w_state (proto_step demo_world (POp demo_op demo_clock true)).
Proof. apply (store_reload ascii_lower_units demo_world demo_op demo_clock true demo_state_reachable); apply demo_op_ok. Defined.

Lemma store_added_found_witness :
  let w := proto_step (proto_step demo_world (PRender 0)) (PSubscribe 0) in
  ∃ id t, findTenant id (w_state (proto_step w (POp (AddTenant "Initech Two" [] []) demo_clock true)))
          = Some (Some (embed (tenant_json t))) ∧ pt_name t = "Initech Two".
Proof.
  intros w. destruct (store_added_found ascii_lower_units w "Initech Two" [] [] demo_clock true) as (id & t & _ & Hf & _ & Hn & _).
  - apply pr_step; [apply pr_step; [apply demo_state_reachable|done]|done].
  - cbn. split_and!; units.
  - intros c. by vm_compute.
  - by exists id, t.
Defined.
