(* ===== verification/ProtoPages.v ===== *)
(** * The pages of the design prototype

    [src/planning/tenancit/proto/index.js], [components/app-shell.js] and the pages under [routes/]: their
    filters, forms and dialogs over the records of [Store], the search of icons with its requests, and
    the scenes.  A page's handler gives its next state and the operation it asks of the store. *)
From Stdlib Require Import ZArith Lia List.
From stdpp Require Import base list sets gmap.
From S2P Require Import Regex Numbers Dates Json JsonRead Store Prelude.
#[local] Open Scope Z_scope.

Definition active (status : jsstr) : bool := str_eqb status "active".

(** ** The overview ([overview.js]) *)

Record figures := { activeTenants : nat; totalResources : nat; activeDefs : nat; totalDomains : nat }.

Definition overview (s : store) : figures := {|
  activeTenants := length (List.filter (λ t, active (pt_status t)) (tenants s));
  totalResources := fold_left (λ acc t, acc + length (pt_resources t))%nat (tenants s) 0%nat;
  activeDefs := length (List.filter (λ d, active (pd_status d)) (definitions s));
  totalDomains := fold_left (λ acc t, acc + length (pt_domains t))%nat (tenants s) 0%nat |}.

(** The first hostname of a tenant, or a text in its place. *)
Definition first_hostname (other : jsstr) (t : PTenant) : jsstr :=
  str_or (match pt_domains t with d :: _ => pdm_hostname d | [] => [] end) other.

Section pages.
Context `{CaseMap}.

(** ** The list of tenants ([tenants-list.js]) *)

Definition search_term (query : jsstr) : jsstr := toLowerCase (trim query).

Definition filtered_tenants (query : jsstr) (ts : list PTenant) : list PTenant :=
  let q := search_term query in
  if negb (truthy q) then ts
  else List.filter (λ t, includes q (toLowerCase (pt_name t)) || includes q (toLowerCase (pt_slug t))
                         || existsb (λ d, includes q (toLowerCase (pdm_hostname d))) (pt_domains t)) ts.

Record tenant_form := { tf_name : jsstr; tf_slug : jsstr; tf_hostname : jsstr }.

Definition EMPTY_TENANT : tenant_form := {| tf_name := []; tf_slug := []; tf_hostname := [] |}.

Definition canCreateTenant (f : tenant_form) : bool := truthy (trim (tf_name f)) && truthy (trim (tf_hostname f)).

(** [submit]: the form after it, and the operation. *)
Definition submitTenant (f : tenant_form) : tenant_form * option op :=
  if negb (canCreateTenant f) then (f, None)
  else (EMPTY_TENANT, Some (AddTenant (tf_name f) (tf_slug f) (tf_hostname f))).

(** ** The list of definitions ([definitions-list.js]) *)

Record definition_form := { dfm_key : jsstr; dfm_name : jsstr; dfm_description : jsstr; dfm_icon : jsstr }.

Definition EMPTY_DEFINITION : definition_form :=
  {| dfm_key := []; dfm_name := []; dfm_description := []; dfm_icon := "lucide:box" |}.

Definition canCreateDefinition (f : definition_form) : bool := truthy (trim (dfm_key f)) && truthy (trim (dfm_name f)).

Definition submitDefinition (f : definition_form) : definition_form * option op :=
  if negb (canCreateDefinition f) then (f, None)
  else (EMPTY_DEFINITION, Some (AddDefinition (dfm_key f) (dfm_name f) (dfm_description f) (dfm_icon f))).

Definition COMMON_ICONS : list jsstr :=
  ["lucide:database"; "lucide:hard-drive"; "lucide:server"; "lucide:cloud";
   "lucide:mail"; "lucide:bell"; "lucide:key-round"; "lucide:lock"; "lucide:shield";
   "lucide:box"; "lucide:boxes"; "lucide:package"; "lucide:container";
   "lucide:globe"; "lucide:network"; "lucide:wifi"; "lucide:link";
   "lucide:credit-card"; "lucide:wallet"; "lucide:bar-chart"; "lucide:activity";
   "lucide:settings"; "lucide:cog"; "lucide:cpu"; "lucide:memory-stick";
   "lucide:file-text"; "lucide:folder"; "lucide:image"; "lucide:video";
   "lucide:message-square"; "lucide:phone"; "lucide:send"; "lucide:webhook";
   "lucide:flame"; "lucide:zap"; "lucide:bot"; "lucide:brain";
   "simple-icons:postgresql"; "simple-icons:mysql"; "simple-icons:redis";
   "simple-icons:mongodb"; "simple-icons:minio"; "simple-icons:amazons3";
   "simple-icons:rabbitmq"; "simple-icons:apachekafka"; "simple-icons:elasticsearch"].

Definition local_icons (term : jsstr) : list jsstr := List.filter (includes term) COMMON_ICONS.

(** A run of the effect of [IconPicker]: its term, whether its request was sent, and its [active]. *)
Record icon_run := { ir_term : jsstr; ir_sent : bool; ir_active : bool }.

(** The picker; [ip_seen] is the [q] its last effect ran with. *)
Record picker := {
  ip_q : jsstr;
  ip_results : list jsstr;
  ip_loading : bool;
  ip_seen : option jsstr;
  ip_runs : gmap nat icon_run;
  ip_next : nat;
}.

Definition mount_picker_icons : picker :=
  {| ip_q := []; ip_results := []; ip_loading := false; ip_seen := None; ip_runs := ∅; ip_next := 0 |}.

(** The cleanup of a run: a request not sent is never sent, one sent no longer counts. *)
Definition cleanup (r : icon_run) : option icon_run :=
  if ir_sent r then Some {| ir_term := ir_term r; ir_sent := true; ir_active := false |} else None.

(** The effect, after a render with another [q]. *)
Definition icon_effect (p : picker) : picker :=
  let runs := omap cleanup (ip_runs p) in
  let term := search_term (ip_q p) in
  if negb (truthy term) then
    {| ip_q := ip_q p; ip_results := []; ip_loading := false; ip_seen := Some (ip_q p);
       ip_runs := runs; ip_next := ip_next p |}
  else
    {| ip_q := ip_q p; ip_results := local_icons term; ip_loading := true; ip_seen := Some (ip_q p);
       ip_runs := <[ip_next p := {| ir_term := term; ir_sent := false; ir_active := true |}]> runs; ip_next := S (ip_next p) |}.

Inductive icon_event :=
  | IInput (q : jsstr)                              (* typing, and [setQ("")] of a choice *)
  | IEffect
  | IDebounce (n : nat)                             (* 300 ms after the effect *)
  | ISettle (n : nat) (icons : option (list jsstr)). (* the reply's [icons]; [None] when it failed or was aborted *)

Definition icon_step (p : picker) (e : icon_event) : picker :=
  match e with
  | IInput q =>
    {| ip_q := q; ip_results := ip_results p; ip_loading := ip_loading p; ip_seen := ip_seen p;
       ip_runs := ip_runs p; ip_next := ip_next p |}
  | IEffect => if bool_decide (ip_seen p = Some (ip_q p)) then p else icon_effect p
  | IDebounce n =>
    {| ip_q := ip_q p; ip_results := ip_results p; ip_loading := ip_loading p; ip_seen := ip_seen p;
       ip_runs := alter (M := gmap nat icon_run) (λ r, {| ir_term := ir_term r; ir_sent := true; ir_active := ir_active r |}) n (ip_runs p);
       ip_next := ip_next p |}
  | ISettle n icons =>
    match ip_runs p !! n with
    | Some r =>
      if negb (ir_sent r) then p
      else
        {| ip_q := ip_q p;
           ip_results := if ir_active r then match icons with Some (i :: l) => i :: l | _ => ip_results p end else ip_results p;
           ip_loading := if ir_active r then false else ip_loading p;
           ip_seen := ip_seen p; ip_runs := delete n (ip_runs p); ip_next := ip_next p |}
    | None => p
    end
  end.

(** ** A tenant ([tenant-detail.js]) *)

Record detail := {
  dt_name : jsstr; dt_slug : jsstr; dt_status : jsstr;    (* [edit] *)
  dt_hostname : jsstr;
  dt_pick : jsstr;
  dt_values : list (jsstr * jsstr);
}.

Definition initial_detail : detail :=
  {| dt_name := []; dt_slug := []; dt_status := "active"; dt_hostname := []; dt_pick := []; dt_values := [] |}.

(** Only a definition of which the tenant has no active resource is offered. *)
Definition activeKeys (t : PTenant) : list jsstr :=
  pr_definitionKey <$> List.filter (λ r, active (pr_status r)) (pt_resources t).

Definition available (t : PTenant) (ds : list PDefinition) : list PDefinition :=
  List.filter (λ d, active (pd_status d) && negb (existsb (str_eqb (pd_key d)) (activeKeys t))) ds.

Definition pickedDef (t : PTenant) (ds : list PDefinition) (pick : jsstr) : option PDefinition :=
  List.find (λ d, str_eqb (pd_key d) pick) (available t ds).

Definition value_at (values : list (jsstr * jsstr)) (key : jsstr) : jsstr := default [] (prop_get key values).

Definition requiredFilled (d : PDefinition) (values : list (jsstr * jsstr)) : bool :=
  forallb (λ f, truthy (trim (value_at values (pf_key f)))) (List.filter pf_required (pd_fields d)).

(** The empty values of the chosen definition. *)
Definition init_values (d : option PDefinition) : list (jsstr * jsstr) :=
  match d with Some d => fold_left (λ o f, prop_set (pf_key f) [] o) (pd_fields d) [] | None => [] end.

Definition set_edit (name slug status : jsstr) (v : detail) : detail :=
  {| dt_name := name; dt_slug := slug; dt_status := status; dt_hostname := dt_hostname v; dt_pick := dt_pick v; dt_values := dt_values v |}.
Definition set_hostname (x : jsstr) (v : detail) : detail :=
  {| dt_name := dt_name v; dt_slug := dt_slug v; dt_status := dt_status v; dt_hostname := x; dt_pick := dt_pick v; dt_values := dt_values v |}.
Definition set_pick (k : jsstr) (vs : list (jsstr * jsstr)) (v : detail) : detail :=
  {| dt_name := dt_name v; dt_slug := dt_slug v; dt_status := dt_status v; dt_hostname := dt_hostname v; dt_pick := k; dt_values := vs |}.

Inductive detail_event :=
  | DOpenEdit | DEdit (name slug status : jsstr) | DSaveEdit
  | DOpenAddResource | DChoose (key : jsstr) | DValue (key value : jsstr) | DSaveResource
  | DOpenDomain | DHostname (x : jsstr) | DSaveDomain | DRemoveDomain (id : jsstr)
  | DToggleResource (id : jsstr) | DRemoveResource (id : jsstr).

(** The handlers of the page of the tenant [id]; without that tenant it offers none. *)
Definition handle_detail (id : jsstr) (s : store) (e : detail_event) (v : detail) : detail * option op :=
  match List.find (λ t, str_eqb (pt_id t) id) (tenants s) with
  | None => (v, None)
  | Some t =>
    match e with
    | DOpenEdit => (set_edit (pt_name t) (pt_slug t) (pt_status t) v, None)
    | DEdit name slug status => (set_edit name slug status v, None)
    | DSaveEdit =>
      (v, if negb (truthy (trim (dt_name v))) then None
          else Some (UpdateTenant (pt_id t) [("name", dt_name v); ("slug", dt_slug v); ("status", dt_status v)]))
    | DOpenAddResource => (set_pick [] [] v, None)
    | DChoose key =>
      (set_pick key (init_values (List.find (λ d, str_eqb (pd_key d) key) (available t (definitions s)))) v, None)
    | DValue key value => (set_pick (dt_pick v) (prop_set key value (dt_values v)) v, None)
    | DSaveResource =>
      (v, match pickedDef t (definitions s) (dt_pick v) with
          | Some d => if requiredFilled d (dt_values v)
                      then Some (AddResource (pt_id t) (pd_key d) (pd_name d) ((λ x, (x.1, Some x.2)) <$> dt_values v)) else None
          | None => None
          end)
    | DOpenDomain => (set_hostname [] v, None)
    | DHostname x => (set_hostname x v, None)
    | DSaveDomain =>
      if negb (truthy (trim (dt_hostname v))) then (v, None)
      else (set_hostname [] v, Some (AddDomain (pt_id t) (trim (dt_hostname v))))
    | DRemoveDomain did => (v, Some (RemoveDomain (pt_id t) did))
    | DToggleResource rid => (v, Some (ToggleResourceStatus (pt_id t) rid))
    | DRemoveResource rid => (v, Some (RemoveResource (pt_id t) rid))
    end
  end.

(** What a cell shows of a value ([RevealableValue] for a secret one). *)
Definition cell_text (is_secret shown : bool) (value : option jsstr) : jsstr :=
  if is_secret && negb shown then "••••••••••••" else str_or (default [] value) "—".

(** ** A definition ([definition-detail.js]) *)

Record field_form := { ff_key : jsstr; ff_label : jsstr; ff_data_type : jsstr; ff_required : bool; ff_is_secret : bool }.

Definition EMPTY_FIELD : field_form :=
  {| ff_key := []; ff_label := []; ff_data_type := "string"; ff_required := false; ff_is_secret := false |}.

Definition canAdd (f : field_form) : bool := truthy (trim (ff_key f)) && truthy (trim (ff_label f)).

Definition save_field (defId : jsstr) (f : field_form) : option op :=
  if canAdd f then Some (AddField defId (ff_key f) (ff_label f) (ff_data_type f) (ff_required f) (ff_is_secret f)) else None.

(** ** The API clients ([api-clients.js]) *)

Record client_dialog := { cd_name : jsstr; cd_token : jsstr; cd_copied : bool }.

Definition startCreate : client_dialog := {| cd_name := []; cd_token := []; cd_copied := false |}.

(** [create], with what the store draws. *)
Definition create_client (random1 random2 : jsstr) (time : Z) (v : client_dialog) : client_dialog * option op :=
  if negb (truthy (trim (cd_name v))) then (v, None)
  else ({| cd_name := cd_name v; cd_token := api_token random1 random2; cd_copied := cd_copied v |},
        Some (AddApiClient (trim (cd_name v)) random1 random2 time)).

(** [copy]: without a clipboard nothing; with one, whether it succeeds or fails. *)
Definition copy_token (clipboard : bool) (v : client_dialog) : client_dialog :=
  if clipboard then {| cd_name := cd_name v; cd_token := cd_token v; cd_copied := true |} else v.
End pages.

(** ** The scenes ([index.js]) and the shell ([app-shell.js]) *)

(** [path.replace(/\/$/, "")] *)
Definition strip_slash (path : jsstr) : jsstr := if endsWith "/" path then take (length path - 1) path else path.

Record scene := { sc_id : jsstr; sc_path : jsstr; sc_label : jsstr; sc_pageLabel : jsstr; sc_hideInNav : bool }.

Section scenes.
Context (BASE : jsstr).

Definition ROOT_PATH : jsstr := str_or (BASE ++ "/") "/".

Definition withBase (path : jsstr) : jsstr :=
  let localPath := if startsWith "/" path then path else "/" ++ path in
  str_or (BASE ++ localPath) "/".

Definition normalizePath (path : jsstr) : jsstr := str_or (strip_slash path) "/".

Definition SCENES : list scene := [
  {| sc_id := "overview"; sc_path := withBase "/"; sc_label := "Visão geral"; sc_pageLabel := "Visão geral"; sc_hideInNav := false |};
  {| sc_id := "tenants"; sc_path := withBase "/tenants"; sc_label := "Tenants"; sc_pageLabel := "Tenants"; sc_hideInNav := false |};
  {| sc_id := "tenant-detail"; sc_path := withBase "/tenants/:id"; sc_label := "Tenant (detalhe)"; sc_pageLabel := "Tenant"; sc_hideInNav := true |};
  {| sc_id := "resource-definitions"; sc_path := withBase "/resource-definitions"; sc_label := "Resource Definitions";
     sc_pageLabel := "Resource Definitions"; sc_hideInNav := false |};
  {| sc_id := "definition-detail"; sc_path := withBase "/resource-definitions/:id"; sc_label := "Resource Definition (detalhe)";
     sc_pageLabel := "Resource Definition"; sc_hideInNav := true |};
  {| sc_id := "api-clients"; sc_path := withBase "/api-clients"; sc_label := "API Clients"; sc_pageLabel := "API Clients"; sc_hideInNav := false |}
].

Definition first_scene : scene :=
  default {| sc_id := []; sc_path := []; sc_label := []; sc_pageLabel := []; sc_hideInNav := false |} (head SCENES).

Definition getSceneFromPath (path : jsstr) : scene :=
  let normalized := normalizePath path in
  if str_eqb normalized (normalizePath ROOT_PATH) then first_scene
  else default first_scene (List.find (λ s, str_eqb (normalizePath (sc_path s)) normalized) SCENES).

Definition scene_by_id (id : jsstr) : option scene := List.find (λ s, str_eqb (sc_id s) id) SCENES.

(** The first part of a split text. *)
Definition before (sep : Z) (s : jsstr) : jsstr := default [] (head (split sep s)).

(** The parameter [route] of the search, then the hash of older links. *)
Definition getSceneFromUrlHints (routeParam : option jsstr) (hash : jsstr) : option scene :=
  let legacy (_ : unit) :=
    let h := before 63 (before 38 (if startsWith "#" hash then drop 1 hash else hash)) in
    if truthy h && negb (str_eqb h "figmacapture") && negb (startsWith "figmacapture=" h) then scene_by_id h else None in
  match routeParam with
  | Some r => if truthy r then match scene_by_id r with Some s => Some s | None => legacy tt end else legacy tt
  | None => legacy tt
  end.

(** [CaptureRouteBridge]: the address it routes to. *)
Definition capture_route (routeParam : option jsstr) (hash path : jsstr) : option jsstr :=
  match getSceneFromUrlHints routeParam hash with
  | None => None
  | Some s =>
    if str_eqb (normalizePath path) (normalizePath (sc_path s)) then None
    else Some (sc_path s ++ (if startsWith "#figmacapture" hash then hash else []))
  end.

(** [SceneNav]: the scene at hand, its place among the scenes, and those before and after it. *)
Definition current_scene (routeParam : option jsstr) (hash path : jsstr) : scene :=
  default (getSceneFromPath path) (getSceneFromUrlHints routeParam hash).

Fixpoint scene_index (id : jsstr) (l : list scene) : Z :=
  match l with [] => 0 | s :: l' => if str_eqb (sc_id s) id then 0 else scene_index id l' + 1 end.

Definition scene_at (i : Z) : scene := default first_scene (SCENES !! Z.to_nat i).
Definition scenes_length : Z := Z.of_nat (length SCENES).

Definition next_scene (s : scene) : scene := scene_at ((scene_index (sc_id s) SCENES + 1) mod scenes_length).
Definition prev_scene (s : scene) : scene := scene_at ((scene_index (sc_id s) SCENES - 1 + scenes_length) mod scenes_length).

Definition nav_scenes : list scene := List.filter (λ s, negb (sc_hideInNav s)) SCENES.
End scenes.

(** The entries of the shell. *)
Definition PROTO_NAV : list (jsstr * jsstr) :=
  [("Visão geral", "/"); ("Tenants", "/tenants"); ("Resource Definitions", "/resource-definitions"); ("API Clients", "/api-clients")].

Definition HTTP : re := RSeqs [RBol false; RStr "http"; ROpt (RChar (Z.eqb 115)); RStr "://"].

Definition joinBase (basePath url : jsstr) : jsstr :=
  if startsWith "#" url || test HTTP url then url
  else str_or (strip_slash basePath ++ (if startsWith "/" url then url else "/" ++ url)) "/".

Definition proto_active (basePath activeUrl : jsstr) (item : jsstr * jsstr) : bool := str_eqb activeUrl (joinBase basePath item.2).

(** A click that the entry handles itself, rather than the browser. *)
Definition proto_click (modifier : bool) (basePath : jsstr) (item : jsstr * jsstr) : option jsstr :=
  if modifier then None else Some (joinBase basePath item.2).

(** ** A tenant's page and the store *)

Record detail_world := { dw_store : store; dw_counter : Z; dw_detail : detail }.

Definition detail_step `{CaseMap} (clock : Z → Z) (id : jsstr) (w : detail_world) (e : detail_event) : detail_world :=
  let '(v, o) := handle_detail id (dw_store w) e (dw_detail w) in
  match o with
  | None => {| dw_store := dw_store w; dw_counter := dw_counter w; dw_detail := v |}
  | Some o => let '(s, _, d) := apply clock o (dw_counter w) (dw_store w) in
              {| dw_store := s; dw_counter := dw_counter w + d; dw_detail := v |}
  end.

(** The rule of the page: one active resource of a definition. *)
Definition one_active (t : PTenant) : Prop := NoDup (activeKeys t).

(** ** The search of icons *)

Section icons.
Context `{CaseMap}.

(** What the service may answer for a term. *)
Context (search : jsstr → list jsstr → Prop).

Definition icon_event_ok (p : picker) (e : icon_event) : Prop :=
  match e with
  | ISettle n (Some icons) => ∀ r, ip_runs p !! n = Some r → search (ir_term r) icons
  | _ => True
  end.

Inductive icon_reachable : picker → Prop :=
  | ir_mount : icon_reachable mount_picker_icons
  | ir_step p e : icon_reachable p → icon_event_ok p e → icon_reachable (icon_step p e).

(** The term of the last effect. *)
Definition seen_term (p : picker) : jsstr := match ip_seen p with Some q => search_term q | None => [] end.

Record icon_inv (p : picker) : Prop := {
  ii_slot : slot ir_active (ip_loading p) (ip_runs p);
  ii_run n r : ip_runs p !! n = Some r → ir_active r = true → ir_term r = seen_term p ∧ truthy (seen_term p) = true;
  ii_results : if truthy (seen_term p) then ip_results p = local_icons (seen_term p) ∨ search (seen_term p) (ip_results p)
               else ip_results p = [];
}.

Lemma cleanup_inactive (m : gmap nat icon_run) n r : omap cleanup m !! n = Some r → ir_active r = false.
Proof.
  rewrite lookup_omap. destruct (m !! n) as [r'|]; [|done]. cbn. unfold cleanup. destruct (ir_sent r'); [|done].
  by intros [= <-].
Qed.

Lemma icon_effect_inv p : icon_inv p → icon_inv (icon_effect p).
Proof.
  intros Hp. unfold icon_effect. destruct (truthy (search_term (ip_q p))) eqn:Et; cbn [negb].
  - constructor; cbn [ip_loading ip_runs ip_results].
    + apply slot_open; [|done]. intros n r. apply cleanup_inactive.
    + unfold seen_term. cbn [ip_seen]. intros n r [[<- <-]|[_ Hr]]%lookup_insert_Some; [done|].
      intros Ha. by rewrite (cleanup_inactive _ _ _ Hr) in Ha.
    + unfold seen_term. cbn [ip_seen]. rewrite Et. by left.
  - constructor; cbn [ip_loading ip_runs ip_results].
    + intros n r. apply cleanup_inactive.
    + intros n r Hr Ha. by rewrite (cleanup_inactive _ _ _ Hr) in Ha.
    + unfold seen_term. cbn [ip_seen]. by rewrite Et.
Qed.

Lemma icon_step_inv p e : icon_event_ok p e → icon_inv p → icon_inv (icon_step p e).
Proof.
  intros He Hp. destruct e as [q| |n|n icons]; cbn [icon_step].
  - by destruct Hp.
  - case_bool_decide; [done|by apply icon_effect_inv].
  - destruct Hp as [Hs Hr Hx]. destruct (ip_runs p !! n) as [r|] eqn:En.
    + assert (E : alter (λ r, {| ir_term := ir_term r; ir_sent := true; ir_active := ir_active r |}) n (ip_runs p)
        = <[n := {| ir_term := ir_term r; ir_sent := true; ir_active := ir_active r |}]> (ip_runs p)).
      { apply map_eq. intros i. destruct (decide (i = n)) as [->|Hne].
        - by rewrite lookup_alter_eq, lookup_insert_eq, En.
        - by rewrite lookup_alter_ne, lookup_insert_ne. }
      constructor; cbn [ip_loading ip_runs ip_results]; rewrite ?E.
      * destruct (ir_active r) eqn:Ea; [by apply (slot_next _ _ _ n _ r)|].
        apply slot_insert; [done|done|]. intros b. rewrite En. by intros [= <-].
      * intros i r' [[<- <-]|[_ Hi]]%lookup_insert_Some Ha; [by apply (Hr n r)|by apply (Hr i r')].
      * exact Hx.
    + rewrite alter_id by (intros r; rewrite En; done). by constructor.
  - destruct (ip_runs p !! n) as [r|] eqn:En; [|done]. destruct (ir_sent r); cbn [negb]; [|done].
    destruct Hp as [Hs Hr Hx]. constructor; cbn [ip_loading ip_runs ip_results].
    + destruct (ir_active r) eqn:Ea; [by apply (slot_close _ _ _ _ r Hs En)|by apply (slot_delete _ _ _ _ r)].
    + intros i r' [_ Hi]%lookup_delete_Some. by apply (Hr i r').
    + unfold seen_term in *. cbn [ip_seen]. destruct (ir_active r) eqn:Ea; [|done].
      destruct (Hr n r En Ea) as [Ht Htt]. rewrite Htt in *. destruct icons as [[|i l]|]; [done| |done].
      right. cbn [icon_event_ok] in He. specialize (He r En). by rewrite Ht in He.
Qed.

(** C36. The icons on show are those of the search at hand, in whatever order requests and replies cross:
    none for an empty search, and otherwise the local ones for its term or an answer of the service to
    that very term; the search is loading exactly while a request for it is under way, and an answer to
    it, or its failure, ends that. *)
Theorem icons_current p :
  icon_reachable p → ip_seen p = Some (ip_q p) →
  let term := search_term (ip_q p) in
  (if truthy term then ip_results p = local_icons term ∨ search term (ip_results p) else ip_results p = []) ∧
  (ip_loading p = true ↔ ∃ n r, ip_runs p !! n = Some r ∧ ir_active r = true ∧ ir_term r = term) ∧
  (∀ n r icons, ip_runs p !! n = Some r → ir_active r = true → ir_sent r = true →
     ip_loading (icon_step p (ISettle n icons)) = false).
Proof.
  intros Hp Hq term. assert (Hi : icon_inv p).
  { clear Hq term. induction Hp as [|p e Hp IH He]; [|by apply icon_step_inv]. constructor; [by intros n r|by intros n r|done]. }
  destruct Hi as [Hs Hr Hx]. unfold seen_term in *. rewrite Hq in *. split_and!; [exact Hx| |].
  - split.
    + intros El. rewrite El in Hs. destruct Hs as [n Hs]. destruct (proj2 (Hs n) eq_refl) as (r & Er & Ha).
      exists n, r. split_and!; [done|done|]. by apply (Hr n r).
    + intros (n & r & Er & Ha & _). by apply (slot_flag _ _ _ _ _ Hs Er).
  - intros n r icons En Ha Hsent. cbn [icon_step]. rewrite En, Hsent. cbn [negb ip_loading]. by rewrite Ha.
Qed.
End icons.

(** ** One active resource of a definition *)

Definition active_keys (l : list PResource) : list jsstr := pr_definitionKey <$> List.filter (λ r, active (pr_status r)) l.

Lemma active_keys_app l k : active_keys (l ++ k) = active_keys l ++ active_keys k.
Proof. unfold active_keys. by rewrite List.filter_app, fmap_app. Qed.

Lemma active_keys_cons r l : active_keys (r :: l) = (if active (pr_status r) then [pr_definitionKey r] else []) ++ active_keys l.
Proof. unfold active_keys. cbn [List.filter]. by destruct (active (pr_status r)). Qed.

Lemma active_keys_elem k l : k ∈ active_keys l ↔ ∃ r, r ∈ l ∧ active (pr_status r) = true ∧ pr_definitionKey r = k.
Proof.
  unfold active_keys. rewrite list_elem_of_fmap. split.
  - intros (r & -> & [Hr Ha]%list_elem_of_In%filter_In). exists r. split_and!; [by apply list_elem_of_In|done..].
  - intros (r & Hr & Ha & <-). exists r. split; [done|]. by apply list_elem_of_In, filter_In; rewrite <- list_elem_of_In.
Qed.

Lemma active_toggled s : active (toggled "active" "inactive" s) = negb (active s).
Proof. unfold active, toggled. by destruct (str_eqb s "active"). Qed.

Lemma without_active id l : active_keys (without pr_id id l) ⊆+ active_keys l.
Proof.
  induction l as [|r l IH]; [done|]. unfold without. cbn [List.filter]. fold (without pr_id id l). rewrite active_keys_cons.
  destruct (negb (str_eqb (pr_id r) id)); [|by apply submseteq_inserts_l].
  rewrite active_keys_cons. by apply submseteq_app.
Qed.

Lemma alter_split {A} (key : A → jsstr) g x l :
  NoDup (key <$> l) → x ∈ l → ∃ l1 l2, l = l1 ++ x :: l2 ∧ alter_by key (key x) g l = l1 ++ g x :: l2.
Proof.
  intros Hn (l1 & l2 & ->)%list_elem_of_split. exists l1, l2. split; [done|].
  rewrite fmap_app, fmap_cons in Hn. apply NoDup_app in Hn as (_ & H1 & [H2 _]%NoDup_cons).
  unfold alter_by. rewrite fmap_app, fmap_cons, str_eqb_refl. f_equal; [|f_equal].
  - apply (alter_none key). intros Hx. apply (H1 _ Hx). by left.
  - by apply (alter_none key).
Qed.

(** Toggling one resource keeps the rule unless it puts a second one beside an active one. *)
Lemma toggle_active rid l :
  NoDup (pr_id <$> l) → NoDup (active_keys l) →
  NoDup (active_keys (alter_by pr_id rid toggle_resource l)) ↔
  ¬ ∃ r r', r ∈ l ∧ r' ∈ l ∧ pr_id r = rid ∧ active (pr_status r) = false ∧ active (pr_status r') = true ∧
            pr_definitionKey r = pr_definitionKey r'.
Proof.
  intros Hn Ha. destruct (decide (rid ∈ pr_id <$> l)) as [Hin|Hout].
  2: { rewrite alter_none by done. split; [|done]. intros _ (r & r' & Hr & _ & <- & _). by apply Hout, list_elem_of_fmap_2. }
  apply list_elem_of_fmap in Hin as (r & -> & Hr). destruct (alter_split pr_id toggle_resource r l Hn Hr) as (l1 & l2 & El & ->).
  assert (Huniq : ∀ r0, r0 ∈ l → pr_id r0 = pr_id r → r0 = r).
  { intros r0 H0 E0. pose proof (find_unique pr_id r l Hn Hr) as F. pose proof (find_unique pr_id r0 l Hn H0) as F0.
    rewrite E0, F in F0. congruence. }
  assert (Hmid : ∀ x, x :: active_keys l1 ++ active_keys l2 ≡ₚ active_keys l1 ++ x :: active_keys l2) by (intros; apply Permutation_middle).
  rewrite active_keys_app, active_keys_cons. cbn [toggle_resource pr_status pr_definitionKey]. rewrite active_toggled.
  rewrite El, active_keys_app, active_keys_cons in Ha. destruct (active (pr_status r)) eqn:Es; cbn [negb app] in *.
  - split; [|intros _].
    + intros _ (r0 & r' & H0 & _ & E0 & Ea & _). rewrite (Huniq r0 H0 E0) in Ea. congruence.
    + rewrite <- Hmid in Ha. by apply NoDup_cons in Ha as [_ ?].
  - rewrite <- Hmid, NoDup_cons. rewrite <- active_keys_app at 1. rewrite active_keys_elem. split.
    + intros [Hno _] (r0 & r' & H0 & H' & E0 & _ & Ea & Ek). rewrite (Huniq r0 H0 E0) in Ek. apply Hno. exists r'.
      rewrite El in H'. apply elem_of_app in H' as [H'|[->|H']%elem_of_cons]; [|congruence|]; (split_and!; [|done|done]); apply elem_of_app; auto.
    + intros Hno. split; [|done]. intros (r' & H' & Ea & Ek). apply Hno. exists r, r'. split_and!; try done.
      rewrite El. apply elem_of_app in H' as [?|?]; apply elem_of_app; [by left|right; by right].
Qed.

(** Where the rule is kept by what is done to one tenant, it is kept by all. *)
Lemma alter_rule (P : PTenant → Prop) id g t ts :
  NoDup (pt_id <$> ts) → List.find (λ t, str_eqb (pt_id t) id) ts = Some t → (∀ u, u ∈ ts → P u) →
  (∀ u, u ∈ alter_by pt_id id g ts → P u) ↔ P (g t).
Proof.
  intros Hn Hf HP. apply find_some in Hf as [Hin%list_elem_of_In Eid]. apply str_eqb_eq in Eid as <-.
  destruct (alter_split pt_id g t ts Hn Hin) as (l1 & l2 & -> & ->). split.
  - intros H. apply H, elem_of_app. right. by left.
  - intros Hg u [Hu|[->|Hu]%elem_of_cons]%elem_of_app; [|done|]; apply HP, elem_of_app; [by left|right; by right].
Qed.

Lemma patched_resources ps t : pt_resources (fold_left (λ t p, patched p t) ps t) = pt_resources t.
Proof. revert t. induction ps as [|p ps IH]; intros t; [done|]. cbn [fold_left]. by rewrite IH. Qed.

Lemma picked_available t ds pick d :
  pickedDef t ds pick = Some d →
  d ∈ ds ∧ active (pd_status d) = true ∧ pd_key d = pick ∧ pd_key d ∉ activeKeys t.
Proof.
  unfold pickedDef, available. intros [Hin Hk]%find_some. apply filter_In in Hin as [Hin Ha].
  apply andb_true_iff in Ha as [Ha Hno]. apply str_eqb_eq in Hk. split_and!; [by apply list_elem_of_In|done|done|].
  apply negb_true_iff in Hno. intros Hin'. apply list_elem_of_In in Hin'.
  assert (existsb (str_eqb (pd_key d)) (activeKeys t) = true); [|congruence].
  apply existsb_exists. exists (pd_key d). split; [done|apply str_eqb_refl].
Qed.

(** What the page offers keeps the rule, and one thing it offers does not: from records in which every
    tenant has at most one active resource of a definition, any event leads to such records again, but
    switching on a resource beside an active one of the same definition, which the list of definitions
    to add was filtered to exclude. *)
Theorem proto_one_active `{CaseMap} clock id w e :
  ids_apart (dw_store w) → (∀ t, t ∈ tenants (dw_store w) → one_active t) →
  (∀ t, t ∈ tenants (dw_store (detail_step clock id w e)) → one_active t) ↔
  ¬ ∃ rid t r r', e = DToggleResource rid ∧
      List.find (λ t, str_eqb (pt_id t) id) (tenants (dw_store w)) = Some t ∧
      r ∈ pt_resources t ∧ r' ∈ pt_resources t ∧ pr_id r = rid ∧ active (pr_status r) = false ∧
      active (pr_status r') = true ∧ pr_definitionKey r = pr_definitionKey r'.
Proof.
  intros Hs Hr. unfold detail_step, handle_detail.
  destruct (List.find (λ t, str_eqb (pt_id t) id) (tenants (dw_store w))) as [t|] eqn:Ef.
  2: { cbn [dw_store]. split; [|done]. intros _ (rid & t & r & r' & _ & ? & _). congruence. }
  pose proof (find_some _ _ Ef) as [Hin%list_elem_of_In Eid]. apply str_eqb_eq in Eid.
  assert (Hquiet : ∀ Q : jsstr → PTenant → PResource → PResource → Prop,
    (∀ rid, e ≠ DToggleResource rid) →
    (∀ u, u ∈ tenants (dw_store w) → one_active u) ↔ ¬ ∃ rid t r r', e = DToggleResource rid ∧ Q rid t r r').
  { intros Q Hne. split; [|done]. intros _ (rid & ? & ? & ? & -> & _). by eapply Hne. }
  assert (Hone : ∀ g, one_active (g t) → (∀ rid, e ≠ DToggleResource rid) → ∀ Q : jsstr → PTenant → PResource → PResource → Prop,
    (∀ u, u ∈ alter_by pt_id (pt_id t) g (tenants (dw_store w)) → one_active u) ↔ ¬ ∃ rid t r r', e = DToggleResource rid ∧ Q rid t r r').
  { intros g Hg Hne Q. rewrite (alter_rule one_active _ g t); [|apply Hs|by rewrite Eid|done]. split; [|done].
    intros _ (rid & ? & ? & ? & -> & _). by eapply Hne. }
  destruct e as [|name slug status| | |key|key value| | |x| |did|rid|rid]; cbn [dw_store]; try (by apply Hquiet).
  - destruct (truthy (trim (dt_name (dw_detail w)))); cbn [negb]; [|by apply Hquiet]. cbn [apply dw_store on_tenants tenants].
    apply Hone; [|done]. unfold one_active, activeKeys. rewrite patched_resources. by apply Hr.
  - destruct (pickedDef t (definitions (dw_store w)) (dt_pick (dw_detail w))) as [d|] eqn:Ed; [|by apply Hquiet].
    destruct (requiredFilled d (dt_values (dw_detail w))); [|by apply Hquiet]. cbn [apply dw_store on_tenants tenants].
    apply Hone; [|done]. apply picked_available in Ed as (_ & _ & _ & Hno). unfold one_active.
    change (NoDup (active_keys (pt_resources t ++ [{| pr_id := id_at clock "r" (dw_counter w); pr_definitionKey := pd_key d;
      pr_definitionName := pd_name d; pr_status := "active"; pr_values := (λ x, (x.1, Some x.2)) <$> dt_values (dw_detail w) |}]))).
    rewrite active_keys_app. apply NoDup_app. split_and!; [by apply (Hr t)| |apply NoDup_singleton].
    intros k Hk ->%list_elem_of_singleton. by apply Hno.
  - destruct (truthy (trim (dt_hostname (dw_detail w)))); cbn [negb]; [|by apply Hquiet]. cbn [apply dw_store on_tenants tenants].
    apply Hone; [|done]. by apply (Hr t).
  - cbn [apply dw_store on_tenants tenants]. apply Hone; [|done]. by apply (Hr t).
  - cbn [apply dw_store on_tenants tenants]. rewrite (alter_rule one_active _ _ t); [|apply Hs|by rewrite Eid|done].
    change (one_active (set_resources (alter_by pr_id rid toggle_resource) t))
      with (NoDup (active_keys (alter_by pr_id rid toggle_resource (pt_resources t)))).
    rewrite toggle_active; [|by apply Hs|by apply (Hr t)]. split; intros Hno.
    + intros (rid' & t' & r & r' & [= <-] & [= <-] & H1). apply Hno. by exists r, r'.
    + intros (r & r' & H1). apply Hno. by exists rid, t, r, r'.
  - cbn [apply dw_store on_tenants tenants]. apply Hone; [|done].
    change (NoDup (active_keys (without pr_id rid (pt_resources t)))).
    eapply submseteq_NoDup; [apply without_active|]. by apply (Hr t).
Qed.

(** A resource is added only of an active definition of which the tenant has none active, with every
    required value given. *)
Theorem proto_resource_offered `{CaseMap} id s v key name values tid :
  (handle_detail id s DSaveResource v).2 = Some (AddResource tid key name values) →
  ∃ t d, t ∈ tenants s ∧ pt_id t = id ∧ tid = id ∧ d ∈ definitions s ∧ pd_key d = key ∧ pd_name d = name ∧
    active (pd_status d) = true ∧ (key ∉ activeKeys t) ∧
    ∀ f, f ∈ pd_fields d → pf_required f = true → ∃ x, prop_get (pf_key f) (dt_values v) = Some x ∧ trim x ≠ [] ∧ (pf_key f, Some x) ∈ values.
Proof.
  unfold handle_detail. destruct (List.find _ (tenants s)) as [t|] eqn:Ef; [|done]. cbn [snd].
  destruct (pickedDef t (definitions s) (dt_pick v)) as [d|] eqn:Ed; [|done].
  destruct (requiredFilled d (dt_values v)) eqn:Er; [|done]. intros [= <- <- <- <-].
  apply find_some in Ef as [Hin%list_elem_of_In Eid%str_eqb_eq]. apply picked_available in Ed as (Hd & Ha & Hk & Hno).
  exists t, d. split_and!; try done. intros f Hf Hreq. unfold requiredFilled in Er. rewrite forallb_forall in Er.
  specialize (Er f). rewrite filter_In in Er. specialize (Er (conj (proj1 (list_elem_of_In _ _) Hf) Hreq)).
  unfold value_at in Er. destruct (prop_get (pf_key f) (dt_values v)) as [x|] eqn:Ex; [|by vm_compute in Er].
  exists x. cbn [default] in Er. apply truthy_spec in Er. split_and!; [done|done|].
  apply prop_get_elem in Ex. apply (list_elem_of_fmap_2 (λ x, (x.1, Some x.2)) _ _ Ex).
Qed.

(** ** Scenes *)

Lemma endsWith_cat s w c : c ≠ 47 → endsWith "/" (s ++ w ++ [c]) = false.
Proof.
  intros Hc. destruct (endsWith "/" (s ++ w ++ [c])) eqn:E; [|done]. apply endsWith_spec in E as [u E].
  rewrite app_assoc in E. apply app_inj_tail in E as [_ ->]. done.
Qed.

Lemma normalize_inner BASE w c : c ≠ 47 → normalizePath (BASE ++ w ++ [c]) = BASE ++ w ++ [c].
Proof.
  intros Hc. unfold normalizePath, strip_slash. rewrite endsWith_cat by done. unfold str_or.
  destruct (BASE ++ w ++ [c]) eqn:E; [|done]. apply app_nil in E as [_ [_ [=]]%app_nil].
Qed.

Lemma normalize_root BASE : normalizePath (BASE ++ "/") = str_or BASE "/".
Proof.
  unfold normalizePath, strip_slash.
  assert (endsWith "/" (BASE ++ "/") = true) as -> by (apply endsWith_spec; by exists BASE).
  rewrite length_app. change (length "/") with 1%nat. by rewrite Nat.add_sub, take_app_length.
Qed.

Lemma str_eqb_app a b c : str_eqb (a ++ b) (a ++ c) = str_eqb b c.
Proof.
  destruct (str_eqb b c) eqn:E; [apply str_eqb_eq in E as ->; apply str_eqb_refl|].
  apply str_eqb_neq. apply str_eqb_neq in E. by intros ?%app_inv_head.
Qed.

Lemma str_eqb_base BASE c w : str_eqb (BASE ++ c :: w) (str_or BASE "/") = if truthy BASE then false else str_eqb (c :: w) "/".
Proof.
  unfold str_or. destruct (truthy BASE) eqn:E.
  - apply str_eqb_neq. intros H. rewrite <- (app_nil_r BASE) in H at 2. by apply app_inv_head in H.
  - destruct BASE; [done|done].
Qed.

Section base.
Context (BASE : jsstr).
Hypothesis (HB : endsWith "/" BASE = false).

Lemma with_base w : withBase BASE (47 :: w) = BASE ++ 47 :: w.
Proof. unfold withBase, str_or. by destruct BASE. Qed.

Lemma join_base w : test HTTP (47 :: w) = false → joinBase BASE (47 :: w) = BASE ++ 47 :: w.
Proof. intros Ht. unfold joinBase. rewrite Ht. unfold strip_slash. rewrite HB. unfold str_or. by destruct BASE. Qed.

Lemma root_normal : normalizePath (ROOT_PATH BASE) = str_or BASE "/".
Proof. replace (ROOT_PATH BASE) with (BASE ++ "/") by (unfold ROOT_PATH, str_or; by destruct BASE). apply normalize_root. Qed.

(** The paths of the scenes but the first, as they are compared. *)
Lemma scene_normal w c : c ≠ 47 → normalizePath (withBase BASE (47 :: w ++ [c])) = BASE ++ 47 :: w ++ [c].
Proof. intros Hc. rewrite with_base. by apply (normalize_inner BASE (47 :: w)). Qed.

Lemma first_normal : normalizePath (withBase BASE "/") = str_or BASE "/".
Proof. change "/" with (47 :: []). rewrite with_base. apply normalize_root. Qed.

Lemma root_other c d w : str_eqb (BASE ++ c :: d :: w) (str_or BASE "/") = false.
Proof. rewrite str_eqb_base. destruct (truthy BASE); [done|]. apply str_eqb_neq. by intros [=]. Qed.

Lemma root_other' c d w : str_eqb (str_or BASE "/") (BASE ++ c :: d :: w) = false.
Proof. pose proof (root_other c d w) as H. apply str_eqb_neq in H. by apply str_eqb_neq. Qed.

Lemma normal_tenants : normalizePath (withBase BASE "/tenants") = BASE ++ "/tenants".
Proof. exact (scene_normal "tenant" 115 ltac:(done)). Qed.
Lemma normal_tenant : normalizePath (withBase BASE "/tenants/:id") = BASE ++ "/tenants/:id".
Proof. exact (scene_normal "tenants/:i" 100 ltac:(done)). Qed.
Lemma normal_definitions : normalizePath (withBase BASE "/resource-definitions") = BASE ++ "/resource-definitions".
Proof. exact (scene_normal "resource-definition" 115 ltac:(done)). Qed.
Lemma normal_definition : normalizePath (withBase BASE "/resource-definitions/:id") = BASE ++ "/resource-definitions/:id".
Proof. exact (scene_normal "resource-definitions/:i" 100 ltac:(done)). Qed.
Lemma normal_clients : normalizePath (withBase BASE "/api-clients") = BASE ++ "/api-clients".
Proof. exact (scene_normal "api-client" 115 ltac:(done)). Qed.

Lemma get_scene s : s ∈ SCENES BASE → getSceneFromPath BASE (sc_path s) = s.
Proof.
  intros Hs. unfold getSceneFromPath. rewrite root_normal.
  assert (Hfind : ∀ n, List.find (λ s, str_eqb (normalizePath (sc_path s)) n) (SCENES BASE) =
    if str_eqb (str_or BASE "/") n then SCENES BASE !! 0%nat
    else if str_eqb (BASE ++ "/tenants") n then SCENES BASE !! 1%nat
    else if str_eqb (BASE ++ "/tenants/:id") n then SCENES BASE !! 2%nat
    else if str_eqb (BASE ++ "/resource-definitions") n then SCENES BASE !! 3%nat
    else if str_eqb (BASE ++ "/resource-definitions/:id") n then SCENES BASE !! 4%nat
    else if str_eqb (BASE ++ "/api-clients") n then SCENES BASE !! 5%nat else None).
  { intros n. unfold SCENES. cbn [List.find sc_path].
    by rewrite first_normal, normal_tenants, normal_tenant, normal_definitions, normal_definition, normal_clients. }
  rewrite Hfind. unfold SCENES in Hs. repeat (apply elem_of_cons in Hs as [->|Hs]; cbn [sc_path]); [..|by apply elem_of_nil in Hs].
  - by rewrite first_normal, str_eqb_refl.
  - rewrite normal_tenants, root_other, root_other', !str_eqb_app. done.
  - rewrite normal_tenant, root_other, root_other', !str_eqb_app. done.
  - rewrite normal_definitions, root_other, root_other', !str_eqb_app. done.
  - rewrite normal_definition, root_other, root_other', !str_eqb_app. done.
  - rewrite normal_clients, root_other, root_other', !str_eqb_app. done.
Qed.

Lemma nav_paths : ((λ i, joinBase BASE i.2) <$> PROTO_NAV) = (sc_path <$> nav_scenes BASE).
Proof.
  unfold PROTO_NAV, nav_scenes, SCENES. cbn [fmap list_fmap List.filter sc_hideInNav sc_path snd negb].
  rewrite (join_base []), (join_base "tenants"), (join_base "resource-definitions"), (join_base "api-clients") by (by vm_compute).
  by rewrite !with_base.
Qed.

(** The scenes of a prototype served under any base: the path of each is recognised as that scene's, going
    on and back is where one was, and the entries of the shell lead to the scenes that are listed, one
    entry being marked on each. *)
Theorem scenes_spec s :
  s ∈ SCENES BASE →
  getSceneFromPath BASE (sc_path s) = s ∧
  next_scene BASE (prev_scene BASE s) = s ∧ prev_scene BASE (next_scene BASE s) = s ∧
  ((λ i, joinBase BASE i.2) <$> PROTO_NAV) = (sc_path <$> nav_scenes BASE) ∧
  (sc_hideInNav s = false → fst <$> List.filter (proto_active BASE (sc_path s)) PROTO_NAV = [sc_label s]).
Proof.
  intros Hs. split_and!; [by apply get_scene| | |exact nav_paths|].
  1-2: unfold SCENES in Hs; repeat (apply elem_of_cons in Hs as [->|Hs]; [reflexivity|]); by apply elem_of_nil in Hs.
  intros Hh.
  assert (E : ∀ u, List.filter (proto_active BASE u) PROTO_NAV =
    (if str_eqb u (BASE ++ "/") then [("Visão geral" : jsstr, "/" : jsstr)] else []) ++
    (if str_eqb u (BASE ++ "/tenants") then [("Tenants" : jsstr, "/tenants" : jsstr)] else []) ++
    (if str_eqb u (BASE ++ "/resource-definitions") then [("Resource Definitions" : jsstr, "/resource-definitions" : jsstr)] else []) ++
    (if str_eqb u (BASE ++ "/api-clients") then [("API Clients" : jsstr, "/api-clients" : jsstr)] else [])).
  { intros u. unfold PROTO_NAV, proto_active. cbn [List.filter snd].
    rewrite (join_base []), (join_base "tenants"), (join_base "resource-definitions"), (join_base "api-clients") by (by vm_compute).
    by repeat case_cond. }
  rewrite E. unfold SCENES in Hs.
  repeat (apply elem_of_cons in Hs as [->|Hs]; [try discriminate Hh; cbn [sc_path sc_label]; rewrite with_base, !str_eqb_app; by vm_compute|]).
  by apply elem_of_nil in Hs.
Qed.
End base.

(** *** Inputs *)

Lemma scenes_spec_witness :
  getSceneFromPath "/proto" "/proto/tenants" = scene_at "/proto" 1 ∧
  getSceneFromPath "/proto" "/proto/tenants/t-acme" = first_scene "/proto".
Proof.
  split; [|by vm_compute]. apply (scenes_spec "/proto" eq_refl (scene_at "/proto" 1)). right. left.
Defined.

Definition has_term (term : jsstr) (icons : list jsstr) : Prop := Forall (λ i, includes term i = true) icons.

Definition searched : picker :=
  fold_left icon_step [IInput "mail"; IEffect; IDebounce 0; IInput "box"; IEffect; IDebounce 1; ISettle 0 (Some ["lucide:mail-x"])]
    mount_picker_icons.

Lemma searched_reachable : icon_reachable has_term searched.
Proof.
  unfold searched. cbn [fold_left].
  apply ir_step; [|intros r; vm_compute; intros [= <-]; repeat constructor].
  repeat (apply ir_step; [|done]). apply ir_mount.
Defined.

Lemma searched_seen : ip_seen searched = Some (ip_q searched) ∧ search_term (ip_q searched) = "box".
Proof. split; vm_compute; reflexivity. Qed.

(** Conversion is to unfold the filter's name before the filter. *)
#[local] Strategy expand [local_icons].

Lemma local_has_term term : has_term term (local_icons term).
Proof. apply Forall_forall. intros i [_ Hi]%list_elem_of_In%filter_In. exact Hi. Qed.

Lemma searched_run : ∃ n r, ip_runs searched !! n = Some r ∧ ir_active r = true ∧ ir_term r = "box".
Proof. exists 1%nat. eexists. split; [vm_compute; reflexivity|]. by split. Qed.

Lemma icons_current_witness : has_term "box" (ip_results searched) ∧ ip_loading searched = true.
Proof.
  destruct searched_seen as [Es Et]. destruct (icons_current has_term searched searched_reachable Es) as (Hr & Hl & _).
  rewrite Et in Hr, Hl. split; [|exact (proj2 Hl searched_run)].
  destruct Hr as [Hr|Hr]; [|exact Hr]. rewrite Hr. exact (local_has_term "box").
Defined.

(** The tenant of the data that has PostgreSQL: switched off, added anew, switched on. *)
Definition twice_events : list detail_event :=
  [DToggleResource "r1"; DOpenAddResource; DChoose "postgres"; DValue "host" "h"; DValue "port" "1"; DValue "database" "d";
   DValue "username" "u"; DValue "password" "p"; DSaveResource].

Definition twice_world : detail_world :=
  fold_left (detail_step demo_clock "t-acme") twice_events {| dw_store := seed; dw_counter := 1; dw_detail := initial_detail |}.

Lemma twice_apart : ids_apart (dw_store twice_world).
Proof. apply ids_are_apart, (bool_decide_unpack _). by vm_compute. Defined.

Lemma twice_rule : ∀ t, t ∈ tenants (dw_store twice_world) → one_active t.
Proof.
  apply Forall_forall. apply (Forall_impl (λ t, bool_decide (NoDup (activeKeys t)) = true));
    [|by intros t ?%bool_decide_eq_true].
  apply (bool_decide_unpack _). by vm_compute.
Defined.

Lemma proto_one_active_witness :
  ¬ ∀ t, t ∈ tenants (dw_store (detail_step demo_clock "t-acme" twice_world (DToggleResource "r1"))) → one_active t.
Proof.
  rewrite (proto_one_active demo_clock "t-acme" twice_world (DToggleResource "r1") twice_apart twice_rule).
  intros Hno. apply Hno.
  exists "r1". eexists. eexists. eexists. split; [reflexivity|]. split; [by vm_compute|]. cbn [pt_resources].
  split; [left|]. split; [right; right; left|]. by vm_compute.
Defined.

Lemma proto_resource_offered_witness :
  ∃ t d, t ∈ tenants seed ∧ pt_id t = "t-globex" ∧ d ∈ definitions seed ∧ pd_key d = "minio" ∧ "minio" ∉ activeKeys t.
Proof.
  destruct (proto_resource_offered "t-globex" seed
    {| dt_name := []; dt_slug := []; dt_status := []; dt_hostname := []; dt_pick := "minio";
       dt_values := [("endpoint", "e"); ("bucket", "b"); ("access_key", "a"); ("secret_key", "s")] |}
    "minio" "MinIO / S3 Bucket" [("endpoint", Some "e"); ("bucket", Some "b"); ("access_key", Some "a"); ("secret_key", Some "s")] "t-globex")
    as (t & d & Ht & Hid & _ & Hd & Hk & _ & _ & Hno & _); [by vm_compute|].
  by exists t, d.
Defined.
