(* ===== verification/Benchmark.v ===== *)
(** * The browser and HTTP benchmark

    [src/web/scripts/benchmark-scale.mjs]: the configuration check, the timed requests and their
    batches, the surfaces driven in the browser with their warm-ups and retries, and the payload that
    [summarize-scale.mjs] reads ([Scale]).  The clock, the server and the browser are a [host]: what
    the [n]-th reading, request and page action gave.  The loops over requests run with fuel;
    [measureHTTP_spec] shows that it never runs out. *)
From Stdlib Require Import ZArith Lia List QArith.
From Stdlib Require Import Strings.Byte.
From stdpp Require Import base list sets.
From S2P Require Import Prelude Numbers Regex JsonRead Scale.
#[local] Open Scope Z_scope.

(** ** The host *)

Record bench_request := { bq_url : jsstr; bq_authorization : jsstr }.

(** A request that was answered, or the error of [fetch] or of reading the body. *)
Record bench_response := { bs_status : Z; bs_body : list Byte.byte }.

(** [fo_started] and [fo_ended] are the readings around it; a failed one settles at [fo_ended]. *)
Record fetch_outcome := {
  fo_started : num; fo_ended : num; fo_answer : result jsstr bench_response;
}.

Record viewport := { vp_width : Z; vp_height : Z }.

(** What is asked of the browser, and what is printed. *)
Inductive action :=
  | Launch (installed_chrome : bool)
  | NewContext (locale : jsstr) (v : viewport)
  | AddInitScript (adminToken : jsstr)
  | NewPage
  | Goto (url : jsstr)
  | WaitForHeading (name : jsstr)
  | SetViewportSize (v : viewport)
  | SetTimeout16
  | Fill (label value : jsstr)
  | DispatchInput (label value : jsstr)
  | ClickSort
  | ElementClickSort
  | Close
  | Log (line : jsstr).

(** [h_act n a]: the error of [a] as the [n]-th action, if it failed. *)
Record host := {
  h_fetch : nat → bench_request → fetch_outcome;
  h_now : nat → num;
  h_act : nat → action → option jsstr;
}.

Inductive failure :=
  | ConfigError
  | NetworkError (m : jsstr)
  | StatusError (path : jsstr) (status : Z)
  | ParseError
  | NullBody
  | RecordsError (path : jsstr) (records : option jv)
  | SampleError (m : jsstr)
  | PageError (m : jsstr)
  | Unfinished.

(** Requests sent, readings taken, actions performed (latest first). *)
Record bench_state := { b_requests : nat; b_readings : nat; b_actions : list action }.

Definition B (A : Type) : Type := bench_state → result failure A * bench_state.

#[export] Instance B_ret : MRet B := λ A a s, (Ok a, s).
#[export] Instance B_bind : MBind B := λ A A' k m s,
  match m s with (Ok a, s') => k a s' | (Err e, s') => (Err e, s') end.

Definition fail {A} (e : failure) : B A := λ s, (Err e, s).
Definition lift {A} (r : result jsstr A) : B A :=
  match r with Ok a => mret a | Err m => fail (SampleError m) end.

(** [try { m } finally { f }] *)
Definition finally {A} (m : B A) (f : B unit) : B A := λ s,
  let '(o, s1) := m s in
  match f s1 with (Err e, s2) => (Err e, s2) | (Ok _, s2) => (o, s2) end.

(** Up to [attempts] attempts; the error of the last one is thrown. *)
Fixpoint tries (attempts : nat) (m : B unit) : B unit := λ s,
  match attempts with
  | O => (Ok tt, s)
  | S k => match m s with
           | (Err e, s') => match k with O => (Err e, s') | S _ => tries k m s' end
           | r => r
           end
  end.

(** ** Configuration *)

Record environment := {
  ev_baseURL : option jsstr; ev_adminToken : option jsstr;
  ev_cardinality : option jsstr; ev_run : option jsstr; ev_outputPath : option jsstr;
  ev_ci : bool; ev_includeMobile : bool;
}.

Record config := {
  baseURL : jsstr; adminToken : jsstr; cardinality : num; bench_run : num; outputPath : jsstr;
}.

(** [Number(process.env.X)] *)
Definition env_number (v : option jsstr) : num :=
  match v with Some s => js_Number s | None => NaN end.

Definition num_truthy (n : num) : bool :=
  match n with NaN => false | Fin q => negb (q_zero q) | Infinite _ => true end.

Definition configure (e : environment) : result failure config :=
  match ev_baseURL e, ev_adminToken e, ev_outputPath e with
  | Some u, Some t, Some o =>
    let c := env_number (ev_cardinality e) in
    let r := env_number (ev_run e) in
    if negb (truthy u) || negb (truthy t) || negb (num_truthy c) || negb (num_truthy r) || negb (truthy o)
    then Err ConfigError
    else Ok {| baseURL := u; adminToken := t; cardinality := c; bench_run := r; outputPath := o |}
  | _, _, _ => Err ConfigError
  end.

Record endpoint := { ep_id : jsstr; ep_path : jsstr }.

Definition endpoints : list endpoint := [
  {| ep_id := "tenants"; ep_path := "/v1/admin/tenants" |};
  {| ep_id := "definitions"; ep_path := "/v1/admin/resource-definitions" |};
  {| ep_id := "api-clients"; ep_path := "/v1/admin/api-clients" |};
  {| ep_id := "overview"; ep_path := "/v1/admin/overview" |} ].

(** ** Requests *)

Record sample := { sp_bytes : Z; sp_durationMs : num }.

Record batch := { ba_durationMs : num; ba_requests : nat; ba_throughputPerSecond : num }.

Record http_measure := {
  hm_batches : list batch; hm_bytes : Z; hm_concurrency : nat; hm_samples : list num;
  hm_summary : sample_summary;
}.

(** [v?.length] *)
Definition length_of (v : jv) : option jv :=
  match v with
  | VArr l => Some (VNum (num_of_Z (Z.of_nat (length l))))
  | VStr s => Some (VNum (num_of_Z (Z.of_nat (length s))))
  | VObj o => JsonRead.prop_get "length" o
  | _ => None
  end.

(** [Array.isArray(decoded) ? decoded.length : decoded.tenantCards?.length] *)
Definition responseCardinality (decoded : jv) : result failure (option jv) :=
  match decoded with
  | VArr _ => Ok (length_of decoded)
  | VNull => Err NullBody
  | VObj o => Ok (JsonRead.prop_get "tenantCards" o ≫= length_of)
  | _ => Ok None
  end.

Definition num_eqb (a b : num) : bool := num_le a b && num_le b a.

(** The loop ends within this many batches. *)
Definition SAMPLES : nat := 100.
Definition WARMUPS : nat := 10.

Section driver.
Context (decode : list Byte.byte → jsstr).     (* [new TextDecoder().decode] *)
Context (W : host) (c : config).

Definition now : B num := λ s,
  (Ok (h_now W (b_readings s)),
   {| b_requests := b_requests s; b_readings := S (b_readings s); b_actions := b_actions s |}).

Definition note (a : action) (s : bench_state) : bench_state :=
  {| b_requests := b_requests s; b_readings := b_readings s; b_actions := a :: b_actions s |}.

(** An action that may fail, and one that does not. *)
Definition perform (a : action) : B unit := λ s,
  (match h_act W (length (b_actions s)) a with Some m => Err (PageError m) | None => Ok tt end, note a s).
Definition say (a : action) : B unit := λ s, (Ok tt, note a s).

Definition fetch_of (path : jsstr) (n : nat) : fetch_outcome :=
  h_fetch W n {| bq_url := baseURL c ++ path; bq_authorization := "Bearer " ++ adminToken c |}.

(** [timedFetch] as the [n]-th request: when it settles, with what. *)
Definition timedFetch (path : jsstr) (n : nat) : num * result failure sample :=
  let f := fetch_of path n in
  (fo_ended f,
   match fo_answer f with
   | Err m => Err (NetworkError m)
   | Ok r =>
     if negb ((200 <=? bs_status r) && (bs_status r <=? 299)) then Err (StatusError path (bs_status r))
     else match JSON_parse (decode (bs_body r)) with
          | None => Err ParseError
          | Some decoded =>
            records <-? responseCardinality decoded;;
            match records with
            | Some (VNum k) =>
              if num_eqb k (cardinality c)
              then Ok {| sp_bytes := Z.of_nat (length (bs_body r));
                         sp_durationMs := num_sub (fo_ended f) (fo_started f) |}
              else Err (RecordsError path records)
            | _ => Err (RecordsError path records)
            end
          end
   end).

(** The rejection that settles first. *)
Definition first_failure (l : list (num * result failure sample)) : option failure :=
  snd <$> fold_left (λ acc f,
    match f.2, acc with
    | Err e, Some (t, _) => if num_lt f.1 t then Some (f.1, e) else acc
    | Err e, None => Some (f.1, e)
    | Ok _, _ => acc
    end) l None.

(** [Promise.all] over requests sent together. *)
Definition fetch_all (path : jsstr) (n : nat) : B (list sample) := λ s,
  let fs := map (timedFetch path) (seq (b_requests s) n) in
  (match first_failure fs with
   | Some e => Err e
   | None => Ok (omap (λ f, match f.2 with Ok x => Some x | Err _ => None end) fs)
   end,
   {| b_requests := b_requests s + n; b_readings := b_readings s; b_actions := b_actions s |}).

(** The warm-up requests, one after the other. *)
Fixpoint warm_up (n : nat) (path : jsstr) : B unit :=
  match n with
  | O => mret tt
  | S n' => _ ← fetch_all path 1; warm_up n' path
  end.

Fixpoint batches_loop (fuel : nat) (path : jsstr) (concurrency : nat) (samples : list num) (bytes : Z)
    (batches : list batch) : B (list num * Z * list batch) :=
  if (length samples <? SAMPLES)%nat then
    match fuel with
    | O => fail Unfinished
    | S fuel' =>
      let batchSize := Nat.min concurrency (SAMPLES - length samples) in
      batchStarted ← now;
      batch ← fetch_all path batchSize;
      ended ← now;
      let batchDurationMs := num_sub ended batchStarted in
      batches_loop fuel' path concurrency (samples ++ map sp_durationMs batch)
        (from_option sp_bytes bytes (last batch))
        (batches ++ [{| ba_durationMs := batchDurationMs; ba_requests := batchSize;
                        ba_throughputPerSecond :=
                          num_div (num_of_Z (Z.of_nat batchSize * 1000)) batchDurationMs |}])
    end
  else mret (samples, bytes, batches).

Definition measureHTTP (path : jsstr) (concurrency : nat) : B http_measure :=
  _ ← warm_up WARMUPS path;
  '(samples, bytes, batches) ← batches_loop SAMPLES path concurrency [] 0 [];
  sum ← lift (summary samples);
  mret {| hm_batches := batches; hm_bytes := bytes; hm_concurrency := concurrency;
          hm_samples := samples; hm_summary := sum |}.

(** ** The browser *)

Record profile := { pf_id : jsstr; pf_renderIterations : nat; pf_renderWarmups : nat; pf_viewport : viewport }.

Inductive surface_kind := Render | Table (filterValue searchLabel : jsstr).

Record surface := { sf_apiPath : jsstr; sf_id : jsstr; sf_path : jsstr; sf_heading : jsstr; sf_kind : surface_kind }.

Definition surfaces : list surface := [
  {| sf_apiPath := "/v1/admin/overview"; sf_id := "overview"; sf_path := "/";
     sf_heading := "Visão geral"; sf_kind := Render |};
  {| sf_apiPath := "/v1/admin/resource-definitions"; sf_id := "definitions"; sf_path := "/resource-definitions";
     sf_heading := "Definições de recurso"; sf_kind := Render |};
  {| sf_apiPath := "/v1/admin/tenants"; sf_id := "tenants"; sf_path := "/tenants"; sf_heading := "Tenants";
     sf_kind := Table "Benchmark Tenant 00001" "Buscar por nome ou slug..." |};
  {| sf_apiPath := "/v1/admin/api-clients"; sf_id := "api-clients"; sf_path := "/api-clients";
     sf_heading := "Chaves de API";
     sf_kind := Table "Benchmark Client 00001" "Buscar por nome, data ou status..." |} ].

Definition mobile (p : profile) : bool := str_eqb (pf_id p) "mobile".

Definition open_surface (f : surface) : B unit :=
  _ ← perform (Goto (baseURL c ++ sf_path f)); perform (WaitForHeading (sf_heading f)).

(** One timed step, kept once the warm-ups are over. *)
Definition timed (warm : bool) (step : B unit) (samples : list num) : B (list num) :=
  started ← now;
  _ ← step;
  _ ← say SetTimeout16;
  if warm then mret samples
  else (ended ← now; mret (samples ++ [num_sub ended started])).

Definition render_step (p : profile) (f : surface) (i : nat) : B unit :=
  if mobile p
  then perform (SetViewportSize {| vp_width := if Nat.even i then 391 else 390; vp_height := 844 |})
  else tries 2 (open_surface f).

Fixpoint render_loop (p : profile) (f : surface) (left i : nat) (samples : list num) : B (list num) :=
  match left with
  | O => mret samples
  | S n =>
    samples' ← timed (i <? pf_renderWarmups p)%nat (render_step p f i) samples;
    render_loop p f n (S i) samples'
  end.

Definition filter_step (p : profile) (label filterValue : jsstr) (i : nat) : B unit :=
  let nextFilter := if Nat.even i then filterValue else [] in
  if mobile p then perform (DispatchInput label nextFilter) else perform (Fill label nextFilter).

Definition sort_step (p : profile) : B unit :=
  if mobile p then perform ElementClickSort else perform ClickSort.

Fixpoint table_loop (p : profile) (label filterValue : jsstr) (left i : nat) (filters sorts : list num) :
    B (list num * list num) :=
  match left with
  | O => mret (filters, sorts)
  | S n =>
    filters' ← timed (i <? 5)%nat (filter_step p label filterValue i) filters;
    sorts' ← timed (i <? 5)%nat (sort_step p) sorts;
    table_loop p label filterValue n (S i) filters' sorts'
  end.

Definition measured (samples : list num) : B (list num * sample_summary) :=
  sum ← lift (summary samples); mret (samples, sum).

(** The metrics of a surface by name. *)
Abbreviation surface_result := (list (jsstr * (list num * sample_summary))).

Definition measure_surface (p : profile) (f : surface) : B (jsstr * surface_result) :=
  _ ← say (Log ("browser " ++ pf_id p ++ "/" ++ sf_id f));
  _ ← (if mobile p then tries 2 (open_surface f) else mret tt);
  renderSamples ← render_loop p f (pf_renderIterations p) 0 [];
  render ← measured renderSamples;
  let key := pf_id p ++ "-" ++ sf_id f in
  match sf_kind f with
  | Render => mret (key, [("render", render)])
  | Table filterValue label =>
    '(filters, sorts) ← table_loop p label filterValue 35 0 [] [];
    filter ← measured filters;
    sort ← measured sorts;
    mret (key, [("render", render); ("filter", filter); ("sort", sort)])
  end.

Fixpoint measure_surfaces (p : profile) (fs : list surface) (result : list (jsstr * surface_result)) :
    B (list (jsstr * surface_result)) :=
  match fs with
  | [] => mret result
  | f :: rest =>
    r ← measure_surface p f;
    measure_surfaces p rest (prop_set r.1 r.2 result)
  end.

Definition measureBrowser (ci : bool) (p : profile) : B (list (jsstr * surface_result)) :=
  _ ← perform (Launch (negb ci));
  _ ← perform (NewContext "pt-BR" (pf_viewport p));
  _ ← perform (AddInitScript (adminToken c));
  _ ← perform NewPage;
  finally (measure_surfaces p surfaces []) (perform Close).

Definition desktop_profile : profile :=
  {| pf_id := "desktop"; pf_renderIterations := 35; pf_renderWarmups := 5;
     pf_viewport := {| vp_width := 1440; vp_height := 900 |} |}.
Definition mobile_profile : profile :=
  {| pf_id := "mobile"; pf_renderIterations := 35; pf_renderWarmups := 5;
     pf_viewport := {| vp_width := 390; vp_height := 844 |} |}.

(** ** The run *)

Fixpoint measure_endpoints (es : list endpoint) (http : list (jsstr * (http_measure * http_measure))) :
    B (list (jsstr * (http_measure * http_measure))) :=
  match es with
  | [] => mret http
  | e :: rest =>
    concurrency1 ← measureHTTP (ep_path e) 1;
    concurrency10 ← measureHTTP (ep_path e) 10;
    measure_endpoints rest (prop_set (ep_id e) (concurrency1, concurrency10) http)
  end.

(** [Object.assign(a, b)] *)
Definition assign_all {A} (a b : list (jsstr * A)) : list (jsstr * A) :=
  fold_left (λ o kv, prop_set kv.1 kv.2 o) b a.

Record payload := {
  pl_cardinality : num; pl_run : num;
  pl_viewports : list jsstr;
  pl_http : list (jsstr * (http_measure * http_measure));
  pl_browser : list (jsstr * surface_result);
}.

Definition bench (ci includeMobile : bool) : B payload :=
  http ← measure_endpoints endpoints [];
  desktop ← measureBrowser ci desktop_profile;
  browser ← (if includeMobile : bool
             then (m ← measureBrowser ci mobile_profile; mret (assign_all desktop m))
             else mret desktop);
  mret {| pl_cardinality := cardinality c; pl_run := bench_run c;
          pl_viewports := if includeMobile then ["1440x900"; "390x844"] else ["1440x900"];
          pl_http := http; pl_browser := browser |}.
End driver.

Definition main (decode : list Byte.byte → jsstr) (W : host) (e : environment) : result failure payload :=
  c <-? configure e;;
  (bench decode W c (ev_ci e) (ev_includeMobile e)
     {| b_requests := 0; b_readings := 0; b_actions := [] |}).1.

(** ** What the summary reads of a payload *)

(** A number that went through [JSON]: one that is not finite comes back as [null], zero where it is
    compared; one that was [undefined] is absent, not a number. *)
Definition reread (n : option num) : num :=
  match n with Some x => if isFinite x then x else Fin 0 | None => NaN end.

Definition payload_http (h : http_measure * http_measure) : endpoint_measure :=
  {| em_bytes := hm_bytes h.1; em_p95_1 := reread (ss_p95Ms (hm_summary h.1));
     em_p95_10 := reread (ss_p95Ms (hm_summary h.2)) |}.

Definition payload_measurement (p : payload) : option measurement :=
  size ← num_int (pl_cardinality p);
  run ← num_int (pl_run p);
  Some {| ms_cardinality := size; ms_run := run;
          ms_http := map (λ e, (e.1, payload_http e.2)) (pl_http p);
          ms_browser := map (λ s, (s.1, map (λ m, (m.1, reread (ss_p95Ms m.2.2))) s.2)) (pl_browser p) |}.

(** ** Lemmas *)

Lemma B_bind_ok {A A'} (k : A → B A') (m : B A) s b s' :
  (m ≫= k) s = (Ok b, s') ↔ ∃ a s1, m s = (Ok a, s1) ∧ k a s1 = (Ok b, s').
Proof.
  unfold mbind, B_bind. destruct (m s) as [[a|e] s1]; [naive_solver|]. split; [done|naive_solver].
Qed.

Ltac bench_ok H :=
  repeat match type of H with
  | (_ ≫= _) _ = (Ok _, _) =>
    let a := fresh "a" in let s := fresh "s" in let Ha := fresh "Ha" in
    apply B_bind_ok in H as (a & s & Ha & H)
  end.

Lemma summary_ok l : l ≠ [] → ∃ q, summary l = Ok q ∧ ss_count q = length l.
Proof.
  intros Hl. unfold summary, nearestRank.
  destruct (length l =? 0)%nat eqn:E; [by apply Nat.eqb_eq, nil_length_inv in E|].
  change (num_le p50 (Fin 0) || num_lt (Fin 1) p50) with false.
  change (num_le p95 (Fin 0) || num_lt (Fin 1) p95) with false. cbn. eauto.
Qed.

Section requests.
Context (decode : list Byte.byte → jsstr) (W : host) (c : config) (path : jsstr).
Implicit Types (s : bench_state) (n : nat).

Definition answered n : bool := is_ok (timedFetch decode W c path n).2.

Definition sample_at n : sample :=
  match (timedFetch decode W c path n).2 with Ok x => x | Err _ => {| sp_bytes := 0; sp_durationMs := NaN |} end.

Definition all_answered (from n : nat) : bool := forallb answered (seq from n).

Lemma all_answered_app from n m :
  all_answered from (n + m) = all_answered from n && all_answered (from + n) m.
Proof. unfold all_answered. by rewrite seq_app, forallb_app. Qed.

(** A request never fails as the loops do. *)
Lemma timedFetch_finished n : (timedFetch decode W c path n).2 ≠ Err Unfinished.
Proof.
  unfold timedFetch. cbn. destruct (fo_answer _) as [r|m]; [|done]. case_match; [done|].
  destruct (JSON_parse _) as [v|]; [|done]. destruct v as [| | | |l|o]; cbn; try done; repeat case_match; done.
Qed.

Lemma first_failure_fold fs acc :
  (∀ x, acc = Some x → x.2 ≠ Unfinished) → (∀ f, f ∈ fs → f.2 ≠ Err Unfinished) →
  match fold_left (λ acc (f : num * result failure sample),
    match f.2, acc with
    | Err e, Some (t, _) => if num_lt f.1 t then Some (f.1, e) else acc
    | Err e, None => Some (f.1, e)
    | Ok _, _ => acc
    end) fs acc with
  | None => acc = None ∧ forallb (λ f, is_ok f.2) fs = true
  | Some x => x.2 ≠ Unfinished ∧ (acc = None → forallb (λ f, is_ok f.2) fs = false)
  end.
Proof.
  revert acc. induction fs as [|[t [x|e]] fs IH]; intros acc Hacc Hfs; cbn [fold_left].
  - destruct acc as [x|]; [split; [by apply Hacc|done]|done].
  - apply IH; [done|]. intros f Hf. apply Hfs. by right.
  - assert (He : e ≠ Unfinished) by (intros ->; apply (Hfs (t, Err Unfinished)); [left|done]).
    match goal with |- context [fold_left _ fs ?acc'] => assert (Hacc' : ∀ x, acc' = Some x → x.2 ≠ Unfinished) end.
    { intros x. destruct acc as [[t' e']|]; cbn; [case_match|]; intros [= <-]; try done. by apply (Hacc (t', e')). }
    specialize (IH _ Hacc' ltac:(intros f Hf; apply Hfs; by right)).
    cbn [snd] in *. destruct (fold_left _ fs _) as [x|]; [by destruct IH|]. destruct IH as [IH _].
    destruct acc as [[t' e']|]; [case_match|]; done.
Qed.

Lemma fetch_all_spec n s :
  ∃ o s', fetch_all decode W c path n s = (o, s') ∧
    b_requests s' = (b_requests s + n)%nat ∧ b_actions s' = b_actions s ∧
    if all_answered (b_requests s) n then o = Ok (map sample_at (seq (b_requests s) n))
    else ∃ e, o = Err e ∧ e ≠ Unfinished.
Proof.
  unfold fetch_all. eexists _, _. split; [reflexivity|]. split; [done|]. split; [done|]. unfold first_failure.
  set (fs := map _ _). pose proof (first_failure_fold fs None) as H.
  assert (Hall : forallb (λ f, is_ok f.2) fs = all_answered (b_requests s) n).
  { unfold fs, all_answered, answered. clear. induction (seq _ _) as [|k l IH]; [done|].
    cbn [map forallb]. by rewrite IH. }
  assert (Hfs : ∀ f, f ∈ fs → f.2 ≠ Err Unfinished).
  { intros f (k & -> & _)%list_elem_of_fmap. apply timedFetch_finished. }
  specialize (H ltac:(done) Hfs). clear Hfs. destruct (fold_left _ _ _) as [[t e]|].
  - destruct H as [He Hn]. rewrite <- Hall, (Hn eq_refl). eauto.
  - destruct H as [_ H]. rewrite <- Hall, H. cbn. f_equal. revert H. unfold fs.
    clear. induction (seq _ _) as [|k l IH]; [done|]. cbn [map forallb omap list_omap]. unfold sample_at at 1.
    destruct (timedFetch decode W c path k) as [t [x|e]]; cbn [snd is_ok andb]; [|done]. intros Hl. by rewrite IH.
Qed.

Lemma warm_up_spec n s :
  ∃ o s', warm_up decode W c n path s = (o, s') ∧ b_actions s' = b_actions s ∧
    if all_answered (b_requests s) n then o = Ok tt ∧ b_requests s' = (b_requests s + n)%nat
    else ∃ e, o = Err e ∧ e ≠ Unfinished.
Proof.
  revert s. induction n as [|n IH]; intros s.
  { eexists _, _. split; [reflexivity|]. split; [done|].
    change (all_answered _ 0) with true. cbn. split; [done|lia]. }
  cbn [warm_up]. destruct (fetch_all_spec 1 s) as (o & s1 & Hf & Hr & Ha & Ho).
  unfold mbind, B_bind. rewrite Hf. change (S n) with (1 + n)%nat. rewrite all_answered_app.
  destruct (all_answered (b_requests s) 1) eqn:E1; cbn [andb].
  - rewrite Ho. destruct (IH s1) as (o2 & s2 & -> & Ha2 & H2). rewrite Hr in H2.
    eexists _, _. split; [done|]. split; [congruence|]. case_match; [|done].
    destruct H2 as [-> ->]. split; [done|lia].
  - destruct Ho as (e & -> & He). eexists _, _. split; [done|]. split; [done|]. eauto.
Qed.

(** What the batches make of the samples still to take. *)
Definition batch_sizes_ok (concurrency total : nat) (bs : list batch) : Prop :=
  Forall (λ b, 1 <= ba_requests b <= concurrency)%nat bs ∧ sum_list_with ba_requests bs = total.

Definition last_bytes (bytes : Z) (from n : nat) : Z :=
  match n with O => bytes | S k => sp_bytes (sample_at (from + k)) end.

Lemma last_bytes_app bytes from n m :
  last_bytes (last_bytes bytes from n) (from + n) m = last_bytes bytes from (n + m).
Proof.
  destruct m as [|m]; cbn; [by rewrite Nat.add_0_r|]. rewrite Nat.add_succ_r. cbn. do 2 f_equal. lia.
Qed.

Lemma last_batch bytes from n :
  from_option sp_bytes bytes (last (map sample_at (seq from n))) = last_bytes bytes from n.
Proof.
  destruct n as [|n]; [done|]. by rewrite seq_S, map_app; cbn [map]; rewrite last_snoc.
Qed.

Lemma batches_loop_spec concurrency fuel samples bytes bs s :
  (1 <= concurrency)%nat → (length samples <= SAMPLES)%nat → (SAMPLES - length samples <= fuel)%nat →
  let k := (SAMPLES - length samples)%nat in
  ∃ o s', batches_loop decode W c fuel path concurrency samples bytes bs s = (o, s') ∧
    b_actions s' = b_actions s ∧
    if all_answered (b_requests s) k
    then b_requests s' = (b_requests s + k)%nat ∧
         ∃ more, batch_sizes_ok concurrency k more ∧
           o = Ok (samples ++ map (λ n, sp_durationMs (sample_at n)) (seq (b_requests s) k),
                   last_bytes bytes (b_requests s) k, bs ++ more)
    else ∃ e, o = Err e ∧ e ≠ Unfinished.
Proof.
  intros Hc. revert samples bytes bs s. induction fuel as [|fuel IH]; intros samples bytes bs s Hl Hf; cbn [batches_loop].
  - replace (length samples <? SAMPLES)%nat with false by (symmetry; apply Nat.ltb_ge; lia).
    replace (SAMPLES - length samples)%nat with 0%nat by lia. eexists _, _. split; [done|]. split; [done|].
    change (all_answered _ 0) with true. cbn. split; [lia|]. exists []. by rewrite !app_nil_r.
  - destruct (length samples <? SAMPLES)%nat eqn:E.
    2:{ apply Nat.ltb_ge in E. replace (SAMPLES - length samples)%nat with 0%nat by lia. eexists _, _. split; [done|]. split; [done|].
        change (all_answered _ 0) with true. cbn. split; [lia|]. exists []. by rewrite !app_nil_r. }
    apply Nat.ltb_lt in E. set (n := Nat.min concurrency (SAMPLES - length samples)).
    assert (Hn : (1 <= n <= concurrency)%nat) by (unfold n; lia). set (k := (SAMPLES - length samples)%nat).
    assert (Hk : k = (n + (k - n))%nat) by (unfold k, n; lia).
    unfold mbind at 1, B_bind at 1, now at 1.
    match goal with |- context [fetch_all decode W c path n] =>
      match goal with |- context [{| b_requests := b_requests s; b_readings := ?r; b_actions := ?a |}] =>
        destruct (fetch_all_spec n {| b_requests := b_requests s; b_readings := r; b_actions := a |})
          as (o & s1 & Hf1 & Hr1 & Ha1 & Ho1) end end.
    cbn in Hr1, Ha1, Ho1. unfold mbind at 1, B_bind at 1. rewrite Hf1. rewrite Hk, all_answered_app.
    destruct (all_answered (b_requests s) n) eqn:E1; cbn [andb].
    + rewrite Ho1. unfold mbind at 1, B_bind at 1, now at 1. rewrite map_map, last_batch.
      match goal with |- context [batches_loop _ _ _ fuel path concurrency ?sm ?by' ?bb ?st] =>
        destruct (IH sm by' bb st) as (o2 & s2 & -> & Ha2 & H2) end.
      * rewrite length_app, length_map, length_seq. lia.
      * rewrite length_app, length_map, length_seq. lia.
      * cbn [b_requests b_actions] in Ha2, H2. rewrite length_app, length_map, length_seq in H2.
        replace (SAMPLES - (length samples + n))%nat with (k - n)%nat in H2 by lia. rewrite Hr1 in H2.
        eexists _, _. split; [reflexivity|]. split; [congruence|].
        destruct (all_answered (b_requests s + n) (k - n)); [|done].
        destruct H2 as (Hr2 & more & [Hm1 Hm2] & ->). split; [unfold k in *; lia|].
        eexists (_ :: more). split; [|rewrite seq_app, map_app, last_bytes_app, <- !app_assoc; reflexivity].
        split.
        -- constructor; [exact Hn|done].
        -- change (n + sum_list_with ba_requests more = n + (k - n))%nat. by rewrite Hm2.
    + destruct Ho1 as (e & -> & He). eexists _, _. split; [done|]. split; [done|]. eauto.
Qed.
End requests.

(** *** Timed steps of the browser *)

Section browser.
Context (W : host) (c : config).

Lemma timed_ok warm step l s l' s' :
  timed W warm step l s = (Ok l', s') →
  if warm : bool then l' = l else ∃ x, l' = l ++ [x].
Proof.
  unfold timed. intros H. bench_ok H. destruct warm; [by injection H as <- <-|].
  bench_ok H. injection H as <- <-. eauto.
Qed.

Lemma timed_count (b : bool) step l s l' s' :
  timed W b step l s = (Ok l', s') → length l' = (length l + if b then 0 else 1)%nat.
Proof.
  intros H%timed_ok. destruct b; [subst; lia|]. destruct H as (x & ->). rewrite length_app. cbn. lia.
Qed.

Lemma render_loop_count p f left i l s l' s' :
  render_loop W c p f left i l s = (Ok l', s') →
  length l' = (length l + ((i + left) - Nat.max i (pf_renderWarmups p)))%nat.
Proof.
  revert i l s. induction left as [|n IH]; cbn [render_loop]; intros i l s H.
  - injection H as <- <-. lia.
  - apply B_bind_ok in H as (l1 & s1 & Ht%timed_count & H%IH).
    destruct (Nat.ltb_spec i (pf_renderWarmups p)); lia.
Qed.

Lemma table_loop_count p label value left i fs ss s fs' ss' s' :
  table_loop W p label value left i fs ss s = (Ok (fs', ss'), s') →
  length fs' = (length fs + ((i + left) - Nat.max i 5))%nat ∧
  length ss' = (length ss + ((i + left) - Nat.max i 5))%nat.
Proof.
  revert i fs ss s. induction left as [|n IH]; cbn [table_loop]; intros i fs ss s H.
  - injection H as <- <- <-. lia.
  - apply B_bind_ok in H as (f1 & s1 & Hf%timed_count & H).
    apply B_bind_ok in H as (g1 & s2 & Hg%timed_count & [H1 H2]%IH).
    destruct (Nat.ltb_spec i 5); lia.
Qed.

(** A metric of [n] samples with their summary. *)
Definition metric_of (name : jsstr) (n : nat) (m : jsstr * (list num * sample_summary)) : Prop :=
  m.1 = name ∧ length m.2.1 = n ∧ summary m.2.1 = Ok m.2.2.

Lemma measured_ok name n l s m s' :
  measured l s = (Ok m, s') → length l = n → metric_of name n (name, m).
Proof.
  unfold measured. intros (q & s1 & Hq & H)%B_bind_ok. injection H as <- <-. unfold lift in Hq.
  destruct (summary l) as [q'|] eqn:E; [|done]. injection Hq as -> ->. done.
Qed.

(** The metrics of a surface: the loads kept after the warm-ups and, for a table, thirty filter and
    thirty sort samples. *)
Definition metrics_of (p : profile) (f : surface) (ms : list (jsstr * (list num * sample_summary))) : Prop :=
  Forall2 (λ name m, metric_of name.1 name.2 m)
    (("render", pf_renderIterations p - pf_renderWarmups p)%nat ::
     match sf_kind f with Render => [] | Table _ _ => [("filter", 30%nat); ("sort", 30%nat)] end) ms.

Lemma measure_surface_ok p f s r s' :
  measure_surface W c p f s = (Ok r, s') → r.1 = pf_id p ++ "-" ++ sf_id f ∧ metrics_of p f r.2.
Proof.
  unfold measure_surface. intros H. do 4 apply B_bind_ok in H as (? & ? & ? & H).
  repeat match goal with
  | Hl : render_loop _ _ _ _ _ _ _ _ = _ |- _ => apply render_loop_count in Hl; cbn [length] in Hl
  | Hm : measured ?l _ = _ |- _ =>
    apply (measured_ok "render" (pf_renderIterations p - pf_renderWarmups p)) in Hm; [|cbn in *; lia]
  end.
  unfold metrics_of. destruct (sf_kind f) as [|value label].
  - injection H as <- <-. split; [done|]. repeat (constructor; [eassumption|]). constructor.
  - apply B_bind_ok in H as ([fs ss] & ? & Ht & H). apply table_loop_count in Ht as [Hf Hs].
    apply B_bind_ok in H as (mf & ? & Hmf & H). apply (measured_ok "filter" 30) in Hmf; [|exact Hf].
    apply B_bind_ok in H as (ms & ? & Hms & H). apply (measured_ok "sort" 30) in Hms; [|exact Hs].
    injection H as <- <-. split; [done|]. repeat (constructor; [eassumption|]). constructor.
Qed.

Lemma measure_surfaces_ok p fs acc s r s' :
  NoDup (map (λ f, pf_id p ++ "-" ++ sf_id f) fs) →
  (∀ f, f ∈ fs → pf_id p ++ "-" ++ sf_id f ∉ acc.*1) →
  measure_surfaces W c p fs acc s = (Ok r, s') →
  ∃ more, r = acc ++ more ∧
    Forall2 (λ f m, m.1 = pf_id p ++ "-" ++ sf_id f ∧ metrics_of p f m.2) fs more.
Proof.
  revert acc s. induction fs as [|f fs IH]; cbn [measure_surfaces map]; intros acc s Hn Hacc H.
  - injection H as <- <-. exists []. by rewrite app_nil_r.
  - apply NoDup_cons in Hn as [Hf Hn]. apply B_bind_ok in H as (m & s1 & [Hk Hm]%measure_surface_ok & H).
    assert (Hset : prop_set m.1 m.2 acc = acc ++ [m]).
    { specialize (Hacc f ltac:(left)). rewrite <- Hk in Hacc. clear -Hacc. induction acc as [|[k v] o IHo].
      - by destruct m.
      - cbn. destruct (str_eqb k m.1) eqn:E; [apply str_eqb_eq in E as ->; set_solver|].
        f_equal. apply IHo. set_solver. }
    rewrite Hset in H. apply (IH _ _ Hn) in H as (more & -> & Hmore).
    2:{ intros g Hg. rewrite fmap_app, elem_of_app. cbn. rewrite Hk. intros [?|Hin%list_elem_of_singleton].
      - by apply (Hacc g); [right|].
      - apply Hf. rewrite <- Hin. by apply (list_elem_of_fmap_2 (λ f, pf_id p ++ "-" ++ sf_id f)). }
    exists (m :: more). split; [by rewrite <- app_assoc|]. by constructor.
Qed.

Lemma perform_last a s o s' : perform W a s = (o, s') → b_actions s' = a :: b_actions s ∧ ∀ e, o = Err e → ∃ m, e = PageError m.
Proof.
  unfold perform. intros [= <- <-]. split; [done|]. case_match; intros e [= <-]. eauto.
Qed.

(** An action before the browser is closed in the end. *)
Definition opening (a : action) : bool :=
  match a with Launch _ | NewContext _ _ | AddInitScript _ | NewPage => true | _ => false end.

Lemma opening_step a (k : unit → B (list (jsstr * list (jsstr * (list num * sample_summary))))) s o s' :
  opening a = true →
  (∀ s1 o s', k tt s1 = (o, s') → head (b_actions s') = Some Close ∨
     ∃ e b, o = Err e ∧ head (b_actions s') = Some b ∧ opening b = true) →
  (perform W a ≫= k) s = (o, s') →
  head (b_actions s') = Some Close ∨ ∃ e b, o = Err e ∧ head (b_actions s') = Some b ∧ opening b = true.
Proof.
  intros Ha Hk. unfold mbind, B_bind. destruct (perform W a s) as [[[]|e] s1] eqn:E; [apply Hk|].
  intros [= <- <-]. right. exists e, a. apply perform_last in E as [E _]. by rewrite E.
Qed.

Lemma measureBrowser_ok ci p s r s' :
  measureBrowser W c ci p s = (Ok r, s') →
  Forall2 (λ f m, m.1 = pf_id p ++ "-" ++ sf_id f ∧ metrics_of p f m.2) surfaces r.
Proof.
  unfold measureBrowser. intros H. do 4 apply B_bind_ok in H as (? & ? & _ & H).
  unfold finally in H. destruct (measure_surfaces _ _ _ _ _ _) as [o1 s1] eqn:E.
  destruct (perform W Close s1) as [[[]|e] s2]; [|done]. injection H as -> ->.
  apply measure_surfaces_ok in E as (more & -> & Hm); [done| |set_solver].
  assert (Hi : ∀ l, NoDup l → NoDup (map (λ x, pf_id p ++ "-" ++ x) l)).
  { intros l Hl. by apply (NoDup_fmap_2 (λ x : jsstr, pf_id p ++ "-" ++ x)). }
  apply (Hi ["overview"; "definitions"; "tenants"; "api-clients"]).
  apply (bool_decide_unpack _). vm_compute. done.
Qed.
End browser.

(** *** The payload and the summary *)

Lemma measure_endpoints_keys decode W c es acc s r s' key :
  measure_endpoints decode W c es acc s = (Ok r, s') → key ∈ r.*1 ↔ key ∈ acc.*1 ∨ key ∈ map ep_id es.
Proof.
  revert acc s. induction es as [|e es IH]; cbn [measure_endpoints map]; intros acc s H.
  - injection H as <- <-. set_solver.
  - do 2 apply B_bind_ok in H as (? & ? & _ & H). rewrite (IH _ _ H), prop_set_keys. set_solver.
Qed.

Lemma assign_all_keys {A} (a b : list (jsstr * A)) key : key ∈ (assign_all a b).*1 ↔ key ∈ a.*1 ∨ key ∈ b.*1.
Proof.
  revert a. induction b as [|[k v] b IH]; intros a; cbn; [set_solver|].
  unfold assign_all in *. cbn. rewrite IH, prop_set_keys. set_solver.
Qed.

Lemma surface_keys p (r : list (jsstr * list (jsstr * (list num * sample_summary)))) :
  Forall2 (λ f m, m.1 = pf_id p ++ "-" ++ sf_id f ∧ metrics_of p f m.2) surfaces r →
  r.*1 = map (λ f, pf_id p ++ "-" ++ sf_id f) surfaces.
Proof. induction 1 as [|f m fs r [Hm _] _ IH]; [done|]. cbn. by rewrite Hm, IH. Qed.

(** The endpoints and surfaces of a payload are those of its configuration. *)
Definition profiles (includeMobile : bool) : list profile :=
  if includeMobile then [desktop_profile; mobile_profile] else [desktop_profile].

Lemma main_keys decode W e p :
  main decode W e = Ok p →
  (∀ key, key ∈ (pl_http p).*1 ↔ key ∈ map ep_id endpoints) ∧
  (∀ key, key ∈ (pl_browser p).*1 ↔
     ∃ q f, q ∈ profiles (ev_includeMobile e) ∧ f ∈ surfaces ∧ key = pf_id q ++ "-" ++ sf_id f).
Proof.
  unfold main. intros (c & _ & H)%result_bind_ok.
  destruct (bench _ _ _ _ _ _) as [o s'] eqn:E; cbn in H. subst o. unfold bench in E.
  apply B_bind_ok in E as (http & s1 & Hh & E). apply B_bind_ok in E as (desktop & s2 & Hd & E).
  apply B_bind_ok in E as (browser & s3 & Hb & E). injection E as <- <-. cbn [pl_http pl_browser]. split.
  - intros key. rewrite (measure_endpoints_keys _ _ _ _ _ _ _ _ key Hh). set_solver.
  - intros key. apply measureBrowser_ok, surface_keys in Hd. destruct (ev_includeMobile e); cbn [profiles].
    + apply B_bind_ok in Hb as (m & s4 & Hm & Hb). injection Hb as <- <-.
      apply measureBrowser_ok, surface_keys in Hm. rewrite assign_all_keys, Hd, Hm, !list_elem_of_fmap. split.
      * intros [(f & -> & Hf)|(f & -> & Hf)]; eexists _, f; (split; [|split; [exact Hf|reflexivity]]); set_solver.
      * intros (q & f & [->|[->|[]%elem_of_nil]%elem_of_cons]%elem_of_cons & Hf & ->); eauto.
    + injection Hb as <- <-. rewrite Hd, list_elem_of_fmap. split.
      * intros (f & -> & Hf). eexists _, f. split; [left|done].
      * intros (q & f & ->%list_elem_of_singleton & Hf & ->). eauto.
Qed.

Lemma every_defined {A} (f : A → option bool) l : (∀ x, x ∈ l → is_Some (f x)) → is_Some (every f l).
Proof.
  induction l as [|a l IH]; intros H; cbn; [eauto|].
  destruct (H a ltac:(left)) as [[] ->]; [|eauto]. apply IH. intros x Hx. apply H. by right.
Qed.

Lemma scale_prop_get {A} k (o : list (jsstr * A)) : k ∈ o.*1 → is_Some (Scale.prop_get k o).
Proof.
  induction o as [|[k' v] o IH]; cbn; [by intros []%elem_of_nil|].
  destruct (str_eqb k' k) eqn:E; [eauto|]. apply str_eqb_neq in E.
  intros [->|?]%elem_of_cons; [done|auto].
Qed.

(** Runs with the endpoints and surfaces of the first have triggers. *)
Lemma triggers_defined runs r0 :
  head runs = Some r0 →
  (∀ r, r ∈ runs → (∀ k, k ∈ (ms_http r0).*1 → k ∈ (ms_http r).*1) ∧
                   (∀ k, k ∈ (ms_browser r0).*1 → k ∈ (ms_browser r).*1)) →
  is_Some (confirmedCapacityTriggers runs).
Proof.
  intros H0 Hr. destruct runs as [|r1 runs]; [done|]. injection H0 as ->. cbn [confirmedCapacityTriggers].
  assert (Hm : ∀ (f : jsstr → option (list jsstr)) l, (∀ k, k ∈ l → is_Some (f k)) → is_Some (mapM f l)).
  { intros f l Hf. apply mapM_is_Some, Forall_forall. intros k Hk. by apply Hf. }
  assert (Hb : ∀ {A A'} (m : option A) (k : A → option A'), is_Some m → (∀ a, is_Some (k a)) → is_Some (m ≫= k)).
  { intros A A' m k [a ->] Hk. apply Hk. }
  assert (He : ∀ A (get : measurement → list (jsstr * A)) k,
    (∀ r, r ∈ r0 :: runs → k ∈ (get r).*1) →
    ∀ g, is_Some (every (λ r, g <$> Scale.prop_get k (get r)) (r0 :: runs))).
  { intros A get k Hk g. apply every_defined. intros r Hin. by apply fmap_is_Some, scale_prop_get, Hk. }
  assert (Hh : ∀ r, r ∈ r0 :: runs → ∀ k, k ∈ (ms_http r0).*1 → k ∈ (ms_http r).*1) by (intros r Hin; by apply Hr).
  assert (Hs : ∀ r, r ∈ r0 :: runs → ∀ k, k ∈ (ms_browser r0).*1 → k ∈ (ms_browser r).*1) by (intros r Hin; by apply Hr).
  apply Hb; [|intros a; apply Hb; [|eauto]]; apply Hm; intros k Hk.
  - unfold endpoint_triggers. apply Hb; [|intros x; apply Hb; [|eauto]];
      apply (He _ ms_http k); eauto.
  - unfold surface_triggers. apply Hb; [|eauto]. apply (He _ ms_browser k). eauto.
Qed.

(** Two runs of a size, in either order. *)
Lemma measurements_pair n1 n2 m1 m2 :
  test raw_name n1 = true → test raw_name n2 = true → ms_cardinality m1 = ms_cardinality m2 →
  ∃ a b, group_by_size (measurements [(n1, m1); (n2, m2)]) = [(ms_cardinality m1, [a; b])] ∧
    ((a = m1 ∧ b = m2) ∨ (a = m2 ∧ b = m1)).
Proof.
  intros H1 H2 Hc. unfold measurements. cbn -[test raw_name]. rewrite H1, H2. cbn -[test raw_name].
  rewrite Hc, Z.sub_diag. cbn. case_match; cbn; rewrite ?Hc, Z.eqb_refl; cbn; eauto 10.
Qed.

(** ** Properties *)

(** C33. Measuring an endpoint ends: the loop over the batches, which stops only at a hundred
    samples, never runs away whatever the requests do. It succeeds exactly when the ten warm-up
    requests and the next hundred are all answered with the expected number of records; the samples
    are then the durations of those hundred requests in the order they were sent, in batches of one
    to [concurrency] requests that add up to a hundred, the bytes are those of the last answer and
    the summary is that of the samples. *)
Theorem measureHTTP_spec decode W c path concurrency s o s' :
  (1 <= concurrency)%nat → measureHTTP decode W c path concurrency s = (o, s') →
  o ≠ Err Unfinished ∧
  (is_ok o = all_answered decode W c path (b_requests s) 110) ∧
  (∀ m, o = Ok m →
     b_requests s' = (b_requests s + 110)%nat ∧
     hm_samples m = map (λ n, sp_durationMs (sample_at decode W c path n)) (seq (b_requests s + 10) 100) ∧
     hm_bytes m = sp_bytes (sample_at decode W c path (b_requests s + 109)) ∧
     batch_sizes_ok concurrency 100 (hm_batches m) ∧
     summary (hm_samples m) = Ok (hm_summary m)).
Proof.
  intros Hc. unfold measureHTTP. unfold mbind at 1, B_bind at 1.
  destruct (warm_up_spec decode W c path WARMUPS s) as (o1 & s1 & -> & _ & H1).
  change 110%nat with (WARMUPS + 100)%nat. rewrite all_answered_app.
  destruct (all_answered decode W c path (b_requests s) WARMUPS); cbn [andb].
  2:{ destruct H1 as (e & -> & He). intros [= <- <-]. split_and!; [congruence|done|done]. }
  destruct H1 as [-> Hr1]. unfold mbind at 1, B_bind at 1.
  destruct (batches_loop_spec decode W c path concurrency SAMPLES [] 0 [] s1 Hc) as (o2 & s2 & -> & _ & H2);
    [unfold SAMPLES; cbn; lia..|].
  change (SAMPLES - length [])%nat with 100%nat in H2. rewrite Hr1 in H2.
  destruct (all_answered decode W c path (b_requests s + WARMUPS) 100).
  2:{ destruct H2 as (e & -> & He). intros [= <- <-]. split_and!; [congruence|done|done]. }
  destruct H2 as (Hr2 & more & Hm & ->). cbn [app]. set (l := map _ _).
  destruct (summary_ok l) as (q & Hq & _); [done|]. unfold mbind, B_bind, lift. rewrite Hq. cbn [mret B_ret].
  intros [= <- <-]. split_and!; [done|done|]. intros m [= <-]. cbn -[seq]. split_and!; [|done| |done|done].
  - rewrite Hr2. unfold WARMUPS. lia.
  - unfold last_bytes, WARMUPS. do 2 f_equal. lia.
Qed.

(** A profile measured in the browser yields every surface once, in order, with the loads kept
    after the warm-ups and, for the tables, thirty filter and thirty sort samples, each metric with
    the summary of its samples; and on every path, errors included, the browser is closed last once
    its page is open. *)
Theorem measureBrowser_spec W c ci p s o s' :
  measureBrowser W c ci p s = (o, s') →
  (head (b_actions s') = Some Close ∨ ∃ e a, o = Err e ∧ head (b_actions s') = Some a ∧ opening a = true) ∧
  (∀ r, o = Ok r →
     Forall2 (λ f m, m.1 = pf_id p ++ "-" ++ sf_id f ∧ metrics_of p f m.2) surfaces r).
Proof.
  intros H. split.
  - revert H. unfold measureBrowser. do 4 (apply opening_step; [done|]; clear s o s'; intros s o s').
    unfold finally. destruct (measure_surfaces _ _ _ _ _ _) as [o1 s1].
    destruct (perform W Close s1) as [[[]|e] s2] eqn:E; apply perform_last in E as [E _]; intros [= <- <-];
      left; by rewrite E.
  - intros r ->. by eapply measureBrowser_ok.
Qed.

(** C34. The two scripts fit: the files of two runs of the benchmark over the same number of records,
    with the same profiles, in either order, are summarised without a missing measure, into one
    capacity of that size whose decision is the gate's; whatever the server, the browser and the
    clock did in each. *)
Theorem benchmark_summarized decode W1 W2 e1 e2 p1 p2 m1 m2 n1 n2 volume v :
  main decode W1 e1 = Ok p1 → main decode W2 e2 = Ok p2 → ev_includeMobile e1 = ev_includeMobile e2 →
  payload_measurement p1 = Some m1 → payload_measurement p2 = Some m2 →
  ms_cardinality m1 = ms_cardinality m2 → test raw_name n1 = true → test raw_name n2 = true →
  parseObservedOperationalVolume volume = Ok v →
  ∃ su c, summarize_scale volume [(n1, m1); (n2, m2)] = Ok su ∧ su_capacity su = [c] ∧
    ca_cardinality c = ms_cardinality m1 ∧ su_decision su = decideScaleGate v [capacity_point c].
Proof.
  intros [Hh1 Hb1]%main_keys [Hh2 Hb2]%main_keys Hmob Hm1 Hm2 Hc Hn1 Hn2 Hv.
  assert (Hkeys : ∀ p m, payload_measurement p = Some m →
    (ms_http m).*1 = (pl_http p).*1 ∧ (ms_browser m).*1 = (pl_browser p).*1).
  { intros p m (size & _ & (r & _ & [= <-])%bind_Some)%bind_Some. cbn [ms_http ms_browser].
    unfold fmap at 1 3. rewrite !map_map. done. }
  destruct (Hkeys _ _ Hm1) as [Ek1 Es1], (Hkeys _ _ Hm2) as [Ek2 Es2].
  unfold summarize_scale. rewrite Hv. cbn [result_bind].
  destruct (measurements_pair n1 n2 m1 m2 Hn1 Hn2 Hc) as (a & b & -> & Hab). cbn [find length Nat.eqb negb snd].
  assert (Ht : is_Some (confirmedCapacityTriggers [a; b])).
  { assert (Hh : ∀ k, k ∈ (ms_http m1).*1 ↔ k ∈ (ms_http m2).*1) by (intros k; by rewrite Ek1, Ek2, Hh1, Hh2).
    assert (Hs : ∀ k, k ∈ (ms_browser m1).*1 ↔ k ∈ (ms_browser m2).*1)
      by (intros k; by rewrite Es1, Es2, Hb1, Hb2, Hmob).
    apply (triggers_defined _ a); [done|]. intros r [->|[->|[]%elem_of_nil]%elem_of_cons]%elem_of_cons;
      destruct Hab as [[-> ->]|[-> ->]]; split; intros k; rewrite ?Hh, ?Hs; done. }
  destruct Ht as [ts Ht]. cbn [mapM capacity_of]. unfold capacity_of. cbn [fst snd]. rewrite Ht. cbn.
  eauto 10.
Qed.

(** *** Witnesses: a server with two records, a browser that never fails *)

Definition demo_host : host := {|
  h_fetch n _ := {| fo_started := num_of_Z (Z.of_nat n); fo_ended := num_of_Z (Z.of_nat (n + 5));
                    fo_answer := Ok {| bs_status := 200; bs_body := utf8_of_utf16 "[0,0]" |} |};
  h_now n := num_of_Z (Z.of_nat n);
  h_act _ _ := None;
|}.

Definition demo_environment (run : jsstr) : environment := {|
  ev_baseURL := Some "http://localhost:8080"; ev_adminToken := Some "token";
  ev_cardinality := Some "2"; ev_run := Some run; ev_outputPath := Some "raw.json";
  ev_ci := true; ev_includeMobile := true;
|}.

Definition demo_config : config := {|
  baseURL := "http://localhost:8080"; adminToken := "token"; cardinality := num_of_Z 2;
  bench_run := num_of_Z 1; outputPath := "raw.json" |}.

Definition demo_start : bench_state := {| b_requests := 0; b_readings := 0; b_actions := [] |}.

Definition demo_payload (run : jsstr) : payload :=
  match main utf16_of_utf8 demo_host (demo_environment run) with
  | Ok p => p
  | Err _ => {| pl_cardinality := NaN; pl_run := NaN; pl_viewports := []; pl_http := []; pl_browser := [] |}
  end.

Definition demo_measurement (run : jsstr) : measurement :=
  default {| ms_cardinality := 0; ms_run := 0; ms_http := []; ms_browser := [] |}
    (payload_measurement (demo_payload run)).

Lemma demo_payload_ok run :
  is_ok (main utf16_of_utf8 demo_host (demo_environment run)) = true →
  main utf16_of_utf8 demo_host (demo_environment run) = Ok (demo_payload run).
Proof. unfold demo_payload. by destruct (main _ _ _). Qed.

Lemma demo_measurement_ok run :
  ms_cardinality (demo_measurement run) = 2 → payload_measurement (demo_payload run) = Some (demo_measurement run).
Proof. unfold demo_measurement. by destruct (payload_measurement _). Qed.

Lemma measureHTTP_spec_witness :
  ∃ m s', measureHTTP utf16_of_utf8 demo_host demo_config "/v1/admin/tenants" 10 demo_start = (Ok m, s') ∧
    length (hm_samples m) = 100%nat ∧ b_requests s' = 110%nat.
Proof.
  destruct (measureHTTP utf16_of_utf8 demo_host demo_config "/v1/admin/tenants" 10 demo_start) as [o s'] eqn:E.
  destruct (measureHTTP_spec utf16_of_utf8 demo_host demo_config "/v1/admin/tenants" 10 demo_start o s'
    ltac:(lia) E) as (_ & Hok & Hm).
  destruct o as [m|e]; [|vm_compute in Hok; discriminate].
  destruct (Hm m eq_refl) as (Hr & Hs & _). exists m, s'. split; [reflexivity|]. rewrite Hs, Hr.
  split; [|reflexivity]. by rewrite length_map, length_seq.
Defined.

Lemma measureBrowser_spec_witness :
  ∃ r s', measureBrowser demo_host demo_config true mobile_profile demo_start = (Ok r, s') ∧
    Forall2 (λ f m, m.1 = "mobile-" ++ sf_id f ∧ metrics_of mobile_profile f m.2) surfaces r ∧
    head (b_actions s') = Some Close.
Proof.
  destruct (measureBrowser demo_host demo_config true mobile_profile demo_start) as [o s'] eqn:E.
  destruct (measureBrowser_spec demo_host demo_config true mobile_profile demo_start o s' E) as [Hc Hr].
  assert (Ho : is_ok o = true).
  { change o with (o, s').1. rewrite <- E. vm_compute. reflexivity. }
  destruct o as [r|e]; [|discriminate]. exists r, s'. split; [reflexivity|]. split; [exact (Hr r eq_refl)|].
  destruct Hc as [Hc|(e & a & He & _)]; [exact Hc|discriminate].
Defined.

Lemma benchmark_summarized_witness :
  ∃ su c, summarize_scale (Some "5000") [("raw-2-1.json", demo_measurement "1"); ("raw-2-2.json", demo_measurement "2")]
          = Ok su ∧ su_capacity su = [c] ∧ ca_cardinality c = 2 ∧ su_decision su = OPEN_PAGINATION_EPIC.
Proof.
  assert (H1 : ms_cardinality (demo_measurement "1") = 2) by (vm_compute; reflexivity).
  assert (H2 : ms_cardinality (demo_measurement "2") = 2) by (vm_compute; reflexivity).
  destruct (benchmark_summarized utf16_of_utf8 demo_host demo_host (demo_environment "1") (demo_environment "2")
    (demo_payload "1") (demo_payload "2") (demo_measurement "1") (demo_measurement "2")
    "raw-2-1.json" "raw-2-2.json" (Some "5000") 5000) as (su & c & Hs & Hc & Hk & Hd).
  - apply demo_payload_ok. vm_compute. reflexivity.
  - apply demo_payload_ok. vm_compute. reflexivity.
  - reflexivity.
  - apply demo_measurement_ok, H1.
  - apply demo_measurement_ok, H2.
  - rewrite H2. exact H1.
  - vm_compute. reflexivity.
  - vm_compute. reflexivity.
  - vm_compute. reflexivity.
  - exists su, c. split; [exact Hs|]. split; [exact Hc|]. split; [rewrite Hk; exact H1|].
    rewrite Hd. reflexivity.
Defined.
