(* ===== verification/ScaleReport.v ===== *)
(** * The report of the scale gate

    The rest of [src/web/scripts/summarize-scale.mjs]: the projection of the measurements, the two
    files it writes and the line it prints, from the summary of [Scale]. *)
From Stdlib Require Import ZArith Lia List QArith Qround Lqa Permutation.
From stdpp Require Import base list sets.
From S2P Require Import Prelude Numbers Json JsonRead Scale.
#[local] Open Scope Z_scope.

(** A file of measurements: what the gate reads, and what is only carried over. *)
Record raw := { raw_measure : measurement; raw_measuredAt : option jv; raw_environment : option jv }.

(** The files read, ordered by size and run. *)
Definition raws (files : list (jsstr * raw)) : list raw :=
  js_sort (λ a b, let d := ms_cardinality (raw_measure a) - ms_cardinality (raw_measure b) in
                  if d =? 0 then ms_run (raw_measure a) - ms_run (raw_measure b) else d)
    (snd <$> List.filter (λ f, Regex.test raw_name f.1) files).

Definition measure_files (files : list (jsstr * raw)) : list (jsstr * measurement) :=
  map (λ f, (f.1, raw_measure f.2)) files.

(** ** [summary.json] *)

Definition VInt (z : Z) : jv := VNum (num_of_Z z).

(** An own property that is absent when the value is [undefined]. *)
Definition defined (k : jsstr) (v : option jv) : list (jsstr * jv) :=
  match v with Some x => [(k, x)] | None => [] end.

Definition decision_text (d : ScaleDecision) : jsstr :=
  match d with KEEP_FULL_LISTS => "KEEP_FULL_LISTS" | OPEN_PAGINATION_EPIC => "OPEN_PAGINATION_EPIC" end.

Definition capacity_value (c : capacity) : jv :=
  VObj [("cardinality", VInt (ca_cardinality c)); ("triggers", VArr (map VStr (ca_triggers c)));
        ("soft", VObj [("itemCount", VBool (ca_itemCount c)); ("payload250KiB", VBool (ca_payload250KiB c))])].

Definition endpoint_value (e : endpoint_measure) : jv :=
  VObj [("bytes", VInt (em_bytes e)); ("p95Concurrency1Ms", VNum (em_p95_1 e));
        ("p95Concurrency10Ms", VNum (em_p95_10 e))].

Definition measurement_value (r : raw) : jv :=
  let m := raw_measure r in
  VObj ([("cardinality", VInt (ms_cardinality m)); ("run", VInt (ms_run m))]
        ++ defined "measuredAt" (raw_measuredAt r) ++ defined "environment" (raw_environment r)
        ++ [("http", VObj (map (λ e, (e.1, endpoint_value e.2)) (ms_http m)));
            ("browser", VObj (map (λ s, (s.1, VObj (map (λ x, (x.1, VNum x.2)) s.2))) (ms_browser m)))]).

Definition summary_value (su : scale_summary) (rs : list raw) : jv :=
  VObj [("schemaVersion", VInt 1); ("observedOperationalVolume", VInt (su_observed su));
        ("analysisRecommended", VBool (su_analysisRecommended su));
        ("capacityBreakpoint", match su_capacityBreakpoint su with Some z => VInt z | None => VNull end);
        ("decision", VStr (decision_text (su_decision su))); ("rationale", VStr (su_rationale su));
        ("capacity", VArr (map capacity_value (su_capacity su)));
        ("measurements", VArr (map measurement_value rs))].

(** ** [decision.md] *)

(** The integer closest to ten times [q], the larger of two. *)
Definition tenths (q : Q) : Z := Qfloor (10 * q + (1 # 2))%Q.

(** [x.toFixed(1)] *)
Definition toFixed1 (x : num) : jsstr :=
  match x with
  | Fin q =>
    let p := if q_neg q then Qopp q else q in
    (if q_neg q then "-" else []) ++
    (if Qle_bool (pow10 21) p then num_text (Fin p)
     else let n := tenths p in digits (n / 10) ++ "." ++ digits (n mod 10))
  | _ => num_text x
  end.

(** [Math.max(...l)] *)
Definition math_max (l : list num) : num := fold_left num_max l (Infinite true).

Definition maxHTTP (m : measurement) : num :=
  math_max (concat (map (λ e, [em_p95_1 e.2; em_p95_10 e.2]) (ms_http m))).
Definition maxUI (m : measurement) : num := math_max (concat (map (λ s, map snd s.2) (ms_browser m))).
Definition maxBytes (m : measurement) : num := math_max (map (λ e, num_of_Z (em_bytes e.2)) (ms_http m)).

Definition row (m : measurement) : jsstr :=
  "| " ++ show_int (ms_cardinality m) ++ " | " ++ show_int (ms_run m) ++ " | " ++ num_text (maxBytes m)
  ++ " | " ++ toFixed1 (maxHTTP m) ++ " | " ++ toFixed1 (maxUI m) ++ " |".

Definition markdown (su : scale_summary) (rs : list raw) : jsstr :=
  "# Scale benchmark decision" ++ newline ++ newline ++
  "- Declared operational volume: **" ++ show_int (su_observed su) ++ "** records." ++ newline ++
  "- Decision: **" ++ decision_text (su_decision su) ++ "**." ++ newline ++
  "- Synthetic capacity runs are diagnostic; only the declared/observed operational point can open the implementation gate."
  ++ newline ++ newline ++
  "| Cardinality | Run | Max payload (B) | Max HTTP p95 (ms) | Max UI p95 (ms) |" ++ newline ++
  "|---:|---:|---:|---:|---:|" ++ newline ++ join newline (map (λ r, row (raw_measure r)) rs) ++ newline ++ newline ++
  su_rationale su ++ newline.

(** ** The script *)

Record written := { summary_json : jsstr; decision_md : jsstr; printed : jsstr }.

Inductive script_error := Gate (e : scale_error) | NoOutputDirectory.

(** The volume is read before the argument is checked. *)
Definition report (volume outputDir : option jsstr) (files : list (jsstr * raw)) : result script_error written :=
  _ <-? match parseObservedOperationalVolume volume with
        | Ok v => Ok v | Err m => Err (Gate (VolumeError m)) end;;
  match outputDir with
  | Some dir =>
    if negb (truthy dir) then Err NoOutputDirectory
    else match summarize_scale volume (measure_files files) with
         | Err e => Err (Gate e)
         | Ok su => Ok {| summary_json := JSON_pretty [] (summary_value su (raws files)) ++ newline;
                          decision_md := markdown su (raws files);
                          printed := decision_text (su_decision su) ++ ": " ++ dir |}
         end
  | None => Err NoOutputDirectory
  end.

Example toFixed1_examples :
  toFixed1 (js_Number "12.34") = "12.3" ∧ toFixed1 (js_Number "0.05") = "0.1" ∧ toFixed1 (num_of_Z 300) = "300.0" ∧
  toFixed1 (js_Number "-1.25") = "-1.3" ∧ toFixed1 (js_Number "1e21") = "1e+21" ∧ toFixed1 (Infinite true) = "-Infinity".
Proof. vm_compute. done. Qed.


(** ** Lemmas *)

Lemma raws_measurements files : map raw_measure (raws files) = measurements (measure_files files).
Proof.
  unfold raws, measurements, measure_files.
  rewrite <- (js_sort_map raw_measure (λ a b, let d := ms_cardinality a - ms_cardinality b in
                  if d =? 0 then ms_run a - ms_run b else d)). f_equal.
  induction files as [|[n r] files IH]; [done|]. cbn [map List.filter fst snd].
  destruct (Regex.test raw_name n); [exact (f_equal (cons (raw_measure r)) IH)|exact IH].
Qed.

Definition finite_figure (x : num) : Prop := ∃ q, x = Fin q ∧ (0 <= q < pow10 21)%Q.

Lemma num_le_trans a b c : num_le a b = true → num_le b c = true → num_le a c = true.
Proof.
  destruct a as [|[]|a], b as [|[]|b], c as [|[]|c]; cbn; try done.
  rewrite !Qle_bool_iff. apply Qle_trans.
Qed.

Lemma math_max_spec l :
  Forall finite_figure l →
  (l = [] ∧ math_max l = Infinite true) ∨
  (math_max l ∈ l ∧ ∀ x, x ∈ l → num_le x (math_max l) = true).
Proof.
  induction l as [|x l IH] using rev_ind; [by left|]. intros [Hl [Hx _]%Forall_cons]%Forall_app. right.
  unfold math_max in *. rewrite fold_left_app. cbn. destruct Hx as (q & -> & _).
  assert (Hq : num_le (Fin q) (Fin q) = true) by (apply Qle_bool_iff, Qle_refl).
  destruct (IH Hl) as [[-> ->]|[Hin Hall]].
  - cbn. split; [left|]. intros x ->%list_elem_of_singleton. done.
  - set (m := fold_left _ _ _) in *.
    destruct (proj1 (Forall_forall _ _) Hl m Hin) as (p & Hp & _). rewrite Hp in *. cbn [num_max].
    destruct (num_le (Fin p) (Fin q)) eqn:E; (split; [set_solver|]);
      intros y [Hy| ->%list_elem_of_singleton]%elem_of_app; eauto using num_le_trans.
    cbn in E |- *. apply Qle_bool_iff. apply not_true_iff_false in E. rewrite Qle_bool_iff in E.
    by apply Qlt_le_weak, Qnot_le_lt.
Qed.

(** A figure at a limit is printed at the limit or above. *)
Lemma toFixed1_at_least z x :
  0 <= z <= MAX_SAFE_INTEGER → finite_figure x → num_le (num_of_Z z) x = true →
  ∃ n d, z <= n ∧ 0 <= d < 10 ∧ toFixed1 x = digits n ++ "." ++ digits d.
Proof.
  intros Hz (q & -> & Hq0 & Hq) Hle.
  destruct (num_int_inv _ _ (num_of_Z_safe z ltac:(lia))) as (y & Hy & Hyz). rewrite Hy in Hle.
  cbn in Hle. apply Qle_bool_iff in Hle. rewrite Hyz in Hle.
  assert (Hneg : q_neg q = false).
  { unfold q_neg. apply Z.ltb_ge. unfold Qle in Hq0. cbn in Hq0. lia. }
  unfold toFixed1. rewrite Hneg. destruct (Qle_bool (pow10 21) q) eqn:E.
  { apply Qle_bool_iff in E. lra. }
  exists (tenths q / 10), (tenths q mod 10). split; [|split; [apply Z.mod_pos_bound; lia|done]].
  apply Z.div_le_lower_bound; [lia|]. unfold tenths. rewrite <- (Qfloor_Z (10 * z)). apply Qfloor_resp_le.
  rewrite inject_Z_mult. change (inject_Z 10) with (10 # 1)%Q. lra.
Qed.

Lemma scale_prop_in {A} k (o : list (jsstr * A)) v : Scale.prop_get k o = Some v → (k, v) ∈ o.
Proof.
  induction o as [|[k' v'] o IH]; cbn; [done|]. destruct (str_eqb k' k) eqn:E; [|set_solver].
  apply str_eqb_eq in E as ->. intros [= ->]. left.
Qed.

(** What a trigger says of each run of its size. *)
Lemma triggers_inv runs ts t :
  confirmedCapacityTriggers runs = Some ts → t ∈ ts →
  (∃ ep, t = ep ++ ":payload>=500KiB" ∧ ∀ r, r ∈ runs → ∃ e, (ep, e) ∈ ms_http r ∧ 512000 <= em_bytes e) ∨
  (∃ ep, t = ep ++ ":http-p95>=300ms" ∧ ∀ r, r ∈ runs → ∃ e, (ep, e) ∈ ms_http r ∧
     num_le (num_of_Z 300) (num_max (em_p95_1 e) (em_p95_10 e)) = true) ∨
  (∃ sf, t = sf ++ ":ui-p95>=150ms" ∧ ∀ r, r ∈ runs → ∃ ms x, (sf, ms) ∈ ms_browser r ∧ x ∈ ms ∧
     num_le (num_of_Z 150) x.2 = true).
Proof.
  unfold confirmedCapacityTriggers. destruct runs as [|r0 rest]; [done|]. set (runs := r0 :: rest).
  intros (a & Ha & (b & Hb & [= <-])%bind_Some)%bind_Some.
  rewrite elem_of_app, (elem_of_mapM_join _ _ _ _ Ha), (elem_of_mapM_join _ _ _ _ Hb).
  intros [(ep & k & _ & Hk & Hin)|(sf & k & _ & Hk & Hin)].
  - unfold endpoint_triggers in Hk. apply bind_Some in Hk as (pc & Hpc & (hc & Hhc & [= <-])%bind_Some).
    apply elem_of_app in Hin as [Hin|Hin].
    + left. destruct pc; [|by apply elem_of_nil in Hin]. apply list_elem_of_singleton in Hin as ->.
      exists ep. split; [done|]. intros r Hr. apply (proj1 (every_true _ _) Hpc r) in Hr.
      apply fmap_Some in Hr as (e & He%scale_prop_in & Hle). exists e. split; [done|]. symmetry in Hle. by apply Z.leb_le in Hle.
    + right; left. destruct hc; [|by apply elem_of_nil in Hin]. apply list_elem_of_singleton in Hin as ->.
      exists ep. split; [done|]. intros r Hr. apply (proj1 (every_true _ _) Hhc r) in Hr.
      apply fmap_Some in Hr as (e & He%scale_prop_in & Hle). by exists e.
  - unfold surface_triggers in Hk. apply bind_Some in Hk as (uc & Huc & [= <-]).
    right; right. destruct uc; [|by apply elem_of_nil in Hin]. apply list_elem_of_singleton in Hin as ->.
    exists sf. split; [done|]. intros r Hr. apply (proj1 (every_true _ _) Huc r) in Hr.
    apply fmap_Some in Hr as (ms & Hms%scale_prop_in & Hex). symmetry in Hex.
    apply existsb_exists in Hex as (x & Hx%list_elem_of_In & Hle). by exists ms, x.
Qed.

(** The capacity of a size is that of all its runs. *)
Lemma capacity_runs volume files su c m :
  summarize_scale volume files = Ok su → c ∈ su_capacity su →
  m ∈ measurements files → ms_cardinality m = ca_cardinality c →
  ∃ runs, m ∈ runs ∧ confirmedCapacityTriggers runs = Some (ca_triggers c).
Proof.
  unfold summarize_scale. intros (v & _ & H)%result_bind_ok Hc Hm Hsz.
  destruct (group_by_size_spec (measurements files)) as [_ Hg]. set (g := group_by_size _) in *.
  destruct (List.find _ g) as [[size rs]|]; [done|]. destruct (mapM capacity_of g) as [cs|] eqn:Em; [|done].
  injection H as <-. cbn [su_capacity] in Hc.
  destruct (Forall2_elem_r _ _ _ _ (proj1 (mapM_Some _ _ _) Em) Hc) as ([size rs] & He & Hce).
  pose proof (capacity_of_card _ _ Hce) as Hs. cbn in Hs. exists rs.
  unfold capacity_of in Hce. cbn [snd] in Hce. apply bind_Some in Hce as (t & Ht & [= <-]). split; [|done].
  apply Hg in He as [-> _]. apply list_elem_of_In, filter_In. split; [by apply list_elem_of_In|].
  apply Z.eqb_eq. cbn in Hsz. congruence.
Qed.

(** Measurements whose figures are those of a run: durations and sizes that numbers hold. *)
Definition figures (m : measurement) : Prop :=
  (∀ e, e ∈ ms_http m → 0 <= em_bytes e.2 <= MAX_SAFE_INTEGER ∧ finite_figure (em_p95_1 e.2) ∧ finite_figure (em_p95_10 e.2)) ∧
  (∀ s x, s ∈ ms_browser m → x ∈ s.2 → finite_figure x.2).

Lemma num_max_or a b z :
  finite_figure a → finite_figure b → num_le z (num_max a b) = true → num_le z a = true ∨ num_le z b = true.
Proof. intros (p & -> & _) (q & -> & _). cbn [num_max]. case_match; auto. Qed.

Lemma http_figures m : figures m → Forall finite_figure (concat (map (λ e, [em_p95_1 e.2; em_p95_10 e.2]) (ms_http m))).
Proof.
  intros [Hh _]. apply Forall_concat, Forall_map, Forall_forall. intros e He. destruct (Hh e He) as (_ & ? & ?).
  by repeat constructor.
Qed.

Lemma ui_figures m : figures m → Forall finite_figure (concat (map (λ s, map snd s.2) (ms_browser m))).
Proof.
  intros [_ Hu]. apply Forall_concat, Forall_map, Forall_forall. intros s Hs. apply Forall_map, Forall_forall.
  intros x Hx. by apply (Hu s x).
Qed.

Lemma math_max_above l x z :
  Forall finite_figure l → x ∈ l → num_le z x = true →
  finite_figure (math_max l) ∧ num_le z (math_max l) = true.
Proof.
  intros Hl Hx Hz. destruct (math_max_spec l Hl) as [[-> _]|[Hin Hall]]; [by apply elem_of_nil in Hx|].
  split; [by apply (proj1 (Forall_forall _ _) Hl)|]. eapply num_le_trans; [exact Hz|by apply Hall].
Qed.

Lemma bytes_figure z : 0 <= z <= MAX_SAFE_INTEGER → finite_figure (num_of_Z z).
Proof.
  intros Hz. destruct (num_int_inv _ _ (num_of_Z_safe z ltac:(lia))) as (q & -> & Hq).
  exists q. split; [done|]. rewrite Hq. split; [change 0%Q with (inject_Z 0); rewrite <- Zle_Qle; lia|].
  change (pow10 21) with (inject_Z (10 ^ 21)). rewrite <- Zlt_Qlt. unfold MAX_SAFE_INTEGER in Hz. lia.
Qed.

Lemma surrounded (x y r : jsstr) :
  (∃ before after, y = before ++ r ++ after) → ∃ before after, x ++ y = before ++ r ++ after.
Proof. intros (b & a & ->). exists (x ++ b), a. by rewrite <- app_assoc. Qed.

Lemma markdown_rows su rs :
  ∃ before after, markdown su rs = before ++ join newline (map (λ r, row (raw_measure r)) rs) ++ after.
Proof. unfold markdown. do 18 apply surrounded. by eexists [], _. Qed.

Lemma elem_concat_map {A C} (f : A → list C) l x y : y ∈ l → x ∈ f y → x ∈ concat (map f l).
Proof. intros Hy Hx. apply list_elem_of_In, in_concat. exists (f y). split; [|by apply list_elem_of_In].
  by apply in_map, list_elem_of_In. Qed.

(** ** Property *)

(** The report never hides what opens the gate: [decision.md] has one row per measurement read, by
    size and run, and in every row of a size that confirmed a trigger the figure of its column is
    printed at the limit or above: at least 512000 bytes, 300.0 ms or 150.0 ms. *)
Theorem report_shows_triggers volume dir files w su :
  report volume (Some dir) files = Ok w → summarize_scale volume (measure_files files) = Ok su →
  (∃ before after, decision_md w = before ++ join newline (map row (measurements (measure_files files))) ++ after) ∧
  ∀ c m t, c ∈ su_capacity su → m ∈ measurements (measure_files files) → ms_cardinality m = ca_cardinality c →
    figures m → t ∈ ca_triggers c →
    (∃ id, t = id ++ ":payload>=500KiB" ∧ num_le (num_of_Z 512000) (maxBytes m) = true) ∨
    (∃ id n d, t = id ++ ":http-p95>=300ms" ∧ 300 <= n ∧ 0 <= d < 10 ∧
       toFixed1 (maxHTTP m) = digits n ++ "." ++ digits d) ∨
    (∃ id n d, t = id ++ ":ui-p95>=150ms" ∧ 150 <= n ∧ 0 <= d < 10 ∧
       toFixed1 (maxUI m) = digits n ++ "." ++ digits d).
Proof.
  intros Hw Hsu. split.
  { unfold report in Hw. destruct (parseObservedOperationalVolume volume); [|done]. cbn [result_bind] in Hw.
    rewrite Hsu in Hw. destruct (negb (truthy dir)); [done|]. apply (f_equal (λ o, match o with Ok w => decision_md w | Err _ => [] end)) in Hw.
    cbn [decision_md] in Hw. rewrite <- Hw, <- raws_measurements, map_map. apply markdown_rows. }
  intros c m t Hc Hm Hsz Hfig Ht.
  destruct (capacity_runs _ _ _ _ _ Hsu Hc Hm Hsz) as (runs & Hin & Hts).
  destruct (triggers_inv _ _ _ Hts Ht) as [(ep & -> & Hr)|[(ep & -> & Hr)|(sf & -> & Hr)]].
  - left. exists ep. split; [done|]. destruct (Hr m Hin) as (e & He & Hb).
    eapply math_max_above; [|apply (list_elem_of_fmap_2 (λ e, num_of_Z (em_bytes e.2))), He|].
    + apply Forall_map, Forall_forall. intros x Hx. by apply bytes_figure, Hfig.
    + destruct (proj1 Hfig _ He) as [Hs _]. cbn [snd] in *.
      rewrite (num_le_int _ _ 512000 (em_bytes e)); [by apply Z.leb_le|done|apply num_of_Z_safe; lia].
  - right; left. destruct (Hr m Hin) as (e & He & Hb). destruct (proj1 Hfig _ He) as (_ & H1 & H2).
    assert (Hmax : finite_figure (maxHTTP m) ∧ num_le (num_of_Z 300) (maxHTTP m) = true).
    { apply num_max_or in Hb as [Hb|Hb]; [| |done..]; (eapply math_max_above; [by apply http_figures| |exact Hb]);
        apply (elem_concat_map _ _ _ _ He); cbn; set_solver. }
    destruct Hmax as [Hf Hle]. destruct (toFixed1_at_least 300 _ ltac:(done) Hf Hle) as (n & d & ? & ? & ?).
    by exists ep, n, d.
  - right; right. destruct (Hr m Hin) as (ms & x & Hms & Hx & Hb).
    assert (Hmax : finite_figure (maxUI m) ∧ num_le (num_of_Z 150) (maxUI m) = true).
    { eapply math_max_above; [by apply ui_figures| |exact Hb]. apply (elem_concat_map _ _ _ _ Hms).
      by apply (list_elem_of_fmap_2 snd). }
    destruct Hmax as [Hf Hle]. destruct (toFixed1_at_least 150 _ ltac:(done) Hf Hle) as (n & d & ? & ? & ?).
    by exists sf, n, d.
Qed.

(** *** Witness: two runs of a slow endpoint *)

Definition slow_run (run : Z) : measurement :=
  {| ms_cardinality := 100; ms_run := run;
     ms_http := [("tenants", {| em_bytes := 2000; em_p95_1 := Fin (1201 # 4); em_p95_10 := num_of_Z 90 |})];
     ms_browser := [("desktop-tenants", [("render", num_of_Z 40)])] |}.

Definition slow_raw (run : Z) : raw :=
  {| raw_measure := slow_run run; raw_measuredAt := Some (VStr "2026-01-01T00:00:00.000Z"); raw_environment := None |}.

Definition slow_files : list (jsstr * raw) := [("raw-100-2.json", slow_raw 2); ("raw-100-1.json", slow_raw 1)].

Definition slow_capacity : capacity :=
  {| ca_cardinality := 100; ca_triggers := ["tenants:http-p95>=300ms"]; ca_itemCount := false; ca_payload250KiB := false |}.

Lemma slow_figures : figures (slow_run 1).
Proof.
  assert (H : ∀ q, (0 <= q)%Q → (q < pow10 21)%Q → finite_figure (Fin q)) by (intros q ? ?; by exists q).
  split.
  - intros e ->%list_elem_of_singleton. cbn [snd em_bytes em_p95_1 em_p95_10]. split; [done|].
    split; [by apply H|]. apply (bytes_figure 90). done.
  - intros s x ->%list_elem_of_singleton ->%list_elem_of_singleton. apply (bytes_figure 40). done.
Qed.

Lemma report_shows_triggers_witness :
  ∃ w su, report None (Some "out") slow_files = Ok w ∧ summarize_scale None (measure_files slow_files) = Ok su ∧
    toFixed1 (maxHTTP (slow_run 1)) = "300.3" ∧
    ((∃ id, ("tenants" ++ ":http-p95>=300ms") = id ++ ":payload>=500KiB" ∧ num_le (num_of_Z 512000) (maxBytes (slow_run 1)) = true) ∨
     (∃ id n d, ("tenants" ++ ":http-p95>=300ms") = id ++ ":http-p95>=300ms" ∧ 300 <= n ∧ 0 <= d < 10 ∧
       toFixed1 (maxHTTP (slow_run 1)) = digits n ++ "." ++ digits d) ∨
     (∃ id n d, ("tenants" ++ ":http-p95>=300ms") = id ++ ":ui-p95>=150ms" ∧ 150 <= n ∧ 0 <= d < 10 ∧
       toFixed1 (maxUI (slow_run 1)) = digits n ++ "." ++ digits d)).
Proof.
  eexists _, _. split; [vm_compute; reflexivity|]. split; [vm_compute; reflexivity|]. split; [vm_compute; reflexivity|].
  eapply (report_shows_triggers None "out" slow_files); [vm_compute; reflexivity|vm_compute; reflexivity| | | | |].
  - apply (list_elem_of_In _ slow_capacity). left. reflexivity.
  - apply list_elem_of_In. vm_compute. left. reflexivity.
  - reflexivity.
  - exact slow_figures.
  - left.
Defined.
