(* ===== verification/LintCli.v ===== *)
(** * The colocation linter's command

    The command line of [src/web/scripts/lint-colocated-routes.mjs]: [formatFindings] with its JSON
    form, [runCli], what runs it ([isDirectRun]) and the exit code, over the linter of [Lint]. *)
From Stdlib Require Import ZArith Lia List.
From stdpp Require Import base list sets.
From S2P Require Import Prelude Regex Numbers Json JsonRead Lint.
#[local] Open Scope Z_scope.

Definition kind_text (k : finding_kind) : jsstr := match k with colocate => "colocate" | lift => "lift" end.

Definition finding_value (f : finding) : jv :=
  VObj [("kind", VStr (kind_text (fi_kind f))); ("file", VStr (fi_file f));
        ("consumers", VArr (map VStr (fi_consumers f))); ("suggested", VStr (fi_suggested f));
        ("convertRouteToFolder", VBool (fi_convertRouteToFolder f))].

Definition result_value (r : lint_result) : jv :=
  VObj [("appRoot", VStr (li_appRoot r)); ("srcDir", VStr (li_srcDir r)); ("routesDir", VStr (li_routesDir r));
        ("routeCount", VNum (num_of_Z (Z.of_nat (li_routeCount r))));
        ("findings", VArr (map finding_value (li_findings r)))].

Definition format_findings (r : lint_result) (json : bool) : jsstr :=
  if json then JSON_pretty [] (result_value r) else formatFindings r.

(** The message of an error; that of a file the linter cannot read is the host's. *)
Definition lint_message (unreadable : jsstr) (e : lint_error) : jsstr :=
  match e with
  | SrcNotFound p => "src not found: " ++ p
  | RoutesNotFound p => "routes not found: " ++ p
  | Unreadable => unreadable
  end.

Definition usage : jsstr := join newline [
  "Usage: lint-colocated-routes [--cwd <app>] [--src <dir>] [--json] [--report]";
  [];
  "Flags:";
  "  --cwd <dir>   App root (default: current directory)";
  "  --src <dir>   Source directory, relative to cwd or absolute (default: src)";
  "  --json        Machine-readable output";
  "  --report      Always exit 0 (inventory; do not fail CI)";
  "  --help        Show this help";
  []].

(** What the process wrote and the code it exited with. *)
Record process := { stdout : jsstr; stderr : jsstr; exit_code : Z }.

Section command.
Context (root : node) (localeCompare : jsstr → jsstr → Z) (cwd unreadable : jsstr).

(** [console.error] and [process.exit(2)] *)
Definition rejected (m : jsstr) : process := {| stdout := []; stderr := m ++ newline; exit_code := 2 |}.

(** [runCli], with the [catch] of the block that runs it. *)
Definition runCli (argv : list jsstr) : process :=
  match parseArgs cwd argv with
  | Err m => rejected m
  | Ok opts =>
    if lo_help opts then {| stdout := usage ++ newline; stderr := []; exit_code := 0 |}
    else
      match lintColocatedRoutes root localeCompare (lo_cwd opts) (lo_src opts) with
      | Err e => rejected (lint_message unreadable e)
      | Ok r =>
        {| stdout := format_findings r (lo_json opts); stderr := [];
           exit_code := if negb (lo_report opts) && (0 <? Z.of_nat (length (li_findings r))) then 1 else 0 |}
      end
  end.

(** [isDirectRun]; [None] where [pathToFileURL] throws. *)
Definition isDirectRun (pathToFileURL : jsstr → option jsstr) (url : jsstr) (entry : option jsstr) : bool :=
  match entry with
  | Some e => truthy e && match pathToFileURL (resolve cwd e) with Some href => str_eqb href url | None => false end
  | None => false
  end.

(** The module as a script: [argv] without the executable. *)
Definition script (pathToFileURL : jsstr → option jsstr) (url : jsstr) (argv : list jsstr) : process :=
  if isDirectRun pathToFileURL url (head argv) then runCli (tail argv)
  else {| stdout := []; stderr := []; exit_code := 0 |}.

End command.

(** ** Property *)

(** The exit code says what happened: it is 2 exactly when an argument is unknown or the tree
    cannot be linted, and then only the error is written; without [--help] and [--report] it is 1
    exactly when some module of the tree is not well placed; every other run exits with 0 and no
    error. *)
Theorem run_cli_exit root localeCompare cwd unreadable argv :
  let p := runCli root localeCompare cwd unreadable argv in
  match parseArgs cwd argv with
  | Err m => p = rejected m
  | Ok o =>
    if lo_help o then exit_code p = 0 ∧ stderr p = []
    else match lintColocatedRoutes root localeCompare (lo_cwd o) (lo_src o) with
         | Err e => p = rejected (lint_message unreadable e)
         | Ok r => stderr p = [] ∧ stdout p = format_findings r (lo_json o) ∧
                   ∃ treeImported, tree_imported root r = Some treeImported ∧
                     (exit_code p = 1 ↔ lo_report o = false ∧ ¬ well_placed root treeImported r) ∧
                     (exit_code p = 0 ↔ lo_report o = true ∨ well_placed root treeImported r)
         end
  end.
Proof.
  unfold runCli. cbn. destruct (parseArgs cwd argv) as [o|m]; [|done]. destruct (lo_help o); [done|].
  destruct (lintColocatedRoutes _ _ _ _) as [r|e] eqn:E; [|done]. split_and!; [done..|].
  apply lint_clean in E as (ti & Hti & H). exists ti. split; [done|]. rewrite <- H. cbn [exit_code].
  destruct (li_findings r) as [|f l]; cbn; destruct (lo_report o); cbn; split; split; naive_solver.
Qed.

Example script_examples :
  let run argv := let p := script demo_tree str_cmp "/app" "unreadable" Some "/app/lint.mjs" argv in (exit_code p, (length (stdout p) =? 0)%nat) in
  run ["lint.mjs"] = (1, false) ∧ run ["lint.mjs"; "--report"; "--json"] = (0, false) ∧ run ["lint.mjs"; "--cwd"; "/none"] = (2, true) ∧
  run ["lint.mjs"; "--json"; "-x"] = (2, true) ∧ run ["other.mjs"; "-x"] = (0, true) ∧ run ["lint.mjs"; "-x"; "--help"] = (2, true).
Proof. vm_compute. done. Qed.
