(* ===== verification/RowActions.v ===== *)
(** * Rows, cards and the menus inside them

    What a click or a key does on a row of [components/data-table/data-table.tsx] and on a card of
    [routes/definitions/-components/page.tsx], and on the menus of actions they hold
    ([components/definition-actions.tsx], the resource table of [routes/tenant-detail]): events reach
    the handlers from the innermost element outwards, through portals, until one stops them.  Which
    events the handlers of the menu library stop, and which they cancel, is a parameter. *)
From Stdlib Require Import ZArith Lia List.
From stdpp Require Import base list.
From S2P Require Import Prelude.
#[local] Open Scope Z_scope.

(** ** Events *)

Inductive input := Click | KeyDown (key : jsstr).

(** What a handler does: its effects, [preventDefault] and [stopPropagation]. *)
Record handled (E : Type) := { effects : list E; prevented : bool; stopped : bool }.
Arguments effects {E} _.
Arguments prevented {E} _.
Arguments stopped {E} _.
Arguments Build_handled {E} _ _ _.

Abbreviation handler E := (input → handled E).

Definition ignore {E} : handled E := {| effects := []; prevented := false; stopped := false |}.

(** The handlers from the target outwards. *)
Fixpoint bubble {E} (path : list (handler E)) (i : input) : list E * bool :=
  match path with
  | [] => ([], false)
  | h :: outer =>
    let r := h i in
    if stopped r then (effects r, prevented r)
    else let '(es, p) := bubble outer i in (effects r ++ es, prevented r || p)
  end.

(** ** Rows and cards *)

Definition activation_key (key : jsstr) : bool := str_eqb key "Enter" || str_eqb key " ".

(** The handlers of an element that acts as a whole, on a click or an activation key. *)
Definition whole {E} (act : E) : handler E := λ i,
  match i with
  | Click => {| effects := [act]; prevented := false; stopped := false |}
  | KeyDown key => if activation_key key then {| effects := [act]; prevented := true; stopped := false |} else ignore
  end.

Section table_row.
Context {Row E : Type}.

(** A row of [DataTable]; it takes part in the order of focus when it can be chosen. *)
Definition row_handler (onRowClick : option (Row → E)) (original : Row) : handler E :=
  match onRowClick with Some f => whole (f original) | None => λ _, ignore end.

Definition row_tabIndex (onRowClick : option (Row → E)) : option Z :=
  match onRowClick with Some _ => Some 0 | None => None end.
End table_row.

Inductive alignment := left_ | center | right_.

Definition columnAlignment (align : option alignment) : jsstr :=
  match align with Some right_ => "text-right" | Some center => "text-center" | _ => "text-left" end.

(** The three widths of a cell with a size. *)
Definition cell_style (size : option Z) : option Z :=
  match size with Some n => if 0 <? n then Some n else None | None => None end.

(** The body: the rows of the page, or one cell over all columns. *)
Inductive table_body (Row : Type) := Rows (rows : list Row) | NoResults (text : jsstr) (colSpan : nat).
Arguments Rows {Row} rows.
Arguments NoResults {Row} text colSpan.

Definition data_body {Row} (rows : list Row) (noResults : option jsstr) (columns : nat) : table_body Row :=
  match rows with
  | [] => NoResults (default "No results." noResults) columns
  | _ => Rows rows
  end.

(** ** The menus *)

Inductive menu_action := EditIdentity | ToggleStatus | Duplicate | Remove.

Inductive effect :=
  | Library (i : input)          (* what the menu library does: open the menu, move in it *)
  | Chosen (a : menu_action)
  | Activated.                   (* the row or the card as a whole *)

(** Label, action and whether it is destructive. *)
Record menu_item := { mi_label : jsstr; mi_action : menu_action; mi_destructive : bool }.

Definition item (label : jsstr) (a : menu_action) (destructive : bool) : menu_item :=
  {| mi_label := label; mi_action := a; mi_destructive := destructive |}.

(** [DefinitionActions] *)
Definition definition_items (status : jsstr) : list menu_item :=
  [item "common.edit" EditIdentity false;
   item (if str_eqb status "active" then "definitionDetail.deactivate" else "definitionDetail.activate") ToggleStatus false;
   item "common.remove" Remove true].

(** The actions of a resource of a tenant, for who may write resources. *)
Definition resource_items (can_write : bool) (status : jsstr) : list menu_item :=
  if can_write then
    [item "common.edit" EditIdentity false;
     item (if str_eqb status "active" then "tenantDetail.deactivate" else "tenantDetail.reactivate") ToggleStatus false;
     item "tenantDetail.duplicate" Duplicate false;
     item "common.remove" Remove true]
  else [].

(** The elements of a menu on which the library listens. *)
Inductive spot := OnTrigger | OnItem | OnContent.

Section menu.
(** The events that the library stops, and those it cancels, at each of its elements; whatever it does
    is its own affair. *)
Context (stops cancels : spot → input → bool).

Definition library (s : spot) : handler effect := λ i,
  {| effects := [Library i]; prevented := cancels s i; stopped := stops s i |}.

(** [onClick={(event) => event.stopPropagation()}] beside the library's own handlers. *)
Definition kept (s : spot) : handler effect := λ i,
  match i with
  | Click => {| effects := effects (library s i); prevented := prevented (library s i); stopped := true |}
  | KeyDown _ => library s i
  end.

Definition trigger : handler effect := kept OnTrigger.

(** An item of the resource menu stops its own click; one of [DefinitionActions] leaves that to the
    content of the menu. *)
Definition resource_item (a : menu_action) : handler effect := λ i,
  match i with
  | Click => {| effects := Chosen a :: effects (library OnItem i); prevented := prevented (library OnItem i); stopped := true |}
  | KeyDown _ => library OnItem i
  end.

Definition definition_item (a : menu_action) : handler effect := λ i,
  match i with
  | Click => {| effects := Chosen a :: effects (library OnItem i); prevented := prevented (library OnItem i); stopped := stopped (library OnItem i) |}
  | KeyDown _ => library OnItem i
  end.

Definition resource_content : handler effect := library OnContent.
Definition definition_content : handler effect := kept OnContent.

(** What an event meets on its way out, for each place where it can happen. *)
Inductive place :=
  | Whole                    (* the row or the card itself *)
  | Trigger                  (* the button that opens the actions *)
  | Item (a : menu_action)
  | Beside.                  (* in the open menu, on none of its items: a separator, its edge *)

Definition resource_path (p : place) : list (handler effect) :=
  let row := row_handler (Some (λ _ : unit, Activated)) tt in
  match p with
  | Whole => [row]
  | Trigger => [trigger; row]
  | Item a => [resource_item a; resource_content; row]
  | Beside => [resource_content; row]
  end.

Definition definition_path (p : place) : list (handler effect) :=
  let card := whole Activated in
  match p with
  | Whole => [card]
  | Trigger => [trigger; card]
  | Item a => [definition_item a; definition_content; card]
  | Beside => [definition_content; card]
  end.

(** ** Lemmas *)

Definition is_activated (e : effect) : bool := match e with Activated => true | _ => false end.

Definition activates (path : list (handler effect)) (i : input) : bool := existsb is_activated (bubble path i).1.

(** The elements of the library between a place and the row or the card. *)
Definition spots (p : place) : list spot :=
  match p with Whole => [] | Trigger => [OnTrigger] | Item _ => [OnItem; OnContent] | Beside => [OnContent] end.

(** Whether the library keeps an event from the row. *)
Definition kept_in (p : place) (i : input) : bool := existsb (λ s, stops s i) (spots p).

(** The rows of the resources, or the cards of the definitions. *)
Definition path_to (resources : bool) (p : place) : list (handler effect) :=
  if resources then resource_path p else definition_path p.

(** A key meets the library's handlers only. *)
Lemma path_key resources p key :
  bubble (path_to resources p) (KeyDown key) = bubble ((library <$> spots p) ++ [whole Activated]) (KeyDown key).
Proof using. by destruct resources, p. Qed.

Lemma library_key ss key :
  let path := (library <$> ss) ++ [whole Activated] in
  activates path (KeyDown key) = activation_key key && negb (existsb (λ s, stops s (KeyDown key)) ss) ∧
  (activates path (KeyDown key) = true → (bubble path (KeyDown key)).2 = true).
Proof using.
  cbv zeta. induction ss as [|s ss [IH1 IH2]].
  - unfold activates. cbn. by destruct (activation_key key).
  - unfold activates in *. cbn. destruct (stops s (KeyDown key)); cbn; [by rewrite andb_false_r|].
    change (fmap library ss) with (library <$> ss) in *.
    destruct (bubble _ _) as [es b]. cbn in *. split; [exact IH1|]. intros Ha. rewrite IH2 by done. apply orb_true_r.
Qed.
End menu.

(** ** Properties *)

(** C24. A click on a control of a row or a card stays with the control, whatever the menu library
    stops: neither the button that opens the actions nor choosing one activates the row around it,
    and a click on the row itself does nothing but activate it.  A click in the open menu beside its
    items stays there too in the menu of a definition; in that of a resource it activates the row,
    unless the library stops it.  Keys are not kept in by the program: on the button, and in the
    menu, Enter and the space bar also activate the whole row or card, and cancel what the key does
    there, exactly when the library lets them through. *)
Theorem row_controls_isolated stops cancels resources place :
  let path := path_to stops cancels resources place in
  (activates path Click = true ↔
     place = Whole ∨ (place = Beside ∧ resources = true ∧ stops OnContent Click = false)) ∧
  (∀ a, place = Item a → Chosen a ∈ (bubble path Click).1) ∧
  (place = Whole → (bubble path Click).1 = [Activated]) ∧
  ∀ key, activates path (KeyDown key) = activation_key key && negb (kept_in stops place (KeyDown key)) ∧
         (activates path (KeyDown key) = true → (bubble path (KeyDown key)).2 = true).
Proof.
  cbv zeta. split_and!.
  - assert (E : activates (path_to stops cancels resources place) Click =
      match place with Whole => true | Beside => resources && negb (stops OnContent Click) | _ => false end).
    { destruct resources, place; try done; unfold activates; cbn; by destruct (stops _ Click). }
    rewrite E. destruct place, resources, (stops OnContent Click); naive_solver.
  - intros a ->. destruct resources; cbn; [left|]. destruct (stops OnItem Click); left.
  - intros ->. by destruct resources.
  - intros key. unfold activates, kept_in. rewrite (path_key stops cancels resources place key).
    apply (library_key stops cancels (spots place) key).
Qed.

(** *** Witness: a menu library that keeps its arrows and Escape in, and the space bar of a search *)

Definition demo_stops (s : spot) (i : input) : bool :=
  match s, i with
  | OnTrigger, _ | _, Click => false
  | OnItem, KeyDown key => str_eqb key " "
  | OnContent, KeyDown key => existsb (str_eqb key) ["ArrowDown" : jsstr; "ArrowUp" : jsstr; "Escape" : jsstr]
  end.

Definition demo_cancels (s : spot) (i : input) : bool := false.

Lemma row_controls_isolated_witness :
  activates (path_to demo_stops demo_cancels true Trigger) Click = false ∧
  activates (path_to demo_stops demo_cancels true Trigger) (KeyDown "Enter") = true ∧
  activates (path_to demo_stops demo_cancels true Beside) Click = true ∧
  activates (path_to demo_stops demo_cancels false (Item Remove)) (KeyDown "Enter") = true ∧
  activates (path_to demo_stops demo_cancels false (Item Remove)) (KeyDown " ") = false.
Proof.
  destruct (row_controls_isolated demo_stops demo_cancels true Trigger) as (Hc & _ & _ & Hk).
  destruct (row_controls_isolated demo_stops demo_cancels true Beside) as (Hb & _).
  destruct (row_controls_isolated demo_stops demo_cancels false (Item Remove)) as (_ & _ & _ & Hk').
  split; [|split; [rewrite (proj1 (Hk "Enter")); reflexivity
          |split; [apply Hb; right; repeat split; reflexivity
          |split; [rewrite (proj1 (Hk' "Enter")); reflexivity|rewrite (proj1 (Hk' " ")); reflexivity]]]].
  apply not_true_is_false. intros [H|[H _]]%Hc; discriminate.
Defined.
