(* ===== verification/ClientsView.v ===== *)
(** * What the API clients page shows

    The rest of [src/web/src/routes/api-clients/-components/page.tsx] over the state and handlers of
    [Clients]: the columns and cells of the table, its facets, the form, the token and the snippets,
    with [components/domain-status.tsx]. *)
From Stdlib Require Import ZArith Lia List QArith.
From stdpp Require Import base list sets gmap.
From S2P Require Import Regex Numbers Host Dates Validation Json Idempotency Types Api ApiCalls Query.
From S2P Require Import I18nPt I18nEn I18nEs I18n Clients DataTable Prelude.
Import Validation.
#[local] Open Scope Z_scope.

(** ** [components/domain-status.tsx] *)

Inductive domain_variant := default_variant | error_variant | success_variant | warning_variant.

Definition domainStatusVariant (value : jsstr) : domain_variant :=
  if str_eqb value "active" || str_eqb value "success" then success_variant
  else if str_eqb value "revoked" || str_eqb value "error" || str_eqb value "denied" then error_variant
  else if str_eqb value "expired" || str_eqb value "rate_limited" then warning_variant
  else default_variant.

Section page.
Context `{CaseMap} `{DateApi} (l : Locale) (manage : bool).     (* [can("api_client.manage")] *)

Let tr (key : jsstr) : jsstr := t l key.

(** ** The table *)

(** [value || "—"] and [value ?? "—"] of the first ten characters. *)
Definition created_cell (c : ApiClient) : jsstr := str_or (take 10 (default [] (client_created_at c))) "—".
Definition last_used_cell (c : ApiClient) : jsstr := default "—" (take 10 <$> client_last_used_at c).
Definition expires_cell (c : ApiClient) : jsstr := take 10 (client_expires_at c).
Definition token_cell (c : ApiClient) : option jsstr := if manage then Some (client_key_preview c) else None.

Inductive client_action := ActEdit | ActRotate | ActRevoke | ActRemove.

(** The buttons of a row, with their titles and whether they are enabled. *)
Definition row_buttons (isLifecyclePending : bool) (c : ApiClient) : list (client_action * jsstr * bool) :=
  let on := negb isLifecyclePending in
  if str_eqb (client_status c) "active"
  then [(ActEdit, tr "common.edit", on); (ActRotate, tr "apiClients.rotate", on); (ActRevoke, tr "apiClients.revoke", on)]
  else [(ActRemove, tr "common.remove", on)].

(** What a button does on the page. *)
Definition press (a : client_action) (c : ApiClient) : Clients.label :=
  match a with ActEdit => LStartEdit c | ActRotate => LRotate c | ActRevoke => LRevoke c | ActRemove => LAskDelete c end.

Record client_cells := {
  cc_name : jsstr; cc_token : option jsstr; cc_created : jsstr; cc_scopes : list jsstr; cc_rpm : Z;
  cc_expires : jsstr; cc_last_used : jsstr; cc_status : jsstr * domain_variant; cc_flags : jsstr;
  cc_buttons : list (client_action * jsstr * bool);
}.

(** The cells of a row; [now] is the time the module was loaded. *)
Definition cells (now : Z) (isLifecyclePending : bool) (c : ApiClient) : client_cells := {|
  cc_name := client_name c; cc_token := token_cell c; cc_created := created_cell c; cc_scopes := client_scopes c;
  cc_rpm := client_rpm_limit c; cc_expires := expires_cell c; cc_last_used := last_used_cell c;
  cc_status := (formatStatus (client_status c) tr, domainStatusVariant (client_status c));
  cc_flags := client_flags c now; cc_buttons := row_buttons isLifecyclePending c |}.

(** The columns: identifier, label, whether they may be sorted by and hidden. *)
Definition client_columns : list (jsstr * jsstr * bool * bool) := [
  ("name", tr "apiClients.name", true, true); ("token", tr "apiClients.token", true, true);
  ("created_at", tr "apiClients.createdAt", true, true); ("scopes", tr "apiClients.scopes", true, true);
  ("rpm_limit", tr "apiClients.rpmLimit", true, true); ("expires_at", tr "apiClients.expiration", true, true);
  ("last_used_at", tr "apiClients.lastUsed", true, true); ("status", tr "common.status", true, true);
  ("flags", tr "apiClients.filters", false, false); ("actions", tr "apiClients.actions", false, false) ].

(** The arguments of its table: newest first, the flags hidden. *)
Definition clients_table : table_props := {|
  tp_globalFilter := None; tp_pagination := None; tp_sorting := Some [("created_at", true)]; tp_desc_first := true;
  tp_columnVisibility := Some [("flags", false)]; tp_key := Some "tenancit.api-clients.columns" |}.

(** ** The facets *)

Definition SCOPES : list jsstr := ["tenant:identify"; "resource:resolve"; "events:read"; "tenant:list"; "resource:write"].

(** Column, options with their labels, and title; each takes several options. *)
Definition client_facets : list (jsstr * list (jsstr * jsstr) * jsstr) := [
  ("status", (λ v, (v, formatStatus v tr)) <$> ["active"; "expired"; "revoked"], tr "apiClients.filterStatus");
  ("scopes", (λ v, (v, v)) <$> SCOPES, tr "apiClients.filterScope");
  ("flags", [("expiring", tr "apiClients.expiringSoon"); ("inactive", tr "apiClients.inactive")], tr "apiClients.filters") ].

(** The filter of a column, as the table applies it to a row. *)
Definition column_filter (now : Z) (column : jsstr) (value : list jsstr) (c : ApiClient) : bool :=
  if str_eqb column "status" then status_filter c value
  else if str_eqb column "scopes" then scopes_filter c value
  else if str_eqb column "flags" then flags_filter c now value
  else true.

(** The rows left by the search and the facets. *)
Definition shown_clients (now : Z) (globalFilter : jsstr) (columnFilters : list (jsstr * list jsstr)) (cs : list ApiClient) :
    list ApiClient :=
  List.filter (λ c, filterClients l c globalFilter &&
                    forallb (λ f, column_filter now f.1 f.2 c) columnFilters) cs.

(** ** The page *)

(** The error above the table: the page's own, or that of the query. *)
Definition visibleError (v : view) (query_error : option api_exn) : jsstr :=
  str_or (error v) (match query_error with Some e => apiErrorMessage e tr | None => [] end).

Inductive table_area := LoadingClients (text : jsstr) | ClientsTable (new_button : option jsstr).

Definition table_shown (isPending : bool) : table_area :=
  if isPending then LoadingClients (tr "apiClients.loading")
  else ClientsTable (if manage then Some (tr "apiClients.new") else None).

Record client_form := {
  cf_title : jsstr; cf_name : jsstr; cf_scopes : list (jsstr * bool); cf_rpm_invalid : bool; cf_days : list jsstr;
  cf_error : option jsstr; cf_submit : jsstr; cf_enabled : bool;
}.

Inductive client_dialog_shown := FormDialog (f : client_form) | TokenDialog (token copy_label : jsstr) (error : option jsstr).

Definition shown_error (v : view) : option jsstr := if truthy (error v) then Some (error v) else None.

(** The open dialog. *)
Definition clientDialog (v : view) : option client_dialog_shown :=
  if negb (open v) then None
  else if negb (truthy (token v)) then
    let editing := match editingClient v with Some _ => true | None => false end in
    Some (FormDialog {|
      cf_title := tr (if editing then "apiClients.editTitle" else "apiClients.newDialog.title");
      cf_name := name v;
      cf_scopes := (λ s, (s, existsb (str_eqb s) (scopes v))) <$> SCOPES;
      cf_rpm_invalid := (0 <? length (rpmLimit v))%nat && negb (rpmLimitValid v);
      cf_days := show_int <$> EXPIRATION_DAYS;
      cf_error := shown_error v;
      cf_submit := tr (if editing then "common.save" else "apiClients.generateToken");
      cf_enabled := negb (negb (truthy (trim (name v))) || (length (scopes v) =? 0)%nat
                          || negb (rpmLimitValid v) || isCreating v) |})
  else Some (TokenDialog (token v) (tr (if copied v then "apiClients.copied" else "apiClients.copy")) (shown_error v)).

(** The dialog that confirms a removal: the name it asks about, and whether it can be confirmed. *)
Definition removal_dialog (v : view) : option (jsstr * bool) :=
  match pendingDelete v with Some c => Some (client_name c, negb (isLifecyclePending v)) | None => None end.

(** A snippet of the help: its key, and the label of its button. *)
Definition SNIPPETS : list jsstr := ["identify"; "tenantId"; "hostname"; "resource"].
Definition snippet_button (v : view) (key : jsstr) : jsstr :=
  tr (if str_eqb (copiedSnippet v) key then "apiClients.resolveSnippet.copied" else "apiClients.resolveSnippet.copy").
End page.

(** ** Lemmas *)

Section lemmas.
Context `{CaseMap} `{DateApi}.

Definition expires_soon (c : ApiClient) (now : Z) : bool :=
  truthy (client_expires_at c) &&
  match Date_parse (client_expires_at c) with Some e => e <=? now + 2592000000 | None => false end.

Definition unused (c : ApiClient) (now : Z) : bool :=
  match client_last_used_at c with
  | None => true
  | Some u => negb (truthy u) || match Date_parse u with Some d => d <? now - 2592000000 | None => false end
  end.

Lemma client_flags_split c now :
  split 44 (client_flags c now) =
  match expires_soon c now, unused c now with
  | true, true => ["expiring"; "inactive"] | true, false => ["expiring"] | false, true => ["inactive"] | false, false => [[]]
  end.
Proof.
  unfold client_flags. change (30 * 24 * 60 * 60 * 1000) with 2592000000. fold (expires_soon c now) (unused c now).
  destruct (expires_soon c now), (unused c now); reflexivity.
Qed.

Lemma flags_filter_spec c now value :
  flags_filter c now value = true ↔
  ∀ f, f ∈ value → (f = "expiring" ∧ expires_soon c now = true) ∨ (f = "inactive" ∧ unused c now = true) ∨
                   (f = [] ∧ expires_soon c now = false ∧ unused c now = false).
Proof.
  unfold flags_filter. rewrite client_flags_split, forallb_forall.
  setoid_rewrite <- list_elem_of_In. setoid_rewrite bool_decide_eq_true. apply forall_proper. intros f.
  apply imp_iff_compat_l. destruct (expires_soon c now), (unused c now); rewrite ?elem_of_cons, ?elem_of_nil;
    naive_solver.
Qed.

Lemma includes_self s : includes s s = true.
Proof. apply includes_spec. exists [], []. by rewrite app_nil_r. Qed.

(** ** Properties *)

(** What the buttons of a row do does not depend on the permission to manage clients, which the
    button of a new client and the previews of the tokens ask for: while no call is under way and no
    dialog is open, an operator without it is offered the same buttons, enabled, and pressing one
    does what it does for everyone; and the search answers by the previews it does not show. *)
Theorem client_actions_ungated uuid l w c a label_ enabled :
  uncovered (w_view w) = true → isLifecyclePending (w_view w) = false →
  (a, label_, enabled) ∈ cc_buttons (cells l false 0 (isLifecyclePending (w_view w)) c) →
  enabled = true ∧ handle uuid l false w (press a c) = handle uuid l true w (press a c) ∧
  handle uuid l false w (press a c) ≠ [] ∧
  (a = ActRevoke → Log (Sent (revokeAPIClient (client_id c))) ∈ handle uuid l false w (press a c)) ∧
  table_shown l false false = ClientsTable None ∧ token_cell false c = None ∧
  (trimmed (client_key_preview c) → filterClients l c (client_key_preview c) = true).
Proof.
  intros Hu Hp Hin. cbn [cells cc_buttons] in Hin. rewrite Hp in Hin. unfold row_buttons in Hin.
  assert (Hrow : ∀ b, str_eqb (client_status c) "active" = b → row_enabled b c (w_view w) = true).
  { intros b Hb. unfold row_enabled. rewrite Hu, Hb, Hp. by destruct b. }
  assert (Hf : trimmed (client_key_preview c) → filterClients l c (client_key_preview c) = true).
  { intros Ht. unfold filterClients. rewrite (trim_trimmed_id _ Ht). destruct (truthy _); [|done].
    cbn [negb existsb]. by rewrite includes_self, orb_true_r. }
  assert (Hrot : rotate uuid c w ≠ []).
  { unfold rotate. by destruct (stableIdempotencyKey _ _ _ _) as [[? ?] ?]. }
  destruct (str_eqb (client_status c) "active") eqn:Es.
  - rewrite !elem_of_cons, elem_of_nil in Hin. destruct Hin as [[= -> -> ->]|[[= -> -> ->]|[[= -> -> ->]|[]]]];
      cbn [press handle]; rewrite !(Hrow true eq_refl); cbn [guarded]; split_and!; try done;
      intros _; unfold revoke; set_solver.
  - rewrite elem_of_cons, elem_of_nil in Hin. destruct Hin as [[= -> -> ->]|[]];
      cbn [press handle]; rewrite !(Hrow false eq_refl); cbn [guarded]; split_and!; done.
Qed.

(** The rows that are left match the search and every facet in use: one of the statuses chosen, one of
    the scopes chosen, and all of the flags chosen. *)
Theorem clients_shown l now search statuses chosen flags cs c :
  (∀ f, f ∈ flags → f = "expiring" ∨ f = "inactive") →
  c ∈ shown_clients l now search [("status", statuses); ("scopes", chosen); ("flags", flags)] cs ↔
  c ∈ cs ∧ filterClients l c search = true ∧ client_status c ∈ statuses ∧
  (∃ s, s ∈ chosen ∧ s ∈ client_scopes c) ∧
  ("expiring" ∈ flags → expires_soon c now = true) ∧ ("inactive" ∈ flags → unused c now = true).
Proof.
  intros Hflags. unfold shown_clients. rewrite list_elem_of_In, filter_In, <- list_elem_of_In, andb_true_iff.
  change (forallb _ _) with (status_filter c statuses && (scopes_filter c chosen && (flags_filter c now flags && true))).
  rewrite !andb_true_iff, flags_filter_spec. unfold status_filter, scopes_filter.
  rewrite bool_decide_eq_true, existsb_exists. setoid_rewrite bool_decide_eq_true. setoid_rewrite <- list_elem_of_In.
  assert (Hf : (∀ f, f ∈ flags → (f = "expiring" ∧ expires_soon c now = true) ∨ (f = "inactive" ∧ unused c now = true) ∨
                   (f = [] ∧ expires_soon c now = false ∧ unused c now = false)) ↔
    ("expiring" ∈ flags → expires_soon c now = true) ∧ ("inactive" ∈ flags → unused c now = true)).
  { split.
    - intros Hall. split; intros Hin; destruct (Hall _ Hin) as [[? ?]|[[? ?]|[? _]]]; done.
    - intros [He Hi] f Hin. destruct (Hflags f Hin) as [-> | ->]; auto. }
  rewrite Hf. tauto.
Qed.

(** The dialog is the form exactly while the page takes its events, and its button is enabled exactly
    when pressing it has an effect. *)
Theorem client_dialog_faces l v :
  match clientDialog l v with
  | None => open v = false
  | Some (FormDialog f) => form_shown v = true ∧ cf_enabled f = can_submit v
  | Some (TokenDialog tok _ _) => token_shown v = true ∧ tok = token v
  end.
Proof.
  unfold clientDialog, form_shown, token_shown, can_submit. destruct (open v); [|done]. cbn [negb andb].
  destruct (truthy (token v)); cbn [negb]; [done|]. split; [done|]. cbn [cf_enabled].
  by rewrite !negb_orb, !negb_involutive.
Qed.

(** The arguments of its table are such as [DataTable] asks for: its preferences survive it, the hidden
    column included. *)
Lemma clients_table_ok : props_ok clients_table.
Proof.
  split; [split; [repeat constructor; set_solver|text16]|]. split; [done|].
  intros s [= <-]. constructor; [|constructor]. text16.
Qed.
End lemmas.

(** *** Witnesses *)

Lemma client_actions_ungated_witness :
  let w := demo_page [] in
  Log (Sent (revokeAPIClient "c1")) ∈
    @handle ascii_case_map demo_dates demo_uuid en_US false w (press ActRevoke (demo_client "c1" "billing")).
Proof.
  destruct (@client_actions_ungated ascii_case_map demo_dates demo_uuid en_US (demo_page []) (demo_client "c1" "billing")
    ActRevoke (t en_US "apiClients.revoke") true) as (_ & _ & _ & Hr & _).
  - reflexivity.
  - reflexivity.
  - right. right. left.
  - exact (Hr eq_refl).
Defined.

Lemma clients_shown_witness :
  demo_client "c1" "billing" ∈
    @shown_clients ascii_case_map demo_dates en_US 0 "bill" [("status", ["active"]); ("scopes", ["tenant:identify"]); ("flags", ["inactive"])]
      [demo_client "c1" "billing"; demo_client "c2" "edge"].
Proof.
  apply (@clients_shown ascii_case_map demo_dates en_US 0 "bill" ["active"] ["tenant:identify"] ["inactive"]).
  - intros f ->%list_elem_of_singleton. right. reflexivity.
  - split; [left|]. split; [vm_compute; reflexivity|]. split; [left|]. split; [exists "tenant:identify"; split; left|].
    split; [intros ?%list_elem_of_singleton; discriminate|reflexivity].
Defined.
