(* ===== verification/Fixtures.v ===== *)
(** * The fixtures of the end-to-end tests

    [src/web/e2e/fixtures/catalog.ts]: what a test tracks while it runs ([CatalogCleanup]), the
    definitions it sets aside ([suspendActiveDefinitions]) and the cleanup that undoes both through
    the admin API.  The server is a parameter: the status each call is answered with, and the world it
    leaves; [None] is a call that throws. *)
From Stdlib Require Import ZArith Lia List.
From stdpp Require Import base list sets gmap strings.
From S2P Require Import Prelude JsonRead.
#[local] Open Scope Z_scope.

(** ** Calls *)

Inductive admin_call :=
  | Revoke (id : jsstr)
  | DeleteClient (id : jsstr)
  | DeleteTenant (id : jsstr)
  | PutStatus (id status : jsstr).

(** Method and path. *)
Definition request_line (c : admin_call) : jsstr * jsstr :=
  match c with
  | Revoke id => ("POST", "/v1/admin/api-clients/" ++ id ++ "/revoke")
  | DeleteClient id => ("DELETE", "/v1/admin/api-clients/" ++ id)
  | DeleteTenant id => ("DELETE", "/v1/admin/tenants/" ++ id)
  | PutStatus id _ => ("PUT", "/v1/admin/resource-definitions/" ++ id ++ "/status")
  end.

(** ** What a test tracks *)

(** Sets and maps in the order of insertion. *)
Record catalog_cleanup := {
  cl_tenants : list jsstr; cl_definitions : list jsstr; cl_apiClients : list jsstr;
  cl_definitionStatusRestores : list (jsstr * jsstr);
}.

Definition new_cleanup : catalog_cleanup :=
  {| cl_tenants := []; cl_definitions := []; cl_apiClients := []; cl_definitionStatusRestores := [] |}.

Definition set_add (x : jsstr) (s : list jsstr) : list jsstr := if existsb (str_eqb x) s then s else s ++ [x].

Definition trackTenant (id : jsstr) (c : catalog_cleanup) : catalog_cleanup :=
  {| cl_tenants := set_add id (cl_tenants c); cl_definitions := cl_definitions c; cl_apiClients := cl_apiClients c;
     cl_definitionStatusRestores := cl_definitionStatusRestores c |}.

Definition trackDefinition (id : jsstr) (c : catalog_cleanup) : catalog_cleanup :=
  {| cl_tenants := cl_tenants c; cl_definitions := set_add id (cl_definitions c); cl_apiClients := cl_apiClients c;
     cl_definitionStatusRestores := cl_definitionStatusRestores c |}.

Definition trackAPIClient (id : jsstr) (c : catalog_cleanup) : catalog_cleanup :=
  {| cl_tenants := cl_tenants c; cl_definitions := cl_definitions c; cl_apiClients := set_add id (cl_apiClients c);
     cl_definitionStatusRestores := cl_definitionStatusRestores c |}.

(** The first status recorded for a definition is kept. *)
Definition restoreDefinitionStatus (id status : jsstr) (c : catalog_cleanup) : catalog_cleanup :=
  {| cl_tenants := cl_tenants c; cl_definitions := cl_definitions c; cl_apiClients := cl_apiClients c;
     cl_definitionStatusRestores :=
       match prop_get id (cl_definitionStatusRestores c) with
       | Some _ => cl_definitionStatusRestores c
       | None => cl_definitionStatusRestores c ++ [(id, status)]
       end |}.

Section fixtures.
Context {W : Type}.
Context (answer : admin_call → W → option Z * W).

(** ** The cleanup *)

(** The world, the calls made and the failures noted; [None] once a call has thrown. *)
Record progress := { pg_world : W; pg_calls : list admin_call; pg_failures : list jsstr }.

Definition send (what : jsstr) (id : jsstr) (accepted : list Z) (c : admin_call) (p : progress) :
    option (Z * progress) :=
  let '(status, w) := answer c (pg_world p) in
  s ← status;
  Some (s, {| pg_world := w; pg_calls := pg_calls p ++ [c];
              pg_failures := pg_failures p ++
                (if existsb (Z.eqb s) accepted then [] else [what ++ " " ++ id ++ ": " ++ show_int s]) |}).

Definition clean_client (p : progress) (id : jsstr) : option progress :=
  '(revoked, p1) ← send "revoke api client" id [200; 404] (Revoke id) p;
  if revoked =? 200
  then snd <$> send "delete api client" id [204; 404] (DeleteClient id) p1
  else Some p1.

Definition clean_tenant (p : progress) (id : jsstr) : option progress :=
  snd <$> send "delete tenant" id [204; 404] (DeleteTenant id) p.

Definition clean_definition (p : progress) (id : jsstr) : option progress :=
  snd <$> send "deactivate definition" id [200; 404] (PutStatus id "inactive") p.

Definition restore_definition (definitions : list jsstr) (p : progress) (r : jsstr * jsstr) : option progress :=
  if existsb (str_eqb r.1) definitions then Some p
  else snd <$> send "restore definition" r.1 [200; 404] (PutStatus r.1 r.2) p.

(** A loop that stops when its body throws. *)
Fixpoint for_each {A} (body : progress → A → option progress) (l : list A) (p : progress) : option progress :=
  match l with
  | [] => Some p
  | x :: rest => p' ← body p x; for_each body rest p'
  end.

Definition clean (c : catalog_cleanup) (p : progress) : option progress :=
  p1 ← for_each clean_client (cl_apiClients c) p;
  p2 ← for_each clean_tenant (cl_tenants c) p1;
  p3 ← for_each clean_definition (cl_definitions c) p2;
  for_each (restore_definition (cl_definitions c)) (cl_definitionStatusRestores c) p3.

Inductive cleanup_result := Cleaned | CleanupFailed (failures : list jsstr) | CleanupThrew.

(** [run]; the expectation at its end fails the test with the failures. *)
Definition run_cleanup (c : catalog_cleanup) (w : W) : cleanup_result * list admin_call * option W :=
  match clean c {| pg_world := w; pg_calls := []; pg_failures := [] |} with
  | None => (CleanupThrew, [], None)
  | Some p => (match pg_failures p with [] => Cleaned | fs => CleanupFailed fs end, pg_calls p, Some (pg_world p))
  end.

(** ** The definitions set aside *)

(** [suspendActiveDefinitions], over the definitions it was answered with; it throws when a call is
    not answered with success. *)
Fixpoint suspend (keepIds : list jsstr) (definitions : list (jsstr * jsstr)) (c : catalog_cleanup) (w : W) : catalog_cleanup * option W :=
  match definitions with
  | [] => (c, Some w)
  | (id, status) :: rest =>
    if negb (str_eqb status "active") || existsb (str_eqb id) keepIds then suspend keepIds rest c w
    else
      let c' := restoreDefinitionStatus id status c in
      match answer (PutStatus id "inactive") w with
      | (Some s, w') => if (200 <=? s) && (s <=? 299) then suspend keepIds rest c' w' else (c', None)
      | (None, _) => (c', None)
      end
  end.
End fixtures.
Arguments progress : clear implicits.

(** ** A server of definitions

    What the admin API does of the status of a definition while none of its own calls fails
    ([setDefinitionStatus] of the server): setting it to one of the two statuses is answered with 200
    and done, or with 404 when there is no such definition; no other call changes it. *)
Definition definition_status (s : jsstr) : Prop := s = "active" ∨ s = "inactive".

Class DefinitionServer (W : Type) := {
  ds_answer : admin_call → W → option Z * W;
  ds_status : W → jsstr → option jsstr;
  ds_definitions : W → list (jsstr * jsstr);
  ds_definitions_status w id s : (id, s) ∈ ds_definitions w ↔ ds_status w id = Some s;
  ds_put w id s : definition_status s → ds_status w id ≠ None →
    (ds_answer (PutStatus id s) w).1 = Some 200 ∧
    ∀ id', ds_status (ds_answer (PutStatus id s) w).2 id' = if str_eqb id' id then Some s else ds_status w id';
  ds_put_missing w id s : definition_status s → ds_status w id = None →
    (ds_answer (PutStatus id s) w).1 = Some 404 ∧ ∀ id', ds_status (ds_answer (PutStatus id s) w).2 id' = ds_status w id';
  ds_other w c : match c with PutStatus _ _ => False | _ => True end →
    ∀ id, ds_status (ds_answer c w).2 id = ds_status w id;
}.

Section server.
Context `{DefinitionServer W}.

(** ** A test, from its first step to its cleanup *)

Record test_world := { tw_cleanup : catalog_cleanup; tw_world : W }.

(** What a test does: track what it created, set definitions aside, and anything else that leaves the
    definitions that exist in place. *)
Inductive test_step : test_world → test_world → Prop :=
  | step_track_tenant id t : test_step t {| tw_cleanup := trackTenant id (tw_cleanup t); tw_world := tw_world t |}
  | step_track_client id t : test_step t {| tw_cleanup := trackAPIClient id (tw_cleanup t); tw_world := tw_world t |}
  | step_track_definition id t : test_step t {| tw_cleanup := trackDefinition id (tw_cleanup t); tw_world := tw_world t |}
  | step_suspend keepIds t c w :
      suspend ds_answer keepIds (ds_definitions (tw_world t)) (tw_cleanup t) (tw_world t) = (c, Some w) →
      test_step t {| tw_cleanup := c; tw_world := w |}
  | step_other w t :
      (∀ id, ds_status (tw_world t) id ≠ None → ds_status w id ≠ None) →
      test_step t {| tw_cleanup := tw_cleanup t; tw_world := w |}.

Inductive tested : test_world → Prop :=
  | tested_new w : tested {| tw_cleanup := new_cleanup; tw_world := w |}
  | tested_step t t' : tested t → test_step t t' → tested t'.

(** ** Lemmas *)

Lemma existsb_str x l : existsb (str_eqb x) l = true ↔ x ∈ l.
Proof.
  rewrite existsb_exists. split.
  - intros (y & Hy & E). apply str_eqb_eq in E as ->. by apply list_elem_of_In.
  - intros Hx. exists x. split; [by apply list_elem_of_In|apply str_eqb_refl].
Qed.

Definition present (w : W) (id : jsstr) : Prop := ds_status w id ≠ None.

Lemma put_present w id s id' :
  definition_status s → present w id' → present (ds_answer (PutStatus id s) w).2 id'.
Proof.
  unfold present. intros Hst Hp. destruct (ds_status w id) eqn:E.
  - assert (Hne : ds_status w id ≠ None) by congruence. rewrite (proj2 (ds_put w id s Hst Hne)). by destruct (str_eqb id' id).
  - by rewrite (proj2 (ds_put_missing w id s Hst E)).
Qed.

(** The restores: distinct, active, of definitions that exist. *)
Definition restores_ok (t : test_world) : Prop :=
  NoDup (cl_definitionStatusRestores (tw_cleanup t)).*1 ∧
  ∀ id s, (id, s) ∈ cl_definitionStatusRestores (tw_cleanup t) → s = "active" ∧ present (tw_world t) id.

Lemma suspend_restores keepIds ds c w c' w' :
  suspend ds_answer keepIds ds c w = (c', Some w') →
  (∀ id s, (id, s) ∈ ds → present w id) →
  restores_ok {| tw_cleanup := c; tw_world := w |} → restores_ok {| tw_cleanup := c'; tw_world := w' |}.
Proof.
  revert c w. induction ds as [|[id s] ds IH]; cbn [suspend]; intros c w E Hds Hok; [by injection E as <- <-|].
  destruct (negb (str_eqb s "active") || existsb (str_eqb id) keepIds) eqn:Es.
  { apply (IH _ _ E); [|done]. intros i x Hi. apply (Hds i x). by right. }
  apply orb_false_iff in Es as [Es _]. apply negb_false_iff, str_eqb_eq in Es as ->.
  assert (Hid : present w id) by (by apply (Hds id "active"); left).
  destruct (ds_put w id "inactive" ltac:(by right) Hid) as [Ea _]. destruct (ds_answer (PutStatus id "inactive") w) as [o w1] eqn:Ew.
  cbn in Ea. subst o. cbn in E. assert (Hkeep : ∀ i, present w i → present w1 i).
  { intros i Hi. replace w1 with (ds_answer (PutStatus id "inactive") w).2 by (by rewrite Ew). apply put_present; [by right|done]. }
  apply (IH _ _ E).
  - intros i x Hi. apply Hkeep, (Hds i x). by right.
  - destruct Hok as [Hn Hall]. unfold restores_ok, restoreDefinitionStatus in *.
    cbn [tw_cleanup tw_world cl_definitionStatusRestores] in *.
    destruct (prop_get id (cl_definitionStatusRestores c)) eqn:Eg.
    + split; [done|]. intros i x Hi. destruct (Hall i x Hi). auto.
    + apply prop_get_none in Eg. split.
      * rewrite fmap_app. apply NoDup_app. split_and!; [done| |apply NoDup_singleton].
        intros x Hx ->%list_elem_of_singleton. done.
      * intros i x [Hi|[= -> ->]%list_elem_of_singleton]%elem_of_app; [destruct (Hall i x Hi)|]; auto.
Qed.

Lemma tested_restores t : tested t → restores_ok t.
Proof.
  induction 1 as [w|t t' _ IH Hs]; [split; [constructor|by intros ? ? []%elem_of_nil]|].
  destruct Hs as [id t|id t|id t|keepIds t c w E|w t Hw]; try exact IH.
  - apply (suspend_restores _ _ _ _ _ _ E); [|by destruct t].
    intros id s Hin. apply ds_definitions_status in Hin. unfold present. congruence.
  - destruct IH as [Hn Hall]. split; [done|]. intros id s Hin. destruct (Hall id s Hin). split; [done|].
    cbn. by apply Hw.
Qed.

(** *** The loops of the cleanup *)

Lemma send_world what id ok c p s p' :
  send ds_answer what id ok c p = Some (s, p') → pg_world p' = (ds_answer c (pg_world p)).2.
Proof.
  unfold send. destruct (ds_answer c (pg_world p)) as [[st|] w]; cbn; [|done]. by intros [= <- <-].
Qed.

(** The loops before the last leave the definitions that were not created by the test as they are. *)
Definition keeps (ids : list jsstr) (w w' : W) : Prop :=
  (∀ id, id ∉ ids → ds_status w' id = ds_status w id) ∧ ∀ id, present w id → present w' id.

Lemma keeps_refl ids w : keeps ids w w.
Proof. by split. Qed.

Lemma keeps_trans ids w1 w2 w3 : keeps ids w1 w2 → keeps ids w2 w3 → keeps ids w1 w3.
Proof. intros [H1 P1] [H2 P2]. split; [intros id Hid; by rewrite H2, H1|auto]. Qed.

Lemma keeps_other ids c w : match c with PutStatus _ _ => False | _ => True end → keeps ids w (ds_answer c w).2.
Proof. intros Hc. split; unfold present; intros id; by rewrite (ds_other w c Hc). Qed.

Lemma keeps_put ids id s w : definition_status s → id ∈ ids → keeps ids w (ds_answer (PutStatus id s) w).2.
Proof.
  intros Hst Hid. split; [|intros i; by apply put_present]. intros i Hi. destruct (ds_status w id) eqn:E.
  - assert (Hne : ds_status w id ≠ None) by congruence. rewrite (proj2 (ds_put w id s Hst Hne)).
    destruct (str_eqb i id) eqn:Ei; [|done].
    apply str_eqb_eq in Ei as ->. done.
  - by rewrite (proj2 (ds_put_missing w id s Hst E)).
Qed.

Lemma for_each_keeps {A} ids (body : progress W → A → option (progress W)) l p p' :
  (∀ x q q', x ∈ l → body q x = Some q' → keeps ids (pg_world q) (pg_world q')) →
  for_each body l p = Some p' → keeps ids (pg_world p) (pg_world p').
Proof.
  revert p. induction l as [|x l IH]; cbn [for_each]; intros p Hb E; [injection E as ->; apply keeps_refl|].
  apply bind_Some in E as (q & Hq & E). eapply keeps_trans; [apply (Hb x p q); [left|done]|].
  apply (IH q); [|done]. intros y r r' Hy. apply Hb. by right.
Qed.

Lemma clean_client_keeps ids p id p' : clean_client ds_answer p id = Some p' → keeps ids (pg_world p) (pg_world p').
Proof.
  unfold clean_client. intros ([s q] & Hs & E)%bind_Some. apply send_world in Hs.
  assert (K : keeps ids (pg_world p) (pg_world q)) by (rewrite Hs; by apply keeps_other).
  destruct (s =? 200); [|by injection E as <-]. apply fmap_Some in E as ([d r] & Hd & ->). apply send_world in Hd.
  eapply keeps_trans; [exact K|]. cbn. rewrite Hd. by apply keeps_other.
Qed.

Lemma clean_tenant_keeps ids p id p' : clean_tenant ds_answer p id = Some p' → keeps ids (pg_world p) (pg_world p').
Proof.
  unfold clean_tenant. intros ([s q] & Hs & ->)%fmap_Some. apply send_world in Hs. cbn. rewrite Hs. by apply keeps_other.
Qed.

Lemma clean_definition_keeps ids p id p' :
  id ∈ ids → clean_definition ds_answer p id = Some p' → keeps ids (pg_world p) (pg_world p').
Proof.
  unfold clean_definition. intros Hid ([s q] & Hs & ->)%fmap_Some. apply send_world in Hs. cbn. rewrite Hs.
  apply keeps_put; [by right|done].
Qed.

(** The last loop sets each status recorded. *)
Lemma restore_all definitions rs p p' :
  NoDup rs.*1 → (∀ id s, (id, s) ∈ rs → s = "active" ∧ present (pg_world p) id) →
  for_each (restore_definition ds_answer definitions) rs p = Some p' →
  ∀ id, ds_status (pg_world p') id =
    match prop_get id rs with
    | Some s => if existsb (str_eqb id) definitions then ds_status (pg_world p) id else Some s
    | None => ds_status (pg_world p) id
    end.
Proof.
  revert p. induction rs as [|[k s] rs IH]; cbn [for_each]; intros p Hn Hp E; [by injection E as ->|].
  apply NoDup_cons in Hn as [Hk Hn]. apply bind_Some in E as (q & Hq & E).
  assert (Hq' : ∀ id, ds_status (pg_world q) id =
    if str_eqb id k && negb (existsb (str_eqb id) definitions) then Some s else ds_status (pg_world p) id).
  { unfold restore_definition in Hq. cbn [fst snd] in Hq. destruct (existsb (str_eqb k) definitions) eqn:Ed.
    - injection Hq as ->. intros id. destruct (str_eqb id k) eqn:Ei; [|done]. apply str_eqb_eq in Ei as ->. by rewrite Ed.
    - apply fmap_Some in Hq as ([st r] & Hs & ->). apply send_world in Hs. cbn [snd]. intros id. rewrite Hs.
      destruct (Hp k s ltac:(left)) as [-> Hk'].
      rewrite (proj2 (ds_put _ k "active" ltac:(by left) Hk')). destruct (str_eqb id k) eqn:Ei; [|done].
      apply str_eqb_eq in Ei as ->. by rewrite Ed. }
  intros id. rewrite (IH q Hn); [|intros i x Hi; destruct (Hp i x ltac:(by right)) as [Hx Hpi]; split; [done|];
    unfold present; rewrite Hq'; by destruct (_ && _)|done].
  cbn [prop_get]. rewrite Hq'. destruct (str_eqb id k) eqn:Ei.
  - apply str_eqb_eq in Ei as ->. rewrite str_eqb_refl. destruct (prop_get k rs) eqn:Eg.
    { apply prop_get_elem in Eg. destruct Hk. by apply (list_elem_of_fmap_2 fst) in Eg. }
    by destruct (existsb (str_eqb k) definitions).
  - assert (str_eqb k id = false) as ->; [|by destruct (prop_get id rs)].
    apply str_eqb_neq. apply str_eqb_neq in Ei. congruence.
Qed.

(** The loop over the definitions of the test sets them aside. *)
Lemma deactivate_all l p p' :
  for_each (clean_definition ds_answer) l p = Some p' →
  ∀ id, ds_status (pg_world p') id =
    if existsb (str_eqb id) l then (λ _, "inactive") <$> ds_status (pg_world p) id else ds_status (pg_world p) id.
Proof.
  revert p. induction l as [|k l IH]; cbn [for_each]; intros p E; [by injection E as ->|].
  apply bind_Some in E as (q & Hq & E). apply fmap_Some in Hq as ([st r] & Hs & ->). apply send_world in Hs.
  intros id. rewrite (IH _ E). cbn [snd existsb]. rewrite Hs. destruct (ds_status (pg_world p) k) as [x|] eqn:Ek.
  - assert (Hne : ds_status (pg_world p) k ≠ None) by congruence. rewrite (proj2 (ds_put _ k "inactive" ltac:(by right) Hne)).
    destruct (str_eqb id k) eqn:Ei; cbn [orb]; [|done]. apply str_eqb_eq in Ei as ->. rewrite Ek. by destruct (existsb _ l).
  - rewrite (proj2 (ds_put_missing _ k "inactive" ltac:(by right) Ek)). destruct (str_eqb id k) eqn:Ei; cbn [orb]; [|done].
    apply str_eqb_eq in Ei as ->. rewrite Ek. by destruct (existsb _ l).
Qed.

Lemma run_parts c w o calls w' :
  run_cleanup ds_answer c w = (o, calls, Some w') →
  ∃ p, clean ds_answer c {| pg_world := w; pg_calls := []; pg_failures := [] |} = Some p ∧ pg_world p = w'.
Proof. unfold run_cleanup. destruct (clean _ _ _) as [p|]; [|done]. intros [= _ _ <-]. eauto. Qed.

(** ** Property *)

(** A test leaves the definitions as it found them: whatever it tracked, set aside and did in
    between, once its cleanup has run the definitions it set aside are active again, though it may
    have set them aside several times, those it created are inactive or gone, and every other one is
    as the test left it. *)
Theorem suspended_restored t o calls w' id :
  tested t → run_cleanup ds_answer (tw_cleanup t) (tw_world t) = (o, calls, Some w') →
  ds_status w' id =
    if existsb (str_eqb id) (cl_definitions (tw_cleanup t)) then (λ _, "inactive") <$> ds_status (tw_world t) id
    else if existsb (str_eqb id) (cl_definitionStatusRestores (tw_cleanup t)).*1 then Some "active"
    else ds_status (tw_world t) id.
Proof.
  intros [Hn Hall]%tested_restores (p & Hp & <-)%run_parts. destruct t as [c w]. cbn [tw_cleanup tw_world] in *.
  unfold clean in Hp. apply bind_Some in Hp as (p1 & H1 & Hp). apply bind_Some in Hp as (p2 & H2 & Hp).
  apply bind_Some in Hp as (p3 & H3 & H4).
  apply (for_each_keeps []) in H1; [|intros x q q' _; apply clean_client_keeps].
  apply (for_each_keeps []) in H2; [|intros x q q' _; apply clean_tenant_keeps].
  pose proof (keeps_trans _ _ _ _ H1 H2) as [Hs Hpres]. cbn [pg_world] in *.
  pose proof (deactivate_all _ _ _ H3) as Hd. apply (for_each_keeps (cl_definitions c)) in H3 as [_ Hpres3];
    [|intros x q q' Hx; by apply clean_definition_keeps].
  assert (Hp4 : ∀ i x, (i, x) ∈ cl_definitionStatusRestores c → x = "active" ∧ present (pg_world p3) i)
    by (intros i x Hi; destruct (Hall i x Hi); split; [done|]; by apply Hpres3, Hpres).
  rewrite (restore_all _ _ _ _ Hn Hp4 H4). rewrite Hd, Hs by (by intros ?%elem_of_nil). destruct (prop_get id _) as [s|] eqn:Eg.
  - apply prop_get_elem in Eg. destruct (Hall id s Eg) as [-> _].
    replace (existsb (str_eqb id) (cl_definitionStatusRestores c).*1) with true; [by destruct (existsb _ (cl_definitions c))|].
    symmetry. apply existsb_str. by apply (list_elem_of_fmap_2 fst) in Eg.
  - apply prop_get_none in Eg.
    replace (existsb (str_eqb id) (cl_definitionStatusRestores c).*1) with false; [by destruct (existsb _ (cl_definitions c))|].
    symmetry. apply not_true_is_false. by intros ?%existsb_str.
Qed.
End server.

(** *** Witness: a server that keeps the statuses in a map *)

Definition demo_answer (c : admin_call) (w : gmap jsstr jsstr) : option Z * gmap jsstr jsstr :=
  match c with
  | PutStatus id s => match w !! id with Some _ => (Some 200, <[id := s]> w) | None => (Some 404, w) end
  | _ => (Some 404, w)
  end.

#[export, refine] Instance demo_definitions : DefinitionServer (gmap jsstr jsstr) := {|
  ds_answer := demo_answer; ds_status w id := w !! id; ds_definitions w := map_to_list w |}.
Proof.
  - intros w id s. apply elem_of_map_to_list.
  - intros w id s _ Hp. cbn. destruct (w !! id) eqn:E; [|done]. split; [done|]. intros id'. cbn.
    destruct (str_eqb id' id) eqn:Ei; [apply str_eqb_eq in Ei as ->; apply lookup_insert_eq|].
    apply str_eqb_neq in Ei. by rewrite lookup_insert_ne.
  - intros w id s _ Hp. cbn. by rewrite Hp.
  - intros w c Hc id. by destruct c.
Defined.

(** Three definitions; the active ones but the kept one are set aside, and one is created and tracked. *)
Definition demo_before : gmap jsstr jsstr := {["a" := "active"; "b" := "active"; "c" := "inactive"]}.

Definition demo_suspend (t : test_world) : test_world (W := gmap jsstr jsstr) :=
  match suspend demo_answer ["b"] (map_to_list (tw_world t)) (tw_cleanup t) (tw_world t) with
  | (c, Some w) => {| tw_cleanup := c; tw_world := w |}
  | _ => t
  end.

Definition demo_created (t : test_world) : test_world (W := gmap jsstr jsstr) :=
  {| tw_cleanup := trackDefinition "d" (tw_cleanup t); tw_world := <["d" := "active"]> (tw_world t) |}.

Definition demo_test : test_world := demo_created (demo_suspend {| tw_cleanup := new_cleanup; tw_world := demo_before |}).

Lemma demo_tested : tested demo_test.
Proof.
  apply (tested_step {| tw_cleanup := tw_cleanup (demo_suspend {| tw_cleanup := new_cleanup; tw_world := demo_before |});
                        tw_world := tw_world demo_test |}).
  - apply (tested_step (demo_suspend {| tw_cleanup := new_cleanup; tw_world := demo_before |})).
    + apply (tested_step {| tw_cleanup := new_cleanup; tw_world := demo_before |}); [apply tested_new|].
      apply (step_suspend ["b"]). vm_compute. reflexivity.
    + apply (step_other (tw_world demo_test)). intros id. unfold demo_test, demo_created. cbn [tw_world ds_status demo_definitions].
      intros Hid. destruct (decide (id = "d")) as [->|Hne]; [by rewrite lookup_insert_eq|by rewrite lookup_insert_ne].
  - exact (step_track_definition "d" {| tw_cleanup := tw_cleanup (demo_suspend {| tw_cleanup := new_cleanup; tw_world := demo_before |});
             tw_world := tw_world demo_test |}).
Qed.

Lemma suspended_restored_witness :
  ∃ o calls w', run_cleanup demo_answer (tw_cleanup demo_test) (tw_world demo_test) = (o, calls, Some w') ∧
    tw_world demo_test !! "a" = Some "inactive" ∧ w' !! "a" = Some "active" ∧ w' !! "d" = Some "inactive" ∧
    w' !! "c" = Some "inactive".
Proof.
  destruct (run_cleanup demo_answer (tw_cleanup demo_test) (tw_world demo_test)) as [[o calls] [w'|]] eqn:E;
    [|vm_compute in E; discriminate].
  exists o, calls, w'. split; [reflexivity|]. split; [vm_compute; reflexivity|].
  pose proof (λ id, suspended_restored demo_test o calls w' id demo_tested E) as Hs. cbn [ds_status demo_definitions] in Hs.
  split; [|split]; rewrite Hs; vm_compute; reflexivity.
Defined.
