(* ===== verification/Jsx.v ===== *)
(** * Elements and the objects of their properties

    What the components of [src/web/src/components/ui] and [proto/components/ui] are written in: the
    values of the language that reach the markup, objects with their own properties in order, the
    spread and the rest of an object, and the elements [jsx] and [h] make.  A component is a function
    from its properties; a component of a library is a name.  A function is kept as its text and what
    it closes over, which is all the markup knows of it. *)
From Stdlib Require Import ZArith Lia List QArith Qround.
From stdpp Require Import base list sets.
From S2P Require Import Prelude Numbers JsonRead.
#[local] Open Scope Z_scope.

(** ** Values *)

(** The type of an element: a tag of the page, a component of a library by its name in the module,
    or one of the program's not rendered yet. *)
Inductive tag := Host (name : jsstr) | Ext (name : jsstr) | Own (name : jsstr).

Inductive val :=
  | XUndef
  | XNull
  | XBool (b : bool)
  | XNum (n : num)
  | XStr (s : jsstr)
  | XArr (l : list val)
  | XObj (o : list (jsstr * val))
  | XFn (text : jsstr) (captured : list val)
  | XEl (type : tag) (props : list (jsstr * val)).

Abbreviation obj := (list (jsstr * val)).
Abbreviation XInt z := (XNum (num_of_Z z)).

#[export] Instance tag_eq_dec : EqDecision tag.
Proof. solve_decision. Defined.

(** [Boolean(v)] *)
Definition is_true (v : val) : bool :=
  match v with
  | XUndef | XNull => false
  | XBool b => b
  | XNum NaN => false
  | XNum (Fin q) => negb (q_zero q)
  | XNum (Infinite _) => true
  | XStr s => truthy s
  | _ => true
  end.

Definition is_nullish (v : val) : bool := match v with XUndef | XNull => true | _ => false end.

(** [a && b], [a || b], [a ?? b], [c ? a : b] and [v === s]. *)
Definition js_and (a b : val) : val := if is_true a then b else a.
Definition js_or (a b : val) : val := if is_true a then a else b.
Definition js_nullish (a b : val) : val := if is_nullish a then b else a.
Definition js_if (c a b : val) : val := if is_true c then a else b.
Definition js_not (a : val) : val := XBool (negb (is_true a)).
Definition is_str (s : jsstr) (v : val) : bool := match v with XStr t => str_eqb t s | _ => false end.
Definition js_is (v : val) (s : jsstr) : val := XBool (is_str s v).

(** [String(v)] *)
Fixpoint to_text (v : val) : jsstr :=
  match v with
  | XUndef => "undefined"
  | XNull => "null"
  | XBool true => "true"
  | XBool false => "false"
  | XNum n => num_text n
  | XStr s => s
  | XArr l => join "," (map (λ x, match x with XUndef | XNull => [] | _ => to_text x end) l)
  | XObj _ | XEl _ _ => "[object Object]"
  | XFn t _ => t
  end.

(** ** Objects *)

(** [o.k], [{ ...a, ...b }], the rest of a destructured object, and a parameter with its default. *)
Definition getp (k : jsstr) (o : obj) : val := default XUndef (prop_get k o).
Definition assign (a b : obj) : obj := fold_left (λ o kv, prop_set kv.1 kv.2 o) b a.
Definition rest (ks : list jsstr) (o : obj) : obj := filter (λ kv, kv.1 ∉ ks) o.
Definition or_default (d v : val) : val := match v with XUndef => d | _ => v end.

(** [v.k] and [v[k]]; on what has no properties of its own they are [undefined]. *)
Definition member (k : jsstr) (v : val) : val := match v with XObj o => getp k o | _ => XUndef end.
Definition index (v k : val) : val := member (to_text k) v.

(** What [...v] adds of a value that may not be an object. *)
Definition spread_of (v : val) : obj := match v with XObj o => o | _ => [] end.

(** ** Elements *)

(** The attributes as written: a name with its value, or a spread. *)
Inductive attr := At (k : jsstr) (v : val) | Sp (o : obj).

Definition attrs (l : list attr) : obj :=
  fold_left (λ o a, match a with At k v => prop_set k v o | Sp b => assign o b end) l [].

(** The children written inside the element replace the property of that name. *)
Definition with_children (kids : list val) (o : obj) : obj :=
  match kids with
  | [] => o
  | [c] => prop_set "children" c o
  | _ => prop_set "children" (XArr kids) o
  end.

Definition props_of (l : list attr) (kids : list val) : obj := with_children kids (attrs l).
Definition el (t : tag) (l : list attr) (kids : list val) : val := XEl t (props_of l kids).
(** A component of the program is rendered in place. *)
Definition call (C : obj → val) (l : list attr) (kids : list val) : val := C (props_of l kids).

(** The properties of the element reached through the children of the elements above it. *)
Definition nth_child (i : nat) (v : val) : val :=
  match v with
  | XArr l => default XUndef (l !! i)
  | _ => match i with O => v | _ => XUndef end
  end.

Fixpoint at_path (path : list nat) (v : val) : option (tag * obj) :=
  match path, v with
  | [], XEl t o => Some (t, o)
  | i :: path', XEl _ o => at_path path' (nth_child i (getp "children" o))
  | i :: path', XArr l => at_path path' (nth_child i (XArr l))
  | _, _ => None
  end.

(** The name of a handler: [on] and a capital. *)
Definition is_handler (k : jsstr) : bool :=
  match k with c :: d :: e :: _ => (c =? 111) && (d =? 110) && is_upper e | _ => false end.

(** The class names of a text. *)
Definition class_names (s : jsstr) : list jsstr := filter (λ w, w ≠ []) (split_on is_ws s).

Lemma split_on_middle p a c b : p c = true → split_on p (a ++ c :: b) = split_on p a ++ split_on p b.
Proof.
  intros Hc. induction a as [|x a IH]; simpl; [by rewrite Hc|]. destruct (p x); [by rewrite IH|]. rewrite IH.
  pose proof (split_on_nonnil p a). by destruct (split_on p a).
Qed.

Lemma class_names_app a b : class_names (a ++ " " ++ b) = class_names a ++ class_names b.
Proof. unfold class_names. change (" " ++ b) with (32 :: b). by rewrite split_on_middle, filter_app. Qed.

(** ** Lemmas on objects *)

Lemma prop_get_set_eq {A} k (v : A) o : prop_get k (prop_set k v o) = Some v.
Proof.
  induction o as [|[k' v'] o IH]; cbn; [by rewrite str_eqb_refl|].
  destruct (str_eqb k' k) eqn:E; cbn; [by rewrite str_eqb_refl|]. by rewrite E.
Qed.

Lemma prop_get_set_ne {A} k k' (v : A) o : k ≠ k' → prop_get k (prop_set k' v o) = prop_get k o.
Proof.
  intros Hne. induction o as [|[k2 v2] o IH]; cbn.
  - by rewrite (proj2 (str_eqb_neq k' k)) by congruence.
  - destruct (str_eqb k2 k') eqn:E; cbn; [|by rewrite IH].
    apply str_eqb_eq in E as ->. by rewrite (proj2 (str_eqb_neq k' k)) by congruence.
Qed.

Lemma prop_get_assign a b k :
  NoDup b.*1 → prop_get k (assign a b) = match prop_get k b with Some v => Some v | None => prop_get k a end.
Proof.
  unfold assign. revert a. induction b as [|[k' v'] b IH]; intros a; cbn; [done|].
  intros [Hk Hb]%NoDup_cons. rewrite IH by done. destruct (str_eqb k' k) eqn:E.
  - apply str_eqb_eq in E as ->. rewrite prop_get_set_eq. by apply prop_get_none in Hk as ->.
  - apply str_eqb_neq in E. by rewrite prop_get_set_ne by congruence.
Qed.

Lemma prop_get_rest ks o k : k ∉ ks → prop_get k (rest ks o) = prop_get k o.
Proof.
  intros Hk. unfold rest. induction o as [|[k' v'] o IH]; [done|]. rewrite filter_cons. cbn.
  destruct (decide (k' ∉ ks)) as [_|Hin]; cbn; [by rewrite IH|].
  rewrite IH. destruct (str_eqb k' k) eqn:E; [|done]. apply str_eqb_eq in E as ->. by destruct Hin.
Qed.

Lemma prop_get_rest_in ks o k : k ∈ ks → prop_get k (rest ks o) = None.
Proof.
  intros Hk. unfold rest. induction o as [|[k' v'] o IH]; [done|]. rewrite filter_cons. cbn.
  destruct (decide (k' ∉ ks)) as [Hn|_]; cbn; [|done]. rewrite IH.
  destruct (str_eqb k' k) eqn:E; [|done]. apply str_eqb_eq in E as ->. by destruct Hn.
Qed.

Lemma NoDup_rest ks o : NoDup o.*1 → NoDup (rest ks o).*1.
Proof.
  unfold rest. induction o as [|[k v] o IH]; [done|]. rewrite filter_cons. cbn.
  intros [Hk Ho]%NoDup_cons. destruct (decide _); cbn; [|by apply IH]. constructor; [|by apply IH].
  intros (x & -> & [_ Hx]%list_elem_of_filter)%list_elem_of_fmap. apply Hk. by apply list_elem_of_fmap_2.
Qed.

Lemma NoDup_assign a b : NoDup a.*1 → NoDup (assign a b).*1.
Proof.
  unfold assign. revert a. induction b as [|[k v] b IH]; intros a; cbn; [done|]. intros Ha.
  by apply IH, prop_set_distinct.
Qed.

Lemma NoDup_attrs l : NoDup (attrs l).*1.
Proof.
  unfold attrs. assert (H : NoDup (@nil (jsstr * val)).*1) by constructor. revert H.
  generalize (@nil (jsstr * val)). induction l as [|[k v|b] l IH]; intros o Ho; cbn; [done|..]; apply IH.
  - by apply prop_set_distinct.
  - by apply NoDup_assign.
Qed.

Lemma NoDup_props_of l kids : NoDup (props_of l kids).*1.
Proof.
  unfold props_of, with_children. destruct kids as [|? [|??]]; [apply NoDup_attrs|..];
    apply prop_set_distinct, NoDup_attrs.
Qed.
#[export] Hint Resolve NoDup_rest NoDup_props_of NoDup_attrs : js.

Lemma prop_get_with_children kids o k : k ≠ "children" → prop_get k (with_children kids o) = prop_get k o.
Proof. intros Hk. destruct kids as [|? [|??]]; cbn; [done|..]; by apply prop_get_set_ne. Qed.

Lemma getp_with_children kids o :
  kids ≠ [] → getp "children" (with_children kids o) = match kids with [c] => c | _ => XArr kids end.
Proof. intros Hk. unfold getp. destruct kids as [|? [|??]]; [done|..]; cbn; by rewrite prop_get_set_eq. Qed.

Lemma attrs_snoc l a :
  attrs (l ++ [a]) = match a with At k v => prop_set k v (attrs l) | Sp b => assign (attrs l) b end.
Proof. unfold attrs. by rewrite fold_left_app. Qed.
