(* ===== verification/UiKit.v ===== *)
(** * The kit of the administration front end

    [src/web/src/components/ui]: the components the pages are made of, each a function from the object
    of its properties to the element it renders.  The parts of Base UI, cmdk and lucide are names
    ([Ext]); what joins class names (clsx, tailwind-merge, class-variance-authority) and what Base UI
    does to properties are the classes [ClassLib] and [BaseUI], with what their documentation says
    of them.  [UiContract] states what all the components have in common. *)
From Stdlib Require Import ZArith Lia List.
From stdpp Require Import base list.
From S2P Require Import Prelude Numbers JsonRead Jsx.
#[local] Open Scope Z_scope.

(** ** The libraries *)

(** The last of the class names of a text. *)
Definition last_class (s : jsstr) : option jsstr := last (class_names s).

(** Class names: [clsx] joins the names of its arguments in their order; [twMerge] keeps the order and
    drops a name in favour of a later one that conflicts with it, so that the last stays; [cva]
    puts [className] after the names of the base and of the variants. *)
Class ClassLib := {
  clsx : list val → jsstr;
  twMerge : jsstr → jsstr;
  cva : jsstr → obj → obj → jsstr;
  clsx_last l s : class_names s ≠ [] → last_class (clsx (l ++ [XStr s])) = last_class s;
  twMerge_last s : last_class (twMerge s) = last_class s;
  cva_last base config o s :
    getp "className" o = XStr s → class_names s ≠ [] → last_class (cva base config o) = last_class s;
}.

(** What Base UI puts on an element of its default tag unless it is given. *)
Definition tag_defaults (t : jsstr) : obj :=
  if str_eqb t "button" then [("type" : jsstr, XStr "button")]
  else if str_eqb t "img" then [("alt" : jsstr, XStr [])] else [].

(** Base UI: [mergeProps] lets the rightmost object win, except for handlers, which it composes, and
    for [className], [style] and [ref]; [useRender] makes an element of the default tag when no other
    is asked for, with the given properties on it, the state as [data-] attributes, a reference of
    its own, and the type of a button or the text of an image where none is given. *)
Class BaseUI := {
  mergeProps : obj → obj → obj;
  useRender : val → jsstr → obj → obj → val;
  mergeProps_get a b k :
    NoDup b.*1 → is_handler k = false → k ∉ ["className"; "style"; "ref"] →
    prop_get k (mergeProps a b) = match prop_get k b with Some v => Some v | None => prop_get k a end;
  mergeProps_left a b k :
    NoDup b.*1 → is_handler k = false → prop_get k b = None → prop_get k (mergeProps a b) = prop_get k a;
  useRender_default t props state :
    NoDup state.*1 → ∃ q, useRender XUndef t props state = XEl (Host t) q
      ∧ ∀ k, startsWith "data-" k = false → k ≠ "ref" →
        prop_get k q = match prop_get k props with Some v => Some v | None => prop_get k (tag_defaults t) end;
}.

(** *** Libraries that keep their word *)

Lemma last_class_app a s : class_names s ≠ [] → last_class (a ++ " " ++ s) = last_class s.
Proof. intros Hs. unfold last_class. rewrite class_names_app, last_app. destruct (last (class_names s)) eqn:E; [done|]. by apply last_None in E. Qed.

Lemma last_class_join l s : class_names s ≠ [] → last_class (join " " (l ++ [s])) = last_class s.
Proof.
  intros Hs. induction l as [|w l IH]; [done|]. cbn [app]. destruct (l ++ [s]) as [|v ws] eqn:E; [by destruct l|].
  rewrite join_cons2, last_class_app; [done|]. intros En. unfold last_class in IH. rewrite En in IH.
  symmetry in IH. by apply last_None in IH.
Qed.

(** Names joined without merging: [clsx] of texts, and [cva] with the class alone. *)
#[export] Instance joined_classes : ClassLib.
Proof.
  refine {| clsx l := join " " (map to_text (filter (λ v, is_true v = true) l));
            twMerge s := s;
            cva base config o := match getp "className" o with XStr s => base ++ " " ++ s | _ => base end |}.
  - intros l s Hs. assert (Ht : truthy s = true) by (by destruct s). rewrite filter_app, map_app.
    rewrite (filter_cons_True _ (XStr s) []) by done. cbn [map to_text filter list_filter].
    by apply last_class_join.
  - done.
  - intros base config o s -> Hs. by apply last_class_app.
Defined.

Lemma prop_get_app k (a b : obj) :
  prop_get k (a ++ b) = match prop_get k a with Some v => Some v | None => prop_get k b end.
Proof. induction a as [|[k' v'] a IH]; [done|]. cbn. by destruct (str_eqb k' k). Qed.

Lemma tag_defaults_other t k : k ≠ "type" → k ≠ "alt" → prop_get k (tag_defaults t) = None.
Proof.
  intros H1 H2. unfold tag_defaults. destruct (str_eqb t "button"); [|destruct (str_eqb t "img"); [|done]]; cbn [prop_get].
  - by rewrite (proj2 (str_eqb_neq _ _)) by (by apply not_eq_sym).
  - by rewrite (proj2 (str_eqb_neq _ _)) by (by apply not_eq_sym).
Qed.

(** Properties put together, and a state written beside them. *)
Definition data_state (state : obj) : obj := (λ kv, ("data-" ++ kv.1, kv.2)) <$> state.

Lemma data_state_keys state : (data_state state).*1 = app "data-" <$> state.*1.
Proof. unfold data_state. rewrite <- !list_fmap_compose. done. Qed.

#[export] Instance plain_base_ui : BaseUI.
Proof.
  refine {| mergeProps := assign;
            useRender asked t props state :=
              match asked with XUndef => XEl (Host t) (assign (props ++ tag_defaults t) (data_state state)) | _ => asked end |}.
  - intros a b k Hb _ _. by apply prop_get_assign.
  - intros a b k Hb _ E. by rewrite prop_get_assign, E.
  - intros t props state Hst. eexists. split; [done|]. intros k Hk _. rewrite prop_get_assign.
    + replace (prop_get k (data_state state)) with (@None val); [apply prop_get_app|]. symmetry. apply prop_get_none.
      rewrite data_state_keys. intros (k' & -> & _)%list_elem_of_fmap. by rewrite startsWith_app in Hk.
    + rewrite data_state_keys. apply NoDup_fmap; [|done]. intros x y E. by apply app_inj_1 in E as [_ ->].
Defined.

(** [utils.ts] *)
Definition cn `{ClassLib} (inputs : list val) : val := XStr (twMerge (clsx inputs)).

(** ** The components *)

Section kit.
Context `{ClassLib, BaseUI}.


(** *** [slot.tsx] *)

(** [Slot] merges its properties into its one child, whose own come after.  [ref] is what [forwardRef]
    passes on. *)
Definition Slot (ref : val) (arg : obj) : val :=
  let children := getp "children" arg in
  let props := rest ["children"] arg in
  match children with
  | XEl t child =>
    XEl t (assign child (attrs [Sp props; Sp child; At "ref" ref;
      At "className" (XStr (join " " (map to_text (filter (λ v, is_true v = true) [getp "className" props; getp "className" child]))));
      At "style" (XObj (attrs [Sp (spread_of (getp "style" props)); Sp (spread_of (getp "style" child))]))]))
  | _ => XNull
  end.

(** *** [skeleton.tsx] *)

Definition Skeleton (arg : obj) : val :=
  let className := getp "className" arg in
  let props := rest ["className"] arg in
  el (Host "div") [
    At "data-slot" (XStr "skeleton"); At "className" (cn [XStr "animate-pulse rounded-md bg-muted"; className]);
    Sp props] [].

(** *** [separator.tsx] *)

Definition Separator (arg : obj) : val :=
  let className := getp "className" arg in
  let orientation := or_default (XStr "horizontal") (getp "orientation" arg) in
  let props := rest ["className"; "orientation"] arg in
  el (Ext "SeparatorPrimitive") [
    At "data-slot" (XStr "separator"); At "orientation" orientation;
    At "className" (cn [
      XStr "shrink-0 bg-border data-horizontal:h-px data-horizontal:w-full data-vertical:w-px data-vertical:self-stretch";
      className]);
    Sp props] [].

(** *** [button.tsx] *)

Definition buttonVariants (o : obj) : val :=
  XStr (cva "group/button inline-flex shrink-0 items-center justify-center rounded-lg border border-transparent bg-clip-padding text-sm font-medium whitespace-nowrap transition-all outline-none select-none focus-visible:border-ring focus-visible:ring-3 focus-visible:ring-ring/50 active:not-aria-[haspopup]:translate-y-px disabled:pointer-events-none disabled:opacity-50 aria-invalid:border-destructive aria-invalid:ring-3 aria-invalid:ring-destructive/20 dark:aria-invalid:border-destructive/50 dark:aria-invalid:ring-destructive/40 [&_svg]:pointer-events-none [&_svg]:shrink-0 [&_svg:not([class*='size-'])]:size-4" (attrs [
    At "variants" (XObj (attrs [
      At "variant" (XObj (attrs [
        At "default" (XStr "bg-primary text-primary-foreground hover:bg-primary/80");
        At "outline" (XStr "border-border bg-background hover:bg-muted hover:text-foreground aria-expanded:bg-muted aria-expanded:text-foreground dark:border-input dark:bg-input/30 dark:hover:bg-input/50");
        At "secondary" (XStr "bg-secondary text-secondary-foreground hover:bg-[color-mix(in_oklch,var(--secondary),var(--foreground)_5%)] aria-expanded:bg-secondary aria-expanded:text-secondary-foreground");
        At "ghost" (XStr "hover:bg-muted hover:text-foreground aria-expanded:bg-muted aria-expanded:text-foreground dark:hover:bg-muted/50");
        At "destructive" (XStr "bg-destructive/10 text-destructive hover:bg-destructive/20 focus-visible:border-destructive/40 focus-visible:ring-destructive/20 dark:bg-destructive/20 dark:hover:bg-destructive/30 dark:focus-visible:ring-destructive/40");
        At "destructiveOutline" (XStr "border-destructive bg-transparent text-destructive hover:bg-destructive/10 focus-visible:border-destructive focus-visible:ring-destructive/20 dark:hover:bg-destructive/20 dark:focus-visible:ring-destructive/40");
        At "link" (XStr "text-primary underline-offset-4 hover:underline")]));
      At "size" (XObj (attrs [
        At "default" (XStr "h-8 gap-1.5 px-2.5 has-data-[icon=inline-end]:pr-2 has-data-[icon=inline-start]:pl-2");
        At "xs" (XStr "h-6 gap-1 rounded-[min(var(--radius-md),10px)] px-2 text-xs in-data-[slot=button-group]:rounded-lg has-data-[icon=inline-end]:pr-1.5 has-data-[icon=inline-start]:pl-1.5 [&_svg:not([class*='size-'])]:size-3");
        At "sm" (XStr "h-7 gap-1 rounded-[min(var(--radius-md),12px)] px-2.5 text-[0.8rem] in-data-[slot=button-group]:rounded-lg has-data-[icon=inline-end]:pr-1.5 has-data-[icon=inline-start]:pl-1.5 [&_svg:not([class*='size-'])]:size-3.5");
        At "lg" (XStr "h-9 gap-1.5 px-2.5 has-data-[icon=inline-end]:pr-2 has-data-[icon=inline-start]:pl-2");
        At "icon" (XStr "size-8");
        At "icon-xs" (XStr "size-6 rounded-[min(var(--radius-md),10px)] in-data-[slot=button-group]:rounded-lg [&_svg:not([class*='size-'])]:size-3");
        At "icon-sm" (XStr "size-7 rounded-[min(var(--radius-md),12px)] in-data-[slot=button-group]:rounded-lg");
        At "icon-lg" (XStr "size-9")]))]));
    At "defaultVariants" (XObj (attrs [At "variant" (XStr "default"); At "size" (XStr "default")]))]) o).

Definition Button (arg : obj) : val :=
  let className := getp "className" arg in
  let variant := or_default (XStr "default") (getp "variant" arg) in
  let size := or_default (XStr "default") (getp "size" arg) in
  let props := rest ["className"; "variant"; "size"] arg in
  el (Ext "ButtonPrimitive") [
    At "data-slot" (XStr "button");
    At "className" (cn [buttonVariants (attrs [At "variant" variant; At "size" size; At "className" className])]);
    Sp props] [].

(** *** [input.tsx] *)

Definition Input (arg : obj) : val :=
  let className := getp "className" arg in
  let type_ := getp "type" arg in
  let props := rest ["className"; "type"] arg in
  el (Ext "InputPrimitive") [
    At "type" type_; At "data-slot" (XStr "input");
    At "className" (cn [
      XStr "h-8 w-full min-w-0 rounded-lg border border-input bg-transparent px-2.5 py-1 text-base transition-colors outline-none file:inline-flex file:h-6 file:border-0 file:bg-transparent file:text-sm file:font-medium file:text-foreground placeholder:text-muted-foreground focus-visible:border-ring focus-visible:ring-3 focus-visible:ring-ring/50 disabled:pointer-events-none disabled:cursor-not-allowed disabled:bg-input/50 disabled:opacity-50 aria-invalid:border-destructive aria-invalid:ring-3 aria-invalid:ring-destructive/20 md:text-sm dark:bg-input/30 dark:disabled:bg-input/80 dark:aria-invalid:border-destructive/50 dark:aria-invalid:ring-destructive/40";
      className]);
    Sp props] [].

(** *** [textarea.tsx] *)

Definition Textarea (arg : obj) : val :=
  let className := getp "className" arg in
  let props := rest ["className"] arg in
  el (Host "textarea") [
    At "data-slot" (XStr "textarea");
    At "className" (cn [
      XStr "flex field-sizing-content min-h-16 w-full rounded-lg border border-input bg-transparent px-2.5 py-2 text-base transition-colors outline-none placeholder:text-muted-foreground focus-visible:border-ring focus-visible:ring-3 focus-visible:ring-ring/50 disabled:cursor-not-allowed disabled:bg-input/50 disabled:opacity-50 aria-invalid:border-destructive aria-invalid:ring-3 aria-invalid:ring-destructive/20 md:text-sm dark:bg-input/30 dark:disabled:bg-input/80 dark:aria-invalid:border-destructive/50 dark:aria-invalid:ring-destructive/40";
      className]);
    Sp props] [].

(** *** [checkbox.tsx] *)

Definition Checkbox (arg : obj) : val :=
  let className := getp "className" arg in
  let props := rest ["className"] arg in
  el (Ext "CheckboxPrimitive.Root") [
    At "data-slot" (XStr "checkbox");
    At "className" (cn [
      XStr "peer relative flex size-4 shrink-0 items-center justify-center rounded-[4px] border border-input transition-colors outline-none group-has-disabled/field:opacity-50 after:absolute after:-inset-x-3 after:-inset-y-2 focus-visible:border-ring focus-visible:ring-3 focus-visible:ring-ring/50 disabled:cursor-not-allowed disabled:opacity-50 aria-invalid:border-destructive aria-invalid:ring-3 aria-invalid:ring-destructive/20 aria-invalid:aria-checked:border-primary dark:bg-input/30 dark:aria-invalid:border-destructive/50 dark:aria-invalid:ring-destructive/40 data-checked:border-primary data-checked:bg-primary data-checked:text-primary-foreground dark:data-checked:bg-primary";
      className]);
    Sp props] [
      el (Ext "CheckboxPrimitive.Indicator") [
        At "data-slot" (XStr "checkbox-indicator");
        At "className" (XStr "grid place-content-center text-current transition-none [&>svg]:size-3.5")] [
          el (Ext "CheckIcon") [] []]].

(** *** [alert.tsx] *)

Definition alertVariants (o : obj) : val :=
  XStr (cva "group/alert relative grid w-full gap-0.5 rounded-lg border px-2.5 py-2 text-left text-sm has-data-[slot=alert-action]:relative has-data-[slot=alert-action]:pr-18 has-[>svg]:grid-cols-[auto_1fr] has-[>svg]:gap-x-2 *:[svg]:row-span-2 *:[svg]:translate-y-0.5 *:[svg]:text-current *:[svg:not([class*='size-'])]:size-4" (attrs [
    At "variants" (XObj (attrs [
      At "variant" (XObj (attrs [
        At "default" (XStr "bg-card text-card-foreground");
        At "destructive" (XStr "bg-card text-destructive *:data-[slot=alert-description]:text-destructive/90 *:[svg]:text-current")]))]));
    At "defaultVariants" (XObj (attrs [At "variant" (XStr "default")]))]) o).

Definition Alert (arg : obj) : val :=
  let className := getp "className" arg in
  let variant := getp "variant" arg in
  let props := rest ["className"; "variant"] arg in
  el (Host "div") [
    At "data-slot" (XStr "alert"); At "role" (XStr "alert");
    At "className" (cn [alertVariants (attrs [At "variant" variant]); className]); Sp props] [].

Definition AlertTitle (arg : obj) : val :=
  let className := getp "className" arg in
  let props := rest ["className"] arg in
  el (Host "div") [
    At "data-slot" (XStr "alert-title");
    At "className" (cn [
      XStr "font-medium group-has-[>svg]/alert:col-start-2 [&_a]:underline [&_a]:underline-offset-3 [&_a]:hover:text-foreground";
      className]);
    Sp props] [].

Definition AlertDescription (arg : obj) : val :=
  let className := getp "className" arg in
  let props := rest ["className"] arg in
  el (Host "div") [
    At "data-slot" (XStr "alert-description");
    At "className" (cn [
      XStr "text-sm text-balance text-muted-foreground md:text-pretty [&_a]:underline [&_a]:underline-offset-3 [&_a]:hover:text-foreground [&_p:not(:last-child)]:mb-4";
      className]);
    Sp props] [].

Definition AlertAction (arg : obj) : val :=
  let className := getp "className" arg in
  let props := rest ["className"] arg in
  el (Host "div") [
    At "data-slot" (XStr "alert-action"); At "className" (cn [XStr "absolute top-2 right-2"; className]);
    Sp props] [].

(** *** [badge.tsx] *)

Definition badgeVariants (o : obj) : val :=
  XStr (cva "group/badge inline-flex h-5 w-fit shrink-0 items-center justify-center gap-1 overflow-hidden rounded-4xl border border-transparent px-2 py-0.5 text-xs font-medium whitespace-nowrap transition-all focus-visible:border-ring focus-visible:ring-[3px] focus-visible:ring-ring/50 has-data-[icon=inline-end]:pr-1.5 has-data-[icon=inline-start]:pl-1.5 aria-invalid:border-destructive aria-invalid:ring-destructive/20 dark:aria-invalid:ring-destructive/40 [&>svg]:pointer-events-none [&>svg]:size-3!" (attrs [
    At "variants" (XObj (attrs [
      At "variant" (XObj (attrs [
        At "default" (XStr "bg-primary text-primary-foreground [a]:hover:bg-primary/80");
        At "secondary" (XStr "bg-secondary text-secondary-foreground [a]:hover:bg-secondary/80");
        At "destructive" (XStr "bg-destructive/10 text-destructive focus-visible:ring-destructive/20 dark:bg-destructive/20 dark:focus-visible:ring-destructive/40 [a]:hover:bg-destructive/20");
        At "outline" (XStr "border-border text-foreground [a]:hover:bg-muted [a]:hover:text-muted-foreground");
        At "ghost" (XStr "hover:bg-muted hover:text-muted-foreground dark:hover:bg-muted/50");
        At "link" (XStr "text-primary underline-offset-4 hover:underline")]))]));
    At "defaultVariants" (XObj (attrs [At "variant" (XStr "default")]))]) o).

Definition Badge (arg : obj) : val :=
  let className := getp "className" arg in
  let variant := or_default (XStr "default") (getp "variant" arg) in
  let render := getp "render" arg in
  let props := rest ["className"; "variant"; "render"] arg in
  useRender render "span" (mergeProps (attrs [
    At "className" (cn [badgeVariants (attrs [At "variant" variant]); className])]) props) (attrs [
    At "slot" (XStr "badge"); At "variant" variant]).

(** *** [card.tsx] *)

Definition Card (arg : obj) : val :=
  let className := getp "className" arg in
  let size := or_default (XStr "default") (getp "size" arg) in
  let props := rest ["className"; "size"] arg in
  el (Host "div") [
    At "data-slot" (XStr "card"); At "data-size" size;
    At "className" (cn [
      XStr "group/card flex flex-col gap-(--card-spacing) overflow-hidden rounded-xl bg-card py-(--card-spacing) text-sm text-card-foreground ring-1 ring-foreground/10 [--card-spacing:--spacing(4)] has-data-[slot=card-footer]:pb-0 has-[>img:first-child]:pt-0 data-[size=sm]:[--card-spacing:--spacing(3)] data-[size=sm]:has-data-[slot=card-footer]:pb-0 *:[img:first-child]:rounded-t-xl *:[img:last-child]:rounded-b-xl";
      className]);
    Sp props] [].

Definition CardHeader (arg : obj) : val :=
  let className := getp "className" arg in
  let props := rest ["className"] arg in
  el (Host "div") [
    At "data-slot" (XStr "card-header");
    At "className" (cn [
      XStr "group/card-header @container/card-header grid auto-rows-min items-start gap-1 rounded-t-xl px-(--card-spacing) has-data-[slot=card-action]:grid-cols-[1fr_auto] has-data-[slot=card-description]:grid-rows-[auto_auto] [.border-b]:pb-(--card-spacing)";
      className]);
    Sp props] [].

Definition CardTitle (arg : obj) : val :=
  let children := getp "children" arg in
  let className := getp "className" arg in
  let props := rest ["children"; "className"] arg in
  el (Host "h3") [
    At "data-slot" (XStr "card-title");
    At "className" (cn [
      XStr "font-heading text-base leading-snug font-medium group-data-[size=sm]/card:text-sm"; className]);
    Sp props] [children].

Definition CardDescription (arg : obj) : val :=
  let children := getp "children" arg in
  let className := getp "className" arg in
  let props := rest ["children"; "className"] arg in
  el (Host "p") [
    At "data-slot" (XStr "card-description");
    At "className" (cn [XStr "text-sm text-muted-foreground"; className]); Sp props] [children].

Definition CardAction (arg : obj) : val :=
  let className := getp "className" arg in
  let props := rest ["className"] arg in
  el (Host "div") [
    At "data-slot" (XStr "card-action");
    At "className" (cn [XStr "col-start-2 row-span-2 row-start-1 self-start justify-self-end"; className]);
    Sp props] [].

Definition CardContent (arg : obj) : val :=
  let className := getp "className" arg in
  let props := rest ["className"] arg in
  el (Host "div") [
    At "data-slot" (XStr "card-content"); At "className" (cn [XStr "px-(--card-spacing)"; className]); Sp props] [].

Definition CardFooter (arg : obj) : val :=
  let className := getp "className" arg in
  let props := rest ["className"] arg in
  el (Host "div") [
    At "data-slot" (XStr "card-footer");
    At "className" (cn [
      XStr "flex items-center rounded-b-xl border-t bg-muted/50 p-(--card-spacing)"; className]);
    Sp props] [].

(** *** [empty.tsx] *)

Definition Empty (arg : obj) : val :=
  let className := getp "className" arg in
  let props := rest ["className"] arg in
  el (Host "div") [
    At "data-slot" (XStr "empty");
    At "className" (cn [
      XStr "flex w-full min-w-0 flex-1 flex-col items-center justify-center gap-4 rounded-xl border-dashed p-6 text-center text-balance";
      className]);
    Sp props] [].

Definition EmptyHeader (arg : obj) : val :=
  let className := getp "className" arg in
  let props := rest ["className"] arg in
  el (Host "div") [
    At "data-slot" (XStr "empty-header");
    At "className" (cn [XStr "flex max-w-sm flex-col items-center gap-2"; className]); Sp props] [].

Definition emptyMediaVariants (o : obj) : val :=
  XStr (cva "mb-2 flex shrink-0 items-center justify-center [&_svg]:pointer-events-none [&_svg]:shrink-0" (attrs [
    At "variants" (XObj (attrs [
      At "variant" (XObj (attrs [
        At "default" (XStr "bg-transparent");
        At "icon" (XStr "flex size-8 shrink-0 items-center justify-center rounded-lg bg-muted text-foreground [&_svg:not([class*='size-'])]:size-4")]))]));
    At "defaultVariants" (XObj (attrs [At "variant" (XStr "default")]))]) o).

Definition EmptyMedia (arg : obj) : val :=
  let className := getp "className" arg in
  let variant := or_default (XStr "default") (getp "variant" arg) in
  let props := rest ["className"; "variant"] arg in
  el (Host "div") [
    At "data-slot" (XStr "empty-icon"); At "data-variant" variant;
    At "className" (cn [emptyMediaVariants (attrs [At "variant" variant; At "className" className])]); Sp props] [].

Definition EmptyTitle (arg : obj) : val :=
  let className := getp "className" arg in
  let props := rest ["className"] arg in
  el (Host "div") [
    At "data-slot" (XStr "empty-title");
    At "className" (cn [XStr "font-heading text-sm font-medium tracking-tight"; className]); Sp props] [].

Definition EmptyDescription (arg : obj) : val :=
  let className := getp "className" arg in
  let props := rest ["className"] arg in
  el (Host "div") [
    At "data-slot" (XStr "empty-description");
    At "className" (cn [
      XStr "text-sm/relaxed text-muted-foreground [&>a]:underline [&>a]:underline-offset-4 [&>a:hover]:text-primary";
      className]);
    Sp props] [].

Definition EmptyContent (arg : obj) : val :=
  let className := getp "className" arg in
  let props := rest ["className"] arg in
  el (Host "div") [
    At "data-slot" (XStr "empty-content");
    At "className" (cn [
      XStr "flex w-full max-w-sm min-w-0 flex-col items-center gap-2.5 text-sm text-balance"; className]);
    Sp props] [].

(** *** [status.tsx] *)

Definition statusVariants (o : obj) : val :=
  XStr (cva "inline-flex w-fit shrink-0 items-center gap-1.5 overflow-hidden whitespace-nowrap rounded-full border px-2.5 py-1 text-xs font-medium transition-colors" (attrs [
    At "variants" (XObj (attrs [
      At "variant" (XObj (attrs [
        At "default" (XStr "border-transparent bg-muted text-muted-foreground");
        At "success" (XStr "border-green-500/20 bg-green-500/10 text-green-600 dark:text-green-400");
        At "error" (XStr "border-destructive/20 bg-destructive/10 text-destructive");
        At "warning" (XStr "border-orange-500/20 bg-orange-500/10 text-orange-600 dark:text-orange-400");
        At "info" (XStr "border-blue-500/20 bg-blue-500/10 text-blue-600 dark:text-blue-400")]))]));
    At "defaultVariants" (XObj (attrs [At "variant" (XStr "default")]))]) o).

Definition StatusLabel (arg : obj) : val :=
  let className := getp "className" arg in
  let props := rest ["className"] arg in
  el (Host "div") [
    At "className" (cn [XStr "leading-none"; className]); At "data-slot" (XStr "status-label"); Sp props] [].

Definition Status (arg : obj) : val :=
  let asChild := getp "asChild" arg in
  let className := getp "className" arg in
  let variant := or_default (XStr "default") (getp "variant" arg) in
  let props := rest ["asChild"; "className"; "variant"] arg in
  let Root := if is_true asChild then Slot XNull else (λ o, XEl (Host "div") o) in
  call Root [At "className" (cn [statusVariants (attrs [At "variant" variant]); className]);
    At "data-slot" (XStr "status"); At "data-variant" variant; Sp props] [].

(** *** [table.tsx] *)

Definition Table (arg : obj) : val :=
  let className := getp "className" arg in
  let props := rest ["className"] arg in
  el (Host "div") [
    At "data-slot" (XStr "table-container"); At "className" (XStr "relative w-full overflow-x-auto")] [
      el (Host "table") [
        At "data-slot" (XStr "table"); At "className" (cn [XStr "w-full caption-bottom text-sm"; className]);
        Sp props] []].

Definition TableHeader (arg : obj) : val :=
  let className := getp "className" arg in
  let props := rest ["className"] arg in
  el (Host "thead") [
    At "data-slot" (XStr "table-header"); At "className" (cn [XStr "[&_tr]:border-b"; className]); Sp props] [].

Definition TableBody (arg : obj) : val :=
  let className := getp "className" arg in
  let props := rest ["className"] arg in
  el (Host "tbody") [
    At "data-slot" (XStr "table-body"); At "className" (cn [XStr "[&_tr:last-child]:border-0"; className]);
    Sp props] [].

Definition TableFooter (arg : obj) : val :=
  let className := getp "className" arg in
  let props := rest ["className"] arg in
  el (Host "tfoot") [
    At "data-slot" (XStr "table-footer");
    At "className" (cn [XStr "border-t bg-muted/50 font-medium [&>tr]:last:border-b-0"; className]); Sp props] [].

Definition TableRow (arg : obj) : val :=
  let className := getp "className" arg in
  let props := rest ["className"] arg in
  el (Host "tr") [
    At "data-slot" (XStr "table-row");
    At "className" (cn [
      XStr "border-b transition-colors hover:bg-muted/50 has-aria-expanded:bg-muted/50 data-[state=selected]:bg-muted";
      className]);
    Sp props] [].

Definition TableHead (arg : obj) : val :=
  let className := getp "className" arg in
  let props := rest ["className"] arg in
  el (Host "th") [
    At "data-slot" (XStr "table-head");
    At "className" (cn [
      XStr "h-10 px-2 text-left align-middle font-medium whitespace-nowrap text-foreground [&:has([role=checkbox])]:pr-0";
      className]);
    Sp props] [].

Definition TableCell (arg : obj) : val :=
  let className := getp "className" arg in
  let props := rest ["className"] arg in
  el (Host "td") [
    At "data-slot" (XStr "table-cell");
    At "className" (cn [XStr "p-2 align-middle whitespace-nowrap [&:has([role=checkbox])]:pr-0"; className]);
    Sp props] [].

Definition TableCaption (arg : obj) : val :=
  let className := getp "className" arg in
  let props := rest ["className"] arg in
  el (Host "caption") [
    At "data-slot" (XStr "table-caption");
    At "className" (cn [XStr "mt-4 text-sm text-muted-foreground"; className]); Sp props] [].

(** *** [tabs.tsx] *)

Definition Tabs (arg : obj) : val :=
  let className := getp "className" arg in
  let orientation := or_default (XStr "horizontal") (getp "orientation" arg) in
  let props := rest ["className"; "orientation"] arg in
  el (Ext "TabsPrimitive.Root") [
    At "className" (cn [XStr "group/tabs flex gap-2 data-horizontal:flex-col"; className]);
    At "data-orientation" orientation; At "data-slot" (XStr "tabs"); At "orientation" orientation; Sp props] [].

Definition tabsListVariants (o : obj) : val :=
  XStr (cva "group/tabs-list inline-flex w-fit items-center justify-center rounded-lg p-[3px] text-muted-foreground group-data-horizontal/tabs:h-8 group-data-vertical/tabs:h-fit group-data-vertical/tabs:flex-col data-[variant=line]:rounded-none" (attrs [
    At "variants" (XObj (attrs [
      At "variant" (XObj (attrs [
        At "default" (XStr "bg-muted"); At "segmented" (XStr "bg-muted");
        At "line" (XStr "gap-1 bg-transparent")]))]));
    At "defaultVariants" (XObj (attrs [At "variant" (XStr "default")]))]) o).

Definition TabsList (arg : obj) : val :=
  let className := getp "className" arg in
  let variant := or_default (XStr "default") (getp "variant" arg) in
  let props := rest ["className"; "variant"] arg in
  el (Ext "TabsPrimitive.List") [
    At "className" (cn [tabsListVariants (attrs [At "variant" variant]); className]);
    At "data-slot" (XStr "tabs-list"); At "data-variant" variant; Sp props] [].

Definition TabsTrigger (arg : obj) : val :=
  let className := getp "className" arg in
  let props := rest ["className"] arg in
  el (Ext "TabsPrimitive.Tab") [
    At "className" (cn [
      XStr "relative inline-flex h-[calc(100%-1px)] flex-1 items-center justify-center gap-1.5 rounded-md border border-transparent px-1.5 py-0.5 text-sm font-medium whitespace-nowrap text-foreground/60 transition-all hover:text-foreground focus-visible:border-ring focus-visible:ring-[3px] focus-visible:ring-ring/50 focus-visible:outline-1 focus-visible:outline-ring disabled:pointer-events-none disabled:opacity-50 data-active:bg-background data-active:text-foreground group-data-[variant=line]/tabs-list:data-active:bg-transparent group-data-[variant=line]/tabs-list:data-active:shadow-none after:absolute after:bg-foreground after:opacity-0 group-data-horizontal/tabs:after:inset-x-0 group-data-horizontal/tabs:after:bottom-[-5px] group-data-horizontal/tabs:after:h-0.5 group-data-[variant=line]/tabs-list:data-active:after:opacity-100";
      className]);
    At "data-slot" (XStr "tabs-trigger"); Sp props] [].

Definition TabsContent (arg : obj) : val :=
  let className := getp "className" arg in
  let props := rest ["className"] arg in
  el (Ext "TabsPrimitive.Panel") [
    At "className" (cn [XStr "flex-1 text-sm outline-none"; className]); At "data-slot" (XStr "tabs-content");
    Sp props] [].

(** *** [tooltip.tsx] *)

Definition TooltipProvider (arg : obj) : val :=
  let delay := or_default (XInt 0) (getp "delay" arg) in
  let props := rest ["delay"] arg in
  el (Ext "TooltipPrimitive.Provider") [At "data-slot" (XStr "tooltip-provider"); At "delay" delay; Sp props] [].

Definition Tooltip (arg : obj) : val :=
  let props := rest [] arg in
  el (Ext "TooltipPrimitive.Root") [At "data-slot" (XStr "tooltip"); Sp props] [].

Definition TooltipTrigger (arg : obj) : val :=
  let props := rest [] arg in
  el (Ext "TooltipPrimitive.Trigger") [At "data-slot" (XStr "tooltip-trigger"); Sp props] [].

Definition TooltipContent (arg : obj) : val :=
  let className := getp "className" arg in
  let side := or_default (XStr "top") (getp "side" arg) in
  let sideOffset := or_default (XInt 4) (getp "sideOffset" arg) in
  let align := or_default (XStr "center") (getp "align" arg) in
  let alignOffset := or_default (XInt 0) (getp "alignOffset" arg) in
  let children := getp "children" arg in
  let props := rest ["className"; "side"; "sideOffset"; "align"; "alignOffset"; "children"] arg in
  el (Ext "TooltipPrimitive.Portal") [] [
    el (Ext "TooltipPrimitive.Positioner") [
      At "align" align; At "alignOffset" alignOffset; At "side" side; At "sideOffset" sideOffset;
      At "className" (XStr "isolate z-50")] [
        el (Ext "TooltipPrimitive.Popup") [
          At "data-slot" (XStr "tooltip-content");
          At "className" (cn [
            XStr "z-50 inline-flex w-fit max-w-xs origin-(--transform-origin) items-center gap-1.5 rounded-md bg-foreground px-3 py-1.5 text-xs text-background has-data-[slot=kbd]:pr-1.5 data-[side=bottom]:slide-in-from-top-2 data-[side=inline-end]:slide-in-from-left-2 data-[side=inline-start]:slide-in-from-right-2 data-[side=left]:slide-in-from-right-2 data-[side=right]:slide-in-from-left-2 data-[side=top]:slide-in-from-bottom-2 **:data-[slot=kbd]:relative **:data-[slot=kbd]:isolate **:data-[slot=kbd]:z-50 **:data-[slot=kbd]:rounded-sm data-[state=delayed-open]:animate-in data-[state=delayed-open]:fade-in-0 data-[state=delayed-open]:zoom-in-95 data-open:animate-in data-open:fade-in-0 data-open:zoom-in-95 data-closed:animate-out data-closed:fade-out-0 data-closed:zoom-out-95";
            className]);
          Sp props] [
            children;
            el (Ext "TooltipPrimitive.Arrow") [
              At "className" (XStr "z-50 size-2.5 translate-y-[calc(-50%-2px)] rotate-45 rounded-[2px] bg-foreground fill-foreground data-[side=bottom]:top-1 data-[side=inline-end]:top-1/2! data-[side=inline-end]:-left-1 data-[side=inline-end]:-translate-y-1/2 data-[side=inline-start]:top-1/2! data-[side=inline-start]:-right-1 data-[side=inline-start]:-translate-y-1/2 data-[side=left]:top-1/2! data-[side=left]:-right-1 data-[side=left]:-translate-y-1/2 data-[side=right]:top-1/2! data-[side=right]:-left-1 data-[side=right]:-translate-y-1/2 data-[side=top]:-bottom-2.5")] []]]].

(** *** [popover.tsx] *)

Definition Popover (arg : obj) : val :=
  let props := rest [] arg in
  el (Ext "PopoverPrimitive.Root") [At "data-slot" (XStr "popover"); Sp props] [].

Definition PopoverTrigger (arg : obj) : val :=
  let props := rest [] arg in
  el (Ext "PopoverPrimitive.Trigger") [At "data-slot" (XStr "popover-trigger"); Sp props] [].

Definition PopoverContent (arg : obj) : val :=
  let className := getp "className" arg in
  let align := or_default (XStr "center") (getp "align" arg) in
  let alignOffset := or_default (XInt 0) (getp "alignOffset" arg) in
  let side := or_default (XStr "bottom") (getp "side" arg) in
  let sideOffset := or_default (XInt 4) (getp "sideOffset" arg) in
  let props := rest ["className"; "align"; "alignOffset"; "side"; "sideOffset"] arg in
  el (Ext "PopoverPrimitive.Portal") [] [
    el (Ext "PopoverPrimitive.Positioner") [
      At "align" align; At "alignOffset" alignOffset; At "side" side; At "sideOffset" sideOffset;
      At "className" (XStr "isolate z-50")] [
        el (Ext "PopoverPrimitive.Popup") [
          At "data-slot" (XStr "popover-content");
          At "className" (cn [
            XStr "z-50 flex w-72 origin-(--transform-origin) flex-col gap-2.5 rounded-lg bg-popover p-2.5 text-sm text-popover-foreground shadow-md ring-1 ring-foreground/10 outline-hidden duration-100 data-[side=bottom]:slide-in-from-top-2 data-[side=inline-end]:slide-in-from-left-2 data-[side=inline-start]:slide-in-from-right-2 data-[side=left]:slide-in-from-right-2 data-[side=right]:slide-in-from-left-2 data-[side=top]:slide-in-from-bottom-2 data-open:animate-in data-open:fade-in-0 data-open:zoom-in-95 data-closed:animate-out data-closed:fade-out-0 data-closed:zoom-out-95";
            className]);
          Sp props] []]].

Definition PopoverHeader (arg : obj) : val :=
  let className := getp "className" arg in
  let props := rest ["className"] arg in
  el (Host "div") [
    At "data-slot" (XStr "popover-header");
    At "className" (cn [XStr "flex flex-col gap-0.5 text-sm"; className]); Sp props] [].

Definition PopoverTitle (arg : obj) : val :=
  let className := getp "className" arg in
  let props := rest ["className"] arg in
  el (Ext "PopoverPrimitive.Title") [
    At "data-slot" (XStr "popover-title"); At "className" (cn [XStr "font-medium"; className]); Sp props] [].

Definition PopoverDescription (arg : obj) : val :=
  let className := getp "className" arg in
  let props := rest ["className"] arg in
  el (Ext "PopoverPrimitive.Description") [
    At "data-slot" (XStr "popover-description"); At "className" (cn [XStr "text-muted-foreground"; className]);
    Sp props] [].

(** *** [select.tsx] *)

Definition Select (arg : obj) : val := XEl (Ext "SelectPrimitive.Root") arg.

Definition SelectGroup (arg : obj) : val :=
  let className := getp "className" arg in
  let props := rest ["className"] arg in
  el (Ext "SelectPrimitive.Group") [
    At "data-slot" (XStr "select-group"); At "className" (cn [XStr "scroll-my-1 p-1"; className]); Sp props] [].

Definition SelectValue (arg : obj) : val :=
  let className := getp "className" arg in
  let props := rest ["className"] arg in
  el (Ext "SelectPrimitive.Value") [
    At "data-slot" (XStr "select-value"); At "className" (cn [XStr "flex flex-1 text-left"; className]);
    Sp props] [].

Definition SelectTrigger (arg : obj) : val :=
  let className := getp "className" arg in
  let size := or_default (XStr "default") (getp "size" arg) in
  let children := getp "children" arg in
  let props := rest ["className"; "size"; "children"] arg in
  el (Ext "SelectPrimitive.Trigger") [
    At "data-slot" (XStr "select-trigger"); At "data-size" size;
    At "className" (cn [
      XStr "flex w-fit items-center justify-between gap-1.5 rounded-lg border border-input bg-transparent py-2 pr-2 pl-2.5 text-sm whitespace-nowrap transition-colors outline-none select-none focus-visible:border-ring focus-visible:ring-3 focus-visible:ring-ring/50 disabled:cursor-not-allowed disabled:opacity-50 aria-invalid:border-destructive aria-invalid:ring-3 aria-invalid:ring-destructive/20 data-placeholder:text-muted-foreground data-[size=default]:h-8 data-[size=sm]:h-7 data-[size=sm]:rounded-[min(var(--radius-md),10px)] *:data-[slot=select-value]:line-clamp-1 *:data-[slot=select-value]:flex *:data-[slot=select-value]:items-center *:data-[slot=select-value]:gap-1.5 dark:bg-input/30 dark:hover:bg-input/50 dark:aria-invalid:border-destructive/50 dark:aria-invalid:ring-destructive/40 [&_svg]:pointer-events-none [&_svg]:shrink-0 [&_svg:not([class*='size-'])]:size-4";
      className]);
    Sp props] [
      children;
      el (Ext "SelectPrimitive.Icon") [
        At "render" (el (Ext "ChevronDownIcon") [
          At "className" (XStr "pointer-events-none size-4 text-muted-foreground")] [])] []].

Definition SelectScrollUpButton (arg : obj) : val :=
  let className := getp "className" arg in
  let props := rest ["className"] arg in
  el (Ext "SelectPrimitive.ScrollUpArrow") [
    At "data-slot" (XStr "select-scroll-up-button");
    At "className" (cn [
      XStr "top-0 z-10 flex w-full cursor-default items-center justify-center bg-popover py-1 [&_svg:not([class*='size-'])]:size-4";
      className]);
    Sp props] [el (Ext "ChevronUpIcon") [] []].

Definition SelectScrollDownButton (arg : obj) : val :=
  let className := getp "className" arg in
  let props := rest ["className"] arg in
  el (Ext "SelectPrimitive.ScrollDownArrow") [
    At "data-slot" (XStr "select-scroll-down-button");
    At "className" (cn [
      XStr "bottom-0 z-10 flex w-full cursor-default items-center justify-center bg-popover py-1 [&_svg:not([class*='size-'])]:size-4";
      className]);
    Sp props] [el (Ext "ChevronDownIcon") [] []].

Definition SelectContent (arg : obj) : val :=
  let className := getp "className" arg in
  let children := getp "children" arg in
  let side := or_default (XStr "bottom") (getp "side" arg) in
  let sideOffset := or_default (XInt 4) (getp "sideOffset" arg) in
  let align := or_default (XStr "center") (getp "align" arg) in
  let alignOffset := or_default (XInt 0) (getp "alignOffset" arg) in
  let alignItemWithTrigger := or_default (XBool true) (getp "alignItemWithTrigger" arg) in
  let props := rest [
    "className"; "children"; "side"; "sideOffset"; "align"; "alignOffset"; "alignItemWithTrigger"] arg in
  el (Ext "SelectPrimitive.Portal") [] [
    el (Ext "SelectPrimitive.Positioner") [
      At "side" side; At "sideOffset" sideOffset; At "align" align; At "alignOffset" alignOffset;
      At "alignItemWithTrigger" alignItemWithTrigger; At "className" (XStr "isolate z-50")] [
        el (Ext "SelectPrimitive.Popup") [
          At "data-slot" (XStr "select-content"); At "data-align-trigger" alignItemWithTrigger;
          At "className" (cn [
            XStr "relative isolate z-50 max-h-(--available-height) w-(--anchor-width) min-w-36 origin-(--transform-origin) overflow-x-hidden overflow-y-auto rounded-lg bg-popover text-popover-foreground shadow-md ring-1 ring-foreground/10 duration-100 data-[align-trigger=true]:animate-none data-[side=bottom]:slide-in-from-top-2 data-[side=inline-end]:slide-in-from-left-2 data-[side=inline-start]:slide-in-from-right-2 data-[side=left]:slide-in-from-right-2 data-[side=right]:slide-in-from-left-2 data-[side=top]:slide-in-from-bottom-2 data-open:animate-in data-open:fade-in-0 data-open:zoom-in-95 data-closed:animate-out data-closed:fade-out-0 data-closed:zoom-out-95";
            className]);
          Sp props] [
            call SelectScrollUpButton [] []; el (Ext "SelectPrimitive.List") [] [children];
            call SelectScrollDownButton [] []]]].

Definition SelectLabel (arg : obj) : val :=
  let className := getp "className" arg in
  let props := rest ["className"] arg in
  el (Ext "SelectPrimitive.GroupLabel") [
    At "data-slot" (XStr "select-label");
    At "className" (cn [XStr "px-1.5 py-1 text-xs text-muted-foreground"; className]); Sp props] [].

Definition SelectItem (arg : obj) : val :=
  let className := getp "className" arg in
  let children := getp "children" arg in
  let props := rest ["className"; "children"] arg in
  el (Ext "SelectPrimitive.Item") [
    At "data-slot" (XStr "select-item");
    At "className" (cn [
      XStr "relative flex w-full cursor-default items-center gap-1.5 rounded-md py-1 pr-8 pl-1.5 text-sm outline-hidden select-none focus:bg-accent focus:text-accent-foreground not-data-[variant=destructive]:focus:**:text-accent-foreground data-disabled:pointer-events-none data-disabled:opacity-50 [&_svg]:pointer-events-none [&_svg]:shrink-0 [&_svg:not([class*='size-'])]:size-4 *:[span]:last:flex *:[span]:last:items-center *:[span]:last:gap-2";
      className]);
    Sp props] [
      el (Ext "SelectPrimitive.ItemText") [At "className" (XStr "flex flex-1 shrink-0 gap-2 whitespace-nowrap")] [
        children];
      el (Ext "SelectPrimitive.ItemIndicator") [
        At "render" (el (Host "span") [
          At "className" (XStr "pointer-events-none absolute right-2 flex size-4 items-center justify-center")] [])] [
            el (Ext "CheckIcon") [At "className" (XStr "pointer-events-none")] []]].

Definition SelectSeparator (arg : obj) : val :=
  let className := getp "className" arg in
  let props := rest ["className"] arg in
  el (Ext "SelectPrimitive.Separator") [
    At "data-slot" (XStr "select-separator");
    At "className" (cn [XStr "pointer-events-none -mx-1 my-1 h-px bg-border"; className]); Sp props] [].

(** *** [dropdown-menu.tsx] *)

Definition DropdownMenu (arg : obj) : val :=
  let props := rest [] arg in
  el (Ext "MenuPrimitive.Root") [At "data-slot" (XStr "dropdown-menu"); Sp props] [].

Definition DropdownMenuPortal (arg : obj) : val :=
  let props := rest [] arg in
  el (Ext "MenuPrimitive.Portal") [At "data-slot" (XStr "dropdown-menu-portal"); Sp props] [].

Definition DropdownMenuTrigger (arg : obj) : val :=
  let props := rest [] arg in
  el (Ext "MenuPrimitive.Trigger") [At "data-slot" (XStr "dropdown-menu-trigger"); Sp props] [].

Definition DropdownMenuContent (arg : obj) : val :=
  let align := or_default (XStr "start") (getp "align" arg) in
  let alignOffset := or_default (XInt 0) (getp "alignOffset" arg) in
  let side := or_default (XStr "bottom") (getp "side" arg) in
  let sideOffset := or_default (XInt 4) (getp "sideOffset" arg) in
  let className := getp "className" arg in
  let props := rest ["align"; "alignOffset"; "side"; "sideOffset"; "className"] arg in
  el (Ext "MenuPrimitive.Portal") [] [
    el (Ext "MenuPrimitive.Positioner") [
      At "className" (XStr "isolate z-50 outline-none"); At "align" align; At "alignOffset" alignOffset;
      At "side" side; At "sideOffset" sideOffset] [
        el (Ext "MenuPrimitive.Popup") [
          At "data-slot" (XStr "dropdown-menu-content");
          At "className" (cn [
            XStr "z-50 max-h-(--available-height) w-(--anchor-width) min-w-32 origin-(--transform-origin) overflow-x-hidden overflow-y-auto rounded-lg bg-popover p-1 text-popover-foreground shadow-md ring-1 ring-foreground/10 outline-none data-[side=bottom]:slide-in-from-top-2 data-[side=inline-end]:slide-in-from-left-2 data-[side=inline-start]:slide-in-from-right-2 data-[side=left]:slide-in-from-right-2 data-[side=right]:slide-in-from-left-2 data-[side=top]:slide-in-from-bottom-2 data-open:animate-in data-open:fade-in-0 data-open:zoom-in-95";
            className]);
          Sp props] []]].

Definition DropdownMenuGroup (arg : obj) : val :=
  let props := rest [] arg in
  el (Ext "MenuPrimitive.Group") [At "data-slot" (XStr "dropdown-menu-group"); Sp props] [].

Definition DropdownMenuLabel (arg : obj) : val :=
  let className := getp "className" arg in
  let inset := getp "inset" arg in
  let props := rest ["className"; "inset"] arg in
  el (Ext "MenuPrimitive.GroupLabel") [
    At "data-slot" (XStr "dropdown-menu-label"); At "data-inset" inset;
    At "className" (cn [XStr "px-1.5 py-1 text-xs font-medium text-muted-foreground data-inset:pl-7"; className]);
    Sp props] [].

Definition DropdownMenuItem (arg : obj) : val :=
  let className := getp "className" arg in
  let inset := getp "inset" arg in
  let variant := or_default (XStr "default") (getp "variant" arg) in
  let props := rest ["className"; "inset"; "variant"] arg in
  el (Ext "MenuPrimitive.Item") [
    At "data-slot" (XStr "dropdown-menu-item"); At "data-inset" inset; At "data-variant" variant;
    At "className" (cn [
      XStr "group/dropdown-menu-item relative flex cursor-default items-center gap-1.5 rounded-md px-1.5 py-1 text-sm outline-hidden select-none focus:bg-accent focus:text-accent-foreground not-data-[variant=destructive]:focus:**:text-accent-foreground data-inset:pl-7 data-[variant=destructive]:text-destructive data-[variant=destructive]:focus:bg-destructive/10 data-[variant=destructive]:focus:text-destructive dark:data-[variant=destructive]:focus:bg-destructive/20 data-disabled:pointer-events-none data-disabled:opacity-50 [&_svg]:pointer-events-none [&_svg]:shrink-0 [&_svg:not([class*='size-'])]:size-4 data-[variant=destructive]:*:[svg]:text-destructive";
      className]);
    Sp props] [].

Definition DropdownMenuSub (arg : obj) : val :=
  let props := rest [] arg in
  el (Ext "MenuPrimitive.SubmenuRoot") [At "data-slot" (XStr "dropdown-menu-sub"); Sp props] [].

Definition DropdownMenuSubTrigger (arg : obj) : val :=
  let className := getp "className" arg in
  let inset := getp "inset" arg in
  let children := getp "children" arg in
  let props := rest ["className"; "inset"; "children"] arg in
  el (Ext "MenuPrimitive.SubmenuTrigger") [
    At "data-slot" (XStr "dropdown-menu-sub-trigger"); At "data-inset" inset;
    At "className" (cn [
      XStr "flex cursor-default items-center gap-1.5 rounded-md px-1.5 py-1 text-sm outline-hidden select-none focus:bg-accent focus:text-accent-foreground not-data-[variant=destructive]:focus:**:text-accent-foreground data-inset:pl-7 data-popup-open:bg-accent data-popup-open:text-accent-foreground data-open:bg-accent data-open:text-accent-foreground [&_svg]:pointer-events-none [&_svg]:shrink-0 [&_svg:not([class*='size-'])]:size-4";
      className]);
    Sp props] [children; el (Ext "ChevronRightIcon") [At "className" (XStr "ml-auto")] []].

Definition DropdownMenuSubContent (arg : obj) : val :=
  let align := or_default (XStr "start") (getp "align" arg) in
  let alignOffset := or_default (XInt (-3)) (getp "alignOffset" arg) in
  let side := or_default (XStr "right") (getp "side" arg) in
  let sideOffset := or_default (XInt 0) (getp "sideOffset" arg) in
  let className := getp "className" arg in
  let props := rest ["align"; "alignOffset"; "side"; "sideOffset"; "className"] arg in
  call DropdownMenuContent [
    At "data-slot" (XStr "dropdown-menu-sub-content");
    At "className" (cn [
      XStr "w-auto min-w-[96px] rounded-lg bg-popover p-1 text-popover-foreground shadow-lg ring-1 ring-foreground/10 data-[side=bottom]:slide-in-from-top-2 data-[side=left]:slide-in-from-right-2 data-[side=right]:slide-in-from-left-2 data-[side=top]:slide-in-from-bottom-2 data-open:animate-in data-open:fade-in-0 data-open:zoom-in-95";
      className]);
    At "align" align; At "alignOffset" alignOffset; At "side" side; At "sideOffset" sideOffset; Sp props] [].

Definition DropdownMenuCheckboxItem (arg : obj) : val :=
  let className := getp "className" arg in
  let children := getp "children" arg in
  let checked := getp "checked" arg in
  let inset := getp "inset" arg in
  let props := rest ["className"; "children"; "checked"; "inset"] arg in
  el (Ext "MenuPrimitive.CheckboxItem") [
    At "data-slot" (XStr "dropdown-menu-checkbox-item"); At "data-inset" inset;
    At "className" (cn [
      XStr "relative flex cursor-default items-center gap-1.5 rounded-md py-1 pr-8 pl-1.5 text-sm outline-hidden select-none focus:bg-accent focus:text-accent-foreground focus:**:text-accent-foreground data-inset:pl-7 data-disabled:pointer-events-none data-disabled:opacity-50 [&_svg]:pointer-events-none [&_svg]:shrink-0 [&_svg:not([class*='size-'])]:size-4";
      className]);
    At "checked" checked; Sp props] [
      el (Host "span") [
        At "className" (XStr "pointer-events-none absolute right-2 flex items-center justify-center");
        At "data-slot" (XStr "dropdown-menu-checkbox-item-indicator")] [
          el (Ext "MenuPrimitive.CheckboxItemIndicator") [] [el (Ext "CheckIcon") [] []]];
      children].

Definition DropdownMenuRadioGroup (arg : obj) : val :=
  let props := rest [] arg in
  el (Ext "MenuPrimitive.RadioGroup") [At "data-slot" (XStr "dropdown-menu-radio-group"); Sp props] [].

Definition DropdownMenuRadioItem (arg : obj) : val :=
  let className := getp "className" arg in
  let children := getp "children" arg in
  let inset := getp "inset" arg in
  let props := rest ["className"; "children"; "inset"] arg in
  el (Ext "MenuPrimitive.RadioItem") [
    At "data-slot" (XStr "dropdown-menu-radio-item"); At "data-inset" inset;
    At "className" (cn [
      XStr "relative flex cursor-default items-center gap-1.5 rounded-md py-1 pr-8 pl-1.5 text-sm outline-hidden select-none focus:bg-accent focus:text-accent-foreground focus:**:text-accent-foreground data-inset:pl-7 data-disabled:pointer-events-none data-disabled:opacity-50 [&_svg]:pointer-events-none [&_svg]:shrink-0 [&_svg:not([class*='size-'])]:size-4";
      className]);
    At "closeOnClick" (XBool true); Sp props] [
      el (Host "span") [
        At "className" (XStr "pointer-events-none absolute right-2 flex items-center justify-center");
        At "data-slot" (XStr "dropdown-menu-radio-item-indicator")] [
          el (Ext "MenuPrimitive.RadioItemIndicator") [] [el (Ext "CheckIcon") [] []]];
      children].

Definition DropdownMenuSeparator (arg : obj) : val :=
  let className := getp "className" arg in
  let props := rest ["className"] arg in
  el (Ext "MenuPrimitive.Separator") [
    At "data-slot" (XStr "dropdown-menu-separator");
    At "className" (cn [XStr "-mx-1 my-1 h-px bg-border"; className]); Sp props] [].

Definition DropdownMenuShortcut (arg : obj) : val :=
  let className := getp "className" arg in
  let props := rest ["className"] arg in
  el (Host "span") [
    At "data-slot" (XStr "dropdown-menu-shortcut");
    At "className" (cn [
      XStr "ml-auto text-xs tracking-widest text-muted-foreground group-focus/dropdown-menu-item:text-accent-foreground";
      className]);
    Sp props] [].

(** *** [dialog.tsx] *)

Definition Dialog (arg : obj) : val :=
  let props := rest [] arg in
  el (Ext "DialogPrimitive.Root") [At "data-slot" (XStr "dialog"); Sp props] [].

Definition DialogTrigger (arg : obj) : val :=
  let props := rest [] arg in
  el (Ext "DialogPrimitive.Trigger") [At "data-slot" (XStr "dialog-trigger"); Sp props] [].

Definition DialogPortal (arg : obj) : val :=
  let props := rest [] arg in
  el (Ext "DialogPrimitive.Portal") [At "data-slot" (XStr "dialog-portal"); Sp props] [].

Definition DialogClose (arg : obj) : val :=
  let props := rest [] arg in
  el (Ext "DialogPrimitive.Close") [At "data-slot" (XStr "dialog-close"); Sp props] [].

Definition DialogOverlay (arg : obj) : val :=
  let className := getp "className" arg in
  let props := rest ["className"] arg in
  el (Ext "DialogPrimitive.Backdrop") [
    At "data-slot" (XStr "dialog-overlay");
    At "className" (cn [
      XStr "fixed inset-0 isolate z-50 bg-black/10 supports-backdrop-filter:backdrop-blur-xs"; className]);
    Sp props] [].

Definition DialogContent (arg : obj) : val :=
  let className := getp "className" arg in
  let children := getp "children" arg in
  let outsideScroll := or_default (XBool false) (getp "outsideScroll" arg) in
  let showCloseButton := or_default (XBool false) (getp "showCloseButton" arg) in
  let props := rest ["className"; "children"; "outsideScroll"; "showCloseButton"] arg in
  let popup := el (Ext "DialogPrimitive.Popup") [
    At "data-slot" (XStr "dialog-content");
    At "className" (cn [
      XStr "z-50 grid w-full gap-4 rounded-xl bg-popover p-4 text-sm text-popover-foreground ring-1 ring-foreground/10 outline-none";
      js_if outsideScroll (XStr "relative max-w-full") (XStr "fixed top-1/2 left-1/2 max-w-[calc(100%-2rem)] -translate-x-1/2 -translate-y-1/2 sm:max-w-sm");
      className]);
    Sp props] [
      children;
      js_and showCloseButton (el (Ext "DialogPrimitive.Close") [
        At "data-slot" (XStr "dialog-close");
        At "render" (el (Own "Button") [
          At "variant" (XStr "ghost"); At "className" (XStr "absolute top-2 right-2");
          At "size" (XStr "icon-sm")] [])] [
            el (Ext "XIcon") [] []; el (Host "span") [At "className" (XStr "sr-only")] [XStr "Close"]])] in
  call DialogPortal [At "keepMounted" (XBool false)] [
    call DialogOverlay [] [];
    js_if outsideScroll (el (Ext "DialogPrimitive.Viewport") [
      At "className" (XStr "fixed inset-0 z-50 overflow-y-auto overscroll-contain");
      At "data-slot" (XStr "dialog-viewport")] [
        el (Host "div") [At "className" (XStr "flex min-h-full items-center justify-center p-4 sm:p-8")] [popup]]) popup].

Definition DialogHeader (arg : obj) : val :=
  let className := getp "className" arg in
  let props := rest ["className"] arg in
  el (Host "div") [
    At "data-slot" (XStr "dialog-header"); At "className" (cn [XStr "flex flex-col gap-2"; className]); Sp props] [].

Definition DialogFooter (arg : obj) : val :=
  let className := getp "className" arg in
  let showCloseButton := or_default (XBool false) (getp "showCloseButton" arg) in
  let children := getp "children" arg in
  let props := rest ["className"; "showCloseButton"; "children"] arg in
  el (Host "div") [
    At "data-slot" (XStr "dialog-footer");
    At "className" (cn [
      XStr "-mx-4 -mb-4 flex flex-col-reverse gap-2 rounded-b-xl border-t bg-muted/50 p-4 sm:flex-row sm:justify-end";
      className]);
    Sp props] [
      children;
      js_and showCloseButton (el (Ext "DialogPrimitive.Close") [
        At "render" (el (Own "Button") [At "variant" (XStr "outline")] [])] [XStr "Close"])].

Definition DialogTitle (arg : obj) : val :=
  let className := getp "className" arg in
  let props := rest ["className"] arg in
  el (Ext "DialogPrimitive.Title") [
    At "data-slot" (XStr "dialog-title");
    At "className" (cn [XStr "font-heading text-base leading-none font-medium"; className]); Sp props] [].

Definition DialogDescription (arg : obj) : val :=
  let className := getp "className" arg in
  let props := rest ["className"] arg in
  el (Ext "DialogPrimitive.Description") [
    At "data-slot" (XStr "dialog-description");
    At "className" (cn [
      XStr "text-sm text-muted-foreground *:[a]:underline *:[a]:underline-offset-3 *:[a]:hover:text-foreground";
      className]);
    Sp props] [].

(** *** [sheet.tsx] *)

Definition Sheet (arg : obj) : val :=
  let props := rest [] arg in
  el (Ext "SheetPrimitive.Root") [At "data-slot" (XStr "sheet"); Sp props] [].

Definition SheetTrigger (arg : obj) : val :=
  let props := rest [] arg in
  el (Ext "SheetPrimitive.Trigger") [At "data-slot" (XStr "sheet-trigger"); Sp props] [].

Definition SheetClose (arg : obj) : val :=
  let props := rest [] arg in
  el (Ext "SheetPrimitive.Close") [At "data-slot" (XStr "sheet-close"); Sp props] [].

Definition SheetPortal (arg : obj) : val :=
  let props := rest [] arg in
  el (Ext "SheetPrimitive.Portal") [At "data-slot" (XStr "sheet-portal"); Sp props] [].

Definition SheetOverlay (arg : obj) : val :=
  let className := getp "className" arg in
  let props := rest ["className"] arg in
  el (Ext "SheetPrimitive.Backdrop") [
    At "data-slot" (XStr "sheet-overlay");
    At "className" (cn [
      XStr "fixed inset-0 z-50 bg-black/10 data-starting-style:opacity-0 supports-backdrop-filter:backdrop-blur-xs";
      className]);
    Sp props] [].

Definition SheetContent (arg : obj) : val :=
  let className := getp "className" arg in
  let children := getp "children" arg in
  let side := or_default (XStr "right") (getp "side" arg) in
  let showCloseButton := or_default (XBool true) (getp "showCloseButton" arg) in
  let props := rest ["className"; "children"; "side"; "showCloseButton"] arg in
  call SheetPortal [] [
    call SheetOverlay [] [];
    el (Ext "SheetPrimitive.Popup") [
      At "aria-modal" (XStr "true"); At "data-slot" (XStr "sheet-content"); At "data-side" side;
      At "className" (cn [
        XStr "fixed z-50 flex flex-col gap-4 bg-popover bg-clip-padding text-sm text-popover-foreground shadow-lg data-starting-style:opacity-0 data-[side=bottom]:inset-x-0 data-[side=bottom]:bottom-0 data-[side=bottom]:h-auto data-[side=bottom]:border-t data-[side=bottom]:data-starting-style:translate-y-[2.5rem] data-[side=left]:inset-y-0 data-[side=left]:left-0 data-[side=left]:h-full data-[side=left]:w-3/4 data-[side=left]:border-r data-[side=left]:data-starting-style:translate-x-[-2.5rem] data-[side=right]:inset-y-0 data-[side=right]:right-0 data-[side=right]:h-full data-[side=right]:w-3/4 data-[side=right]:border-l data-[side=right]:data-starting-style:translate-x-[2.5rem] data-[side=top]:inset-x-0 data-[side=top]:top-0 data-[side=top]:h-auto data-[side=top]:border-b data-[side=top]:data-starting-style:translate-y-[-2.5rem] data-[side=left]:sm:max-w-sm data-[side=right]:sm:max-w-sm";
        className]);
      Sp props] [
        children;
        js_and showCloseButton (el (Ext "SheetPrimitive.Close") [
          At "data-slot" (XStr "sheet-close");
          At "render" (el (Own "Button") [
            At "variant" (XStr "ghost"); At "className" (XStr "absolute top-3 right-3");
            At "size" (XStr "icon-sm")] [])] [
              el (Ext "XIcon") [] []; el (Host "span") [At "className" (XStr "sr-only")] [XStr "Close"]])]].

Definition SheetHeader (arg : obj) : val :=
  let className := getp "className" arg in
  let props := rest ["className"] arg in
  el (Host "div") [
    At "data-slot" (XStr "sheet-header"); At "className" (cn [XStr "flex flex-col gap-0.5 p-4"; className]);
    Sp props] [].

Definition SheetFooter (arg : obj) : val :=
  let className := getp "className" arg in
  let props := rest ["className"] arg in
  el (Host "div") [
    At "data-slot" (XStr "sheet-footer");
    At "className" (cn [XStr "mt-auto flex flex-col gap-2 p-4"; className]); Sp props] [].

Definition SheetTitle (arg : obj) : val :=
  let className := getp "className" arg in
  let props := rest ["className"] arg in
  el (Ext "SheetPrimitive.Title") [
    At "data-slot" (XStr "sheet-title");
    At "className" (cn [XStr "font-heading text-base font-medium text-foreground"; className]); Sp props] [].

Definition SheetDescription (arg : obj) : val :=
  let className := getp "className" arg in
  let props := rest ["className"] arg in
  el (Ext "SheetPrimitive.Description") [
    At "data-slot" (XStr "sheet-description");
    At "className" (cn [XStr "text-sm text-muted-foreground"; className]); Sp props] [].

(** *** [input-group.tsx] *)

Definition InputGroup (arg : obj) : val :=
  let className := getp "className" arg in
  let props := rest ["className"] arg in
  el (Host "div") [
    At "data-slot" (XStr "input-group"); At "role" (XStr "group");
    At "className" (cn [
      XStr "group/input-group relative flex h-8 w-full min-w-0 items-center rounded-lg border border-input transition-colors outline-none in-data-[slot=combobox-content]:focus-within:border-inherit in-data-[slot=combobox-content]:focus-within:ring-0 has-disabled:bg-input/50 has-disabled:opacity-50 has-[[data-slot=input-group-control]:focus-visible]:border-ring has-[[data-slot=input-group-control]:focus-visible]:ring-3 has-[[data-slot=input-group-control]:focus-visible]:ring-ring/50 has-[[data-slot][aria-invalid=true]]:border-destructive has-[[data-slot][aria-invalid=true]]:ring-3 has-[[data-slot][aria-invalid=true]]:ring-destructive/20 has-[>[data-align=block-end]]:h-auto has-[>[data-align=block-end]]:flex-col has-[>[data-align=block-start]]:h-auto has-[>[data-align=block-start]]:flex-col has-[>textarea]:h-auto dark:bg-input/30 dark:has-disabled:bg-input/80 dark:has-[[data-slot][aria-invalid=true]]:ring-destructive/40 has-[>[data-align=block-end]]:[&>input]:pt-3 has-[>[data-align=block-start]]:[&>input]:pb-3 has-[>[data-align=inline-end]]:[&>input]:pr-1.5 has-[>[data-align=inline-start]]:[&>input]:pl-1.5";
      className]);
    Sp props] [].

Definition inputGroupAddonVariants (o : obj) : val :=
  XStr (cva "flex h-auto cursor-text items-center justify-center gap-2 py-1.5 text-sm font-medium text-muted-foreground select-none group-data-[disabled=true]/input-group:opacity-50 [&>kbd]:rounded-[calc(var(--radius)-5px)] [&>svg:not([class*='size-'])]:size-4" (attrs [
    At "variants" (XObj (attrs [
      At "align" (XObj (attrs [
        At "inline-start" (XStr "order-first pl-2 has-[>button]:ml-[-0.3rem] has-[>kbd]:ml-[-0.15rem]");
        At "inline-end" (XStr "order-last pr-2 has-[>button]:mr-[-0.3rem] has-[>kbd]:mr-[-0.15rem]");
        At "block-start" (XStr "order-first w-full justify-start px-2.5 pt-2 group-has-[>input]/input-group:pt-2 [.border-b]:pb-2");
        At "block-end" (XStr "order-last w-full justify-start px-2.5 pb-2 group-has-[>input]/input-group:pb-2 [.border-t]:pt-2")]))]));
    At "defaultVariants" (XObj (attrs [At "align" (XStr "inline-start")]))]) o).

Definition InputGroupAddon (arg : obj) : val :=
  let className := getp "className" arg in
  let align := or_default (XStr "inline-start") (getp "align" arg) in
  let props := rest ["className"; "align"] arg in
  el (Host "div") [
    At "role" (XStr "group"); At "data-slot" (XStr "input-group-addon"); At "data-align" align;
    At "className" (cn [inputGroupAddonVariants (attrs [At "align" align]); className]);
    At "onClick" (XFn ("(e) => { if ((e.target as HTMLElement).closest(" ++ dq ++ "button" ++ dq ++ ")) { return } e.currentTarget.parentElement?.querySelector(" ++ dq ++ "input" ++ dq ++ ")?.focus() }") []);
    Sp props] [].

Definition inputGroupButtonVariants (o : obj) : val :=
  XStr (cva "flex items-center gap-2 text-sm shadow-none" (attrs [
    At "variants" (XObj (attrs [
      At "size" (XObj (attrs [
        At "xs" (XStr "h-6 gap-1 rounded-[calc(var(--radius)-3px)] px-1.5 [&>svg:not([class*='size-'])]:size-3.5");
        At "sm" (XStr ""); At "icon-xs" (XStr "size-6 rounded-[calc(var(--radius)-3px)] p-0 has-[>svg]:p-0");
        At "icon-sm" (XStr "size-8 p-0 has-[>svg]:p-0")]))]));
    At "defaultVariants" (XObj (attrs [At "size" (XStr "xs")]))]) o).

Definition InputGroupButton (arg : obj) : val :=
  let className := getp "className" arg in
  let type_ := or_default (XStr "button") (getp "type" arg) in
  let variant := or_default (XStr "ghost") (getp "variant" arg) in
  let size := or_default (XStr "xs") (getp "size" arg) in
  let props := rest ["className"; "type"; "variant"; "size"] arg in
  call Button [
    At "type" type_; At "data-size" size; At "variant" variant;
    At "className" (cn [inputGroupButtonVariants (attrs [At "size" size]); className]); Sp props] [].

Definition InputGroupText (arg : obj) : val :=
  let className := getp "className" arg in
  let props := rest ["className"] arg in
  el (Host "span") [
    At "className" (cn [
      XStr "flex items-center gap-2 text-sm text-muted-foreground [&_svg]:pointer-events-none [&_svg:not([class*='size-'])]:size-4";
      className]);
    Sp props] [].

Definition InputGroupInput (arg : obj) : val :=
  let className := getp "className" arg in
  let props := rest ["className"] arg in
  call Input [
    At "data-slot" (XStr "input-group-control");
    At "className" (cn [
      XStr "flex-1 rounded-none border-0 bg-transparent shadow-none ring-0 focus-visible:ring-0 disabled:bg-transparent aria-invalid:ring-0 dark:bg-transparent dark:disabled:bg-transparent";
      className]);
    Sp props] [].

Definition InputGroupTextarea (arg : obj) : val :=
  let className := getp "className" arg in
  let props := rest ["className"] arg in
  call Textarea [
    At "data-slot" (XStr "input-group-control");
    At "className" (cn [
      XStr "flex-1 resize-none rounded-none border-0 bg-transparent py-2 shadow-none ring-0 focus-visible:ring-0 disabled:bg-transparent aria-invalid:ring-0 dark:bg-transparent dark:disabled:bg-transparent";
      className]);
    Sp props] [].

(** *** [command.tsx] *)

Definition Command (arg : obj) : val :=
  let className := getp "className" arg in
  let props := rest ["className"] arg in
  el (Ext "CommandPrimitive") [
    At "data-slot" (XStr "command");
    At "className" (cn [
      XStr "flex size-full flex-col overflow-hidden rounded-xl! bg-popover p-1 text-popover-foreground";
      className]);
    Sp props] [].

Definition CommandDialog (arg : obj) : val :=
  let title := or_default (XStr "Command Palette") (getp "title" arg) in
  let description := or_default (XStr "Search for a command to run...") (getp "description" arg) in
  let children := getp "children" arg in
  let className := getp "className" arg in
  let showCloseButton := or_default (XBool false) (getp "showCloseButton" arg) in
  let props := rest ["title"; "description"; "children"; "className"; "showCloseButton"] arg in
  call Dialog [Sp props] [
    call DialogHeader [At "className" (XStr "sr-only")] [
      call DialogTitle [] [title]; call DialogDescription [] [description]];
    call DialogContent [
      At "className" (cn [XStr "top-1/3 translate-y-0 overflow-hidden rounded-xl! p-0"; className]);
      At "showCloseButton" showCloseButton] [children]].

Definition CommandInput (arg : obj) : val :=
  let className := getp "className" arg in
  let props := rest ["className"] arg in
  el (Host "div") [At "data-slot" (XStr "command-input-wrapper"); At "className" (XStr "p-1 pb-0")] [
    call InputGroup [
      At "className" (XStr "h-8! rounded-lg! border-input/30 bg-input/30 shadow-none! *:data-[slot=input-group-addon]:pl-2!")] [
        el (Ext "CommandPrimitive.Input") [
          At "data-slot" (XStr "command-input");
          At "className" (cn [
            XStr "w-full text-sm outline-hidden disabled:cursor-not-allowed disabled:opacity-50"; className]);
          Sp props] [];
        call InputGroupAddon [] [el (Ext "SearchIcon") [At "className" (XStr "size-4 shrink-0 opacity-50")] []]]].

Definition CommandList (arg : obj) : val :=
  let className := getp "className" arg in
  let props := rest ["className"] arg in
  el (Ext "CommandPrimitive.List") [
    At "data-slot" (XStr "command-list");
    At "className" (cn [
      XStr "no-scrollbar max-h-72 scroll-py-1 overflow-x-hidden overflow-y-auto outline-none"; className]);
    Sp props] [].

Definition CommandEmpty (arg : obj) : val :=
  let className := getp "className" arg in
  let props := rest ["className"] arg in
  el (Ext "CommandPrimitive.Empty") [
    At "data-slot" (XStr "command-empty"); At "className" (cn [XStr "py-6 text-center text-sm"; className]);
    Sp props] [].

Definition CommandGroup (arg : obj) : val :=
  let className := getp "className" arg in
  let props := rest ["className"] arg in
  el (Ext "CommandPrimitive.Group") [
    At "data-slot" (XStr "command-group");
    At "className" (cn [
      XStr "overflow-hidden p-1 text-foreground **:[[cmdk-group-heading]]:px-2 **:[[cmdk-group-heading]]:py-1.5 **:[[cmdk-group-heading]]:text-xs **:[[cmdk-group-heading]]:font-medium **:[[cmdk-group-heading]]:text-muted-foreground";
      className]);
    Sp props] [].

Definition CommandSeparator (arg : obj) : val :=
  let className := getp "className" arg in
  let props := rest ["className"] arg in
  el (Ext "CommandPrimitive.Separator") [
    At "data-slot" (XStr "command-separator"); At "className" (cn [XStr "-mx-1 h-px bg-border"; className]);
    Sp props] [].

Definition CommandItem (arg : obj) : val :=
  let className := getp "className" arg in
  let children := getp "children" arg in
  let props := rest ["className"; "children"] arg in
  el (Ext "CommandPrimitive.Item") [
    At "data-slot" (XStr "command-item");
    At "className" (cn [
      XStr "group/command-item relative flex cursor-default items-center gap-2 rounded-sm px-2 py-1.5 text-sm outline-hidden select-none in-data-[slot=dialog-content]:rounded-lg! data-[disabled=true]:pointer-events-none data-[disabled=true]:opacity-50 data-selected:bg-muted data-selected:text-foreground [&_svg]:pointer-events-none [&_svg]:shrink-0 [&_svg:not([class*='size-'])]:size-4 data-selected:*:[svg]:text-foreground";
      className]);
    Sp props] [
      children;
      el (Ext "CheckIcon") [
        At "className" (XStr "ml-auto opacity-0 group-has-data-[slot=command-shortcut]/command-item:hidden group-data-[checked=true]/command-item:opacity-100")] []].

Definition CommandShortcut (arg : obj) : val :=
  let className := getp "className" arg in
  let props := rest ["className"] arg in
  el (Host "span") [
    At "data-slot" (XStr "command-shortcut");
    At "className" (cn [
      XStr "ml-auto text-xs tracking-widest text-muted-foreground group-data-selected/command-item:text-foreground";
      className]);
    Sp props] [].

(** *** [confirm-dialog.tsx] *)

Definition ConfirmDialog (arg : obj) : val :=
  let cancelLabel := getp "cancelLabel" arg in
  let children := getp "children" arg in
  let confirmDisabled := or_default (XBool false) (getp "confirmDisabled" arg) in
  let confirmLabel := getp "confirmLabel" arg in
  let description := getp "description" arg in
  let onConfirm := getp "onConfirm" arg in
  let onOpenChange := getp "onOpenChange" arg in
  let open := getp "open" arg in
  let title := getp "title" arg in
  call Dialog [At "onOpenChange" onOpenChange; At "open" open] [
    call DialogContent [] [
      call DialogHeader [] [call DialogTitle [] [title]; call DialogDescription [] [description]]; children;
      call DialogFooter [] [
        call Button [
          At "onClick" (XFn "() => onOpenChange(false)" [onOpenChange]); At "variant" (XStr "outline")] [
            cancelLabel];
        call Button [At "disabled" confirmDisabled; At "onClick" onConfirm; At "variant" (XStr "destructive")] [
          confirmLabel]]]].

(** *** [stat-card.tsx] *)

Definition StatCard (arg : obj) : val :=
  let hint := getp "hint" arg in
  let icon := getp "icon" arg in
  let label := getp "label" arg in
  let value := getp "value" arg in
  call Card [At "className" (XStr "gap-1"); At "size" (XStr "sm")] [
    call CardHeader [At "className" (XStr "border-b-0 pb-0")] [
      call CardTitle [At "className" (XStr "text-sm font-medium capitalize text-muted-foreground")] [label];
      call CardAction [At "className" (XStr "text-muted-foreground")] [icon]];
    call CardContent [At "className" (XStr "pt-0")] [
      el (Host "div") [
        At "className" (XStr "text-3xl font-bold leading-none capitalize tabular-nums tracking-tight")] [value];
      el (Host "p") [At "className" (XStr "mt-1.5 text-xs capitalize text-muted-foreground")] [hint]]].

(** *** [route-pending.tsx] *)

Definition RoutePending (arg : obj) : val :=
  el (Host "div") [
    At "className" (XStr "flex min-h-40 items-center justify-center"); At "role" (XStr "status");
    At "aria-live" (XStr "polite")] [
      el (Host "span") [At "className" (XStr "text-sm text-muted-foreground")] [XStr "Carregando…"]].

(** *** [sonner.tsx] *)

(** The toasts wear the theme in force, unless they are told another. *)
Definition Toaster (resolvedTheme : jsstr) (props : obj) : val :=
  let icon n c := el (Ext n) [At "className" (XStr c)] [] in
  el (Ext "Sonner") [
    At "theme" (XStr resolvedTheme);
    At "className" (XStr "toaster group");
    At "icons" (XObj [
      ("success" : jsstr, icon "CircleCheckIcon" "size-4");
      ("info" : jsstr, icon "InfoIcon" "size-4");
      ("warning" : jsstr, icon "TriangleAlertIcon" "size-4");
      ("error" : jsstr, icon "OctagonXIcon" "size-4");
      ("loading" : jsstr, icon "Loader2Icon" "size-4 animate-spin")]);
    At "style" (XObj [
      ("--normal-bg" : jsstr, XStr "var(--popover)");
      ("--normal-text" : jsstr, XStr "var(--popover-foreground)");
      ("--normal-border" : jsstr, XStr "var(--border)");
      ("--border-radius" : jsstr, XStr "var(--radius)")]);
    At "toastOptions" (XObj [("classNames" : jsstr, XObj [("toast" : jsstr, XStr "cn-toast")])]);
    Sp props] [].
End kit.
