(* ===== verification/UiSidebar.v ===== *)
(** * The parts of the sidebar

    The markup of [src/web/src/components/ui/sidebar.tsx], over the kit; the state and the callbacks of
    its provider are [Sidebar], of which the parts read the value of the context: [context] is that
    object, with its fields as properties. *)
From Stdlib Require Import ZArith Lia List.
From stdpp Require Import base list.
From S2P Require Import Prelude Numbers JsonRead Ui Sidebar Jsx UiKit.
#[local] Open Scope Z_scope.

Section sidebar_parts.
Context `{ClassLib, BaseUI}.

(** What [SidebarProvider] renders; its state is [Sidebar.sidebar_provider]. *)
Definition SidebarProvider (arg : obj) : val :=
  let className := getp "className" arg in
  let style := getp "style" arg in
  let children := getp "children" arg in
  let props := rest ["defaultOpen"; "open"; "onOpenChange"; "className"; "style"; "children"] arg in
  el (Ext "SidebarContext.Provider") [] [
    el (Host "div") [
      At "data-slot" (XStr "sidebar-wrapper");
      At "style" (XObj (attrs [
        At "--sidebar-width" (XStr SIDEBAR_WIDTH); At "--sidebar-width-icon" (XStr SIDEBAR_WIDTH_ICON);
        Sp (spread_of style)]));
      At "className" (cn [
        XStr "group/sidebar-wrapper flex min-h-svh w-full has-data-[variant=inset]:bg-sidebar"; className]);
      Sp props] [children]].

Definition Sidebar (context : val) (arg : obj) : val :=
  let side := or_default (XStr "left") (getp "side" arg) in
  let variant := or_default (XStr "sidebar") (getp "variant" arg) in
  let collapsible := or_default (XStr "offcanvas") (getp "collapsible" arg) in
  let className := getp "className" arg in
  let children := getp "children" arg in
  let dir := getp "dir" arg in
  let props := rest ["side"; "variant"; "collapsible"; "className"; "children"; "dir"] arg in
  let isMobile := member "isMobile" context in
  let state := member "state" context in
  let openMobile := member "openMobile" context in
  let setOpenMobile := member "setOpenMobile" context in
  if is_true (js_is collapsible "none") then el (Host "aside") [
    At "data-slot" (XStr "sidebar");
    At "className" (cn [
      XStr "flex h-full w-(--sidebar-width) flex-col bg-sidebar text-sidebar-foreground"; className]);
    Sp props] [children]
  else if is_true isMobile then call Sheet [At "open" openMobile; At "onOpenChange" setOpenMobile; Sp props] [
    call SheetContent [
      At "dir" dir; At "data-sidebar" (XStr "sidebar"); At "data-slot" (XStr "sidebar");
      At "data-mobile" (XStr "true");
      At "className" (XStr "w-(--sidebar-width) bg-sidebar p-0 text-sidebar-foreground [&>button]:hidden");
      At "style" (XObj (attrs [At "--sidebar-width" (XStr SIDEBAR_WIDTH_MOBILE)])); At "side" side] [
        call SheetHeader [At "className" (XStr "sr-only")] [
          call SheetTitle [] [XStr "Sidebar"]; call SheetDescription [] [XStr "Displays the mobile sidebar."]];
        el (Host "div") [At "className" (XStr "flex h-full w-full flex-col")] [children]]]
  else el (Host "aside") [
    At "className" (XStr "group peer hidden text-sidebar-foreground md:block"); At "data-state" state;
    At "data-collapsible" (js_if (js_is state "collapsed") collapsible (XStr "")); At "data-variant" variant;
    At "data-side" side; At "data-slot" (XStr "sidebar")] [
      el (Host "div") [
        At "data-slot" (XStr "sidebar-gap");
        At "className" (cn [
          XStr "relative w-(--sidebar-width) bg-transparent transition-[width] duration-200 ease-linear";
          XStr "group-data-[collapsible=offcanvas]:w-0"; XStr "group-data-[side=right]:rotate-180";
          js_if (js_or (js_is variant "floating") (js_is variant "inset")) (XStr "group-data-[collapsible=icon]:w-[calc(var(--sidebar-width-icon)+(--spacing(4)))]") (XStr "group-data-[collapsible=icon]:w-(--sidebar-width-icon)")])] [];
      el (Host "div") [
        At "data-slot" (XStr "sidebar-container"); At "data-side" side;
        At "className" (cn [
          XStr "fixed inset-y-0 z-10 hidden h-svh w-(--sidebar-width) transition-[left,right,width] duration-200 ease-linear data-[side=left]:left-0 data-[side=left]:group-data-[collapsible=offcanvas]:left-[calc(var(--sidebar-width)*-1)] data-[side=right]:right-0 data-[side=right]:group-data-[collapsible=offcanvas]:right-[calc(var(--sidebar-width)*-1)] md:flex";
          js_if (js_or (js_is variant "floating") (js_is variant "inset")) (XStr "p-2 group-data-[collapsible=icon]:w-[calc(var(--sidebar-width-icon)+(--spacing(4))+2px)]") (XStr "group-data-[collapsible=icon]:w-(--sidebar-width-icon) group-data-[side=left]:border-r group-data-[side=right]:border-l");
          className]);
        Sp props] [
          el (Host "div") [
            At "data-sidebar" (XStr "sidebar"); At "data-slot" (XStr "sidebar-inner");
            At "className" (XStr "flex size-full flex-col bg-sidebar group-data-[variant=floating]:rounded-lg group-data-[variant=floating]:shadow-sm group-data-[variant=floating]:ring-1 group-data-[variant=floating]:ring-sidebar-border")] [
              children]]].

Definition SidebarTrigger (context : val) (arg : obj) : val :=
  let className := getp "className" arg in
  let onClick := getp "onClick" arg in
  let props := rest ["className"; "onClick"] arg in
  let toggleSidebar := member "toggleSidebar" context in
  call Button [
    At "data-sidebar" (XStr "trigger"); At "data-slot" (XStr "sidebar-trigger"); At "variant" (XStr "ghost");
    At "size" (XStr "icon-sm"); At "className" (cn [className]);
    At "onClick" (XFn "(event) => { onClick?.(event) toggleSidebar() }" [onClick; toggleSidebar]); Sp props] [
      el (Ext "PanelLeftIcon") [] []; el (Host "span") [At "className" (XStr "sr-only")] [XStr "Toggle Sidebar"]].

Definition SidebarRail (context : val) (arg : obj) : val :=
  let className := getp "className" arg in
  let props := rest ["className"] arg in
  let toggleSidebar := member "toggleSidebar" context in
  el (Host "button") [
    At "data-sidebar" (XStr "rail"); At "data-slot" (XStr "sidebar-rail");
    At "aria-label" (XStr "Toggle Sidebar"); At "tabIndex" (XInt (-1)); At "onClick" toggleSidebar;
    At "title" (XStr "Toggle Sidebar");
    At "className" (cn [
      XStr "absolute inset-y-0 z-20 hidden w-4 transition-all ease-linear group-data-[side=left]:-right-4 group-data-[side=right]:left-0 after:absolute after:inset-y-0 after:start-1/2 after:w-[2px] hover:after:bg-sidebar-border sm:flex ltr:-translate-x-1/2 rtl:-translate-x-1/2";
      XStr "in-data-[side=left]:cursor-w-resize in-data-[side=right]:cursor-e-resize";
      XStr "[[data-side=left][data-state=collapsed]_&]:cursor-e-resize [[data-side=right][data-state=collapsed]_&]:cursor-w-resize";
      XStr "group-data-[collapsible=offcanvas]:translate-x-0 group-data-[collapsible=offcanvas]:after:left-full hover:group-data-[collapsible=offcanvas]:bg-sidebar";
      XStr "[[data-side=left][data-collapsible=offcanvas]_&]:-right-2";
      XStr "[[data-side=right][data-collapsible=offcanvas]_&]:-left-2"; className]);
    Sp props] [].

Definition SidebarInset (arg : obj) : val :=
  let className := getp "className" arg in
  let props := rest ["className"] arg in
  el (Host "div") [
    At "data-slot" (XStr "sidebar-inset");
    At "className" (cn [
      XStr "relative flex min-w-0 w-full flex-1 flex-col bg-background md:peer-data-[variant=inset]:m-2 md:peer-data-[variant=inset]:ml-0 md:peer-data-[variant=inset]:rounded-xl md:peer-data-[variant=inset]:shadow-sm md:peer-data-[variant=inset]:peer-data-[state=collapsed]:ml-2";
      className]);
    Sp props] [].

Definition SidebarInput (arg : obj) : val :=
  let className := getp "className" arg in
  let props := rest ["className"] arg in
  call Input [
    At "data-slot" (XStr "sidebar-input"); At "data-sidebar" (XStr "input");
    At "className" (cn [XStr "h-8 w-full bg-background shadow-none"; className]); Sp props] [].

Definition SidebarHeader (arg : obj) : val :=
  let className := getp "className" arg in
  let props := rest ["className"] arg in
  el (Host "div") [
    At "data-slot" (XStr "sidebar-header"); At "data-sidebar" (XStr "header");
    At "className" (cn [XStr "flex flex-col gap-2 p-2"; className]); Sp props] [].

Definition SidebarFooter (arg : obj) : val :=
  let className := getp "className" arg in
  let props := rest ["className"] arg in
  el (Host "div") [
    At "data-slot" (XStr "sidebar-footer"); At "data-sidebar" (XStr "footer");
    At "className" (cn [XStr "flex flex-col gap-2 p-2"; className]); Sp props] [].

Definition SidebarSeparator (arg : obj) : val :=
  let className := getp "className" arg in
  let props := rest ["className"] arg in
  call Separator [
    At "data-slot" (XStr "sidebar-separator"); At "data-sidebar" (XStr "separator");
    At "className" (cn [XStr "mx-2 w-auto bg-sidebar-border"; className]); Sp props] [].

Definition SidebarContent (arg : obj) : val :=
  let className := getp "className" arg in
  let props := rest ["className"] arg in
  el (Host "div") [
    At "data-slot" (XStr "sidebar-content"); At "data-sidebar" (XStr "content");
    At "className" (cn [
      XStr "no-scrollbar flex min-h-0 flex-1 flex-col gap-0 overflow-auto group-data-[collapsible=icon]:overflow-hidden";
      className]);
    Sp props] [].

Definition SidebarGroup (arg : obj) : val :=
  let className := getp "className" arg in
  let props := rest ["className"] arg in
  el (Host "div") [
    At "data-slot" (XStr "sidebar-group"); At "data-sidebar" (XStr "group");
    At "className" (cn [XStr "relative flex w-full min-w-0 flex-col p-2"; className]); Sp props] [].

Definition SidebarGroupLabel (arg : obj) : val :=
  let className := getp "className" arg in
  let render := getp "render" arg in
  let props := rest ["className"; "render"] arg in
  useRender render "div" (mergeProps (attrs [
    At "className" (cn [
      XStr "flex h-8 shrink-0 items-center rounded-md px-2 text-xs font-medium text-sidebar-foreground/70 ring-sidebar-ring outline-hidden transition-[margin,opacity] duration-200 ease-linear group-data-[collapsible=icon]:-mt-8 group-data-[collapsible=icon]:opacity-0 focus-visible:ring-2 [&>svg]:size-4 [&>svg]:shrink-0";
      className])]) props) (attrs [At "slot" (XStr "sidebar-group-label"); At "sidebar" (XStr "group-label")]).

Definition SidebarGroupAction (arg : obj) : val :=
  let className := getp "className" arg in
  let render := getp "render" arg in
  let props := rest ["className"; "render"] arg in
  useRender render "button" (mergeProps (attrs [
    At "className" (cn [
      XStr "absolute top-3.5 right-3 flex aspect-square w-5 items-center justify-center rounded-md p-0 text-sidebar-foreground ring-sidebar-ring outline-hidden transition-transform group-data-[collapsible=icon]:hidden after:absolute after:-inset-2 hover:bg-sidebar-accent hover:text-sidebar-accent-foreground focus-visible:ring-2 md:after:hidden [&>svg]:size-4 [&>svg]:shrink-0";
      className])]) props) (attrs [At "slot" (XStr "sidebar-group-action"); At "sidebar" (XStr "group-action")]).

Definition SidebarGroupContent (arg : obj) : val :=
  let className := getp "className" arg in
  let props := rest ["className"] arg in
  el (Host "div") [
    At "data-slot" (XStr "sidebar-group-content"); At "data-sidebar" (XStr "group-content");
    At "className" (cn [XStr "w-full text-sm"; className]); Sp props] [].

Definition SidebarMenu (arg : obj) : val :=
  let className := getp "className" arg in
  let props := rest ["className"] arg in
  el (Host "ul") [
    At "data-slot" (XStr "sidebar-menu"); At "data-sidebar" (XStr "menu");
    At "className" (cn [XStr "flex w-full min-w-0 flex-col gap-0"; className]); Sp props] [].

Definition SidebarMenuItem (arg : obj) : val :=
  let className := getp "className" arg in
  let props := rest ["className"] arg in
  el (Host "li") [
    At "data-slot" (XStr "sidebar-menu-item"); At "data-sidebar" (XStr "menu-item");
    At "className" (cn [XStr "group/menu-item relative"; className]); Sp props] [].

Definition sidebarMenuButtonVariants (o : obj) : val :=
  XStr (cva "peer/menu-button group/menu-button flex w-full items-center gap-2 overflow-hidden rounded-md p-2 text-left text-sm ring-sidebar-ring outline-hidden transition-[width,height,padding] group-has-data-[sidebar=menu-action]/menu-item:pr-8 group-data-[collapsible=icon]:size-8! group-data-[collapsible=icon]:p-2! hover:bg-sidebar-accent hover:text-sidebar-accent-foreground focus-visible:ring-2 active:bg-sidebar-accent active:text-sidebar-accent-foreground disabled:pointer-events-none disabled:opacity-50 aria-disabled:pointer-events-none aria-disabled:opacity-50 data-open:hover:bg-sidebar-accent data-open:hover:text-sidebar-accent-foreground data-active:bg-sidebar-accent data-active:font-medium data-active:text-sidebar-accent-foreground [&_svg]:size-4 [&_svg]:shrink-0 [&>span:last-child]:truncate" (attrs [
    At "variants" (XObj (attrs [
      At "variant" (XObj (attrs [
        At "default" (XStr "hover:bg-sidebar-accent hover:text-sidebar-accent-foreground");
        At "outline" (XStr "bg-background shadow-[0_0_0_1px_var(--sidebar-border)] hover:bg-sidebar-accent hover:text-sidebar-accent-foreground hover:shadow-[0_0_0_1px_var(--sidebar-accent)]")]));
      At "size" (XObj (attrs [
        At "default" (XStr "h-8 text-sm"); At "sm" (XStr "h-7 text-xs");
        At "lg" (XStr "h-12 text-sm group-data-[collapsible=icon]:p-0!")]))]));
    At "defaultVariants" (XObj (attrs [At "variant" (XStr "default"); At "size" (XStr "default")]))]) o).

Definition SidebarMenuButton (context : val) (arg : obj) : val :=
  let render := getp "render" arg in
  let isActive := or_default (XBool false) (getp "isActive" arg) in
  let variant := or_default (XStr "default") (getp "variant" arg) in
  let size := or_default (XStr "default") (getp "size" arg) in
  let tooltip := getp "tooltip" arg in
  let className := getp "className" arg in
  let props := rest ["render"; "isActive"; "variant"; "size"; "tooltip"; "className"] arg in
  let isMobile := member "isMobile" context in
  let setOpenMobile := member "setOpenMobile" context in
  let state := member "state" context in
  let comp := useRender (js_if (js_not tooltip) render (el (Own "TooltipTrigger") [At "render" render] []))
    "button"
    (mergeProps (attrs [
      At "className" (cn [sidebarMenuButtonVariants (attrs [At "variant" variant; At "size" size]); className]);
      At "onClick" (XFn "() => { if (isMobile) setOpenMobile(false) }" [isMobile; setOpenMobile])]) props)
    (attrs [
      At "slot" (XStr "sidebar-menu-button"); At "sidebar" (XStr "menu-button"); At "size" size;
      At "active" isActive]) in
  if negb (is_true tooltip) then comp else
  let tooltip := match tooltip with XStr _ => XObj (attrs [At "children" tooltip]) | _ => tooltip end in
  call Tooltip [] [
    comp;
    call TooltipContent [
      At "side" (XStr "right"); At "align" (XStr "center");
      At "hidden" (js_or (js_not (js_is state "collapsed")) isMobile);
      Sp (spread_of tooltip)] []].

Definition SidebarMenuAction (arg : obj) : val :=
  let className := getp "className" arg in
  let render := getp "render" arg in
  let showOnHover := or_default (XBool false) (getp "showOnHover" arg) in
  let props := rest ["className"; "render"; "showOnHover"] arg in
  useRender render "button" (mergeProps (attrs [
    At "className" (cn [
      XStr "absolute top-1.5 right-1 flex aspect-square w-5 items-center justify-center rounded-md p-0 text-sidebar-foreground ring-sidebar-ring outline-hidden transition-transform group-data-[collapsible=icon]:hidden peer-hover/menu-button:text-sidebar-accent-foreground peer-data-[size=default]/menu-button:top-1.5 peer-data-[size=lg]/menu-button:top-2.5 peer-data-[size=sm]/menu-button:top-1 after:absolute after:-inset-2 hover:bg-sidebar-accent hover:text-sidebar-accent-foreground focus-visible:ring-2 md:after:hidden [&>svg]:size-4 [&>svg]:shrink-0";
      js_and showOnHover (XStr "group-focus-within/menu-item:opacity-100 group-hover/menu-item:opacity-100 peer-data-active/menu-button:text-sidebar-accent-foreground aria-expanded:opacity-100 md:opacity-0");
      className])]) props) (attrs [At "slot" (XStr "sidebar-menu-action"); At "sidebar" (XStr "menu-action")]).

Definition SidebarMenuBadge (arg : obj) : val :=
  let className := getp "className" arg in
  let props := rest ["className"] arg in
  el (Host "div") [
    At "data-slot" (XStr "sidebar-menu-badge"); At "data-sidebar" (XStr "menu-badge");
    At "className" (cn [
      XStr "pointer-events-none absolute right-1 flex h-5 min-w-5 items-center justify-center rounded-md px-1 text-xs font-medium text-sidebar-foreground tabular-nums select-none group-data-[collapsible=icon]:hidden peer-hover/menu-button:text-sidebar-accent-foreground peer-data-[size=default]/menu-button:top-1.5 peer-data-[size=lg]/menu-button:top-2.5 peer-data-[size=sm]/menu-button:top-1 peer-data-active/menu-button:text-sidebar-accent-foreground";
      className]);
    Sp props] [].

(** [width] is the state drawn at random when it is mounted. *)
Definition SidebarMenuSkeleton (width : val) (arg : obj) : val :=
  let className := getp "className" arg in
  let showIcon := or_default (XBool false) (getp "showIcon" arg) in
  let props := rest ["className"; "showIcon"] arg in
  el (Host "div") [
    At "data-slot" (XStr "sidebar-menu-skeleton"); At "data-sidebar" (XStr "menu-skeleton");
    At "className" (cn [XStr "flex h-8 items-center gap-2 rounded-md px-2"; className]); Sp props] [
    js_and showIcon (call Skeleton [
      At "className" (XStr "size-4 rounded-md"); At "data-sidebar" (XStr "menu-skeleton-icon")] []);
    call Skeleton [
      At "className" (XStr "h-4 max-w-(--skeleton-width) flex-1");
      At "data-sidebar" (XStr "menu-skeleton-text");
      At "style" (XObj (attrs [At "--skeleton-width" width]))] []].

Definition SidebarMenuSub (arg : obj) : val :=
  let className := getp "className" arg in
  let props := rest ["className"] arg in
  el (Host "ul") [
    At "data-slot" (XStr "sidebar-menu-sub"); At "data-sidebar" (XStr "menu-sub");
    At "className" (cn [
      XStr "mx-3.5 flex min-w-0 translate-x-px flex-col gap-1 border-l border-sidebar-border px-2.5 py-0.5 group-data-[collapsible=icon]:hidden";
      className]);
    Sp props] [].

Definition SidebarMenuSubItem (arg : obj) : val :=
  let className := getp "className" arg in
  let props := rest ["className"] arg in
  el (Host "li") [
    At "data-slot" (XStr "sidebar-menu-sub-item"); At "data-sidebar" (XStr "menu-sub-item");
    At "className" (cn [XStr "group/menu-sub-item relative"; className]); Sp props] [].

Definition SidebarMenuSubButton (arg : obj) : val :=
  let render := getp "render" arg in
  let size := or_default (XStr "md") (getp "size" arg) in
  let isActive := or_default (XBool false) (getp "isActive" arg) in
  let className := getp "className" arg in
  let props := rest ["render"; "size"; "isActive"; "className"] arg in
  useRender render "a" (mergeProps (attrs [
    At "className" (cn [
      XStr "flex h-7 min-w-0 -translate-x-px items-center gap-2 overflow-hidden rounded-md px-2 text-sidebar-foreground ring-sidebar-ring outline-hidden group-data-[collapsible=icon]:hidden hover:bg-sidebar-accent hover:text-sidebar-accent-foreground focus-visible:ring-2 active:bg-sidebar-accent active:text-sidebar-accent-foreground disabled:pointer-events-none disabled:opacity-50 aria-disabled:pointer-events-none aria-disabled:opacity-50 data-[size=md]:text-sm data-[size=sm]:text-xs data-active:bg-sidebar-accent data-active:text-sidebar-accent-foreground [&>span:last-child]:truncate [&>svg]:size-4 [&>svg]:shrink-0 [&>svg]:text-sidebar-accent-foreground";
      className])]) props) (attrs [
    At "slot" (XStr "sidebar-menu-sub-button"); At "sidebar" (XStr "menu-sub-button"); At "size" size;
    At "active" isActive]).

End sidebar_parts.
