(* ===== verification/ProtoKit.v ===== *)
(** * The kit of the prototype

    [src/planning/tenancit/proto/components/ui]: the components of the design system as functions from
    the object of their properties to the element [htm] and [h] make of their templates.  [ProtoWidgets]
    has the ones that compute, [ProtoContract] states what they have in common. *)
From Stdlib Require Import ZArith Lia List.
From stdpp Require Import base list.
From S2P Require Import Prelude Numbers JsonRead Jsx.
#[local] Open Scope Z_scope.


(** *** [utils.js] *)

(** The names given, joined: what is falsy is left out. *)
Definition cn (inputs : list val) : val := XStr (join " " (map to_text (filter (λ v, is_true v = true) inputs))).

(** *** [accordion.js] *)

Definition Accordion (arg : obj) : val :=
  let className := or_default (XStr "") (getp "className" arg) in
  let children := getp "children" arg in
  let props := rest ["className"; "children"] arg in
  el (Host "div") [
    At "data-slot" (XStr "accordion"); At "class" (cn [XStr "divide-y divide-border border-y"; className]);
    Sp props] [children].

Definition AccordionItem (arg : obj) : val :=
  let title := getp "title" arg in
  let open := or_default (XBool false) (getp "open" arg) in
  let className := or_default (XStr "") (getp "className" arg) in
  let children := getp "children" arg in
  let props := rest ["title"; "open"; "className"; "children"] arg in
  el (Host "details") [
    At "data-slot" (XStr "accordion-item"); At "open" open; At "class" (cn [XStr "group"; className]); Sp props] [
      el (Host "summary") [
        At "data-slot" (XStr "accordion-trigger");
        At "class" (XStr "flex items-center justify-between py-4 text-sm font-medium cursor-pointer list-none hover:underline [&::-webkit-details-marker]:hidden")] [
          title;
          el (Host "iconify-icon") [
            At "icon" (XStr "lucide:chevron-down"); At "width" (XStr "16");
            At "class" (XStr "transition-transform group-open:rotate-180 text-muted-foreground")] []];
      el (Host "div") [
        At "data-slot" (XStr "accordion-content"); At "class" (XStr "pb-4 text-sm text-muted-foreground")] [
          children]].

(** *** [alert-dialog.js] *)

Definition AlertDialog (arg : obj) : val :=
  let id := getp "id" arg in
  let className := or_default (XStr "") (getp "className" arg) in
  let children := getp "children" arg in
  let props := rest ["id"; "className"; "children"] arg in
  el (Host "dialog") [
    At "id" id; At "role" (XStr "alertdialog"); At "data-slot" (XStr "alert-dialog");
    At "class" (cn [
      XStr "bg-transparent p-0 m-auto backdrop:bg-black/50 backdrop:backdrop-blur-sm open:flex items-center justify-center";
      className]);
    Sp props] [children].

Definition AlertDialogContent (arg : obj) : val :=
  let className := or_default (XStr "") (getp "className" arg) in
  let children := getp "children" arg in
  let props := rest ["className"; "children"] arg in
  el (Host "div") [
    At "data-slot" (XStr "alert-dialog-content");
    At "class" (cn [
      XStr "bg-background text-foreground rounded-lg border shadow-lg p-6 w-full max-w-md grid gap-4"; className]);
    Sp props] [children].

Definition AlertDialogHeader (arg : obj) : val :=
  let className := or_default (XStr "") (getp "className" arg) in
  let children := getp "children" arg in
  let props := rest ["className"; "children"] arg in
  el (Host "div") [
    At "data-slot" (XStr "alert-dialog-header"); At "class" (cn [XStr "flex flex-col gap-1.5"; className]);
    Sp props] [children].

Definition AlertDialogTitle (arg : obj) : val :=
  let className := or_default (XStr "") (getp "className" arg) in
  let children := getp "children" arg in
  let props := rest ["className"; "children"] arg in
  el (Host "h2") [
    At "data-slot" (XStr "alert-dialog-title"); At "class" (cn [XStr "text-lg font-semibold"; className]);
    Sp props] [children].

Definition AlertDialogDescription (arg : obj) : val :=
  let className := or_default (XStr "") (getp "className" arg) in
  let children := getp "children" arg in
  let props := rest ["className"; "children"] arg in
  el (Host "p") [
    At "data-slot" (XStr "alert-dialog-description");
    At "class" (cn [XStr "text-muted-foreground text-sm"; className]); Sp props] [children].

Definition AlertDialogFooter (arg : obj) : val :=
  let className := or_default (XStr "") (getp "className" arg) in
  let children := getp "children" arg in
  let props := rest ["className"; "children"] arg in
  el (Host "div") [
    At "data-slot" (XStr "alert-dialog-footer");
    At "class" (cn [XStr "flex flex-col-reverse sm:flex-row sm:justify-end gap-2"; className]); Sp props] [
      children].

(** *** [alert.js] *)

Definition ALERT_BASE : val := XStr "relative w-full rounded-lg border px-4 py-3 text-sm grid has-[>svg]:grid-cols-[calc(var(--spacing)*4)_1fr] has-[>iconify-icon]:grid-cols-[calc(var(--spacing)*4)_1fr] grid-cols-[0_1fr] has-[>svg]:gap-x-3 has-[>iconify-icon]:gap-x-3 gap-y-0.5 items-start [&>svg]:size-4 [&>svg]:translate-y-0.5 [&>svg]:text-current [&>iconify-icon]:size-4 [&>iconify-icon]:translate-y-0.5 [&>iconify-icon]:text-current".

Definition ALERT_VARIANTS : val := XObj (attrs [
  At "default" (XStr "bg-card text-card-foreground");
  At "destructive" (XStr "text-destructive bg-card [&>svg]:text-current *:data-[slot=alert-description]:text-destructive/90")]).

Definition Alert (arg : obj) : val :=
  let variant := or_default (XStr "default") (getp "variant" arg) in
  let className := or_default (XStr "") (getp "className" arg) in
  let children := getp "children" arg in
  let props := rest ["variant"; "className"; "children"] arg in
  el (Host "div") [
    At "data-slot" (XStr "alert"); At "role" (XStr "alert");
    At "class" (cn [ALERT_BASE; index ALERT_VARIANTS variant; className]); Sp props] [children].

Definition AlertTitle (arg : obj) : val :=
  let className := or_default (XStr "") (getp "className" arg) in
  let children := getp "children" arg in
  let props := rest ["className"; "children"] arg in
  el (Host "div") [
    At "data-slot" (XStr "alert-title");
    At "class" (cn [XStr "col-start-2 line-clamp-1 min-h-4 font-medium tracking-tight"; className]); Sp props] [
      children].

Definition AlertDescription (arg : obj) : val :=
  let className := or_default (XStr "") (getp "className" arg) in
  let children := getp "children" arg in
  let props := rest ["className"; "children"] arg in
  el (Host "div") [
    At "data-slot" (XStr "alert-description");
    At "class" (cn [
      XStr "text-muted-foreground col-start-2 grid justify-items-start gap-1 text-sm [&_p]:leading-relaxed";
      className]);
    Sp props] [children].

(** *** [aspect-ratio.js] *)

Definition AspectRatio (arg : obj) : val :=
  let ratio := or_default (XInt 1) (getp "ratio" arg) in
  let className := or_default (XStr "") (getp "className" arg) in
  let children := getp "children" arg in
  let props := rest ["ratio"; "className"; "children"] arg in
  el (Host "div") [
    At "data-slot" (XStr "aspect-ratio"); At "style" (XObj (attrs [At "--ratio" ratio]));
    At "class" (cn [XStr "relative aspect-(--ratio)"; className]); Sp props] [children].

(** *** [avatar.js] *)

Definition Avatar (arg : obj) : val :=
  let className := or_default (XStr "") (getp "className" arg) in
  let children := getp "children" arg in
  let props := rest ["className"; "children"] arg in
  el (Host "span") [
    At "data-slot" (XStr "avatar");
    At "class" (cn [XStr "relative flex size-8 shrink-0 overflow-hidden rounded-full"; className]); Sp props] [
      children].

Definition AvatarFallback (arg : obj) : val :=
  let className := or_default (XStr "") (getp "className" arg) in
  let children := getp "children" arg in
  let props := rest ["className"; "children"] arg in
  el (Host "span") [
    At "data-slot" (XStr "avatar-fallback");
    At "class" (cn [XStr "bg-muted flex size-full items-center justify-center rounded-full"; className]);
    Sp props] [children].

(** *** [badge.js] *)

Definition BADGE_BASE : val := XStr "inline-flex items-center justify-center rounded-full border px-2 py-0.5 text-xs font-medium w-fit whitespace-nowrap shrink-0 [&>svg]:size-3 gap-1 [&>svg]:pointer-events-none transition-[color,box-shadow] overflow-hidden".

Definition BADGE_VARIANTS : val := XObj (attrs [
  At "default" (XStr "border-transparent bg-primary text-primary-foreground [a&]:hover:bg-primary/90");
  At "secondary" (XStr "border-transparent bg-secondary text-secondary-foreground [a&]:hover:bg-secondary/90");
  At "destructive" (XStr "border-transparent bg-destructive text-white [a&]:hover:bg-destructive/90");
  At "outline" (XStr "text-foreground [a&]:hover:bg-accent [a&]:hover:text-accent-foreground")]).

Definition Badge (arg : obj) : val :=
  let variant := or_default (XStr "default") (getp "variant" arg) in
  let className := or_default (XStr "") (getp "className" arg) in
  let children := getp "children" arg in
  let props := rest ["variant"; "className"; "children"] arg in
  el (Host "span") [
    At "data-slot" (XStr "badge"); At "class" (cn [BADGE_BASE; index BADGE_VARIANTS variant; className]);
    Sp props] [children].

(** *** [breadcrumb.js] *)

Definition Breadcrumb (arg : obj) : val :=
  let children := getp "children" arg in
  let props := rest ["children"] arg in
  el (Host "nav") [At "aria-label" (XStr "breadcrumb"); At "data-slot" (XStr "breadcrumb"); Sp props] [children].

Definition BreadcrumbList (arg : obj) : val :=
  let className := or_default (XStr "") (getp "className" arg) in
  let children := getp "children" arg in
  let props := rest ["className"; "children"] arg in
  el (Host "ol") [
    At "data-slot" (XStr "breadcrumb-list");
    At "class" (cn [
      XStr "text-muted-foreground flex flex-wrap items-center gap-1.5 text-sm wrap-break-word sm:gap-2.5";
      className]);
    Sp props] [children].

Definition BreadcrumbItem (arg : obj) : val :=
  let className := or_default (XStr "") (getp "className" arg) in
  let children := getp "children" arg in
  let props := rest ["className"; "children"] arg in
  el (Host "li") [
    At "data-slot" (XStr "breadcrumb-item");
    At "class" (cn [XStr "inline-flex items-center gap-1.5"; className]); Sp props] [children].

Definition BreadcrumbLink (arg : obj) : val :=
  let className := or_default (XStr "") (getp "className" arg) in
  let children := getp "children" arg in
  let props := rest ["className"; "children"] arg in
  el (Host "a") [
    At "data-slot" (XStr "breadcrumb-link");
    At "class" (cn [XStr "hover:text-foreground transition-colors"; className]); Sp props] [children].

Definition BreadcrumbPage (arg : obj) : val :=
  let className := or_default (XStr "") (getp "className" arg) in
  let children := getp "children" arg in
  let props := rest ["className"; "children"] arg in
  el (Host "span") [
    At "data-slot" (XStr "breadcrumb-page"); At "role" (XStr "link"); At "aria-disabled" (XStr "true");
    At "aria-current" (XStr "page"); At "class" (cn [XStr "text-foreground font-normal"; className]); Sp props] [
      children].

Definition BreadcrumbSeparator (arg : obj) : val :=
  let className := or_default (XStr "") (getp "className" arg) in
  let children := getp "children" arg in
  el (Host "li") [
    At "data-slot" (XStr "breadcrumb-separator"); At "role" (XStr "presentation");
    At "aria-hidden" (XStr "true"); At "class" (cn [XStr "[&>svg]:size-3.5"; className])] [
      js_nullish children (el (Host "iconify-icon") [At "icon" (XStr "lucide:chevron-right")] [])].

(** *** [button-group.js] *)

Definition ORIENTATION : val := XObj (attrs [
  At "horizontal" (XStr "*:data-slot:rounded-r-none [&>[data-slot]:not(:has(~[data-slot]))]:rounded-r-md! [&>[data-slot]~[data-slot]]:rounded-l-none [&>[data-slot]~[data-slot]]:border-l-0");
  At "vertical" (XStr "flex-col *:data-slot:rounded-b-none [&>[data-slot]:not(:has(~[data-slot]))]:rounded-b-md! [&>[data-slot]~[data-slot]]:rounded-t-none [&>[data-slot]~[data-slot]]:border-t-0")]).

Definition ButtonGroup (arg : obj) : val :=
  let orientation := or_default (XStr "horizontal") (getp "orientation" arg) in
  let className := or_default (XStr "") (getp "className" arg) in
  let children := getp "children" arg in
  let props := rest ["orientation"; "className"; "children"] arg in
  el (Host "div") [
    At "role" (XStr "group"); At "data-slot" (XStr "button-group"); At "data-orientation" orientation;
    At "class" (cn [
      XStr "flex w-fit items-stretch *:focus-visible:relative *:focus-visible:z-10";
      index ORIENTATION orientation; className]);
    Sp props] [children].

Definition ButtonGroupText (arg : obj) : val :=
  let className := or_default (XStr "") (getp "className" arg) in
  let children := getp "children" arg in
  let props := rest ["className"; "children"] arg in
  el (Host "div") [
    At "data-slot" (XStr "button-group-text");
    At "class" (cn [
      XStr "flex items-center gap-2 rounded-md border bg-muted px-2.5 text-sm font-medium shadow-xs"; className]);
    Sp props] [children].

Definition ButtonGroupSeparator (arg : obj) : val :=
  let orientation := or_default (XStr "vertical") (getp "orientation" arg) in
  let className := or_default (XStr "") (getp "className" arg) in
  el (Host "div") [
    At "data-slot" (XStr "button-group-separator"); At "data-orientation" orientation;
    At "class" (cn [
      XStr "shrink-0 self-stretch bg-input data-[orientation=horizontal]:h-px data-[orientation=vertical]:w-px";
      className])] [].

(** *** [button.js] *)

Definition Button (arg : obj) : val :=
  let variant := or_default (XStr "default") (getp "variant" arg) in
  let size := or_default (XStr "default") (getp "size" arg) in
  let className := or_default (XStr "") (getp "className" arg) in
  let disabled := getp "disabled" arg in
  let children := getp "children" arg in
  let props := rest ["variant"; "size"; "className"; "disabled"; "children"] arg in
  el (Host "button") [
    At "data-slot" (XStr "button"); At "data-variant" variant; At "data-size" size; At "class" (cn [className]);
    At "disabled" disabled; Sp props] [children].

(** *** [card.js] *)

Definition Card (arg : obj) : val :=
  let className := or_default (XStr "") (getp "className" arg) in
  let children := getp "children" arg in
  let props := rest ["className"; "children"] arg in
  el (Host "div") [
    At "data-slot" (XStr "card");
    At "class" (cn [XStr "bg-card text-card-foreground flex flex-col gap-4 rounded-xl border py-4"; className]);
    Sp props] [children].

Definition CardHeader (arg : obj) : val :=
  let className := or_default (XStr "") (getp "className" arg) in
  let children := getp "children" arg in
  let props := rest ["className"; "children"] arg in
  el (Host "div") [
    At "data-slot" (XStr "card-header");
    At "class" (cn [
      XStr "@container/card-header grid auto-rows-min grid-rows-[auto_auto] items-start gap-2 px-4 has-data-[slot=card-action]:grid-cols-[1fr_auto] [.border-b]:pb-4";
      className]);
    Sp props] [children].

Definition CardTitle (arg : obj) : val :=
  let className := or_default (XStr "") (getp "className" arg) in
  let children := getp "children" arg in
  let props := rest ["className"; "children"] arg in
  el (Host "div") [
    At "data-slot" (XStr "card-title"); At "class" (cn [XStr "leading-none font-semibold"; className]); Sp props] [
      children].

Definition CardDescription (arg : obj) : val :=
  let className := or_default (XStr "") (getp "className" arg) in
  let children := getp "children" arg in
  let props := rest ["className"; "children"] arg in
  el (Host "div") [
    At "data-slot" (XStr "card-description"); At "class" (cn [XStr "text-muted-foreground text-sm"; className]);
    Sp props] [children].

Definition CardAction (arg : obj) : val :=
  let className := or_default (XStr "") (getp "className" arg) in
  let children := getp "children" arg in
  let props := rest ["className"; "children"] arg in
  el (Host "div") [
    At "data-slot" (XStr "card-action");
    At "class" (cn [XStr "col-start-2 row-span-2 row-start-1 self-start justify-self-end"; className]); Sp props] [
      children].

Definition CardContent (arg : obj) : val :=
  let className := or_default (XStr "") (getp "className" arg) in
  let children := getp "children" arg in
  let props := rest ["className"; "children"] arg in
  el (Host "div") [At "data-slot" (XStr "card-content"); At "class" (cn [XStr "px-4"; className]); Sp props] [
    children].

Definition CardFooter (arg : obj) : val :=
  let className := or_default (XStr "") (getp "className" arg) in
  let children := getp "children" arg in
  let props := rest ["className"; "children"] arg in
  el (Host "div") [
    At "data-slot" (XStr "card-footer");
    At "class" (cn [XStr "flex items-center px-4 [.border-t]:pt-4"; className]); Sp props] [children].

(** *** [carousel.js] *)

Definition Carousel (arg : obj) : val :=
  let orientation := or_default (XStr "horizontal") (getp "orientation" arg) in
  let className := or_default (XStr "") (getp "className" arg) in
  let children := getp "children" arg in
  let props := rest ["orientation"; "className"; "children"] arg in
  el (Host "div") [
    At "data-slot" (XStr "carousel"); At "data-orientation" orientation;
    At "class" (cn [XStr "relative"; className]); Sp props] [children].

Definition CarouselContent (arg : obj) : val :=
  let orientation := or_default (XStr "horizontal") (getp "orientation" arg) in
  let className := or_default (XStr "") (getp "className" arg) in
  let children := getp "children" arg in
  let props := rest ["orientation"; "className"; "children"] arg in
  el (Host "div") [
    At "data-slot" (XStr "carousel-content");
    At "class" (cn [
      XStr "flex snap-x snap-mandatory overflow-x-auto scrollbar-hidden gap-4 -mx-4 px-4";
      js_and (js_is orientation "vertical") (XStr "snap-y flex-col snap-mandatory overflow-y-auto"); className]);
    Sp props] [children].

Definition CarouselItem (arg : obj) : val :=
  let className := or_default (XStr "") (getp "className" arg) in
  let children := getp "children" arg in
  let props := rest ["className"; "children"] arg in
  el (Host "div") [
    At "data-slot" (XStr "carousel-item");
    At "class" (cn [XStr "min-w-0 shrink-0 grow-0 basis-full snap-start"; className]); Sp props] [children].

Definition CarouselPrevious (arg : obj) : val :=
  let className := or_default (XStr "") (getp "className" arg) in
  let props := rest ["className"] arg in
  el (Host "button") [
    At "type" (XStr "button"); At "data-slot" (XStr "carousel-previous");
    At "class" (cn [
      XStr "absolute size-8 left-2 top-1/2 -translate-y-1/2 inline-flex items-center justify-center rounded-full border bg-background shadow-xs hover:bg-accent";
      className]);
    Sp props] [el (Host "iconify-icon") [At "icon" (XStr "lucide:chevron-left"); At "width" (XStr "16")] []].

Definition CarouselNext (arg : obj) : val :=
  let className := or_default (XStr "") (getp "className" arg) in
  let props := rest ["className"] arg in
  el (Host "button") [
    At "type" (XStr "button"); At "data-slot" (XStr "carousel-next");
    At "class" (cn [
      XStr "absolute size-8 right-2 top-1/2 -translate-y-1/2 inline-flex items-center justify-center rounded-full border bg-background shadow-xs hover:bg-accent";
      className]);
    Sp props] [el (Host "iconify-icon") [At "icon" (XStr "lucide:chevron-right"); At "width" (XStr "16")] []].

(** *** [chart.js] *)

Definition ChartContainer (arg : obj) : val :=
  let className := or_default (XStr "") (getp "className" arg) in
  let children := getp "children" arg in
  let props := rest ["className"; "children"] arg in
  el (Host "div") [
    At "data-slot" (XStr "chart-container"); At "class" (cn [XStr "aspect-video w-full"; className]); Sp props] [
      children].

(** *** [checkbox.js] *)

Definition Checkbox (arg : obj) : val :=
  let className := or_default (XStr "") (getp "className" arg) in
  let props := rest ["className"] arg in
  el (Host "input") [
    At "type" (XStr "checkbox"); At "data-slot" (XStr "checkbox");
    At "class" (cn [
      XStr "peer size-4 shrink-0 rounded-[4px] border border-input shadow-xs";
      XStr "appearance-none bg-background"; XStr "checked:bg-primary checked:border-primary";
      XStr "focus-visible:ring-ring/50 focus-visible:ring-[3px] outline-none";
      XStr "disabled:cursor-not-allowed disabled:opacity-50"; className]);
    Sp props] [].

(** *** [collapsible.js] *)

Definition Collapsible (arg : obj) : val :=
  let open := or_default (XBool false) (getp "open" arg) in
  let className := or_default (XStr "") (getp "className" arg) in
  let children := getp "children" arg in
  let props := rest ["open"; "className"; "children"] arg in
  el (Host "details") [
    At "data-slot" (XStr "collapsible"); At "open" open; At "class" (cn [XStr "group"; className]); Sp props] [
      children].

Definition CollapsibleTrigger (arg : obj) : val :=
  let className := or_default (XStr "") (getp "className" arg) in
  let children := getp "children" arg in
  let props := rest ["className"; "children"] arg in
  el (Host "summary") [
    At "data-slot" (XStr "collapsible-trigger");
    At "class" (cn [XStr "list-none cursor-pointer [&::-webkit-details-marker]:hidden"; className]); Sp props] [
      children].

Definition CollapsibleContent (arg : obj) : val :=
  let className := or_default (XStr "") (getp "className" arg) in
  let children := getp "children" arg in
  let props := rest ["className"; "children"] arg in
  el (Host "div") [
    At "data-slot" (XStr "collapsible-content"); At "class" (cn [XStr "overflow-hidden"; className]); Sp props] [
      children].

(** *** [command.js] *)

Definition Command (arg : obj) : val :=
  let className := or_default (XStr "") (getp "className" arg) in
  let children := getp "children" arg in
  let props := rest ["className"; "children"] arg in
  el (Host "div") [
    At "data-slot" (XStr "command");
    At "class" (cn [
      XStr "flex h-full w-full flex-col overflow-hidden rounded-md bg-popover text-popover-foreground";
      className]);
    Sp props] [children].

Definition CommandInput (arg : obj) : val :=
  let className := or_default (XStr "") (getp "className" arg) in
  let placeholder := or_default (XStr "Type a command or search...") (getp "placeholder" arg) in
  let props := rest ["className"; "placeholder"] arg in
  el (Host "div") [
    At "class" (XStr "flex items-center gap-2 border-b px-3"); At "data-slot" (XStr "command-input-wrapper")] [
      el (Host "iconify-icon") [
        At "icon" (XStr "lucide:search"); At "width" (XStr "16"); At "class" (XStr "text-muted-foreground")] [];
      el (Host "input") [
        At "data-slot" (XStr "command-input"); At "placeholder" placeholder;
        At "class" (cn [
          XStr "flex h-10 w-full rounded-md bg-transparent py-3 text-sm outline-none placeholder:text-muted-foreground";
          className]);
        Sp props] []].

Definition CommandList (arg : obj) : val :=
  let className := or_default (XStr "") (getp "className" arg) in
  let children := getp "children" arg in
  let props := rest ["className"; "children"] arg in
  el (Host "div") [
    At "data-slot" (XStr "command-list");
    At "class" (cn [XStr "max-h-[300px] overflow-y-auto overflow-x-hidden p-1"; className]); Sp props] [
      children].

Definition CommandEmpty (arg : obj) : val :=
  let className := or_default (XStr "") (getp "className" arg) in
  let children := getp "children" arg in
  let props := rest ["className"; "children"] arg in
  el (Host "div") [
    At "data-slot" (XStr "command-empty");
    At "class" (cn [XStr "py-6 text-center text-sm text-muted-foreground"; className]); Sp props] [
      js_nullish children (XStr "No results found.")].

Definition CommandGroup (arg : obj) : val :=
  let heading := getp "heading" arg in
  let className := or_default (XStr "") (getp "className" arg) in
  let children := getp "children" arg in
  let props := rest ["heading"; "className"; "children"] arg in
  el (Host "div") [
    At "data-slot" (XStr "command-group");
    At "class" (cn [XStr "overflow-hidden p-1 text-foreground"; className]); Sp props] [
      js_and heading (el (Host "div") [
        At "class" (XStr "px-2 py-1.5 text-xs font-medium text-muted-foreground")] [heading]);
      children].

Definition CommandItem (arg : obj) : val :=
  let className := or_default (XStr "") (getp "className" arg) in
  let children := getp "children" arg in
  let props := rest ["className"; "children"] arg in
  el (Host "div") [
    At "data-slot" (XStr "command-item");
    At "class" (cn [
      XStr "relative flex cursor-pointer select-none items-center gap-2 rounded-sm px-2 py-1.5 text-sm outline-none hover:bg-accent hover:text-accent-foreground";
      className]);
    Sp props] [children].

Definition CommandSeparator (arg : obj) : val :=
  let className := or_default (XStr "") (getp "className" arg) in
  el (Host "div") [
    At "data-slot" (XStr "command-separator"); At "class" (cn [XStr "-mx-1 h-px bg-border"; className])] [].

Definition CommandShortcut (arg : obj) : val :=
  let className := or_default (XStr "") (getp "className" arg) in
  let children := getp "children" arg in
  let props := rest ["className"; "children"] arg in
  el (Host "span") [
    At "data-slot" (XStr "command-shortcut");
    At "class" (cn [XStr "ml-auto text-xs tracking-widest text-muted-foreground"; className]); Sp props] [
      children].

(** *** [context-menu.js] *)

Definition ContextMenuTrigger (arg : obj) : val :=
  let onContextMenu := getp "onContextMenu" arg in
  let className := or_default (XStr "") (getp "className" arg) in
  let children := getp "children" arg in
  let props := rest ["onContextMenu"; "className"; "children"] arg in
  el (Host "div") [
    At "data-slot" (XStr "context-menu-trigger"); At "onContextMenu" onContextMenu;
    At "class" (cn [XStr "inline-block"; className]); Sp props] [children].

Definition ContextMenuContent (arg : obj) : val :=
  let pos := getp "pos" arg in
  let onClose := getp "onClose" arg in
  let className := or_default (XStr "") (getp "className" arg) in
  let children := getp "children" arg in
  let props := rest ["pos"; "onClose"; "className"; "children"] arg in
  if is_true (js_not pos) then XNull
  else XArr [
    el (Host "div") [
      At "data-slot" (XStr "context-menu-content");
      At "style" (XObj (attrs [
        At "position" (XStr "fixed"); At "top" (XStr (to_text (member "y" pos) ++ "px"));
        At "left" (XStr (to_text (member "x" pos) ++ "px")); At "zIndex" (XInt 50)]));
      At "class" (cn [
        XStr "min-w-[12rem] rounded-md border bg-popover text-popover-foreground shadow-md p-1"; className]);
      At "onClick" onClose; Sp props] [children];
    el (Host "div") [
      At "class" (XStr "fixed inset-0 z-40"); At "onClick" onClose;
      At "onContextMenu" (XFn "(e) => { e.preventDefault(); onClose(); }" [onClose])] []].

Definition ContextMenuItem (arg : obj) : val :=
  let className := or_default (XStr "") (getp "className" arg) in
  let children := getp "children" arg in
  let props := rest ["className"; "children"] arg in
  el (Host "button") [
    At "type" (XStr "button"); At "data-slot" (XStr "context-menu-item");
    At "class" (cn [
      XStr "w-full text-left flex items-center gap-2 rounded-sm px-2 py-1.5 text-sm outline-none cursor-pointer hover:bg-accent hover:text-accent-foreground";
      className]);
    Sp props] [children].

Definition ContextMenuLabel (arg : obj) : val :=
  let className := or_default (XStr "") (getp "className" arg) in
  let children := getp "children" arg in
  let props := rest ["className"; "children"] arg in
  el (Host "div") [
    At "data-slot" (XStr "context-menu-label");
    At "class" (cn [XStr "px-2 py-1.5 text-sm font-semibold"; className]); Sp props] [children].

Definition ContextMenuSeparator (arg : obj) : val :=
  let className := or_default (XStr "") (getp "className" arg) in
  el (Host "div") [
    At "data-slot" (XStr "context-menu-separator");
    At "class" (cn [XStr "-mx-1 my-1 h-px bg-border"; className])] [].

(** *** [dialog.js] *)

Definition Dialog (arg : obj) : val :=
  let id := getp "id" arg in
  let className := or_default (XStr "") (getp "className" arg) in
  let dismissible := or_default (XBool true) (getp "dismissible" arg) in
  let children := getp "children" arg in
  let props := rest ["id"; "className"; "dismissible"; "children"] arg in
  let handleClick := XFn "(e) => { if (dismissible && e.target === e.currentTarget) e.currentTarget.close(); }" [
    dismissible] in
  el (Host "dialog") [
    At "id" id; At "data-slot" (XStr "dialog"); At "onClick" handleClick;
    At "class" (cn [
      XStr "bg-transparent p-0 m-auto backdrop:bg-black/50 backdrop:backdrop-blur-sm";
      XStr "open:flex items-center justify-center"; className]);
    Sp props] [children].

Definition DialogContent (arg : obj) : val :=
  let className := or_default (XStr "") (getp "className" arg) in
  let children := getp "children" arg in
  let props := rest ["className"; "children"] arg in
  el (Host "div") [
    At "data-slot" (XStr "dialog-content");
    At "class" (cn [
      XStr "bg-background text-foreground rounded-lg border shadow-lg p-6 w-full max-w-md grid gap-4"; className]);
    Sp props] [children].

Definition DialogHeader (arg : obj) : val :=
  let className := or_default (XStr "") (getp "className" arg) in
  let children := getp "children" arg in
  let props := rest ["className"; "children"] arg in
  el (Host "div") [
    At "data-slot" (XStr "dialog-header"); At "class" (cn [XStr "flex flex-col gap-1.5 text-left"; className]);
    Sp props] [children].

Definition DialogTitle (arg : obj) : val :=
  let className := or_default (XStr "") (getp "className" arg) in
  let children := getp "children" arg in
  let props := rest ["className"; "children"] arg in
  el (Host "h2") [
    At "data-slot" (XStr "dialog-title"); At "class" (cn [XStr "text-lg font-semibold leading-none"; className]);
    Sp props] [children].

Definition DialogDescription (arg : obj) : val :=
  let className := or_default (XStr "") (getp "className" arg) in
  let children := getp "children" arg in
  let props := rest ["className"; "children"] arg in
  el (Host "p") [
    At "data-slot" (XStr "dialog-description");
    At "class" (cn [XStr "text-muted-foreground text-sm"; className]); Sp props] [children].

Definition DialogFooter (arg : obj) : val :=
  let className := or_default (XStr "") (getp "className" arg) in
  let children := getp "children" arg in
  let props := rest ["className"; "children"] arg in
  el (Host "div") [
    At "data-slot" (XStr "dialog-footer");
    At "class" (cn [XStr "flex flex-col-reverse sm:flex-row sm:justify-end gap-2"; className]); Sp props] [
      children].

(** *** [drawer.js] *)

Definition SIDE_CLASS : val := XObj (attrs [
  At "top" (XStr "top-0 left-0 right-0 max-h-[85vh] rounded-b-lg");
  At "bottom" (XStr "bottom-0 left-0 right-0 max-h-[85vh] rounded-t-lg");
  At "left" (XStr "top-0 bottom-0 left-0 h-full w-3/4 max-w-sm rounded-r-lg");
  At "right" (XStr "top-0 bottom-0 right-0 h-full w-3/4 max-w-sm rounded-l-lg")]).

Definition SIDE_STYLE : val := XObj (attrs [
  At "top" (XObj (attrs [
    At "inset" (XStr "unset"); At "top" (XInt 0); At "left" (XInt 0); At "right" (XInt 0);
    At "maxHeight" (XStr "85vh")]));
  At "bottom" (XObj (attrs [
    At "inset" (XStr "unset"); At "bottom" (XInt 0); At "left" (XInt 0); At "right" (XInt 0);
    At "maxHeight" (XStr "85vh")]));
  At "left" (XObj (attrs [
    At "inset" (XStr "unset"); At "top" (XInt 0); At "bottom" (XInt 0); At "left" (XInt 0);
    At "margin" (XStr "0 auto 0 0"); At "maxWidth" (XStr "24rem"); At "width" (XStr "75%");
    At "height" (XStr "100vh")]));
  At "right" (XObj (attrs [
    At "inset" (XStr "unset"); At "top" (XInt 0); At "bottom" (XInt 0); At "right" (XInt 0);
    At "margin" (XStr "0 0 0 auto"); At "maxWidth" (XStr "24rem"); At "width" (XStr "75%");
    At "height" (XStr "100vh")]))]).

Definition Drawer (arg : obj) : val :=
  let id := getp "id" arg in
  let side := or_default (XStr "right") (getp "side" arg) in
  let className := or_default (XStr "") (getp "className" arg) in
  let style := or_default (XObj []) (getp "style" arg) in
  let dismissible := or_default (XBool true) (getp "dismissible" arg) in
  let children := getp "children" arg in
  let props := rest ["id"; "side"; "className"; "style"; "dismissible"; "children"] arg in
  let mergedStyle := XObj (attrs [
    Sp (spread_of (js_or (index SIDE_STYLE side) (XObj ([])))); Sp (spread_of style)]) in
  let handleClick := XFn "(e) => { if (dismissible && e.target === e.currentTarget) e.currentTarget.close(); }" [
    dismissible] in
  el (Host "dialog") [
    Sp props; At "id" id; At "data-slot" (XStr "drawer"); At "data-side" side; At "style" mergedStyle;
    At "onClick" handleClick;
    At "class" (cn [
      XStr "p-0 max-w-none max-h-none bg-transparent backdrop:bg-black/50 fixed"; index SIDE_CLASS side;
      className])] [children].

Definition DrawerContent (arg : obj) : val :=
  let className := or_default (XStr "") (getp "className" arg) in
  let children := getp "children" arg in
  let props := rest ["className"; "children"] arg in
  el (Host "div") [
    At "data-slot" (XStr "drawer-content");
    At "class" (cn [
      XStr "bg-background text-foreground border h-full w-full p-6 flex flex-col gap-4 overflow-y-auto";
      className]);
    Sp props] [children].

Definition DrawerHeader (arg : obj) : val :=
  let className := or_default (XStr "") (getp "className" arg) in
  let children := getp "children" arg in
  let props := rest ["className"; "children"] arg in
  el (Host "div") [
    At "data-slot" (XStr "drawer-header"); At "class" (cn [XStr "flex flex-col gap-1.5"; className]); Sp props] [
      children].

Definition DrawerTitle (arg : obj) : val :=
  let className := or_default (XStr "") (getp "className" arg) in
  let children := getp "children" arg in
  let props := rest ["className"; "children"] arg in
  el (Host "h2") [
    At "data-slot" (XStr "drawer-title"); At "class" (cn [XStr "text-lg font-semibold"; className]); Sp props] [
      children].

Definition DrawerDescription (arg : obj) : val :=
  let className := or_default (XStr "") (getp "className" arg) in
  let children := getp "children" arg in
  let props := rest ["className"; "children"] arg in
  el (Host "p") [
    At "data-slot" (XStr "drawer-description");
    At "class" (cn [XStr "text-muted-foreground text-sm"; className]); Sp props] [children].

Definition DrawerFooter (arg : obj) : val :=
  let className := or_default (XStr "") (getp "className" arg) in
  let children := getp "children" arg in
  let props := rest ["className"; "children"] arg in
  el (Host "div") [
    At "data-slot" (XStr "drawer-footer"); At "class" (cn [XStr "mt-auto flex flex-col gap-2"; className]);
    Sp props] [children].

(** *** [dropdown-menu.js] *)

Definition DROPDOWN_MENU_TRIGGER_BASE : val := XStr "list-none cursor-pointer inline-flex items-center justify-center gap-2 whitespace-nowrap rounded-md text-sm font-medium transition-all outline-none [&::-webkit-details-marker]:hidden [&_svg]:pointer-events-none [&_svg:not([class*='size-'])]:size-4 shrink-0 [&_svg]:shrink-0 focus-visible:border-ring focus-visible:ring-ring/50 focus-visible:ring-[3px]".

Definition DROPDOWN_MENU_TRIGGER_VARIANTS : val := XObj (attrs [
  At "default" (XStr "bg-primary text-primary-foreground hover:bg-primary/90");
  At "destructive" (XStr "bg-destructive text-white hover:bg-destructive/90");
  At "outline" (XStr "border bg-background shadow-xs hover:bg-accent hover:text-accent-foreground");
  At "secondary" (XStr "bg-secondary text-secondary-foreground hover:bg-secondary/80");
  At "ghost" (XStr "hover:bg-accent hover:text-accent-foreground");
  At "link" (XStr "text-primary underline-offset-4 hover:underline")]).

Definition DROPDOWN_MENU_TRIGGER_SIZES : val := XObj (attrs [
  At "default" (XStr "h-9 px-4 py-2 has-[>svg]:px-3");
  At "sm" (XStr "h-8 rounded-md gap-1.5 px-3 has-[>svg]:px-2.5");
  At "lg" (XStr "h-10 rounded-md px-6 has-[>svg]:px-4"); At "icon" (XStr "size-9")]).

Definition DropdownMenu (arg : obj) : val :=
  let className := or_default (XStr "") (getp "className" arg) in
  let children := getp "children" arg in
  let props := rest ["className"; "children"] arg in
  el (Host "details") [
    At "data-slot" (XStr "dropdown-menu"); At "class" (cn [XStr "relative inline-block"; className]);
    At "onBlur" (XFn ("(e) => { const el = e.currentTarget; setTimeout(() => { if (!el.contains(document.activeElement)) el.removeAttribute(" ++ dq ++ "open" ++ dq ++ "); }, 100); }") []);
    At "tabIndex" (XInt (-1)); Sp props] [children].

Definition DropdownMenuTrigger (arg : obj) : val :=
  let variant := or_default (XStr "default") (getp "variant" arg) in
  let size := or_default (XStr "default") (getp "size" arg) in
  let className := or_default (XStr "") (getp "className" arg) in
  let children := getp "children" arg in
  let props := rest ["variant"; "size"; "className"; "children"] arg in
  el (Host "summary") [
    At "data-slot" (XStr "dropdown-menu-trigger");
    At "class" (cn [
      DROPDOWN_MENU_TRIGGER_BASE; index DROPDOWN_MENU_TRIGGER_VARIANTS variant;
      index DROPDOWN_MENU_TRIGGER_SIZES size; className]);
    Sp props] [children].

Definition DropdownMenuContent (arg : obj) : val :=
  let align := or_default (XStr "start") (getp "align" arg) in
  let className := or_default (XStr "") (getp "className" arg) in
  let children := getp "children" arg in
  let props := rest ["align"; "className"; "children"] arg in
  let alignClass := js_if (js_is align "end") (XStr "right-0") (XStr "left-0") in
  el (Host "div") [
    At "data-slot" (XStr "dropdown-menu-content");
    At "class" (cn [
      XStr "absolute top-full mt-1 z-50 min-w-[12rem] rounded-md border bg-popover text-popover-foreground shadow-md p-1";
      alignClass; className]);
    Sp props] [children].

Definition DropdownMenuItem (arg : obj) : val :=
  let className := or_default (XStr "") (getp "className" arg) in
  let children := getp "children" arg in
  let props := rest ["className"; "children"] arg in
  el (Host "button") [
    At "type" (XStr "button"); At "data-slot" (XStr "dropdown-menu-item");
    At "class" (cn [
      XStr "w-full text-left flex items-center gap-2 rounded-sm px-2 py-1.5 text-sm outline-none cursor-pointer";
      XStr "hover:bg-accent hover:text-accent-foreground focus:bg-accent focus:text-accent-foreground";
      className]);
    Sp props] [children].

Definition DropdownMenuLabel (arg : obj) : val :=
  let className := or_default (XStr "") (getp "className" arg) in
  let children := getp "children" arg in
  let props := rest ["className"; "children"] arg in
  el (Host "div") [
    At "data-slot" (XStr "dropdown-menu-label");
    At "class" (cn [XStr "px-2 py-1.5 text-sm font-semibold"; className]); Sp props] [children].

Definition DropdownMenuSeparator (arg : obj) : val :=
  let className := or_default (XStr "") (getp "className" arg) in
  el (Host "div") [
    At "data-slot" (XStr "dropdown-menu-separator");
    At "class" (cn [XStr "-mx-1 my-1 h-px bg-border"; className])] [].

(** *** [empty.js] *)

Definition Empty (arg : obj) : val :=
  let className := or_default (XStr "") (getp "className" arg) in
  let children := getp "children" arg in
  let props := rest ["className"; "children"] arg in
  el (Host "div") [
    At "data-slot" (XStr "empty");
    At "class" (cn [
      XStr "flex w-full min-w-0 flex-1 flex-col items-center justify-center gap-4 rounded-lg border border-dashed p-12 text-center text-balance";
      className]);
    Sp props] [children].

Definition EmptyHeader (arg : obj) : val :=
  let className := or_default (XStr "") (getp "className" arg) in
  let children := getp "children" arg in
  let props := rest ["className"; "children"] arg in
  el (Host "div") [
    At "data-slot" (XStr "empty-header");
    At "class" (cn [XStr "flex max-w-sm flex-col items-center gap-2"; className]); Sp props] [children].

Definition EmptyMedia (arg : obj) : val :=
  let variant := or_default (XStr "default") (getp "variant" arg) in
  let className := or_default (XStr "") (getp "className" arg) in
  let children := getp "children" arg in
  let props := rest ["variant"; "className"; "children"] arg in
  let variantClass := js_if (js_is variant "icon") (XStr "flex size-10 shrink-0 items-center justify-center rounded-lg bg-muted text-foreground") (XStr "bg-transparent") in
  el (Host "div") [
    At "data-slot" (XStr "empty-icon");
    At "class" (cn [XStr "mb-2 flex shrink-0 items-center justify-center"; variantClass; className]); Sp props] [
      children].

Definition EmptyTitle (arg : obj) : val :=
  let className := or_default (XStr "") (getp "className" arg) in
  let children := getp "children" arg in
  let props := rest ["className"; "children"] arg in
  el (Host "div") [
    At "data-slot" (XStr "empty-title"); At "class" (cn [XStr "text-lg font-medium tracking-tight"; className]);
    Sp props] [children].

Definition EmptyDescription (arg : obj) : val :=
  let className := or_default (XStr "") (getp "className" arg) in
  let children := getp "children" arg in
  let props := rest ["className"; "children"] arg in
  el (Host "div") [
    At "data-slot" (XStr "empty-description"); At "class" (cn [XStr "text-sm text-muted-foreground"; className]);
    Sp props] [children].

Definition EmptyContent (arg : obj) : val :=
  let className := or_default (XStr "") (getp "className" arg) in
  let children := getp "children" arg in
  let props := rest ["className"; "children"] arg in
  el (Host "div") [
    At "data-slot" (XStr "empty-content");
    At "class" (cn [XStr "flex w-full max-w-sm flex-col items-center gap-4 text-sm text-balance"; className]);
    Sp props] [children].

(** *** [field.js] *)

Definition FieldSet (arg : obj) : val :=
  let className := or_default (XStr "") (getp "className" arg) in
  let children := getp "children" arg in
  let props := rest ["className"; "children"] arg in
  el (Host "fieldset") [
    At "data-slot" (XStr "field-set"); At "class" (cn [XStr "flex flex-col gap-6"; className]); Sp props] [
      children].

Definition FieldLegend (arg : obj) : val :=
  let variant := or_default (XStr "legend") (getp "variant" arg) in
  let className := or_default (XStr "") (getp "className" arg) in
  let children := getp "children" arg in
  let props := rest ["variant"; "className"; "children"] arg in
  el (Host "legend") [
    At "data-slot" (XStr "field-legend"); At "data-variant" variant;
    At "class" (cn [
      XStr "mb-3 font-medium"; js_if (js_is variant "label") (XStr "text-sm") (XStr "text-base"); className]);
    Sp props] [children].

Definition FieldGroup (arg : obj) : val :=
  let className := or_default (XStr "") (getp "className" arg) in
  let children := getp "children" arg in
  let props := rest ["className"; "children"] arg in
  el (Host "div") [
    At "data-slot" (XStr "field-group"); At "class" (cn [XStr "flex w-full flex-col gap-7"; className]);
    Sp props] [children].

Definition Field (arg : obj) : val :=
  let orientation := or_default (XStr "vertical") (getp "orientation" arg) in
  let className := or_default (XStr "") (getp "className" arg) in
  let children := getp "children" arg in
  let props := rest ["orientation"; "className"; "children"] arg in
  let orientationClass := index (XObj (attrs [
    At "vertical" (XStr "flex-col *:w-full"); At "horizontal" (XStr "flex-row items-center");
    At "responsive" (XStr "flex-col *:w-full @md:flex-row @md:items-center")])) orientation in
  el (Host "div") [
    At "role" (XStr "group"); At "data-slot" (XStr "field"); At "data-orientation" orientation;
    At "class" (cn [XStr "flex w-full gap-3"; orientationClass; className]); Sp props] [children].

Definition FieldContent (arg : obj) : val :=
  let className := or_default (XStr "") (getp "className" arg) in
  let children := getp "children" arg in
  let props := rest ["className"; "children"] arg in
  el (Host "div") [
    At "data-slot" (XStr "field-content");
    At "class" (cn [XStr "flex flex-1 flex-col gap-1 leading-snug"; className]); Sp props] [children].

Definition FieldLabel (arg : obj) : val :=
  let className := or_default (XStr "") (getp "className" arg) in
  let children := getp "children" arg in
  let props := rest ["className"; "children"] arg in
  el (Host "label") [
    At "data-slot" (XStr "field-label");
    At "class" (cn [XStr "flex w-fit gap-2 text-sm leading-snug font-medium select-none"; className]); Sp props] [
      children].

Definition FieldDescription (arg : obj) : val :=
  let className := or_default (XStr "") (getp "className" arg) in
  let children := getp "children" arg in
  let props := rest ["className"; "children"] arg in
  el (Host "p") [
    At "data-slot" (XStr "field-description");
    At "class" (cn [XStr "text-left text-sm leading-normal font-normal text-muted-foreground"; className]);
    Sp props] [children].

Definition FieldError (arg : obj) : val :=
  let className := or_default (XStr "") (getp "className" arg) in
  let children := getp "children" arg in
  let props := rest ["className"; "children"] arg in
  if is_true (js_not children) then XNull
  else el (Host "div") [
    At "role" (XStr "alert"); At "data-slot" (XStr "field-error");
    At "class" (cn [XStr "text-sm font-normal text-destructive"; className]); Sp props] [children].

Definition FieldSeparator (arg : obj) : val :=
  let className := or_default (XStr "") (getp "className" arg) in
  let children := getp "children" arg in
  el (Host "div") [
    At "data-slot" (XStr "field-separator"); At "class" (cn [XStr "relative my-2 h-5 text-sm"; className])] [
      el (Host "div") [At "class" (XStr "absolute inset-0 top-1/2 h-px bg-border")] [];
      js_and children (el (Host "span") [
        At "class" (XStr "relative mx-auto block w-fit bg-background px-2 text-muted-foreground")] [children])].

(** *** [hover-card.js] *)

Definition HoverCard (arg : obj) : val :=
  let className := or_default (XStr "") (getp "className" arg) in
  let children := getp "children" arg in
  let props := rest ["className"; "children"] arg in
  el (Host "span") [
    At "data-slot" (XStr "hover-card"); At "class" (cn [XStr "relative inline-flex group"; className]); Sp props] [
      children].

Definition HoverCardTrigger (arg : obj) : val :=
  let className := or_default (XStr "") (getp "className" arg) in
  let children := getp "children" arg in
  let props := rest ["className"; "children"] arg in
  el (Host "span") [
    At "data-slot" (XStr "hover-card-trigger"); At "class" (cn [XStr "cursor-pointer"; className]); Sp props] [
      children].

Definition HoverCardContent (arg : obj) : val :=
  let side := or_default (XStr "bottom") (getp "side" arg) in
  let align := or_default (XStr "center") (getp "align" arg) in
  let className := or_default (XStr "") (getp "className" arg) in
  let children := getp "children" arg in
  let props := rest ["side"; "align"; "className"; "children"] arg in
  let sideClass := js_if (js_is side "top") (XStr "bottom-full mb-2") (js_if (js_is side "right") (XStr "left-full ml-2") (js_if (js_is side "left") (XStr "right-full mr-2") (XStr "top-full mt-2"))) in
  let alignClass := js_if (js_is align "start") (XStr "left-0") (js_if (js_is align "end") (XStr "right-0") (XStr "left-1/2 -translate-x-1/2")) in
  el (Host "div") [
    At "data-slot" (XStr "hover-card-content");
    At "class" (cn [
      XStr "pointer-events-none absolute z-50 w-64 rounded-md border bg-popover p-4 text-sm text-popover-foreground shadow-md";
      XStr "opacity-0 group-hover:opacity-100 group-focus-within:opacity-100 transition-opacity"; sideClass;
      alignClass; className]);
    Sp props] [children].

(** *** [icon.js] *)

Definition Icon (arg : obj) : val :=
  let icon := getp "icon" arg in
  let size := or_default (XInt 16) (getp "size" arg) in
  let className := or_default (XStr "") (getp "className" arg) in
  let props := rest ["icon"; "size"; "className"] arg in
  el (Host "iconify-icon") [At "icon" icon; At "width" size; At "class" className; Sp props] [].

(** *** [input-group.js] *)

Definition ADDON_ALIGN : val := XObj (attrs [
  At "inline-start" (XStr "order-first pl-2"); At "inline-end" (XStr "order-last pr-2");
  At "block-start" (XStr "order-first w-full justify-start px-2.5 pt-2");
  At "block-end" (XStr "order-last w-full justify-start px-2.5 pb-2")]).

Definition InputGroup (arg : obj) : val :=
  let className := or_default (XStr "") (getp "className" arg) in
  let children := getp "children" arg in
  let props := rest ["className"; "children"] arg in
  el (Host "div") [
    At "role" (XStr "group"); At "data-slot" (XStr "input-group");
    At "class" (cn [
      XStr "group/input-group relative flex h-9 w-full min-w-0 items-center rounded-md border border-input shadow-xs transition-[color,box-shadow] outline-none has-[input:focus-visible]:border-ring has-[input:focus-visible]:ring-3 has-[input:focus-visible]:ring-ring/50";
      className]);
    Sp props] [children].

Definition InputGroupAddon (arg : obj) : val :=
  let align := or_default (XStr "inline-start") (getp "align" arg) in
  let className := or_default (XStr "") (getp "className" arg) in
  let children := getp "children" arg in
  let props := rest ["align"; "className"; "children"] arg in
  el (Host "div") [
    At "data-slot" (XStr "input-group-addon"); At "data-align" align;
    At "class" (cn [
      XStr "flex h-auto items-center justify-center gap-2 py-1.5 text-sm font-medium text-muted-foreground select-none";
      index ADDON_ALIGN align; className]);
    Sp props] [children].

Definition InputGroupInput (arg : obj) : val :=
  let className := or_default (XStr "") (getp "className" arg) in
  let type_ := or_default (XStr "text") (getp "type" arg) in
  let props := rest ["className"; "type"] arg in
  el (Host "input") [
    At "type" type_; At "data-slot" (XStr "input-group-control");
    At "class" (cn [
      XStr "flex-1 min-w-0 bg-transparent border-0 outline-none text-sm px-3 py-1 placeholder:text-muted-foreground";
      className]);
    Sp props] [].

Definition InputGroupText (arg : obj) : val :=
  let className := or_default (XStr "") (getp "className" arg) in
  let children := getp "children" arg in
  let props := rest ["className"; "children"] arg in
  el (Host "span") [
    At "class" (cn [XStr "flex items-center gap-2 text-sm text-muted-foreground"; className]); Sp props] [
      children].

(** *** [input-otp.js] *)

Definition InputOTPSeparator (arg : obj) : val :=
  el (Host "div") [At "role" (XStr "separator"); At "class" (XStr "flex items-center px-1")] [
    el (Host "iconify-icon") [At "icon" (XStr "lucide:minus"); At "width" (XStr "16")] []].

(** *** [input.js] *)

Definition Input (arg : obj) : val :=
  let className := or_default (XStr "") (getp "className" arg) in
  let type_ := or_default (XStr "text") (getp "type" arg) in
  let props := rest ["className"; "type"] arg in
  el (Host "input") [
    At "type" type_; At "data-slot" (XStr "input");
    At "class" (cn [
      XStr "file:text-foreground placeholder:text-muted-foreground selection:bg-primary selection:text-primary-foreground border-input h-9 w-full min-w-0 rounded-md border bg-transparent px-3 py-1 text-base shadow-xs transition-[color,box-shadow] outline-none disabled:pointer-events-none disabled:cursor-not-allowed disabled:opacity-50 md:text-sm";
      XStr "focus-visible:border-ring focus-visible:ring-ring/50 focus-visible:ring-[3px]"; className]);
    Sp props] [].

(** *** [item.js] *)

Definition ITEM_VARIANT : val := XObj (attrs [
  At "default" (XStr "border-transparent"); At "outline" (XStr "border-border");
  At "muted" (XStr "border-transparent bg-muted/50")]).

Definition ITEM_SIZE : val := XObj (attrs [
  At "default" (XStr "gap-3.5 px-4 py-3.5"); At "sm" (XStr "gap-2.5 px-3 py-2.5");
  At "xs" (XStr "gap-2 px-2.5 py-2")]).

Definition ITEM_MEDIA : val := XObj (attrs [
  At "default" (XStr "bg-transparent"); At "icon" (XStr "[&_svg:not([class*='size-'])]:size-4");
  At "image" (XStr "size-10 overflow-hidden rounded-sm [&_img]:size-full [&_img]:object-cover")]).

Definition ItemGroup (arg : obj) : val :=
  let className := or_default (XStr "") (getp "className" arg) in
  let children := getp "children" arg in
  let props := rest ["className"; "children"] arg in
  el (Host "div") [
    At "role" (XStr "list"); At "data-slot" (XStr "item-group");
    At "class" (cn [XStr "flex w-full flex-col gap-4"; className]); Sp props] [children].

Definition ItemSeparator (arg : obj) : val :=
  let className := or_default (XStr "") (getp "className" arg) in
  el (Host "div") [
    At "data-slot" (XStr "item-separator"); At "class" (cn [XStr "my-2 h-px w-full bg-border"; className])] [].

Definition Item (arg : obj) : val :=
  let variant := or_default (XStr "default") (getp "variant" arg) in
  let size := or_default (XStr "default") (getp "size" arg) in
  let className := or_default (XStr "") (getp "className" arg) in
  let children := getp "children" arg in
  let props := rest ["variant"; "size"; "className"; "children"] arg in
  el (Host "div") [
    At "data-slot" (XStr "item"); At "data-variant" variant; At "data-size" size;
    At "class" (cn [
      XStr "flex w-full flex-wrap items-center rounded-md border text-sm transition-colors duration-100 outline-none";
      index ITEM_VARIANT variant; index ITEM_SIZE size; className]);
    Sp props] [children].

Definition ItemMedia (arg : obj) : val :=
  let variant := or_default (XStr "default") (getp "variant" arg) in
  let className := or_default (XStr "") (getp "className" arg) in
  let children := getp "children" arg in
  let props := rest ["variant"; "className"; "children"] arg in
  el (Host "div") [
    At "data-slot" (XStr "item-media"); At "data-variant" variant;
    At "class" (cn [XStr "flex shrink-0 items-center justify-center gap-2"; index ITEM_MEDIA variant; className]);
    Sp props] [children].

Definition ItemContent (arg : obj) : val :=
  let className := or_default (XStr "") (getp "className" arg) in
  let children := getp "children" arg in
  let props := rest ["className"; "children"] arg in
  el (Host "div") [
    At "data-slot" (XStr "item-content"); At "class" (cn [XStr "flex flex-1 flex-col gap-1"; className]);
    Sp props] [children].

Definition ItemTitle (arg : obj) : val :=
  let className := or_default (XStr "") (getp "className" arg) in
  let children := getp "children" arg in
  let props := rest ["className"; "children"] arg in
  el (Host "div") [
    At "data-slot" (XStr "item-title");
    At "class" (cn [
      XStr "line-clamp-1 flex w-fit items-center gap-2 text-sm leading-snug font-medium"; className]);
    Sp props] [children].

Definition ItemDescription (arg : obj) : val :=
  let className := or_default (XStr "") (getp "className" arg) in
  let children := getp "children" arg in
  let props := rest ["className"; "children"] arg in
  el (Host "p") [
    At "data-slot" (XStr "item-description");
    At "class" (cn [
      XStr "line-clamp-2 text-left text-sm leading-normal font-normal text-muted-foreground"; className]);
    Sp props] [children].

Definition ItemActions (arg : obj) : val :=
  let className := or_default (XStr "") (getp "className" arg) in
  let children := getp "children" arg in
  let props := rest ["className"; "children"] arg in
  el (Host "div") [
    At "data-slot" (XStr "item-actions"); At "class" (cn [XStr "flex items-center gap-2"; className]); Sp props] [
      children].

Definition ItemHeader (arg : obj) : val :=
  let className := or_default (XStr "") (getp "className" arg) in
  let children := getp "children" arg in
  let props := rest ["className"; "children"] arg in
  el (Host "div") [
    At "data-slot" (XStr "item-header");
    At "class" (cn [XStr "flex basis-full items-center justify-between gap-2"; className]); Sp props] [children].

Definition ItemFooter (arg : obj) : val :=
  let className := or_default (XStr "") (getp "className" arg) in
  let children := getp "children" arg in
  let props := rest ["className"; "children"] arg in
  el (Host "div") [
    At "data-slot" (XStr "item-footer");
    At "class" (cn [XStr "flex basis-full items-center justify-between gap-2"; className]); Sp props] [children].

(** *** [kbd.js] *)

Definition Kbd (arg : obj) : val :=
  let className := or_default (XStr "") (getp "className" arg) in
  let children := getp "children" arg in
  let props := rest ["className"; "children"] arg in
  el (Host "kbd") [
    At "data-slot" (XStr "kbd");
    At "class" (cn [
      XStr "bg-muted text-muted-foreground pointer-events-none inline-flex h-5 w-fit min-w-5 items-center justify-center gap-1 rounded-sm px-1 font-sans text-xs font-medium select-none";
      XStr "[&_svg:not([class*='size-'])]:size-3"; className]);
    Sp props] [children].

(** *** [label.js] *)

Definition Label (arg : obj) : val :=
  let className := or_default (XStr "") (getp "className" arg) in
  let children := getp "children" arg in
  let props := rest ["className"; "children"] arg in
  el (Host "label") [
    At "data-slot" (XStr "label");
    At "class" (cn [
      XStr "flex items-center gap-2 text-sm leading-none font-medium select-none group-data-[disabled=true]:pointer-events-none group-data-[disabled=true]:opacity-50 peer-disabled:cursor-not-allowed peer-disabled:opacity-50";
      className]);
    Sp props] [children].

(** *** [menubar.js] *)

Definition Menubar (arg : obj) : val :=
  let className := or_default (XStr "") (getp "className" arg) in
  let children := getp "children" arg in
  let props := rest ["className"; "children"] arg in
  el (Host "div") [
    At "data-slot" (XStr "menubar");
    At "class" (cn [XStr "flex h-9 items-center gap-1 rounded-md border bg-background p-1 shadow-xs"; className]);
    Sp props] [children].

Definition MenubarMenu (arg : obj) : val :=
  let className := or_default (XStr "") (getp "className" arg) in
  let children := getp "children" arg in
  let props := rest ["className"; "children"] arg in
  el (Host "details") [
    At "data-slot" (XStr "menubar-menu"); At "class" (cn [XStr "relative"; className]);
    At "onBlur" (XFn ("(e) => { const el = e.currentTarget; setTimeout(() => { if (!el.contains(document.activeElement)) el.removeAttribute(" ++ dq ++ "open" ++ dq ++ "); }, 100); }") []);
    At "tabIndex" (XInt (-1)); Sp props] [children].

Definition MenubarTrigger (arg : obj) : val :=
  let className := or_default (XStr "") (getp "className" arg) in
  let children := getp "children" arg in
  let props := rest ["className"; "children"] arg in
  el (Host "summary") [
    At "data-slot" (XStr "menubar-trigger");
    At "class" (cn [
      XStr "list-none cursor-pointer rounded-sm px-3 py-1 text-sm font-medium outline-none select-none";
      XStr "hover:bg-accent hover:text-accent-foreground focus-visible:bg-accent focus-visible:text-accent-foreground";
      XStr "[&::-webkit-details-marker]:hidden"; className]);
    Sp props] [children].

Definition MenubarContent (arg : obj) : val :=
  let className := or_default (XStr "") (getp "className" arg) in
  let children := getp "children" arg in
  let props := rest ["className"; "children"] arg in
  el (Host "div") [
    At "data-slot" (XStr "menubar-content");
    At "class" (cn [
      XStr "absolute top-full left-0 mt-1 z-50 min-w-[12rem] rounded-md border bg-popover text-popover-foreground shadow-md p-1";
      className]);
    Sp props] [children].

Definition MenubarItem (arg : obj) : val :=
  let className := or_default (XStr "") (getp "className" arg) in
  let children := getp "children" arg in
  let props := rest ["className"; "children"] arg in
  el (Host "button") [
    At "type" (XStr "button"); At "data-slot" (XStr "menubar-item");
    At "class" (cn [
      XStr "w-full text-left flex items-center gap-2 rounded-sm px-2 py-1.5 text-sm outline-none cursor-pointer hover:bg-accent hover:text-accent-foreground";
      className]);
    Sp props] [children].

Definition MenubarSeparator (arg : obj) : val :=
  let className := or_default (XStr "") (getp "className" arg) in
  el (Host "div") [
    At "data-slot" (XStr "menubar-separator"); At "class" (cn [XStr "-mx-1 my-1 h-px bg-border"; className])] [].

Definition MenubarShortcut (arg : obj) : val :=
  let className := or_default (XStr "") (getp "className" arg) in
  let children := getp "children" arg in
  el (Host "span") [At "class" (cn [XStr "ml-auto text-xs tracking-widest text-muted-foreground"; className])] [
    children].

(** *** [navigation-menu.js] *)

Definition NavigationMenu (arg : obj) : val :=
  let className := or_default (XStr "") (getp "className" arg) in
  let children := getp "children" arg in
  let props := rest ["className"; "children"] arg in
  el (Host "nav") [
    At "data-slot" (XStr "navigation-menu");
    At "class" (cn [XStr "relative flex max-w-max flex-1 items-center justify-center"; className]); Sp props] [
      children].

Definition NavigationMenuList (arg : obj) : val :=
  let className := or_default (XStr "") (getp "className" arg) in
  let children := getp "children" arg in
  let props := rest ["className"; "children"] arg in
  el (Host "ul") [
    At "data-slot" (XStr "navigation-menu-list");
    At "class" (cn [XStr "group flex flex-1 list-none items-center justify-center gap-1"; className]); Sp props] [
      children].

Definition NavigationMenuItem (arg : obj) : val :=
  let className := or_default (XStr "") (getp "className" arg) in
  let children := getp "children" arg in
  let props := rest ["className"; "children"] arg in
  el (Host "li") [
    At "data-slot" (XStr "navigation-menu-item"); At "class" (cn [XStr "relative group"; className]); Sp props] [
      children].

Definition NavigationMenuTrigger (arg : obj) : val :=
  let className := or_default (XStr "") (getp "className" arg) in
  let children := getp "children" arg in
  let props := rest ["className"; "children"] arg in
  el (Host "button") [
    At "type" (XStr "button"); At "data-slot" (XStr "navigation-menu-trigger");
    At "class" (cn [
      XStr "inline-flex h-9 items-center gap-1 rounded-md bg-background px-4 py-2 text-sm font-medium hover:bg-accent hover:text-accent-foreground outline-none";
      className]);
    Sp props] [
      children;
      el (Host "iconify-icon") [
        At "icon" (XStr "lucide:chevron-down"); At "width" (XStr "14");
        At "class" (XStr "transition-transform group-hover:rotate-180")] []].

Definition NavigationMenuContent (arg : obj) : val :=
  let className := or_default (XStr "") (getp "className" arg) in
  let children := getp "children" arg in
  let props := rest ["className"; "children"] arg in
  el (Host "div") [
    At "data-slot" (XStr "navigation-menu-content");
    At "class" (cn [
      XStr "absolute top-full left-0 mt-1 z-50 w-max rounded-md border bg-popover text-popover-foreground shadow-md p-2";
      XStr "opacity-0 invisible group-hover:opacity-100 group-hover:visible group-focus-within:opacity-100 group-focus-within:visible transition-opacity";
      className]);
    Sp props] [children].

Definition NavigationMenuLink (arg : obj) : val :=
  let className := or_default (XStr "") (getp "className" arg) in
  let children := getp "children" arg in
  let props := rest ["className"; "children"] arg in
  el (Host "a") [
    At "data-slot" (XStr "navigation-menu-link");
    At "class" (cn [
      XStr "block select-none rounded-md p-3 text-sm leading-none no-underline outline-none transition-colors hover:bg-accent hover:text-accent-foreground";
      className]);
    Sp props] [children].

(** *** [pagination.js] *)

Definition Pagination (arg : obj) : val :=
  let className := or_default (XStr "") (getp "className" arg) in
  let children := getp "children" arg in
  let props := rest ["className"; "children"] arg in
  el (Host "nav") [
    At "role" (XStr "navigation"); At "aria-label" (XStr "pagination"); At "data-slot" (XStr "pagination");
    At "class" (cn [XStr "mx-auto flex w-full justify-center"; className]); Sp props] [children].

Definition PaginationContent (arg : obj) : val :=
  let className := or_default (XStr "") (getp "className" arg) in
  let children := getp "children" arg in
  let props := rest ["className"; "children"] arg in
  el (Host "ul") [
    At "data-slot" (XStr "pagination-content");
    At "class" (cn [XStr "flex flex-row items-center gap-1"; className]); Sp props] [children].

Definition PaginationItem (arg : obj) : val :=
  let className := or_default (XStr "") (getp "className" arg) in
  let children := getp "children" arg in
  let props := rest ["className"; "children"] arg in
  el (Host "li") [At "data-slot" (XStr "pagination-item"); At "class" className; Sp props] [children].

Definition PaginationLink (arg : obj) : val :=
  let active := or_default (XBool false) (getp "active" arg) in
  let className := or_default (XStr "") (getp "className" arg) in
  let children := getp "children" arg in
  let props := rest ["active"; "className"; "children"] arg in
  el (Host "a") [
    At "data-slot" (XStr "pagination-link"); At "aria-current" (js_if active (XStr "page") XUndef);
    At "class" (cn [
      XStr "inline-flex h-9 min-w-9 items-center justify-center gap-1 rounded-md px-3 text-sm font-medium transition-colors";
      js_if active (XStr "border bg-background shadow-xs") (XStr "hover:bg-accent hover:text-accent-foreground");
      className]);
    Sp props] [children].

Definition PaginationPrevious (arg : obj) : val :=
  let className := or_default (XStr "") (getp "className" arg) in
  let props := rest ["className"] arg in
  el (Host "a") [
    At "data-slot" (XStr "pagination-previous"); At "aria-label" (XStr "Go to previous page");
    At "class" (cn [
      XStr "inline-flex h-9 items-center gap-1 rounded-md pl-2.5 pr-3 text-sm font-medium hover:bg-accent hover:text-accent-foreground";
      className]);
    Sp props] [
      el (Host "iconify-icon") [At "icon" (XStr "lucide:chevron-left"); At "width" (XStr "16")] [];
      el (Host "span") [] [XStr "Previous"]].

Definition PaginationNext (arg : obj) : val :=
  let className := or_default (XStr "") (getp "className" arg) in
  let props := rest ["className"] arg in
  el (Host "a") [
    At "data-slot" (XStr "pagination-next"); At "aria-label" (XStr "Go to next page");
    At "class" (cn [
      XStr "inline-flex h-9 items-center gap-1 rounded-md pl-3 pr-2.5 text-sm font-medium hover:bg-accent hover:text-accent-foreground";
      className]);
    Sp props] [
      el (Host "span") [] [XStr "Next"];
      el (Host "iconify-icon") [At "icon" (XStr "lucide:chevron-right"); At "width" (XStr "16")] []].

Definition PaginationEllipsis (arg : obj) : val :=
  let className := or_default (XStr "") (getp "className" arg) in
  el (Host "span") [
    At "aria-hidden" (XStr "true"); At "class" (cn [XStr "flex h-9 w-9 items-center justify-center"; className])] [
      el (Host "iconify-icon") [At "icon" (XStr "lucide:more-horizontal"); At "width" (XStr "16")] []].

(** *** [popover.js] *)

Definition POPOVER_TRIGGER_BASE : val := XStr "inline-flex items-center justify-center gap-2 whitespace-nowrap rounded-md text-sm font-medium transition-all disabled:pointer-events-none disabled:opacity-50 outline-none focus-visible:border-ring focus-visible:ring-ring/50 focus-visible:ring-[3px]".

Definition POPOVER_TRIGGER_VARIANTS : val := XObj (attrs [
  At "default" (XStr "bg-primary text-primary-foreground hover:bg-primary/90");
  At "outline" (XStr "border bg-background shadow-xs hover:bg-accent hover:text-accent-foreground");
  At "secondary" (XStr "bg-secondary text-secondary-foreground hover:bg-secondary/80");
  At "ghost" (XStr "hover:bg-accent hover:text-accent-foreground");
  At "link" (XStr "text-primary underline-offset-4 hover:underline")]).

Definition POPOVER_TRIGGER_SIZES : val := XObj (attrs [
  At "default" (XStr "h-9 px-4 py-2"); At "sm" (XStr "h-8 rounded-md gap-1.5 px-3");
  At "lg" (XStr "h-10 rounded-md px-6"); At "icon" (XStr "size-9")]).

Definition PopoverTrigger (arg : obj) : val :=
  let targetId := getp "targetId" arg in
  let variant := or_default (XStr "default") (getp "variant" arg) in
  let size := or_default (XStr "default") (getp "size" arg) in
  let className := or_default (XStr "") (getp "className" arg) in
  let children := getp "children" arg in
  let props := rest ["targetId"; "variant"; "size"; "className"; "children"] arg in
  el (Host "button") [
    At "type" (XStr "button"); At "data-slot" (XStr "popover-trigger"); At "popovertarget" targetId;
    At "class" (cn [
      POPOVER_TRIGGER_BASE; index POPOVER_TRIGGER_VARIANTS variant; index POPOVER_TRIGGER_SIZES size; className]);
    Sp props] [children].

Definition PopoverContent (arg : obj) : val :=
  let id := getp "id" arg in
  let className := or_default (XStr "") (getp "className" arg) in
  let children := getp "children" arg in
  let props := rest ["id"; "className"; "children"] arg in
  el (Host "div") [
    At "id" id; At "popover" (XStr "auto"); At "data-slot" (XStr "popover-content");
    At "class" (cn [
      XStr "rounded-md border bg-popover p-4 text-popover-foreground shadow-md w-72 m-0"; className]);
    Sp props] [children].

(** *** [radio-group.js] *)

Definition RadioGroup (arg : obj) : val :=
  let className := or_default (XStr "") (getp "className" arg) in
  let children := getp "children" arg in
  let props := rest ["className"; "children"] arg in
  el (Host "div") [
    At "role" (XStr "radiogroup"); At "data-slot" (XStr "radio-group");
    At "class" (cn [XStr "grid gap-3"; className]); Sp props] [children].

Definition RadioGroupItem (arg : obj) : val :=
  let className := or_default (XStr "") (getp "className" arg) in
  let props := rest ["className"] arg in
  el (Host "input") [
    At "type" (XStr "radio"); At "data-slot" (XStr "radio-group-item");
    At "class" (cn [
      XStr "peer size-4 shrink-0 rounded-full border border-input shadow-xs";
      XStr "appearance-none bg-background"; XStr "checked:border-primary";
      XStr "checked:bg-[radial-gradient(circle,var(--color-primary)_40%,transparent_45%)]";
      XStr "focus-visible:ring-ring/50 focus-visible:ring-[3px] outline-none";
      XStr "disabled:cursor-not-allowed disabled:opacity-50"; className]);
    Sp props] [].

(** *** [resizable.js] *)

Definition ResizablePanelGroup (arg : obj) : val :=
  let direction := or_default (XStr "horizontal") (getp "direction" arg) in
  let className := or_default (XStr "") (getp "className" arg) in
  let children := getp "children" arg in
  let props := rest ["direction"; "className"; "children"] arg in
  el (Host "div") [
    At "data-slot" (XStr "resizable-panel-group"); At "data-panel-group-direction" direction;
    At "class" (cn [
      XStr "flex h-full w-full"; js_if (js_is direction "vertical") (XStr "flex-col") (XStr "flex-row");
      className]);
    Sp props] [children].

Definition ResizablePanel (arg : obj) : val :=
  let className := or_default (XStr "") (getp "className" arg) in
  let children := getp "children" arg in
  let props := rest ["className"; "children"] arg in
  el (Host "div") [
    At "data-slot" (XStr "resizable-panel"); At "class" (cn [XStr "flex-1 min-h-0 min-w-0"; className]);
    Sp props] [children].

Definition ResizableHandle (arg : obj) : val :=
  let direction := or_default (XStr "horizontal") (getp "direction" arg) in
  let withHandle := or_default (XBool false) (getp "withHandle" arg) in
  let className := or_default (XStr "") (getp "className" arg) in
  let isVertical := js_is direction "vertical" in
  el (Host "div") [
    At "data-slot" (XStr "resizable-handle");
    At "class" (cn [
      XStr "relative flex items-center justify-center bg-border";
      js_if isVertical (XStr "h-px w-full cursor-row-resize") (XStr "w-px h-full cursor-col-resize"); className])] [
        js_and withHandle (el (Host "div") [
          At "class" (cn [
            XStr "z-10 flex items-center justify-center rounded-sm border bg-border";
            js_if isVertical (XStr "h-3 w-4") (XStr "h-4 w-3")])] [
              el (Host "iconify-icon") [
                At "icon" (js_if isVertical (XStr "lucide:grip-horizontal") (XStr "lucide:grip-vertical"));
                At "width" (XStr "10")] []])].

(** *** [scroll-area.js] *)

Definition ScrollArea (arg : obj) : val :=
  let className := or_default (XStr "") (getp "className" arg) in
  let children := getp "children" arg in
  let props := rest ["className"; "children"] arg in
  el (Host "div") [
    At "data-slot" (XStr "scroll-area");
    At "class" (cn [XStr "relative overflow-auto scrollbar-thin"; className]); Sp props] [children].

(** *** [select.js] *)

Definition Select (arg : obj) : val :=
  let className := or_default (XStr "") (getp "className" arg) in
  let children := getp "children" arg in
  let props := rest ["className"; "children"] arg in
  el (Host "div") [At "data-slot" (XStr "select"); At "class" (cn [XStr "relative"; className])] [
    el (Host "select") [
      At "data-slot" (XStr "select-trigger");
      At "class" (XStr "border-input h-9 w-full appearance-none rounded-md border bg-transparent pl-3 pr-8 py-1 text-sm shadow-xs outline-none focus-visible:border-ring focus-visible:ring-ring/50 focus-visible:ring-[3px] disabled:opacity-50 disabled:cursor-not-allowed");
      Sp props] [children];
    el (Host "iconify-icon") [
      At "icon" (XStr "lucide:chevron-down"); At "width" (XStr "16");
      At "class" (XStr "pointer-events-none absolute right-2 top-1/2 -translate-y-1/2 text-muted-foreground")] []].

Definition SelectGroup (arg : obj) : val :=
  let label := getp "label" arg in
  let children := getp "children" arg in
  let props := rest ["label"; "children"] arg in
  el (Host "optgroup") [At "label" label; Sp props] [children].

Definition SelectItem (arg : obj) : val :=
  let value := getp "value" arg in
  let children := getp "children" arg in
  let props := rest ["value"; "children"] arg in
  el (Host "option") [At "value" value; Sp props] [children].

(** *** [separator.js] *)

Definition Separator (arg : obj) : val :=
  let orientation := or_default (XStr "horizontal") (getp "orientation" arg) in
  let className := or_default (XStr "") (getp "className" arg) in
  let props := rest ["orientation"; "className"] arg in
  el (Host "div") [
    At "data-slot" (XStr "separator"); At "data-orientation" orientation; At "role" (XStr "separator");
    At "class" (cn [
      XStr "bg-border shrink-0 data-[orientation=horizontal]:h-px data-[orientation=horizontal]:w-full data-[orientation=vertical]:h-full data-[orientation=vertical]:w-px";
      className]);
    Sp props] [].

(** *** [sidebar.js] *)

Definition SIDEBAR_MENU_BUTTON_BASE : val := XStr "peer/menu-button flex w-full items-center gap-2 overflow-hidden rounded-md p-2 text-left text-sm outline-hidden ring-sidebar-ring transition-[width,height,padding] hover:bg-sidebar-accent hover:text-sidebar-accent-foreground active:bg-sidebar-accent active:text-sidebar-accent-foreground disabled:pointer-events-none disabled:opacity-50 data-[active=true]:bg-sidebar-accent data-[active=true]:font-medium data-[active=true]:text-sidebar-accent-foreground [&>span:last-child]:truncate [&>svg]:size-4 [&>svg]:shrink-0".

Definition SIDEBAR_MENU_BUTTON_SIZES : val := XObj (attrs [
  At "default" (XStr "h-8 text-sm"); At "sm" (XStr "h-7 text-xs"); At "lg" (XStr "h-12 text-sm")]).

Definition Sidebar (arg : obj) : val :=
  let collapsed := or_default (XBool false) (getp "collapsed" arg) in
  let className := or_default (XStr "") (getp "className" arg) in
  let style := or_default (XObj []) (getp "style" arg) in
  let children := getp "children" arg in
  let props := rest ["collapsed"; "className"; "style"; "children"] arg in
  let sidebarWidth := js_if collapsed (XStr "4rem") (XStr "14rem") in
  el (Host "div") [
    At "data-slot" (XStr "sidebar"); At "data-collapsed" (js_if collapsed (XStr "true") (XStr "false"));
    At "class" (cn [
      XStr "bg-sidebar text-sidebar-foreground flex h-full flex-none flex-col border-r border-sidebar-border";
      className]);
    At "style" (XObj (attrs [
      At "width" sidebarWidth; At "minWidth" sidebarWidth; At "maxWidth" sidebarWidth;
      At "transition" (XStr "width 200ms ease, min-width 200ms ease, max-width 200ms ease");
      Sp (spread_of style)]));
    Sp props] [children].

Definition SidebarHeader (arg : obj) : val :=
  let className := or_default (XStr "") (getp "className" arg) in
  let children := getp "children" arg in
  let props := rest ["className"; "children"] arg in
  el (Host "div") [
    At "data-slot" (XStr "sidebar-header"); At "data-sidebar" (XStr "header");
    At "class" (cn [XStr "flex flex-col gap-2 p-3"; className]); Sp props] [children].

Definition SidebarContent (arg : obj) : val :=
  let className := or_default (XStr "") (getp "className" arg) in
  let children := getp "children" arg in
  let props := rest ["className"; "children"] arg in
  el (Host "div") [
    At "data-slot" (XStr "sidebar-content"); At "data-sidebar" (XStr "content");
    At "class" (cn [XStr "flex min-h-0 flex-1 flex-col gap-2 p-3 overflow-y-auto scrollbar-hidden"; className]);
    Sp props] [children].

Definition SidebarFooter (arg : obj) : val :=
  let className := or_default (XStr "") (getp "className" arg) in
  let children := getp "children" arg in
  let props := rest ["className"; "children"] arg in
  el (Host "div") [
    At "data-slot" (XStr "sidebar-footer"); At "data-sidebar" (XStr "footer");
    At "class" (cn [XStr "flex flex-col gap-2 p-3"; className]); Sp props] [children].

Definition SidebarGroup (arg : obj) : val :=
  let className := or_default (XStr "") (getp "className" arg) in
  let children := getp "children" arg in
  let props := rest ["className"; "children"] arg in
  el (Host "div") [
    At "data-slot" (XStr "sidebar-group"); At "data-sidebar" (XStr "group");
    At "class" (cn [XStr "relative flex w-full min-w-0 flex-col p-0"; className]); Sp props] [children].

Definition SidebarGroupLabel (arg : obj) : val :=
  let className := or_default (XStr "") (getp "className" arg) in
  let children := getp "children" arg in
  let props := rest ["className"; "children"] arg in
  el (Host "div") [
    At "data-slot" (XStr "sidebar-group-label"); At "data-sidebar" (XStr "group-label");
    At "class" (cn [
      XStr "text-sidebar-foreground/70 ring-sidebar-ring flex shrink-0 items-center rounded-md px-2 text-[0.625rem] font-medium uppercase outline-hidden transition-[margin,opacity] duration-200 ease-linear h-8";
      className]);
    Sp props] [children].

Definition SidebarGroupContent (arg : obj) : val :=
  let className := or_default (XStr "") (getp "className" arg) in
  let children := getp "children" arg in
  let props := rest ["className"; "children"] arg in
  el (Host "div") [
    At "data-slot" (XStr "sidebar-group-content"); At "data-sidebar" (XStr "group-content");
    At "class" (cn [XStr "w-full text-sm"; className]); Sp props] [children].

Definition SidebarMenu (arg : obj) : val :=
  let className := or_default (XStr "") (getp "className" arg) in
  let children := getp "children" arg in
  let props := rest ["className"; "children"] arg in
  el (Host "ul") [
    At "data-slot" (XStr "sidebar-menu"); At "data-sidebar" (XStr "menu");
    At "class" (cn [XStr "flex w-full min-w-0 flex-col gap-1"; className]); Sp props] [children].

Definition SidebarMenuItem (arg : obj) : val :=
  let className := or_default (XStr "") (getp "className" arg) in
  let children := getp "children" arg in
  let props := rest ["className"; "children"] arg in
  el (Host "li") [
    At "data-slot" (XStr "sidebar-menu-item"); At "data-sidebar" (XStr "menu-item");
    At "class" (cn [XStr "group/menu-item relative"; className]); Sp props] [children].

Definition SidebarMenuButton (arg : obj) : val :=
  let isActive := or_default (XBool false) (getp "isActive" arg) in
  let size := or_default (XStr "default") (getp "size" arg) in
  let className := or_default (XStr "") (getp "className" arg) in
  let children := getp "children" arg in
  let props := rest ["isActive"; "size"; "className"; "children"] arg in
  el (Host "a") [
    At "data-slot" (XStr "sidebar-menu-button"); At "data-sidebar" (XStr "menu-button");
    At "data-active" (js_if isActive (XStr "true") (XStr "false"));
    At "class" (cn [SIDEBAR_MENU_BUTTON_BASE; index SIDEBAR_MENU_BUTTON_SIZES size; className]); Sp props] [
      children].

Definition SidebarTrigger (arg : obj) : val :=
  let className := or_default (XStr "") (getp "className" arg) in
  let props := rest ["className"] arg in
  el (Host "button") [
    At "data-sidebar" (XStr "trigger"); At "data-slot" (XStr "sidebar-trigger");
    At "class" (cn [
      XStr "inline-flex items-center justify-center gap-2 whitespace-nowrap rounded-md text-sm font-medium transition-all hover:bg-accent hover:text-accent-foreground size-8 shrink-0 outline-none";
      className]);
    Sp props] [
      el (Host "iconify-icon") [At "icon" (XStr "lucide:panel-left"); At "width" (XStr "16")] [];
      el (Host "span") [At "class" (XStr "sr-only")] [XStr "Toggle Sidebar"]].

Definition SidebarInset (arg : obj) : val :=
  let className := or_default (XStr "") (getp "className" arg) in
  let children := getp "children" arg in
  let props := rest ["className"; "children"] arg in
  el (Host "main") [
    At "data-slot" (XStr "sidebar-inset");
    At "class" (cn [
      XStr "bg-background relative flex w-full flex-1 min-w-0 min-h-0 flex-col overflow-hidden"; className]);
    Sp props] [children].

(** *** [skeleton.js] *)

Definition Skeleton (arg : obj) : val :=
  let className := or_default (XStr "") (getp "className" arg) in
  let props := rest ["className"] arg in
  el (Host "div") [
    At "data-slot" (XStr "skeleton"); At "class" (cn [XStr "animate-pulse rounded-md bg-muted"; className]);
    Sp props] [].

(** *** [slider.js] *)

Definition Slider (arg : obj) : val :=
  let className := or_default (XStr "") (getp "className" arg) in
  let props := rest ["className"] arg in
  el (Host "input") [
    At "type" (XStr "range"); At "data-slot" (XStr "slider");
    At "class" (cn [
      XStr "w-full h-1.5 bg-muted rounded-full appearance-none cursor-pointer outline-none";
      XStr "[&::-webkit-slider-thumb]:appearance-none [&::-webkit-slider-thumb]:size-4 [&::-webkit-slider-thumb]:rounded-full [&::-webkit-slider-thumb]:bg-background [&::-webkit-slider-thumb]:border [&::-webkit-slider-thumb]:border-primary [&::-webkit-slider-thumb]:shadow-sm";
      XStr "[&::-moz-range-thumb]:size-4 [&::-moz-range-thumb]:rounded-full [&::-moz-range-thumb]:bg-background [&::-moz-range-thumb]:border [&::-moz-range-thumb]:border-primary";
      XStr "disabled:opacity-50 disabled:cursor-not-allowed"; className]);
    Sp props] [].

(** *** [sonner.js] *)

Definition TOAST_VARIANT : val := XObj (attrs [
  At "default" (XStr "bg-background text-foreground border");
  At "success" (XStr "bg-background text-foreground border border-green-500/50");
  At "error" (XStr "bg-background text-destructive border border-destructive/50");
  At "warning" (XStr "bg-background text-foreground border border-yellow-500/50")]).

Definition Toaster (arg : obj) : val :=
  let position := or_default (XStr "bottom-right") (getp "position" arg) in
  let className := or_default (XStr "") (getp "className" arg) in
  let children := getp "children" arg in
  let props := rest ["position"; "className"; "children"] arg in
  let positionClass := index (XObj (attrs [
    At "top-left" (XStr "top-4 left-4"); At "top-right" (XStr "top-4 right-4");
    At "bottom-left" (XStr "bottom-4 left-4"); At "bottom-right" (XStr "bottom-4 right-4");
    At "top-center" (XStr "top-4 left-1/2 -translate-x-1/2");
    At "bottom-center" (XStr "bottom-4 left-1/2 -translate-x-1/2")])) position in
  el (Host "div") [
    At "data-slot" (XStr "toaster");
    At "class" (cn [XStr "fixed z-50 flex flex-col gap-2 w-full max-w-sm"; positionClass; className]); Sp props] [
      children].

Definition Toast (arg : obj) : val :=
  let variant := or_default (XStr "default") (getp "variant" arg) in
  let title := getp "title" arg in
  let description := getp "description" arg in
  let className := or_default (XStr "") (getp "className" arg) in
  let children := getp "children" arg in
  let props := rest ["variant"; "title"; "description"; "className"; "children"] arg in
  el (Host "div") [
    At "role" (XStr "status"); At "data-slot" (XStr "toast");
    At "class" (cn [
      XStr "group pointer-events-auto relative flex w-full items-center justify-between gap-3 rounded-md p-4 shadow-lg";
      index TOAST_VARIANT variant; className]);
    Sp props] [
      el (Host "div") [At "class" (XStr "grid gap-1")] [
        js_and title (el (Host "div") [At "class" (XStr "text-sm font-semibold")] [title]);
        js_and description (el (Host "div") [At "class" (XStr "text-sm opacity-90")] [description]); children]].

(** *** [spinner.js] *)

Definition Spinner (arg : obj) : val :=
  let size := or_default (XInt 16) (getp "size" arg) in
  let className := or_default (XStr "") (getp "className" arg) in
  let props := rest ["size"; "className"] arg in
  el (Host "iconify-icon") [
    At "data-slot" (XStr "spinner"); At "icon" (XStr "lucide:loader-2"); At "width" size;
    At "class" (cn [XStr "animate-spin"; className]); Sp props] [].

(** *** [switch.js] *)

Definition Switch (arg : obj) : val :=
  let className := or_default (XStr "") (getp "className" arg) in
  let props := rest ["className"] arg in
  el (Host "label") [
    At "data-slot" (XStr "switch");
    At "class" (cn [
      XStr "relative inline-flex h-[1.15rem] w-8 shrink-0 cursor-pointer items-center rounded-full transition-colors";
      XStr "bg-input has-[input:checked]:bg-primary";
      XStr "has-[input:focus-visible]:ring-ring/50 has-[input:focus-visible]:ring-[3px]";
      XStr "has-[input:disabled]:opacity-50 has-[input:disabled]:cursor-not-allowed"; className])] [
        el (Host "input") [At "type" (XStr "checkbox"); At "class" (XStr "peer sr-only"); Sp props] [];
        el (Host "span") [
          At "aria-hidden" (XStr "true");
          At "class" (XStr "pointer-events-none block size-4 rounded-full bg-background shadow-sm ring-0 transition-transform translate-x-0.5 peer-checked:translate-x-[calc(100%-0.125rem)]")] []].

(** *** [table.js] *)

Definition Table (arg : obj) : val :=
  let className := or_default (XStr "") (getp "className" arg) in
  let children := getp "children" arg in
  let props := rest ["className"; "children"] arg in
  el (Host "div") [At "data-slot" (XStr "table-container"); At "class" (XStr "relative w-full overflow-auto")] [
    el (Host "table") [
      At "data-slot" (XStr "table"); At "class" (cn [XStr "w-full caption-bottom text-sm"; className]); Sp props] [
        children]].

Definition TableHeader (arg : obj) : val :=
  let className := or_default (XStr "") (getp "className" arg) in
  let children := getp "children" arg in
  let props := rest ["className"; "children"] arg in
  el (Host "thead") [
    At "data-slot" (XStr "table-header"); At "class" (cn [XStr "[&_tr]:border-b"; className]); Sp props] [
      children].

Definition TableBody (arg : obj) : val :=
  let className := or_default (XStr "") (getp "className" arg) in
  let children := getp "children" arg in
  let props := rest ["className"; "children"] arg in
  el (Host "tbody") [
    At "data-slot" (XStr "table-body"); At "class" (cn [XStr "[&_tr:last-child]:border-0"; className]); Sp props] [
      children].

Definition TableFooter (arg : obj) : val :=
  let className := or_default (XStr "") (getp "className" arg) in
  let children := getp "children" arg in
  let props := rest ["className"; "children"] arg in
  el (Host "tfoot") [
    At "data-slot" (XStr "table-footer");
    At "class" (cn [XStr "border-t bg-muted/50 font-medium [&>tr]:last:border-b-0"; className]); Sp props] [
      children].

Definition TableRow (arg : obj) : val :=
  let className := or_default (XStr "") (getp "className" arg) in
  let children := getp "children" arg in
  let props := rest ["className"; "children"] arg in
  el (Host "tr") [
    At "data-slot" (XStr "table-row");
    At "class" (cn [XStr "border-b transition-colors hover:bg-muted/50"; className]); Sp props] [children].

Definition TableHead (arg : obj) : val :=
  let className := or_default (XStr "") (getp "className" arg) in
  let children := getp "children" arg in
  let props := rest ["className"; "children"] arg in
  el (Host "th") [
    At "data-slot" (XStr "table-head");
    At "class" (cn [XStr "h-10 px-2 text-left align-middle font-medium text-muted-foreground"; className]);
    Sp props] [children].

Definition TableCell (arg : obj) : val :=
  let className := or_default (XStr "") (getp "className" arg) in
  let children := getp "children" arg in
  let props := rest ["className"; "children"] arg in
  el (Host "td") [
    At "data-slot" (XStr "table-cell"); At "class" (cn [XStr "p-2 align-middle"; className]); Sp props] [
      children].

Definition TableCaption (arg : obj) : val :=
  let className := or_default (XStr "") (getp "className" arg) in
  let children := getp "children" arg in
  let props := rest ["className"; "children"] arg in
  el (Host "caption") [
    At "data-slot" (XStr "table-caption");
    At "class" (cn [XStr "mt-4 text-sm text-muted-foreground"; className]); Sp props] [children].

(** *** [tabs.js] *)

Definition TabsList (arg : obj) : val :=
  let className := or_default (XStr "") (getp "className" arg) in
  let children := getp "children" arg in
  let props := rest ["className"; "children"] arg in
  el (Host "div") [
    At "data-slot" (XStr "tabs-list"); At "role" (XStr "tablist");
    At "class" (cn [
      XStr "bg-muted text-muted-foreground inline-flex h-9 w-fit items-center justify-center rounded-lg p-[3px]";
      className]);
    Sp props] [children].

Definition TabsTrigger (arg : obj) : val :=
  let active := or_default (XBool false) (getp "active" arg) in
  let className := or_default (XStr "") (getp "className" arg) in
  let children := getp "children" arg in
  let props := rest ["active"; "className"; "children"] arg in
  el (Host "button") [
    At "type" (XStr "button"); At "role" (XStr "tab"); At "data-slot" (XStr "tabs-trigger");
    At "data-state" (js_if active (XStr "active") (XStr "inactive"));
    At "class" (cn [
      XStr "data-[state=active]:bg-background text-foreground inline-flex h-[calc(100%-1px)] flex-1 items-center justify-center gap-1.5 rounded-md border border-transparent px-2 py-1 text-sm font-medium whitespace-nowrap transition-[color,box-shadow] disabled:pointer-events-none disabled:opacity-50 data-[state=active]:shadow-sm [&_svg]:pointer-events-none [&_svg]:shrink-0 [&_svg:not([class*='size-'])]:size-4";
      className]);
    Sp props] [children].

(** *** [textarea.js] *)

Definition Textarea (arg : obj) : val :=
  let className := or_default (XStr "") (getp "className" arg) in
  let props := rest ["className"] arg in
  el (Host "textarea") [
    At "data-slot" (XStr "textarea");
    At "class" (cn [
      XStr "border-input placeholder:text-muted-foreground focus-visible:border-ring focus-visible:ring-ring/50 flex field-sizing-content min-h-16 w-full rounded-md border bg-transparent px-3 py-2 text-base shadow-xs transition-[color,box-shadow] outline-none focus-visible:ring-[3px] disabled:cursor-not-allowed disabled:opacity-50 md:text-sm";
      className]);
    Sp props] [].

(** *** [toggle-group.js] *)

Definition ToggleGroup (arg : obj) : val :=
  let type_ := or_default (XStr "single") (getp "type" arg) in
  let className := or_default (XStr "") (getp "className" arg) in
  let children := getp "children" arg in
  let props := rest ["type"; "className"; "children"] arg in
  el (Host "div") [
    At "data-slot" (XStr "toggle-group"); At "data-type" type_;
    At "role" (js_if (js_is type_ "single") (XStr "radiogroup") (XStr "group"));
    At "class" (cn [XStr "inline-flex items-center justify-center gap-1 rounded-md"; className]); Sp props] [
      children].

(** *** [toggle.js] *)

Definition TOGGLE_VARIANTS : val := XObj (attrs [
  At "default" (XStr "bg-transparent");
  At "outline" (XStr "border border-input bg-transparent shadow-xs hover:bg-accent hover:text-accent-foreground")]).

Definition TOGGLE_SIZES : val := XObj (attrs [
  At "default" (XStr "h-9 px-2 min-w-9"); At "sm" (XStr "h-8 px-1.5 min-w-8");
  At "lg" (XStr "h-10 px-2.5 min-w-10")]).

Definition Toggle (arg : obj) : val :=
  let pressed := or_default (XBool false) (getp "pressed" arg) in
  let variant := or_default (XStr "default") (getp "variant" arg) in
  let size := or_default (XStr "default") (getp "size" arg) in
  let className := or_default (XStr "") (getp "className" arg) in
  let children := getp "children" arg in
  let props := rest ["pressed"; "variant"; "size"; "className"; "children"] arg in
  el (Host "button") [
    At "type" (XStr "button"); At "data-slot" (XStr "toggle");
    At "data-state" (js_if pressed (XStr "on") (XStr "off")); At "aria-pressed" pressed;
    At "class" (cn [
      XStr "inline-flex items-center justify-center gap-2 rounded-md text-sm font-medium transition-colors";
      XStr "hover:bg-muted hover:text-muted-foreground";
      XStr "data-[state=on]:bg-accent data-[state=on]:text-accent-foreground";
      XStr "outline-none focus-visible:ring-ring/50 focus-visible:ring-[3px]";
      XStr "disabled:pointer-events-none disabled:opacity-50"; index TOGGLE_VARIANTS variant;
      index TOGGLE_SIZES size; className]);
    Sp props] [children].

(** *** [tooltip.js] *)

Definition Tooltip (arg : obj) : val :=
  let content := getp "content" arg in
  let side := or_default (XStr "top") (getp "side" arg) in
  let className := or_default (XStr "") (getp "className" arg) in
  let children := getp "children" arg in
  let sideClass := js_if (js_is side "bottom") (XStr "top-full mt-1.5") (js_if (js_is side "right") (XStr "left-full ml-1.5 top-1/2 -translate-y-1/2") (js_if (js_is side "left") (XStr "right-full mr-1.5 top-1/2 -translate-y-1/2") (XStr "bottom-full mb-1.5"))) in
  el (Host "span") [
    At "data-slot" (XStr "tooltip"); At "class" (cn [XStr "relative inline-flex group"; className])] [
      children;
      el (Host "span") [
        At "data-slot" (XStr "tooltip-content"); At "role" (XStr "tooltip");
        At "class" (cn [
          XStr "pointer-events-none absolute left-1/2 -translate-x-1/2 z-50 whitespace-nowrap";
          XStr "rounded-md bg-foreground px-2 py-1 text-xs text-background shadow-md";
          XStr "opacity-0 group-hover:opacity-100 group-focus-within:opacity-100 transition-opacity"; sideClass])] [
            content]].

