(* ===== verification/Parts.v ===== *)
(** * What a component of a kit promises

    A component takes some properties for itself and hands the others to one element it renders, its
    root, under the names and with the values they were given, over the component's own.  [part] says
    where that element is and what is taken, [forwards] is the promise; [attr_get] reads a property
    off the attributes as they are written, which is how the promise is checked of a component. *)
From Stdlib Require Import ZArith Lia List.
From stdpp Require Import base list.
From S2P Require Import Prelude Numbers JsonRead Jsx.
#[local] Open Scope Z_scope.

(** Among the children of an element, and into the children of one. *)
Inductive hop := Nth (i : nat) | Inner.

Record part := {
  pt_name : jsstr;
  render : obj → val;
  shown : obj → bool;              (* the properties under which the root is rendered *)
  takes : list jsstr;              (* the properties it takes for itself, or sets whatever it is given *)
  root : list nat;                 (* the root, through the children of the elements above it *)
  body : option (list hop);        (* where the children go, from the children of the root *)
  styled : option (list nat);      (* the element that gets the classes asked for *)
  merged : bool;                   (* handlers, the style and the reference are composed with its own *)
}.

(** The usual component: one element, with everything on it. *)
Definition at_root (name : jsstr) (C : obj → val) (ks : list jsstr) : part :=
  {| pt_name := name; render := C; shown _ := true; takes := ks; root := []; body := Some []; styled := Some [];
     merged := false |}.

(** A name that is composed with the component's own when it is [merged]. *)
Definition composed (k : jsstr) : bool :=
  is_handler k || str_eqb k "style" || str_eqb k "ref" || startsWith "data-" k.

Fixpoint val_at (path : list hop) (v : val) : val :=
  match path, v with
  | [], _ => v
  | Nth i :: path', XArr l => val_at path' (default XUndef (l !! i))
  | Inner :: path', XEl _ o => val_at path' (getp "children" o)
  | _, _ => XUndef
  end.

(** The caller's own properties are on the root, and his children in its body. *)
Definition forwards (c : part) : Prop :=
  ∀ p, NoDup p.*1 → shown c p = true →
  ∃ t q, at_path (root c) (render c p) = Some (t, q)
    ∧ (∀ k v, k ∉ takes c → merged c && composed k = false → prop_get k p = Some v → prop_get k q = Some v)
    ∧ (∀ path, body c = Some path → val_at path (getp "children" q) = getp "children" p).

(** ** Reading a property off the attributes *)

Definition attr_get (k : jsstr) (l : list attr) : option val :=
  fold_left (λ acc a, match a with
    | At k' v => if str_eqb k' k then Some v else acc
    | Sp b => match prop_get k b with Some v => Some v | None => acc end
    end) l None.

Definition spreads_ok (l : list attr) : Prop :=
  Forall (λ a, match a with At _ _ => True | Sp b => NoDup b.*1 end) l.

Lemma prop_get_attrs k l : spreads_ok l → prop_get k (attrs l) = attr_get k l.
Proof.
  unfold attrs, attr_get. change (@None val) with (prop_get (A := val) k []). generalize (@nil (jsstr * val)).
  induction l as [|[k' v|b] l IH]; intros o Hl; cbn; [done|..]; apply Forall_cons in Hl as [Hb Hl]; rewrite IH by done.
  - f_equal. destruct (str_eqb k' k) eqn:E.
    + apply str_eqb_eq in E as ->. apply prop_get_set_eq.
    + apply str_eqb_neq in E. by apply prop_get_set_ne.
  - f_equal. by apply prop_get_assign.
Qed.

Lemma prop_get_props_of k l kids :
  spreads_ok l → k ≠ "children" ∨ kids = [] → prop_get k (props_of l kids) = attr_get k l.
Proof.
  intros Hl Hk. unfold props_of. destruct Hk as [Hk| ->]; [rewrite prop_get_with_children by done|];
    by apply prop_get_attrs.
Qed.

Lemma getp_props_of k l kids : spreads_ok l → k ≠ "children" → getp k (props_of l kids) = default XUndef (attr_get k l).
Proof. intros Hl Hk. unfold getp. rewrite prop_get_props_of; auto. Qed.

Lemma prop_get_children l kids :
  kids ≠ [] → prop_get "children" (props_of l kids) = Some (match kids with [c] => c | _ => XArr kids end).
Proof. intros Hk. unfold props_of, with_children. destruct kids as [|? [|??]]; [done|..]; by rewrite prop_get_set_eq. Qed.

Lemma getp_rest ks o k : k ∉ ks → getp k (rest ks o) = getp k o.
Proof. intros Hk. unfold getp. by rewrite prop_get_rest. Qed.

(** Names that are all among those taken. *)
Definition among (a b : list jsstr) : bool := forallb (λ x, bool_decide (x ∈ b)) a.

Lemma not_among a b k : among a b = true → k ∉ b → k ∉ a.
Proof.
  unfold among. intros H Hb Ha. rewrite forallb_forall in H. apply Hb.
  eapply bool_decide_eq_true_1, H. by apply list_elem_of_In.
Qed.

Lemma not_same x b k : among [x] b = true → k ∉ b → k ≠ x.
Proof. intros H Hb ->. eapply not_among; [exact H|exact Hb|]. by left. Qed.

(** ** Checking a component *)

Ltac spreads := repeat constructor; auto with js.

(** A decidable fact about names written out. *)
Ltac decided := eapply bool_decide_eq_true_1; vm_compute; reflexivity.

(** [k ∉ ks] of names written out, and [k ≠ x] of a name, for what is not taken. *)
Ltac not_taken :=
  match goal with
  | H : ?k ∉ ?b |- ?k ∉ ?a => apply (not_among a b k); [vm_compute; reflexivity|exact H]
  | H : ?k ∉ ?b |- ?k ≠ ?x => apply (not_same x b k); [vm_compute; reflexivity|exact H]
  | |- _ ∉ _ => decided
  end.

(** One layer of attributes. *)
Ltac read_attrs :=
  rewrite prop_get_props_of;
    [unfold attr_get; cbn [fold_left]|by spreads|first [by left; not_taken|by left|by right; reflexivity]].

Ltac forward_prop :=
  lazymatch goal with
  | |- prop_get _ (props_of _ _) = _ => read_attrs; forward_prop
  | |- context [prop_get ?k (rest ?ks ?o)] => rewrite (prop_get_rest ks o k) by not_taken; forward_prop
  | H : prop_get ?k ?o = Some ?v |- context [prop_get ?k ?o] => rewrite H; forward_prop
  | |- context [prop_get ?k (props_of ?l ?kids)] =>
    let v := open_constr:(_ : val) in
    let E := fresh in
    assert (prop_get k (props_of l kids) = Some v) as E by forward_prop; rewrite E; clear E; forward_prop
  | |- context [str_eqb ?a ?k] => rewrite (proj2 (str_eqb_neq a k)) by (apply not_eq_sym; not_taken); forward_prop
  | |- _ => reflexivity
  end.

(** The same for a name that is known. *)
Ltac known_prop :=
  repeat match goal with
  | |- context [str_eqb ?a ?b] =>
    let r := eval vm_compute in (str_eqb a b) in change (str_eqb a b) with r; cbn [fold_left]
  | |- context [prop_get "children" (props_of ?l (?c :: ?kids))] => rewrite (prop_get_children l (c :: kids)) by done
  | |- context [prop_get ?k (props_of ?l ?kids)] =>
    rewrite (prop_get_props_of k l kids);
      [unfold attr_get; cbn [fold_left]|by spreads|first [by left|by right; reflexivity]]
  | |- context [prop_get ?k (attrs ?l)] => rewrite (prop_get_attrs k l) by spreads; unfold attr_get; cbn [fold_left]
  | |- context [prop_get ?k (rest ?ks ?o)] =>
    first [rewrite (prop_get_rest ks o k) by not_taken
          |rewrite (prop_get_rest_in ks o k) by decided]
  end.

Ltac body_prop :=
  unfold getp; known_prop; try reflexivity;
  match goal with |- context [prop_get ?k ?o] => by destruct (prop_get k o) end.

Ltac part_forwards :=
  intros p Hp Hs; eexists _, _; split; [reflexivity|split];
    [cbn [takes]; intros k v Hk _ Hv; forward_prop
    |cbn [body]; first [discriminate|intros path [= <-]; body_prop]].

Ltac each_part tac :=
  lazymatch goal with
  | |- Forall _ [] => by apply Forall_nil
  | |- Forall _ (_ :: _) => apply Forall_cons; split; [tac|each_part tac]
  end.


(** A component at its properties is replaced by what it renders. *)
Ltac open_part p :=
  match goal with |- context [at_path _ (?C p)] =>
    let t := eval red in (C p) in let t := eval cbv zeta in t in change (C p) with t end.
