(* ===== verification/Chart.v ===== *)
(** * The charts

    [src/web/src/components/ui/chart.tsx]: the colours a chart declares for its series, and what its
    tooltip and its legend show of the entries the library of charts hands them.  A configuration is
    an object with an object for each series; an entry is an object with its fields, and an array or
    an element in its place counts as an object with no properties of its own. *)
From Stdlib Require Import ZArith Lia List.
From stdpp Require Import base list sets gmap.
From S2P Require Import Prelude Numbers JsonRead Dates I18n Types UsagePage Jsx UiKit Parts.
#[local] Open Scope Z_scope.

(** ** The configuration of an entry *)

(** An object, in the sense of [typeof], that is not [null]. *)
Definition object_of (v : val) : option obj :=
  match v with XObj o => Some o | XArr _ | XEl _ _ => Some [] | _ => None end.

(** [key in o] and the value is a string. *)
Definition text_prop (key : jsstr) (o : obj) : option jsstr :=
  match prop_get key o with Some (XStr s) => Some s | _ => None end.

Definition getPayloadConfigFromPayload (config : obj) (payload : val) (key : jsstr) : val :=
  match object_of payload with
  | None => XUndef
  | Some o =>
    let payloadPayload := match prop_get "payload" o with Some p => object_of p | None => None end in
    let configLabelKey :=
      match text_prop key o with
      | Some s => s
      | None => match payloadPayload with
                | Some p => default key (text_prop key p)
                | None => key
                end
      end in
    match prop_get configLabelKey config with Some c => c | None => getp key config end
  end.

(** [useChart]: outside a container there is no context. *)
Definition useChart (context : option obj) : result jsstr obj :=
  match context with
  | Some config => Ok config
  | None => Err "useChart must be used within a <ChartContainer />"
  end.

(** ** The colours *)

Definition THEMES : list (jsstr * jsstr) := [("light", ""); ("dark", ".dark")].

Definition entry_colored (c : jsstr * val) : bool := is_true (js_nullish (member "theme" c.2) (member "color" c.2)).
Definition colorConfig (config : obj) : obj := List.filter entry_colored config.

Definition item_color (theme : jsstr) (itemConfig : val) : val :=
  js_nullish (member theme (member "theme" itemConfig)) (member "color" itemConfig).

Definition color_line (theme : jsstr) (c : jsstr * val) : jsstr :=
  let color := item_color theme c.2 in
  if is_true color then "  --color-" ++ c.1 ++ ": " ++ to_text color ++ ";" else [].

Definition theme_block (id : jsstr) (config : obj) (t : jsstr * jsstr) : jsstr :=
  newline ++ t.2 ++ " [data-chart=" ++ id ++ "] {" ++ newline ++
  join newline (map (color_line t.1) (colorConfig config)) ++ newline ++ "}" ++ newline.

Definition ChartStyle (id : jsstr) (config : obj) : val :=
  match colorConfig config with
  | [] => XNull
  | _ => el (Host "style") [
      At "dangerouslySetInnerHTML" (XObj [("__html", XStr (join newline (map (theme_block id config) THEMES)))])] []
  end.

Section chart.
Context `{ClassLib}.
(** [toLocaleString] of a number, and the call of a function the page gave. *)
Context (toLocaleString : num → jsstr) (apply_fn : val → list val → val).

(** [uniqueId] is what [useId] makes. *)
Definition ChartContainer (uniqueId : jsstr) (arg : obj) : val :=
  let id := getp "id" arg in
  let className := getp "className" arg in
  let children := getp "children" arg in
  let config := spread_of (getp "config" arg) in
  let initialDimension :=
    or_default (XObj [("width", XInt 320); ("height", XInt 200)]) (getp "initialDimension" arg) in
  let props := rest ["id"; "className"; "children"; "config"; "initialDimension"] arg in
  let chartId := "chart-" ++ to_text (js_nullish id (XStr (List.filter (λ c, negb (c =? 58)) uniqueId))) in
  el (Ext "ChartContext.Provider") [At "value" (XObj [("config", XObj config)])] [
    el (Host "div") [
      At "data-slot" (XStr "chart"); At "data-chart" (XStr chartId);
      At "className" (cn [
        XStr "flex aspect-video justify-center text-xs [&_.recharts-cartesian-axis-tick_text]:fill-muted-foreground [&_.recharts-cartesian-grid_line[stroke='#ccc']]:stroke-border/50 [&_.recharts-curve.recharts-tooltip-cursor]:stroke-border [&_.recharts-dot[stroke='#fff']]:stroke-transparent [&_.recharts-layer]:outline-hidden [&_.recharts-polar-grid_[stroke='#ccc']]:stroke-border [&_.recharts-radial-bar-background-sector]:fill-muted [&_.recharts-rectangle.recharts-tooltip-cursor]:fill-muted [&_.recharts-reference-line_[stroke='#ccc']]:stroke-border [&_.recharts-sector]:outline-hidden [&_.recharts-sector[stroke='#fff']]:stroke-transparent [&_.recharts-surface]:outline-hidden";
        className]);
      Sp props] [
      ChartStyle chartId config;
      el (Ext "RechartsPrimitive.ResponsiveContainer") [At "initialDimension" initialDimension] [children]]].

(** ** The tooltip *)

Definition items_of (payload : val) : list val := match payload with XArr l => l | _ => [] end.

(** An icon of the configuration is a component. *)
Definition icon_el (icon : val) : val := el (Own (to_text icon)) [] [].

Definition tooltipLabel (config : obj) (arg : obj) : val :=
  let hideLabel := or_default (XBool false) (getp "hideLabel" arg) in
  let payload := getp "payload" arg in
  let label := getp "label" arg in
  let labelKey := getp "labelKey" arg in
  let labelFormatter := getp "labelFormatter" arg in
  let labelClassName := getp "labelClassName" arg in
  match items_of payload with
  | [] => XNull
  | item :: _ =>
    if is_true hideLabel then XNull else
    let key := to_text (js_nullish labelKey
                 (js_nullish (member "dataKey" item) (js_nullish (member "name" item) (XStr "value")))) in
    let itemConfig := getPayloadConfigFromPayload config item key in
    let value :=
      match is_true labelKey, label with
      | false, XStr s => js_nullish (member "label" (getp s config)) label
      | _, _ => member "label" itemConfig
      end in
    if is_true labelFormatter then
      el (Host "div") [At "className" (cn [XStr "font-medium"; labelClassName])] [apply_fn labelFormatter [value; payload]]
    else if is_true value then el (Host "div") [At "className" (cn [XStr "font-medium"; labelClassName])] [value]
    else XNull
  end.

(** The entries shown: those that are not of the type [none]. *)
Definition not_none (item : val) : bool := negb (is_str "none" (member "type" item)).

(** The number of an entry, or its text; nothing without one. *)
Definition value_text (value : val) : jsstr := match value with XNum n => toLocaleString n | _ => to_text value end.

Definition value_el (value : val) : val :=
  if is_nullish value then XBool false
  else el (Host "span") [At "className" (XStr "font-mono font-medium text-foreground tabular-nums")] [XStr (value_text value)].

Definition row_label (config : obj) (nameKey item : val) : val :=
  let key := to_text (js_nullish nameKey
               (js_nullish (member "name" item) (js_nullish (member "dataKey" item) (XStr "value")))) in
  js_nullish (member "label" (getPayloadConfigFromPayload config item key)) (member "name" item).

Definition tooltip_row (config : obj) (arg : obj) (nestLabel : bool) (index : nat) (item : val) : val :=
  let indicator := or_default (XStr "dot") (getp "indicator" arg) in
  let hideIndicator := or_default (XBool false) (getp "hideIndicator" arg) in
  let formatter := getp "formatter" arg in
  let color := getp "color" arg in
  let nameKey := getp "nameKey" arg in
  let key := to_text (js_nullish nameKey
               (js_nullish (member "name" item) (js_nullish (member "dataKey" item) (XStr "value")))) in
  let itemConfig := getPayloadConfigFromPayload config item key in
  let indicatorColor := js_nullish color (js_nullish (member "fill" (member "payload" item)) (member "color" item)) in
  let value := member "value" item in
  el (Host "div") [
    At "className" (cn [
      XStr "flex w-full flex-wrap items-stretch gap-2 [&>svg]:h-2.5 [&>svg]:w-2.5 [&>svg]:text-muted-foreground";
      js_and (js_is indicator "dot") (XStr "items-center")])] [
    if is_true formatter && negb (match value with XUndef => true | _ => false end) && is_true (member "name" item)
    then apply_fn formatter [value; member "name" item; item; XInt (Z.of_nat index); member "payload" item]
    else XArr [
      if is_true (member "icon" itemConfig) then icon_el (member "icon" itemConfig)
      else js_and (js_not hideIndicator) (el (Host "div") [
        At "className" (cn [
          XStr "shrink-0 rounded-[2px] border-(--color-border) bg-(--color-bg)";
          XObj [("h-2.5 w-2.5", js_is indicator "dot"); ("w-1", js_is indicator "line");
                ("w-0 border-[1.5px] border-dashed bg-transparent", js_is indicator "dashed");
                ("my-0.5", js_and (XBool nestLabel) (js_is indicator "dashed"))]]);
        At "style" (XObj [("--color-bg", indicatorColor); ("--color-border", indicatorColor)])] []);
      el (Host "div") [
        At "className" (cn [
          XStr "flex flex-1 justify-between leading-none"; XStr (if nestLabel then "items-end" else "items-center")])] [
        el (Host "div") [At "className" (XStr "grid gap-1.5")] [
          if nestLabel then tooltipLabel config arg else XNull;
          el (Host "span") [At "className" (XStr "text-muted-foreground")] [row_label config nameKey item]];
        value_el value]]].

Definition ChartTooltipContent (context : option obj) (arg : obj) : result jsstr val :=
  config <-? useChart context;;
  let payload := getp "payload" arg in
  let indicator := or_default (XStr "dot") (getp "indicator" arg) in
  let className := getp "className" arg in
  match items_of payload with
  | [] => Ok XNull
  | items =>
    if negb (is_true (getp "active" arg)) then Ok XNull else
    let nestLabel := (length items =? 1)%nat && negb (is_str "dot" indicator) in
    Ok (el (Host "div") [
      At "className" (cn [
        XStr "grid min-w-32 items-start gap-1.5 rounded-lg border border-border/50 bg-background px-2.5 py-1.5 text-xs shadow-xl";
        className])] [
      if nestLabel then XNull else tooltipLabel config arg;
      el (Host "div") [At "className" (XStr "grid gap-1.5")] [
        XArr (imap (tooltip_row config arg nestLabel) (List.filter not_none items))]])
  end.

(** ** The legend *)

Definition legend_row (config : obj) (hideIcon nameKey item : val) : val :=
  let key := to_text (js_nullish nameKey (js_nullish (member "dataKey" item) (XStr "value"))) in
  let itemConfig := getPayloadConfigFromPayload config item key in
  el (Host "div") [
    At "className" (cn [XStr "flex items-center gap-1.5 [&>svg]:h-3 [&>svg]:w-3 [&>svg]:text-muted-foreground"])] [
    if is_true (member "icon" itemConfig) && negb (is_true hideIcon) then icon_el (member "icon" itemConfig)
    else el (Host "div") [
      At "className" (XStr "h-2 w-2 shrink-0 rounded-[2px]");
      At "style" (XObj [("backgroundColor", member "color" item)])] [];
    member "label" itemConfig].

Definition ChartLegendContent (context : option obj) (arg : obj) : result jsstr val :=
  config <-? useChart context;;
  let payload := getp "payload" arg in
  let hideIcon := or_default (XBool false) (getp "hideIcon" arg) in
  let verticalAlign := or_default (XStr "bottom") (getp "verticalAlign" arg) in
  match items_of payload with
  | [] => Ok XNull
  | items =>
    Ok (el (Host "div") [
      At "className" (cn [
        XStr "flex items-center justify-center gap-4"; js_if (js_is verticalAlign "top") (XStr "pb-3") (XStr "pt-3");
        getp "className" arg])] [
      XArr (map (legend_row config hideIcon (getp "nameKey" arg)) (List.filter not_none items))])
  end.
End chart.

(** ** The chart of the usage page *)

(** [chartConfig] of [routes/usage/-components/page.tsx], and the series it draws: the field of a point
    with the colour of its bars. *)
Definition chartConfig (t : jsstr → jsstr) : obj := [
  ("identify", XObj [("label", XStr (t "usage.operationIdentify")); ("color", XStr "var(--chart-1)")]);
  ("resolve", XObj [("label", XStr (t "usage.operationResolve")); ("color", XStr "var(--chart-2)")])].

Definition bars (v : view) : list (jsstr * jsstr) :=
  (if showIdentify v then [("identify", "var(--color-identify)")] else []) ++
  (if showResolve v then [("resolve", "var(--color-resolve)")] else []).

(** A point of the chart as the object the library is given. *)
Definition point_val (p : jsstr * day_usage) : val :=
  XObj [("day", XStr p.1); ("identify", XInt (du_identify p.2)); ("resolve", XInt (du_resolve p.2))].

(** What the library hands the tooltip for a series at a point: the series by its field, which is also
    its name, the value of the field, and the point itself; no field is named after the series. *)
Definition entry_at (p : jsstr * day_usage) (bar : jsstr * jsstr) (entry : val) : Prop :=
  ∃ o, entry = XObj o ∧ getp "dataKey" o = XStr bar.1 ∧ getp "name" o = XStr bar.1
    ∧ getp "value" o = member bar.1 (point_val p) ∧ prop_get "payload" o = Some (point_val p)
    ∧ getp "type" o = XUndef ∧ prop_get bar.1 o = None.

Definition count_of (bar : jsstr) (u : day_usage) : Z := if str_eqb bar "identify" then du_identify u else du_resolve u.
Definition name_of (t : jsstr → jsstr) (bar : jsstr) : jsstr :=
  if str_eqb bar "identify" then t "usage.operationIdentify" else t "usage.operationResolve".

(** The header of a tooltip, and the label and the figure of each of its rows. *)
Definition tooltip_header (e : val) : val := val_at [Inner; Nth 0; Inner] e.
Definition tooltip_rows (e : val) : list (val * val) :=
  map (λ row, (val_at [Inner; Nth 1; Inner; Nth 0; Inner; Nth 1; Inner] row,
               val_at [Inner; Nth 1; Inner; Nth 1; Inner] row))
      (items_of (val_at [Inner; Nth 1; Inner] e)).

Lemma digit_text_not day key : Forall (λ c, is_digit c = true) day → key ∈ ["identify"; "resolve"] → day ≠ key.
Proof.
  intros Hd Hk ->. rewrite !elem_of_cons, elem_of_nil in Hk.
  destruct Hk as [->|[->|[]]]; apply Forall_cons in Hd as [Hc _]; vm_compute in Hc; discriminate.
Qed.

Lemma chart_day v i day u : chart v !! i = Some (day, u) → Forall (λ c, is_digit c = true) day ∧ day ≠ [].
Proof.
  unfold chart, chart_of. rewrite list_lookup_fmap. intros (k & _ & [= -> _])%fmap_Some.
  pose proof (digits_spec (Z.of_nat k + 1) ltac:(lia)) as [_ Hd].
  assert (Hs : show_int (Z.of_nat k + 1) = digits (Z.of_nat k + 1)) by (unfold show_int; case_cond; bool_to_prop; [lia|done]).
  rewrite Hs. pose proof (digits_nonnil (Z.of_nat k + 1) ltac:(lia)).
  split; repeat case_match; by repeat constructor.
Qed.

Lemma item_config t p bar o :
  bar ∈ ["identify"; "resolve"] → prop_get bar o = None → prop_get "payload" o = Some (point_val p) →
  getPayloadConfigFromPayload (chartConfig t) (XObj o) bar = getp bar (chartConfig t).
Proof.
  intros Hb Hn Hp. unfold getPayloadConfigFromPayload, text_prop. cbn [object_of]. rewrite Hn, Hp.
  rewrite !elem_of_cons, elem_of_nil in Hb. destruct Hb as [->|[->|[]]]; reflexivity.
Qed.

Section usage_chart.
Context `{ClassLib} (toLocaleString : num → jsstr) (apply_fn : val → list val → val) (t : jsstr → jsstr).

Lemma bars_names v bar : bar ∈ bars v → bar.1 ∈ ["identify"; "resolve"].
Proof using.
  unfold bars. rewrite elem_of_app. intros [Hb|Hb]; case_match; rewrite ?list_elem_of_singleton, ?elem_of_nil in Hb;
    try done; subst bar; [left|right; left].
Qed.

(** A row over an entry of a series. *)
Lemma usage_row p bar entry arg i nest :
  bar.1 ∈ ["identify"; "resolve"] → entry_at p bar entry → getp "formatter" arg = XUndef → getp "nameKey" arg = XUndef →
  let row := tooltip_row toLocaleString apply_fn (chartConfig t) arg nest i entry in
  val_at [Inner; Nth 1; Inner; Nth 0; Inner; Nth 1; Inner] row = XStr (name_of t bar.1)
  ∧ val_at [Inner; Nth 1; Inner; Nth 1; Inner] row = XStr (toLocaleString (num_of_Z (count_of bar.1 p.2))).
Proof using.
  intros Hb (o & -> & Hdata & Hname & Hvalue & Hpay & Htype & Hno) Hf Hk row. unfold row, tooltip_row, row_label. rewrite Hf, Hk.
  cbn [member is_true is_nullish js_nullish andb]. rewrite Hname. cbn [is_nullish js_nullish to_text].
  unfold js_nullish. cbn [is_nullish]. cbn [to_text]. rewrite (item_config t p) by done. rewrite Hvalue.
  rewrite !elem_of_cons, elem_of_nil in Hb. destruct Hb as [->|[->|[]]]; split; reflexivity.
Qed.

(** C23. The tooltip of the usage chart names the day it is over and, for each series on show in its order,
    the operation and its requests of that day. *)
Theorem usage_tooltip v i day u entries :
  chart v !! i = Some (day, u) → bars v ≠ [] → Forall2 (entry_at (day, u)) (bars v) entries →
  ∃ e, ChartTooltipContent toLocaleString apply_fn (Some (chartConfig t))
         [("active", XBool true); ("payload", XArr entries); ("label", XStr day)] = Ok e
    ∧ tooltip_header e = XStr day
    ∧ tooltip_rows e = map (λ bar, (XStr (name_of t bar.1), XStr (toLocaleString (num_of_Z (count_of bar.1 u))))) (bars v).
Proof using.
  intros Hday Hne Hent. destruct (chart_day v i day u Hday) as [Hdig Hnil].
  set (arg := [("active", XBool true); ("payload", XArr entries); ("label", XStr day)]).
  assert (Hh : tooltipLabel apply_fn (chartConfig t) arg = el (Host "div") [At "className" (cn [XStr "font-medium"; XUndef])] [XStr day]).
  { assert (Hcfg : getp day (chartConfig t) = XUndef).
    { unfold getp, chartConfig. cbn [prop_get].
      rewrite !(proj2 (str_eqb_neq _ _)); [done|..]; apply not_eq_sym, digit_text_not; set_solver. }
    unfold tooltipLabel. change (getp "payload" arg) with (XArr entries). change (getp "label" arg) with (XStr day).
    change (getp "hideLabel" arg) with XUndef. change (getp "labelKey" arg) with XUndef.
    change (getp "labelFormatter" arg) with XUndef. change (getp "labelClassName" arg) with XUndef.
    destruct Hent as [|bar entry bs es Hb _]; [done|]. cbn [items_of or_default is_true]. rewrite Hcfg.
    cbn [member js_nullish is_nullish is_true]. by destruct day. }
  assert (Hall : List.filter not_none entries = entries).
  { clear -Hent. induction Hent as [|bar entry bs es (o & -> & _ & _ & _ & _ & Ht & _) _ IH]; [done|].
    cbn [List.filter]. unfold not_none at 1. cbn [member]. by rewrite Ht, IH. }
  unfold ChartTooltipContent. cbn [useChart result_bind].
  change (getp "payload" arg) with (XArr entries). change (getp "active" arg) with (XBool true).
  change (getp "indicator" arg) with XUndef. cbn [items_of is_true negb].
  destruct entries as [|entry es]; [by apply Forall2_nil_inv_r in Hent|]. rewrite Hall.
  eexists. split; [reflexivity|]. cbn [or_default is_str]. rewrite andb_false_r, Hh. split; [reflexivity|].
  unfold tooltip_rows. change (items_of (val_at _ _)) with
    (imap (tooltip_row toLocaleString apply_fn (chartConfig t) arg false) (entry :: es)).
  assert (Hrow : ∀ n bar x, bar ∈ bars v → entry_at (day, u) bar x → _) by
    exact (λ n bar x Hb Hx, usage_row (day, u) bar x arg n false (bars_names v bar Hb) Hx eq_refl eq_refl).
  revert Hrow. generalize (tooltip_row toLocaleString apply_fn (chartConfig t) arg false).
  clear -Hent. induction Hent as [|bar x bs xs Hx _ IH]; intros f Hrow; [done|].
  rewrite imap_cons. cbn [map]. destruct (Hrow 0%nat bar x) as [-> ->]; [by left|done|]. f_equal.
  apply IH. intros n bar' x' Hb' Hx'. apply (Hrow (S n)); [by right|done].
Qed.

(** The colours of the series are declared in both themes, under the very names the bars refer to. *)
Theorem usage_colors v id bar :
  bar ∈ bars v →
  bar.2 = "var(--color-" ++ bar.1 ++ ")" ∧
  ∃ css, ChartStyle id (chartConfig t) = el (Host "style") [At "dangerouslySetInnerHTML" (XObj [("__html", XStr css)])] []
    ∧ css = join newline (map (theme_block id (chartConfig t)) THEMES)
    ∧ ∀ th, th ∈ THEMES →
        ∃ color, ("  --color-" ++ bar.1 ++ ": " ++ color ++ ";") ∈ map (color_line th.1) (colorConfig (chartConfig t))
          ∧ color ≠ [].
Proof using.
  intros Hb. split.
  - unfold bars in Hb. rewrite elem_of_app in Hb.
    destruct Hb as [Hb|Hb]; case_match; rewrite ?list_elem_of_singleton, ?elem_of_nil in Hb; try done; by subst bar.
  - eexists. split; [reflexivity|]. split; [reflexivity|]. intros th Hth. pose proof (bars_names v bar Hb) as Hn.
    unfold THEMES in Hth. rewrite !elem_of_cons, elem_of_nil in Hn. rewrite !elem_of_cons, elem_of_nil in Hth.
    destruct Hn as [->|[->|[]]]; [exists "var(--chart-1)"|exists "var(--chart-2)"];
      (split; [|done]); destruct Hth as [->|[->|[]]]; first [by left|right; by left].
Qed.
End usage_chart.

(** ** Examples *)

(** An entry as the library makes it. *)
Definition entry_of (p : jsstr * day_usage) (bar : jsstr * jsstr) : val :=
  XObj [("dataKey", XStr bar.1); ("name", XStr bar.1); ("value", member bar.1 (point_val p)); ("payload", point_val p);
        ("color", XStr bar.2)].

Definition demo_day : jsstr * day_usage := ("02", default no_usage (snd <$> chart demo_view !! 1%nat)).

Lemma usage_tooltip_witness :
  ∃ e, ChartTooltipContent (H := joined_classes) num_text (λ _ _, XNull) (Some (chartConfig (λ k, k)))
         [("active", XBool true); ("payload", XArr (map (entry_of demo_day) (bars demo_view))); ("label", XStr "02")] = Ok e
    ∧ tooltip_header e = XStr "02".
Proof.
  assert (Hd : chart demo_view !! 1%nat = Some ("02", demo_day.2)) by (vm_compute; reflexivity).
  assert (Hb : bars demo_view ≠ []) by discriminate.
  destruct (usage_tooltip (H := joined_classes) num_text (λ _ _, XNull) (λ k, k) demo_view 1 "02" demo_day.2
    (map (entry_of demo_day) (bars demo_view)) Hd Hb) as (e & He & Hh & _).
  - vm_compute bars. repeat constructor; eexists; split_and!; reflexivity.
  - exists e. split; [exact He|exact Hh].
Defined.

Lemma usage_colors_witness :
  ∃ color, ("  --color-resolve: " ++ color ++ ";") ∈ map (color_line "dark") (colorConfig (chartConfig (λ k, k))) ∧ color ≠ [].
Proof.
  assert (Hb : ("resolve", "var(--color-resolve)") ∈ bars demo_view) by (by left).
  destruct (usage_colors (λ k, k) demo_view "chart-1" _ Hb) as [_ (css & _ & _ & Hc)].
  exact (Hc ("dark", ".dark") ltac:(right; by left)).
Defined.
