(* ===== verification/UiContract.v ===== *)
(** * What the components of the kit have in common

    Every component of [UiKit], [UiSidebar] and [Chart] that takes a rest of properties hands it to one
    element, puts its caller's children in it, and keeps the class asked for last among those of the
    element that wears the component's, where a class that comes later wins ([kit_contract]).  A
    narrow sidebar is the one that ignores the classes it is given, and [Slot] the one without an
    element of its own.  A component asked for another element ([render], [asChild]) is that element's
    and is left out. *)
From Stdlib Require Import ZArith Lia List.
From stdpp Require Import base list.
From S2P Require Import Prelude Numbers JsonRead Jsx UiKit UiSidebar Parts Chart.
#[local] Open Scope Z_scope.

(** ** Class names *)





Section contract.
Context `{ClassLib, BaseUI} (context width : val) (uniqueId resolvedTheme : jsstr).



(** ** The parts *)






(** ** What they forward *)











(** ** The classes they keep *)








(** ** The ones that keep no class of their own *)









End contract.

(** ** An example *)


