(* ===== verification/ProtoWidgets.v ===== *)
(** * The widgets of the prototype

    The components of [proto/components/ui] that compute: the grid of the calendar, the boxes of a one
    time password and what typing in them does, the shapes of the charts, the options of the combobox,
    the bar of progress, and when a click closes a dialog.  A day of the calendar is a date of the
    language in local time, for which a day is a day ([UsagePage.Date_local]). *)
From Stdlib Require Import ZArith Lia List.
From stdpp Require Import base list sets.
From S2P Require Import Prelude Numbers JsonRead Dates UsagePage Jsx ProtoKit.
#[local] Open Scope Z_scope.

(** ** [calendar.js] *)

Definition WEEK : list jsstr := ["Su"; "Mo"; "Tu"; "We"; "Th"; "Fr"; "Sa"].

(** [getDay()]: the day of the week, from Sunday. *)
Definition getDay (d : Z) : Z := (Day d + 4) mod 7.

Definition startOffset (month : Z) : Z := getDay (Date_local (getFullYear month) (getMonth month) 1).
Definition monthDays (month : Z) : Z := getDate (Date_local (getFullYear month) (getMonth month + 1) 0).

(** [while (cells.length < 42) cells.push(null)]; 42 turns are enough ([fill_length]). *)
Fixpoint fill (fuel : nat) (cells : list (option Z)) : list (option Z) :=
  match fuel with
  | O => cells
  | S f => if (length cells <? 42)%nat then fill f (cells ++ [None]) else cells
  end.

Definition cells (month : Z) : list (option Z) :=
  let cells := fold_left (λ cells _, cells ++ [None]) (seqZ 0 (startOffset month)) [] in
  let cells := fold_left (λ cells d, cells ++ [Some d]) (seqZ 1 (monthDays month)) cells in
  fill 42 cells.

(** [selected] is [None] when it is no date. *)
Definition selectedDay (month : Z) (selected : option Z) : option Z :=
  match selected with
  | Some s => if getMonth s =? getMonth month then Some (getDate s) else None
  | None => None
  end.

(** The classes of a cell: an empty one is invisible, and equal to no selection. *)
Definition cell_class (selected : option Z) (d : option Z) : val :=
  cn [XStr "size-8 text-sm rounded-md inline-flex items-center justify-center transition-colors";
      match d with None => XStr "invisible" | Some _ => XStr "hover:bg-accent" end;
      if decide (d = selected) then XStr "bg-primary text-primary-foreground hover:bg-primary/90" else XBool false].

Definition calendar_cell (selected : option Z) (d : option Z) : val :=
  el (Host "button") [
    At "type" (XStr "button"); At "disabled" (XBool (bool_decide (d = None)));
    At "class" (cell_class selected d)] [match d with None => XStr "" | Some d => XInt d end].

(** [month] and [selected] are dates; [monthName] is what [toLocaleString] makes of the month. *)
Definition Calendar (month : Z) (monthName : jsstr) (selected : option Z) (arg : obj) : val :=
  let className := or_default (XStr "") (getp "className" arg) in
  let props := rest ["month"; "selected"; "className"] arg in
  let arrow icon := el (Host "button") [
    At "type" (XStr "button");
    At "class" (XStr "size-7 inline-flex items-center justify-center rounded-md hover:bg-accent")] [
      el (Host "iconify-icon") [At "icon" (XStr icon); At "width" (XStr "14")] []] in
  el (Host "div") [
    At "data-slot" (XStr "calendar");
    At "class" (cn [XStr "p-3 rounded-md border bg-background w-fit"; className]); Sp props] [
    el (Host "div") [At "class" (XStr "flex items-center justify-between mb-3 px-1")] [
      arrow "lucide:chevron-left"; el (Host "span") [At "class" (XStr "text-sm font-medium")] [XStr monthName];
      arrow "lucide:chevron-right"];
    el (Host "div") [At "class" (XStr "grid grid-cols-7 gap-1 text-xs text-muted-foreground mb-1")] [
      XArr (map (λ d, el (Host "div") [At "class" (XStr "text-center")] [XStr d]) WEEK)];
    el (Host "div") [At "class" (XStr "grid grid-cols-7 gap-1")] [
      XArr (map (calendar_cell (selectedDay month selected)) (cells month))]].

(** ** [input-otp.js] *)

(** What typing leaves in a box: the last code unit of its text, if it is a digit. *)
Definition box_digit (text : jsstr) : jsstr := List.filter is_digit (slice_last 1 text).

(** [chars[idx] = v] and [join]: a place past the end leaves holes, which are joined as nothing. *)
Definition put_char (value : jsstr) (idx : nat) (v : jsstr) : list jsstr :=
  let chars := (λ c, [c]) <$> value in
  if (idx <? length chars)%nat then <[idx := v]> chars
  else chars ++ replicate (idx - length chars) [] ++ [v].

(** [handleInput]: what [onChange] is given, and the box that is focused. *)
Definition handleInput (len : nat) (value text : jsstr) (idx : nat) : jsstr * option nat :=
  let v := box_digit text in
  let next := take len (concat (put_char value idx v)) in
  (next, if truthy v && (Z.of_nat idx <? Z.of_nat len - 1) then Some (S idx) else None).

(** [handleKey]: Backspace in an empty box goes back. *)
Definition handleKey (key text : jsstr) (idx : nat) : option nat :=
  if str_eqb key "Backspace" && negb (truthy text) && (0 <? idx)%nat then Some (idx - 1)%nat else None.

(** [value[i] ?? ""], the text of a box. *)
Definition otp_box (value : jsstr) (i : nat) : jsstr := match value !! i with Some c => [c] | None => [] end.

Definition InputOTP (len : nat) (value : jsstr) (arg : obj) : val :=
  let className := or_default (XStr "") (getp "className" arg) in
  let onChange := getp "onChange" arg in
  let props := rest ["length"; "className"; "value"; "onChange"] arg in
  el (Host "div") [
    At "data-slot" (XStr "input-otp"); At "class" (cn [XStr "flex items-center"; className]); Sp props] [
    XArr (map (λ i, el (Host "input") [
      At "type" (XStr "text"); At "inputmode" (XStr "numeric"); At "maxlength" (XStr "1");
      At "value" (XStr (otp_box value i));
      At "onInput" (XFn "(e) => handleInput(e, i)" [XInt (Z.of_nat i); XStr value; XInt (Z.of_nat len); onChange]);
      At "onKeyDown" (XFn "(e) => handleKey(e, i)" [XInt (Z.of_nat i)]);
      At "class" (cn [
        XStr "size-9 text-center text-sm border-y border-r border-input shadow-xs outline-none transition-all";
        XStr "first:rounded-l-md first:border-l last:rounded-r-md";
        XStr "focus-visible:z-10 focus-visible:border-ring focus-visible:ring-3 focus-visible:ring-ring/50"])] [])
      (seq 0 len))].

(** ** [chart.js], [progress.js] and [combobox.js] *)

(** The bars: an array of heights, in percent. *)
Definition BarChartPlaceholder (data : list num) (className : val) : val :=
  el (Host "div") [At "class" (cn [XStr "flex items-end gap-2 h-full"; className])] [
    XArr (map (λ h, el (Host "div") [
      At "class" (XStr "flex-1 rounded-t bg-primary/80");
      At "style" (XObj (attrs [At "height" (XStr (num_text h ++ "%"))]))] []) data)].

(** [Math.max(...data)]: [NaN] if one is, [-Infinity] of none. *)
Definition max_of (data : list num) : num :=
  fold_left (λ a b, match a, b with NaN, _ | _, NaN => NaN | _, _ => if num_lt a b then b else a end) data (Infinite true).

Definition line_point (data : list num) (i : nat) (v : num) : jsstr :=
  num_text (num_mul (num_div (num_of_Z (Z.of_nat i)) (num_of_Z (Z.of_nat (length data) - 1))) (num_of_Z 100)) ++ "," ++
  num_text (num_sub (num_of_Z 100) (num_mul (num_div v (max_of data)) (num_of_Z 100))).

Definition line_points (data : list num) : jsstr := join " " (imap (line_point data) data).

Definition LineChartPlaceholder (data : list num) (className : val) : val :=
  match data with
  | [] => XNull
  | _ =>
    el (Host "svg") [
      At "viewBox" (XStr "0 0 100 100"); At "preserveAspectRatio" (XStr "none");
      At "class" (cn [XStr "w-full h-full"; className])] [
      el (Host "polyline") [
        At "fill" (XStr "none"); At "stroke" (XStr "currentColor"); At "stroke-width" (XStr "2");
        At "vector-effect" (XStr "non-scaling-stroke"); At "points" (XStr (line_points data))] []]
  end.

(** The width of the bar of a progress. *)
Definition progress_width (value max : num) : jsstr := num_text (num_mul (num_div value max) (num_of_Z 100)) ++ "%".

Definition Progress (value max : num) (arg : obj) : val :=
  let className := or_default (XStr "") (getp "className" arg) in
  let props := rest ["value"; "max"; "className"] arg in
  el (Host "div") [
    At "data-slot" (XStr "progress"); At "role" (XStr "progressbar"); At "aria-valuenow" (XNum value);
    At "aria-valuemin" (XStr "0"); At "aria-valuemax" (XNum max);
    At "class" (cn [XStr "relative h-2 w-full overflow-hidden rounded-full bg-primary/20"; className]); Sp props] [
    el (Host "div") [
      At "data-slot" (XStr "progress-indicator"); At "class" (XStr "h-full bg-primary transition-all");
      At "style" (XObj (attrs [At "width" (XStr (progress_width value max))]))] []].

(** An option is its text, or an object with a value and maybe a label. *)
Definition option_value (opt : val) : val := match opt with XStr _ => opt | _ => member "value" opt end.
Definition option_label (opt : val) : val :=
  match opt with XStr _ => opt | _ => js_nullish (member "label" opt) (member "value" opt) end.

Definition Combobox (options : list val) (arg : obj) : val :=
  let id := getp "id" arg in
  let className := or_default (XStr "") (getp "className" arg) in
  let placeholder := or_default (XStr "Select...") (getp "placeholder" arg) in
  let props := rest ["id"; "options"; "className"; "placeholder"] arg in
  let listId := XStr (to_text id ++ "-options") in
  el (Host "div") [At "data-slot" (XStr "combobox"); At "class" (cn [XStr "relative w-full"; className])] [
    el (Host "input") [
      At "id" id; At "list" listId; At "placeholder" placeholder;
      At "class" (XStr "border-input h-9 w-full rounded-md border bg-transparent px-3 py-1 text-sm shadow-xs outline-none focus-visible:border-ring focus-visible:ring-ring/50 focus-visible:ring-[3px]");
      Sp props] [];
    el (Host "datalist") [At "id" listId] [
      XArr (map (λ opt, el (Host "option") [At "value" (option_value opt)] [option_label opt]) options)]].

(** ** The calendar shows its month *)

Lemma push_all {A B} (f : A → B) (l : list A) k : fold_left (λ acc x, acc ++ [f x]) l k = k ++ (f <$> l).
Proof. revert k. induction l as [|x l IH]; intros k; cbn; [by rewrite app_nil_r|]. by rewrite IH, <- app_assoc. Qed.

Lemma fill_length n c : (42 <= length c + n)%nat → (length c <= 42)%nat → fill n c = c ++ replicate (42 - length c) None.
Proof.
  revert c. induction n as [|n IH]; intros c Hn Hc; cbn [fill].
  - replace (42 - length c)%nat with 0%nat by lia. by rewrite app_nil_r.
  - destruct (Nat.ltb_spec (length c) 42).
    + rewrite IH; rewrite length_app; cbn [length]; [|lia..]. rewrite <- app_assoc. f_equal.
      replace (42 - length c)%nat with (S (42 - (length c + 1))) by lia. done.
    + replace (42 - length c)%nat with 0%nat by lia. by rewrite app_nil_r.
Qed.

Lemma startOffset_bound month : 0 <= startOffset month < 7.
Proof. apply Z.mod_pos_bound. lia. Qed.

Lemma monthDays_is month : 100 <= getFullYear month → monthDays month = DaysInMonth (getFullYear month) (getMonth month).
Proof. intros Hy. apply getDate_last; [done|]. pose proof (getUTCMonth_spec month) as [? _]. done. Qed.

Lemma monthDays_bound month : 100 <= getFullYear month → 28 <= monthDays month <= 31.
Proof.
  intros Hy. rewrite monthDays_is by done. apply DaysInMonth_bound. by pose proof (getUTCMonth_spec month) as [? _].
Qed.

Lemma cells_parts month :
  100 <= getFullYear month →
  cells month = replicate (Z.to_nat (startOffset month)) None ++ (Some <$> seqZ 1 (monthDays month))
                ++ replicate (42 - (Z.to_nat (startOffset month) + Z.to_nat (monthDays month))) None.
Proof.
  intros Hy. pose proof (startOffset_bound month). pose proof (monthDays_bound month Hy). unfold cells.
  rewrite (push_all (λ _, None)), (push_all Some), app_nil_l.
  replace ((λ _, None) <$> seqZ 0 (startOffset month)) with (replicate (Z.to_nat (startOffset month)) (@None Z)).
  2: { symmetry. apply list_eq. intros i. rewrite list_lookup_fmap.
       destruct (decide (i < Z.to_nat (startOffset month))%nat).
       - rewrite lookup_replicate_2, lookup_seqZ_lt by lia. done.
       - rewrite lookup_seqZ_ge by lia. cbn. symmetry. apply lookup_replicate_None. lia. }
  rewrite fill_length; rewrite !length_app, length_replicate, length_fmap, length_seqZ; [by rewrite <- app_assoc|lia..].
Qed.

(** The day of the week of a day of the month. *)
Lemma getDay_of month d :
  100 <= getFullYear month → 1 <= d <= monthDays month →
  getDay (Date_local (getFullYear month) (getMonth month) d) = (startOffset month + d - 1) mod 7.
Proof.
  intros Hy Hd. unfold startOffset, getDay, Date_local, Date_UTC. rewrite !Day_midnight.
  replace ((0 <=? getFullYear month) && (getFullYear month <=? 99)) with false by (symmetry; apply andb_false_iff; right; lia).
  unfold MakeDay. rewrite <- Zminus_mod_idemp_l. rewrite Zplus_mod_idemp_l, Zminus_mod_idemp_l. f_equal. lia.
Qed.

(** C38. The grid of a month has six weeks; each day of the month is in one cell, under its day of the
    week, in order, and the other cells are empty. *)
Theorem calendar_grid month :
  100 <= getFullYear month →
  length (cells month) = 42%nat ∧
  (∀ i d, cells month !! i = Some (Some d) ↔
     1 <= d <= DaysInMonth (getFullYear month) (getMonth month) ∧ Z.of_nat i = startOffset month + d - 1) ∧
  (∀ i d, cells month !! i = Some (Some d) →
     nth_error WEEK (i mod 7) = nth_error WEEK (Z.to_nat (getDay (Date_local (getFullYear month) (getMonth month) d)))
     ∧ Z.of_nat i mod 7 = getDay (Date_local (getFullYear month) (getMonth month) d)).
Proof.
  intros Hy. pose proof (startOffset_bound month) as Ho. pose proof (monthDays_bound month Hy) as Hm.
  assert (Hc : ∀ i d, cells month !! i = Some (Some d) ↔ 1 <= d <= monthDays month ∧ Z.of_nat i = startOffset month + d - 1).
  { intros i d. rewrite cells_parts by done. destruct (decide (i < Z.to_nat (startOffset month))%nat) as [Hi|Hi].
    - rewrite lookup_app_l, lookup_replicate_2 by (rewrite ?length_replicate; lia). split; [done|lia].
    - rewrite lookup_app_r, length_replicate by (rewrite length_replicate; lia).
      destruct (decide (i - Z.to_nat (startOffset month) < Z.to_nat (monthDays month))%nat) as [Hj|Hj].
      + rewrite lookup_app_l, list_lookup_fmap, lookup_seqZ_lt by (rewrite ?length_fmap, ?length_seqZ; lia). cbn.
        split; [intros [= <-]; lia|]. intros [? ?]. do 2 f_equal. lia.
      + rewrite lookup_app_r by (rewrite length_fmap, length_seqZ; lia). split; [|lia].
        intros [E _]%lookup_replicate. done. }
  split_and!.
  - rewrite cells_parts by done. rewrite !length_app, !length_replicate, length_fmap, length_seqZ. lia.
  - intros i d. rewrite <- monthDays_is by done. apply Hc.
  - intros i d [Hd Hi]%Hc. rewrite getDay_of, <- Hi by done. split; [|done]. f_equal.
    apply Nat2Z.inj. rewrite Nat2Z.inj_mod, Z2Nat.id by (apply Z.mod_pos_bound; lia). done.
Qed.

Lemma calendar_grid_witness :
  cells (Date_local 2024 1 15) !! 4%nat = Some (Some 1) ∧ length (cells (Date_local 2024 1 15)) = 42%nat.
Proof.
  assert (Hy : 100 <= getFullYear (Date_local 2024 1 15)) by (by apply Z.leb_le; vm_compute).
  destruct (calendar_grid (Date_local 2024 1 15) Hy) as (Hl & Hc & _). split; [|exact Hl].
  apply Hc. split; [vm_compute; split; discriminate|by vm_compute].
Defined.

(** A selection of the same month of another year is marked too. *)
Example calendar_other_year :
  selectedDay (Date_local 2025 4 1) (Some (Date_local 2024 4 10)) = Some 10.
Proof. vm_compute. reflexivity. Qed.

(** ** Typing a one time password *)

(** What is typed in a box replaces the code unit of its place, or goes after the last one when its
    place is past it. *)
Lemma put_char_value value idx v : concat (put_char value idx v) = take idx value ++ v ++ drop (S idx) value.
Proof.
  assert (Hs : ∀ l : jsstr, concat ((λ c, [c]) <$> l) = l).
  { induction l as [|c l IH]; cbn; [done|]. by rewrite IH. }
  unfold put_char. rewrite length_fmap. destruct (Nat.ltb_spec idx (length value)).
  - rewrite insert_take_drop by (rewrite length_fmap; lia). rewrite concat_app. cbn [concat].
    by rewrite <- fmap_take, <- fmap_drop, !Hs.
  - rewrite !concat_app, Hs, take_ge, drop_ge by lia. f_equal. rewrite app_nil_r. cbn.
    induction (idx - length value)%nat; cbn; [by rewrite app_nil_r|done].
Qed.

(** A password being typed: digits, as many as there are boxes at most. *)
Definition otp_value (len : nat) (value : jsstr) : Prop := Forall (λ c, is_digit c = true) value ∧ (length value <= len)%nat.

Lemma box_digit_digits text : Forall (λ c, is_digit c = true) (box_digit text).
Proof. unfold box_digit. apply Forall_forall. intros c Hc%list_elem_of_In. by apply filter_In in Hc as [_ ?]. Qed.

(** C39. Typing keeps the value a password, whatever is typed or pasted in whatever box; a digit typed in
    the box after the last one is added and the next box focused, and then every box shows its own
    code unit.  A digit typed further on does not stay in its box: it goes to the first empty one. *)
Theorem otp_typing len value text idx next focus :
  otp_value len value → (idx < len)%nat → handleInput len value text idx = (next, focus) →
  otp_value len next
  ∧ next = take len (take idx value ++ box_digit text ++ drop (S idx) value)
  ∧ (∀ d, box_digit text = [d] → (length value <= idx)%nat →
       next = value ++ [d] ∧ otp_box next (length value) = [d]
       ∧ ((length value < idx)%nat → otp_box next idx = [])
       ∧ focus = if (S idx <? len)%nat then Some (S idx) else None).
Proof.
  intros [Hd Hl] Hi. unfold handleInput. rewrite put_char_value. intros [= <- <-].
  split_and!; [|done|].
  - split; [|rewrite length_take; lia]. apply Forall_take. rewrite !Forall_app.
    split_and!; [by apply Forall_take|apply box_digit_digits|by apply Forall_drop].
  - intros d Ed Hv. rewrite Ed, (take_ge value), drop_ge, app_nil_r by lia.
    rewrite (take_ge (value ++ [d])) by (rewrite length_app; cbn; lia). split_and!; [done|..].
    + unfold otp_box. by rewrite lookup_app_r, Nat.sub_diag by lia.
    + intros Hlt. unfold otp_box. by rewrite lookup_ge_None_2 by (rewrite length_app; cbn; lia).
    + cbn [truthy andb]. destruct (Nat.ltb_spec (S idx) len); [|]; case_cond; bool_to_prop; try lia; done.
Qed.

Lemma otp_typing_witness : (handleInput 6 "12" "7" 4).1 = "127" ∧ otp_box (handleInput 6 "12" "7" 4).1 4 = [].
Proof.
  assert (Hv : otp_value 6 "12") by (split; [repeat constructor|cbn; lia]).
  destruct (otp_typing 6 "12" "7" 4 _ _ Hv ltac:(lia) eq_refl) as (_ & _ & H).
  destruct (H 55 eq_refl ltac:(cbn; lia)) as (E & _ & Hb & _). split; [exact E|]. apply Hb. cbn; lia.
Defined.

(** ** Figures with nothing to divide by *)

(** One point, or no value above zero, makes a line through [NaN]. *)
Example line_of_one : line_points [num_of_Z 5] = "NaN,0".
Proof. vm_compute. reflexivity. Qed.
Example line_of_zeros : line_points [num_of_Z 0; num_of_Z 0] = "0,NaN 100,NaN".
Proof. vm_compute. reflexivity. Qed.
Example line_of_three : line_points [num_of_Z 1; num_of_Z 2; num_of_Z 4] = "0,75 50,50 100,0".
Proof. vm_compute. reflexivity. Qed.
