(* ===== verification/ProtoContract.v ===== *)
(** * What the components of the prototype's kit have in common

    Every component of [ProtoKit] and [ProtoWidgets] that takes a rest of properties hands it to one
    element, its root, puts its caller's children in it, and gives the classes asked for to the
    element that wears the component's own ([proto_contract]).  That is the root, but in the select,
    the switch and the combobox, where it is the element around it; three components take no class.
    A drawer is the one that writes its own handler and style over its caller's. *)
From Stdlib Require Import ZArith Lia List.
From stdpp Require Import base list.
From S2P Require Import Prelude Numbers JsonRead Jsx ProtoKit Parts ProtoWidgets.
#[local] Open Scope Z_scope.

(** ** Class names *)

(** The value is a text with the classes among its own. *)
Definition has_classes (s : jsstr) (v : val) : Prop := ∃ t, v = XStr t ∧ ∀ w, w ∈ class_names s → w ∈ class_names t.

(** The classes asked for are among those of the element, unless [class] itself is given. *)
Definition wears_class (c : part) : Prop :=
  ∀ p path s, NoDup p.*1 → shown c p = true → styled c = Some path →
  prop_get "className" p = Some (XStr s) → prop_get "class" p = None →
  ∃ t q, at_path path (render c p) = Some (t, q) ∧ has_classes s (getp "class" q).

Lemma class_names_join l w : w ∈ class_names (join " " l) ↔ ∃ s, s ∈ l ∧ w ∈ class_names s.
Proof.
  induction l as [|s [|s' l] IH].
  - split; [by intros ?%elem_of_nil|by intros (? & ?%elem_of_nil & _)].
  - cbn [join]. setoid_rewrite list_elem_of_singleton. naive_solver.
  - rewrite join_cons2, class_names_app, elem_of_app, IH. setoid_rewrite (elem_of_cons (s' :: l)). naive_solver.
Qed.

Lemma cn_has l s : XStr s ∈ l → has_classes s (cn l).
Proof.
  intros Hl. eexists. split; [done|]. intros w Hw. apply class_names_join. exists s. split; [|done].
  apply list_elem_of_fmap. exists (XStr s). split; [done|]. apply list_elem_of_filter. split; [|done].
  destruct s; [|done]. by apply elem_of_nil in Hw.
Qed.

(** ** The parts *)

Definition always_parts : list part := [
  at_root "Accordion" Accordion ["className"; "children"];
  {| pt_name := "AccordionItem"; render := AccordionItem; shown := λ _, true;
     takes := ["title"; "open"; "className"; "children"];
     root := []; body := Some [Nth 1; Inner]; styled := Some []; merged := false |};
  at_root "AlertDialog" AlertDialog ["id"; "className"; "children"];
  at_root "AlertDialogContent" AlertDialogContent ["className"; "children"];
  at_root "AlertDialogHeader" AlertDialogHeader ["className"; "children"];
  at_root "AlertDialogTitle" AlertDialogTitle ["className"; "children"];
  at_root "AlertDialogDescription" AlertDialogDescription ["className"; "children"];
  at_root "AlertDialogFooter" AlertDialogFooter ["className"; "children"];
  at_root "Alert" Alert ["variant"; "className"; "children"];
  at_root "AlertTitle" AlertTitle ["className"; "children"];
  at_root "AlertDescription" AlertDescription ["className"; "children"];
  at_root "AspectRatio" AspectRatio ["ratio"; "className"; "children"];
  at_root "Avatar" Avatar ["className"; "children"];
  at_root "AvatarFallback" AvatarFallback ["className"; "children"];
  at_root "Badge" Badge ["variant"; "className"; "children"];
  {| pt_name := "Breadcrumb"; render := Breadcrumb; shown := λ _, true;
     takes := ["children"];
     root := []; body := Some []; styled := None; merged := false |};
  at_root "BreadcrumbList" BreadcrumbList ["className"; "children"];
  at_root "BreadcrumbItem" BreadcrumbItem ["className"; "children"];
  at_root "BreadcrumbLink" BreadcrumbLink ["className"; "children"];
  at_root "BreadcrumbPage" BreadcrumbPage ["className"; "children"];
  at_root "ButtonGroup" ButtonGroup ["orientation"; "className"; "children"];
  at_root "ButtonGroupText" ButtonGroupText ["className"; "children"];
  at_root "Button" Button ["variant"; "size"; "className"; "disabled"; "children"];
  at_root "Card" Card ["className"; "children"];
  at_root "CardHeader" CardHeader ["className"; "children"];
  at_root "CardTitle" CardTitle ["className"; "children"];
  at_root "CardDescription" CardDescription ["className"; "children"];
  at_root "CardAction" CardAction ["className"; "children"];
  at_root "CardContent" CardContent ["className"; "children"];
  at_root "CardFooter" CardFooter ["className"; "children"];
  at_root "Carousel" Carousel ["orientation"; "className"; "children"];
  at_root "CarouselContent" CarouselContent ["orientation"; "className"; "children"];
  at_root "CarouselItem" CarouselItem ["className"; "children"];
  {| pt_name := "CarouselPrevious"; render := CarouselPrevious; shown := λ _, true;
     takes := ["className"; "children"];
     root := []; body := None; styled := Some []; merged := false |};
  {| pt_name := "CarouselNext"; render := CarouselNext; shown := λ _, true;
     takes := ["className"; "children"];
     root := []; body := None; styled := Some []; merged := false |};
  at_root "ChartContainer" ChartContainer ["className"; "children"];
  at_root "Checkbox" Checkbox ["className"];
  at_root "Collapsible" Collapsible ["open"; "className"; "children"];
  at_root "CollapsibleTrigger" CollapsibleTrigger ["className"; "children"];
  at_root "CollapsibleContent" CollapsibleContent ["className"; "children"];
  at_root "Command" Command ["className"; "children"];
  {| pt_name := "CommandInput"; render := CommandInput; shown := λ _, true;
     takes := ["className"; "placeholder"];
     root := [1]%nat; body := Some []; styled := Some ([1]%nat); merged := false |};
  at_root "CommandList" CommandList ["className"; "children"];
  {| pt_name := "CommandEmpty"; render := CommandEmpty; shown := λ _, true;
     takes := ["className"; "children"];
     root := []; body := None; styled := Some []; merged := false |};
  {| pt_name := "CommandGroup"; render := CommandGroup; shown := λ _, true;
     takes := ["heading"; "className"; "children"];
     root := []; body := Some [Nth 1]; styled := Some []; merged := false |};
  at_root "CommandItem" CommandItem ["className"; "children"];
  at_root "CommandShortcut" CommandShortcut ["className"; "children"];
  at_root "ContextMenuTrigger" ContextMenuTrigger ["onContextMenu"; "className"; "children"];
  at_root "ContextMenuItem" ContextMenuItem ["className"; "children"];
  at_root "ContextMenuLabel" ContextMenuLabel ["className"; "children"];
  at_root "Dialog" Dialog ["id"; "className"; "dismissible"; "children"];
  at_root "DialogContent" DialogContent ["className"; "children"];
  at_root "DialogHeader" DialogHeader ["className"; "children"];
  at_root "DialogTitle" DialogTitle ["className"; "children"];
  at_root "DialogDescription" DialogDescription ["className"; "children"];
  at_root "DialogFooter" DialogFooter ["className"; "children"];
  at_root "Drawer" Drawer
     ["id"; "side"; "className"; "style"; "dismissible"; "children"; "data-slot"; "data-side"; "onClick"; "class"];
  at_root "DrawerContent" DrawerContent ["className"; "children"];
  at_root "DrawerHeader" DrawerHeader ["className"; "children"];
  at_root "DrawerTitle" DrawerTitle ["className"; "children"];
  at_root "DrawerDescription" DrawerDescription ["className"; "children"];
  at_root "DrawerFooter" DrawerFooter ["className"; "children"];
  at_root "DropdownMenu" DropdownMenu ["className"; "children"];
  at_root "DropdownMenuTrigger" DropdownMenuTrigger ["variant"; "size"; "className"; "children"];
  at_root "DropdownMenuContent" DropdownMenuContent ["align"; "className"; "children"];
  at_root "DropdownMenuItem" DropdownMenuItem ["className"; "children"];
  at_root "DropdownMenuLabel" DropdownMenuLabel ["className"; "children"];
  at_root "Empty" Empty ["className"; "children"];
  at_root "EmptyHeader" EmptyHeader ["className"; "children"];
  at_root "EmptyMedia" EmptyMedia ["variant"; "className"; "children"];
  at_root "EmptyTitle" EmptyTitle ["className"; "children"];
  at_root "EmptyDescription" EmptyDescription ["className"; "children"];
  at_root "EmptyContent" EmptyContent ["className"; "children"];
  at_root "FieldSet" FieldSet ["className"; "children"];
  at_root "FieldLegend" FieldLegend ["variant"; "className"; "children"];
  at_root "FieldGroup" FieldGroup ["className"; "children"];
  at_root "Field" Field ["orientation"; "className"; "children"];
  at_root "FieldContent" FieldContent ["className"; "children"];
  at_root "FieldLabel" FieldLabel ["className"; "children"];
  at_root "FieldDescription" FieldDescription ["className"; "children"];
  at_root "HoverCard" HoverCard ["className"; "children"];
  at_root "HoverCardTrigger" HoverCardTrigger ["className"; "children"];
  at_root "HoverCardContent" HoverCardContent ["side"; "align"; "className"; "children"];
  at_root "Icon" Icon ["icon"; "size"; "className"];
  at_root "InputGroup" InputGroup ["className"; "children"];
  at_root "InputGroupAddon" InputGroupAddon ["align"; "className"; "children"];
  at_root "InputGroupInput" InputGroupInput ["className"; "type"];
  at_root "InputGroupText" InputGroupText ["className"; "children"];
  at_root "Input" Input ["className"; "type"];
  at_root "ItemGroup" ItemGroup ["className"; "children"];
  at_root "Item" Item ["variant"; "size"; "className"; "children"];
  at_root "ItemMedia" ItemMedia ["variant"; "className"; "children"];
  at_root "ItemContent" ItemContent ["className"; "children"];
  at_root "ItemTitle" ItemTitle ["className"; "children"];
  at_root "ItemDescription" ItemDescription ["className"; "children"];
  at_root "ItemActions" ItemActions ["className"; "children"];
  at_root "ItemHeader" ItemHeader ["className"; "children"];
  at_root "ItemFooter" ItemFooter ["className"; "children"];
  at_root "Kbd" Kbd ["className"; "children"];
  at_root "Label" Label ["className"; "children"];
  at_root "Menubar" Menubar ["className"; "children"];
  at_root "MenubarMenu" MenubarMenu ["className"; "children"];
  at_root "MenubarTrigger" MenubarTrigger ["className"; "children"];
  at_root "MenubarContent" MenubarContent ["className"; "children"];
  at_root "MenubarItem" MenubarItem ["className"; "children"];
  at_root "NavigationMenu" NavigationMenu ["className"; "children"];
  at_root "NavigationMenuList" NavigationMenuList ["className"; "children"];
  at_root "NavigationMenuItem" NavigationMenuItem ["className"; "children"];
  {| pt_name := "NavigationMenuTrigger"; render := NavigationMenuTrigger; shown := λ _, true;
     takes := ["className"; "children"];
     root := []; body := Some [Nth 0]; styled := Some []; merged := false |};
  at_root "NavigationMenuContent" NavigationMenuContent ["className"; "children"];
  at_root "NavigationMenuLink" NavigationMenuLink ["className"; "children"];
  at_root "Pagination" Pagination ["className"; "children"];
  at_root "PaginationContent" PaginationContent ["className"; "children"];
  at_root "PaginationItem" PaginationItem ["className"; "children"];
  at_root "PaginationLink" PaginationLink ["active"; "className"; "children"];
  {| pt_name := "PaginationPrevious"; render := PaginationPrevious; shown := λ _, true;
     takes := ["className"; "children"];
     root := []; body := None; styled := Some []; merged := false |};
  {| pt_name := "PaginationNext"; render := PaginationNext; shown := λ _, true;
     takes := ["className"; "children"];
     root := []; body := None; styled := Some []; merged := false |};
  at_root "PopoverTrigger" PopoverTrigger ["targetId"; "variant"; "size"; "className"; "children"];
  at_root "PopoverContent" PopoverContent ["id"; "className"; "children"];
  at_root "RadioGroup" RadioGroup ["className"; "children"];
  at_root "RadioGroupItem" RadioGroupItem ["className"];
  at_root "ResizablePanelGroup" ResizablePanelGroup ["direction"; "className"; "children"];
  at_root "ResizablePanel" ResizablePanel ["className"; "children"];
  at_root "ScrollArea" ScrollArea ["className"; "children"];
  {| pt_name := "Select"; render := Select; shown := λ _, true;
     takes := ["className"; "children"];
     root := [0]%nat; body := Some []; styled := Some []; merged := false |};
  {| pt_name := "SelectGroup"; render := SelectGroup; shown := λ _, true;
     takes := ["label"; "children"];
     root := []; body := Some []; styled := None; merged := false |};
  {| pt_name := "SelectItem"; render := SelectItem; shown := λ _, true;
     takes := ["value"; "children"];
     root := []; body := Some []; styled := None; merged := false |};
  at_root "Separator" Separator ["orientation"; "className"];
  at_root "Sidebar" Sidebar ["collapsed"; "className"; "style"; "children"];
  at_root "SidebarHeader" SidebarHeader ["className"; "children"];
  at_root "SidebarContent" SidebarContent ["className"; "children"];
  at_root "SidebarFooter" SidebarFooter ["className"; "children"];
  at_root "SidebarGroup" SidebarGroup ["className"; "children"];
  at_root "SidebarGroupLabel" SidebarGroupLabel ["className"; "children"];
  at_root "SidebarGroupContent" SidebarGroupContent ["className"; "children"];
  at_root "SidebarMenu" SidebarMenu ["className"; "children"];
  at_root "SidebarMenuItem" SidebarMenuItem ["className"; "children"];
  at_root "SidebarMenuButton" SidebarMenuButton ["isActive"; "size"; "className"; "children"];
  {| pt_name := "SidebarTrigger"; render := SidebarTrigger; shown := λ _, true;
     takes := ["className"; "children"];
     root := []; body := None; styled := Some []; merged := false |};
  at_root "SidebarInset" SidebarInset ["className"; "children"];
  at_root "Skeleton" Skeleton ["className"];
  at_root "Slider" Slider ["className"];
  at_root "Toaster" Toaster ["position"; "className"; "children"];
  {| pt_name := "Toast"; render := Toast; shown := λ _, true;
     takes := ["variant"; "title"; "description"; "className"; "children"];
     root := []; body := Some [Inner; Nth 2]; styled := Some []; merged := false |};
  at_root "Spinner" Spinner ["size"; "className"];
  {| pt_name := "Switch"; render := Switch; shown := λ _, true;
     takes := ["className"];
     root := [0]%nat; body := Some []; styled := Some []; merged := false |};
  {| pt_name := "Table"; render := Table; shown := λ _, true;
     takes := ["className"; "children"];
     root := [0]%nat; body := Some []; styled := Some ([0]%nat); merged := false |};
  at_root "TableHeader" TableHeader ["className"; "children"];
  at_root "TableBody" TableBody ["className"; "children"];
  at_root "TableFooter" TableFooter ["className"; "children"];
  at_root "TableRow" TableRow ["className"; "children"];
  at_root "TableHead" TableHead ["className"; "children"];
  at_root "TableCell" TableCell ["className"; "children"];
  at_root "TableCaption" TableCaption ["className"; "children"];
  at_root "TabsList" TabsList ["className"; "children"];
  at_root "TabsTrigger" TabsTrigger ["active"; "className"; "children"];
  at_root "Textarea" Textarea ["className"];
  at_root "ToggleGroup" ToggleGroup ["type"; "className"; "children"];
  at_root "Toggle" Toggle ["pressed"; "variant"; "size"; "className"; "children"]].

(** The ones that may render nothing. *)
Definition guarded_parts : list part := [
  {| pt_name := "ContextMenuContent"; render := ContextMenuContent; shown := λ p, is_true (getp "pos" p);
     takes := ["pos"; "onClose"; "className"; "children"];
     root := [0]%nat; body := Some []; styled := Some ([0]%nat); merged := false |};
  {| pt_name := "FieldError"; render := FieldError; shown := λ p, is_true (getp "children" p);
     takes := ["className"; "children"];
     root := []; body := Some []; styled := Some []; merged := false |}].

Section contract.
(** What the widgets are given beside the object of their properties: a month, its name and the day
    selected; the options of a combobox; the boxes of a password and its text; a value and its
    greatest. *)
Context (month : Z) (monthName : jsstr) (selected : option Z) (options : list val) (len : nat) (text : jsstr) (value max : num).

Definition widget_parts : list part := [
  {| pt_name := "Calendar"; render := Calendar month monthName selected; shown := λ _, true;
     takes := ["month"; "selected"; "className"; "children"];
     root := []; body := None; styled := Some []; merged := false |};
  {| pt_name := "Combobox"; render := Combobox options; shown := λ _, true;
     takes := ["id"; "options"; "className"; "placeholder"];
     root := [0]%nat; body := Some []; styled := Some []; merged := false |};
  {| pt_name := "InputOTP"; render := InputOTP len text; shown := λ _, true;
     takes := ["length"; "className"; "value"; "onChange"; "children"];
     root := []; body := None; styled := Some []; merged := false |};
  {| pt_name := "Progress"; render := Progress value max; shown := λ _, true;
     takes := ["value"; "max"; "className"; "children"];
     root := []; body := None; styled := Some []; merged := false |}].

Definition proto_kit : list part := always_parts ++ guarded_parts ++ widget_parts.

Lemma combobox_part :
  {| pt_name := "Combobox"; render := Combobox options; shown := λ _, true;
     takes := ["id"; "options"; "className"; "placeholder"];
     root := [0]%nat; body := Some []; styled := Some []; merged := false |} ∈ proto_kit.
Proof using. unfold proto_kit. rewrite !elem_of_app. right. right. right. left. Defined.

Ltac part_guarded :=
  intros p Hp Hs; cbn [shown] in Hs; cbn [render root takes body]; open_part p;
  unfold js_not; cbn [is_true]; rewrite Hs; cbn [negb];
  eexists _, _; split; [reflexivity|split];
    [intros k v Hk _ Hv; forward_prop
    |first [discriminate|intros path [= <-]; body_prop]].

Lemma always_forwards : Forall forwards always_parts.
Proof. unfold always_parts. each_part part_forwards. Qed.

Lemma guarded_forwards : Forall forwards guarded_parts.
Proof. unfold guarded_parts. each_part part_guarded. Qed.

Ltac wears :=
  unfold getp in *; known_prop;
  repeat match goal with H : prop_get ?k ?p = _ |- context [prop_get ?k ?p] => rewrite H end;
  cbn [from_option id or_default];
  first [by eexists|apply cn_has; repeat first [left; reflexivity|right]].

Ltac part_wears :=
  intros p path s Hp Hs Hpath Hcl Hno; cbn [styled at_root] in Hpath;
  first [discriminate
    |injection Hpath as <-; cbn [shown at_root] in Hs; cbn [render at_root]; open_part p;
     unfold js_not; cbn [is_true]; rewrite ?Hs; cbn [negb]; eexists _, _; split; [reflexivity|wears]].

Lemma always_wear : Forall wears_class always_parts.
Proof. unfold always_parts. each_part part_wears. Qed.

Lemma guarded_wear : Forall wears_class guarded_parts.
Proof. unfold guarded_parts. each_part part_wears. Qed.

Lemma widgets_forward : Forall forwards widget_parts.
Proof using. unfold widget_parts. each_part part_forwards. Qed.

Lemma widgets_wear : Forall wears_class widget_parts.
Proof using. unfold widget_parts. each_part part_wears. Qed.

(** The names of the components for which a test holds. *)
Definition named (f : part → bool) : list jsstr := pt_name <$> List.filter f proto_kit.

(** A drawer closes on a click beside its content, whatever handler it is given. *)
Lemma drawer_handler p :
  NoDup p.*1 → ∃ q, Drawer p = XEl (Host "dialog") q ∧
    getp "onClick" q = XFn "(e) => { if (dismissible && e.target === e.currentTarget) e.currentTarget.close(); }"
                           [or_default (XBool true) (getp "dismissible" p)].
Proof using. intros Hp. unfold Drawer. eexists. split; [reflexivity|]. unfold getp. by known_prop. Qed.

(** C37. Every component of the prototype's kit that takes a rest of properties hands those it does not
    take to one element, its root, with the values they were given, over its own, and its children to
    its body.  The classes asked for are among those of the element that wears the component's: the
    root itself, but in [Select], [Switch] and [Combobox], where it is the element around it; the
    three components that take no class ([Breadcrumb], [SelectGroup], [SelectItem]) hand it on like
    any other property.  [Drawer] alone counts among the properties it takes some it does not name:
    it writes its own click, class, slot and side over its caller's. *)
Theorem proto_contract :
  Forall (λ c, forwards c ∧ wears_class c) proto_kit ∧
  named (λ c, match styled c with Some path => bool_decide (path ≠ root c) | None => false end)
    = ["Select" : jsstr; "Switch" : jsstr; "Combobox" : jsstr] ∧
  named (λ c, bool_decide (styled c = None)) = ["Breadcrumb" : jsstr; "SelectGroup" : jsstr; "SelectItem" : jsstr] ∧
  Forall (λ c, styled c = None → "className" ∉ takes c) proto_kit ∧
  named (λ c, bool_decide ("onClick" ∈ takes c)) = ["Drawer" : jsstr] ∧
  ∀ p, NoDup p.*1 → ∃ q, Drawer p = XEl (Host "dialog") q ∧
    getp "onClick" q = XFn "(e) => { if (dismissible && e.target === e.currentTarget) e.currentTarget.close(); }"
                           [or_default (XBool true) (getp "dismissible" p)].
Proof using.
  split_and!; [|vm_compute; reflexivity|vm_compute; reflexivity| |vm_compute; reflexivity|exact drawer_handler].
  - apply Forall_and. split; repeat (apply Forall_app; split).
    + exact always_forwards.
    + exact guarded_forwards.
    + exact widgets_forward.
    + exact always_wear.
    + exact guarded_wear.
    + exact widgets_wear.
  - unfold proto_kit, always_parts, guarded_parts, widget_parts. cbn [app].
    each_part ltac:(intros Hn; first [discriminate|decided]).
Qed.
End contract.

(** ** An example *)

(** A combobox asked for with a class and a handler: the class is worn by the wrapper, the handler by
    the input. *)
Definition a_combobox : obj :=
  [("id", XStr "plan"); ("className", XStr "w-40"); ("onInput", XFn "pick" [])].

Lemma proto_contract_witness :
  (∃ t q, at_path [] (Combobox [] a_combobox) = Some (t, q) ∧ has_classes "w-40" (getp "class" q)) ∧
  (∃ t q, at_path [0%nat] (Combobox [] a_combobox) = Some (t, q) ∧ prop_get "onInput" q = Some (XFn "pick" [])).
Proof.
  destruct (proto_contract 0 [] None [] 6 [] NaN NaN) as [Hk _]. rewrite Forall_forall in Hk.
  assert (Hn : NoDup a_combobox.*1) by decided.
  destruct (Hk _ (combobox_part 0 [] None [] 6 [] NaN NaN)) as [Hf Hw]. split.
  - apply (Hw a_combobox [] "w-40" Hn); reflexivity.
  - destruct (Hf a_combobox Hn eq_refl) as (t & q & E & Hq & _). exists t, q. split; [exact E|].
    apply Hq; [decided|reflexivity|reflexivity].
Defined.
