(* ===== verification/ProtoDialogs.v ===== *)
(** * The dialogs of the prototype

    [src/planning/tenancit/proto/components/ui/dialog.js], with the alert dialog and the drawer that share
    its helpers, and the hook of [context-menu.js].  A dialog is the browser's own element: the
    document keeps which are open, in the order they came on top, and only what is in the topmost can
    be clicked.  Their markup is in [ProtoKit]; here is what their handlers do. *)
From Stdlib Require Import ZArith Lia List.
From stdpp Require Import base list gmap.
From S2P Require Import Prelude Jsx.
#[local] Open Scope Z_scope.

(** ** The elements *)

(** [Dialog], [AlertDialog] and [Drawer] as they were mounted, by their [id]. *)
Inductive modal := Dialog (dismissible : bool) | AlertDialog | Drawer (dismissible : bool).

(** The modals of the document, and the ones that are open, the topmost last. *)
Record document := { mounted : gmap jsstr modal; opened : list jsstr }.

Definition with_opened (o : list jsstr) (d : document) : document := {| mounted := mounted d; opened := o |}.

(** The browser's [showModal] does nothing to a modal that is open already, and [close] to one that is
    not. *)
Definition showModal (id : jsstr) (d : document) : document :=
  if decide (id ∈ opened d) then d else with_opened (opened d ++ [id]) d.
Definition close (id : jsstr) (d : document) : document := with_opened (filter (λ i, i ≠ id) (opened d)) d.

(** [document.getElementById(id)?.showModal()] and [.close()]. *)
Definition openDialog (id : jsstr) (d : document) : document :=
  match mounted d !! id with Some _ => showModal id d | None => d end.
Definition closeDialog (id : jsstr) (d : document) : document :=
  match mounted d !! id with Some _ => close id d | None => d end.

(** [handleClick]: [at_target] when the click is on the element itself, which is its backdrop, and not
    on what is inside.  An alert dialog has no handler. *)
Definition handleClick (dismissible at_target : bool) (id : jsstr) (d : document) : document :=
  if dismissible && at_target then close id d else d.

Definition click (m : modal) (at_target : bool) (id : jsstr) (d : document) : document :=
  match m with
  | Dialog dismissible | Drawer dismissible => handleClick dismissible at_target id d
  | AlertDialog => d
  end.

(** ** Events *)

(** A button whose handler is one of the helpers (on the page, or in the topmost modal), a click on the
    topmost modal, and the Escape key, by which the browser closes it. *)
Inductive event := Open (id : jsstr) | Close (id : jsstr) | Click (at_target : bool) | Escape.

Definition top (d : document) : option jsstr := last (opened d).

Definition handle (e : event) (d : document) : document :=
  match e with
  | Open id => openDialog id d
  | Close id => closeDialog id d
  | Click at_target =>
    match top d with
    | Some id => match mounted d !! id with Some m => click m at_target id d | None => d end
    | None => d
    end
  | Escape => match top d with Some id => close id d | None => d end
  end.

Definition run (es : list event) (d : document) : document := fold_left (λ d e, handle e d) es d.

Definition loaded (m : gmap jsstr modal) : document := {| mounted := m; opened := [] |}.

(** ** The context menu *)

(** [useContextMenu]: where the menu is shown. *)
Definition onContextMenu (clientX clientY : Z) (pos : option (Z * Z)) : option (Z * Z) := Some (clientX, clientY).
Definition close_menu (pos : option (Z * Z)) : option (Z * Z) := None.

(** ** Lemmas *)

Record well_opened (d : document) : Prop := {
  opened_once : NoDup (opened d);
  opened_mounted : Forall (λ i, is_Some (mounted d !! i)) (opened d);
}.

Lemma filter_absent (id : jsstr) (l : list jsstr) : id ∉ l → filter (λ i, i ≠ id) l = l.
Proof.
  induction l as [|i l IH]; [done|]. intros [Hi Hl]%not_elem_of_cons. rewrite filter_cons_True by done. by rewrite IH.
Qed.

Lemma close_well id d : well_opened d → well_opened (close id d).
Proof.
  intros [Hn Hm]. split; cbn; [by apply NoDup_filter|].
  apply Forall_forall. intros i [_ Hi]%list_elem_of_filter. by eapply Forall_forall in Hm.
Qed.

Lemma handle_mounted e d : mounted (handle e d) = mounted d.
Proof.
  destruct e; cbn; unfold openDialog, closeDialog, showModal, click, handleClick; repeat case_match; done.
Qed.

Lemma handle_well e d : well_opened d → well_opened (handle e d).
Proof.
  intros Hw. destruct e as [id|id|at_target|]; cbn; unfold openDialog, closeDialog, click, handleClick, showModal.
  - destruct (mounted d !! id) as [m|] eqn:E; [|done]. destruct (decide _); [done|]. destruct Hw as [Hn Hm]. split; cbn.
    + apply NoDup_app. split_and!; [done| |apply NoDup_singleton]. by intros i Hi ->%list_elem_of_singleton.
    + apply Forall_app. split; [done|]. by constructor.
  - case_match; [by apply close_well|done].
  - repeat case_match; first [done|by apply close_well].
  - case_match; [by apply close_well|done].
Qed.

Lemma run_well es m : well_opened (run es (loaded m)).
Proof.
  assert (H : well_opened (loaded m)) by (split; [apply NoDup_nil_2|apply Forall_nil_2]).
  revert H. unfold run. generalize (loaded m). induction es as [|e es IH]; intros d H; [done|]. by apply IH, handle_well.
Qed.

(** ** Properties *)

(** Whatever was opened, closed and clicked since the page was loaded: a modal is open at most once and
    is one of the page's; clicking the backdrop closes the topmost modal when it may be dismissed, and
    only it; a click inside a modal, or on an alert dialog, closes nothing; the key closes the
    topmost of any kind, alert dialogs included. *)
Theorem modal_dismissal m es :
  let d := run es (loaded m) in
  NoDup (opened d) ∧ Forall (λ i, is_Some (mounted d !! i)) (opened d) ∧
  opened (handle (Click false) d) = opened d ∧
  (∀ id k, top d = Some id → mounted d !! id = Some k →
     opened (handle (Click true) d)
       = match k with Dialog true | Drawer true => removelast (opened d) | _ => opened d end
     ∧ opened (handle Escape d) = removelast (opened d)).
Proof.
  intros d. destruct (run_well es m) as [Hn Hm]. fold d in Hn, Hm. split_and!; [done..| |].
  - cbn. unfold click, handleClick. by repeat (case_match; rewrite ?andb_false_r).
  - intros id k Ht Hk.
    assert (Hc : opened (close id d) = removelast (opened d)).
    { unfold close, top in *. cbn. apply last_Some in Ht as [l Hl]. rewrite Hl in *. rewrite removelast_last.
      apply NoDup_app in Hn as (_ & Hd & _). rewrite filter_app, filter_cons_False, filter_nil, app_nil_r by naive_solver.
      apply filter_absent. intros Hi. apply (Hd id Hi). by left. }
    cbn. rewrite Ht, Hk. split; [|done]. by destruct k as [[]| |[]].
Qed.

(** A modal that its page forgot to mount is not opened, and one that is open stays where it is. *)
Theorem open_idempotent id d :
  openDialog id (openDialog id d) = openDialog id d ∧ (mounted d !! id = None → openDialog id d = d).
Proof.
  unfold openDialog. split; [|by intros ->].
  destruct (mounted d !! id) eqn:E; [|by rewrite E]. unfold showModal. destruct (decide (id ∈ opened d)) as [Hi|Hi].
  - rewrite E. by rewrite decide_True.
  - cbn. rewrite E. rewrite decide_True; [done|]. apply elem_of_app. right. by left.
Qed.

(** ** An example: a confirmation asked for in a dialog, dismissed by a click beside it and answered. *)
Example confirmation :
  let m : gmap jsstr modal := {[ ("edit" : jsstr) := Dialog true; ("confirm" : jsstr) := AlertDialog ]} in
  opened (run [Open "edit"; Open "confirm"; Click true] (loaded m)) = ["edit" : jsstr; "confirm" : jsstr]
  ∧ opened (run [Open "edit"; Open "confirm"; Click true; Close "confirm"; Click true] (loaded m)) = [].
Proof. by vm_compute. Qed.
