(* ===== verification/TableView.v ===== *)
(** * What tables and lists of options show

    [src/web/src/components/ui/combobox.tsx] and the markup of [src/web/src/components/data-table]:
    the pagination, the header of a column, a facet and the toolbar, over the components of [UiKit] and
    the state of [DataTable].  What the table library derives from the state (rows, pages, directions)
    enters as [pager] and arguments; handlers are kept as their text with what they capture, and a key is
    the renderer's, not a property. *)
From Stdlib Require Import ZArith Lia List.
From stdpp Require Import base list.
From S2P Require Import Prelude Numbers JsonRead Jsx UiKit Parts.
From S2P Require DataTable.
#[local] Open Scope Z_scope.

(** ** The combobox *)

Record combobox_option := {
  op_value : jsstr; op_label : jsstr; op_keywords : option jsstr; op_disabled : option bool;
}.

Definition is_value (value : jsstr) (o : combobox_option) : bool := str_eqb (op_value o) value.

(** What the list is searched by. *)
Definition search_value (o : combobox_option) : jsstr := op_label o ++ " " ++ default (op_value o) (op_keywords o).

Definition opt_bool (b : option bool) : val := match b with Some b => XBool b | None => XUndef end.

Section view.
Context `{ClassLib, BaseUI}.

Definition combobox_item (value : jsstr) (onValueChange : val) (o : combobox_option) : val :=
  call CommandItem [
    At "data-checked" (js_or (XBool (is_value value o)) XUndef);
    At "disabled" (opt_bool (op_disabled o)); At "value" (XStr (search_value o));
    At "onSelect" (XFn "() => { onValueChange(option.value); setOpen(false); }" [onValueChange; XStr (op_value o)])] [
      el (Host "span") [At "className" (XStr "truncate")] [XStr (op_label o)]].

(** The trigger's label. *)
Definition combobox_label (options : list combobox_option) (value : jsstr) (placeholder : val) : val :=
  match List.find (is_value value) options with Some o => XStr (op_label o) | None => placeholder end.

Definition Combobox (open : bool) (options : list combobox_option) (value : jsstr) (arg : obj) : val :=
  let onValueChange := getp "onValueChange" arg in
  let searchable := or_default (XBool false) (getp "searchable" arg) in
  let emptyText := or_default (XStr "—") (getp "emptyText" arg) in
  let placeholder := or_default (XStr "…") (getp "placeholder" arg) in
  let found := match List.find (is_value value) options with Some _ => true | None => false end in
  el (Host "div") [At "className" (cn [XStr "inline-flex"; getp "className" arg])] [
    call Popover [At "open" (XBool open); At "onOpenChange" (XFn "setOpen" [])] [
      call PopoverTrigger [At "render" (call Button [
        At "aria-expanded" (XBool open); At "aria-label" (getp "aria-label" arg);
        At "className" (cn [
          XStr "h-9 w-full min-w-0 justify-between border-input font-normal";
          js_and (XBool (negb found)) (XStr "text-muted-foreground"); getp "triggerClassName" arg]);
        At "disabled" (getp "disabled" arg); At "role" (XStr "combobox"); At "type" (XStr "button");
        At "variant" (XStr "outline")] [])] [
          el (Host "span") [At "className" (XStr "truncate")] [combobox_label options value placeholder];
          el (Ext "ChevronsUpDown") [At "className" (XStr "shrink-0 opacity-50"); At "data-icon" (XStr "inline-end")] []];
      call PopoverContent [
        At "align" (XStr "start");
        At "className" (XStr "w-(--anchor-width)! min-w-(--anchor-width)! max-w-(--anchor-width)! p-0")] [
          call Command [] [
            js_and searchable (call CommandInput [At "placeholder" (getp "searchPlaceholder" arg)] []);
            call CommandList [] [
              js_and searchable (call CommandEmpty [] [emptyText]);
              call CommandGroup [] [XArr (map (combobox_item value onValueChange) options)]]]]]].

(** ** The pagination *)

Definition defaultLabels : obj := [
  ("goToFirstPage", XStr "Go to first page"); ("goToLastPage", XStr "Go to last page");
  ("goToNextPage", XStr "Go to next page"); ("goToPreviousPage", XStr "Go to previous page");
  ("item", XStr "item"); ("items", XStr "items"); ("page", XStr "Page"); ("pageOf", XStr "of");
  ("rowsPerPage", XStr "Rows per page")].

(** What the table says of its pages. *)
Record pager := { pg_count : Z; pg_index : Z; pg_size : val; pg_rows : Z; pg_canPrevious : bool; pg_canNext : bool }.

(** The buttons: label, classes, whether it needs a page before, what it does and its icon. *)
Inductive page_move := First | Previous | Next | Last.

Definition page_button (labels : obj) (p : pager) (m : page_move) : val :=
  let button label class able text icon :=
    call Button (
      [At "aria-label" (getp label labels)] ++ class ++
      [At "disabled" (XBool (negb able)); At "onClick" (XFn text (match m with Last => [XInt (pg_count p)] | _ => [] end));
       At "size" (XStr "icon"); At "type" (XStr "button"); At "variant" (XStr "outline")]) [el (Ext icon) [] []] in
  match m with
  | First => button "goToFirstPage" [At "className" (XStr "hidden lg:flex")] (pg_canPrevious p) "() => table.setPageIndex(0)" "ChevronsLeft"
  | Previous => button "goToPreviousPage" [] (pg_canPrevious p) "() => table.previousPage()" "ChevronLeft"
  | Next => button "goToNextPage" [] (pg_canNext p) "() => table.nextPage()" "ChevronRight"
  | Last => button "goToLastPage" [At "className" (XStr "hidden lg:flex")] (pg_canNext p) "() => table.setPageIndex(pageCount - 1)" "ChevronsRight"
  end.

(** The page a move asks the table for. *)
Definition page_target (p : pager) (m : page_move) : Z :=
  match m with First => 0 | Previous => pg_index p - 1 | Next => pg_index p + 1 | Last => pg_count p - 1 end.

Definition shown_page (p : pager) : Z := if pg_count p =? 0 then 0 else pg_index p + 1.

Definition DataTablePagination (sizes : option (list Z)) (p : pager) (arg : obj) : val :=
  let pageSizeOptions := default DataTable.PAGE_SIZE_OPTIONS sizes in
  let labels := assign defaultLabels (spread_of (getp "labels" arg)) in
  let props := rest ["className"; "labels"; "pageSizeOptions"; "table"] arg in
  el (Host "div") [
    At "className" (cn [
      XStr "flex w-full flex-col-reverse items-center justify-between gap-3 overflow-auto p-1 sm:flex-row";
      getp "className" arg]);
    Sp props] [
    el (Host "div") [At "className" (XStr "flex-1 text-sm text-muted-foreground")] [
      XInt (pg_rows p); XStr " "; if pg_rows p =? 1 then getp "item" labels else getp "items" labels];
    el (Host "div") [At "className" (XStr "flex flex-col-reverse items-center gap-3 sm:flex-row sm:gap-5")] [
      el (Host "div") [At "className" (XStr "flex items-center justify-center text-sm font-medium")] [
        getp "page" labels; XStr " "; XInt (shown_page p); XStr " "; getp "pageOf" labels; XStr " "; XInt (pg_count p)];
      el (Host "div") [At "className" (XStr "flex items-center gap-2")]
        (map (page_button labels p) [First; Previous; Next; Last]);
      call Select [
        At "items" (XArr (map (λ n, XObj [("label", XStr (show_int n)); ("value", XStr (show_int n))]) pageSizeOptions));
        At "onValueChange" (XFn "(value) => table.setPageSize(Number(value))" []);
        At "value" (XStr (to_text (pg_size p)))] [
          call SelectTrigger [At "aria-label" (getp "rowsPerPage" labels); At "className" (XStr "w-16")] [
            call SelectValue [At "placeholder" (pg_size p)] []];
          call SelectContent [At "side" (XStr "top")] [
            call SelectGroup [] [
              XArr (map (λ n, call SelectItem [At "value" (XStr (show_int n))] [XInt n]) pageSizeOptions)]]]]].

(** ** The header of a column *)

Definition DataTableColumnHeader (align : option jsstr) (canSort : bool) (sorted : option DataTable.direction)
    (label : jsstr) (arg : obj) : val :=
  let labels := getp "labels" arg in
  let className := getp "className" arg in
  let alignmentClass :=
    match align with
    | Some a =>
      if str_eqb a "right" then "ml-auto justify-end text-right"
      else if str_eqb a "center" then "mx-auto justify-center text-center" else "-ml-2 justify-start text-left"
    | None => "-ml-2 justify-start text-left"
    end : jsstr in
  if negb canSort then
    el (Host "div") [At "className" (cn [XStr "w-fit"; XStr alignmentClass; className])] [XStr label]
  else
    let nextSortLabel :=
      match sorted with
      | Some DataTable.asc => member "desc" labels
      | Some DataTable.desc => member "reset" labels
      | None => member "asc" labels
      end in
    call Button [
      At "aria-label" (XStr (if is_true nextSortLabel then label ++ ": " ++ to_text nextSortLabel else label));
      At "className" (cn [XStr "font-medium text-muted-foreground"; XStr alignmentClass; className]);
      At "onClick" (XFn "column.getToggleSortingHandler()" []);
      At "size" (XStr "sm"); At "title" nextSortLabel; At "type" (XStr "button"); At "variant" (XStr "ghost")] [
      XStr label;
      el (Ext (match sorted with Some DataTable.desc => "ChevronDown" | Some DataTable.asc => "ChevronUp" | None => "ChevronsUpDown" end)) [] []].

(** ** A facet *)

Record facet_option := { fo_label : jsstr; fo_value : jsstr }.

Definition facet_badge (kid : val) : val :=
  call Badge [At "className" (XStr "rounded-sm px-1 font-normal"); At "variant" (XStr "secondary")] [kid].

(** The options of the filter that are chosen. *)
Definition chosen (selected : list jsstr) (o : facet_option) : bool := existsb (str_eqb (fo_value o)) selected.

(** The badges of the trigger: one per option chosen, a count when they are more than two. *)
Definition facet_badges (options : list facet_option) (selected : list jsstr) : val :=
  let size := Z.of_nat (length selected) in
  if 2 <? size then facet_badge (XInt size)
  else XArr (map (λ o, facet_badge (XStr (fo_label o))) (List.filter (chosen selected) options)).

Definition facet_item (multiple : bool) (selected : list jsstr) (o : facet_option) : val :=
  call CommandItem [
    At "onSelect" (XFn "() => { const next = new Set(selected); if (multiple) { if (active) next.delete(option.value); else next.add(option.value); } else { next.clear(); if (!active) next.add(option.value); setOpen(false); } column.setFilterValue(next.size ? [...next] : undefined); }"
      [XArr (map XStr selected); XBool multiple; XBool (chosen selected o); XStr (fo_value o)])] [
      el (Host "span") [
        At "className" (cn [
          XStr "flex size-4 items-center justify-center rounded-sm border border-primary";
          XStr (if chosen selected o then "bg-primary text-primary-foreground" else "opacity-50 [&_svg]:invisible")])] [
        el (Ext "Check") [] []];
      XStr (fo_label o)].

Definition DataTableFacetedFilter (open multiple : bool) (options : list facet_option) (filterValue : option (list jsstr))
    (arg : obj) : val :=
  let title := getp "title" arg in
  let selected := DataTable.selected filterValue in
  let size := Z.of_nat (length selected) in
  let reset := XFn "() => column.setFilterValue(undefined)" [] in
  call Popover [At "open" (XBool open); At "onOpenChange" (XFn "setOpen" [])] [
    call PopoverTrigger [At "render" (call Button [
      At "className" (XStr "border-dashed font-normal"); At "variant" (XStr "outline")] [])] [
        if is_true (XInt size) then el (Ext "XCircle") [At "onClick" (XFn "(event) => { event.stopPropagation(); reset(); }" [reset])] []
        else el (Ext "PlusCircle") [] [];
        title;
        if 0 <? size then XArr [
          call Separator [At "className" (XStr "mx-0.5 data-[orientation=vertical]:h-4"); At "orientation" (XStr "vertical")] [];
          call Badge [At "className" (XStr "rounded-sm px-1 font-normal lg:hidden"); At "variant" (XStr "secondary")] [XInt size];
          el (Host "div") [At "className" (XStr "hidden gap-1 lg:flex")] [facet_badges options selected]]
        else XBool false];
    call PopoverContent [At "align" (XStr "start"); At "className" (XStr "w-56 p-0")] [
      call Command [] [
        call CommandInput [At "placeholder" title] [];
        call CommandList [] [
          call CommandEmpty [] [getp "emptyLabel" arg];
          call CommandGroup [] [XArr (map (facet_item multiple selected) options)];
          if 0 <? size then XArr [
            call CommandSeparator [] [];
            call CommandGroup [] [
              call CommandItem [At "className" (XStr "justify-center"); At "onSelect" reset] [getp "clearLabel" arg]]]
          else XBool false]]]].

(** ** The toolbar *)

Record facet := { fa_column : jsstr; fa_multiple : option bool; fa_options : list facet_option; fa_title : jsstr }.

(** [opened] are the facets whose list is open, [columns] the columns the table has; [sort_list] and
    [view_options] render the two menus at the end. *)
Definition DataTableToolbar (columns opened : list jsstr) (facets : list facet) (t : DataTable.table)
    (sort_list : val) (view_options : obj → val) (arg : obj) : val :=
  let clearLabel := getp "clearLabel" arg in
  el (Host "div") [At "className" (XStr "flex w-full flex-wrap items-center gap-2 p-1"); At "role" (XStr "toolbar")] [
    call Input [
      At "className" (XStr "h-8 w-full sm:w-64"); At "onChange" (XFn "(event) => table.setGlobalFilter(event.target.value)" []);
      At "placeholder" (getp "searchLabel" arg); At "value" (XStr (DataTable.globalFilter t))] [];
    XArr (map (λ f,
      if bool_decide (fa_column f ∈ columns) then
        DataTableFacetedFilter (bool_decide (fa_column f ∈ opened)) (default true (fa_multiple f)) (fa_options f)
          (snd <$> List.find (λ c, str_eqb c.1 (fa_column f)) (DataTable.columnFilters t))
          [("clearLabel", clearLabel); ("emptyLabel", getp "emptyLabel" arg); ("title", XStr (fa_title f))]
      else XNull) facets);
    if DataTable.filtered t then
      call Button [
        At "className" (XStr "border-dashed");
        At "onClick" (XFn ("() => { table.resetColumnFilters(); table.setGlobalFilter(" ++ dq ++ dq ++ "); }") []);
        At "variant" (XStr "outline")] [el (Ext "X") [] []; clearLabel]
    else XBool false;
    el (Host "div") [At "className" (XStr "ml-auto flex items-center gap-2")] [
      getp "children" arg; sort_list;
      view_options [("label", getp "columnsLabel" arg); ("resetLabel", getp "resetLabel" arg)]; getp "trailing" arg]].
End view.

(** ** Reading what is shown *)

(** Into the children written in an element, whatever its attributes. *)
Lemma into_children path t l kids :
  kids ≠ [] → val_at (Inner :: path) (el t l kids) = val_at path (match kids with [c] => c | _ => XArr kids end).
Proof. intros Hk. cbn [val_at el]. unfold getp. by rewrite prop_get_children. Qed.

(** The items of the list, the label and the mark of one, and the label of the trigger. *)
Definition combobox_items (c : val) : list val :=
  match val_at [Inner; Inner; Nth 1; Inner; Inner; Inner; Inner; Nth 1; Inner; Nth 1; Inner] c with XArr l => l | _ => [] end.
Definition item_label (i : val) : val := val_at [Inner; Nth 0; Inner] i.
Definition item_checked (i : val) : bool := match i with XEl _ o => is_true (getp "data-checked" o) | _ => false end.
Definition trigger_label (c : val) : val := val_at [Inner; Inner; Nth 0; Inner; Nth 0; Inner] c.

Lemma combobox_list `{ClassLib, BaseUI} open options value arg :
  combobox_items (Combobox open options value arg) = map (combobox_item value (getp "onValueChange" arg)) options
  ∧ trigger_label (Combobox open options value arg) = combobox_label options value (or_default (XStr "…") (getp "placeholder" arg)).
Proof. split; reflexivity. Qed.

Lemma combobox_item_shown `{ClassLib, BaseUI} value f o :
  item_label (combobox_item value f o) = XStr (op_label o) ∧ item_checked (combobox_item value f o) = is_value value o.
Proof. split; [reflexivity|]. unfold combobox_item. cbn. by destruct (is_value value o). Qed.

(** ** A facet's choice *)

Lemma selected_spec fv : NoDup (DataTable.selected fv) ∧ ∀ x, x ∈ DataTable.selected fv ↔ x ∈ default [] fv.
Proof.
  unfold DataTable.selected. generalize (default [] fv). intros l.
  assert (Hgen : ∀ s : list jsstr, NoDup s →
    let r := fold_left (λ s x, if existsb (str_eqb x) s then s else s ++ [x]) l s in
    NoDup r ∧ ∀ x, x ∈ r ↔ x ∈ s ∨ x ∈ l).
  { induction l as [|y l IH]; intros s Hs; cbn.
    - split; [done|]. intros x. split; [by left|]. by intros [?|?%elem_of_nil].
    - destruct (existsb (str_eqb y) s) eqn:E.
      + destruct (IH s Hs) as [Hn Hi]. split; [done|]. intros x. rewrite Hi, elem_of_cons.
        apply existsb_exists in E as (z & Hz%list_elem_of_In & ->%str_eqb_eq). naive_solver.
      + destruct (IH (s ++ [y])) as [Hn Hi].
        * apply NoDup_app. split_and!; [done| |apply NoDup_singleton]. intros z Hz ->%list_elem_of_singleton.
          apply not_true_iff_false in E. apply E, existsb_exists. exists y. split; [by apply list_elem_of_In|apply str_eqb_refl].
        * split; [done|]. intros x. rewrite Hi, elem_of_app, list_elem_of_singleton, elem_of_cons. naive_solver. }
  destruct (Hgen [] ltac:(constructor)) as [Hn Hi]. split; [done|]. intros x. rewrite Hi.
  split; [by intros [?%elem_of_nil|?]|by right].
Qed.

Lemma chosen_spec s o : chosen s o = true ↔ fo_value o ∈ s.
Proof.
  unfold chosen. rewrite existsb_exists. split.
  - by intros (x & Hx%list_elem_of_In & <-%str_eqb_eq).
  - intros Ho. exists (fo_value o). split; [by apply list_elem_of_In|apply str_eqb_refl].
Qed.

Lemma chosen_dec s o : chosen s o = bool_decide (fo_value o ∈ s).
Proof. apply eq_bool_prop_intro. rewrite !Is_true_true, bool_decide_eq_true. apply chosen_spec. Qed.

Lemma facet_select_in multiple fv v x :
  x ∈ default [] (DataTable.facet_select multiple fv v) ↔
  (if decide (x = v) then x ∉ default [] fv else multiple = true ∧ x ∈ default [] fv).
Proof.
  destruct (selected_spec fv) as [_ Hs]. unfold DataTable.facet_select.
  assert (Ha : existsb (str_eqb v) (DataTable.selected fv) = bool_decide (v ∈ default [] fv)).
  { change (chosen (DataTable.selected fv) {| fo_label := []; fo_value := v |} = bool_decide (v ∈ default [] fv)).
    rewrite chosen_dec. apply bool_decide_ext. apply Hs. }
  rewrite Ha.
  assert (Hd : ∀ l : list jsstr, default [] (match l with [] => None | _ => Some l end) = l) by by intros [].
  rewrite Hd. clear Hd Ha.
  destruct multiple, (bool_decide_reflect (v ∈ default [] fv)) as [Hv|Hv]; cbn.
  - rewrite list_elem_of_In, filter_In, <- list_elem_of_In, Hs, negb_true_iff, str_eqb_neq.
    destruct (decide (x = v)) as [->|]; naive_solver.
  - rewrite elem_of_app, Hs, list_elem_of_singleton. destruct (decide (x = v)) as [->|]; naive_solver.
  - destruct (decide (x = v)) as [->|]; rewrite elem_of_nil; naive_solver.
  - rewrite list_elem_of_singleton. destruct (decide (x = v)) as [->|]; naive_solver.
Qed.

(** ** Properties *)

(** The combobox shows the choice it is given.  Its list has an item per option, in their order and
    with their labels; when the value is that of an option the trigger has its label and its item
    alone is marked; when it is of none, the trigger has the placeholder and nothing is marked. *)
Theorem combobox_shows `{ClassLib, BaseUI} open options value arg :
  NoDup (op_value <$> options) →
  let c := Combobox open options value arg in
  let items := combobox_items c in
  (map item_label items = map (λ o, XStr (op_label o)) options) ∧
  ((∃ o i, options !! i = Some o ∧ op_value o = value ∧ trigger_label c = XStr (op_label o)
      ∧ (∀ j it, items !! j = Some it → item_checked it = bool_decide (j = i))) ∨
   (¬ (value ∈ op_value <$> options) ∧ trigger_label c = or_default (XStr "…") (getp "placeholder" arg)
      ∧ Forall (λ it, item_checked it = false) items)).
Proof.
  intros Hn c items. destruct (combobox_list open options value arg) as [Hi Ht].
  fold c in Hi, Ht. unfold items. rewrite Hi, Ht. split.
  { rewrite map_map. apply map_ext. intros o. apply combobox_item_shown. }
  unfold combobox_label. destruct (List.find (is_value value) options) as [o|] eqn:E.
  - left. apply find_some in E as [Ho Hv]. unfold is_value in Hv. apply str_eqb_eq in Hv.
    apply list_elem_of_In, list_elem_of_lookup in Ho as [i Ho]. exists o, i. split_and!; [done..|].
    intros j it (o' & -> & Hj)%list_lookup_fmap_Some. rewrite (proj2 (combobox_item_shown _ _ _)).
    unfold is_value. apply eq_bool_prop_intro. rewrite !Is_true_true, bool_decide_eq_true, str_eqb_eq. split.
    + intros Hv'. eapply (NoDup_lookup (op_value <$> options)); [done|..];
        apply list_lookup_fmap_Some; [exists o'|exists o]; by rewrite ?Hv, ?Hv'.
    + intros ->. by simplify_eq.
  - right. split_and!; [|done|].
    + intros (o & -> & Ho)%list_elem_of_fmap. apply list_elem_of_In, (find_none _ _ E) in Ho.
      unfold is_value in Ho. by rewrite str_eqb_refl in Ho.
    + apply Forall_forall. intros it (o & <- & Ho)%list_elem_of_In%in_map_iff.
      rewrite (proj2 (combobox_item_shown _ _ _)). by apply (find_none _ _ E).
Qed.

(** What the table library documents of its pages: the index is in range, there is a page before unless
    it is the first, and one after unless it is the last. *)
Definition pager_ok (p : pager) : Prop :=
  0 ≤ pg_count p ∧ 0 ≤ pg_index p ∧ (pg_index p < pg_count p ∨ pg_index p = 0) ∧
  pg_canPrevious p = (0 <? pg_index p) ∧ pg_canNext p = (pg_index p <? pg_count p - 1).

Definition move_buttons (v : val) : list val :=
  match val_at [Inner; Nth 1; Inner; Nth 1; Inner] v with XArr l => l | _ => [] end.

(** A button asks for what its properties say; reading them of a [Button] is reading its arguments. *)
Definition offered (v : val) : option bool :=
  match v with XEl _ o => match getp "disabled" o with XBool b => Some (negb b) | _ => None end | _ => None end.

(** The pagination: a button is offered exactly when its move leads to another page, and each page it
    leads to exists; the page shown is one of those counted, and none only without pages; and the
    number of rows has the singular for one. *)
Theorem pagination_moves `{ClassLib, BaseUI} sizes p arg :
  pager_ok p →
  let v := DataTablePagination sizes p arg in
  map offered (move_buttons v)
    = map (λ m, Some (bool_decide (0 ≤ page_target p m < pg_count p ∧ page_target p m ≠ pg_index p))) [First; Previous; Next; Last] ∧
  (if decide (pg_count p = 0) then shown_page p = 0 else 1 ≤ shown_page p ≤ pg_count p) ∧
  val_at [Inner; Nth 1; Inner; Nth 0; Inner; Nth 2] v = XInt (shown_page p).
Proof.
  intros (Hc & Hi & Hr & Hp & Hx) v. split_and!.
  - assert (Hb : map offered (move_buttons v) =
        [Some (pg_canPrevious p); Some (pg_canPrevious p); Some (pg_canNext p); Some (pg_canNext p)])
      by (unfold move_buttons, v, DataTablePagination; rewrite into_children by done; vm_compute; by destruct p as [? ? ? ? [] []]).
    rewrite Hb, Hp, Hx. cbn [map page_target].
    repeat f_equal; apply eq_bool_prop_intro; rewrite !Is_true_true, bool_decide_eq_true, Z.ltb_lt; lia.
  - unfold shown_page. destruct (decide (pg_count p = 0)) as [->|Hne]; [done|].
    rewrite (proj2 (Z.eqb_neq _ _)) by done. lia.
  - unfold v, DataTablePagination. by rewrite into_children.
Qed.

(** Choosing an option of a facet turns its mark, and leaves the others as they were when several may be
    chosen, without a mark otherwise; the filter is dropped exactly when nothing stays chosen, and with
    it the group that clears it. *)
Theorem facet_choice multiple fv o o' :
  let fv' := DataTable.facet_select multiple fv (fo_value o) in
  chosen (DataTable.selected fv') o' =
    (if decide (fo_value o' = fo_value o) then negb (chosen (DataTable.selected fv) o)
     else multiple && chosen (DataTable.selected fv) o') ∧
  (fv' = None ↔ DataTable.selected fv' = []).
Proof.
  intros fv'. split.
  - apply eq_bool_prop_intro. rewrite !Is_true_true, chosen_spec, (proj2 (selected_spec _)). unfold fv'.
    rewrite facet_select_in. destruct (decide (fo_value o' = fo_value o)) as [E|E].
    + rewrite negb_true_iff, <- not_true_iff_false, chosen_spec, (proj2 (selected_spec _)). by rewrite E.
    + rewrite andb_true_iff, chosen_spec, (proj2 (selected_spec _)). done.
  - split; [by intros ->|]. intros E. destruct fv' as [l|] eqn:Hf; [|done].
    destruct l as [|x l]; [|].
    + unfold fv', DataTable.facet_select in Hf. by repeat case_match.
    + assert (Hx : x ∈ DataTable.selected (Some (x :: l))) by (apply selected_spec; by left).
      rewrite E in Hx. by apply elem_of_nil in Hx.
Qed.
