(* ===== verification/Router.v ===== *)
(** * The router and the entry

    [src/web/src/router.tsx], [main.tsx] and [src/web/src/routes/*/index.tsx]: the pages, their
    addresses, the root they share and what the entry starts, with the calls by which pages lead to
    one another.  Matching an address and building one are the router library's: [RouterApi] states
    their documented behaviour, and the theorem joins it with the shell's reading of the address. *)
From Stdlib Require Import ZArith Lia List.
From stdpp Require Import base list sets gmap.
From S2P Require Import Prelude Host BasePath I18nPt I18n Admin Ui Types Api Shell ShellView JsonRead Jsx UiKit.
#[local] Open Scope Z_scope.

(** ** The pages *)

(** [createRoute]: a page by the address and the module loaded when it is first asked for. *)
Record Route := { rt_path : jsstr; rt_module : jsstr }.

Definition createRoute (path module : jsstr) : Route := {| rt_path := path; rt_module := module |}.

Definition indexRoute := createRoute "/" "routes/index/-components/page".
Definition tenantsRoute := createRoute "/tenants" "routes/tenants/-components/page".
Definition tenantDetailRoute := createRoute "/tenants/$id" "routes/tenant-detail/-components/page".
Definition definitionsRoute := createRoute "/resource-definitions" "routes/definitions/-components/page".
Definition definitionDetailRoute := createRoute "/resource-definitions/$id" "routes/definition-detail/-components/page".
Definition apiClientsRoute := createRoute "/api-clients" "routes/api-clients/-components/page".
Definition usageRoute := createRoute "/usage" "routes/usage/-components/page".
Definition auditEventsRoute := createRoute "/audit-events" "routes/audit-events/-components/page".
Definition sessionsRoute := createRoute "/security/sessions" "routes/sessions/-components/page".
Definition settingsRoute := createRoute "/operations/settings" "routes/settings/-components/page".
Definition integrationsRoute := createRoute "/integrations/webhooks" "routes/integrations/-components/page".
Definition operationsHealthRoute := createRoute "/operations/health" "routes/operations-health/-components/page".

Definition routeTree : list Route := [
  indexRoute; tenantsRoute; tenantDetailRoute; definitionsRoute; definitionDetailRoute; apiClientsRoute;
  usageRoute; auditEventsRoute; sessionsRoute; settingsRoute; integrationsRoute; operationsHealthRoute].

Definition paths : list jsstr := rt_path <$> routeTree.

(** [createAppRouter]: a base path that is given is taken as it is; the document is read only for
    one that is not, and a malformed one stops the program there. *)
Record router_options := {
  ro_basepath : jsstr;
  ro_pendingComponent : jsstr;
  ro_history : option val;          (* the browser's without one *)
  ro_pendingMinMs : Z;
  ro_pendingMs : Z;
  ro_routes : list Route;
}.

Definition createAppRouter (basepath : option jsstr) (history : option val) (meta : option jsstr)
    : result base_path_error router_options :=
  basepath' <-? match basepath with Some b => Ok b | None => readRuntimeBasePath meta end;;
  Ok {| ro_basepath := basepath'; ro_pendingComponent := "RoutePending"; ro_history := history; ro_pendingMinMs := 150; ro_pendingMs := 0; ro_routes := routeTree |}.

(** ** What the pages lead to *)

Record nav_call := { nc_to : jsstr; nc_params : list (jsstr * jsstr) }.

Definition open_tenant (id : jsstr) : nav_call := {| nc_to := "/tenants/$id"; nc_params := [("id" : jsstr, id)] |}.
Definition open_definition (id : jsstr) : nav_call := {| nc_to := "/resource-definitions/$id"; nc_params := [("id" : jsstr, id)] |}.
Definition back_to_tenants : nav_call := {| nc_to := "/tenants"; nc_params := [] |}.
Definition back_to_definitions : nav_call := {| nc_to := "/resource-definitions"; nc_params := [] |}.

(** ** The root and the entry *)

(** [RootLayout]: the language and the theme around the shell, and the toasts beside the shell, so
    that they outlive the pages it unmounts. *)
Definition RootLayout : val :=
  el (Own "I18nProvider") [] [
    el (Own "ThemeProvider") [] [
      el (Own "AppShell") [] [el (Ext "Outlet") [] []];
      el (Own "Toaster") [] []]].

(** [main.tsx] *)
Inductive boot_error := RootNotFound | BadBasePath (e : base_path_error).
Inductive boot_step := CreateQueryClient | ListenToCredentials | Render (v : val).

Definition app_tree : val :=
  el (Ext "StrictMode") [] [
    el (Ext "QueryClientProvider") [At "client" (XFn "queryClient" [])] [
      el (Ext "RouterProvider") [At "router" (XFn "router" [])] []]].

(** The router is made when its module is loaded, before the entry looks for its element. *)
Definition main (meta : option jsstr) (root : bool) : result boot_error (router_options * list boot_step) :=
  match createAppRouter None None meta with
  | Err e => Err (BadBasePath e)
  | Ok router =>
    if negb root then Err RootNotFound
    else Ok (router, [CreateQueryClient; ListenToCredentials; Render app_tree])
  end.

(** ** The router library

    TanStack Router, with the defaults [createAppRouter] leaves it: segments are compared without
    regard to case, slashes at the end of an address are dropped, and a parameter takes one segment
    that is not empty and that it can decode. *)

(** The segments of an address, without a slash at its end; [None] for one that does not start with
    a slash or that holds two in a row, of which nothing is assumed. *)
Fixpoint drop_slash (ss : list jsstr) : list jsstr :=
  match ss with
  | [] => []
  | [s] => if truthy s then [s] else []
  | s :: ss => s :: drop_slash ss
  end.

Definition segments (path : jsstr) : option (list jsstr) :=
  match split 47 path with
  | [] :: ss => if forallb truthy (drop_slash ss) then Some (drop_slash ss) else None
  | _ => None
  end.

Definition pattern (path : jsstr) : list jsstr := default [] (segments path).

(** The parameters a pattern takes from a path, segment by segment. *)
Fixpoint fit `{CaseMap} (decode : jsstr → option jsstr) (pattern segments : list jsstr) : option (list (jsstr * jsstr)) :=
  match pattern, segments with
  | [], [] => Some []
  | p :: ps, s :: ss =>
    match p with
    | 36 :: name => v ← decode s; cons (name, v) <$> fit decode ps ss
    | _ => if str_eqb (toLowerCase p) (toLowerCase s) then fit decode ps ss else None
    end
  | _, _ => None
  end.

(** The path of a pattern, its parameters written in; [None] when one is missing or cannot be. *)
Fixpoint fill_in (encode : jsstr → option jsstr) (params : list (jsstr * jsstr)) (pattern : list jsstr) : option (list jsstr) :=
  match pattern with
  | [] => Some []
  | p :: ps =>
    match (match p with 36 :: name => prop_get name params ≫= encode | _ => Some p end), fill_in encode params ps with
    | Some s, Some ss => Some (s :: ss)
    | _, _ => None
    end
  end.

(** [matchRoutes] is the page shown at an address (without the base path), [None] being what the
    router shows when it finds none; [encodeParam] is how a parameter stands in that address, [None]
    when it cannot be a segment of its own: half a surrogate pair, or the dots that stand for a
    directory; [decodeParam] is [None] on a malformed escape. *)
Class RouterApi `{CaseMap} := {
  matchRoutes : list jsstr → jsstr → option (jsstr * list (jsstr * jsstr));
  buildLocation : nav_call → jsstr;
  encodeParam : jsstr → option jsstr;
  decodeParam : jsstr → option jsstr;
  (** A written parameter is one segment, not empty, and reads back. *)
  encode_decode v s : encodeParam v = Some s → v ≠ [] → decodeParam s = Some v ∧ s ≠ [] ∧ 47 ∉ s;
  (** A path only one of the patterns fits goes to it; one no pattern fits goes nowhere. *)
  match_only ps path ss p params :
    segments path = Some ss → p ∈ ps → fit decodeParam (pattern p) ss = Some params →
    (∀ q, q ∈ ps → fit decodeParam (pattern q) ss ≠ None → q = p) →
    matchRoutes ps path = Some (p, params);
  match_nowhere ps path ss :
    segments path = Some ss → Forall (λ q, fit decodeParam (pattern q) ss = None) ps → matchRoutes ps path = None;
  build_fills c ss :
    fill_in encodeParam (nc_params c) (split 47 (nc_to c)) = Some ss → buildLocation c = join "/" ss;
}.

(** ** Lemmas *)

(** What must hold of a pattern that fits, and can be computed on the segments that are known. *)
Definition may_be (p s : jsstr) : bool :=
  match p with
  | 36 :: _ => true
  | _ => negb (forallb is_ascii p && forallb is_ascii s) || str_eqb (map ascii_lower p) (map ascii_lower s)
  end.

Fixpoint may_fit (pattern segments : list jsstr) : bool :=
  match pattern, segments with
  | [], [] => true
  | p :: ps, s :: ss => may_be p s && may_fit ps ss
  | _, _ => false
  end.

Definition candidates (ss : list jsstr) : list jsstr := List.filter (λ q, may_fit (pattern q) ss) paths.

Section matching.
Context `{CaseMap}.

Lemma same_may_be p s : toLowerCase p = toLowerCase s → may_be p s = true.
Proof.
  intros E. unfold may_be. assert (Hs : negb (forallb is_ascii p && forallb is_ascii s) || str_eqb (map ascii_lower p) (map ascii_lower s) = true).
  { destruct (forallb is_ascii p) eqn:Ep; [|done]. destruct (forallb is_ascii s) eqn:Es; [|done]. cbn.
    rewrite <- !toLowerCase_ascii by done. rewrite E. apply str_eqb_refl. }
  destruct p as [|c p]; [done|]. by repeat case_match.
Qed.

(** Segments that differ in case only, or not at all. *)
Definition alike (ss ss' : list jsstr) : Prop := toLowerCase <$> ss = toLowerCase <$> ss'.

Lemma fit_may_fit d ps ss ss' : alike ss ss' → fit d ps ss ≠ None → may_fit ps ss' = true.
Proof.
  revert ss ss'. induction ps as [|p ps IH]; intros [|s ss] [|s' ss'] Ha; try done. injection Ha as Hs Ha.
  intros Hn. cbn [may_fit]. apply andb_true_iff.
  assert (Hc : (may_be p s' = true ∧ fit d ps ss ≠ None)); [|destruct Hc; eauto].
  assert (Hp : (if str_eqb (toLowerCase p) (toLowerCase s) then fit d ps ss else None) ≠ None → may_be p s' = true ∧ fit d ps ss ≠ None).
  { destruct (str_eqb (toLowerCase p) (toLowerCase s)) eqn:E; [|done]. apply str_eqb_eq in E. eauto using same_may_be, eq_trans. }
  cbn [fit] in Hn. destruct p as [|c p]; [by apply Hp|].
  destruct (decide (c = 36)) as [->|Hc].
  - split; [done|]. intros E. apply Hn. rewrite E. by destruct (d s).
  - apply Hp. repeat case_match; try done; congruence.
Qed.

(** A pattern without parameters fits itself, in whatever case. *)
Lemma fit_alike d ps ss : Forall (λ p, hd 0 p ≠ 36) ps → alike ss ps → fit d ps ss = Some [].
Proof.
  intros Hps. revert ss. induction Hps as [|p ps Hp _ IH]; intros [|s ss] Ha; try done. injection Ha as Hs Ha.
  cbn [fit]. rewrite Hs, str_eqb_refl, (IH _ Ha). destruct p as [|c p]; [done|]. cbn in Hp. by repeat case_match.
Qed.

Lemma fit_detail d (base id seg : jsstr) :
  base = "tenants" ∨ base = "resource-definitions" → d seg = Some id →
  fit d [base; "$id"] [base; seg] = Some [("id" : jsstr, id)].
Proof. intros [-> | ->] Hd; cbn [fit]; rewrite str_eqb_refl; cbn; by rewrite Hd. Qed.
End matching.

Lemma lands_on `{RouterApi} path ss ss' p params :
  segments path = Some ss → alike ss ss' → candidates ss' = [p] → fit decodeParam (pattern p) ss = Some params →
  matchRoutes paths path = Some (p, params).
Proof.
  intros Hs Ha Hf Hp.
  assert (Hin : ∀ q, q ∈ paths ∧ may_fit (pattern q) ss' = true ↔ q = p).
  { intros q. rewrite list_elem_of_In, <- (filter_In (λ q, may_fit (pattern q) ss')). unfold candidates in Hf.
    rewrite Hf. cbn. split; [intros [->|[]]; done|intros ->; by left]. }
  apply (match_only _ _ ss); [done|by apply Hin|done|].
  intros q Hq Hn. apply Hin. eauto using fit_may_fit.
Qed.

Lemma lands_nowhere `{RouterApi} path ss :
  segments path = Some ss → candidates ss = [] → matchRoutes paths path = None.
Proof.
  intros Hs Hf. apply (match_nowhere _ _ ss); [done|]. apply Forall_forall. intros q Hq.
  destruct (fit decodeParam (pattern q) ss) eqn:E; [|done].
  assert (Hm : In q (candidates ss)) by (apply filter_In; split; [by apply list_elem_of_In|apply (fit_may_fit decodeParam _ ss); [done|by rewrite E]]).
  by rewrite Hf in Hm.
Qed.

Lemma list_lands `{RouterApi} (base : jsstr) path ss :
  base = "tenants" ∨ base = "resource-definitions" →
  segments path = Some ss → alike ss [base] → matchRoutes paths path = Some ("/" ++ base, []).
Proof.
  intros Hb Hs Ha. apply (lands_on _ ss [base]); [done|done|by destruct Hb as [-> | ->]|].
  destruct Hb as [-> | ->]; (apply fit_alike; [apply (bool_decide_unpack _); vm_compute; reflexivity|done]).
Qed.

Lemma back_lands `{RouterApi} (base : jsstr) :
  base = "tenants" ∨ base = "resource-definitions" →
  matchRoutes paths (buildLocation {| nc_to := "/" ++ base; nc_params := [] |}) = Some ("/" ++ base, []).
Proof.
  intros Hb. rewrite (build_fills _ [[]; base]) by by destruct Hb as [-> | ->].
  apply (list_lands _ _ [base]); [done| |done]. by destruct Hb as [-> | ->].
Qed.

Lemma detail_lands `{RouterApi} (base : jsstr) id seg :
  base = "tenants" ∨ base = "resource-definitions" →
  id ≠ [] → encodeParam id = Some seg →
  let c := {| nc_to := "/" ++ base ++ "/$id"; nc_params := [("id" : jsstr, id)] |} in
  buildLocation c = ("/" ++ base ++ "/") ++ seg ∧
  matchRoutes paths (buildLocation c) = Some (nc_to c, [("id" : jsstr, id)]).
Proof.
  intros Hb Hid He c. destruct (encode_decode id seg He Hid) as (Hd & Hne & Hs).
  assert (Hn : 47 ∉ base) by (by destruct Hb as [-> | ->]; vm_compute; intros Hx; repeat (apply elem_of_cons in Hx as [Hx|Hx]; [done|]); apply elem_of_nil in Hx).
  assert (Hbl : buildLocation c = join "/" [[]; base; seg]).
  { apply build_fills. unfold c. cbn [nc_to nc_params].
    assert (split 47 ("/" ++ base ++ "/$id") = [[]; base; "$id"]) as -> by (by destruct Hb as [-> | ->]).
    unfold fill_in, prop_get. destruct Hb as [-> | ->]; cbn; rewrite str_eqb_refl; cbn; by rewrite He. }
  assert (Hsp : segments (buildLocation c) = Some [base; seg]).
  { unfold segments. rewrite Hbl, split_join; [|done|repeat constructor; [apply not_elem_of_nil|done..]].
    cbn. destruct seg; [done|]. by destruct Hb as [-> | ->]. }
  split; [rewrite Hbl; unfold join; cbn [join app]; by rewrite <- !app_assoc|].
  apply (lands_on _ [base; seg] [base; seg]); [done|done|by destruct Hb as [-> | ->]|].
  rewrite <- (fit_detail decodeParam base id seg Hb Hd). by destruct Hb as [-> | ->].
Qed.

(** The entries marked on a path, and what the header says of it. *)
Definition marked (pathname : jsstr) : list jsstr := nav_to <$> List.filter (nav_active pathname) (nav_items NAV_GROUPS).

(** ** Properties *)

(** C5. The pages, their addresses and the shell agree.  The address of an entry of the menu, in
    whatever case and with or without a slash at its end, is the address of one page; the shell
    titles and describes the address as the menu writes it, and marks there that entry alone.
    Opening a tenant or a definition leads to its page with the very identifier, whenever that can
    be written as a segment of an address, marks the entry of the list it came from, and leaves the
    heading to the page; the way back from either leads to the list; and no other page is
    declared. *)
Theorem router_pages `{RouterApi} l :
  (∀ i, i ∈ nav_items NAV_GROUPS →
     (∀ path ss, segments path = Some ss → alike ss (pattern (nav_to i)) → matchRoutes paths path = Some (nav_to i, [])) ∧
     segments (nav_to i) = Some (pattern (nav_to i)) ∧ marked (nav_to i) = [nav_to i] ∧
     pageLabel (nav_to i) (t l) ≠ [] ∧ pageDescription (nav_to i) (t l) ≠ [] ∧ pageHasOwnHeading (nav_to i) = false) ∧
  (∀ open back id seg, (open, back) ∈ [(open_tenant, back_to_tenants); (open_definition, back_to_definitions)] →
     id ≠ [] → encodeParam id = Some seg →
     let path := buildLocation (open id) in
     matchRoutes paths path = Some (nc_to (open id), [("id" : jsstr, id)]) ∧
     matchRoutes paths (buildLocation back) = Some (nc_to back, []) ∧
     marked path = [nc_to back] ∧ pageHasOwnHeading path = true ∧
     pageLabel path (t l) ≠ [] ∧ pageDescription path (t l) = []) ∧
  (∀ r, r ∈ routeTree → rt_path r ∈ nav_to <$> nav_items NAV_GROUPS ∨ rt_path r ∈ [nc_to (open_tenant []); nc_to (open_definition [])]).
Proof.
  split_and!.
  - intros i Hi.
    assert (Hall : Forall (λ i, (candidates (pattern (nav_to i)) = [nav_to i] ∧ Forall (λ p, hd 0 p ≠ 36) (pattern (nav_to i))) ∧
      segments (nav_to i) = Some (pattern (nav_to i)) ∧
      marked (nav_to i) = [nav_to i] ∧ pageLabel (nav_to i) (t l) ≠ [] ∧ pageDescription (nav_to i) (t l) ≠ [] ∧
      pageHasOwnHeading (nav_to i) = false) (nav_items NAV_GROUPS)).
    { apply (bool_decide_unpack _). destruct l; vm_compute; reflexivity. }
    rewrite Forall_forall in Hall. destruct (Hall i Hi) as ([Hf Hp] & Hrest).
    split; [|done]. intros path ss Hs Ha. apply (lands_on _ ss (pattern (nav_to i))); eauto using fit_alike.
  - intros open back id seg Hob Hid He path.
    assert (Hb : ∃ base : jsstr, (base = "tenants" ∨ base = "resource-definitions") ∧
      open id = {| nc_to := "/" ++ base ++ "/$id"; nc_params := [("id" : jsstr, id)] |} ∧
      back = {| nc_to := "/" ++ base; nc_params := [] |}).
    { apply elem_of_cons in Hob as [[= -> ->]|[[= -> ->]|[]%elem_of_nil]%elem_of_cons]; eauto 10. }
    destruct Hb as (base & Hb & Ho & ->).
    destruct (detail_lands base id seg Hb Hid He) as [Hbl Hm]. rewrite <- Ho in Hbl, Hm. fold path in Hbl, Hm.
    split; [done|]. split; [by apply back_lands|]. rewrite Hbl.
    destruct Hb as [-> | ->]; split_and!; by destruct l; vm_compute.
  - intros r Hr. assert (Hall : Forall (λ r, rt_path r ∈ nav_to <$> nav_items NAV_GROUPS ∨
      rt_path r ∈ [nc_to (open_tenant []); nc_to (open_definition [])]) routeTree)
      by (apply (bool_decide_unpack _); by vm_compute).
    rewrite Forall_forall in Hall. by apply Hall.
Qed.

(** The shell reads the address as it is written, the router does not: an address typed in another
    case opens the list under a heading without text and with no entry marked, and one with a slash
    at its end opens it under the header of a single tenant, which is no heading. *)
Theorem shell_reads_strictly `{RouterApi} l :
  matchRoutes paths "/TENANTS" = Some ("/tenants" : jsstr, []) ∧
  marked "/TENANTS" = [] ∧ page_header l "/TENANTS" = {| hd_is_heading := true; hd_label := []; hd_description := None |} ∧
  matchRoutes paths "/tenants/" = Some ("/tenants" : jsstr, []) ∧ marked "/tenants/" = ["/tenants" : jsstr] ∧
  hd_is_heading (page_header l "/tenants/") = false ∧ hd_is_heading (page_header l "/tenants") = true.
Proof.
  split_and!; try by destruct l.
  - apply (list_lands "tenants" _ ["TENANTS" : jsstr]); [by left|done|]. unfold alike. cbn. by rewrite !toLowerCase_ascii.
  - apply (list_lands "tenants" _ ["tenants" : jsstr]); [by left|done..].
Qed.

(** The program starts exactly when the base path of the document is well formed and the page has
    its root element; a malformed base path stops it first. *)
Theorem main_starts meta root :
  (∃ b, readRuntimeBasePath meta = Ok b ∧ root = true ∧
    ∃ o, main meta root = Ok (o, [CreateQueryClient; ListenToCredentials; Render app_tree]) ∧
         ro_basepath o = b ∧ ro_routes o = routeTree) ∨
  (∃ b, readRuntimeBasePath meta = Ok b ∧ root = false ∧ main meta root = Err RootNotFound) ∨
  (∃ e, readRuntimeBasePath meta = Err e ∧ main meta root = Err (BadBasePath e)).
Proof.
  unfold main, createAppRouter. destruct (readRuntimeBasePath meta) as [b|e]; [|eauto 10].
  destruct root; [left|right; left]; naive_solver.
Qed.

(** ** Examples *)

(** An address that only begins like a page's is titled as that page, whose entry is marked,
    around the page the router shows for what it does not find. *)
Theorem unmatched_titled `{RouterApi} l :
  matchRoutes paths "/usage-2024" = None ∧ marked "/usage-2024" = ["/usage" : jsstr] ∧
  pageLabel "/usage-2024" (t l) = pageLabel "/usage" (t l).
Proof.
  split_and!; [by eapply lands_nowhere|by destruct l..].
Qed.

(** A router that takes the first pattern that fits, and writes parameters that hold no slash as
    they are. *)
Definition demo_encode (v : jsstr) : option jsstr := if decide (47 ∈ v) then None else Some v.
Definition demo_match (ps : list jsstr) (path : jsstr) : option (jsstr * list (jsstr * jsstr)) :=
  ss ← segments path;
  p ← List.find (λ q, bool_decide (fit Some (pattern q) ss ≠ None)) ps;
  pair p <$> fit Some (pattern p) ss.
Definition demo_build (c : nav_call) : jsstr :=
  default [] (join "/" <$> fill_in demo_encode (nc_params c) (split 47 (nc_to c))).

#[local] Instance demo_router : RouterApi.
Proof.
  refine {| matchRoutes := demo_match; buildLocation := demo_build; encodeParam := demo_encode; decodeParam := Some |}.
  - unfold demo_encode. intros v s. destruct (decide (47 ∈ v)) as [?|Hn]; [done|]. by intros [= <-] Hv.
  - intros ps path ss p params Hs Hp Hf Hu. unfold demo_match. rewrite Hs. cbn.
    destruct (List.find _ ps) as [q|] eqn:E.
    + apply find_some in E as [Hq Hn%bool_decide_eq_true]. apply list_elem_of_In in Hq.
      rewrite (Hu q Hq Hn). cbn. by rewrite Hf.
    + apply list_elem_of_In in Hp. apply (find_none _ _ E) in Hp. apply bool_decide_eq_false in Hp. destruct Hp. by rewrite Hf.
  - intros ps path ss Hs Hn. unfold demo_match. rewrite Hs. cbn. destruct (List.find _ ps) as [q|] eqn:E; [|done].
    apply find_some in E as [Hq Hf%bool_decide_eq_true]. apply list_elem_of_In in Hq.
    rewrite Forall_forall in Hn. by rewrite (Hn q Hq) in Hf.
  - intros c ss Hs. unfold demo_build. by rewrite Hs.
Defined.

Lemma router_pages_witness :
  let path := buildLocation (open_tenant "t-1") in
  path = "/tenants/t-1" ∧ matchRoutes paths path = Some ("/tenants/$id" : jsstr, [("id" : jsstr, "t-1" : jsstr)]) ∧
  marked path = ["/tenants" : jsstr] ∧ matchRoutes paths "/Usage/" = Some ("/usage" : jsstr, []).
Proof.
  intros path. split; [reflexivity|].
  destruct (router_pages en_US) as (H0 & H & _).
  destruct (H open_tenant back_to_tenants "t-1" "t-1") as (H1 & _ & H2 & _); [by left|done|reflexivity|].
  split_and!; [done|done|].
  destruct (H0 (nav_item "nav.usage" admin_read "/usage")) as [H3 _]; [do 4 right; left|].
  by apply (H3 "/Usage/" ["Usage" : jsstr]).
Defined.
